(* ===== verification/_CoqProject ===== *)
-Q . S2P
Prelude.v
Mem.v
CString.v
State.v
Spinlock.v
Ktrace.v
Kalloc.v
Vm.v
Uvm.v
UvmCopy.v
UvmShrink.v
TraceRead.v
Sched.v
Sleeplock.v
Bio.v
Bcache.v
Block.v
Log.v
Recovery.v
Txn.v
LogOps.v
Umem.v
Inode.v
Console.v
Fs.v
File.v
Proc.v
Ide.v
Exec.v
Syscall.v
Trap.v
Path.v
LineEdit.v
Video.v
Ulib.v
PipeFifo.v
ArgCheck.v
Bitmap.v
FileMap.v
InodeDisk.v
FileData.v
FileRead.v
Grep.v
Dashboard.v
DashboardSpec.v
Sh.v
ShParse.v
ShGrammar.v
ShRun.v
Umalloc.v
Mkfs.v
MkfsImage.v
UserProgs.v
TestProgs.v
Mp.v
Boot.v
Lapic.v
Early.v
Segments.v
Start.v
StartBoot.v
StartUser.v
StartFirst.v
