(* ===== verification/Prelude.v ===== *)
(** * A verification library for xv6-64 with live kernel tracing

    The program is the xv6 teaching kernel on x86-64 with an event ring in the kernel, system
    calls to read it and to draw on the text screen, and a user program, trace, that shows the
    events on a dashboard; with them come the user library, the shell, the utilities, the
    boot loader and the program that makes the file system image (all under src/).

    ** Method

    A C integer is a [Z] with its wrap-around written out (u8, u16, u32, u64, s32).  Memory
    is a finite map from addresses to bytes.  The kernel's global variables are one record,
    [kernel] of State.v, and a C function of the kernel is a command of the monad [K], which
    ends in [Ok] with a value, in [Panic], in [Fault] (an access the hardware refuses or C
    leaves undefined), in [Hang] (a spin lock that is never released), in [Switched] with the
    rest of the call (the process gave up the CPU; what others do meanwhile is an arbitrary
    change of the state), or in [NoFuel].  User programs are functions on the
    results of their system calls: pure functions with [option] for undefined behaviour,
    lists of effects (Dashboard.v), programs with continuations (Sh.v), or interaction trees
    (UserProgs.v, TestProgs.v).  What is not in the source is a parameter: the disk driver behind the
    class [DiskDriver] with its contract [DiskOk], discharged for the memory disk; the
    addresses the linker chooses (the class [Image]); what the hardware reports while the
    kernel starts (the class [Machine]); what devices, wait and sbrk return.

    ** The kernel

    - Mem.v, CString.v: string.c, and the copies of its routines in ulib.c.
    - State.v: the structures of proc.h, file.h, buf.h, fs.h, spinlock.h, trace.h, and the
      constants of param.h.
    - Spinlock.v: spinlock.c.  Sched.v, Proc.v: proc.c (sleep, wakeup, sched; fork, exit,
      wait, scheduler).  Sleeplock.v: sleeplock.c.  sleep releases its lock and switches in
      one step (C15), wakeup changes exactly the sleepers of the channel (C16), sleep locks
      exclude each other and no wakeup is lost (C17, C18).
    - Ktrace.v, TraceRead.v: ktrace.c.  The ring, with counters that wrap, refines a bounded
      queue that forgets its oldest event (C1, C2); traceread delivers the events in order,
      each once (C12, C13), and loses an event that it cannot copy (C14).
    - Kalloc.v: kalloc.c.  The free list holds every page of the range once, and any history
      of kalloc and kfree partitions them (C4).
    - Vm.v, Uvm.v, UvmCopy.v, UvmShrink.v: vm.c.  What each routine does to the mapping the
      MMU sees and to the ownership of pages (C6 to C11).  Umem.v: accesses to user memory.
    - Bio.v, Bcache.v: bio.c and memide.c.  The cache is coherent over any history (C20).
    - Block.v, Log.v, Recovery.v, Txn.v, LogOps.v: log.c.  A crash at any write leaves the old
      or the new contents (C21); reservations bound the log, which overflows when an operation
      logs more than its share (C22, C23).
    - Inode.v, Fs.v, File.v: fs.c, file.c, pipe.c.  Bitmap.v, FileMap.v, InodeDisk.v,
      FileData.v, FileRead.v, Path.v, PipeFifo.v: the bitmap is a set (C31, C32), a file is an
      array of bytes (C33, C34), a path is its elements (C24), a pipe is a bounded queue (C29).
    - Console.v, LineEdit.v, Video.v: console.c, uart.c, kbd.c, ioapic.c.  The line discipline
      refines a terminal (C25), the writers of the screen stay on it (C26, C27).
    - Ide.v, Exec.v, Syscall.v, Trap.v: ide.c, exec.c, syscall.c, sysproc.c, sysfile.c, trap.c.
      ArgCheck.v: what the pointer checks of system calls let pass (C30).
    - Mp.v, Lapic.v: mp.c and lapic.c.  mpinit uses only a table whose checksums hold, ends on
      any memory, never overruns cpus, and depends on the first megabyte only; a processor
      finds its index; the clock is decoded.
    - Boot.v: bootmain.c.  A kernel is loaded as its multiboot header says.
    - Segments.v: seginit and syscallinit of vm.c, with the descriptors of mmu.h and the
      register loads of x86.h.  Decoded as the processor does, each selector and each gate
      means what the kernel takes it for.
    - Start.v: main.c, and panic of console.c.  Early.v is the state in which neither the
      allocator nor the console takes its lock, StartBoot.v runs main up to userinit, and
      StartUser.v runs userinit: from the loaded image main reaches the scheduler, with
      every page accounted for and the first process ready to run initcode (C3).
      StartFirst.v goes on with the first switch and forkret: the process runs with the last
      committed transaction of the disk installed and the file system ready (C19).  What the
      firmware, the linker and the other processors are relied on for is the record
      [platform], and a machine with two processors satisfies it.

    ** The programs

    - Ulib.v: printf.c and gets of ulib.c; numbers survive printing and reading (C28).
    - Umalloc.v: umalloc.c; blocks in use and free blocks never overlap (C40).
    - Grep.v: grep.c; the matcher decides a declarative semantics (C35), the line loop writes
      the matching lines when each read ends a line (C36).
    - Dashboard.v, DashboardSpec.v: trace.c refines its specification (C37).
    - Sh.v, ShParse.v, ShGrammar.v, ShRun.v: sh.c; the parser inverts the grammar (C38), and
      programs get the descriptors their command line gives them (C39).
    - UserProgs.v: cat.c, wc.c, echo.c, kill.c, ln.c, mkdir.c, rm.c, ls.c, init.c and the main
      of grep.c; cat concatenates and wc counts however the reads cut the files, grep writes
      what Grep.v computes, rm and mkdir stop at the first failure.
    - TestProgs.v: forktest.c, stressfs.c, memtest.c, proctest.c, syscalltest.c, traptest.c,
      zombie.c; what forktest reports for any size of the process table.
    - Mkfs.v, MkfsImage.v: mkfs.c; the image holds the files it was given, as the kernel's
      own definitions read them (C5).

    ** Bounds and fuel

    Loops that are not structural have fuel, and the theorems give an amount that is enough,
    or hold for any amount: [patience] bounds how often a sleeper may be woken in vain, and
    the theorems about it hold for each bound; the loops of the log have the size of the log,
    the parser of the shell the length of the line, the table of mpinit its length, and
    bootmain any fuel that covers the sectors of the kernel.  Interaction trees need none.

    ** Not modelled

    - The assembly (bootasm.S, entry.S, entryother.S, initcode.S, swtch.S, trapasm.S, usys.S)
      and the generator vectors.pl: there is no model of instructions.  Addresses of assembly
      code appear as values in gates, contexts and registers.
    - Two processors at once: the model follows one CPU between switches; others appear as
      changes of the state at switches, and as locks that are held.  While the kernel starts
      the boot processor waits for each of the others, so that they run one after the other.
    - The polling of the disk controllers for readiness (idewait, waitdisk), which is assumed
      to end, and the call stacks recorded in spin locks.
    - Headers that only declare (defs.h, user.h, types.h, asm.h). *)

From Stdlib Require Export ZArith Lia.
From stdpp Require Export base numbers strings gmap list.

#[global] Open Scope Z_scope.

(** ** Machine integers

    A [w]-bit C integer is a [Z]; the wrap-around of an assignment, a cast or an
    unsigned operation is written out with the functions below. *)

Definition u8 (x : Z) : Z := x `mod` 2 ^ 8.
Definition u16 (x : Z) : Z := x `mod` 2 ^ 16.
Definition u32 (x : Z) : Z := x `mod` 2 ^ 32.
Definition u64 (x : Z) : Z := x `mod` 2 ^ 64.

(** The value of [x] stored in a signed [n]-bit object (two's complement). *)
Definition sint (n : Z) (x : Z) : Z := (x + 2 ^ (n - 1)) `mod` 2 ^ n - 2 ^ (n - 1).
Definition s8 (x : Z) : Z := sint 8 x.
Definition s16 (x : Z) : Z := sint 16 x.
Definition s32 (x : Z) : Z := sint 32 x.
Definition s64 (x : Z) : Z := sint 64 x.

Definition in_u8 (x : Z) : Prop := 0 <= x < 2 ^ 8.
Definition in_u32 (x : Z) : Prop := 0 <= x < 2 ^ 32.
Definition in_u64 (x : Z) : Prop := 0 <= x < 2 ^ 64.
Definition in_s32 (x : Z) : Prop := - 2 ^ 31 <= x < 2 ^ 31.

(** C truth values: [z != 0] and the [int] of a comparison. *)
Definition truth (z : Z) : bool := negb (z =? 0).
Definition c_int (b : bool) : Z := if b then 1 else 0.

Create HintDb mach discriminated.
#[export] Hint Unfold u8 u16 u32 u64 s8 s16 s32 s64 sint in_u8 in_u32 in_u64 in_s32 : mach.

(** Unfolds the wrap-arounds, evaluates the constant powers of two and calls
    [lia] with the division equations. *)
Ltac pow2_const :=
  repeat match goal with
  | H : context [2 ^ ?n] |- _ =>
      let v := eval vm_compute in (2 ^ n) in progress change (2 ^ n) with v in H
  | |- context [2 ^ ?n] =>
      let v := eval vm_compute in (2 ^ n) in progress change (2 ^ n) with v
  end.
Ltac mach :=
  autounfold with mach in *; pow2_const; Z.to_euclidean_division_equations; lia.

Lemma u32_range x : 0 <= u32 x < 2 ^ 32.
Proof. apply Z.mod_pos_bound. lia. Qed.

Lemma u64_range x : 0 <= u64 x < 2 ^ 64.
Proof. apply Z.mod_pos_bound. lia. Qed.

Lemma u8_range x : 0 <= u8 x < 2 ^ 8.
Proof. apply Z.mod_pos_bound. lia. Qed.

Lemma s32_range x : in_s32 (s32 x).
Proof. mach. Qed.

Lemma u32_small x : in_u32 x -> u32 x = x.
Proof. apply Z.mod_small. Qed.

Lemma u64_small x : in_u64 x -> u64 x = x.
Proof. apply Z.mod_small. Qed.

Lemma s32_small x : in_s32 x -> s32 x = x.
Proof. mach. Qed.

Lemma u32_u32 x : u32 (u32 x) = u32 x.
Proof. apply Zmod_mod. Qed.

(** A power of two below [2^32] divides the modulus: the residue of a ring index
    survives the wrap-around of its 32-bit counter. *)
Lemma u32_mod_divide x n : (n | 2 ^ 32) -> u32 x `mod` n = x `mod` n.
Proof. apply Z.mod_mod_divide. Qed.

(** Unsigned subtraction of a wrapped sum recovers a small summand. *)
Lemma u32_add_sub x d : in_u32 x -> in_u32 d -> u32 (u32 (x + d) - x) = d.
Proof. mach. Qed.

#[export] Hint Resolve u32_range u64_range u8_range : mach.

(** ** Outcomes and the effect monad

    A C function that works on a state of type [S] is [S -> outcome S A]:
    - [Ok a s]: it returns [a] and leaves the state [s];
    - [Panic msg s]: it called [panic(msg)], which prints and halts;
    - [Fault s]: undefined behaviour (a null or out-of-range dereference);
    - [Hang s]: it never returns: it busy-waits on a lock that another CPU holds,
      or it halts the processor;
    - [Switched s r]: it gave up the CPU inside [sched()]; [r] is the rest of the
      call, run in the state found when the scheduler switches back to it;
    - [NoFuel]: the model's bound on the iterations of an unbounded loop ran out. *)
Inductive outcome (S A : Type) : Type :=
| Ok (a : A) (s : S)
| Panic (msg : string) (s : S)
| Fault (s : S)
| Hang (s : S)
| Switched (s : S) (resume : S -> outcome S A)
| NoFuel.
Arguments Ok {S A} a s.
Arguments Panic {S A} msg s.
Arguments Fault {S A} s.
Arguments Hang {S A} s.
Arguments Switched {S A} s resume.
Arguments NoFuel {S A}.

Definition M (S A : Type) : Type := S -> outcome S A.

Section Monad.
  Context {S : Type}.

Definition ret {A} (a : A) : M S A := fun s => Ok a s.

Fixpoint obind {A B} (o : outcome S A) (f : A -> M S B) : outcome S B :=
  match o with
  | Ok a s => f a s
  | Panic msg s => Panic msg s
  | Fault s => Fault s
  | Hang s => Hang s
  | Switched s r => Switched s (fun s' => obind (r s') f)
  | NoFuel => NoFuel
  end.

Definition bind {A B} (c : M S A) (f : A -> M S B) : M S B := fun s => obind (c s) f.

Definition gets {A} (f : S -> A) : M S A := fun s => Ok (f s) s.
Definition modify (f : S -> S) : M S unit := fun s => Ok tt (f s).
Definition panic {A} (msg : string) : M S A := fun s => Panic msg s.
Definition fault {A} : M S A := fun s => Fault s.
Definition nofuel {A} : M S A := fun _ => NoFuel.

Definition when (b : bool) (c : M S unit) : M S unit := if b then c else ret tt.

(** The value of a computation that has undefined behaviour when it is [None]. *)
Definition of_option {A} (o : option A) : M S A :=
  match o with Some a => ret a | None => fault end.

(** [for(x in xs) body(x);] *)
Fixpoint for_each {X} (xs : list X) (body : X -> M S unit) : M S unit :=
  match xs with
  | [] => ret tt
  | x :: xs' => bind (body x) (fun _ => for_each xs' body)
  end.

(** [for(x in xs) if (body(x) returns r) return r;]: a loop left by [return] or
    [break] with a value. *)
Fixpoint for_until {X R} (xs : list X) (body : X -> M S (option R)) : M S (option R) :=
  match xs with
  | [] => ret None
  | x :: xs' =>
      bind (body x) (fun r =>
        match r with
        | Some v => ret (Some v)
        | None => for_until xs' body
        end)
  end.

Lemma obind_ok {A B} (c : M S A) (f : A -> M S B) s a s' :
  c s = Ok a s' -> bind c f s = f a s'.
Proof. unfold bind. by intros ->. Qed.

Lemma obind_panic {A B} (c : M S A) (f : A -> M S B) s msg s' :
  c s = Panic msg s' -> bind c f s = Panic msg s'.
Proof. unfold bind. by intros ->. Qed.

Lemma obind_inv_ok {A B} (c : M S A) (f : A -> M S B) s b s' :
  bind c f s = Ok b s' -> exists a s1, c s = Ok a s1 /\ f a s1 = Ok b s'.
Proof. unfold bind. destruct (c s); simpl; naive_solver. Qed.

Lemma for_each_app {X} (xs ys : list X) body s s' :
  for_each xs body s = Ok tt s' ->
  for_each (xs ++ ys) body s = for_each ys body s'.
Proof.
  revert s. induction xs as [|x xs IH]; intros s; simpl.
  - by intros [= ->].
  - intros H. apply obind_inv_ok in H as ([] & s1 & E & H).
    rewrite (obind_ok _ _ _ _ _ E). by apply IH.
Qed.

(** The rule for loops: an invariant indexed by the elements already visited. *)
Lemma for_each_inv {X} (I : list X -> S -> Prop) (body : X -> M S unit) xs s :
  I [] s ->
  (forall done x s1, (exists rest, xs = done ++ x :: rest) -> I done s1 ->
     exists s2, body x s1 = Ok tt s2 /\ I (done ++ [x]) s2) ->
  exists s', for_each xs body s = Ok tt s' /\ I xs s'.
Proof.
  intros H0 Hstep.
  assert (forall rest done s1, xs = done ++ rest -> I done s1 ->
            exists s', for_each rest body s1 = Ok tt s' /\ I xs s') as Hgen.
  { induction rest as [|x rest IH]; intros done s1 -> Hi; simpl.
    - exists s1. by rewrite app_nil_r.
    - destruct (Hstep done x s1) as (s2 & E & Hi2); [eauto | done |].
      rewrite (obind_ok _ _ _ _ _ E). apply (IH (done ++ [x])); [|done].
      by rewrite <-app_assoc. }
  by apply (Hgen xs []).
Qed.

End Monad.

(** The state a call that returns leaves. *)
Definition final {S A : Type} (o : outcome S A) (d : S) : S :=
  match o with Ok _ s => s | _ => d end.

Lemma final_ok {S A : Type} (o : outcome S A) (d : S) a s : o = Ok a s -> final o d = s.
Proof. by intros ->. Qed.

Declare Scope k_scope.
Delimit Scope k_scope with K.
#[global] Open Scope k_scope.
Notation "x <- c ;; k" := (bind c (fun x => k))
  (at level 100, c at next level, right associativity) : k_scope.
Notation "c ;;; k" := (bind c (fun _ => k))
  (at level 100, right associativity) : k_scope.

(** Runs the first command of a sequence, given the equation of its outcome. *)
Ltac krun E := rewrite (obind_ok _ _ _ _ _ E).

(** Runs the commands whose effect is immediate. *)
Ltac kr := unfold bind, gets, modify, ret, when, panic, fault; cbn [obind of_option].

(** ** Arrays

    A C array is a list of its elements; a store outside it is undefined. *)
Definition aput {A} (l : list A) (i : nat) (v : A) : option (list A) :=
  if decide (i < length l)%nat then Some (<[i:=v]> l) else None.

Lemma aput_Some {A} (l : list A) i v : (i < length l)%nat -> aput l i v = Some (<[i:=v]> l).
Proof. intros H. unfold aput. by rewrite decide_True. Qed.

(** The indices a loop [for(i = 0; i < n; i++)] visits. *)
Definition upto (n : nat) : list nat := seq 0 n.

Lemma elem_of_upto i n : i ∈ upto n <-> (i < n)%nat.
Proof. unfold upto. rewrite elem_of_seq. lia. Qed.

Create Rewrite HintDb len.
#[export] Hint Rewrite @length_app @length_take @length_drop @length_insert @length_replicate
  @length_fmap @length_cons @length_nil @length_seq @length_rev : len.
Ltac len := autorewrite with len in *; try lia.

(** A C string literal: its characters and the terminating NUL. *)
Definition chars (s : string) : list Z :=
  (fun a => Z.of_N (Ascii.N_of_ascii a)) <$> String.list_ascii_of_string s.
Definition cstr (s : string) : list Z := chars s ++ [0].
Arguments chars : simpl never.
Arguments cstr : simpl never.

(** The first index at which a predicate holds, as a table scan finds it. *)
Fixpoint find_idx {A} (P : A -> bool) (l : list A) : option nat :=
  match l with
  | [] => None
  | x :: l' => if P x then Some O else S <$> find_idx P l'
  end.

Lemma find_idx_Some {A} (P : A -> bool) l i :
  find_idx P l = Some i <->
  exists x, l !! i = Some x /\ P x = true /\
    forall j y, (j < i)%nat -> l !! j = Some y -> P y = false.
Proof.
  revert i. induction l as [|a l IH]; intros i; simpl.
  - split; [done|]. by intros (x & ? & _).
  - destruct (P a) eqn:Ea.
    + split.
      * intros [= <-]. exists a. repeat split; [done|]. intros j y ?. lia.
      * intros (x & Hx & Px & Hmin). destruct i as [|i]; [done|].
        specialize (Hmin O a ltac:(lia) eq_refl). congruence.
    + rewrite fmap_Some. split.
      * intros (k & (x & Hx & Px & Hmin)%IH & ->). exists x. repeat split; [done|done|].
        intros [|j] y Hj Hy; simpl in *; [congruence|]. apply (Hmin j); [lia|done].
      * intros (x & Hx & Px & Hmin). destruct i as [|i]; simpl in *; [congruence|].
        exists i. split; [|done]. apply IH. exists x. repeat split; [done|done|].
        intros j y Hj Hy. apply (Hmin (S j)); [lia|done].
Qed.

Lemma find_idx_None {A} (P : A -> bool) l :
  find_idx P l = None <-> forall i x, l !! i = Some x -> P x = false.
Proof.
  induction l as [|a l IH]; simpl; [naive_solver|].
  destruct (P a) eqn:Ea.
  - split; [done|]. intros H. specialize (H O a eq_refl). congruence.
  - rewrite fmap_None, IH. split.
    + intros H [|i] x Hx; simpl in *; [congruence|eauto].
    + intros H i x Hx. by apply (H (S i)).
Qed.

Lemma drop_S_tail {A} n (l : list A) : drop (S n) l = tail (drop n l).
Proof. revert n. induction l as [|x l IH]; intros [|n]; simpl; auto. Qed.

Lemma bind_concat {A B} (f : A -> list B) (l : list A) : l ≫= f = concat (f <$> l).
Proof. induction l as [|x l IH]; [done|]. rewrite bind_cons, IH. done. Qed.
