(* ===== verification/Mem.v ===== *)
(** * Byte-addressed memory and the memory routines of string.c and ulib.c

    Memory is a finite map from addresses to bytes; a byte that was never written
    reads as 0.  Multi-byte objects are little-endian.  [Module Kstring] models
    memset, memcmp, memmove and memcpy of src/string.c with the [rep stos]
    instructions of src/x86.h, [Module Ulib] the copies the user library has of
    them (src/ulib.c).  The theorems show that the word-wise [memset] is the
    byte-wise one and that [memmove] is a simultaneous copy for every overlap. *)

From S2P Require Import Prelude.

Abbreviation mem := (gmap Z Z).

Definition ld8 (m : mem) (a : Z) : Z := default 0 (m !! a).
Definition st8 (m : mem) (a v : Z) : mem := <[a := u8 v]> m.

Fixpoint ld_bytes (m : mem) (a : Z) (n : nat) : list Z :=
  match n with
  | O => []
  | S n' => ld8 m a :: ld_bytes m (a + 1) n'
  end.

Fixpoint st_bytes (m : mem) (a : Z) (bs : list Z) : mem :=
  match bs with
  | [] => m
  | b :: bs' => st_bytes (st8 m a b) (a + 1) bs'
  end.

(** Little-endian encoding of an [n]-byte object. *)
Fixpoint le_split (n : nat) (v : Z) : list Z :=
  match n with
  | O => []
  | S n' => v `mod` 256 :: le_split n' (v / 256)
  end.

Fixpoint le_combine (bs : list Z) : Z :=
  match bs with
  | [] => 0
  | b :: bs' => b + 256 * le_combine bs'
  end.

Definition ld32 (m : mem) (a : Z) : Z := le_combine (ld_bytes m a 4).
Definition st32 (m : mem) (a v : Z) : mem := st_bytes m a (le_split 4 v).
Definition ld64 (m : mem) (a : Z) : Z := le_combine (ld_bytes m a 8).
Definition st64 (m : mem) (a v : Z) : mem := st_bytes m a (le_split 8 v).

Arguments ld32 : simpl never.
Arguments st32 : simpl never.
Arguments ld64 : simpl never.
Arguments st64 : simpl never.

(** Every stored byte is a byte. *)
Definition mem_wf (m : mem) : Prop := map_Forall (fun _ v => in_u8 v) m.

(** ** Facts about loads and stores *)

Lemma length_le_split n v : length (le_split n v) = n.
Proof. revert v. induction n; intros; simpl; auto. Qed.
#[export] Hint Rewrite length_le_split : len.

Lemma le_split_bytes n v : Forall in_u8 (le_split n v).
Proof.
  revert v. induction n as [|n IH]; intros v; simpl; constructor; [|done].
  unfold in_u8. change (2 ^ 8) with 256. by apply Z.mod_pos_bound.
Qed.

Lemma le_combine_split n v : le_combine (le_split n v) = v `mod` 256 ^ Z.of_nat n.
Proof.
  revert v. induction n as [|n IH]; intros v; simpl le_split; simpl le_combine.
  - by rewrite Z.mod_1_r.
  - rewrite IH, Nat2Z.inj_succ, Z.pow_succ_r by lia.
    rewrite Z.rem_mul_r by lia. done.
Qed.

Lemma ld8_st8 m a v x : ld8 (st8 m a v) x = if decide (x = a) then u8 v else ld8 m x.
Proof.
  unfold ld8, st8. case_decide as H.
  - subst. by rewrite lookup_insert_eq.
  - by rewrite lookup_insert_ne.
Qed.

(** What a byte reads as after a block of bytes was stored. *)
Lemma ld8_st_bytes m a bs x :
  ld8 (st_bytes m a bs) x =
  if decide (a <= x < a + Z.of_nat (length bs))
  then u8 (default 0 (bs !! Z.to_nat (x - a))) else ld8 m x.
Proof.
  revert m a. induction bs as [|b bs IH]; intros m a; cbn [st_bytes length].
  - rewrite decide_False; [done|lia].
  - rewrite IH, ld8_st8. destruct (decide (x = a)) as [->|Hne].
    + rewrite (decide_False (P := a + 1 <= a < _)) by lia.
      rewrite decide_True by lia. by rewrite Z.sub_diag.
    + destruct (decide (a + 1 <= x < a + 1 + Z.of_nat (length bs))) as [H|H].
      * rewrite decide_True by lia.
        by replace (Z.to_nat (x - a)) with (S (Z.to_nat (x - (a + 1)))) by lia.
      * by rewrite decide_False by lia.
Qed.

Lemma ld_bytes_ext m m' a n :
  (forall x, a <= x < a + Z.of_nat n -> ld8 m' x = ld8 m x) ->
  ld_bytes m' a n = ld_bytes m a n.
Proof.
  revert a. induction n as [|n IH]; intros a H; simpl; [done|].
  rewrite H by lia. rewrite IH; [done|]. intros x Hx. apply H. lia.
Qed.

Lemma length_ld_bytes m a n : length (ld_bytes m a n) = n.
Proof. revert a. induction n; intros; simpl; auto. Qed.
#[export] Hint Rewrite length_ld_bytes : len.

Lemma lookup_ld_bytes m a n i :
  (i < n)%nat -> ld_bytes m a n !! i = Some (ld8 m (a + Z.of_nat i)).
Proof.
  revert a i. induction n as [|n IH]; intros a i H; [lia|].
  destruct i as [|i]; simpl; [by rewrite Z.add_0_r|].
  rewrite IH by lia. do 2 f_equal. lia.
Qed.

Lemma ld_st_bytes_disj m a bs b n :
  b + Z.of_nat n <= a \/ a + Z.of_nat (length bs) <= b ->
  ld_bytes (st_bytes m a bs) b n = ld_bytes m b n.
Proof.
  intros H. apply ld_bytes_ext. intros x Hx.
  rewrite ld8_st_bytes, decide_False; [done|lia].
Qed.

Lemma ld_st_bytes_same m a bs :
  Forall in_u8 bs -> ld_bytes (st_bytes m a bs) a (length bs) = bs.
Proof.
  intros Hb. apply list_eq. intros i. destruct (decide (i < length bs)%nat) as [Hi|Hi].
  - rewrite lookup_ld_bytes by done. destruct (lookup_lt_is_Some_2 bs i Hi) as [b Eb].
    rewrite ld8_st_bytes, decide_True by lia.
    replace (Z.to_nat (a + Z.of_nat i - a)) with i by lia.
    rewrite Eb. simpl. f_equal. unfold u8. apply Z.mod_small.
    by eapply (Forall_lookup_1 _ _ _ _ Hb).
  - rewrite !lookup_ge_None_2; [done|lia|]. rewrite length_ld_bytes. lia.
Qed.

Lemma ld64_st64_same m a v : in_u64 v -> ld64 (st64 m a v) a = v.
Proof.
  intros H. unfold ld64, st64.
  pose proof (ld_st_bytes_same m a (le_split 8 v) (le_split_bytes 8 v)) as E.
  rewrite length_le_split in E. rewrite E, le_combine_split. by apply Z.mod_small.
Qed.

Lemma ld64_st64_ne m a b v : b + 8 <= a \/ a + 8 <= b -> ld64 (st64 m a v) b = ld64 m b.
Proof.
  intros H. unfold ld64, st64. rewrite ld_st_bytes_disj; [done|].
  rewrite length_le_split. lia.
Qed.

Lemma ld64_ext m m' a :
  (forall x, a <= x < a + 8 -> ld8 m' x = ld8 m x) -> ld64 m' a = ld64 m a.
Proof. intros H. unfold ld64. by rewrite (ld_bytes_ext m m'). Qed.

(** ** The routines of src/string.c *)
Module Kstring.

(** [rep stosb]: [cnt] bytes of value [data] from address [a]. *)
Fixpoint stosb (m : mem) (a data : Z) (cnt : nat) : mem :=
  match cnt with
  | O => m
  | S cnt' => stosb (st8 m a data) (a + 1) data cnt'
  end.

(** [rep stosl]: [cnt] 32-bit words of value [data] from address [a]. *)
Fixpoint stosl (m : mem) (a data : Z) (cnt : nat) : mem :=
  match cnt with
  | O => m
  | S cnt' => stosl (st32 m a data) (a + 4) data cnt'
  end.

Definition memset (m : mem) (dst c n : Z) : mem :=
  if (dst `mod` 4 =? 0) && (n `mod` 4 =? 0) then
    let c := Z.land c 255 in
    stosl m dst
      (Z.lor (Z.lor (Z.lor (Z.shiftl c 24) (Z.shiftl c 16)) (Z.shiftl c 8)) c)
      (Z.to_nat (n / 4))
  else stosb m dst c (Z.to_nat n).

Fixpoint memcmp (m : mem) (v1 v2 : Z) (n : nat) : Z :=
  match n with
  | O => 0
  | S n' =>
      if negb (ld8 m v1 =? ld8 m v2) then ld8 m v1 - ld8 m v2
      else memcmp m (v1 + 1) (v2 + 1) n'
  end.

(** [while(n-- > 0) *d++ = *s++;] *)
Fixpoint copy_up (m : mem) (d s : Z) (n : nat) : mem :=
  match n with
  | O => m
  | S n' => copy_up (st8 m d (ld8 m s)) (d + 1) (s + 1) n'
  end.

(** [while(n-- > 0) *--d = *--s;] *)
Fixpoint copy_down (m : mem) (d s : Z) (n : nat) : mem :=
  match n with
  | O => m
  | S n' => copy_down (st8 m (d - 1) (ld8 m (s - 1))) (d - 1) (s - 1) n'
  end.

Definition memmove (m : mem) (dst src n : Z) : mem :=
  if (src <? dst) && (src + n >? dst)
  then copy_down m (dst + n) (src + n) (Z.to_nat n)
  else copy_up m dst src (Z.to_nat n).

Definition memcpy (m : mem) (dst src n : Z) : mem := memmove m dst src n.

Arguments memset : simpl never.
Arguments memmove : simpl never.

End Kstring.

(** ** The routines of src/ulib.c *)
Module Ulib.

Definition ulib_memset (m : mem) (dst c n : Z) : mem :=
  Kstring.stosb m dst c (Z.to_nat n).

Definition ulib_memmove (m : mem) (vdst vsrc n : Z) : mem :=
  Kstring.copy_up m vdst vsrc (Z.to_nat n).

End Ulib.

(** ** Correctness *)
Section MemFacts.
  Import Kstring Ulib.
  Implicit Types m : mem.

Lemma ld8_in_u8 m a : mem_wf m -> in_u8 (ld8 m a).
Proof.
  intros H. unfold ld8. destruct (m !! a) as [v|] eqn:E; simpl.
  - exact (H _ _ E).
  - unfold in_u8. lia.
Qed.

Lemma u8_ld8 m a : mem_wf m -> u8 (ld8 m a) = ld8 m a.
Proof. intros H. apply Z.mod_small. by apply ld8_in_u8. Qed.

Lemma st8_wf m a v : mem_wf m -> mem_wf (st8 m a v).
Proof. intros H. apply map_Forall_insert_2; [apply u8_range | done]. Qed.

Lemma st_bytes_wf m a bs : mem_wf m -> mem_wf (st_bytes m a bs).
Proof. revert m a. induction bs; simpl; auto using st8_wf. Qed.

Lemma stosb_ld8 m a c n x :
  ld8 (stosb m a c n) x = if decide (a <= x < a + Z.of_nat n) then u8 c else ld8 m x.
Proof.
  revert m a. induction n as [|n IH]; intros m a; cbn [stosb].
  - rewrite decide_False; [done|lia].
  - rewrite IH, ld8_st8. repeat case_decide; done || lia.
Qed.

(** The 32-bit pattern [c<<24|c<<16|c<<8|c] is four copies of the byte [c]. *)
Lemma fill_pattern_sum c :
  0 <= c < 256 ->
  Z.lor (Z.lor (Z.lor (Z.shiftl c 24) (Z.shiftl c 16)) (Z.shiftl c 8)) c
  = c + 256 * (c + 256 * (c + 256 * c)).
Proof.
  intros H.
  assert (forallb (fun c =>
    Z.lor (Z.lor (Z.lor (Z.shiftl c 24) (Z.shiftl c 16)) (Z.shiftl c 8)) c
      =? c + 256 * (c + 256 * (c + 256 * c))) (seqZ 0 256) = true) as F by done.
  rewrite forallb_forall in F. apply Z.eqb_eq, F, list_elem_of_In, elem_of_seqZ. lia.
Qed.

Lemma fill_pattern_bytes c :
  0 <= c < 256 ->
  le_split 4 (Z.lor (Z.lor (Z.lor (Z.shiftl c 24) (Z.shiftl c 16)) (Z.shiftl c 8)) c)
  = replicate 4 c.
Proof.
  intros H. rewrite fill_pattern_sum by done. cbn [le_split replicate].
  repeat f_equal; Z.to_euclidean_division_equations; lia.
Qed.

Lemma stosl_ld8 m a data c n x :
  le_split 4 data = replicate 4 c ->
  ld8 (stosl m a data n) x = if decide (a <= x < a + 4 * Z.of_nat n) then u8 c else ld8 m x.
Proof.
  intros Hd. revert m a. induction n as [|n IH]; intros m a; cbn [stosl].
  - rewrite decide_False; [done|lia].
  - rewrite IH. unfold st32. rewrite ld8_st_bytes, Hd. cbn [length replicate].
    repeat case_decide; try lia; try done.
    change [c; c; c; c] with (replicate 4 c). rewrite lookup_replicate_2 by lia. done.
Qed.

(** memset fills exactly the [n] bytes at [dst] with the byte [c], on the word-wise
    and on the byte-wise path. *)
Lemma memset_ld8 m dst c n x :
  0 <= n ->
  ld8 (memset m dst c n) x = if decide (dst <= x < dst + n) then u8 c else ld8 m x.
Proof.
  intros Hn. unfold memset. destruct (_ && _) eqn:E.
  - apply andb_true_iff in E as [_ E%Z.eqb_eq].
    assert (0 <= Z.land c 255 < 256) as Hc.
    { change 255 with (Z.ones 8). rewrite Z.land_ones by lia. by apply Z.mod_pos_bound. }
    rewrite (stosl_ld8 _ _ _ (Z.land c 255)) by by apply fill_pattern_bytes.
    replace (4 * Z.of_nat (Z.to_nat (n / 4))) with n
      by (Z.to_euclidean_division_equations; lia).
    case_decide; [|done]. unfold u8. change 255 with (Z.ones 8).
    rewrite Z.land_ones by lia. by rewrite Zmod_mod.
  - rewrite stosb_ld8. by rewrite Z2Nat.id.
Qed.

Lemma copy_up_ld8 m d s n x :
  mem_wf m -> d <= s \/ s + Z.of_nat n <= d ->
  ld8 (copy_up m d s n) x
  = if decide (d <= x < d + Z.of_nat n) then ld8 m (s + (x - d)) else ld8 m x.
Proof.
  revert m d s. induction n as [|n IH]; intros m d s Hm H; cbn [copy_up].
  - rewrite decide_False; [done|lia].
  - rewrite IH by (try apply st8_wf; done || lia).
    rewrite !ld8_st8, !u8_ld8 by done.
    repeat case_decide; try lia; try done; f_equal; lia.
Qed.

Lemma copy_down_ld8 m d s n x :
  mem_wf m -> s <= d ->
  ld8 (copy_down m d s n) x
  = if decide (d - Z.of_nat n <= x < d) then ld8 m (s + (x - d)) else ld8 m x.
Proof.
  revert m d s. induction n as [|n IH]; intros m d s Hm H; cbn [copy_down].
  - rewrite decide_False; [done|lia].
  - rewrite IH by (try apply st8_wf; done || lia).
    rewrite !ld8_st8, !u8_ld8 by done.
    repeat case_decide; try lia; try done; f_equal; lia.
Qed.

Lemma copy_up_wf m d s n : mem_wf m -> mem_wf (copy_up m d s n).
Proof. revert m d s. induction n; simpl; auto using st8_wf. Qed.

Lemma copy_down_wf m d s n : mem_wf m -> mem_wf (copy_down m d s n).
Proof. revert m d s. induction n; simpl; auto using st8_wf. Qed.

Lemma memmove_ld8 m dst src n x :
  mem_wf m -> 0 <= n ->
  ld8 (memmove m dst src n) x
  = if decide (dst <= x < dst + n) then ld8 m (src + (x - dst)) else ld8 m x.
Proof.
  intros Hm Hn. unfold memmove. destruct (_ && _) eqn:E.
  - rewrite copy_down_ld8 by (done || lia). rewrite Z2Nat.id by done.
    repeat case_decide; try lia; try done. f_equal; lia.
  - rewrite copy_up_ld8 by (done || lia). by rewrite Z2Nat.id.
Qed.

Lemma memmove_wf m dst src n : mem_wf m -> mem_wf (memmove m dst src n).
Proof. intros. unfold memmove. case_match; auto using copy_up_wf, copy_down_wf. Qed.

Lemma stosb_wf m a c n : mem_wf m -> mem_wf (stosb m a c n).
Proof. revert m a. induction n; simpl; auto using st8_wf. Qed.

Lemma stosl_wf m a c n : mem_wf m -> mem_wf (stosl m a c n).
Proof. revert m a. induction n; cbn [stosl]; unfold st32; auto using st_bytes_wf. Qed.

Lemma memset_wf m a c n : mem_wf m -> mem_wf (memset m a c n).
Proof. intros. unfold memset. case_match; auto using stosb_wf, stosl_wf. Qed.

End MemFacts.
#[export] Hint Resolve st8_wf st_bytes_wf memmove_wf memset_wf : mach.
