(* ===== verification/CString.v ===== *)
(** * C strings: the character routines of string.c and ulib.c

    A [char] array is the list of its elements and a pointer into it is the array
    with an index.  Reading or writing outside the array is undefined behaviour:
    the routine is then [None].  [Module Kstr] models strncmp, strncpy, safestrcpy
    and strlen of src/string.c; [Module Ustr] strcpy, strcmp, strlen, strchr and
    atoi of src/ulib.c.  Characters are bytes (0..255). *)

From S2P Require Import Prelude.

Definition DIRSIZ : Z := 14.

(** The characters before the first NUL. *)
Fixpoint cut (l : list Z) : list Z :=
  match l with
  | [] => []
  | c :: l' => if c =? 0 then [] else c :: cut l'
  end.

Definition has_nul (l : list Z) : Prop := 0 ∈ l.

Module Kstr.

(** [while(n > 0 && *p && *p == *q) n--, p++, q++;] and the comparison that
    follows it. *)
Fixpoint strncmp (p q : list Z) (n : nat) : option Z :=
  match n with
  | O => Some 0
  | S n' =>
      match p, q with
      | a :: p', b :: q' =>
          if negb (a =? 0) && (a =? b) then strncmp p' q' n' else Some (u8 a - u8 b)
      | _, _ => None
      end
  end.

(** [while(n-- > 0) *s++ = 0;] from index [i]. *)
Fixpoint zero_fill (s : list Z) (i n : nat) : option (list Z) :=
  match n with
  | O => Some s
  | S n' => s' ← aput s i 0; zero_fill s' (S i) n'
  end.

(** [while(n-- > 0 && ( *s++ = *t++) != 0);] from index [i], then the fill. *)
Fixpoint strncpy_from (s t : list Z) (i n : nat) : option (list Z) :=
  match n with
  | O => Some s
  | S n' =>
      match t with
      | [] => None
      | c :: t' =>
          s' ← aput s i c;
          if c =? 0 then zero_fill s' (S i) n' else strncpy_from s' t' (S i) n'
      end
  end.

Definition strncpy (s t : list Z) (n : Z) : option (list Z) :=
  strncpy_from s t 0 (Z.to_nat n).

(** [while(--n > 0 && ( *s++ = *t++) != 0); *s = 0;] with [k] for [n-1]. *)
Fixpoint safestrcpy_from (s t : list Z) (i k : nat) : option (list Z) :=
  match k with
  | O => aput s i 0
  | S k' =>
      match t with
      | [] => None
      | c :: t' =>
          s' ← aput s i c;
          if c =? 0 then aput s' (S i) 0 else safestrcpy_from s' t' (S i) k'
      end
  end.

Definition safestrcpy (s t : list Z) (n : Z) : option (list Z) :=
  if n <=? 0 then Some s else safestrcpy_from s t 0 (Z.to_nat (n - 1)).

Fixpoint strlen (s : list Z) : option Z :=
  match s with
  | [] => None
  | c :: s' => if c =? 0 then Some 0 else Z.succ <$> strlen s'
  end.

Definition namecmp (s t : list Z) : option Z := strncmp s t (Z.to_nat DIRSIZ).

End Kstr.

Module Ustr.

Fixpoint strcpy_from (s t : list Z) (i : nat) : option (list Z) :=
  match t with
  | [] => None
  | c :: t' =>
      s' ← aput s i c;
      if c =? 0 then Some s' else strcpy_from s' t' (S i)
  end.

Definition strcpy (s t : list Z) : option (list Z) := strcpy_from s t 0.

Fixpoint strcmp (p q : list Z) : option Z :=
  match p, q with
  | a :: p', b :: q' =>
      if negb (a =? 0) && (a =? b) then strcmp p' q' else Some (u8 a - u8 b)
  | _, _ => None
  end.

(** The index of the first [c] before the terminating NUL. *)
Fixpoint strchr (s : list Z) (c : Z) : option (option nat) :=
  match s with
  | [] => None
  | a :: s' =>
      if a =? 0 then Some None
      else if a =? c then Some (Some O)
      else r ← strchr s' c; Some (option_map S r)
  end.

(** [while('0' <= *s && *s <= '9') n = n*10 + *s++ - '0';]; [int] arithmetic wraps
    as the compiled code does. *)
Fixpoint atoi_from (s : list Z) (n : Z) : option Z :=
  match s with
  | [] => None
  | c :: s' =>
      if (48 <=? c) && (c <=? 57) then atoi_from s' (s32 (n * 10 + c - 48)) else Some n
  end.

Definition atoi (s : list Z) : option Z := atoi_from s 0.

End Ustr.

(** ** Correctness *)
Section StrFacts.
  Import Kstr Ustr.

Lemma cut_app_nul l r : 0 ∉ l -> cut (l ++ 0 :: r) = l.
Proof.
  induction l as [|c l IH]; simpl; [done|].
  rewrite not_elem_of_cons. intros [Hc Hl]. rewrite (proj2 (Z.eqb_neq c 0)) by done.
  by rewrite IH.
Qed.

Lemma cut_no_nul l : 0 ∉ cut l.
Proof.
  induction l as [|c l IH]; simpl; [apply not_elem_of_nil|].
  case_match eqn:E; [apply not_elem_of_nil|]. apply Z.eqb_neq in E.
  apply not_elem_of_cons. split; congruence || done.
Qed.

Lemma has_nul_split l : has_nul l -> exists r, l = cut l ++ 0 :: r.
Proof.
  induction l as [|c l IH]; unfold has_nul in *; simpl; [by intros ?%elem_of_nil|].
  intros H. case_match eqn:E.
  - apply Z.eqb_eq in E as ->. by exists l.
  - apply Z.eqb_neq in E. apply elem_of_cons in H as [H|H]; [by subst|].
    destruct (IH H) as [r Er]. exists r. simpl. by f_equal.
Qed.

Lemma cut_length_le l : (length (cut l) <= length l)%nat.
Proof. induction l; simpl; [done|]. case_match; simpl; lia. Qed.

Lemma strlen_cut l : has_nul l -> strlen l = Some (Z.of_nat (length (cut l))).
Proof.
  intros [r ->]%has_nul_split. rewrite cut_app_nul by apply cut_no_nul.
  generalize (cut_no_nul l). induction (cut l) as [|c t IH]; simpl; [done|].
  rewrite not_elem_of_cons. intros [Hc Ht]. rewrite (proj2 (Z.eqb_neq c 0)) by done.
  rewrite IH by done. simpl. f_equal. lia.
Qed.

(** The array after [safestrcpy_from]: the copied prefix, one NUL (two when the
    terminator of the source was copied), and the rest of the old array. *)
Lemma safestrcpy_from_spec (t s : list Z) (i k : nat) :
  (i + k < length s)%nat -> has_nul t \/ (k <= length t)%nat ->
  exists rest,
    safestrcpy_from s t i k
    = Some (take i s ++ take k (cut t) ++ 0 :: rest)
    /\ length (take i s ++ take k (cut t) ++ 0 :: rest) = length s.
Proof.
  revert s i k. induction t as [|c t IH]; intros s i k Hlen Ht.
  - assert (k = 0%nat) as -> by (destruct Ht as [[]%elem_of_nil|Ht]; simpl in *; lia).
    simpl. rewrite aput_Some by lia. exists (drop (S i) s).
    rewrite insert_take_drop by lia. split; [done|]. len.
  - destruct k as [|k]; simpl.
    + rewrite aput_Some by lia. exists (drop (S i) s).
      rewrite insert_take_drop by lia. split; [done|]. len.
    + rewrite aput_Some by lia. simpl. case_match eqn:E.
      * apply Z.eqb_eq in E as ->. rewrite aput_Some by len.
        exists (0 :: drop (S (S i)) s). simpl.
        rewrite insert_take_drop by len.
        rewrite (take_S_r _ _ 0) by (apply list_lookup_insert_eq; lia).
        rewrite take_insert_ge, drop_insert_lt by lia.
        rewrite <-app_assoc. split; [done|]. len.
      * destruct (IH (<[i:=c]> s) (S i) k) as (rest & -> & Hl).
        { len. }
        { destruct Ht as [Ht|Ht]; [left|right; simpl in *; lia].
          apply elem_of_cons in Ht as [Ht|Ht]; [|done]. apply Z.eqb_neq in E. congruence. }
        exists rest. rewrite (take_S_r _ _ c) in * by (apply list_lookup_insert_eq; lia).
        rewrite take_insert_ge in * by lia. rewrite <-app_assoc in *. simpl in *.
        split; [done|]. by rewrite length_insert in Hl.
Qed.

End StrFacts.
