(* ===== verification/State.v ===== *)
(** * The kernel's state

    The C structures of the kernel as records, with the source's field names, and
    the record [kernel] of all global variables.  A pointer to an element of a
    static table (process, file, inode, buffer) is the index of the element; a
    pointer into memory is a 64-bit address.  The call stacks recorded in a
    spinlock for debugging ([pcs]) are not kept.  A C function of the kernel is a
    command of the monad [K]. *)

From S2P Require Import Prelude Mem.

(** ** Constants (param.h, mmu.h, memlayout.h, fs.h) *)

Definition NPROC : nat := 64.
Definition KSTACKSIZE : Z := 4096.
Definition NOFILE : nat := 16.
Definition NFILE : nat := 100.
Definition NINODE : nat := 50.
Definition NDEV : Z := 10.
Definition ROOTDEV : Z := 1.
Definition MAXARG : Z := 32.
Definition MAXOPBLOCKS : Z := 10.
Definition LOGSIZE : Z := MAXOPBLOCKS * 3.
Definition NBUF : nat := 30.
Definition FSSIZE : Z := 1000.
Definition PGSIZE : Z := 4096.
Definition PHYSTOP : Z := 234881024. (* 0xE000000 *)
Definition KERNBASE : Z := 18446603336221196288. (* 0xFFFF800000000000 *)

Definition v2p (a : Z) : Z := u64 (a - KERNBASE).
Definition p2v (a : Z) : Z := u64 (a + KERNBASE).

Arguments v2p : simpl never.
Arguments p2v : simpl never.

(** ** Locks and processors (spinlock.h, sleeplock.h, proc.h) *)

Inductive slid : Type := SL_buf (i : nat) | SL_inode (i : nat).

Inductive lockid : Type :=
| LK_trace | LK_kmem | LK_ptable | LK_ticks | LK_cons | LK_input | LK_ftable
| LK_icache | LK_bcache | LK_log | LK_ide
| LK_pipe (p : Z) | LK_sleep (l : slid).

#[export] Instance slid_eq_dec : EqDecision slid.
Proof. solve_decision. Defined.
#[export] Instance lockid_eq_dec : EqDecision lockid.
Proof. solve_decision. Defined.

#[export] Instance slid_countable : Countable slid :=
  inj_countable'
    (fun l => match l with SL_buf i => inl i | SL_inode i => inr i end)
    (fun x => match x with inl i => SL_buf i | inr i => SL_inode i end)
    ltac:(by intros []).

#[export] Instance lockid_countable : Countable lockid.
Proof.
  refine (inj_countable'
    (fun l : lockid => match l return (nat + (Z + slid))%type with
      | LK_trace => inl 0%nat | LK_kmem => inl 1%nat | LK_ptable => inl 2%nat
      | LK_ticks => inl 3%nat | LK_cons => inl 4%nat | LK_input => inl 5%nat
      | LK_ftable => inl 6%nat | LK_icache => inl 7%nat | LK_bcache => inl 8%nat
      | LK_log => inl 9%nat | LK_ide => inl 10%nat
      | LK_pipe p => inr (inl p) | LK_sleep l => inr (inr l) end)
    (fun x => match x with
      | inl 0%nat => LK_trace | inl 1%nat => LK_kmem | inl 2%nat => LK_ptable
      | inl 3%nat => LK_ticks | inl 4%nat => LK_cons | inl 5%nat => LK_input
      | inl 6%nat => LK_ftable | inl 7%nat => LK_icache | inl 8%nat => LK_bcache
      | inl 9%nat => LK_log | inl _ => LK_ide
      | inr (inl p) => LK_pipe p | inr (inr l) => LK_sleep l end) _).
  by intros [].
Defined.

Record spinlock : Type := Spinlock {
  lk_locked : Z;           (* Is the lock held? *)
  lk_name : string;
  lk_cpu : option Z        (* The cpu holding the lock. *)
}.
Definition spinlock0 : spinlock := Spinlock 0 "" None.

Record sleeplock : Type := Sleeplock {
  sl_locked : Z;
  sl_name : string;
  sl_pid : Z
}.
Definition sleeplock0 : sleeplock := Sleeplock 0 "" 0.

(** The processor that runs the code: the fields of its [struct cpu], its interrupt
    flag and %cr3. *)
Record cpu : Type := Cpu {
  c_id : Z;
  c_ncli : Z;              (* Depth of pushcli nesting. *)
  c_intena : bool;         (* Were interrupts enabled before pushcli? *)
  c_if : bool;             (* EFLAGS.IF *)
  c_proc : option nat;     (* proc, the process running on this cpu *)
  c_local : Z;             (* CPU-local storage page *)
  c_cr3 : Z
}.

(** ** Processes (proc.h) *)

Inductive procstate : Type := UNUSED | EMBRYO | SLEEPING | RUNNABLE | RUNNING | ZOMBIE.
#[export] Instance procstate_eq_dec : EqDecision procstate.
Proof. solve_decision. Defined.

(** The addresses processes sleep on. *)
Inductive chan : Type :=
| Ch_proc (i : nat) | Ch_ticks | Ch_nread (p : Z) | Ch_nwrite (p : Z)
| Ch_sleeplock (l : slid) | Ch_log | Ch_buf (i : nat) | Ch_input.
#[export] Instance chan_eq_dec : EqDecision chan.
Proof. solve_decision. Defined.

Record proc : Type := Proc {
  p_sz : Z;                (* Size of process memory (bytes) *)
  p_pgdir : Z;             (* Page table *)
  p_kstack : Z;            (* Bottom of kernel stack for this process *)
  p_state : procstate;
  p_pid : Z;
  p_parent : option nat;
  p_tf : Z;                (* Trap frame for current syscall *)
  p_context : Z;           (* swtch() here to run process *)
  p_chan : option chan;    (* If non-zero, sleeping on chan *)
  p_killed : bool;
  p_ofile : list (option nat);
  p_cwd : option nat;
  p_name : list Z          (* char name[16] *)
}.
Definition proc0 : proc :=
  Proc 0 0 0 UNUSED 0 None 0 0 None false (replicate NOFILE None) None (replicate 16 0).

(** ** Constants shared with the user programs (fcntl.h, trace.h) *)

Definition O_RDONLY : Z := 0.
Definition O_WRONLY : Z := 1.
Definition O_RDWR : Z := 2.
Definition O_CREATE : Z := 512.

Definition TRACE_TYPE_SYSCALL : Z := 1.
Definition TRACE_TYPE_PROC : Z := 2.
Definition TRACE_TYPE_TRAP : Z := 3.
Definition TRACE_TYPE_MEM : Z := 4.

(** ** The trace buffer (trace.h, ktrace.c) *)

Record trace_event : Type := TraceEvent {
  te_seq : Z;
  te_ticks : Z;
  te_type : Z;
  te_pid : Z;
  te_arg0 : Z;
  te_arg1 : Z;
  te_arg2 : Z;
  te_comm : list Z;        (* char comm[16] *)
  te_event : list Z;       (* char event[16] *)
  te_overwritten : Z
}.
Definition trace_event0 : trace_event :=
  TraceEvent 0 0 0 0 0 0 0 (replicate 16 0) (replicate 16 0) 0.

Definition TRACE_BUF_SIZE : Z := 128.

Record tracebuf : Type := TraceBuf {
  tb_enabled : Z;
  tb_seq : Z;
  tb_readseq : Z;
  tb_overwritten : Z;
  tb_events : list trace_event
}.

(** ** Physical memory allocator (kalloc.c) *)

Record kmem : Type := Kmem {
  km_use_lock : bool;
  km_freelist : Z;         (* struct run *freelist *)
  km_end : Z               (* extern char end[]: set by the linker *)
}.

(** ** Files and pipes (file.h, pipe.c) *)

Inductive fdtype : Type := FD_NONE | FD_PIPE | FD_INODE.
#[export] Instance fdtype_eq_dec : EqDecision fdtype.
Proof. solve_decision. Defined.

Record file : Type := File {
  f_type : fdtype;
  f_ref : Z;               (* reference count *)
  f_readable : bool;
  f_writable : bool;
  f_pipe : Z;
  f_ip : option nat;
  f_off : Z
}.
Definition file0 : file := File FD_NONE 0 false false 0 None 0.

Definition PIPESIZE : Z := 512.

Record pipe : Type := Pipe {
  pi_data : list Z;        (* char data[PIPESIZE] *)
  pi_nread : Z;            (* number of bytes read *)
  pi_nwrite : Z;           (* number of bytes written *)
  pi_readopen : bool;
  pi_writeopen : bool
}.

(** ** Inodes, buffers, log and disk layout (fs.h, file.h, buf.h, log.c) *)

Definition BSIZE : Z := 512.
Definition NDIRECT : Z := 12.
Definition NINDIRECT : Z := BSIZE / 4.
Definition MAXFILE : Z := NDIRECT + NINDIRECT.
Definition I_VALID : Z := 2.
Definition B_VALID : Z := 2.
Definition B_DIRTY : Z := 4.
Definition T_DIR : Z := 1.
Definition T_FILE : Z := 2.
Definition T_DEV : Z := 3.

Record superblock : Type := Superblock {
  sb_size : Z; sb_nblocks : Z; sb_ninodes : Z; sb_nlog : Z;
  sb_logstart : Z; sb_inodestart : Z; sb_bmapstart : Z
}.

(** The part of an inode that is on the disk (struct dinode). *)
Record dinode : Type := Dinode {
  di_type : Z; di_major : Z; di_minor : Z; di_nlink : Z;
  di_size : Z; di_addrs : list Z
}.
Definition dinode0 : dinode := Dinode 0 0 0 0 0 (replicate 13 0).

(** The in-memory copy of an inode; [i_d] is its copy of the disk inode. *)
Record inode : Type := Inode {
  i_dev : Z;
  i_inum : Z;
  i_ref : Z;
  i_flags : Z;
  i_d : dinode
}.
Definition inode0 : inode := Inode 0 0 0 0 dinode0.

Record buf : Type := Buf {
  b_flags : Z;
  b_dev : Z;
  b_blockno : Z;
  b_refcnt : Z;
  b_prev : nat;            (* LRU cache list; NBUF is bcache.head *)
  b_next : nat;
  b_qnext : option nat;    (* disk queue *)
  b_data : list Z          (* uchar data[BSIZE] *)
}.
Definition buf0 : buf := Buf 0 0 0 0 0 0 None (replicate 512 0).

Record log : Type := Log {
  lg_start : Z;
  lg_size : Z;
  lg_outstanding : Z;      (* how many FS sys calls are executing. *)
  lg_committing : bool;    (* in commit(), please wait. *)
  lg_dev : Z;
  lg_n : Z;                (* lh.n *)
  lg_block : list Z        (* lh.block[LOGSIZE] *)
}.

(** The disk: its contents by block, the size memide.c knows it by, whether ide.c found
    disk 1, the command the IDE controller works on (block, and the data of a write), and
    the block writes completed so far, latest last. *)
Record disk : Type := Disk {
  d_blocks : gmap Z (list Z);
  disksize : Z;
  havedisk1 : bool;
  d_cmd : option (Z * option (list Z));
  d_writes : list (Z * list Z)
}.
Definition disk0 : disk := Disk ∅ 0 false None [].

(** ** Console (console.c, uart.c) *)

Definition INPUT_BUF : Z := 128.

Record console : Type := Console {
  co_crt : gmap Z Z;       (* CGA text memory, by cell *)
  co_cursor : Z;           (* CRTC cursor position, 16 bits *)
  co_locking : bool;
  co_panicked : bool;
  co_uart : bool;          (* is there a uart? *)
  co_serial : list Z;      (* bytes sent to COM1, latest last *)
  in_buf : list Z;         (* char buf[INPUT_BUF] *)
  in_r : Z;                (* Read index *)
  in_w : Z;                (* Write index *)
  in_e : Z                 (* Edit index *)
}.

(** Entries of devsw: the console is the only driver that registers one. *)
Inductive devfn : Type := DevConsole.

(** ** All global variables

    - [k_cpu]: the cpu that runs;
    - [k_locks]: spinlocks, by identity;
    - [k_mem]: physical memory, by kernel virtual address;
    - [k_kmem]: kmem;
    - [k_trace]: traceBuffer;
    - [k_ticks]: ticks;
    - [k_procs]: ptable.proc;
    - [k_initproc]: initproc;
    - [k_nextpid]: nextpid;
    - [k_files]: ftable.file;
    - [k_pipes]: struct pipe, by address;
    - [k_cons]: console and serial line;
    - [k_devsw]: devsw;
    - [k_sleeps]: sleep locks, by identity;
    - [k_inodes]: icache.inode;
    - [k_bufs]: bcache.buf, then bcache.head;
    - [k_idequeue]: idequeue;
    - [k_log]: log;
    - [k_sb]: sb;
    - [k_disk]: the disk;
    - [k_kpml4]: kpml4;
    - [k_kpdpt]: kpdpt;
    - [k_ioapic]: the registers of the I/O APIC;
    - [k_shift]: shift of kbdgetc;
    - [k_first]: first of forkret. *)
Record kernel : Type := Kernel {
  k_cpu : cpu;
  k_locks : gmap lockid spinlock;
  k_mem : mem;
  k_kmem : kmem;
  k_trace : tracebuf;
  k_ticks : Z;
  k_procs : list proc;
  k_initproc : option nat;
  k_nextpid : Z;
  k_files : list file;
  k_pipes : gmap Z pipe;
  k_cons : console;
  k_devsw : gmap Z devfn;
  k_sleeps : gmap slid sleeplock;
  k_inodes : list inode;
  k_bufs : list buf;
  k_idequeue : option nat;
  k_log : log;
  k_sb : superblock;
  k_disk : disk;
  k_kpml4 : Z;
  k_kpdpt : Z;
  k_ioapic : gmap Z Z;
  k_shift : Z;
  k_first : bool
}.

Definition set_cpu (v : cpu) (k : kernel) : kernel :=
  Kernel v (k_locks k) (k_mem k) (k_kmem k) (k_trace k) (k_ticks k) (k_procs k) (k_initproc k) (k_nextpid k) (k_files k) (k_pipes k) (k_cons k) (k_devsw k) (k_sleeps k) (k_inodes k) (k_bufs k) (k_idequeue k) (k_log k) (k_sb k) (k_disk k) (k_kpml4 k) (k_kpdpt k) (k_ioapic k) (k_shift k) (k_first k).
Definition set_locks (v : gmap lockid spinlock) (k : kernel) : kernel :=
  Kernel (k_cpu k) v (k_mem k) (k_kmem k) (k_trace k) (k_ticks k) (k_procs k) (k_initproc k) (k_nextpid k) (k_files k) (k_pipes k) (k_cons k) (k_devsw k) (k_sleeps k) (k_inodes k) (k_bufs k) (k_idequeue k) (k_log k) (k_sb k) (k_disk k) (k_kpml4 k) (k_kpdpt k) (k_ioapic k) (k_shift k) (k_first k).
Definition set_mem (v : mem) (k : kernel) : kernel :=
  Kernel (k_cpu k) (k_locks k) v (k_kmem k) (k_trace k) (k_ticks k) (k_procs k) (k_initproc k) (k_nextpid k) (k_files k) (k_pipes k) (k_cons k) (k_devsw k) (k_sleeps k) (k_inodes k) (k_bufs k) (k_idequeue k) (k_log k) (k_sb k) (k_disk k) (k_kpml4 k) (k_kpdpt k) (k_ioapic k) (k_shift k) (k_first k).
Definition set_kmem (v : kmem) (k : kernel) : kernel :=
  Kernel (k_cpu k) (k_locks k) (k_mem k) v (k_trace k) (k_ticks k) (k_procs k) (k_initproc k) (k_nextpid k) (k_files k) (k_pipes k) (k_cons k) (k_devsw k) (k_sleeps k) (k_inodes k) (k_bufs k) (k_idequeue k) (k_log k) (k_sb k) (k_disk k) (k_kpml4 k) (k_kpdpt k) (k_ioapic k) (k_shift k) (k_first k).
Definition set_trace (v : tracebuf) (k : kernel) : kernel :=
  Kernel (k_cpu k) (k_locks k) (k_mem k) (k_kmem k) v (k_ticks k) (k_procs k) (k_initproc k) (k_nextpid k) (k_files k) (k_pipes k) (k_cons k) (k_devsw k) (k_sleeps k) (k_inodes k) (k_bufs k) (k_idequeue k) (k_log k) (k_sb k) (k_disk k) (k_kpml4 k) (k_kpdpt k) (k_ioapic k) (k_shift k) (k_first k).
Definition set_ticks (v : Z) (k : kernel) : kernel :=
  Kernel (k_cpu k) (k_locks k) (k_mem k) (k_kmem k) (k_trace k) v (k_procs k) (k_initproc k) (k_nextpid k) (k_files k) (k_pipes k) (k_cons k) (k_devsw k) (k_sleeps k) (k_inodes k) (k_bufs k) (k_idequeue k) (k_log k) (k_sb k) (k_disk k) (k_kpml4 k) (k_kpdpt k) (k_ioapic k) (k_shift k) (k_first k).
Definition set_procs (v : list proc) (k : kernel) : kernel :=
  Kernel (k_cpu k) (k_locks k) (k_mem k) (k_kmem k) (k_trace k) (k_ticks k) v (k_initproc k) (k_nextpid k) (k_files k) (k_pipes k) (k_cons k) (k_devsw k) (k_sleeps k) (k_inodes k) (k_bufs k) (k_idequeue k) (k_log k) (k_sb k) (k_disk k) (k_kpml4 k) (k_kpdpt k) (k_ioapic k) (k_shift k) (k_first k).
Definition set_initproc (v : option nat) (k : kernel) : kernel :=
  Kernel (k_cpu k) (k_locks k) (k_mem k) (k_kmem k) (k_trace k) (k_ticks k) (k_procs k) v (k_nextpid k) (k_files k) (k_pipes k) (k_cons k) (k_devsw k) (k_sleeps k) (k_inodes k) (k_bufs k) (k_idequeue k) (k_log k) (k_sb k) (k_disk k) (k_kpml4 k) (k_kpdpt k) (k_ioapic k) (k_shift k) (k_first k).
Definition set_nextpid (v : Z) (k : kernel) : kernel :=
  Kernel (k_cpu k) (k_locks k) (k_mem k) (k_kmem k) (k_trace k) (k_ticks k) (k_procs k) (k_initproc k) v (k_files k) (k_pipes k) (k_cons k) (k_devsw k) (k_sleeps k) (k_inodes k) (k_bufs k) (k_idequeue k) (k_log k) (k_sb k) (k_disk k) (k_kpml4 k) (k_kpdpt k) (k_ioapic k) (k_shift k) (k_first k).
Definition set_files (v : list file) (k : kernel) : kernel :=
  Kernel (k_cpu k) (k_locks k) (k_mem k) (k_kmem k) (k_trace k) (k_ticks k) (k_procs k) (k_initproc k) (k_nextpid k) v (k_pipes k) (k_cons k) (k_devsw k) (k_sleeps k) (k_inodes k) (k_bufs k) (k_idequeue k) (k_log k) (k_sb k) (k_disk k) (k_kpml4 k) (k_kpdpt k) (k_ioapic k) (k_shift k) (k_first k).
Definition set_pipes (v : gmap Z pipe) (k : kernel) : kernel :=
  Kernel (k_cpu k) (k_locks k) (k_mem k) (k_kmem k) (k_trace k) (k_ticks k) (k_procs k) (k_initproc k) (k_nextpid k) (k_files k) v (k_cons k) (k_devsw k) (k_sleeps k) (k_inodes k) (k_bufs k) (k_idequeue k) (k_log k) (k_sb k) (k_disk k) (k_kpml4 k) (k_kpdpt k) (k_ioapic k) (k_shift k) (k_first k).
Definition set_cons (v : console) (k : kernel) : kernel :=
  Kernel (k_cpu k) (k_locks k) (k_mem k) (k_kmem k) (k_trace k) (k_ticks k) (k_procs k) (k_initproc k) (k_nextpid k) (k_files k) (k_pipes k) v (k_devsw k) (k_sleeps k) (k_inodes k) (k_bufs k) (k_idequeue k) (k_log k) (k_sb k) (k_disk k) (k_kpml4 k) (k_kpdpt k) (k_ioapic k) (k_shift k) (k_first k).
Definition set_devsw (v : gmap Z devfn) (k : kernel) : kernel :=
  Kernel (k_cpu k) (k_locks k) (k_mem k) (k_kmem k) (k_trace k) (k_ticks k) (k_procs k) (k_initproc k) (k_nextpid k) (k_files k) (k_pipes k) (k_cons k) v (k_sleeps k) (k_inodes k) (k_bufs k) (k_idequeue k) (k_log k) (k_sb k) (k_disk k) (k_kpml4 k) (k_kpdpt k) (k_ioapic k) (k_shift k) (k_first k).
Definition set_sleeps (v : gmap slid sleeplock) (k : kernel) : kernel :=
  Kernel (k_cpu k) (k_locks k) (k_mem k) (k_kmem k) (k_trace k) (k_ticks k) (k_procs k) (k_initproc k) (k_nextpid k) (k_files k) (k_pipes k) (k_cons k) (k_devsw k) v (k_inodes k) (k_bufs k) (k_idequeue k) (k_log k) (k_sb k) (k_disk k) (k_kpml4 k) (k_kpdpt k) (k_ioapic k) (k_shift k) (k_first k).
Definition set_inodes (v : list inode) (k : kernel) : kernel :=
  Kernel (k_cpu k) (k_locks k) (k_mem k) (k_kmem k) (k_trace k) (k_ticks k) (k_procs k) (k_initproc k) (k_nextpid k) (k_files k) (k_pipes k) (k_cons k) (k_devsw k) (k_sleeps k) v (k_bufs k) (k_idequeue k) (k_log k) (k_sb k) (k_disk k) (k_kpml4 k) (k_kpdpt k) (k_ioapic k) (k_shift k) (k_first k).
Definition set_bufs (v : list buf) (k : kernel) : kernel :=
  Kernel (k_cpu k) (k_locks k) (k_mem k) (k_kmem k) (k_trace k) (k_ticks k) (k_procs k) (k_initproc k) (k_nextpid k) (k_files k) (k_pipes k) (k_cons k) (k_devsw k) (k_sleeps k) (k_inodes k) v (k_idequeue k) (k_log k) (k_sb k) (k_disk k) (k_kpml4 k) (k_kpdpt k) (k_ioapic k) (k_shift k) (k_first k).
Definition set_idequeue (v : option nat) (k : kernel) : kernel :=
  Kernel (k_cpu k) (k_locks k) (k_mem k) (k_kmem k) (k_trace k) (k_ticks k) (k_procs k) (k_initproc k) (k_nextpid k) (k_files k) (k_pipes k) (k_cons k) (k_devsw k) (k_sleeps k) (k_inodes k) (k_bufs k) v (k_log k) (k_sb k) (k_disk k) (k_kpml4 k) (k_kpdpt k) (k_ioapic k) (k_shift k) (k_first k).
Definition set_log (v : log) (k : kernel) : kernel :=
  Kernel (k_cpu k) (k_locks k) (k_mem k) (k_kmem k) (k_trace k) (k_ticks k) (k_procs k) (k_initproc k) (k_nextpid k) (k_files k) (k_pipes k) (k_cons k) (k_devsw k) (k_sleeps k) (k_inodes k) (k_bufs k) (k_idequeue k) v (k_sb k) (k_disk k) (k_kpml4 k) (k_kpdpt k) (k_ioapic k) (k_shift k) (k_first k).
Definition set_sb (v : superblock) (k : kernel) : kernel :=
  Kernel (k_cpu k) (k_locks k) (k_mem k) (k_kmem k) (k_trace k) (k_ticks k) (k_procs k) (k_initproc k) (k_nextpid k) (k_files k) (k_pipes k) (k_cons k) (k_devsw k) (k_sleeps k) (k_inodes k) (k_bufs k) (k_idequeue k) (k_log k) v (k_disk k) (k_kpml4 k) (k_kpdpt k) (k_ioapic k) (k_shift k) (k_first k).
Definition set_disk (v : disk) (k : kernel) : kernel :=
  Kernel (k_cpu k) (k_locks k) (k_mem k) (k_kmem k) (k_trace k) (k_ticks k) (k_procs k) (k_initproc k) (k_nextpid k) (k_files k) (k_pipes k) (k_cons k) (k_devsw k) (k_sleeps k) (k_inodes k) (k_bufs k) (k_idequeue k) (k_log k) (k_sb k) v (k_kpml4 k) (k_kpdpt k) (k_ioapic k) (k_shift k) (k_first k).
Definition set_kpml4 (v : Z) (k : kernel) : kernel :=
  Kernel (k_cpu k) (k_locks k) (k_mem k) (k_kmem k) (k_trace k) (k_ticks k) (k_procs k) (k_initproc k) (k_nextpid k) (k_files k) (k_pipes k) (k_cons k) (k_devsw k) (k_sleeps k) (k_inodes k) (k_bufs k) (k_idequeue k) (k_log k) (k_sb k) (k_disk k) v (k_kpdpt k) (k_ioapic k) (k_shift k) (k_first k).
Definition set_kpdpt (v : Z) (k : kernel) : kernel :=
  Kernel (k_cpu k) (k_locks k) (k_mem k) (k_kmem k) (k_trace k) (k_ticks k) (k_procs k) (k_initproc k) (k_nextpid k) (k_files k) (k_pipes k) (k_cons k) (k_devsw k) (k_sleeps k) (k_inodes k) (k_bufs k) (k_idequeue k) (k_log k) (k_sb k) (k_disk k) (k_kpml4 k) v (k_ioapic k) (k_shift k) (k_first k).
Definition set_ioapic (v : gmap Z Z) (k : kernel) : kernel :=
  Kernel (k_cpu k) (k_locks k) (k_mem k) (k_kmem k) (k_trace k) (k_ticks k) (k_procs k) (k_initproc k) (k_nextpid k) (k_files k) (k_pipes k) (k_cons k) (k_devsw k) (k_sleeps k) (k_inodes k) (k_bufs k) (k_idequeue k) (k_log k) (k_sb k) (k_disk k) (k_kpml4 k) (k_kpdpt k) v (k_shift k) (k_first k).
Definition set_shift (v : Z) (k : kernel) : kernel :=
  Kernel (k_cpu k) (k_locks k) (k_mem k) (k_kmem k) (k_trace k) (k_ticks k) (k_procs k) (k_initproc k) (k_nextpid k) (k_files k) (k_pipes k) (k_cons k) (k_devsw k) (k_sleeps k) (k_inodes k) (k_bufs k) (k_idequeue k) (k_log k) (k_sb k) (k_disk k) (k_kpml4 k) (k_kpdpt k) (k_ioapic k) v (k_first k).
Definition set_first (v : bool) (k : kernel) : kernel :=
  Kernel (k_cpu k) (k_locks k) (k_mem k) (k_kmem k) (k_trace k) (k_ticks k) (k_procs k) (k_initproc k) (k_nextpid k) (k_files k) (k_pipes k) (k_cons k) (k_devsw k) (k_sleeps k) (k_inodes k) (k_bufs k) (k_idequeue k) (k_log k) (k_sb k) (k_disk k) (k_kpml4 k) (k_kpdpt k) (k_ioapic k) (k_shift k) v.

Abbreviation K := (M kernel).

(** Updates one element of a static table; an index outside it is a wild pointer. *)
Definition upd_at {A} (get : kernel -> list A) (set : list A -> kernel -> kernel)
    (i : nat) (f : A -> A) : K unit := fun k =>
  match get k !! i with
  | Some x => Ok tt (set (<[i := f x]> (get k)) k)
  | None => Fault k
  end.

Definition read_at {A} (get : kernel -> list A) (i : nat) : K A := fun k =>
  match get k !! i with
  | Some x => Ok x k
  | None => Fault k
  end.

Definition upd_proc : nat -> (proc -> proc) -> K unit := upd_at k_procs set_procs.
Definition get_proc : nat -> K proc := read_at k_procs.
Definition upd_file : nat -> (file -> file) -> K unit := upd_at k_files set_files.
Definition get_file : nat -> K file := read_at k_files.

(** The current process: dereferencing a null [proc] is a fault. *)
Definition cur_proc : K nat := fun k =>
  match c_proc (k_cpu k) with
  | Some i => Ok i k
  | None => Fault k
  end.
Definition my_proc : K proc := i <- cur_proc ;; get_proc i.

Lemma upd_at_ok {A} (get : kernel -> list A) set i f k x :
  get k !! i = Some x -> upd_at get set i f k = Ok tt (set (<[i := f x]> (get k)) k).
Proof. unfold upd_at. by intros ->. Qed.

Lemma read_at_ok {A} (get : kernel -> list A) i k x :
  get k !! i = Some x -> read_at get i k = Ok x k.
Proof. unfold read_at. by intros ->. Qed.

(** The state at entry to the kernel: static storage is zero. *)
Definition cpu0 : cpu := Cpu 0 0 false false None 0 0.
Definition console0 : console := Console ∅ 0 false false false [] (replicate 128 0) 0 0 0.
Definition log0 : log := Log 0 0 0 false 0 0 (replicate 30 0).
Definition kernel0 : kernel :=
  Kernel cpu0 ∅ ∅ (Kmem false 0 0) (TraceBuf 0 0 0 0 (replicate 128 trace_event0)) 0
    (replicate NPROC proc0) None 1 (replicate NFILE file0) ∅ console0 ∅ ∅
    (replicate NINODE inode0) (replicate (S NBUF) buf0) None log0
    (Superblock 0 0 0 0 0 0 0) disk0 0 0 ∅ 0 true.
