(* ===== verification/Spinlock.v ===== *)
(** * Spin locks and interrupt nesting (src/spinlock.c)

    [acquire] on a lock that another CPU holds hangs (the model follows one CPU at a
    time); on a lock this CPU already holds it panics.  The section lemma
    [locked_section] is the interface the other components use: a critical section
    whose body neither touches locks nor the interrupt state runs as its body, and
    leaves every lock and the interrupt nesting as they were. *)

From S2P Require Import Prelude Mem State.

Definition get_lock (lk : lockid) (k : kernel) : spinlock := default spinlock0 (k_locks k !! lk).
Definition put_lock (lk : lockid) (l : spinlock) (k : kernel) : kernel :=
  set_locks (<[lk := l]> (k_locks k)) k.

Definition set_if (b : bool) (k : kernel) : kernel :=
  let c := k_cpu k in
  set_cpu (Cpu (c_id c) (c_ncli c) (c_intena c) b (c_proc c) (c_local c) (c_cr3 c)) k.
Definition set_ncli (n : Z) (k : kernel) : kernel :=
  let c := k_cpu k in
  set_cpu (Cpu (c_id c) n (c_intena c) (c_if c) (c_proc c) (c_local c) (c_cr3 c)) k.
Definition set_intena (b : bool) (k : kernel) : kernel :=
  let c := k_cpu k in
  set_cpu (Cpu (c_id c) (c_ncli c) b (c_if c) (c_proc c) (c_local c) (c_cr3 c)) k.

Definition cli : K unit := modify (set_if false).
Definition sti : K unit := modify (set_if true).

Definition initlock (lk : lockid) (name : string) : K unit :=
  modify (put_lock lk (Spinlock 0 name None)).

(** [lock->locked && lock->cpu == cpu] *)
Definition holding (lk : lockid) : K bool :=
  gets (fun k => truth (lk_locked (get_lock lk k))
                 && bool_decide (lk_cpu (get_lock lk k) = Some (c_id (k_cpu k)))).

Definition pushcli : K unit :=
  eflags_if <- gets (fun k => c_if (k_cpu k)) ;;
  cli ;;;
  ncli <- gets (fun k => c_ncli (k_cpu k)) ;;
  when (ncli =? 0) (modify (set_intena eflags_if)) ;;;
  modify (fun k => set_ncli (c_ncli (k_cpu k) + 1) k).

Definition popcli : K unit :=
  eflags_if <- gets (fun k => c_if (k_cpu k)) ;;
  if (eflags_if : bool) then panic "popcli - interruptible" else
  modify (fun k => set_ncli (c_ncli (k_cpu k) - 1) k) ;;;
  ncli <- gets (fun k => c_ncli (k_cpu k)) ;;
  if ncli <? 0 then panic "popcli" else
  intena <- gets (fun k => c_intena (k_cpu k)) ;;
  when ((ncli =? 0) && intena) sti.

(** [while(xchg(&lk->locked, 1) != 0);] *)
Definition spin_xchg (lk : lockid) : K unit := fun k =>
  let l := get_lock lk k in
  if truth (lk_locked l) then Hang k
  else Ok tt (put_lock lk (Spinlock 1 (lk_name l) (lk_cpu l)) k).

Definition acquire (lk : lockid) : K unit :=
  pushcli ;;;
  h <- holding lk ;;
  if (h : bool) then panic "acquire" else
  spin_xchg lk ;;;
  modify (fun k => let l := get_lock lk k in
    put_lock lk (Spinlock (lk_locked l) (lk_name l) (Some (c_id (k_cpu k)))) k).

Definition release (lk : lockid) : K unit :=
  h <- holding lk ;;
  if negb h then panic "release" else
  modify (fun k => let l := get_lock lk k in
    put_lock lk (Spinlock (lk_locked l) (lk_name l) None) k) ;;;
  modify (fun k => let l := get_lock lk k in
    put_lock lk (Spinlock 0 (lk_name l) (lk_cpu l)) k) ;;;
  popcli.

(** ** Invariant of the interrupt nesting *)

(** Interrupts are off whenever some pushcli is unmatched. *)
Definition cpu_ok (c : cpu) : Prop := 0 <= c_ncli c /\ (0 < c_ncli c -> c_if c = false).

Definition lock_free (k : kernel) (lk : lockid) : Prop :=
  exists name, k_locks k !! lk = Some (Spinlock 0 name None).
Definition lock_held (k : kernel) (lk : lockid) : Prop :=
  exists name, k_locks k !! lk = Some (Spinlock 1 name (Some (c_id (k_cpu k)))).

(** The cpu after pushcli, and after a balanced pushcli/popcli pair. *)
Definition pushed (c : cpu) : cpu :=
  Cpu (c_id c) (c_ncli c + 1) (if c_ncli c =? 0 then c_if c else c_intena c) false
    (c_proc c) (c_local c) (c_cr3 c).
Definition settled (c : cpu) : cpu :=
  Cpu (c_id c) (c_ncli c) (if c_ncli c =? 0 then c_if c else c_intena c) (c_if c)
    (c_proc c) (c_local c) (c_cr3 c).

(** The state inside a critical section of [lk], and after it. *)
Definition locked_by (lk : lockid) (k : kernel) : kernel :=
  set_locks (<[lk := Spinlock 1 (lk_name (get_lock lk k)) (Some (c_id (k_cpu k)))]> (k_locks k))
    (set_cpu (pushed (k_cpu k)) k).
Definition settle (k : kernel) : kernel := set_cpu (settled (k_cpu k)) k.

Lemma pushcli_ok k : pushcli k = Ok tt (set_cpu (pushed (k_cpu k)) k).
Proof.
  unfold pushcli, cli, pushed, bind, gets, modify, when; simpl.
  by destruct (c_ncli (k_cpu k) =? 0).
Qed.

Lemma popcli_pushed k c :
  cpu_ok c -> k_cpu k = pushed c -> popcli k = Ok tt (set_cpu (settled c) k).
Proof.
  intros [Hn Hif] Hc. unfold popcli, bind, gets, modify, when; simpl. rewrite Hc; simpl.
  unfold set_ncli, settled; rewrite Hc; simpl.
  replace (c_ncli c + 1 - 1) with (c_ncli c) by lia.
  rewrite (proj2 (Z.ltb_ge (c_ncli c) 0)) by done.
  destruct (Z.eqb_spec (c_ncli c) 0) as [E|E]; simpl.
  - by destruct (c_if c) eqn:Ei.
  - by rewrite Hif by lia.
Qed.

Lemma acquire_free k lk : lock_free k lk -> acquire lk k = Ok tt (locked_by lk k).
Proof.
  intros [name E]. unfold acquire. rewrite (obind_ok _ _ _ _ _ (pushcli_ok k)).
  unfold holding, spin_xchg, bind, gets, modify, locked_by, get_lock; simpl. rewrite !E; simpl. rewrite !E; simpl.
  unfold put_lock, get_lock; simpl. rewrite lookup_insert_eq; simpl.
  by rewrite insert_insert_eq.
Qed.

Lemma acquire_self k lk : lock_held k lk -> exists k', acquire lk k = Panic "acquire" k'.
Proof.
  intros [name E]. unfold acquire. rewrite (obind_ok _ _ _ _ _ (pushcli_ok k)).
  unfold holding, bind, gets, get_lock; simpl. rewrite E; simpl.
  rewrite bool_decide_true by done. eexists. reflexivity.
Qed.

Lemma locked_by_held k lk : lock_held (locked_by lk k) lk.
Proof. eexists. unfold locked_by; simpl. by rewrite lookup_insert_eq. Qed.

Lemma locked_by_free_ne k lk lk' : lk <> lk' -> lock_free k lk' -> lock_free (locked_by lk k) lk'.
Proof. intros Hne [name E]. exists name. simpl. by rewrite lookup_insert_ne. Qed.

Lemma locked_by_cpu_ok k lk : cpu_ok (k_cpu k) -> cpu_ok (k_cpu (locked_by lk k)).
Proof. intros [H1 H2]. split; simpl; [lia|done]. Qed.

(** Releasing a lock acquired in [k] from a later state [k1] that still has the
    locks and the cpu of the acquisition. *)
Lemma release_locked_by k k1 lk :
  cpu_ok (k_cpu k) -> lock_free k lk ->
  k_locks k1 = k_locks (locked_by lk k) -> k_cpu k1 = k_cpu (locked_by lk k) ->
  release lk k1 = Ok tt (set_cpu (settled (k_cpu k)) (set_locks (k_locks k) k1)).
Proof.
  intros Hc [name E] Hl Hp. unfold release, holding.
  unfold bind, gets, modify; simpl. unfold get_lock, put_lock. rewrite Hl, Hp; simpl.
  unfold get_lock. rewrite E, lookup_insert_eq; simpl.
  rewrite bool_decide_true by done; simpl.
  rewrite insert_insert_eq, lookup_insert_eq; simpl.
  erewrite popcli_pushed; [|exact Hc|exact Hp]. simpl. do 2 f_equal.
  unfold set_locks; simpl. f_equal. rewrite Hl; simpl. unfold get_lock.
  rewrite lookup_insert_eq, E, insert_insert_eq; simpl. by rewrite insert_id.
Qed.

(** A critical section as its clients see it. *)
Lemma locked_section {A} (lk : lockid) (body : K A) k a k1 :
  cpu_ok (k_cpu k) -> lock_free k lk ->
  body (locked_by lk k) = Ok a k1 ->
  k_locks k1 = k_locks (locked_by lk k) -> k_cpu k1 = k_cpu (locked_by lk k) ->
  (acquire lk ;;; x <- body ;; release lk ;;; ret x) k
  = Ok a (set_cpu (settled (k_cpu k)) (set_locks (k_locks k) k1)).
Proof.
  intros Hc Hf Hb Hl Hp. krun (acquire_free k lk Hf). krun Hb.
  krun (release_locked_by k k1 lk Hc Hf Hl Hp). done.
Qed.

Lemma settled_idem c : settled (settled c) = settled c.
Proof. unfold settled; simpl. by destruct (c_ncli c =? 0). Qed.

Lemma settled_ok c : cpu_ok c -> cpu_ok (settled c).
Proof. done. Qed.
