(* ===== verification/Ktrace.v ===== *)
(** * The kernel side of the tracer: the event ring (src/ktrace.c)

    [traceinit] and [traceevent] on the ring [traceBuffer]; [traceread], which copies
    events to user space, is in TraceRead.v, after the page tables it needs.

    Specification: the ring is a bounded queue of unread events that forgets its
    oldest event when it overflows.  [ring_repr] relates the ring, with its 32-bit
    sequence counters that wrap around, to that queue; [tb_write] implements
    [queue_push] and [tb_next] implements taking the head. *)

From S2P Require Import Prelude Mem CString State Spinlock.

Definition TRACE_NAME_LEN : Z := 16.

Definition traceinit : K unit :=
  initlock LK_trace "trace" ;;;
  modify (fun k => set_trace (TraceBuf 1 0 0 0 (tb_events (k_trace k))) k).

(** The slot of [seq], and the update of the counters after it is filled. *)
Definition tb_write (tb : tracebuf) (ev : trace_event) : option tracebuf :=
  events ← aput (tb_events tb) (Z.to_nat (tb_seq tb `mod` TRACE_BUF_SIZE)) ev;
  let seq := u32 (tb_seq tb + 1) in
  if u32 (seq - tb_readseq tb) >? TRACE_BUF_SIZE then
    Some (TraceBuf (tb_enabled tb) seq (u32 (seq - TRACE_BUF_SIZE))
            (u32 (tb_overwritten tb + 1)) events)
  else Some (TraceBuf (tb_enabled tb) seq (tb_readseq tb) (tb_overwritten tb) events).

(** [event->comm]: the name of the running process, or "kernel". *)
Definition event_comm : K (list Z) := fun k =>
  let comm := replicate (Z.to_nat TRACE_NAME_LEN) 0 in
  let name :=
    match c_proc (k_cpu k) with
    | Some i =>
        p ← k_procs k !! i;
        if p_pid p >? 0 then Some (p_name p) else Some (cstr "kernel")
    | None => Some (cstr "kernel")
    end in
  of_option (n ← name; Kstr.safestrcpy comm n TRACE_NAME_LEN) k.

(** [event->event]: the event's name, empty for a null pointer. *)
Definition event_name (name : option (list Z)) : option (list Z) :=
  let event := replicate (Z.to_nat TRACE_NAME_LEN) 0 in
  match name with
  | Some n => Kstr.safestrcpy event n TRACE_NAME_LEN
  | None => Some event
  end.

Definition traceevent (type pid arg0 arg1 arg2 : Z) (name : option (list Z)) : K unit :=
  enabled <- gets (fun k => tb_enabled (k_trace k)) ;;
  if negb (truth enabled) then ret tt else
  acquire LK_trace ;;;
  tb <- gets k_trace ;;
  ticks <- gets k_ticks ;;
  comm <- event_comm ;;
  evname <- of_option (event_name name) ;;
  tb' <- of_option (tb_write tb
           (TraceEvent (tb_seq tb) ticks (s32 type) (s32 pid) (s32 arg0) (s32 arg1)
              (s32 arg2) comm evname (tb_overwritten tb))) ;;
  modify (set_trace tb') ;;;
  release LK_trace.

(** [struct trace_event event = events[readseq % SIZE]; readseq++;] *)
Definition tb_next (tb : tracebuf) : option (trace_event * tracebuf) :=
  ev ← tb_events tb !! Z.to_nat (tb_readseq tb `mod` TRACE_BUF_SIZE);
  Some (ev, TraceBuf (tb_enabled tb) (tb_seq tb) (u32 (tb_readseq tb + 1))
              (tb_overwritten tb) (tb_events tb)).

Arguments event_name : simpl never.

(** ** The specification: a bounded queue that forgets its oldest element *)

Definition queue_push (q : list trace_event) (ev : trace_event) : list trace_event :=
  if decide (length q < 128)%nat then q ++ [ev] else tail q ++ [ev].

Record ring_repr (tb : tracebuf) (q : list trace_event) : Prop := RingRepr {
  rr_len : length (tb_events tb) = 128%nat;
  rr_seq : in_u32 (tb_seq tb);
  rr_readseq : in_u32 (tb_readseq tb);
  rr_bound : (length q <= 128)%nat;
  rr_count : tb_seq tb = u32 (tb_readseq tb + Z.of_nat (length q));
  rr_slots : forall i ev, q !! i = Some ev ->
    tb_events tb !! Z.to_nat ((tb_readseq tb + Z.of_nat i) `mod` 128) = Some ev;
  rr_numbers : forall i ev, q !! i = Some ev ->
    te_seq ev = u32 (tb_readseq tb + Z.of_nat i)
}.

Lemma ring_idx_lt x : (Z.to_nat (x `mod` 128) < 128)%nat.
Proof. pose proof (Z.mod_pos_bound x 128). lia. Qed.

Lemma u32_mod_128 x : u32 x `mod` 128 = x `mod` 128.
Proof. apply u32_mod_divide. exists (2 ^ 25). reflexivity. Qed.

(** Distinct unread positions occupy distinct slots. *)
Lemma ring_idx_inj r i j :
  0 <= i < 128 -> 0 <= j < 128 ->
  Z.to_nat ((r + i) `mod` 128) = Z.to_nat ((r + j) `mod` 128) -> i = j.
Proof.
  intros Hi Hj E. pose proof (Z.mod_pos_bound (r + i) 128). pose proof (Z.mod_pos_bound (r + j) 128).
  Z.to_euclidean_division_equations; lia.
Qed.

(** An empty ring is told from a full one: the counters are equal only when
    nothing is unread. *)
Lemma ring_empty_iff tb q : ring_repr tb q -> (tb_readseq tb = tb_seq tb <-> q = []).
Proof.
  intros [_ Hs Hr Hb Hc _ _]. rewrite <-length_zero_iff_nil. rewrite Hc.
  split; [|intros ->]; mach.
Qed.

Lemma tb_write_room tb q ev :
  ring_repr tb q -> te_seq ev = tb_seq tb -> (length q < 128)%nat ->
  exists tb', tb_write tb ev = Some tb' /\ ring_repr tb' (q ++ [ev]) /\
    tb_overwritten tb' = tb_overwritten tb /\ tb_enabled tb' = tb_enabled tb.
Proof.
  intros [Hl Hs Hr Hb Hc Hsl Hn] Hev Hq. unfold tb_write.
  rewrite aput_Some by (rewrite Hl; apply ring_idx_lt); simpl.
  assert (u32 (tb_seq tb + 1) = u32 (tb_readseq tb + Z.of_nat (length (q ++ [ev])))) as Hc'
    by (rewrite Hc, length_app; simpl; mach).
  rewrite Z.gtb_ltb, (proj2 (Z.ltb_ge _ _))
    by (rewrite Hc, length_app in *; simpl in *; unfold TRACE_BUF_SIZE; mach).
  eexists. split; [reflexivity|]. split; [|done]. constructor; simpl; try done.
  - by rewrite length_insert.
  - apply u32_range.
  - rewrite length_app; simpl; lia.
  - intros i e Hi. pose proof (lookup_lt_Some _ _ _ Hi) as Hlt. rewrite length_app in Hlt; simpl in Hlt.
    unfold TRACE_BUF_SIZE. rewrite Hc, u32_mod_128.
    apply lookup_app_Some in Hi as [Hi|[Hge Hi]].
    + apply lookup_lt_Some in Hi as Hlt'. rewrite list_lookup_insert_ne; [by apply Hsl|].
      intros E. apply ring_idx_inj in E; lia.
    + apply list_lookup_singleton_Some in Hi as [Hi <-].
      replace i with (length q) by lia. rewrite list_lookup_insert_eq; [done|].
      rewrite Hl. apply ring_idx_lt.
  - intros i e Hi. apply lookup_app_Some in Hi as [Hi|[Hge Hi]]; [by apply Hn|].
    apply list_lookup_singleton_Some in Hi as [Hi <-]. rewrite Hev, Hc.
    by replace i with (length q) by lia.
Qed.

(** Advancing [readseq] forgets the head of the queue. *)
Lemma ring_pop tb e q :
  ring_repr tb (e :: q) ->
  ring_repr (TraceBuf (tb_enabled tb) (tb_seq tb) (u32 (tb_readseq tb + 1))
               (tb_overwritten tb) (tb_events tb)) q.
Proof.
  intros [Hl Hs Hr Hb Hc Hsl Hn]. simpl in Hb, Hc.
  constructor; simpl; try done; try lia.
  - apply u32_range.
  - rewrite Hc. mach.
  - intros i ev Hi. specialize (Hsl (S i) ev Hi). rewrite <-Hsl. do 2 f_equal.
    rewrite <-(u32_mod_128 (tb_readseq tb + _)), <-(u32_mod_128 (u32 _ + _)). f_equal. mach.
  - intros i ev Hi. rewrite (Hn (S i) ev Hi). mach.
Qed.

(** Writing into a full ring: the new event takes the slot of the oldest one. *)
Lemma tb_write_full tb e q ev :
  ring_repr tb (e :: q) -> te_seq ev = tb_seq tb -> length (e :: q) = 128%nat ->
  exists tb', tb_write tb ev = Some tb' /\ ring_repr tb' (q ++ [ev]) /\
    tb_overwritten tb' = u32 (tb_overwritten tb + 1) /\ tb_enabled tb' = tb_enabled tb.
Proof.
  intros Hrep Hev Hq. pose proof (ring_pop _ _ _ Hrep) as Hpop.
  destruct (tb_write_room _ q ev Hpop Hev) as (tb1 & E & Hrep1 & _); [simpl in Hq; lia|].
  destruct Hrep as [Hl Hs Hr Hb Hc _ _]. unfold tb_write in *; simpl in *.
  rewrite aput_Some in * by (rewrite Hl; apply ring_idx_lt); simpl in *.
  assert (tb_seq tb = u32 (tb_readseq tb + 128)) as Hseq by (rewrite Hc; f_equal; lia).
  rewrite Z.gtb_ltb, (proj2 (Z.ltb_lt _ _)) by (rewrite Hseq; unfold TRACE_BUF_SIZE; mach).
  rewrite Z.gtb_ltb, (proj2 (Z.ltb_ge _ _)) in E by (rewrite Hseq; unfold TRACE_BUF_SIZE; mach).
  injection E as <-. eexists. split; [reflexivity|]. split; [|done].
  replace (u32 (u32 (tb_seq tb + 1) - TRACE_BUF_SIZE)) with (u32 (tb_readseq tb + 1))
    by (rewrite Hseq; unfold TRACE_BUF_SIZE; mach).
  destruct Hrep1. by constructor.
Qed.

Lemma tb_write_seq tb ev tb' : tb_write tb ev = Some tb' -> tb_seq tb' = u32 (tb_seq tb + 1).
Proof. unfold tb_write, aput. repeat case_match; simpl; naive_solver. Qed.

(** [tb_write] implements the push of the bounded queue. *)
Lemma tb_write_push tb q ev :
  ring_repr tb q -> te_seq ev = tb_seq tb ->
  exists tb', tb_write tb ev = Some tb' /\ ring_repr tb' (queue_push q ev) /\
    tb_overwritten tb'
    = (if decide (length q < 128)%nat then tb_overwritten tb else u32 (tb_overwritten tb + 1)) /\
    tb_enabled tb' = tb_enabled tb.
Proof.
  intros Hrep Hev. unfold queue_push. case_decide as Hq.
  - by apply tb_write_room.
  - destruct q as [|e q]; [simpl in Hq; lia|]. apply (tb_write_full tb e q); [done|done|].
    pose proof (rr_bound _ _ Hrep). lia.
Qed.

Lemma tb_next_head tb e q :
  ring_repr tb (e :: q) ->
  exists tb', tb_next tb = Some (e, tb') /\ ring_repr tb' q.
Proof.
  intros Hrep. unfold tb_next, TRACE_BUF_SIZE.
  pose proof (rr_slots _ _ Hrep 0%nat e eq_refl) as E. rewrite Z.add_0_r in E.
  rewrite E; simpl. eexists. split; [done|]. by eapply ring_pop.
Qed.

(** ** traceevent *)

(** What traceevent needs of the state: it is not inside another section of the
    trace lock, the ring is well formed, and the running process has a name. *)
Record trace_ready (k : kernel) : Prop := TraceReady {
  tr_cpu : cpu_ok (k_cpu k);
  tr_lock : lock_free k LK_trace;
  tr_enabled : truth (tb_enabled (k_trace k)) = true;
  tr_len : length (tb_events (k_trace k)) = 128%nat;
  tr_proc : forall i, c_proc (k_cpu k) = Some i ->
    exists p, k_procs k !! i = Some p /\ has_nul (p_name p)
}.

(** The name recorded in [comm]. *)
Definition comm_of (k : kernel) : list Z :=
  match c_proc (k_cpu k) with
  | Some i => match k_procs k !! i with
              | Some p => if p_pid p >? 0 then p_name p else cstr "kernel"
              | None => []
              end
  | None => cstr "kernel"
  end.

Definition field16 (s : list Z) (f : list Z) : Prop :=
  length f = 16%nat /\ exists rest, f = take 15 (cut s) ++ 0 :: rest.

Lemma safestrcpy_field16 (n : list Z) :
  has_nul n -> exists f, Kstr.safestrcpy (replicate 16 0) n 16 = Some f /\ field16 n f.
Proof.
  intros Hn. unfold Kstr.safestrcpy. simpl (16 <=? 0). cbv iota.
  destruct (safestrcpy_from_spec n (replicate 16 0) 0 (Z.to_nat (16 - 1))) as (r & -> & Hl);
    [rewrite length_replicate; simpl; lia|by left|].
  eexists. split; [reflexivity|]. split; [done|]. by exists r.
Qed.

Lemma cstr_has_nul s : has_nul (cstr s).
Proof. apply elem_of_app. right. by apply list_elem_of_singleton. Qed.

Lemma comm_of_nul k : trace_ready k -> has_nul (comm_of k).
Proof.
  intros H. unfold comm_of. destruct (c_proc (k_cpu k)) as [i|] eqn:E; [|apply cstr_has_nul].
  destruct (tr_proc _ H _ E) as (p & -> & Hp). case_match; [done|apply cstr_has_nul].
Qed.

Lemma event_comm_ok k :
  trace_ready k -> exists f, event_comm k = Ok f k /\ field16 (comm_of k) f.
Proof.
  intros H. destruct (safestrcpy_field16 (comm_of k) (comm_of_nul k H)) as (f & E & Hf).
  exists f. split; [|done]. revert E. unfold event_comm, comm_of, TRACE_NAME_LEN.
  change (Z.to_nat 16) with 16%nat. generalize (replicate 16 0) as z; intros z.
  destruct (c_proc (k_cpu k)) as [i|] eqn:Ei.
  - destruct (tr_proc _ H _ Ei) as (p & -> & _); simpl. case_match; simpl; by intros ->.
  - simpl. by intros ->.
Qed.

(** The event traceevent builds. *)
Definition event_of (k : kernel) (type pid arg0 arg1 arg2 : Z) (name : list Z)
    (ev : trace_event) : Prop :=
  te_seq ev = tb_seq (k_trace k) /\ te_ticks ev = k_ticks k /\
  te_type ev = s32 type /\ te_pid ev = s32 pid /\ te_arg0 ev = s32 arg0 /\
  te_arg1 ev = s32 arg1 /\ te_arg2 ev = s32 arg2 /\
  field16 (comm_of k) (te_comm ev) /\ field16 name (te_event ev) /\
  te_overwritten ev = tb_overwritten (k_trace k).

(** traceevent runs to completion, changes only the ring, and leaves the lock free
    and the interrupt nesting as it found them. *)
Lemma traceevent_run k type pid a0 a1 a2 name :
  trace_ready k -> has_nul name ->
  exists ev tb', event_of k type pid a0 a1 a2 name ev /\
    tb_write (k_trace k) ev = Some tb' /\
    traceevent type pid a0 a1 a2 (Some name) k = Ok tt (settle (set_trace tb' k)).
Proof.
  intros H Hn. pose proof H as [Hc Hf He Hl _].
  destruct (event_comm_ok k H) as (comm & Ec & Hcomm).
  destruct (safestrcpy_field16 name Hn) as (evn & En & Hevn).
  change (event_name (Some name) = Some evn) in En.
  set (tb := k_trace k).
  set (ev := TraceEvent (tb_seq tb) (k_ticks k) (s32 type) (s32 pid) (s32 a0) (s32 a1)
               (s32 a2) comm evn (tb_overwritten tb)).
  assert (exists tb', tb_write tb ev = Some tb') as [tb' Ew].
  { unfold tb_write. rewrite aput_Some by (subst tb; rewrite Hl; apply ring_idx_lt). simpl.
    case_match; eauto. }
  exists ev, tb'. split; [done|]. split; [done|].
  unfold traceevent. unfold bind at 1, gets at 1; simpl. rewrite He; simpl.
  krun (acquire_free k LK_trace Hf).
  assert (event_comm (locked_by LK_trace k) = Ok comm (locked_by LK_trace k)) as Ec'.
  { revert Ec. unfold event_comm; simpl. destruct (n ← _; _); simpl; [|done].
    by intros [= ->]. }
  unfold bind at 1 2, gets; simpl. krun Ec'.
  rewrite En. unfold bind at 1; simpl. fold tb ev. rewrite Ew. unfold bind, modify; simpl.
  erewrite release_locked_by; [|exact Hc|exact Hf|done|done]. done.
Qed.

Lemma trace_ready_trace k tb' :
  trace_ready k -> tb_enabled tb' = tb_enabled (k_trace k) ->
  length (tb_events tb') = 128%nat -> trace_ready (settle (set_trace tb' k)).
Proof. intros [Hc Hl He _ Hp] E1 E2. constructor; simpl; try done. by rewrite E1. Qed.

(** One traced call refines one push of the queue, and touches nothing else. *)
Lemma traceevent_push k q type pid a0 a1 a2 name :
  trace_ready k -> has_nul name -> ring_repr (k_trace k) q ->
  exists ev k',
    traceevent type pid a0 a1 a2 (Some name) k = Ok tt k' /\
    event_of k type pid a0 a1 a2 name ev /\
    ring_repr (k_trace k') (queue_push q ev) /\
    tb_overwritten (k_trace k')
    = (if decide (length q < 128)%nat then tb_overwritten (k_trace k)
       else u32 (tb_overwritten (k_trace k) + 1)) /\
    tb_seq (k_trace k') = u32 (tb_seq (k_trace k) + 1) /\
    k' = settle (set_trace (k_trace k') k) /\ trace_ready k'.
Proof.
  intros H Hn Hrep.
  destruct (traceevent_run k type pid a0 a1 a2 name H Hn) as (ev & tb' & Hev & Ew & Er).
  destruct (tb_write_push (k_trace k) q ev Hrep (proj1 Hev)) as (tb'' & Ew' & Hrep' & Ho & He).
  assert (tb'' = tb') as -> by congruence.
  exists ev, (settle (set_trace tb' k)). repeat (split; [done|]).
  split; [by eapply tb_write_seq|]. split; [done|].
  apply trace_ready_trace; [done|done|]. by destruct Hrep'.
Qed.

(** The last [n] elements of a list. *)
Definition lastn {A} (n : nat) (l : list A) : list A := drop (length l - n) l.

Lemma queue_push_lastn evs ev : queue_push (lastn 128 evs) ev = lastn 128 (evs ++ [ev]).
Proof.
  unfold queue_push, lastn. rewrite length_drop, length_app; simpl. case_decide as H.
  - replace (length evs - 128)%nat with 0%nat by lia.
    replace (length evs + 1 - 128)%nat with 0%nat by lia. by rewrite !drop_0.
  - rewrite drop_app_le by lia. f_equal.
    replace (length evs + 1 - 128)%nat with (S (length evs - 128)) by lia.
    by rewrite drop_S_tail.
Qed.

(** ** Theorems *)

(** A call of traceevent, with its arguments. *)
Record tcall : Type := Tcall {
  tc_type : Z; tc_pid : Z; tc_arg0 : Z; tc_arg1 : Z; tc_arg2 : Z; tc_name : list Z
}.
Definition run_tcall (c : tcall) : K unit :=
  traceevent (tc_type c) (tc_pid c) (tc_arg0 c) (tc_arg1 c) (tc_arg2 c) (Some (tc_name c)).

Definition event_for (c : tcall) (ev : trace_event) : Prop :=
  te_type ev = s32 (tc_type c) /\ te_pid ev = s32 (tc_pid c) /\
  te_arg0 ev = s32 (tc_arg0 c) /\ te_arg1 ev = s32 (tc_arg1 c) /\
  te_arg2 ev = s32 (tc_arg2 c) /\ field16 (tc_name c) (te_event ev).

Lemma traceevents_from k evs0 seq0 calls :
  trace_ready k -> Forall (fun c => has_nul (tc_name c)) calls ->
  ring_repr (k_trace k) (lastn 128 evs0) ->
  tb_overwritten (k_trace k) = u32 (Z.max 0 (Z.of_nat (length evs0) - 128)) ->
  tb_seq (k_trace k) = u32 (seq0 + Z.of_nat (length evs0)) ->
  exists evs k',
    for_each calls run_tcall k = Ok tt k' /\ Forall2 event_for calls evs /\
    (forall i ev, evs !! i = Some ev ->
       te_seq ev = u32 (seq0 + Z.of_nat (length evs0) + Z.of_nat i)) /\
    ring_repr (k_trace k') (lastn 128 (evs0 ++ evs)) /\
    tb_overwritten (k_trace k') = u32 (Z.max 0 (Z.of_nat (length (evs0 ++ evs)) - 128)).
Proof.
  revert k evs0. induction calls as [|c calls IH]; intros k evs0 H Hn Hrep Ho Hs.
  - exists [], k. rewrite app_nil_r. split; [done|]. split; [constructor|].
    split; [by intros ? ? ?|done].
  - apply Forall_cons_iff in Hn as [Hn1 Hn].
    destruct (traceevent_push k _ (tc_type c) (tc_pid c) (tc_arg0 c) (tc_arg1 c) (tc_arg2 c)
                (tc_name c) H Hn1 Hrep) as (ev & k1 & E & Hev & Hrep1 & Ho1 & Hs1 & Hk1 & H1).
    rewrite queue_push_lastn in Hrep1. cbn [for_each].
    destruct (IH k1 (evs0 ++ [ev]) H1 Hn Hrep1) as (evs & k' & E' & HF & Hseq & Hrep' & Ho').
    { rewrite Ho1, Ho; clear Ho1. unfold lastn. rewrite length_drop, length_app; simpl.
      case_decide; [f_equal; lia|]. mach. }
    { rewrite Hs1, Hs, length_app; simpl. mach. }
    exists (ev :: evs), k'. rewrite <-app_assoc in Hrep', Ho'.
    split; [by krun E|]. split; [constructor; [|done]|].
    { destruct Hev as (? & ? & ? & ? & ? & ? & ? & ? & ? & ?). by split_and!. }
    split; [|done]. intros [|i] e Hi; simpl in Hi.
    + injection Hi as <-. destruct Hev as (-> & _). rewrite Hs. f_equal. lia.
    + rewrite (Hseq i e Hi), length_app; simpl. f_equal. lia.
Qed.

Lemma ring_repr_init tb :
  tb_seq tb = 0 -> tb_readseq tb = 0 -> length (tb_events tb) = 128%nat -> ring_repr tb [].
Proof.
  intros Hs Hr Hl. constructor; rewrite ?Hs, ?Hr; done || (simpl; lia) || (unfold in_u32; lia) || idtac.
Qed.

(** C1: traceevent refines the push of a bounded queue that forgets its oldest
    element: from a well-formed ring holding the unread events [q], a call returns,
    appends exactly one event carrying the arguments, the sequence number, the clock
    and the running process's name, drops the oldest unread event iff 128 were
    unread (and then counts it in [overwritten]), and changes nothing else of the
    kernel: the trace lock is free again and the interrupt nesting is restored. *)
Theorem traceevent_refines_queue k q type pid a0 a1 a2 name :
  trace_ready k -> has_nul name -> ring_repr (k_trace k) q ->
  exists ev k',
    traceevent type pid a0 a1 a2 (Some name) k = Ok tt k' /\
    event_of k type pid a0 a1 a2 name ev /\
    ring_repr (k_trace k') (queue_push q ev) /\
    tb_overwritten (k_trace k')
    = (if decide (length q < 128)%nat then tb_overwritten (k_trace k)
       else u32 (tb_overwritten (k_trace k) + 1)) /\
    k' = settle (set_trace (k_trace k') k).
Proof.
  intros H Hn Hr. destruct (traceevent_push k q type pid a0 a1 a2 name H Hn Hr)
    as (ev & k' & ? & ? & ? & ? & _ & ? & _). by exists ev, k'.
Qed.

(** The state just after traceinit at boot. *)
Definition traced0 : kernel :=
  match traceinit kernel0 with Ok _ k => k | _ => kernel0 end.

Lemma traced0_ready : trace_ready traced0.
Proof.
  constructor; try done. exists "trace"%string. reflexivity.
Defined.

Lemma traced0_ring : ring_repr (k_trace traced0) [].
Proof. by apply ring_repr_init. Qed.

Lemma traceevent_refines_queue_witness :
  exists ev k',
    traceevent 4 7 5000000000 0 0 (Some (cstr "kalloc")) traced0 = Ok tt k' /\
    event_of traced0 4 7 5000000000 0 0 (cstr "kalloc") ev /\
    ring_repr (k_trace k') [ev] /\ tb_overwritten (k_trace k') = 0.
Proof.
  destruct (traceevent_refines_queue traced0 [] 4 7 5000000000 0 0 (cstr "kalloc")
              traced0_ready (cstr_has_nul "kalloc") traced0_ring)
    as (ev & k' & E & Hev & Hr & Ho & _).
  exists ev, k'. split; [exact E|]. split; [exact Hev|]. split; [exact Hr|exact Ho].
Defined.

(** C2: the ring keeps the most recent 128 events.  From a fresh ring, any sequence
    of calls returns; the unread events are the last 128 of the events written, in
    order, numbered consecutively modulo 2^32, and [overwritten] counts the others. *)
Theorem trace_history k calls :
  trace_ready k -> ring_repr (k_trace k) [] -> tb_overwritten (k_trace k) = 0 ->
  Forall (fun c => has_nul (tc_name c)) calls ->
  exists evs k',
    for_each calls run_tcall k = Ok tt k' /\ Forall2 event_for calls evs /\
    (forall i ev, evs !! i = Some ev ->
       te_seq ev = u32 (tb_seq (k_trace k) + Z.of_nat i)) /\
    ring_repr (k_trace k') (lastn 128 evs) /\
    tb_overwritten (k_trace k') = u32 (Z.max 0 (Z.of_nat (length evs) - 128)).
Proof.
  intros H Hrep Ho Hn.
  destruct (traceevents_from k [] (tb_seq (k_trace k)) calls H Hn Hrep)
    as (evs & k' & E & HF & Hs & Hr & Ho'); [done| |].
  - rewrite Z.add_0_r. symmetry. apply u32_small, Hrep.
  - exists evs, k'. split_and!; try done. intros i ev Hi.
    rewrite (Hs i ev Hi). f_equal. simpl. lia.
Qed.

Lemma trace_history_witness :
  exists evs k',
    for_each (replicate 130 (Tcall 1 3 5 0 0 (cstr "read"))) run_tcall traced0 = Ok tt k' /\
    length evs = 130%nat /\ ring_repr (k_trace k') (lastn 128 evs) /\
    tb_overwritten (k_trace k') = 2.
Proof.
  destruct (trace_history traced0 (replicate 130 (Tcall 1 3 5 0 0 (cstr "read")))
              traced0_ready traced0_ring eq_refl) as (evs & k' & E & HF & _ & Hr & Ho).
  - apply Forall_replicate. apply cstr_has_nul.
  - assert (length evs = 130%nat) as Hl.
    { apply Forall2_length in HF. rewrite length_replicate in HF. done. }
    exists evs, k'. split; [exact E|]. split; [exact Hl|]. split; [exact Hr|].
    rewrite Ho, Hl. reflexivity.
Defined.
