(* ===== verification/Kalloc.v ===== *)
(** * The physical page allocator (src/kalloc.c)

    The free list is threaded through the free pages themselves: the first eight
    bytes of a free page hold the address of the next one.  [freelist k l] says that
    the list starting at [kmem.freelist] visits exactly the pages [l], all of them
    aligned, above the kernel image and below PHYSTOP. *)

From S2P Require Import Prelude Mem CString State Spinlock Ktrace.

(** [PGROUNDUP] and [PGROUNDDOWN] of mmu.h on 64-bit addresses. *)
Definition PGMASK : Z := 2 ^ 64 - PGSIZE. (* ~((addr_t)(PGSIZE-1)) *)
Definition PGROUNDUP (sz : Z) : Z := Z.land (u64 (sz + (PGSIZE - 1))) PGMASK.
Definition PGROUNDDOWN (a : Z) : Z := Z.land a PGMASK.

Definition cur_pid_or_0 : K Z :=
  pr <- gets (fun k => c_proc (k_cpu k)) ;;
  match pr with
  | Some i => p <- get_proc i ;; ret (p_pid p)
  | None => ret 0
  end.

Definition kfree (v : Z) : K unit :=
  kend <- gets (fun k => km_end (k_kmem k)) ;;
  if truth (v `mod` PGSIZE) || (v <? kend) || (v2p v >=? PHYSTOP) then panic "kfree" else
  modify (fun k => set_mem (Kstring.memset (k_mem k) v 1 PGSIZE) k) ;;;
  use_lock <- gets (fun k => km_use_lock (k_kmem k)) ;;
  when use_lock (acquire LK_kmem) ;;;
  modify (fun k => set_mem (st64 (k_mem k) v (km_freelist (k_kmem k))) k) ;;;
  modify (fun k => set_kmem (Kmem (km_use_lock (k_kmem k)) v (km_end (k_kmem k))) k) ;;;
  when use_lock (release LK_kmem) ;;;
  when use_lock
    (pid <- cur_pid_or_0 ;;
     traceevent TRACE_TYPE_MEM pid (v2p v) 0 0 (Some (cstr "kfree"))).

Definition kalloc : K Z :=
  use_lock <- gets (fun k => km_use_lock (k_kmem k)) ;;
  when use_lock (acquire LK_kmem) ;;;
  r <- gets (fun k => km_freelist (k_kmem k)) ;;
  (if truth r then
     modify (fun k => set_kmem
       (Kmem (km_use_lock (k_kmem k)) (ld64 (k_mem k) r) (km_end (k_kmem k))) k)
   else panic "Out of memory!") ;;;
  when use_lock (release LK_kmem) ;;;
  when (use_lock && truth r)
    (pid <- cur_pid_or_0 ;;
     traceevent TRACE_TYPE_MEM pid (v2p r) 0 0 (Some (cstr "kalloc"))) ;;;
  ret r.

(** [for(; p + PGSIZE <= vend; p += PGSIZE) kfree(p);] *)
Fixpoint freerange_from (fuel : nat) (p vend : Z) : K unit :=
  match fuel with
  | O => nofuel
  | S fuel' =>
      if u64 (p + PGSIZE) <=? vend
      then kfree p ;;; freerange_from fuel' (u64 (p + PGSIZE)) vend
      else ret tt
  end.

Definition freerange (vstart vend : Z) : K unit :=
  let p := PGROUNDUP vstart in
  freerange_from (S (Z.to_nat ((vend - p) / PGSIZE))) p vend.

Definition kinit1 (vstart vend : Z) : K unit :=
  initlock LK_kmem "kmem" ;;;
  modify (fun k => set_kmem (Kmem false (km_freelist (k_kmem k)) (km_end (k_kmem k))) k) ;;;
  modify (fun k => set_kmem (Kmem (km_use_lock (k_kmem k)) 0 (km_end (k_kmem k))) k) ;;;
  freerange vstart vend.

Definition kinit2 : K unit :=
  modify (fun k => set_kmem (Kmem true (km_freelist (k_kmem k)) (km_end (k_kmem k))) k).

(** ** Page addresses *)

Lemma land_pgmask x : in_u64 x -> Z.land x PGMASK = x - x `mod` 4096.
Proof.
  intros Hx. unfold PGMASK, PGSIZE, in_u64 in *.
  change (2 ^ 64 - 4096) with (Z.shiftl (Z.ones 52) 12).
  assert (Z.land x (Z.shiftl (Z.ones 52) 12) = Z.shiftl (Z.shiftr x 12) 12) as ->.
  { apply Z.bits_inj'. intros n Hn. rewrite Z.land_spec.
    destruct (Z.lt_ge_cases n 12).
    - rewrite !Z.shiftl_spec_low by lia. apply andb_false_r.
    - rewrite !Z.shiftl_spec_high, Z.shiftr_spec by lia.
      replace (n - 12 + 12) with n by lia.
      destruct (Z.lt_ge_cases n 64).
      + rewrite Z.ones_spec_low by lia. apply andb_true_r.
      + rewrite Z.ones_spec_high by lia. rewrite andb_false_r.
        symmetry. apply Z.bits_above_log2; [lia|].
        destruct (decide (x = 0)) as [->|]; [simpl; lia|].
        apply Z.log2_lt_pow2; [lia|]. apply Z.lt_le_trans with (2 ^ 64); [lia|].
        apply Z.pow_le_mono_r; lia. }
  rewrite Z.shiftl_mul_pow2, Z.shiftr_div_pow2 by lia. change (2 ^ 12) with 4096.
  Z.to_euclidean_division_equations; lia.
Qed.

(** What kfree accepts. *)
Definition page_ok (k : kernel) (v : Z) : Prop :=
  in_u64 v /\ v `mod` PGSIZE = 0 /\ km_end (k_kmem k) <= v /\ v2p v < PHYSTOP.

Lemma page_ok_range k v : page_ok k v -> KERNBASE <= v < KERNBASE + PHYSTOP.
Proof. unfold page_ok, v2p, in_u64, u64, KERNBASE, PHYSTOP. intros (H & _ & _ & H'). mach. Qed.

Lemma page_ok_nonzero k v : page_ok k v -> v <> 0.
Proof. intros H%page_ok_range. unfold KERNBASE in H. lia. Qed.

(** Distinct pages do not overlap. *)
Lemma pages_disjoint k v w :
  page_ok k v -> page_ok k w -> v <> w -> v + PGSIZE <= w \/ w + PGSIZE <= v.
Proof.
  unfold page_ok, PGSIZE. intros (_ & Hv & _) (_ & Hw & _) Hne.
  Z.to_euclidean_division_equations; lia.
Qed.

(** ** The free list *)

Fixpoint chain (m : mem) (h : Z) (l : list Z) : Prop :=
  match l with
  | [] => h = 0
  | p :: l' => h = p /\ chain m (ld64 m p) l'
  end.

Record freelist (k : kernel) (l : list Z) : Prop := Freelist {
  fl_chain : chain (k_mem k) (km_freelist (k_kmem k)) l;
  fl_nodup : NoDup l;
  fl_pages : Forall (page_ok k) l
}.

Lemma chain_ext m m' h l :
  (forall p, p ∈ l -> ld64 m' p = ld64 m p) -> chain m h l -> chain m' h l.
Proof.
  revert h. induction l as [|p l IH]; intros h Hp; simpl; [done|].
  intros [-> Hc]. split; [done|]. rewrite Hp by (apply elem_of_cons; by left).
  apply IH; [|done]. intros q Hq. apply Hp. apply elem_of_cons. by right.
Qed.

(** The memory of a freed page: ones, with the link in front. *)
Definition freed_mem (m : mem) (v next : Z) : mem := st64 (Kstring.memset m v 1 PGSIZE) v next.

Lemma freed_mem_frame m v next x :
  x < v \/ v + PGSIZE <= x -> ld8 (freed_mem m v next) x = ld8 m x.
Proof.
  intros H. unfold freed_mem, st64, PGSIZE in *. rewrite ld8_st_bytes, length_le_split.
  rewrite decide_False by lia. rewrite memset_ld8 by lia. rewrite decide_False by lia. done.
Qed.

Lemma freed_mem_link m v next : in_u64 next -> ld64 (freed_mem m v next) v = next.
Proof. apply ld64_st64_same. Qed.

Lemma freelist_head_u64 k l : freelist k l -> in_u64 (km_freelist (k_kmem k)).
Proof.
  intros [Hc _ Hp]. destruct l as [|p l]; simpl in Hc.
  - rewrite Hc. unfold in_u64. lia.
  - destruct Hc as [-> _]. apply Forall_cons_iff in Hp as [[Hp _] _]. done.
Qed.

Lemma freelist_push k l v :
  freelist k l -> page_ok k v -> v ∉ l ->
  chain (freed_mem (k_mem k) v (km_freelist (k_kmem k))) v (v :: l).
Proof.
  intros Hf Hv Hnl. simpl. split; [done|].
  rewrite freed_mem_link by by eapply freelist_head_u64.
  apply (chain_ext (k_mem k)); [|apply Hf]. intros p Hp. apply ld64_ext. intros x Hx.
  apply freed_mem_frame.
  assert (page_ok k p) as Hpp by (eapply Forall_forall; [apply Hf | done]).
  assert (p <> v) as Hne by congruence.
  destruct (pages_disjoint k p v Hpp Hv Hne); unfold PGSIZE in *; lia.
Qed.

(** ** kfree and kalloc in a running kernel *)

Record alloc_ready (k : kernel) (l : list Z) : Prop := AllocReady {
  ar_trace : trace_ready k;
  ar_lock : lock_free k LK_kmem;
  ar_use : km_use_lock (k_kmem k) = true;
  ar_free : freelist k l
}.

Lemma cur_pid_ok k : trace_ready k -> exists pid, cur_pid_or_0 k = Ok pid k.
Proof.
  intros H. unfold cur_pid_or_0. kr. destruct (c_proc (k_cpu k)) as [i|] eqn:E; [|by eexists].
  destruct (tr_proc _ H _ E) as (p & Ep & _). unfold get_proc.
  exists (p_pid p). by rewrite (read_at_ok k_procs _ _ _ Ep).
Qed.

(** The state after the allocator changed the memory to [m'] and the head to [h]. *)
Definition alloc_state (m' : mem) (h : Z) (k : kernel) : kernel :=
  set_kmem (Kmem (km_use_lock (k_kmem k)) h (km_end (k_kmem k))) (set_mem m' k).

Lemma alloc_state_trace_ready m h k : trace_ready k -> trace_ready (settle (alloc_state m h k)).
Proof. intros []. by constructor. Qed.

Lemma alloc_trace_tail k m h arg name :
  trace_ready k -> has_nul name ->
  exists tb', tb_enabled tb' = tb_enabled (k_trace k) /\ length (tb_events tb') = 128%nat /\
  (forall q, ring_repr (k_trace k) q ->
     exists ev, te_type ev = TRACE_TYPE_MEM /\ te_arg0 ev = s32 arg /\ field16 name (te_event ev) /\
       ring_repr tb' (queue_push q ev)) /\
  (pid <- cur_pid_or_0 ;; traceevent TRACE_TYPE_MEM pid arg 0 0 (Some name))
    (settle (alloc_state m h k)) = Ok tt (settle (set_trace tb' (alloc_state m h k))).
Proof.
  intros H Hn. pose proof (alloc_state_trace_ready m h k H) as H'.
  destruct (cur_pid_ok _ H') as [pid Ep].
  destruct (traceevent_run _ TRACE_TYPE_MEM pid arg 0 0 name H' Hn) as (ev & tb' & Hev & Ew & Er).
  exists tb'. change (k_trace (settle (alloc_state m h k))) with (k_trace k) in *.
  assert (tb_enabled tb' = tb_enabled (k_trace k) /\ length (tb_events tb') = 128%nat) as [? ?].
  { revert Ew. unfold tb_write. rewrite aput_Some by (rewrite (tr_len _ H); apply ring_idx_lt).
    simpl. case_match; intros [= <-]; simpl; by rewrite length_insert, (tr_len _ H). }
  split_and!; try done.
  - intros q Hq. destruct (tb_write_push _ q ev Hq (proj1 Hev)) as (tb2 & E2 & Hr & _).
    replace tb2 with tb' in Hr by congruence.
    destruct Hev as (_ & _ & Ht & _ & Ha & _ & _ & _ & Hf & _).
    by exists ev.
  - krun Ep. rewrite Er. unfold settle; simpl. rewrite settled_idem. done.
Qed.

Lemma kfree_guard k v :
  page_ok k v ->
  truth (v `mod` PGSIZE) || (v <? km_end (k_kmem k)) || (v2p v >=? PHYSTOP) = false.
Proof.
  intros (_ & Hm & He & Hp). unfold truth. rewrite Hm.
  rewrite (proj2 (Z.ltb_ge _ _)) by done. rewrite Z.geb_leb. by apply Z.leb_gt.
Qed.

(** The event a page operation leaves in the ring: [arg] is the physical address. *)
Definition mem_event (k k' : kernel) (name : list Z) (v : Z) : Prop :=
  forall q, ring_repr (k_trace k) q ->
  exists ev, te_type ev = TRACE_TYPE_MEM /\ te_arg0 ev = s32 (v2p v) /\
    field16 name (te_event ev) /\ ring_repr (k_trace k') (queue_push q ev).

Lemma kfree_run k l v :
  alloc_ready k l -> page_ok k v -> v ∉ l ->
  exists k' tb',
    k' = settle (set_trace tb'
           (alloc_state (freed_mem (k_mem k) v (km_freelist (k_kmem k))) v k)) /\
    kfree v k = Ok tt k' /\ alloc_ready k' (v :: l) /\ mem_event k k' (cstr "kfree") v.
Proof.
  intros [Ht Hl Hu Hf] Hv Hnl. pose proof (kfree_guard k v Hv) as Hg.
  set (m' := freed_mem (k_mem k) v (km_freelist (k_kmem k))).
  destruct (alloc_trace_tail k m' v (v2p v) (cstr "kfree") Ht (cstr_has_nul _))
    as (tb' & Hen & Hlen & Hev & Etail).
  eexists _, tb'. split; [reflexivity|]. split_and!.
  - unfold kfree. kr. rewrite Hg. kr. simpl. rewrite Hu. kr.
    set (k0 := set_mem _ k). rewrite (acquire_free k0 LK_kmem) by done. kr.
    rewrite (release_locked_by k0) by (done || apply Ht). kr.
    etransitivity; [|exact Etail]. unfold settle, alloc_state; simpl. rewrite Hu. done.
  - constructor; simpl; try done.
    + destruct Ht. by constructor; simpl; rewrite ?Hen.
    + constructor; simpl.
      * exact (freelist_push k l v Hf Hv Hnl).
      * apply NoDup_cons. split; [done|apply Hf].
      * apply Forall_cons_iff. split; [exact Hv|]. exact (fl_pages k l Hf).
  - intros q Hq. destruct (Hev q Hq) as (ev & ?). by exists ev.
Qed.

Lemma kalloc_run k l v :
  alloc_ready k (v :: l) ->
  exists k' tb',
    k' = settle (set_trace tb' (alloc_state (k_mem k) (ld64 (k_mem k) v) k)) /\
    kalloc k = Ok v k' /\ alloc_ready k' l /\ mem_event k k' (cstr "kalloc") v.
Proof.
  intros [Ht Hl Hu Hf]. pose proof Hf as [[Eh Hc] Hnd Hp]. simpl in Hc.
  apply NoDup_cons in Hnd as [Hnl Hnd]. apply Forall_cons_iff in Hp as [Hv Hp].
  assert (truth v = true) as Htv.
  { unfold truth. apply page_ok_nonzero in Hv. by rewrite (proj2 (Z.eqb_neq _ _)). }
  destruct (alloc_trace_tail k (k_mem k) (ld64 (k_mem k) v) (v2p v) (cstr "kalloc") Ht
              (cstr_has_nul _)) as (tb' & Hen & Hlen & Hev & Etail).
  eexists _, tb'. split; [reflexivity|]. split_and!.
  - unfold kalloc. kr. rewrite Hu. kr. rewrite (acquire_free k LK_kmem) by done. kr.
    simpl. rewrite Eh, Htv. kr.
    rewrite (release_locked_by k) by (done || apply Ht). kr. simpl.
    etransitivity; [|exact (obind_ok _ (fun _ => ret v) _ _ _ Etail)].
    unfold settle, alloc_state; simpl. rewrite Hu. reflexivity.
  - constructor; simpl; try done.
    + destruct Ht. by constructor; simpl; rewrite ?Hen.
  - intros q Hq. destruct (Hev q Hq) as (ev & ?). by exists ev.
Qed.

(** ** Start-up: the allocator before kinit2 takes no lock and traces nothing *)

Lemma kfree_boot k l v :
  km_use_lock (k_kmem k) = false -> freelist k l -> page_ok k v -> v ∉ l ->
  let k' := alloc_state (freed_mem (k_mem k) v (km_freelist (k_kmem k))) v k in
  kfree v k = Ok tt k' /\ freelist k' (v :: l).
Proof.
  intros Hu Hf Hv Hnl. split.
  - unfold kfree. kr. rewrite (kfree_guard k v Hv). kr. simpl. rewrite Hu. kr.
    unfold alloc_state; simpl. rewrite Hu. done.
  - constructor; simpl.
    + exact (freelist_push k l v Hf Hv Hnl).
    + apply NoDup_cons. split; [done|apply Hf].
    + apply Forall_cons. split; [exact Hv|]. exact (fl_pages k l Hf).
Qed.

Definition pages (p : Z) (n : nat) : list Z := (fun i => p + PGSIZE * Z.of_nat i) <$> seq 0 n.

Lemma pages_S p n : pages p (S n) = p :: pages (p + PGSIZE) n.
Proof.
  unfold pages. simpl. f_equal; [lia|]. rewrite <-seq_shift, <-list_fmap_compose.
  apply list_fmap_ext. intros i x _. simpl. lia.
Qed.

Lemma elem_of_pages x p n : x ∈ pages p n -> p <= x < p + PGSIZE * Z.of_nat n \/ n = O.
Proof.
  unfold pages. rewrite list_elem_of_fmap. intros (i & -> & Hi%elem_of_seq).
  unfold PGSIZE. lia.
Qed.

(** What a region handed to freerange must satisfy: it lies in the direct map of
    usable memory, above the kernel image. *)
Definition region_ok (k : kernel) (p vend : Z) : Prop :=
  KERNBASE <= p <= KERNBASE + PHYSTOP /\ km_end (k_kmem k) <= p /\ vend <= KERNBASE + PHYSTOP.

Lemma region_page_ok k p vend :
  region_ok k p vend -> p `mod` PGSIZE = 0 -> p + PGSIZE <= vend -> page_ok k p.
Proof.
  unfold region_ok, page_ok, v2p, u64, in_u64, KERNBASE, PHYSTOP, PGSIZE. mach.
Qed.

Lemma freerange_from_run fuel k l p vend :
  km_use_lock (k_kmem k) = false -> freelist k l ->
  p `mod` PGSIZE = 0 -> region_ok k p vend ->
  (Z.to_nat ((vend - p) / PGSIZE) < fuel)%nat -> Forall (fun q => q < p) l ->
  exists k', freerange_from fuel p vend k = Ok tt k' /\
    freelist k' (reverse (pages p (Z.to_nat ((vend - p) / PGSIZE))) ++ l) /\
    (mem_wf (k_mem k) -> mem_wf (k_mem k')) /\
    (forall x, x < p \/ vend <= x -> ld8 (k_mem k') x = ld8 (k_mem k) x) /\ exists m h, k' = alloc_state m h k.
Proof.
  revert k l p. induction fuel as [|fuel IH]; intros k l p Hu Hf Hp Hr Hfu Hl; [lia|].
  cbn [freerange_from].
  assert (u64 (p + PGSIZE) = p + PGSIZE) as Ep.
  { apply u64_small. destruct Hr as (? & ? & ?).
    unfold in_u64, KERNBASE, PHYSTOP, PGSIZE in *. lia. }
  rewrite Ep. destruct (Z.leb_spec (p + PGSIZE) vend) as [Hle|Hgt].
  - pose proof (region_page_ok k p vend Hr Hp Hle) as Hv.
    assert (p ∉ l) as Hnl by (intros Hin; eapply Forall_forall in Hl; [|exact Hin]; simpl in Hl; lia).
    destruct (kfree_boot k l p Hu Hf Hv Hnl) as [E Hf']. set (k1 := alloc_state _ _ _) in *.
    replace (Z.to_nat ((vend - p) / PGSIZE)) with (S (Z.to_nat ((vend - (p + PGSIZE)) / PGSIZE))) in *
      by (unfold PGSIZE in *; Z.to_euclidean_division_equations; lia).
    destruct (IH k1 (p :: l) (p + PGSIZE)) as (k' & E' & Hf'' & Hw & Hx & m & h & Ek); try done.
    + unfold PGSIZE in *. Z.to_euclidean_division_equations; lia.
    + unfold region_ok, PGSIZE in *; simpl. lia.
    + lia.
    + constructor; [unfold PGSIZE; lia|]. eapply Forall_impl; [exact Hl|].
      intros q Hq. simpl in *. unfold PGSIZE. lia.
    + exists k'. split; [by krun E|]. split; [|split; [|split; [|by exists m, h]]].
      * by rewrite pages_S, reverse_cons, <-app_assoc.
      * intros Hm. apply Hw. unfold k1, freed_mem, st64. cbn [k_mem alloc_state set_kmem set_mem].
        auto with mach.
      * intros x Hv'. rewrite Hx by (unfold PGSIZE in *; lia). apply freed_mem_frame. unfold PGSIZE in *. lia.
  - exists k. replace (Z.to_nat ((vend - p) / PGSIZE)) with O
      by (unfold PGSIZE in *; Z.to_euclidean_division_equations; lia).
    split_and!; try done. exists (k_mem k), (km_freelist (k_kmem k)). by destruct k as [? ? ? []].
Qed.

Lemma kinit1_run k vstart vend :
  in_u64 vstart -> region_ok k vstart vend -> vstart + PGSIZE <= KERNBASE + PHYSTOP ->
  exists k',
    kinit1 vstart vend k = Ok tt k' /\
    freelist k' (reverse (pages (PGROUNDUP vstart)
                            (Z.to_nat ((vend - PGROUNDUP vstart) / PGSIZE)))) /\
    (mem_wf (k_mem k) -> mem_wf (k_mem k')) /\
    (forall x, x < PGROUNDUP vstart \/ vend <= x -> ld8 (k_mem k') x = ld8 (k_mem k) x) /\
    exists m h, k' = set_kmem (Kmem false h (km_end (k_kmem k)))
                      (set_mem m (put_lock LK_kmem (Spinlock 0 "kmem" None) k)).
Proof.
  intros Hu Hr Hs. unfold kinit1, initlock. kr. cbn.
  set (k1 := set_kmem _ _).
  assert (PGROUNDUP vstart = (vstart + 4095) / 4096 * 4096) as Ep.
  { unfold PGROUNDUP, PGSIZE in *. rewrite u64_small
      by (unfold in_u64, KERNBASE, PHYSTOP in *; lia).
    rewrite land_pgmask by (unfold in_u64, KERNBASE, PHYSTOP in *; lia).
    Z.to_euclidean_division_equations; lia. }
  destruct (freerange_from_run (S (Z.to_nat ((vend - PGROUNDUP vstart) / PGSIZE))) k1 []
              (PGROUNDUP vstart) vend) as (k' & E & Hf & Hw & Hx & m & h & Ek); try done.
  - constructor; [done|apply NoDup_nil_2|constructor].
  - rewrite Ep. unfold PGSIZE. apply Z_mod_mult.
  - unfold region_ok in *. rewrite Ep. unfold PGSIZE, KERNBASE, PHYSTOP in *. simpl.
    Z.to_euclidean_division_equations; lia.
  - lia.
  - exists k'. rewrite app_nil_r in Hf. split_and!; try done. exists m, h. by rewrite Ek.
Qed.

(** ** Theorems *)

(** kinit1 builds the free list: given a region in the usable part of the direct
    map, above the kernel image, it returns (the loop of freerange ends) with a free
    list that holds every whole page of the region exactly once, highest first. *)
Theorem kinit1_freelist k vstart vend :
  in_u64 vstart -> region_ok k vstart vend -> vstart + PGSIZE <= KERNBASE + PHYSTOP ->
  exists k',
    kinit1 vstart vend k = Ok tt k' /\
    freelist k' (reverse (pages (PGROUNDUP vstart)
                            (Z.to_nat ((vend - PGROUNDUP vstart) / PGSIZE)))) /\
    lock_free k' LK_kmem /\ k_cpu k' = k_cpu k.
Proof.
  intros Hu Hr Hs. destruct (kinit1_run k vstart vend Hu Hr Hs) as (k' & E & Hf & _ & _ & m & h & Ek).
  exists k'. split_and!; try done; [|by subst].
  exists "kmem"%string. subst. apply lookup_insert_eq.
Qed.

(** The state at boot of a kernel image that ends at [kend]. *)
Definition booted (kend : Z) : kernel := set_kmem (Kmem false 0 kend) kernel0.

Lemma kinit1_freelist_witness :
  exists k', kinit1 (KERNBASE + 1048577) (KERNBASE + 1064960) (booted (KERNBASE + 1048577))
             = Ok tt k' /\
    freelist k' [KERNBASE + 1060864; KERNBASE + 1056768; KERNBASE + 1052672].
Proof.
  destruct (kinit1_freelist (booted (KERNBASE + 1048577)) (KERNBASE + 1048577) (KERNBASE + 1064960))
    as (k' & E & Hf & _).
  - vm_compute. split; congruence.
  - repeat split; vm_compute; congruence.
  - vm_compute. congruence.
  - exists k'. split; [exact E|]. exact Hf.
Defined.

(** A history of the allocator and its clients.  [al] holds the pages handed out: a
    client allocates a page, writes anything into a page it holds, or frees it. *)
Inductive alloc_step : kernel * list Z -> kernel * list Z -> Prop :=
| step_kalloc k al v k' :
    kalloc k = Ok v k' -> alloc_step (k, al) (k', v :: al)
| step_write k al v m' :
    v ∈ al -> (forall x, x < v \/ v + PGSIZE <= x -> ld8 m' x = ld8 (k_mem k) x) ->
    alloc_step (k, al) (set_mem m' k, al)
| step_kfree k al v al' k' :
    al ≡ₚ v :: al' -> kfree v k = Ok tt k' -> alloc_step (k, al) (k', al').

(** The pages handed out and the free list partition the pool. *)
Definition partitioned (pool : list Z) (st : kernel * list Z) : Prop :=
  exists l, alloc_ready (fst st) l /\ Forall (page_ok (fst st)) (snd st) /\ snd st ++ l ≡ₚ pool.

Lemma chain_nil_inv m l : Forall (fun p => p <> 0) l -> chain m 0 l -> l = [].
Proof. destruct l as [|p l]; [done|]. intros [Hp _]%Forall_cons [E _]. congruence. Qed.

Lemma kalloc_oom k : alloc_ready k [] -> exists k', kalloc k = Panic "Out of memory!" k'.
Proof.
  intros [Ht Hl Hu [Hc _ _]]. simpl in Hc. unfold kalloc. kr. rewrite Hu. kr.
  rewrite (acquire_free k LK_kmem) by done. kr. simpl. rewrite Hc. kr. by eexists.
Qed.

Lemma alloc_step_partitioned pool st st' :
  NoDup pool -> partitioned pool st -> alloc_step st st' -> partitioned pool st'.
Proof.
  intros Hnd (l & Ha & Hp & Hperm) Hstep. destruct Hstep; simpl in *.
  - destruct l as [|w l]; [destruct (kalloc_oom k Ha); congruence|].
    destruct (kalloc_run k l w Ha) as (k1 & tb & Ek & E & Ha' & _).
    assert (w = v /\ k1 = k') as [-> ->] by (split; congruence).
    exists l. split; [done|]. split.
    + constructor; [|by subst]. subst k'. pose proof (fl_pages _ _ (ar_free _ _ Ha)) as F.
      by apply Forall_cons in F as [? _].
    + rewrite <-Hperm. simpl. by rewrite Permutation_middle.
  - exists l. destruct Ha as [Ht Hl Hu [Hc Hn Hpg]]. split; [|by split].
    constructor; [by destruct Ht|done|done|]. constructor; [|done|done]. simpl.
    apply (chain_ext (k_mem k)); [|done]. intros p Hpl. apply ld64_ext. intros x Hx. apply H0.
    assert (page_ok k p) by (by eapply Forall_forall in Hpg).
    assert (page_ok k v) by (by eapply Forall_forall in Hp).
    assert (p <> v) as Hne.
    { intros ->. rewrite <-Hperm in Hnd. apply NoDup_app in Hnd as (_ & Hd & _). by eapply Hd. }
    destruct (pages_disjoint k p v); unfold PGSIZE in *; (done || lia).
  - rewrite H in Hp. apply Forall_cons in Hp as [Hv Hp].
    assert (v ∉ l) as Hnl.
    { intros Hin. rewrite <-Hperm, H in Hnd. apply NoDup_app in Hnd as (_ & Hd & _).
      apply (Hd v); [apply elem_of_cons; by left|done]. }
    destruct (kfree_run k l v Ha Hv Hnl) as (k1 & tb & Ek & E & Ha' & _).
    assert (k1 = k') as -> by congruence. exists (v :: l). split; [done|]. split; [by subst|].
    rewrite <-Hperm, H. simpl. by rewrite Permutation_middle.
Qed.

(** C4: no page is handed out twice and none is lost.  In every state reachable from
    a pool of distinct free pages by allocations, frees of held pages and arbitrary
    writes to held pages, the held pages and the free list partition the pool; so the
    held pages are pairwise distinct. *)
Theorem alloc_history_partition pool k0 st :
  alloc_ready k0 pool -> rtc alloc_step (k0, []) st ->
  partitioned pool st /\ NoDup (snd st).
Proof.
  intros Ha Hr. assert (NoDup pool) as Hnd by apply Ha.
  assert (partitioned pool st) as Hst.
  { assert (partitioned pool (k0, [])) as H0 by (exists pool; done).
    remember (k0, []) as st0 eqn:E. clear E. induction Hr as [|s1 s2 s3 Hs _ IH]; [done|].
    apply IH. by eapply alloc_step_partitioned. }
  split; [done|]. destruct Hst as (l & _ & _ & Hperm). rewrite <-Hperm in Hnd.
  by apply NoDup_app in Hnd as (? & _).
Qed.

(** kalloc returns every free page before it gives up, and then it panics: with a
    free page it returns the head of the list, traces it, and leaves the rest of the
    list; with none it calls panic, so it never returns 0. *)
Theorem kalloc_total k l :
  alloc_ready k l ->
  match l with
  | v :: l' => exists k', kalloc k = Ok v k' /\ v <> 0 /\ alloc_ready k' l' /\
                 k_mem k' = k_mem k /\ mem_event k k' (cstr "kalloc") v
  | [] => exists k', kalloc k = Panic "Out of memory!" k'
  end.
Proof.
  intros Ha. destruct l as [|v l].
  - by apply kalloc_oom.
  - destruct (kalloc_run k l v Ha) as (k' & tb & Ek & E & Ha' & Hev). exists k'.
    split_and!; try done; [|by subst]. eapply page_ok_nonzero.
    exact (Forall_inv (fl_pages _ _ (ar_free _ _ Ha))).
Qed.

(** A running kernel with [n] free pages, as start-up leaves it. *)
Definition with_pages (n : Z) : kernel :=
  final ((traceinit ;;; kinit1 (KERNBASE + 1048576) (KERNBASE + 1048576 + 4096 * n) ;;; kinit2)
           (booted (KERNBASE + 1048576))) kernel0.
Definition free_pages (n : nat) : list Z := reverse (pages (KERNBASE + 1048576) n).

Lemma with_pages_ready n :
  0 <= n <= 10000 ->
  alloc_ready (with_pages n) (free_pages (Z.to_nat n)) /\ mem_wf (k_mem (with_pages n)) /\
  km_end (k_kmem (with_pages n)) = KERNBASE + 1048576.
Proof.
  intros Hn. unfold with_pages, free_pages, traceinit, initlock. kr.
  set (k0 := set_trace _ _). set (vs := KERNBASE + 1048576).
  destruct (kinit1_run k0 vs (vs + 4096 * n)) as (k' & E & Hf & Hw & _ & m & h & Ek).
  - vm_compute. split; congruence.
  - unfold region_ok. replace (km_end (k_kmem k0)) with vs by done.
    unfold vs, KERNBASE, PHYSTOP. lia.
  - vm_compute. congruence.
  - rewrite E. kr. replace (PGROUNDUP vs) with vs in Hf by done.
    replace ((vs + 4096 * n - vs) / PGSIZE) with n in Hf
      by (unfold PGSIZE; Z.to_euclidean_division_equations; lia).
    split; [|split; [by apply Hw|by subst k']].
    constructor; [|exists "kmem"%string|done|destruct Hf; by constructor].
    + subst k'. by constructor; [|exists "trace"%string|..].
    + subst k'. cbn. apply lookup_insert_eq.
Qed.

Lemma free_pages_S n :
  free_pages (S n) = KERNBASE + 1048576 + PGSIZE * Z.of_nat n :: free_pages n.
Proof.
  unfold free_pages, pages. rewrite seq_S, fmap_app, reverse_app. done.
Qed.

Definition two_pages : kernel := with_pages 2.
Definition two_pool : list Z := [KERNBASE + 1052672; KERNBASE + 1048576].

Lemma two_pages_ready : alloc_ready two_pages two_pool.
Proof. exact (proj1 (with_pages_ready 2 ltac:(lia))). Qed.

Lemma alloc_history_partition_witness :
  exists k1 k2,
    rtc alloc_step (two_pages, []) (k2, [KERNBASE + 1048576; KERNBASE + 1052672]) /\
    kalloc two_pages = Ok (KERNBASE + 1052672) k1 /\
    NoDup [KERNBASE + 1048576; KERNBASE + 1052672].
Proof.
  destruct (kalloc_run _ _ _ two_pages_ready) as (k1 & tb1 & _ & E1 & H1 & _).
  destruct (kalloc_run _ _ _ H1) as (k2 & tb2 & _ & E2 & _).
  assert (rtc alloc_step (two_pages, []) (k2, [KERNBASE + 1048576; KERNBASE + 1052672])) as Hr.
  { eapply rtc_l; [exact (step_kalloc _ _ _ _ E1)|].
    eapply rtc_l; [exact (step_kalloc _ _ _ _ E2)|]. apply rtc_refl. }
  exists k1, k2. split; [exact Hr|]. split; [exact E1|].
  exact (proj2 (alloc_history_partition two_pool two_pages _ two_pages_ready Hr)).
Defined.

Lemma kalloc_total_witness :
  exists k', kalloc two_pages = Ok (KERNBASE + 1052672) k' /\
    alloc_ready k' [KERNBASE + 1048576].
Proof.
  destruct (kalloc_total two_pages two_pool two_pages_ready) as (k' & E & _ & Ha & _).
  exists k'. split; [exact E|exact Ha].
Defined.
