(* ===== verification/Vm.v ===== *)
(** * Page tables and user address spaces (src/vm.c)

    Page tables live in [k_mem]; a table is the kernel address of its page, and an
    entry of it is a 64-bit word.  [pte_slot] is the walk the processor's MMU makes;
    [pte_at] the entry it finds.  [vm_ok] says that the tables reached from a root,
    and the frames they map, are distinct pages: [tabs] names each of them by the
    indices that lead to it (innermost first), so a path of length four is a user
    page.  The theorems say what each routine does to [pte_at] and to the ownership
    of pages. *)

From S2P Require Import Prelude Mem CString State Spinlock Ktrace Kalloc.

Definition PTE_P : Z := 1.      (* Present *)
Definition PTE_W : Z := 2.      (* Writeable *)
Definition PTE_U : Z := 4.      (* User *)
Definition PTE_PWT : Z := 8.    (* Write-Through *)
Definition PTE_PCD : Z := 16.   (* Cache-Disable *)
Definition PTE_PS : Z := 128.   (* Page Size *)
Definition NPDENTRIES : nat := 512.

Definition PMX (va : Z) : Z := Z.land (Z.shiftr va 39) 511.
Definition PDPX (va : Z) : Z := Z.land (Z.shiftr va 30) 511.
Definition PDX (va : Z) : Z := Z.land (Z.shiftr va 21) 511.
Definition PTX (va : Z) : Z := Z.land (Z.shiftr va 12) 511.

Definition PTE_ADDR (pte : Z) : Z := Z.land pte PGMASK.
Definition PTE_FLAGS (pte : Z) : Z := Z.land pte 4095.

Definition present (pte : Z) : bool := truth (Z.land pte PTE_P).

Arguments present : simpl never.
Arguments PTE_ADDR : simpl never.
Arguments PTE_FLAGS : simpl never.

Definition memory (f : mem -> mem) : K unit := modify (fun k => set_mem (f (k_mem k)) k).

(** One level of walkpgdir: the table the entry at [e] points to, found or, with
    [alloc], created.  [None] is the null pointer. *)
Definition walk_level (e : Z) (alloc : bool) : K (option Z) :=
  ent <- gets (fun k => ld64 (k_mem k) e) ;;
  if present ent then ret (Some (p2v (PTE_ADDR ent))) else
  if negb alloc then ret None else
  t <- kalloc ;;
  if t =? 0 then ret None else
  memory (fun m => Kstring.memset m t 0 PGSIZE) ;;;
  memory (fun m => st64 m e (Z.lor (Z.lor (Z.lor (v2p t) PTE_P) PTE_W) PTE_U)) ;;;
  ret (Some t).

(** The address of the PTE for [va]; [None] is the null pointer. *)
Definition walkpgdir (pml4 va : Z) (alloc : bool) : K (option Z) :=
  o <- walk_level (pml4 + 8 * PMX va) alloc ;;
  match o with
  | None => ret None
  | Some pdp =>
      o <- walk_level (pdp + 8 * PDPX va) alloc ;;
      match o with
      | None => ret None
      | Some pd =>
          o <- walk_level (pd + 8 * PDX va) alloc ;;
          match o with
          | None => ret None
          | Some pgtab => ret (Some (pgtab + 8 * PTX va))
          end
      end
  end.

Definition lcr3 (v : Z) : K unit :=
  modify (fun k => let c := k_cpu k in
    set_cpu (Cpu (c_id c) (c_ncli c) (c_intena c) (c_if c) (c_proc c) (c_local c) v) k).

Definition setupkvm : K Z :=
  pml4 <- kalloc ;;
  memory (fun m => Kstring.memset m pml4 0 PGSIZE) ;;;
  kpdpt <- gets k_kpdpt ;;
  memory (fun m => st64 m (pml4 + 8 * 256) (Z.lor (Z.lor (v2p kpdpt) PTE_P) PTE_W)) ;;;
  ret pml4.

Definition switchkvm : K unit := kpml4 <- gets k_kpml4 ;; lcr3 (v2p kpml4).

Definition kvmalloc : K unit :=
  kpml4 <- kalloc ;;
  modify (set_kpml4 kpml4) ;;;
  memory (fun m => Kstring.memset m kpml4 0 PGSIZE) ;;;
  kpdpt <- kalloc ;;
  modify (set_kpdpt kpdpt) ;;;
  memory (fun m => Kstring.memset m kpdpt 0 PGSIZE) ;;;
  memory (fun m => st64 m (kpml4 + 8 * PMX KERNBASE) (Z.lor (Z.lor (v2p kpdpt) PTE_P) PTE_W)) ;;;
  memory (fun m => st64 m (kpdpt + 8 * 0) (Z.lor (Z.lor (Z.lor 0 PTE_PS) PTE_P) PTE_W)) ;;;
  memory (fun m => st64 m (kpdpt + 8 * 3)
    (Z.lor (Z.lor (Z.lor (Z.lor (Z.lor 3221225472 PTE_PS) PTE_P) PTE_W) PTE_PWT) PTE_PCD)) ;;;
  switchkvm.

Definition switchuvm (p : nat) : K unit :=
  pushcli ;;;
  pr <- get_proc p ;;
  if p_pgdir pr =? 0 then panic "switchuvm: no pgdir" else
  local <- gets (fun k => c_local (k_cpu k)) ;;
  let tss := local + 1024 in
  let stktop := u64 (p_kstack pr + KSTACKSIZE) in
  memory (fun m => st32 m (tss + 4 * 1) (u32 stktop)) ;;;
  memory (fun m => st32 m (tss + 4 * 2) (u32 (Z.shiftr stktop 32))) ;;;
  lcr3 (v2p (p_pgdir pr)) ;;;
  popcli.

(** [for(;;)] of mappages; [n] is the number of pages left after this one. *)
Fixpoint mappages_from (n : nat) (pgdir a last pa perm : Z) : K Z :=
  o <- walkpgdir pgdir a true ;;
  match o with
  | None => ret (-1)
  | Some pte =>
      ent <- gets (fun k => ld64 (k_mem k) pte) ;;
      if present ent then panic "remap" else
      memory (fun m => st64 m pte (Z.lor (Z.lor pa perm) PTE_P)) ;;;
      if a =? last then ret 0 else
      match n with
      | O => nofuel
      | S n' => mappages_from n' pgdir (u64 (a + PGSIZE)) last (u64 (pa + PGSIZE)) perm
      end
  end.

Definition mappages (pgdir va size pa perm : Z) : K Z :=
  let a := PGROUNDDOWN va in
  let last := PGROUNDDOWN (u64 (va + size - 1)) in
  mappages_from (Z.to_nat (u64 (last - a) / PGSIZE)) pgdir a last pa perm.

Definition inituvm (pgdir init sz : Z) : K unit :=
  if sz >=? PGSIZE then panic "inituvm: more than a page" else
  mem <- kalloc ;;
  memory (fun m => Kstring.memset m mem 0 PGSIZE) ;;;
  _ <- mappages pgdir PGSIZE PGSIZE (v2p mem) (Z.lor PTE_W PTE_U) ;;
  memory (fun m => Kstring.memmove m mem init sz).

(** The body of deallocuvm's loop. *)
Definition deallocuvm_page (pgdir a : Z) : K unit :=
  o <- walkpgdir pgdir a false ;;
  match o with
  | None => ret tt
  | Some pte =>
      ent <- gets (fun k => ld64 (k_mem k) pte) ;;
      if present ent then
        let pa := PTE_ADDR ent in
        if pa =? 0 then panic "kfree" else
        kfree (p2v pa) ;;;
        memory (fun m => st64 m pte 0)
      else ret tt
  end.

(** [for(; a < oldsz; a += PGSIZE)] of deallocuvm. *)
Fixpoint deallocuvm_from (fuel : nat) (pgdir a oldsz : Z) : K unit :=
  if negb (a <? oldsz) then ret tt else
  match fuel with
  | O => nofuel
  | S fuel' => deallocuvm_page pgdir a ;;; deallocuvm_from fuel' pgdir (u64 (a + PGSIZE)) oldsz
  end.

Definition deallocuvm (pgdir oldsz newsz : Z) : K Z :=
  if newsz >=? oldsz then ret oldsz else
  let a := PGROUNDUP newsz in
  deallocuvm_from (Z.to_nat ((oldsz - a) / PGSIZE + 1)) pgdir a oldsz ;;;
  ret newsz.

(** [for(; a < newsz; a += PGSIZE)] of allocuvm. *)
Fixpoint allocuvm_from (fuel : nat) (pgdir a oldsz newsz : Z) : K Z :=
  if negb (a <? newsz) then ret newsz else
  match fuel with
  | O => nofuel
  | S fuel' =>
      mem <- kalloc ;;
      if mem =? 0 then
        _ <- deallocuvm pgdir newsz oldsz ;;
        ret 0
      else
      memory (fun m => Kstring.memset m mem 0 PGSIZE) ;;;
      r <- mappages pgdir a PGSIZE (v2p mem) (Z.lor PTE_W PTE_U) ;;
      if r <? 0 then
        _ <- deallocuvm pgdir newsz oldsz ;;
        kfree mem ;;;
        ret 0
      else
      allocuvm_from fuel' pgdir (u64 (a + PGSIZE)) oldsz newsz
  end.

Definition allocuvm (pgdir oldsz newsz : Z) : K Z :=
  if newsz >=? KERNBASE then ret 0 else
  if newsz <? oldsz then ret oldsz else
  let a := PGROUNDUP oldsz in
  allocuvm_from (Z.to_nat ((newsz - a) / PGSIZE + 1)) pgdir a oldsz newsz.

(** The loops of freevm, innermost first.  An entry is read when its index comes
    up. *)
Definition entry (t : Z) (i : nat) : K Z := gets (fun k => ld64 (k_mem k) (t + 8 * Z.of_nat i)).

Definition freevm_pt (pt : Z) : K unit :=
  for_each (upto NPDENTRIES) (fun l =>
    e <- entry pt l ;;
    when (present e) (kfree (p2v (PTE_ADDR e)))).
Definition freevm_pd (pd : Z) : K unit :=
  for_each (upto NPDENTRIES) (fun k =>
    e <- entry pd k ;;
    when (present e) (let pt := p2v (PTE_ADDR e) in freevm_pt pt ;;; kfree pt)).
Definition freevm_pdp (pdp : Z) : K unit :=
  for_each (upto NPDENTRIES) (fun j =>
    e <- entry pdp j ;;
    when (present e) (let pd := p2v (PTE_ADDR e) in freevm_pd pd ;;; kfree pd)).
Definition freevm (pml4 : Z) : K unit :=
  if pml4 =? 0 then panic "freevm: no pgdir" else
  for_each (upto (NPDENTRIES / 2)) (fun i =>
    e <- entry pml4 i ;;
    when (present e) (let pdp := p2v (PTE_ADDR e) in freevm_pdp pdp ;;; kfree pdp)) ;;;
  kfree pml4.

Definition clearpteu (pgdir uva : Z) : K unit :=
  o <- walkpgdir pgdir uva false ;;
  match o with
  | None => panic "clearpteu"
  | Some pte => memory (fun m => st64 m pte (Z.land (ld64 m pte) (2 ^ 64 - 1 - PTE_U)))
  end.

(** [for(i = PGSIZE; i < sz; i += PGSIZE)] of copyuvm; [false] is [goto bad]. *)
Fixpoint copyuvm_from (fuel : nat) (pgdir d i sz : Z) : K bool :=
  if negb (i <? sz) then ret true else
  match fuel with
  | O => nofuel
  | S fuel' =>
      o <- walkpgdir pgdir i false ;;
      match o with
      | None => panic "copyuvm: pte should exist"
      | Some pte =>
          ent <- gets (fun k => ld64 (k_mem k) pte) ;;
          if negb (present ent) then panic "copyuvm: page not present" else
          let pa := PTE_ADDR ent in
          let flags := PTE_FLAGS ent in
          mem <- kalloc ;;
          if mem =? 0 then ret false else
          memory (fun m => Kstring.memmove m mem (p2v pa) PGSIZE) ;;;
          r <- mappages d i PGSIZE (v2p mem) flags ;;
          if r <? 0 then ret false else
          copyuvm_from fuel' pgdir d (u64 (i + PGSIZE)) sz
      end
  end.

(** The parameter [sz] is a [uint]: the caller's 64-bit size is truncated. *)
Definition copyuvm (pgdir sz64 : Z) : K Z :=
  let sz := u32 sz64 in
  d <- setupkvm ;;
  if d =? 0 then ret 0 else
  ok <- copyuvm_from (Z.to_nat (sz / PGSIZE)) pgdir d PGSIZE sz ;;
  if (ok : bool) then ret d else
  freevm d ;;;
  ret 0.

(** The dereference of [pte] is unchecked: a null pointer faults. *)
Definition uva2ka (pgdir uva : Z) : K Z :=
  o <- walkpgdir pgdir uva false ;;
  match o with
  | None => fault
  | Some pte =>
      ent <- gets (fun k => ld64 (k_mem k) pte) ;;
      if Z.land ent PTE_P =? 0 then ret 0 else
      if Z.land ent PTE_U =? 0 then ret 0 else
      ret (p2v (PTE_ADDR ent))
  end.

(** [while(len > 0)] of copyout, from the bytes [buf] of the kernel's object. *)
Fixpoint copyout_from (fuel : nat) (pgdir va : Z) (buf : list Z) (len : Z) : K Z :=
  if negb (len >? 0) then ret 0 else
  match fuel with
  | O => nofuel
  | S fuel' =>
      let va0 := PGROUNDDOWN va in
      pa0 <- uva2ka pgdir va0 ;;
      if pa0 =? 0 then ret (-1) else
      let n := PGSIZE - (va - va0) in
      let n := if n >? len then len else n in
      memory (fun m => st_bytes m (pa0 + (va - va0)) (take (Z.to_nat n) buf)) ;;;
      copyout_from fuel' pgdir (u64 (va0 + PGSIZE)) (drop (Z.to_nat n) buf) (len - n)
  end.

Definition copyout (pgdir va : Z) (buf : list Z) (len : Z) : K Z :=
  copyout_from (Z.to_nat (len / PGSIZE + 2)) pgdir va buf len.

(** ** Index arithmetic *)

Lemma land_511 va n : 0 <= n -> Z.land (Z.shiftr va n) 511 = (va / 2 ^ n) `mod` 512.
Proof.
  intros Hn. change 511 with (Z.ones 9). rewrite Z.land_ones, Z.shiftr_div_pow2 by lia. done.
Qed.

Lemma px_range va n : 0 <= n -> 0 <= Z.land (Z.shiftr va n) 511 < 512.
Proof. intros Hn. rewrite land_511 by done. by apply Z.mod_pos_bound. Qed.

(** User addresses: the lower half of the canonical range. *)
Definition uva (va : Z) : Prop := 0 <= va < 2 ^ 47.

(** The indices that lead to the page of [va], innermost first. *)
Definition path (va : Z) : list Z := [PTX va; PDX va; PDPX va; PMX va].

Lemma PMX_uva va : uva va -> 0 <= PMX va < 256.
Proof. unfold uva, PMX. intros H. rewrite land_511 by lia. mach. Qed.

(** Two user addresses with the same indices are in the same page. *)
Lemma path_page va vb : uva va -> uva vb -> path va = path vb -> va / 4096 = vb / 4096.
Proof.
  unfold uva, path, PTX, PDX, PDPX, PMX. rewrite !land_511 by lia.
  intros Ha Hb [= E1 E2 E3 E4].
  change (2 ^ 12) with 4096 in *. change (2 ^ 21) with (4096 * 512) in *.
  change (2 ^ 30) with (4096 * 512 * 512) in *. change (2 ^ 39) with (4096 * 512 * 512 * 512) in *.
  rewrite <-!Z.div_div in * by lia.
  change (2 ^ 47) with (4096 * 34359738368) in *.
  assert (0 <= va / 4096 < 34359738368) by (Z.to_euclidean_division_equations; lia).
  assert (0 <= vb / 4096 < 34359738368) by (Z.to_euclidean_division_equations; lia).
  generalize dependent (va / 4096). generalize dependent (vb / 4096). clear.
  intros y Hy x H1 H2 H3 H4 Hx.
  rewrite !Z.div_div in * by lia. cbn in *.
  Z.to_euclidean_division_equations; lia.
Qed.

Lemma path_page_iff va vb :
  uva va -> uva vb -> path va = path vb <-> va / 4096 = vb / 4096.
Proof.
  intros Ha Hb. split; [by apply path_page|]. intros E.
  unfold path, PTX, PDX, PDPX, PMX. rewrite !land_511 by lia.
  change (2 ^ 12) with 4096 in *. change (2 ^ 21) with (4096 * 512).
  change (2 ^ 30) with (4096 * (512 * 512)). change (2 ^ 39) with (4096 * (512 * 512 * 512)).
  rewrite <-!Z.div_div by lia. by rewrite E.
Qed.

(** ** Page table entries *)

Lemma land_page a f : a `mod` 4096 = 0 -> 0 <= f < 4096 -> Z.land a f = 0.
Proof.
  intros Hm Hf. apply Z.bits_inj'. intros n Hn. rewrite Z.land_spec, Z.bits_0.
  replace a with (Z.shiftl (a / 4096) 12)
    by (rewrite Z.shiftl_mul_pow2 by lia; Z.to_euclidean_division_equations; lia).
  destruct (Z.lt_ge_cases n 12).
  - by rewrite Z.shiftl_spec_low by lia.
  - rewrite andb_comm. destruct (decide (f = 0)) as [->|Hf0]; [by rewrite Z.bits_0|].
    rewrite (Z.bits_above_log2 f) by (try apply Z.lt_le_trans with 12; try lia;
      apply Z.log2_lt_pow2; lia). done.
Qed.

Lemma lor_page a f : a `mod` 4096 = 0 -> 0 <= f < 4096 -> Z.lor a f = a + f.
Proof. intros Hm Hf. rewrite <-(Z.add_lor_land a f), land_page by done. lia. Qed.

Lemma present_mod e : present e = (e `mod` 2 =? 1).
Proof.
  unfold present, truth, PTE_P. change 1 with (Z.ones 1) at 1. rewrite Z.land_ones by lia.
  change (2 ^ 1) with 2. pose proof (Z.mod_pos_bound e 2).
  destruct (Z.eqb_spec (e `mod` 2) 0), (Z.eqb_spec (e `mod` 2) 1); simpl; lia.
Qed.

Lemma PTE_FLAGS_mod e : PTE_FLAGS e = e `mod` 4096.
Proof. unfold PTE_FLAGS. change 4095 with (Z.ones 12). by rewrite Z.land_ones by lia. Qed.

Lemma PTE_ADDR_page a f :
  in_u64 a -> a `mod` 4096 = 0 -> 0 <= f < 4096 -> PTE_ADDR (a + f) = a.
Proof.
  intros Ha Hm Hf. unfold PTE_ADDR. rewrite land_pgmask; unfold in_u64 in *;
    change (2 ^ 64) with (4096 * 4503599627370496) in *; Z.to_euclidean_division_equations; lia.
Qed.

Lemma v2p_range k v : page_ok k v -> 0 <= v2p v < PHYSTOP.
Proof. intros H. split; [apply u64_range|apply H]. Qed.

Lemma v2p_page k v : page_ok k v -> v2p v `mod` 4096 = 0.
Proof.
  intros H. pose proof (page_ok_range k v H) as Hr. destruct H as (_ & Hm & _).
  unfold v2p, KERNBASE, PHYSTOP, PGSIZE in *. rewrite u64_small by (unfold in_u64; lia).
  Z.to_euclidean_division_equations; lia.
Qed.

Lemma p2v_v2p v : in_u64 v -> p2v (v2p v) = v.
Proof. unfold p2v, v2p, KERNBASE. mach. Qed.

(** The entry that walkpgdir makes for a new table. *)
Lemma table_entry k t :
  page_ok k t ->
  let e := Z.lor (Z.lor (Z.lor (v2p t) PTE_P) PTE_W) PTE_U in
  in_u64 e /\ present e = true /\ p2v (PTE_ADDR e) = t.
Proof.
  intros Ht e. assert (e = v2p t + 7) as ->.
  { unfold e. rewrite <-!Z.lor_assoc.
    change (Z.lor PTE_P (Z.lor PTE_W PTE_U)) with 7.
    apply lor_page; [by eapply v2p_page|lia]. }
  pose proof (v2p_range k t Ht) as Hr. pose proof (v2p_page k t Ht) as Hm. unfold PHYSTOP in Hr.
  split; [unfold in_u64; lia|]. split.
  - rewrite present_mod. apply Z.eqb_eq. Z.to_euclidean_division_equations; lia.
  - rewrite PTE_ADDR_page by (unfold in_u64; (done || lia)). apply p2v_v2p. apply Ht.
Qed.

(** The entry that mappages makes for a page. *)
Lemma leaf_entry pa perm :
  0 <= pa < 2 ^ 63 -> pa `mod` 4096 = 0 -> 0 <= perm < 4096 ->
  let e := Z.lor (Z.lor pa perm) PTE_P in
  in_u64 e /\ present e = true /\ PTE_ADDR e = pa /\ PTE_FLAGS e = Z.lor perm PTE_P.
Proof.
  intros Hpa Hm Hf e.
  assert (0 <= Z.lor perm PTE_P < 4096) as Hf'.
  { split; [apply Z.lor_nonneg; unfold PTE_P; lia|].
    change 4096 with (2 ^ 12). destruct (decide (Z.lor perm PTE_P = 0)) as [->|]; [lia|].
    apply Z.log2_lt_pow2; [pose proof (Z.lor_nonneg perm PTE_P); unfold PTE_P in *; lia|].
    rewrite Z.log2_lor by (unfold PTE_P; lia). apply Z.max_lub_lt; [|done].
    destruct (decide (perm = 0)) as [->|]; [done|]. apply Z.log2_lt_pow2; lia. }
  assert (e = pa + Z.lor perm PTE_P) as ->.
  { unfold e. rewrite <-Z.lor_assoc. by apply lor_page. }
  split_and!.
  - unfold in_u64. change (2 ^ 64) with (2 * 2 ^ 63). lia.
  - rewrite present_mod.
    assert (Z.lor perm PTE_P `mod` 2 = 1) as E.
    { change 2 with (2 ^ 1). rewrite <-Z.land_ones, Z.land_lor_distr_l by lia.
      change (Z.land PTE_P (Z.ones 1)) with 1. rewrite Z.land_ones by lia.
      change (2 ^ 1) with 2. pose proof (Z.mod_pos_bound perm 2).
      assert (perm `mod` 2 = 0 \/ perm `mod` 2 = 1) as [-> | ->] by lia; done. }
    apply Z.eqb_eq. Z.to_euclidean_division_equations; lia.
  - apply PTE_ADDR_page; [unfold in_u64; change (2 ^ 64) with (2 * 2 ^ 63); lia|done|done].
  - rewrite PTE_FLAGS_mod. Z.to_euclidean_division_equations; lia.
Qed.

(** ** Ownership of tables and frames *)

(** [x] is not in the page [t]. *)
Definition off (t x : Z) : Prop := x < t \/ t + PGSIZE <= x.

Definition idx_ok (p : list Z) (i : Z) : Prop := 0 <= i < 512 /\ (p = [] -> i < 256).

(** Well-formed tables: every present entry of a table (of the root, in its lower
    half) leads to a page that belongs to this address space alone. *)
Record pt_ok (k : kernel) (tabs : gmap (list Z) Z) : Prop := PtOk {
  po_page : forall p t, tabs !! p = Some t -> page_ok k t;
  po_inj : forall p q t, tabs !! p = Some t -> tabs !! q = Some t -> p = q;
  po_closed : forall i p t, tabs !! (i :: p) = Some t ->
    idx_ok p i /\ (length p < 4)%nat /\ is_Some (tabs !! p);
  po_entry : forall p t i, tabs !! p = Some t -> (length p < 4)%nat -> idx_ok p i ->
    tabs !! (i :: p) =
    if present (ld64 (k_mem k) (t + 8 * i))
    then Some (p2v (PTE_ADDR (ld64 (k_mem k) (t + 8 * i)))) else None
}.

(** The pages of an address space. *)
Definition owned (tabs : gmap (list Z) Z) : list Z := (map_to_list tabs).*2.

(** The kernel with the free list [l] and the address space [tabs]; [h] are pages that
    belong to neither: other address spaces, stacks, pages just allocated. *)
Record vm_inv (k : kernel) (tabs : gmap (list Z) Z) (h l : list Z) : Prop := VmInv {
  vi_ready : alloc_ready k l;
  vi_wf : mem_wf (k_mem k);
  vi_pt : pt_ok k tabs;
  vi_held : Forall (page_ok k) h;
  vi_nodup : NoDup (h ++ owned tabs ++ l)
}.

(** What [va] maps to: the present page table entry the MMU finds. *)
Definition pte_slot (m : mem) (pml4 va : Z) : option Z :=
  let next e := let ent := ld64 m e in if present ent then Some (p2v (PTE_ADDR ent)) else None in
  pdp ← next (pml4 + 8 * PMX va);
  pd ← next (pdp + 8 * PDPX va);
  pt ← next (pd + 8 * PDX va);
  Some (pt + 8 * PTX va).

Definition pte_at (m : mem) (pml4 va : Z) : option Z :=
  e ← ld64 m <$> pte_slot m pml4 va;
  if present e then Some e else None.

(** Only the memory, the trace, the allocator's list head and cpu->intena change. *)
Definition kstep (k k' : kernel) : Prop :=
  exists c m h tb, (c = k_cpu k \/ c = settled (k_cpu k)) /\
    k' = set_cpu c (set_trace tb (alloc_state m h k)).

Lemma kstep_refl k : kstep k k.
Proof.
  exists (k_cpu k), (k_mem k), (km_freelist (k_kmem k)), (k_trace k). split; [by left|].
  destruct k as [? ? ? [] ]. done.
Qed.

Lemma kstep_trans k1 k2 k3 : kstep k1 k2 -> kstep k2 k3 -> kstep k1 k3.
Proof.
  intros (c & m & h & tb & Hc & ->) (c' & m' & h' & tb' & Hc' & ->). simpl in *.
  exists c', m', h', tb'. split; [|done].
  destruct Hc as [-> | ->], Hc' as [-> | ->]; rewrite ?settled_idem; auto.
Qed.

Lemma kstep_mem k m : kstep k (set_mem m k).
Proof.
  exists (k_cpu k), m, (km_freelist (k_kmem k)), (k_trace k). split; [by left|].
  destruct k as [? ? ? [] ]. done.
Qed.

Lemma kstep_alloc k tb m h : kstep k (settle (set_trace tb (alloc_state m h k))).
Proof. exists (settled (k_cpu k)), m, h, tb. split; [by right|]. done. Qed.

Lemma kstep_page_ok k k' v : kstep k k' -> page_ok k v <-> page_ok k' v.
Proof. intros (c & m & h & tb & _ & ->). done. Qed.

Lemma ld64_range m a : mem_wf m -> in_u64 (ld64 m a).
Proof.
  intros H. unfold ld64, in_u64. cbn [ld_bytes le_combine].
  repeat match goal with |- context [ld8 m ?x] =>
    let H' := fresh in pose proof (ld8_in_u8 m x H) as H'; unfold in_u8 in H';
    generalize dependent (ld8 m x); intros end.
  pow2_const. lia.
Qed.

(** A table's entries depend on the bytes of the tables only. *)
Lemma pt_ok_frame k k' tabs :
  (forall v, page_ok k v <-> page_ok k' v) ->
  (forall p t x, tabs !! p = Some t -> (length p < 4)%nat -> t <= x < t + PGSIZE ->
     ld8 (k_mem k') x = ld8 (k_mem k) x) ->
  pt_ok k tabs -> pt_ok k' tabs.
Proof.
  intros Hpg Hm [H1 H2 H3 H4]. constructor; try done.
  - intros p t Ht. apply Hpg. by eapply H1.
  - intros p t i Ht Hl Hi. rewrite (ld64_ext (k_mem k) (k_mem k')); [by apply H4|].
    intros x Hx. apply (Hm p t); try done. unfold PGSIZE. destruct Hi. lia.
Qed.

(** The entry of a path, seen through [tabs]. *)
Definition leaf (m : mem) (tabs : gmap (list Z) Z) (q : list Z) : option Z :=
  match q with
  | i :: p =>
      t ← tabs !! p;
      let e := ld64 m (t + 8 * i) in
      if present e then Some e else None
  | [] => None
  end.

Lemma idx_ok_path va : uva va ->
  idx_ok [] (PMX va) /\ idx_ok [PMX va] (PDPX va) /\ idx_ok [PDPX va; PMX va] (PDX va) /\
  idx_ok [PDX va; PDPX va; PMX va] (PTX va).
Proof.
  intros H. unfold idx_ok.
  split_and!; try (intros E; discriminate E);
    try (unfold PDPX, PDX, PTX; apply px_range; lia).
  intros _. by apply PMX_uva.
Qed.

Lemma pte_at_leaf k tabs pml4 va :
  pt_ok k tabs -> tabs !! [] = Some pml4 -> uva va ->
  pte_at (k_mem k) pml4 va = leaf (k_mem k) tabs (path va).
Proof.
  intros Hp Hr Hu. destruct (idx_ok_path va Hu) as (I1 & I2 & I3 & I4).
  unfold pte_at, pte_slot, leaf, path; cbn [fmap option_fmap option_map].
  pose proof (po_entry _ _ Hp [] pml4 _ Hr ltac:(simpl; lia) I1) as E1.
  destruct (present (ld64 (k_mem k) (pml4 + 8 * PMX va))); simpl; [|].
  2: { destruct (tabs !! [PDX va; PDPX va; PMX va]) as [t|] eqn:E; [|done].
       apply (po_closed _ _ Hp) in E as (_ & _ & [t2 E]).
       apply (po_closed _ _ Hp) in E as (_ & _ & [t1 E]). congruence. }
  pose proof (po_entry _ _ Hp _ _ _ E1 ltac:(simpl; lia) I2) as E2.
  destruct (present (ld64 (k_mem k) (_ + 8 * PDPX va))); simpl.
  2: { destruct (tabs !! [PDX va; PDPX va; PMX va]) as [t|] eqn:E; [|done].
       apply (po_closed _ _ Hp) in E as (_ & _ & [t2 E]). congruence. }
  pose proof (po_entry _ _ Hp _ _ _ E2 ltac:(simpl; lia) I3) as E3.
  destruct (present (ld64 (k_mem k) (_ + 8 * PDX va))); simpl; by rewrite E3.
Qed.

Lemma elem_of_owned tabs t : t ∈ owned tabs <-> exists p, tabs !! p = Some t.
Proof.
  unfold owned. rewrite list_elem_of_fmap. split.
  - intros ([p t'] & -> & H%elem_of_map_to_list). by exists p.
  - intros [p H]. exists (p, t). split; [done|]. by apply elem_of_map_to_list.
Qed.

Lemma owned_insert tabs p t : tabs !! p = None -> owned (<[p := t]> tabs) ≡ₚ t :: owned tabs.
Proof. intros H. unfold owned. by rewrite map_to_list_insert. Qed.

Lemma owned_delete tabs p t : tabs !! p = Some t -> owned tabs ≡ₚ t :: owned (delete p tabs).
Proof.
  intros H. rewrite <-(insert_delete_id tabs p t H) at 1.
  rewrite owned_insert; [done|]. apply lookup_delete_eq.
Qed.

(** A page of the address space is neither free nor held; a free page is not held. *)
Lemma vm_tab_not_free k tabs h l p t : vm_inv k tabs h l -> tabs !! p = Some t -> t ∉ l.
Proof.
  intros Hi Ht Hl. pose proof (vi_nodup _ _ _ _ Hi) as Hn.
  apply NoDup_app in Hn as (_ & _ & Hn). apply NoDup_app in Hn as (_ & Hn & _).
  apply (Hn t); [|done]. apply elem_of_owned. by exists p.
Qed.

Lemma vm_tab_not_held k tabs h l p t : vm_inv k tabs h l -> tabs !! p = Some t -> t ∉ h.
Proof.
  intros Hi Ht Hh. pose proof (vi_nodup _ _ _ _ Hi) as Hn.
  apply NoDup_app in Hn as (_ & Hn & _). apply (Hn t); [done|]. apply elem_of_app. left.
  apply elem_of_owned. by exists p.
Qed.

Lemma vm_held_not_free k tabs h l t : vm_inv k tabs h l -> t ∈ h -> t ∉ l.
Proof.
  intros Hi Hh Hl. pose proof (vi_nodup _ _ _ _ Hi) as Hn.
  apply NoDup_app in Hn as (_ & Hn & _). apply (Hn t); [done|]. apply elem_of_app. by right.
Qed.

Lemma vm_free_ok k tabs h l t : vm_inv k tabs h l -> t ∈ l -> page_ok k t.
Proof. intros Hi Ht. exact (proj1 (Forall_forall _ _) (fl_pages _ _ (ar_free _ _ (vi_ready _ _ _ _ Hi))) t Ht). Qed.

Lemma off_page k v w x :
  page_ok k v -> page_ok k w -> v <> w -> v <= x < v + PGSIZE -> off w x.
Proof. intros Hv Hw Hne Hx. unfold off. destruct (pages_disjoint k v w Hv Hw Hne); lia. Qed.

(** The allocator is ready as long as nobody writes to the free pages. *)
Lemma alloc_ready_mem k l m :
  alloc_ready k l ->
  (forall p x, p ∈ l -> p <= x < p + PGSIZE -> ld8 m x = ld8 (k_mem k) x) ->
  alloc_ready (set_mem m k) l.
Proof.
  intros [Ht Hl Hu [Hc Hn Hp]] Hm. constructor; try done; [by destruct Ht|].
  constructor; try done. simpl. apply (chain_ext (k_mem k)); [|done].
  intros p Hpl. apply ld64_ext. intros x Hx. apply (Hm p); [done|]. unfold PGSIZE. lia.
Qed.

(** What building user mappings leaves alone of the table [t]: all but its page, and the
    kernel's half of the root. *)
Definition spared (p : list Z) (t x : Z) : Prop := off t x \/ (p = [] /\ t + 8 * 256 <= x < t + PGSIZE).

(** What the table-allocating routines leave: ownership moves between the held pages,
    the address space and the free list, and only tables and free pages are written. *)
Record vm_post (k : kernel) (tabs : gmap (list Z) Z) (h l : list Z)
    (k' : kernel) (tabs' : gmap (list Z) Z) (h' l' : list Z) : Prop := VmPost {
  vp_inv : vm_inv k' tabs' h' l';
  vp_step : kstep k k';
  vp_own : h' ++ owned tabs' ++ l' ≡ₚ h ++ owned tabs ++ l;
  vp_free : l' ⊆ l;
  vp_tabs : forall p t, tabs' !! p = Some t -> (length p < 4)%nat -> tabs !! p = Some t \/ t ∈ l;
  vp_frame : forall x, (forall t, t ∈ l -> off t x) ->
    (forall p t, tabs !! p = Some t -> (length p < 4)%nat -> spared p t x) ->
    ld8 (k_mem k') x = ld8 (k_mem k) x
}.

Lemma vm_post_refl k tabs h l : vm_inv k tabs h l -> vm_post k tabs h l k tabs h l.
Proof. intros H. constructor; try done; [apply kstep_refl|]. auto. Qed.

Lemma vm_post_trans k tabs h l k1 tabs1 h1 l1 k2 tabs2 h2 l2 :
  vm_post k tabs h l k1 tabs1 h1 l1 -> vm_post k1 tabs1 h1 l1 k2 tabs2 h2 l2 ->
  vm_post k tabs h l k2 tabs2 h2 l2.
Proof.
  intros [I1 S1 O1 F1 T1 R1] [I2 S2 O2 F2 T2 R2]. constructor.
  - done.
  - by eapply kstep_trans.
  - by rewrite O2.
  - by transitivity l1.
  - intros p t Ht Hl. destruct (T2 p t Ht Hl) as [H|H]; [by apply T1|right; by apply F1].
  - intros x Hl Ht. rewrite R2, R1; try done.
    + intros t Hlt. apply Hl. by apply F1.
    + intros p t Hpt Hlen. destruct (T1 p t Hpt Hlen) as [H|H]; [by eapply Ht|left; by apply Hl].
Qed.

Lemma walk_level_found k tabs p t i c alloc :
  pt_ok k tabs -> tabs !! p = Some t -> (length p < 4)%nat -> idx_ok p i ->
  tabs !! (i :: p) = Some c -> walk_level (t + 8 * i) alloc k = Ok (Some c) k.
Proof.
  intros Hp Ht Hl Hi Hc. pose proof (po_entry _ _ Hp _ _ _ Ht Hl Hi) as E.
  unfold walk_level. kr. rewrite Hc in E. destruct (present _); [|done]. by injection E as <-.
Qed.

Lemma walk_level_none k tabs p t i :
  pt_ok k tabs -> tabs !! p = Some t -> (length p < 4)%nat -> idx_ok p i ->
  tabs !! (i :: p) = None -> walk_level (t + 8 * i) false k = Ok None k.
Proof.
  intros Hp Ht Hl Hi Hc. pose proof (po_entry _ _ Hp _ _ _ Ht Hl Hi) as E.
  unfold walk_level. kr. rewrite Hc in E. by destruct (present _).
Qed.

(** The memory after a table page [v] was zeroed and hooked into the entry at [e]. *)
Definition hook_mem (m : mem) (v e ent : Z) : mem :=
  st64 (Kstring.memset m v 0 PGSIZE) e ent.

Arguments hook_mem : simpl never.

Lemma hook_mem_frame m v e ent x :
  off v x -> x < e \/ e + 8 <= x -> ld8 (hook_mem m v e ent) x = ld8 m x.
Proof.
  unfold off, hook_mem, st64, PGSIZE. intros Hv He.
  rewrite ld8_st_bytes, length_le_split, decide_False by lia.
  rewrite memset_ld8, decide_False by lia. done.
Qed.

Lemma hook_mem_zero m v e ent a :
  v <= a -> a + 8 <= v + PGSIZE -> a + 8 <= e \/ e + 8 <= a -> ld64 (hook_mem m v e ent) a = 0.
Proof.
  intros Ha Hb He. unfold hook_mem. rewrite ld64_st64_ne by lia.
  unfold ld64. rewrite (ld_bytes_ext ∅); [done|]. intros x Hx.
  rewrite memset_ld8, decide_True by (unfold PGSIZE in *; lia). done.
Qed.

(** Two entries of tables are the same word or disjoint. *)
Lemma entries_disjoint k tabs p t i q t' j :
  pt_ok k tabs -> tabs !! p = Some t -> tabs !! q = Some t' ->
  0 <= i < 512 -> 0 <= j < 512 -> j :: q <> i :: p ->
  t' + 8 * j + 8 <= t + 8 * i \/ t + 8 * i + 8 <= t' + 8 * j.
Proof.
  intros Hp Ht Ht' Hi Hj Hne. destruct (decide (q = p)) as [->|Hpq].
  - assert (t' = t) as -> by congruence. assert (i <> j) by congruence. lia.
  - assert (t <> t') as Htt by (intros ->; apply Hpq; by eapply (po_inj _ _ Hp)).
    destruct (pages_disjoint k t t'); try done; try (by eapply (po_page _ _ Hp));
      unfold PGSIZE in *; lia.
Qed.

(** An entry lies in the page of its table. *)
Lemma entry_in_page k tabs p t i x :
  0 <= i < 512 -> t + 8 * i <= x < t + 8 * i + 8 -> pt_ok k tabs -> tabs !! p = Some t ->
  t <= x < t + PGSIZE.
Proof. unfold PGSIZE. lia. Qed.

(** Filling an empty entry: the page [v] joins the address space.  A table must be
    zero. *)
Lemma pt_ok_insert k m' tabs p t i v :
  pt_ok k tabs -> page_ok k v -> v ∉ owned tabs ->
  tabs !! p = Some t -> (length p < 4)%nat -> idx_ok p i -> tabs !! (i :: p) = None ->
  present (ld64 m' (t + 8 * i)) = true -> p2v (PTE_ADDR (ld64 m' (t + 8 * i))) = v ->
  (forall q t' j, tabs !! q = Some t' -> (length q < 4)%nat -> 0 <= j < 512 ->
     j :: q <> i :: p -> ld64 m' (t' + 8 * j) = ld64 (k_mem k) (t' + 8 * j)) ->
  ((length p < 3)%nat -> forall j, 0 <= j < 512 -> ld64 m' (v + 8 * j) = 0) ->
  pt_ok (set_mem m' k) (<[i :: p := v]> tabs).
Proof.
  intros Hp Hv Hno Ht Hl Hi Hn He2 He3 Hsame Hzero.
  assert (forall q t', tabs !! q = Some t' -> t' <> v) as Hnv.
  { intros q t' Hq ->. apply Hno, elem_of_owned. by exists q. }
  constructor.
  - intros q t' Hq. apply lookup_insert_Some in Hq as [[<- <-]|[_ Hq]]; [done|].
    by eapply (po_page _ _ Hp).
  - intros q1 q2 t' H1 H2.
    apply lookup_insert_Some in H1 as [[<- <-]|[_ H1]];
    apply lookup_insert_Some in H2 as [[<- E]|[_ H2]]; try done.
    + by apply Hnv in H2.
    + subst. by apply Hnv in H1.
    + by eapply (po_inj _ _ Hp).
  - intros j q t' Hq. apply lookup_insert_Some in Hq as [[[= <- <-] <-]|[_ Hq]].
    + split; [done|]. split; [lia|]. destruct (decide (p = i :: p)) as [E|E].
      * apply (f_equal length) in E. simpl in E. lia.
      * rewrite lookup_insert_ne by done. by exists t.
    + apply (po_closed _ _ Hp) in Hq as (H1 & H2 & [t2 H3]). split_and!; try done.
      destruct (decide (q = i :: p)) as [->|E]; [by rewrite lookup_insert_eq|].
      rewrite lookup_insert_ne by done. by exists t2.
  - intros q t' j Hq Hlq Hj. cbn [k_mem set_mem].
    apply lookup_insert_Some in Hq as [[<- <-]|[Hne Hq]].
    + rewrite Hzero by (try apply Hj; simpl in Hlq; lia). rewrite lookup_insert_ne.
      2: { intros E. apply (f_equal length) in E. simpl in E. lia. }
      destruct (tabs !! (j :: i :: p)) as [c|] eqn:E; [|done].
      apply (po_closed _ _ Hp) in E as (_ & _ & [? E]). congruence.
    + destruct (decide (j :: q = i :: p)) as [[= -> ->]|E].
      * assert (t' = t) as -> by congruence. rewrite lookup_insert_eq. by rewrite He2, He3.
      * rewrite lookup_insert_ne by done. rewrite (Hsame q) by (done || apply Hj).
        by apply (po_entry _ _ Hp).
Qed.

(** Hooking a new table into an empty entry. *)
Lemma pt_ok_hook k tabs p t i v ent :
  pt_ok k tabs -> page_ok k v -> v ∉ owned tabs ->
  tabs !! p = Some t -> (length p < 3)%nat -> idx_ok p i -> tabs !! (i :: p) = None ->
  in_u64 ent -> present ent = true -> p2v (PTE_ADDR ent) = v ->
  let m' := hook_mem (k_mem k) v (t + 8 * i) ent in
  pt_ok (set_mem m' k) (<[i :: p := v]> tabs) /\
  forall j q, length q = 3%nat -> 0 <= j < 512 ->
    leaf m' (<[i :: p := v]> tabs) (j :: q) = leaf (k_mem k) tabs (j :: q).
Proof.
  intros Hp Hv Hno Ht Hl Hi Hn He1 He2 He3 m'.
  assert (forall q t', tabs !! q = Some t' -> t' <> v) as Hnv.
  { intros q t' Hq ->. apply Hno, elem_of_owned. by exists q. }
  assert (forall q t' j, tabs !! q = Some t' -> 0 <= j < 512 -> j :: q <> i :: p ->
            ld64 m' (t' + 8 * j) = ld64 (k_mem k) (t' + 8 * j)) as Hsame.
  { intros q t' j Hq Hj Hne. apply ld64_ext. intros x Hx. apply hook_mem_frame.
    - apply (off_page k t'); [by eapply (po_page _ _ Hp)|done|by eapply Hnv|].
      by eapply entry_in_page.
    - destruct (entries_disjoint k tabs p t i q t' j); try done; [apply Hi|lia|lia]. }
  assert (forall j, 0 <= j < 512 -> ld64 m' (v + 8 * j) = 0) as Hzero.
  { intros j Hj. apply hook_mem_zero; [lia|unfold PGSIZE; lia|].
    pose proof (pages_disjoint k t v (po_page _ _ Hp _ _ Ht) Hv (Hnv _ _ Ht)) as Hd.
    unfold PGSIZE in Hd. destruct Hi as [Hi _]. lia. }
  assert (ld64 m' (t + 8 * i) = ent) as Hent by by apply ld64_st64_same.
  split.
  - apply (pt_ok_insert _ _ _ _ t); rewrite ?Hent; try done; [lia|eauto].
  - intros j q Hlq Hj. cbn [leaf]. destruct (decide (q = i :: p)) as [->|E].
    + rewrite lookup_insert_eq, Hn. cbn [mbind option_bind]. by rewrite Hzero.
    + rewrite lookup_insert_ne by done. destruct (tabs !! q) as [t'|] eqn:Eq; [|done].
      cbn [mbind option_bind]. rewrite (Hsame q) by (done || intros [= _ ->]; lia). done.
Qed.

(** Writing the entry of a page in an existing page table. *)
Lemma pt_ok_map k tabs p t i v ent :
  pt_ok k tabs -> page_ok k v -> v ∉ owned tabs ->
  tabs !! p = Some t -> length p = 3%nat -> idx_ok p i -> tabs !! (i :: p) = None ->
  in_u64 ent -> present ent = true -> p2v (PTE_ADDR ent) = v ->
  let m' := st64 (k_mem k) (t + 8 * i) ent in
  pt_ok (set_mem m' k) (<[i :: p := v]> tabs) /\
  forall j q, length q = 3%nat -> 0 <= j < 512 ->
    leaf m' (<[i :: p := v]> tabs) (j :: q) =
    if decide (j :: q = i :: p) then Some ent else leaf (k_mem k) tabs (j :: q).
Proof.
  intros Hp Hv Hno Ht Hl Hi Hn He1 He2 He3 m'.
  assert (forall q t' j, tabs !! q = Some t' -> 0 <= j < 512 -> j :: q <> i :: p ->
            ld64 m' (t' + 8 * j) = ld64 (k_mem k) (t' + 8 * j)) as Hsame.
  { intros q t' j Hq Hj Hne. apply ld64_st64_ne.
    destruct (entries_disjoint k tabs p t i q t' j); try done; [apply Hi|lia|lia]. }
  assert (ld64 m' (t + 8 * i) = ent) as Hent by by apply ld64_st64_same.
  split.
  - apply (pt_ok_insert _ _ _ _ t); rewrite ?Hent; try done; [lia|eauto|lia].
  - intros j q Hlq Hj. cbn [leaf]. rewrite lookup_insert_ne by (intros <-; simpl in Hlq; lia).
    case_decide as E.
    + injection E as -> ->. rewrite Ht. cbn [mbind option_bind]. by rewrite Hent, He2.
    + destruct (tabs !! q) as [t'|] eqn:Eq; [|done].
      cbn [mbind option_bind]. by rewrite (Hsame q).
Qed.

(** Creating a table: it comes from the head of the free list. *)
Lemma walk_level_alloc k tabs h v l p t i :
  vm_inv k tabs h (v :: l) -> tabs !! p = Some t -> (length p < 3)%nat -> idx_ok p i ->
  tabs !! (i :: p) = None ->
  exists k', walk_level (t + 8 * i) true k = Ok (Some v) k' /\
    vm_post k tabs h (v :: l) k' (<[i :: p := v]> tabs) h l /\
    forall j q, length q = 3%nat -> 0 <= j < 512 ->
      leaf (k_mem k') (<[i :: p := v]> tabs) (j :: q) = leaf (k_mem k) tabs (j :: q).
Proof.
  intros Hi Ht Hl Hx Hn.
  pose proof (vi_pt _ _ _ _ Hi) as Hp. pose proof (vi_wf _ _ _ _ Hi) as Hw.
  assert (page_ok k v) as Hv by (eapply vm_free_ok; [exact Hi|apply elem_of_cons; by left]).
  assert (page_ok k t) as Htk by (by eapply (po_page _ _ Hp)).
  assert (v ∉ owned tabs) as Hno.
  { intros [q Hq]%elem_of_owned. eapply vm_tab_not_free; [exact Hi|exact Hq|]. apply elem_of_cons. by left. }
  destruct (kalloc_run k l v (vi_ready _ _ _ _ Hi)) as (k1 & tb & Ek & E & Ha & _).
  destruct (table_entry k v Hv) as (He1 & He2 & He3).
  set (ent := Z.lor (Z.lor (Z.lor (v2p v) PTE_P) PTE_W) PTE_U) in *.
  set (m' := hook_mem (k_mem k) v (t + 8 * i) ent).
  destruct (pt_ok_hook k tabs p t i v ent) as [Hp' Hleaf]; try done. fold m' in Hp', Hleaf.
  assert (forall x, off v x -> spared p t x -> ld8 m' x = ld8 (k_mem k) x) as Hfr.
  { intros x H1 H2. apply hook_mem_frame; [done|]. destruct Hx as [Hx Hx0].
    destruct H2 as [H2|[Hp0 H2]]; [unfold off, PGSIZE in H2; lia|]. specialize (Hx0 Hp0). lia. }
  pose proof (po_entry _ _ Hp _ _ _ Ht ltac:(lia) Hx) as Eent. rewrite Hn in Eent.
  exists (set_mem m' k1). split; [|split].
  - unfold walk_level. kr. destruct (present (ld64 (k_mem k) (t + 8 * i))); [done|].
    cbn [negb]. rewrite E. kr. rewrite (proj2 (Z.eqb_neq v 0)) by (by eapply page_ok_nonzero).
    unfold memory. kr. subst k1. reflexivity.
  - constructor.
    + constructor.
      * apply alloc_ready_mem; [done|]. intros q x Hq Hqx.
        assert (page_ok k q) as Hqk by (eapply vm_free_ok; [exact Hi|apply elem_of_cons; by right]).
        subst k1. apply Hfr.
        -- apply (off_page k q); try done. intros ->.
           pose proof (fl_nodup _ _ (ar_free _ _ (vi_ready _ _ _ _ Hi))) as Hnd.
           by apply NoDup_cons in Hnd as [? _].
        -- left. apply (off_page k q); try done. intros ->.
           eapply vm_tab_not_free; [exact Hi|exact Ht|]. apply elem_of_cons. by right.
      * unfold m', hook_mem, st64. cbn [k_mem set_mem]. auto with mach.
      * subst k1. by apply (pt_ok_frame (set_mem m' k)).
      * subst k1. exact (vi_held _ _ _ _ Hi).
      * rewrite owned_insert by done. pose proof (vi_nodup _ _ _ _ Hi) as Hnd.
        simpl. by rewrite (Permutation_middle (owned tabs) l v).
    + eapply kstep_trans; [|apply kstep_mem]. rewrite Ek. apply kstep_alloc.
    + rewrite owned_insert by done. simpl. by rewrite (Permutation_middle (owned tabs) l v).
    + by apply list_subseteq_cons.
    + intros q t' Hq _. apply lookup_insert_Some in Hq as [[_ <-]|[_ Hq]]; [|by left].
      right. apply elem_of_cons. by left.
    + intros x H1 H2. apply Hfr; [apply H1; apply elem_of_cons; by left|].
      eapply H2; [exact Ht|lia].
  - subst k1. exact Hleaf.
Qed.

(** One level of the walk with allocation, found or created. *)
Definition new_at (tabs : gmap (list Z) Z) (q : list Z) : nat :=
  match tabs !! q with Some _ => 0 | None => 1 end.

Lemma walk_level_create k tabs h l p t i :
  vm_inv k tabs h l -> tabs !! p = Some t -> (length p < 3)%nat -> idx_ok p i ->
  (new_at tabs (i :: p) <= length l)%nat ->
  exists c k' tabs' l', walk_level (t + 8 * i) true k = Ok (Some c) k' /\
    tabs' !! (i :: p) = Some c /\ tabs ⊆ tabs' /\
    (forall q, q <> i :: p -> tabs' !! q = tabs !! q) /\
    length l = (new_at tabs (i :: p) + length l')%nat /\
    vm_post k tabs h l k' tabs' h l' /\
    forall j q, length q = 3%nat -> 0 <= j < 512 ->
      leaf (k_mem k') tabs' (j :: q) = leaf (k_mem k) tabs (j :: q).
Proof.
  intros Hi Ht Hl Hx Hlen. unfold new_at in *. destruct (tabs !! (i :: p)) as [c|] eqn:E.
  - exists c, k, tabs, l. split_and!; try done.
    + eapply walk_level_found; try done; [apply Hi|lia].
    + by apply vm_post_refl.
  - destruct l as [|v l]; [simpl in Hlen; lia|].
    destruct (walk_level_alloc k tabs h v l p t i) as (k' & E' & Hpost & Hleaf); try done.
    exists v, k', (<[i :: p := v]> tabs), l. split_and!; try done.
    + apply lookup_insert_eq.
    + by apply insert_subseteq.
    + intros q Hq. by rewrite lookup_insert_ne.
Qed.

(** walkpgdir with alloc: it returns the slot of [va] in a page table that exists
    afterwards, taking one page from the free list for each missing table, and maps
    nothing. *)
Definition tables_missing (tabs : gmap (list Z) Z) (va : Z) : nat :=
  new_at tabs [PMX va] + new_at tabs [PDPX va; PMX va] +
  new_at tabs [PDX va; PDPX va; PMX va].

Lemma new_at_ne tabs tabs' q q' :
  (forall r, r <> q -> tabs' !! r = tabs !! r) -> q' <> q -> new_at tabs' q' = new_at tabs q'.
Proof. intros H Hq. unfold new_at. by rewrite H. Qed.

Lemma walkpgdir_create k tabs h l pml4 va :
  vm_inv k tabs h l -> tabs !! [] = Some pml4 -> uva va ->
  (tables_missing tabs va <= length l)%nat ->
  exists t3 k' tabs' l', walkpgdir pml4 va true k = Ok (Some (t3 + 8 * PTX va)) k' /\
    tabs' !! [PDX va; PDPX va; PMX va] = Some t3 /\ tabs ⊆ tabs' /\
    (forall q, length q = 4%nat -> tabs' !! q = tabs !! q) /\
    length l = (tables_missing tabs va + length l')%nat /\
    vm_post k tabs h l k' tabs' h l' /\
    forall j q, length q = 3%nat -> 0 <= j < 512 ->
      leaf (k_mem k') tabs' (j :: q) = leaf (k_mem k) tabs (j :: q).
Proof.
  intros Hi Hr Hu Hlen. unfold tables_missing in *.
  destruct (idx_ok_path va Hu) as (I1 & I2 & I3 & I4).
  destruct (walk_level_create k tabs h l [] pml4 (PMX va)) as
    (t1 & k1 & tabs1 & l1 & E1 & T1 & S1 & Q1 & L1 & P1 & F1); try done; [simpl; lia|lia|].
  assert (new_at tabs1 [PDPX va; PMX va] = new_at tabs [PDPX va; PMX va]) as N2
    by by apply (new_at_ne _ _ _ _ Q1).
  destruct (walk_level_create k1 tabs1 h l1 [PMX va] t1 (PDPX va)) as
    (t2 & k2 & tabs2 & l2 & E2 & T2 & S2 & Q2 & L2 & P2 & F2); try done;
    [apply P1|simpl; lia|lia|].
  assert (new_at tabs2 [PDX va; PDPX va; PMX va] = new_at tabs [PDX va; PDPX va; PMX va]) as N3.
  { etransitivity; [by apply (new_at_ne _ _ _ _ Q2)|by apply (new_at_ne _ _ _ _ Q1)]. }
  destruct (walk_level_create k2 tabs2 h l2 [PDPX va; PMX va] t2 (PDX va)) as
    (t3 & k3 & tabs3 & l3 & E3 & T3 & S3 & Q3 & L3 & P3 & F3); try done;
    [apply P2|simpl; lia|lia|].
  exists t3, k3, tabs3, l3. split_and!; try done.
  - unfold walkpgdir. krun E1. krun E2. krun E3. done.
  - etransitivity; [exact S1|]. by etransitivity.
  - intros q Hq. rewrite Q3, Q2, Q1; [done| | |]; intros ->; simpl in Hq; lia.
  - lia.
  - eapply vm_post_trans; [exact P1|]. by eapply vm_post_trans.
  - intros j q Hq Hj. by rewrite F3, F2, F1.
Qed.

(** walkpgdir without alloc changes nothing and finds what the MMU finds. *)
Lemma walk_level_pure k e :
  walk_level e false k =
  Ok (if present (ld64 (k_mem k) e) then Some (p2v (PTE_ADDR (ld64 (k_mem k) e))) else None) k.
Proof. unfold walk_level. kr. by destruct (present _). Qed.

Lemma walkpgdir_pure k pml4 va : walkpgdir pml4 va false k = Ok (pte_slot (k_mem k) pml4 va) k.
Proof.
  unfold walkpgdir, pte_slot. kr. rewrite walk_level_pure. destruct (present _); [|done]. kr.
  cbn [mbind option_bind]. rewrite walk_level_pure. destruct (present _); [|done]. kr.
  cbn [mbind option_bind]. rewrite walk_level_pure. by destruct (present _).
Qed.

Lemma kstep_kend k k' : kstep k k' -> km_end (k_kmem k') = km_end (k_kmem k).
Proof. intros (c & m & h & tb & _ & ->). done. Qed.

(** One round of mappages' loop: the page [v], held by the caller, becomes the page
    of [va]. *)
Lemma map_one k tabs h l pml4 va v perm n last :
  vm_inv k tabs (v :: h) l -> tabs !! [] = Some pml4 -> uva va ->
  (tables_missing tabs va <= length l)%nat -> tabs !! path va = None -> 0 <= perm < 4096 ->
  exists k' tabs' l' ent,
    mappages_from n pml4 va last (v2p v) perm k =
      (if va =? last then ret 0 else
       match n with
       | O => nofuel
       | S n' => mappages_from n' pml4 (u64 (va + PGSIZE)) last (u64 (v2p v + PGSIZE)) perm
       end) k' /\
    vm_post k tabs (v :: h) l k' (<[path va := v]> tabs') h l' /\ tabs ⊆ tabs' /\
    (forall q, length q = 4%nat -> tabs' !! q = tabs !! q) /\
    length l = (tables_missing tabs va + length l')%nat /\
    PTE_ADDR ent = v2p v /\ PTE_FLAGS ent = Z.lor perm PTE_P /\
    forall j q, length q = 3%nat -> 0 <= j < 512 ->
      leaf (k_mem k') (<[path va := v]> tabs') (j :: q) =
      if decide (j :: q = path va) then Some ent else leaf (k_mem k) tabs (j :: q).
Proof.
  intros Hi Hr Hu Hlen Hnone Hperm.
  destruct (walkpgdir_create k tabs (v :: h) l pml4 va) as
    (t3 & k1 & tabs1 & l1 & E1 & T1 & S1 & Q1 & L1 & P1 & F1); try done.
  pose proof (vp_inv _ _ _ _ _ _ _ _ P1) as I1. pose proof (vi_pt _ _ _ _ I1) as Hp1.
  destruct (idx_ok_path va Hu) as (_ & _ & _ & I4).
  assert (page_ok k1 v) as Hv by exact (Forall_inv (vi_held _ _ _ _ I1)).
  set (ent := Z.lor (Z.lor (v2p v) perm) PTE_P).
  destruct (leaf_entry (v2p v) perm) as (He1 & He2 & He3 & He4); try done.
  { pose proof (v2p_range _ _ Hv). unfold PHYSTOP in *. lia. }
  { by eapply v2p_page. }
  fold ent in He1, He2, He3, He4.
  assert (v ∉ owned tabs1) as Hno.
  { intros [q Hq]%elem_of_owned. eapply vm_tab_not_held; [exact I1|exact Hq|]. apply elem_of_cons. by left. }
  assert (tabs1 !! path va = None) as Hnone1 by (rewrite Q1; done).
  destruct (pt_ok_map k1 tabs1 [PDX va; PDPX va; PMX va] t3 (PTX va) v ent) as [Hp2 F2]; try done.
  { rewrite He3. apply p2v_v2p. apply Hv. }
  set (m2 := st64 (k_mem k1) (t3 + 8 * PTX va) ent) in *.
  exists (set_mem m2 k1), tabs1, l1, ent. split_and!; try done.
  - assert (present (ld64 (k_mem k1) (t3 + 8 * PTX va)) = false) as Habs.
    { pose proof (po_entry _ _ Hp1 _ _ _ T1 ltac:(simpl; lia) I4) as E.
      change [PTX va; PDX va; PDPX va; PMX va] with (path va) in E. rewrite Hnone1 in E.
      destruct (present (ld64 (k_mem k1) _)); [discriminate E|done]. }
    destruct n; cbn [mappages_from]; krun E1; kr; rewrite Habs; unfold memory; kr; done.
  - pose proof P1 as [_ S0 O0 Fr0 T0 R0]. pose proof I1 as [Ha Hw _ Hh Hnd]. constructor.
    + constructor; try done.
      * apply alloc_ready_mem; [done|]. intros q x Hq Hqx. unfold m2, st64.
        rewrite ld8_st_bytes, length_le_split, decide_False; [done|].
        assert (t3 <> q) by (intros ->; by eapply vm_tab_not_free).
        pose proof (pages_disjoint k1 t3 q (po_page _ _ Hp1 _ _ T1)
                     (vm_free_ok _ _ _ _ _ I1 Hq) ltac:(done)) as Hd.
        unfold PGSIZE in *. destruct I4 as [I4 _]. lia.
      * unfold m2, st64. cbn [k_mem set_mem]. auto with mach.
      * by apply Forall_cons in Hh as [_ Hh].
      * rewrite owned_insert by done. simpl. simpl in Hnd.
        by rewrite <-(Permutation_middle h (owned tabs1 ++ l1) v).
    + eapply kstep_trans; [exact S0|apply kstep_mem].
    + rewrite owned_insert by done. rewrite <-O0. simpl.
      by rewrite <-(Permutation_middle h (owned tabs1 ++ l1) v).
    + done.
    + intros q t' Hq Hlq. rewrite lookup_insert_ne in Hq by (intros <-; simpl in Hlq; lia).
      by apply T0.
    + intros x H1 H2. cbn [k_mem set_mem]. unfold m2, st64.
      rewrite ld8_st_bytes, length_le_split, decide_False; [by apply R0|].
      assert (off t3 x) as Hoff.
      { destruct (T0 _ _ T1) as [Hq|Hq]; [simpl; lia| |by apply H1].
        destruct (H2 _ _ Hq) as [?|[? _]]; [simpl; lia|done|done]. }
      unfold off, PGSIZE in Hoff. destruct I4 as [I4 _]. lia.
  - intros j q Hq Hj. change (path va) with [PTX va; PDX va; PDPX va; PMX va].
    cbn [k_mem set_mem]. rewrite F2 by done. case_decide; [done|]. by apply F1.
Qed.

(** Frames and held pages keep their contents while tables are built. *)
Lemma vm_post_frame_page k tabs h l k' tabs' h' l' p f x :
  vm_inv k tabs h l -> vm_post k tabs h l k' tabs' h' l' ->
  tabs !! p = Some f -> length p = 4%nat -> f <= x < f + PGSIZE ->
  ld8 (k_mem k') x = ld8 (k_mem k) x.
Proof.
  intros Hi Hpost Hf Hl Hx. pose proof (vi_pt _ _ _ _ Hi) as Hp.
  apply (vp_frame _ _ _ _ _ _ _ _ Hpost).
  - intros t Ht. apply (off_page k f); [by eapply (po_page _ _ Hp)|by eapply vm_free_ok| |done].
    intros ->. by eapply vm_tab_not_free.
  - intros q t Ht Hlq. left. apply (off_page k f); [by eapply (po_page _ _ Hp)..| |done].
    intros ->. assert (p = q) as -> by by eapply (po_inj _ _ Hp). lia.
Qed.

Lemma vm_post_held_page k tabs h l k' tabs' h' l' f x :
  vm_inv k tabs h l -> vm_post k tabs h l k' tabs' h' l' ->
  f ∈ h -> f <= x < f + PGSIZE -> ld8 (k_mem k') x = ld8 (k_mem k) x.
Proof.
  intros Hi Hpost Hf Hx. pose proof (vi_pt _ _ _ _ Hi) as Hp.
  assert (page_ok k f) as Hfk by exact (proj1 (Forall_forall _ _) (vi_held _ _ _ _ Hi) f Hf).
  apply (vp_frame _ _ _ _ _ _ _ _ Hpost).
  - intros t Ht. apply (off_page k f); [done|by eapply vm_free_ok| |done].
    intros ->. by eapply vm_held_not_free.
  - intros q t Ht Hlq. left. apply (off_page k f); [done|by eapply (po_page _ _ Hp)| |done].
    intros ->. by eapply vm_tab_not_held.
Qed.

(** kalloc hands the head of the free list to the caller. *)
Lemma kalloc_hold k tabs h v l :
  vm_inv k tabs h (v :: l) ->
  exists k1, kalloc k = Ok v k1 /\ k_mem k1 = k_mem k /\
    vm_post k tabs h (v :: l) k1 tabs (v :: h) l.
Proof.
  intros Hi. destruct (kalloc_run k l v (vi_ready _ _ _ _ Hi)) as (k1 & tb & Ek & E & Ha & _).
  exists k1. split; [done|]. split; [by subst|].
  assert (h ++ owned tabs ++ v :: l ≡ₚ (v :: h) ++ owned tabs ++ l) as Hperm.
  { rewrite <-(Permutation_middle (owned tabs) l v). by rewrite <-Permutation_middle. }
  constructor.
  - constructor; [done|subst; apply Hi| | |].
    + apply (pt_ok_frame k); [by subst|by subst|apply Hi].
    + assert (page_ok k v) as Hv by (eapply vm_free_ok; [exact Hi|apply elem_of_cons; by left]).
      subst. constructor; [exact Hv|exact (vi_held _ _ _ _ Hi)].
    + rewrite <-Hperm. apply Hi.
  - rewrite Ek. apply kstep_alloc.
  - by rewrite Hperm.
  - by apply list_subseteq_cons.
  - auto.
  - intros x _ _. by subst.
Qed.

Lemma leaf_ext k m' tabs j q :
  pt_ok k tabs -> length q = 3%nat -> 0 <= j < 512 ->
  (forall t x, tabs !! q = Some t -> t <= x < t + PGSIZE -> ld8 m' x = ld8 (k_mem k) x) ->
  leaf m' tabs (j :: q) = leaf (k_mem k) tabs (j :: q).
Proof.
  intros Hp Hl Hj Hm. cbn [leaf]. destruct (tabs !! q) as [t|] eqn:E; [|done].
  cbn [mbind option_bind]. rewrite (ld64_ext (k_mem k)); [done|].
  intros x Hx. apply (Hm t); [done|]. unfold PGSIZE. lia.
Qed.

(** The caller fills the page it was given. *)
Lemma vm_post_fill k tabs h v l k1 m' :
  vm_post k tabs h (v :: l) k1 tabs (v :: h) l ->
  (forall x, off v x -> ld8 m' x = ld8 (k_mem k1) x) -> mem_wf m' ->
  vm_post k tabs h (v :: l) (set_mem m' k1) tabs (v :: h) l /\
  forall j q, length q = 3%nat -> 0 <= j < 512 ->
    leaf m' tabs (j :: q) = leaf (k_mem k1) tabs (j :: q).
Proof.
  intros [Hi S O F T R] Hm Hw. pose proof Hi as [Ha _ Hp Hh Hnd].
  assert (page_ok k1 v) as Hv by exact (Forall_inv Hh).
  assert (v ∈ v :: h) as Hvh by (apply elem_of_cons; by left).
  assert (forall p t x, tabs !! p = Some t -> t <= x < t + PGSIZE ->
            ld8 m' x = ld8 (k_mem k1) x) as Htab.
  { intros p t x Ht Hx. apply Hm. apply (off_page k1 t); try done; [by eapply (po_page _ _ Hp)|].
    intros ->. by eapply vm_tab_not_held. }
  split.
  - constructor; try done.
    + constructor; try done.
      * apply alloc_ready_mem; [done|]. intros p x Hpl Hx. apply Hm.
        apply (off_page k1 p); [by eapply vm_free_ok|done| |done].
        intros ->. by eapply vm_held_not_free.
      * apply (pt_ok_frame k1); try done. intros p t x Ht _ Hx. by eapply Htab.
    + eapply kstep_trans; [exact S|apply kstep_mem].
    + intros x H1 H2. cbn [k_mem set_mem]. rewrite Hm; [by apply R|]. apply H1, elem_of_cons. by left.
  - intros j q Hl Hj. apply leaf_ext; try done. eauto.
Qed.

Lemma PGROUNDDOWN_aligned a : in_u64 a -> a `mod` 4096 = 0 -> PGROUNDDOWN a = a.
Proof. intros H1 H2. unfold PGROUNDDOWN. rewrite land_pgmask by done. lia. Qed.

Lemma PGROUNDDOWN_spec a : in_u64 a -> PGROUNDDOWN a = a - a `mod` 4096.
Proof. intros H. by apply land_pgmask. Qed.

(** mappages of one aligned page, as all its callers use it. *)
Lemma mappages_page k tabs h l pml4 va v perm :
  vm_inv k tabs (v :: h) l -> tabs !! [] = Some pml4 -> uva va -> va `mod` 4096 = 0 ->
  (3 <= length l)%nat -> tabs !! path va = None -> 0 <= perm < 4096 ->
  exists k' tabs' l' ent,
    mappages pml4 va PGSIZE (v2p v) perm k = Ok 0 k' /\
    vm_post k tabs (v :: h) l k' tabs' h l' /\ tabs ⊆ tabs' /\
    (forall q, length q = 4%nat -> q <> path va -> tabs' !! q = tabs !! q) /\
    tabs' !! path va = Some v /\ (length l <= 3 + length l')%nat /\
    PTE_ADDR ent = v2p v /\ PTE_FLAGS ent = Z.lor perm PTE_P /\
    forall j q, length q = 3%nat -> 0 <= j < 512 ->
      leaf (k_mem k') tabs' (j :: q) =
      if decide (j :: q = path va) then Some ent else leaf (k_mem k) tabs (j :: q).
Proof.
  intros Hi Hr Hu Hal Hlen Hnone Hperm. pose proof Hu as Hu'. unfold uva in Hu'.
  assert (tables_missing tabs va <= 3)%nat as Hmiss.
  { unfold tables_missing, new_at. repeat case_match; lia. }
  destruct (map_one k tabs h l pml4 va v perm 0 va) as
    (k' & tabs' & l' & ent & E & P & S & Q & L & A & F & Lf); try done; [lia|].
  exists k', (<[path va := v]> tabs'), l', ent. split_and!; try done.
  - unfold mappages, PGSIZE. rewrite !PGROUNDDOWN_spec by (try apply u64_range; unfold in_u64; lia).
    replace (va - va `mod` 4096) with va by lia.
    rewrite (u64_small (va + 4096 - 1)) by (unfold in_u64; lia).
    replace (va + 4096 - 1 - (va + 4096 - 1) `mod` 4096) with va
      by (Z.to_euclidean_division_equations; lia).
    rewrite Z.sub_diag. change (Z.to_nat (u64 0 / 4096)) with O. rewrite E. by rewrite Z.eqb_refl.
  - etransitivity; [exact S|]. apply insert_subseteq. by rewrite Q.
  - intros q Hq Hne. rewrite lookup_insert_ne by done. by apply Q.
  - apply lookup_insert_eq.
  - lia.
Qed.

(** A user page of the address space, mapped with flags [fl]. *)
Definition upage (k : kernel) (tabs : gmap (list Z) Z) (va f fl : Z) : Prop :=
  tabs !! path va = Some f /\
  exists ent, leaf (k_mem k) tabs (path va) = Some ent /\ PTE_ADDR ent = v2p f /\ PTE_FLAGS ent = fl.

Definition zero_page (k : kernel) (f : Z) : Prop :=
  forall x, f <= x < f + PGSIZE -> ld8 (k_mem k) x = 0.

(** The mapping of [va] is the same in both states. *)
Definition same_map (k : kernel) (tabs : gmap (list Z) Z) (k' : kernel)
    (tabs' : gmap (list Z) Z) (va : Z) : Prop :=
  tabs' !! path va = tabs !! path va /\
  leaf (k_mem k') tabs' (path va) = leaf (k_mem k) tabs (path va).

Lemma path_leaf va : exists j q, path va = j :: q /\ length q = 3%nat /\ 0 <= j < 512.
Proof.
  exists (PTX va), [PDX va; PDPX va; PMX va]. split_and!; try done; apply px_range; lia.
Qed.

(** A page is allocated, filled as [m2] has it, and mapped at [va]. *)
Lemma map_filled k tabs h v l k1 m2 pml4 va perm :
  vm_post k tabs h (v :: l) k1 tabs (v :: h) l -> k_mem k1 = k_mem k ->
  (forall x, off v x -> ld8 m2 x = ld8 (k_mem k1) x) -> mem_wf m2 ->
  tabs !! [] = Some pml4 -> uva va -> va `mod` 4096 = 0 -> (3 <= length l)%nat ->
  tabs !! path va = None -> 0 <= perm < 4096 ->
  exists k' tabs' l',
    mappages pml4 va PGSIZE (v2p v) perm (set_mem m2 k1) = Ok 0 k' /\
    vm_post k tabs h (v :: l) k' tabs' h l' /\ tabs ⊆ tabs' /\ (length l <= 3 + length l')%nat /\
    l' ⊆ l /\ upage k' tabs' va v (Z.lor perm PTE_P) /\
    (forall x, v <= x < v + PGSIZE -> ld8 (k_mem k') x = ld8 m2 x) /\
    forall vb, uva vb -> vb / 4096 <> va / 4096 -> same_map k tabs k' tabs' vb.
Proof.
  intros P1 Em Hm Hw Hr Hu Hal Hlen Hnone Hperm.
  destruct (vm_post_fill k tabs h v l k1 m2 P1 Hm Hw) as [P2 F2].
  destruct (mappages_page (set_mem m2 k1) tabs h l pml4 va v perm) as
    (k' & tabs' & l' & ent & E3 & P3 & S3 & Q3 & T3 & L3 & A3 & G3 & F3); try done; [apply P2|].
  exists k', tabs', l'. split_and!; try done.
  - by eapply vm_post_trans.
  - apply P3.
  - split; [done|]. exists ent. destruct (path_leaf va) as (j & q & Epath & Hq & Hj).
    rewrite Epath, F3 by done. by rewrite decide_True.
  - intros x Hx. pose proof (vp_inv _ _ _ _ _ _ _ _ P2) as I2.
    assert (v ∈ v :: h) as Hvh by (apply elem_of_cons; by left).
    exact (vm_post_held_page _ _ _ _ _ _ _ _ v x I2 P3 Hvh Hx).
  - intros vb Hvb Hne. assert (path vb <> path va) as Hpne by (intros E; apply Hne; by apply path_page).
    split; [by apply Q3|]. destruct (path_leaf vb) as (j & q & Epath & Hq & Hj).
    rewrite Epath in *. rewrite F3 by done. rewrite decide_False by done. cbn [k_mem set_mem].
    rewrite F2 by done. by rewrite Em.
Qed.

(** kalloc, memset and mappages: a fresh zeroed page appears at [va]. *)
Lemma grow_one k tabs h v l pml4 va :
  vm_inv k tabs h (v :: l) -> tabs !! [] = Some pml4 -> uva va -> va `mod` 4096 = 0 ->
  (3 <= length l)%nat -> tabs !! path va = None ->
  exists k1 k' tabs' l', kalloc k = Ok v k1 /\
    (memory (fun m => Kstring.memset m v 0 PGSIZE) ;;;
     mappages pml4 va PGSIZE (v2p v) (Z.lor PTE_W PTE_U)) k1 = Ok 0 k' /\
    vm_post k tabs h (v :: l) k' tabs' h l' /\ tabs ⊆ tabs' /\ (length l <= 3 + length l')%nat /\
    l' ⊆ l /\ upage k' tabs' va v 7 /\ zero_page k' v /\
    forall vb, uva vb -> vb / 4096 <> va / 4096 -> same_map k tabs k' tabs' vb.
Proof.
  intros Hi Hr Hu Hal Hlen Hnone.
  destruct (kalloc_hold k tabs h v l Hi) as (k1 & E1 & Em & P1).
  set (m2 := Kstring.memset (k_mem k1) v 0 PGSIZE).
  destruct (map_filled k tabs h v l k1 m2 pml4 va (Z.lor PTE_W PTE_U)) as
    (k' & tabs' & l' & E & P & S & L & Sub & U & C & M); try done.
  { intros x Hx. unfold m2. rewrite memset_ld8, decide_False by (unfold off, PGSIZE in *; lia). done. }
  { apply memset_wf. rewrite Em. apply Hi. }
  exists k1, k', tabs', l'. split_and!; try done.
  intros x Hx. rewrite C by done. unfold m2. by rewrite memset_ld8, decide_True by (unfold PGSIZE in *; lia).
Qed.

(** kalloc, memmove and mappages: a copy of the page [src] appears at [va]. *)
Lemma copy_one k tabs h v l pml4 va src fl :
  vm_inv k tabs h (v :: l) -> tabs !! [] = Some pml4 -> uva va -> va `mod` 4096 = 0 ->
  (3 <= length l)%nat -> tabs !! path va = None -> 0 <= fl < 4096 ->
  exists k1 k' tabs' l', kalloc k = Ok v k1 /\
    (memory (fun m => Kstring.memmove m v src PGSIZE) ;;;
     mappages pml4 va PGSIZE (v2p v) fl) k1 = Ok 0 k' /\
    vm_post k tabs h (v :: l) k' tabs' h l' /\ tabs ⊆ tabs' /\ (length l <= 3 + length l')%nat /\
    l' ⊆ l /\ upage k' tabs' va v (Z.lor fl PTE_P) /\
    (forall o, 0 <= o < PGSIZE -> ld8 (k_mem k') (v + o) = ld8 (k_mem k) (src + o)) /\
    forall vb, uva vb -> vb / 4096 <> va / 4096 -> same_map k tabs k' tabs' vb.
Proof.
  intros Hi Hr Hu Hal Hlen Hnone Hfl.
  destruct (kalloc_hold k tabs h v l Hi) as (k1 & E1 & Em & P1).
  assert (mem_wf (k_mem k1)) as Hw1 by (rewrite Em; apply Hi).
  set (m2 := Kstring.memmove (k_mem k1) v src PGSIZE).
  destruct (map_filled k tabs h v l k1 m2 pml4 va fl) as
    (k' & tabs' & l' & E & P & S & L & Sub & U & C & M); try done.
  { intros x Hx. unfold m2. rewrite memmove_ld8, decide_False by (unfold off, PGSIZE in *; done || lia). done. }
  { by apply memmove_wf. }
  exists k1, k', tabs', l'. split_and!; try done.
  intros o Ho. rewrite C by lia. unfold m2.
  rewrite memmove_ld8, decide_True by (unfold PGSIZE in *; done || lia). rewrite Em. f_equal. lia.
Qed.

(** ** A new address space *)

Lemma owned_singleton v : owned {[ [] := v ]} = [v].
Proof. unfold owned. by rewrite map_to_list_singleton. Qed.

(** A zeroed root is an address space without pages. *)
Lemma pt_ok_root k v :
  page_ok k v -> (forall i, 0 <= i < 256 -> ld64 (k_mem k) (v + 8 * i) = 0) ->
  pt_ok k {[ [] := v ]}.
Proof.
  intros Hv Hz. constructor.
  - intros p t [<- <-]%lookup_singleton_Some. done.
  - intros p q t [<- <-]%lookup_singleton_Some [<- _]%lookup_singleton_Some. done.
  - intros i p t [E _]%lookup_singleton_Some. done.
  - intros p t i [<- <-]%lookup_singleton_Some _ [Hi Hi']. rewrite Hz by (split; [lia|by apply Hi']).
    rewrite lookup_singleton_ne by done. done.
Qed.

(** setupkvm takes one page and returns an address space that maps no user page; the
    kernel half of its root is the shared kernel table. *)
Lemma setupkvm_run k h v l :
  alloc_ready k (v :: l) -> mem_wf (k_mem k) -> Forall (page_ok k) h -> NoDup (h ++ v :: l) ->
  exists k', setupkvm k = Ok v k' /\ vm_inv k' {[ [] := v ]} h l /\ kstep k k' /\
    (forall x, off v x -> ld8 (k_mem k') x = ld8 (k_mem k) x) /\
    ld64 (k_mem k') (v + 8 * 256) = u64 (Z.lor (Z.lor (v2p (k_kpdpt k)) PTE_P) PTE_W).
Proof.
  intros Ha Hw Hh Hnd. destruct (kalloc_run k l v Ha) as (k1 & tb & Ek & E & Ha1 & _).
  pose proof (fl_pages _ _ (ar_free _ _ Ha)) as Hpg. apply Forall_cons in Hpg as [Hv Hpg].
  pose proof (fl_nodup _ _ (ar_free _ _ Ha)) as Hnl. apply NoDup_cons in Hnl as [Hnl _].
  set (ent := Z.lor (Z.lor (v2p (k_kpdpt k)) PTE_P) PTE_W).
  set (m' := hook_mem (k_mem k) v (v + 8 * 256) ent).
  assert (forall x, off v x -> ld8 m' x = ld8 (k_mem k) x) as Hfr.
  { intros x Hx. apply hook_mem_frame; [done|]. unfold off, PGSIZE in Hx. lia. }
  exists (set_mem m' k1). split_and!.
  - unfold setupkvm. krun E. unfold memory. kr. subst k1. reflexivity.
  - constructor.
    + apply alloc_ready_mem; [done|]. intros p x Hp Hx. subst k1. apply Hfr.
      apply (off_page k p); [exact (proj1 (Forall_forall _ _) Hpg p Hp)|done|by intros ->|done].
    + unfold m', hook_mem, st64. cbn [k_mem set_mem]. auto with mach.
    + apply pt_ok_root; [by subst|]. intros i Hi.
      apply hook_mem_zero; unfold PGSIZE; lia.
    + by subst.
    + by rewrite owned_singleton.
  - eapply kstep_trans; [|apply kstep_mem]. rewrite Ek. apply kstep_alloc.
  - exact Hfr.
  - cbn [k_mem set_mem]. unfold m', hook_mem, ld64, st64.
    pose proof (ld_st_bytes_same (Kstring.memset (k_mem k) v 0 PGSIZE) (v + 8 * 256)
                  (le_split 8 ent) (le_split_bytes 8 ent)) as El.
    rewrite length_le_split in El. rewrite El, le_combine_split. done.
Qed.
