(* ===== verification/Uvm.v ===== *)
(** * User address spaces: what the routines of src/vm.c do

    The theorems about the definitions of Vm.v: growing an address space (allocuvm),
    shrinking it (deallocuvm), copying it (copyuvm), freeing it (freevm) and copying
    into it (copyout), in terms of the mapping [pte_at] the MMU sees and of the
    ownership of pages. *)

From S2P Require Import Prelude Mem CString State Spinlock Ktrace Kalloc Vm.

(** ** allocuvm *)

Lemma same_map_trans k tabs k1 tabs1 k2 tabs2 va :
  same_map k tabs k1 tabs1 va -> same_map k1 tabs1 k2 tabs2 va -> same_map k tabs k2 tabs2 va.
Proof. intros [A B] [C D]. split; congruence. Qed.

Lemma upage_same k tabs k' tabs' va f fl :
  same_map k tabs k' tabs' va -> upage k tabs va f fl -> upage k' tabs' va f fl.
Proof. intros [E1 E2] [Hf (ent & He & ?)]. split; [congruence|]. exists ent. by rewrite E2. Qed.

(** What the loop leaves for each page address: a fresh zeroed page inside the range,
    the old mapping outside it. *)
Definition grown (k : kernel) (tabs : gmap (list Z) Z) (l : list Z) (k' : kernel)
    (tabs' : gmap (list Z) Z) (a : Z) (n : nat) : Prop :=
  forall va, uva va ->
    if decide (a <= va < a + 4096 * Z.of_nat n)
    then exists f, f ∈ l /\ upage k' tabs' va f 7 /\ zero_page k' f
    else same_map k tabs k' tabs' va.

Lemma upage_path k tabs va vb f fl :
  uva va -> uva vb -> va / 4096 = vb / 4096 -> upage k tabs va f fl -> upage k tabs vb f fl.
Proof. intros Ha Hb E%path_page_iff; try done. unfold upage. by rewrite E. Qed.

Lemma same_map_path k tabs k' tabs' va vb :
  uva va -> uva vb -> va / 4096 = vb / 4096 ->
  same_map k tabs k' tabs' va -> same_map k tabs k' tabs' vb.
Proof. intros Ha Hb E%path_page_iff; try done. unfold same_map. by rewrite E. Qed.

Lemma allocuvm_from_run n fuel k tabs h l pml4 a oldsz newsz :
  (n <= fuel)%nat -> a `mod` 4096 = 0 -> 0 <= a -> a + 4096 * Z.of_nat n <= 2 ^ 47 ->
  newsz <= a + 4096 * Z.of_nat n -> ((0 < n)%nat -> a + 4096 * (Z.of_nat n - 1) < newsz) ->
  vm_inv k tabs h l -> tabs !! [] = Some pml4 -> (4 * n <= length l)%nat ->
  (forall va, a <= va < a + 4096 * Z.of_nat n -> tabs !! path va = None) ->
  exists k' tabs' l', allocuvm_from fuel pml4 a oldsz newsz k = Ok newsz k' /\
    vm_post k tabs h l k' tabs' h l' /\ tabs ⊆ tabs' /\ (length l <= 4 * n + length l')%nat /\
    grown k tabs l k' tabs' a n.
Proof.
  revert fuel k tabs l a. induction n as [|n IH]; intros fuel k tabs l a Hfu Hal Ha Hmax Hle Hlt Hi Hr Hlen Hnone.
  - exists k, tabs, l. split_and!; try done.
    + destruct fuel; cbn [allocuvm_from]; rewrite (proj2 (Z.ltb_ge a newsz)) by lia; done.
    + by apply vm_post_refl.
    + intros va _. rewrite decide_False by lia. done.
  - destruct fuel as [|fuel]; [lia|]. cbn [allocuvm_from].
    specialize (Hlt ltac:(lia)). rewrite (proj2 (Z.ltb_lt a newsz)) by lia. cbn [negb].
    destruct l as [|v l]; [simpl in Hlen; lia|]. simpl in Hlen.
    destruct (grow_one k tabs h v l pml4 a) as
      (k1 & k2 & tabs2 & l2 & E1 & E2 & P2 & S2 & L2 & Sub2 & U2 & Z2 & M2); try done;
      [unfold uva; lia|lia|apply Hnone; lia|].
    pose proof (vp_inv _ _ _ _ _ _ _ _ P2) as I2.
    destruct (IH fuel k2 tabs2 l2 (a + 4096)) as (k3 & tabs3 & l3 & E3 & P3 & S3 & L3 & G3);
      try done; try lia.
    + Z.to_euclidean_division_equations; lia.
    + by eapply lookup_weaken.
    + intros va Hva. destruct (M2 va) as [-> _]; [unfold uva; lia| |apply Hnone; lia].
      Z.to_euclidean_division_equations; lia.
    + exists k3, tabs3, l3. split_and!.
      * krun E1. rewrite (proj2 (Z.eqb_neq v 0)) by
          (eapply page_ok_nonzero, vm_free_ok; [exact Hi|apply elem_of_cons; by left]).
        apply obind_inv_ok in E2 as ([] & k1' & Em & Emap). krun Em. krun Emap.
        cbn [Z.ltb Z.compare]. unfold PGSIZE. rewrite u64_small by (unfold in_u64; lia). exact E3.
      * by eapply vm_post_trans.
      * by etransitivity.
      * simpl. lia.
      * intros va Hva. specialize (G3 va Hva).
        destruct (decide (a <= va < a + 4096 * Z.of_nat (S n))) as [D|D].
        -- destruct (decide (a + 4096 <= va)) as [D1|D1].
           ++ rewrite decide_True in G3 by lia. destruct G3 as (f & Hf & HG). exists f.
              split; [|done]. apply elem_of_cons. right. by apply Sub2.
           ++ rewrite decide_False in G3 by lia. exists v. split; [apply elem_of_cons; by left|].
              assert (va / 4096 = a / 4096) as Epg by (Z.to_euclidean_division_equations; lia).
              split.
              ** eapply upage_same; [exact G3|]. by apply (upage_path _ _ a); [unfold uva; lia|..].
              ** intros x Hx. rewrite <-(Z2 x Hx). destruct U2 as [U2 _].
                 eapply vm_post_frame_page; try done.
        -- rewrite decide_False in G3 by lia. eapply same_map_trans; [|exact G3].
           apply M2; [done|]. Z.to_euclidean_division_equations; lia.
Qed.

(** An address is unmapped exactly when no page of the address space is at it. *)
Lemma unmapped_iff k tabs pml4 va :
  pt_ok k tabs -> tabs !! [] = Some pml4 -> uva va ->
  pte_at (k_mem k) pml4 va = None <-> tabs !! path va = None.
Proof.
  intros Hp Hr Hu. rewrite (pte_at_leaf k tabs) by done. unfold path, leaf.
  destruct (idx_ok_path va Hu) as (_ & _ & _ & I4).
  destruct (tabs !! [PDX va; PDPX va; PMX va]) as [t|] eqn:E.
  - rewrite (po_entry _ _ Hp _ _ _ E ltac:(simpl; lia) I4). cbn [mbind option_bind].
    by destruct (present _).
  - split; [|done]. intros _. destruct (tabs !! [PTX va; PDX va; PDPX va; PMX va]) eqn:E'; [|done].
    apply (po_closed _ _ Hp) in E' as (_ & _ & [? E']). congruence.
Qed.

Lemma PGROUNDUP_spec sz : 0 <= sz <= 2 ^ 63 -> PGROUNDUP sz = (sz + 4095) / 4096 * 4096.
Proof.
  intros H. unfold PGROUNDUP, PGSIZE. rewrite u64_small by (unfold in_u64; lia).
  rewrite land_pgmask by (unfold in_u64; lia). Z.to_euclidean_division_equations; lia.
Qed.

(** The mapping seen by the MMU: [va] is at the page [f] with flags [fl]. *)
Definition mapped (k : kernel) (pml4 va f fl : Z) : Prop :=
  exists ent, pte_at (k_mem k) pml4 va = Some ent /\ PTE_ADDR ent = v2p f /\ PTE_FLAGS ent = fl.

Lemma upage_mapped k tabs pml4 va f fl :
  pt_ok k tabs -> tabs !! [] = Some pml4 -> uva va -> upage k tabs va f fl -> mapped k pml4 va f fl.
Proof. intros Hp Hr Hu [_ (ent & ?)]. exists ent. by rewrite (pte_at_leaf k tabs). Qed.

Lemma allocuvm_run k tabs h l pml4 oldsz newsz :
  let a := PGROUNDUP oldsz in
  let n := Z.to_nat ((newsz - a + 4095) / 4096) in
  vm_inv k tabs h l -> tabs !! [] = Some pml4 ->
  0 <= oldsz <= newsz -> newsz <= 2 ^ 47 - 4096 -> (4 * n <= length l)%nat ->
  (forall va, a <= va < a + 4096 * Z.of_nat n -> pte_at (k_mem k) pml4 va = None) ->
  exists k' tabs' l', allocuvm pml4 oldsz newsz k = Ok newsz k' /\
    vm_post k tabs h l k' tabs' h l' /\ tabs' !! [] = Some pml4 /\
    (length l <= 4 * n + length l')%nat /\ grown k tabs l k' tabs' a n.
Proof.
  intros a n Hi Hr Hsz Hmax Hlen Hnone.
  assert (a = (oldsz + 4095) / 4096 * 4096) as Ea by (apply PGROUNDUP_spec; lia).
  pose proof (vi_pt _ _ _ _ Hi) as Hp.
  assert (0 <= a /\ a `mod` 4096 = 0 /\ a + 4096 * Z.of_nat n <= 2 ^ 47 /\
          newsz <= a + 4096 * Z.of_nat n /\
          ((0 < n)%nat -> a + 4096 * (Z.of_nat n - 1) < newsz)) as (A1 & A2 & A3 & A4 & A5).
  { subst n. rewrite Ea. clear -Hsz Hmax. Z.to_euclidean_division_equations; lia. }
  destruct (allocuvm_from_run n (Z.to_nat ((newsz - a) / PGSIZE + 1)) k tabs h l pml4 a oldsz newsz)
    as (k' & tabs' & l' & E & P & S & L & G); try done.
  - subst n. unfold PGSIZE. clear. Z.to_euclidean_division_equations; lia.
  - intros va Hva. apply (unmapped_iff k tabs pml4); [done|done|unfold uva; lia|by apply Hnone].
  - exists k', tabs', l'. split_and!; try done; [|by eapply lookup_weaken].
    unfold allocuvm. fold a. rewrite Z.geb_leb, (proj2 (Z.leb_gt KERNBASE newsz)) by (unfold KERNBASE; lia).
    by rewrite (proj2 (Z.ltb_ge newsz oldsz)) by lia.
Qed.

(** C6: allocuvm grows an address space from [oldsz] to [newsz] bytes.  With four
    free pages for each page to add (three tables at most, and the page) it returns
    [newsz]; every page of the new range is then mapped, user-accessible and writable,
    to a page taken from the free list that is filled with zeros; every other user
    address is mapped as before; no page has two owners and none is lost; and nothing
    is written outside the tables and the pages taken. *)
Theorem allocuvm_grows k tabs h l pml4 oldsz newsz :
  let a := PGROUNDUP oldsz in
  let n := Z.to_nat ((newsz - a + 4095) / 4096) in
  vm_inv k tabs h l -> tabs !! [] = Some pml4 ->
  0 <= oldsz <= newsz -> newsz <= 2 ^ 47 - 4096 -> (4 * n <= length l)%nat ->
  (forall va, a <= va < a + 4096 * Z.of_nat n -> pte_at (k_mem k) pml4 va = None) ->
  exists k' tabs' l', allocuvm pml4 oldsz newsz k = Ok newsz k' /\
    vm_post k tabs h l k' tabs' h l' /\
    forall va, uva va ->
      if decide (a <= va < a + 4096 * Z.of_nat n)
      then exists f, f ∈ l /\ mapped k' pml4 va f 7 /\ zero_page k' f
      else pte_at (k_mem k') pml4 va = pte_at (k_mem k) pml4 va.
Proof.
  intros a n Hi Hr Hsz Hmax Hlen Hnone.
  destruct (allocuvm_run k tabs h l pml4 oldsz newsz) as (k' & tabs' & l' & E & P & Hr' & _ & G); try done.
  exists k', tabs', l'. split_and!; try done.
  pose proof (vi_pt _ _ _ _ (vp_inv _ _ _ _ _ _ _ _ P)) as Hp'. pose proof (vi_pt _ _ _ _ Hi) as Hp.
  intros va Hva. specialize (G va Hva). fold a n in G. case_decide.
  - destruct G as (f & ? & ? & ?). exists f. split_and!; try done. by eapply upage_mapped.
  - destruct G as [_ G]. by rewrite !(pte_at_leaf _ _ pml4) by done.
Qed.

(** An empty address space in a kernel with [n] free pages. *)
Definition root_of (n : nat) : Z := KERNBASE + 1048576 + PGSIZE * Z.of_nat n.
Definition new_space (n : nat) : kernel :=
  final (setupkvm (with_pages (Z.of_nat (S n)))) kernel0.

Lemma new_space_inv n :
  (n < 1000)%nat -> vm_inv (new_space n) {[ [] := root_of n ]} [] (free_pages n) /\
    km_end (k_kmem (new_space n)) = KERNBASE + 1048576.
Proof.
  intros Hn. destruct (with_pages_ready (Z.of_nat (S n))) as (Ha & Hw & He); [lia|].
  rewrite Nat2Z.id, free_pages_S in Ha.
  destruct (setupkvm_run (with_pages (Z.of_nat (S n))) [] (root_of n) (free_pages n))
    as (k' & E & Hi & Hs & _).
  - exact Ha.
  - exact Hw.
  - by apply Forall_nil.
  - exact (fl_nodup _ _ (ar_free _ _ Ha)).
  - unfold new_space. rewrite (final_ok _ _ _ _ E). split; [exact Hi|].
    by rewrite (kstep_kend _ _ Hs).
Qed.

Lemma new_space_unmapped n va :
  (n < 1000)%nat -> uva va -> pte_at (k_mem (new_space n)) (root_of n) va = None.
Proof.
  intros Hn Hu. apply (unmapped_iff _ {[ [] := root_of n ]}).
  - apply (vi_pt _ _ _ _ (proj1 (new_space_inv n Hn))).
  - apply lookup_singleton_eq.
  - exact Hu.
  - rewrite lookup_singleton_ne by done. done.
Qed.

Lemma allocuvm_grows_witness :
  exists k', allocuvm (root_of 8) 4097 16000 (new_space 8) = Ok 16000 k' /\
    (exists f, f ∈ free_pages 8 /\ mapped k' (root_of 8) 12345 f 7 /\ zero_page k' f) /\
    pte_at (k_mem k') (root_of 8) 5000 = None.
Proof.
  destruct (allocuvm_grows (new_space 8) {[ [] := root_of 8 ]} [] (free_pages 8) (root_of 8) 4097 16000)
    as (k' & tabs' & l' & E & _ & G).
  - apply new_space_inv. lia.
  - reflexivity.
  - lia.
  - lia.
  - vm_compute. lia.
  - intros va Hva. apply new_space_unmapped; [lia|].
    change (PGROUNDUP 4097) with 8192 in Hva. change (Z.to_nat ((16000 - 8192 + 4095) / 4096)) with 2%nat in Hva.
    unfold uva. lia.
  - exists k'. split; [exact E|]. split.
    + exact (G 12345 ltac:(unfold uva; lia)).
    + etransitivity; [exact (G 5000 ltac:(unfold uva; lia))|].
      apply new_space_unmapped; [lia|unfold uva; lia].
Defined.

(** ** copyout *)

(** Where the byte at the user address [va] is stored: the MMU's translation with the
    present and user bits checked. *)
Definition user_ok (ent : Z) : bool := negb (Z.land ent PTE_U =? 0).
Definition uaddr (m : mem) (pml4 va : Z) : option Z :=
  ent ← pte_at m pml4 va;
  if user_ok ent then Some (p2v (PTE_ADDR ent) + va `mod` 4096) else None.

Arguments user_ok : simpl never.

(** The page of a mapped address. *)
Lemma pte_at_page k tabs pml4 va ent :
  pt_ok k tabs -> tabs !! [] = Some pml4 -> uva va -> pte_at (k_mem k) pml4 va = Some ent ->
  tabs !! path va = Some (p2v (PTE_ADDR ent)) /\
  exists t, tabs !! [PDX va; PDPX va; PMX va] = Some t /\ ld64 (k_mem k) (t + 8 * PTX va) = ent /\
    pte_slot (k_mem k) pml4 va = Some (t + 8 * PTX va) /\ present ent = true.
Proof.
  intros Hp Hr Hu E. destruct (idx_ok_path va Hu) as (I1 & I2 & I3 & I4).
  pose proof (pte_at_leaf k tabs pml4 va Hp Hr Hu) as El. rewrite E in El.
  unfold leaf, path in El. destruct (tabs !! [PDX va; PDPX va; PMX va]) as [t|] eqn:Et; [|done].
  cbn [mbind option_bind] in El.
  pose proof (po_entry _ _ Hp _ _ _ Et ltac:(simpl; lia) I4) as E4.
  destruct (present (ld64 (k_mem k) (t + 8 * PTX va))) eqn:Epr; [|done].
  injection El as ->. split; [done|]. exists t. split_and!; try done.
  unfold pte_at in E. destruct (pte_slot (k_mem k) pml4 va) as [sl|] eqn:Es; [|done].
  revert Es. unfold pte_slot.
  destruct (po_closed _ _ Hp _ _ _ Et) as (_ & _ & [t2 E2]).
  destruct (po_closed _ _ Hp _ _ _ E2) as (_ & _ & [t1 E1]).
  pose proof (po_entry _ _ Hp _ _ _ Hr ltac:(simpl; lia) I1) as F1. rewrite E1 in F1.
  destruct (present (ld64 (k_mem k) (pml4 + 8 * PMX va))); [|done]. injection F1 as <-.
  cbn [mbind option_bind].
  pose proof (po_entry _ _ Hp _ _ _ E1 ltac:(simpl; lia) I2) as F2. rewrite E2 in F2.
  destruct (present (ld64 (k_mem k) (_ + 8 * PDPX va))); [|done]. injection F2 as <-.
  cbn [mbind option_bind].
  pose proof (po_entry _ _ Hp _ _ _ E2 ltac:(simpl; lia) I3) as F3. rewrite Et in F3.
  destruct (present (ld64 (k_mem k) (_ + 8 * PDX va))); [|done]. injection F3 as <-. done.
Qed.

Lemma uaddr_page k tabs pml4 va x :
  pt_ok k tabs -> tabs !! [] = Some pml4 -> uva va -> uaddr (k_mem k) pml4 va = Some x ->
  exists f ent, tabs !! path va = Some f /\ x = f + va `mod` 4096 /\
    pte_at (k_mem k) pml4 va = Some ent /\ user_ok ent = true /\ f = p2v (PTE_ADDR ent).
Proof.
  intros Hp Hr Hu E. unfold uaddr in E. destruct (pte_at (k_mem k) pml4 va) as [ent|] eqn:Ee; [|done].
  cbn [mbind option_bind] in E. destruct (user_ok ent) eqn:Eu; [|done]. injection E as <-.
  destruct (pte_at_page k tabs pml4 va ent) as [Ht _]; try done. by exists (p2v (PTE_ADDR ent)), ent.
Qed.

(** No two user addresses share a byte. *)
Lemma uaddr_inj k tabs pml4 va vb x :
  pt_ok k tabs -> tabs !! [] = Some pml4 -> uva va -> uva vb ->
  uaddr (k_mem k) pml4 va = Some x -> uaddr (k_mem k) pml4 vb = Some x -> va = vb.
Proof.
  intros Hp Hr Ha Hb Ea Eb.
  destruct (uaddr_page k tabs pml4 va x) as (f & _ & Hf & Ex & _); try done.
  destruct (uaddr_page k tabs pml4 vb x) as (g & _ & Hg & Ey & _); try done.
  destruct (po_page _ _ Hp _ _ Hf) as (_ & Hm & _). destruct (po_page _ _ Hp _ _ Hg) as (_ & Hm' & _).
  unfold PGSIZE in *.
  assert (f = g /\ va `mod` 4096 = vb `mod` 4096) as [-> Emod].
  { clear -Ex Ey Hm Hm'. Z.to_euclidean_division_equations; lia. }
  pose proof (po_inj _ _ Hp _ _ _ Hf Hg) as Epath. apply path_page in Epath; try done.
  clear -Emod Epath. Z.to_euclidean_division_equations; lia.
Qed.

(** Writing into a frame changes no mapping. *)
Lemma frame_write k tabs p f m' :
  pt_ok k tabs -> tabs !! p = Some f -> length p = 4%nat ->
  (forall x, off f x -> ld8 m' x = ld8 (k_mem k) x) ->
  pt_ok (set_mem m' k) tabs /\
  forall va, leaf m' tabs (path va) = leaf (k_mem k) tabs (path va).
Proof.
  intros Hp Hf Hl Hm.
  assert (page_ok k f) as Hfk by by eapply (po_page _ _ Hp).
  assert (forall q t x, tabs !! q = Some t -> (length q < 4)%nat -> t <= x < t + PGSIZE ->
            ld8 m' x = ld8 (k_mem k) x) as Htab.
  { intros q t x Ht Hlq Hx. apply Hm. apply (off_page k t); try done; [by eapply (po_page _ _ Hp)|].
    intros ->. assert (p = q) as -> by by eapply (po_inj _ _ Hp). lia. }
  split; [by apply (pt_ok_frame k)|].
  intros va. destruct (path_leaf va) as (j & q & -> & Hq & Hj). apply leaf_ext; try done.
  intros t x Ht Hx. apply (Htab q t); try done. lia.
Qed.

(** uva2ka of the page of a user-accessible address. *)
Lemma uva2ka_run k tabs pml4 va x :
  pt_ok k tabs -> tabs !! [] = Some pml4 -> uva va -> uaddr (k_mem k) pml4 va = Some x ->
  let va0 := va - va `mod` 4096 in
  exists f, tabs !! path va = Some f /\ x = f + va `mod` 4096 /\ f <> 0 /\
    uva2ka pml4 va0 k = Ok f k /\
    forall vb, va0 <= vb < va0 + 4096 -> uaddr (k_mem k) pml4 vb = Some (f + (vb - va0)).
Proof.
  intros Hp Hr Hu E va0.
  destruct (uaddr_page k tabs pml4 va x) as (f & ent & Hf & Ex & Ee & Eu & Ef); try done.
  assert (forall vb, va0 <= vb < va0 + 4096 ->
            vb `mod` 4096 = vb - va0 /\ uva vb /\ path vb = path va) as Hpage.
  { intros vb Hvb. assert (vb / 4096 = va / 4096 /\ vb `mod` 4096 = vb - va0) as [Hdiv Hmod].
    { subst va0. clear -Hvb. Z.to_euclidean_division_equations; lia. }
    assert (uva vb) as Hub.
    { unfold uva in *. clear -Hdiv Hu. change (2 ^ 47) with (4096 * 34359738368) in *.
      Z.to_euclidean_division_equations; lia. }
    split; [done|]. split; [done|]. by apply path_page_iff. }
  assert (forall vb, va0 <= vb < va0 + 4096 -> pte_at (k_mem k) pml4 vb = Some ent) as Hent.
  { intros vb Hvb. destruct (Hpage vb Hvb) as (_ & Hub & Ep).
    rewrite (pte_at_leaf k tabs), Ep, <-(pte_at_leaf k tabs pml4) by done. done. }
  assert (va0 <= va0 < va0 + 4096) as Hva0 by lia.
  destruct (Hpage va0 Hva0) as (_ & Hu0 & _).
  destruct (pte_at_page k tabs pml4 va0 ent Hp Hr Hu0 (Hent _ Hva0)) as (_ & t & _ & El & Es & Epr).
  exists f. split_and!; try done.
  - eapply page_ok_nonzero. by eapply (po_page _ _ Hp).
  - unfold uva2ka. krun (walkpgdir_pure k pml4 va0). rewrite Es. kr. rewrite El.
    unfold present, truth in Epr. destruct (Z.land ent PTE_P =? 0); [done|].
    unfold user_ok in Eu. destruct (Z.land ent PTE_U =? 0); [done|]. by rewrite Ef.
  - intros vb Hvb. unfold uaddr. rewrite (Hent vb Hvb). cbn [mbind option_bind]. rewrite Eu.
    destruct (Hpage vb Hvb) as (-> & _). by rewrite Ef.
Qed.

(** The bytes [buf] have been stored at the user addresses from [va] on. *)
Definition stored (m m' : mem) (pml4 va : Z) (buf : list Z) : Prop :=
  (forall i b x, buf !! i = Some b -> uaddr m pml4 (va + Z.of_nat i) = Some x -> ld8 m' x = b) /\
  (forall x, (forall vb, va <= vb < va + Z.of_nat (length buf) -> uaddr m pml4 vb <> Some x) ->
     ld8 m' x = ld8 m x).

(** The first [n] bytes go to the page of [va], the rest to the following pages. *)
Lemma stored_step m m1 m' pml4 va n buf f :
  let va0 := va - va `mod` 4096 in
  (n <= length buf)%nat -> Z.of_nat n <= 4096 - va `mod` 4096 -> Forall in_u8 buf ->
  ((n < length buf)%nat -> va + Z.of_nat n = va0 + 4096) ->
  (forall vb, va0 <= vb < va0 + 4096 -> uaddr m pml4 vb = Some (f + (vb - va0))) ->
  (forall vb vc x, va <= vb < va + Z.of_nat (length buf) -> va <= vc < va + Z.of_nat (length buf) ->
     uaddr m pml4 vb = Some x -> uaddr m pml4 vc = Some x -> vb = vc) ->
  (forall vb, va <= vb < va + Z.of_nat (length buf) -> uaddr m1 pml4 vb = uaddr m pml4 vb) ->
  m1 = st_bytes m (f + (va - va0)) (take n buf) ->
  stored m1 m' pml4 (va0 + 4096) (drop n buf) -> stored m m' pml4 va buf.
Proof.
  intros va0 Hn Hnp Hb Hrest Hpg Hinj Hsame -> [S1 S2].
  assert (0 <= va `mod` 4096 < 4096) as Hmod by by apply Z.mod_pos_bound.
  split.
  - intros i b x Hi Hx. pose proof (lookup_lt_Some _ _ _ Hi) as Hlt.
    destruct (decide (i < n)%nat) as [Hin|Hin].
    + rewrite S2.
      * rewrite (Hpg (va + Z.of_nat i)) in Hx by (subst va0; lia). injection Hx as <-.
        rewrite ld8_st_bytes, length_take, decide_True by (subst va0; lia).
        replace (Z.to_nat _) with i by lia. rewrite lookup_take_lt, Hi by done. simpl.
        apply Z.mod_small. by eapply (Forall_lookup_1 _ _ _ _ Hb).
      * intros vb Hvb Hvx. rewrite length_drop in Hvb. specialize (Hrest ltac:(lia)).
        rewrite Hsame in Hvx by lia.
        pose proof (Hinj vb (va + Z.of_nat i) x ltac:(lia) ltac:(lia) Hvx Hx). lia.
    + specialize (Hrest ltac:(lia)). apply (S1 (i - n)%nat).
      * rewrite lookup_drop. by replace (n + (i - n))%nat with i by lia.
      * rewrite Hsame by lia. rewrite <-Hx. f_equal. lia.
  - intros x Hx. rewrite S2.
    + rewrite ld8_st_bytes, length_take. case_decide as D; [|done]. exfalso.
      apply (Hx (va0 + (x - f))); [subst va0; lia|]. rewrite Hpg by (subst va0; lia). f_equal. lia.
    + intros vb Hvb. rewrite length_drop in Hvb.
      destruct (decide (n < length buf)%nat) as [Hlt|Hlt]; [|lia].
      specialize (Hrest Hlt). rewrite Hsame by lia. apply Hx. lia.
Qed.

(** What copying [buf] to [va] does to the memory. *)
Definition copied_to (k : kernel) (tabs : gmap (list Z) Z) (pml4 va : Z) (buf : list Z)
    (m' : mem) : Prop :=
  pt_ok (set_mem m' k) tabs /\ mem_wf m' /\
  (forall vb, uva vb -> pte_at m' pml4 vb = pte_at (k_mem k) pml4 vb) /\
  stored (k_mem k) m' pml4 va buf.

(** The loop when nothing is left. *)
Lemma copyout_from_done fuel k tabs pml4 va :
  pt_ok k tabs -> mem_wf (k_mem k) ->
  exists m', copyout_from fuel pml4 va [] 0 k = Ok 0 (set_mem m' k) /\ copied_to k tabs pml4 va [] m'.
Proof.
  intros Hp Hw. exists (k_mem k). assert (set_mem (k_mem k) k = k) as Ek by by destruct k.
  unfold copied_to. rewrite Ek. split_and!; try done; by destruct fuel.
Qed.

Lemma copyout_from_run fuel k tabs pml4 va buf :
  pt_ok k tabs -> mem_wf (k_mem k) -> tabs !! [] = Some pml4 ->
  0 <= va -> va + Z.of_nat (length buf) <= 2 ^ 47 ->
  Forall in_u8 buf -> va `mod` 4096 + Z.of_nat (length buf) <= 4096 * Z.of_nat fuel ->
  (forall vb, va <= vb < va + Z.of_nat (length buf) -> is_Some (uaddr (k_mem k) pml4 vb)) ->
  exists m', copyout_from fuel pml4 va buf (Z.of_nat (length buf)) k = Ok 0 (set_mem m' k) /\
    copied_to k tabs pml4 va buf m'.
Proof.
  revert k va buf. induction fuel as [|fuel IH]; intros k va buf Hp Hw Hr Hva Hmax Hb Hfu Hmap;
    (destruct (decide (buf = [])) as [->|Hne]; [by eapply copyout_from_done|]);
    assert (0 < length buf)%nat as Hpos by (by destruct buf; simpl; lia || done);
    pose proof (Z.mod_pos_bound va 4096 ltac:(lia)) as Hmod; [lia|].
  assert (uva va) as Hu by (unfold uva; lia).
  set (va0 := va - va `mod` 4096).
  cbn [copyout_from]. rewrite Z.gtb_ltb, (proj2 (Z.ltb_lt 0 _)) by lia. cbn [negb].
  rewrite PGROUNDDOWN_spec by (unfold in_u64; lia). fold va0.
  destruct (Hmap va ltac:(lia)) as [x Hx].
  destruct (uva2ka_run k tabs pml4 va x Hp Hr Hu Hx) as (f & Hf & _ & Hf0 & E & Hpg). fold va0 in E, Hpg.
  krun E. rewrite (proj2 (Z.eqb_neq f 0)) by done.
  set (n := if PGSIZE - (va - va0) >? _ then _ else _).
  assert (n = Z.min (4096 - va `mod` 4096) (Z.of_nat (length buf))) as En.
  { unfold n, PGSIZE. rewrite Z.gtb_ltb.
    destruct (Z.ltb_spec (Z.of_nat (length buf)) (4096 - (va - va0))); lia. }
  clearbody n. unfold memory. kr.
  set (m1 := st_bytes (k_mem k) (f + (va - va0)) (take (Z.to_nat n) buf)).
  destruct (frame_write k tabs (path va) f m1 Hp Hf eq_refl) as [Hp1 Hleaf].
  { intros y Hy. unfold m1. rewrite ld8_st_bytes, length_take, decide_False; [done|].
    unfold off, PGSIZE in Hy. subst va0. lia. }
  assert (forall vb, uva vb -> pte_at m1 pml4 vb = pte_at (k_mem k) pml4 vb) as Hpte.
  { intros vb Hvb. rewrite (pte_at_leaf k tabs) by done.
    change m1 with (k_mem (set_mem m1 k)) at 1. rewrite (pte_at_leaf _ tabs) by done.
    apply Hleaf. }
  assert (forall vb, uva vb -> uaddr m1 pml4 vb = uaddr (k_mem k) pml4 vb) as Hua
    by (intros vb Hvb; unfold uaddr; by rewrite Hpte).
  assert (u64 (va0 + PGSIZE) = va0 + 4096) as ->.
  { apply u64_small. unfold in_u64, PGSIZE. subst va0. lia. }
  assert (Z.of_nat (length buf) - n = Z.of_nat (length (drop (Z.to_nat n) buf))) as ->
    by (rewrite length_drop; lia).
  destruct (IH (set_mem m1 k) (va0 + 4096) (drop (Z.to_nat n) buf)) as (m' & E' & Hp' & Hw' & Hpte' & Hst);
    try done.
  - by apply st_bytes_wf.
  - subst va0. lia.
  - rewrite length_drop. subst va0. clear -Hmax Hu En Hpos. unfold uva in Hu.
    change (2 ^ 47) with (4096 * 34359738368) in *. Z.to_euclidean_division_equations; lia.
  - by apply Forall_drop.
  - rewrite length_drop. subst va0. clear -Hfu En Hmod. Z.to_euclidean_division_equations; lia.
  - intros vb Hvb. rewrite length_drop in Hvb. cbn [k_mem set_mem].
    rewrite Hua by (unfold uva; subst va0; lia). apply Hmap. subst va0. lia.
  - exists m'. split; [done|]. split; [done|]. split; [done|]. split.
    + intros vb Hvb. rewrite Hpte' by done. by apply Hpte.
    + apply (stored_step (k_mem k) m1 m' pml4 va (Z.to_nat n) buf f); try done; try lia.
      * intros vb vc y Hvb Hvc. apply (uaddr_inj k tabs); try done; unfold uva; lia.
      * intros vb Hvb. apply Hua. unfold uva. lia.
Qed.

Lemma copyout_run k tabs pml4 va buf :
  pt_ok k tabs -> mem_wf (k_mem k) -> tabs !! [] = Some pml4 ->
  0 <= va -> va + Z.of_nat (length buf) <= 2 ^ 47 -> Forall in_u8 buf ->
  (forall vb, va <= vb < va + Z.of_nat (length buf) -> is_Some (uaddr (k_mem k) pml4 vb)) ->
  exists m', copyout pml4 va buf (Z.of_nat (length buf)) k = Ok 0 (set_mem m' k) /\
    copied_to k tabs pml4 va buf m'.
Proof.
  intros Hp Hw Hr Hva Hmax Hb Hmap. apply copyout_from_run; try done.
  unfold PGSIZE. Z.to_euclidean_division_equations; lia.
Qed.

(** C7: copyout stores its bytes at the user addresses [va], [va]+1, ...: if every
    address of the range is mapped with the present and user bits, it returns 0; the
    byte found through the page table at [va]+i is then the i-th byte of the buffer,
    whatever pages the range crosses; every other byte of memory, and every mapping,
    is unchanged. *)
Theorem copyout_stores k tabs pml4 va buf :
  pt_ok k tabs -> mem_wf (k_mem k) -> tabs !! [] = Some pml4 ->
  0 <= va -> va + Z.of_nat (length buf) <= 2 ^ 47 -> Forall in_u8 buf ->
  (forall vb, va <= vb < va + Z.of_nat (length buf) -> is_Some (uaddr (k_mem k) pml4 vb)) ->
  exists m', copyout pml4 va buf (Z.of_nat (length buf)) k = Ok 0 (set_mem m' k) /\
    (forall vb, uva vb -> pte_at m' pml4 vb = pte_at (k_mem k) pml4 vb) /\
    (forall i b, buf !! i = Some b -> (ld8 m' <$> uaddr m' pml4 (va + Z.of_nat i)) = Some b) /\
    (forall x, (forall vb, va <= vb < va + Z.of_nat (length buf) -> uaddr (k_mem k) pml4 vb <> Some x) ->
       ld8 m' x = ld8 (k_mem k) x).
Proof.
  intros Hp Hw Hr Hva Hmax Hb Hmap.
  destruct (copyout_run k tabs pml4 va buf) as (m' & E & _ & _ & Hpte & S1 & S2); try done.
  exists m'. split_and!; try done. intros i b Hib.
  pose proof (lookup_lt_Some _ _ _ Hib) as Hlt.
  destruct (Hmap (va + Z.of_nat i) ltac:(lia)) as [x Hx].
  assert (uaddr m' pml4 (va + Z.of_nat i) = Some x) as ->.
  { rewrite <-Hx. unfold uaddr. by rewrite Hpte by (unfold uva; lia). }
  simpl. f_equal. by eapply S1.
Qed.

(** C8: copyout does not survive an address that has no page table: uva2ka dereferences
    the null pointer walkpgdir returns, so the kernel faults instead of returning -1. *)
Theorem copyout_no_table_faults k pml4 va buf len :
  0 < len -> pte_slot (k_mem k) pml4 (PGROUNDDOWN va) = None ->
  copyout pml4 va buf len k = Fault k.
Proof.
  intros Hl Hs. unfold copyout.
  destruct (Z.to_nat (len / PGSIZE + 2)) as [|fuel] eqn:Ef.
  { unfold PGSIZE in Ef. Z.to_euclidean_division_equations; lia. }
  cbn [copyout_from]. rewrite Z.gtb_ltb, (proj2 (Z.ltb_lt 0 len)) by done. cbn [negb].
  unfold uva2ka, bind. rewrite walkpgdir_pure. cbn [obind]. by rewrite Hs.
Qed.

Lemma copyout_no_table_faults_witness :
  copyout (root_of 2) 4294971392 (replicate 64 7) 64 (new_space 2) = Fault (new_space 2).
Proof. apply copyout_no_table_faults; [lia|]. vm_compute. reflexivity. Defined.

(** A process image of two pages, the first at PGSIZE. *)
Definition small_space : kernel :=
  final (allocuvm (root_of 8) 4096 12288 (new_space 8)) kernel0.

Lemma user_ok_7 ent : PTE_FLAGS ent = 7 -> user_ok ent = true.
Proof.
  rewrite PTE_FLAGS_mod. intros E. unfold user_ok, PTE_U.
  assert (Z.land ent 4 = Z.land (ent `mod` 4096) 4) as ->; [|by rewrite E].
  change 4096 with (2 ^ 12). rewrite <-Z.land_ones, <-Z.land_assoc by lia. done.
Qed.

Lemma small_space_inv :
  exists tabs l, vm_inv small_space tabs [] l /\ tabs !! [] = Some (root_of 8) /\
    owned tabs ++ l ≡ₚ free_pages 9 /\
    (forall vb, 4096 <= vb < 12288 -> is_Some (uaddr (k_mem small_space) (root_of 8) vb)) /\
    forall vb, 0 <= vb < 4096 -> pte_at (k_mem small_space) (root_of 8) vb = None.
Proof.
  destruct (allocuvm_run (new_space 8) {[ [] := root_of 8 ]} [] (free_pages 8) (root_of 8) 4096 12288)
    as (k' & tabs' & l' & E & P & Hr & _ & G); try lia.
  - apply new_space_inv. lia.
  - apply lookup_singleton_eq.
  - vm_compute. lia.
  - intros va Hva. apply new_space_unmapped; [lia|].
    change (PGROUNDUP 4096) with 4096 in Hva.
    change (Z.to_nat ((12288 - 4096 + 4095) / 4096)) with 2%nat in Hva. unfold uva. lia.
  - assert (small_space = k') as -> by exact (final_ok _ _ _ _ E).
    exists tabs', l'. split; [apply P|]. split; [done|]. split.
    { rewrite free_pages_S. exact (vp_own _ _ _ _ _ _ _ _ P). }
    change (PGROUNDUP 4096) with 4096 in G.
    change (Z.to_nat ((12288 - 4096 + 4095) / 4096)) with 2%nat in G.
    split; intros vb Hvb; assert (uva vb) as Hu by (unfold uva; lia); specialize (G vb Hu).
    2: { rewrite decide_False in G by lia. destruct G as [G _].
         rewrite lookup_singleton_ne in G by done. by apply (unmapped_iff _ tabs'); [apply P|..]. }
    rewrite decide_True in G by lia. destruct G as (f & _ & Hup & _).
    destruct (upage_mapped _ _ _ _ _ _ (vi_pt _ _ _ _ (vp_inv _ _ _ _ _ _ _ _ P)) Hr Hu Hup)
      as (ent & Ee & _ & Efl).
    unfold uaddr. rewrite Ee. cbn [mbind option_bind]. rewrite user_ok_7 by done. by eexists.
Qed.

Lemma copyout_stores_witness :
  exists m', copyout (root_of 8) 8190 [1; 2; 3; 4] 4 small_space = Ok 0 (set_mem m' small_space) /\
    (ld8 m' <$> uaddr m' (root_of 8) 8192) = Some 3.
Proof.
  destruct small_space_inv as (tabs & l & Hi & Hr & _ & Hmap & _).
  destruct (copyout_stores small_space tabs (root_of 8) 8190 [1; 2; 3; 4]) as (m' & E & _ & S & _).
  - apply Hi.
  - apply Hi.
  - exact Hr.
  - lia.
  - simpl. lia.
  - repeat constructor; unfold in_u8; lia.
  - intros vb Hvb. simpl in Hvb. apply Hmap. lia.
  - exists m'. split; [exact E|]. exact (S 2%nat 3 eq_refl).
Defined.

(** Two copies in a row are one copy. *)
Lemma copied_to_app k tabs pml4 va b1 b2 m1 m2 :
  pt_ok k tabs -> tabs !! [] = Some pml4 -> 0 <= va ->
  va + Z.of_nat (length (b1 ++ b2)) <= 2 ^ 47 ->
  (forall vb, va <= vb < va + Z.of_nat (length (b1 ++ b2)) -> is_Some (uaddr (k_mem k) pml4 vb)) ->
  copied_to k tabs pml4 va b1 m1 ->
  copied_to (set_mem m1 k) tabs pml4 (va + Z.of_nat (length b1)) b2 m2 ->
  copied_to k tabs pml4 va (b1 ++ b2) m2.
Proof.
  intros Hp Hr Hva Hmax Hmap (P1 & W1 & E1 & S1 & F1) (P2 & W2 & E2 & S2 & F2).
  rewrite length_app in *. cbn [k_mem set_mem] in *.
  assert (forall vb, uva vb -> uaddr m1 pml4 vb = uaddr (k_mem k) pml4 vb) as Hua
    by (intros vb Hvb; unfold uaddr; by rewrite E1).
  split; [done|]. split; [done|]. split; [intros vb Hvb; rewrite E2 by done; by apply E1|]. split.
  - intros i b x Hi Hx. pose proof (lookup_lt_Some _ _ _ Hi) as Hlt. rewrite length_app in Hlt.
    apply lookup_app_Some in Hi as [Hi|[Hge Hi]].
    + pose proof (lookup_lt_Some _ _ _ Hi). rewrite F2; [by eapply S1|].
      intros vb Hvb Hvx. rewrite Hua in Hvx by (unfold uva; lia).
      assert (vb = va + Z.of_nat i); [|lia].
      apply (uaddr_inj k tabs pml4 _ _ x); try done; unfold uva; lia.
    + apply (S2 (i - length b1)%nat); [done|]. rewrite Hua by (unfold uva; lia). rewrite <-Hx. f_equal. lia.
  - intros x Hx. rewrite length_app in Hx. rewrite F2, F1; [done| |].
    + intros vb Hvb. apply Hx. lia.
    + intros vb Hvb. rewrite Hua by (unfold uva; lia). apply Hx. lia.
Qed.

(** Addresses covered by the same page table have slots together. *)
Lemma pte_slot_same m pml4 va vb :
  PMX va = PMX vb -> PDPX va = PDPX vb -> PDX va = PDX vb ->
  is_Some (pte_slot m pml4 va) -> is_Some (pte_slot m pml4 vb).
Proof.
  intros E1 E2 E3. unfold pte_slot. rewrite E1, E2, E3.
  repeat (destruct (present _); cbn [mbind option_bind]); intros [? ?]; by eexists || done.
Qed.

Lemma pte_slot_mapped m pml4 va x : uaddr m pml4 va = Some x -> is_Some (pte_slot m pml4 va).
Proof. unfold uaddr, pte_at. destruct (pte_slot m pml4 va); [by eexists|done]. Qed.

Lemma pte_slot_absent m pml4 va pte :
  pte_slot m pml4 va = Some pte -> pte_at m pml4 va = None -> present (ld64 m pte) = false.
Proof.
  intros E. unfold pte_at. rewrite E. cbn [fmap option_fmap option_map mbind option_bind].
  by destruct (present _).
Qed.
