(* ===== verification/UvmCopy.v ===== *)
(** * Freeing and copying user address spaces (freevm and copyuvm of src/vm.c)

    freevm walks the four levels of the tables and returns every page of the address
    space to the free list; copyuvm builds an address space with the same contents in
    pages of its own. *)

From S2P Require Import Prelude Mem CString State Spinlock Ktrace Kalloc Vm Uvm.

(** ** freevm *)
Section Freevm.
  Context (k0 : kernel) (tabs : gmap (list Z) Z) (Hp : pt_ok k0 tabs).

(** The part of the address space below [p] is intact: none of its pages is free, and
    they hold what they held in [k0]. *)
Definition live (p : list Z) (k : kernel) (l : list Z) : Prop :=
  alloc_ready k l /\ kstep k0 k /\
  forall r t, tabs !! (r ++ p) = Some t ->
    t ∉ l /\ forall x, t <= x < t + PGSIZE -> ld8 (k_mem k) x = ld8 (k_mem k0) x.

(** [c] frees exactly the pages strictly below [p], and writes only to them. *)
Definition frees (p : list Z) (c : K unit) : Prop :=
  forall k l, live p k l ->
  exists k' l', c k = Ok tt k' /\ alloc_ready k' l' /\ kstep k k' /\
    (forall x, x ∈ l' <-> x ∈ l \/ exists r, r <> [] /\ tabs !! (r ++ p) = Some x) /\
    (forall x, (forall r t, r <> [] -> tabs !! (r ++ p) = Some t -> off t x) ->
       ld8 (k_mem k') x = ld8 (k_mem k) x).

Lemma tab_page r t : tabs !! r = Some t -> page_ok k0 t.
Proof. apply (po_page _ _ Hp). Qed.

Lemma app_cons_inj {A} (r r' : list A) i j p :
  r ++ i :: p = r' ++ j :: p -> i = j /\ r = r'.
Proof.
  intros E. assert (length r = length r') as El.
  { apply (f_equal length) in E. rewrite !length_app in E. simpl in E. lia. }
  apply app_inj_1 in E as [-> E]; [|done]. by injection E.
Qed.

(** kfree of a page that is intact. *)
Lemma kfree_live k l c :
  alloc_ready k l -> kstep k0 k -> page_ok k0 c -> c ∉ l ->
  exists k', kfree c k = Ok tt k' /\ alloc_ready k' (c :: l) /\ kstep k k' /\
    (forall x, off c x -> ld8 (k_mem k') x = ld8 (k_mem k) x) /\
    (mem_wf (k_mem k) -> mem_wf (k_mem k')).
Proof.
  intros Ha Hs Hc Hn. destruct (kfree_run k l c Ha) as (k' & tb & Ek & E & Ha' & _); try done.
  { by apply (kstep_page_ok k0 k). }
  exists k'. split_and!; try done.
  - rewrite Ek. apply kstep_alloc.
  - intros x Hx. subst k'. apply freed_mem_frame. exact Hx.
  - intros Hw. subst k'. cbn [k_mem settle set_cpu set_trace alloc_state set_kmem set_mem].
    unfold freed_mem, st64. auto with mach.
Qed.

(** Nothing is below a user page. *)
Lemma frees_leaf p : length p = 4%nat -> frees p (ret tt).
Proof.
  intros Hl k l (Ha & Hs & Hlive).
  assert (forall r t, r <> [] -> tabs !! (r ++ p) <> Some t) as Hnone.
  { intros r t Hr E. induction r as [|i r IH]; [done|].
    apply (po_closed _ _ Hp) in E as (_ & Hlen & _). rewrite length_app in Hlen. lia. }
  exists k, l. split_and!; try done; [apply kstep_refl|].
  intros x. split; [by left|]. intros [?|(r & Hr & E)]; [done|]. by apply Hnone in E.
Qed.

Lemma closed_app r q t : tabs !! (r ++ q) = Some t -> is_Some (tabs !! q).
Proof.
  revert t. induction r as [|i r IH]; intros t E; [by exists t|].
  apply (po_closed _ _ Hp) in E as (_ & _ & [t' E]). by eapply IH.
Qed.

(** The loop over the entries of one table, with [f] the loop of the next level. *)
Definition free_entries (n : nat) (t : Z) (f : Z -> K unit) : K unit :=
  for_each (upto n) (fun i =>
    e <- entry t i ;;
    when (present e) (let c := p2v (PTE_ADDR e) in f c ;;; kfree c)).

(** The pages below [p] through the entries in [done]. *)
Definition below (p : list Z) (done : list nat) (x : Z) : Prop :=
  exists r i, i ∈ done /\ tabs !! (r ++ Z.of_nat i :: p) = Some x.

Lemma frees_step p t (f : Z -> K unit) done i k l k1 l1 :
  tabs !! p = Some t -> (length p < 4)%nat -> idx_ok p (Z.of_nat i) ->
  (forall j c, tabs !! (j :: p) = Some c -> frees (j :: p) (f c)) ->
  live p k l -> i ∉ done -> alloc_ready k1 l1 -> kstep k k1 ->
  (forall x, x ∈ l1 <-> x ∈ l \/ below p done x) ->
  (forall x, (forall t', below p done t' -> off t' x) -> ld8 (k_mem k1) x = ld8 (k_mem k) x) ->
  exists k2 l2,
    (e <- entry t i ;;
     when (present e) (let c := p2v (PTE_ADDR e) in f c ;;; kfree c)) k1 = Ok tt k2 /\
    alloc_ready k2 l2 /\ kstep k k2 /\
    (forall x, x ∈ l2 <-> x ∈ l \/ below p (done ++ [i]) x) /\
    (forall x, (forall t', below p (done ++ [i]) t' -> off t' x) ->
       ld8 (k_mem k2) x = ld8 (k_mem k) x).
Proof.
  intros Ht Hl Hi Hf Hlive Hni Ha1 Hs1 Hm1 Hfr1. destruct Hlive as (Ha & Hs & Hin).
  assert (forall r t', (forall d, d ∈ done -> forall r', r <> r' ++ [Z.of_nat d]) ->
    tabs !! (r ++ p) = Some t' ->
    t' ∉ l1 /\ forall x, t' <= x < t' + PGSIZE -> ld8 (k_mem k1) x = ld8 (k_mem k0) x) as Hkeep.
  { intros r t' Hr E. destruct (Hin r t' E) as [Hnl Hb].
    assert (~ below p done t') as Hnb.
    { intros (r' & d & Hd & E'). assert (r ++ p = r' ++ Z.of_nat d :: p) as Epp by by eapply (po_inj _ _ Hp).
      apply (Hr d Hd r'). apply (app_inv_tail p). by rewrite Epp, <-app_assoc. }
    split; [rewrite Hm1; naive_solver|]. intros x Hx. rewrite <-Hb by done. apply Hfr1.
    intros t2 Hb2. apply (off_page k0 t'); [by eapply tab_page| |naive_solver|done].
    destruct Hb2 as (? & ? & _ & ?). by eapply tab_page. }
  assert (ld64 (k_mem k1) (t + 8 * Z.of_nat i) = ld64 (k_mem k0) (t + 8 * Z.of_nat i)) as Eent.
  { apply ld64_ext. intros x Hx. destruct (Hkeep [] t) as [_ Hb]; [|done|].
    - intros d _ r' E. by destruct r'.
    - apply Hb. unfold PGSIZE. destruct Hi. lia. }
  pose proof (po_entry _ _ Hp _ _ _ Ht Hl Hi) as Ec.
  assert (forall x, below p (done ++ [i]) x <->
            below p done x \/ exists r, tabs !! (r ++ Z.of_nat i :: p) = Some x) as Hbel.
  { intros x. unfold below. split.
    - intros (r & d & [Hd|Hd%list_elem_of_singleton]%elem_of_app & E); [left; eauto|].
      right. subst. eauto.
    - intros [(r & d & Hd & E)|[r E]]; [exists r, d|exists r, i];
        (split; [apply elem_of_app|done]); [by left|right; by apply list_elem_of_singleton]. }
  unfold entry. kr. rewrite Eent. destruct (present _).
  - set (c := p2v (PTE_ADDR (ld64 (k_mem k0) (t + 8 * Z.of_nat i)))) in *.
    destruct (Hf _ _ Ec k1 l1) as (k2 & l2 & E2 & Ha2 & Hs2 & Hm2 & Hfr2).
    { split; [done|]. split; [by eapply kstep_trans|]. intros r t' E. apply (Hkeep (r ++ [Z.of_nat i])).
      - intros d Hd r' Er. apply app_inj_2 in Er as [_ [= Er]]; [|done].
        apply Nat2Z.inj in Er as ->. done.
      - by rewrite <-app_assoc. }
    destruct (kfree_live k2 l2 c) as (k3 & E3 & Ha3 & Hs3 & Hfr3 & _); [done| |by eapply tab_page| |].
    { eapply kstep_trans; [|exact Hs2]. by eapply kstep_trans. }
    { rewrite Hm2. intros [Hc|(r & Hr & E)].
      - destruct (Hkeep [Z.of_nat i] c) as [Hc' _]; [|done|done]. intros d Hd r' Er.
        destruct r' as [|? [|]]; try done. injection Er as Er. apply Nat2Z.inj in Er as ->. done.
      - apply Hr. apply (app_inv_tail (Z.of_nat i :: p)). by apply (po_inj _ _ Hp _ _ c). }
    exists k3, (c :: l2). split_and!; try done.
    + cbn zeta. rewrite E2. exact E3.
    + eapply kstep_trans; [exact Hs1|]. by eapply kstep_trans.
    + intros x. rewrite elem_of_cons, Hm2, Hm1, Hbel. split.
      * intros [->|[[?|?]|(r & _ & E)]]; [|by left|by auto|by eauto]. right. right. by exists [].
      * intros [?|[?|[r E]]]; [by auto|by auto|]. destruct (decide (r = [])) as [->|Hr].
        -- left. simpl in E. congruence.
        -- right. right. by exists r.
    + intros x Hx. rewrite Hfr3, Hfr2, Hfr1; [done| | |].
      * intros t' Hb. apply Hx. rewrite Hbel. by left.
      * intros r t' _ E. apply Hx. rewrite Hbel. right. by exists r.
      * apply Hx. rewrite Hbel. right. by exists [].
  - assert (forall r x, tabs !! (r ++ Z.of_nat i :: p) <> Some x) as Hnone.
    { intros r x E. apply closed_app in E as [? E]. congruence. }
    exists k1, l1. split_and!; try done.
    + intros x. rewrite Hm1, Hbel. naive_solver.
    + intros x Hx. apply Hfr1. intros t' Hb. apply Hx. rewrite Hbel. by left.
Qed.

Lemma frees_loop n p t (f : Z -> K unit) :
  tabs !! p = Some t -> (length p < 4)%nat ->
  (forall i, (i < n)%nat <-> idx_ok p (Z.of_nat i)) ->
  (forall j c, tabs !! (j :: p) = Some c -> frees (j :: p) (f c)) ->
  frees p (free_entries n t f).
Proof.
  intros Ht Hl Hn Hf k l Hlive. pose proof Hlive as (Ha & Hs & Hin).
  destruct (for_each_inv (fun done k1 => NoDup done /\ exists l1, alloc_ready k1 l1 /\ kstep k k1 /\
     (forall x, x ∈ l1 <-> x ∈ l \/ below p done x) /\
     (forall x, (forall t', below p done t' -> off t' x) -> ld8 (k_mem k1) x = ld8 (k_mem k) x))
     (fun i => e <- entry t i ;;
        when (present e) (let c := p2v (PTE_ADDR e) in f c ;;; kfree c)) (upto n) k)
     as (k' & E & _ & l' & Ha' & Hs' & Hm & Hfr).
  - split; [constructor|]. exists l. split_and!; try done; [apply kstep_refl|].
    intros x. split; [by left|]. intros [?|(r & i & Hi & _)]; [done|]. by apply elem_of_nil in Hi.
  - intros done i k1 [rest Er] (Hnd & l1 & Ha1 & Hs1 & Hm1 & Hfr1).
    assert (NoDup (done ++ [i]) /\ (i < n)%nat) as [Hnd' Hlt].
    { pose proof (NoDup_seq 0 n) as Hsq. fold (upto n) in Hsq. rewrite Er in Hsq.
      split.
      - replace (done ++ i :: rest) with ((done ++ [i]) ++ rest) in Hsq by by rewrite <-app_assoc.
        by apply NoDup_app in Hsq as (? & _).
      - apply elem_of_upto. rewrite Er. apply elem_of_app. right. apply elem_of_cons. by left. }
    assert (i ∉ done) as Hni.
    { intros Hi. apply NoDup_app in Hnd' as (_ & Hd & _). apply (Hd i Hi). by apply list_elem_of_singleton. }
    destruct (frees_step p t f done i k l k1 l1) as (k2 & l2 & E2 & H2); try done; [by apply Hn|].
    exists k2. split; [done|]. split; [done|]. by exists l2.
  - exists k', l'. split_and!; try done.
    + intros x. rewrite Hm. f_equiv. split.
      * intros (r & i & _ & E'). exists (r ++ [Z.of_nat i]). split; [by destruct r|].
        by rewrite <-app_assoc.
      * intros (r & Hr & E'). destruct (exists_last Hr) as (r' & j & ->).
        rewrite <-app_assoc in E'. simpl in E'.
        destruct (closed_app _ _ _ E') as [c Ec]. apply (po_closed _ _ Hp) in Ec as (Hj & _).
        exists r', (Z.to_nat j). rewrite elem_of_upto, Hn. destruct Hj as [Hj Hj'].
        rewrite Z2Nat.id by lia. split; [|done]. by split.
    + intros x Hx. apply Hfr. intros t' (r & i & _ & E'). apply (Hx (r ++ [Z.of_nat i])).
      * by destruct r.
      * by rewrite <-app_assoc.
Qed.
End Freevm.

Lemma freevm_pt_entries pt : freevm_pt pt = free_entries NPDENTRIES pt (fun _ => ret tt).
Proof. reflexivity. Qed.
Lemma freevm_pd_entries pd : freevm_pd pd = free_entries NPDENTRIES pd freevm_pt.
Proof. reflexivity. Qed.
Lemma freevm_pdp_entries pdp : freevm_pdp pdp = free_entries NPDENTRIES pdp freevm_pd.
Proof. reflexivity. Qed.

Lemma idx_ok_512 p i : (0 < length p)%nat -> (i < NPDENTRIES)%nat <-> idx_ok p (Z.of_nat i).
Proof.
  intros Hp. unfold idx_ok, NPDENTRIES. destruct p; simpl in *; [lia|]. split; [|lia].
  intros. split; [lia|done].
Qed.

Lemma idx_ok_256 i : (i < NPDENTRIES / 2)%nat <-> idx_ok [] (Z.of_nat i).
Proof. unfold idx_ok. change (NPDENTRIES / 2)%nat with 256%nat. split; [lia|]. intros [? H]. specialize (H eq_refl). lia. Qed.

(** The loops of freevm free everything below the root. *)
Lemma freevm_frees k tabs pml4 :
  pt_ok k tabs -> tabs !! [] = Some pml4 ->
  frees k tabs [] (free_entries (NPDENTRIES / 2) pml4 freevm_pdp).
Proof.
  intros Hp Hr. apply frees_loop; try done; [simpl; lia|apply idx_ok_256|].
  intros i1 t1 H1. rewrite freevm_pdp_entries.
  apply frees_loop; try done; [simpl; lia|intros; apply idx_ok_512; simpl; lia|].
  intros i2 t2 H2. rewrite freevm_pd_entries.
  apply frees_loop; try done; [simpl; lia|intros; apply idx_ok_512; simpl; lia|].
  intros i3 t3 H3. rewrite freevm_pt_entries.
  apply frees_loop; try done; [simpl; lia|intros; apply idx_ok_512; simpl; lia|].
  intros i4 t4 H4. by apply frees_leaf.
Qed.

(** C9: freevm frees a whole address space: it returns, every table and every user
    page of the address space is on the free list, exactly once, together with the
    pages that were free before; and nothing outside those pages is written. *)
Theorem freevm_frees_all k tabs h l pml4 :
  vm_inv k tabs h l -> tabs !! [] = Some pml4 ->
  exists k' l', freevm pml4 k = Ok tt k' /\ alloc_ready k' l' /\ kstep k k' /\
    l' ≡ₚ owned tabs ++ l /\
    forall x, (forall t, t ∈ owned tabs -> off t x) -> ld8 (k_mem k') x = ld8 (k_mem k) x.
Proof.
  intros Hi Hr. pose proof (vi_pt _ _ _ _ Hi) as Hp.
  destruct (freevm_frees k tabs pml4 Hp Hr k l) as (k1 & l1 & E1 & Ha1 & Hs1 & Hm1 & Hfr1).
  { split; [apply Hi|]. split; [apply kstep_refl|]. intros r t Ht. split; [|done].
    by eapply vm_tab_not_free. }
  setoid_rewrite app_nil_r in Hm1. setoid_rewrite app_nil_r in Hfr1.
  assert (page_ok k pml4) as Hpg by by eapply (po_page _ _ Hp).
  destruct (kfree_live k k1 l1 pml4) as (k2 & E2 & Ha2 & Hs2 & Hfr2 & _); try done.
  { rewrite Hm1. intros [H|(r & Hne & H)]; [by eapply vm_tab_not_free|].
    apply Hne. by eapply (po_inj _ _ Hp). }
  exists k2, (pml4 :: l1). split_and!; try done.
  - unfold freevm. rewrite (proj2 (Z.eqb_neq pml4 0)) by by eapply page_ok_nonzero.
    krun E1. done.
  - by eapply kstep_trans.
  - apply NoDup_Permutation.
    + apply Ha2.
    + pose proof (vi_nodup _ _ _ _ Hi) as Hnd. by apply NoDup_app in Hnd as (_ & _ & ?).
    + intros x. rewrite elem_of_cons, Hm1, elem_of_app, elem_of_owned. split.
      * intros [->|[?|(r & _ & ?)]]; eauto.
      * intros [[r Hx]|?]; [|by auto]. destruct (decide (r = [])) as [->|Hne]; [|by eauto].
        left. congruence.
  - intros x Hx. rewrite Hfr2, Hfr1; [done| |].
    + intros r t _ Ht. apply Hx, elem_of_owned. by exists r.
    + apply Hx, elem_of_owned. by exists [].
Qed.

Lemma freevm_frees_all_witness :
  exists k' l', freevm (root_of 8) small_space = Ok tt k' /\ alloc_ready k' l' /\
    l' ≡ₚ free_pages 9.
Proof.
  destruct small_space_inv as (tabs & l & Hi & Hr & Hown & _ & _).
  destruct (freevm_frees_all small_space tabs [] l (root_of 8) Hi Hr) as (k' & l' & E & Ha & _ & Hperm & _).
  exists k', l'. split; [exact E|]. split; [exact Ha|].
  by rewrite Hperm.
Defined.

(** ** copyuvm *)

Lemma lor_present ent : present ent = true -> Z.lor (PTE_FLAGS ent) PTE_P = PTE_FLAGS ent.
Proof.
  intros H. unfold PTE_FLAGS, PTE_P. apply Z.bits_inj'. intros n Hn. rewrite Z.lor_spec.
  destruct (decide (n = 0)) as [->|Hne].
  - rewrite Z.land_spec. unfold present, truth in H. apply negb_true_iff, Z.eqb_neq in H.
    assert (Z.testbit ent 0 = true) as ->; [|done].
    destruct (Z.testbit ent 0) eqn:E; [done|]. exfalso. apply H.
    apply Z.bits_inj'. intros j Hj. rewrite Z.land_spec, Z.bits_0. unfold PTE_P.
    destruct (decide (j = 0)) as [->|]; [by rewrite E|]. rewrite (Z.bits_above_log2 1) by (simpl; lia).
    apply andb_false_r.
  - rewrite (Z.bits_above_log2 1) by (simpl; lia). apply orb_false_r.
Qed.

(** [va] is mapped in the copy to a page of its own that has the flags and the bytes
    of the original. *)
Definition copied (k : kernel) (pgdir : Z) (l : list Z) (k' : kernel)
    (tabs' : gmap (list Z) Z) (va : Z) : Prop :=
  exists ent f, pte_at (k_mem k) pgdir va = Some ent /\ f ∈ l /\
    upage k' tabs' va f (PTE_FLAGS ent) /\
    forall o, 0 <= o < PGSIZE -> ld8 (k_mem k') (f + o) = ld8 (k_mem k) (p2v (PTE_ADDR ent) + o).

Section Copyuvm.
  Context (pt : gmap (list Z) Z) (pgdir d : Z) (h : list Z).
  Context (Hroot : pt !! [] = Some pgdir) (Hheld : forall t, t ∈ owned pt -> t ∈ h).

(** The parent's pages are held, so building the child leaves them alone. *)
Lemma parent_frame k ct l k' ct' h' l' :
  vm_inv k ct h l -> vm_post k ct h l k' ct' h' l' -> pt_ok k pt ->
  pt_ok k' pt /\ (forall va, uva va -> pte_at (k_mem k') pgdir va = pte_at (k_mem k) pgdir va) /\
  forall p t x, pt !! p = Some t -> t <= x < t + PGSIZE -> ld8 (k_mem k') x = ld8 (k_mem k) x.
Proof.
  intros Hi Hpost Hp.
  assert (forall p t x, pt !! p = Some t -> t <= x < t + PGSIZE ->
            ld8 (k_mem k') x = ld8 (k_mem k) x) as Hb.
  { intros p t x Ht Hx. eapply vm_post_held_page; try done. apply Hheld, elem_of_owned. by exists p. }
  assert (pt_ok k' pt) as Hp'.
  { apply (pt_ok_frame k); [|intros p t x Ht _; by apply (Hb p)|done].
    intros v. by apply kstep_page_ok, Hpost. }
  split; [done|]. split; [|done]. intros va Hu. rewrite !(pte_at_leaf _ pt) by done.
  destruct (path_leaf va) as (j & q & -> & Hq & Hj). apply (leaf_ext k); try done.
  intros t x Ht Hx. by apply (Hb q t).
Qed.

Lemma copyuvm_from_run n fuel k ct l a sz :
  (n <= fuel)%nat -> a `mod` 4096 = 0 -> 0 <= a -> a + 4096 * Z.of_nat n <= 2 ^ 47 ->
  sz <= a + 4096 * Z.of_nat n -> ((0 < n)%nat -> a + 4096 * (Z.of_nat n - 1) < sz) ->
  vm_inv k ct h l -> ct !! [] = Some d -> pt_ok k pt -> (4 * n <= length l)%nat ->
  (forall va, a <= va < a + 4096 * Z.of_nat n -> is_Some (pte_at (k_mem k) pgdir va)) ->
  (forall va, a <= va < a + 4096 * Z.of_nat n -> ct !! path va = None) ->
  exists k' ct' l', copyuvm_from fuel pgdir d a sz k = Ok true k' /\
    vm_post k ct h l k' ct' h l' /\ ct ⊆ ct' /\
    forall va, uva va ->
      if decide (a <= va < a + 4096 * Z.of_nat n) then copied k pgdir l k' ct' va
      else same_map k ct k' ct' va.
Proof.
  revert fuel k ct l a.
  induction n as [|n IH]; intros fuel k ct l a Hfu Hal Ha Hmax Hle Hlt Hi Hr Hp Hlen Hmap Hnone.
  - exists k, ct, l. split_and!; try done.
    + destruct fuel; cbn [copyuvm_from]; rewrite (proj2 (Z.ltb_ge a sz)) by lia; done.
    + by apply vm_post_refl.
    + intros va _. rewrite decide_False by lia. done.
  - destruct fuel as [|fuel]; [lia|]. cbn [copyuvm_from].
    specialize (Hlt ltac:(lia)). rewrite (proj2 (Z.ltb_lt a sz)) by lia. cbn [negb].
    destruct l as [|v l]; [simpl in Hlen; lia|]. simpl in Hlen.
    assert (uva a) as Hua by (unfold uva; lia).
    destruct (Hmap a ltac:(lia)) as [ent Eent].
    destruct (pte_at_page k pt pgdir a ent Hp Hroot Hua Eent) as (Hsrc & t3 & _ & El & Es & Epr).
    assert (0 <= PTE_FLAGS ent < 4096) as Hfl by (rewrite PTE_FLAGS_mod; by apply Z.mod_pos_bound).
    destruct (copy_one k ct h v l d a (p2v (PTE_ADDR ent)) (PTE_FLAGS ent)) as
      (k1 & k2 & ct2 & l2 & E1 & E2 & P2 & S2 & L2 & Sub2 & U2 & C2 & M2); try done;
      [lia|apply Hnone; lia|].
    rewrite lor_present in U2 by done.
    pose proof (vp_inv _ _ _ _ _ _ _ _ P2) as I2.
    destruct (parent_frame k ct (v :: l) k2 ct2 h l2 Hi P2 Hp) as (Hp2 & Hpte2 & Hb2).
    destruct (IH fuel k2 ct2 l2 (a + 4096)) as (k3 & ct3 & l3 & E3 & P3 & S3 & G3); try done; try lia.
    + Z.to_euclidean_division_equations; lia.
    + by eapply lookup_weaken.
    + intros va Hva. rewrite Hpte2 by (unfold uva; lia). apply Hmap. lia.
    + intros va Hva. destruct (M2 va) as [-> _]; [unfold uva; lia| |apply Hnone; lia].
      Z.to_euclidean_division_equations; lia.
    + exists k3, ct3, l3. split_and!.
      * krun (walkpgdir_pure k pgdir a). rewrite Es. kr. rewrite El, Epr. cbn [negb].
        rewrite E1. cbn [obind]. rewrite (proj2 (Z.eqb_neq v 0)) by
          (eapply page_ok_nonzero, vm_free_ok; [exact Hi|apply elem_of_cons; by left]).
        apply obind_inv_ok in E2 as ([] & k1' & Em & Emap). rewrite Em. cbn [obind]. rewrite Emap.
        cbn [obind Z.ltb Z.compare]. unfold PGSIZE. rewrite u64_small by (unfold in_u64; lia). exact E3.
      * by eapply vm_post_trans.
      * by etransitivity.
      * intros va Hva. specialize (G3 va Hva).
        destruct (decide (a <= va < a + 4096 * Z.of_nat (S n))) as [D|D].
        -- destruct (decide (a + 4096 <= va)) as [D1|D1].
           ++ rewrite decide_True in G3 by lia. destruct G3 as (ent' & f & He' & Hf & Hup & Hc).
              exists ent', f. rewrite Hpte2 in He' by done. split_and!; try done.
              { apply elem_of_cons. right. by apply Sub2. }
              intros o Ho. rewrite Hc by done. 
              destruct (pte_at_page k pt pgdir va ent' Hp Hroot Hva He') as (Hsrc' & _).
              apply (Hb2 _ _ _ Hsrc'). lia.
           ++ rewrite decide_False in G3 by lia.
              assert (va / 4096 = a / 4096) as Epg by (Z.to_euclidean_division_equations; lia).
              exists ent, v. split_and!.
              ** rewrite <-Eent, !(pte_at_leaf k pt) by done.
                 by rewrite (proj2 (path_page_iff va a Hva Hua) Epg).
              ** apply elem_of_cons. by left.
              ** eapply upage_same; [exact G3|]. by apply (upage_path _ _ a).
              ** intros o Ho. rewrite <-C2 by done. destruct U2 as [U2 _].
                 eapply vm_post_frame_page; try done. lia.
        -- rewrite decide_False in G3 by lia. eapply same_map_trans; [|exact G3].
           apply M2; [done|]. Z.to_euclidean_division_equations; lia.
Qed.
End Copyuvm.

(** C10: copyuvm copies an address space of [sz] bytes, below 4GB.  With enough free
    pages it returns a new root whose user pages from PGSIZE up to [sz] hold the bytes
    and the protection of the parent's, in pages taken from the free list, and which
    maps nothing else; the parent's mappings and memory do not change; and the two
    address spaces, the pages held elsewhere and the free list have no page in common. *)
Theorem copyuvm_copies k pt h v l pgdir sz :
  let n := Z.to_nat ((sz - 4096 + 4095) / 4096) in
  vm_inv k pt h (v :: l) -> pt !! [] = Some pgdir -> 4096 <= sz < 2 ^ 32 ->
  (4 * n <= length l)%nat ->
  (forall va, 4096 <= va < 4096 + 4096 * Z.of_nat n -> is_Some (pte_at (k_mem k) pgdir va)) ->
  exists k' ct l', copyuvm pgdir sz k = Ok v k' /\
    vm_inv k' ct (h ++ owned pt) l' /\ ct !! [] = Some v /\ kstep k k' /\
    (forall va, uva va ->
       if decide (4096 <= va < 4096 + 4096 * Z.of_nat n) then copied k pgdir l k' ct va
       else pte_at (k_mem k') v va = None) /\
    (forall va, uva va -> pte_at (k_mem k') pgdir va = pte_at (k_mem k) pgdir va) /\
    (forall p t x, pt !! p = Some t -> t <= x < t + PGSIZE -> ld8 (k_mem k') x = ld8 (k_mem k) x).
Proof.
  intros n Hi Hr Hsz Hlen Hmap. pose proof Hi as [Ha Hw Hp Hh Hnd].
  destruct (setupkvm_run k (h ++ owned pt) v l) as (k1 & E1 & I1 & S1 & Fr1 & _); try done.
  { apply Forall_app. split; [done|]. apply Forall_forall. intros t [p Ht]%elem_of_owned.
    by eapply (po_page _ _ Hp). }
  { by rewrite <-app_assoc. }
  assert (forall p t x, pt !! p = Some t -> t <= x < t + PGSIZE ->
            ld8 (k_mem k1) x = ld8 (k_mem k) x) as Hb1.
  { intros p t x Ht Hx. apply Fr1. apply (off_page k t); try done; [by eapply (po_page _ _ Hp)| |].
    - eapply vm_free_ok; [exact Hi|]. apply elem_of_cons. by left.
    - intros ->. eapply vm_tab_not_free; [exact Hi|exact Ht|]. apply elem_of_cons. by left. }
  assert (pt_ok k1 pt) as Hp1.
  { apply (pt_ok_frame k); [|intros p t x Ht _; by apply (Hb1 p)|done].
    intros w. by apply kstep_page_ok. }
  assert (forall va, uva va -> pte_at (k_mem k1) pgdir va = pte_at (k_mem k) pgdir va) as Hpte1.
  { intros va Hu. rewrite !(pte_at_leaf _ pt) by done.
    destruct (path_leaf va) as (j & q & -> & Hq & Hj). apply (leaf_ext k); try done.
    intros t x Ht Hx. by apply (Hb1 q t). }
  assert (4096 + 4096 * Z.of_nat n <= 2 ^ 47 /\ sz <= 4096 + 4096 * Z.of_nat n /\
          ((0 < n)%nat -> 4096 + 4096 * (Z.of_nat n - 1) < sz)) as (A1 & A2 & A3).
  { subst n. clear -Hsz. Z.to_euclidean_division_equations; lia. }
  destruct (copyuvm_from_run pt pgdir v (h ++ owned pt) Hr
    ltac:(intros; apply elem_of_app; by right) n (Z.to_nat (sz / PGSIZE)) k1 {[ [] := v ]} l 4096 sz)
    as (k2 & ct & l2 & E2 & P2 & S2 & G2); try done.
  - subst n. unfold PGSIZE. clear. Z.to_euclidean_division_equations; lia.
  - intros va Hva. rewrite Hpte1 by (unfold uva; lia). by apply Hmap.
  - intros va _. by rewrite lookup_singleton_ne.
  - pose proof (parent_frame pt pgdir (h ++ owned pt) Hr
      ltac:(intros; apply elem_of_app; by right) k1 _ _ _ _ _ _ I1 P2 Hp1) as (_ & Hpte2 & Hb2).
    assert (ct !! [] = Some v) as Hrc by (eapply lookup_weaken; [|exact S2]; apply lookup_singleton_eq).
    exists k2, ct, l2. split_and!; try done; try apply P2.
    + unfold copyuvm. rewrite u32_small by (unfold in_u32; lia). krun E1.
      rewrite (proj2 (Z.eqb_neq v 0)) by
        (eapply page_ok_nonzero, vm_free_ok; [exact Hi|apply elem_of_cons; by left]).
      krun E2. done.
    + eapply kstep_trans; [exact S1|apply P2].
    + intros va Hu. specialize (G2 va Hu). case_decide.
      * destruct G2 as (ent & f & He & Hf & Hup & Hc). rewrite Hpte1 in He by done.
        exists ent, f. split_and!; try done. intros o Ho. rewrite Hc by done.
        destruct (pte_at_page k pt pgdir va ent Hp Hr Hu He) as (Hsrc & _). apply (Hb1 _ _ _ Hsrc). lia.
      * destruct G2 as [G2 _]. apply (unmapped_iff k2 ct); try done; [apply P2|].
        rewrite G2. by rewrite lookup_singleton_ne.
    + intros va Hu. rewrite Hpte2 by done. by apply Hpte1.
    + intros p t x Ht Hx. rewrite (Hb2 p t x) by done. by apply (Hb1 p t).
Qed.

(** A process image of two pages with room for its copy. *)
Definition parent_space : kernel :=
  final (allocuvm (root_of 20) 4096 12288 (new_space 20)) kernel0.

Lemma parent_space_inv :
  exists tabs v l, vm_inv parent_space tabs [] (v :: l) /\ tabs !! [] = Some (root_of 20) /\
    (8 <= length l)%nat /\ km_end (k_kmem parent_space) = KERNBASE + 1048576 /\
    forall vb, 4096 <= vb < 12288 -> is_Some (pte_at (k_mem parent_space) (root_of 20) vb).
Proof.
  destruct (allocuvm_run (new_space 20) {[ [] := root_of 20 ]} [] (free_pages 20) (root_of 20) 4096 12288)
    as (k' & tabs' & l' & E & P & Hr & L & G); try lia.
  - apply new_space_inv. lia.
  - apply lookup_singleton_eq.
  - vm_compute. lia.
  - intros va Hva. apply new_space_unmapped; [lia|].
    change (PGROUNDUP 4096) with 4096 in Hva.
    change (Z.to_nat ((12288 - 4096 + 4095) / 4096)) with 2%nat in Hva. unfold uva. lia.
  - assert (parent_space = k') as -> by exact (final_ok _ _ _ _ E).
    change (length (free_pages 20)) with 20%nat in L.
    change (PGROUNDUP 4096) with 4096 in *.
    change (Z.to_nat ((12288 - 4096 + 4095) / 4096)) with 2%nat in *.
    destruct l' as [|v l']; [simpl in L; lia|]. exists tabs', v, l'.
    split; [apply P|]. split; [done|]. split; [simpl in L; lia|]. split.
    { rewrite (kstep_kend _ _ (vp_step _ _ _ _ _ _ _ _ P)). apply new_space_inv. lia. }
    intros vb Hvb.
    assert (uva vb) as Hu by (unfold uva; lia). specialize (G vb Hu).
    rewrite decide_True in G by lia. destruct G as (f & _ & Hup & _).
    destruct (upage_mapped _ _ _ _ _ _ (vi_pt _ _ _ _ (vp_inv _ _ _ _ _ _ _ _ P)) Hr Hu Hup)
      as (ent & Ee & _). by exists ent.
Qed.

Lemma copyuvm_copies_witness :
  exists v k' ct l, copyuvm (root_of 20) 12288 parent_space = Ok v k' /\
    copied parent_space (root_of 20) l k' ct 5000 /\ pte_at (k_mem k') v 20000 = None.
Proof.
  destruct parent_space_inv as (tabs & v & l & Hi & Hr & L & _ & Hmap).
  destruct (copyuvm_copies parent_space tabs [] v l (root_of 20) 12288) as
    (k' & ct & l' & E & _ & _ & _ & G & _).
  - exact Hi.
  - exact Hr.
  - lia.
  - exact L.
  - intros va Hva. apply Hmap. exact Hva.
  - exists v, k', ct, l. split; [exact E|]. split.
    + exact (G 5000 ltac:(unfold uva; lia)).
    + exact (G 20000 ltac:(unfold uva; lia)).
Defined.
