(* ===== verification/UvmShrink.v ===== *)
(** * Shrinking user address spaces (deallocuvm of src/vm.c)

    deallocuvm clears the entries of the pages above the new size and returns those
    pages to the free list; the tables stay. *)

From S2P Require Import Prelude Mem CString State Spinlock Ktrace Kalloc Vm Uvm UvmCopy.

(** Clearing the entry of a user page. *)
Lemma pt_ok_unmap k m' tabs p t i f :
  pt_ok k tabs -> tabs !! p = Some t -> length p = 3%nat -> tabs !! (i :: p) = Some f ->
  present (ld64 m' (t + 8 * i)) = false ->
  (forall q t' j, tabs !! q = Some t' -> (length q < 4)%nat -> 0 <= j < 512 ->
     j :: q <> i :: p -> ld64 m' (t' + 8 * j) = ld64 (k_mem k) (t' + 8 * j)) ->
  pt_ok (set_mem m' k) (delete (i :: p) tabs).
Proof.
  intros Hp Ht Hl Hf Habs Hsame. constructor.
  - intros q t' [_ Hq]%lookup_delete_Some. by eapply (po_page _ _ Hp).
  - intros q q' t' [_ H1]%lookup_delete_Some [_ H2]%lookup_delete_Some. by eapply (po_inj _ _ Hp).
  - intros j q t' [_ Hq]%lookup_delete_Some. apply (po_closed _ _ Hp) in Hq as (H1 & H2 & [t2 H3]).
    split_and!; try done. rewrite lookup_delete_ne; [by exists t2|]. intros <-. simpl in H2. lia.
  - intros q t' j [Hne Hq]%lookup_delete_Some Hlq Hj. cbn [k_mem set_mem].
    destruct (decide (j :: q = i :: p)) as [[= -> ->]|E].
    + rewrite lookup_delete_eq. assert (t' = t) as -> by congruence. by rewrite Habs.
    + rewrite lookup_delete_ne by done. rewrite (Hsame q) by (done || apply Hj).
      by apply (po_entry _ _ Hp).
Qed.

(** What a round of the loop, or the whole loop, leaves. *)
Record shrunk (k : kernel) (tabs : gmap (list Z) Z) (h l : list Z)
    (k' : kernel) (tabs' : gmap (list Z) Z) (l' : list Z) : Prop := Shrunk {
  sh_inv : vm_inv k' tabs' h l';
  sh_step : kstep k k';
  sh_own : owned tabs' ++ l' ≡ₚ owned tabs ++ l;
  sh_sub : tabs' ⊆ tabs;
  sh_bytes : forall p f x, tabs' !! p = Some f -> length p = 4%nat -> f <= x < f + PGSIZE ->
    ld8 (k_mem k') x = ld8 (k_mem k) x;
  sh_held : forall f x, f ∈ h -> f <= x < f + PGSIZE -> ld8 (k_mem k') x = ld8 (k_mem k) x
}.

Lemma shrunk_trans k tabs h l k1 tabs1 l1 k2 tabs2 l2 :
  shrunk k tabs h l k1 tabs1 l1 -> shrunk k1 tabs1 h l1 k2 tabs2 l2 ->
  shrunk k tabs h l k2 tabs2 l2.
Proof.
  intros [I1 S1 O1 U1 B1 H1] [I2 S2 O2 U2 B2 H2]. constructor; try done.
  - by eapply kstep_trans.
  - by rewrite O2.
  - by etransitivity.
  - intros p f x Hp Hl Hx. rewrite (B2 p f x) by done. apply (B1 p f x); try done.
    by eapply lookup_weaken.
  - intros f x Hf Hx. rewrite (H2 f x) by done. by apply (H1 f x).
Qed.

Lemma shrunk_refl k tabs h l : vm_inv k tabs h l -> shrunk k tabs h l k tabs l.
Proof. intros Hi. constructor; try done. apply kstep_refl. Qed.

Lemma unmap_one k tabs h l pml4 va ent :
  KERNBASE < km_end (k_kmem k) -> vm_inv k tabs h l -> tabs !! [] = Some pml4 -> uva va -> pte_at (k_mem k) pml4 va = Some ent ->
  exists k1 k' tabs' l' pte,
    pte_slot (k_mem k) pml4 va = Some pte /\ ld64 (k_mem k) pte = ent /\ present ent = true /\
    PTE_ADDR ent <> 0 /\ kfree (p2v (PTE_ADDR ent)) k = Ok tt k1 /\
    k' = set_mem (st64 (k_mem k1) pte 0) k1 /\ shrunk k tabs h l k' tabs' l' /\
    tabs' = delete (path va) tabs /\ l' = p2v (PTE_ADDR ent) :: l /\
    forall vb, uva vb -> vb / 4096 <> va / 4096 -> same_map k tabs k' tabs' vb.
Proof.
  intros Hend Hi Hr Hu Ee. pose proof Hi as [Ha Hw Hp Hh Hnd].
  destruct (pte_at_page k tabs pml4 va ent Hp Hr Hu Ee) as (Hf & t & Ht & El & Es & Epr).
  set (f := p2v (PTE_ADDR ent)) in *. destruct (idx_ok_path va Hu) as (_ & _ & _ & I4).
  assert (page_ok k f) as Hfk by by eapply (po_page _ _ Hp).
  assert (f ∉ l) as Hnl by by eapply vm_tab_not_free.
  destruct (kfree_live k k l f) as (k1 & E1 & Ha1 & S1 & Fr1 & Hw1); try done; [apply kstep_refl|].
  set (pte := t + 8 * PTX va) in *. set (m' := st64 (k_mem k1) pte 0).
  assert (forall x, off f x -> x < pte \/ pte + 8 <= x -> ld8 m' x = ld8 (k_mem k) x) as Hfr.
  { intros x H1 H2. unfold m', st64. rewrite ld8_st_bytes, length_le_split, decide_False by lia.
    by apply Fr1. }
  assert (forall q t' x, tabs !! q = Some t' -> t' <> f -> t' <= x < t' + PGSIZE -> off f x) as Hoff.
  { intros q t' x Hq Hne Hx. apply (off_page k t'); try done. by eapply (po_page _ _ Hp). }
  assert (forall q t', tabs !! q = Some t' -> q <> path va -> t' <> f) as Hnf.
  { intros q t' Hq Hne ->. apply Hne. by eapply (po_inj _ _ Hp). }
  assert (forall q t' j, tabs !! q = Some t' -> (length q < 4)%nat -> 0 <= j < 512 ->
     j :: q <> path va -> ld64 m' (t' + 8 * j) = ld64 (k_mem k) (t' + 8 * j)) as Hsame.
  { intros q t' j Hq Hlq Hj Hne. apply ld64_ext. intros x Hx. apply Hfr.
    - apply (Hoff q t'); [done|eapply Hnf; [done|intros ->; simpl in Hlq; lia]|].
      unfold PGSIZE. lia.
    - destruct (entries_disjoint k tabs _ t (PTX va) q t' j Hp Ht Hq) as [?|?];
        [apply I4|done|done| |]; unfold pte; lia. }
  assert (pt_ok (set_mem m' k1) (delete (path va) tabs)) as Hp'.
  { assert (pt_ok (set_mem m' k) (delete (path va) tabs)) as H0.
    { apply (pt_ok_unmap _ _ _ _ t _ f); try done. unfold m', pte. by rewrite ld64_st64_same. }
    apply (pt_ok_frame (set_mem m' k)); [|done|done]. intros w. by apply (kstep_page_ok k k1). }
  exists k1, (set_mem m' k1), (delete (path va) tabs), (f :: l), pte.
  assert (PTE_ADDR ent <> 0) as Hnz.
  { intros E0. destruct Hfk as (_ & _ & Hge & _). unfold f in Hge. rewrite E0 in Hge.
    change (p2v 0) with KERNBASE in Hge. lia. }
  assert (forall w x, page_ok k w -> w <> t -> w <= x < w + PGSIZE -> x < pte \/ pte + 8 <= x) as Hslot.
  { intros w x Hwk Hwt Hx. pose proof (off_page k w t x Hwk (po_page _ _ Hp _ _ Ht) Hwt Hx) as Ho.
    unfold off, pte, PGSIZE in *. destruct I4 as [I4 _]. lia. }
  assert (f <> t) as Hft by (symmetry; eapply Hnf; [exact Ht|done]).
  split_and!; try done.
  - constructor.
    + constructor; try done.
      * apply alloc_ready_mem; [done|]. intros q x Hq Hx. unfold m', st64.
        rewrite ld8_st_bytes, length_le_split, decide_False; [done|].
        assert (page_ok k q /\ q <> t) as [Hqk Hqt].
        { apply elem_of_cons in Hq as [->|Hq]; [done|]. split; [by eapply vm_free_ok|].
          intros ->. by eapply vm_tab_not_free. }
        pose proof (Hslot q x Hqk Hqt Hx). lia.
      * cbn [k_mem set_mem]. unfold m', st64. auto with mach.
      * eapply Forall_impl; [exact Hh|]. intros w. by apply (kstep_page_ok k k1).
      * rewrite <-Permutation_middle, app_comm_cons, <-(owned_delete tabs (path va) f) by done. done.
    + eapply kstep_trans; [exact S1|apply kstep_mem].
    + rewrite <-Permutation_middle. by rewrite (owned_delete tabs (path va) f).
    + apply delete_subseteq.
    + intros q g x Hq Hlq Hx. apply lookup_delete_Some in Hq as [Hne Hq].
      apply Hfr; [apply (Hoff q g); [done|eapply Hnf; [done|congruence]|done]|].
      apply (Hslot g); [by eapply (po_page _ _ Hp)| |done]. intros ->.
      assert (q = [PDX va; PDPX va; PMX va]) as -> by by eapply (po_inj _ _ Hp). done.
    + intros g x Hg Hx. assert (page_ok k g) as Hgk by exact (proj1 (Forall_forall _ _) Hh g Hg).
      apply Hfr; [apply (off_page k g); try done|apply (Hslot g); try done]; intros ->.
      * exact (vm_tab_not_held _ _ _ _ _ _ Hi Hf Hg).
      * exact (vm_tab_not_held _ _ _ _ _ _ Hi Ht Hg).
  - intros vb Hvb Hne.
    assert (path vb <> path va) as Hpne by (intros E; apply Hne; by apply path_page).
    split; [by rewrite lookup_delete_ne|].
    destruct (path_leaf vb) as (j & q & Epath & Hq & Hj). rewrite Epath in *. cbn [leaf k_mem set_mem].
    rewrite lookup_delete_ne by (intros <-; simpl in Hq; lia).
    destruct (tabs !! q) as [t'|] eqn:Eq; [|done]. cbn [mbind option_bind].
    by rewrite (Hsame q) by (done || lia).
Qed.

(** ** The loop *)

Lemma deallocuvm_page_run k tabs h l pml4 a :
  KERNBASE < km_end (k_kmem k) -> vm_inv k tabs h l -> tabs !! [] = Some pml4 -> uva a ->
  exists k1 tabs1 l1, deallocuvm_page pml4 a k = Ok tt k1 /\ shrunk k tabs h l k1 tabs1 l1 /\
    tabs1 !! [] = Some pml4 /\ tabs1 !! path a = None /\
    forall vb, uva vb -> vb / 4096 <> a / 4096 -> same_map k tabs k1 tabs1 vb.
Proof.
  intros Hend Hi Hr Hua. unfold deallocuvm_page. krun (walkpgdir_pure k pml4 a).
  destruct (pte_at (k_mem k) pml4 a) as [ent|] eqn:Ee.
  - destruct (unmap_one k tabs h l pml4 a ent Hend Hi Hr Hua Ee) as
      (k1 & k2 & tabs2 & l2 & pte & Es & El & Epr & Hnz & E1 & Ek & Sh & Et & _ & M).
    exists k2, tabs2, l2. rewrite Es. kr. rewrite El, Epr.
    rewrite (proj2 (Z.eqb_neq _ 0)) by done. rewrite E1. unfold memory. kr.
    split_and!; try done; [by subst k2| |]; subst tabs2.
    + by rewrite lookup_delete_ne.
    + apply lookup_delete_eq.
  - exists k, tabs, l. pose proof Ee as Ee'.
    apply (unmapped_iff k tabs pml4 a (vi_pt _ _ _ _ Hi) Hr Hua) in Ee'.
    split_and!; try done; [|by apply shrunk_refl].
    unfold pte_at in Ee. destruct (pte_slot (k_mem k) pml4 a) as [sl|]; [|done].
    cbn [mbind option_bind fmap option_fmap option_map] in Ee. kr. by destruct (present _).
Qed.

Lemma deallocuvm_from_run n fuel k tabs h l pml4 a oldsz :
  (n <= fuel)%nat -> a `mod` 4096 = 0 -> 0 <= a -> a + 4096 * Z.of_nat n <= 2 ^ 47 ->
  oldsz <= a + 4096 * Z.of_nat n -> ((0 < n)%nat -> a + 4096 * (Z.of_nat n - 1) < oldsz) ->
  KERNBASE < km_end (k_kmem k) -> vm_inv k tabs h l -> tabs !! [] = Some pml4 ->
  exists k' tabs' l', deallocuvm_from fuel pml4 a oldsz k = Ok tt k' /\
    shrunk k tabs h l k' tabs' l' /\ tabs' !! [] = Some pml4 /\
    forall va, uva va ->
      if decide (a <= va < a + 4096 * Z.of_nat n) then tabs' !! path va = None
      else same_map k tabs k' tabs' va.
Proof.
  revert fuel k tabs l a.
  induction n as [|n IH]; intros fuel k tabs l a Hfu Hal Ha Hmax Hle Hlt Hend Hi Hr.
  - exists k, tabs, l. split_and!; try done.
    + destruct fuel; cbn [deallocuvm_from]; rewrite (proj2 (Z.ltb_ge a oldsz)) by lia; done.
    + by apply shrunk_refl.
    + intros va _. rewrite decide_False by lia. done.
  - destruct fuel as [|fuel]; [lia|]. cbn [deallocuvm_from].
    specialize (Hlt ltac:(lia)). rewrite (proj2 (Z.ltb_lt a oldsz)) by lia. cbn [negb].
    assert (uva a) as Hua by (unfold uva; lia).
    destruct (deallocuvm_page_run k tabs h l pml4 a) as (k1 & tabs1 & l1 & E1 & Sh1 & R1 & N1 & M1);
      try done.
    destruct (IH fuel k1 tabs1 l1 (a + 4096)) as (k3 & tabs3 & l3 & E3 & Sh3 & R3 & G3);
      try done; try lia.
    + Z.to_euclidean_division_equations; lia.
    + by rewrite (kstep_kend _ _ (sh_step _ _ _ _ _ _ _ Sh1)).
    + apply Sh1.
    + exists k3, tabs3, l3. split_and!; try done.
      * krun E1. unfold PGSIZE. rewrite u64_small by (unfold in_u64; lia). exact E3.
      * by eapply shrunk_trans.
      * intros va Hva. specialize (G3 va Hva).
        destruct (decide (a <= va < a + 4096 * Z.of_nat (S n))) as [D|D].
        -- destruct (decide (a + 4096 <= va)) as [D1|D1].
           ++ by rewrite decide_True in G3 by lia.
           ++ rewrite decide_False in G3 by lia. destruct G3 as [-> _].
              assert (va / 4096 = a / 4096) as Epg by (Z.to_euclidean_division_equations; lia).
              by rewrite (proj2 (path_page_iff va a Hva Hua) Epg).
        -- rewrite decide_False in G3 by lia. eapply same_map_trans; [|exact G3].
           apply M1; [done|]. Z.to_euclidean_division_equations; lia.
Qed.

(** C11: deallocuvm shrinks an address space from [oldsz] to [newsz] bytes: it returns
    [newsz]; the pages above the new size are unmapped and back on the free list (the
    address space and the free list together own the same pages); every other mapping,
    the contents of the remaining user pages and of the pages held elsewhere are
    unchanged. *)
Theorem deallocuvm_shrinks k tabs h l pml4 oldsz newsz :
  let a := PGROUNDUP newsz in
  KERNBASE < km_end (k_kmem k) -> vm_inv k tabs h l -> tabs !! [] = Some pml4 ->
  0 <= newsz < oldsz -> oldsz <= 2 ^ 47 - 4096 ->
  exists k' tabs' l', deallocuvm pml4 oldsz newsz k = Ok newsz k' /\
    shrunk k tabs h l k' tabs' l' /\
    forall va, uva va ->
      pte_at (k_mem k') pml4 va =
      if decide (a <= va < PGROUNDUP oldsz) then None else pte_at (k_mem k) pml4 va.
Proof.
  intros a Hend Hi Hr Hsz Hmax.
  assert (a = (newsz + 4095) / 4096 * 4096) as Ea by (apply PGROUNDUP_spec; lia).
  rewrite PGROUNDUP_spec by lia.
  set (n := Z.to_nat ((oldsz - a + 4095) / 4096)).
  assert (0 <= a /\ a `mod` 4096 = 0 /\ a + 4096 * Z.of_nat n <= 2 ^ 47 /\
          oldsz <= a + 4096 * Z.of_nat n /\
          ((0 < n)%nat -> a + 4096 * (Z.of_nat n - 1) < oldsz) /\
          (oldsz + 4095) / 4096 * 4096 = Z.max a (a + 4096 * Z.of_nat n)) as (A1 & A2 & A3 & A4 & A5 & A6).
  { subst n. rewrite Ea. clear -Hsz Hmax. Z.to_euclidean_division_equations; lia. }
  destruct (deallocuvm_from_run n (Z.to_nat ((oldsz - a) / PGSIZE + 1)) k tabs h l pml4 a oldsz)
    as (k' & tabs' & l' & E & Sh & Hr' & G); try done.
  - subst n. unfold PGSIZE. clear. Z.to_euclidean_division_equations; lia.
  - exists k', tabs', l'. split_and!; try done.
    + unfold deallocuvm. fold a. rewrite Z.geb_leb, (proj2 (Z.leb_gt oldsz newsz)) by lia.
      krun E. done.
    + pose proof (vi_pt _ _ _ _ (sh_inv _ _ _ _ _ _ _ Sh)) as Hp'. pose proof (vi_pt _ _ _ _ Hi) as Hp.
      intros va Hva. specialize (G va Hva). rewrite A6. case_decide as D; case_decide as D'; try lia.
      * by apply (unmapped_iff k' tabs').
      * destruct G as [_ G]. by rewrite !(pte_at_leaf _ _ pml4) by done.
Qed.

Lemma deallocuvm_shrinks_witness :
  exists k', deallocuvm (root_of 20) 12288 4196 parent_space = Ok 4196 k' /\
    pte_at (k_mem k') (root_of 20) 9000 = None /\
    pte_at (k_mem k') (root_of 20) 5000 = pte_at (k_mem parent_space) (root_of 20) 5000.
Proof.
  destruct parent_space_inv as (tabs & v & l & Hi & Hr & _ & He & _).
  destruct (deallocuvm_shrinks parent_space tabs [] (v :: l) (root_of 20) 12288 4196) as (k' & _ & _ & E & _ & G).
  - rewrite He. reflexivity.
  - exact Hi.
  - exact Hr.
  - lia.
  - lia.
  - exists k'. split; [exact E|]. split.
    + exact (G 9000 ltac:(unfold uva; lia)).
    + pose proof (G 5000 ltac:(unfold uva; lia)) as G5. change (PGROUNDUP 4196) with 8192 in G5.
      rewrite decide_False in G5 by lia. exact G5.
Defined.
