(* ===== verification/TraceRead.v ===== *)
(** * Reading the trace buffer (traceread of src/ktrace.c)

    traceread copies unread events into the caller's memory, oldest first, under the
    trace lock.  [event_bytes] is the layout of a [struct trace_event] (64 bytes,
    no padding).  The theorems connect the reader with the bounded queue of Ktrace.v
    and with the page tables of Vm.v. *)

From S2P Require Import Prelude Mem CString State Spinlock Ktrace Kalloc Vm Uvm.

Definition event_bytes (ev : trace_event) : list Z :=
  le_split 4 (te_seq ev) ++ le_split 4 (te_ticks ev) ++ le_split 4 (te_type ev) ++
  le_split 4 (te_pid ev) ++ le_split 4 (te_arg0 ev) ++ le_split 4 (te_arg1 ev) ++
  le_split 4 (te_arg2 ev) ++ (u8 <$> te_comm ev) ++ (u8 <$> te_event ev) ++
  le_split 4 (te_overwritten ev).

Definition EVENT_SIZE : Z := 64. (* sizeof(struct trace_event) *)

(** The loop of traceread, with the trace lock held. *)
Fixpoint traceread_from (fuel : nat) (dst max_events count : Z) : K Z :=
  tb <- gets k_trace ;;
  if (count <? max_events) && negb (tb_readseq tb =? tb_seq tb) then
    match fuel with
    | O => nofuel
    | S fuel' =>
        next <- of_option (tb_next tb) ;;
        modify (set_trace (snd next)) ;;;
        p <- my_proc ;;
        r <- copyout (p_pgdir p) (u64 (dst + EVENT_SIZE * count)) (event_bytes (fst next)) EVENT_SIZE ;;
        if r <? 0 then
          release LK_trace ;;;
          ret (if count >? 0 then count else -1)
        else traceread_from fuel' dst max_events (count + 1)
    end
  else
    release LK_trace ;;;
    ret count.

Definition traceread (dst max_events : Z) : K Z :=
  if max_events <=? 0 then ret 0 else
  acquire LK_trace ;;;
  tb <- gets k_trace ;;
  traceread_from (Z.to_nat (u32 (tb_seq tb - tb_readseq tb))) dst max_events 0.

(** ** Lemmas *)

Definition event_wf (ev : trace_event) : Prop :=
  length (te_comm ev) = 16%nat /\ length (te_event ev) = 16%nat.

Lemma length_event_bytes ev : event_wf ev -> length (event_bytes ev) = 64%nat.
Proof. intros [H1 H2]. unfold event_bytes. len. Qed.

Lemma event_bytes_bytes ev : Forall in_u8 (event_bytes ev).
Proof.
  unfold event_bytes. repeat apply Forall_app_2; try apply le_split_bytes;
    apply Forall_fmap, Forall_true; intros x; apply u8_range.
Qed.

(** The reader's process: the address space [tabs] with root [pgdir]. *)
Definition reader (k : kernel) (tabs : gmap (list Z) Z) (pgdir : Z) : Prop :=
  pt_ok k tabs /\ mem_wf (k_mem k) /\ tabs !! [] = Some pgdir /\
  exists i p, c_proc (k_cpu k) = Some i /\ k_procs k !! i = Some p /\ p_pgdir p = pgdir.

(** The buffer at [dst] has room for [n] events in mapped user memory. *)
Definition room (k : kernel) (pgdir dst : Z) (n : nat) : Prop :=
  0 <= dst /\ dst + 64 * Z.of_nat n <= 2 ^ 47 /\
  forall va, dst <= va < dst + 64 * Z.of_nat n -> is_Some (uaddr (k_mem k) pgdir va).

(** The state inside traceread: the ring [tb] and the memory [m] have changed. *)
Definition reading (tb : tracebuf) (m : mem) (k : kernel) : kernel :=
  set_mem m (set_trace tb (locked_by LK_trace k)).

Lemma my_proc_ok k i p :
  c_proc (k_cpu k) = Some i -> k_procs k !! i = Some p -> my_proc k = Ok p k.
Proof.
  intros Hi Hp. unfold my_proc, cur_proc, get_proc. kr. rewrite Hi. kr.
  by rewrite (read_at_ok k_procs _ _ _ Hp).
Qed.

Lemma reading_done k tb m :
  cpu_ok (k_cpu k) -> lock_free k LK_trace ->
  release LK_trace (reading tb m k) = Ok tt (settle (set_mem m (set_trace tb k))).
Proof.
  intros Hc Hf. rewrite (release_locked_by k) by done. done.
Qed.

Lemma length_events evs :
  Forall event_wf evs -> length (evs ≫= event_bytes) = (64 * length evs)%nat.
Proof.
  induction 1 as [|ev evs He _ IH]; [done|]. rewrite bind_cons, length_app, length_event_bytes, IH by done.
  simpl. lia.
Qed.

Lemma traceread_from_stop fuel k dst maxe count tb m q :
  cpu_ok (k_cpu k) -> lock_free k LK_trace -> ring_repr tb q -> maxe <= count \/ q = [] ->
  traceread_from fuel dst maxe count (reading tb m k)
  = Ok count (settle (set_mem m (set_trace tb k))).
Proof.
  intros Hc Hf Hrep Hstop.
  assert ((count <? maxe) && negb (tb_readseq tb =? tb_seq tb) = false) as Ec.
  { destruct Hstop as [H| ->].
    - by rewrite (proj2 (Z.ltb_ge _ _)).
    - rewrite (proj2 (Z.eqb_eq _ _)); [apply andb_false_r|]. by apply (ring_empty_iff tb []). }
  destruct fuel; cbn [traceread_from]; kr; cbn [k_trace reading set_mem set_trace];
    rewrite Ec; rewrite reading_done by done; done.
Qed.

(** One event is taken and copied. *)
Lemma traceread_from_step fuel k tabs pgdir dst maxe tb m e q del :
  cpu_ok (k_cpu k) -> lock_free k LK_trace -> reader k tabs pgdir ->
  room k pgdir dst (Z.to_nat maxe) -> Z.of_nat (length del) < maxe -> ring_repr tb (e :: q) ->
  event_wf e -> Forall event_wf del ->
  copied_to k tabs pgdir dst (del ≫= event_bytes) m ->
  exists tb1 m1,
    traceread_from (S fuel) dst maxe (Z.of_nat (length del)) (reading tb m k)
    = traceread_from fuel dst maxe (Z.of_nat (length del) + 1) (reading tb1 m1 k) /\
    ring_repr tb1 q /\ tb_overwritten tb1 = tb_overwritten tb /\ tb_enabled tb1 = tb_enabled tb /\
    copied_to k tabs pgdir dst ((del ++ [e]) ≫= event_bytes) m1.
Proof.
  intros Hc Hf (Hp & Hw & Hr & i & p & Hci & Hpi & Hpg) (Hd0 & Hdmax & Hdmap) Hlt Hrep He Hdel Hcp.
  destruct (tb_next_head tb e q Hrep) as (tb1 & En & Hrep1).
  assert (tb_overwritten tb1 = tb_overwritten tb /\ tb_enabled tb1 = tb_enabled tb) as [Ho Hen].
  { unfold tb_next in En. destruct (tb_events tb !! _); [|done]. by injection En as _ <-. }
  pose proof (length_events del Hdel) as Hlen. pose proof (length_event_bytes e He) as Hle.
  pose proof Hcp as (Hpm & Hwm & Hpte & _).
  set (va := dst + 64 * Z.of_nat (length del)).
  destruct (copyout_run (reading tb1 m k) tabs pgdir va (event_bytes e)) as (m1 & E1 & P1 & W1 & Q1 & S1).
  - by apply (pt_ok_frame (set_mem m k)).
  - done.
  - done.
  - subst va. lia.
  - rewrite Hle. subst va. lia.
  - apply event_bytes_bytes.
  - intros vb Hvb. rewrite Hle in Hvb. unfold reading, uaddr. cbn [k_mem set_mem].
    rewrite Hpte by (unfold uva; subst va; lia). apply Hdmap. subst va. lia.
  - exists tb1, m1. split_and!; try done.
    + cbn [traceread_from]. kr. cbn [k_trace reading set_mem set_trace].
      rewrite (proj2 (Z.ltb_lt _ _)) by done.
      rewrite (proj2 (Z.eqb_neq (tb_readseq tb) (tb_seq tb))) by
        (intros E; by apply (ring_empty_iff tb (e :: q)) in E).
      cbn [andb negb]. rewrite En. kr. kr. cbn [snd fst].
      change (set_trace tb1 (reading tb m k)) with (reading tb1 m k).
      rewrite (my_proc_ok _ i p) by done. kr. rewrite Hpg. unfold EVENT_SIZE. fold va.
      rewrite (u64_small va) by (unfold in_u64; subst va; lia).
      rewrite Hle in E1. change (Z.of_nat 64) with 64 in E1. rewrite E1. kr. done.
    + rewrite bind_app, bind_singleton.
      apply (copied_to_app k tabs pgdir dst _ _ m m1); try done.
      * rewrite length_app, Hlen, Hle. lia.
      * intros vb Hvb. rewrite length_app, Hlen, Hle in Hvb. apply Hdmap. lia.
      * rewrite Hlen. replace (dst + Z.of_nat (64 * length del)) with va by (subst va; lia).
        split; [|done]. by apply (pt_ok_frame (set_mem m1 (reading tb1 m k))).
Qed.

(** The loop delivers the next events of the queue. *)
Lemma traceread_from_run fuel k tabs pgdir dst maxe tb m q del :
  cpu_ok (k_cpu k) -> lock_free k LK_trace -> reader k tabs pgdir ->
  room k pgdir dst (Z.to_nat maxe) -> Z.of_nat (length del) <= maxe -> ring_repr tb q ->
  Forall event_wf q -> Forall event_wf del -> (length q <= fuel)%nat ->
  copied_to k tabs pgdir dst (del ≫= event_bytes) m ->
  let n := Nat.min (Z.to_nat maxe - length del) (length q) in
  exists tb' m', traceread_from fuel dst maxe (Z.of_nat (length del)) (reading tb m k)
      = Ok (Z.of_nat (length del + n)) (settle (set_mem m' (set_trace tb' k))) /\
    ring_repr tb' (drop n q) /\ tb_overwritten tb' = tb_overwritten tb /\
    tb_enabled tb' = tb_enabled tb /\
    copied_to k tabs pgdir dst ((del ++ take n q) ≫= event_bytes) m'.
Proof.
  intros Hc Hf Hrd Hroom. revert fuel tb m del.
  induction q as [|e q IH]; intros fuel tb m del Hcnt Hrep Hwf Hdel Hfu Hcp n.
  - assert (n = O) as -> by (subst n; simpl; lia). exists tb, m.
    rewrite (traceread_from_stop fuel k dst maxe _ tb m []) by (done || by right).
    rewrite Nat.add_0_r, take_nil, app_nil_r. done.
  - destruct (decide (Z.of_nat (length del) < maxe)) as [Hlt|Hge].
    + destruct fuel as [|fuel]; [simpl in Hfu; lia|].
      apply Forall_cons in Hwf as [He Hwf].
      destruct (traceread_from_step fuel k tabs pgdir dst maxe tb m e q del) as
        (tb1 & m1 & E & Hrep1 & Ho & Hen & Hcp1); try done.
      destruct (IH fuel tb1 m1 (del ++ [e])) as (tb' & m' & E' & Hrep' & Ho' & Hen' & Hcp'); try done.
      * rewrite length_app. simpl. lia.
      * apply Forall_app. split; [done|]. by constructor.
      * simpl in Hfu. lia.
      * rewrite length_app in *. simpl in *.
        replace n with (S (Nat.min (Z.to_nat maxe - (length del + 1)) (length q))) by (subst n; simpl; lia).
        exists tb', m'. split_and!; try done; try congruence.
        -- rewrite E. replace (Z.of_nat (length del) + 1) with (Z.of_nat (length del + 1)) by lia.
           rewrite E'. f_equal. lia.
        -- cbn [take]. by rewrite <-app_assoc in Hcp'.
    + assert (n = O) as -> by (subst n; lia). exists tb, m.
      rewrite (traceread_from_stop fuel k dst maxe _ tb m (e :: q)) by (done || left; lia).
      rewrite Nat.add_0_r, take_0, app_nil_r. done.
Qed.

Lemma ring_unread tb q : ring_repr tb q -> u32 (tb_seq tb - tb_readseq tb) = Z.of_nat (length q).
Proof. intros [_ _ Hr Hb Hc _ _]. rewrite Hc. apply u32_add_sub; [done|]. unfold in_u32. lia. Qed.

Lemma copied_to_nil k tabs pml4 va :
  pt_ok k tabs -> mem_wf (k_mem k) -> copied_to k tabs pml4 va [] (k_mem k).
Proof.
  intros Hp Hw. split; [by destruct k|]. split; [done|]. split; [done|]. split; [|done].
  intros i b x Hi. by rewrite lookup_nil in Hi.
Qed.

Lemma traceread_run k tabs pgdir dst maxe q :
  cpu_ok (k_cpu k) -> lock_free k LK_trace -> reader k tabs pgdir -> 0 < maxe ->
  room k pgdir dst (Z.to_nat maxe) -> ring_repr (k_trace k) q -> Forall event_wf q ->
  let n := Nat.min (Z.to_nat maxe) (length q) in
  exists tb' m', traceread dst maxe k = Ok (Z.of_nat n) (settle (set_mem m' (set_trace tb' k))) /\
    ring_repr tb' (drop n q) /\ tb_overwritten tb' = tb_overwritten (k_trace k) /\
    tb_enabled tb' = tb_enabled (k_trace k) /\
    copied_to k tabs pgdir dst (take n q ≫= event_bytes) m'.
Proof.
  intros Hc Hf Hrd Hpos Hroom Hrep Hwf n.
  destruct (traceread_from_run (length q) k tabs pgdir dst maxe (k_trace k) (k_mem k) q [])
    as (tb' & m' & E & H1 & H2 & H3 & H4); try done; try (simpl; lia).
  - apply copied_to_nil; apply Hrd.
  - exists tb', m'. rewrite Nat.sub_0_r in *. split_and!; try done.
    unfold traceread. rewrite (proj2 (Z.leb_gt _ _)) by lia. krun (acquire_free k LK_trace Hf). kr.
    change (k_trace (locked_by LK_trace k)) with (k_trace k).
    rewrite (ring_unread _ q), Nat2Z.id by done.
    change (locked_by LK_trace k) with (reading (k_trace k) (k_mem k) k). exact E.
Qed.

(** ** Theorems *)

(** C12: traceread is the reading end of the queue: with [q] unread and room for
    [maxe] events in the caller's mapped memory it returns [n] = min [maxe] |q|, the
    bytes of the first [n] events of [q], in order, are at [dst] in the caller's
    memory and nothing else of the memory changed, the remaining events stay unread,
    and the lock and the interrupt nesting are restored. *)
Theorem traceread_fifo k tabs pgdir dst maxe q :
  cpu_ok (k_cpu k) -> lock_free k LK_trace -> reader k tabs pgdir -> 0 < maxe ->
  room k pgdir dst (Z.to_nat maxe) -> ring_repr (k_trace k) q -> Forall event_wf q ->
  let n := Nat.min (Z.to_nat maxe) (length q) in
  exists tb' m', traceread dst maxe k = Ok (Z.of_nat n) (settle (set_mem m' (set_trace tb' k))) /\
    ring_repr tb' (drop n q) /\ tb_overwritten tb' = tb_overwritten (k_trace k) /\
    copied_to k tabs pgdir dst (take n q ≫= event_bytes) m'.
Proof.
  intros Hc Hf Hrd Hpos Hroom Hrep Hwf n.
  destruct (traceread_run k tabs pgdir dst maxe q) as (tb' & m' & ? & ? & ? & _ & ?); try done.
  by exists tb', m'.
Qed.

(** The [n] bytes at the user address [va], read through the page table. *)
Definition ubytes (m : mem) (pgdir va : Z) (n : nat) : option (list Z) :=
  mapM (fun i => ld8 m <$> uaddr m pgdir (va + Z.of_nat i)) (seq 0 n).

Lemma ubytes_copied k tabs pgdir va buf m' :
  0 <= va -> va + Z.of_nat (length buf) <= 2 ^ 47 ->
  (forall vb, va <= vb < va + Z.of_nat (length buf) -> is_Some (uaddr (k_mem k) pgdir vb)) ->
  copied_to k tabs pgdir va buf m' -> ubytes m' pgdir va (length buf) = Some buf.
Proof.
  intros Hva Hmax Hmap (_ & _ & Hpte & S & _). apply mapM_Some.
  apply Forall2_same_length_lookup_2; [by rewrite length_seq|].
  intros i j b Hi Hb. apply lookup_seq in Hi as [-> Hlt]. simpl.
  destruct (Hmap (va + Z.of_nat i) ltac:(lia)) as [x Hx].
  assert (uaddr m' pgdir (va + Z.of_nat i) = Some x) as ->.
  { rewrite <-Hx. unfold uaddr. by rewrite Hpte by (unfold uva; lia). }
  simpl. f_equal. by eapply S.
Qed.

(** ** Histories of writers and readers

    A state of the history is the kernel, the events written so far and the 64-byte
    records delivered to user memory so far, oldest first.  Any other activity of the
    kernel may happen in between, as long as it leaves the ring alone. *)
Inductive trace_step :
  kernel * list trace_event * list (list Z) -> kernel * list trace_event * list (list Z) -> Prop :=
| ts_event k w d type pid a0 a1 a2 name ev k' :
    has_nul name -> traceevent type pid a0 a1 a2 (Some name) k = Ok tt k' ->
    tb_events (k_trace k') !! Z.to_nat (tb_seq (k_trace k) `mod` 128) = Some ev ->
    trace_step (k, w, d) (k', w ++ [ev], d)
| ts_read k w d tabs pgdir dst maxe k' n chunks :
    reader k tabs pgdir -> 0 < maxe -> room k pgdir dst (Z.to_nat maxe) ->
    traceread dst maxe k = Ok (Z.of_nat n) k' ->
    length chunks = n -> Forall (fun c => length c = 64%nat) chunks ->
    ubytes (k_mem k') pgdir dst (64 * n) = Some (concat chunks) ->
    trace_step (k, w, d) (k', w, d ++ chunks)
| ts_other k w d k' :
    k_trace k' = k_trace k -> trace_ready k' -> trace_step (k, w, d) (k', w, d).

(** [r] events have left the ring: the delivered ones and the [lost] ones. *)
Record delivery (st : kernel * list trace_event * list (list Z)) (r lost : nat) : Prop := Delivery {
  dl_ready : trace_ready (fst (fst st));
  dl_ring : ring_repr (k_trace (fst (fst st))) (drop r (snd (fst st)));
  dl_wf : Forall event_wf (snd (fst st));
  dl_le : (r <= length (snd (fst st)))%nat;
  dl_count : r = (length (snd st) + lost)%nat;
  dl_lost : tb_overwritten (k_trace (fst (fst st))) = u32 (Z.of_nat lost);
  dl_order : snd st `sublist_of` (event_bytes <$> take r (snd (fst st)))
}.

Lemma event_of_wf k type pid a0 a1 a2 name ev :
  event_of k type pid a0 a1 a2 name ev -> event_wf ev.
Proof. intros (_ & _ & _ & _ & _ & _ & _ & [? _] & [? _] & _). done. Qed.

Lemma queue_push_last q ev : last (queue_push q ev) = Some ev.
Proof. unfold queue_push. case_decide; apply last_snoc. Qed.

(** The event just written is found in its slot. *)
Lemma ring_newest tb tb0 q ev :
  ring_repr tb (queue_push q ev) -> tb_seq tb = u32 (tb_seq tb0 + 1) -> in_u32 (tb_seq tb0) ->
  tb_events tb !! Z.to_nat (tb_seq tb0 `mod` 128) = Some ev.
Proof.
  intros Hr Hs H0. pose proof (queue_push_last q ev) as Hl. rewrite last_lookup in Hl.
  pose proof (lookup_lt_Some _ _ _ Hl) as Hlt.
  rewrite <-(rr_slots _ _ Hr _ _ Hl). do 2 f_equal.
  pose proof (rr_count _ _ Hr) as Hc. pose proof (rr_readseq _ _ Hr) as Hrs.
  pose proof (rr_bound _ _ Hr) as Hb. rewrite Hs in Hc.
  set (L := length (queue_push q ev)) in *.
  rewrite <-(u32_mod_128 (tb_readseq tb + _)). f_equal.
  replace (Z.of_nat (Nat.pred L)) with (Z.of_nat L - 1) by lia.
  clear -Hc Hrs H0 Hb Hlt. mach.
Qed.

Lemma delivery_event k w d r lost type pid a0 a1 a2 name ev k' :
  delivery (k, w, d) r lost -> has_nul name ->
  traceevent type pid a0 a1 a2 (Some name) k = Ok tt k' ->
  tb_events (k_trace k') !! Z.to_nat (tb_seq (k_trace k) `mod` 128) = Some ev ->
  exists r' lost', delivery (k', w ++ [ev], d) r' lost'.
Proof.
  intros [Hrd Hrg Hwf Hle Hcnt Hlost Hord] Hn E Hev. simpl in *.
  destruct (traceevent_push k (drop r w) type pid a0 a1 a2 name Hrd Hn Hrg)
    as (ev' & k1 & E1 & Hev' & Hrg1 & Ho1 & Hs1 & _ & Hrd1).
  assert (k1 = k') as -> by congruence.
  pose proof (ring_newest _ (k_trace k) _ _ Hrg1 Hs1 (rr_seq _ _ Hrg)) as Hnew.
  assert (ev' = ev) as -> by congruence.
  pose proof (event_of_wf _ _ _ _ _ _ _ _ Hev') as Hewf.
  assert (Forall event_wf (w ++ [ev])) as Hwf' by (apply Forall_app; split; [done|]; by constructor).
  unfold queue_push in Hrg1. rewrite length_drop in Hrg1, Ho1. destruct (decide _) as [D|D].
  - exists r, lost. constructor; simpl; try done; try congruence.
    + by rewrite drop_app_le.
    + rewrite length_app. lia.
    + by rewrite take_app_le.
  - exists (S r), (S lost). pose proof (rr_bound _ _ Hrg) as Hb. rewrite length_drop in Hb.
    constructor; simpl; try done; try lia.
    + rewrite drop_app_le by lia. by rewrite drop_S_tail.
    + rewrite length_app. simpl. lia.
    + rewrite Ho1, Hlost. mach.
    + etransitivity; [exact Hord|]. apply fmap_sublist.
      replace (take r w) with (take r (take (S r) (w ++ [ev]))); [apply sublist_take|].
      rewrite take_take, take_app_le by lia. f_equal. lia.
Qed.

Lemma chunks_inj (n : nat) (a b : list (list Z)) :
  (0 < n)%nat -> Forall (fun c => length c = n) a -> Forall (fun c => length c = n) b ->
  concat a = concat b -> a = b.
Proof.
  intros Hn Ha. revert b. induction Ha as [|x a Hx Ha IH]; intros b Hb E.
  - destruct Hb as [|y b Hy Hb]; [done|]. simpl in E. destruct y; simpl in Hy; [lia|done].
  - destruct Hb as [|y b Hy Hb]; simpl in E; [destruct x; simpl in Hx; [lia|done]|].
    apply app_inj_1 in E as [-> E]; [|congruence]. f_equal. by apply IH.
Qed.

Lemma delivery_read k w d r lost tabs pgdir dst maxe k' n chunks :
  delivery (k, w, d) r lost -> reader k tabs pgdir -> 0 < maxe ->
  room k pgdir dst (Z.to_nat maxe) -> traceread dst maxe k = Ok (Z.of_nat n) k' ->
  length chunks = n -> Forall (fun c => length c = 64%nat) chunks ->
  ubytes (k_mem k') pgdir dst (64 * n) = Some (concat chunks) ->
  delivery (k', w, d ++ chunks) (r + n) lost.
Proof.
  intros [Hrd Hrg Hwf Hle Hcnt Hlost Hord] Hreader Hpos Hroom E Hlen Hc64 Hub.
  cbn [fst snd] in *.
  pose proof Hrd as [Hc Hf He _ Hpr].
  assert (Forall event_wf (drop r w)) as Hwfq by by apply Forall_drop.
  destruct (traceread_run k tabs pgdir dst maxe (drop r w)) as (tb' & m' & E' & Hrg' & Ho & Hen & Hcp); try done.
  set (n' := Nat.min (Z.to_nat maxe) (length (drop r w))) in *.
  assert (n = n' /\ k' = settle (set_mem m' (set_trace tb' k))) as [-> ->].
  { rewrite E' in E. injection E as E1 E2. apply Nat2Z.inj in E1. done. }
  assert (length (take n' (drop r w)) = n') as Hln by (rewrite length_take; lia).
  assert (Forall event_wf (take n' (drop r w))) as Hwft by by apply Forall_take.
  pose proof (length_events _ Hwft) as Hlb. rewrite Hln in Hlb.
  assert (chunks = event_bytes <$> take n' (drop r w)) as ->.
  { apply (chunks_inj 64); [lia|done| |].
    - apply Forall_fmap. eapply Forall_impl; [exact Hwft|]. intros ev. apply length_event_bytes.
    - destruct Hroom as (H1 & H2 & H3).
      pose proof (ubytes_copied k tabs pgdir dst _ m' H1 ltac:(rewrite Hlb; lia)
        ltac:(intros vb Hvb; rewrite Hlb in Hvb; apply H3; lia) Hcp) as Hub'.
      rewrite Hlb in Hub'. change (k_mem (settle _)) with m' in Hub. rewrite <-bind_concat. congruence. }
  constructor; simpl; try done.
  - constructor; simpl; try done; [by rewrite Hen|by destruct Hrg'].
  - by rewrite drop_drop in Hrg'.
  - subst n'. rewrite length_drop. lia.
  - rewrite length_app, length_fmap, Hln. lia.
  - by rewrite Ho.
  - rewrite <-(take_drop r (take (r + n') w)), fmap_app. apply sublist_app.
    + rewrite take_take. replace (r `min` (r + n'))%nat with r by lia. done.
    + rewrite <-take_drop_commute. done.
Qed.


(** A page that has an entry which is not present. *)
Lemma copyout_absent k pml4 va buf len pte :
  0 < len -> pte_slot (k_mem k) pml4 (PGROUNDDOWN va) = Some pte ->
  present (ld64 (k_mem k) pte) = false -> copyout pml4 va buf len k = Ok (-1) k.
Proof.
  intros Hl Hs Hp. unfold copyout.
  destruct (Z.to_nat (len / PGSIZE + 2)) as [|fuel] eqn:Ef.
  { unfold PGSIZE in Ef. Z.to_euclidean_division_equations; lia. }
  cbn [copyout_from]. rewrite Z.gtb_ltb, (proj2 (Z.ltb_lt 0 len)) by done. cbn [negb].
  unfold uva2ka, bind. rewrite walkpgdir_pure. cbn [obind]. rewrite Hs. kr.
  unfold present, truth in Hp. apply negb_false_iff in Hp. by rewrite Hp.
Qed.

(** C14: a read into an unmapped page loses an event: traceread returns -1, but the
    oldest unread event is gone from the ring, and [overwritten] does not count it. *)
Theorem traceread_failure_consumes k i p e q dst maxe pte :
  cpu_ok (k_cpu k) -> lock_free k LK_trace ->
  c_proc (k_cpu k) = Some i -> k_procs k !! i = Some p ->
  pte_slot (k_mem k) (p_pgdir p) (PGROUNDDOWN dst) = Some pte ->
  present (ld64 (k_mem k) pte) = false -> in_u64 dst -> 0 < maxe ->
  ring_repr (k_trace k) (e :: q) ->
  exists k', traceread dst maxe k = Ok (-1) k' /\ ring_repr (k_trace k') q /\
    tb_overwritten (k_trace k') = tb_overwritten (k_trace k).
Proof.
  intros Hc Hf Hi Hp Hs Hpr Hdst Hpos Hrep.
  destruct (tb_next_head _ e q Hrep) as (tb1 & En & Hrep1).
  exists (settle (set_mem (k_mem k) (set_trace tb1 k))). split_and!; try done.
  - unfold traceread. rewrite (proj2 (Z.leb_gt _ _)) by lia. krun (acquire_free k LK_trace Hf). kr.
    change (k_trace (locked_by LK_trace k)) with (k_trace k). rewrite (ring_unread _ (e :: q)) by done.
    rewrite Nat2Z.id. cbn [length traceread_from]. kr.
    change (k_trace (locked_by LK_trace k)) with (k_trace k).
    rewrite (proj2 (Z.ltb_lt _ _)) by done.
    rewrite (proj2 (Z.eqb_neq (tb_readseq (k_trace k)) (tb_seq (k_trace k)))) by
      (intros E; by apply (ring_empty_iff _ (e :: q)) in E).
    cbn [andb negb]. rewrite En. kr. kr. cbn [snd fst].
    change (set_trace tb1 (locked_by LK_trace k)) with (reading tb1 (k_mem k) k).
    rewrite (my_proc_ok _ i p) by done. kr. rewrite Z.mul_0_r, Z.add_0_r, u64_small by done.
    rewrite (copyout_absent _ _ _ _ _ pte) by done. kr. cbn [Z.ltb Z.compare].
    rewrite reading_done by done. done.
  - unfold tb_next in En. destruct (tb_events _ !! _); [|done]. by injection En as _ <-.
Qed.

(** ** A process that reads the trace *)

Definition reader_proc : proc :=
  Proc 12288 (root_of 8) 0 RUNNING 3 None 0 0 None false (replicate NOFILE None) None (cstr "trace").
Definition run_reader (tb : tracebuf) (k : kernel) : kernel :=
  set_trace tb (set_procs [reader_proc] (set_cpu (Cpu 0 0 false true (Some 0%nat) 0 0) k)).

Lemma run_reader_ok tb k tabs l :
  vm_inv k tabs [] l -> tabs !! [] = Some (root_of 8) ->
  (forall va, 4096 <= va < 12288 -> is_Some (uaddr (k_mem k) (root_of 8) va)) ->
  reader (run_reader tb k) tabs (root_of 8) /\ lock_free (run_reader tb k) LK_trace /\
  cpu_ok (k_cpu (run_reader tb k)) /\ room (run_reader tb k) (root_of 8) 8000 60.
Proof.
  intros Hi Hr Hmap. pose proof (vi_ready _ _ _ _ Hi) as [Ht _ _ _]. split_and!.
  - split; [|split; [exact (vi_wf _ _ _ _ Hi)|split; [exact Hr|]]].
    + by apply (pt_ok_frame k); [| |exact (vi_pt _ _ _ _ Hi)].
    + by exists 0%nat, reader_proc.
  - exact (tr_lock _ Ht).
  - split; simpl; lia.
  - split_and!; [lia|lia|]. intros va Hva. apply Hmap. lia.
Qed.

Lemma run_reader_mem tb k : k_mem (run_reader tb k) = k_mem k.
Proof. reflexivity. Qed.
Lemma run_reader_proc tb k :
  c_proc (k_cpu (run_reader tb k)) = Some 0%nat /\ k_procs (run_reader tb k) !! 0%nat = Some reader_proc /\
  k_trace (run_reader tb k) = tb.
Proof. done. Qed.

(** The ring with one event. *)
Definition ring1 : tracebuf :=
  k_trace (final (traceevent 1 3 5 0 0 (Some (cstr "read")) traced0) kernel0).

Lemma ring1_ok : exists ev, ring_repr ring1 [ev] /\ event_wf ev.
Proof.
  destruct (traceevent_push traced0 [] 1 3 5 0 0 (cstr "read") traced0_ready (cstr_has_nul _) traced0_ring)
    as (ev & k' & E & Hev & Hr & _). exists ev. unfold ring1. rewrite (final_ok _ _ _ _ E).
  split; [exact Hr|]. by eapply event_of_wf.
Qed.

Lemma traceread_fifo_witness :
  exists ev k', event_wf ev /\ traceread 8000 60 (run_reader ring1 small_space) = Ok 1 k' /\
    ring_repr (k_trace k') [].
Proof.
  destruct ring1_ok as (ev & Hr & Hw). destruct small_space_inv as (tabs & l & Hi & Hroot & _ & Hmap & _).
  destruct (run_reader_ok ring1 small_space tabs l Hi Hroot Hmap) as (Hrd & Hl & Hc & Hroom).
  destruct (traceread_fifo (run_reader ring1 small_space) tabs (root_of 8) 8000 60 [ev]
    Hc Hl Hrd ltac:(lia) Hroom Hr ltac:(by constructor)) as (tb' & m' & E & Hr' & _).
  eexists ev, _. split; [exact Hw|]. split; [exact E|exact Hr'].
Defined.

Lemma traceread_failure_consumes_witness :
  exists k', traceread 100 1 (run_reader ring1 small_space) = Ok (-1) k' /\ ring_repr (k_trace k') [].
Proof.
  destruct ring1_ok as (ev & Hr & Hw).
  destruct small_space_inv as (tabs & l & Hi & Hroot & _ & Hmap & Habs).
  destruct (run_reader_ok ring1 small_space tabs l Hi Hroot Hmap) as (_ & Hl & Hc & _).
  destruct (Hmap 4096 ltac:(lia)) as [x Hx].
  destruct (pte_slot_same _ _ 4096 0 eq_refl eq_refl eq_refl (pte_slot_mapped _ _ _ _ Hx)) as [pte Hs].
  pose proof (pte_slot_absent _ _ _ _ Hs (Habs 0 ltac:(lia))) as Hp.
  destruct (run_reader_proc ring1 small_space) as (H1 & H2 & H3).
  destruct (traceread_failure_consumes (run_reader ring1 small_space) 0 reader_proc ev [] 100 1 pte)
    as (k' & E & Hr' & _).
  - exact Hc.
  - exact Hl.
  - exact H1.
  - exact H2.
  - rewrite run_reader_mem. exact Hs.
  - rewrite run_reader_mem. exact Hp.
  - unfold in_u64. lia.
  - lia.
  - rewrite H3. exact Hr.
  - exists k'. split; [exact E|exact Hr'].
Defined.

