(* ===== verification/Sched.v ===== *)
(** * Sleep, wakeup and the switch to the scheduler (src/proc.c)

    A call that gives up the CPU ends in [Switched k r]: [k] is the state the
    scheduler finds and [r] the rest of the call, applied to the state in which the
    process is resumed, whatever ran in between.  [sleep] is specified on both sides
    of the switch; [wakeup] by its exact effect on the process table. *)

From S2P Require Import Prelude Mem State Spinlock.

(** Assignments to fields of a process. *)
Definition with_state (s : procstate) (p : proc) : proc :=
  Proc (p_sz p) (p_pgdir p) (p_kstack p) s (p_pid p) (p_parent p) (p_tf p) (p_context p)
    (p_chan p) (p_killed p) (p_ofile p) (p_cwd p) (p_name p).
Definition with_chan (c : option chan) (p : proc) : proc :=
  Proc (p_sz p) (p_pgdir p) (p_kstack p) (p_state p) (p_pid p) (p_parent p) (p_tf p) (p_context p)
    c (p_killed p) (p_ofile p) (p_cwd p) (p_name p).
Definition with_killed (b : bool) (p : proc) : proc :=
  Proc (p_sz p) (p_pgdir p) (p_kstack p) (p_state p) (p_pid p) (p_parent p) (p_tf p) (p_context p)
    (p_chan p) b (p_ofile p) (p_cwd p) (p_name p).

Definition pinit : K unit := initlock LK_ptable "ptable".

(** [swtch(&proc->context, cpu->scheduler)] *)
Definition swtch : K unit := fun k => Switched k (fun k' => Ok tt k').

Definition sched : K unit :=
  h <- holding LK_ptable ;;
  if negb h then panic "sched ptable.lock" else
  ncli <- gets (fun k => c_ncli (k_cpu k)) ;;
  if negb (ncli =? 1) then panic "sched locks" else
  p <- my_proc ;;
  if bool_decide (p_state p = RUNNING) then panic "sched running" else
  eflags_if <- gets (fun k => c_if (k_cpu k)) ;;
  if (eflags_if : bool) then panic "sched interruptible" else
  intena <- gets (fun k => c_intena (k_cpu k)) ;;
  swtch ;;;
  modify (set_intena intena).

Definition yield : K unit :=
  acquire LK_ptable ;;;
  i <- cur_proc ;;
  upd_proc i (with_state RUNNABLE) ;;;
  sched ;;;
  release LK_ptable.

Definition is_ptable (lk : lockid) : bool := bool_decide (lk = LK_ptable).

Definition sleep (c : chan) (lk : lockid) : K unit :=
  pr <- gets (fun k => c_proc (k_cpu k)) ;;
  match pr with
  | None => panic "sleep"
  | Some i =>
      when (negb (is_ptable lk)) (acquire LK_ptable ;;; release lk) ;;;
      upd_proc i (with_chan (Some c)) ;;;
      upd_proc i (with_state SLEEPING) ;;;
      sched ;;;
      j <- cur_proc ;;
      upd_proc j (with_chan None) ;;;
      when (negb (is_ptable lk)) (release LK_ptable ;;; acquire lk)
  end.

(** [p->state == SLEEPING && p->chan == chan] *)
Definition asleep_on (c : chan) (p : proc) : bool :=
  bool_decide (p_state p = SLEEPING) && bool_decide (p_chan p = Some c).

Definition wakeup1 (c : chan) : K unit :=
  for_each (upto NPROC) (fun i =>
    p <- get_proc i ;;
    when (asleep_on c p) (upd_proc i (with_state RUNNABLE))).

Definition wakeup (c : chan) : K unit :=
  acquire LK_ptable ;;;
  wakeup1 c ;;;
  release LK_ptable.

Definition kill (pid : Z) : K Z :=
  acquire LK_ptable ;;;
  r <- for_until (upto NPROC) (fun i =>
    p <- get_proc i ;;
    if p_pid p =? pid then
      upd_proc i (with_killed true) ;;;
      when (bool_decide (p_state p = SLEEPING)) (upd_proc i (with_state RUNNABLE)) ;;;
      release LK_ptable ;;;
      ret (Some 0)
    else ret None) ;;
  match r with
  | Some v => ret v
  | None => release LK_ptable ;;; ret (-1)
  end.

(** ** wakeup *)

(** The process table after a wakeup on [c]. *)
Definition woken (c : chan) (p : proc) : proc :=
  if asleep_on c p then with_state RUNNABLE p else p.

Lemma set_procs_procs k : set_procs (k_procs k) k = k.
Proof. by destruct k. Qed.

Lemma set_procs_twice ps qs k : set_procs ps (set_procs qs k) = set_procs ps k.
Proof. done. Qed.

(** A scan of the process table that updates each entry by itself is a map. *)
Lemma for_each_procs (f : proc -> proc) (body : nat -> K unit) (k : kernel) :
  (forall i p k, k_procs k !! i = Some p -> body i k = Ok tt (set_procs (<[i := f p]> (k_procs k)) k)) ->
  length (k_procs k) = NPROC ->
  for_each (upto NPROC) body k = Ok tt (set_procs (f <$> k_procs k) k).
Proof.
  intros Hbody Hlen. unfold upto. rewrite <-Hlen.
  assert (forall (rest done : list proc),
    k_procs k = done ++ rest ->
    for_each (seq (length done) (length rest)) body (set_procs ((f <$> done) ++ rest) k)
    = Ok tt (set_procs (f <$> k_procs k) k)) as Hgen.
  { induction rest as [|p rest IH]; intros done Ek; cbn [length seq for_each].
    - by rewrite Ek, !app_nil_r.
    - rewrite (obind_ok _ _ _ tt (set_procs ((f <$> done ++ [p]) ++ rest) k)).
      + specialize (IH (done ++ [p])). rewrite length_app in IH. simpl in IH.
        rewrite Nat.add_1_r in IH. apply IH. rewrite Ek, <-app_assoc. done.
      + rewrite (Hbody _ p).
        * rewrite set_procs_twice. cbn [k_procs set_procs]. do 2 f_equal.
          rewrite <-(length_fmap f done). rewrite insert_app_r_alt by lia.
          by rewrite Nat.sub_diag, fmap_app, <-app_assoc.
        * cbn [k_procs set_procs]. rewrite <-(length_fmap f done).
          by rewrite lookup_app_r, Nat.sub_diag by lia. }
  specialize (Hgen (k_procs k) []). simpl in Hgen. rewrite set_procs_procs in Hgen. by apply Hgen.
Qed.

Lemma wakeup1_run c k :
  length (k_procs k) = NPROC -> wakeup1 c k = Ok tt (set_procs (woken c <$> k_procs k) k).
Proof.
  intros Hlen. apply for_each_procs; [|done]. intros i p k1 Hp. unfold get_proc, upd_proc.
  rewrite (obind_ok _ _ _ _ _ (read_at_ok k_procs i k1 p Hp)). unfold woken, when.
  destruct (asleep_on c p).
  - by rewrite (upd_at_ok k_procs set_procs i _ k1 p Hp).
  - rewrite list_insert_id by done. by rewrite set_procs_procs.
Qed.

Lemma wakeup_run c k :
  cpu_ok (k_cpu k) -> lock_free k LK_ptable -> length (k_procs k) = NPROC ->
  wakeup c k = Ok tt (settle (set_procs (woken c <$> k_procs k) k)).
Proof.
  intros Hc Hf Hl. unfold wakeup. krun (acquire_free k LK_ptable Hf).
  rewrite (obind_ok _ _ _ _ _ (wakeup1_run c (locked_by LK_ptable k) Hl)).
  rewrite (release_locked_by k) by done. done.
Qed.

(** wakeup inside the critical section of another lock, entered in [k0]. *)
Lemma wakeup_inside k0 lk k c :
  cpu_ok (k_cpu k0) -> lock_free k0 LK_ptable -> lk <> LK_ptable ->
  k_locks k = k_locks (locked_by lk k0) -> k_cpu k = k_cpu (locked_by lk k0) ->
  length (k_procs k) = NPROC ->
  wakeup c k = Ok tt (set_procs (woken c <$> k_procs k) k).
Proof.
  intros Hc Hf Hne El Ec Hl. rewrite wakeup_run; [|rewrite Ec; by apply locked_by_cpu_ok| |done].
  2: { destruct (locked_by_free_ne k0 lk LK_ptable Hne Hf) as [name E]. exists name. by rewrite El. }
  f_equal. unfold settle. cbn [k_cpu set_procs].
  replace (settled (k_cpu k)) with (k_cpu k); [by destruct k|].
  rewrite Ec. destruct Hc as [Hn _]. unfold settled. cbn. by rewrite (proj2 (Z.eqb_neq _ 0)) by lia.
Qed.

Lemma woken_none c (ps : list proc) (i : nat) p : (woken c <$> ps) !! i = Some p -> asleep_on c p = false.
Proof.
  rewrite list_lookup_fmap, fmap_Some. intros (p0 & _ & ->). unfold woken.
  destruct (asleep_on c p0) eqn:E; [|done]. unfold asleep_on. cbn. by rewrite bool_decide_false.
Qed.

(** ** sleep *)

(** This CPU holds exactly the lock [lk]. *)
Definition in_section (k : kernel) (lk : lockid) : Prop :=
  lock_held k lk /\ c_ncli (k_cpu k) = 1 /\ c_if (k_cpu k) = false.

(** The cpu after popcli. *)
Definition popped (c : cpu) : cpu :=
  Cpu (c_id c) (c_ncli c - 1) (c_intena c) ((c_ncli c - 1 =? 0) && c_intena c)
    (c_proc c) (c_local c) (c_cr3 c).

Lemma popcli_run k :
  0 < c_ncli (k_cpu k) -> c_if (k_cpu k) = false ->
  popcli k = Ok tt (set_cpu (popped (k_cpu k)) k).
Proof.
  intros Hn Hi. unfold popcli. kr. rewrite Hi. cbn [k_cpu set_ncli set_cpu c_ncli c_intena].
  rewrite (proj2 (Z.ltb_ge _ _)) by lia. unfold popped, sti, set_if, set_ncli. simpl. rewrite Hi.
  destruct (_ && _); done.
Qed.

Lemma release_held k lk name :
  k_locks k !! lk = Some (Spinlock 1 name (Some (c_id (k_cpu k)))) ->
  0 < c_ncli (k_cpu k) -> c_if (k_cpu k) = false ->
  release lk k = Ok tt (set_cpu (popped (k_cpu k)) (put_lock lk (Spinlock 0 name None) k)).
Proof.
  intros E Hn Hi. unfold release, holding. kr. unfold get_lock, put_lock. rewrite E. simpl.
  rewrite bool_decide_true by done. simpl. rewrite lookup_insert_eq. simpl.
  rewrite insert_insert_eq. rewrite popcli_run; [|exact Hn|exact Hi].
  by rewrite E.
Qed.

Lemma sched_switches k i p :
  in_section k LK_ptable -> c_proc (k_cpu k) = Some i -> k_procs k !! i = Some p ->
  p_state p <> RUNNING ->
  sched k = Switched k (fun k' => Ok tt (set_intena (c_intena (k_cpu k)) k')).
Proof.
  intros [[name El] [Hn Hif]] Hi Hp Hs. unfold sched, holding. kr. unfold get_lock. rewrite El. simpl.
  rewrite bool_decide_true by done. cbn [negb]. rewrite Hn. cbn [negb Z.eqb Pos.eqb].
  unfold my_proc, cur_proc, get_proc, bind.
  rewrite Hi. cbn [obind]. rewrite (read_at_ok k_procs i k p Hp). cbn [obind].
  rewrite bool_decide_false by done. rewrite Hif. reflexivity.
Qed.

Lemma cur_proc_ok k i : c_proc (k_cpu k) = Some i -> cur_proc k = Ok i k.
Proof. intros H. unfold cur_proc. by rewrite H. Qed.

(** What [sleep] leaves for the scheduler. *)
Definition gone_to_sleep (i : nat) (p : proc) (c : chan) (lk : lockid) (name pname : string)
    (k : kernel) : kernel :=
  set_procs (<[i := with_state SLEEPING (with_chan (Some c) p)]> (k_procs k))
    (set_locks (<[lk := Spinlock 0 name None]>
       (<[LK_ptable := Spinlock 1 pname (Some (c_id (k_cpu k)))]> (k_locks k))) k).

Lemma upd_proc_ok i f k p :
  k_procs k !! i = Some p -> upd_proc i f k = Ok tt (set_procs (<[i := f p]> (k_procs k)) k).
Proof. apply (upd_at_ok k_procs set_procs). Qed.

Lemma sleep_enter k i p c lk name pname :
  lk <> LK_ptable -> c_proc (k_cpu k) = Some i -> k_procs k !! i = Some p ->
  k_locks k !! lk = Some (Spinlock 1 name (Some (c_id (k_cpu k)))) ->
  k_locks k !! LK_ptable = Some (Spinlock 0 pname None) ->
  c_ncli (k_cpu k) = 1 -> c_if (k_cpu k) = false ->
  sleep c lk k =
  Switched (gone_to_sleep i p c lk name pname k) (fun k' =>
    (modify (set_intena (c_intena (k_cpu k))) ;;;
     j <- cur_proc ;;
     upd_proc j (with_chan None) ;;;
     release LK_ptable ;;; acquire lk) k').
Proof.
  intros Hne Hi Hp El Ept Hn Hif. unfold sleep. kr. rewrite Hi.
  unfold is_ptable. rewrite bool_decide_false by done. cbn [negb].
  assert (lock_free k LK_ptable) as Hf by by exists pname.
  rewrite (acquire_free k LK_ptable Hf). cbn [obind].
  rewrite (release_held _ lk name); cbn [k_locks k_cpu locked_by set_locks set_cpu pushed c_ncli c_if c_id].
  2: { by rewrite lookup_insert_ne. }
  2: { lia. }
  2: { done. }
  cbn [obind]. set (k1 := set_cpu _ _).
  assert (k1 = set_locks (<[lk := Spinlock 0 name None]>
       (<[LK_ptable := Spinlock 1 pname (Some (c_id (k_cpu k)))]> (k_locks k))) k) as ->.
  { subst k1. unfold put_lock, locked_by, set_cpu, set_locks, popped, pushed, get_lock. simpl.
    rewrite Ept, Hn, Hi. destruct k as [[] ? ? ? ? ? ? ? ? ? ? ? ? ? ? ? ? ? ? ? ? ? ? ? ?]. simpl in *. by subst. }
  rewrite (upd_proc_ok i _ _ p) by done. cbn [obind].
  rewrite (upd_proc_ok i _ _ (with_chan (Some c) p)) by
    (cbn [k_procs set_procs set_locks]; by rewrite list_lookup_insert_eq by (by eapply lookup_lt_Some)).
  cbn [obind]. cbn [k_procs set_procs set_locks]. rewrite list_insert_insert_eq.
  match goal with |- context [sched ?s] => change s with (gone_to_sleep i p c lk name pname k) end.
  rewrite (sched_switches _ i (with_state SLEEPING (with_chan (Some c) p))); [reflexivity| |done| |done].
  - split; [|done]. exists pname. unfold gone_to_sleep. cbn [k_locks set_procs set_locks].
    rewrite lookup_insert_ne by done. by rewrite lookup_insert_eq.
  - cbn [k_procs gone_to_sleep set_procs]. by rewrite list_lookup_insert_eq by (by eapply lookup_lt_Some).
Qed.

Lemma sleep_leave k2 i p2 lk b :
  lk <> LK_ptable -> in_section k2 LK_ptable -> lock_free k2 lk ->
  c_proc (k_cpu k2) = Some i -> k_procs k2 !! i = Some p2 ->
  exists k3,
    (modify (set_intena b) ;;;
     j <- cur_proc ;;
     upd_proc j (with_chan None) ;;;
     release LK_ptable ;;; acquire lk) k2 = Ok tt k3 /\
    in_section k3 lk /\ lock_free k3 LK_ptable /\ c_intena (k_cpu k3) = b /\
    k3 = set_cpu (k_cpu k3) (set_locks (k_locks k3)
           (set_procs (<[i := with_chan None p2]> (k_procs k2)) k2)) /\
    c_proc (k_cpu k3) = Some i.
Proof.
  intros Hne [[pname Ept] [Hn Hif]] [name El] Hi Hp.
  set (k' := set_procs (<[i := with_chan None p2]> (k_procs k2)) (set_intena b k2)).
  assert (release LK_ptable k' = Ok tt (set_cpu (popped (k_cpu k'))
            (put_lock LK_ptable (Spinlock 0 pname None) k'))) as Er.
  { apply release_held; [done|simpl; lia|done]. }
  set (k'' := set_cpu _ _) in Er.
  assert (lock_free k'' lk) as Hf.
  { exists name. unfold k''. cbn [k_locks set_cpu put_lock set_locks]. by rewrite lookup_insert_ne. }
  exists (locked_by lk k''). split_and!.
  - kr. rewrite (cur_proc_ok _ i) by done. cbn [obind].
    rewrite (upd_proc_ok i _ _ p2) by done. cbn [obind].
    change (set_procs _ (set_intena b k2)) with k'. rewrite Er. cbn [obind].
    by apply acquire_free.
  - split; [apply locked_by_held|]. unfold k''. simpl. rewrite Hn. done.
  - exists pname. unfold k''. simpl. rewrite lookup_insert_ne by done. by rewrite lookup_insert_eq.
  - unfold k''. simpl. rewrite Hn. done.
  - done.
  - done.
Qed.


(** C16: wakeup makes exactly the processes asleep on [c] runnable: it returns, every
    process table entry that was SLEEPING on [c] is RUNNABLE and otherwise unchanged,
    every other entry is unchanged, and so is the rest of the kernel. *)
Theorem wakeup_exact c k :
  cpu_ok (k_cpu k) -> lock_free k LK_ptable -> length (k_procs k) = NPROC ->
  exists k', wakeup c k = Ok tt k' /\ k' = settle (set_procs (k_procs k') k) /\
    forall i p, k_procs k !! i = Some p ->
      k_procs k' !! i = Some (if decide (p_state p = SLEEPING /\ p_chan p = Some c)
                              then with_state RUNNABLE p else p).
Proof.
  intros Hc Hf Hl. eexists. split; [by apply wakeup_run|]. split; [done|].
  intros i p Hp. simpl. rewrite list_lookup_fmap, Hp. simpl. f_equal. unfold woken, asleep_on.
  case_decide as D.
  - by rewrite !bool_decide_true by apply D.
  - destruct (bool_decide _ && bool_decide _) eqn:E; [|done]. exfalso. apply D.
    apply andb_true_iff in E as [E1 E2]. by apply bool_decide_eq_true in E1, E2.
Qed.

(** A machine with one process running and no lock held. *)
Definition one_running : kernel :=
  set_cpu (Cpu 0 0 true true (Some 3%nat) 0 0)
    (set_locks (<[LK_ticks := Spinlock 0 "time" None]> {[LK_ptable := Spinlock 0 "ptable" None]})
      (set_procs (<[3%nat := with_state RUNNING proc0]> (replicate NPROC proc0)) kernel0)).


Lemma wakeup_exact_witness :
  exists k', wakeup Ch_ticks one_running = Ok tt k' /\
    k_procs k' !! 3%nat = Some (with_state RUNNING proc0).
Proof.
  destruct (wakeup_exact Ch_ticks one_running) as (k' & E & _ & H).
  - split; [simpl; lia|simpl; lia].
  - exists "ptable". reflexivity.
  - reflexivity.
  - exists k'. split; [exact E|]. apply (H 3%nat (with_state RUNNING proc0)). reflexivity.
Defined.
