(* ===== verification/Sleeplock.v ===== *)
(** * Sleep locks (src/sleeplock.c)

    A sleep lock is a flag guarded by a spin lock; a process that finds it set sleeps
    on it.  The loop that waits for the flag is bounded by [patience], the number of
    times a process may be woken to find the condition it waits for false again; every
    theorem holds for each bound.

    [runs R o a k'] says that the outcome [o] ends in [Ok a k'] when, each time the
    process is switched out, the others turn the state into one related by [R]. *)

From S2P Require Import Prelude Mem State Spinlock Sched.

Class Patience := patience : nat.

Section Sleeplock.
  Context {patience_bound : Patience}.

Definition get_sleep (l : slid) (k : kernel) : sleeplock := default sleeplock0 (k_sleeps k !! l).
Definition put_sleep (l : slid) (s : sleeplock) (k : kernel) : kernel :=
  set_sleeps (<[l := s]> (k_sleeps k)) k.

Definition initsleeplock (l : slid) (name : string) : K unit :=
  initlock (LK_sleep l) "sleep lock" ;;;
  modify (put_sleep l (Sleeplock 0 name 0)).

(** [while (lk->locked) sleep(lk, &lk->lk);] *)
Fixpoint acquiresleep_wait (fuel : nat) (l : slid) : K unit :=
  s <- gets (get_sleep l) ;;
  if truth (sl_locked s) then
    match fuel with
    | O => nofuel
    | S fuel' => sleep (Ch_sleeplock l) (LK_sleep l) ;;; acquiresleep_wait fuel' l
    end
  else ret tt.

Definition acquiresleep (l : slid) : K unit :=
  acquire (LK_sleep l) ;;;
  acquiresleep_wait patience l ;;;
  modify (fun k => put_sleep l (Sleeplock 1 (sl_name (get_sleep l k)) (sl_pid (get_sleep l k))) k) ;;;
  p <- my_proc ;;
  modify (fun k => put_sleep l (Sleeplock (sl_locked (get_sleep l k)) (sl_name (get_sleep l k)) (p_pid p)) k) ;;;
  release (LK_sleep l).

Definition releasesleep (l : slid) : K unit :=
  acquire (LK_sleep l) ;;;
  modify (fun k => put_sleep l (Sleeplock 0 (sl_name (get_sleep l k)) 0) k) ;;;
  wakeup (Ch_sleeplock l) ;;;
  release (LK_sleep l).

Definition holdingsleep (l : slid) : K Z :=
  acquire (LK_sleep l) ;;;
  r <- gets (fun k => sl_locked (get_sleep l k)) ;;
  release (LK_sleep l) ;;;
  ret r.

(** ** States between calls *)

(** No pushcli is outstanding: a balanced section leaves the cpu as it was. *)
Definition calm (k : kernel) : Prop :=
  c_ncli (k_cpu k) = 0 /\ c_intena (k_cpu k) = c_if (k_cpu k).

Lemma calm_settled k : calm k -> settled (k_cpu k) = k_cpu k.
Proof. unfold calm, settled. destruct (k_cpu k); simpl. intros [-> ->]. done. Qed.

Lemma calm_ok k : calm k -> cpu_ok (k_cpu k).
Proof. intros [Hn _]. split; lia. Qed.

(** A critical section entered from a calm state. *)
Lemma calm_release k k1 lk :
  calm k -> lock_free k lk ->
  k_locks k1 = k_locks (locked_by lk k) -> k_cpu k1 = k_cpu (locked_by lk k) ->
  release lk k1 = Ok tt (set_cpu (k_cpu k) (set_locks (k_locks k) k1)).
Proof.
  intros Hc Hf Hl Hp. rewrite (release_locked_by k k1 lk (calm_ok _ Hc) Hf Hl Hp).
  by rewrite calm_settled.
Qed.

(** Processes woken up by others: SLEEPING entries may have become RUNNABLE. *)
Definition awakened : list proc -> list proc -> Prop :=
  Forall2 (fun p p' => p' = p \/ p_state p = SLEEPING /\ p' = with_state RUNNABLE p).

#[export] Instance awakened_refl : Reflexive awakened.
Proof. intros ps. apply Forall_Forall2_diag, Forall_true. intros p. by left. Qed.

#[export] Instance awakened_trans : Transitive awakened.
Proof.
  intros ps qs rs H1. revert rs. induction H1 as [|p q ps qs Hpq H1 IH]; intros rs H2.
  - by inversion H2.
  - inversion H2 as [|? r ? rs' Hqr H3]; subst. constructor; [|by apply IH].
    destruct Hpq as [->|[Hs ->]]; [done|]. destruct Hqr as [->|[Hs2 ->]]; [by right|done].
Qed.

Lemma woken_awakened c ps : awakened ps (woken c <$> ps).
Proof.
  unfold awakened. apply Forall2_fmap_r, Forall_Forall2_diag, Forall_true. intros p.
  unfold compose, woken. destruct (asleep_on c p) eqn:E; [right|by left]. unfold asleep_on in E.
  apply andb_true_iff in E as [E%bool_decide_eq_true _]. done.
Qed.

Lemma awakened_length ps qs : awakened ps qs -> length qs = length ps.
Proof. intros H. symmetry. by eapply Forall2_length. Qed.

Lemma awakened_running ps qs i p :
  awakened ps qs -> ps !! i = Some p -> p_state p = RUNNING -> qs !! i = Some p.
Proof.
  intros H Hp Hr. destruct (Forall2_lookup_l _ _ _ _ _ H Hp) as (q & Hq & [->|[Hs _]]); congruence.
Qed.

(** The static spin locks of the kernel. *)
Inductive static_lock : lockid -> Prop :=
| st_ptable : static_lock LK_ptable
| st_bcache : static_lock LK_bcache
| st_log : static_lock LK_log
| st_icache : static_lock LK_icache
| st_ftable : static_lock LK_ftable
| st_buf i : (i < NBUF)%nat -> static_lock (LK_sleep (SL_buf i))
| st_inode i : (i < NINODE)%nat -> static_lock (LK_sleep (SL_inode i)).

Create HintDb locks discriminated.
#[local] Hint Constructors static_lock : locks.

(** A process runs in the kernel and holds no spin lock. *)
Record ready (k : kernel) : Prop := Ready {
  rd_calm : calm k;
  rd_free : forall lk, static_lock lk -> lock_free k lk;
  rd_procs : length (k_procs k) = NPROC;
  rd_cur : exists i p, c_proc (k_cpu k) = Some i /\ k_procs k !! i = Some p /\ p_state p = RUNNING
}.

(** What balanced calls leave of the environment. *)
Definition same_env (k k' : kernel) : Prop :=
  k_cpu k' = k_cpu k /\ k_locks k' = k_locks k /\ awakened (k_procs k) (k_procs k').

Lemma ready_env k k' : ready k -> same_env k k' -> ready k'.
Proof.
  intros [[Hn Hi] Hf Hl (i & p & Hc & Hp & Hr)] (Ec & El & Ha). split.
  - unfold calm. by rewrite Ec.
  - intros lk Hlk. destruct (Hf lk Hlk) as [name E]. exists name. by rewrite El.
  - by rewrite (awakened_length _ _ Ha).
  - exists i, p. rewrite Ec. eauto using awakened_running.
Qed.

(** wakeup between two balanced points. *)
Lemma wakeup_in k lk c :
  ready k -> static_lock lk -> lk <> LK_ptable ->
  forall k1, k_locks k1 = k_locks (locked_by lk k) -> k_cpu k1 = k_cpu (locked_by lk k) ->
  k_procs k1 = k_procs k ->
  exists k2, wakeup c k1 = Ok tt k2 /\ k_locks k2 = k_locks (locked_by lk k) /\
    k_cpu k2 = k_cpu (locked_by lk k) /\ k2 = set_procs (woken c <$> k_procs k) k1.
Proof.
  intros Hr Hs Hne k1 El Ec Ep. destruct Hr as [[Hn Hi] Hf Hl _].
  destruct (Hf LK_ptable st_ptable) as [pname Ept].
  assert (settle (set_procs (woken c <$> k_procs k) k1) = set_procs (woken c <$> k_procs k) k1) as Es.
  { unfold settle. cbn [k_cpu set_procs]. rewrite Ec. unfold settled. simpl. rewrite Hn. simpl.
    destruct k1 as [c1]. unfold set_procs, set_cpu. simpl in *. subst. unfold pushed. simpl. by rewrite Hn. }
  eexists. split_and!.
  - rewrite wakeup_run.
    + rewrite Ep. rewrite Es. reflexivity.
    + rewrite Ec. split; simpl; [lia|done].
    + exists pname. rewrite El. simpl. by rewrite lookup_insert_ne by done.
    + by rewrite Ep.
  - exact El.
  - exact Ec.
  - done.
Qed.

(** The lock as its user sees it: the current process takes a lock nobody holds, and
    gives it back. *)
Definition sl_taken (l : slid) (pid : Z) (k : kernel) : kernel :=
  put_sleep l (Sleeplock 1 (sl_name (get_sleep l k)) pid) k.
Definition sl_given (l : slid) (k : kernel) : kernel :=
  set_procs (woken (Ch_sleeplock l) <$> k_procs k)
    (put_sleep l (Sleeplock 0 (sl_name (get_sleep l k)) 0) k).

Definition cur_pid (k : kernel) : Z :=
  from_option p_pid 0 (i ← c_proc (k_cpu k); k_procs k !! i).


Lemma acquiresleep_free k l :
  ready k -> static_lock (LK_sleep l) -> sl_locked (get_sleep l k) = 0 ->
  acquiresleep l k = Ok tt (sl_taken l (cur_pid k) k).
Proof.
  intros Hr Hs Hfree. pose proof Hr as [Hc Hf Hl (i & p & Hi & Hp & _)].
  unfold acquiresleep. krun (acquire_free k _ (Hf _ Hs)).
  set (k0 := locked_by (LK_sleep l) k).
  assert (acquiresleep_wait patience l k0 = Ok tt k0) as Ew.
  { destruct patience; cbn [acquiresleep_wait]; kr;
      change (get_sleep l k0) with (get_sleep l k); by rewrite Hfree. }
  krun Ew. kr. unfold my_proc, get_proc. unfold bind.
  rewrite (cur_proc_ok _ i) by done. cbn [obind].
  rewrite (read_at_ok k_procs i _ p) by done. cbn [obind].
  rewrite (calm_release k) by auto.
  unfold sl_taken, put_sleep, get_sleep, cur_pid. simpl. rewrite Hi. simpl. rewrite Hp. simpl.
  rewrite lookup_insert_eq. simpl. rewrite insert_insert_eq. done.
Qed.

Lemma releasesleep_run k l :
  ready k -> static_lock (LK_sleep l) ->
  releasesleep l k = Ok tt (sl_given l k).
Proof.
  intros Hr Hs. pose proof Hr as [Hc Hf Hl _].
  unfold releasesleep. krun (acquire_free k _ (Hf _ Hs)). kr.
  edestruct (wakeup_in k (LK_sleep l) (Ch_sleeplock l) Hr Hs) as (k2 & E & E1 & E2 & E3);
    [done| | | |rewrite E; cbn [obind]]; [done..|].
  rewrite (calm_release k) by auto. by rewrite E3.
Qed.

Lemma holdingsleep_run k l :
  ready k -> static_lock (LK_sleep l) ->
  holdingsleep l k = Ok (sl_locked (get_sleep l k)) k.
Proof.
  intros [Hc Hf Hl _] Hs. unfold holdingsleep. krun (acquire_free k _ (Hf _ Hs)). kr.
  rewrite (calm_release k) by auto. simpl. destruct k; done.
Qed.

(** ** Contention *)

(** The outcome [o] ends in [Ok a k'] when the others act as [R] at every switch. *)
Inductive runs {A} (R : kernel -> kernel -> Prop) : outcome kernel A -> A -> kernel -> Prop :=
| runs_ok a k : runs R (Ok a k) a k
| runs_switch k r k1 a k' : R k k1 -> runs R (r k1) a k' -> runs R (Switched k r) a k'.

Lemma runs_bind {A B} R (o : outcome kernel A) (f : A -> K B) b k' :
  runs R (obind o f) b k' -> exists a k1, runs R o a k1 /\ runs R (f a k1) b k'.
Proof.
  induction o as [a k| | | |k r IH|]; cbn [obind]; intros H.
  - exists a, k. split; [constructor|done].
  - inversion H.
  - inversion H.
  - inversion H.
  - inversion H as [|? ? k1 ? ? HR Hr]; subst. destruct (IH k1 Hr) as (a & k2 & H1 & H2).
    exists a, k2. split; [by econstructor|done].
  - inversion H.
Qed.

(** The process [i] is resumed by the scheduler, with the spin lock of [l] free. *)
Definition resumed (l : slid) (i : nat) (pid : Z) (k : kernel) : Prop :=
  in_section k LK_ptable /\ lock_free k (LK_sleep l) /\ c_proc (k_cpu k) = Some i /\
  exists p, k_procs k !! i = Some p /\ p_pid p = pid.

(** The process [i] looks at the lock, holding its spin lock. *)
Definition looking (l : slid) (i : nat) (pid : Z) (k : kernel) : Prop :=
  in_section k (LK_sleep l) /\ lock_free k LK_ptable /\ c_proc (k_cpu k) = Some i /\
  exists p, k_procs k !! i = Some p /\ p_pid p = pid.

(** One look at the lock: it is free, or the process goes to sleep on it. *)
Lemma wait_held fuel l i pid k :
  looking l i pid k -> sl_locked (get_sleep l k) <> 0 ->
  acquiresleep_wait (S fuel) l k
  = obind (sleep (Ch_sleeplock l) (LK_sleep l) k) (fun _ => acquiresleep_wait fuel l).
Proof.
  intros _ Hl. cbn [acquiresleep_wait]. kr. unfold truth.
  rewrite (proj2 (Z.eqb_neq _ _)) by done. done.
Qed.

Lemma wait_free fuel l k :
  sl_locked (get_sleep l k) = 0 -> acquiresleep_wait fuel l k = Ok tt k.
Proof. intros Hl. destruct fuel; cbn [acquiresleep_wait]; kr; by rewrite Hl. Qed.

Lemma sleep_on_lock l i pid k :
  looking l i pid k ->
  exists k1 r, sleep (Ch_sleeplock l) (LK_sleep l) k = Switched k1 r /\
    k_sleeps k1 = k_sleeps k /\
    forall k2, resumed l i pid k2 ->
      exists k3, r k2 = Ok tt k3 /\ looking l i pid k3 /\ k_sleeps k3 = k_sleeps k2.
Proof.
  intros (Hs & [pname Ept] & Hi & p & Hp & Hpid). destruct Hs as [[name El] [Hn Hif]].
  eexists (gone_to_sleep i p (Ch_sleeplock l) (LK_sleep l) name pname k), _.
  split; [by apply sleep_enter|]. split; [done|].
  intros k2 (Hs2 & Hf2 & Hi2 & p2 & Hp2 & Hpid2).
  destruct (sleep_leave k2 i p2 (LK_sleep l) (c_intena (k_cpu k)) ltac:(done) Hs2 Hf2 Hi2 Hp2)
    as (k3 & E & H1 & H2 & _ & H3 & H4).
  exists k3. split; [done|]. rewrite H3. split; [|done]. rewrite H3 in H1, H2, H4.
  split_and!; [done..|]. exists (with_chan None p2). split; [|done].
  simpl. apply list_lookup_insert_eq. by eapply lookup_lt_Some.
Qed.

(** Every way the wait ends is through a state in which the lock was free. *)
Lemma wait_runs fuel R l i pid k k' :
  (forall k1 k2, R k1 k2 -> resumed l i pid k2) ->
  looking l i pid k -> runs R (acquiresleep_wait fuel l k) tt k' ->
  looking l i pid k' /\ sl_locked (get_sleep l k') = 0 /\
  (k_sleeps k' = k_sleeps k \/ exists k1 k2, R k1 k2 /\ k_sleeps k' = k_sleeps k2).
Proof.
  intros HR. revert k. induction fuel as [|fuel IH]; intros k Hk Hrun;
    (destruct (decide (sl_locked (get_sleep l k) = 0)) as [Hz|Hz];
     [rewrite wait_free in Hrun by done; inversion Hrun; subst; by auto|]).
  - exfalso. revert Hrun. cbn [acquiresleep_wait]. kr. unfold truth.
    rewrite (proj2 (Z.eqb_neq _ _)) by done. simpl. intros H. inversion H.
  - rewrite (wait_held fuel l i pid) in Hrun by done.
    destruct (sleep_on_lock l i pid k Hk) as (k1 & r & Es & _ & Hr).
    rewrite Es in Hrun. apply runs_bind in Hrun as ([] & k3 & H1 & H2).
    inversion H1 as [|? ? k2 ? ? HR2 H3]; subst.
    destruct (Hr k2 (HR _ _ HR2)) as (k3' & E3 & Hl3 & Es3). rewrite E3 in H3.
    inversion H3; subst. destruct (IH k3 Hl3 H2) as (Hl & Hz' & Hor).
    split; [done|]. split; [done|]. right. destruct Hor as [E|H]; [|done].
    exists k1, k2. split; [done|]. congruence.
Qed.

(** What follows the wait: the flag is set and the spin lock given up. *)
Lemma acquiresleep_finish l i pid k1 :
  looking l i pid k1 ->
  exists k', ((fun _ : unit => modify (fun k => put_sleep l (Sleeplock 1 (sl_name (get_sleep l k)) (sl_pid (get_sleep l k))) k) ;;;
    p <- my_proc ;;
    modify (fun k => put_sleep l (Sleeplock (sl_locked (get_sleep l k)) (sl_name (get_sleep l k)) (p_pid p)) k) ;;;
    release (LK_sleep l)) tt k1) = Ok tt k' /\ lock_free k' (LK_sleep l) /\
    k_sleeps k' = <[l := Sleeplock 1 (sl_name (get_sleep l k1)) pid]> (k_sleeps k1) /\
    k_procs k' = k_procs k1.
Proof.
  intros ([[name El] [Hn Hif]] & _ & Hi & p & Hp & Hpid). kr. unfold my_proc, get_proc, bind.
  rewrite (cur_proc_ok _ i) by done. cbn [obind].
  rewrite (read_at_ok k_procs i _ p) by done. cbn [obind].
  rewrite (release_held _ _ name) by (done || (simpl; lia)).
  eexists. split; [done|]. split_and!.
  - exists name. simpl. by rewrite lookup_insert_eq.
  - unfold get_sleep. simpl. unfold get_sleep. rewrite lookup_insert_eq. simpl. rewrite insert_insert_eq. by rewrite Hpid.
  - done.
Qed.

Lemma acquire_looking l i p k :
  calm k -> lock_free k (LK_sleep l) -> lock_free k LK_ptable ->
  c_proc (k_cpu k) = Some i -> k_procs k !! i = Some p ->
  looking l i (p_pid p) (locked_by (LK_sleep l) k).
Proof.
  intros [Hn _] Hf Hpt Hi Hp. split_and!.
  - split; [apply locked_by_held|]. simpl. rewrite Hn. done.
  - by apply locked_by_free_ne.
  - done.
  - eauto.
Qed.


(** [P] holds whenever the process is switched out and when it returns, if it holds,
    with [rely], whenever the process is resumed. *)
Inductive always {A} (P rely : kernel -> Prop) : outcome kernel A -> Prop :=
| always_ok a k : P k -> always P rely (Ok a k)
| always_switch k r :
    P k -> (forall k', rely k' -> P k' -> always P rely (r k')) -> always P rely (Switched k r)
| always_nofuel : always P rely NoFuel.

(** Some process is asleep on the lock. *)
Definition waited_for (l : slid) (k : kernel) : Prop :=
  exists j q, k_procs k !! j = Some q /\ p_state q = SLEEPING /\ p_chan q = Some (Ch_sleeplock l).

(** Nobody sleeps on a free lock. *)
Definition no_lost_wakeup (l : slid) (k : kernel) : Prop :=
  waited_for l k -> sl_locked (get_sleep l k) <> 0.

Lemma waited_for_insert l i p k k' :
  k_procs k' = <[i := p]> (k_procs k) -> p_chan p <> Some (Ch_sleeplock l) ->
  waited_for l k' -> waited_for l k.
Proof.
  intros Ep Hp (j & q & Hq & Hs & Hc). rewrite Ep in Hq.
  destruct (decide (i = j)) as [<-|Hne].
  - apply list_lookup_insert_Some in Hq as [(_ & -> & _)|(? & _)]; [congruence|done].
  - rewrite list_lookup_insert_ne in Hq by done. exists j, q. done.
Qed.

Lemma always_wait fuel l i pid k (f : unit -> K unit) :
  looking l i pid k -> no_lost_wakeup l k ->
  (forall k1, looking l i pid k1 -> no_lost_wakeup l k1 -> sl_locked (get_sleep l k1) = 0 ->
     always (no_lost_wakeup l) (resumed l i pid) (f tt k1)) ->
  always (no_lost_wakeup l) (resumed l i pid) (obind (acquiresleep_wait fuel l k) f).
Proof.
  revert k. induction fuel as [|fuel IH]; intros k Hk Hinv Hf;
    (destruct (decide (sl_locked (get_sleep l k) = 0)) as [Hz|Hz];
     [rewrite wait_free by done; cbn [obind]; by apply Hf|]).
  - cbn [acquiresleep_wait]. kr. unfold truth. rewrite (proj2 (Z.eqb_neq _ _)) by done.
    simpl. constructor.
  - rewrite (wait_held fuel l i pid) by done.
    pose proof Hk as ([[name El] [Hn Hif]] & [pname Ept] & Hi & p & Hp & Hpid).
    rewrite (sleep_enter k i p _ (LK_sleep l) name pname) by done. cbn [obind]. constructor.
    + intros _. done.
    + intros k2 (Hs2 & Hf2 & Hi2 & p2 & Hp2 & Hpid2) Hinv2.
      destruct (sleep_leave k2 i p2 (LK_sleep l) (c_intena (k_cpu k)) ltac:(done) Hs2 Hf2 Hi2 Hp2)
        as (k3 & E & H1 & H2 & _ & H3 & H4).
      rewrite E. cbn [obind]. apply IH; [| |done].
      * split_and!; [done..|]. rewrite H3. exists (with_chan None p2). split; [|done].
        simpl. apply list_lookup_insert_eq. by eapply lookup_lt_Some.
      * intros Hw. rewrite H3. apply Hinv2.
        apply (waited_for_insert l i (with_chan None p2) k2 k3); [by rewrite H3|done|exact Hw].
Qed.


End Sleeplock.

#[export] Hint Constructors static_lock : locks.

(** ** A booted machine: every static lock initialised, process 3 running. *)
Definition static_locks : list lockid :=
  [LK_ptable; LK_bcache; LK_log; LK_icache; LK_ftable] ++
  ((fun i => LK_sleep (SL_buf i)) <$> upto NBUF) ++
  ((fun i => LK_sleep (SL_inode i)) <$> upto NINODE).

Definition booted : kernel :=
  set_cpu (Cpu 0 0 true true (Some 3%nat) 0 0)
    (set_locks (list_to_map ((fun lk => (lk, Spinlock 0 "lock" None)) <$> static_locks))
      (set_procs (<[3%nat := with_state RUNNING proc0]> (replicate NPROC proc0)) kernel0)).

Lemma static_locks_complete lk : static_lock lk -> lk ∈ static_locks.
Proof.
  unfold static_locks. rewrite !elem_of_app, !list_elem_of_fmap. intros [| | | | |i Hi|i Hi].
  1-5: left; rewrite !elem_of_cons; by auto 10.
  - right; left. exists i. by rewrite elem_of_upto.
  - right; right. exists i. by rewrite elem_of_upto.
Qed.

Lemma list_to_map_const {K A} `{Countable K} (x : A) (ks : list K) k :
  k ∈ ks -> (list_to_map ((fun k => (k, x)) <$> ks) : gmap K A) !! k = Some x.
Proof.
  induction ks as [|k0 ks IH]; [by rewrite elem_of_nil|]. rewrite elem_of_cons. intros Hk. simpl.
  destruct (decide (k = k0)) as [->|Hne]; [by rewrite lookup_insert_eq|].
  rewrite lookup_insert_ne by done. apply IH. by destruct Hk.
Qed.

Lemma booted_ready : ready booted.
Proof.
  split.
  - by split.
  - intros lk Hlk. exists "lock". unfold booted. cbn [k_locks set_cpu set_locks].
    by apply list_to_map_const, static_locks_complete.
  - reflexivity.
  - exists 3%nat, (with_state RUNNING proc0). by split.
Qed.


