(* ===== verification/Bio.v ===== *)
(** * The buffer cache (src/bio.c) and the in-memory disk (src/memide.c)

    [bcache.buf] and [bcache.head] are the elements 0 .. NBUF of [k_bufs]; the LRU list
    is threaded through [b_next] and [b_prev].  The cache is written against the class
    [DiskDriver], the routine [iderw] of a disk driver, and [DiskOk] is what the cache
    needs of it; [Memide] is the driver of src/memide.c and satisfies it.

    [bcache_ok k mru held] is the invariant of the cache for a process that has the
    buffers [held] locked, no other process being inside the cache; [content k b] is the
    block [b] as the file system sees it: the cached copy if there is one, the disk's
    otherwise. *)

From S2P Require Import Prelude Mem State Spinlock Sched Sleeplock.

(** ** Buffers *)

Definition HEAD : nat := NBUF.
Definition get_buf : nat -> K buf := read_at k_bufs.
Definition upd_buf : nat -> (buf -> buf) -> K unit := upd_at k_bufs set_bufs.

Definition with_flags (v : Z) (b : buf) : buf :=
  Buf v (b_dev b) (b_blockno b) (b_refcnt b) (b_prev b) (b_next b) (b_qnext b) (b_data b).
Definition with_block (dev blockno : Z) (b : buf) : buf :=
  Buf (b_flags b) dev blockno (b_refcnt b) (b_prev b) (b_next b) (b_qnext b) (b_data b).
Definition with_refcnt (v : Z) (b : buf) : buf :=
  Buf (b_flags b) (b_dev b) (b_blockno b) v (b_prev b) (b_next b) (b_qnext b) (b_data b).
Definition with_prev (v : nat) (b : buf) : buf :=
  Buf (b_flags b) (b_dev b) (b_blockno b) (b_refcnt b) v (b_next b) (b_qnext b) (b_data b).
Definition with_next (v : nat) (b : buf) : buf :=
  Buf (b_flags b) (b_dev b) (b_blockno b) (b_refcnt b) (b_prev b) v (b_qnext b) (b_data b).
Definition with_data (v : list Z) (b : buf) : buf :=
  Buf (b_flags b) (b_dev b) (b_blockno b) (b_refcnt b) (b_prev b) (b_next b) (b_qnext b) v.

(** [~B_DIRTY] as an int. *)
Definition CLEAN : Z := Z.lnot B_DIRTY.

(** ** Disks *)

Definition ZERO_BLOCK : list Z := replicate 512 0.
Definition disk_block (d : disk) (b : Z) : list Z := default ZERO_BLOCK (d_blocks d !! b).
Arguments ZERO_BLOCK : simpl never.
Arguments disk_block : simpl never.
Definition disk_put (b : Z) (data : list Z) (d : disk) : disk :=
  Disk (<[b := data]> (d_blocks d)) (disksize d) (havedisk1 d) (d_cmd d)
    (d_writes d ++ [(b, data)]).

Class DiskDriver := iderw : nat -> K unit.

(** The driver of src/memide.c: the disk is an array of blocks in memory. *)
Module Memide.

Definition memide_iderw (b : nat) : K unit :=
  h <- holdingsleep (SL_buf b) ;;
  if negb (truth h) then panic "iderw: buf not locked" else
  bf <- get_buf b ;;
  if Z.land (b_flags bf) (Z.lor B_VALID B_DIRTY) =? B_VALID then panic "iderw: nothing to do" else
  if negb (b_dev bf =? 1) then panic "iderw: request not for disk 1" else
  disksize <- gets (fun k => disksize (k_disk k)) ;;
  if b_blockno bf >=? disksize then panic "iderw: block out of range" else
  (if truth (Z.land (b_flags bf) B_DIRTY) then
     upd_buf b (fun b => with_flags (Z.land (b_flags b) CLEAN) b) ;;;
     modify (fun k => set_disk (disk_put (b_blockno bf) (b_data bf) (k_disk k)) k)
   else
     d <- gets k_disk ;;
     upd_buf b (with_data (disk_block d (b_blockno bf)))) ;;;
  upd_buf b (fun b => with_flags (Z.lor (b_flags b) B_VALID) b).

#[export] Instance memide : DiskDriver := memide_iderw.

(** ideinit of src/memide.c: the image is linked with the kernel. *)
Definition memide_ideinit (img : gmap Z (list Z)) (size : Z) : K unit :=
  modify (fun k => set_disk (Disk img (size / BSIZE) false None []) k).

Definition memide_ideintr : K unit := ret tt.

End Memide.

(** ** The cache *)

Section Bio.
  Context {patience_bound : Patience} {driver : DiskDriver}.

Definition binit : K unit :=
  initlock LK_bcache "bcache" ;;;
  upd_buf HEAD (with_prev HEAD) ;;;
  upd_buf HEAD (with_next HEAD) ;;;
  for_each (upto NBUF) (fun b =>
    head <- get_buf HEAD ;;
    upd_buf b (with_next (b_next head)) ;;;
    upd_buf b (with_prev HEAD) ;;;
    initsleeplock (SL_buf b) "buffer" ;;;
    head <- get_buf HEAD ;;
    upd_buf (b_next head) (with_prev b) ;;;
    upd_buf HEAD (with_next b)).

Definition of_block (dev blockno : Z) (b : buf) : bool :=
  (b_dev b =? dev) && (b_blockno b =? blockno).

(** [for(b = bcache.head.next; b != &bcache.head; b = b->next)] *)
Fixpoint bget_cached (fuel : nat) (dev blockno : Z) (b : nat) : K (option nat) :=
  if (b =? HEAD)%nat then ret None else
  match fuel with
  | O => nofuel
  | S fuel' =>
      bf <- get_buf b ;;
      if of_block dev blockno bf then
        upd_buf b (fun bf => with_refcnt (u32 (b_refcnt bf + 1)) bf) ;;;
        release LK_bcache ;;;
        acquiresleep (SL_buf b) ;;;
        ret (Some b)
      else bget_cached fuel' dev blockno (b_next bf)
  end.

(** [b->refcnt == 0 && (b->flags & B_DIRTY) == 0] *)
Definition unused (b : buf) : bool := (b_refcnt b =? 0) && (Z.land (b_flags b) B_DIRTY =? 0).

(** [for(b = bcache.head.prev; b != &bcache.head; b = b->prev)] *)
Fixpoint bget_recycle (fuel : nat) (dev blockno : Z) (b : nat) : K (option nat) :=
  if (b =? HEAD)%nat then ret None else
  match fuel with
  | O => nofuel
  | S fuel' =>
      bf <- get_buf b ;;
      if unused bf then
        upd_buf b (with_block dev blockno) ;;;
        upd_buf b (with_flags 0) ;;;
        upd_buf b (with_refcnt 1) ;;;
        release LK_bcache ;;;
        acquiresleep (SL_buf b) ;;;
        ret (Some b)
      else bget_recycle fuel' dev blockno (b_prev bf)
  end.

Definition bget (dev blockno : Z) : K nat :=
  acquire LK_bcache ;;;
  head <- get_buf HEAD ;;
  o <- bget_cached NBUF dev blockno (b_next head) ;;
  match o with
  | Some b => ret b
  | None =>
      head <- get_buf HEAD ;;
      o <- bget_recycle NBUF dev blockno (b_prev head) ;;
      match o with
      | Some b => ret b
      | None => panic "bget: no buffers"
      end
  end.

Definition bread (dev blockno : Z) : K nat :=
  b <- bget dev blockno ;;
  bf <- get_buf b ;;
  when (negb (truth (Z.land (b_flags bf) B_VALID))) (iderw b) ;;;
  ret b.

Definition bwrite (b : nat) : K unit :=
  h <- holdingsleep (SL_buf b) ;;
  if negb (truth h) then panic "bwrite" else
  upd_buf b (fun bf => with_flags (Z.lor (b_flags bf) B_DIRTY) bf) ;;;
  iderw b.

Definition brelse (b : nat) : K unit :=
  h <- holdingsleep (SL_buf b) ;;
  if negb (truth h) then panic "brelse" else
  releasesleep (SL_buf b) ;;;
  acquire LK_bcache ;;;
  upd_buf b (fun bf => with_refcnt (u32 (b_refcnt bf - 1)) bf) ;;;
  bf <- get_buf b ;;
  when (b_refcnt bf =? 0) (
    (* no one is waiting for it. *)
    bf <- get_buf b ;;
    upd_buf (b_next bf) (with_prev (b_prev bf)) ;;;
    bf <- get_buf b ;;
    upd_buf (b_prev bf) (with_next (b_next bf)) ;;;
    head <- get_buf HEAD ;;
    upd_buf b (with_next (b_next head)) ;;;
    upd_buf b (with_prev HEAD) ;;;
    head <- get_buf HEAD ;;
    upd_buf (b_next head) (with_prev b) ;;;
    upd_buf HEAD (with_next b)) ;;;
  release LK_bcache.

End Bio.

(** ** The LRU list *)

Definition nx (bs : list buf) (i : nat) : nat := from_option b_next O (bs !! i).
Definition pv (bs : list buf) (i : nat) : nat := from_option b_prev O (bs !! i).

(** [l] leads from [a] to [z], forwards through next and backwards through prev. *)
Fixpoint chain (bs : list buf) (a : nat) (l : list nat) (z : nat) : Prop :=
  match l with
  | [] => nx bs a = z /\ pv bs z = a
  | x :: l' => nx bs a = x /\ pv bs x = a /\ chain bs x l' z
  end.

Lemma chain_app bs a l1 x l2 z :
  chain bs a (l1 ++ x :: l2) z <-> chain bs a l1 x /\ chain bs x l2 z.
Proof. revert a. induction l1 as [|y l1 IH]; intros a; simpl; [tauto|]. rewrite IH. tauto. Qed.

Lemma links_ext bs bs' a l z :
  (forall x, x ∈ a :: l -> nx bs' x = nx bs x) -> (forall x, x ∈ l ++ [z] -> pv bs' x = pv bs x) ->
  chain bs a l z -> chain bs' a l z.
Proof.
  revert a. induction l as [|y l IH]; intros a Hn Hp; cbn [chain].
  - rewrite (Hn a), (Hp z) by set_solver. done.
  - rewrite (Hn a), (Hp y) by set_solver. intros (? & ? & H). split; [done|]. split; [done|].
    apply IH; [intros x Hx; apply Hn; set_solver|intros x Hx; apply Hp; set_solver|done].
Qed.

Lemma chain_first bs a l z : chain bs a l z -> nx bs a ∈ l ++ [z].
Proof. destruct l; simpl; intros [-> _]; set_solver. Qed.

Lemma chain_last bs a l z : chain bs a l z -> pv bs z ∈ a :: l.
Proof.
  revert a. induction l as [|y l IH]; intros a; simpl.
  - intros [_ ->]. set_solver.
  - intros (_ & _ & H). apply IH in H. set_solver.
Qed.

(** A part of the list led to [i] and now leads to [n]. *)
Lemma chain_redirect bs bs' a l i n :
  chain bs a l i -> NoDup (a :: l) -> n ∉ l ->
  (forall x, nx bs' x = if decide (x = pv bs i) then n else nx bs x) ->
  (forall x, pv bs' x = if decide (x = n) then pv bs i else pv bs x) ->
  chain bs' a l n.
Proof.
  intros Hc Hnd Hn Hnx Hpv. revert a Hc Hnd. induction l as [|y l IH]; intros a; cbn [chain].
  - intros [_ E] _. rewrite Hnx, Hpv, decide_True, decide_True by done. done.
  - intros (E1 & E2 & Hc) Hnd. apply NoDup_cons in Hnd as [Ha Hnd].
    rewrite Hnx, Hpv. rewrite decide_False, decide_False.
    + split; [done|]. split; [done|]. apply IH; [set_solver|done|done].
    + intros ->. set_solver.
    + intros ->. apply chain_last in Hc. done.
Qed.

Lemma chain_unlink bs bs' h l1 i l2 :
  chain bs h (l1 ++ i :: l2) h -> NoDup (h :: l1 ++ i :: l2) ->
  (forall x, nx bs' x = if decide (x = pv bs i) then nx bs i else nx bs x) ->
  (forall x, pv bs' x = if decide (x = nx bs i) then pv bs i else pv bs x) ->
  chain bs' h (l1 ++ l2) h.
Proof.
  intros Hc Hnd Hnx Hpv. apply chain_app in Hc as [H1 H2].
  apply NoDup_cons in Hnd as [Hh Hnd]. apply NoDup_app in Hnd as (Hd1 & Hdis & Hd2).
  apply NoDup_cons in Hd2 as [Hi Hd2].
  assert (NoDup (h :: l1)) as Hd1' by (constructor; set_solver).
  pose proof (chain_last _ _ _ _ H1) as Hlast.
  destruct l2 as [|x l2]; cbn [chain] in H2.
  - rewrite app_nil_r. destruct H2 as [E _]. rewrite E in *.
    eapply chain_redirect; eauto. set_solver.
  - destruct H2 as (E & _ & H2). rewrite E in *. apply chain_app. split.
    + eapply chain_redirect; eauto. set_solver.
    + eapply links_ext; [| |exact H2]; intros y Hy.
      * rewrite Hnx, decide_False; [done|]. set_solver.
      * rewrite Hpv, decide_False; [done|]. apply NoDup_cons in Hd2. set_solver.
Qed.

Lemma chain_push bs bs' h l i :
  chain bs h l h -> NoDup (h :: l) -> i ∉ h :: l ->
  (forall x, nx bs' x = if decide (x = h) then i else if decide (x = i) then nx bs h else nx bs x) ->
  (forall x, pv bs' x = if decide (x = nx bs h) then i else if decide (x = i) then h else pv bs x) ->
  chain bs' h (i :: l) h.
Proof.
  intros Hc Hnd Hi Hnx Hpv. apply NoDup_cons in Hnd as [Hh Hnd].
  pose proof (chain_first _ _ _ _ Hc) as Hf. cbn [chain].
  split; [by rewrite Hnx, decide_True|]. split.
  { rewrite Hpv, decide_False, decide_True by set_solver. done. }
  destruct l as [|x l]; cbn [chain] in Hc |- *.
  - destruct Hc as [E _]. rewrite Hnx, Hpv, decide_False, decide_True, decide_True by set_solver. done.
  - destruct Hc as (E & E' & Hc).
    rewrite Hnx, Hpv, decide_False, decide_True, decide_True by set_solver.
    split; [done|]. split; [done|]. eapply links_ext; [| |exact Hc]; intros y Hy.
    + rewrite Hnx, decide_False, decide_False; set_solver.
    + rewrite Hpv, E. apply NoDup_cons in Hnd. rewrite decide_False, decide_False; set_solver.
Qed.

(** ** What the cache needs of a driver *)

Definition VALID_DIRTY : Z := Z.lor B_VALID B_DIRTY.

Class DiskOk (D : DiskDriver) : Prop := {
  iderw_write k b bf :
    ready k -> (b < NBUF)%nat -> sl_locked (get_sleep (SL_buf b) k) <> 0 ->
    k_bufs k !! b = Some bf -> b_dev bf = 1 -> 0 <= b_blockno bf < disksize (k_disk k) ->
    b_flags bf = VALID_DIRTY ->
    iderw b k = Ok tt (set_disk (disk_put (b_blockno bf) (b_data bf) (k_disk k))
                        (set_bufs (<[b := with_flags B_VALID bf]> (k_bufs k)) k));
  iderw_read k b bf :
    ready k -> (b < NBUF)%nat -> sl_locked (get_sleep (SL_buf b) k) <> 0 ->
    k_bufs k !! b = Some bf -> b_dev bf = 1 -> 0 <= b_blockno bf < disksize (k_disk k) ->
    b_flags bf = 0 ->
    iderw b k = Ok tt (set_bufs (<[b := with_data (disk_block (k_disk k) (b_blockno bf))
                                         (with_flags B_VALID bf)]> (k_bufs k)) k)
}.

Lemma get_buf_ok k i b : k_bufs k !! i = Some b -> get_buf i k = Ok b k.
Proof. apply (read_at_ok k_bufs). Qed.

Lemma upd_buf_ok k i f b :
  k_bufs k !! i = Some b -> upd_buf i f k = Ok tt (set_bufs (<[i := f b]> (k_bufs k)) k).
Proof. apply (upd_at_ok k_bufs set_bufs). Qed.

Lemma insert_lookup_bufs (bs : list buf) i b b' :
  bs !! i = Some b -> <[i := b']> bs !! i = Some b'.
Proof. intros H. apply list_lookup_insert_eq. by eapply lookup_lt_Some. Qed.

#[export] Instance memide_ok : DiskOk Memide.memide.
Proof.
  split; intros k b bf Hr Hb Hl Hbf Hd Hn Hf; unfold iderw, Memide.memide, Memide.memide_iderw;
    krun (holdingsleep_run k (SL_buf b) Hr (st_buf b Hb)); unfold truth;
    rewrite (proj2 (Z.eqb_neq _ 0)) by done; cbn [negb];
    krun (get_buf_ok k b bf Hbf); rewrite Hf, Hd; simpl;
    kr; rewrite Z.geb_leb, (proj2 (Z.leb_gt _ _)) by lia.
  - rewrite (upd_buf_ok k b _ bf Hbf). cbn [obind].
    erewrite upd_buf_ok by exact (insert_lookup_bufs _ _ _ _ Hbf).
    cbn [k_bufs set_bufs set_disk]. rewrite list_insert_insert_eq. unfold with_flags. simpl.
    by rewrite Hf.
  - rewrite (upd_buf_ok k b _ bf Hbf). cbn [obind].
    erewrite upd_buf_ok by exact (insert_lookup_bufs _ _ _ _ Hbf).
    cbn [k_bufs set_bufs]. rewrite list_insert_insert_eq. unfold with_flags, with_data. simpl.
    by rewrite Hf.
Qed.

(** ** The invariant *)

(** A buffer that the process has locked ([h]), or that nobody uses. *)
Record buf_ok (d : disk) (h : bool) (b : buf) : Prop := BufOk {
  bu_len : length (b_data b) = 512%nat;
  bu_ref : b_refcnt b = if h then 1 else 0;
  bu_flags : b_flags b = 0 \/ b_flags b = B_VALID \/ b_flags b = VALID_DIRTY;
  bu_dev : b_dev b = 0 /\ b_flags b = 0 \/
           b_dev b = 1 /\ b_flags b <> 0 /\ 0 <= b_blockno b < disksize d;
  bu_held : h = true -> b_dev b = 1;
  bu_clean : h = false -> b_flags b = B_VALID -> b_data b = disk_block d (b_blockno b)
}.

Record bcache_ok (k : kernel) (mru : list nat) (held : gset nat) : Prop := BcacheOk {
  bo_len : length (k_bufs k) = S NBUF;
  bo_perm : mru ≡ₚ upto NBUF;
  bo_chain : chain (k_bufs k) HEAD mru HEAD;
  bo_uniq : forall i j bi bj, (i < NBUF)%nat -> (j < NBUF)%nat ->
    k_bufs k !! i = Some bi -> k_bufs k !! j = Some bj ->
    b_dev bi = 1 -> b_dev bj = 1 -> b_blockno bi = b_blockno bj -> i = j;
  bo_buf : forall i b, (i < NBUF)%nat -> k_bufs k !! i = Some b ->
    buf_ok (k_disk k) (bool_decide (i ∈ held)) b;
  bo_lock : forall i, (i < NBUF)%nat ->
    sl_locked (get_sleep (SL_buf i) k) = if decide (i ∈ held) then 1 else 0;
  bo_held : forall i, i ∈ held -> (i < NBUF)%nat;
  bo_disk : forall b data, d_blocks (k_disk k) !! b = Some data -> length data = 512%nat
}.

(** Block [b] as the file system sees it. *)
Definition content (k : kernel) (b : Z) : list Z :=
  match find_idx (of_block 1 b) (take NBUF (k_bufs k)) with
  | Some i => from_option b_data [] (k_bufs k !! i)
  | None => disk_block (k_disk k) b
  end.

Definition cached (k : kernel) (b : Z) (i : nat) (bf : buf) : Prop :=
  (i < NBUF)%nat /\ k_bufs k !! i = Some bf /\ b_dev bf = 1 /\ b_blockno bf = b.

(** Buffer [i] cannot be recycled. *)
Definition pinned (bs : list buf) (i : nat) : bool :=
  match bs !! i with Some b => negb (unused b) | None => false end.

(** What calls of the cache leave unchanged. *)
Definition bio_frame (k k' : kernel) : Prop :=
  k' = set_bufs (k_bufs k') (set_disk (k_disk k') (set_sleeps (k_sleeps k')
         (set_procs (k_procs k') k))) /\
  awakened (k_procs k) (k_procs k') /\
  (forall n, k_sleeps k' !! SL_inode n = k_sleeps k !! SL_inode n).

#[export] Instance bio_frame_refl : Reflexive bio_frame.
Proof. intros k. split; [by destruct k|done]. Qed.

#[export] Instance bio_frame_trans : Transitive bio_frame.
Proof.
  intros k1 k2 k3 (E1 & A1 & S1) (E2 & A2 & S2). split; [|split; [by etrans|]].
  - rewrite E2 at 1. rewrite E1 at 1. done.
  - intros n. by rewrite S2.
Qed.

Lemma bio_frame_ready k k' : ready k -> bio_frame k k' -> ready k'.
Proof. intros Hr (E & Ha & _). apply (ready_env k); [done|]. rewrite E. done. Qed.

Lemma find_block_cached k mru held b i :
  bcache_ok k mru held ->
  find_idx (of_block 1 b) (take NBUF (k_bufs k)) = Some i <-> exists bf, cached k b i bf.
Proof.
  intros Hk. rewrite find_idx_Some. unfold of_block. split.
  - intros (bf & Hb & Hp & _). apply lookup_take_Some in Hb as [Hb Hi].
    apply andb_true_iff in Hp as [H1%Z.eqb_eq H2%Z.eqb_eq]. exists bf. done.
  - intros (bf & Hi & Hb & Hd & Hn). exists bf. split_and!.
    + apply lookup_take_Some. done.
    + rewrite Hd, Hn. rewrite !Z.eqb_refl. done.
    + intros j y Hj Hy. apply lookup_take_Some in Hy as [Hy Hj'].
      destruct (_ && _) eqn:E; [|done]. apply andb_true_iff in E as [H1%Z.eqb_eq H2%Z.eqb_eq].
      exfalso. assert (j = i); [|lia]. eapply (bo_uniq k mru held Hk); eauto. lia.
Qed.

Lemma find_block_uncached k mru held b :
  bcache_ok k mru held ->
  find_idx (of_block 1 b) (take NBUF (k_bufs k)) = None <-> forall i bf, ~ cached k b i bf.
Proof.
  intros Hk. destruct (find_idx _ _) as [i|] eqn:E.
  - split; [done|]. intros H. apply (find_block_cached k mru held b i Hk) in E as [bf Hc].
    by destruct (H i bf).
  - split; [|done]. intros _ i bf Hc.
    assert (find_idx (of_block 1 b) (take NBUF (k_bufs k)) = Some i) as E2; [|congruence].
    apply (find_block_cached k mru held b i Hk). eauto.
Qed.

Lemma content_cached k mru held b i bf :
  bcache_ok k mru held -> cached k b i bf -> content k b = b_data bf.
Proof.
  intros Hk Hc. unfold content.
  rewrite (proj2 (find_block_cached k mru held b i Hk)) by eauto.
  destruct Hc as (_ & E & _). by rewrite E.
Qed.

Lemma content_uncached k mru held b :
  bcache_ok k mru held -> (forall i bf, ~ cached k b i bf) -> content k b = disk_block (k_disk k) b.
Proof.
  intros Hk Hc. unfold content. by rewrite (proj2 (find_block_uncached k mru held b Hk)).
Qed.

Lemma length_content k mru held b : bcache_ok k mru held -> length (content k b) = 512%nat.
Proof.
  intros Hk. unfold content. destruct (find_idx _ _) as [i|] eqn:E.
  - apply (find_block_cached k mru held b i Hk) in E as (bf & Hi & Hb & _). rewrite Hb. simpl.
    exact (bu_len _ _ _ (bo_buf _ _ _ Hk i bf Hi Hb)).
  - unfold disk_block. destruct (d_blocks _ !! b) as [data|] eqn:Ed; cbn [default from_option].
    + exact (bo_disk _ _ _ Hk b data Ed).
    + apply length_replicate.
Qed.

(** ** bget *)

Section BioRuns.
  Context {patience_bound : Patience} {driver : DiskDriver} {driver_ok : DiskOk driver}.

(** The list of a state with the cache's links. *)
Definition in_table (k : kernel) (l : list nat) : Prop :=
  forall i, i ∈ l -> (i < NBUF)%nat /\ is_Some (k_bufs k !! i).

Lemma nx_lookup bs i b : bs !! i = Some b -> nx bs i = b_next b.
Proof. unfold nx. by intros ->. Qed.
Lemma pv_lookup bs i b : bs !! i = Some b -> pv bs i = b_prev b.
Proof. unfold pv. by intros ->. Qed.

Definition bget_hit (b : nat) : K (option nat) :=
  upd_buf b (fun bf => with_refcnt (u32 (b_refcnt bf + 1)) bf) ;;;
  release LK_bcache ;;;
  acquiresleep (SL_buf b) ;;;
  ret (Some b).

Definition bget_reuse (dev blockno : Z) (b : nat) : K (option nat) :=
  upd_buf b (with_block dev blockno) ;;;
  upd_buf b (with_flags 0) ;;;
  upd_buf b (with_refcnt 1) ;;;
  release LK_bcache ;;;
  acquiresleep (SL_buf b) ;;;
  ret (Some b).

Lemma bget_cached_step fuel dev blockno k i b :
  (i < NBUF)%nat -> k_bufs k !! i = Some b ->
  bget_cached (S fuel) dev blockno i k
  = if of_block dev blockno b then bget_hit i k else bget_cached fuel dev blockno (b_next b) k.
Proof.
  intros Hi Hb. cbn [bget_cached]. rewrite (proj2 (Nat.eqb_neq _ _)) by (unfold HEAD; lia).
  krun (get_buf_ok k i b Hb). by destruct (of_block dev blockno b).
Qed.

Lemma bget_cached_skip dev blockno k l1 : forall fuel a z,
  chain (k_bufs k) a l1 z -> in_table k l1 -> (length l1 <= fuel)%nat ->
  (forall i b, i ∈ l1 -> k_bufs k !! i = Some b -> of_block dev blockno b = false) ->
  bget_cached fuel dev blockno (nx (k_bufs k) a) k
  = bget_cached (fuel - length l1) dev blockno z k.
Proof.
  induction l1 as [|i l1 IH]; intros fuel a z Hc Ht Hf Hm; cbn [chain length] in *.
  - destruct Hc as [-> _]. by rewrite Nat.sub_0_r.
  - destruct Hc as (-> & _ & Hc). destruct fuel as [|fuel]; [lia|].
    destruct (Ht i) as [Hi [b Hb]]; [set_solver|].
    rewrite (bget_cached_step fuel dev blockno k i b Hi Hb), (Hm i b) by (done || set_solver).
    rewrite <-(nx_lookup _ _ _ Hb). apply IH; [done| |lia|].
    + intros j Hj. apply Ht. set_solver.
    + intros j b' Hj. apply Hm. set_solver.
Qed.

Lemma bget_recycle_step fuel dev blockno k i b :
  (i < NBUF)%nat -> k_bufs k !! i = Some b ->
  bget_recycle (S fuel) dev blockno i k
  = if unused b then bget_reuse dev blockno i k else bget_recycle fuel dev blockno (b_prev b) k.
Proof.
  intros Hi Hb. cbn [bget_recycle]. rewrite (proj2 (Nat.eqb_neq _ _)) by (unfold HEAD; lia).
  krun (get_buf_ok k i b Hb). by destruct (unused b).
Qed.

Lemma bget_recycle_skip dev blockno k l2 : forall fuel a z,
  chain (k_bufs k) a l2 z -> in_table k l2 -> (length l2 <= fuel)%nat ->
  (forall i, i ∈ l2 -> pinned (k_bufs k) i = true) ->
  bget_recycle fuel dev blockno (pv (k_bufs k) z) k
  = bget_recycle (fuel - length l2) dev blockno a k.
Proof.
  induction l2 as [|i l2 IH] using rev_ind; intros fuel a z Hc Ht Hf Hm; cbn [chain] in *.
  - destruct Hc as [_ ->]. cbn [length]. by rewrite Nat.sub_0_r.
  - apply chain_app in Hc as [Hc [_ ->]]. rewrite length_app in *. cbn [length] in *.
    destruct fuel as [|fuel]; [lia|].
    destruct (Ht i) as [Hi [b Hb]]; [set_solver|].
    specialize (Hm i ltac:(set_solver)) as Hpin. unfold pinned in Hpin. rewrite Hb in Hpin.
    rewrite (bget_recycle_step fuel dev blockno k i b Hi Hb).
    destruct (unused b); [done|]. rewrite <-(pv_lookup _ _ _ Hb).
    rewrite (IH fuel a i); [f_equal; lia|done| |lia|].
    + intros j Hj. apply Ht. set_solver.
    + intros j Hj. apply Hm. set_solver.
Qed.

(** The state in which bget holds the cache's lock. *)
Lemma bcache_in_table k mru held : bcache_ok k mru held -> in_table k mru.
Proof.
  intros Hk i Hi. rewrite (bo_perm _ _ _ Hk) in Hi. apply elem_of_upto in Hi. split; [done|].
  apply lookup_lt_is_Some. rewrite (bo_len _ _ _ Hk). lia.
Qed.

Lemma bcache_mru_length k mru held : bcache_ok k mru held -> length mru = NBUF.
Proof. intros Hk. by rewrite (bo_perm _ _ _ Hk). Qed.

Lemma bcache_mru_nodup k mru held : bcache_ok k mru held -> NoDup (HEAD :: mru).
Proof.
  intros Hk. constructor.
  - rewrite (bo_perm _ _ _ Hk), elem_of_upto. unfold HEAD. lia.
  - rewrite (bo_perm _ _ _ Hk). apply NoDup_seq.
Qed.

Lemma head_lookup k mru held :
  bcache_ok k mru held -> exists h, k_bufs k !! HEAD = Some h.
Proof. intros Hk. apply lookup_lt_is_Some. rewrite (bo_len _ _ _ Hk). unfold HEAD. lia. Qed.

Lemma bget_finds k mru held b i bf :
  bcache_ok k mru held -> ready k -> cached k b i bf ->
  bget 1 b k = obind (bget_hit i (locked_by LK_bcache k)) (fun o =>
    match o with
    | Some b => ret b
    | None =>
        head <- get_buf HEAD ;;
        o <- bget_recycle NBUF 1 b (b_prev head) ;;
        match o with Some b => ret b | None => panic "bget: no buffers" end
    end).
Proof.
  intros Hk Hr (Hi & Hbf & Hd & Hn). unfold bget.
  krun (acquire_free k LK_bcache (rd_free _ Hr _ st_bcache)).
  set (k0 := locked_by LK_bcache k).
  destruct (head_lookup k mru held Hk) as [h Hh].
  krun (get_buf_ok k0 HEAD h Hh). rewrite <-(nx_lookup (k_bufs k0) _ _ Hh).
  assert (i ∈ mru) as Hin by (rewrite (bo_perm _ _ _ Hk); by apply elem_of_upto).
  apply list_elem_of_split in Hin as (l1 & l2 & ->).
  pose proof (bo_chain _ _ _ Hk) as Hc. apply chain_app in Hc as [Hc _].
  pose proof (bcache_in_table _ _ _ Hk) as Ht.
  pose proof (bcache_mru_length _ _ _ Hk) as Hlen. rewrite length_app in Hlen. cbn [length] in Hlen.
  pose proof (bcache_mru_nodup _ _ _ Hk) as Hnd.
  unfold bind at 1. rewrite (bget_cached_skip 1 b k0 l1 NBUF HEAD i); [|done| |lia|].
  - destruct (NBUF - length l1)%nat as [|n] eqn:En; [lia|].
    rewrite (bget_cached_step n 1 b k0 i bf Hi Hbf). unfold of_block.
    rewrite Hd, Hn, !Z.eqb_refl. done.
  - intros j Hj. apply Ht. set_solver.
  - intros j bj Hj Hbj. unfold of_block. destruct (_ && _) eqn:E; [|done].
    apply andb_true_iff in E as [H1%Z.eqb_eq H2%Z.eqb_eq]. exfalso.
    assert (j = i) as ->.
    { eapply (bo_uniq _ _ _ Hk j i); eauto; [|congruence]. apply (Ht j). set_solver. }
    apply NoDup_cons in Hnd as [_ Hnd]. apply NoDup_app in Hnd as (_ & Hdis & _). set_solver.
Qed.

(** The scans of an uncached block: the first finds nothing and the second starts. *)
Lemma bget_misses k mru held b :
  bcache_ok k mru held -> ready k -> (forall i bf, ~ cached k b i bf) ->
  bget 1 b k = obind (bget_recycle NBUF 1 b (pv (k_bufs k) HEAD) (locked_by LK_bcache k))
    (fun o => match o with Some b => ret b | None => panic "bget: no buffers" end).
Proof.
  intros Hk Hr Hun. unfold bget.
  krun (acquire_free k LK_bcache (rd_free _ Hr _ st_bcache)).
  set (k0 := locked_by LK_bcache k).
  destruct (head_lookup k mru held Hk) as [h Hh].
  krun (get_buf_ok k0 HEAD h Hh). rewrite <-(nx_lookup (k_bufs k0) _ _ Hh).
  unfold bind at 1. rewrite (bget_cached_skip 1 b k0 mru NBUF HEAD HEAD).
  - rewrite (bcache_mru_length _ _ _ Hk), Nat.sub_diag. cbn [bget_cached]. rewrite Nat.eqb_refl.
    cbn [ret obind]. krun (get_buf_ok k0 HEAD h Hh). by rewrite (pv_lookup (k_bufs k) _ _ Hh).
  - apply (bo_chain _ _ _ Hk).
  - apply (bcache_in_table _ _ _ Hk).
  - by rewrite (bcache_mru_length _ _ _ Hk).
  - intros j bj Hj Hbj. unfold of_block. destruct (_ && _) eqn:E; [|done].
    apply andb_true_iff in E as [H1%Z.eqb_eq H2%Z.eqb_eq]. exfalso. apply (Hun j bj).
    split_and!; [|done..]. rewrite (bo_perm _ _ _ Hk) in Hj. by apply elem_of_upto in Hj.
Qed.

(** The least recently used buffer that is not pinned. *)
Lemma last_unpinned (P : nat -> bool) (l : list nat) :
  (forall i, i ∈ l -> P i = true) \/
  exists l1 i l2, l = l1 ++ i :: l2 /\ P i = false /\ forall j, j ∈ l2 -> P j = true.
Proof.
  induction l as [|x l IH] using rev_ind; [left; set_solver|].
  destruct (P x) eqn:E.
  - destruct IH as [IH|(l1 & i & l2 & -> & Hi & H)]; [left; set_solver|].
    right. exists l1, i, (l2 ++ [x]). rewrite <-app_assoc. split; [done|]. set_solver.
  - right. exists l, x, []. split; [done|]. split; [done|]. set_solver.
Qed.

Lemma bget_recycles k mru held b l1 i l2 :
  bcache_ok k mru held -> ready k -> (forall i bf, ~ cached k b i bf) ->
  mru = l1 ++ i :: l2 -> pinned (k_bufs k) i = false ->
  (forall j, j ∈ l2 -> pinned (k_bufs k) j = true) ->
  bget 1 b k = obind (bget_reuse 1 b i (locked_by LK_bcache k))
    (fun o => match o with Some b => ret b | None => panic "bget: no buffers" end).
Proof.
  intros Hk Hr Hun -> Hp Hl2. rewrite (bget_misses k _ held b Hk Hr Hun). f_equal.
  pose proof (bcache_in_table _ _ _ Hk) as Ht. destruct (Ht i) as [Hi [bf Hbf]]; [set_solver|].
  pose proof (bcache_mru_length _ _ _ Hk) as Hlen. rewrite length_app in Hlen. cbn [length] in Hlen.
  pose proof (bo_chain _ _ _ Hk) as Hc. apply chain_app in Hc as [_ Hc].
  set (k0 := locked_by LK_bcache k).
  change (k_bufs k) with (k_bufs k0).
  rewrite (bget_recycle_skip 1 b k0 l2 NBUF i HEAD); [|done| |lia|done].
  - destruct (NBUF - length l2)%nat as [|n] eqn:En; [lia|].
    rewrite (bget_recycle_step n 1 b k0 i bf Hi Hbf). unfold pinned in Hp. rewrite Hbf in Hp.
    by destruct (unused bf).
  - intros j Hj. apply Ht. set_solver.
Qed.

Lemma bget_exhausted k mru held b :
  bcache_ok k mru held -> ready k -> (forall i bf, ~ cached k b i bf) ->
  (forall i, (i < NBUF)%nat -> pinned (k_bufs k) i = true) ->
  exists k', bget 1 b k = Panic "bget: no buffers" k'.
Proof.
  intros Hk Hr Hun Hp. rewrite (bget_misses k _ held b Hk Hr Hun).
  set (k0 := locked_by LK_bcache k). change (k_bufs k) with (k_bufs k0).
  rewrite (bget_recycle_skip 1 b k0 mru NBUF HEAD HEAD).
  - rewrite (bcache_mru_length _ _ _ Hk), Nat.sub_diag. cbn [bget_recycle]. rewrite Nat.eqb_refl.
    eexists. reflexivity.
  - apply (bo_chain _ _ _ Hk).
  - apply (bcache_in_table _ _ _ Hk).
  - by rewrite (bcache_mru_length _ _ _ Hk).
  - intros j Hj. apply Hp. rewrite (bo_perm _ _ _ Hk) in Hj. by apply elem_of_upto in Hj.
Qed.

(** ** Changes to one buffer *)

Lemma chain_insert bs i b b' a l z :
  bs !! i = Some b -> b_next b' = b_next b -> b_prev b' = b_prev b ->
  chain bs a l z -> chain (<[i := b']> bs) a l z.
Proof.
  intros Hb Hn Hp. apply links_ext; intros x _; unfold nx, pv;
    (destruct (decide (i = x)) as [<-|Hne];
     [rewrite (insert_lookup_bufs _ _ _ _ Hb), Hb; done|by rewrite list_lookup_insert_ne]).
Qed.

Lemma bcache_replace k mru held i bf k' held' bf' :
  bcache_ok k mru held -> (i < NBUF)%nat -> k_bufs k !! i = Some bf ->
  k_bufs k' = <[i := bf']> (k_bufs k) ->
  b_next bf' = b_next bf -> b_prev bf' = b_prev bf ->
  buf_ok (k_disk k') (bool_decide (i ∈ held')) bf' ->
  (forall j bj, (j < NBUF)%nat -> j <> i -> k_bufs k !! j = Some bj ->
     buf_ok (k_disk k) (bool_decide (j ∈ held)) bj -> buf_ok (k_disk k') (bool_decide (j ∈ held')) bj) ->
  (forall j bj, (j < NBUF)%nat -> j <> i -> k_bufs k !! j = Some bj ->
     b_dev bf' = 1 -> b_dev bj = 1 -> b_blockno bj <> b_blockno bf') ->
  (forall j, (j < NBUF)%nat ->
     sl_locked (get_sleep (SL_buf j) k') = if decide (j ∈ held') then 1 else 0) ->
  (forall j, j ∈ held' -> j = i \/ j ∈ held) ->
  (forall b data, d_blocks (k_disk k') !! b = Some data -> length data = 512%nat) ->
  bcache_ok k' mru held'.
Proof.
  intros Hk Hi Hbf E Hn Hp Hok Hoth Huq Hlk Hh Hd. split.
  - rewrite E, length_insert. apply (bo_len _ _ _ Hk).
  - apply (bo_perm _ _ _ Hk).
  - rewrite E. eapply chain_insert; [done..|]. apply (bo_chain _ _ _ Hk).
  - intros j1 j2 b1 b2 H1 H2. rewrite E.
    destruct (decide (i = j1)) as [<-|N1], (decide (i = j2)) as [<-|N2]; [done| | |].
    + rewrite (insert_lookup_bufs _ _ _ _ Hbf), list_lookup_insert_ne by done.
      intros [= <-] Hb2 D1 D2 En. by destruct (Huq j2 b2).
    + rewrite (insert_lookup_bufs _ _ _ _ Hbf), list_lookup_insert_ne by done.
      intros Hb1 [= <-] D1 D2 En. by destruct (Huq j1 b1).
    + rewrite !list_lookup_insert_ne by done. by apply (bo_uniq _ _ _ Hk).
  - intros j bj Hj. rewrite E. destruct (decide (i = j)) as [<-|Hne].
    + rewrite (insert_lookup_bufs _ _ _ _ Hbf). by intros [= <-].
    + rewrite list_lookup_insert_ne by done. intros Hbj. eapply Hoth; eauto.
      by apply (bo_buf _ _ _ Hk).
  - done.
  - intros j Hj. destruct (Hh j Hj) as [->|Hj']; [done|]. by apply (bo_held _ _ _ Hk).
  - done.
Qed.

(** The contents after such a change. *)
Lemma content_replace k mru held i bf k' held' bf' b :
  bcache_ok k mru held -> bcache_ok k' mru held' ->
  (i < NBUF)%nat -> k_bufs k !! i = Some bf -> k_bufs k' = <[i := bf']> (k_bufs k) ->
  b_dev bf' = 1 ->
  (b <> b_blockno bf' -> disk_block (k_disk k') b = disk_block (k_disk k) b) ->
  (b_dev bf = 1 -> b_blockno bf <> b_blockno bf' ->
     b_data bf = disk_block (k_disk k) (b_blockno bf)) ->
  content k' b = if decide (b = b_blockno bf') then b_data bf' else content k b.
Proof.
  intros Hk Hk' Hi Hbf E Hd' Hdisk Hold. destruct (decide (b = b_blockno bf')) as [->|Hne].
  { eapply content_cached; [exact Hk'|]. split_and!; [exact Hi| |done|done].
    rewrite E. by apply (insert_lookup_bufs _ _ _ _ Hbf). }
  destruct (find_idx (of_block 1 b) (take NBUF (k_bufs k'))) as [j|] eqn:Ej.
  - pose proof Ej as Ej'. apply (find_block_cached k' mru held' b j Hk') in Ej' as (bj & Hc).
    rewrite (content_cached k' mru held' b j bj Hk' Hc).
    destruct Hc as (Hj & Hbj & Dj & Nj). rewrite E in Hbj.
    destruct (decide (i = j)) as [<-|Hij].
    + rewrite (insert_lookup_bufs _ _ _ _ Hbf) in Hbj. injection Hbj as <-. congruence.
    + rewrite list_lookup_insert_ne in Hbj by done. symmetry. by eapply content_cached.
  - pose proof (proj1 (find_block_uncached k' mru held' b Hk') Ej) as Hun.
    rewrite (content_uncached k' mru held' b Hk' Hun), Hdisk by done.
    destruct (decide (b_dev bf = 1 /\ b_blockno bf = b)) as [[D <-]|Hnb].
    + rewrite (content_cached k mru held (b_blockno bf) i bf Hk) by done. symmetry. by apply Hold.
    + symmetry. eapply content_uncached; [exact Hk|]. intros j bj (Hj & Hbj & Dj & Nj).
      destruct (decide (i = j)) as [<-|Hij]; [apply Hnb; by simplify_eq|].
      apply (Hun j bj). split_and!; [done| |done|done]. rewrite E. by rewrite list_lookup_insert_ne.
Qed.

(** ** bread *)

Lemma set_bufs_twice bs bs' k : set_bufs bs (set_bufs bs' k) = set_bufs bs k.
Proof. done. Qed.

(** The dirty blocks: logged, and not yet written home. *)
Definition dirty (k : kernel) (b : Z) : Prop :=
  exists i bf, cached k b i bf /\ b_flags bf = VALID_DIRTY.

Lemma set_bufs_ready k bs : ready k -> ready (set_bufs bs k).
Proof. intros Hr. apply (ready_env k); [done|]. split_and!; done. Qed.

Lemma release_bcache k bs :
  ready k -> release LK_bcache (set_bufs bs (locked_by LK_bcache k)) = Ok tt (set_bufs bs k).
Proof.
  intros Hr. rewrite (calm_release k); [done|apply Hr|apply Hr; constructor|done|done].
Qed.

Lemma bget_hit_run k i bf :
  ready k -> (i < NBUF)%nat -> k_bufs k !! i = Some bf -> b_refcnt bf = 0 ->
  sl_locked (get_sleep (SL_buf i) k) = 0 ->
  bget_hit i (locked_by LK_bcache k)
  = Ok (Some i) (sl_taken (SL_buf i) (cur_pid k) (set_bufs (<[i := with_refcnt 1 bf]> (k_bufs k)) k)).
Proof.
  intros Hr Hi Hbf Href Hlk. unfold bget_hit.
  krun (upd_buf_ok (locked_by LK_bcache k) i (fun bf => with_refcnt (u32 (b_refcnt bf + 1)) bf) bf Hbf).
  rewrite Href. krun (release_bcache k (<[i := with_refcnt 1 bf]> (k_bufs k)) Hr).
  rewrite (obind_ok _ _ _ _ _ (acquiresleep_free _ (SL_buf i) (set_bufs_ready _ _ Hr) (st_buf i Hi) Hlk)).
  done.
Qed.

Lemma bget_reuse_run k b i bf :
  ready k -> (i < NBUF)%nat -> k_bufs k !! i = Some bf ->
  sl_locked (get_sleep (SL_buf i) k) = 0 ->
  bget_reuse 1 b i (locked_by LK_bcache k)
  = Ok (Some i) (sl_taken (SL_buf i) (cur_pid k)
      (set_bufs (<[i := with_refcnt 1 (with_flags 0 (with_block 1 b bf))]> (k_bufs k)) k)).
Proof.
  intros Hr Hi Hbf Hlk. unfold bget_reuse.
  krun (upd_buf_ok (locked_by LK_bcache k) i (with_block 1 b) bf Hbf).
  erewrite obind_ok by (apply upd_buf_ok; exact (insert_lookup_bufs _ _ _ _ Hbf)).
  erewrite obind_ok by (apply upd_buf_ok; cbn [k_bufs set_bufs]; rewrite list_insert_insert_eq;
    exact (insert_lookup_bufs _ _ _ _ Hbf)).
  rewrite !set_bufs_twice. cbn [k_bufs set_bufs]. rewrite !list_insert_insert_eq.
  rewrite (obind_ok _ _ _ _ _ (release_bcache k _ Hr)).
  rewrite (obind_ok _ _ _ _ _ (acquiresleep_free _ (SL_buf i) (set_bufs_ready _ _ Hr) (st_buf i Hi) Hlk)).
  done.
Qed.

(** After bread: buffer [i] is locked and holds block [b]. *)
Record bread_post (k : kernel) (mru : list nat) (held : gset nat) (b : Z) (i : nat) (k' : kernel) : Prop :=
  BreadPost {
  br_frame : bio_frame k k';
  br_ok : bcache_ok k' mru ({[i]} ∪ held);
  br_fresh : i ∉ held;
  br_buf : exists bf, cached k' b i bf /\ b_data bf = content k b;
  br_content : forall b', content k' b' = content k b';
  br_disk : k_disk k' = k_disk k;
  br_dirty : forall b', dirty k' b' <-> dirty k b';
  br_others : forall j, j <> i -> k_bufs k' !! j = k_bufs k !! j
}.

Lemma taken_lock k i j pid :
  sl_locked (get_sleep (SL_buf j) (sl_taken (SL_buf i) pid k))
  = if decide (j = i) then 1 else sl_locked (get_sleep (SL_buf j) k).
Proof.
  unfold get_sleep, sl_taken, put_sleep. cbn [k_sleeps set_sleeps].
  destruct (decide (j = i)) as [->|Hne]; [by rewrite lookup_insert_eq|].
  rewrite lookup_insert_ne; [done|]. congruence.
Qed.

Lemma bread_post_intro k mru held b i bf bf' pid :
  bcache_ok k mru held -> (i < NBUF)%nat -> i ∉ held ->
  k_bufs k !! i = Some bf ->
  bf' = with_data (content k b) (with_refcnt 1 (with_flags (b_flags bf') (with_block 1 b bf))) ->
  0 <= b < disksize (k_disk k) ->
  (cached k b i bf /\ b_flags bf' = b_flags bf \/
   (forall j bj, ~ cached k b j bj) /\ b_flags bf' = B_VALID /\ b_flags bf <> VALID_DIRTY) ->
  bread_post k mru held b i (sl_taken (SL_buf i) pid (set_bufs (<[i := bf']> (k_bufs k)) k)).
Proof.
  intros Hk Hi Hh Hbf Ebf Hb Hor. pose proof (bo_buf _ _ _ Hk i bf Hi Hbf) as Hbo.
  rewrite bool_decide_false in Hbo by done.
  set (k' := sl_taken _ _ _).
  assert (forall j bj, (j < NBUF)%nat -> j <> i -> k_bufs k !! j = Some bj -> b_dev bj = 1 ->
    b_blockno bj <> b) as Huq.
  { intros j bj Hj Hne Hbj Dj En. destruct Hor as [[(_ & _ & D & N) _]|[Hun _]].
    - apply Hne. eapply (bo_uniq _ _ _ Hk); eauto. congruence.
    - by apply (Hun j bj). }
  assert (b_flags bf' = B_VALID \/ b_flags bf' = VALID_DIRTY) as Hfl.
  { destruct Hor as [[(_ & _ & D & _) ->]|(_ & -> & _)]; [|by left].
    destruct (bu_flags _ _ _ Hbo) as [F|F]; [|done]. destruct (bu_dev _ _ _ Hbo) as [[D0 _]|(_ & F0 & _)]; congruence. }
  assert (bcache_ok k' mru ({[i]} ∪ held)) as Hk'.
  { apply (bcache_replace k mru held i bf _ _ bf'); try done; try by rewrite Ebf.
    - rewrite bool_decide_true by set_solver. split; try by rewrite Ebf.
      + rewrite Ebf. simpl. by eapply length_content.
      + tauto.
      + right. rewrite Ebf at 1 3 4. simpl. split_and!; [done| |lia|lia]. by destruct Hfl as [->| ->].
    - intros j bj Hj Hne Hbj Hok. by rewrite (bool_decide_ext _ (j ∈ held)) by set_solver.
    - intros j bj Hj Hne Hbj D' Dj. rewrite Ebf. by eapply (Huq j).
    - intros j Hj. unfold k'. rewrite taken_lock. destruct (decide (j = i)) as [->|Hne].
      + by rewrite decide_True by set_solver.
      + change (get_sleep (SL_buf j) (set_bufs _ k)) with (get_sleep (SL_buf j) k).
        rewrite (bo_lock _ _ _ Hk j Hj). by rewrite (decide_ext (j ∈ held) (j ∈ {[i]} ∪ held)) by set_solver.
    - set_solver.
    - apply (bo_disk _ _ _ Hk). }
  assert (cached k' b i bf') as Hc'.
  { split_and!; [done| |by rewrite Ebf|by rewrite Ebf]. by apply (insert_lookup_bufs _ _ _ _ Hbf). }
  assert (forall j bj b', j <> i -> cached k' b' j bj <-> cached k b' j bj) as Hcj.
  { intros j bj b' Hne. unfold cached. cbn [k_bufs k' sl_taken put_sleep set_sleeps set_bufs].
    by rewrite list_lookup_insert_ne. }
  split; try done.
  - split; [done|]. split; [done|]. intros n. by apply lookup_insert_ne.
  - exists bf'. split; [done|]. by rewrite Ebf.
  - intros b'. rewrite (content_replace k mru held i bf k' _ bf' b' Hk Hk' Hi Hbf); try done; try by rewrite Ebf.
    + case_decide as E; [|done]. rewrite Ebf in *. simpl in *. by subst.
    + intros D Hne. destruct Hor as [[(_ & _ & _ & N) _]|(_ & _ & F)].
      * exfalso. apply Hne. by rewrite Ebf.
      * apply (bu_clean _ _ _ Hbo); [done|]. destruct (bu_flags _ _ _ Hbo) as [F0|[F0|F0]]; [|done|done].
        destruct (bu_dev _ _ _ Hbo) as [[D0 _]|(_ & F1 & _)]; congruence.
  - intros b'. unfold dirty. split; intros (j & bj & Hc & F); destruct (decide (j = i)) as [->|Hne].
    + assert (bj = bf') as -> by (destruct Hc as (_ & E & _), Hc' as (_ & E' & _); congruence).
      destruct Hor as [[(Hc0 & Hc1 & Hc2 & Hc3) Ef]|(_ & F' & _)]; [|by rewrite F in F'].
      exists i, bf. split; [|congruence]. split_and!; [done..|].
      destruct Hc as (_ & _ & _ & N), Hc' as (_ & _ & _ & N'). congruence.
    + exists j, bj. by rewrite <-Hcj.
    + assert (bj = bf) as -> by (destruct Hc as (_ & E & _); congruence).
      destruct Hor as [[Hc0 Ef]|(_ & _ & F')]; [|done].
      exists i, bf'. split; [|congruence]. destruct Hc as (_ & _ & _ & N), Hc0 as (_ & _ & _ & N0). by rewrite <-N, N0.
    + exists j, bj. by rewrite Hcj.
  - intros j Hne. cbn [k_bufs k' sl_taken put_sleep set_sleeps set_bufs]. by rewrite list_lookup_insert_ne.
Qed.

Lemma held_pinned k mru held i :
  bcache_ok k mru held -> i ∈ held -> pinned (k_bufs k) i = true.
Proof.
  intros Hk Hi. pose proof (bo_held _ _ _ Hk i Hi) as Hn.
  destruct (lookup_lt_is_Some_2 (k_bufs k) i) as [bf Hbf]; [rewrite (bo_len _ _ _ Hk); lia|].
  unfold pinned, unused. rewrite Hbf. pose proof (bo_buf _ _ _ Hk i bf Hn Hbf) as Hb.
  rewrite (bu_ref _ _ _ Hb), bool_decide_true by done. done.
Qed.

Lemma bread_run k mru held b :
  bcache_ok k mru held -> ready k -> 0 <= b < disksize (k_disk k) ->
  (forall i bf, cached k b i bf -> i ∉ held) ->
  (exists i bf, cached k b i bf) \/ (exists i, (i < NBUF)%nat /\ pinned (k_bufs k) i = false) ->
  exists i k', bread 1 b k = Ok i k' /\ bread_post k mru held b i k'.
Proof.
  intros Hk Hr Hb Hnh Hor. unfold bread.
  destruct (find_idx (of_block 1 b) (take NBUF (k_bufs k))) as [i|] eqn:Ef.
  - apply (find_block_cached k mru held b i Hk) in Ef as [bf Hc]. pose proof (Hnh i bf Hc) as Hh.
    pose proof Hc as (Hi & Hbf & D & N). pose proof (bo_buf _ _ _ Hk i bf Hi Hbf) as Hbo.
    rewrite bool_decide_false in Hbo by done.
    pose proof (bo_lock _ _ _ Hk i Hi) as Hlk. rewrite decide_False in Hlk by done.
    set (bf' := with_refcnt 1 bf).
    exists i, (sl_taken (SL_buf i) (cur_pid k) (set_bufs (<[i := bf']> (k_bufs k)) k)). split.
    + rewrite (obind_ok (bget 1 b) _ k i
        (sl_taken (SL_buf i) (cur_pid k) (set_bufs (<[i := bf']> (k_bufs k)) k))).
      2: { rewrite (bget_finds k mru held b i bf Hk Hr Hc).
           rewrite (bget_hit_run k i bf Hr Hi Hbf); [done| |done]. apply (bu_ref _ _ _ Hbo). }
      krun (get_buf_ok (sl_taken (SL_buf i) (cur_pid k) (set_bufs (<[i := bf']> (k_bufs k)) k)) i bf'
        (insert_lookup_bufs _ _ _ _ Hbf)).
      destruct (bu_flags _ _ _ Hbo) as [F|F].
      { destruct (bu_dev _ _ _ Hbo) as [[D0 _]|(_ & F0 & _)]; congruence. }
      simpl. by destruct F as [-> | ->].
    + apply (bread_post_intro k mru held b i bf); try done.
      * rewrite (content_cached k mru held b i bf Hk Hc). subst bf'. destruct bf; simpl in *. by subst.
      * left. done.
  - pose proof (proj1 (find_block_uncached k mru held b Hk) Ef) as Hun.
    destruct Hor as [(i & bf & Hc)|(i0 & Hi0 & Hp0)]; [by destruct (Hun i bf)|].
    destruct (last_unpinned (pinned (k_bufs k)) mru) as [Hall|(l1 & i & l2 & Em & Hp & Hl2)].
    { rewrite (Hall i0) in Hp0; [done|]. rewrite (bo_perm _ _ _ Hk). by apply elem_of_upto. }
    destruct (bcache_in_table _ _ _ Hk i) as [Hi [bf Hbf]]; [rewrite Em; set_solver|].
    assert (i ∉ held) as Hh by (intros H; rewrite (held_pinned k mru held i Hk H) in Hp; done).
    pose proof (bo_buf _ _ _ Hk i bf Hi Hbf) as Hbo.
    pose proof (bo_lock _ _ _ Hk i Hi) as Hlk. rewrite decide_False in Hlk by done.
    set (bf1 := with_refcnt 1 (with_flags 0 (with_block 1 b bf))).
    set (k1 := sl_taken (SL_buf i) (cur_pid k) (set_bufs (<[i := bf1]> (k_bufs k)) k)).
    set (bf' := with_data (disk_block (k_disk k) b) (with_flags B_VALID bf1)).
    exists i, (sl_taken (SL_buf i) (cur_pid k) (set_bufs (<[i := bf']> (k_bufs k)) k)). split.
    + rewrite (obind_ok (bget 1 b) _ k i k1).
      2: { rewrite (bget_recycles k mru held b l1 i l2 Hk Hr Hun Em Hp Hl2).
           rewrite (bget_reuse_run k b i bf Hr Hi Hbf Hlk). done. }
      krun (get_buf_ok k1 i bf1 (insert_lookup_bufs _ _ _ _ Hbf)).
      cbn [b_flags bf1 with_refcnt with_flags]. cbn [Z.land truth negb Z.eqb when].
      rewrite (obind_ok _ _ _ tt (set_bufs (<[i := bf']> (k_bufs k1)) k1)).
      * cbn [ret k_bufs k1 sl_taken put_sleep set_sleeps set_bufs].
        unfold k1, sl_taken, put_sleep. cbn [k_bufs set_sleeps set_bufs]. rewrite list_insert_insert_eq. done.
      * apply (iderw_read k1 i bf1); try done.
        -- apply (ready_env k); [done|]. split_and!; done.
        -- unfold k1. rewrite taken_lock, decide_True by done. done.
        -- by apply (insert_lookup_bufs _ _ _ _ Hbf).
    + apply (bread_post_intro k mru held b i bf); try done.
      * by rewrite (content_uncached k mru held b Hk Hun).
      * right. split_and!; [done..|]. unfold pinned, unused in Hp. rewrite Hbf in Hp. intros F. rewrite F in Hp.
        rewrite andb_false_r in Hp. done.
Qed.

(** ** brelse *)

(** A buffer without its links. *)
Definition core (b : buf) : Z * Z * Z * Z * list Z :=
  (b_flags b, b_dev b, b_blockno b, b_refcnt b, b_data b).

Lemma core_alter f (i : nat) (bs : list buf) : (forall b, core (f b) = core b) -> core <$> alter f i bs = core <$> bs.
Proof.
  intros Hf. revert i. induction bs as [|b bs IH]; intros [|i]; try done; cbn.
  - by rewrite Hf.
  - f_equal. apply IH.
Qed.

Lemma core_lookup (bs bs' : list buf) i b' :
  core <$> bs' = core <$> bs -> bs' !! i = Some b' -> exists b, bs !! i = Some b /\ core b' = core b.
Proof.
  intros E Hb. assert ((core <$> bs') !! i = Some (core b')) as H.
  { by rewrite list_lookup_fmap, Hb. }
  rewrite E, list_lookup_fmap in H. apply fmap_Some in H as (b & ? & ?). eauto.
Qed.

(** Only the links, and the order, changed. *)
Lemma bcache_relink k mru held k' mru' :
  bcache_ok k mru held -> core <$> k_bufs k' = core <$> k_bufs k ->
  k_disk k' = k_disk k -> (forall i, get_sleep (SL_buf i) k' = get_sleep (SL_buf i) k) ->
  mru' ≡ₚ mru -> chain (k_bufs k') HEAD mru' HEAD ->
  bcache_ok k' mru' held.
Proof.
  intros Hk E Ed Es Hm Hc. split.
  - rewrite <-(bo_len _ _ _ Hk). apply (f_equal length) in E. by rewrite !length_fmap in E.
  - rewrite Hm. apply (bo_perm _ _ _ Hk).
  - done.
  - intros i j bi' bj' Hi Hj Hbi Hbj. destruct (core_lookup _ _ _ _ E Hbi) as (bi & Hbi' & Ci).
    destruct (core_lookup _ _ _ _ E Hbj) as (bj & Hbj' & Cj). unfold core in Ci, Cj.
    injection Ci as _ -> -> _ _. injection Cj as _ -> -> _ _. by apply (bo_uniq _ _ _ Hk).
  - intros i bi' Hi Hbi. destruct (core_lookup _ _ _ _ E Hbi) as (bi & Hbi' & Ci). unfold core in Ci.
    rewrite Ed. destruct (bo_buf _ _ _ Hk i bi Hi Hbi') as [? ? ? ? ? ?].
    injection Ci as Ef Edev Eb Er Edt. split; rewrite ?Ef, ?Edev, ?Eb, ?Er, ?Edt; done.
  - intros i Hi. rewrite Es. by apply (bo_lock _ _ _ Hk).
  - apply (bo_held _ _ _ Hk).
  - rewrite Ed. apply (bo_disk _ _ _ Hk).
Qed.

Lemma find_idx_ext {A B} (f : A -> B) (P : A -> bool) (l l' : list A) :
  (forall x y, f x = f y -> P x = P y) -> f <$> l' = f <$> l -> find_idx P l' = find_idx P l.
Proof.
  intros HP. revert l'. induction l as [|x l IH]; intros [|y l'] E; try done.
  injection E as E1 E2. cbn. rewrite (HP y x E1), (IH l' E2). done.
Qed.

Lemma content_core k k' b :
  core <$> k_bufs k' = core <$> k_bufs k -> k_disk k' = k_disk k -> content k' b = content k b.
Proof.
  intros E Ed. unfold content. rewrite Ed.
  rewrite (find_idx_ext core _ (take NBUF (k_bufs k)) (take NBUF (k_bufs k'))).
  - destruct (find_idx _ _) as [i|]; [|done].
    destruct (k_bufs k' !! i) as [b'|] eqn:Eb.
    + destruct (core_lookup _ _ _ _ E Eb) as (b0 & -> & C). unfold core in C. cbn. congruence.
    + destruct (k_bufs k !! i) as [b0|] eqn:Eb0; [|done].
      destruct (core_lookup _ _ _ _ (eq_sym E) Eb0) as (b1 & Eb1 & _). congruence.
  - intros x y C. unfold core in C. unfold of_block. by injection C as _ -> -> _ _.
  - by rewrite !fmap_take, E.
Qed.

Lemma cached_core k k' b i bf' :
  core <$> k_bufs k' = core <$> k_bufs k -> cached k' b i bf' ->
  exists bf, cached k b i bf /\ core bf' = core bf.
Proof.
  intros E (Hi & Hb & D & N). destruct (core_lookup _ _ _ _ E Hb) as (bf & Hbf & C).
  exists bf. split; [|done]. unfold core in C. injection C as _ D' N' _ _.
  split_and!; [done..|congruence|congruence].
Qed.

Lemma dirty_core k k' b :
  core <$> k_bufs k' = core <$> k_bufs k -> dirty k' b <-> dirty k b.
Proof.
  intros E. split; intros (i & bf & Hc & F).
  - destruct (cached_core _ _ _ _ _ E Hc) as (bf0 & Hc0 & C). exists i, bf0. split; [done|].
    unfold core in C. congruence.
  - destruct (cached_core _ _ _ _ _ (eq_sym E) Hc) as (bf0 & Hc0 & C). exists i, bf0. split; [done|].
    unfold core in C. congruence.
Qed.

(** Links after an assignment through [upd_buf]. *)
Lemma nx_with_next bs i v x : (i < length bs)%nat ->
  nx (alter (with_next v) i bs) x = if decide (x = i) then v else nx bs x.
Proof.
  intros Hi. unfold nx. rewrite list_lookup_alter. destruct (decide (x = i)) as [->|Hne].
  - rewrite decide_True by done. by destruct (lookup_lt_is_Some_2 _ _ Hi) as [b ->].
  - by rewrite decide_False by congruence.
Qed.
Lemma pv_with_prev bs i v x : (i < length bs)%nat ->
  pv (alter (with_prev v) i bs) x = if decide (x = i) then v else pv bs x.
Proof.
  intros Hi. unfold pv. rewrite list_lookup_alter. destruct (decide (x = i)) as [->|Hne].
  - rewrite decide_True by done. by destruct (lookup_lt_is_Some_2 _ _ Hi) as [b ->].
  - by rewrite decide_False by congruence.
Qed.
Lemma nx_with_prev bs i v x : nx (alter (with_prev v) i bs) x = nx bs x.
Proof. unfold nx. rewrite list_lookup_alter. case_decide; [subst|done]. by destruct (bs !! x). Qed.
Lemma pv_with_next bs i v x : pv (alter (with_next v) i bs) x = pv bs x.
Proof. unfold pv. rewrite list_lookup_alter. case_decide; [subst|done]. by destruct (bs !! x). Qed.

Lemma upd_buf_alter k i f :
  (i < length (k_bufs k))%nat -> upd_buf i f k = Ok tt (set_bufs (alter f i (k_bufs k)) k).
Proof.
  intros Hi. destruct (lookup_lt_is_Some_2 _ _ Hi) as [b Hb]. rewrite (upd_buf_ok k i f b Hb).
  do 2 f_equal. apply list_eq. intros j. rewrite list_lookup_alter.
  destruct (decide (i = j)) as [<-|Hne].
  - rewrite (insert_lookup_bufs _ _ _ _ Hb), Hb. done.
  - by rewrite list_lookup_insert_ne.
Qed.

(** Reading a buffer to follow its links. *)
Lemma get_buf_links k i :
  (i < length (k_bufs k))%nat ->
  exists b, get_buf i k = Ok b k /\ b_next b = nx (k_bufs k) i /\ b_prev b = pv (k_bufs k) i.
Proof.
  intros Hi. destruct (lookup_lt_is_Some_2 _ _ Hi) as [b Hb]. exists b.
  rewrite (nx_lookup _ _ _ Hb), (pv_lookup _ _ _ Hb). split; [by apply get_buf_ok|done].
Qed.

(** The part of brelse that moves [b] to the front. *)
Definition move_to_front (b : nat) : K unit :=
  bf <- get_buf b ;;
  upd_buf (b_next bf) (with_prev (b_prev bf)) ;;;
  bf <- get_buf b ;;
  upd_buf (b_prev bf) (with_next (b_next bf)) ;;;
  head <- get_buf HEAD ;;
  upd_buf b (with_next (b_next head)) ;;;
  upd_buf b (with_prev HEAD) ;;;
  head <- get_buf HEAD ;;
  upd_buf (b_next head) (with_prev b) ;;;
  upd_buf HEAD (with_next b).

Lemma chain_in_range bs l x :
  chain bs HEAD l HEAD -> (forall i, i ∈ HEAD :: l -> (i < length bs)%nat) -> x ∈ HEAD :: l ->
  (nx bs x < length bs)%nat /\ (pv bs x < length bs)%nat.
Proof.
  intros Hc Hr Hx. split.
  - apply Hr. apply elem_of_cons in Hx as [->|Hx].
    + apply chain_first in Hc. set_solver.
    + apply list_elem_of_split in Hx as (l1 & l2 & ->). apply chain_app in Hc as [_ Hc].
      apply chain_first in Hc. set_solver.
  - apply Hr. apply elem_of_cons in Hx as [->|Hx].
    + apply chain_last in Hc. set_solver.
    + apply list_elem_of_split in Hx as (l1 & l2 & ->). apply chain_app in Hc as [Hc _].
      apply chain_last in Hc. set_solver.
Qed.

Lemma move_to_front_run k l1 i l2 :
  chain (k_bufs k) HEAD (l1 ++ i :: l2) HEAD -> NoDup (HEAD :: l1 ++ i :: l2) ->
  (forall j, j ∈ HEAD :: l1 ++ i :: l2 -> (j < length (k_bufs k))%nat) ->
  exists bs', move_to_front i k = Ok tt (set_bufs bs' k) /\
    core <$> bs' = core <$> k_bufs k /\ chain bs' HEAD (i :: l1 ++ l2) HEAD.
Proof.
  intros Hc Hnd Hr. set (bs := k_bufs k) in *.
  assert (i ∈ HEAD :: l1 ++ i :: l2) as Hin by set_solver.
  assert (i < length bs)%nat as Hi by (by apply Hr).
  assert (HEAD < length bs)%nat as HH by (apply Hr; set_solver).
  assert (i <> HEAD) as HiH.
  { intros ->. apply NoDup_cons in Hnd as [H _]. apply H. set_solver. }
  destruct (chain_in_range bs _ i Hc Hr Hin) as [Hn Hp].
  set (n := nx bs i) in *. set (p := pv bs i) in *.
  set (bs1 := alter (with_prev p) n bs).
  set (bs2 := alter (with_next n) p bs1).
  assert (length bs1 = length bs) as L1 by apply length_alter.
  assert (length bs2 = length bs) as L2 by (unfold bs2; by rewrite length_alter).
  assert (chain bs2 HEAD (l1 ++ l2) HEAD) as Hc2.
  { apply (chain_unlink bs bs2 HEAD l1 i l2 Hc Hnd); intros x.
    - unfold bs2. rewrite nx_with_next by lia. unfold bs1. by rewrite nx_with_prev.
    - unfold bs2. rewrite pv_with_next. unfold bs1. by rewrite pv_with_prev by lia. }
  assert (NoDup (HEAD :: l1 ++ l2)) as Hnd2.
  { apply NoDup_cons in Hnd as [Ha Hb]. apply NoDup_app in Hb as (? & Hd & Hb).
    apply NoDup_cons in Hb as [? ?]. constructor; [set_solver|]. apply NoDup_app. set_solver. }
  assert (nx bs2 HEAD < length bs2)%nat as Hf.
  { rewrite L2. apply Hr. apply chain_first in Hc2. set_solver. }
  set (f := nx bs2 HEAD) in *.
  set (bs4 := alter (with_prev HEAD) i (alter (with_next f) i bs2)).
  assert (length bs4 = length bs) as L4 by (unfold bs4; by rewrite !length_alter).
  exists (alter (with_next i) HEAD (alter (with_prev i) f bs4)). split_and!.
  - unfold move_to_front.
    destruct (get_buf_links k i Hi) as (b1 & G1 & E1 & E1').
    krun G1. rewrite E1, E1'. fold bs n p.
    krun (upd_buf_alter k n (with_prev p) Hn). fold bs bs1.
    destruct (get_buf_links (set_bufs bs1 k) i ltac:(cbn; lia)) as (bbs1 & Gbs1 & Ebs1 & Ebs1').
    krun Gbs1. rewrite ?Ebs1, ?Ebs1'. cbn [k_bufs set_bufs].
    replace (nx bs1 i) with n by (unfold bs1; by rewrite nx_with_prev).
    replace (pv bs1 i) with p by (unfold bs1; rewrite pv_with_prev by lia; by case_decide).
    rewrite (obind_ok _ _ _ _ _ (upd_buf_alter (set_bufs bs1 k) p (with_next n) ltac:(cbn; lia))).
    rewrite set_bufs_twice. cbn [k_bufs set_bufs]. fold bs2.
    destruct (get_buf_links (set_bufs bs2 k) HEAD ltac:(cbn; lia)) as (bbs2 & Gbs2 & Ebs2 & Ebs2').
    krun Gbs2. rewrite ?Ebs2, ?Ebs2'. cbn [k_bufs set_bufs]. fold f.
    rewrite (obind_ok _ _ _ _ _ (upd_buf_alter (set_bufs bs2 k) i (with_next f) ltac:(cbn; lia))).
    rewrite set_bufs_twice. cbn [k_bufs set_bufs].
    rewrite (obind_ok _ _ _ _ _ (upd_buf_alter (set_bufs (alter (with_next f) i bs2) k) i (with_prev HEAD)
      ltac:(cbn; rewrite length_alter; lia))).
    rewrite set_bufs_twice. cbn [k_bufs set_bufs]. fold bs4.
    destruct (get_buf_links (set_bufs bs4 k) HEAD ltac:(cbn; lia)) as (bbs4 & Gbs4 & Ebs4 & Ebs4').
    krun Gbs4. rewrite ?Ebs4, ?Ebs4'. cbn [k_bufs set_bufs].
    replace (nx bs4 HEAD) with f by (unfold bs4; rewrite nx_with_prev, nx_with_next by lia;
      by rewrite decide_False).
    rewrite (obind_ok _ _ _ _ _ (upd_buf_alter (set_bufs bs4 k) f (with_prev i) ltac:(cbn; lia))).
    rewrite set_bufs_twice. cbn [k_bufs set_bufs].
    rewrite upd_buf_alter by (cbn; rewrite length_alter; lia). done.
  - unfold bs4, bs2, bs1. by rewrite !core_alter by done.
  - apply (chain_push bs2); try done.
    + intros Hx. apply NoDup_cons in Hnd as [_ Hnd]. apply NoDup_app in Hnd as (_ & Hd & Hb).
      apply NoDup_cons in Hb as [Hb _]. set_solver.
    + intros x. rewrite nx_with_next by (rewrite length_alter; lia).
      rewrite nx_with_prev. unfold bs4. rewrite nx_with_prev, nx_with_next by lia. done.
    + intros x. rewrite pv_with_next, pv_with_prev by lia. unfold bs4.
      rewrite pv_with_prev by (rewrite length_alter; lia). by rewrite pv_with_next.
Qed.

(** After brelse: the buffer is unlocked and the most recently used one. *)
Record brelse_post (k : kernel) (mru : list nat) (held : gset nat) (i : nat) (k' : kernel) : Prop :=
  BrelsePost {
  bl_frame : bio_frame k k';
  bl_ok : exists l1 l2, mru = l1 ++ i :: l2 /\ bcache_ok k' (i :: l1 ++ l2) (held ∖ {[i]});
  bl_content : forall b, content k' b = content k b;
  bl_disk : k_disk k' = k_disk k;
  bl_dirty : forall b, dirty k' b <-> dirty k b;
  bl_others : forall j b, j <> i -> k_bufs k !! j = Some b ->
    exists b', k_bufs k' !! j = Some b' /\ core b' = core b
}.

Lemma given_lock k i j :
  sl_locked (get_sleep (SL_buf j) (sl_given (SL_buf i) k))
  = if decide (j = i) then 0 else sl_locked (get_sleep (SL_buf j) k).
Proof.
  unfold get_sleep, sl_given, put_sleep. cbn [k_sleeps set_sleeps set_procs].
  destruct (decide (j = i)) as [->|Hne]; [by rewrite lookup_insert_eq|].
  rewrite lookup_insert_ne; [done|]. congruence.
Qed.

Lemma brelse_unfold k i bf :
  ready k -> (i < NBUF)%nat -> sl_locked (get_sleep (SL_buf i) k) <> 0 ->
  k_bufs k !! i = Some bf -> b_refcnt bf = 1 ->
  let k1 := locked_by LK_bcache (sl_given (SL_buf i) k) in
  brelse i k = (move_to_front i ;;; release LK_bcache)
    (set_bufs (<[i := with_refcnt 0 bf]> (k_bufs k)) k1).
Proof.
  intros Hr Hi Hlk Hbf Href k1. unfold brelse.
  krun (holdingsleep_run k (SL_buf i) Hr (st_buf i Hi)). unfold truth.
  rewrite (proj2 (Z.eqb_neq _ 0)) by done. cbn [negb].
  krun (releasesleep_run k (SL_buf i) Hr (st_buf i Hi)).
  assert (ready (sl_given (SL_buf i) k)) as Hr1.
  { apply (ready_env k); [done|]. split_and!; [done..|]. apply woken_awakened. }
  krun (acquire_free _ LK_bcache (rd_free _ Hr1 _ st_bcache)). fold k1.
  krun (upd_buf_ok k1 i (fun bf => with_refcnt (u32 (b_refcnt bf - 1)) bf) bf Hbf). rewrite Href.
  change (u32 (1 - 1)) with 0.
  krun (get_buf_ok (set_bufs (<[i := with_refcnt 0 bf]> (k_bufs k1)) k1) i _ (insert_lookup_bufs _ _ _ _ Hbf)).
  done.
Qed.

Lemma brelse_run k mru held i bf :
  bcache_ok k mru held -> ready k -> i ∈ held -> k_bufs k !! i = Some bf ->
  (b_flags bf = VALID_DIRTY \/ b_data bf = disk_block (k_disk k) (b_blockno bf)) ->
  exists k', brelse i k = Ok tt k' /\ brelse_post k mru held i k'.
Proof.
  intros Hk Hr Hh Hbf Hclean. pose proof (bo_held _ _ _ Hk i Hh) as Hi.
  pose proof (bo_buf _ _ _ Hk i bf Hi Hbf) as Hbo. rewrite bool_decide_true in Hbo by done.
  pose proof (bo_lock _ _ _ Hk i Hi) as Hlk. rewrite decide_True in Hlk by done.
  set (kg := sl_given (SL_buf i) k).
  set (k2 := set_bufs (<[i := with_refcnt 0 bf]> (k_bufs k)) kg).
  assert (bcache_ok k2 mru (held ∖ {[i]})) as Hk2.
  { apply (bcache_replace k mru held i bf _ _ (with_refcnt 0 bf)); try done.
    - rewrite bool_decide_false by set_solver. destruct Hbo as [? ? ? ? ? ?]. split; try done.
      cbn. intros _ F. destruct Hclean as [F'|E]; [by rewrite F in F'|done].
    - intros j bj Hj Hne Hbj. by rewrite (bool_decide_ext (j ∈ held ∖ {[i]}) (j ∈ held)) by set_solver.
    - intros j bj Hj Hne Hbj D' Dj En. apply Hne. by eapply (bo_uniq _ _ _ Hk).
    - intros j Hj. change (get_sleep (SL_buf j) k2) with (get_sleep (SL_buf j) kg). unfold kg.
      rewrite given_lock. destruct (decide (j = i)) as [->|Hne].
      + by rewrite decide_False by set_solver.
      + rewrite (bo_lock _ _ _ Hk j Hj). by rewrite (decide_ext (j ∈ held) (j ∈ held ∖ {[i]})) by set_solver.
    - set_solver.
    - apply (bo_disk _ _ _ Hk). }
  assert (i ∈ mru) as Hin by (rewrite (bo_perm _ _ _ Hk); by apply elem_of_upto).
  apply list_elem_of_split in Hin as (l1 & l2 & ->).
  assert (ready kg) as Hrg.
  { apply (ready_env k); [done|]. split_and!; [done..|]. apply woken_awakened. }
  destruct (move_to_front_run (set_bufs (k_bufs k2) (locked_by LK_bcache kg)) l1 i l2)
    as (bs' & Em & Ecore & Ech).
  { apply (bo_chain _ _ _ Hk2). }
  { apply (bcache_mru_nodup _ _ _ Hk2). }
  { intros j Hj. cbn [k_bufs set_bufs]. rewrite (bo_len _ _ _ Hk2).
    apply elem_of_cons in Hj as [->|Hj]; [unfold HEAD; lia|].
    rewrite (bo_perm _ _ _ Hk2) in Hj. apply elem_of_upto in Hj. lia. }
  exists (set_bufs bs' kg). split.
  { rewrite (brelse_unfold k i bf Hr Hi) by (rewrite ?Hlk; done || apply Hbo). fold kg.
    change (<[i:=with_refcnt 0 bf]> (k_bufs k)) with (k_bufs k2).
    krun Em. rewrite set_bufs_twice. by apply release_bcache. }
  assert (core <$> k_bufs (set_bufs bs' kg) = core <$> k_bufs k2) as Ec by exact Ecore.
  assert (forall b, dirty k2 b <-> dirty k b) as Hd2.
  { intros b. unfold dirty, cached. cbn [k_bufs k2 set_bufs].
    split; intros (j & bj & (Hj & Hbj & D & N) & F); destruct (decide (i = j)) as [<-|Hne].
    - rewrite (insert_lookup_bufs _ _ _ _ Hbf) in Hbj. injection Hbj as <-. exists i, bf. done.
    - rewrite list_lookup_insert_ne in Hbj by done. exists j, bj. done.
    - assert (bj = bf) as -> by congruence. exists i, (with_refcnt 0 bf).
      rewrite (insert_lookup_bufs _ _ _ _ Hbf). done.
    - exists j, bj. by rewrite list_lookup_insert_ne. }
  split.
  - split; [done|]. split; [apply woken_awakened|]. intros n. by apply lookup_insert_ne.
  - exists l1, l2. split; [done|]. apply (bcache_relink k2 (l1 ++ i :: l2)); try done.
    by rewrite Permutation_middle.
  - intros b. rewrite (content_core k2 _ b Ec) by done.
    rewrite (content_replace k _ held i bf k2 _ (with_refcnt 0 bf) b Hk Hk2 Hi Hbf); try done.
    + case_decide as E; [|done]. rewrite (content_cached k _ held b i bf Hk); [done|].
      split_and!; try done. apply (bu_held _ _ _ Hbo). done.
    + apply (bu_held _ _ _ Hbo). done.
  - done.
  - intros b. rewrite (dirty_core k2 _ b Ec). apply Hd2.
  - intros j b Hne Hb. destruct (core_lookup _ _ j b (eq_sym Ec)) as (b' & Hb' & C).
    + cbn [k_bufs k2 set_bufs]. by rewrite list_lookup_insert_ne.
    + exists b'. done.
Qed.

(** ** Using a locked buffer *)

Lemma dirty_insert k i bf k' bf' b :
  (i < NBUF)%nat -> k_bufs k !! i = Some bf -> k_bufs k' = <[i := bf']> (k_bufs k) ->
  b_dev bf' = 1 -> b_dev bf = 1 -> b_blockno bf' = b_blockno bf ->
  (forall j bj, (j < NBUF)%nat -> j <> i -> k_bufs k !! j = Some bj -> b_dev bj = 1 ->
     b_blockno bj <> b_blockno bf) ->
  dirty k' b <-> if decide (b = b_blockno bf) then b_flags bf' = VALID_DIRTY else dirty k b.
Proof.
  intros Hi Hbf E D' D N Huq. unfold dirty, cached. rewrite E. split.
  - intros (j & bj & (Hj & Hbj & Dj & Nj) & F). destruct (decide (i = j)) as [<-|Hne].
    + rewrite (insert_lookup_bufs _ _ _ _ Hbf) in Hbj. injection Hbj as <-.
      rewrite decide_True by congruence. done.
    + rewrite list_lookup_insert_ne in Hbj by done. rewrite decide_False; [by exists j, bj|].
      intros ->. by eapply (Huq j bj).
  - case_decide as Eb.
    + intros F. exists i, bf'. rewrite (insert_lookup_bufs _ _ _ _ Hbf). subst b. done.
    + intros (j & bj & (Hj & Hbj & Dj & Nj) & F). exists j, bj.
      rewrite list_lookup_insert_ne; [done|]. intros <-. congruence.
Qed.

Lemma bcache_uniq_held k mru held i bf :
  bcache_ok k mru held -> (i < NBUF)%nat -> k_bufs k !! i = Some bf -> b_dev bf = 1 ->
  forall j bj, (j < NBUF)%nat -> j <> i -> k_bufs k !! j = Some bj -> b_dev bj = 1 ->
  b_blockno bj <> b_blockno bf.
Proof. intros Hk Hi Hbf D j bj Hj Hne Hbj Dj En. apply Hne. by eapply (bo_uniq _ _ _ Hk). Qed.

(** The holder of a buffer assigns its data and its flags. *)
Lemma held_update k mru held i bf data fl :
  bcache_ok k mru held -> i ∈ held -> k_bufs k !! i = Some bf ->
  length data = 512%nat -> (fl = B_VALID \/ fl = VALID_DIRTY) ->
  let k' := set_bufs (<[i := with_data data (with_flags fl bf)]> (k_bufs k)) k in
  bcache_ok k' mru held /\
  (forall b, content k' b = if decide (b = b_blockno bf) then data else content k b) /\
  (forall b, dirty k' b <-> if decide (b = b_blockno bf) then fl = VALID_DIRTY else dirty k b).
Proof.
  intros Hk Hh Hbf Hlen Hfl k'. pose proof (bo_held _ _ _ Hk i Hh) as Hi.
  pose proof (bo_buf _ _ _ Hk i bf Hi Hbf) as Hbo. rewrite bool_decide_true in Hbo by done.
  pose proof (bu_held _ _ _ Hbo eq_refl) as D.
  assert (bcache_ok k' mru held) as Hk'.
  { apply (bcache_replace k mru held i bf _ _ (with_data data (with_flags fl bf))); try done.
    - rewrite bool_decide_true by done. destruct Hbo as [? ? ? Hd ? ?]. split; cbn; try done.
      + tauto.
      + right. destruct Hd as [[D0 _]|(_ & _ & ?)]; [congruence|]. split_and!; try done; try lia.
        by destruct Hfl as [-> | ->].
    - intros j bj Hj Hne Hbj _. exact (bcache_uniq_held k mru held i bf Hk Hi Hbf D j bj Hj Hne Hbj).
    - apply (bo_lock _ _ _ Hk).
    - tauto.
    - apply (bo_disk _ _ _ Hk). }
  split; [done|]. split.
  - intros b. rewrite (content_replace k mru held i bf k' held (with_data data (with_flags fl bf)) b); try done.
  - intros b. rewrite (dirty_insert k i bf k' (with_data data (with_flags fl bf))); try done.
    exact (bcache_uniq_held k mru held i bf Hk Hi Hbf D).
Qed.

Lemma bwrite_run k mru held i bf :
  bcache_ok k mru held -> ready k -> i ∈ held -> k_bufs k !! i = Some bf ->
  let k' := set_disk (disk_put (b_blockno bf) (b_data bf) (k_disk k))
              (set_bufs (<[i := with_flags B_VALID bf]> (k_bufs k)) k) in
  bwrite i k = Ok tt k' /\ bcache_ok k' mru held /\
  (forall b, content k' b = content k b) /\
  (forall b, dirty k' b <-> b <> b_blockno bf /\ dirty k b).
Proof.
  intros Hk Hr Hh Hbf k'. pose proof (bo_held _ _ _ Hk i Hh) as Hi.
  pose proof (bo_buf _ _ _ Hk i bf Hi Hbf) as Hbo. rewrite bool_decide_true in Hbo by done.
  pose proof (bu_held _ _ _ Hbo eq_refl) as D.
  pose proof (bo_lock _ _ _ Hk i Hi) as Hlk. rewrite decide_True in Hlk by done.
  destruct (bu_dev _ _ _ Hbo) as [[D0 _]|(_ & F0 & Hn)]; [congruence|].
  assert (bcache_ok k' mru held) as Hk'.
  { apply (bcache_replace k mru held i bf _ _ (with_flags B_VALID bf)); try done.
    - rewrite bool_decide_true by done. destruct Hbo as [? ? ? ? ? ?]. split; cbn; try done.
      + tauto.
      + right. split_and!; done || lia.
    - intros j bj Hj Hne Hbj [? ? ? ? ? Hcl]. split; try done. intros Hf Fj. cbn.
      unfold disk_block. cbn. rewrite lookup_insert_ne.
      + by apply Hcl.
      + intros En. apply (bcache_uniq_held k mru held i bf Hk Hi Hbf D j bj Hj Hne Hbj); [|done].
        destruct bu_dev0 as [[_ F']|(Dj & _)]; [by rewrite Fj in F'|done].
    - intros j bj Hj Hne Hbj _. exact (bcache_uniq_held k mru held i bf Hk Hi Hbf D j bj Hj Hne Hbj).
    - apply (bo_lock _ _ _ Hk).
    - tauto.
    - intros b data. cbn. rewrite lookup_insert_Some. intros [[_ <-]|[_ Hd]].
      + apply Hbo.
      + by eapply (bo_disk _ _ _ Hk). }
  split_and!; [|done| |].
  - unfold bwrite. krun (holdingsleep_run k (SL_buf i) Hr (st_buf i Hi)). unfold truth.
    rewrite Hlk. cbn [negb Z.eqb].
    krun (upd_buf_ok k i (fun bf => with_flags (Z.lor (b_flags bf) B_DIRTY) bf) bf Hbf).
    assert (Z.lor (b_flags bf) B_DIRTY = VALID_DIRTY) as ->.
    { destruct (bu_flags _ _ _ Hbo) as [F|[F|F]]; [done|by rewrite F..]. }
    rewrite (iderw_write _ i (with_flags VALID_DIRTY bf)); try done.
    + cbn [k_bufs set_bufs k_disk]. rewrite list_insert_insert_eq. done.
    + by apply set_bufs_ready.
    + change (get_sleep (SL_buf i) (set_bufs _ k)) with (get_sleep (SL_buf i) k). by rewrite Hlk.
    + by apply (insert_lookup_bufs _ _ _ _ Hbf).
  - intros b. rewrite (content_replace k mru held i bf k' held (with_flags B_VALID bf) b); try done.
    + case_decide as E; [|done]. rewrite (content_cached k mru held b i bf Hk); [done|]. by subst b.
    + intros Hne. unfold disk_block. cbn. by rewrite lookup_insert_ne by done.
  - intros b. rewrite (dirty_insert k i bf k' (with_flags B_VALID bf)); try done.
    + case_decide; [|naive_solver]. split; [done|]. naive_solver.
    + exact (bcache_uniq_held k mru held i bf Hk Hi Hbf D).
Qed.

End BioRuns.
