(* ===== verification/Bcache.v ===== *)
(** * The buffer cache: initialisation and coherence (src/bio.c)

    [binit_establishes] builds the invariant of Bio.v from zeroed buffers.  A [history]
    is any sequence of bread, stores into a locked buffer, bwrite and brelse of one
    process; in each of them the cache behaves like a disk: a read returns what was last
    stored to the block, through any number of evictions, what was written is on the
    disk, and every operation that the protocol allows succeeds. *)

From S2P Require Import Prelude Mem State Spinlock Sched Sleeplock Bio.

(** ** binit *)

Section Binit.

(** Buffers in zeroed static storage. *)
Definition fresh_bufs (k : kernel) : Prop :=
  length (k_bufs k) = S NBUF /\
  forall i b, (i < NBUF)%nat -> k_bufs k !! i = Some b ->
    b_flags b = 0 /\ b_dev b = 0 /\ b_refcnt b = 0 /\ length (b_data b) = 512%nat.

Definition binit_step (b : nat) : K unit :=
  head <- get_buf HEAD ;;
  upd_buf b (with_next (b_next head)) ;;;
  upd_buf b (with_prev HEAD) ;;;
  initsleeplock (SL_buf b) "buffer" ;;;
  head <- get_buf HEAD ;;
  upd_buf (b_next head) (with_prev b) ;;;
  upd_buf HEAD (with_next b).

(** The state of binit's loop after the buffers [done]. *)
Record binit_inv (k : kernel) (done : list nat) (k1 : kernel) : Prop := BinitInv {
  bi_core : core <$> k_bufs k1 = core <$> k_bufs k;
  bi_chain : chain (k_bufs k1) HEAD (rev done) HEAD;
  bi_sleep : forall i, i ∈ done -> sl_locked (get_sleep (SL_buf i) k1) = 0 /\
    lock_free k1 (LK_sleep (SL_buf i));
  bi_lock : lock_free k1 LK_bcache;
  bi_disk : k_disk k1 = k_disk k;
  bi_env : k_cpu k1 = k_cpu k /\ k_procs k1 = k_procs k /\
    forall lk, lock_free k lk -> lock_free k1 lk
}.

Lemma binit_step_run k1 b l :
  chain (k_bufs k1) HEAD l HEAD -> NoDup (HEAD :: l) -> b ∉ HEAD :: l ->
  (forall j, j ∈ b :: HEAD :: l -> (j < length (k_bufs k1))%nat) ->
  exists bs', binit_step b k1 = Ok tt (set_bufs bs'
      (put_sleep (SL_buf b) (Sleeplock 0 "buffer" 0)
         (put_lock (LK_sleep (SL_buf b)) (Spinlock 0 "sleep lock" None) k1))) /\
    core <$> bs' = core <$> k_bufs k1 /\ chain bs' HEAD (b :: l) HEAD.
Proof.
  intros Hc Hnd Hb Hr. set (bs := k_bufs k1) in *.
  assert (b < length bs)%nat as Hbl by (apply Hr; set_solver).
  assert (HEAD < length bs)%nat as HH by (apply Hr; set_solver).
  assert (nx bs HEAD < length bs)%nat as Hf.
  { apply Hr. apply chain_first in Hc. set_solver. }
  set (f := nx bs HEAD) in *.
  set (bs1 := alter (with_next f) b bs).
  set (bs2 := alter (with_prev HEAD) b bs1).
  assert (length bs1 = length bs) as L1 by apply length_alter.
  assert (length bs2 = length bs) as L2 by (unfold bs2; by rewrite length_alter).
  assert (nx bs2 HEAD = f) as Ef.
  { unfold bs2. rewrite nx_with_prev. unfold bs1. rewrite nx_with_next by lia.
    rewrite decide_False by set_solver. done. }
  exists (alter (with_next b) HEAD (alter (with_prev b) f bs2)). split_and!.
  - unfold binit_step.
    destruct (get_buf_links k1 HEAD HH) as (b1 & G1 & E1 & E1').
    krun G1. rewrite E1. fold bs f.
    krun (upd_buf_alter k1 b (with_next f) Hbl). fold bs bs1.
    rewrite (obind_ok _ _ _ _ _ (upd_buf_alter (set_bufs bs1 k1) b (with_prev HEAD) ltac:(cbn; lia))).
    rewrite set_bufs_twice. cbn [k_bufs set_bufs]. fold bs2.
    unfold initsleeplock, initlock, bind at 1. kr.
    destruct (get_buf_links (put_sleep (SL_buf b) (Sleeplock 0 "buffer" 0)
         (put_lock (LK_sleep (SL_buf b)) (Spinlock 0 "sleep lock" None) (set_bufs bs2 k1))) HEAD)
      as (b2 & G2 & E2 & E2'); [cbn; lia|].
    rewrite G2. cbn [obind]. rewrite E2. cbn [k_bufs put_sleep put_lock set_sleeps set_locks set_bufs].
    rewrite Ef. rewrite upd_buf_alter by (cbn; lia). cbn [obind].
    rewrite upd_buf_alter by (cbn; rewrite length_alter; lia). done.
  - unfold bs2, bs1. by rewrite !core_alter by done.
  - apply (chain_push bs); try done.
    + intros x. rewrite nx_with_next by (rewrite length_alter; lia).
      rewrite nx_with_prev. unfold bs2. rewrite nx_with_prev. unfold bs1. by rewrite nx_with_next by lia.
    + intros x. rewrite pv_with_next, pv_with_prev by lia. unfold bs2.
      rewrite pv_with_prev by lia. unfold bs1. by rewrite pv_with_next.
Qed.

Lemma binit_loop k k1 :
  length (k_bufs k) = S NBUF -> binit_inv k [] k1 ->
  exists k', for_each (upto NBUF) binit_step k1 = Ok tt k' /\ binit_inv k (upto NBUF) k'.
Proof.
  intros Hlen Hi0. apply (for_each_inv (binit_inv k)); [done|].
  intros done b k2 [rest Eb] [Hcore Hch Hsl Hlk Hd (Hcpu & Hps & Hfree)].
  assert (length (k_bufs k2) = S NBUF) as L.
  { rewrite <-Hlen. apply (f_equal length) in Hcore. by rewrite !length_fmap in Hcore. }
  assert (NoDup (done ++ b :: rest)) as Hnd by (rewrite <-Eb; apply NoDup_seq).
  assert (forall j, j ∈ done ++ b :: rest -> (j < NBUF)%nat) as Hr.
  { intros j. rewrite <-Eb. apply elem_of_upto. }
  apply NoDup_app in Hnd as (Hn1 & Hdis & Hn2).
  assert (b < NBUF)%nat as Hb by (apply Hr; set_solver).
  destruct (binit_step_run k2 b (rev done)) as (bs' & E & Ec & Ech).
  - done.
  - constructor; [|by rewrite <-Permutation_rev]. rewrite <-Permutation_rev. intros H.
    specialize (Hr HEAD ltac:(set_solver)). unfold HEAD in Hr. lia.
  - rewrite elem_of_cons, <-Permutation_rev. intros [->|H]; [unfold HEAD in Hb; lia|set_solver].
  - intros j. rewrite !elem_of_cons, <-Permutation_rev, L. intros [->|[->|H]]; [lia|unfold HEAD; lia|].
    specialize (Hr j ltac:(set_solver)). lia.
  - eexists. split; [exact E|]. split.
    + cbn. by rewrite Ec.
    + rewrite rev_unit. exact Ech.
    + intros i Hin. unfold get_sleep. cbn. destruct (decide (i = b)) as [->|Hne].
      * rewrite lookup_insert_eq. split; [done|]. exists "sleep lock". cbn. by rewrite lookup_insert_eq.
      * rewrite lookup_insert_ne by congruence.
        destruct (Hsl i) as [H1 [name H2]]; [set_solver|]. split; [done|].
        exists name. cbn. rewrite lookup_insert_ne by congruence. done.
    + destruct Hlk as [name Hlk]. exists name. cbn. by rewrite lookup_insert_ne.
    + done.
    + split; [done|]. split; [done|]. intros lk Hf. destruct (Hfree lk Hf) as [name El].
      unfold lock_free. cbn. destruct (decide (lk = LK_sleep (SL_buf b))) as [->|Hne].
      * exists "sleep lock". by rewrite lookup_insert_eq.
      * exists name. by rewrite lookup_insert_ne.
Qed.

Lemma binit_run k :
  fresh_bufs k ->
  (forall b data, d_blocks (k_disk k) !! b = Some data -> length data = 512%nat) ->
  exists k', binit k = Ok tt k' /\ bcache_ok k' (rev (upto NBUF)) ∅ /\
    (forall b, content k' b = disk_block (k_disk k) b) /\ k_disk k' = k_disk k /\
    lock_free k' LK_bcache /\ (forall i, (i < NBUF)%nat -> lock_free k' (LK_sleep (SL_buf i))) /\
    (forall b, ~ dirty k' b) /\ (ready k -> ready k').
Proof.
  intros [Hlen Hfresh] Hdisk.
  set (k1 := put_lock LK_bcache (Spinlock 0 "bcache" None) k).
  set (k2 := set_bufs (alter (with_next HEAD) HEAD (alter (with_prev HEAD) HEAD (k_bufs k))) k1).
  assert (HEAD < length (k_bufs k))%nat as HH by (rewrite Hlen; unfold HEAD; lia).
  destruct (binit_loop k k2 Hlen) as (k' & E & [Hcore Hch Hsl Hlk Hd (Hcpu & Hps & Hfree)]).
  { split.
    - unfold k2. cbn [k_bufs set_bufs]. by rewrite !core_alter by done.
    - cbn [rev chain]. unfold k2. cbn [k_bufs set_bufs].
      rewrite nx_with_next, pv_with_next, pv_with_prev by (rewrite ?length_alter; lia).
      by rewrite !decide_True by done.
    - intros i Hin. by apply not_elem_of_nil in Hin.
    - exists "bcache". cbn. by rewrite lookup_insert_eq.
    - done.
    - split; [done|]. split; [done|]. intros lk [name El]. unfold lock_free. cbn.
      destruct (decide (lk = LK_bcache)) as [->|Hne].
      + exists "bcache". by rewrite lookup_insert_eq.
      + exists name. by rewrite lookup_insert_ne. }
  assert (forall i b, (i < NBUF)%nat -> k_bufs k' !! i = Some b ->
    b_flags b = 0 /\ b_dev b = 0 /\ b_refcnt b = 0 /\ length (b_data b) = 512%nat) as Hf'.
  { intros i b Hi Hb. destruct (core_lookup _ _ _ _ Hcore Hb) as (b0 & Hb0 & C). unfold core in C.
    injection C as -> -> _ -> ->. by apply (Hfresh i). }
  assert (bcache_ok k' (rev (upto NBUF)) ∅) as Hok.
  { split.
    - rewrite <-Hlen. apply (f_equal length) in Hcore. by rewrite !length_fmap in Hcore.
    - by rewrite <-Permutation_rev.
    - done.
    - intros i j bi bj Hi Hj Hbi Hbj D. destruct (Hf' i bi Hi Hbi) as (_ & D0 & _). congruence.
    - intros i b Hi Hb. destruct (Hf' i b Hi Hb) as (H & ? & ? & ?).
      rewrite bool_decide_false by set_solver. split; try tauto; try done. intros _ F. by rewrite H in F.
    - intros i Hi. rewrite decide_False by set_solver. apply Hsl. by apply elem_of_upto.
    - intros i Hi. by apply elem_of_empty in Hi.
    - by rewrite Hd. }
  exists k'. split_and!; try done.
  - unfold binit. unfold initlock, bind at 1. kr. fold k1.
    rewrite upd_buf_alter by done. cbn [obind].
    rewrite upd_buf_alter by (cbn; by rewrite length_alter). cbn [obind]. exact E.
  - intros b. rewrite (content_uncached k' _ _ b Hok); [by rewrite Hd|].
    intros i bf (Hi & Hb & D & _). destruct (Hf' i bf Hi Hb) as (_ & D0 & _). congruence.
  - intros i Hi. apply Hsl. by apply elem_of_upto.
  - intros b (i & bf & (Hi & Hb & D & _) & _). destruct (Hf' i bf Hi Hb) as (_ & D0 & _). congruence.
  - intros [Hc Hf Hl Hcur]. split.
    + unfold calm. by rewrite Hcpu.
    + auto.
    + by rewrite Hps.
    + by rewrite Hcpu, Hps.
Qed.

(** binit establishes the invariant of the buffer cache: from zeroed buffers it
    returns, links all of them into the LRU list, locks none, and leaves every block to
    be read from the disk. *)
Theorem binit_establishes k :
  fresh_bufs k ->
  (forall b data, d_blocks (k_disk k) !! b = Some data -> length data = 512%nat) ->
  exists k', binit k = Ok tt k' /\ bcache_ok k' (rev (upto NBUF)) ∅ /\
    (forall b, content k' b = disk_block (k_disk k) b) /\ k_disk k' = k_disk k /\
    lock_free k' LK_bcache /\ forall i, (i < NBUF)%nat -> lock_free k' (LK_sleep (SL_buf i)).
Proof.
  intros Hf Hd. destruct (binit_run k Hf Hd) as (k' & E & ? & ? & ? & ? & ? & _). by exists k'.
Qed.

(** A machine with an empty disk of 1000 blocks. *)
Definition with_disk : kernel := set_disk (Disk ∅ FSSIZE true None []) booted.

Lemma with_disk_fresh : fresh_bufs with_disk.
Proof.
  split; [reflexivity|]. intros i b Hi Hb. unfold with_disk in Hb.
  change (replicate (S NBUF) buf0 !! i = Some b) in Hb. apply lookup_replicate in Hb as [-> _].
  done.
Qed.

Lemma with_disk_ready : ready with_disk.
Proof. apply (ready_env booted); [apply booted_ready|]. split; [|split]; reflexivity. Qed.

Lemma binit_establishes_witness :
  exists k', binit with_disk = Ok tt k' /\ bcache_ok k' (rev (upto NBUF)) ∅.
Proof.
  destruct (binit_establishes with_disk with_disk_fresh) as (k' & E & H & _).
  - intros b data H. cbn in H. by rewrite lookup_empty in H.
  - exists k'. split; [exact E|exact H].
Defined.

End Binit.

(** ** Coherence *)

Section Coherence.
  Context {patience_bound : Patience} {driver : DiskDriver} {driver_ok : DiskOk driver}.
  Context (k0 : kernel).

(** What a process does with the cache: it reads a block into a locked buffer, stores
    new data into a buffer it has locked, writes the buffer to the disk, releases it. *)
Inductive cache_event : Type :=
| Read (b : Z) (data : list Z)
| Store (b : Z) (data : list Z)
| Write (b : Z)
| Release (b : Z).

(** What block [b] holds after the events: the data stored last. *)
Definition stored_in (b : Z) (old : list Z) (e : cache_event) : list Z :=
  match e with Store b' data => if decide (b = b') then data else old | _ => old end.
Definition last_stored (tr : list cache_event) (b : Z) : list Z :=
  foldl (stored_in b) (disk_block (k_disk k0) b) tr.

(** [history tr k open unsaved]: the events [tr] lead from [k0] to [k]; [open] are the
    locked buffers by block, [unsaved] the blocks stored to since their last write. *)
Inductive history : list cache_event -> kernel -> gmap Z nat -> gset Z -> Prop :=
| h_start : history [] k0 ∅ ∅
| h_read tr k op un b i k' bf :
    history tr k op un -> op !! b = None -> 0 <= b < disksize (k_disk k) ->
    bread 1 b k = Ok i k' -> k_bufs k' !! i = Some bf ->
    history (tr ++ [Read b (b_data bf)]) k' (<[b := i]> op) un
| h_store tr k op un b i data k' :
    history tr k op un -> op !! b = Some i -> length data = 512%nat ->
    upd_buf i (with_data data) k = Ok tt k' ->
    history (tr ++ [Store b data]) k' op ({[b]} ∪ un)
| h_write tr k op un b i k' :
    history tr k op un -> op !! b = Some i -> bwrite i k = Ok tt k' ->
    history (tr ++ [Write b]) k' op (un ∖ {[b]})
| h_release tr k op un b i k' :
    history tr k op un -> op !! b = Some i -> b ∉ un -> brelse i k = Ok tt k' ->
    history (tr ++ [Release b]) k' (delete b op) un.

(** The invariant of histories. *)
Record coherent (tr : list cache_event) (k : kernel) (op : gmap Z nat) (un : gset Z) : Prop :=
  Coherent {
  co_ready : ready k;
  co_cache : exists mru held, bcache_ok k mru held /\ forall i, i ∈ held <-> exists b, op !! b = Some i;
  co_open : forall b i, op !! b = Some i -> exists bf, cached k b i bf;
  co_view : forall b, content k b = last_stored tr b;
  co_clean : forall b, ~ dirty k b;
  co_saved : forall b, b ∉ un -> disk_block (k_disk k) b = last_stored tr b;
  co_size : disksize (k_disk k) = disksize (k_disk k0)
}.

Lemma last_stored_app tr e b : last_stored (tr ++ [e]) b = stored_in b (last_stored tr b) e.
Proof. unfold last_stored. by rewrite foldl_app. Qed.

Lemma cached_inj k b b' i bf bf' : cached k b i bf -> cached k b' i bf' -> b = b'.
Proof. intros (_ & E1 & _ & N1) (_ & E2 & _ & N2). congruence. Qed.

Lemma coherent_read tr k op un b :
  coherent tr k op un -> op !! b = None -> 0 <= b < disksize (k_disk k) ->
  (exists i, (i < NBUF)%nat /\ pinned (k_bufs k) i = false) \/ (exists i bf, cached k b i bf) ->
  exists i k' bf, bread 1 b k = Ok i k' /\ k_bufs k' !! i = Some bf /\
    b_data bf = last_stored tr b /\ coherent (tr ++ [Read b (b_data bf)]) k' (<[b := i]> op) un.
Proof.
  intros [Hr (mru & held & Hk & Hh) Ho Hv Hcl Hs Hz] Hb Hrange Hor.
  destruct (bread_run k mru held b) as (i & k' & E & [Hf Hk' Hfr (bf & Hc & Hdt) Hct Hd Hdi Hoth]);
    [done|done|done| |tauto|].
  { intros i bf Hc Hin. apply Hh in Hin as [b' Hb']. destruct (Ho b' i Hb') as [bf' Hc'].
    assert (b = b') as -> by (eapply cached_inj; eauto). congruence. }
  exists i, k', bf. split; [done|]. split; [apply Hc|]. rewrite Hdt, Hv. split; [done|]. split.
  - by eapply bio_frame_ready.
  - exists mru, ({[i]} ∪ held). split; [done|]. intros j. rewrite elem_of_union, elem_of_singleton, Hh.
    split.
    + intros [->|[b' Hb']]; [exists b; by rewrite lookup_insert_eq|].
      exists b'. rewrite lookup_insert_ne; [done|]. congruence.
    + intros [b' Hb']. apply lookup_insert_Some in Hb' as [[_ ->]|[_ ?]]; eauto.
  - intros b' j Hj. apply lookup_insert_Some in Hj as [[<- <-]|[Hne Hj]]; [eauto|].
    destruct (Ho b' j Hj) as [bf' (Hj1 & Hj2 & Hj3 & Hj4)]. exists bf'. split_and!; [done| |done|done].
    rewrite Hoth; [done|]. intros ->. apply Hfr, Hh. eauto.
  - intros b'. by rewrite Hct, Hv, last_stored_app.
  - intros b'. rewrite Hdi. apply Hcl.
  - intros b' Hb'. rewrite Hd, Hs, last_stored_app by done. done.
  - by rewrite Hd.
Qed.

Lemma coherent_held tr k op un b i :
  coherent tr k op un -> op !! b = Some i ->
  exists mru held bf, bcache_ok k mru held /\ (forall i, i ∈ held <-> exists b, op !! b = Some i) /\
    i ∈ held /\ k_bufs k !! i = Some bf /\ b_blockno bf = b /\ b_dev bf = 1 /\
    b_flags bf = B_VALID /\ b_data bf = last_stored tr b.
Proof.
  intros [Hr (mru & held & Hk & Hh) Ho Hv Hcl Hs Hz] Hb. destruct (Ho b i Hb) as [bf Hc].
  pose proof Hc as (Hi & Hbf & D & N). exists mru, held, bf.
  split; [done|]. split; [done|]. split; [apply Hh; eauto|]. split; [done|]. split; [done|]. split; [done|].
  pose proof (bo_buf _ _ _ Hk i bf Hi Hbf) as Hbo. split.
  - destruct (bu_flags _ _ _ Hbo) as [F|[F|F]]; [|done|].
    + destruct (bu_dev _ _ _ Hbo) as [[D0 _]|(_ & F0 & _)]; congruence.
    + exfalso. apply (Hcl b). by exists i, bf.
  - by rewrite <-Hv, (content_cached k mru held b i bf Hk Hc).
Qed.

Lemma coherent_store tr k op un b i data :
  coherent tr k op un -> op !! b = Some i -> length data = 512%nat ->
  exists k', upd_buf i (with_data data) k = Ok tt k' /\
    coherent (tr ++ [Store b data]) k' op ({[b]} ∪ un).
Proof.
  intros Hco Hb Hlen. pose proof (coherent_held _ _ _ _ _ _ Hco Hb)
    as (mru & held & bf & Hk & Hh & Hin & Hbf & N & D & F & Hdt).
  destruct Hco as [Hr _ Ho Hv Hcl Hs Hz].
  destruct (held_update k mru held i bf data B_VALID Hk Hin Hbf Hlen (or_introl eq_refl)) as (Hk' & Hct & Hdi).
  replace (with_data data (with_flags B_VALID bf)) with (with_data data bf) in *
    by (unfold with_data, with_flags; cbn; by rewrite F).
  eexists. split; [by apply upd_buf_ok|]. split.
  - by apply set_bufs_ready.
  - exists mru, held. done.
  - intros b' j Hj. destruct (Ho b' j Hj) as [bf' (Hj1 & Hj2 & Hj3 & Hj4)].
    destruct (decide (i = j)) as [<-|Hne].
    + exists (with_data data bf). simplify_eq. split_and!; try done.
      by apply (insert_lookup_bufs _ _ _ _ Hbf).
    + exists bf'. split_and!; try done. cbn. by rewrite list_lookup_insert_ne.
  - intros b'. rewrite Hct, last_stored_app, N. cbn. by case_decide.
  - intros b'. rewrite Hdi. case_decide; [done|apply Hcl].
  - intros b' Hb'. rewrite last_stored_app. cbn. rewrite decide_False by set_solver. apply Hs. set_solver.
  - done.
Qed.

Lemma coherent_write tr k op un b i :
  coherent tr k op un -> op !! b = Some i ->
  exists k', bwrite i k = Ok tt k' /\ coherent (tr ++ [Write b]) k' op (un ∖ {[b]}).
Proof.
  intros Hco Hb. pose proof (coherent_held _ _ _ _ _ _ Hco Hb)
    as (mru & held & bf & Hk & Hh & Hin & Hbf & N & D & F & Hdt).
  destruct Hco as [Hr _ Ho Hv Hcl Hs Hz].
  destruct (bwrite_run k mru held i bf Hk Hr Hin Hbf) as (E & Hk' & Hct & Hdi).
  replace (with_flags B_VALID bf) with bf in * by (unfold with_flags; destruct bf; cbn in *; by subst).
  rewrite list_insert_id in * by done.
  eexists. split; [exact E|]. split.
  - apply (ready_env k); [done|]. split_and!; done.
  - exists mru, held. done.
  - intros b' j Hj. destruct (Ho b' j Hj) as [bf' Hc']. by exists bf'.
  - intros b'. by rewrite Hct, last_stored_app, Hv.
  - intros b'. rewrite Hdi. intros [_ H]. by apply (Hcl b').
  - intros b' Hb'. rewrite last_stored_app. cbn. unfold disk_block. cbn.
    destruct (decide (b' = b_blockno bf)) as [->|Hne].
    + rewrite lookup_insert_eq, N. done.
    + rewrite lookup_insert_ne by done. apply Hs. set_solver.
  - done.
Qed.

Lemma coherent_release tr k op un b i :
  coherent tr k op un -> op !! b = Some i -> b ∉ un ->
  exists k', brelse i k = Ok tt k' /\ coherent (tr ++ [Release b]) k' (delete b op) un.
Proof.
  intros Hco Hb Hun. pose proof (coherent_held _ _ _ _ _ _ Hco Hb)
    as (mru & held & bf & Hk & Hh & Hin & Hbf & N & D & F & Hdt).
  destruct Hco as [Hr _ Ho Hv Hcl Hs Hz].
  destruct (brelse_run k mru held i bf Hk Hr Hin Hbf) as (k' & E & [Hf (l1 & l2 & -> & Hk') Hct Hd Hdi Hoth]).
  { right. by rewrite N, Hs, Hdt. }
  exists k'. split; [done|]. split.
  - by eapply bio_frame_ready.
  - exists (i :: l1 ++ l2), (held ∖ {[i]}). split; [done|]. intros j.
    rewrite elem_of_difference, elem_of_singleton, Hh. split.
    + intros [[b' Hb'] Hne]. exists b'. rewrite lookup_delete_ne; [done|]. congruence.
    + intros [b' Hb']. apply lookup_delete_Some in Hb' as [Hne Hb']. split; [eauto|]. intros ->.
      destruct (Ho b i Hb) as [bf1 H1], (Ho b' i Hb') as [bf2 H2]. apply Hne. exact (cached_inj _ _ _ _ _ _ H1 H2).
  - intros b' j Hj. apply lookup_delete_Some in Hj as [Hne Hj].
    destruct (Ho b' j Hj) as [bf' (Hj1 & Hj2 & Hj3 & Hj4)].
    destruct (Hoth j bf') as (bf2 & Hb2 & C); [|done|].
    { intros ->. simplify_eq. }
    exists bf2. unfold core in C. injection C as _ E2 E3 _ _. split_and!; try done; congruence.
  - intros b'. by rewrite Hct, last_stored_app, Hv.
  - intros b'. rewrite Hdi. apply Hcl.
  - intros b' Hb'. by rewrite Hd, last_stored_app, Hs.
  - by rewrite Hd.
Qed.

(** A successful bread found the block or a buffer to recycle. *)
Lemma bread_room k mru held b i k' :
  bcache_ok k mru held -> ready k -> bread 1 b k = Ok i k' ->
  (exists i, (i < NBUF)%nat /\ pinned (k_bufs k) i = false) \/ (exists i bf, cached k b i bf).
Proof.
  intros Hk Hr E. destruct (find_idx (of_block 1 b) (take NBUF (k_bufs k))) as [j|] eqn:Ef.
  { right. apply (find_block_cached k mru held b j Hk) in Ef. eauto. }
  pose proof (proj1 (find_block_uncached k mru held b Hk) Ef) as Hun.
  destruct (last_unpinned (pinned (k_bufs k)) (upto NBUF)) as [Hall|(l1 & j & l2 & El & Hj & _)].
  - exfalso. destruct (bget_exhausted k mru held b Hk Hr Hun) as [k'' Ep].
    { intros j Hj. apply Hall. by apply elem_of_upto. }
    unfold bread in E. rewrite (obind_panic _ _ _ _ _ Ep) in E. done.
  - left. exists j. split; [|done]. apply elem_of_upto. rewrite El. set_solver.
Qed.

Lemma history_coherent mru0 tr k op un :
  ready k0 -> bcache_ok k0 mru0 ∅ -> (forall b, ~ dirty k0 b) ->
  (forall b, content k0 b = disk_block (k_disk k0) b) ->
  history tr k op un -> coherent tr k op un.
Proof.
  intros Hr Hk Hcl Hv. induction 1 as
    [|tr k op un b i k' bf _ IH Hb Hrange E Hbf|tr k op un b i data k' _ IH Hb Hlen E
     |tr k op un b i k' _ IH Hb E|tr k op un b i k' _ IH Hb Hun E].
  - split; try done. exists mru0, ∅. split; [done|]. intros i. split; [set_solver|]. by intros [b ?].
  - pose proof (co_cache _ _ _ _ IH) as (mru & held & Hkk & _).
    destruct (coherent_read tr k op un b IH Hb Hrange
      (bread_room k mru held b i k' Hkk (co_ready _ _ _ _ IH) E)) as (i1 & k1 & bf1 & E1 & Hb1 & _ & H1).
    rewrite E in E1. injection E1 as <- <-. rewrite Hbf in Hb1. injection Hb1 as <-. done.
  - destruct (coherent_store tr k op un b i data IH Hb Hlen) as (k1 & E1 & H1).
    rewrite E in E1. by injection E1 as <-.
  - destruct (coherent_write tr k op un b i IH Hb) as (k1 & E1 & H1).
    rewrite E in E1. by injection E1 as <-.
  - destruct (coherent_release tr k op un b i IH Hb Hun) as (k1 & E1 & H1).
    rewrite E in E1. by injection E1 as <-.
Qed.

(** A buffer of a coherent state is pinned only if it is open. *)
Lemma coherent_room tr k op un :
  coherent tr k op un -> (size op < NBUF)%nat ->
  exists i, (i < NBUF)%nat /\ pinned (k_bufs k) i = false.
Proof.
  intros Hco Hsz. pose proof Hco as [Hr (mru & held & Hk & Hh) Ho Hv Hcl Hs Hz].
  destruct (last_unpinned (pinned (k_bufs k)) (upto NBUF)) as [Hall|(l1 & j & l2 & El & Hj & _)].
  - exfalso. assert (upto NBUF ⊆ (map_to_list op).*2) as Hsub.
    { intros i Hi. specialize (Hall i Hi). apply elem_of_upto in Hi.
      destruct (lookup_lt_is_Some_2 (k_bufs k) i) as [bf Hbf]; [rewrite (bo_len _ _ _ Hk); lia|].
      pose proof (bo_buf _ _ _ Hk i bf Hi Hbf) as Hbo. unfold pinned, unused in Hall. rewrite Hbf in Hall.
      rewrite (bu_ref _ _ _ Hbo) in Hall. destruct (decide (i ∈ held)) as [Hin|Hni].
      - apply Hh in Hin as [b Hb]. apply list_elem_of_fmap. exists (b, i). split; [done|].
        by apply elem_of_map_to_list.
      - exfalso. rewrite bool_decide_false in Hall by done.
        destruct (bu_flags _ _ _ Hbo) as [F|[F|F]]; rewrite F in Hall; try done.
        destruct (bu_dev _ _ _ Hbo) as [[_ F0]|(D & _ & _)]; [by rewrite F in F0|].
        apply (Hcl (b_blockno bf)). exists i, bf. done. }
    assert (length (upto NBUF) <= length (map_to_list op).*2)%nat as Hl.
    { apply submseteq_length, NoDup_submseteq; [apply NoDup_seq|exact Hsub]. }
    rewrite length_fmap in Hl. unfold upto in Hl. rewrite length_seq in Hl.
    rewrite length_map_to_list in Hl. lia.
  - exists j. split; [|done]. apply elem_of_upto. rewrite El. set_solver.
Qed.

(** C20: the buffer cache is coherent.  In every history, a read returns the data last
    stored to the block (the disk's, if none was); a block that is not waiting to be
    written is on the disk as it was last stored; and every operation of the protocol
    succeeds: a block can be read while fewer than NBUF others are open, and an open one
    can be stored to, written and released. *)
Theorem cache_coherent mru0 tr k op un :
  ready k0 -> bcache_ok k0 mru0 ∅ -> (forall b, ~ dirty k0 b) ->
  (forall b, content k0 b = disk_block (k_disk k0) b) ->
  history tr k op un ->
  (forall b, b ∉ un -> disk_block (k_disk k) b = last_stored tr b) /\
  (forall b, op !! b = None -> 0 <= b < disksize (k_disk k0) -> (size op < NBUF)%nat ->
     exists i k' bf, bread 1 b k = Ok i k' /\ k_bufs k' !! i = Some bf /\
       b_data bf = last_stored tr b /\ history (tr ++ [Read b (b_data bf)]) k' (<[b := i]> op) un) /\
  (forall b i, op !! b = Some i ->
     (forall data, length data = 512%nat ->
        exists k', history (tr ++ [Store b data]) k' op ({[b]} ∪ un)) /\
     (exists k', bwrite i k = Ok tt k' /\ history (tr ++ [Write b]) k' op (un ∖ {[b]})) /\
     (b ∉ un -> exists k', brelse i k = Ok tt k' /\ history (tr ++ [Release b]) k' (delete b op) un)).
Proof.
  intros Hr Hk Hcl Hv Hh. pose proof (history_coherent mru0 tr k op un Hr Hk Hcl Hv Hh) as Hco.
  split; [exact (co_saved _ _ _ _ Hco)|]. split.
  - intros b Hb Hrange Hsz. rewrite <-(co_size _ _ _ _ Hco) in Hrange.
    destruct (coherent_read tr k op un b Hco Hb Hrange) as (i & k' & bf & E & Hbf & Hd & _).
    { left. by eapply coherent_room. }
    exists i, k', bf. split_and!; try done. by eapply h_read.
  - intros b i Hb. split; [|split].
    + intros data Hlen. destruct (coherent_store tr k op un b i data Hco Hb Hlen) as (k' & E & _).
      exists k'. by eapply h_store.
    + destruct (coherent_write tr k op un b i Hco Hb) as (k' & E & _). exists k'.
      split; [done|]. by eapply h_write.
    + intros Hun. destruct (coherent_release tr k op un b i Hco Hb Hun) as (k' & E & _). exists k'.
      split; [done|]. by eapply h_release.
Qed.

End Coherence.

(** The machine of [with_disk] after binit. *)
Definition cache_up : kernel := final (binit with_disk) with_disk.

Lemma cache_up_ok :
  ready cache_up /\ bcache_ok cache_up (rev (upto NBUF)) ∅ /\ (forall b, ~ dirty cache_up b) /\
  (forall b, content cache_up b = disk_block (k_disk cache_up) b) /\
  k_disk cache_up = Disk ∅ FSSIZE true None [].
Proof.
  destruct (binit_run with_disk with_disk_fresh) as (k' & E & Hk & Hc & Hd & _ & _ & Hcl & Hr).
  - intros b data H. cbn in H. by rewrite lookup_empty in H.
  - unfold cache_up. rewrite (final_ok _ _ _ _ E).
    split; [exact (Hr with_disk_ready)|]. split; [exact Hk|]. split; [exact Hcl|].
    split; [|exact Hd]. intros b. rewrite Hc, Hd. reflexivity.
Qed.

Lemma cache_coherent_witness :
  exists i k' bf, bread (patience_bound := 2%nat) (driver := Memide.memide) 1 7 cache_up = Ok i k' /\
    k_bufs k' !! i = Some bf /\ b_data bf = ZERO_BLOCK.
Proof.
  destruct cache_up_ok as (Hr & Hk & Hcl & Hc & Hd).
  destruct (cache_coherent (patience_bound := 2%nat) (driver := Memide.memide) cache_up
    (rev (upto NBUF)) [] cache_up ∅ ∅ Hr Hk Hcl Hc (h_start _)) as (_ & H & _).
  destruct (H 7) as (i & k' & bf & E & Hbf & Hdt & _).
  - reflexivity.
  - rewrite Hd. cbn. unfold FSSIZE. lia.
  - rewrite map_size_empty. unfold NBUF. lia.
  - exists i, k', bf. split; [exact E|]. split; [exact Hbf|]. rewrite Hdt.
    unfold last_stored. cbn [foldl]. rewrite Hd. unfold disk_block. cbn [d_blocks].
    rewrite lookup_empty. reflexivity.
Defined.
