(* ===== verification/Block.v ===== *)
(** * Objects inside a disk block

    A block is a list of 512 bytes.  [slice] and [splice] read and replace a range of it;
    [get32] and [put32] are the loads and stores of 32-bit fields that the kernel makes
    when it casts [buf->data] to a pointer to a structure; likewise 16-bit fields.
    The lemmas are the round trips and the independence of disjoint ranges. *)

From S2P Require Import Prelude Mem.

Definition slice (d : list Z) (off n : nat) : list Z := take n (drop off d).
Definition splice (d : list Z) (off : nat) (bs : list Z) : list Z :=
  take off d ++ bs ++ drop (off + length bs) d.

Definition get32 (d : list Z) (off : nat) : Z := le_combine (slice d off 4).
Definition put32 (d : list Z) (off : nat) (v : Z) : list Z := splice d off (le_split 4 v).
Definition get16 (d : list Z) (off : nat) : Z := le_combine (slice d off 2).
Definition put16 (d : list Z) (off : nat) (v : Z) : list Z := splice d off (le_split 2 v).

Arguments get32 : simpl never.
Arguments put32 : simpl never.
Arguments get16 : simpl never.
Arguments put16 : simpl never.

Lemma length_splice d off bs :
  (off + length bs <= length d)%nat -> length (splice d off bs) = length d.
Proof. intros H. unfold splice. len. Qed.

Lemma lookup_splice d off bs i :
  (off + length bs <= length d)%nat ->
  splice d off bs !! i =
  if decide (off <= i < off + length bs)%nat then bs !! (i - off)%nat else d !! i.
Proof.
  intros H. unfold splice. destruct (decide (i < off)%nat) as [H1|H1].
  - rewrite lookup_app_l by len. rewrite lookup_take_lt by lia. by rewrite decide_False by lia.
  - rewrite lookup_app_r by len. rewrite length_take, Nat.min_l by lia.
    destruct (decide (i < off + length bs)%nat) as [H2|H2].
    + rewrite decide_True by lia. by rewrite lookup_app_l by lia.
    + rewrite decide_False by lia. rewrite lookup_app_r by lia. rewrite lookup_drop. f_equal. lia.
Qed.

Lemma lookup_slice d off n i :
  slice d off n !! i = if decide (i < n)%nat then d !! (off + i)%nat else None.
Proof.
  unfold slice. case_decide.
  - by rewrite lookup_take_lt, lookup_drop.
  - by rewrite lookup_take_ge by lia.
Qed.

Lemma length_slice d off n : (off + n <= length d)%nat -> length (slice d off n) = n.
Proof. intros H. unfold slice. len. Qed.

Lemma slice_splice_same d off bs :
  (off + length bs <= length d)%nat -> slice (splice d off bs) off (length bs) = bs.
Proof.
  intros H. apply list_eq. intros i. rewrite lookup_slice. case_decide as Hi.
  - rewrite lookup_splice by done. rewrite decide_True by lia. f_equal. lia.
  - symmetry. apply lookup_ge_None. lia.
Qed.

Lemma slice_splice_disj d off bs off' n :
  (off + length bs <= length d)%nat ->
  (off' + n <= off \/ off + length bs <= off')%nat ->
  slice (splice d off bs) off' n = slice d off' n.
Proof.
  intros H Hd. apply list_eq. intros i. rewrite !lookup_slice. case_decide as Hi; [|done].
  rewrite lookup_splice by done. by rewrite decide_False by lia.
Qed.

Lemma get32_put32 d off v : (off + 4 <= length d)%nat -> get32 (put32 d off v) off = u32 v.
Proof.
  intros H. unfold get32, put32. pose proof (slice_splice_same d off (le_split 4 v)) as E.
  rewrite length_le_split in E. rewrite E by done. by rewrite le_combine_split.
Qed.

Lemma get32_put32_ne d off v off' :
  (off + 4 <= length d)%nat -> (off' + 4 <= off \/ off + 4 <= off')%nat ->
  get32 (put32 d off v) off' = get32 d off'.
Proof.
  intros H Hd. unfold get32, put32. by rewrite slice_splice_disj by (rewrite length_le_split; lia).
Qed.

Lemma get16_put16 d off v : (off + 2 <= length d)%nat -> get16 (put16 d off v) off = u16 v.
Proof.
  intros H. unfold get16, put16. pose proof (slice_splice_same d off (le_split 2 v)) as E.
  rewrite length_le_split in E. rewrite E by done. by rewrite le_combine_split.
Qed.

Lemma get16_put16_ne d off v off' :
  (off + 2 <= length d)%nat -> (off' + 2 <= off \/ off + 2 <= off')%nat ->
  get16 (put16 d off v) off' = get16 d off'.
Proof.
  intros H Hd. unfold get16, put16. by rewrite slice_splice_disj by (rewrite length_le_split; lia).
Qed.

Lemma length_put32 d off v : (off + 4 <= length d)%nat -> length (put32 d off v) = length d.
Proof. intros H. unfold put32. rewrite length_splice; [done|]. by rewrite length_le_split. Qed.

Lemma length_put16 d off v : (off + 2 <= length d)%nat -> length (put16 d off v) = length d.
Proof. intros H. unfold put16. rewrite length_splice; [done|]. by rewrite length_le_split. Qed.
