(* ===== verification/Log.v ===== *)
(** * The log (src/log.c) and the super block (readsb of src/fs.c)

    A transaction's blocks are pinned in the cache until commit copies them to the log
    blocks, writes the header, installs them and clears the header.  The disk of the model
    records the block writes in order ([d_writes]); a crash keeps a prefix of them. *)

From S2P Require Import Prelude Mem State Spinlock Sched Sleeplock Bio Block.

Section Log.
  Context {patience_bound : Patience} {driver : DiskDriver}.

(** ** The super block *)

Definition superblock_of (d : list Z) : superblock :=
  Superblock (get32 d 0) (get32 d 4) (get32 d 8) (get32 d 12) (get32 d 16) (get32 d 20) (get32 d 24).

(** The bytes of the locked buffer [b]. *)
Definition buf_data (b : nat) : K (list Z) := bf <- get_buf b ;; ret (b_data bf).
(** A store to them. *)
Definition upd_data (b : nat) (f : list Z -> list Z) : K unit :=
  upd_buf b (fun bf => with_data (f (b_data bf)) bf).

Definition readsb (dev : Z) : K superblock :=
  bp <- bread dev 1 ;;
  d <- buf_data bp ;;
  brelse bp ;;;
  ret (superblock_of d).

(** ** The log *)

Definition set_lh (n : Z) (block : list Z) (lg : log) : log :=
  Log (lg_start lg) (lg_size lg) (lg_outstanding lg) (lg_committing lg) (lg_dev lg) n block.
Definition upd_log (f : log -> log) : K unit := modify (fun k => set_log (f (k_log k)) k).

(** [log.lh.block[i]] and an assignment to it. *)
Definition lh_block (i : nat) : K Z := lg <- gets k_log ;; of_option (lg_block lg !! i).
Definition set_lh_block (i : nat) (v : Z) : K unit :=
  lg <- gets k_log ;;
  block <- of_option (aput (lg_block lg) i v) ;;
  upd_log (set_lh (lg_n lg) block).

(** [for (tail = 0; tail < log.lh.n; tail++)] of install_trans. *)
Fixpoint install_trans_from (fuel : nat) (tail : nat) : K unit :=
  lg <- gets k_log ;;
  if negb (Z.of_nat tail <? lg_n lg) then ret tt else
  match fuel with
  | O => nofuel
  | S fuel' =>
      lbuf <- bread (lg_dev lg) (u32 (lg_start lg + Z.of_nat tail + 1)) ;;
      dst <- lh_block tail ;;
      dbuf <- bread (lg_dev lg) (u32 dst) ;;
      d <- buf_data lbuf ;;
      upd_buf dbuf (with_data d) ;;;
      bwrite dbuf ;;;
      brelse lbuf ;;;
      brelse dbuf ;;;
      install_trans_from fuel' (S tail)
  end.

(** The array [block] has LOGSIZE elements: beyond them the loops index out of it. *)
Definition LOG_FUEL : nat := S (Z.to_nat LOGSIZE).

Definition install_trans : K unit := install_trans_from LOG_FUEL 0.

(** [for (i = 0; i < log.lh.n; i++) log.lh.block[i] = lh->block[i];] *)
Fixpoint read_head_from (fuel : nat) (d : list Z) (i : nat) : K unit :=
  lg <- gets k_log ;;
  if negb (Z.of_nat i <? lg_n lg) then ret tt else
  match fuel with
  | O => nofuel
  | S fuel' =>
      set_lh_block i (s32 (get32 d (4 + 4 * i))) ;;;
      read_head_from fuel' d (S i)
  end.

Definition read_head : K unit :=
  lg <- gets k_log ;;
  buf <- bread (lg_dev lg) (u32 (lg_start lg)) ;;
  d <- buf_data buf ;;
  upd_log (fun lg => set_lh (s32 (get32 d 0)) (lg_block lg) lg) ;;;
  read_head_from LOG_FUEL d 0 ;;;
  brelse buf.

(** [for (i = 0; i < log.lh.n; i++) hb->block[i] = log.lh.block[i];] *)
Fixpoint write_head_from (fuel : nat) (buf : nat) (i : nat) : K unit :=
  lg <- gets k_log ;;
  if negb (Z.of_nat i <? lg_n lg) then ret tt else
  match fuel with
  | O => nofuel
  | S fuel' =>
      v <- lh_block i ;;
      upd_buf buf (fun bf => with_data (put32 (b_data bf) (4 + 4 * i) v) bf) ;;;
      write_head_from fuel' buf (S i)
  end.

Definition write_head : K unit :=
  lg <- gets k_log ;;
  buf <- bread (lg_dev lg) (u32 (lg_start lg)) ;;
  lg <- gets k_log ;;
  upd_buf buf (fun bf => with_data (put32 (b_data bf) 0 (lg_n lg)) bf) ;;;
  write_head_from LOG_FUEL buf 0 ;;;
  bwrite buf ;;;
  brelse buf.

Definition recover_from_log : K unit :=
  read_head ;;;
  install_trans ;;;
  upd_log (fun lg => set_lh 0 (lg_block lg) lg) ;;;
  write_head.

(** [sizeof(struct logheader)] is 124, below BSIZE. *)
Definition SIZEOF_LOGHEADER : Z := 4 + 4 * LOGSIZE.

Definition initlog (dev : Z) : K unit :=
  if SIZEOF_LOGHEADER >=? BSIZE then panic "initlog: too big logheader" else
  initlock LK_log "log" ;;;
  sb <- readsb dev ;;
  upd_log (fun lg => Log (s32 (sb_logstart sb)) (s32 (sb_nlog sb)) (lg_outstanding lg)
                       (lg_committing lg) dev (lg_n lg) (lg_block lg)) ;;;
  recover_from_log.

(** [while(1)] of begin_op. *)
Fixpoint begin_op_wait (fuel : nat) : K unit :=
  lg <- gets k_log ;;
  let again := match fuel with
    | O => nofuel
    | S fuel' => sleep Ch_log LK_log ;;; begin_op_wait fuel'
    end in
  if lg_committing lg then again
  else if lg_n lg + (lg_outstanding lg + 1) * MAXOPBLOCKS >? LOGSIZE then
    (* this op might exhaust log space; wait for commit. *)
    again
  else
    upd_log (fun lg => Log (lg_start lg) (lg_size lg) (lg_outstanding lg + 1) (lg_committing lg)
                         (lg_dev lg) (lg_n lg) (lg_block lg)) ;;;
    release LK_log.

Definition begin_op : K unit :=
  acquire LK_log ;;;
  begin_op_wait patience.

(** [for (tail = 0; tail < log.lh.n; tail++)] of write_log. *)
Fixpoint write_log_from (fuel : nat) (tail : nat) : K unit :=
  lg <- gets k_log ;;
  if negb (Z.of_nat tail <? lg_n lg) then ret tt else
  match fuel with
  | O => nofuel
  | S fuel' =>
      to <- bread (lg_dev lg) (u32 (lg_start lg + Z.of_nat tail + 1)) ;;
      src <- lh_block tail ;;
      from <- bread (lg_dev lg) (u32 src) ;;
      d <- buf_data from ;;
      upd_buf to (with_data d) ;;;
      bwrite to ;;;
      brelse from ;;;
      brelse to ;;;
      write_log_from fuel' (S tail)
  end.

Definition write_log : K unit := write_log_from LOG_FUEL 0.

Definition commit : K unit :=
  lg <- gets k_log ;;
  when (lg_n lg >? 0) (
    write_log ;;;
    write_head ;;;
    install_trans ;;;
    upd_log (fun lg => set_lh 0 (lg_block lg) lg) ;;;
    write_head).

Definition set_committing (b : bool) (lg : log) : log :=
  Log (lg_start lg) (lg_size lg) (lg_outstanding lg) b (lg_dev lg) (lg_n lg) (lg_block lg).

Definition end_op : K unit :=
  acquire LK_log ;;;
  upd_log (fun lg => Log (lg_start lg) (lg_size lg) (lg_outstanding lg - 1) (lg_committing lg)
                       (lg_dev lg) (lg_n lg) (lg_block lg)) ;;;
  lg <- gets k_log ;;
  if lg_committing lg then panic "log.committing" else
  let do_commit := lg_outstanding lg =? 0 in
  (if do_commit then upd_log (set_committing true)
   else wakeup Ch_log) ;;;
  release LK_log ;;;
  when do_commit (
    commit ;;;
    acquire LK_log ;;;
    upd_log (set_committing false) ;;;
    wakeup Ch_log ;;;
    release LK_log).

(** [for (i = 0; i < log.lh.n; i++) if (log.lh.block[i] == b->blockno) break;]: the
    index at which the loop stops. *)
Fixpoint log_find (fuel : nat) (blockno : Z) (i : nat) : K nat :=
  lg <- gets k_log ;;
  if negb (Z.of_nat i <? lg_n lg) then ret i else
  match fuel with
  | O => nofuel
  | S fuel' =>
      v <- lh_block i ;;
      if u32 v =? blockno then ret i else log_find fuel' blockno (S i)
  end.

Definition log_write (b : nat) : K unit :=
  lg <- gets k_log ;;
  if (lg_n lg >=? LOGSIZE) || (lg_n lg >=? lg_size lg - 1) then panic "too big a transaction" else
  if lg_outstanding lg <? 1 then panic "log_write outside of trans" else
  acquire LK_log ;;;
  bf <- get_buf b ;;
  i <- log_find LOG_FUEL (b_blockno bf) 0 ;;
  set_lh_block i (s32 (b_blockno bf)) ;;;
  lg <- gets k_log ;;
  when (Z.of_nat i =? lg_n lg) (upd_log (fun lg => set_lh (lg_n lg + 1) (lg_block lg) lg)) ;;;
  upd_buf b (fun bf => with_flags (Z.lor (b_flags bf) B_DIRTY) bf) ;;;
  release LK_log.

End Log.
