(* ===== verification/Recovery.v ===== *)
(** * Commit and crash recovery (src/log.c)

    [commit_run] gives the sequence of block writes a commit makes; the machine may stop
    after any prefix of it.  [recover_run] says what recovery makes of a disk.  Together
    they give the crash atomicity of the log. *)

From S2P Require Import Prelude Mem State Spinlock Sched Sleeplock Bio Block Log.

Section Recovery.
  Context {patience_bound : Patience} {driver : DiskDriver} {driver_ok : DiskOk driver}.

(** ** Room in the cache *)

(** With fewer than NBUF blocks dirty or held there is a buffer to recycle. *)
Lemma cache_room k mru held (ds : list Z) :
  bcache_ok k mru held -> (forall b, dirty k b -> b ∈ ds) -> (length ds + size held < NBUF)%nat ->
  exists i, (i < NBUF)%nat /\ pinned (k_bufs k) i = false.
Proof.
  intros Hk Hds Hsz.
  destruct (last_unpinned (pinned (k_bufs k)) (upto NBUF)) as [Hall|(l1 & j & l2 & El & Hj & _)].
  2: { exists j. split; [|done]. apply elem_of_upto. rewrite El. set_solver. }
  exfalso. set (buf_of := fun b => find_idx (of_block 1 b) (take NBUF (k_bufs k))).
  assert (upto NBUF ⊆ elements held ++ omap buf_of ds) as Hsub.
  { intros i Hi. specialize (Hall i Hi). apply elem_of_upto in Hi. apply elem_of_app.
    destruct (decide (i ∈ held)) as [Hin|Hni]; [left; by apply elem_of_elements|right].
    destruct (lookup_lt_is_Some_2 (k_bufs k) i) as [bf Hbf]; [rewrite (bo_len _ _ _ Hk); lia|].
    pose proof (bo_buf _ _ _ Hk i bf Hi Hbf) as Hbo. unfold pinned, unused in Hall. rewrite Hbf in Hall.
    rewrite (bu_ref _ _ _ Hbo), bool_decide_false in Hall by done.
    destruct (bu_flags _ _ _ Hbo) as [F|[F|F]]; rewrite F in Hall; try done.
    destruct (bu_dev _ _ _ Hbo) as [[_ F0]|(D & _ & _)]; [by rewrite F in F0|].
    apply list_elem_of_omap. exists (b_blockno bf). split.
    - apply Hds. exists i, bf. done.
    - apply (find_block_cached k mru held _ i Hk). by exists bf. }
  assert (length (upto NBUF) <= length (elements held ++ omap buf_of ds))%nat as Hl.
  { apply submseteq_length, NoDup_submseteq; [apply NoDup_seq|exact Hsub]. }
  rewrite length_app in Hl. unfold upto in Hl. rewrite length_seq in Hl.
  change (length (elements held)) with (size held) in Hl.
  assert (length (omap buf_of ds) <= length ds)%nat; [|lia].
  clear. induction ds as [|b ds IH]; [done|]. cbn. case_match; cbn; lia.
Qed.

(** ** A buffer just read *)

Lemma buf_data_ok k i b : k_bufs k !! i = Some b -> buf_data i k = Ok (b_data b) k.
Proof. intros H. unfold buf_data. by krun (get_buf_ok k i b H). Qed.

Lemma bread_held k mru held b i k' :
  bcache_ok k mru held -> bread_post k mru held b i k' ->
  exists bf, k_bufs k' !! i = Some bf /\ b_dev bf = 1 /\ b_blockno bf = b /\ b_data bf = content k b /\
    (b_flags bf = B_VALID \/ b_flags bf = VALID_DIRTY) /\
    (b_flags bf = VALID_DIRTY <-> dirty k b).
Proof.
  intros Hk [Hf Hk' Hfr (bf & Hc & Hdt) Hct Hd Hdi Hoth]. exists bf. pose proof Hc as (Hi & Hbf & D & N).
  split; [done|]. split; [done|]. split; [done|]. split; [done|].
  pose proof (bo_buf _ _ _ Hk' i bf Hi Hbf) as Hbo. split.
  - destruct (bu_flags _ _ _ Hbo) as [F|F]; [|done].
    destruct (bu_dev _ _ _ Hbo) as [[D0 _]|(_ & F0 & _)]; congruence.
  - rewrite <-Hdi. split; [intros F; by exists i, bf|].
    intros (j & bj & Hcj & F). assert (j = i) as ->.
    { destruct Hcj as (H1 & H2 & H3 & H4). eapply (bo_uniq _ _ _ Hk'); eauto. congruence. }
    destruct Hcj as (_ & E & _). congruence.
Qed.

(** A block that is neither open nor dirty is the disk's. *)
Lemma clean_content k mru held b :
  bcache_ok k mru held -> (forall i bf, cached k b i bf -> i ∉ held) -> ~ dirty k b ->
  content k b = disk_block (k_disk k) b.
Proof.
  intros Hk Hnh Hnd. destruct (find_idx (of_block 1 b) (take NBUF (k_bufs k))) as [i|] eqn:Ef.
  - apply (find_block_cached k mru held b i Hk) in Ef as [bf Hc]. pose proof Hc as (Hi & Hbf & D & N).
    rewrite (content_cached k mru held b i bf Hk Hc), <-N.
    pose proof (bo_buf _ _ _ Hk i bf Hi Hbf) as Hbo.
    rewrite bool_decide_false in Hbo by (by eapply Hnh). apply (bu_clean _ _ _ Hbo); [done|].
    destruct (bu_flags _ _ _ Hbo) as [F|[F|F]]; [|done|].
    + destruct (bu_dev _ _ _ Hbo) as [[D0 _]|(_ & F0 & _)]; congruence.
    + exfalso. apply Hnd. by exists i, bf.
  - eapply content_uncached; [exact Hk|]. by apply (find_block_uncached k mru held b Hk).
Qed.

Lemma not_held_empty k b i bf : cached k b i bf -> i ∉ (∅ : gset nat).
Proof. set_solver. Qed.

(** ** Copying one block to another *)

(** After the copy of block [src] to block [dst] and the write of [dst]. *)
Record copied (k : kernel) (src dst : Z) (k' : kernel) : Prop := Copied {
  cp_frame : bio_frame k k';
  cp_ok : exists mru, bcache_ok k' mru ∅;
  cp_disk : k_disk k' = disk_put dst (content k src) (k_disk k);
  cp_content : forall b, content k' b = if decide (b = dst) then content k src else content k b;
  cp_dirty : forall b, dirty k' b <-> b <> dst /\ dirty k b
}.

(** The buffers [i] of [src] and [j] of [dst] are locked; the rest of both loops' bodies. *)
Lemma copy_finish k mru i j bi bj :
  bcache_ok k mru {[i; j]} -> ready k -> i <> j ->
  k_bufs k !! i = Some bi -> k_bufs k !! j = Some bj ->
  (b_flags bi = VALID_DIRTY \/ b_data bi = disk_block (k_disk k) (b_blockno bi)) ->
  exists k', (d <- buf_data i ;; upd_buf j (with_data d) ;;; bwrite j ;;; brelse i ;;; brelse j) k
    = Ok tt k' /\ copied k (b_blockno bi) (b_blockno bj) k'.
Proof.
  intros Hk Hr Hij Hbi Hbj Hsaved.
  assert (i ∈ ({[i; j]} : gset nat)) as Hini by set_solver.
  assert (j ∈ ({[i; j]} : gset nat)) as Hinj by set_solver.
  pose proof (bo_held _ _ _ Hk i Hini) as Hi. pose proof (bo_held _ _ _ Hk j Hinj) as Hj.
  pose proof (bo_buf _ _ _ Hk i bi Hi Hbi) as Hoi. rewrite bool_decide_true in Hoi by done.
  pose proof (bo_buf _ _ _ Hk j bj Hj Hbj) as Hoj. rewrite bool_decide_true in Hoj by done.
  pose proof (bu_held _ _ _ Hoi eq_refl) as Di. pose proof (bu_held _ _ _ Hoj eq_refl) as Dj.
  assert (b_blockno bi <> b_blockno bj) as Hne.
  { intros E. apply Hij. by eapply (bo_uniq _ _ _ Hk). }
  assert (b_flags bj = B_VALID \/ b_flags bj = VALID_DIRTY) as Hfj.
  { destruct (bu_flags _ _ _ Hoj) as [F|F]; [|done].
    destruct (bu_dev _ _ _ Hoj) as [[D0 _]|(_ & F0 & _)]; congruence. }
  destruct (held_update k mru {[i; j]} j bj (b_data bi) (b_flags bj) Hk Hinj Hbj (bu_len _ _ _ Hoi) Hfj)
    as (Hk1 & Hct1 & Hd1).
  replace (with_data (b_data bi) (with_flags (b_flags bj) bj)) with (with_data (b_data bi) bj) in *
    by (by destruct bj).
  set (k1 := set_bufs (<[j := with_data (b_data bi) bj]> (k_bufs k)) k) in *.
  assert (k_bufs k1 !! j = Some (with_data (b_data bi) bj)) as Hbj1
    by (by apply (insert_lookup_bufs _ _ _ _ Hbj)).
  destruct (bwrite_run k1 mru {[i; j]} j _ Hk1 (set_bufs_ready _ _ Hr) Hinj Hbj1) as (Ew & Hk2 & Hct2 & Hd2).
  set (k2 := set_disk _ _) in *.
  assert (k_bufs k2 !! i = Some bi) as Hbi2.
  { cbn. rewrite list_insert_insert_eq. by rewrite list_lookup_insert_ne. }
  assert (k_bufs k2 !! j = Some (with_flags B_VALID (with_data (b_data bi) bj))) as Hbj2
    by (by apply (insert_lookup_bufs _ _ _ _ Hbj1)).
  assert (ready k2) as Hr2 by (apply (ready_env k); [done|]; split_and!; done).
  assert (forall b, b <> b_blockno bj -> disk_block (k_disk k2) b = disk_block (k_disk k) b) as Hdb.
  { intros b Hb. unfold disk_block. cbn. by rewrite lookup_insert_ne by done. }
  destruct (brelse_run k2 mru {[i; j]} i bi Hk2 Hr2 Hini Hbi2) as (k3 & E3 & P3).
  { destruct Hsaved as [F|E]; [by left|right]. by rewrite Hdb. }
  destruct P3 as [Hf3 (l1 & l2 & _ & Hk3) Hct3 Hdk3 Hd3 Ho3].
  destruct (Ho3 j _ (not_eq_sym Hij) Hbj2) as (bj3 & Hbj3 & C3).
  assert (ready k3) as Hr3 by (by eapply bio_frame_ready).
  replace ({[i; j]} ∖ {[i]} : gset nat) with ({[j]} : gset nat) in Hk3 by set_solver.
  destruct (brelse_run k3 _ {[j]} j bj3 Hk3 Hr3 ltac:(set_solver) Hbj3) as (k4 & E4 & P4).
  { right. unfold core in C3. injection C3 as _ _ -> _ ->. rewrite Hdk3. unfold disk_block. cbn.
    by rewrite lookup_insert_eq. }
  destruct P4 as [Hf4 (l3 & l4 & _ & Hk4) Hct4 Hdk4 Hd4 _].
  replace ({[j]} ∖ {[j]} : gset nat) with (∅ : gset nat) in Hk4 by set_solver.
  pose proof (content_cached k mru {[i; j]} (b_blockno bi) i bi Hk ltac:(done)) as Eci.
  exists k4. split.
  { krun (buf_data_ok k i bi Hbi). krun (upd_buf_ok k j (with_data (b_data bi)) bj Hbj). fold k1. krun Ew. krun E3. done. }
  split.
  - etrans; [|etrans; [exact Hf3|exact Hf4]]. split; [done|done].
  - by eexists.
  - rewrite Hdk4, Hdk3, Eci. done.
  - intros b. rewrite Hct4, Hct3, Hct2, Hct1, Eci. done.
  - intros b. rewrite Hd4, Hd3, Hd2, Hd1. cbn. case_decide; naive_solver.
Qed.

(** Two blocks read one after the other, with the dirty blocks among [ds]. *)
Lemma read_two k mru ds b1 b2 :
  bcache_ok k mru ∅ -> ready k -> b1 <> b2 ->
  0 <= b1 < disksize (k_disk k) -> 0 <= b2 < disksize (k_disk k) ->
  (forall b, dirty k b -> b ∈ ds) ->
  dirty k b1 \/ (length ds < NBUF)%nat -> dirty k b2 \/ (length ds + 1 < NBUF)%nat ->
  exists i k1 j k2 bi bj, bread 1 b1 k = Ok i k1 /\ bread 1 b2 k1 = Ok j k2 /\
    bio_frame k k1 /\ bio_frame k k2 /\ bcache_ok k2 mru {[i; j]} /\ i <> j /\
    k_bufs k2 !! i = Some bi /\ k_bufs k2 !! j = Some bj /\
    b_blockno bi = b1 /\ b_blockno bj = b2 /\
    (b_flags bi = VALID_DIRTY \/ b_data bi = disk_block (k_disk k2) b1) /\
    (b_flags bj = VALID_DIRTY \/ b_data bj = disk_block (k_disk k2) b2) /\
    k_disk k2 = k_disk k /\ (forall b, content k2 b = content k b) /\ (forall b, dirty k2 b <-> dirty k b).
Proof.
  intros Hk Hr Hne R1 R2 Hds Hor1 Hor2.
  assert (forall b k0, dirty k0 b -> exists i bf, cached k0 b i bf) as Hdc.
  { intros b k0 (i & bf & Hc & _). eauto. }
  destruct (bread_run k mru ∅ b1 Hk Hr R1) as (i & k1 & E1 & P1).
  { intros i bf _. set_solver. }
  { destruct Hor1 as [D|L]; [left; eauto|right]. eapply (cache_room k mru ∅ ds); eauto.
    rewrite size_empty. lia. }
  destruct (bread_held k mru ∅ b1 i k1 Hk P1) as (bi & Hbi & Di & Ni & Ei & Fi & Fdi).
  pose proof P1 as [Hf1 Hk1 _ _ Hct1 Hdk1 Hd1 _].
  replace ({[i]} ∪ ∅ : gset nat) with ({[i]} : gset nat) in Hk1 by set_solver.
  assert (ready k1) as Hr1 by (by eapply bio_frame_ready).
  assert (forall i0 bf, cached k1 b2 i0 bf -> i0 ∉ ({[i]} : gset nat)) as Hnh.
  { intros i0 bf (_ & Hb0 & _ & N0) ->%elem_of_singleton. congruence. }
  destruct (bread_run k1 mru {[i]} b2 Hk1 Hr1) as (j & k2 & E2 & P2).
  { by rewrite Hdk1. }
  { exact Hnh. }
  { destruct Hor2 as [D|L]; [left; apply (Hdc b2); by apply Hd1|right].
    apply (cache_room k1 mru {[i]} ds); [done|intros b Hb; by apply Hds, Hd1|]. rewrite size_singleton. lia. }
  destruct (bread_held k1 mru {[i]} b2 j k2 Hk1 P2) as (bj & Hbj & Dj & Nj & Ej & Fj & Fdj).
  destruct P2 as [Hf2 Hk2 Hfr _ Hct2 Hdk2 Hd2 Ho2].
  assert (i <> j) as Hij by set_solver.
  exists i, k1, j, k2, bi, bj.
  split; [done|]. split; [done|]. split; [done|]. split; [by etrans|].
  split; [by replace ({[i; j]} : gset nat) with ({[j]} ∪ {[i]} : gset nat) by set_solver|].
  split; [done|]. split; [by rewrite Ho2|]. split; [done|]. split; [done|]. split; [done|].
  split.
  { destruct Fi as [F|F]; [right|by left]. rewrite Hdk2, Hdk1, Ei. eapply clean_content; [exact Hk|set_solver|].
    intros D. apply Fdi in D. rewrite F in D. done. }
  split.
  { destruct Fj as [F|F]; [right|by left]. rewrite Hdk2, Ej. eapply clean_content; [exact Hk1|exact Hnh|].
    intros D. apply Fdj in D. rewrite F in D. done. }
  split; [congruence|]. split.
  - intros b. by rewrite Hct2, Hct1.
  - intros b. by rewrite Hd2, Hd1.
Qed.

(** ** Sequences of copies *)

Definition disk_puts (ws : list (Z * list Z)) (d : disk) : disk :=
  foldl (fun d w => disk_put w.1 w.2 d) d ws.

(** Block [b] after the copies [ms] of (source, destination), read off [f]. *)
Definition moved (f : Z -> list Z) (ms : list (Z * Z)) (b : Z) : list Z :=
  foldl (fun c m => if decide (b = m.2) then f m.1 else c) (f b) ms.

Record copies (k : kernel) (ms : list (Z * Z)) (k' : kernel) : Prop := Copies {
  cs_frame : bio_frame k k';
  cs_ok : exists mru, bcache_ok k' mru ∅;
  cs_disk : k_disk k' = disk_puts ((fun m => (m.2, content k m.1)) <$> ms) (k_disk k);
  cs_content : forall b, content k' b = moved (content k) ms b;
  cs_dirty : forall b, dirty k' b <-> b ∉ ms.*2 /\ dirty k b
}.

Lemma copies_nil k mru : bcache_ok k mru ∅ -> copies k [] k.
Proof.
  intros Hk. split; try done. 1: by eexists. intros b. split; [|naive_solver].
  split; [apply not_elem_of_nil|done].
Qed.

Lemma copies_cons k s d k1 ms k' :
  copied k s d k1 -> copies k1 ms k' -> (forall m, m ∈ ms -> m.1 <> d) -> copies k ((s, d) :: ms) k'.
Proof.
  intros [Hf1 _ Hd1 Hc1 Hy1] [Hf2 Hok Hd2 Hc2 Hy2] Hs.
  assert (forall m, m ∈ ms -> content k1 m.1 = content k m.1) as Hsrc.
  { intros m Hm. rewrite Hc1. rewrite decide_False; [done|]. by apply Hs. }
  split.
  - by etrans.
  - done.
  - rewrite Hd2, Hd1. cbn [fmap list_fmap]. unfold disk_puts at 2. cbn [foldl fst snd].
    fold (disk_puts ((fun m => (m.2, content k m.1)) <$> ms) (disk_put d (content k s) (k_disk k))).
    f_equal. apply list_fmap_ext. intros i m Hm. f_equal. apply Hsrc. by eapply list_elem_of_lookup_2.
  - intros b. rewrite Hc2. unfold moved. cbn [foldl fst snd]. rewrite Hc1.
    clear Hc2 Hy2 Hd2 Hs. revert Hsrc. generalize (if decide (b = d) then content k s else content k b).
    induction ms as [|m ms IH]; intros c Hsrc; [done|]. cbn [foldl]. rewrite Hsrc by set_solver.
    apply IH. intros m' Hm'. apply Hsrc. set_solver.
  - intros b. rewrite Hy2, Hy1. cbn. rewrite not_elem_of_cons. tauto.
Qed.

(** ** install_trans and write_log *)

(** The log blocks from [first] paired with the home blocks [bs]. *)
Fixpoint log_pairs (first : Z) (bs : list Z) : list (Z * Z) :=
  match bs with
  | [] => []
  | b :: bs' => (first, b) :: log_pairs (first + 1) bs'
  end.
Definition swap (m : Z * Z) : Z * Z := (m.2, m.1).

(** Block [b] belongs to the log: the header and the log blocks. *)
Definition in_log (lg : log) (b : Z) : Prop := lg_start lg <= b < lg_start lg + lg_size lg.

(** The transaction [bs] in the in-memory log: where the log is, and which home blocks. *)
Record log_shape (lg : log) (size : Z) (bs : list Z) : Prop := LogShape {
  ls_dev : lg_dev lg = 1;
  ls_start : 0 <= lg_start lg;
  ls_n : lg_n lg = Z.of_nat (length bs);
  ls_max : (length bs <= 30)%nat;
  ls_room : Z.of_nat (length bs) < lg_size lg;
  ls_blocks : take (length bs) (lg_block lg) = bs;
  ls_len : length (lg_block lg) = 30%nat;
  ls_fits : lg_start lg + lg_size lg <= size;
  ls_size : size <= 2 ^ 31;
  ls_home : forall b, b ∈ bs -> 0 <= b < size /\ ~ in_log lg b
}.

Lemma log_shape_lookup lg size bs t b :
  log_shape lg size bs -> bs !! t = Some b -> lg_block lg !! t = Some b.
Proof.
  intros H Hb. rewrite <-(ls_blocks _ _ _ H) in Hb. by apply lookup_take_Some in Hb as [? _].
Qed.

Lemma lh_block_ok k t b : lg_block (k_log k) !! t = Some b -> lh_block t k = Ok b k.
Proof. intros H. unfold lh_block. kr. by rewrite H. Qed.

Lemma bio_frame_log k k' : bio_frame k k' -> k_log k' = k_log k.
Proof. intros [-> _]. done. Qed.

Lemma copy_then k i j k' (rest : K unit) :
  (d <- buf_data i ;; upd_buf j (with_data d) ;;; bwrite j ;;; brelse i ;;; brelse j) k = Ok tt k' ->
  (d <- buf_data i ;; upd_buf j (with_data d) ;;; bwrite j ;;; brelse i ;;; brelse j ;;; rest) k = rest k'.
Proof.
  unfold bind. destruct (buf_data i k) as [d kd| | | | |]; cbn [obind]; try done.
  destruct (upd_buf j (with_data d) kd) as [[] ke| | | | |]; cbn [obind]; try done.
  destruct (bwrite j ke) as [[] kf| | | | |]; cbn [obind]; try done.
  destruct (brelse i kf) as [[] kg| | | | |]; cbn [obind]; try done.
  intros ->. done.
Qed.

(** The copy made by an iteration that starts by reading two blocks. *)
Lemma copied_from k k2 s d k' :
  bio_frame k k2 -> k_disk k2 = k_disk k -> (forall b, content k2 b = content k b) ->
  (forall b, dirty k2 b <-> dirty k b) -> copied k2 s d k' -> copied k s d k'.
Proof.
  intros Hf Hdk Hct Hdi [Cf Co Cd Cc Cy]. split.
  - by etrans.
  - done.
  - by rewrite Cd, Hct, Hdk.
  - intros b'. by rewrite Cc, !Hct.
  - intros b'. by rewrite Cy, Hdi.
Qed.

(** One iteration of either loop. *)
Lemma install_step k mru bs ds fuel t b :
  bcache_ok k mru ∅ -> ready k -> log_shape (k_log k) (disksize (k_disk k)) bs -> bs !! t = Some b ->
  (forall b, dirty k b -> b ∈ ds) -> (length ds < NBUF)%nat ->
  dirty k b \/ (length ds + 1 < NBUF)%nat ->
  exists k', install_trans_from (S fuel) t k = install_trans_from fuel (S t) k' /\
    copied k (lg_start (k_log k) + 1 + Z.of_nat t) b k'.
Proof.
  intros Hk Hr Hls Hb Hds Hroom Hor. pose proof Hls as [Hdev Hst Hn Hmax Hrm Hbl Hlen Hfit Hsz Hhome].
  assert (t < length bs)%nat as Ht by (by eapply lookup_lt_Some).
  destruct (Hhome b ltac:(by eapply list_elem_of_lookup_2)) as [Hbr Hbn].
  set (s := lg_start (k_log k) + 1 + Z.of_nat t).
  assert (in_log (k_log k) s /\ s <> lg_start (k_log k)) as [Hs _] by (unfold in_log, s; lia).
  unfold in_log in Hs, Hbn.
  destruct (read_two k mru ds s b) as (i & k1 & j & k2 & bi & bj & E1 & E2 & Hf1 & Hf & Hk2 & Hij & Hbi & Hbj &
    Ni & Nj & Si & Sj & Hdk & Hct & Hdi); [done|done|lia|lia|lia|done|by right|done|].
  destruct (copy_finish k2 mru i j bi bj Hk2 (bio_frame_ready _ _ Hr Hf) Hij Hbi Hbj) as (k' & E & C).
  { rewrite Ni. done. }
  exists k'. split.
  - cbn [install_trans_from]. unfold bind at 1, gets at 1. cbn [obind].
    rewrite Hn, (proj2 (Z.ltb_lt _ _)) by lia. cbn [negb]. rewrite Hdev.
    replace (u32 (lg_start (k_log k) + Z.of_nat t + 1)) with s by (unfold s; mach).
    krun E1.
    rewrite (obind_ok _ _ _ _ _ (lh_block_ok k1 t b
      ltac:(rewrite (bio_frame_log _ _ Hf1); by eapply log_shape_lookup))).
    replace (u32 b) with b by mach. krun E2.
    by apply copy_then.
  - rewrite Ni, Nj in C. by eapply copied_from.
Qed.

Lemma write_log_step k mru bs ds fuel t b :
  bcache_ok k mru ∅ -> ready k -> log_shape (k_log k) (disksize (k_disk k)) bs -> bs !! t = Some b ->
  (forall b, dirty k b -> b ∈ ds) -> (length ds < NBUF)%nat ->
  dirty k b \/ (length ds + 1 < NBUF)%nat ->
  exists k', write_log_from (S fuel) t k = write_log_from fuel (S t) k' /\
    copied k b (lg_start (k_log k) + 1 + Z.of_nat t) k'.
Proof.
  intros Hk Hr Hls Hb Hds Hroom Hor. pose proof Hls as [Hdev Hst Hn Hmax Hrm Hbl Hlen Hfit Hsz Hhome].
  assert (t < length bs)%nat as Ht by (by eapply lookup_lt_Some).
  destruct (Hhome b ltac:(by eapply list_elem_of_lookup_2)) as [Hbr Hbn].
  set (s := lg_start (k_log k) + 1 + Z.of_nat t).
  assert (in_log (k_log k) s /\ s <> lg_start (k_log k)) as [Hs _] by (unfold in_log, s; lia).
  unfold in_log in Hs, Hbn.
  destruct (read_two k mru ds s b) as (i & k1 & j & k2 & bi & bj & E1 & E2 & Hf1 & Hf & Hk2 & Hij & Hbi & Hbj &
    Ni & Nj & Si & Sj & Hdk & Hct & Hdi); [done|done|lia|lia|lia|done|by right|done|].
  replace ({[i; j]} : gset nat) with ({[j; i]} : gset nat) in Hk2 by set_solver.
  destruct (copy_finish k2 mru j i bj bi Hk2 (bio_frame_ready _ _ Hr Hf) (not_eq_sym Hij) Hbj Hbi) as (k' & E & C).
  { rewrite Nj. done. }
  exists k'. split.
  - cbn [write_log_from]. unfold bind at 1, gets at 1. cbn [obind].
    rewrite Hn, (proj2 (Z.ltb_lt _ _)) by lia. cbn [negb]. rewrite Hdev.
    replace (u32 (lg_start (k_log k) + Z.of_nat t + 1)) with s by (unfold s; mach).
    krun E1.
    rewrite (obind_ok _ _ _ _ _ (lh_block_ok k1 t b
      ltac:(rewrite (bio_frame_log _ _ Hf1); by eapply log_shape_lookup))).
    replace (u32 b) with b by mach. krun E2. by apply copy_then.
  - rewrite Ni, Nj in C. by eapply copied_from.
Qed.

Lemma disksize_puts ws d : disksize (disk_puts ws d) = disksize d.
Proof. revert d. induction ws as [|w ws IH]; intros d; [done|]. apply (IH (disk_put w.1 w.2 d)). Qed.

Lemma log_pairs_elem first bs m :
  m ∈ log_pairs first bs -> first <= m.1 < first + Z.of_nat (length bs) /\ m.2 ∈ bs.
Proof.
  revert first. induction bs as [|b bs IH]; intros first; cbn; [by rewrite elem_of_nil|].
  rewrite elem_of_cons. intros [->|Hm]; cbn; [split; [lia|set_solver]|].
  destruct (IH _ Hm) as [? ?]. split; [lia|set_solver].
Qed.

Lemma copied_disksize k s d k' : copied k s d k' -> disksize (k_disk k') = disksize (k_disk k).
Proof. intros C. by rewrite (cp_disk _ _ _ _ C). Qed.

Lemma install_loop bs ds : forall rest t k mru fuel,
  drop t bs = rest -> (length rest <= fuel)%nat ->
  bcache_ok k mru ∅ -> ready k -> log_shape (k_log k) (disksize (k_disk k)) bs ->
  (forall b, dirty k b -> b ∈ ds) -> (length ds < NBUF)%nat ->
  (forall b, b ∈ rest -> dirty k b) /\ NoDup rest \/ (length ds + 1 < NBUF)%nat ->
  exists k', install_trans_from fuel t k = Ok tt k' /\
    copies k (log_pairs (lg_start (k_log k) + 1 + Z.of_nat t) rest) k'.
Proof.
  induction rest as [|b rest IH]; intros t k mru fuel Hdrop Hfuel Hk Hr Hls Hds Hroom Hor.
  - exists k. split; [|by eapply copies_nil].
    assert (length bs <= t)%nat as Hge.
    { apply (f_equal length) in Hdrop. rewrite length_drop in Hdrop. cbn in Hdrop. lia. }
    destruct fuel; cbn [install_trans_from]; kr; rewrite (ls_n _ _ _ Hls), (proj2 (Z.ltb_ge _ _)) by lia; done.
  - destruct fuel as [|fuel]; [cbn in Hfuel; lia|].
    assert (bs !! t = Some b) as Hb.
    { rewrite <-(Nat.add_0_r t), <-lookup_drop, Hdrop. done. }
    destruct (install_step k mru bs ds fuel t b Hk Hr Hls Hb Hds Hroom) as (k1 & E & C).
    { destruct Hor as [[H _]|H]; [left; apply H; set_solver|by right]. }
    rewrite E. pose proof C as [Cf [mru1 Co] Cd Cc Cy].
    destruct (IH (S t) k1 mru1 fuel) as (k' & E' & Cs).
    + rewrite (drop_S bs b t Hb) in Hdrop. by injection Hdrop.
    + cbn in Hfuel. lia.
    + done.
    + by eapply bio_frame_ready.
    + rewrite (bio_frame_log _ _ Cf), (copied_disksize _ _ _ _ C). done.
    + intros b' Hb'. apply Cy in Hb' as [_ Hb']. by apply Hds.
    + done.
    + destruct Hor as [[H Hnd]|H]; [left|by right]. apply NoDup_cons in Hnd as [Hni Hnd]. split; [|done].
      intros b' Hb'. apply Cy. split; [|apply H; set_solver]. intros ->. done.
    + exists k'. split; [done|]. cbn [log_pairs]. rewrite (bio_frame_log _ _ Cf) in Cs.
      replace (lg_start (k_log k) + 1 + Z.of_nat (S t)) with (lg_start (k_log k) + 1 + Z.of_nat t + 1) in Cs by lia.
      eapply copies_cons; [done|done|]. intros m Hm.
      apply log_pairs_elem in Hm as [Hm _]. pose proof (ls_home _ _ _ Hls b ltac:(by eapply list_elem_of_lookup_2)) as [_ Hnl].
      pose proof (ls_max _ _ _ Hls) as Hmx.
      assert (length rest <= length bs - S t)%nat as Hlr.
      { apply (f_equal length) in Hdrop. rewrite length_drop in Hdrop. cbn in Hdrop. lia. }
      assert (t < length bs)%nat by (by eapply lookup_lt_Some).
      pose proof (ls_room _ _ _ Hls). unfold in_log in Hnl. lia.
Qed.

Lemma write_log_loop bs ds : forall rest t k mru fuel,
  drop t bs = rest -> (length rest <= fuel)%nat ->
  bcache_ok k mru ∅ -> ready k -> log_shape (k_log k) (disksize (k_disk k)) bs ->
  (forall b, dirty k b -> b ∈ ds) -> (length ds < NBUF)%nat -> (forall b, b ∈ rest -> dirty k b) ->
  exists k', write_log_from fuel t k = Ok tt k' /\
    copies k (swap <$> log_pairs (lg_start (k_log k) + 1 + Z.of_nat t) rest) k'.
Proof.
  induction rest as [|b rest IH]; intros t k mru fuel Hdrop Hfuel Hk Hr Hls Hds Hroom Hor.
  - exists k. split; [|by eapply copies_nil].
    assert (length bs <= t)%nat as Hge.
    { apply (f_equal length) in Hdrop. rewrite length_drop in Hdrop. cbn in Hdrop. lia. }
    destruct fuel; cbn [write_log_from]; kr; rewrite (ls_n _ _ _ Hls), (proj2 (Z.ltb_ge _ _)) by lia; done.
  - destruct fuel as [|fuel]; [cbn in Hfuel; lia|].
    assert (bs !! t = Some b) as Hb.
    { rewrite <-(Nat.add_0_r t), <-lookup_drop, Hdrop. done. }
    destruct (write_log_step k mru bs ds fuel t b Hk Hr Hls Hb Hds Hroom) as (k1 & E & C).
    { left. apply Hor. set_solver. }
    rewrite E. pose proof C as [Cf [mru1 Co] Cd Cc Cy].
    assert (t < length bs)%nat as Ht by (by eapply lookup_lt_Some).
    assert (length rest <= length bs - S t)%nat as Hlr.
    { apply (f_equal length) in Hdrop. rewrite length_drop in Hdrop. cbn in Hdrop. lia. }
    assert (forall b', b' ∈ b :: rest -> b' <> lg_start (k_log k) + 1 + Z.of_nat t) as Hnl.
    { intros b' Hb'. rewrite <-Hdrop in Hb'.
      pose proof (ls_home _ _ _ Hls b' ltac:(rewrite <-(take_drop t bs); set_solver)) as [_ Hnl].
      pose proof (ls_room _ _ _ Hls). unfold in_log in Hnl. lia. }
    destruct (IH (S t) k1 mru1 fuel) as (k' & E' & Cs).
    + rewrite (drop_S bs b t Hb) in Hdrop. by injection Hdrop.
    + cbn in Hfuel. lia.
    + done.
    + by eapply bio_frame_ready.
    + rewrite (bio_frame_log _ _ Cf), (copied_disksize _ _ _ _ C). done.
    + intros b' Hb'. apply Cy in Hb' as [_ Hb']. by apply Hds.
    + done.
    + intros b' Hb'. apply Cy. split; [apply Hnl|apply Hor]; set_solver.
    + exists k'. split; [done|]. cbn [log_pairs fmap list_fmap]. rewrite (bio_frame_log _ _ Cf) in Cs.
      replace (lg_start (k_log k) + 1 + Z.of_nat (S t)) with (lg_start (k_log k) + 1 + Z.of_nat t + 1) in Cs by lia.
      eapply copies_cons; [done|done|]. intros m Hm.
      apply list_elem_of_fmap in Hm as (m' & -> & Hm'). apply log_pairs_elem in Hm' as [_ Hm'].
      cbn. apply Hnl. set_solver.
Qed.

(** ** The header block *)

Fixpoint put_blocks (d : list Z) (i : nat) (bs : list Z) : list Z :=
  match bs with
  | [] => d
  | b :: bs' => put_blocks (put32 d (4 + 4 * i) b) (S i) bs'
  end.
Definition head_data (d : list Z) (bs : list Z) : list Z :=
  put_blocks (put32 d 0 (Z.of_nat (length bs))) 0 bs.

Lemma length_put_blocks bs : forall d i,
  (4 + 4 * (i + length bs) <= length d)%nat -> length (put_blocks d i bs) = length d.
Proof.
  induction bs as [|b bs IH]; intros d i H; [done|]. cbn [put_blocks]. cbn [length] in H.
  rewrite IH; rewrite length_put32; lia.
Qed.

Lemma put_blocks_below bs : forall d i off,
  (4 + 4 * (i + length bs) <= length d)%nat -> (off + 4 <= 4 + 4 * i)%nat ->
  get32 (put_blocks d i bs) off = get32 d off.
Proof.
  induction bs as [|b bs IH]; intros d i off H Ho; [done|]. cbn [put_blocks]. cbn [length] in H.
  rewrite IH; [|rewrite length_put32; lia|lia]. apply get32_put32_ne; lia.
Qed.

Lemma put_blocks_get bs : forall d i j b,
  (4 + 4 * (i + length bs) <= length d)%nat -> bs !! j = Some b ->
  get32 (put_blocks d i bs) (4 + 4 * (i + j)) = u32 b.
Proof.
  induction bs as [|b0 bs IH]; intros d i j b H Hj; [done|]. cbn [put_blocks]. cbn [length] in H.
  destruct j as [|j].
  - injection Hj as ->. rewrite Nat.add_0_r. rewrite put_blocks_below; [|rewrite length_put32; lia|lia].
    apply get32_put32. lia.
  - replace (i + S j)%nat with (S i + j)%nat by lia. apply IH; [rewrite length_put32; lia|done].
Qed.

Lemma length_head_data d bs :
  length d = 512%nat -> (length bs <= 30)%nat -> length (head_data d bs) = 512%nat.
Proof. intros Hd Hb. unfold head_data. rewrite length_put_blocks; rewrite length_put32; lia. Qed.

Lemma head_data_n d bs :
  length d = 512%nat -> (length bs <= 30)%nat -> get32 (head_data d bs) 0 = Z.of_nat (length bs).
Proof.
  intros Hd Hb. unfold head_data. rewrite put_blocks_below; [|rewrite length_put32; lia|lia].
  rewrite get32_put32 by lia. apply u32_small. unfold in_u32. lia.
Qed.

Lemma head_data_block d bs j b :
  length d = 512%nat -> (length bs <= 30)%nat -> bs !! j = Some b ->
  get32 (head_data d bs) (4 + 4 * j) = u32 b.
Proof.
  intros Hd Hb Hj. unfold head_data. apply (put_blocks_get bs _ 0); [rewrite length_put32; lia|done].
Qed.

Lemma write_head_loop bs buf : forall rest i k fuel bf size,
  drop i bs = rest -> (length rest <= fuel)%nat -> log_shape (k_log k) size bs ->
  k_bufs k !! buf = Some bf ->
  write_head_from fuel buf i k
  = Ok tt (set_bufs (<[buf := with_data (put_blocks (b_data bf) i rest) bf]> (k_bufs k)) k).
Proof.
  induction rest as [|b rest IH]; intros i k fuel bf size Hdrop Hfuel Hls Hbf.
  - assert (length bs <= i)%nat as Hge.
    { apply (f_equal length) in Hdrop. rewrite length_drop in Hdrop. cbn in Hdrop. lia. }
    cbn [put_blocks]. replace (with_data (b_data bf) bf) with bf by (by destruct bf).
    rewrite list_insert_id by done.
    destruct fuel; cbn [write_head_from]; kr; rewrite (ls_n _ _ _ Hls), (proj2 (Z.ltb_ge _ _)) by lia;
      cbn; by destruct k.
  - destruct fuel as [|fuel]; [cbn in Hfuel; lia|].
    assert (bs !! i = Some b) as Hb by (rewrite <-(Nat.add_0_r i), <-lookup_drop, Hdrop; done).
    assert (i < length bs)%nat as Hi by (by eapply lookup_lt_Some).
    cbn [write_head_from]. unfold bind at 1, gets at 1. cbn [obind].
    rewrite (ls_n _ _ _ Hls), (proj2 (Z.ltb_lt _ _)) by lia. cbn [negb].
    krun (lh_block_ok k i b ltac:(by eapply log_shape_lookup)).
    krun (upd_buf_ok k buf (fun bf => with_data (put32 (b_data bf) (4 + 4 * i) b) bf) bf Hbf).
    rewrite (IH (S i) _ fuel (with_data (put32 (b_data bf) (4 + 4 * i) b) bf) size).
    + cbn [k_bufs set_bufs]. rewrite list_insert_insert_eq. done.
    + rewrite (drop_S bs b i Hb) in Hdrop. by injection Hdrop.
    + cbn in Hfuel. lia.
    + done.
    + by apply (insert_lookup_bufs _ _ _ _ Hbf).
Qed.

(** After the header block was rewritten with the transaction [bs]. *)
Record headed (k : kernel) (bs : list Z) (k' : kernel) : Prop := Headed {
  hd_frame : bio_frame k k';
  hd_ok : exists mru, bcache_ok k' mru ∅;
  hd_disk : k_disk k' = disk_put (lg_start (k_log k)) (head_data (content k (lg_start (k_log k))) bs) (k_disk k);
  hd_content : forall b, content k' b = if decide (b = lg_start (k_log k))
                 then head_data (content k (lg_start (k_log k))) bs else content k b;
  hd_dirty : forall b, dirty k' b <-> b <> lg_start (k_log k) /\ dirty k b
}.

Lemma write_head_run k mru bs ds :
  bcache_ok k mru ∅ -> ready k -> log_shape (k_log k) (disksize (k_disk k)) bs ->
  (forall b, dirty k b -> b ∈ ds) -> (length ds < NBUF)%nat ->
  exists k', write_head k = Ok tt k' /\ headed k bs k'.
Proof.
  intros Hk Hr Hls Hds Hroom. pose proof Hls as [Hdev Hst Hn Hmax Hrm Hbl Hlen Hfit Hsz Hhome].
  set (S := lg_start (k_log k)) in *.
  assert (0 <= S < disksize (k_disk k)) as HS by lia.
  destruct (bread_run k mru ∅ S Hk Hr HS) as (i & k1 & E1 & P1).
  { set_solver. }
  { right. eapply (cache_room k mru ∅ ds); eauto. rewrite size_empty. lia. }
  destruct (bread_held k mru ∅ S i k1 Hk P1) as (bf & Hbf & D & N & Edt & F & Fd).
  destruct P1 as [Hf1 Hk1 _ _ Hct1 Hdk1 Hd1 _].
  replace ({[i]} ∪ ∅ : gset nat) with ({[i]} : gset nat) in Hk1 by set_solver.
  assert (ready k1) as Hr1 by (by eapply bio_frame_ready).
  pose proof (length_content k mru ∅ S Hk) as Hlc.
  set (hd := head_data (content k S) bs).
  assert (length hd = 512%nat) as Hlh by (by apply length_head_data).
  destruct (held_update k1 mru {[i]} i bf hd (b_flags bf) Hk1 ltac:(set_solver) Hbf Hlh F) as (Hk2 & Hct2 & Hd2).
  replace (with_data hd (with_flags (b_flags bf) bf)) with (with_data hd bf) in * by (by destruct bf).
  set (k2 := set_bufs (<[i := with_data hd bf]> (k_bufs k1)) k1) in *.
  assert (k_bufs k2 !! i = Some (with_data hd bf)) as Hbf2 by (by apply (insert_lookup_bufs _ _ _ _ Hbf)).
  destruct (bwrite_run k2 mru {[i]} i _ Hk2 (set_bufs_ready _ _ Hr1) ltac:(set_solver) Hbf2) as (Ew & Hk3 & Hct3 & Hd3).
  set (k3 := set_disk _ _) in *.
  assert (k_bufs k3 !! i = Some (with_flags B_VALID (with_data hd bf))) as Hbf3
    by (by apply (insert_lookup_bufs _ _ _ _ Hbf2)).
  destruct (brelse_run k3 mru {[i]} i _ Hk3 ltac:(apply (ready_env k1); [done|]; split_and!; done)
    ltac:(set_solver) Hbf3) as (k4 & E4 & [Hf4 (l1 & l2 & _ & Hk4) Hct4 Hdk4 Hd4 _]).
  { right. cbn. unfold disk_block. cbn. by rewrite lookup_insert_eq. }
  replace ({[i]} ∖ {[i]} : gset nat) with (∅ : gset nat) in Hk4 by set_solver.
  exists k4. split.
  - unfold write_head. unfold bind at 1, gets at 1. cbn [obind]. rewrite Hdev.
    replace (u32 (lg_start (k_log k))) with S by (unfold S; mach). krun E1.
    unfold bind at 1, gets at 1. cbn [obind]. rewrite (bio_frame_log _ _ Hf1), Hn.
    krun (upd_buf_ok k1 i (fun bf => with_data (put32 (b_data bf) 0 (Z.of_nat (length bs))) bf) bf Hbf).
    set (kh := set_bufs _ k1).
    rewrite (obind_ok _ _ _ _ _ (write_head_loop bs i bs 0 kh LOG_FUEL _ (disksize (k_disk k)) (drop_0 bs)
      ltac:(unfold LOG_FUEL; change (Z.to_nat LOGSIZE) with 30%nat; lia)
      ltac:(cbn [k_log kh set_bufs]; rewrite (bio_frame_log _ _ Hf1); exact Hls)
      (insert_lookup_bufs _ _ _ _ Hbf))).
    unfold kh. cbn [k_bufs set_bufs]. rewrite list_insert_insert_eq, set_bufs_twice. cbn [b_data with_data].
    rewrite Edt. change (with_data _ (with_data _ bf)) with (with_data hd bf). fold k2. krun Ew. done.
  - split.
    + etrans; [exact Hf1|]. etrans; [|exact Hf4]. split; [done|done].
    + by eexists.
    + rewrite Hdk4. cbn. by rewrite N, Hdk1.
    + intros b. rewrite Hct4, Hct3, Hct2, Hct1, N. done.
    + intros b. rewrite Hd4, Hd3, Hd2. cbn. rewrite N. specialize (Hd1 b). case_decide; naive_solver.
Qed.

(** ** Reading off sequences of writes *)

Definition after_writes (ws : list (Z * list Z)) (c : list Z) (b : Z) : list Z :=
  foldl (fun c w => if decide (b = w.1) then w.2 else c) c ws.

Lemma disk_block_puts ws : forall d b,
  disk_block (disk_puts ws d) b = after_writes ws (disk_block d b) b.
Proof.
  induction ws as [|[b0 x] ws IH]; intros d b; [done|].
  unfold disk_puts, after_writes. cbn [foldl fst snd].
  change (disk_block (disk_puts ws (disk_put b0 x d)) b = after_writes ws (if decide (b = b0) then x else disk_block d b) b).
  rewrite IH. f_equal. unfold disk_block. cbn. case_decide as E; [by rewrite E, lookup_insert_eq|].
  by rewrite lookup_insert_ne.
Qed.

Lemma after_writes_app ws1 ws2 c b :
  after_writes (ws1 ++ ws2) c b = after_writes ws2 (after_writes ws1 c b) b.
Proof. unfold after_writes. by rewrite foldl_app. Qed.

Lemma after_writes_other ws c b : b ∉ ws.*1 -> after_writes ws c b = c.
Proof.
  revert c. induction ws as [|[b0 x] ws IH]; intros c; [done|]. cbn. rewrite not_elem_of_cons. intros [H1 H2].
  unfold after_writes. cbn. rewrite decide_False by done. by apply IH.
Qed.

Lemma after_writes_same ws c b x : (forall y, (b, y) ∈ ws -> y = x) -> c = x -> after_writes ws c b = x.
Proof.
  revert c. induction ws as [|[b0 y] ws IH]; intros c H ->; [done|].
  unfold after_writes. cbn. apply IH; [intros z Hz; apply H; set_solver|].
  case_decide as E; [|done]. apply H. rewrite E. set_solver.
Qed.

Lemma after_writes_in ws c b x :
  (b, x) ∈ ws -> (forall y, (b, y) ∈ ws -> y = x) -> after_writes ws c b = x.
Proof.
  revert c. induction ws as [|[b0 y] ws IH]; intros c; [by rewrite elem_of_nil|].
  intros Hin H. unfold after_writes. cbn [foldl fst snd].
  change (after_writes ws (if decide (b = b0) then y else c) b = x).
  apply elem_of_cons in Hin as [[= <- <-]|Hin].
  - apply after_writes_same; [intros z Hz; apply H; set_solver|]. by rewrite decide_True.
  - apply IH; [done|]. intros z Hz. apply H. set_solver.
Qed.

Lemma moved_writes f ms b :
  moved f ms b = after_writes ((fun m => (m.2, f m.1)) <$> ms) (f b) b.
Proof.
  unfold moved, after_writes. generalize (f b). induction ms as [|m ms IH]; intros c; [done|]. cbn. apply IH.
Qed.

Lemma log_pairs_lookup first bs j b :
  bs !! j = Some b -> (first + Z.of_nat j, b) ∈ log_pairs first bs.
Proof.
  revert first j. induction bs as [|b0 bs IH]; intros first j; [done|]. cbn.
  destruct j as [|j]; cbn.
  - intros [= ->]. rewrite Z.add_0_r. set_solver.
  - intros H. apply elem_of_cons. right. specialize (IH (first + 1) j H).
    by replace (first + Z.of_nat (S j)) with (first + 1 + Z.of_nat j) by lia.
Qed.

Lemma log_pairs_inv first bs m :
  m ∈ log_pairs first bs -> exists j, bs !! j = Some m.2 /\ m.1 = first + Z.of_nat j.
Proof.
  revert first. induction bs as [|b bs IH]; intros first; cbn; [by rewrite elem_of_nil|].
  rewrite elem_of_cons. intros [->|Hm].
  - exists 0%nat. cbn. split; [done|lia].
  - destruct (IH _ Hm) as (j & Hj & E). exists (S j). split; [done|]. lia.
Qed.

(** The writes of the log blocks, and of the home blocks, of a transaction whose home
    blocks [bs] hold [f]. *)
Definition log_writes (f : Z -> list Z) (first : Z) (bs : list Z) : list (Z * list Z) :=
  (fun m => (m.1, f m.2)) <$> log_pairs first bs.
Definition home_writes (f : Z -> list Z) (bs : list Z) : list (Z * list Z) :=
  (fun b => (b, f b)) <$> bs.

Lemma log_writes_in f first bs j b :
  bs !! j = Some b -> after_writes (log_writes f first bs) (f (first + Z.of_nat j)) (first + Z.of_nat j) = f b.
Proof.
  intros Hb. apply after_writes_in.
  - apply list_elem_of_fmap. exists (first + Z.of_nat j, b). split; [done|]. by apply log_pairs_lookup.
  - intros y Hy. apply list_elem_of_fmap in Hy as (m & E & Hm). injection E as E1 ->.
    apply log_pairs_inv in Hm as (j' & Hj' & E2). assert (j' = j) as -> by lia. congruence.
Qed.

Lemma home_writes_in f bs c b : b ∈ bs -> after_writes (home_writes f bs) c b = f b.
Proof.
  intros Hb. apply after_writes_in.
  - apply list_elem_of_fmap. by exists b.
  - intros y Hy. apply list_elem_of_fmap in Hy as (b' & E & _). by injection E as <- ->.
Qed.

Lemma home_writes_keys f bs : (home_writes f bs).*1 = bs.
Proof. unfold home_writes. rewrite <-list_fmap_compose. rewrite <-(list_fmap_id bs) at 2. by apply list_fmap_ext. Qed.

Lemma log_writes_keys f first bs b :
  b ∈ (log_writes f first bs).*1 -> first <= b < first + Z.of_nat (length bs).
Proof.
  unfold log_writes. rewrite <-list_fmap_compose. intros (m & -> & Hm)%list_elem_of_fmap.
  by apply log_pairs_elem in Hm as [? _].
Qed.

(** ** commit *)

Record commit_ready (k : kernel) (mru : list nat) (bs : list Z) : Prop := CommitReady {
  cr_cache : bcache_ok k mru ∅;
  cr_ready : ready k;
  cr_shape : log_shape (k_log k) (disksize (k_disk k)) bs;
  cr_nodup : NoDup bs;
  cr_dirty : forall b, dirty k b <-> b ∈ bs;
  cr_room : (length bs < NBUF)%nat
}.

Definition commit_writes (k : kernel) (bs : list Z) : list (Z * list Z) :=
  let S := lg_start (k_log k) in
  let hd := head_data (content k S) bs in
  log_writes (content k) (S + 1) bs ++ [(S, hd)] ++ home_writes (content k) bs ++ [(S, head_data hd [])].

Lemma bcache_ok_log k mru held lg : bcache_ok k mru held -> bcache_ok (set_log lg k) mru held.
Proof. intros [? ? ? ? ? ? ? ?]. by split. Qed.

Lemma ready_log k lg : ready k -> ready (set_log lg k).
Proof. intros Hr. apply (ready_env k); [done|]. split_and!; done. Qed.

Lemma log_shape_clear lg size bs : log_shape lg size bs -> log_shape (set_lh 0 (lg_block lg) lg) size [].
Proof. intros [? ? ? ? ? ? ? ? ?]. split; cbn; try done; try lia. intros b Hb. by apply elem_of_nil in Hb. Qed.

Lemma disk_puts_app ws1 ws2 d : disk_puts (ws1 ++ ws2) d = disk_puts ws2 (disk_puts ws1 d).
Proof. unfold disk_puts. by rewrite foldl_app. Qed.

(** What calls of the log leave unchanged. *)
Definition log_frame (k k' : kernel) : Prop := bio_frame (set_log (k_log k') k) k'.

Lemma log_frame_set k k1 lg k2 : bio_frame k k1 -> bio_frame (set_log lg k1) k2 -> log_frame k k2.
Proof.
  intros (F & A & S) Hf. unfold log_frame. rewrite (bio_frame_log _ _ Hf). etrans; [|exact Hf].
  split; [rewrite F at 1; done|done].
Qed.

Lemma log_frame_trans k1 k2 k3 : log_frame k1 k2 -> log_frame k2 k3 -> log_frame k1 k3.
Proof.
  unfold log_frame. intros (F & A & S) Hf. etrans; [|exact Hf].
  split; [rewrite F at 1; done|done].
Qed.

Lemma commit_run k mru bs :
  commit_ready k mru bs -> bs <> [] ->
  exists k', commit k = Ok tt k' /\ log_frame k k' /\ (exists mru', bcache_ok k' mru' ∅) /\
    k_log k' = set_lh 0 (lg_block (k_log k)) (k_log k) /\
    k_disk k' = disk_puts (commit_writes k bs) (k_disk k) /\ (forall b, ~ dirty k' b) /\
    forall b, ~ in_log (k_log k) b -> content k' b = content k b.
Proof.
  intros [Hk Hr Hls Hnd Hdi Hroom] Hne. pose proof Hls as [Hdev Hst Hn Hmax Hrm Hbl Hlen Hfit Hsz Hhome].
  unfold in_log in *. set (S := lg_start (k_log k)) in *.
  destruct (write_log_loop bs bs bs 0 k mru LOG_FUEL (drop_0 bs)) as (k1 & E1 & [Hf1 [mru1 Hk1] Hd1 Hc1 Hy1]);
    try done.
  { unfold LOG_FUEL. change (Z.to_nat LOGSIZE) with 30%nat. lia. }
  { intros b. apply Hdi. }
  { intros b Hb. by apply Hdi. }
  fold S in Hd1, Hc1, Hy1. replace (S + 1 + Z.of_nat 0) with (S + 1) in * by lia.
  assert ((fun m => (m.2, content k m.1)) <$> (swap <$> log_pairs (S + 1) bs) = log_writes (content k) (S + 1) bs) as Ew1.
  { unfold log_writes. rewrite <-list_fmap_compose. by apply list_fmap_ext. }
  rewrite Ew1 in Hd1.
  assert (forall b, content k1 b = after_writes (log_writes (content k) (S + 1) bs) (content k b) b) as Hc1'.
  { intros b. by rewrite Hc1, moved_writes, Ew1. }
  assert (forall b, ~ (S + 1 <= b < S + 1 + Z.of_nat (length bs)) -> content k1 b = content k b) as Hc1o.
  { intros b Hb. rewrite Hc1'. apply after_writes_other. intros H. apply Hb. by apply log_writes_keys in H. }
  assert (forall b, dirty k1 b <-> b ∈ bs) as Hdi1.
  { intros b. rewrite Hy1, Hdi. split; [tauto|]. intros Hb. split; [|done].
    rewrite <-list_fmap_compose. intros (m & -> & Hm)%list_elem_of_fmap. cbn in Hb.
    apply log_pairs_elem in Hm as [Hm _]. destruct (Hhome _ Hb) as [_ Hx]. lia. }
  assert (k_log k1 = k_log k) as El1 by (by apply bio_frame_log).
  assert (disksize (k_disk k1) = disksize (k_disk k)) as Es1 by (by rewrite Hd1, disksize_puts).
  assert (ready k1) as Hr1 by (by eapply bio_frame_ready).
  destruct (write_head_run k1 mru1 bs bs Hk1 Hr1) as (k2 & E2 & [Hf2 [mru2 Hk2] Hd2 Hc2 Hy2]);
    [by rewrite El1, Es1|intros b; apply Hdi1|done|].
  rewrite El1 in Hd2, Hc2, Hy2. fold S in Hd2, Hc2, Hy2. rewrite (Hc1o S) in Hd2, Hc2 by lia.
  set (hd := head_data (content k S) bs) in *.
  assert (k_log k2 = k_log k) as El2 by (rewrite <-El1; by apply bio_frame_log).
  assert (disksize (k_disk k2) = disksize (k_disk k)) as Es2 by (by rewrite Hd2).
  assert (ready k2) as Hr2 by (by eapply bio_frame_ready).
  assert (forall b, dirty k2 b <-> b ∈ bs) as Hdi2.
  { intros b. rewrite Hy2, Hdi1. split; [tauto|]. intros Hb. split; [|done]. intros ->.
    destruct (Hhome _ Hb) as [_ Hx]. lia. }
  destruct (install_loop bs bs bs 0 k2 mru2 LOG_FUEL (drop_0 bs)) as (k3 & E3 & [Hf3 [mru3 Hk3] Hd3 Hc3 Hy3]);
    try done.
  { unfold LOG_FUEL. change (Z.to_nat LOGSIZE) with 30%nat. lia. }
  { by rewrite El2, Es2. }
  { intros b. apply Hdi2. }
  { left. split; [|done]. intros b Hb. by apply Hdi2. }
  rewrite El2 in Hd3, Hc3, Hy3. fold S in Hd3, Hc3, Hy3. replace (S + 1 + Z.of_nat 0) with (S + 1) in * by lia.
  assert (forall j b, bs !! j = Some b -> content k2 (S + 1 + Z.of_nat j) = content k b) as Hlogged.
  { intros j b Hb. assert (j < length bs)%nat by (by eapply lookup_lt_Some).
    rewrite Hc2, decide_False, Hc1' by lia. by apply log_writes_in. }
  assert ((fun m => (m.2, content k2 m.1)) <$> log_pairs (S + 1) bs = home_writes (content k) bs) as Ew3.
  { clear -Hlogged. revert Hlogged. generalize (S + 1). induction bs as [|b bs IH]; intros f Hlogged; [done|].
    cbn. f_equal.
    - f_equal. rewrite <-(Hlogged 0%nat b eq_refl). f_equal. lia.
    - apply IH. intros j b' Hj. rewrite <-(Hlogged (Datatypes.S j) b' Hj). f_equal. lia. }
  rewrite Ew3 in Hd3.
  assert (forall b, content k3 b = after_writes (home_writes (content k) bs) (content k2 b) b) as Hc3'.
  { intros b. by rewrite Hc3, moved_writes, Ew3. }
  assert (k_log k3 = k_log k) as El3 by (rewrite <-El2; by apply bio_frame_log).
  assert (disksize (k_disk k3) = disksize (k_disk k)) as Es3 by (by rewrite Hd3, disksize_puts).
  assert (ready k3) as Hr3 by (by eapply bio_frame_ready).
  assert (forall b, ~ dirty k3 b) as Hdi3.
  { intros b. rewrite Hy3, Hdi2. intros [H1 H2]. apply H1. apply list_elem_of_lookup in H2 as [j Hj].
    apply list_elem_of_fmap. exists (S + 1 + Z.of_nat j, b). split; [done|]. by apply log_pairs_lookup. }
  set (k4 := set_log (set_lh 0 (lg_block (k_log k)) (k_log k)) k3).
  destruct (write_head_run k4 mru3 [] [] (bcache_ok_log _ _ _ _ Hk3) (ready_log _ _ Hr3)) as (k5 & E5 & [Hf5 Hk5 Hd5 Hc5 Hy5]).
  { change (log_shape (set_lh 0 (lg_block (k_log k)) (k_log k)) (disksize (k_disk k3)) []).
    rewrite Es3. by eapply log_shape_clear. }
  { intros b H. by destruct (Hdi3 b). }
  { unfold NBUF. cbn. lia. }
  change (content k4) with (content k3) in Hd5, Hc5. change (lg_start (k_log k4)) with S in Hd5, Hc5, Hy5.
  assert (content k3 S = hd) as Ehd.
  { rewrite Hc3', after_writes_other, Hc2; [by rewrite decide_True|]. rewrite home_writes_keys.
    intros Hb. destruct (Hhome _ Hb) as [_ Hx]. lia. }
  rewrite Ehd in Hd5, Hc5.
  exists k5. split_and!.
  - unfold commit. unfold bind at 1, gets at 1. cbn [obind]. rewrite Hn.
    destruct bs as [|b0 bs']; [done|]. replace (Z.of_nat (length (b0 :: bs')) >? 0) with true
      by (symmetry; apply Z.gtb_lt; cbn; lia).
    cbn [when]. unfold write_log. krun E1. krun E2. unfold install_trans. krun E3.
    unfold upd_log. unfold bind at 1, modify. cbn [obind]. rewrite El3. exact E5.
  - unfold log_frame. rewrite (bio_frame_log _ _ Hf5). cbn [k_log k4 set_log].
    etrans; [|exact Hf5]. destruct Hf1 as (F1 & A1 & S1), Hf2 as (F2 & A2 & S2), Hf3 as (F3 & A3 & S3).
    split; [|split].
    + unfold k4. rewrite F3 at 1. rewrite F2 at 1. rewrite F1 at 1. done.
    + cbn. etrans; [exact A1|]. by etrans.
    + intros n. cbn. by rewrite S3, S2, S1.
  - done.
  - by rewrite (bio_frame_log _ _ Hf5).
  - rewrite Hd5. cbn [k_disk k4 set_log]. rewrite Hd3, Hd2, Hd1. unfold commit_writes. fold S. fold hd.
    rewrite !disk_puts_app. done.
  - intros b. rewrite Hy5. intros [_ H]. by destruct (Hdi3 b).
  - intros b Hb. rewrite Hc5, decide_False, Hc3', Hc2, decide_False by lia.
    rewrite Hc1o by lia. destruct (decide (b ∈ bs)) as [Hin|Hni].
    + by apply home_writes_in.
    + apply after_writes_other. by rewrite home_writes_keys.
Qed.

(** ** recover_from_log *)

(** The header [d] lists the home blocks [bs]. *)
Definition head_lists (d : list Z) (bs : list Z) : Prop :=
  s32 (get32 d 0) = Z.of_nat (length bs) /\
  forall j b, bs !! j = Some b -> s32 (get32 d (4 + 4 * j)) = b.

Lemma head_data_lists d bs :
  length d = 512%nat -> (length bs <= 30)%nat -> (forall b, b ∈ bs -> 0 <= b < 2 ^ 31) ->
  head_lists (head_data d bs) bs.
Proof.
  intros Hd Hb Hr. split.
  - rewrite head_data_n by done. apply s32_small. unfold in_s32. lia.
  - intros j b Hj. rewrite (head_data_block d bs j b) by done.
    specialize (Hr b ltac:(by eapply list_elem_of_lookup_2)). mach.
Qed.

Lemma read_head_loop d hs : forall rest i k fuel,
  drop i hs = rest -> (length rest <= fuel)%nat -> (i <= length hs)%nat ->
  lg_n (k_log k) = Z.of_nat (length hs) -> (length hs <= length (lg_block (k_log k)))%nat ->
  (forall j b, hs !! j = Some b -> s32 (get32 d (4 + 4 * j)) = b) ->
  read_head_from fuel d i k
  = Ok tt (set_log (set_lh (lg_n (k_log k)) (take i (lg_block (k_log k)) ++ rest ++
             drop (length hs) (lg_block (k_log k))) (k_log k)) k).
Proof.
  induction rest as [|b rest IH]; intros i k fuel Hdrop Hfuel Hi Hn Hlen Hd.
  - assert (length hs <= i)%nat as Hge.
    { apply (f_equal length) in Hdrop. rewrite length_drop in Hdrop. cbn in Hdrop. lia. }
    assert (i = length hs) as -> by lia. cbn [app]. rewrite take_drop.
    destruct fuel; cbn [read_head_from]; kr; rewrite Hn, (proj2 (Z.ltb_ge _ _)) by lia;
      cbn; rewrite <-Hn; destruct k as [? ? ? ? ? ? ? ? ? ? ? ? ? ? ? ? ? lg ? ? ? ? ? ? ?]; by destruct lg.
  - destruct fuel as [|fuel]; [cbn in Hfuel; lia|].
    assert (hs !! i = Some b) as Hb by (rewrite <-(Nat.add_0_r i), <-lookup_drop, Hdrop; done).
    assert (i < length hs)%nat as Hi' by (by eapply lookup_lt_Some).
    cbn [read_head_from]. unfold bind at 1, gets at 1. cbn [obind].
    rewrite Hn, (proj2 (Z.ltb_lt _ _)) by lia. cbn [negb]. rewrite (Hd i b Hb).
    rewrite (obind_ok _ _ _ tt (set_log (set_lh (lg_n (k_log k)) (<[i := b]> (lg_block (k_log k))) (k_log k)) k)).
    + rewrite (IH (S i) _ fuel); cbn [k_log set_log set_lh lg_n lg_block].
      * assert (take (S i) (<[i := b]> (lg_block (k_log k))) ++ rest ++
                drop (length hs) (<[i := b]> (lg_block (k_log k)))
                = take i (lg_block (k_log k)) ++ (b :: rest) ++ drop (length hs) (lg_block (k_log k))) as ->.
        { rewrite (take_S_r _ _ b) by (rewrite list_lookup_insert_eq; [done|lia]).
          rewrite take_insert_ge, drop_insert_lt by lia. by rewrite <-app_assoc. }
        by rewrite Hn.
      * rewrite (drop_S hs b i Hb) in Hdrop. by injection Hdrop.
      * cbn in Hfuel. lia.
      * lia.
      * done.
      * rewrite length_insert. done.
      * done.
    + unfold set_lh_block. kr. rewrite aput_Some by lia. done.
Qed.

(** A machine that boots with a given disk: nothing is cached or logged in memory. *)
Record rebooted (k : kernel) (S nlog : Z) (d : disk) : Prop := Rebooted {
  rb_ready : ready k;
  rb_cache : exists mru, bcache_ok k mru ∅;
  rb_clean : forall b, ~ dirty k b;
  rb_disk : k_disk k = d;
  rb_start : lg_start (k_log k) = S;
  rb_size : lg_size (k_log k) = nlog;
  rb_dev : lg_dev (k_log k) = 1;
  rb_len : length (lg_block (k_log k)) = 30%nat
}.

Lemma rebooted_content k S nlog d b : rebooted k S nlog d -> content k b = disk_block d b.
Proof.
  intros [_ [mru Hk] Hc <- _ _ _ _]. eapply clean_content; [exact Hk|set_solver|apply Hc].
Qed.

Lemma read_head_run k S nlog d hs :
  rebooted k S nlog d -> 0 <= S < disksize d -> disksize d <= 2 ^ 31 ->
  (length hs <= 30)%nat -> head_lists (disk_block d S) hs ->
  exists k' mru', read_head k = Ok tt k' /\
    bcache_ok k' mru' ∅ /\ ready k' /\ k_disk k' = d /\ (forall b, ~ dirty k' b) /\
    (forall b, content k' b = disk_block d b) /\
    k_log k' = set_lh (Z.of_nat (length hs)) (hs ++ drop (length hs) (lg_block (k_log k))) (k_log k) /\ log_frame k k'.
Proof.
  intros Hrb HS Hsz Hmax [Hn Hbs]. pose proof Hrb as [Hr [mru Hk] Hcl Hd Hst _ Hdev Hlen].
  destruct (bread_run k mru ∅ S Hk Hr) as (i & k1 & E1 & P1).
  { by rewrite Hd. }
  { set_solver. }
  { right. apply (cache_room k mru ∅ [] Hk); [intros b Hb; by destruct (Hcl b)|].
    rewrite size_empty. unfold NBUF. cbn. lia. }
  destruct (bread_held k mru ∅ S i k1 Hk P1) as (bf & Hbf & D & N & Edt & F & Fd).
  destruct P1 as [Hf1 Hk1 _ _ Hct1 Hdk1 Hd1 _].
  replace ({[i]} ∪ ∅ : gset nat) with ({[i]} : gset nat) in Hk1 by set_solver.
  assert (ready k1) as Hr1 by (by eapply bio_frame_ready).
  set (lg1 := set_lh (Z.of_nat (length hs)) (hs ++ drop (length hs) (lg_block (k_log k))) (k_log k)).
  set (k2 := set_log lg1 k1).
  destruct (brelse_run k2 mru {[i]} i bf (bcache_ok_log _ _ _ _ Hk1) (ready_log _ _ Hr1)
    ltac:(set_solver) Hbf) as (k3 & E3 & [Hf3 (l1 & l2 & _ & Hk3) Hct3 Hdk3 Hd3 _]).
  { right. cbn. rewrite Hdk1, N, Edt. rewrite (rebooted_content k S nlog d S Hrb), Hd. done. }
  replace ({[i]} ∖ {[i]} : gset nat) with (∅ : gset nat) in Hk3 by set_solver.
  exists k3, (i :: l1 ++ l2). split_and!.
  - unfold read_head. unfold bind at 1, gets at 1. cbn [obind]. rewrite Hdev, Hst.
    replace (u32 S) with S by mach. krun E1. krun (buf_data_ok k1 i bf Hbf).
    rewrite Edt, (rebooted_content k S nlog d S Hrb).
    unfold upd_log. unfold bind at 1, modify. cbn [obind]. rewrite Hn.
    rewrite (obind_ok _ _ _ tt k2); [exact E3|].
    rewrite (read_head_loop (disk_block d S) hs hs 0); cbn [k_log set_log set_lh lg_n lg_block]; try done.
    + unfold k2, lg1. rewrite (bio_frame_log _ _ Hf1). done.
    + unfold LOG_FUEL. change (Z.to_nat LOGSIZE) with 30%nat. lia.
    + lia.
    + rewrite (bio_frame_log _ _ Hf1), Hlen. done.
  - done.
  - eapply bio_frame_ready; [|exact Hf3]. by apply ready_log.
  - rewrite Hdk3. cbn. by rewrite Hdk1.
  - intros b. rewrite Hd3. change (dirty k2 b) with (dirty k1 b). rewrite Hd1. apply Hcl.
  - intros b. rewrite Hct3. change (content k2 b) with (content k1 b). rewrite Hct1.
    by apply (rebooted_content k S nlog d b).
  - by rewrite (bio_frame_log _ _ Hf3).
  - by apply (log_frame_set k k1 lg1).
Qed.

(** Recovery copies the logged blocks home and clears the header. *)
Lemma recover_run k S nlog d hs :
  rebooted k S nlog d -> 0 <= S -> S + nlog <= disksize d -> disksize d <= 2 ^ 31 ->
  (length hs <= 30)%nat -> Z.of_nat (length hs) < nlog -> head_lists (disk_block d S) hs ->
  (forall b, b ∈ hs -> 0 <= b < disksize d /\ ~ (S <= b < S + nlog)) ->
  exists k', recover_from_log k = Ok tt k' /\ (exists mru', bcache_ok k' mru' ∅) /\ (forall b, ~ dirty k' b) /\
    k_disk k' = disk_puts (((fun m => (m.2, disk_block d m.1)) <$> log_pairs (S + 1) hs) ++
      [(S, head_data (disk_block d S) [])]) d /\
    log_frame k k' /\ (exists bl, length bl = 30%nat /\ k_log k' = set_lh 0 bl (k_log k)).
Proof.
  intros Hrb HS Hfit Hsz Hmax Hrm Hh Hhome.
  destruct (read_head_run k S nlog d hs Hrb ltac:(lia) Hsz Hmax Hh)
    as (k1 & mru1 & E1 & Hk1 & Hr1 & Hd1 & Hcl1 & Hct1 & Hl1 & Hfr1).
  destruct Hrb as [_ _ _ _ Hst Hsize Hdev Hlen].
  assert (log_shape (k_log k1) (disksize (k_disk k1)) hs) as Hls.
  { rewrite Hl1, Hd1. split; cbn; try done; try lia.
    - by rewrite take_app_length.
    - rewrite length_app, length_drop, Hlen. lia.
    - unfold in_log. cbn. rewrite Hst, Hsize. exact Hhome. }
  assert (lg_start (k_log k1) = S) as El1 by (rewrite Hl1; cbn; done).
  destruct (install_loop hs [] hs 0 k1 mru1 LOG_FUEL (drop_0 hs)) as (k2 & E2 & [Hf2 [mru2 Hk2] Hd2 Hc2 Hy2]);
    try done.
  { unfold LOG_FUEL. change (Z.to_nat LOGSIZE) with 30%nat. lia. }
  { intros b Hb. by destruct (Hcl1 b). }
  { unfold NBUF. cbn. lia. }
  { right. unfold NBUF. cbn. lia. }
  rewrite El1 in Hd2, Hc2, Hy2. replace (S + 1 + Z.of_nat 0) with (S + 1) in * by lia.
  assert (k_log k2 = k_log k1) as El2 by (by apply bio_frame_log).
  set (k3 := set_log (set_lh 0 (lg_block (k_log k2)) (k_log k2)) k2).
  destruct (write_head_run k3 mru2 [] [] (bcache_ok_log _ _ _ _ Hk2)
    (ready_log _ _ (bio_frame_ready _ _ Hr1 Hf2))) as (k4 & E4 & [Hf4 Hk4 Hd4 Hc4 Hy4]).
  { change (log_shape (set_lh 0 (lg_block (k_log k2)) (k_log k2)) (disksize (k_disk k2)) []).
    rewrite El2, Hd2, disksize_puts. by eapply log_shape_clear. }
  { intros b [_ H]%Hy2. by destruct (Hcl1 b). }
  { unfold NBUF. cbn. lia. }
  change (lg_start (k_log k3)) with (lg_start (k_log k2)) in *. rewrite El2, El1 in *.
  change (content k3) with (content k2) in *.
  assert (content k2 S = disk_block d S) as EcS.
  { rewrite Hc2, moved_writes, after_writes_other; [apply Hct1|].
    rewrite <-list_fmap_compose. intros (m & E & Hm)%list_elem_of_fmap. cbn in E.
    apply log_pairs_elem in Hm as [_ Hm]. destruct (Hhome _ Hm) as [_ Hx]. lia. }
  exists k4. split_and!.
  - unfold recover_from_log. krun E1. unfold install_trans. krun E2.
    unfold upd_log. unfold bind at 1, modify. cbn [obind]. exact E4.
  - done.
  - intros b. rewrite Hy4. intros [_ [_ H]%Hy2]. by destruct (Hcl1 b).
  - rewrite Hd4, EcS. cbn [k_disk k3 set_log]. rewrite Hd2, Hd1, disk_puts_app. cbn [disk_puts foldl fst snd].
    f_equal. f_equal. apply list_fmap_ext. intros i m _. f_equal. apply Hct1.
  - apply (log_frame_trans k k1); [done|]. by apply (log_frame_set k1 k2 (set_lh 0 (lg_block (k_log k2)) (k_log k2))).
  - exists (lg_block (k_log k2)). rewrite (bio_frame_log _ _ Hf4). cbn [k_log k3 set_log]. rewrite El2, Hl1. split; [|done].
    cbn. rewrite length_app, length_drop, Hlen. lia.
Qed.

End Recovery.
