(* ===== verification/Txn.v ===== *)
(** * Transactions (src/log.c): log_write, begin_op, end_op, and crash atomicity *)

From S2P Require Import Prelude Mem State Spinlock Sched Sleeplock Bio Bcache Block Log Recovery.

Section Txn.
  Context {patience_bound : Patience} {driver : DiskDriver} {driver_ok : DiskOk driver}.

(** ** log_write *)

(** The transaction after block [b] was logged: a block is logged once. *)
Definition absorb (b : Z) (bs : list Z) : list Z := if decide (b ∈ bs) then bs else bs ++ [b].

Lemma log_find_run bs b size : forall rest i k fuel,
  drop i bs = rest -> (length rest <= fuel)%nat -> (i <= length bs)%nat ->
  log_shape (k_log k) size bs -> 0 <= b ->
  (forall j b', (j < i)%nat -> bs !! j = Some b' -> b' <> b) ->
  exists j, log_find fuel b i k = Ok j k /\
    (bs !! j = Some b \/ j = length bs /\ b ∉ bs).
Proof.
  induction rest as [|x rest IH]; intros i k fuel Hdrop Hfuel Hi Hls Hb Hbefore.
  - assert (length bs <= i)%nat as Hge.
    { apply (f_equal length) in Hdrop. rewrite length_drop in Hdrop. cbn in Hdrop. lia. }
    exists i. split.
    + destruct fuel; cbn [log_find]; kr; rewrite (ls_n _ _ _ Hls), (proj2 (Z.ltb_ge _ _)) by lia; done.
    + right. split; [lia|]. intros (j & Hj)%list_elem_of_lookup.
      eapply (Hbefore j); [|done|done]. apply lookup_lt_Some in Hj. lia.
  - destruct fuel as [|fuel]; [cbn in Hfuel; lia|].
    assert (bs !! i = Some x) as Hx by (rewrite <-(Nat.add_0_r i), <-lookup_drop, Hdrop; done).
    assert (i < length bs)%nat as Hi' by (by eapply lookup_lt_Some).
    cbn [log_find]. unfold bind at 1, gets at 1. cbn [obind].
    rewrite (ls_n _ _ _ Hls), (proj2 (Z.ltb_lt _ _)) by lia. cbn [negb].
    krun (lh_block_ok k i x ltac:(by eapply log_shape_lookup)).
    destruct (ls_home _ _ _ Hls x ltac:(by eapply list_elem_of_lookup_2)) as [Hxr _].
    pose proof (ls_size _ _ _ Hls). replace (u32 x) with x by mach.
    destruct (Z.eqb_spec x b) as [->|Hne].
    + exists i. by auto.
    + apply IH; [|cbn in Hfuel; lia|lia|done|done|].
      * rewrite (drop_S bs x i Hx) in Hdrop. by injection Hdrop.
      * intros j b' Hj Hb'. destruct (decide (j = i)) as [->|Hji]; [congruence|]. apply (Hbefore j); [lia|done].
Qed.

(** The log after log_write of block [b]. *)
Definition logged (b : Z) (bs : list Z) (lg : log) : log :=
  if decide (b ∈ bs) then lg
  else set_lh (Z.of_nat (length bs) + 1) (<[length bs := b]> (lg_block lg)) lg.

Lemma log_shape_logged lg size bs b :
  log_shape lg size bs -> (length bs < 30)%nat -> Z.of_nat (length bs) < lg_size lg - 1 ->
  0 <= b < size -> ~ in_log lg b ->
  log_shape (logged b bs lg) size (absorb b bs).
Proof.
  intros Hls Hn Hn' Hb Hl. unfold logged, absorb. case_decide; [done|].
  destruct Hls as [? ? ? ? ? Hbl Hlen ? ? Hhome]. split; cbn; try done.
  - rewrite length_app. cbn. lia.
  - rewrite length_app. cbn. lia.
  - rewrite length_app. cbn. lia.
  - rewrite length_app. cbn. rewrite Nat.add_1_r.
    rewrite (take_S_r _ _ b) by (rewrite list_lookup_insert_eq; [done|lia]).
    rewrite take_insert_ge by lia. by rewrite Hbl.
  - by rewrite length_insert.
  - intros b' Hb'. apply elem_of_app in Hb' as [Hb'|Hb'%list_elem_of_singleton]; [by apply Hhome|by subst].
Qed.

Lemma release_log k bs lg :
  ready k -> release LK_log (set_bufs bs (set_log lg (locked_by LK_log k))) = Ok tt (set_bufs bs (set_log lg k)).
Proof. intros Hr. rewrite (calm_release k); [done|apply Hr|apply Hr; constructor|done|done]. Qed.

Lemma log_write_run k mru held i bf bs :
  bcache_ok k mru held -> ready k -> i ∈ held -> k_bufs k !! i = Some bf ->
  log_shape (k_log k) (disksize (k_disk k)) bs ->
  (length bs < 30)%nat -> Z.of_nat (length bs) < lg_size (k_log k) - 1 -> 1 <= lg_outstanding (k_log k) ->
  ~ in_log (k_log k) (b_blockno bf) ->
  let k' := set_bufs (<[i := with_flags VALID_DIRTY bf]> (k_bufs k))
              (set_log (logged (b_blockno bf) bs (k_log k)) k) in
  log_write i k = Ok tt k' /\ bcache_ok k' mru held /\
  log_shape (k_log k') (disksize (k_disk k')) (absorb (b_blockno bf) bs) /\
  (forall b, content k' b = content k b) /\
  (forall b, dirty k' b <-> b = b_blockno bf \/ dirty k b).
Proof.
  intros Hk Hr Hh Hbf Hls Hn1 Hn2 Ho Hl k'. pose proof (bo_held _ _ _ Hk i Hh) as Hi.
  pose proof (bo_buf _ _ _ Hk i bf Hi Hbf) as Hbo. rewrite bool_decide_true in Hbo by done.
  pose proof (bu_held _ _ _ Hbo eq_refl) as D.
  destruct (bu_dev _ _ _ Hbo) as [[D0 _]|(_ & F0 & Hrange)]; [congruence|].
  destruct (held_update k mru held i bf (b_data bf) VALID_DIRTY Hk Hh Hbf (bu_len _ _ _ Hbo) (or_intror eq_refl))
    as (Hk1 & Hct1 & Hd1).
  replace (with_data (b_data bf) (with_flags VALID_DIRTY bf)) with (with_flags VALID_DIRTY bf) in * by (by destruct bf).
  split_and!.
  - unfold log_write. unfold bind at 1, gets at 1. cbn [obind]. rewrite (ls_n _ _ _ Hls).
    change LOGSIZE with 30. rewrite !Z.geb_leb, !(proj2 (Z.leb_gt _ _)) by lia. cbn [orb].
    rewrite (proj2 (Z.ltb_ge _ _)) by lia.
    krun (acquire_free k LK_log (rd_free _ Hr _ st_log)). set (k0 := locked_by LK_log k).
    krun (get_buf_ok k0 i bf Hbf).
    destruct (log_find_run bs (b_blockno bf) (disksize (k_disk k)) bs 0 k0 LOG_FUEL (drop_0 bs))
      as (j & Ej & Hor); [|lia|done|lia|intros; lia|].
    { unfold LOG_FUEL. change (Z.to_nat LOGSIZE) with 30%nat. lia. }
    krun Ej. pose proof (ls_len _ _ _ Hls) as Hlen. pose proof (ls_size _ _ _ Hls) as Hsz.
    assert (s32 (b_blockno bf) = b_blockno bf) as Es by (apply s32_small; unfold in_s32; lia).
    assert (Z.lor (b_flags bf) B_DIRTY = VALID_DIRTY) as Ef.
    { destruct (bu_flags _ _ _ Hbo) as [F|[F|F]]; [done|by rewrite F..]. }
    unfold set_lh_block. kr. rewrite Es. unfold k', logged. destruct Hor as [Hj|[-> Hni]].
    + rewrite aput_Some by (apply lookup_lt_Some in Hj; cbn; lia).
      rewrite decide_True by (by eapply list_elem_of_lookup_2). cbn [of_option ret obind upd_log modify].
      unfold upd_log, modify. cbn [obind]. cbn [k_log set_log set_lh lg_n].
      rewrite (proj2 (Z.eqb_neq _ _)).
      2: { change (lg_n (k_log k0)) with (lg_n (k_log k)). rewrite (ls_n _ _ _ Hls).
           apply lookup_lt_Some in Hj. lia. }
      cbn [ret obind]. erewrite upd_buf_ok by exact Hbf. cbn [obind]. rewrite Ef.
      rewrite (list_insert_id (lg_block (k_log k0))) by (by eapply log_shape_lookup).
      replace (set_lh (lg_n (k_log k0)) (lg_block (k_log k0)) (k_log k0)) with (k_log k0)
        by (by destruct (k_log k0)).
      unfold k0. rewrite release_log by done. by destruct k.
    + rewrite aput_Some by (cbn; lia). rewrite decide_False by done. cbn [of_option ret obind upd_log modify].
      unfold upd_log, modify. cbn [obind]. cbn [k_log set_log set_lh lg_n].
      change (lg_n (k_log k0)) with (lg_n (k_log k)). rewrite (ls_n _ _ _ Hls), Z.eqb_refl.
      cbn [obind]. erewrite upd_buf_ok by exact Hbf. cbn [obind]. rewrite Ef.
      cbn [k_log set_log set_lh lg_n lg_block k_bufs].
      match goal with |- release _ (set_bufs ?b (set_log ?l (set_log _ k0))) = _ =>
        change (set_bufs b (set_log l (set_log _ k0))) with (set_bufs b (set_log l k0)) end.
      unfold k0. rewrite release_log by done. done.
  - destruct Hk1 as [? ? ? ? ? ? ? ?]. by split.
  - apply log_shape_logged; done.
  - intros b. change (content k' b) with (content (set_bufs (<[i := with_flags VALID_DIRTY bf]> (k_bufs k)) k) b).
    rewrite Hct1. case_decide as E; [|done]. rewrite (content_cached k mru held b i bf Hk); [done|]. by subst.
  - intros b. change (dirty k' b) with (dirty (set_bufs (<[i := with_flags VALID_DIRTY bf]> (k_bufs k)) k) b).
    rewrite Hd1. case_decide; naive_solver.
Qed.

(** ** The file system's view of the cache

    Inside a transaction the code above the log sees blocks ([content]), some of which it
    has opened ([op], by block), and the transaction's log [bs]. *)

Record txn (k : kernel) (op : gmap Z nat) (bs : list Z) : Prop := Trans {
  tx_cache : exists mru held, bcache_ok k mru held /\ forall i, i ∈ held <-> exists b, op !! b = Some i;
  tx_ready : ready k;
  tx_open : forall b i, op !! b = Some i -> exists bf, cached k b i bf;
  tx_shape : log_shape (k_log k) (disksize (k_disk k)) bs;
  tx_nodup : NoDup bs;
  tx_dirty : forall b, dirty k b <-> b ∈ bs;
  tx_saved : forall b, b ∉ bs -> content k b = disk_block (k_disk k) b
}.

(** What calls inside a transaction leave unchanged. *)
Record tx_frame (k k' : kernel) : Prop := TxFrame {
  tf_rest : k' = set_bufs (k_bufs k') (set_sleeps (k_sleeps k') (set_procs (k_procs k') (set_log (k_log k') k)));
  tf_procs : awakened (k_procs k) (k_procs k');
  tf_sleeps : forall n, k_sleeps k' !! SL_inode n = k_sleeps k !! SL_inode n;
  tf_log : k_log k' = set_lh (lg_n (k_log k')) (lg_block (k_log k')) (k_log k)
}.

#[export] Instance tx_frame_refl : Reflexive tx_frame.
Proof. intros k. split; [by destruct k|done|done|by destruct (k_log k)]. Qed.

#[export] Instance tx_frame_trans : Transitive tx_frame.
Proof.
  intros k1 k2 k3 [E1 A1 S1 L1] [E2 A2 S2 L2]. split.
  - rewrite E2 at 1. rewrite E1 at 1. done.
  - by etrans.
  - intros n. by rewrite S2.
  - rewrite L2 at 1. rewrite L1. done.
Qed.

Lemma bio_tx_frame k k' : bio_frame k k' -> k_disk k' = k_disk k -> tx_frame k k'.
Proof.
  intros (E & A & S) D. assert (k_log k' = k_log k) as L by (rewrite E; done).
  split; [|done|done|rewrite L; by destruct (k_log k)].
  rewrite L. rewrite E at 1. rewrite D. by destruct k.
Qed.

Lemma tx_frame_log_in k k' b : tx_frame k k' -> in_log (k_log k') b <-> in_log (k_log k) b.
Proof. intros [_ _ _ L]. rewrite L. done. Qed.

Lemma tx_frame_disk k k' : tx_frame k k' -> k_disk k' = k_disk k.
Proof. intros [E _ _ _]. by rewrite E. Qed.

Lemma set_log_disk lg k : k_disk (set_log lg k) = k_disk k.
Proof. done. Qed.

Lemma set_log_log lg k : k_log (set_log lg k) = lg.
Proof. done. Qed.

(** An operation is in progress, and the log has room for another block. *)
Definition log_room (k : kernel) (bs : list Z) : Prop :=
  (length bs < 30)%nat /\ Z.of_nat (length bs) < lg_size (k_log k) - 1 /\ 1 <= lg_outstanding (k_log k).

Lemma op_size k (op : gmap Z nat) mru held :
  bcache_ok k mru held -> (forall i, i ∈ held <-> exists b, op !! b = Some i) ->
  (forall b i, op !! b = Some i -> exists bf, cached k b i bf) -> (size held <= size op)%nat.
Proof.
  intros Hk Hh Ho. rewrite <-length_map_to_list, <-(length_fmap snd).
  apply submseteq_length, NoDup_submseteq; [apply NoDup_elements|]. intros i Hi.
  apply elem_of_elements, Hh in Hi as [b Hb]. apply list_elem_of_fmap. exists (b, i).
  split; [done|]. by apply elem_of_map_to_list.
Qed.

Lemma txn_bread k op bs b :
  txn k op bs -> op !! b = None -> 0 <= b < disksize (k_disk k) -> (length bs + size op < NBUF)%nat ->
  exists i k', bread 1 b k = Ok i k' /\ txn k' (<[b := i]> op) bs /\ tx_frame k k' /\
    forall b', content k' b' = content k b'.
Proof.
  intros [(mru & held & Hk & Hh) Hr Ho Hls Hnd Hd Hs] Hb Hrange Hroom.
  assert (forall i bf, cached k b i bf -> i ∉ held) as Hnh.
  { intros i bf Hc Hin. apply Hh in Hin as [b' Hb']. destruct (Ho b' i Hb') as [bf' Hc'].
    destruct Hc as (_ & Hbf & _ & <-), Hc' as (_ & Hbf' & _ & <-). congruence. }
  destruct (bread_run k mru held b Hk Hr Hrange Hnh) as (i & k' & E & [Hf Hk' Hfr Hbuf Hct Hdk Hdi Hoth]).
  { right. eapply (cache_room k mru held bs Hk); [intros b'; apply Hd|].
    pose proof (op_size k op mru held Hk Hh Ho). lia. }
  exists i, k'. split; [done|]. split; [|split; [by apply bio_tx_frame|done]].
  assert (k_log k' = k_log k) as El by (by apply bio_frame_log).
  split.
  - exists mru, ({[i]} ∪ held). split; [done|]. intros j. rewrite elem_of_union, elem_of_singleton, Hh. split.
    + intros [->|[b' Hb']]; [exists b; by rewrite lookup_insert_eq|].
      exists b'. rewrite lookup_insert_ne; [done|congruence].
    + intros [b' Hb']. apply lookup_insert_Some in Hb' as [[_ ->]|[_ Hb']]; [by left|right; by exists b'].
  - by eapply bio_frame_ready.
  - intros b' j Hj. apply lookup_insert_Some in Hj as [[<- <-]|[Hne Hj]].
    + destruct Hbuf as (bf & Hc & _). by exists bf.
    + destruct (Ho b' j Hj) as [bf (Hj' & Hbf & D & N)]. exists bf. split; [done|].
      rewrite Hoth; [done|]. intros ->. apply Hfr, Hh. by exists b'.
  - by rewrite El, Hdk.
  - done.
  - intros b'. by rewrite Hdi.
  - intros b' Hb'. rewrite Hct, Hdk. by apply Hs.
Qed.

Lemma txn_data k op bs b i : txn k op bs -> op !! b = Some i -> buf_data i k = Ok (content k b) k.
Proof.
  intros [(mru & held & Hk & Hh) _ Ho _ _ _ _] Hb. destruct (Ho b i Hb) as [bf Hc].
  rewrite (buf_data_ok k i bf) by apply Hc. by rewrite (content_cached k mru held b i bf Hk Hc).
Qed.

Lemma txn_brelse k op bs b i :
  txn k op bs -> op !! b = Some i ->
  exists k', brelse i k = Ok tt k' /\ txn k' (delete b op) bs /\ tx_frame k k' /\
    forall b', content k' b' = content k b'.
Proof.
  intros [(mru & held & Hk & Hh) Hr Ho Hls Hnd Hd Hs] Hb. destruct (Ho b i Hb) as [bf Hc].
  pose proof Hc as (Hi & Hbf & D & N).
  assert (i ∈ held) as Hin by (apply Hh; by exists b).
  pose proof (bo_buf _ _ _ Hk i bf Hi Hbf) as Hbo. rewrite bool_decide_true in Hbo by done.
  destruct (brelse_run k mru held i bf Hk Hr Hin Hbf) as (k' & E & [Hf (l1 & l2 & _ & Hk') Hct Hdk Hdi Hoth]).
  { destruct (decide (b ∈ bs)) as [Hbs|Hbs].
    - left. apply Hd in Hbs as (j & bj & (Hj & Hbj & Dj & Nj) & F).
      assert (j = i) as -> by (eapply (bo_uniq _ _ _ Hk); eauto; congruence). congruence.
    - right. rewrite N, <-(Hs b Hbs). symmetry. by eapply content_cached. }
  exists k'. split; [done|]. split; [|split; [by apply bio_tx_frame|done]].
  assert (k_log k' = k_log k) as El by (by apply bio_frame_log).
  assert (forall b', op !! b' = Some i -> b' = b) as Hinj.
  { intros b' Hb'. destruct (Ho b' i Hb') as [bf' (_ & Hbf' & _ & <-)]. congruence. }
  split.
  - exists (i :: l1 ++ l2), (held ∖ {[i]}). split; [done|]. intros j.
    rewrite elem_of_difference, elem_of_singleton, Hh. split.
    + intros [[b' Hb'] Hne]. exists b'. apply lookup_delete_Some. split; [congruence|done].
    + intros [b' Hb']. apply lookup_delete_Some in Hb' as [Hne Hb']. split; [by exists b'|].
      intros ->. apply Hne. symmetry. by apply Hinj.
  - by eapply bio_frame_ready.
  - intros b' j Hj. apply lookup_delete_Some in Hj as [Hne Hj].
    destruct (Ho b' j Hj) as [bj (Hj' & Hbj & Dj & Nj)].
    destruct (Hoth j bj) as (bj' & Hbj' & C); [|done|].
    { intros ->. apply Hne. symmetry. by apply Hinj. }
    exists bj'. unfold core in C. injection C as _ D' N' _ _. split; [done|]. split; [done|]. split; congruence.
  - by rewrite El, Hdk.
  - done.
  - intros b'. by rewrite Hdi.
  - intros b' Hb'. rewrite Hct, Hdk. by apply Hs.
Qed.

Lemma absorb_nodup b bs : NoDup bs -> NoDup (absorb b bs).
Proof.
  intros H. unfold absorb. case_decide; [done|]. apply NoDup_app. split_and!; [done| |apply NoDup_singleton].
  intros x Hx ->%list_elem_of_singleton. done.
Qed.

Lemma elem_of_absorb b b' bs : b' ∈ absorb b bs <-> b' = b \/ b' ∈ bs.
Proof. unfold absorb. case_decide; [|rewrite elem_of_app, list_elem_of_singleton]; naive_solver. Qed.

Lemma length_absorb b bs : (length (absorb b bs) <= S (length bs))%nat.
Proof. unfold absorb. case_decide; [lia|]. rewrite length_app. cbn. lia. Qed.

(** The holder changes an open block and logs it. *)
Lemma txn_write k op bs b i f :
  txn k op bs -> op !! b = Some i -> log_room k bs -> ~ in_log (k_log k) b ->
  length (f (content k b)) = 512%nat ->
  exists k', (upd_data i f ;;; log_write i) k = Ok tt k' /\ txn k' op (absorb b bs) /\ tx_frame k k' /\
    forall b', content k' b' = if decide (b' = b) then f (content k b) else content k b'.
Proof.
  intros [(mru & held & Hk & Hh) Hr Ho Hls Hnd Hd Hs] Hb (Hn1 & Hn2 & Ht) Hnl Hlen.
  destruct (Ho b i Hb) as [bf Hc]. pose proof Hc as (Hi & Hbf & D & N).
  assert (i ∈ held) as Hin by (apply Hh; by exists b).
  pose proof (bo_buf _ _ _ Hk i bf Hi Hbf) as Hbo. rewrite bool_decide_true in Hbo by done.
  rewrite (content_cached k mru held b i bf Hk Hc) in Hlen.
  set (data := f (b_data bf)) in *.
  assert (b_flags bf = B_VALID \/ b_flags bf = VALID_DIRTY) as F.
  { destruct (bu_flags _ _ _ Hbo) as [F|F]; [|done]. destruct (bu_dev _ _ _ Hbo) as [[D0 _]|(_ & F0 & _)]; congruence. }
  destruct (held_update k mru held i bf data (b_flags bf) Hk Hin Hbf Hlen F) as (Hk1 & Hct1 & Hd1).
  replace (with_data data (with_flags (b_flags bf) bf)) with (with_data data bf) in * by (by destruct bf).
  set (k1 := set_bufs _ k) in *.
  assert (k_bufs k1 !! i = Some (with_data data bf)) as Hbf1 by (by apply (insert_lookup_bufs _ _ _ _ Hbf)).
  destruct (log_write_run k1 mru held i (with_data data bf) bs Hk1 (set_bufs_ready _ _ Hr) Hin Hbf1 Hls Hn1 Hn2 Ht)
    as (E & Hk2 & Hls2 & Hct2 & Hd2); [cbn; by rewrite N|].
  cbn [b_blockno with_data] in *. rewrite N in *. set (k2 := set_bufs _ (set_log _ k1)) in *.
  exists k2. split; [|split; [|split]].
  - unfold upd_data. erewrite obind_ok by (apply upd_buf_ok; exact Hbf). exact E.
  - split.
    + by exists mru, held.
    + apply (ready_env k); [done|]. by split_and!.
    + intros b' j Hj. destruct (Ho b' j Hj) as [bj (Hj' & Hbj & Dj & Nj)].
      unfold cached, k2, k1. cbn [k_bufs set_bufs]. destruct (decide (i = j)) as [<-|Hne].
      * eexists. rewrite list_insert_insert_eq, (insert_lookup_bufs _ _ _ _ Hbf). split_and!; [done|reflexivity|done|].
        cbn. congruence.
      * exists bj. by rewrite !list_lookup_insert_ne.
    + exact Hls2.
    + by apply absorb_nodup.
    + intros b'. rewrite Hd2, Hd1, elem_of_absorb. case_decide; [naive_solver|]. by rewrite Hd.
    + intros b'. rewrite elem_of_absorb. intros Hb'. rewrite Hct2, Hct1, decide_False by naive_solver.
      apply Hs. naive_solver.
  - split; try done. cbn. unfold logged. case_decide; [by destruct (k_log k)|done].
  - intros b'. rewrite Hct2, Hct1. case_decide; [|done]. by rewrite (content_cached k mru held b i bf Hk Hc).
Qed.

(** A transaction on a clean cache. *)
Lemma txn_start k mru lg :
  ready k -> bcache_ok k mru ∅ -> (forall b, ~ dirty k b) ->
  (forall b, content k b = disk_block (k_disk k) b) ->
  log_shape lg (disksize (k_disk k)) [] -> txn (set_log lg k) ∅ [].
Proof.
  intros Hr Hk Hcl Hct Hls. split; try done.
  - exists mru, ∅. split; [by apply bcache_ok_log|]. intros i. split; [set_solver|].
    intros [b Hb]. by rewrite lookup_empty in Hb.
  - by apply ready_log.
  - constructor.
  - intros b. split; [intros Hb; by destruct (Hcl b)|]. by rewrite elem_of_nil.
  - intros b _. apply Hct.
Qed.

(** A transaction can be committed when nothing is open. *)
Lemma txn_commit_ready k bs :
  txn k ∅ bs -> (length bs < NBUF)%nat -> exists mru, commit_ready k mru bs.
Proof.
  intros [(mru & held & Hk & Hh) ? ? ? ? ? ?] Hlen. exists mru. split; try done.
  replace (∅ : gset nat) with held; [done|]. apply set_eq. intros i. rewrite Hh. split; [|set_solver].
  intros [b Hb]. by rewrite lookup_empty in Hb.
Qed.

(** Replacing a block inside a transaction. *)
Definition put_block (b : Z) (data : list Z) : K unit :=
  bp <- bread 1 b ;;
  upd_data bp (fun _ => data) ;;;
  log_write bp ;;;
  brelse bp.

Lemma put_block_run k op bs b data :
  txn k op bs -> op !! b = None -> 0 <= b < disksize (k_disk k) -> ~ in_log (k_log k) b ->
  (length bs + size op < NBUF)%nat -> log_room k bs -> length data = 512%nat ->
  exists k', put_block b data k = Ok tt k' /\ txn k' op (absorb b bs) /\ tx_frame k k' /\
    forall b', content k' b' = if decide (b' = b) then data else content k b'.
Proof.
  intros Ht Hb Hrange Hnl Hroom Hr Hlen.
  destruct (txn_bread k op bs b Ht Hb Hrange Hroom) as (i & k1 & E1 & H1 & F1 & C1).
  destruct (txn_write k1 (<[b := i]> op) bs b i (fun _ => data) H1) as (k2 & E2 & H2 & F2 & C2).
  { apply lookup_insert_eq. }
  { unfold log_room. by rewrite (tf_log _ _ F1). }
  { by rewrite (tx_frame_log_in k k1). }
  { done. }
  destruct (txn_brelse k2 _ _ b i H2) as (k3 & E3 & H3 & F3 & C3); [apply lookup_insert_eq|].
  rewrite delete_insert_id in H3 by done.
  exists k3. split; [|split; [done|split]].
  - unfold put_block. krun E1. apply obind_inv_ok in E2 as (? & ? & E2 & E2').
    krun E2. krun E2'. done.
  - by do 2 (etrans; [eassumption|]).
  - intros b'. rewrite C3, C2, C1. done.
Qed.

(** ** Crash atomicity *)

(** A prefix of a concatenation ends in its first part or has all of it. *)
Lemma app_eq_cut {A} (xs ys ps qs : list A) :
  xs ++ ys = ps ++ qs ->
  (exists r, ps = xs ++ r /\ ys = r ++ qs) \/ (exists r, r <> [] /\ xs = ps ++ r /\ qs = r ++ ys).
Proof.
  intros E. destruct (decide (length xs <= length ps)%nat) as [H|H].
  - left. exists (drop (length xs) ps). assert (take (length xs) ps = xs) as Et.
    { rewrite <-(take_app_le ps qs) by done. by rewrite <-E, take_app_length. }
    split; [by rewrite <-Et at 1; rewrite take_drop|].
    rewrite <-(take_drop (length xs) ps) in E at 1. rewrite Et, <-app_assoc in E. by apply app_inv_head in E.
  - right. exists (drop (length ps) xs). assert (take (length ps) xs = ps) as Et.
    { rewrite <-(take_app_le xs ys) by lia. by rewrite E, take_app_length. }
    split; [|split].
    + intros E0. apply (f_equal length) in E0. rewrite length_drop in E0. cbn in E0. lia.
    + rewrite <-Et at 1. by rewrite take_drop.
    + rewrite <-(take_drop (length ps) xs) in E at 1. rewrite Et, <-app_assoc in E. by apply app_inv_head in E.
Qed.

Section Crash.
  Context (k : kernel) (mru : list nat) (bs : list Z).
  Context (Hcr : commit_ready k mru bs).
Let S := lg_start (k_log k).
Let d := k_disk k.

Lemma commit_clean b : b ∉ bs -> content k b = disk_block d b.
Proof.
  intros Hb. eapply clean_content; [apply Hcr|set_solver|]. by rewrite (cr_dirty _ _ _ Hcr).
Qed.

Lemma home_not_log b : b ∈ bs -> ~ in_log (k_log k) b.
Proof. intros Hb. by apply (ls_home _ _ _ (cr_shape _ _ _ Hcr)). Qed.

(** Recovery of a disk whose header is empty only rewrites the header. *)
Lemma recover_empty kr dr :
  rebooted kr S (lg_size (k_log k)) dr -> disksize dr = disksize d ->
  s32 (get32 (disk_block dr S) 0) = 0 ->
  exists kr', recover_from_log kr = Ok tt kr' /\
    forall b, ~ in_log (k_log k) b -> disk_block (k_disk kr') b = disk_block dr b.
Proof.
  intros Hrb Hsz H0. pose proof (cr_shape _ _ _ Hcr) as [? Hst ? ? Hrm ? ? Hfit Hs31 _].
  destruct (recover_run kr S (lg_size (k_log k)) dr [] Hrb) as (kr' & E & _ & _ & Ed & _).
  - exact Hst.
  - by rewrite Hsz.
  - by rewrite Hsz.
  - cbn. lia.
  - cbn. lia.
  - split; [done|]. by intros j b Hj.
  - intros b Hb. by apply elem_of_nil in Hb.
  - exists kr'. split; [done|]. intros b Hb. rewrite Ed, disk_block_puts.
    apply after_writes_other. cbn. rewrite list_elem_of_singleton. intros ->. apply Hb. unfold in_log, S. lia.
Qed.

(** Recovery of a disk with the transaction in its log installs it. *)
Lemma recover_full kr dr :
  rebooted kr S (lg_size (k_log k)) dr -> disksize dr = disksize d ->
  head_lists (disk_block dr S) bs ->
  (forall j b, bs !! j = Some b -> disk_block dr (S + 1 + Z.of_nat j) = content k b) ->
  exists kr', recover_from_log kr = Ok tt kr' /\
    forall b, ~ in_log (k_log k) b ->
      disk_block (k_disk kr') b = if decide (b ∈ bs) then content k b else disk_block dr b.
Proof.
  intros Hrb Hsz Hh Hlog. pose proof (cr_shape _ _ _ Hcr) as [? Hst ? Hmax Hrm ? ? Hfit Hs31 Hhome].
  destruct (recover_run kr S (lg_size (k_log k)) dr bs Hrb) as (kr' & E & _ & _ & Ed & _); try done.
  - by rewrite Hsz.
  - by rewrite Hsz.
  - rewrite Hsz. exact Hhome.
  - exists kr'. split; [done|]. intros b Hb. rewrite Ed, disk_block_puts, after_writes_app.
    assert (b <> S) as HbS by (intros ->; apply Hb; unfold in_log, S; lia).
    rewrite (after_writes_other [_]) by (cbn; by rewrite list_elem_of_singleton).
    destruct (decide (b ∈ bs)) as [Hin|Hni].
    + apply list_elem_of_lookup in Hin as [j Hj].
      apply after_writes_in.
      * apply list_elem_of_fmap. exists (S + 1 + Z.of_nat j, b). cbn. rewrite (Hlog j b Hj).
        split; [done|]. by apply log_pairs_lookup.
      * intros y Hy. apply list_elem_of_fmap in Hy as (m & E' & Hm). injection E' as -> ->.
        apply log_pairs_inv in Hm as (j' & Hj' & ->). by apply (Hlog j').
    + apply after_writes_other. rewrite <-list_fmap_compose. intros (m & -> & Hm)%list_elem_of_fmap.
      apply log_pairs_elem in Hm as [_ Hm]. done.
Qed.

(** The header and the log blocks survive the installation. *)
Lemma after_home_writes ws1 ws2 c b :
  home_writes (content k) bs = ws1 ++ ws2 -> in_log (k_log k) b -> after_writes ws1 c b = c.
Proof.
  intros E Hb. apply after_writes_other. intros Hin.
  assert (b ∈ (home_writes (content k) bs).*1) as H by (rewrite E, fmap_app; set_solver).
  rewrite home_writes_keys in H. by apply (home_not_log b).
Qed.

(** A crash before the header was written. *)
Lemma crash_before ws1 ws2 kr :
  s32 (get32 (disk_block d S) 0) = 0 ->
  log_writes (content k) (S + 1) bs = ws1 ++ ws2 ->
  rebooted kr S (lg_size (k_log k)) (disk_puts ws1 d) ->
  exists kr', recover_from_log kr = Ok tt kr' /\
    forall b, ~ in_log (k_log k) b -> disk_block (k_disk kr') b = disk_block d b.
Proof.
  intros H0 Ews Hrb. pose proof (cr_shape _ _ _ Hcr) as [? Hst ? ? Hrm ? ? Hfit Hs31 _].
  assert (forall b, b <= S \/ ~ in_log (k_log k) b -> disk_block (disk_puts ws1 d) b = disk_block d b) as Hsame.
  { intros b Hb. rewrite disk_block_puts. apply after_writes_other. intros Hin.
    assert (b ∈ (log_writes (content k) (S + 1) bs).*1) as H by (rewrite Ews, fmap_app; set_solver).
    apply log_writes_keys in H. unfold in_log in Hb. fold S in Hb. lia. }
  destruct (recover_empty kr (disk_puts ws1 d) Hrb) as (kr' & E & Hb).
  - apply disksize_puts.
  - rewrite Hsame; [done|lia].
  - exists kr'. split; [done|]. intros b Hnl. rewrite Hb by done. apply Hsame. by right.
Qed.

(** A crash between the two writes of the header. *)
Lemma crash_between ws1 ws2 kr :
  home_writes (content k) bs = ws1 ++ ws2 ->
  rebooted kr S (lg_size (k_log k))
    (disk_puts (log_writes (content k) (S + 1) bs ++ [(S, head_data (content k S) bs)] ++ ws1) d) ->
  exists kr', recover_from_log kr = Ok tt kr' /\
    forall b, ~ in_log (k_log k) b -> disk_block (k_disk kr') b = content k b.
Proof.
  intros Ews Hrb. pose proof (cr_shape _ _ _ Hcr) as [? Hst ? Hmax Hrm ? ? Hfit Hs31 Hhome].
  set (dr := disk_puts _ d) in *.
  assert (forall b, disk_block dr b = after_writes ws1 (after_writes [(S, head_data (content k S) bs)]
    (after_writes (log_writes (content k) (S + 1) bs) (disk_block d b) b) b) b) as Edr.
  { intros b. unfold dr. by rewrite disk_block_puts, !after_writes_app. }
  assert (forall b, ~ in_log (k_log k) b -> b ∉ (log_writes (content k) (S + 1) bs).*1) as Hnl.
  { intros b Hb Hin. apply log_writes_keys in Hin. apply Hb. unfold in_log. fold S. lia. }
  destruct (recover_full kr dr Hrb) as (kr' & E & Hb).
  - apply disksize_puts.
  - rewrite Edr, (after_home_writes ws1 ws2) by (done || (unfold in_log; fold S; lia)).
    rewrite (after_writes_in _ _ S (head_data (content k S) bs)); [|set_solver|].
    + apply head_data_lists; [|done|].
      * eapply length_content. apply Hcr.
      * intros b Hb. destruct (Hhome b Hb) as [? _]. lia.
    + intros y. rewrite list_elem_of_singleton. by intros [= ->].
  - intros j b Hj. assert (j < length bs)%nat by (by eapply lookup_lt_Some).
    rewrite Edr, (after_home_writes ws1 ws2) by (done || (unfold in_log; fold S; lia)).
    rewrite (after_writes_other [_]) by (cbn; rewrite list_elem_of_singleton; lia).
    apply after_writes_in.
    + apply list_elem_of_fmap. exists (S + 1 + Z.of_nat j, b). split; [done|]. by apply log_pairs_lookup.
    + intros y Hy. apply list_elem_of_fmap in Hy as (m & E' & Hm). injection E' as E1 ->.
      apply log_pairs_inv in Hm as (j' & Hj' & E2). assert (j' = j) as -> by lia. congruence.
  - exists kr'. split; [done|]. intros b Hnb. rewrite Hb by done. case_decide as Hin; [done|].
    rewrite Edr. rewrite (after_writes_other ws1).
    2: { intros H'. apply Hin. rewrite <-(home_writes_keys (content k) bs), Ews, fmap_app. set_solver. }
    rewrite (after_writes_other [_]).
    2: { cbn. rewrite list_elem_of_singleton. intros ->. apply Hnb. unfold in_log. fold S. lia. }
    rewrite after_writes_other by (by apply Hnl). symmetry. by apply commit_clean.
Qed.

(** A crash after the header was cleared. *)
Lemma crash_after kr :
  rebooted kr S (lg_size (k_log k)) (disk_puts (commit_writes k bs) d) ->
  exists kr', recover_from_log kr = Ok tt kr' /\
    forall b, ~ in_log (k_log k) b -> disk_block (k_disk kr') b = content k b.
Proof.
  intros Hrb. pose proof (cr_shape _ _ _ Hcr) as [? Hst ? Hmax Hrm ? ? Hfit Hs31 Hhome].
  assert (length (content k S) = 512%nat) as HlS by (eapply length_content; apply Hcr).
  destruct (recover_empty kr _ Hrb) as (kr' & E & Hb).
  - apply disksize_puts.
  - rewrite disk_block_puts. unfold commit_writes. fold S. rewrite !after_writes_app.
    rewrite (after_writes_in _ _ S (head_data (head_data (content k S) bs) [])); [|set_solver|].
    + rewrite head_data_n; [done|by apply length_head_data|cbn; lia].
    + intros y. rewrite list_elem_of_singleton. by intros [= ->].
  - exists kr'. split; [done|]. intros b Hnb. rewrite Hb by done.
    rewrite disk_block_puts. unfold commit_writes. fold S. rewrite !after_writes_app.
    assert (b <> S) as HbS by (intros ->; apply Hnb; unfold in_log; fold S; lia).
    rewrite (after_writes_other [_]) by (cbn; by rewrite list_elem_of_singleton).
    destruct (decide (b ∈ bs)) as [Hin|Hni]; [by apply home_writes_in|].
    rewrite after_writes_other by (by rewrite home_writes_keys).
    rewrite (after_writes_other [_]) by (cbn; by rewrite list_elem_of_singleton).
    rewrite after_writes_other; [symmetry; by apply commit_clean|].
    intros Hin. apply log_writes_keys in Hin. apply Hnb. unfold in_log. fold S. lia.
Qed.

End Crash.

(** C21: a commit is atomic across crashes.  For a transaction of the blocks [bs] on a
    disk whose log is empty, commit returns, and whatever prefix of its block writes
    reached the disk when the machine stopped, recover_from_log of the rebooted machine
    returns and leaves every block outside the log either as it was before the
    transaction (when only log blocks had been written) or as the transaction left it
    (from the write of the header on): never a mixture. *)
Theorem commit_atomic k mru bs :
  commit_ready k mru bs -> bs <> [] ->
  s32 (get32 (disk_block (k_disk k) (lg_start (k_log k))) 0) = 0 ->
  exists k' ws, commit k = Ok tt k' /\ k_disk k' = disk_puts ws (k_disk k) /\
    (forall b, ~ dirty k' b) /\
    (forall b, ~ in_log (k_log k) b -> content k' b = content k b) /\
    forall ws1 ws2 kr, ws = ws1 ++ ws2 ->
      rebooted kr (lg_start (k_log k)) (lg_size (k_log k)) (disk_puts ws1 (k_disk k)) ->
      exists kr', recover_from_log kr = Ok tt kr' /\
        forall b, ~ in_log (k_log k) b ->
          disk_block (k_disk kr') b =
          if decide (length ws1 <= length bs)%nat then disk_block (k_disk k) b else content k b.
Proof.
  intros Hcr Hne H0. destruct (commit_run k mru bs Hcr Hne) as (k' & E & _ & _ & _ & Ed & Hcl & Hct).
  exists k', (commit_writes k bs). split; [done|]. split; [done|]. split; [done|]. split; [done|].
  assert (length (log_writes (content k) (lg_start (k_log k) + 1) bs) = length bs) as Hlen.
  { unfold log_writes. rewrite length_fmap. generalize (lg_start (k_log k) + 1). clear.
    induction bs as [|b bs IH]; intros f; cbn; [done|]. by rewrite IH. }
  assert (length (home_writes (content k) bs) = length bs) as Hlen' by (unfold home_writes; by rewrite length_fmap).
  intros ws1 ws2 kr Ews Hrb. unfold commit_writes in Ews.
  apply app_eq_cut in Ews as [(r & -> & Ews)|(r & Hr & Ews & _)].
  2: { destruct (crash_before k mru bs Hcr ws1 r kr H0 Ews Hrb) as (kr' & Er & Hb). exists kr'. split; [done|].
       intros b Hnb. rewrite Hb by done. rewrite decide_True; [done|]. rewrite <-Hlen, Ews, length_app. lia. }
  destruct r as [|w r].
  { rewrite app_nil_r in *. destruct (crash_before k mru bs Hcr _ [] kr H0 (eq_sym (app_nil_r _)) Hrb) as (kr' & Er & Hb).
    exists kr'. split; [done|]. intros b Hnb. rewrite Hb by done. rewrite decide_True; [done|]. by rewrite Hlen. }
  injection Ews as <- Ews.
  assert (forall c1 c2 : list Z, (if decide (length (log_writes (content k) (lg_start (k_log k) + 1) bs ++
    (lg_start (k_log k), head_data (content k (lg_start (k_log k))) bs) :: r) <= length bs)%nat then c1 else c2) = c2) as Hif.
  { intros c1 c2. rewrite decide_False; [done|]. rewrite length_app, Hlen. cbn. lia. }
  apply app_eq_cut in Ews as [(r' & -> & Ews)|(r' & Hr' & Ews & _)].
  - destruct r' as [|w r'].
    + destruct (crash_between k mru bs Hcr (home_writes (content k) bs) [] kr (eq_sym (app_nil_r _))) as (kr' & Er & Hb).
      { by rewrite app_nil_r in Hrb. }
      exists kr'. split; [done|]. intros b Hnb. by rewrite Hb, Hif.
    + injection Ews as <- Ews. symmetry in Ews. apply app_eq_nil in Ews as [-> ->].
      destruct (crash_after k mru bs Hcr kr Hrb) as (kr' & Er & Hb).
      exists kr'. split; [done|]. intros b Hnb. by rewrite Hb, Hif.
  - destruct (crash_between k mru bs Hcr r r' kr Ews Hrb) as (kr' & Er & Hb).
    exists kr'. split; [done|]. intros b Hnb. by rewrite Hb, Hif.
Qed.

End Txn.

(** ** A machine with one logged block *)

(** The layout of mkfs: the log is blocks 2 to 31; one operation is outstanding. *)
Definition log_open : log := Log 2 30 1 false 1 0 (replicate 30 0).
Definition in_trans : kernel := set_log log_open cache_up.

Lemma log_open_shape : log_shape log_open FSSIZE [].
Proof.
  unfold FSSIZE. split; cbn; try lia; try reflexivity. intros b Hb. by apply elem_of_nil in Hb.
Qed.

Lemma in_trans_txn : txn in_trans ∅ [].
Proof.
  destruct cache_up_ok as (Hr & Hk & Hcl & Hct & Hd).
  apply (txn_start (driver := Memide.memide) cache_up _ log_open Hr Hk Hcl Hct).
  rewrite Hd. exact log_open_shape.
Qed.

Lemma in_trans_disk : k_disk in_trans = Disk ∅ FSSIZE true None [].
Proof. destruct cache_up_ok as (_ & _ & _ & _ & Hd). exact (eq_trans (set_log_disk log_open cache_up) Hd). Qed.

Lemma commit_atomic_witness :
  exists k k1 ws, put_block (patience_bound := 2%nat) (driver := Memide.memide) 100 (replicate 512 7) in_trans = Ok tt k /\
    commit (patience_bound := 2%nat) (driver := Memide.memide) k = Ok tt k1 /\
    k_disk k1 = disk_puts ws (k_disk k) /\ content k1 100 = replicate 512 7.
Proof.
  destruct (put_block_run (patience_bound := 2%nat) (driver := Memide.memide) in_trans ∅ [] 100
    (replicate 512 7) in_trans_txn) as (k & E & H & F & C).
  { apply lookup_empty. }
  { rewrite in_trans_disk. cbn. unfold FSSIZE. lia. }
  { rewrite (set_log_log log_open cache_up : k_log in_trans = _). unfold in_log. cbn. lia. }
  { rewrite map_size_empty. cbn. unfold NBUF. lia. }
  { unfold log_room. rewrite (set_log_log log_open cache_up : k_log in_trans = _). cbn. lia. }
  { apply length_replicate. }
  destruct (txn_commit_ready (driver := Memide.memide) k _ H) as [mru Hcr]; [by apply Nat.ltb_lt|].
  assert (k_log k = set_lh (lg_n (k_log k)) (lg_block (k_log k)) log_open) as El.
  { rewrite (tf_log _ _ F) at 1. by rewrite (set_log_log log_open cache_up : k_log in_trans = _). }
  assert (k_disk k = Disk ∅ FSSIZE true None []) as Ed by (rewrite (tx_frame_disk _ _ F); exact in_trans_disk).
  destruct (commit_atomic (patience_bound := 2%nat) (driver := Memide.memide) k mru _ Hcr)
    as (k1 & ws & E1 & D1 & _ & C1 & _).
  { discriminate. }
  { rewrite Ed, El. reflexivity. }
  exists k, k1, ws. split; [exact E|]. split; [exact E1|]. split; [exact D1|].
  rewrite C1, C; [reflexivity|]. rewrite El. unfold in_log. cbn. lia.
Defined.
