(* ===== verification/LogOps.v ===== *)
(** * File-system operations on the log: begin_op and end_op of src/log.c

    Operations run between begin_op and end_op.  Any interleaving of them is a [history];
    begin_op's reservation bounds what they log, and the last end_op commits. *)

From S2P Require Import Prelude Mem State Spinlock Sched Sleeplock Bio Bcache Block Log Recovery Txn.

Section LogOps.
  Context {patience_bound : Patience} {driver : DiskDriver} {driver_ok : DiskOk driver}.

(** ** One call *)

Definition with_out (n : Z) (lg : log) : log :=
  Log (lg_start lg) (lg_size lg) n (lg_committing lg) (lg_dev lg) (lg_n lg) (lg_block lg).

Lemma log_shape_ext lg lg' size bs :
  lg_dev lg' = lg_dev lg -> lg_start lg' = lg_start lg -> lg_n lg' = lg_n lg -> lg_size lg' = lg_size lg ->
  lg_block lg' = lg_block lg -> log_shape lg size bs -> log_shape lg' size bs.
Proof.
  intros E1 E2 E3 E4 E5 [? ? ? ? ? ? ? ? ? Hh]. split; try congruence.
  intros b Hb. unfold in_log. rewrite E2, E4. by apply Hh.
Qed.

Lemma txn_set_log k lg op bs :
  lg_dev lg = lg_dev (k_log k) -> lg_start lg = lg_start (k_log k) -> lg_n lg = lg_n (k_log k) ->
  lg_size lg = lg_size (k_log k) -> lg_block lg = lg_block (k_log k) ->
  txn k op bs -> txn (set_log lg k) op bs.
Proof.
  intros E1 E2 E3 E4 E5 [(mru & held & Hk & Hh) Hr Ho Hls Hnd Hd Hs]. split; try done.
  - exists mru, held. split; [by apply bcache_ok_log|done].
  - by apply ready_log.
  - by apply (log_shape_ext (k_log k)).
Qed.

Lemma begin_op_run k :
  ready k -> lg_committing (k_log k) = false ->
  lg_n (k_log k) + (lg_outstanding (k_log k) + 1) * MAXOPBLOCKS <= LOGSIZE ->
  begin_op k = Ok tt (set_log (with_out (lg_outstanding (k_log k) + 1) (k_log k)) k).
Proof.
  intros Hr Hc Hroom. unfold begin_op. krun (acquire_free k LK_log (rd_free _ Hr _ st_log)).
  set (k0 := locked_by LK_log k). change (k_log k) with (k_log k0) in Hc, Hroom.
  assert (forall n, begin_op_wait n k0 =
    release LK_log (set_log (with_out (lg_outstanding (k_log k0) + 1) (k_log k0)) k0)) as ->.
  { intros n. destruct n; cbn [begin_op_wait]; unfold bind at 1, gets at 1; cbn [obind];
      rewrite Hc, Z.gtb_ltb, (proj2 (Z.ltb_ge _ _)) by lia; done. }
  rewrite (calm_release k); [done|apply Hr|apply Hr; constructor|done|done].
Qed.

(** begin_op waits while the log is committing, or has no room for the operation. *)
Lemma begin_op_waits k k' :
  ready k -> begin_op k = Ok tt k' ->
  lg_committing (k_log k) = false /\
  lg_n (k_log k) + (lg_outstanding (k_log k) + 1) * MAXOPBLOCKS <= LOGSIZE.
Proof.
  intros Hr. unfold begin_op. krun (acquire_free k LK_log (rd_free _ Hr _ st_log)).
  pose proof Hr as [[Hn Hi] Hf _ (i & p & Hc & Hp & _)].
  destruct (Hf _ st_log) as [name El], (Hf _ st_ptable) as [pname Ept].
  set (k0 := locked_by LK_log k).
  destruct (lg_committing (k_log k)) eqn:Hcm.
  2: destruct (Z.leb_spec (lg_n (k_log k) + (lg_outstanding (k_log k) + 1) * MAXOPBLOCKS) LOGSIZE) as [Hl|Hl]; [done|].
  all: destruct patience as [|n]; cbn [begin_op_wait]; unfold bind at 1, gets at 1; cbn [obind];
    change (k_log k0) with (k_log k); rewrite Hcm; rewrite ?Z.gtb_ltb, ?(proj2 (Z.ltb_lt _ _)) by lia; [done|].
  all: unfold bind; rewrite (sleep_enter k0 i p Ch_log LK_log name pname); try done.
  all: unfold k0; cbn -[lookup insert]; rewrite ?lookup_insert_eq, ?lookup_insert_ne by done; try done.
  all: try (unfold get_lock; by rewrite El). all: rewrite Hn; done.
Qed.

(** The end of a critical section on the log that wakes up the waiting operations. *)
Lemma log_section_end k lg :
  ready k ->
  (wakeup Ch_log ;;; release LK_log) (set_log lg (locked_by LK_log k))
  = Ok tt (set_procs (woken Ch_log <$> k_procs k) (set_log lg k)).
Proof.
  intros Hr. destruct (wakeup_in k LK_log Ch_log Hr st_log ltac:(done) (set_log lg (locked_by LK_log k)))
    as (k2 & E & E1 & E2 & ->); [done..|].
  krun E. rewrite (calm_release k); [by destruct k|apply Hr|apply Hr; constructor|done|done].
Qed.

Lemma txn_awake k op bs ps : awakened (k_procs k) ps -> txn k op bs -> txn (set_procs ps k) op bs.
Proof.
  intros Ha [(mru & held & Hk & Hh) Hr Ho Hls Hnd Hd Hs]. split; try done.
  - exists mru, held. split; [|done]. destruct Hk as [? ? ? ? ? ? ? ?]. by split.
  - apply (ready_env k); [done|]. by split_and!.
Qed.

Lemma log_frame_procs k lg ps : awakened (k_procs k) ps -> log_frame k (set_procs ps (set_log lg k)).
Proof. intros Ha. by split. Qed.

(** end_op while other operations are outstanding. *)
Lemma end_op_others k op bs :
  txn k op bs -> lg_committing (k_log k) = false -> lg_outstanding (k_log k) <> 1 ->
  exists k', end_op k = Ok tt k' /\ log_frame k k' /\ txn k' op bs /\
    k_log k' = with_out (lg_outstanding (k_log k) - 1) (k_log k) /\
    k_disk k' = k_disk k /\ forall b, content k' b = content k b.
Proof.
  intros Ht Hc Ho. pose proof (tx_ready _ _ _ Ht) as Hr.
  set (lg := with_out (lg_outstanding (k_log k) - 1) (k_log k)).
  exists (set_procs (woken Ch_log <$> k_procs k) (set_log lg k)). split; [|split; [|split; [|done]]].
  - unfold end_op. krun (acquire_free k LK_log (rd_free _ Hr _ st_log)).
    set (k0 := locked_by LK_log k). unfold upd_log. unfold bind at 1, modify at 1. cbn [obind].
    unfold bind at 1, gets at 1. cbn [obind k_log set_log lg_committing lg_outstanding].
    change (k_log k0) with (k_log k). rewrite Hc, (proj2 (Z.eqb_neq _ _)) by lia.
    pose proof (log_section_end k lg Hr) as E. apply obind_inv_ok in E as ([] & k1 & E1 & E2).
    match goal with |- context [set_log ?l k0] => replace l with lg by (unfold lg, with_out; by rewrite Hc) end.
    krun E1. krun E2. done.
  - apply log_frame_procs, woken_awakened.
  - apply (txn_awake (set_log lg k)); [apply woken_awakened|]. by apply txn_set_log.
Qed.

(** The end_op of the last operation commits. *)
Lemma end_op_commit k bs :
  txn k ∅ bs -> lg_committing (k_log k) = false -> lg_outstanding (k_log k) = 1 -> (length bs < NBUF)%nat ->
  exists k', end_op k = Ok tt k' /\ log_frame k k' /\ txn k' ∅ [] /\
    k_log k' = with_out 0 (set_lh 0 (lg_block (k_log k)) (k_log k)) /\
    (forall b, ~ in_log (k_log k) b -> content k' b = content k b) /\
    disksize (k_disk k') = disksize (k_disk k).
Proof.
  intros Ht Hc Ho Hlen. pose proof (tx_ready _ _ _ Ht) as Hr.
  set (lg1 := set_committing true (with_out 0 (k_log k))).
  assert (txn (set_log lg1 k) ∅ bs) as Ht1 by (by apply txn_set_log).
  assert (exists k2, commit (set_log lg1 k) = Ok tt k2 /\ log_frame (set_log lg1 k) k2 /\
    (exists mru, bcache_ok k2 mru ∅) /\ k_log k2 = set_lh 0 (lg_block lg1) lg1 /\
    (forall b, ~ dirty k2 b) /\ (forall b, ~ in_log (k_log k) b -> content k2 b = content k b) /\
    disksize (k_disk k2) = disksize (k_disk k)) as (k2 & E2 & Hf2 & [mru2 Hk2] & El2 & Hcl2 & Hct2 & Hsz2).
  { destruct (txn_commit_ready _ _ Ht1 Hlen) as [mru Hcr]. destruct bs as [|b0 bs].
    - exists (set_log lg1 k). pose proof Ht1 as [_ _ _ Hls _ Hd _]. split; [|split; [|split; [|split; [|split; [|done]]]]].
      + unfold commit. unfold bind, gets. cbn [obind]. by rewrite (ls_n _ _ _ Hls).
      + split; [by destruct k|done].
      + exists mru. apply Hcr.
      + pose proof (ls_n _ _ _ Hls) as Hn. cbn in Hn |- *. unfold lg1, set_lh, set_committing, with_out. cbn. by rewrite Hn.
      + intros b Hb. apply Hd in Hb. by apply elem_of_nil in Hb.
    - destruct (commit_run _ mru _ Hcr ltac:(done)) as (k2 & E2 & Hf2 & Hk2 & El2 & Ed2 & Hcl2 & Hct2).
      exists k2. rewrite Ed2, disksize_puts. done. }
  assert (ready k2) as Hr2.
  { destruct Hf2 as (F2 & A2 & _). apply (ready_env k); [done|]. rewrite F2. by split_and!. }
  set (lg2 := set_committing false (k_log k2)).
  exists (set_procs (woken Ch_log <$> k_procs k2) (set_log lg2 k2)).
  assert (lg2 = with_out 0 (set_lh 0 (lg_block (k_log k)) (k_log k))) as Elg.
  { unfold lg2. rewrite El2. unfold set_committing, set_lh, with_out. cbn. by rewrite Hc. }
  split; [|split; [|split; [|split; [|split]]]].
  - unfold end_op. krun (acquire_free k LK_log (rd_free _ Hr _ st_log)).
    set (k0 := locked_by LK_log k). unfold upd_log. unfold bind at 1, modify at 1. cbn [obind].
    unfold bind at 1, gets at 1. cbn [obind k_log set_log lg_committing lg_outstanding].
    change (k_log k0) with (k_log k). rewrite Hc, Ho. change (1 - 1 =? 0) with true. cbv iota.
    unfold bind at 1, modify at 1. cbn [obind when].
    match goal with |- context [set_log ?l k0] =>
      change (set_log (set_committing true (k_log (set_log l k0))) (set_log l k0)) with (set_log (set_committing true l) k0) end.
    match goal with |- context [set_log ?l k0] => change l with lg1 end.
    erewrite obind_ok.
    2: { apply (calm_release k); [apply Hr|apply Hr; constructor|done|done]. }
    change (set_cpu (k_cpu k) (set_locks (k_locks k) (set_log lg1 k0))) with (set_cpu (k_cpu k) (set_locks (k_locks k) (set_log lg1 k))).
    replace (set_cpu (k_cpu k) (set_locks (k_locks k) (set_log lg1 k))) with (set_log lg1 k) by (by destruct k).
    krun E2. krun (acquire_free k2 LK_log (rd_free _ Hr2 _ st_log)).
    unfold bind at 1, modify at 1. cbn [obind]. change (k_log (locked_by LK_log k2)) with (k_log k2). fold lg2.
    apply (log_section_end k2 lg2 Hr2).
  - destruct Hf2 as (F2 & A2 & S2). split; [|split].
    + rewrite F2. done.
    + cbn. etrans; [exact A2|apply woken_awakened].
    + exact S2.
  - apply (txn_awake (set_log lg2 k2)); [apply woken_awakened|].
    apply (txn_start k2 mru2); [done..| |].
    + intros b. eapply clean_content; [exact Hk2|set_solver|apply Hcl2].
    + rewrite Elg, Hsz2. apply (log_shape_ext (set_lh 0 (lg_block (k_log k)) (k_log k))); try done.
      eapply log_shape_clear. apply Ht.
  - exact Elg.
  - intros b Hb. by rewrite <-Hct2.
  - exact Hsz2.
Qed.

(** A write to a log whose blocks are used up panics. *)
Lemma put_block_full k bs b data :
  txn k ∅ bs -> 0 <= b < disksize (k_disk k) -> (length bs < NBUF)%nat ->
  Z.of_nat (length bs) >= lg_size (k_log k) - 1 ->
  exists k', put_block b data k = Panic "too big a transaction" k'.
Proof.
  intros Ht Hb Hroom Hfull.
  destruct (txn_bread k ∅ bs b Ht (lookup_empty _) Hb) as (i & k1 & E1 & H1 & F1 & C1).
  { rewrite map_size_empty. lia. }
  destruct (tx_open _ _ _ H1 b i (lookup_insert_eq _ _ _)) as [bf (_ & Hbf & _)].
  eexists. unfold put_block. krun E1. krun (upd_buf_ok k1 i (fun bf => with_data data bf) bf Hbf).
  apply obind_panic. unfold log_write. unfold bind at 1, gets at 1. cbn [obind].
  pose proof (ls_n _ _ _ (tx_shape _ _ _ H1)) as Hn. cbn [k_log set_bufs].
  rewrite Hn, (tf_log _ _ F1). cbn [lg_size set_lh].
  rewrite !Z.geb_leb, (proj2 (Z.leb_le (lg_size _ - 1) _)), orb_true_r by lia. done.
Qed.

(** ** Interleaved operations *)

(** No operation is in progress, and the log has the size mkfs gives it. *)
Record quiet (k : kernel) : Prop := Quiet {
  qu_txn : txn k ∅ [];
  qu_out : lg_outstanding (k_log k) = 0;
  qu_idle : lg_committing (k_log k) = false;
  qu_size : lg_size (k_log k) = LOGSIZE
}.

Section History.
  Context (k0 : kernel).

(** The blocks the file system may log. *)
Definition fs_block (b : Z) : Prop := 0 <= b < disksize (k_disk k0) /\ ~ in_log (k_log k0) b.

(** [ophist us bs ws k]: from [k0], operations that have logged [us] blocks each are in
    progress, the log holds the blocks [bs], and [ws] are the writes, latest last.  An
    operation writes at most MAXOPBLOCKS blocks. *)
Inductive ophist : list nat -> list Z -> list (Z * list Z) -> kernel -> Prop :=
| oh_start : ophist [] [] [] k0
| oh_begin us bs ws k k' :
    ophist us bs ws k -> begin_op k = Ok tt k' -> ophist (us ++ [0%nat]) bs ws k'
| oh_write us bs ws k k' j u b data :
    ophist us bs ws k -> us !! j = Some u -> (u < 10)%nat -> fs_block b -> length data = 512%nat ->
    put_block b data k = Ok tt k' ->
    ophist (<[j := S u]> us) (absorb b bs) (ws ++ [(b, data)]) k'
| oh_end us bs ws k k' j :
    ophist us bs ws k -> (j < length us)%nat -> end_op k = Ok tt k' ->
    ophist (delete j us) (if decide (length us = 1)%nat then [] else bs) ws k'.

(** What the operations in progress may still log. *)
Definition budget (us : list nat) : nat := sum_list ((fun u => 10 - u)%nat <$> us).

Record ops_ok (us : list nat) (bs : list Z) (ws : list (Z * list Z)) (k : kernel) : Prop := OpsOk {
  oo_txn : txn k ∅ bs;
  oo_out : lg_outstanding (k_log k) = Z.of_nat (length us);
  oo_idle : lg_committing (k_log k) = false;
  oo_size : lg_size (k_log k) = LOGSIZE;
  oo_start : lg_start (k_log k) = lg_start (k_log k0);
  oo_disk : disksize (k_disk k) = disksize (k_disk k0);
  oo_budget : (length bs + budget us <= 30)%nat;
  oo_view : forall b, ~ in_log (k_log k0) b -> content k b = after_writes ws (content k0 b) b
}.

Lemma ops_in_log us bs ws k b :
  lg_size (k_log k0) = LOGSIZE -> ops_ok us bs ws k -> in_log (k_log k) b <-> in_log (k_log k0) b.
Proof. intros Hs [? ? ? E1 E2 ? ? ?]. unfold in_log. by rewrite E1, E2, Hs. Qed.

Lemma budget_app us vs : budget (us ++ vs) = (budget us + budget vs)%nat.
Proof. unfold budget. induction us as [|u us IH]; [done|]. cbn. cbn in IH. lia. Qed.

Lemma budget_insert us j u :
  us !! j = Some u -> (u < 10)%nat -> (budget (<[j := S u]> us) + 1 = budget us)%nat.
Proof.
  intros Hj Hu. pose proof (lookup_lt_Some _ _ _ Hj). rewrite (insert_take_drop us j) by done.
  rewrite <-(take_drop_middle us j u Hj) at 3. rewrite !budget_app. unfold budget. cbn. lia.
Qed.

Lemma budget_delete us j : (j < length us)%nat -> (budget (delete j us) <= budget us)%nat.
Proof.
  intros [u Hj]%lookup_lt_is_Some. pose proof (f_equal budget (take_drop_middle us j u Hj)) as E.
  rewrite budget_app in E. rewrite (delete_take_drop us j), budget_app.
  change (budget (u :: drop (S j) us)) with (10 - u + budget (drop (S j) us))%nat in E. lia.
Qed.

Lemma ops_begin us bs ws k :
  ops_ok us bs ws k -> (length bs + (length us + 1) * 10 <= 30)%nat ->
  exists k', begin_op k = Ok tt k' /\ ops_ok (us ++ [0%nat]) bs ws k'.
Proof.
  intros [Ht Ho Hi Hs Hst Hd Hb Hv] Hroom. eexists. split.
  - apply begin_op_run; [apply Ht|done|]. rewrite (ls_n _ _ _ (tx_shape _ _ _ Ht)), Ho.
    unfold LOGSIZE, MAXOPBLOCKS. lia.
  - split; try done.
    + by apply txn_set_log.
    + cbn. rewrite length_app. cbn. lia.
    + rewrite budget_app. change (budget [0%nat]) with 10%nat. unfold budget.
      assert (sum_list ((fun u => (10 - u)%nat) <$> us) <= length us * 10)%nat; [|lia].
      clear. induction us as [|u us IH]; cbn; [lia|]. cbn in IH. lia.
Qed.

Lemma ops_write us bs ws k j u b data :
  lg_size (k_log k0) = LOGSIZE -> ops_ok us bs ws k -> us !! j = Some u -> (u < 10)%nat -> fs_block b ->
  length data = 512%nat -> (length bs < 29)%nat ->
  exists k', put_block b data k = Ok tt k' /\ ops_ok (<[j := S u]> us) (absorb b bs) (ws ++ [(b, data)]) k'.
Proof.
  intros Hs0 Hok Hj Hu [Hb Hnl] Hlen Hroom. pose proof Hok as [Ht Ho Hi Hs Hst Hd Hbg Hv].
  assert (0 < length us)%nat by (apply lookup_lt_Some in Hj; lia).
  destruct (put_block_run k ∅ bs b data Ht) as (k' & E & Ht' & Hf & Hct).
  - apply lookup_empty.
  - by rewrite Hd.
  - by rewrite (ops_in_log _ _ _ _ b Hs0 Hok).
  - rewrite map_size_empty. unfold NBUF. lia.
  - unfold log_room. rewrite Hs, Ho. unfold LOGSIZE, MAXOPBLOCKS. lia.
  - done.
  - exists k'. split; [done|]. split; try (by rewrite (tf_log _ _ Hf)); try done.
    + rewrite length_insert. by rewrite (tf_log _ _ Hf).
    + by rewrite (tx_frame_disk _ _ Hf).
    + pose proof (budget_insert us j u Hj Hu). pose proof (length_absorb b bs). lia.
    + intros b' Hb'. rewrite Hct, after_writes_app, <-Hv by done. done.
Qed.

Lemma ops_end us bs ws k j :
  lg_size (k_log k0) = LOGSIZE -> ops_ok us bs ws k -> (j < length us)%nat ->
  exists k', end_op k = Ok tt k' /\ ops_ok (delete j us) (if decide (length us = 1)%nat then [] else bs) ws k'.
Proof.
  intros Hs0 Hok Hj. pose proof Hok as [Ht Ho Hi Hs Hst Hd Hbg Hv].
  assert (length (delete j us) = length us - 1)%nat as Hl.
  { rewrite length_delete; [done|]. by apply lookup_lt_is_Some. }
  pose proof (budget_delete us j Hj). case_decide as E1.
  - destruct (end_op_commit k bs Ht Hi) as (k' & E & Hf & Ht' & El & Hct & Hsz).
    { rewrite Ho, E1. done. }
    { pose proof (ls_room _ _ _ (tx_shape _ _ _ Ht)) as Hr. rewrite Hs in Hr. unfold LOGSIZE, MAXOPBLOCKS, NBUF in *. lia. }
    exists k'. split; [done|]. split; try (by rewrite El); try done.
    + rewrite El. cbn. rewrite Hl, E1. done.
    + by rewrite Hsz.
    + cbn. lia.
    + intros b Hb. rewrite Hct by (by rewrite (ops_in_log _ _ _ _ b Hs0 Hok)). by apply Hv.
  - destruct (end_op_others k ∅ bs Ht Hi) as (k' & E & Hf & Ht' & El & Ed & Hct); [lia|].
    exists k'. split; [done|]. split; try (by rewrite El); try done.
    + rewrite El. cbn. rewrite Hl, Ho. lia.
    + by rewrite Ed.
    + lia.
    + intros b Hb. rewrite Hct. by apply Hv.
Qed.

Lemma ops_len us bs ws k : ops_ok us bs ws k -> (length bs < NBUF)%nat.
Proof.
  intros Hok. pose proof (ls_room _ _ _ (tx_shape _ _ _ (oo_txn _ _ _ _ Hok))) as Hr.
  rewrite (oo_size _ _ _ _ Hok) in Hr. unfold LOGSIZE, MAXOPBLOCKS, NBUF in *. lia.
Qed.

Lemma ophist_idle us bs ws k : ophist us bs ws k -> us = [] -> bs = [].
Proof.
  intros [|? ? ? ? ? ? ?|? ? ? ? ? j u ? ? ? Hj ? ? ? ?|us0 bs0 ? ? ? j ? Hj ?] E.
  - done.
  - by destruct us0.
  - apply (f_equal length) in E. rewrite length_insert in E. apply lookup_lt_Some in Hj. cbn in E. lia.
  - apply (f_equal length) in E. rewrite length_delete in E by (by apply lookup_lt_is_Some). cbn in E.
    rewrite decide_True; [done|lia].
Qed.

Lemma ophist_ok us bs ws k : quiet k0 -> ophist us bs ws k -> ops_ok us bs ws k.
Proof.
  intros [Ht0 Ho0 Hi0 Hs0]. induction 1 as [|us bs ws k k' _ IH E|us bs ws k k' j u b data _ IH Hj Hu Hb Hl E|us bs ws k k' j _ IH Hj E].
  - split; try done. cbn. lia.
  - destruct (begin_op_waits k k' (tx_ready _ _ _ (oo_txn _ _ _ _ IH)) E) as [_ Hroom].
    rewrite (ls_n _ _ _ (tx_shape _ _ _ (oo_txn _ _ _ _ IH))), (oo_out _ _ _ _ IH) in Hroom.
    destruct (ops_begin us bs ws k IH) as (k1 & E1 & H1); [change LOGSIZE with 30 in Hroom; change MAXOPBLOCKS with 10 in Hroom; lia|].
    rewrite E in E1. by injection E1 as <-.
  - destruct (decide (length bs < 29)%nat) as [Hroom|Hroom].
    + destruct (ops_write us bs ws k j u b data Hs0 IH Hj Hu Hb Hl Hroom) as (k1 & E1 & H1).
      rewrite E in E1. by injection E1 as <-.
    + exfalso. destruct (put_block_full k bs b data (oo_txn _ _ _ _ IH)) as [k1 E1]; [| | |congruence].
      * rewrite (oo_disk _ _ _ _ IH). apply Hb.
      * apply (ops_len _ _ _ _ IH).
      * rewrite (oo_size _ _ _ _ IH). unfold LOGSIZE, MAXOPBLOCKS. lia.
  - destruct (ops_end us bs ws k j Hs0 IH Hj) as (k1 & E1 & H1). rewrite E in E1. by injection E1 as <-.
Qed.


(** An operation that has logged nothing logs [m] blocks from [b] on. *)
Lemma ophist_fill m : forall us bs ws k j u b,
  quiet k0 -> ophist us bs ws k -> us !! j = Some u -> (u + m <= 10)%nat -> (length bs + m <= 29)%nat ->
  (forall c, b <= c < b + Z.of_nat m -> fs_block c /\ c ∉ bs) ->
  exists bs' ws' k', ophist (<[j := (u + m)%nat]> us) bs' ws' k' /\ length bs' = (length bs + m)%nat /\
    forall c, c ∈ bs' <-> c ∈ bs \/ b <= c < b + Z.of_nat m.
Proof.
  induction m as [|m IH]; intros us bs ws k j u b Hq Hh Hj Hu Hl Hc.
  - exists bs, ws, k. rewrite Nat.add_0_r, list_insert_id by done. split_and!; [done|lia|].
    intros c. split; [by left|]. intros [?|?]; [done|lia].
  - destruct (Hc b ltac:(lia)) as [Hfb Hnb].
    destruct (ops_write us bs ws k j u b ZERO_BLOCK (qu_size _ Hq) (ophist_ok _ _ _ _ Hq Hh) Hj ltac:(lia) Hfb) as (k1 & E1 & _).
    { apply length_replicate. }
    { lia. }
    assert (absorb b bs = bs ++ [b]) as Ea by (unfold absorb; by rewrite decide_False).
    destruct (IH (<[j := S u]> us) (absorb b bs) (ws ++ [(b, ZERO_BLOCK)]) k1 j (S u) (b + 1) Hq) as (bs' & ws' & k' & H' & L' & C').
    + eapply oh_write; [exact Hh|exact Hj|lia|exact Hfb|apply length_replicate|exact E1].
    + apply list_lookup_insert_eq. by eapply lookup_lt_Some.
    + lia.
    + rewrite Ea, length_app. cbn. lia.
    + intros c Hc'. destruct (Hc c ltac:(lia)) as [? ?]. split; [done|]. rewrite elem_of_absorb. intros [->|?]; [lia|done].
    + exists bs', ws', k'. rewrite list_insert_insert_eq in H'. split_and!.
      * by replace (u + S m)%nat with (S u + m)%nat by lia.
      * rewrite L', Ea, length_app. cbn. lia.
      * intros c. rewrite C', elem_of_absorb. destruct (decide (c = b)) as [->|Hne].
        { split; intros _; [right; lia|left; by left]. }
        split; intros [H|H]; try (right; lia); left; naive_solver.
Qed.

(** C23: the reservation promises one block more than the log area has.  Three
    operations, each inside its MAXOPBLOCKS blocks, reach a state in which the next block
    of the reservation makes log_write panic: the area of nlog = LOGSIZE blocks that mkfs
    makes holds the header and LOGSIZE - 1 blocks. *)
Theorem log_overflow b0 data :
  quiet k0 -> (forall c, b0 <= c < b0 + 30 -> fs_block c) ->
  exists bs ws k k', ophist [10; 10; 9]%nat bs ws k /\
    put_block (b0 + 29) data k = Panic "too big a transaction" k'.
Proof.
  intros Hq Hfs. pose proof (qu_size _ Hq) as Hs0.
  assert (forall us ws k, ophist us [] ws k -> (length us <= 2)%nat -> exists k', ophist (us ++ [0%nat]) [] ws k') as Hbegin.
  { intros us ws k Hh Hl. destruct (ops_begin us [] ws k (ophist_ok _ _ _ _ Hq Hh)) as (k' & E & _).
    - cbn [length]. lia.
    - exists k'. by eapply oh_begin. }
  destruct (Hbegin [] [] k0 oh_start ltac:(cbn; lia)) as [k1 H1].
  destruct (Hbegin _ [] k1 H1 ltac:(cbn; lia)) as [k2 H2].
  destruct (Hbegin _ [] k2 H2 ltac:(cbn; lia)) as [k3 H3]. cbn [app] in H3.
  destruct (ophist_fill 10 _ _ _ _ 0 0 b0 Hq H3 eq_refl) as (bs1 & ws1 & k4 & H4 & L4 & C4).
  { lia. } { cbn. lia. } { intros c Hc. split; [apply Hfs; lia|apply not_elem_of_nil]. }
  destruct (ophist_fill 10 _ _ _ _ 1 0 (b0 + 10) Hq H4 eq_refl) as (bs2 & ws2 & k5 & H5 & L5 & C5).
  { lia. } { rewrite L4. cbn. lia. }
  { intros c Hc. split; [apply Hfs; lia|]. rewrite C4. intros [?%elem_of_nil|?]; [done|lia]. }
  destruct (ophist_fill 9 _ _ _ _ 2 0 (b0 + 20) Hq H5 eq_refl) as (bs3 & ws3 & k6 & H6 & L6 & _).
  { lia. } { rewrite L5, L4. cbn. lia. }
  { intros c Hc. split; [apply Hfs; lia|]. rewrite C5, C4. intros [[?%elem_of_nil|?]|?]; [done|lia|lia]. }
  cbn in H6. pose proof (ophist_ok _ _ _ _ Hq H6) as Hok.
  destruct (put_block_full k6 bs3 (b0 + 29) data (oo_txn _ _ _ _ Hok)) as [k' E].
  - rewrite (oo_disk _ _ _ _ Hok). apply (Hfs (b0 + 29)). lia.
  - by apply (ops_len _ _ _ _ Hok).
  - rewrite (oo_size _ _ _ _ Hok), L6, L5, L4. unfold LOGSIZE, MAXOPBLOCKS. cbn. lia.
  - exists bs3, ws3, k6, k'. by split.
Qed.

End History.

End LogOps.

(** ** A machine at rest *)

Definition log_rest : log := Log 2 30 0 false 1 0 (replicate 30 0).
Definition at_rest : kernel := set_log log_rest cache_up.

Lemma log_rest_shape : log_shape log_rest FSSIZE [].
Proof. exact (log_shape_ext log_open log_rest FSSIZE [] eq_refl eq_refl eq_refl eq_refl eq_refl log_open_shape). Qed.

Lemma at_rest_disk : k_disk at_rest = Disk ∅ FSSIZE true None [].
Proof. destruct cache_up_ok as (_ & _ & _ & _ & Hd). exact (eq_trans (set_log_disk log_rest cache_up) Hd). Qed.

Lemma at_rest_log : k_log at_rest = log_rest.
Proof. exact (set_log_log log_rest cache_up). Qed.

Lemma at_rest_quiet : quiet at_rest.
Proof.
  split; [|by rewrite at_rest_log..].
  destruct cache_up_ok as (Hr & Hk & Hcl & Hct & Hd).
  apply (txn_start (driver := Memide.memide) cache_up _ log_rest Hr Hk Hcl Hct).
  rewrite Hd. exact log_rest_shape.
Qed.

Lemma at_rest_fs_block c : 40 <= c < FSSIZE -> fs_block at_rest c.
Proof.
  unfold fs_block. rewrite at_rest_disk, at_rest_log. unfold in_log, FSSIZE. cbn. lia.
Qed.


Lemma log_overflow_witness :
  exists bs ws k k', ophist (patience_bound := 2%nat) (driver := Memide.memide) at_rest [10; 10; 9]%nat bs ws k /\
    put_block (patience_bound := 2%nat) (driver := Memide.memide) 129 (replicate 512 7) k = Panic "too big a transaction" k'.
Proof.
  apply (log_overflow (patience_bound := 2%nat) (driver := Memide.memide) at_rest 100 (replicate 512 7) at_rest_quiet).
  intros c Hc. apply at_rest_fs_block. unfold FSSIZE. lia.
Defined.
