(* ===== verification/Umem.v ===== *)
(** * The kernel's accesses to memory by virtual address

    System calls dereference the pointers of user programs under the page table of the
    process.  An address of the lower half goes through the page table in %cr3 (a store
    needs a writable page: CR0.WP is set by entry.S); an address from KERNBASE on is
    [k_mem]'s; in between, and where the walk fails, the access faults.  The destination or
    source of a copy may also be an object of the caller, outside [k_mem]. *)

From S2P Require Import Prelude Mem State Spinlock Ktrace Kalloc Vm.

(** Where the byte at [a] is. *)
Definition kaddr (m : mem) (cr3 a : Z) (wr : bool) : option Z :=
  if a <? 2 ^ 47 then
    ent ← pte_at m (p2v cr3) a;
    if wr && (Z.land ent PTE_W =? 0) then None else Some (p2v (PTE_ADDR ent) + a `mod` 4096)
  else if a <? KERNBASE then None else Some a.

Definition load8 (a : Z) : K Z := fun k =>
  match kaddr (k_mem k) (c_cr3 (k_cpu k)) a false with
  | Some p => Ok (ld8 (k_mem k) p) k
  | None => Fault k
  end.

Definition store8 (a v : Z) : K unit := fun k =>
  match kaddr (k_mem k) (c_cr3 (k_cpu k)) a true with
  | Some p => Ok tt (set_mem (st8 (k_mem k) p v) k)
  | None => Fault k
  end.

Fixpoint load_bytes (a : Z) (n : nat) : K (list Z) :=
  match n with
  | O => ret []
  | S n' =>
      b <- load8 a ;;
      bs <- load_bytes (u64 (a + 1)) n' ;;
      ret (b :: bs)
  end.

Fixpoint store_bytes (a : Z) (bs : list Z) : K unit :=
  match bs with
  | [] => ret tt
  | b :: bs =>
      store8 a b ;;;
      store_bytes (u64 (a + 1)) bs
  end.

(** The destination of a read: an address, or an object of the caller ([None]), which
    takes the bytes from the result. *)
Definition put_dst (dst : option Z) (off : Z) (bs : list Z) : K unit :=
  match dst with
  | None => ret tt
  | Some a => store_bytes (u64 (a + off)) bs
  end.

(** The source of a write: an address, or the bytes of an object of the caller. *)
Inductive source : Type := SAt (a : Z) | SBytes (bs : list Z).

Definition get_src (src : source) (off : Z) (n : nat) : K (list Z) :=
  match src with
  | SAt a => load_bytes (u64 (a + off)) n
  | SBytes bs =>
      let l := take n (drop (Z.to_nat off) bs) in
      if decide (length l = n) then ret l else fault
  end.

(** ** Accesses inside one object *)

Lemma get_src_bytes bs off n k :
  0 <= off -> off + Z.of_nat n <= Z.of_nat (length bs) ->
  get_src (SBytes bs) off n k = Ok (take n (drop (Z.to_nat off) bs)) k.
Proof. intros H0 Hn. unfold get_src. rewrite decide_True; [done|]. rewrite length_take, length_drop. lia. Qed.

Lemma load8_kernel k a :
  KERNBASE <= a -> load8 a k = Ok (ld8 (k_mem k) a) k.
Proof.
  intros Ha. unfold load8, kaddr. unfold KERNBASE in *.
  rewrite (proj2 (Z.ltb_ge a (2 ^ 47))), (proj2 (Z.ltb_ge a _)) by lia. done.
Qed.

Lemma store8_kernel k a v :
  KERNBASE <= a -> store8 a v k = Ok tt (set_mem (st8 (k_mem k) a v) k).
Proof.
  intros Ha. unfold store8, kaddr. unfold KERNBASE in *.
  rewrite (proj2 (Z.ltb_ge a (2 ^ 47))), (proj2 (Z.ltb_ge a _)) by lia. done.
Qed.

Lemma store_bytes_kernel bs : forall k a,
  KERNBASE <= a -> a + Z.of_nat (length bs) <= 2 ^ 64 ->
  store_bytes a bs k = Ok tt (set_mem (st_bytes (k_mem k) a bs) k).
Proof.
  induction bs as [|b bs IH]; intros k a Ha Hb; cbn [store_bytes]; [by destruct k|].
  krun (store8_kernel k a b Ha). cbn [length] in Hb. destruct bs as [|b' bs]; [by cbn|].
  rewrite u64_small by (unfold in_u64, KERNBASE in *; cbn [length] in Hb; lia).
  rewrite IH by (cbn [length] in *; lia). done.
Qed.

Lemma load_bytes_kernel n : forall k a,
  KERNBASE <= a -> a + Z.of_nat n <= 2 ^ 64 -> load_bytes a n k = Ok (ld_bytes (k_mem k) a n) k.
Proof.
  induction n as [|n IH]; intros k a Ha Hb; cbn [load_bytes ld_bytes]; [done|].
  krun (load8_kernel k a Ha). destruct n as [|n]; [done|].
  rewrite u64_small by (unfold in_u64, KERNBASE in *; lia).
  krun (IH k (a + 1) ltac:(lia) ltac:(lia)). done.
Qed.
