(* ===== verification/Inode.v ===== *)
(** * Disk blocks and inodes (src/fs.c, first half)

    The block allocator on the free bitmap, the inode table on the disk, and the inode
    cache: an inode pointer is its index in icache.inode. *)

From S2P Require Import Prelude Mem State Spinlock Sched Sleeplock Bio Block Log.

Section Inode.
  Context {patience_bound : Patience} {driver : DiskDriver}.

(** ** Layout (fs.h) *)

Definition IPB : Z := BSIZE / 64.
Definition IBLOCK (i : Z) (sb : superblock) : Z := u32 (i / IPB + sb_inodestart sb).
Definition BPB : Z := BSIZE * 8.
Definition BBLOCK (b : Z) (sb : superblock) : Z := u32 (b / BPB + sb_bmapstart sb).
Definition ROOTINO : Z := 1.

(** The [struct dinode] at offset [o] of a block. *)
Definition dinode_at (d : list Z) (o : nat) : dinode :=
  Dinode (s16 (get16 d o)) (s16 (get16 d (o + 2))) (s16 (get16 d (o + 4))) (s16 (get16 d (o + 6)))
    (get32 d (o + 8)) ((fun j => get32 d (o + 12 + 4 * j)%nat) <$> upto 13).

Fixpoint put_addrs (d : list Z) (o : nat) (addrs : list Z) : list Z :=
  match addrs with
  | [] => d
  | a :: addrs => put_addrs (put32 d o a) (o + 4) addrs
  end.

(** The assignments to the fields of a [struct dinode]. *)
Definition put_dinode (d : list Z) (o : nat) (di : dinode) : list Z :=
  let d := put16 d o (di_type di) in
  let d := put16 d (o + 2) (di_major di) in
  let d := put16 d (o + 4) (di_minor di) in
  let d := put16 d (o + 6) (di_nlink di) in
  let d := put32 d (o + 8) (di_size di) in
  put_addrs d (o + 12) (di_addrs di).

(** [(struct dinode* )bp->data + inum%IPB] *)
Definition dinode_off (inum : Z) : nat := Z.to_nat (64 * (inum `mod` IPB)).

(** ** Blocks *)

Definition bzero (dev bno : Z) : K unit :=
  bp <- bread dev bno ;;
  upd_data bp (fun _ => ZERO_BLOCK) ;;;
  log_write bp ;;;
  brelse bp.

(** The bit of block [b + bi] in the bitmap block [d]. *)
Definition bit_free (d : list Z) (bi : nat) : option bool :=
  c ← d !! (bi / 8)%nat; Some (Z.land c (Z.shiftl 1 (Z.of_nat bi `mod` 8)) =? 0).
Definition mark_used (bi : nat) (d : list Z) : list Z :=
  alter (fun c => Z.lor c (Z.shiftl 1 (Z.of_nat bi `mod` 8))) (bi / 8)%nat d.
Definition mark_free (bi : nat) (d : list Z) : list Z :=
  alter (fun c => Z.land c (Z.lnot (Z.shiftl 1 (Z.of_nat bi `mod` 8)))) (bi / 8)%nat d.

(** [for(bi = 0; bi < BPB && b + bi < sb.size; bi++)]: the first free bit. *)
Fixpoint balloc_scan (fuel : nat) (d : list Z) (b : Z) (size : Z) (bi : nat) : option (option nat) :=
  if negb ((Z.of_nat bi <? BPB) && (u32 (b + Z.of_nat bi) <? size)) then Some None else
  match fuel with
  | O => Some None
  | S fuel' =>
      free ← bit_free d bi;
      if (free : bool) then Some (Some bi) else balloc_scan fuel' d b size (S bi)
  end.

Fixpoint balloc_from (fuel : nat) (dev : Z) (b : Z) : K Z :=
  sb <- gets k_sb ;;
  if negb (b <? sb_size sb) then panic "balloc: out of blocks" else
  match fuel with
  | O => nofuel
  | S fuel' =>
      bp <- bread dev (BBLOCK b sb) ;;
      d <- buf_data bp ;;
      found <- of_option (balloc_scan (Z.to_nat BPB) d b (sb_size sb) 0) ;;
      match found with
      | Some bi =>
          upd_data bp (mark_used bi) ;;;
          log_write bp ;;;
          brelse bp ;;;
          bzero dev (b + Z.of_nat bi) ;;;
          ret (b + Z.of_nat bi)
      | None =>
          brelse bp ;;;
          balloc_from fuel' dev (b + BPB)
      end
  end.

(** Each round covers BPB of the sb.size blocks. *)
Definition balloc (dev : Z) : K Z :=
  sb <- gets k_sb ;;
  balloc_from (Z.to_nat (sb_size sb / BPB + 1)) dev 0.

Definition bfree (dev b : Z) : K unit :=
  sb <- readsb dev ;;
  modify (set_sb sb) ;;;
  bp <- bread dev (BBLOCK b sb) ;;
  let bi := Z.to_nat (b `mod` BPB) in
  d <- buf_data bp ;;
  free <- of_option (bit_free d bi) ;;
  if (free : bool) then panic "freeing free block" else
  upd_data bp (mark_free bi) ;;;
  log_write bp ;;;
  brelse bp.

(** ** The inode cache *)

Definition get_inode : nat -> K inode := read_at k_inodes.
Definition upd_inode : nat -> (inode -> inode) -> K unit := upd_at k_inodes set_inodes.

Definition with_iref (r : Z) (ip : inode) : inode := Inode (i_dev ip) (i_inum ip) r (i_flags ip) (i_d ip).
Definition with_iflags (f : Z) (ip : inode) : inode := Inode (i_dev ip) (i_inum ip) (i_ref ip) f (i_d ip).
Definition with_di (d : dinode) (ip : inode) : inode := Inode (i_dev ip) (i_inum ip) (i_ref ip) (i_flags ip) d.
Definition with_itype (t : Z) (d : dinode) : dinode :=
  Dinode t (di_major d) (di_minor d) (di_nlink d) (di_size d) (di_addrs d).
Definition with_isize (n : Z) (d : dinode) : dinode :=
  Dinode (di_type d) (di_major d) (di_minor d) (di_nlink d) n (di_addrs d).
Definition with_inlink (n : Z) (d : dinode) : dinode :=
  Dinode (di_type d) (di_major d) (di_minor d) n (di_size d) (di_addrs d).
Definition with_iaddrs (a : list Z) (d : dinode) : dinode :=
  Dinode (di_type d) (di_major d) (di_minor d) (di_nlink d) (di_size d) a.
Definition upd_di (i : nat) (f : dinode -> dinode) : K unit := upd_inode i (fun ip => with_di (f (i_d ip)) ip).

Definition iinit (dev : Z) : K unit :=
  initlock LK_icache "icache" ;;;
  for_each (upto NINODE) (fun i => initsleeplock (SL_inode i) "inode") ;;;
  sb <- readsb dev ;;
  modify (set_sb sb).

(** [for(ip = &icache.inode[0]; ip < &icache.inode[NINODE]; ip++)] of iget: the entry of
    the inode, or the first empty one. *)
Fixpoint iget_scan (ids : list nat) (dev inum : Z) (empty : option nat) : K (nat + option nat) :=
  match ids with
  | [] => ret (inr empty)
  | i :: ids =>
      ip <- get_inode i ;;
      if (i_ref ip >? 0) && (i_dev ip =? dev) && (i_inum ip =? inum) then ret (inl i) else
      iget_scan ids dev inum
        (match empty with None => if i_ref ip =? 0 then Some i else None | Some _ => empty end)
  end.

Definition iget (dev inum : Z) : K nat :=
  acquire LK_icache ;;;
  r <- iget_scan (upto NINODE) dev inum None ;;
  match r with
  | inl i =>
      upd_inode i (fun ip => with_iref (i_ref ip + 1) ip) ;;;
      release LK_icache ;;;
      ret i
  | inr None => panic "iget: no inodes"
  | inr (Some i) =>
      upd_inode i (fun ip => Inode dev inum 1 0 (i_d ip)) ;;;
      release LK_icache ;;;
      ret i
  end.

Fixpoint ialloc_from (fuel : nat) (dev type : Z) (inum : Z) : K nat :=
  sb <- gets k_sb ;;
  if negb (inum <? sb_ninodes sb) then panic "ialloc: no inodes" else
  match fuel with
  | O => nofuel
  | S fuel' =>
      bp <- bread dev (IBLOCK inum sb) ;;
      d <- buf_data bp ;;
      if di_type (dinode_at d (dinode_off inum)) =? 0 then  (* a free inode *)
        upd_data bp (fun d => put_dinode d (dinode_off inum) (with_itype type dinode0)) ;;;
        log_write bp ;;;
        brelse bp ;;;
        iget dev inum
      else
        brelse bp ;;;
        ialloc_from fuel' dev type (inum + 1)
  end.

Definition ialloc (dev type : Z) : K nat :=
  sb <- gets k_sb ;;
  ialloc_from (Z.to_nat (sb_ninodes sb)) dev type 1.

Definition iupdate (i : nat) : K unit :=
  ip <- get_inode i ;;
  sb <- gets k_sb ;;
  bp <- bread (i_dev ip) (IBLOCK (i_inum ip) sb) ;;
  ip <- get_inode i ;;
  upd_data bp (fun d => put_dinode d (dinode_off (i_inum ip)) (i_d ip)) ;;;
  log_write bp ;;;
  brelse bp.

Definition idup (i : nat) : K nat :=
  acquire LK_icache ;;;
  upd_inode i (fun ip => with_iref (i_ref ip + 1) ip) ;;;
  release LK_icache ;;;
  ret i.

(** The null pointer is [None]. *)
Definition ilock (i : option nat) : K unit :=
  match i with
  | None => panic "ilock"
  | Some i =>
      ip <- get_inode i ;;
      if i_ref ip <? 1 then panic "ilock" else
      acquiresleep (SL_inode i) ;;;
      ip <- get_inode i ;;
      when (negb (truth (Z.land (i_flags ip) I_VALID))) (
        sb <- gets k_sb ;;
        bp <- bread (i_dev ip) (IBLOCK (i_inum ip) sb) ;;
        d <- buf_data bp ;;
        upd_di i (fun _ => dinode_at d (dinode_off (i_inum ip))) ;;;
        brelse bp ;;;
        upd_inode i (fun ip => with_iflags (Z.lor (i_flags ip) I_VALID) ip) ;;;
        ip <- get_inode i ;;
        when (di_type (i_d ip) =? 0) (panic "ilock: no type"))
  end.

Definition iunlock (i : option nat) : K unit :=
  match i with
  | None => panic "iunlock"
  | Some i =>
      h <- holdingsleep (SL_inode i) ;;
      ip <- get_inode i ;;
      if negb (truth h) || (i_ref ip <? 1) then panic "iunlock" else
      releasesleep (SL_inode i)
  end.

(** ** Inode content *)

Definition set_addr (i : nat) (j : nat) (addr : Z) : K unit :=
  ip <- get_inode i ;;
  addrs <- of_option (aput (di_addrs (i_d ip)) j addr) ;;
  upd_di i (with_iaddrs addrs).

Definition bmap (i : nat) (bn : Z) : K Z :=
  ip <- get_inode i ;;
  if bn <? NDIRECT then
    addr <- of_option (di_addrs (i_d ip) !! Z.to_nat bn) ;;
    if addr =? 0 then
      addr <- balloc (i_dev ip) ;;
      set_addr i (Z.to_nat bn) addr ;;;
      ret addr
    else ret addr
  else
  let bn := bn - NDIRECT in
  if bn <? NINDIRECT then
    (* Load indirect block, allocating if necessary. *)
    addr <- of_option (di_addrs (i_d ip) !! Z.to_nat NDIRECT) ;;
    addr <- (if addr =? 0 then
               addr <- balloc (i_dev ip) ;;
               set_addr i (Z.to_nat NDIRECT) addr ;;;
               ret addr
             else ret addr) ;;
    bp <- bread (i_dev ip) addr ;;
    d <- buf_data bp ;;
    let addr := get32 d (Z.to_nat (4 * bn)) in
    addr <- (if addr =? 0 then
               addr <- balloc (i_dev ip) ;;
               upd_data bp (fun d => put32 d (Z.to_nat (4 * bn)) addr) ;;;
               log_write bp ;;;
               ret addr
             else ret addr) ;;
    brelse bp ;;;
    ret addr
  else panic "bmap: out of range".

Definition itrunc (i : nat) : K unit :=
  for_each (upto (Z.to_nat NDIRECT)) (fun j =>
    ip <- get_inode i ;;
    addr <- of_option (di_addrs (i_d ip) !! j) ;;
    when (truth addr) (
      bfree (i_dev ip) addr ;;;
      set_addr i j 0)) ;;;
  ip <- get_inode i ;;
  addr <- of_option (di_addrs (i_d ip) !! Z.to_nat NDIRECT) ;;
  when (truth addr) (
    bp <- bread (i_dev ip) addr ;;
    for_each (upto (Z.to_nat NINDIRECT)) (fun j =>
      d <- buf_data bp ;;
      let a := get32 d (4 * j) in
      when (truth a) (bfree (i_dev ip) a)) ;;;
    brelse bp ;;;
    bfree (i_dev ip) addr ;;;
    set_addr i (Z.to_nat NDIRECT) 0) ;;;
  upd_di i (with_isize 0) ;;;
  iupdate i.

Definition iput (i : nat) : K unit :=
  acquire LK_icache ;;;
  ip <- get_inode i ;;
  when ((i_ref ip =? 1) && truth (Z.land (i_flags ip) I_VALID) && (di_nlink (i_d ip) =? 0)) (
    (* inode has no links and no other references: truncate and free. *)
    release LK_icache ;;;
    itrunc i ;;;
    upd_di i (with_itype 0) ;;;
    iupdate i ;;;
    acquire LK_icache ;;;
    upd_inode i (with_iflags 0)) ;;;
  upd_inode i (fun ip => with_iref (i_ref ip - 1) ip) ;;;
  release LK_icache.

Definition iunlockput (i : nat) : K unit :=
  iunlock (Some i) ;;;
  iput i.

(** [struct stat] *)
Record stat : Type := Stat { st_type : Z; st_dev : Z; st_ino : Z; st_nlink : Z; st_size : Z }.

Definition stati (i : nat) : K stat :=
  ip <- get_inode i ;;
  ret (Stat (di_type (i_d ip)) (s32 (i_dev ip)) (i_inum ip) (di_nlink (i_d ip)) (di_size (i_d ip))).

End Inode.
