(* ===== verification/Console.v ===== *)
(** * Console, serial line, keyboard and I/O APIC (src/console.c, uart.c, kbd.c, ioapic.c)

    The screen is the CGA text memory by cell and the cursor register; the serial line is
    the list of bytes sent.  What an interrupt handler reads from its device is an
    argument: the bytes pending, in order.  The IDT register is not part of the state, so
    Control-Z, which loads a null IDT, changes nothing until the next interrupt. *)

From S2P Require Import Prelude Mem State Spinlock Ktrace Kalloc Vm Umem Sched Sleeplock Bio Block Log Inode.

Definition hang {A} : K A := fun k => Hang k.

(** ** I/O APIC *)

Definition REG_ID : Z := 0.
Definition REG_VER : Z := 1.
Definition REG_TABLE : Z := 16.
Definition INT_DISABLED : Z := 65536.
Definition T_IRQ0 : Z := 32.
Definition IRQ_KBD : Z := 1.
Definition IRQ_COM1 : Z := 4.
Definition IRQ_IDE : Z := 14.

Definition ioapicread (reg : Z) : K Z := gets (fun k => default 0 (k_ioapic k !! reg)).
Definition ioapicwrite (reg data : Z) : K unit :=
  modify (fun k => set_ioapic (<[reg := u32 data]> (k_ioapic k)) k).

Definition ioapicenable (irq cpunum : Z) : K unit :=
  ioapicwrite (REG_TABLE + 2 * irq) (T_IRQ0 + irq) ;;;
  ioapicwrite (REG_TABLE + 2 * irq + 1) (Z.shiftl cpunum 24).

(** ** Serial line *)

Definition upd_cons (f : console -> console) : K unit := modify (fun k => set_cons (f (k_cons k)) k).

Definition with_screen (crt : gmap Z Z) (pos : Z) (c : console) : console :=
  Console crt pos (co_locking c) (co_panicked c) (co_uart c) (co_serial c) (in_buf c) (in_r c) (in_w c) (in_e c).
Definition with_serial (s : list Z) (c : console) : console :=
  Console (co_crt c) (co_cursor c) (co_locking c) (co_panicked c) (co_uart c) s (in_buf c) (in_r c) (in_w c) (in_e c).
Definition with_uart (b : bool) (c : console) : console :=
  Console (co_crt c) (co_cursor c) (co_locking c) (co_panicked c) b (co_serial c) (in_buf c) (in_r c) (in_w c) (in_e c).
Definition with_locking (b : bool) (c : console) : console :=
  Console (co_crt c) (co_cursor c) b (co_panicked c) (co_uart c) (co_serial c) (in_buf c) (in_r c) (in_w c) (in_e c).
Definition with_input (buf : list Z) (r w e : Z) (c : console) : console :=
  Console (co_crt c) (co_cursor c) (co_locking c) (co_panicked c) (co_uart c) (co_serial c) buf r w e.

(** The wait for the transmitter ends after 128 polls at the latest. *)
Definition uartputc (c : Z) : K unit :=
  cn <- gets k_cons ;;
  if negb (co_uart cn) then ret tt else
  upd_cons (fun cn => with_serial (co_serial cn ++ [u8 c]) cn).

(** [status] is what the line status register holds. *)
Definition uartearlyinit (status : Z) : K unit :=
  if status =? 255 then ret tt else
  upd_cons (with_uart true) ;;;
  for_each (chars "xv6..." ++ [10]) uartputc.

Definition uartinit : K unit :=
  cn <- gets k_cons ;;
  if negb (co_uart cn) then ret tt else ioapicenable IRQ_COM1 0.

(** ** Screen *)

Definition BACKSPACE : Z := 256.

Definition crt_get (crt : gmap Z Z) (i : Z) : Z := default 0 (crt !! i).
Definition crt_put (i v : Z) (crt : gmap Z Z) : gmap Z Z := <[i := u16 v]> crt.

(** memmove and memset on runs of [n] cells. *)
Definition crt_move (crt : gmap Z Z) (dst src : Z) (n : nat) : gmap Z Z :=
  foldl (fun c j => <[dst + Z.of_nat j := crt_get c (src + Z.of_nat j)]> c) crt (upto n).
Definition crt_fill (crt : gmap Z Z) (dst v : Z) (n : nat) : gmap Z Z :=
  foldl (fun c j => <[dst + Z.of_nat j := v]> c) crt (upto n).

Definition BLANK : Z := Z.lor 32 1792.   (* ' ' | 0x0700 *)

(** The screen after [cgaputc(c)] with the cursor at [pos]. *)
Definition cga_step (crt : gmap Z Z) (pos : Z) (c : Z) : gmap Z Z * Z :=
  let '(crt, pos) :=
    if c =? 10 then (crt, pos + (80 - pos `mod` 80))
    else if c =? BACKSPACE then (crt, if pos >? 0 then pos - 1 else pos)
    else (crt_put pos (Z.lor (Z.land c 255) 1792) crt, pos + 1) in
  let '(crt, pos) :=
    if pos / 80 >=? 24 then  (* Scroll up. *)
      let crt := crt_move crt 0 80 (23 * 80) in
      let pos := pos - 80 in
      (crt_fill crt pos 0 (Z.to_nat (u32 (2 * (24 * 80 - pos)) / 2)), pos)
    else (crt, pos) in
  (crt_put pos BLANK crt, pos).

Definition cgaputc (c : Z) : K unit :=
  upd_cons (fun cn =>
    let '(crt, pos) := cga_step (co_crt cn) (co_cursor cn) c in
    with_screen crt (u16 pos) cn).

Definition vidclear : K unit :=
  upd_cons (fun cn => with_screen (crt_fill (co_crt cn) 0 BLANK (80 * 25)) (co_cursor cn) cn).

Definition vidputc (row col ch color : Z) : K unit :=
  if (row <? 0) || (row >=? 25) then ret tt else
  if (col <? 0) || (col >=? 80) then ret tt else
  upd_cons (fun cn =>
    with_screen (crt_put (row * 80 + col) (Z.lor (Z.land ch 255) (Z.shiftl (Z.land color 255) 8)) (co_crt cn))
      (co_cursor cn) cn).

(** The string is its characters from the one the loop is at. *)
Fixpoint vidputs_from (row col : Z) (s : list Z) (color : Z) (i : Z) : K unit :=
  match s with
  | [] => fault
  | c :: s =>
      if negb (truth c && (col + i <? 80)) then ret tt else
      vidputc row (col + i) c color ;;;
      vidputs_from row col s color (i + 1)
  end.
Definition vidputs (row col : Z) (s : list Z) (color : Z) : K unit := vidputs_from row col s color 0.

(** A console that has panicked halts every processor that prints. *)
Definition consputc (c : Z) : K unit :=
  cn <- gets k_cons ;;
  if co_panicked cn then cli ;;; hang else
  (if c =? BACKSPACE then uartputc 8 ;;; uartputc 32 ;;; uartputc 8
   else uartputc c) ;;;
  cgaputc c.

(** ** Formatted output *)

Definition digits : list Z := chars "0123456789abcdef".
Definition digit (x : Z) : K Z := of_option (digits !! Z.to_nat x).

Fixpoint print_x64_from (n : nat) (x : Z) : K unit :=
  match n with
  | O => ret tt
  | S n' =>
      d <- digit (Z.shiftr x 60) ;;
      consputc d ;;;
      print_x64_from n' (u64 (Z.shiftl x 4))
  end.
Definition print_x64 (x : Z) : K unit := print_x64_from 16 x.

Fixpoint print_x32_from (n : nat) (x : Z) : K unit :=
  match n with
  | O => ret tt
  | S n' =>
      d <- digit (Z.shiftr x 28) ;;
      consputc d ;;;
      print_x32_from n' (u32 (Z.shiftl x 4))
  end.
Definition print_x32 (x : Z) : K unit := print_x32_from 8 x.

(** [do { buf[i++] = digits[x % 10]; x /= 10; } while(x != 0);]: the characters stored. *)
Fixpoint print_d_digits (fuel : nat) (x : Z) : option (list Z) :=
  match fuel with
  | O => None
  | S fuel' =>
      d ← digits !! Z.to_nat (x `mod` 10);
      if x / 10 =? 0 then Some [d]
      else ds ← print_d_digits fuel' (x / 10); Some (d :: ds)
  end.

(** buf has 16 elements: a longer number would overflow it. *)
Definition print_d_buf (v : Z) : option (list Z) :=
  ds ← print_d_digits 16 (if v <? 0 then - v else v);
  let buf := ds ++ (if v <? 0 then [45] else []) in
  if decide (length buf <= 16)%nat then Some buf else None.

Definition print_d (v : Z) : K unit :=
  buf <- of_option (print_d_buf v) ;;
  for_each (rev buf) consputc.

(** The arguments of cprintf: numbers, and strings up to their NUL. *)
Inductive fmtarg : Type := FNum (v : Z) | FStr (s : option (list Z)).

Definition NULL_STR : list Z := chars "(null)".

Fixpoint cprintf_from (fmt : list Z) (args : list fmtarg) : K unit :=
  match fmt with
  | [] => ret tt
  | c :: fmt =>
      if negb (c =? 37) then consputc c ;;; cprintf_from fmt args else
      match fmt with
      | [] => ret tt
      | c :: fmt =>
          if c =? 100 then  (* d *)
            match args with
            | FNum v :: args => print_d (s32 v) ;;; cprintf_from fmt args
            | _ => fault
            end
          else if c =? 120 then  (* x *)
            match args with
            | FNum v :: args => print_x32 (u32 v) ;;; cprintf_from fmt args
            | _ => fault
            end
          else if c =? 112 then  (* p *)
            match args with
            | FNum v :: args => print_x64 (u64 v) ;;; cprintf_from fmt args
            | _ => fault
            end
          else if c =? 115 then  (* s *)
            match args with
            | FStr s :: args => for_each (default NULL_STR s) consputc ;;; cprintf_from fmt args
            | _ => fault
            end
          else if c =? 37 then consputc 37 ;;; cprintf_from fmt args
          else
            (* Print unknown % sequence to draw attention. *)
            consputc 37 ;;; consputc c ;;; cprintf_from fmt args
      end
  end.

Definition cprintf (fmt : list Z) (args : list fmtarg) : K unit :=
  cn <- gets k_cons ;;
  let locking := co_locking cn in
  when locking (acquire LK_cons) ;;;
  cprintf_from fmt args ;;;
  when locking (release LK_cons).

(** ** Process listing *)

(** [pcs] as far as it was filled; the rest is zero. *)
Fixpoint getstackpcs (n : nat) (m : mem) (rbp : Z) : list Z :=
  match n with
  | O => []
  | S n' =>
      if (rbp =? 0) || (rbp <? KERNBASE) || (rbp =? 4294967295) then replicate n 0
      else ld64 m (u64 (rbp + 8)) :: getstackpcs n' m (ld64 m rbp)
  end.

Definition state_name (st : procstate) : list Z :=
  chars match st with
        | UNUSED => "unused" | EMBRYO => "embryo" | SLEEPING => "sleep "
        | RUNNABLE => "runble" | RUNNING => "run   " | ZOMBIE => "zombie"
        end.

Fixpoint c_string (l : list Z) : list Z :=
  match l with
  | [] => []
  | c :: l => if c =? 0 then [] else c :: c_string l
  end.

(** [for(i=0; i<10 && pc[i] != 0; i++) cprintf(" %p", pc[i]);] *)
Fixpoint print_pcs (pcs : list Z) : K unit :=
  match pcs with
  | [] => ret tt
  | pc :: pcs => if pc =? 0 then ret tt else cprintf (chars " %p") [FNum pc] ;;; print_pcs pcs
  end.

Definition procdump : K unit :=
  for_each (upto NPROC) (fun i =>
    p <- get_proc i ;;
    when (negb (bool_decide (p_state p = UNUSED))) (
      cprintf (chars "%d %s %s") [FNum (p_pid p); FStr (Some (state_name (p_state p))); FStr (Some (c_string (p_name p)))] ;;;
      when (bool_decide (p_state p = SLEEPING)) (
        m <- gets k_mem ;;
        print_pcs (getstackpcs 10 m (u64 (ld64 m (p_context p + 40) + 16)))) ;;;
      cprintf [10] [])).

(** ioapicid is set by mpinit; maxintr is at most 255. *)
Definition ioapicinit (ioapicid : Z) : K unit :=
  ver <- ioapicread REG_VER ;;
  let maxintr := Z.land (Z.shiftr ver 16) 255 in
  id <- ioapicread REG_ID ;;
  when (negb (Z.shiftr id 24 =? ioapicid))
    (cprintf (chars "ioapicinit: id isn't equal to ioapicid; not a MP" ++ [10]) []) ;;;
  for_each (upto (Z.to_nat (maxintr + 1))) (fun i =>
    ioapicwrite (REG_TABLE + 2 * Z.of_nat i) (Z.lor INT_DISABLED (T_IRQ0 + Z.of_nat i)) ;;;
    ioapicwrite (REG_TABLE + 2 * Z.of_nat i + 1) 0).

(** ** Keyboard *)

Definition SHIFT : Z := 1.
Definition CTL : Z := 2.
Definition ALT : Z := 4.
Definition CAPSLOCK : Z := 8.
Definition NUMLOCK : Z := 16.
Definition SCROLLLOCK : Z := 32.
Definition E0ESC : Z := 64.

(** The tables of kbd.h: a run from index 0, designated elements, and zero elsewhere. *)
Definition table (run : list Z) (named : list (Z * Z)) : gmap Z Z :=
  list_to_map (named ++ imap (fun i c => (Z.of_nat i, c)) run).
Definition key (t : gmap Z Z) (code : Z) : Z := default 0 (t !! code).

Definition shiftcode : gmap Z Z := table [] [(29, CTL); (42, SHIFT); (54, SHIFT); (56, ALT); (157, CTL); (184, ALT)].
Definition togglecode : gmap Z Z := table [] [(58, CAPSLOCK); (69, NUMLOCK); (70, SCROLLLOCK)].

Definition KEYS_E0 (enter div : Z) : list (Z * Z) :=
  [(156, enter); (181, div); (200, 226); (208, 227); (201, 230); (209, 231);
   (203, 228); (205, 229); (151, 224); (207, 225); (210, 232); (211, 233)].

(** The last rows of normalmap and shiftmap. *)
Definition KEYPAD : list Z :=
  [0; 0; 0; 0; 0; 0; 0] ++ chars "789-456+1230." ++ [0; 0; 0; 0].

Definition normalmap : gmap Z Z :=
  table ([0; 27] ++ chars "1234567890-=" ++ [8; 9] ++ chars "qwertyuiop[]" ++ [10; 0] ++ chars "asdfghjkl;'`"
         ++ [0] ++ chars "\zxcvbnm,./" ++ [0; 42; 0; 32; 0; 0; 0; 0; 0; 0] ++ KEYPAD)
        (KEYS_E0 10 47).
Definition shiftmap : gmap Z Z :=
  table ([0; 27] ++ chars "!@#$%^&*()_+" ++ [8; 9] ++ chars "QWERTYUIOP{}" ++ [10; 0] ++ chars "ASDFGHJKL:" ++ [34; 126]
         ++ [0] ++ chars "|ZXCVBNM<>?" ++ [0; 42; 0; 32; 0; 0; 0; 0; 0; 0] ++ KEYPAD)
        (KEYS_E0 10 47).

(** [C(x)] *)
Definition ctl (s : string) : list Z := (fun c => u8 (c - 64)) <$> chars s.
Definition ctlmap : gmap Z Z :=
  table (replicate 16 0 ++ ctl "QWERTYUIOP" ++ [0; 0; 13; 0] ++ ctl "ASDFGHJKL" ++ [0; 0; 0; 0]
         ++ ctl "\ZXCVBNM" ++ [0; 0] ++ ctl "/" ++ [0; 0])
        (KEYS_E0 13 (u8 (47 - 64))).

Definition charcode (i : Z) : gmap Z Z :=
  if i =? 0 then normalmap else if i =? 1 then shiftmap else ctlmap.

(** kbdgetc on the scan code [data]: its result and the new value of shift. *)
Definition kbd_step (shift data : Z) : Z * Z :=
  if data =? 224 then (0, Z.lor shift E0ESC) else
  if truth (Z.land data 128) then
    (* Key released *)
    let data := if truth (Z.land shift E0ESC) then data else Z.land data 127 in
    (0, Z.land shift (u32 (Z.lnot (Z.lor (key shiftcode data) E0ESC))))
  else
  let '(data, shift) :=
    if truth (Z.land shift E0ESC) then (Z.lor data 128, Z.land shift (u32 (Z.lnot E0ESC)))
    else (data, shift) in
  let shift := Z.lor shift (key shiftcode data) in
  let shift := Z.lxor shift (key togglecode data) in
  let c := key (charcode (Z.land shift (Z.lor CTL SHIFT))) data in
  let c := if truth (Z.land shift CAPSLOCK) then
             if (97 <=? c) && (c <=? 122) then c + (65 - 97)
             else if (65 <=? c) && (c <=? 90) then c + (97 - 65)
             else c
           else c in
  (c, shift).

(** The results of kbdgetc on the scan codes pending, until it returns -1. *)
Fixpoint kbd_chars (shift : Z) (codes : list Z) : list Z * Z :=
  match codes with
  | [] => ([], shift)
  | d :: codes =>
      let '(c, shift) := kbd_step shift d in
      let '(cs, shift) := kbd_chars shift codes in
      (c :: cs, shift)
  end.

(** ** Input *)

(** [input.buf[i % INPUT_BUF]] *)
Definition in_at (cn : console) (i : Z) : Z := default 0 (in_buf cn !! Z.to_nat (i `mod` INPUT_BUF)).

Definition with_e (e : Z) (cn : console) : console := with_input (in_buf cn) (in_r cn) (in_w cn) e cn.

(** [while(input.e != input.w && input.buf[(input.e-1) % INPUT_BUF] != '\n')]: each round
    takes one character off the line being edited. *)
Fixpoint kill_line (fuel : nat) : K unit :=
  cn <- gets k_cons ;;
  if negb (negb (in_e cn =? in_w cn) && negb (in_at cn (u32 (in_e cn - 1)) =? 10)) then ret tt else
  match fuel with
  | O => nofuel
  | S fuel' =>
      upd_cons (with_e (u32 (in_e cn - 1))) ;;;
      consputc BACKSPACE ;;;
      kill_line fuel'
  end.

(** One character of the loop of consoleintr. *)
Definition console_char (c : Z) : K unit :=
  if c =? 26 then ret tt           (* C('Z'): reboot *)
  else if c =? 16 then procdump    (* C('P'): Process listing. *)
  else if c =? 21 then kill_line (Z.to_nat INPUT_BUF)  (* C('U'): Kill line. *)
  else if (c =? 8) || (c =? 127) then  (* Backspace *)
    cn <- gets k_cons ;;
    when (negb (in_e cn =? in_w cn)) (
      upd_cons (with_e (u32 (in_e cn - 1))) ;;;
      consputc BACKSPACE)
  else
    cn <- gets k_cons ;;
    when (negb (c =? 0) && (u32 (in_e cn - in_r cn) <? INPUT_BUF)) (
      let c := if c =? 13 then 10 else c in
      upd_cons (fun cn =>
        with_input (<[Z.to_nat (in_e cn `mod` INPUT_BUF) := u8 c]> (in_buf cn)) (in_r cn) (in_w cn) (u32 (in_e cn + 1)) cn) ;;;
      consputc c ;;;
      cn <- gets k_cons ;;
      when ((c =? 10) || (c =? 4) || (in_e cn =? u32 (in_r cn + INPUT_BUF))) (
        upd_cons (fun cn => with_input (in_buf cn) (in_r cn) (in_e cn) (in_e cn) cn) ;;;
        wakeup Ch_input)).

(** [cs]: the results of getc until it returns a negative one. *)
Definition consoleintr (cs : list Z) : K unit :=
  acquire LK_input ;;;
  for_each cs console_char ;;;
  release LK_input.

Definition kbdintr (codes : list Z) : K unit :=
  shift <- gets k_shift ;;
  let '(cs, shift') := kbd_chars shift codes in
  modify (set_shift shift') ;;;
  consoleintr cs.

(** [bytes]: what the serial line received. *)
Definition uartintr (bytes : list Z) : K unit :=
  cn <- gets k_cons ;;
  consoleintr (if co_uart cn then bytes else []).

(** ** The console device *)

Section Device.
  Context {patience_bound : Patience} {driver : DiskDriver}.

(** [while(input.r == input.w)]: true when the process was killed. *)
Fixpoint consoleread_wait (fuel : nat) : K bool :=
  cn <- gets k_cons ;;
  if negb (in_r cn =? in_w cn) then ret false else
  p <- my_proc ;;
  if p_killed p then ret true else
  match fuel with
  | O => nofuel
  | S fuel' =>
      sleep Ch_input LK_input ;;;
      consoleread_wait fuel'
  end.

(** [while(n > 0)] of consoleread: [None] when the process was killed, and otherwise the
    final value of [n] and the bytes stored. *)
Fixpoint consoleread_from (n : nat) (dst : option Z) (i target : Z) : K (option (Z * list Z)) :=
  match n with
  | O => ret (Some (0, []))
  | S n' =>
      killed <- consoleread_wait patience ;;
      if (killed : bool) then ret None else
      cn <- gets k_cons ;;
      let c := in_at cn (in_r cn) in
      upd_cons (fun cn => with_input (in_buf cn) (u32 (in_r cn + 1)) (in_w cn) (in_e cn) cn) ;;;
      if c =? 4 then  (* EOF *)
        (* Save ^D for next time, to make sure caller gets a 0-byte result. *)
        when (Z.of_nat n <? target)
          (upd_cons (fun cn => with_input (in_buf cn) (u32 (in_r cn - 1)) (in_w cn) (in_e cn) cn)) ;;;
        ret (Some (Z.of_nat n, []))
      else
      put_dst dst i [c] ;;;
      if c =? 10 then ret (Some (Z.of_nat n', [c])) else
      r <- consoleread_from n' dst (i + 1) target ;;
      ret (match r with
           | None => None
           | Some (n, bs) => Some (n, c :: bs)
           end)
  end.

Definition consoleread (ip : nat) (dst : option Z) (n : Z) : K (Z * list Z) :=
  iunlock (Some ip) ;;;
  let target := u32 n in
  acquire LK_input ;;;
  r <- consoleread_from (Z.to_nat n) dst 0 target ;;
  release LK_input ;;;
  ilock (Some ip) ;;;
  ret (match r with
       | None => (-1, [])
       | Some (n', bs) => (s32 (target - (if n >? 0 then n' else n)), bs)
       end).

Definition consolewrite (ip : nat) (src : source) (n : Z) : K Z :=
  iunlock (Some ip) ;;;
  acquire LK_cons ;;;
  for_each (upto (Z.to_nat n)) (fun i =>
    bs <- get_src src (Z.of_nat i) 1 ;;
    for_each bs (fun c => consputc (Z.land c 255))) ;;;
  release LK_cons ;;;
  ilock (Some ip) ;;;
  ret n.

Definition CONSOLE : Z := 1.

Definition consoleinit : K unit :=
  initlock LK_cons "console" ;;;
  initlock LK_input "input" ;;;
  modify (fun k => set_devsw (<[CONSOLE := DevConsole]> (k_devsw k)) k) ;;;
  upd_cons (with_locking true) ;;;
  ioapicenable IRQ_KBD 0.

End Device.
