(* ===== verification/Fs.v ===== *)
(** * File contents, directories and path names (src/fs.c, second half)

    A file's blocks are found by bmap; readi and writei copy between them and memory, or an
    object of the caller.  A path and the buffer for a path element are character arrays. *)

From S2P Require Import Prelude Mem CString State Spinlock Ktrace Kalloc Vm Umem Sched Sleeplock Bio Block Log Inode Console.

Section Fs.
  Context {patience_bound : Patience} {driver : DiskDriver}.

(** ** Inode content *)

(** [for(tot=0; tot<n; tot+=m, off+=m, dst+=m)]: each round reads at least one byte. *)
Fixpoint readi_from (fuel : nat) (i : nat) (dst : option Z) (tot off n : Z) : K (list Z) :=
  if negb (tot <? n) then ret [] else
  match fuel with
  | O => nofuel
  | S fuel' =>
      ip <- get_inode i ;;
      bn <- bmap i (off / BSIZE) ;;
      bp <- bread (i_dev ip) bn ;;
      let m := Z.min (n - tot) (BSIZE - off `mod` BSIZE) in
      d <- buf_data bp ;;
      let bs := slice d (Z.to_nat (off `mod` BSIZE)) (Z.to_nat m) in
      put_dst dst tot bs ;;;
      brelse bp ;;;
      rest <- readi_from fuel' i dst (tot + m) (off + m) n ;;
      ret (bs ++ rest)
  end.

(** The number of bytes read, or -1, and the bytes. *)
Definition readi (i : nat) (dst : option Z) (off n : Z) : K (Z * list Z) :=
  ip <- get_inode i ;;
  if di_type (i_d ip) =? T_DEV then
    devsw <- gets k_devsw ;;
    if (di_major (i_d ip) <? 0) || (di_major (i_d ip) >=? NDEV) then ret (-1, []) else
    match devsw !! di_major (i_d ip) with
    | None => ret (-1, [])
    | Some DevConsole => consoleread i dst (s32 n)
    end
  else
  if (off >? di_size (i_d ip)) || (u32 (off + n) <? off) then ret (-1, []) else
  let n := if u32 (off + n) >? di_size (i_d ip) then di_size (i_d ip) - off else n in
  bs <- readi_from (Z.to_nat (n / BSIZE + 2)) i dst 0 off n ;;
  ret (s32 n, bs).

Fixpoint writei_from (fuel : nat) (i : nat) (src : source) (tot off n : Z) : K Z :=
  if negb (tot <? n) then ret off else
  match fuel with
  | O => nofuel
  | S fuel' =>
      ip <- get_inode i ;;
      bn <- bmap i (off / BSIZE) ;;
      bp <- bread (i_dev ip) bn ;;
      let m := Z.min (n - tot) (BSIZE - off `mod` BSIZE) in
      bs <- get_src src tot (Z.to_nat m) ;;
      upd_data bp (fun d => splice d (Z.to_nat (off `mod` BSIZE)) bs) ;;;
      log_write bp ;;;
      brelse bp ;;;
      writei_from fuel' i src (tot + m) (off + m) n
  end.

Definition writei (i : nat) (src : source) (off n : Z) : K Z :=
  ip <- get_inode i ;;
  if di_type (i_d ip) =? T_DEV then
    devsw <- gets k_devsw ;;
    if (di_major (i_d ip) <? 0) || (di_major (i_d ip) >=? NDEV) then ret (-1) else
    match devsw !! di_major (i_d ip) with
    | None => ret (-1)
    | Some DevConsole => consolewrite i src (s32 n)
    end
  else
  if (off >? di_size (i_d ip)) || (u32 (off + n) <? off) then ret (-1) else
  if u32 (off + n) >? MAXFILE * BSIZE then ret (-1) else
  off <- writei_from (Z.to_nat (n / BSIZE + 2)) i src 0 off n ;;
  ip <- get_inode i ;;
  when ((n >? 0) && (off >? di_size (i_d ip))) (
    upd_di i (with_isize off) ;;;
    iupdate i) ;;;
  ret (s32 n).

(** ** Directories *)

Definition SIZEOF_DIRENT : Z := 16.

(** [struct dirent]: its inode number, and its name. *)
Definition de_inum (de : list Z) : Z := get16 de 0.
Definition de_name (de : list Z) : list Z := slice de 2 14.
Definition dirent (inum : Z) (name : list Z) : list Z := le_split 2 (u16 inum) ++ name.

(** [for(off = 0; off < dp->size; off += sizeof(de))] of dirlookup: the inode and the
    offset of its entry. *)
Fixpoint dirlookup_from (fuel : nat) (dp : nat) (name : list Z) (off : Z) : K (option (nat * Z)) :=
  d <- get_inode dp ;;
  if negb (off <? di_size (i_d d)) then ret None else
  match fuel with
  | O => nofuel
  | S fuel' =>
      r <- readi dp None off SIZEOF_DIRENT ;;
      if negb (fst r =? SIZEOF_DIRENT) then panic "dirlookup read" else
      let de := snd r in
      if de_inum de =? 0 then dirlookup_from fuel' dp name (off + SIZEOF_DIRENT) else
      c <- of_option (Kstr.namecmp name (de_name de)) ;;
      if c =? 0 then
        (* entry matches path element *)
        d <- get_inode dp ;;
        ip <- iget (i_dev d) (de_inum de) ;;
        ret (Some (ip, off))
      else dirlookup_from fuel' dp name (off + SIZEOF_DIRENT)
  end.

Definition dirlookup (dp : nat) (name : list Z) : K (option (nat * Z)) :=
  d <- get_inode dp ;;
  if negb (di_type (i_d d) =? T_DIR) then panic "dirlookup not DIR" else
  dirlookup_from (Z.to_nat (di_size (i_d d) / SIZEOF_DIRENT + 1)) dp name 0.

(** [for(off = 0; off < dp->size; off += sizeof(de))] of dirlink: where the entry goes. *)
Fixpoint dirlink_slot (fuel : nat) (dp : nat) (off : Z) : K Z :=
  d <- get_inode dp ;;
  if negb (off <? di_size (i_d d)) then ret off else
  match fuel with
  | O => nofuel
  | S fuel' =>
      r <- readi dp None off SIZEOF_DIRENT ;;
      if negb (fst r =? SIZEOF_DIRENT) then panic "dirlink read" else
      if de_inum (snd r) =? 0 then ret off else dirlink_slot fuel' dp (off + SIZEOF_DIRENT)
  end.

Definition dirlink (dp : nat) (name : list Z) (inum : Z) : K Z :=
  (* Check that name is not present. *)
  r <- dirlookup dp name ;;
  match r with
  | Some (ip, _) =>
      iput ip ;;;
      ret (-1)
  | None =>
      d <- get_inode dp ;;
      off <- dirlink_slot (Z.to_nat (di_size (i_d d) / SIZEOF_DIRENT + 1)) dp 0 ;;
      nm <- of_option (Kstr.strncpy (replicate 14 0) name DIRSIZ) ;;
      r <- writei dp (SBytes (dirent inum nm)) off SIZEOF_DIRENT ;;
      if negb (r =? SIZEOF_DIRENT) then panic "dirlink" else
      ret 0
  end.

(** ** Paths *)

(** [while( *path == '/') path++;] on the characters from the pointer on. *)
Fixpoint skip_slashes (path : list Z) : list Z :=
  match path with
  | c :: path' => if c =? 47 then skip_slashes path' else path
  | [] => path
  end.

(** [while( *path != '/' && *path != 0) path++;]: the element and the rest. *)
Fixpoint skip_name (path : list Z) : list Z * list Z :=
  match path with
  | c :: path' =>
      if (c =? 47) || (c =? 0) then ([], path)
      else let '(s, rest) := skip_name path' in (c :: s, rest)
  | [] => ([], path)
  end.

(** [Some None]: no element; otherwise the rest of the path and the array [name]. *)
Definition skipelem (path name : list Z) : option (option (list Z * list Z)) :=
  let path := skip_slashes path in
  match path with
  | [] => None
  | c :: _ =>
      if c =? 0 then Some None else
      let '(s, rest) := skip_name path in
      match rest with
      | [] => None
      | _ =>
          let len := length s in
          name ← (if decide (14 <= len)%nat then Some (splice name 0 (take 14 s))
                  else aput (splice name 0 s) len 0);
          Some (Some (skip_slashes rest, name))
      end
  end.

(** [while((path = skipelem(path, name)) != 0)]: each round takes an element off the
    path.  The result is the inode, and the array [name]. *)
Fixpoint namex_from (fuel : nat) (path : list Z) (parent : bool) (name : list Z) (ip : nat) : K (option nat * list Z) :=
  match fuel with
  | O => nofuel
  | S fuel' =>
      e <- of_option (skipelem path name) ;;
      match e with
      | None =>
          if parent then iput ip ;;; ret (None, name)
          else ret (Some ip, name)
      | Some (path, name) =>
          ilock (Some ip) ;;;
          d <- get_inode ip ;;
          if negb (di_type (i_d d) =? T_DIR) then
            iunlockput ip ;;;
            ret (None, name)
          else if parent && (default 0 (path !! 0%nat) =? 0) then
            (* Stop one level early. *)
            iunlock (Some ip) ;;;
            ret (Some ip, name)
          else
            r <- dirlookup ip name ;;
            match r with
            | None =>
                iunlockput ip ;;;
                ret (None, name)
            | Some (next, _) =>
                iunlockput ip ;;;
                namex_from fuel' path parent name next
            end
      end
  end.

Definition namex (path : list Z) (parent : bool) (name : list Z) : K (option nat * list Z) :=
  c <- of_option (path !! 0%nat) ;;
  ip <- (if c =? 47 then iget ROOTDEV ROOTINO
         else
           p <- my_proc ;;
           cwd <- of_option (p_cwd p) ;;
           idup cwd) ;;
  namex_from (S (length path)) path parent name ip.

Definition namei (path : list Z) : K (option nat) :=
  r <- namex path false (replicate 14 0) ;;
  ret (fst r).

Definition nameiparent (path name : list Z) : K (option nat * list Z) := namex path true name.

End Fs.
