(* ===== verification/File.v ===== *)
(** * Pipes and open files (src/pipe.c, src/file.c)

    A pipe is named by the address of its page; its fields are kept in [k_pipes] while the
    page is in use.  A file is its index in ftable.file. *)

From S2P Require Import Prelude Mem State Spinlock Ktrace Kalloc Vm Umem Sched Sleeplock Bio Block Log Inode Console Fs.

Section File.
  Context {patience_bound : Patience} {driver : DiskDriver}.

(** ** Pipes *)

(** A pipe that was freed is a wild pointer. *)
Definition get_pipe (p : Z) : K pipe := fun k => of_option (k_pipes k !! p) k.
Definition upd_pipe (p : Z) (f : pipe -> pipe) : K unit :=
  pi <- get_pipe p ;;
  modify (fun k => set_pipes (<[p := f pi]> (k_pipes k)) k).

Definition with_writeopen (b : bool) (pi : pipe) : pipe :=
  Pipe (pi_data pi) (pi_nread pi) (pi_nwrite pi) (pi_readopen pi) b.
Definition with_readopen (b : bool) (pi : pipe) : pipe :=
  Pipe (pi_data pi) (pi_nread pi) (pi_nwrite pi) b (pi_writeopen pi).
(** [p->data[p->nwrite++ % PIPESIZE] = c] *)
Definition pipe_put (c : Z) (pi : pipe) : pipe :=
  Pipe (<[Z.to_nat (pi_nwrite pi `mod` PIPESIZE) := u8 c]> (pi_data pi)) (pi_nread pi) (u32 (pi_nwrite pi + 1))
    (pi_readopen pi) (pi_writeopen pi).
(** [p->data[p->nread++ % PIPESIZE]] *)
Definition pipe_at (pi : pipe) : Z := default 0 (pi_data pi !! Z.to_nat (pi_nread pi `mod` PIPESIZE)).
Definition pipe_next (pi : pipe) : pipe :=
  Pipe (pi_data pi) (u32 (pi_nread pi + 1)) (pi_nwrite pi) (pi_readopen pi) (pi_writeopen pi).

(** The page's fields become memory again. *)
Definition drop_pipe (p : Z) : K unit := modify (fun k => set_pipes (delete p (k_pipes k)) k).

Definition pipeclose (p : Z) (writable : bool) : K unit :=
  acquire (LK_pipe p) ;;;
  (if writable then
     upd_pipe p (with_writeopen false) ;;;
     wakeup (Ch_nread p)
   else
     upd_pipe p (with_readopen false) ;;;
     wakeup (Ch_nwrite p)) ;;;
  pi <- get_pipe p ;;
  if negb (pi_readopen pi) && negb (pi_writeopen pi) then
    release (LK_pipe p) ;;;
    drop_pipe p ;;;
    kfree p
  else release (LK_pipe p).

(** [while(p->nwrite == p->nread + PIPESIZE)]: false when the write is given up. *)
Fixpoint pipewrite_wait (fuel : nat) (p : Z) : K bool :=
  pi <- get_pipe p ;;
  if negb (pi_nwrite pi =? u32 (pi_nread pi + PIPESIZE)) then ret true else
  pr <- my_proc ;;
  if negb (pi_readopen pi) || p_killed pr then ret false else
  match fuel with
  | O => nofuel
  | S fuel' =>
      wakeup (Ch_nread p) ;;;
      sleep (Ch_nwrite p) (LK_pipe p) ;;;
      pipewrite_wait fuel' p
  end.

(** [for(i = 0; i < n; i++)] with [n] rounds left. *)
Fixpoint pipewrite_from (n : nat) (p addr i : Z) : K bool :=
  match n with
  | O => ret true
  | S n' =>
      ok <- pipewrite_wait patience p ;;
      if negb ok then ret false else
      c <- load8 (u64 (addr + i)) ;;
      upd_pipe p (pipe_put c) ;;;
      pipewrite_from n' p addr (i + 1)
  end.

Definition pipewrite (p addr n : Z) : K Z :=
  acquire (LK_pipe p) ;;;
  ok <- pipewrite_from (Z.to_nat n) p addr 0 ;;
  if negb ok then
    release (LK_pipe p) ;;;
    ret (-1)
  else
    wakeup (Ch_nread p) ;;;
    release (LK_pipe p) ;;;
    ret n.

(** [while(p->nread == p->nwrite && p->writeopen)]: false when the process was killed. *)
Fixpoint piperead_wait (fuel : nat) (p : Z) : K bool :=
  pi <- get_pipe p ;;
  if negb ((pi_nread pi =? pi_nwrite pi) && pi_writeopen pi) then ret true else
  pr <- my_proc ;;
  if p_killed pr then ret false else
  match fuel with
  | O => nofuel
  | S fuel' =>
      sleep (Ch_nread p) (LK_pipe p) ;;;
      piperead_wait fuel' p
  end.

Fixpoint piperead_from (n : nat) (p addr i : Z) : K Z :=
  match n with
  | O => ret i
  | S n' =>
      pi <- get_pipe p ;;
      if pi_nread pi =? pi_nwrite pi then ret i else
      let c := pipe_at pi in
      upd_pipe p pipe_next ;;;
      store8 (u64 (addr + i)) c ;;;
      piperead_from n' p addr (i + 1)
  end.

Definition piperead (p addr n : Z) : K Z :=
  acquire (LK_pipe p) ;;;
  ok <- piperead_wait patience p ;;
  if negb ok then
    release (LK_pipe p) ;;;
    ret (-1)
  else
    i <- piperead_from (Z.to_nat n) p addr 0 ;;
    wakeup (Ch_nwrite p) ;;;
    release (LK_pipe p) ;;;
    ret i.

(** ** Files *)

Definition with_fref (r : Z) (f : file) : file :=
  File (f_type f) r (f_readable f) (f_writable f) (f_pipe f) (f_ip f) (f_off f).
Definition with_foff (o : Z) (f : file) : file :=
  File (f_type f) (f_ref f) (f_readable f) (f_writable f) (f_pipe f) (f_ip f) o.

Definition fileinit : K unit := initlock LK_ftable "ftable".

Definition filealloc : K (option nat) :=
  acquire LK_ftable ;;;
  r <- for_until (upto NFILE) (fun i =>
    f <- get_file i ;;
    if f_ref f =? 0 then
      upd_file i (with_fref 1) ;;;
      release LK_ftable ;;;
      ret (Some i)
    else ret None) ;;
  match r with
  | Some i => ret (Some i)
  | None => release LK_ftable ;;; ret None
  end.

Definition filedup (i : nat) : K nat :=
  acquire LK_ftable ;;;
  f <- get_file i ;;
  if f_ref f <? 1 then panic "filedup" else
  upd_file i (with_fref (f_ref f + 1)) ;;;
  release LK_ftable ;;;
  ret i.

Definition fileclose (i : nat) : K unit :=
  acquire LK_ftable ;;;
  f <- get_file i ;;
  if f_ref f <? 1 then panic "fileclose" else
  upd_file i (with_fref (f_ref f - 1)) ;;;
  if f_ref f - 1 >? 0 then release LK_ftable else
  upd_file i (fun f => File FD_NONE 0 (f_readable f) (f_writable f) (f_pipe f) (f_ip f) (f_off f)) ;;;
  release LK_ftable ;;;
  match f_type f with
  | FD_PIPE => pipeclose (f_pipe f) (f_writable f)
  | FD_INODE =>
      begin_op ;;;
      ip <- of_option (f_ip f) ;;
      iput ip ;;;
      end_op
  | FD_NONE => ret tt
  end.

(** The stores of stati to the [struct stat] at [st]. *)
Definition put_stat (st : Z) (s : stat) : K unit :=
  store_bytes (u64 (st + 4)) (le_split 4 (u32 (st_dev s))) ;;;
  store_bytes (u64 (st + 8)) (le_split 4 (st_ino s)) ;;;
  store_bytes st (le_split 2 (u16 (st_type s))) ;;;
  store_bytes (u64 (st + 12)) (le_split 2 (u16 (st_nlink s))) ;;;
  store_bytes (u64 (st + 16)) (le_split 4 (st_size s)).

Definition filestat (i : nat) (st : Z) : K Z :=
  f <- get_file i ;;
  match f_type f with
  | FD_INODE =>
      ilock (f_ip f) ;;;
      ip <- of_option (f_ip f) ;;
      s <- stati ip ;;
      put_stat st s ;;;
      iunlock (f_ip f) ;;;
      ret 0
  | _ => ret (-1)
  end.

Definition fileread (i : nat) (addr n : Z) : K Z :=
  f <- get_file i ;;
  if negb (f_readable f) then ret (-1) else
  match f_type f with
  | FD_PIPE => piperead (f_pipe f) addr n
  | FD_INODE =>
      ilock (f_ip f) ;;;
      ip <- of_option (f_ip f) ;;
      f <- get_file i ;;
      r <- readi ip (Some addr) (f_off f) (u32 n) ;;
      when (fst r >? 0) (upd_file i (fun f => with_foff (u32 (f_off f + fst r)) f)) ;;;
      iunlock (f_ip f) ;;;
      ret (fst r)
  | FD_NONE => panic "fileread"
  end.

(** [((LOGSIZE-1-1-2) / 2) * 512] *)
Definition WRITE_MAX : Z := (LOGSIZE - 1 - 1 - 2) / 2 * 512.

(** [while(i < n)]: each round writes a chunk of up to WRITE_MAX bytes as an operation
    of its own.  The result is the final value of [i]. *)
Fixpoint filewrite_from (fuel : nat) (fi : nat) (addr i n : Z) : K Z :=
  if negb (i <? n) then ret i else
  match fuel with
  | O => nofuel
  | S fuel' =>
      let n1 := if n - i >? WRITE_MAX then WRITE_MAX else n - i in
      begin_op ;;;
      f <- get_file fi ;;
      ilock (f_ip f) ;;;
      ip <- of_option (f_ip f) ;;
      f <- get_file fi ;;
      r <- writei ip (SAt (u64 (addr + i))) (f_off f) n1 ;;
      when (r >? 0) (upd_file fi (fun f => with_foff (u32 (f_off f + r)) f)) ;;;
      iunlock (f_ip f) ;;;
      end_op ;;;
      if r <? 0 then ret i else
      if negb (r =? n1) then panic "short filewrite" else
      filewrite_from fuel' fi addr (i + r) n
  end.

Definition filewrite (fi : nat) (addr n : Z) : K Z :=
  f <- get_file fi ;;
  if negb (f_writable f) then ret (-1) else
  match f_type f with
  | FD_PIPE => pipewrite (f_pipe f) addr n
  | FD_INODE =>
      i <- filewrite_from (Z.to_nat (n / WRITE_MAX + 1)) fi addr 0 n ;;
      ret (if i =? n then n else -1)
  | FD_NONE => panic "filewrite"
  end.

(** The pipe's data is what the page held. *)
Definition SIZEOF_SPINLOCK : Z := 104.

Definition pipealloc : K (option (nat * nat)) :=
  f0 <- filealloc ;;
  f1 <- (match f0 with None => ret None | Some _ => filealloc end) ;;
  match f0, f1 with
  | Some i0, Some i1 =>
      p <- kalloc ;;
      if p =? 0 then fileclose i0 ;;; fileclose i1 ;;; ret None else
      m <- gets k_mem ;;
      modify (fun k => set_pipes
        (<[p := Pipe (ld_bytes m (p + SIZEOF_SPINLOCK) (Z.to_nat PIPESIZE)) 0 0 true true]> (k_pipes k)) k) ;;;
      initlock (LK_pipe p) "pipe" ;;;
      upd_file i0 (fun f => File FD_PIPE (f_ref f) true false p (f_ip f) (f_off f)) ;;;
      upd_file i1 (fun f => File FD_PIPE (f_ref f) false true p (f_ip f) (f_off f)) ;;;
      ret (Some (i0, i1))
  | Some i0, None => fileclose i0 ;;; ret None
  | None, _ => ret None
  end.

End File.
