(* ===== verification/Proc.v ===== *)
(** * Processes (src/proc.c)

    Process creation, exit and wait, the scheduler, and the first process.  A trap frame is
    in memory, at the address [p_tf]; swtch gives the processor to another thread of
    control.  The addresses the linker chooses (syscall_trapret, forkret, and initcode with
    its size) are parameters. *)

From S2P Require Import Prelude Mem CString State Spinlock Ktrace Kalloc Vm Umem Sched Sleeplock Bio Block Log Inode Console Fs File.

(** ** Fields *)

Definition with_sz (v : Z) (p : proc) : proc :=
  Proc v (p_pgdir p) (p_kstack p) (p_state p) (p_pid p) (p_parent p) (p_tf p) (p_context p)
    (p_chan p) (p_killed p) (p_ofile p) (p_cwd p) (p_name p).
Definition with_pgdir (v : Z) (p : proc) : proc :=
  Proc (p_sz p) v (p_kstack p) (p_state p) (p_pid p) (p_parent p) (p_tf p) (p_context p)
    (p_chan p) (p_killed p) (p_ofile p) (p_cwd p) (p_name p).
Definition with_kstack (v : Z) (p : proc) : proc :=
  Proc (p_sz p) (p_pgdir p) v (p_state p) (p_pid p) (p_parent p) (p_tf p) (p_context p)
    (p_chan p) (p_killed p) (p_ofile p) (p_cwd p) (p_name p).
Definition with_pid (v : Z) (p : proc) : proc :=
  Proc (p_sz p) (p_pgdir p) (p_kstack p) (p_state p) v (p_parent p) (p_tf p) (p_context p)
    (p_chan p) (p_killed p) (p_ofile p) (p_cwd p) (p_name p).
Definition with_parent (v : option nat) (p : proc) : proc :=
  Proc (p_sz p) (p_pgdir p) (p_kstack p) (p_state p) (p_pid p) v (p_tf p) (p_context p)
    (p_chan p) (p_killed p) (p_ofile p) (p_cwd p) (p_name p).
Definition with_tf (v : Z) (p : proc) : proc :=
  Proc (p_sz p) (p_pgdir p) (p_kstack p) (p_state p) (p_pid p) (p_parent p) v (p_context p)
    (p_chan p) (p_killed p) (p_ofile p) (p_cwd p) (p_name p).
Definition with_context (v : Z) (p : proc) : proc :=
  Proc (p_sz p) (p_pgdir p) (p_kstack p) (p_state p) (p_pid p) (p_parent p) (p_tf p) v
    (p_chan p) (p_killed p) (p_ofile p) (p_cwd p) (p_name p).
Definition with_ofile (v : list (option nat)) (p : proc) : proc :=
  Proc (p_sz p) (p_pgdir p) (p_kstack p) (p_state p) (p_pid p) (p_parent p) (p_tf p) (p_context p)
    (p_chan p) (p_killed p) v (p_cwd p) (p_name p).
Definition with_cwd (v : option nat) (p : proc) : proc :=
  Proc (p_sz p) (p_pgdir p) (p_kstack p) (p_state p) (p_pid p) (p_parent p) (p_tf p) (p_context p)
    (p_chan p) (p_killed p) (p_ofile p) v (p_name p).
Definition with_name (v : list Z) (p : proc) : proc :=
  Proc (p_sz p) (p_pgdir p) (p_kstack p) (p_state p) (p_pid p) (p_parent p) (p_tf p) (p_context p)
    (p_chan p) (p_killed p) (p_ofile p) (p_cwd p) v.

(** [struct trapframe] (x86.h): offsets and size. *)
Definition TF_rax : Z := 0.
Definition TF_rcx : Z := 16.
Definition TF_rdx : Z := 24.
Definition TF_rsi : Z := 40.
Definition TF_rdi : Z := 48.
Definition TF_r8 : Z := 56.
Definition TF_r9 : Z := 64.
Definition TF_r10 : Z := 72.
Definition TF_r11 : Z := 80.
Definition TF_trapno : Z := 120.
Definition TF_err : Z := 128.
Definition TF_rip : Z := 136.
Definition TF_cs : Z := 144.
Definition TF_rsp : Z := 160.
Definition SIZEOF_TRAPFRAME : Z := 176.
Definition SIZEOF_CONTEXT : Z := 56.
Definition FL_IF : Z := 512.

Definition get_tf (tf off : Z) : K Z := gets (fun k => ld64 (k_mem k) (tf + off)).
Definition set_tf (tf off v : Z) : K unit := memory (fun m => st64 m (tf + off) v).

(** What the linker provides. *)
Class Image : Type := {
  im_trapret : Z;        (* syscall_trapret *)
  im_forkret : Z;        (* forkret *)
  im_initcode : Z;       (* _binary_initcode_start *)
  im_initcode_size : Z   (* _binary_initcode_size *)
}.

Section Proc.
  Context {patience_bound : Patience} {driver : DiskDriver} {image : Image}.

(** ** Creation *)

Definition allocproc : K (option nat) :=
  acquire LK_ptable ;;;
  r <- for_until (upto NPROC) (fun i =>
    p <- get_proc i ;;
    ret (if bool_decide (p_state p = UNUSED) then Some i else None)) ;;
  match r with
  | None => release LK_ptable ;;; ret None
  | Some i =>
      pid <- gets k_nextpid ;;
      upd_proc i (fun p => with_pid pid (with_state EMBRYO p)) ;;;
      modify (set_nextpid (s32 (pid + 1))) ;;;
      release LK_ptable ;;;
      kstack <- kalloc ;;
      upd_proc i (with_kstack kstack) ;;;
      if kstack =? 0 then
        upd_proc i (with_state UNUSED) ;;;
        ret None
      else
      let sp := kstack + KSTACKSIZE in
      (* Leave room for trap frame. *)
      let sp := sp - SIZEOF_TRAPFRAME in
      upd_proc i (with_tf sp) ;;;
      (* Set up new context to start executing at forkret, which returns to trapret. *)
      let sp := sp - 8 in
      memory (fun m => st64 m sp im_trapret) ;;;
      let sp := sp - SIZEOF_CONTEXT in
      upd_proc i (with_context sp) ;;;
      memory (fun m => Kstring.memset m sp 0 SIZEOF_CONTEXT) ;;;
      memory (fun m => st64 m (sp + 48) im_forkret) ;;;
      ret (Some i)
  end.

Definition userinit : K unit :=
  r <- allocproc ;;
  modify (set_initproc r) ;;;
  i <- of_option r ;;
  pgdir <- setupkvm ;;
  upd_proc i (with_pgdir pgdir) ;;;
  if pgdir =? 0 then panic "userinit: out of memory?" else
  inituvm pgdir im_initcode im_initcode_size ;;;
  upd_proc i (with_sz (PGSIZE * 2)) ;;;
  p <- get_proc i ;;
  memory (fun m => Kstring.memset m (p_tf p) 0 SIZEOF_TRAPFRAME) ;;;
  set_tf (p_tf p) TF_r11 FL_IF ;;;
  set_tf (p_tf p) TF_rsp (p_sz p) ;;;
  set_tf (p_tf p) TF_rcx PGSIZE ;;;
  name <- of_option (Kstr.safestrcpy (p_name p) (cstr "initcode") 16) ;;
  upd_proc i (with_name name) ;;;
  cwd <- namei (cstr "/") ;;
  upd_proc i (with_cwd cwd) ;;;
  upd_proc i (with_state RUNNABLE).

Definition growproc (n : Z) : K Z :=
  i <- cur_proc ;;
  p <- get_proc i ;;
  let sz := p_sz p in
  sz' <- (if n >? 0 then allocuvm (p_pgdir p) sz (u64 (sz + n))
          else if n <? 0 then deallocuvm (p_pgdir p) sz (u64 (sz + n))
          else ret sz) ;;
  if negb (n =? 0) && (sz' =? 0) then ret (-1) else
  upd_proc i (with_sz sz') ;;;
  switchuvm i ;;;
  ret 0.

(** [for(i = 0; i < NOFILE; i++) if(proc->ofile[i]) np->ofile[i] = filedup(proc->ofile[i]);] *)
Definition fork_files (cur np : nat) : K unit :=
  for_each (upto NOFILE) (fun fd =>
    p <- get_proc cur ;;
    o <- of_option (p_ofile p !! fd) ;;
    match o with
    | None => ret tt
    | Some f =>
        f' <- filedup f ;;
        upd_proc np (fun q => with_ofile (<[fd := Some f']> (p_ofile q)) q)
    end).

Definition fork : K Z :=
  r <- allocproc ;;
  match r with
  | None => ret (-1)
  | Some np =>
      cur <- cur_proc ;;
      p <- get_proc cur ;;
      (* Copy process state from p. *)
      pgdir <- copyuvm (p_pgdir p) (p_sz p) ;;
      upd_proc np (with_pgdir pgdir) ;;;
      if pgdir =? 0 then
        q <- get_proc np ;;
        kfree (p_kstack q) ;;;
        upd_proc np (fun q => with_state UNUSED (with_kstack 0 q)) ;;;
        ret (-1)
      else
      upd_proc np (fun q => with_parent (Some cur) (with_sz (p_sz p) q)) ;;;
      q <- get_proc np ;;
      memory (fun m => st_bytes m (p_tf q) (ld_bytes m (p_tf p) (Z.to_nat SIZEOF_TRAPFRAME))) ;;;
      (* Clear %rax so that fork returns 0 in the child. *)
      set_tf (p_tf q) TF_rax 0 ;;;
      fork_files cur np ;;;
      p <- get_proc cur ;;
      cwd <- of_option (p_cwd p) ;;
      cwd <- idup cwd ;;
      upd_proc np (with_cwd (Some cwd)) ;;;
      q <- get_proc np ;;
      name <- of_option (Kstr.safestrcpy (p_name q) (p_name p) 16) ;;
      upd_proc np (with_name name) ;;;
      let pid := p_pid q in
      upd_proc np (with_state RUNNABLE) ;;;
      traceevent TRACE_TYPE_PROC pid (p_pid p) 0 0 (Some (cstr "fork")) ;;;
      ret pid
  end.

(** ** Exit *)

(** wakeup1 on the address of a process, which may be null: nobody's channel is null
    while it sleeps, but the comparison is made. *)
Definition wakeup1_proc (o : option nat) : K unit :=
  match o with
  | Some i => wakeup1 (Ch_proc i)
  | None =>
      for_each (upto NPROC) (fun i =>
        p <- get_proc i ;;
        when (bool_decide (p_state p = SLEEPING) && bool_decide (p_chan p = None))
          (upd_proc i (with_state RUNNABLE)))
  end.

Definition exit_files (cur : nat) : K unit :=
  for_each (upto NOFILE) (fun fd =>
    p <- get_proc cur ;;
    o <- of_option (p_ofile p !! fd) ;;
    match o with
    | None => ret tt
    | Some f =>
        fileclose f ;;;
        upd_proc cur (fun p => with_ofile (<[fd := None]> (p_ofile p)) p)
    end).

(** [for(p = ptable.proc; p < &ptable.proc[NPROC]; p++)] of exit. *)
Definition abandon (cur : nat) (init : option nat) : K unit :=
  for_each (upto NPROC) (fun i =>
    p <- get_proc i ;;
    when (bool_decide (p_parent p = Some cur)) (
      upd_proc i (with_parent init) ;;;
      when (bool_decide (p_state p = ZOMBIE)) (wakeup1_proc init))).

Definition exit : K unit :=
  cur <- cur_proc ;;
  init <- gets k_initproc ;;
  if bool_decide (init = Some cur) then panic "init exiting" else
  p <- get_proc cur ;;
  traceevent TRACE_TYPE_PROC (p_pid p) 0 0 0 (Some (cstr "exit")) ;;;
  (* Close all open files. *)
  exit_files cur ;;;
  begin_op ;;;
  p <- get_proc cur ;;
  cwd <- of_option (p_cwd p) ;;
  iput cwd ;;;
  end_op ;;;
  upd_proc cur (with_cwd None) ;;;
  acquire LK_ptable ;;;
  (* Parent might be sleeping in wait(). *)
  p <- get_proc cur ;;
  wakeup1_proc (p_parent p) ;;;
  (* Pass abandoned children to init. *)
  abandon cur init ;;;
  (* Jump into the scheduler, never to return. *)
  upd_proc cur (with_state ZOMBIE) ;;;
  sched ;;;
  panic "zombie exit".

(** ** Wait *)

(** One scan of the table: the pid of a reaped child, or whether there are children. *)
Fixpoint wait_scan (ids : list nat) (cur : nat) (havekids : bool) : K (Z + bool) :=
  match ids with
  | [] => ret (inr havekids)
  | i :: ids =>
      p <- get_proc i ;;
      if negb (bool_decide (p_parent p = Some cur)) then wait_scan ids cur havekids else
      if bool_decide (p_state p = ZOMBIE) then
        (* Found one. *)
        kfree (p_kstack p) ;;;
        upd_proc i (with_kstack 0) ;;;
        freevm (p_pgdir p) ;;;
        upd_proc i (fun p => with_name (<[0%nat := 0]> (p_name p)) (with_parent None (with_pid 0 p))) ;;;
        upd_proc i (fun p => with_state UNUSED (with_killed false p)) ;;;
        ret (inl (p_pid p))
      else wait_scan ids cur true
  end.

Fixpoint wait_from (fuel : nat) : K Z :=
  cur <- cur_proc ;;
  r <- wait_scan (upto NPROC) cur false ;;
  match r with
  | inl pid =>
      release LK_ptable ;;;
      ret pid
  | inr havekids =>
      p <- get_proc cur ;;
      (* No point waiting if we don't have any children. *)
      if negb havekids || p_killed p then
        release LK_ptable ;;;
        ret (-1)
      else
        match fuel with
        | O => nofuel
        | S fuel' =>
            (* Wait for children to exit. *)
            sleep (Ch_proc cur) LK_ptable ;;;
            wait_from fuel'
        end
  end.

Definition wait : K Z :=
  acquire LK_ptable ;;;
  wait_from patience.

(** ** The scheduler *)

Definition set_cur (o : option nat) (k : kernel) : kernel :=
  let c := k_cpu k in
  set_cpu (Cpu (c_id c) (c_ncli c) (c_intena c) (c_if c) o (c_local c) (c_cr3 c)) k.

(** One pass over the process table; [skipped] counts the processes not runnable since
    the last one run. *)
Fixpoint scheduler_pass (ids : list nat) (skipped : Z) : K Z :=
  match ids with
  | [] => ret skipped
  | i :: ids =>
      p <- get_proc i ;;
      if negb (bool_decide (p_state p = RUNNABLE)) then scheduler_pass ids (skipped + 1) else
      (* Switch to chosen process. *)
      modify (set_cur (Some i)) ;;;
      switchuvm i ;;;
      upd_proc i (with_state RUNNING) ;;;
      swtch ;;;
      switchkvm ;;;
      (* Process is done running for now. *)
      modify (set_cur None) ;;;
      scheduler_pass ids 0
  end.

(** [rounds] rounds of [for(;;)]; hlt waits for the next interrupt. *)
Fixpoint scheduler_from (rounds : nat) (skipped : Z) : K unit :=
  match rounds with
  | O => nofuel
  | S rounds' =>
      sti ;;;
      acquire LK_ptable ;;;
      skipped <- scheduler_pass (upto NPROC) skipped ;;
      release LK_ptable ;;;
      scheduler_from rounds' (if skipped >? Z.of_nat NPROC then 0 else skipped)
  end.

Definition scheduler : K unit := scheduler_from patience 0.

Definition forkret : K unit :=
  release LK_ptable ;;;
  first <- gets k_first ;;
  when first (
    (* Some initialization functions must be run in the context of a regular process. *)
    modify (set_first false) ;;;
    iinit ROOTDEV ;;;
    initlog ROOTDEV).

End Proc.
