(* ===== verification/Ide.v ===== *)
(** * The IDE disk driver (src/ide.c)

    Requests are queued through [b_qnext]; the head of the queue is the request the
    controller works on ([d_cmd]: the sector, and the data of a write).  [complete] is the
    controller finishing its command, after which it raises the interrupt; the status it
    reports is an argument of ideintr. *)

From S2P Require Import Prelude Mem State Spinlock Ktrace Kalloc Vm Umem Sched Sleeplock Bio Block Log Inode Console.

(** The interrupt handler of the disk driver linked with the kernel. *)
Class DiskIntr := ideintr : bool -> K unit.

Module Memdisk.
#[export] Instance memide_intr : DiskIntr := fun _ => Memide.memide_ideintr.
End Memdisk.

Module Ide.

Section Ide.
  Context {patience_bound : Patience}.

Definition with_qnext (q : option nat) (b : buf) : buf :=
  Buf (b_flags b) (b_dev b) (b_blockno b) (b_refcnt b) (b_prev b) (b_next b) q (b_data b).

(** ** The controller *)

Definition set_cmd (c : option (Z * option (list Z))) (d : disk) : disk :=
  Disk (d_blocks d) (disksize d) (havedisk1 d) c (d_writes d).

Definition complete (d : disk) : disk :=
  match d_cmd d with
  | Some (b, Some data) => disk_put b data d
  | _ => d
  end.

(** ** The driver *)

(** [ndisks]: whether the status register of disk 1 reads as present; [ncpu] as mpinit
    counted the processors. *)
Definition ideinit (present : bool) (ncpu : Z) : K unit :=
  initlock LK_ide "ide" ;;;
  ioapicenable IRQ_IDE (ncpu - 1) ;;;
  when present (modify (fun k =>
    let d := k_disk k in set_disk (Disk (d_blocks d) (disksize d) true (d_cmd d) (d_writes d)) k)).

Definition idestart (o : option nat) : K unit :=
  match o with
  | None => panic "idestart"
  | Some b =>
      bf <- get_buf b ;;
      if b_blockno bf >=? FSSIZE then panic "incorrect blockno" else
      modify (fun k => set_disk
        (set_cmd (Some (b_blockno bf, if truth (Z.land (b_flags bf) B_DIRTY) then Some (b_data bf) else None))
           (k_disk k)) k)
  end.

(** [ok]: the status register reports no error. *)
Definition ide_intr (ok : bool) : K unit :=
  acquire LK_ide ;;;
  q <- gets k_idequeue ;;
  match q with
  | None => release LK_ide
  | Some b =>
      bf <- get_buf b ;;
      modify (set_idequeue (b_qnext bf)) ;;;
      (* Read data if needed. *)
      when (negb (truth (Z.land (b_flags bf) B_DIRTY)) && ok) (
        d <- gets k_disk ;;
        cmd <- of_option (d_cmd d) ;;
        upd_buf b (with_data (disk_block d (fst cmd)))) ;;;
      (* Wake process waiting for this buf. *)
      upd_buf b (fun bf => with_flags (Z.lor (b_flags bf) B_VALID) bf) ;;;
      upd_buf b (fun bf => with_flags (Z.land (b_flags bf) CLEAN) bf) ;;;
      wakeup (Ch_buf b) ;;;
      (* Start disk on next buf in queue. *)
      q <- gets k_idequeue ;;
      when (bool_decide (is_Some q)) (idestart q) ;;;
      release LK_ide
  end.

(** [for(pp=&idequeue; *pp; pp=&( *pp)->qnext)], then [*pp = b]: [at] is the buffer whose
    qnext [pp] points to, or [None] for idequeue itself. *)
Fixpoint ide_append (fuel : nat) (at_ : option nat) (b : nat) : K unit :=
  q <- (match at_ with
        | None => gets k_idequeue
        | Some i => bf <- get_buf i ;; ret (b_qnext bf)
        end) ;;
  match q with
  | None =>
      match at_ with
      | None => modify (set_idequeue (Some b))
      | Some i => upd_buf i (with_qnext (Some b))
      end
  | Some j =>
      match fuel with
      | O => nofuel
      | S fuel' => ide_append fuel' (Some j) b
      end
  end.

(** [while((b->flags & (B_VALID|B_DIRTY)) != B_VALID)] *)
Fixpoint iderw_wait (fuel : nat) (b : nat) : K unit :=
  bf <- get_buf b ;;
  if Z.land (b_flags bf) (Z.lor B_VALID B_DIRTY) =? B_VALID then ret tt else
  match fuel with
  | O => nofuel
  | S fuel' =>
      sleep (Ch_buf b) LK_ide ;;;
      iderw_wait fuel' b
  end.

(** Append b to idequeue, and start the disk if necessary. *)
Definition enqueue (b : nat) : K unit :=
  upd_buf b (with_qnext None) ;;;
  ide_append NBUF None b ;;;
  q <- gets k_idequeue ;;
  when (bool_decide (q = Some b)) (idestart (Some b)).

Definition ide_iderw (b : nat) : K unit :=
  h <- holdingsleep (SL_buf b) ;;
  if negb (truth h) then panic "iderw: buf not locked" else
  bf <- get_buf b ;;
  if Z.land (b_flags bf) (Z.lor B_VALID B_DIRTY) =? B_VALID then panic "iderw: nothing to do" else
  disk1 <- gets (fun k => havedisk1 (k_disk k)) ;;
  if negb (b_dev bf =? 0) && negb disk1 then panic "iderw: ide disk 1 not present" else
  acquire LK_ide ;;;
  enqueue b ;;;
  iderw_wait patience b ;;;
  release LK_ide.

#[export] Instance ide_driver : DiskDriver := ide_iderw.
#[export] Instance ide_interrupt : DiskIntr := ide_intr.

End Ide.

End Ide.
