(* ===== verification/Exec.v ===== *)
(** * Program loading (src/exec.c, loaduvm of src/vm.c) *)

From S2P Require Import Prelude Mem CString State Spinlock Ktrace Kalloc Vm Umem Sched Sleeplock Bio Block Log Inode Console Fs File Proc.

Section Exec.
  Context {patience_bound : Patience} {driver : DiskDriver}.

(** [for(i = 0; i < sz; i += PGSIZE)] of loaduvm. *)
Fixpoint loaduvm_from (fuel : nat) (pgdir addr : Z) (ip : nat) (offset sz i : Z) : K Z :=
  if negb (i <? sz) then ret 0 else
  match fuel with
  | O => nofuel
  | S fuel' =>
      pte <- walkpgdir pgdir (u64 (addr + i)) false ;;
      match pte with
      | None => panic "loaduvm: address should exist"
      | Some pte =>
          e <- gets (fun k => ld64 (k_mem k) pte) ;;
          let pa := PTE_ADDR e in
          let n := if sz - i <? PGSIZE then sz - i else PGSIZE in
          r <- readi ip (Some (p2v pa)) (u32 (offset + i)) n ;;
          if negb (u32 (fst r) =? n) then ret (-1) else
          loaduvm_from fuel' pgdir addr ip offset sz (u32 (i + PGSIZE))
      end
  end.

(** Each round covers a page of the [sz] bytes. *)
Definition loaduvm (pgdir addr : Z) (ip : nat) (offset sz : Z) : K Z :=
  if negb (addr `mod` PGSIZE =? 0) then panic "loaduvm: addr must be page aligned" else
  loaduvm_from (Z.to_nat (sz / PGSIZE + 1)) pgdir addr ip offset sz 0.

(** [struct elfhdr] and [struct proghdr] (elf.h) *)
Definition ELF_MAGIC : Z := 1179403647. (* 0x464C457F *)
Definition SIZEOF_ELFHDR : Z := 64.
Definition SIZEOF_PROGHDR : Z := 56.
Definition ELF_PROG_LOAD : Z := 1.
Definition get64 (d : list Z) (off : nat) : Z := le_combine (slice d off 8).
Definition elf_magic (d : list Z) : Z := get32 d 0.
Definition elf_entry (d : list Z) : Z := get64 d 24.
Definition elf_phoff (d : list Z) : Z := get64 d 32.
Definition elf_phnum (d : list Z) : Z := get16 d 56.
Definition ph_type (d : list Z) : Z := get32 d 0.
Definition ph_off (d : list Z) : Z := get64 d 8.
Definition ph_vaddr (d : list Z) : Z := get64 d 16.
Definition ph_filesz (d : list Z) : Z := get64 d 32.
Definition ph_memsz (d : list Z) : Z := get64 d 40.

(** [for(i=0, off=elf.phoff; i<elf.phnum; i++, off+=sizeof(ph))] with [n] headers left:
    the size of the image, or [None] for [goto bad]. *)
Fixpoint load_segments (n : nat) (ip : nat) (pgdir off sz : Z) : K (option Z) :=
  match n with
  | O => ret (Some sz)
  | S n' =>
      r <- readi ip None (u32 off) SIZEOF_PROGHDR ;;
      if negb (fst r =? SIZEOF_PROGHDR) then ret None else
      let ph := snd r in
      let next := s32 (off + SIZEOF_PROGHDR) in
      if negb (ph_type ph =? ELF_PROG_LOAD) then load_segments n' ip pgdir next sz else
      if ph_memsz ph <? ph_filesz ph then ret None else
      if u64 (ph_vaddr ph + ph_memsz ph) <? ph_vaddr ph then ret None else
      sz <- allocuvm pgdir sz (u64 (ph_vaddr ph + ph_memsz ph)) ;;
      if sz =? 0 then ret None else
      if negb (ph_vaddr ph `mod` PGSIZE =? 0) then ret None else
      r <- loaduvm pgdir (ph_vaddr ph) ip (u32 (ph_off ph)) (u32 (ph_filesz ph)) ;;
      if r <? 0 then ret None else
      load_segments n' ip pgdir next sz
  end.

(** [for(argc = 0; argv[argc]; argc++)]: the stack pointer and the addresses of the
    strings, or [None] for [goto bad]. *)
Fixpoint push_args (argv : list (list Z)) (pgdir argc sp : Z) : K (option (Z * list Z)) :=
  match argv with
  | [] => ret (Some (sp, []))
  | s :: argv =>
      if argc >=? MAXARG then ret None else
      len <- of_option (Kstr.strlen s) ;;
      let sp := Z.land (u64 (sp - (len + 1))) (u64 (Z.lnot 7)) in
      r <- copyout pgdir sp s (len + 1) ;;
      if r <? 0 then ret None else
      o <- push_args argv pgdir (argc + 1) sp ;;
      ret (match o with
           | None => None
           | Some (sp', us) => Some (sp', sp :: us)
           end)
  end.

(** [for(last=s=path; *s; s++) if( *s == '/') last = s+1;] *)
Fixpoint basename (last s : list Z) : list Z :=
  match s with
  | [] => last
  | c :: s => if c =? 0 then last else basename (if c =? 47 then s else last) s
  end.

(** [bad:]; [ip] is the inode, while it is locked. *)
Definition exec_bad (pgdir : Z) (ip : option nat) : K Z :=
  when (negb (pgdir =? 0)) (freevm pgdir) ;;;
  match ip with
  | Some ip =>
      iunlockput ip ;;;
      end_op
  | None => ret tt
  end ;;;
  ret (-1).

(** The part of exec that follows the loading of the image of [sz] bytes. *)
Definition exec_stack (cur : nat) (path : list Z) (argv : list (list Z)) (elf : list Z) (oldpgdir pgdir sz : Z) : K Z :=
  (* Allocate two pages at the next page boundary.  Make the first inaccessible.  Use the
     second as the user stack. *)
  let sz := PGROUNDUP sz in
  sz <- allocuvm pgdir sz (u64 (sz + 2 * PGSIZE)) ;;
  if sz =? 0 then exec_bad pgdir None else
  clearpteu pgdir (u64 (sz - 2 * PGSIZE)) ;;;
  o <- push_args argv pgdir 0 sz ;;
  match o with
  | None => exec_bad pgdir None
  | Some (sp, us) =>
      let argc := Z.of_nat (length argv) in
      let ustack := 18446744073709551615 :: us ++ [0] in
      p <- get_proc cur ;;
      set_tf (p_tf p) TF_rdi argc ;;;
      set_tf (p_tf p) TF_rsi (u64 (sp - (argc + 1) * 8)) ;;;
      let sp := u64 (sp - (1 + argc + 1) * 8) in
      r <- copyout pgdir sp (ustack ≫= le_split 8) ((1 + argc + 1) * 8) ;;
      if r <? 0 then exec_bad pgdir None else
      (* Save program name for debugging. *)
      name <- of_option (Kstr.safestrcpy (p_name p) (basename path path) 16) ;;
      upd_proc cur (with_name name) ;;;
      (* Commit to the user image. *)
      upd_proc cur (fun p => with_sz sz (with_pgdir pgdir p)) ;;;
      set_tf (p_tf p) TF_rip (elf_entry elf) ;;;
      set_tf (p_tf p) TF_rcx (elf_entry elf) ;;;
      set_tf (p_tf p) TF_rsp sp ;;;
      switchuvm cur ;;;
      freevm oldpgdir ;;;
      ret 0
  end.

Definition exec (path : list Z) (argv : list (list Z)) : K Z :=
  cur <- cur_proc ;;
  p <- get_proc cur ;;
  let oldpgdir := p_pgdir p in
  begin_op ;;;
  o <- namei path ;;
  match o with
  | None =>
      end_op ;;;
      ret (-1)
  | Some ip =>
      ilock (Some ip) ;;;
      (* Check ELF header *)
      r <- readi ip None 0 SIZEOF_ELFHDR ;;
      if negb (fst r =? SIZEOF_ELFHDR) then exec_bad 0 (Some ip) else
      let elf := snd r in
      if negb (elf_magic elf =? ELF_MAGIC) then exec_bad 0 (Some ip) else
      pgdir <- setupkvm ;;
      if pgdir =? 0 then exec_bad 0 (Some ip) else
      (* Load program into memory; skip the first page. *)
      o <- load_segments (Z.to_nat (elf_phnum elf)) ip pgdir (s32 (elf_phoff elf)) PGSIZE ;;
      match o with
      | None => exec_bad pgdir (Some ip)
      | Some sz =>
          iunlockput ip ;;;
          end_op ;;;
          exec_stack cur path argv elf oldpgdir pgdir sz
      end
  end.

End Exec.
