(* ===== verification/Syscall.v ===== *)
(** * System calls (src/syscall.c, src/sysproc.c, src/sysfile.c)

    Arguments are fetched from the trap frame and from the memory of the process.  argaddr
    and argptr return an unsigned type, and the results of the checks are compared as the
    code compares them.  A pointer variable that a failed check leaves unset is [None];
    using it is a fault. *)

From S2P Require Import Prelude Mem CString State Spinlock Ktrace Kalloc Vm Umem TraceRead Sched Sleeplock Bio Block Log Inode Console Fs File Proc Exec.

Section Syscall.
  Context {patience_bound : Patience} {driver : DiskDriver} {image : Image}.

(** ** Arguments *)

Definition fetchint (addr : Z) : K (option Z) :=
  p <- my_proc ;;
  if (addr <? PGSIZE) || (addr >=? p_sz p) || (u64 (addr + 4) >? p_sz p) then ret None else
  bs <- load_bytes addr 4 ;;
  ret (Some (s32 (le_combine bs))).

Definition fetchaddr (addr : Z) : K (option Z) :=
  p <- my_proc ;;
  if (addr <? PGSIZE) || (addr >=? p_sz p) || (u64 (addr + 8) >? p_sz p) then ret None else
  bs <- load_bytes addr 8 ;;
  ret (Some (le_combine bs)).

(** [for(s = *pp; s < ep; s++) if( *s == 0) return s - *pp;] with [n] bytes left. *)
Fixpoint fetchstr_from (n : nat) (s : Z) (len : Z) : K (option Z) :=
  match n with
  | O => ret None
  | S n' =>
      c <- load8 s ;;
      if c =? 0 then ret (Some len) else fetchstr_from n' (s + 1) (len + 1)
  end.

(** The length of the string at [addr], or [None] for -1. *)
Definition fetchstr (addr : Z) : K (option Z) :=
  p <- my_proc ;;
  if (addr <? PGSIZE) || (addr >=? p_sz p) then ret None else
  fetchstr_from (Z.to_nat (p_sz p - addr)) addr 0.

Definition fetcharg (n : Z) : K Z :=
  p <- my_proc ;;
  if n =? 0 then get_tf (p_tf p) TF_rdi
  else if n =? 1 then get_tf (p_tf p) TF_rsi
  else if n =? 2 then get_tf (p_tf p) TF_rdx
  else if n =? 3 then get_tf (p_tf p) TF_r10
  else if n =? 4 then get_tf (p_tf p) TF_r8
  else if n =? 5 then get_tf (p_tf p) TF_r9
  else panic "failed fetch".

(** [*ip]; the function returns 0. *)
Definition argint (n : Z) : K Z := v <- fetcharg n ;; ret (s32 v).
Definition argaddr (n : Z) : K Z := fetcharg n.

(** The value returned, of type addr_t, and [*pp] if it was set. *)
Definition argptr (n size : Z) : K (Z * option Z) :=
  i <- argaddr n ;;
  p <- my_proc ;;
  if (size <? 0) || (u32 i >=? p_sz p) || (u32 (u32 i + size) >? p_sz p) then ret (u64 (-1), None)
  else ret (0, Some i).

(** The address and the length of the string. *)
Definition argstr (n : Z) : K (option (Z * Z)) :=
  addr <- argint n ;;
  len <- fetchstr (u64 addr) ;;
  ret (match len with
       | None => None
       | Some len => Some (u64 addr, len)
       end).

(** The characters of the string a pointer set by argstr or fetchstr points to. *)
Definition user_str (addr len : Z) : K (list Z) := load_bytes addr (Z.to_nat (len + 1)).

(** ** Processes (sysproc.c) *)

Definition sys_fork : K Z := fork.
Definition sys_exit : K Z := exit ;;; ret 0.
Definition sys_wait : K Z := wait.
Definition sys_kill : K Z := pid <- argint 0 ;; kill pid.
Definition sys_getpid : K Z := p <- my_proc ;; ret (p_pid p).

Definition sys_sbrk : K Z :=
  n <- argaddr 0 ;;
  p <- my_proc ;;
  let addr := p_sz p in
  r <- growproc (s64 n) ;;
  if r <? 0 then ret (u64 (-1)) else
  ret addr.

(** [while(ticks - ticks0 < n)]: false when the process was killed. *)
Fixpoint sys_sleep_wait (fuel : nat) (ticks0 n : Z) : K bool :=
  ticks <- gets k_ticks ;;
  if negb (u32 (ticks - ticks0) <? u32 n) then ret true else
  p <- my_proc ;;
  if p_killed p then ret false else
  match fuel with
  | O => nofuel
  | S fuel' =>
      sleep Ch_ticks LK_ticks ;;;
      sys_sleep_wait fuel' ticks0 n
  end.

Definition sys_sleep : K Z :=
  n <- argint 0 ;;
  acquire LK_ticks ;;;
  ticks0 <- gets k_ticks ;;
  ok <- sys_sleep_wait patience ticks0 n ;;
  release LK_ticks ;;;
  ret (if (ok : bool) then 0 else -1).

Definition sys_uptime : K Z :=
  acquire LK_ticks ;;;
  xticks <- gets k_ticks ;;
  release LK_ticks ;;;
  ret (s32 xticks).

Definition sys_traceread : K Z :=
  max_events <- argint 1 ;;
  if max_events <=? 0 then ret 0 else
  r <- argptr 0 (s32 (max_events * EVENT_SIZE)) ;;
  if fst r <? 0 then ret (-1) else
  event <- of_option (snd r) ;;
  traceread event max_events.

Definition sys_vidclear : K Z := vidclear ;;; ret 0.

Definition sys_vidputc : K Z :=
  row <- argint 0 ;;
  col <- argint 1 ;;
  ch <- argint 2 ;;
  color <- argint 3 ;;
  vidputc row col ch color ;;;
  ret 0.

Definition sys_vidputs : K Z :=
  row <- argint 0 ;;
  col <- argint 1 ;;
  o <- argstr 2 ;;
  match o with
  | None => ret (-1)
  | Some (addr, len) =>
      color <- argint 3 ;;
      s <- user_str addr len ;;
      vidputs row col s color ;;;
      ret 0
  end.

(** ** Files (sysfile.c) *)

(** The descriptor and the file, or [None] for -1. *)
Definition argfd (n : Z) : K (option (Z * nat)) :=
  fd <- argint n ;;
  p <- my_proc ;;
  if (fd <? 0) || (fd >=? Z.of_nat NOFILE) then ret None else
  o <- of_option (p_ofile p !! Z.to_nat fd) ;;
  ret (match o with
       | None => None
       | Some f => Some (fd, f)
       end).

Definition set_ofile (fd : nat) (o : option nat) : K unit :=
  i <- cur_proc ;;
  upd_proc i (fun p => with_ofile (<[fd := o]> (p_ofile p)) p).

Definition fdalloc (f : nat) : K Z :=
  r <- for_until (upto NOFILE) (fun fd =>
    p <- my_proc ;;
    o <- of_option (p_ofile p !! fd) ;;
    match o with
    | None =>
        set_ofile fd (Some f) ;;;
        ret (Some (Z.of_nat fd))
    | Some _ => ret None
    end) ;;
  ret (default (-1) r).

Definition sys_dup : K Z :=
  o <- argfd 0 ;;
  match o with
  | None => ret (-1)
  | Some (_, f) =>
      fd <- fdalloc f ;;
      if fd <? 0 then ret (-1) else
      _ <- filedup f ;;
      ret fd
  end.

Definition sys_read : K Z :=
  o <- argfd 0 ;;
  match o with
  | None => ret (-1)
  | Some (_, f) =>
      n <- argint 2 ;;
      r <- argptr 1 n ;;
      if fst r <? 0 then ret (-1) else
      p <- of_option (snd r) ;;
      fileread f p n
  end.

Definition sys_write : K Z :=
  o <- argfd 0 ;;
  match o with
  | None => ret (-1)
  | Some (_, f) =>
      n <- argint 2 ;;
      r <- argptr 1 n ;;
      if fst r <? 0 then ret (-1) else
      p <- of_option (snd r) ;;
      filewrite f p n
  end.

Definition sys_close : K Z :=
  o <- argfd 0 ;;
  match o with
  | None => ret (-1)
  | Some (fd, f) =>
      set_ofile (Z.to_nat fd) None ;;;
      fileclose f ;;;
      ret 0
  end.

Definition SIZEOF_STAT : Z := 20.

Definition sys_fstat : K Z :=
  o <- argfd 0 ;;
  match o with
  | None => ret (-1)
  | Some (_, f) =>
      r <- argptr 1 SIZEOF_STAT ;;
      if fst r <? 0 then ret (-1) else
      st <- of_option (snd r) ;;
      filestat f st
  end.

(** [for(off=2*sizeof(de); off<dp->size; off+=sizeof(de))] *)
Fixpoint isdirempty_from (fuel : nat) (dp : nat) (off : Z) : K bool :=
  d <- get_inode dp ;;
  if negb (off <? di_size (i_d d)) then ret true else
  match fuel with
  | O => nofuel
  | S fuel' =>
      r <- readi dp None off SIZEOF_DIRENT ;;
      if negb (fst r =? SIZEOF_DIRENT) then panic "isdirempty: readi" else
      if negb (de_inum (snd r) =? 0) then ret false else
      isdirempty_from fuel' dp (off + SIZEOF_DIRENT)
  end.

Definition isdirempty (dp : nat) : K bool :=
  d <- get_inode dp ;;
  isdirempty_from (Z.to_nat (di_size (i_d d) / SIZEOF_DIRENT + 1)) dp (2 * SIZEOF_DIRENT).

(** [ip->nlink++] and [ip->nlink--], with iupdate. *)
Definition add_link (ip : nat) (n : Z) : K unit :=
  upd_di ip (fun d => with_inlink (s16 (di_nlink d + n)) d) ;;;
  iupdate ip.

Definition sys_link_bad (ip : nat) : K Z :=
  ilock (Some ip) ;;;
  add_link ip (-1) ;;;
  iunlockput ip ;;;
  end_op ;;;
  ret (-1).

Definition sys_link : K Z :=
  old <- argstr 0 ;;
  match old with
  | None => ret (-1)
  | Some (old, oldlen) =>
      new <- argstr 1 ;;
      match new with
      | None => ret (-1)
      | Some (new, newlen) =>
          begin_op ;;;
          path <- user_str old oldlen ;;
          o <- namei path ;;
          match o with
          | None =>
              end_op ;;;
              ret (-1)
          | Some ip =>
              ilock (Some ip) ;;;
              d <- get_inode ip ;;
              if di_type (i_d d) =? T_DIR then
                iunlockput ip ;;;
                end_op ;;;
                ret (-1)
              else
              add_link ip 1 ;;;
              iunlock (Some ip) ;;;
              path <- user_str new newlen ;;
              r <- nameiparent path (replicate 14 0) ;;
              match r with
              | (None, _) => sys_link_bad ip
              | (Some dp, name) =>
                  ilock (Some dp) ;;;
                  dd <- get_inode dp ;;
                  d <- get_inode ip ;;
                  bad <- (if negb (i_dev dd =? i_dev d) then ret true
                          else
                            l <- dirlink dp name (i_inum d) ;;
                            ret (l <? 0)) ;;
                  if (bad : bool) then
                    iunlockput dp ;;;
                    sys_link_bad ip
                  else
                  iunlockput dp ;;;
                  iput ip ;;;
                  end_op ;;;
                  ret 0
              end
          end
      end
  end.

Definition sys_unlink_bad (dp : nat) : K Z :=
  iunlockput dp ;;;
  end_op ;;;
  ret (-1).

(** The part of sys_unlink after the entry of the locked directory [dp] at [off] was
    found to be [ip]. *)
Definition unlink_entry (dp ip : nat) (off : Z) : K Z :=
  ilock (Some ip) ;;;
  d <- get_inode ip ;;
  if di_nlink (i_d d) <? 1 then panic "unlink: nlink < 1" else
  full <- (if di_type (i_d d) =? T_DIR then e <- isdirempty ip ;; ret (negb e) else ret false) ;;
  if (full : bool) then
    iunlockput ip ;;;
    sys_unlink_bad dp
  else
  r <- writei dp (SBytes (replicate 16 0)) off SIZEOF_DIRENT ;;
  if negb (r =? SIZEOF_DIRENT) then panic "unlink: writei" else
  d <- get_inode ip ;;
  when (di_type (i_d d) =? T_DIR) (add_link dp (-1)) ;;;
  iunlockput dp ;;;
  add_link ip (-1) ;;;
  iunlockput ip ;;;
  end_op ;;;
  ret 0.

Definition sys_unlink : K Z :=
  o <- argstr 0 ;;
  match o with
  | None => ret (-1)
  | Some (addr, len) =>
      begin_op ;;;
      path <- user_str addr len ;;
      r <- nameiparent path (replicate 14 0) ;;
      match r with
      | (None, _) =>
          end_op ;;;
          ret (-1)
      | (Some dp, name) =>
          ilock (Some dp) ;;;
          (* Cannot unlink . or .. *)
          c1 <- of_option (Kstr.namecmp name (cstr ".")) ;;
          c2 <- of_option (Kstr.namecmp name (cstr "..")) ;;
          if (c1 =? 0) || (c2 =? 0) then sys_unlink_bad dp else
          e <- dirlookup dp name ;;
          match e with
          | None => sys_unlink_bad dp
          | Some (ip, off) => unlink_entry dp ip off
          end
      end
  end.

(** The new inode, locked, or [None] for 0. *)
Definition create (path : list Z) (type major minor : Z) : K (option nat) :=
  r <- nameiparent path (replicate 14 0) ;;
  match r with
  | (None, _) => ret None
  | (Some dp, name) =>
      ilock (Some dp) ;;;
      e <- dirlookup dp name ;;
      match e with
      | Some (ip, _) =>
          iunlockput dp ;;;
          ilock (Some ip) ;;;
          d <- get_inode ip ;;
          if (type =? T_FILE) && (di_type (i_d d) =? T_FILE) then ret (Some ip) else
          iunlockput ip ;;;
          ret None
      | None =>
          dd <- get_inode dp ;;
          ip <- ialloc (i_dev dd) type ;;
          ilock (Some ip) ;;;
          upd_di ip (fun d => Dinode (di_type d) (s16 major) (s16 minor) 1 (di_size d) (di_addrs d)) ;;;
          iupdate ip ;;;
          d <- get_inode ip ;;
          when (type =? T_DIR) (
            (* Create . and .. entries. *)
            add_link dp 1 ;;;
            l1 <- dirlink ip (cstr ".") (i_inum d) ;;
            if l1 <? 0 then panic "create dots" else
            l2 <- dirlink ip (cstr "..") (i_inum dd) ;;
            if l2 <? 0 then panic "create dots" else ret tt) ;;;
          l <- dirlink dp name (i_inum d) ;;
          if l <? 0 then panic "create: dirlink" else
          iunlockput dp ;;;
          ret (Some ip)
      end
  end.

(** The inode sys_open opens, locked. *)
Definition open_inode (path : list Z) (omode : Z) : K (option nat) :=
  if truth (Z.land omode O_CREATE) then create path T_FILE 0 0
  else
    o <- namei path ;;
    match o with
    | None => ret None
    | Some ip =>
        ilock (Some ip) ;;;
        d <- get_inode ip ;;
        if (di_type (i_d d) =? T_DIR) && negb (omode =? O_RDONLY) then
          iunlockput ip ;;;
          ret None
        else ret (Some ip)
    end.

Definition sys_open : K Z :=
  o <- argstr 0 ;;
  match o with
  | None => ret (-1)
  | Some (addr, len) =>
      omode <- argint 1 ;;
      begin_op ;;;
      path <- user_str addr len ;;
      o <- open_inode path omode ;;
      match o with
      | None =>
          end_op ;;;
          ret (-1)
      | Some ip =>
          f <- filealloc ;;
          fd <- (match f with None => ret (-1) | Some f => fdalloc f end) ;;
          match f with
          | Some f =>
              if fd <? 0 then
                fileclose f ;;;
                iunlockput ip ;;;
                end_op ;;;
                ret (-1)
              else
              iunlock (Some ip) ;;;
              end_op ;;;
              upd_file f (fun fl => File FD_INODE (f_ref fl) (negb (truth (Z.land omode O_WRONLY)))
                (truth (Z.land omode O_WRONLY) || truth (Z.land omode O_RDWR)) (f_pipe fl) (Some ip) 0) ;;;
              ret fd
          | None =>
              iunlockput ip ;;;
              end_op ;;;
              ret (-1)
          end
      end
  end.

(** The tail of sys_mkdir and sys_mknod. *)
Definition created (o : option nat) : K Z :=
  match o with
  | None =>
      end_op ;;;
      ret (-1)
  | Some ip =>
      iunlockput ip ;;;
      end_op ;;;
      ret 0
  end.

Definition sys_mkdir : K Z :=
  begin_op ;;;
  o <- argstr 0 ;;
  match o with
  | None => created None
  | Some (addr, len) =>
      path <- user_str addr len ;;
      ip <- create path T_DIR 0 0 ;;
      created ip
  end.

Definition sys_mknod : K Z :=
  begin_op ;;;
  o <- argstr 0 ;;
  match o with
  | None => created None
  | Some (addr, len) =>
      major <- argint 1 ;;
      minor <- argint 2 ;;
      path <- user_str addr len ;;
      ip <- create path T_DEV (s16 major) (s16 minor) ;;
      created ip
  end.

Definition sys_chdir : K Z :=
  begin_op ;;;
  o <- argstr 0 ;;
  ip <- (match o with
         | None => ret None
         | Some (addr, len) => path <- user_str addr len ;; namei path
         end) ;;
  match ip with
  | None =>
      end_op ;;;
      ret (-1)
  | Some ip =>
      ilock (Some ip) ;;;
      d <- get_inode ip ;;
      if negb (di_type (i_d d) =? T_DIR) then
        iunlockput ip ;;;
        end_op ;;;
        ret (-1)
      else
      iunlock (Some ip) ;;;
      p <- my_proc ;;
      cwd <- of_option (p_cwd p) ;;
      iput cwd ;;;
      end_op ;;;
      i <- cur_proc ;;
      upd_proc i (with_cwd (Some ip)) ;;;
      ret 0
  end.

(** [for(i=0;; i++)] with [n] elements of argv left: the argument strings, or [None] for -1. *)
Fixpoint fetch_argv (n : nat) (uargv i : Z) : K (option (list (Z * Z))) :=
  match n with
  | O => ret None
  | S n' =>
      uarg <- fetchaddr (u64 (uargv + 8 * i)) ;;
      match uarg with
      | None => ret None
      | Some uarg =>
          if uarg =? 0 then ret (Some []) else
          len <- fetchstr uarg ;;
          match len with
          | None => ret None
          | Some len =>
              o <- fetch_argv n' uargv (i + 1) ;;
              ret (match o with
                   | None => None
                   | Some l => Some ((uarg, len) :: l)
                   end)
          end
      end
  end.

Fixpoint user_strs (l : list (Z * Z)) : K (list (list Z)) :=
  match l with
  | [] => ret []
  | (addr, len) :: l =>
      s <- user_str addr len ;;
      ss <- user_strs l ;;
      ret (s :: ss)
  end.

Definition sys_exec : K Z :=
  o <- argstr 0 ;;
  match o with
  | None => ret (-1)
  | Some (addr, len) =>
      uargv <- argaddr 1 ;;
      o <- fetch_argv (Z.to_nat MAXARG) uargv 0 ;;
      match o with
      | None => ret (-1)
      | Some args =>
          path <- user_str addr len ;;
          argv <- user_strs args ;;
          exec path argv
      end
  end.

Definition sys_pipe : K Z :=
  r <- argptr 0 8 ;;
  if fst r <? 0 then ret (-1) else
  fd <- of_option (snd r) ;;
  o <- pipealloc ;;
  match o with
  | None => ret (-1)
  | Some (rf, wf) =>
      fd0 <- fdalloc rf ;;
      fd1 <- (if fd0 <? 0 then ret (-1) else fdalloc wf) ;;
      if fd1 <? 0 then
        when (fd0 >=? 0) (set_ofile (Z.to_nat fd0) None) ;;;
        fileclose rf ;;;
        fileclose wf ;;;
        ret (-1)
      else
      store_bytes fd (le_split 4 fd0) ;;;
      store_bytes (u64 (fd + 4)) (le_split 4 fd1) ;;;
      ret 0
  end.

(** ** The dispatcher *)

(** The table syscalls and the table syscallnames.  Handlers of type int leave their
    result in %eax; %rax is its zero extension.  sys_sbrk returns an addr_t. *)
Definition syscalls : list (string * K Z) :=
  let int (h : K Z) : K Z := r <- h ;; ret (u32 r) in
  [("fork", int sys_fork); ("exit", int sys_exit); ("wait", int sys_wait); ("pipe", int sys_pipe);
   ("read", int sys_read); ("kill", int sys_kill); ("exec", int sys_exec); ("fstat", int sys_fstat);
   ("chdir", int sys_chdir); ("dup", int sys_dup); ("getpid", int sys_getpid); ("sbrk", sys_sbrk);
   ("sleep", int sys_sleep); ("uptime", int sys_uptime); ("open", int sys_open); ("write", int sys_write);
   ("mknod", int sys_mknod); ("unlink", int sys_unlink); ("link", int sys_link); ("mkdir", int sys_mkdir);
   ("close", int sys_close); ("traceread", int sys_traceread); ("vidclear", int sys_vidclear);
   ("vidputc", int sys_vidputc); ("vidputs", int sys_vidputs)]%string.

(** The calls that are not traced: traceread, the vid calls, sleep, getpid and uptime. *)
Definition untraced (num : Z) : bool :=
  (num =? 22) || (num =? 23) || (num =? 24) || (num =? 25) || (num =? 13) || (num =? 11) || (num =? 14).

Definition syscall (tf : Z) : K unit :=
  i <- cur_proc ;;
  upd_proc i (with_tf tf) ;;;
  num <- get_tf tf TF_rax ;;
  match (if num >? 0 then syscalls !! Z.to_nat (num - 1) else None) with
  | Some (name, handler) =>
      start_ticks <- gets k_ticks ;;
      r <- handler ;;
      set_tf tf TF_rax r ;;;
      end_ticks <- gets k_ticks ;;
      let latency := u32 (end_ticks - start_ticks) in
      when (negb (untraced num)) (
        p <- my_proc ;;
        traceevent TRACE_TYPE_SYSCALL (p_pid p) num r latency (Some (cstr name)))
  | None =>
      p <- my_proc ;;
      cprintf (chars "%d %s: unknown sys call %d" ++ [10])
        [FNum (p_pid p); FStr (Some (c_string (p_name p))); FNum num] ;;;
      set_tf tf TF_rax (u64 (-1))
  end ;;;
  p <- my_proc ;;
  when (p_killed p) exit.

End Syscall.
