(* ===== verification/Trap.v ===== *)
(** * Traps and interrupts (src/trap.c)

    The devices' input and status are arguments: the scan codes and serial bytes pending,
    the disk controller's status, and %cr2.  The number of the processor is [c_id]; the
    writes to the local APIC that acknowledge an interrupt are not part of the state. *)

From S2P Require Import Prelude Mem State Spinlock Ktrace Kalloc Vm Umem Sched Sleeplock Bio Block Log Inode Console Ide Fs File Proc.

(** [idt[n+i]] is a 32-bit word. *)
Definition KERNEL_CS : Z := 8.
Definition mkgate (m : mem) (idt n kva pl : Z) : mem :=
  let a := idt + 16 * n in
  let m := st32 m a (Z.lor (Z.land kva 65535) (Z.shiftl KERNEL_CS 16)) in
  let m := st32 m (a + 4) (u32 (Z.lor (Z.lor (Z.land kva 4294901760) 36352) (Z.shiftl (Z.land pl 3) 13))) in
  let m := st32 m (a + 8) (Z.shiftr kva 32) in
  st32 m (a + 12) 0.

(** [vectors]: the entry points of vectors.S, as the linker places them. *)
Definition tvinit (vectors : nat -> Z) : K Z :=
  idt <- kalloc ;;
  memory (fun m => Kstring.memset m idt 0 PGSIZE) ;;;
  for_each (upto 256) (fun n => memory (fun m => mkgate m idt (Z.of_nat n) (vectors n) 0)) ;;;
  ret idt.

Definition T_ILLOP : Z := 6.
Definition T_PGFLT : Z := 14.
Definition IRQ_TIMER : Z := 0.
Definition IRQ_SPURIOUS : Z := 31.
Definition DPL_USER : Z := 3.

(** What the devices report. *)
Record devices : Type := Devices {
  dv_codes : list Z;
  dv_serial : list Z;
  dv_disk_ok : bool;
  dv_cr2 : Z
}.

Section Trap.
  Context {patience_bound : Patience} {driver : DiskDriver} {intr : DiskIntr}.

Definition cpunum : K Z := gets (fun k => c_id (k_cpu k)).

Definition timer_tick : K unit :=
  id <- cpunum ;;
  when (id =? 0) (
    acquire LK_ticks ;;;
    modify (fun k => set_ticks (u32 (k_ticks k + 1)) k) ;;;
    wakeup Ch_ticks ;;;
    release LK_ticks).

(** [default:] a trap of the kernel, or of a user process that misbehaved. *)
Definition unexpected (tf : Z) (cr2 : Z) : K unit :=
  pr <- gets (fun k => c_proc (k_cpu k)) ;;
  trapno <- get_tf tf TF_trapno ;;
  err <- get_tf tf TF_err ;;
  cs <- get_tf tf TF_cs ;;
  rip <- get_tf tf TF_rip ;;
  id <- cpunum ;;
  match pr with
  | Some i =>
      p <- get_proc i ;;
      if Z.land cs 3 =? 0 then
        cprintf (chars "unexpected trap %d from cpu %d rip %p (cr2=0x%p)" ++ [10])
          [FNum trapno; FNum id; FNum rip; FNum cr2] ;;;
        cprintf (chars "proc id: %d" ++ [10]) [FNum (p_pid p)] ;;;
        panic "trap"
      else
      (* In user space, assume process misbehaved. *)
      cprintf (chars "pid %d %s: trap %d err %d on cpu %d rip 0x%p addr 0x%p--kill proc" ++ [10])
        [FNum (p_pid p); FStr (Some (c_string (p_name p))); FNum trapno; FNum err; FNum id; FNum rip; FNum cr2] ;;;
      traceevent TRACE_TYPE_TRAP (p_pid p) trapno err 0
        (Some (cstr (if trapno =? T_PGFLT then "pagefault" else if trapno =? T_ILLOP then "illegalop" else "usertrap"))) ;;;
      upd_proc i (with_killed true)
  | None =>
      cprintf (chars "unexpected trap %d from cpu %d rip %p (cr2=0x%p)" ++ [10])
        [FNum trapno; FNum id; FNum rip; FNum cr2] ;;;
      panic "trap"
  end.

(** [if(proc && proc->killed && (tf->cs&3) == DPL_USER) exit();] *)
Definition exit_if_killed (tf : Z) : K unit :=
  pr <- gets (fun k => c_proc (k_cpu k)) ;;
  match pr with
  | None => ret tt
  | Some i =>
      p <- get_proc i ;;
      cs <- get_tf tf TF_cs ;;
      when (p_killed p && (Z.land cs 3 =? DPL_USER)) exit
  end.

Definition trap (dv : devices) (tf : Z) : K unit :=
  trapno <- get_tf tf TF_trapno ;;
  (if trapno =? T_IRQ0 + IRQ_TIMER then timer_tick
   else if trapno =? T_IRQ0 + IRQ_IDE then ideintr (dv_disk_ok dv)
   else if trapno =? T_IRQ0 + IRQ_IDE + 1 then ret tt  (* Bochs generates spurious IDE1 interrupts. *)
   else if trapno =? T_IRQ0 + IRQ_KBD then kbdintr (dv_codes dv)
   else if trapno =? T_IRQ0 + IRQ_COM1 then uartintr (dv_serial dv)
   else if (trapno =? T_IRQ0 + 7) || (trapno =? T_IRQ0 + IRQ_SPURIOUS) then
     id <- cpunum ;;
     cs <- get_tf tf TF_cs ;;
     rip <- get_tf tf TF_rip ;;
     cprintf (chars "cpu%d: spurious interrupt at %p:%p" ++ [10]) [FNum id; FNum cs; FNum rip]
   else unexpected tf (dv_cr2 dv)) ;;;
  (* Force process exit if it has been killed and is in user space. *)
  exit_if_killed tf ;;;
  (* Force process to give up CPU on clock tick. *)
  pr <- gets (fun k => c_proc (k_cpu k)) ;;
  match pr with
  | None => ret tt
  | Some i =>
      p <- get_proc i ;;
      when (bool_decide (p_state p = RUNNING) && (trapno =? T_IRQ0 + IRQ_TIMER)) yield
  end ;;;
  (* Check if the process has been killed since we yielded *)
  exit_if_killed tf.

End Trap.
