(* ===== verification/Path.v ===== *)
(** * Path names: skipelem of src/fs.c takes a path apart *)

From S2P Require Import Prelude Mem CString State Block Fs.

(** The elements of a path: its maximal runs without a slash. *)
Fixpoint elems_from (cur s : list Z) : list (list Z) :=
  match s with
  | [] => if decide (cur = []) then [] else [cur]
  | c :: s =>
      if c =? 47 then (if decide (cur = []) then [] else [cur]) ++ elems_from [] s
      else elems_from (cur ++ [c]) s
  end.
Definition elems (s : list Z) : list (list Z) := elems_from [] s.

(** The loop of namex, without the directories: the elements it looks up, as namecmp
    reads them from the array [name]. *)
Fixpoint walk_elems (fuel : nat) (path name : list Z) : option (list (list Z)) :=
  match fuel with
  | O => None
  | S fuel' =>
      e ← skipelem path name;
      match e with
      | None => Some []
      | Some (path', name') => es ← walk_elems fuel' path' name'; Some (cut (take 14 name') :: es)
      end
  end.

Lemma skip_slashes_app s t :
  exists n, skip_slashes (s ++ 0 :: t) = drop n s ++ 0 :: t /\ (n <= length s)%nat /\
    elems s = elems (drop n s) /\ forall c, drop n s !! 0%nat = Some c -> c <> 47.
Proof.
  induction s as [|c s IH]; cbn.
  - exists 0%nat. split_and!; done || lia.
  - destruct (Z.eqb_spec c 47) as [->|Hc].
    + destruct IH as (n & E & Hn & He & Hd). exists (S n). cbn. split_and!; [done|lia|done|done].
    + exists 0%nat. split_and!; [done|lia| |by intros ? [= <-]].
      unfold elems. cbn. by rewrite (proj2 (Z.eqb_neq c 47)).
Qed.

Lemma skip_name_app s t :
  0 ∉ s -> exists n, skip_name (s ++ 0 :: t) = (take n s, drop n s ++ 0 :: t) /\ (n <= length s)%nat /\
    (forall c, c ∈ take n s -> c <> 47) /\ (forall c, drop n s !! 0%nat = Some c -> c = 47).
Proof.
  induction s as [|c s IH]; intros H0; cbn.
  - exists 0%nat. split_and!; [done|done| |done]. intros c Hc. by apply elem_of_nil in Hc.
  - apply not_elem_of_cons in H0 as [Hc0 H0]. destruct (Z.eqb_spec c 47) as [->|Hc].
    + exists 0%nat. split_and!; [done|lia| |]; [intros c Hc; by apply elem_of_nil in Hc|]. by intros ? [= <-].
    + rewrite (proj2 (Z.eqb_neq c 0)) by done. cbn. destruct (IH H0) as (n & -> & Hn & H1 & H2).
      exists (S n). cbn. split_and!; [done|lia| |done]. intros x. rewrite elem_of_cons. intros [->|Hx]; [done|by apply H1].
Qed.

Lemma elems_from_run cur e s :
  (forall c, c ∈ e -> c <> 47) -> elems_from cur (e ++ s) = elems_from (cur ++ e) s.
Proof.
  revert cur. induction e as [|c e IH]; intros cur He; cbn; [by rewrite app_nil_r|].
  rewrite (proj2 (Z.eqb_neq c 47)) by (apply He; set_solver).
  rewrite IH by (intros x Hx; apply He; set_solver). by rewrite <-app_assoc.
Qed.

(** The elements of a path that starts with the element [e]. *)
Lemma elems_cons e s :
  e <> [] -> (forall c, c ∈ e -> c <> 47) -> (forall c, s !! 0%nat = Some c -> c = 47) ->
  elems (e ++ s) = e :: elems s.
Proof.
  intros Hne He Hs. unfold elems. rewrite elems_from_run by done. cbn [app].
  destruct s as [|c s]; cbn.
  - by rewrite decide_False.
  - rewrite (Hs c eq_refl). cbn. by rewrite decide_False.
Qed.

Lemma cut_all l : 0 ∉ l -> cut l = l.
Proof.
  induction l as [|c l IH]; cbn; [done|]. intros [Hc Hl]%not_elem_of_cons.
  rewrite (proj2 (Z.eqb_neq c 0)) by done. by rewrite IH.
Qed.

(** What the copy into [name] leaves there: the element, cut to DIRSIZ characters. *)
Lemma name_stored e name :
  length name = 14%nat -> 0 ∉ e ->
  exists name', (if decide (14 <= length e)%nat then Some (splice name 0 (take 14 e))
                 else aput (splice name 0 e) (length e) 0) = Some name' /\
    length name' = 14%nat /\ cut (take 14 name') = take 14 e.
Proof.
  intros Hl He. case_decide as Hlen.
  - eexists. split; [done|]. rewrite length_splice by len. split; [done|].
    rewrite take_ge by (rewrite length_splice; len).
    unfold splice. cbn. rewrite length_take, Nat.min_l, drop_ge, app_nil_r by lia.
    apply cut_all. intros H. apply He. rewrite <-(take_drop 14 e). set_solver.
  - rewrite aput_Some by (rewrite length_splice; len). eexists. split; [done|].
    rewrite length_insert, length_splice by len. split; [done|].
    rewrite take_ge by (rewrite length_insert, length_splice; len).
    rewrite (take_ge e) by lia. unfold splice. cbn.
    rewrite take_0. cbn [app]. rewrite insert_app_r_alt, Nat.sub_diag by lia.
    destruct (drop (length e) name) as [|c r] eqn:Ed.
    { apply (f_equal length) in Ed. rewrite length_drop in Ed. cbn in Ed. lia. }
    cbn. by apply cut_app_nul.
Qed.

(** One round: the path is over when it has no element; otherwise the element goes to
    [name] and what is left has the remaining elements. *)
Lemma skipelem_step s t name :
  0 ∉ s -> length name = 14%nat ->
  (elems s = [] /\ skipelem (s ++ 0 :: t) name = Some None) \/
  exists e s' name', elems s = e :: elems s' /\ 0 ∉ s' /\ (length s' < length s)%nat /\
    length name' = 14%nat /\ cut (take 14 name') = take 14 e /\
    skipelem (s ++ 0 :: t) name = Some (Some (s' ++ 0 :: t, name')).
Proof.
  intros H0 Hl. unfold skipelem.
  destruct (skip_slashes_app s t) as (n & -> & Hn & Hel & Hd). rewrite Hel.
  assert (H0d : 0 ∉ drop n s) by (rewrite <-(take_drop n s) in H0; set_solver).
  destruct (drop n s) as [|c r] eqn:Es; cbn [app]; [by left|right].
  rewrite (proj2 (Z.eqb_neq c 0)) by set_solver. rewrite app_comm_cons.
  destruct (skip_name_app (c :: r) t H0d) as (m & -> & Hm & He & Hr).
  assert (Hc : c <> 47) by by apply Hd.
  assert (m <> 0%nat) by (intros ->; by apply Hc, Hr).
  set (e := take m (c :: r)) in *. set (q := drop m (c :: r)) in *.
  assert (Heq : c :: r = e ++ q) by (unfold e, q; by rewrite take_drop).
  assert (H0e : 0 ∉ e /\ 0 ∉ q) by (rewrite Heq in H0d; set_solver).
  assert (Hne : (0 < length e)%nat) by (unfold e; rewrite length_take; cbn in *; lia).
  destruct (name_stored e name Hl (proj1 H0e)) as (name' & -> & Hl' & Hcut). cbn [mbind option_bind].
  destruct (skip_slashes_app q t) as (m' & -> & Hm' & Hel' & _).
  exists e, (drop m' q), name'. split_and!; try done.
  - rewrite <-Hel', Heq. apply elems_cons; [intros E0; rewrite E0 in Hne; cbn in Hne; lia | done|done].
  - destruct H0e as [_ H0q]. rewrite <-(take_drop m' q) in H0q. set_solver.
  - rewrite length_drop. apply (f_equal length) in Heq, Es.
    rewrite length_app in Heq. rewrite length_drop in Es. lia.
  - by destruct q.
Qed.


