(* ===== verification/LineEdit.v ===== *)
(** * The console's line discipline

    What consoleintr and consoleread of src/console.c promise a program that reads the
    terminal: characters are collected into a line that can be edited until it is
    entered, and entered characters are delivered once, in order, a line at a time. *)

From S2P Require Import Prelude Mem State Spinlock Sched Sleeplock Bio Block Log Umem Inode Console.

(** ** Specification *)

(** The terminal: the characters entered and not yet read, and the line being edited. *)
Definition tty : Type := list Z * list Z.

Definition newline (c : Z) : Z := if c =? 13 then 10 else c.
Definition full (s : tty) : bool := bool_decide (128 <= length s.1 + length s.2)%nat.

(** One typed character. *)
Definition type_char (s : tty) (c : Z) : tty :=
  let '(q, l) := s in
  if c =? 21 then (q, [])
  else if (c =? 8) || (c =? 127) then (q, take (length l - 1) l)
  else if (c =? 0) || full s then s
  else
    let l := l ++ [newline c] in
    if (newline c =? 10) || (c =? 4) || full (q, l) then (q ++ l, []) else (q, l).

(** What the terminal prints for it on the serial line. *)
Definition RUBOUT : list Z := [8; 32; 8].
Definition echo (s : tty) (c : Z) : list Z :=
  if c =? 21 then mjoin (replicate (length s.2) RUBOUT)
  else if (c =? 8) || (c =? 127) then (if decide (s.2 = []) then [] else RUBOUT)
  else if (c =? 0) || full s then [] else [newline c].

Fixpoint echoes (s : tty) (cs : list Z) : list Z :=
  match cs with
  | [] => []
  | c :: cs => echo s c ++ echoes (type_char s c) cs
  end.

(** A read of at most [n] characters: up to and including a newline, or up to a ^D, which
    stays for the next read unless this one has nothing else; [None] when the reader must
    wait for more. *)
Fixpoint take_line (n : nat) (first : bool) (q : list Z) : option (list Z * list Z) :=
  match n with
  | O => Some ([], q)
  | S n =>
      match q with
      | [] => None
      | c :: q =>
          if c =? 4 then Some ([], if first then q else c :: q)
          else if c =? 10 then Some ([c], q)
          else '(bs, q) ← take_line n false q; Some (c :: bs, q)
      end
  end.

(** ** The ring buffer as a terminal *)

Record input_is (cn : console) (s : tty) : Prop := InputIs {
  ii_len : length (in_buf cn) = 128%nat;
  ii_r : in_u32 (in_r cn);
  ii_w : in_w cn = u32 (in_r cn + Z.of_nat (length s.1));
  ii_e : in_e cn = u32 (in_r cn + Z.of_nat (length (s.1 ++ s.2)));
  ii_room : (length (s.1 ++ s.2) <= 128)%nat;
  ii_at : forall j x, (s.1 ++ s.2) !! j = Some x -> in_at cn (in_r cn + Z.of_nat j) = x
}.

Lemma in_at_u32 cn i : in_at cn (u32 i) = in_at cn i.
Proof. unfold in_at. rewrite u32_mod_divide; [done|]. by exists (2 ^ 25). Qed.

(** Only the input fields matter. *)
Definition same_input (cn cn' : console) : Prop :=
  in_buf cn' = in_buf cn /\ in_r cn' = in_r cn /\ in_w cn' = in_w cn /\ in_e cn' = in_e cn.

Lemma input_is_same cn cn' s : same_input cn cn' -> input_is cn s -> input_is cn' s.
Proof.
  intros (Eb & Er & Ew & Ee) [H1 H2 H3 H4 H5 H6].
  split; rewrite ?Eb, ?Er, ?Ew, ?Ee; try done.
  intros j x Hj. unfold in_at. rewrite Eb. by apply H6.
Qed.

(** ** Output *)

Definition emit (bs : list Z) (cn : console) : console :=
  if co_uart cn then with_serial (co_serial cn ++ bs) cn else cn.
Definition echo_bytes (c : Z) : list Z := if c =? BACKSPACE then RUBOUT else [u8 c].
Definition put_cons (c : Z) (cn : console) : console :=
  let '(crt, pos) := cga_step (co_crt cn) (co_cursor cn) c in
  with_screen crt (u16 pos) (emit (echo_bytes c) cn).

Lemma set_cons_cons k : set_cons (k_cons k) k = k.
Proof. by destruct k. Qed.

Lemma uartputc_run c k : uartputc c k = Ok tt (set_cons (emit [u8 c] (k_cons k)) k).
Proof.
  unfold uartputc, emit. kr. destruct (co_uart (k_cons k)) eqn:E; cbn; [done|]. by rewrite set_cons_cons.
Qed.

Lemma emit_emit bs bs' cn : emit bs' (emit bs cn) = emit (bs ++ bs') cn.
Proof.
  unfold emit. destruct (co_uart cn) eqn:E; [|by rewrite E]. cbn. rewrite E.
  unfold with_serial. cbn. by rewrite app_assoc.
Qed.

Lemma set_cons_twice a b k : set_cons a (set_cons b k) = set_cons a k.
Proof. done. Qed.

Lemma consputc_run c k :
  co_panicked (k_cons k) = false -> consputc c k = Ok tt (set_cons (put_cons c (k_cons k)) k).
Proof.
  intros Hp. unfold consputc, put_cons, echo_bytes. unfold bind, gets. cbn [obind]. rewrite Hp.
  destruct (c =? BACKSPACE) eqn:Eb.
  - rewrite !uartputc_run. cbn [obind]. rewrite uartputc_run. cbn [obind]. rewrite uartputc_run. cbn [obind].
    rewrite !set_cons_twice. cbn [k_cons set_cons]. rewrite !emit_emit. cbn [app].
    unfold cgaputc, upd_cons. kr. rewrite set_cons_twice. cbn [k_cons set_cons].
    change [u8 8; u8 32; u8 8] with RUBOUT.
    unfold emit. destruct (co_uart (k_cons k)); cbn; by destruct (cga_step _ _ _).
  - rewrite !uartputc_run. cbn [obind]. unfold cgaputc, upd_cons. kr. rewrite set_cons_twice. cbn [k_cons set_cons].
    unfold emit. destruct (co_uart (k_cons k)); cbn; by destruct (cga_step _ _ _).
Qed.

(** What printing keeps of the console. *)
Lemma put_cons_keeps c cn :
  same_input cn (put_cons c cn) /\ co_panicked (put_cons c cn) = co_panicked cn /\
  co_uart (put_cons c cn) = co_uart cn /\
  co_serial (put_cons c cn) = co_serial cn ++ (if co_uart cn then echo_bytes c else []).
Proof.
  unfold put_cons, emit, same_input. destruct (cga_step _ _ _).
  destruct (co_uart cn) eqn:E; cbn; rewrite ?E, ?app_nil_r; done.
Qed.

(** ** One character *)

(** The console after characters that moved the terminal to [s] and printed [out]. *)
Record typed (cn : console) (out : list Z) (s : tty) (cn' : console) : Prop := Typed {
  ty_input : input_is cn' s;
  ty_panicked : co_panicked cn' = co_panicked cn;
  ty_uart : co_uart cn' = co_uart cn;
  ty_serial : co_serial cn' = co_serial cn ++ (if co_uart cn then out else [])
}.

Lemma typed_trans cn o1 s1 cn1 o2 s2 cn2 :
  typed cn o1 s1 cn1 -> typed cn1 o2 s2 cn2 -> typed cn (o1 ++ o2) s2 cn2.
Proof.
  intros [_ H1 H2 H3] [H4 H5 H6 H7]. split; [done|congruence|congruence|].
  rewrite H7, H3, H2, <-app_assoc. by destruct (co_uart cn).
Qed.

(** A change of the input fields alone. *)
Lemma typed_input cn s b r w e :
  input_is (with_input b r w e cn) s -> typed cn [] s (with_input b r w e cn).
Proof. intros H. split; try done. destruct (co_uart cn); by rewrite app_nil_r. Qed.

Lemma typed_refl cn s : input_is cn s -> typed cn [] s cn.
Proof. intros H. split; try done. destruct (co_uart cn); by rewrite app_nil_r. Qed.

Lemma typed_put cn c s : input_is cn s -> typed cn (echo_bytes c) s (put_cons c cn).
Proof.
  intros Hi. destruct (put_cons_keeps c cn) as (K1 & K2 & K3 & K4).
  split; [by eapply input_is_same|done..].
Qed.

(** The last character of the line goes. *)
Lemma input_rubout cn q l x :
  input_is cn (q, l ++ [x]) -> input_is (with_e (u32 (in_e cn - 1)) cn) (q, l).
Proof.
  intros [H1 H2 H3 H4 H5 H6]. cbn [fst snd] in *. rewrite app_assoc, length_app in *. cbn in H4, H5.
  split; cbn [fst snd]; try done.
  - cbn. rewrite H4. mach.
  - lia.
  - intros j y Hj. apply H6. by apply lookup_app_l_Some.
Qed.

(** A character is added to the line. *)
Lemma input_add cn q l c :
  input_is cn (q, l) -> (length (q ++ l) < 128)%nat ->
  input_is (with_input (<[Z.to_nat (in_e cn `mod` INPUT_BUF) := c]> (in_buf cn)) (in_r cn) (in_w cn)
              (u32 (in_e cn + 1)) cn) (q, l ++ [c]).
Proof.
  intros [H1 H2 H3 H4 H5 H6] Hlt. cbn [fst snd] in *. unfold INPUT_BUF.
  split; cbn [fst snd with_input in_buf in_r in_w in_e]; rewrite ?app_assoc; len; try done.
  - rewrite H4. mach.
  - intros j x Hj. unfold in_at. cbn [in_buf with_input]. unfold INPUT_BUF.
    assert (Ee : in_e cn `mod` 128 = (in_r cn + Z.of_nat (length (q ++ l))) `mod` 128)
      by (rewrite H4, length_app; apply u32_mod_divide; by exists (2 ^ 25)).
    apply lookup_snoc_Some in Hj as [[Hj E]|[-> <-]].
    + rewrite list_lookup_insert_ne; [by apply (H6 j)|]. rewrite Ee, length_app in *. mach.
    + rewrite Ee, list_lookup_insert_eq by (rewrite H1; mach). done.
Qed.

(** The line is entered. *)
Lemma input_enter cn q l :
  input_is cn (q, l) -> input_is (with_input (in_buf cn) (in_r cn) (in_e cn) (in_e cn) cn) (q ++ l, []).
Proof.
  intros [H1 H2 H3 H4 H5 H6]. split; cbn [fst snd with_input in_buf in_r in_w in_e] in *;
    rewrite ?app_nil_r; done.
Qed.

Lemma input_line_nil cn q l : input_is cn (q, l) -> in_e cn =? in_w cn = bool_decide (l = []).
Proof.
  intros [H1 H2 H3 H4 H5 H6]. cbn [fst snd] in *. rewrite H3, H4. rewrite length_app in *.
  destruct l as [|c l]; cbn [length] in *.
  - rewrite Nat.add_0_r, Z.eqb_refl. done.
  - rewrite bool_decide_false by done. apply Z.eqb_neq. mach.
Qed.

Lemma input_last cn q l x : input_is cn (q, l ++ [x]) -> in_at cn (u32 (in_e cn - 1)) = x.
Proof.
  intros [H1 H2 H3 H4 H5 H6]. cbn [fst snd] in *.
  rewrite in_at_u32. specialize (H6 (length (q ++ l)) x). rewrite app_assoc in *.
  rewrite <-H6 by (by apply list_lookup_middle).
  rewrite <-(in_at_u32 _ (in_e cn - 1)), <-(in_at_u32 _ (in_r cn + _)). f_equal.
  rewrite H4, !length_app. cbn. mach.
Qed.

(** ** The interrupt handler *)

(** The machine inside the critical section of consoleintr. *)
Definition at_console (k0 : kernel) (ps : list proc) (cn : console) : kernel :=
  set_procs ps (set_cons cn (locked_by LK_input k0)).

Lemma at_console_putc k0 ps cn c :
  co_panicked cn = false -> consputc c (at_console k0 ps cn) = Ok tt (at_console k0 ps (put_cons c cn)).
Proof. intros H. by rewrite consputc_run. Qed.

Lemma kill_line_run k0 ps q l fuel cn :
  10 ∉ l -> (length l <= fuel)%nat -> input_is cn (q, l) -> co_panicked cn = false ->
  exists cn', kill_line fuel (at_console k0 ps cn) = Ok tt (at_console k0 ps cn') /\
    typed cn (mjoin (replicate (length l) RUBOUT)) (q, []) cn'.
Proof.
  revert fuel cn. induction l as [|x l IH] using rev_ind; intros fuel cn H10 Hf Hi Hp.
  - exists cn. split; [|by apply typed_refl].
    destruct fuel; cbn [kill_line]; kr; change (k_cons (at_console k0 ps cn)) with cn;
      by rewrite (input_line_nil _ _ _ Hi).
  - rewrite length_app in *. cbn in Hf. destruct fuel as [|fuel]; [lia|]. cbn [kill_line].
    unfold bind at 1, gets. cbn [obind]. change (k_cons (at_console k0 ps cn)) with cn.
    rewrite (input_line_nil _ _ _ Hi), (input_last _ _ _ _ Hi), bool_decide_false by (by destruct l).
    rewrite (proj2 (Z.eqb_neq x 10)) by set_solver. cbn [negb andb].
    pose proof (input_rubout _ _ _ _ Hi) as Hi1. set (cn1 := with_e _ cn) in *.
    pose proof (typed_put cn1 BACKSPACE _ Hi1) as Ht.
    destruct (IH fuel (put_cons BACKSPACE cn1)) as (cn' & E & Ht'); [set_solver|lia|apply Ht|by rewrite (ty_panicked _ _ _ _ Ht)|].
    exists cn'. split.
    + unfold bind, upd_cons, modify. cbn [obind].
      change (set_cons _ _) with (at_console k0 ps cn1). rewrite at_console_putc by done. cbn [obind]. exact E.
    + rewrite Nat.add_comm. change (mjoin (replicate _ _))
        with ([] ++ echo_bytes BACKSPACE ++ mjoin (replicate (length l) RUBOUT)).
      eapply typed_trans; [by apply typed_input|]. eapply typed_trans; [exact Ht|]. done.
Qed.

(** A typed character that the handler treats as input. *)
Definition plain (c : Z) : Prop := 0 <= c < 256 /\ c <> 16 /\ c <> 26.

Lemma newline_u8 c : plain c -> u8 (newline c) = newline c.
Proof. intros [? _]. unfold newline. case_match; mach. Qed.

(** No process waits for input that has been entered. *)
Definition none_waits (s : tty) (ps : list proc) : Prop :=
  s.1 <> [] -> forall i p, ps !! i = Some p -> asleep_on Ch_input p = false.

Lemma wakeup_section k0 ps cn c :
  cpu_ok (k_cpu k0) -> lock_free k0 LK_ptable -> length ps = NPROC ->
  wakeup c (at_console k0 ps cn) = Ok tt (at_console k0 (woken c <$> ps) cn).
Proof. intros Hc Hf Hl. by rewrite (wakeup_inside k0 LK_input). Qed.

(** The character [c] is stored, echoed, and ends the line when it must. *)
Lemma input_char_run k0 ps q l cn c :
  cpu_ok (k_cpu k0) -> lock_free k0 LK_ptable -> length ps = NPROC ->
  plain c -> input_is cn (q, l) -> 10 ∉ l -> co_panicked cn = false -> none_waits (q, l) ps ->
  full (q, l) = false ->
  let c := newline c in
  let s' := if (c =? 10) || (c =? 4) || full (q, l ++ [c]) then (q ++ l ++ [c], []) else (q, l ++ [c]) in
  exists ps' cn',
    (upd_cons (fun cn =>
       with_input (<[Z.to_nat (in_e cn `mod` INPUT_BUF) := u8 c]> (in_buf cn)) (in_r cn) (in_w cn) (u32 (in_e cn + 1)) cn) ;;;
     consputc c ;;;
     cn <- gets k_cons ;;
     when ((c =? 10) || (c =? 4) || (in_e cn =? u32 (in_r cn + INPUT_BUF))) (
       upd_cons (fun cn => with_input (in_buf cn) (in_r cn) (in_e cn) (in_e cn) cn) ;;;
       wakeup Ch_input)) (at_console k0 ps cn) = Ok tt (at_console k0 ps' cn') /\
    typed cn [c] s' cn' /\ 10 ∉ s'.2 /\ awakened ps ps' /\ none_waits s' ps'.
Proof.
  intros Hc Hf Hl Hpl Hi H10 Hp Hw Hfull c1. apply bool_decide_eq_false in Hfull. cbn [fst snd] in Hfull.
  unfold bind at 1, upd_cons at 1, modify at 1. cbn [obind].
  assert (E8 : u8 c1 = c1) by by apply newline_u8. rewrite E8.
  pose proof (input_add cn q l c1 Hi ltac:(rewrite length_app; lia)) as Hi1.
  match goal with |- context [set_cons ?x _] => set (cn1 := x) end.
  change (set_cons _ _) with (at_console k0 ps cn1).
  assert (Hi1' : input_is cn1 (q, l ++ [c1])) by exact Hi1. clear Hi1.
  unfold bind at 1. rewrite at_console_putc by done. cbn [obind].
  assert (Ht : typed cn [c1] (q, l ++ [c1]) (put_cons c1 cn1)).
  { assert (Eb : echo_bytes c1 = [c1]).
    { unfold echo_bytes. rewrite E8.
      by rewrite (proj2 (Z.eqb_neq c1 BACKSPACE)) by (unfold c1, newline, BACKSPACE; destruct Hpl; case_match; lia). }
    pose proof (typed_put cn1 c1 _ Hi1') as Hput. rewrite Eb in Hput.
    exact (typed_trans _ [] _ _ _ _ _ (typed_input _ _ _ _ _ _ Hi1') Hput). }
  unfold bind at 1, gets. cbn [obind]. change (k_cons (at_console k0 ps ?x)) with x.
  set (cn2 := put_cons c1 cn1) in *.
  assert (Efull : in_e cn2 =? u32 (in_r cn2 + INPUT_BUF) = full (q, l ++ [c1])).
  { destruct (ty_input _ _ _ _ Ht) as [_ Hr _ He Hroom _]. cbn [fst snd] in *. rewrite He.
    unfold full, INPUT_BUF. cbn [fst snd]. rewrite length_app in *. case_bool_decide.
    - apply Z.eqb_eq. f_equal. lia.
    - apply Z.eqb_neq. mach. }
  rewrite Efull. destruct (_ || _) eqn:Eend; cbn [when].
  - unfold bind, upd_cons, modify. cbn [obind].
    change (set_cons _ _) with (at_console k0 ps (with_input (in_buf cn2) (in_r cn2) (in_e cn2) (in_e cn2) cn2)).
    rewrite wakeup_section by done. eexists _, _. split_and!; [done| |set_solver|apply woken_awakened|].
    + change [c1] with ([c1] ++ []). eapply typed_trans; [exact Ht|]. apply typed_input, input_enter, Ht.
    + intros _ i p Hip. by eapply woken_none.
  - exists ps, cn2. split_and!; [done|done| |done|exact Hw]. cbn.
    apply orb_false_iff in Eend as [[E1 _]%orb_false_iff _]. apply Z.eqb_neq in E1. set_solver.
Qed.

Lemma console_char_run k0 ps s cn c :
  cpu_ok (k_cpu k0) -> lock_free k0 LK_ptable -> length ps = NPROC ->
  plain c -> input_is cn s -> 10 ∉ s.2 -> co_panicked cn = false -> none_waits s ps ->
  exists ps' cn', console_char c (at_console k0 ps cn) = Ok tt (at_console k0 ps' cn') /\
    typed cn (echo s c) (type_char s c) cn' /\ 10 ∉ (type_char s c).2 /\
    awakened ps ps' /\ none_waits (type_char s c) ps'.
Proof.
  intros Hc Hf Hl Hpl Hi H10 Hp Hw. destruct s as [q l]. cbn [fst snd] in *.
  unfold console_char, type_char, echo. cbn [fst snd].
  rewrite !(proj2 (Z.eqb_neq c _)) by apply Hpl.
  destruct (Z.eqb_spec c 21) as [->|H21].
  { pose proof (ii_room _ _ Hi) as Hr. cbn [fst snd] in Hr. rewrite length_app in Hr.
    destruct (kill_line_run k0 ps q l (Z.to_nat INPUT_BUF) cn) as (cn' & E & Ht); [done| |done|done|].
    { change (Z.to_nat INPUT_BUF) with 128%nat. lia. }
    exists ps, cn'. split_and!; [done|done|set_solver|done|exact Hw]. }
  destruct (_ || _) eqn:Ebs.
  { unfold bind at 1, gets. cbn [obind]. change (k_cons (at_console k0 ps cn)) with cn.
    rewrite (input_line_nil _ _ _ Hi). destruct l as [|x l _] using rev_ind.
    - exists ps, cn. cbn. split_and!; [done|by apply typed_refl|set_solver|done|exact Hw].
    - rewrite bool_decide_false, decide_False by (by destruct l). cbn [negb when].
      unfold bind, upd_cons, modify. cbn [obind].
      pose proof (input_rubout _ _ _ _ Hi) as Hi1. set (cn1 := with_e _ cn) in *.
      change (set_cons _ _) with (at_console k0 ps cn1). rewrite at_console_putc by done.
      rewrite length_app, Nat.add_sub, take_app_length.
      exists ps, (put_cons BACKSPACE cn1). split_and!; [done| |set_solver|done|exact Hw].
      change RUBOUT with ([] ++ echo_bytes BACKSPACE).
      eapply typed_trans; [by apply typed_input|]. by apply typed_put. }
  unfold bind at 1, gets. cbn [obind]. change (k_cons (at_console k0 ps cn)) with cn.
  assert (Efull : u32 (in_e cn - in_r cn) <? INPUT_BUF = negb (full (q, l))).
  { destruct Hi as [_ Hr _ He Hroom _]. cbn [fst snd] in *. rewrite He.
    unfold full, INPUT_BUF. cbn [fst snd]. rewrite length_app in *. rewrite u32_add_sub by mach.
    case_bool_decide; cbn; [apply Z.ltb_ge|apply Z.ltb_lt]; lia. }
  rewrite Efull. destruct (c =? 0) eqn:E0; [|destruct (full (q, l)) eqn:Ef]; cbn [negb andb orb when].
  1,2: exists ps, cn; split_and!; [done|by apply typed_refl|done|done|exact Hw].
  replace (c =? 4) with (newline c =? 4)
    by (unfold newline; destruct (Z.eqb_spec c 13) as [->|]; done).
  exact (input_char_run k0 ps q l cn c Hc Hf Hl Hpl Hi H10 Hp Hw Ef).
Qed.

Lemma console_chars_run k0 cs ps s cn :
  cpu_ok (k_cpu k0) -> lock_free k0 LK_ptable -> length ps = NPROC ->
  Forall plain cs -> input_is cn s -> 10 ∉ s.2 -> co_panicked cn = false -> none_waits s ps ->
  let s' := foldl type_char s cs in
  exists ps' cn', for_each cs console_char (at_console k0 ps cn) = Ok tt (at_console k0 ps' cn') /\
    typed cn (echoes s cs) s' cn' /\ 10 ∉ s'.2 /\ awakened ps ps' /\ none_waits s' ps'.
Proof.
  intros Hc Hf. revert ps s cn. induction cs as [|c cs IH]; intros ps s cn Hl Hpl Hi H10 Hp Hw; cbn.
  - exists ps, cn. split_and!; [done|by apply typed_refl|done..].
  - apply Forall_cons in Hpl as [Hpc Hpl].
    destruct (console_char_run k0 ps s cn c Hc Hf Hl Hpc Hi H10 Hp Hw) as (ps1 & cn1 & E & Ht & H10' & Ha & Hw').
    destruct (IH ps1 (type_char s c) cn1) as (ps2 & cn2 & E2 & Ht2 & H2 & Ha2 & Hw2); try done.
    { by rewrite (awakened_length _ _ Ha). }
    { apply Ht. }
    { by rewrite (ty_panicked _ _ _ _ Ht). }
    exists ps2, cn2. krun E. split_and!; [done|by eapply typed_trans|done|by transitivity ps1|done].
Qed.

(** The state between calls: no spin lock is held that the console needs. *)
Record console_idle (k : kernel) (s : tty) : Prop := ConsoleIdle {
  ci_ready : ready k;
  ci_lock : lock_free k LK_input;
  ci_input : input_is (k_cons k) s;
  ci_line : 10 ∉ s.2;
  ci_panicked : co_panicked (k_cons k) = false;
  ci_waits : none_waits s (k_procs k)
}.

Lemma consoleintr_run k s cs :
  console_idle k s -> Forall plain cs ->
  exists ps' cn', consoleintr cs k = Ok tt (set_procs ps' (set_cons cn' k)) /\
    typed (k_cons k) (echoes s cs) (foldl type_char s cs) cn' /\ awakened (k_procs k) ps' /\
    console_idle (set_procs ps' (set_cons cn' k)) (foldl type_char s cs).
Proof.
  intros [Hr Hlk Hi H10 Hp Hw] Hpl. pose proof Hr as [Hc Hf Hl _].
  destruct (console_chars_run k cs (k_procs k) s (k_cons k)) as (ps & cn & E & Ht & H10' & Ha & Hw');
    try done; [by apply calm_ok|by apply Hf; constructor|].
  exists ps, cn. split_and!; [|done|done|].
  - unfold consoleintr. krun (acquire_free k LK_input Hlk).
    replace (locked_by LK_input k) with (at_console k (k_procs k) (k_cons k)) by (by destruct k).
    krun E. rewrite (calm_release k) by done. by destruct k.
  - split; try done; [eapply ready_env; [exact Hr|done]|apply Ht|].
    change (co_panicked cn = false). by rewrite (ty_panicked _ _ _ _ Ht).
Qed.

(** ** Reading *)

Lemma input_pop cn c q l :
  input_is cn (c :: q, l) ->
  in_r cn <> in_w cn /\ in_at cn (in_r cn) = c /\
  input_is (with_input (in_buf cn) (u32 (in_r cn + 1)) (in_w cn) (in_e cn) cn) (q, l).
Proof.
  intros [H1 H2 H3 H4 H5 H6]. cbn [fst snd length app] in *. split_and!.
  - rewrite H3. rewrite length_app in H5. mach.
  - rewrite <-(H6 0%nat c) by done. f_equal. lia.
  - split; cbn [fst snd with_input in_buf in_r in_w in_e]; try done; try lia.
    + mach.
    + rewrite H3. mach.
    + rewrite H4. mach.
    + intros j x Hj. specialize (H6 (S j) x Hj). rewrite <-H6.
      change (in_at (with_input _ _ _ _ cn) ?i) with (in_at cn i).
      rewrite <-(in_at_u32 _ (_ + Z.of_nat j)), <-(in_at_u32 _ (in_r cn + _)). f_equal. mach.
Qed.

Lemma length_take_line n first q bs q' : take_line n first q = Some (bs, q') -> (length bs <= n)%nat.
Proof.
  revert first q bs q'. induction n as [|n IH]; intros first q bs q'; cbn; [by intros [= <- _]|].
  destruct q as [|c q]; [done|]. destruct (c =? 4); [intros [= <- _]; cbn; lia|].
  destruct (c =? 10); [intros [= <- _]; cbn; lia|].
  destruct (take_line n false q) as [[bs1 q1]|] eqn:E; cbn; [|done]. intros [= <- _]. apply IH in E. cbn. lia.
Qed.

Section Read.
  Context {patience_bound : Patience} {driver : DiskDriver}.

Lemma consoleread_from_run k0 ps l target n first q cn i bs q' :
  input_is cn (q, l) -> take_line n first q = Some (bs, q') ->
  (Z.of_nat n <? target) = negb first -> Z.of_nat n <= target ->
  exists cn', consoleread_from n None i target (at_console k0 ps cn)
      = Ok (Some (Z.of_nat n - Z.of_nat (length bs), bs)) (at_console k0 ps cn') /\
    typed cn [] (q', l) cn'.
Proof.
  revert first q cn i bs q'. induction n as [|n IH]; intros first q cn i bs q' Hi Ht Hf Hn; cbn [take_line] in Ht.
  { simplify_eq. exists cn. split; [done|by apply typed_refl]. }
  destruct q as [|c q]; [done|]. destruct (input_pop _ _ _ _ Hi) as (Hne & Hat & Hi1).
  cbn [consoleread_from].
  assert (Ew : consoleread_wait patience (at_console k0 ps cn) = Ok false (at_console k0 ps cn)).
  { destruct patience; cbn [consoleread_wait]; kr; change (k_cons (at_console k0 ps cn)) with cn;
      by rewrite (proj2 (Z.eqb_neq _ _)). }
  krun Ew. unfold bind at 1, gets. cbn [obind]. change (k_cons (at_console k0 ps cn)) with cn. rewrite Hat.
  set (cn1 := with_input _ _ _ _ cn) in *.
  unfold bind at 1, upd_cons at 1, modify at 1. cbn [obind]. change (set_cons _ _) with (at_console k0 ps cn1).
  pose proof (typed_input cn (q, l) _ _ _ _ Hi1) as Ht1. fold cn1 in Ht1.
  destruct (c =? 4).
  { simplify_eq. rewrite Hf. cbn [length]. rewrite Z.sub_0_r. destruct first; cbn [negb when].
    - exists cn1. split; [done|done].
    - unfold upd_cons. kr. change (k_cons (at_console k0 ps cn1)) with cn1.
      change (set_cons ?x _) with (at_console k0 ps x).
      eexists. split; [done|]. apply (typed_trans _ [] _ _ [] _ _ Ht1), typed_input.
      eapply input_is_same; [|exact Hi]. unfold same_input. cbn. split_and!; try done.
      pose proof (ii_r _ _ Hi). mach. }
  unfold bind at 1. cbn [put_dst ret obind]. destruct (c =? 10).
  { simplify_eq. exists cn1. split; [|done]. cbn [length]. do 3 f_equal. lia. }
  destruct (take_line n false q) as [[bs1 q1]|] eqn:Et; [|done]. cbn in Ht. simplify_eq.
  destruct (IH false q cn1 (i + 1) bs1 q' Hi1 Et) as (cn2 & E2 & Ht2); [cbn; lia|lia|].
  exists cn2. krun E2. split; [|by apply (typed_trans _ [] _ _ [] _ _ Ht1)].
  unfold ret. cbn [length]. do 3 f_equal. lia.
Qed.

(** The open console: its inode is in memory and locked by the reader. *)
Definition console_inode (k : kernel) (i : nat) : Prop :=
  (i < NINODE)%nat /\ sl_locked (get_sleep (SL_inode i) k) <> 0 /\
  exists ip, k_inodes k !! i = Some ip /\ 1 <= i_ref ip /\ truth (Z.land (i_flags ip) I_VALID) = true.

Lemma iunlock_console k i :
  ready k -> console_inode k i -> iunlock (Some i) k = Ok tt (sl_given (SL_inode i) k).
Proof.
  intros Hr (Hi & Hlk & ip & Eip & Href & _). unfold iunlock.
  assert (Hst : static_lock (LK_sleep (SL_inode i))) by by constructor.
  krun (holdingsleep_run k _ Hr Hst). unfold get_inode.
  krun (read_at_ok k_inodes i k ip Eip).
  unfold truth. rewrite (proj2 (Z.eqb_neq _ _)), (proj2 (Z.ltb_ge _ _)) by done. cbn [negb orb].
  by apply releasesleep_run.
Qed.

Lemma ilock_console k i :
  ready k -> (i < NINODE)%nat -> sl_locked (get_sleep (SL_inode i) k) = 0 ->
  (exists ip, k_inodes k !! i = Some ip /\ 1 <= i_ref ip /\ truth (Z.land (i_flags ip) I_VALID) = true) ->
  ilock (Some i) k = Ok tt (sl_taken (SL_inode i) (cur_pid k) k).
Proof.
  intros Hr Hi Hlk (ip & Eip & Href & Hv). unfold ilock, get_inode.
  krun (read_at_ok k_inodes i k ip Eip). rewrite (proj2 (Z.ltb_ge _ _)) by done.
  assert (Hst : static_lock (LK_sleep (SL_inode i))) by by constructor.
  krun (acquiresleep_free k _ Hr Hst Hlk).
  krun (read_at_ok k_inodes i (sl_taken (SL_inode i) (cur_pid k) k) ip Eip). by rewrite Hv.
Qed.

Lemma awakened_waits ps ps' s s' :
  awakened ps ps' -> (s'.1 <> [] -> s.1 <> []) -> none_waits s ps -> none_waits s' ps'.
Proof.
  intros Ha Hs Hw Hq i p' Hp'. destruct (Forall2_lookup_r _ _ _ _ _ Ha Hp') as (p & Hp & [->|[_ ->]]).
  - by apply (Hw (Hs Hq) i).
  - unfold asleep_on. cbn. by rewrite bool_decide_false.
Qed.

Lemma take_line_nil n first q bs q' : take_line n first q = Some (bs, q') -> q' <> [] -> q <> [].
Proof. destruct n, q; cbn; by intros; simplify_eq. Qed.

Lemma consoleread_run k s i n bs q' :
  console_idle k s -> console_inode k i -> Z.of_nat n < 2 ^ 31 ->
  take_line n true s.1 = Some (bs, q') ->
  exists k', consoleread i None (Z.of_nat n) k = Ok (Z.of_nat (length bs), bs) k' /\
    console_idle k' (q', s.2) /\ console_inode k' i /\ typed (k_cons k) [] (q', s.2) (k_cons k').
Proof.
  intros [Hr Hlk Hi H10 Hp Hw] Hci Hn Ht. destruct s as [q l]. cbn [fst snd] in *.
  unfold consoleread. krun (iunlock_console k i Hr Hci).
  set (k1 := sl_given (SL_inode i) k).
  assert (Hr1 : ready k1) by (eapply ready_env; [exact Hr|]; split_and!; [done|done|apply woken_awakened]).
  krun (acquire_free k1 LK_input Hlk).
  replace (locked_by LK_input k1) with (at_console k1 (k_procs k1) (k_cons k)) by (by destruct k).
  assert (Htg : u32 (Z.of_nat n) = Z.of_nat n) by mach. rewrite Htg, Nat2Z.id.
  destruct (consoleread_from_run k1 (k_procs k1) l (Z.of_nat n) n true q (k_cons k) 0 bs q') as (cn & E & Hty);
    [done|done|cbn; lia|done|].
  krun E. rewrite (obind_ok _ _ _ tt (set_cons cn k1)); [|rewrite (calm_release k1) by (done || apply Hr1); by destruct k].
  destruct Hci as (Hni & Hheld & Hip).
  assert (Hr2 : ready (set_cons cn k1)) by (eapply ready_env; [exact Hr1|done]).
  krun (ilock_console (set_cons cn k1) i Hr2 Hni ltac:(unfold get_sleep; cbn; by rewrite lookup_insert_eq) Hip).
  eexists. split; [|split_and!].
  - unfold ret. f_equal. f_equal.
    pose proof (length_take_line _ _ _ _ _ Ht). destruct (Z.of_nat n >? 0) eqn:E0; rewrite Z.gtb_ltb in E0;
      [apply Z.ltb_lt in E0|apply Z.ltb_ge in E0]; rewrite s32_small; mach.
  - split; try done; [eapply ready_env; [exact Hr2|done]|apply Hty|cbn; by rewrite (ty_panicked _ _ _ _ Hty)|].
    eapply awakened_waits; [apply woken_awakened| |exact Hw]. cbn. by eapply take_line_nil.
  - split_and!; [done| |done]. unfold get_sleep, sl_taken, put_sleep. cbn. by rewrite lookup_insert_eq.
  - exact Hty.
Qed.

End Read.

(** ** Histories *)

Inductive tty_op : Type :=
| Typing (cs : list Z)   (* an interrupt that delivers these characters *)
| Reading (n : nat).     (* a read of at most [n] characters *)

Section History.
  Context {patience_bound : Patience} {driver : DiskDriver}.
  Variable ip : nat.

Definition tty_call (op : tty_op) : K (Z * list Z) :=
  match op with
  | Typing cs => consoleintr cs ;;; ret (0, [])
  | Reading n => consoleread ip None (Z.of_nat n)
  end.

Fixpoint tty_calls (ops : list tty_op) : K (list (Z * list Z)) :=
  match ops with
  | [] => ret []
  | op :: ops => r <- tty_call op ;; rs <- tty_calls ops ;; ret (r :: rs)
  end.

(** What the terminal answers, what it prints, and its state afterwards; [None] when a
    reader would have to wait. *)
Fixpoint tty_spec (ops : list tty_op) (s : tty) : option (list (Z * list Z) * list Z * tty) :=
  match ops with
  | [] => Some ([], [], s)
  | Typing cs :: ops =>
      '(rs, out, s') ← tty_spec ops (foldl type_char s cs);
      Some ((0, []) :: rs, echoes s cs ++ out, s')
  | Reading n :: ops =>
      '(bs, q) ← take_line n true s.1;
      '(rs, out, s') ← tty_spec ops (q, s.2);
      Some ((Z.of_nat (length bs), bs) :: rs, out, s')
  end.

Definition op_ok (op : tty_op) : Prop :=
  match op with
  | Typing cs => Forall plain cs
  | Reading n => Z.of_nat n < 2 ^ 31
  end.


End History.

(** A machine whose console is open, with indices about to wrap around. *)
Definition tty_up (k : kernel) : kernel :=
  set_cons (Console ∅ 0 true false true [] (replicate 128 0) (2 ^ 32 - 2) (2 ^ 32 - 2) (2 ^ 32 - 2))
    (set_inodes (replicate NINODE (Inode 1 1 1 I_VALID dinode0))
      (set_sleeps {[SL_inode 0 := Sleeplock 1 "inode" 0]}
        (set_locks (<[LK_input := Spinlock 0 "input" None]> (k_locks k)) k))).

Lemma tty_up_idle k : ready k -> console_idle (tty_up k) ([], []).
Proof.
  intros [Hc Hf Hl Hcur]. split; try done.
  - split; try done. intros lk Hlk. destruct (Hf lk Hlk) as [name E]. exists name. cbn.
    rewrite lookup_insert_ne; [done|]. by destruct Hlk.
  - exists "input". cbn. by rewrite lookup_insert_eq.
  - split; try done; cbn. lia.
  - apply not_elem_of_nil.
  - intros H. by destruct H.
Qed.

