(* ===== verification/Video.v ===== *)
(** * The text screen

    The two writers of the screen memory: cgaputc of src/console.c, which prints at the
    cursor and scrolls, and vidputc and vidputs, with which the tracing dashboard draws at
    fixed positions.  Both stay on the screen. *)

From S2P Require Import Prelude Mem State Spinlock Sched Sleeplock Bio Block Log Umem Inode Console LineEdit.

(** ** Runs of cells *)

Lemma foldl_insert_out {A B} (key : B -> Z) (val : gmap Z A -> B -> A) (js : list B) (m : gmap Z A) i :
  (forall j, j ∈ js -> key j <> i) ->
  foldl (fun c j => <[key j := val c j]> c) m js !! i = m !! i.
Proof.
  revert m. induction js as [|j js IH]; intros m H; cbn; [done|].
  rewrite IH by (intros j' Hj'; apply H; set_solver). apply lookup_insert_ne, H. set_solver.
Qed.

Lemma crt_fill_lookup crt dst v n i :
  crt_fill crt dst v n !! i = if decide (dst <= i < dst + Z.of_nat n) then Some v else crt !! i.
Proof.
  unfold crt_fill. induction n as [|n IH]; [by rewrite decide_False by lia|].
  unfold upto. rewrite seq_S, foldl_app. cbn [foldl Nat.add].
  destruct (decide (i = dst + Z.of_nat n)) as [->|Hne].
  - by rewrite lookup_insert_eq, decide_True by lia.
  - rewrite lookup_insert_ne by done. unfold upto in IH. rewrite IH.
    destruct (decide (dst <= i < dst + Z.of_nat n)); [by rewrite decide_True by lia|by rewrite decide_False by lia].
Qed.

(** The move towards lower cells reads every cell before it is overwritten. *)
Lemma crt_move_lookup crt d n i :
  0 < d ->
  crt_move crt 0 d n !! i = if decide (0 <= i < Z.of_nat n) then Some (crt_get crt (i + d)) else crt !! i.
Proof.
  intros Hd. unfold crt_move. revert i. induction n as [|n IH]; intros i; [by rewrite decide_False by lia|].
  unfold upto in *. rewrite seq_S, foldl_app. cbn [foldl Nat.add]. rewrite Z.add_0_l in *.
  destruct (decide (i = Z.of_nat n)) as [->|Hne].
  - rewrite lookup_insert_eq, decide_True by lia. unfold crt_get at 1. rewrite IH, decide_False by lia.
    unfold crt_get. by rewrite Z.add_comm.
  - rewrite lookup_insert_ne by done. rewrite IH.
    destruct (decide (0 <= i < Z.of_nat n)); [by rewrite decide_True by lia|by rewrite decide_False by lia].
Qed.

(** ** Printing at the cursor *)

(** The part of the screen that scrolls: all lines but the last. *)
Definition SCROLLED : Z := 24 * 80.

Definition off_screen (i : Z) : Prop := i < 0 \/ SCROLLED <= i.

Lemma cga_step_bounds crt pos c :
  0 <= pos < SCROLLED ->
  0 <= (cga_step crt pos c).2 < SCROLLED /\
  forall i, off_screen i -> (cga_step crt pos c).1 !! i = crt !! i.
Proof.
  unfold off_screen, SCROLLED. intros Hp.
  assert (exists crt1 pos1, cga_step crt pos c =
    (let '(crt, pos) := if pos1 / 80 >=? 24 then
       (crt_fill (crt_move crt1 0 80 (23 * 80)) (pos1 - 80) 0 (Z.to_nat (u32 (2 * (24 * 80 - (pos1 - 80))) / 2)), pos1 - 80)
       else (crt1, pos1) in (crt_put pos BLANK crt, pos)) /\ 0 <= pos1 <= 1920 /\
    forall i, i < 0 \/ 24 * 80 <= i -> crt1 !! i = crt !! i) as (crt1 & pos1 & -> & Hp1 & H1).
  { unfold cga_step. destruct (c =? 10); [|destruct (c =? BACKSPACE)]; eexists _, _; (split; [reflexivity|]).
    - split; [mach|done].
    - split; [case_match; lia|done].
    - split; [lia|]. intros i Hi. unfold crt_put. rewrite lookup_insert_ne by lia. done. }
  rewrite Z.geb_leb. destruct (Z.leb_spec 24 (pos1 / 80)) as [Hs|Hs].
  - assert (pos1 = 1920) as -> by mach. cbn [fst snd]. split; [lia|]. intros i Hi. unfold crt_put.
    rewrite lookup_insert_ne by lia. change (Z.to_nat (u32 (2 * (24 * 80 - (1920 - 80))) / 2)) with 80%nat.
    rewrite crt_fill_lookup, decide_False by lia. rewrite crt_move_lookup, decide_False by lia. by apply H1.
  - cbn [fst snd]. assert (pos1 < 1920) by mach. split; [lia|]. intros i Hi. unfold crt_put.
    rewrite lookup_insert_ne by lia. by apply H1.
Qed.

(** The cursor is in the part that scrolls. *)
Definition cursor_ok (cn : console) : Prop := 0 <= co_cursor cn < SCROLLED.

Lemma put_cons_bounds c cn :
  cursor_ok cn -> cursor_ok (put_cons c cn) /\
  forall i, off_screen i -> co_crt (put_cons c cn) !! i = co_crt cn !! i.
Proof.
  intros Hc. destruct (cga_step_bounds (co_crt cn) (co_cursor cn) c Hc) as [Hp Hs].
  unfold put_cons, cursor_ok in *. destruct (cga_step _ _ _) as [crt pos]. cbn in *. split; [|done].
  unfold SCROLLED in *. mach.
Qed.

(** The screen memory: 25 lines. *)
Definition CELLS : Z := 25 * 80.

(** C26.  Whatever characters the kernel prints, cgaputc keeps the cursor inside the first
    24 lines, and writes only cells of these lines: the cells it indexes with the cursor,
    scrolls and clears are never outside the screen memory, and the 25th line is left to
    the dashboard. *)
Theorem console_output_bounded cs k :
  cursor_ok (k_cons k) -> co_panicked (k_cons k) = false ->
  exists cn', for_each cs consputc k = Ok tt (set_cons cn' k) /\ cursor_ok cn' /\
    forall i, off_screen i -> co_crt cn' !! i = co_crt (k_cons k) !! i.
Proof.
  revert k. induction cs as [|c cs IH]; intros k Hc Hp; cbn [for_each].
  - exists (k_cons k). by rewrite set_cons_cons.
  - krun (consputc_run c k Hp). destruct (put_cons_bounds c (k_cons k) Hc) as [Hc1 Hs1].
    destruct (put_cons_keeps c (k_cons k)) as (_ & K2 & _).
    destruct (IH (set_cons (put_cons c (k_cons k)) k)) as (cn' & E & Hc' & Hs').
    { exact Hc1. } { cbn. by rewrite K2. }
    exists cn'. rewrite E. split_and!; [done|done|]. intros i Hi. rewrite Hs' by done. by apply Hs1.
Qed.

(** Three characters at the end of the last scrolling line. *)
Lemma console_output_bounded_witness :
  exists cn', for_each [97; 98; 10] consputc (set_cons (with_screen ∅ 1919 console0) kernel0)
      = Ok tt (set_cons cn' kernel0) /\ cursor_ok cn'.
Proof.
  destruct (console_output_bounded [97; 98; 10] (set_cons (with_screen ∅ 1919 console0) kernel0)) as (cn' & E & H & _).
  - done.
  - done.
  - exists cn'. rewrite E. done.
Defined.

(** ** Drawing at a position *)

Definition attr_char (ch color : Z) : Z := u16 (Z.lor (Z.land ch 255) (Z.shiftl (Z.land color 255) 8)).

(** What vidputs draws in a cell: the character of the string that falls on it. *)
Definition drawn (row col : Z) (s : list Z) (color : Z) (i : Z) : option Z :=
  if bool_decide (0 <= row < 25 /\ i / 80 = row /\ col <= i `mod` 80) then
    (fun ch => attr_char ch color) <$> s !! Z.to_nat (i `mod` 80 - col)
  else None.

Definition same_but_screen (cn cn' : console) : Prop :=
  cn' = with_screen (co_crt cn') (co_cursor cn) cn.

Lemma vidputc_run row col ch color k :
  exists cn', vidputc row col ch color k = Ok tt (set_cons cn' k) /\ same_but_screen (k_cons k) cn' /\
    forall i, co_crt cn' !! i =
      if decide (0 <= row < 25 /\ 0 <= col < 80 /\ i = row * 80 + col) then Some (attr_char ch color)
      else co_crt (k_cons k) !! i.
Proof.
  unfold vidputc. rewrite !Z.geb_leb. destruct (Z.ltb_spec row 0), (Z.leb_spec 25 row); cbn [orb];
    try (exists (k_cons k); rewrite set_cons_cons; split_and!; [done|by destruct (k_cons k)|];
         intros i; by rewrite decide_False by lia).
  destruct (Z.ltb_spec col 0), (Z.leb_spec 80 col); cbn [orb];
    try (exists (k_cons k); rewrite set_cons_cons; split_and!; [done|by destruct (k_cons k)|];
         intros i; by rewrite decide_False by lia).
  eexists. split_and!; [done|done|]. intros i. cbn [co_crt with_screen]. unfold crt_put.
  destruct (decide (i = row * 80 + col)) as [->|Hi].
  - rewrite lookup_insert_eq, decide_True by lia. done.
  - rewrite lookup_insert_ne, decide_False by lia. done.
Qed.

Lemma drawn_nil row col color i : drawn row col [] color i = None.
Proof. unfold drawn. by case_bool_decide. Qed.

Lemma drawn_past row col s color i : 80 <= col -> drawn row col s color i = None.
Proof.
  intros Hc. unfold drawn. rewrite bool_decide_false; [done|]. intros (_ & _ & H).
  pose proof (Z.mod_pos_bound i 80). lia.
Qed.

Lemma drawn_cons row col c s color i :
  drawn row col (c :: s) color i =
  match drawn row (col + 1) s color i with
  | Some v => Some v
  | None => if decide (0 <= row < 25 /\ 0 <= col < 80 /\ i = row * 80 + col) then Some (attr_char c color) else None
  end.
Proof.
  unfold drawn. pose proof (Z.mod_pos_bound i 80 ltac:(lia)) as Hm. pose proof (Z.div_mod i 80 ltac:(lia)) as Hd.
  destruct (decide (col <= i `mod` 80)) as [Hle|Hgt].
  2: { rewrite !bool_decide_false by lia. by rewrite decide_False by lia. }
  destruct (decide (col = i `mod` 80)) as [->|Hne].
  - rewrite (bool_decide_false (_ /\ _ /\ _ + 1 <= _)) by lia. rewrite Z.sub_diag. cbn [Z.to_nat].
    case_bool_decide; [by rewrite decide_True by lia|by rewrite decide_False by lia].
  - rewrite (decide_False (P := 0 <= row < 25 /\ _)) by lia.
    replace (Z.to_nat (i `mod` 80 - col)) with (S (Z.to_nat (i `mod` 80 - (col + 1)))) by lia. cbn [lookup].
    rewrite (bool_decide_ext (0 <= row < 25 /\ i / 80 = row /\ col <= i `mod` 80)
      (0 <= row < 25 /\ i / 80 = row /\ col + 1 <= i `mod` 80)) by lia.
    case_bool_decide; [|done]. change ((c :: s) !! S ?n) with (s !! n). by destruct (_ <$> _).
Qed.

(** C27.  vidputs draws exactly the part of its string that falls on the given line of the
    screen, one character per cell with the color as its attribute: text left of the first
    column, right of the last, or on a line that does not exist is cut off, and no other
    cell, on or off the screen, changes, nor the cursor nor anything else of the kernel. *)
Theorem vidputs_draws row col t r color k :
  0 ∉ t ->
  exists cn', vidputs row col (t ++ 0 :: r) color k = Ok tt (set_cons cn' k) /\
    same_but_screen (k_cons k) cn' /\
    (forall i, co_crt cn' !! i =
       match drawn row col t color i with Some v => Some v | None => co_crt (k_cons k) !! i end) /\
    (forall i, ~ 0 <= i < CELLS -> co_crt cn' !! i = co_crt (k_cons k) !! i).
Proof.
  intros H0.
  assert (exists cn', vidputs_from row col (t ++ 0 :: r) color 0 k = Ok tt (set_cons cn' k) /\
    same_but_screen (k_cons k) cn' /\
    forall i, co_crt cn' !! i =
      match drawn row (col + 0) t color i with Some v => Some v | None => co_crt (k_cons k) !! i end)
    as (cn' & E & Hs & Hd).
  2: { rewrite Z.add_0_r in Hd. exists cn'. split_and!; [done..|]. intros i Hi. rewrite Hd. unfold drawn.
       rewrite bool_decide_false; [done|]. unfold CELLS in Hi. mach. }
  generalize 0 at 2 3 as j. revert k. induction t as [|c t IH]; intros k j; cbn [vidputs_from app].
  { exists (k_cons k). rewrite set_cons_cons. split_and!; [done|by destruct (k_cons k)|].
    intros i. by rewrite drawn_nil. }
  apply not_elem_of_cons in H0 as [Hc H0]. unfold truth. rewrite (proj2 (Z.eqb_neq c 0)) by done. cbn [negb andb].
  destruct (Z.ltb_spec (col + j) 80) as [Hj|Hj]; cbn [negb].
  2: { exists (k_cons k). rewrite set_cons_cons. split_and!; [done|by destruct (k_cons k)|].
       intros i. by rewrite drawn_past. }
  destruct (vidputc_run row (col + j) c color k) as (cn1 & E1 & Hs1 & Hd1). krun E1.
  destruct (IH H0 (set_cons cn1 k) (j + 1)) as (cn2 & E2 & Hs2 & Hd2).
  exists cn2. rewrite E2. cbn in Hs2. split_and!; [done| |].
  - unfold same_but_screen in *. rewrite Hs2. cbn. rewrite Hs1. done.
  - intros i. rewrite Hd2, drawn_cons. cbn [k_cons set_cons]. rewrite Z.add_assoc.
    destruct (drawn row (col + j + 1) t color i); [done|]. rewrite Hd1. by destruct (decide _).
Qed.

(** "abc" from column 78 of line 24: two characters fit. *)
Lemma vidputs_draws_witness :
  exists cn', vidputs 24 78 [97; 98; 99; 0] 7 kernel0 = Ok tt (set_cons cn' kernel0) /\
    co_crt cn' !! 1998 = Some 1889 /\ co_crt cn' !! 1999 = Some 1890 /\ co_crt cn' !! 2000 = None.
Proof.
  destruct (vidputs_draws 24 78 [97; 98; 99] [] 7 kernel0) as (cn' & E & _ & Hd & Ho).
  - apply (bool_decide_unpack _). by vm_compute.
  - exists cn'. rewrite !Hd. split_and!; [exact E|vm_compute; reflexivity..].
Defined.
