(* ===== verification/Ulib.v ===== *)
(** * The user library: formatted output and line input

    printf of src/printf.c writes one character at a time; its result here is the list of
    the characters written to the file descriptor.  gets of src/ulib.c reads one character
    at a time from standard input, which is the list of the characters still to come. *)

From S2P Require Import Prelude CString State Console.

(** ** printf *)

Fixpoint uprint_x_from (bits : Z) (n : nat) (x : Z) : option (list Z) :=
  match n with
  | O => Some []
  | S n' =>
      d ← digits !! Z.to_nat (Z.shiftr x (bits - 4));
      ds ← uprint_x_from bits n' (Z.shiftl x 4 `mod` 2 ^ bits);
      Some (d :: ds)
  end.
Definition uprint_x64 (x : Z) : option (list Z) := uprint_x_from 64 16 x.
Definition uprint_x32 (x : Z) : option (list Z) := uprint_x_from 32 8 x.

(** [do { buf[i++] = digits[x % 10]; x /= 10; } while(x != 0);] *)
Fixpoint uprint_digits (fuel : nat) (x : Z) : option (list Z) :=
  match fuel with
  | O => None
  | S fuel' =>
      d ← digits !! Z.to_nat (x `mod` 10);
      if x / 10 =? 0 then Some [d]
      else ds ← uprint_digits fuel' (x / 10); Some (d :: ds)
  end.

(** buf has 16 elements: a longer number would overflow it. *)
Definition uprint_d (v : Z) : option (list Z) :=
  ds ← uprint_digits 16 (if v <? 0 then - v else v);
  let buf := ds ++ (if v <? 0 then [45] else []) in
  if decide (length buf <= 16)%nat then Some (rev buf) else None.

(** The format and string arguments are their characters before the NUL.  The arguments
    are consumed in order; a missing one, or one of another type, is
    undefined. *)
Fixpoint printf_from (fmt : list Z) (args : list fmtarg) : option (list Z) :=
  match fmt with
  | [] => Some []
  | c :: fmt =>
      if negb (c =? 37) then out ← printf_from fmt args; Some (c :: out) else
      match fmt with
      | [] => Some []
      | c :: fmt =>
          if c =? 99 then          (* 'c' *)
            match args with
            | FNum v :: args => out ← printf_from fmt args; Some (u8 v :: out)
            | _ => None
            end
          else if c =? 100 then    (* 'd' *)
            match args with
            | FNum v :: args => s ← uprint_d (s32 v); out ← printf_from fmt args; Some (s ++ out)
            | _ => None
            end
          else if c =? 120 then    (* 'x' *)
            match args with
            | FNum v :: args => s ← uprint_x32 (u32 v); out ← printf_from fmt args; Some (s ++ out)
            | _ => None
            end
          else if c =? 112 then    (* 'p' *)
            match args with
            | FNum v :: args => s ← uprint_x64 (u64 v); out ← printf_from fmt args; Some (s ++ out)
            | _ => None
            end
          else if c =? 115 then    (* 's' *)
            match args with
            | FStr s :: args => out ← printf_from fmt args; Some (default NULL_STR s ++ out)
            | _ => None
            end
          else if c =? 37 then out ← printf_from fmt args; Some (37 :: out)
          else out ← printf_from fmt args; Some (37 :: c :: out)
      end
  end.
Definition printf (fmt : string) (args : list fmtarg) : option (list Z) := printf_from (chars fmt) args.

(** ** gets *)

(** [for(i=0; i+1 < max; )]: [n] is how many characters still fit; the result is what is
    stored before the NUL, and the input left. *)
Fixpoint gets_from (n : nat) (input : list Z) : list Z * list Z :=
  match n, input with
  | O, _ => ([], input)
  | _, [] => ([], [])
  | S n', c :: input =>
      if (c =? 10) || (c =? 13) then ([c], input)
      else let '(s, rest) := gets_from n' input in (c :: s, rest)
  end.
Definition gets_line (max : Z) (input : list Z) : list Z * list Z := gets_from (Z.to_nat (max - 1)) input.

(** ** Numbers survive printing and reading *)

Lemma digits_at x : 0 <= x < 10 -> digits !! Z.to_nat x = Some (48 + x).
Proof.
  intros Hx. assert (x = 0 \/ x = 1 \/ x = 2 \/ x = 3 \/ x = 4 \/ x = 5 \/ x = 6 \/ x = 7 \/ x = 8 \/ x = 9)
    as H by lia. by destruct_or! H; subst.
Qed.

(** The value of digits, the most significant first. *)
Definition value (acc : Z) (ds : list Z) : Z := foldl (fun n c => n * 10 + (c - 48)) acc ds.

Definition is_digit (c : Z) : Prop := 48 <= c <= 57.

Lemma uprint_digits_spec fuel x :
  0 <= x < 10 ^ Z.of_nat fuel -> (0 < fuel)%nat ->
  exists ds, uprint_digits fuel x = Some ds /\ Forall is_digit ds /\ value 0 (rev ds) = x /\
    (1 <= length ds)%nat /\ (0 < x -> 10 ^ (Z.of_nat (length ds) - 1) <= x) /\ (0 < x -> last ds <> Some 48).
Proof.
  revert x. induction fuel as [|fuel IH]; intros x Hx Hf; [lia|]. cbn [uprint_digits].
  pose proof (Z.mod_pos_bound x 10 ltac:(lia)) as Hm.
  pose proof (Z.div_mod x 10 ltac:(lia)) as Hd.
  rewrite digits_at by done. cbn [mbind option_bind].
  destruct (Z.eqb_spec (x / 10) 0) as [E|E].
  - exists [48 + x `mod` 10]. split_and!; [done|repeat constructor; unfold is_digit; lia|cbn; lia|cbn; lia|cbn; lia|].
    intros H0 [= H1]. lia.
  - assert (0 <= x / 10 < 10 ^ Z.of_nat fuel) as Hx'.
    { rewrite Nat2Z.inj_succ, Z.pow_succ_r in Hx by lia. split; [apply Z.div_pos; lia|].
      apply Z.div_lt_upper_bound; lia. }
    assert (0 < fuel)%nat by (destruct fuel; [cbn in Hx'; lia|lia]).
    destruct (IH (x / 10) Hx') as (ds & -> & Hds & Hv & Hl & Hlow & Hz); [done|].
    exists (48 + x `mod` 10 :: ds). cbn [mbind option_bind].
    split_and!; [done|constructor; [unfold is_digit; lia|done]| |cbn; lia| |].
    + cbn [rev]. unfold value in *. rewrite foldl_app, Hv. cbn. lia.
    + intros _. cbn [length]. replace (Z.of_nat (S (length ds)) - 1) with (Z.succ (Z.of_nat (length ds) - 1)) by lia.
      rewrite Z.pow_succ_r by lia. assert (10 ^ (Z.of_nat (length ds) - 1) <= x / 10) by (apply Hlow; lia). lia.
    + intros H0. destruct ds as [|d ds]; [cbn in Hl; lia|]. apply Hz. lia.
Qed.

(** atoi computes the value of the digits it finds, while it fits an int. *)
Lemma atoi_digits ds acc r :
  Forall is_digit ds -> 0 <= acc -> value acc ds < 2 ^ 31 ->
  Ustr.atoi_from (ds ++ 0 :: r) acc = Some (value acc ds).
Proof.
  revert acc. induction ds as [|c ds IH]; intros acc Hds Ha Hv; [done|].
  apply Forall_cons in Hds as [Hc Hds]. cbn [app Ustr.atoi_from]. unfold is_digit in Hc.
  rewrite (proj2 (Z.leb_le 48 c)), (proj2 (Z.leb_le c 57)) by lia. cbn [andb].
  assert (acc * 10 + (c - 48) <= value acc (c :: ds)) as Hle.
  { cbn. revert Hds. assert (0 <= acc * 10 + (c - 48)) as H0 by lia. revert H0.
    generalize (acc * 10 + (c - 48)). clear. induction ds as [|d ds IH]; intros a Ha Hds; cbn; [lia|].
    apply Forall_cons in Hds as [Hd Hds]. unfold is_digit in Hd.
    specialize (IH (a * 10 + (d - 48)) ltac:(lia) Hds). unfold value in IH. lia. }
  rewrite s32_small by (unfold in_s32; lia).
  replace (acc * 10 + c - 48) with (acc * 10 + (c - 48)) by lia. apply IH; [done|lia|done].
Qed.

(** What print_d writes for an int: at most 11 characters, so its 16-byte buffer is never
    overflowed. *)
Lemma uprint_d_spec v :
  in_s32 v ->
  exists ds, uprint_d v = Some ((if v <? 0 then [45] else []) ++ rev ds) /\
    Forall is_digit ds /\ value 0 (rev ds) = Z.abs v /\ (1 <= length ds <= 10)%nat /\
    (v <> 0 -> last ds <> Some 48).
Proof.
  intros Hv. set (x := if v <? 0 then - v else v).
  assert (Hx : x = Z.abs v) by (unfold x; destruct (Z.ltb_spec v 0); lia).
  assert (Hr : 0 <= x <= 2 ^ 31) by (unfold in_s32 in Hv; lia).
  destruct (uprint_digits_spec 16 x) as (ds & E & Hds & Hval & Hl & Hlow & Hz); [change (10 ^ Z.of_nat 16) with 10000000000000000; lia|lia|].
  assert (Hlen : (length ds <= 10)%nat).
  { destruct (decide (0 < x)) as [H0|H0]; [|].
    - specialize (Hlow H0). destruct (decide (length ds <= 10)%nat) as [|Hn]; [done|exfalso].
      pose proof (Z.pow_le_mono_r 10 10 (Z.of_nat (length ds) - 1) ltac:(lia) ltac:(lia)). lia.
    - assert (x = 0) as E0 by lia. rewrite E0 in E. vm_compute in E. simplify_eq. cbn. lia. }
  exists ds. split_and!; [|done|by rewrite Hval|lia|lia|intros ?; apply Hz; lia].
  unfold uprint_d. fold x. rewrite E. cbn [mbind option_bind].
  rewrite decide_True by (rewrite length_app; destruct (v <? 0); cbn; lia).
  rewrite rev_app_distr. by destruct (v <? 0).
Qed.

(** C28.  A number printed with %d reads back: atoi applied to what printf writes for a
    non-negative int returns it, whatever follows the digits; a negative one is printed as
    a minus sign and the digits of its magnitude.  At most 11 characters are written, so
    the 16-byte buffer of print_d never overflows, and a positive number has no leading
    zero. *)
Theorem printf_atoi (v : Z) (r : list Z) :
  in_s32 v ->
  exists ds, printf "%d" [FNum v] = Some ((if v <? 0 then [45] else []) ++ ds) /\
    (1 <= length ds <= 10)%nat /\ (v <> 0 -> ds !! 0%nat <> Some 48) /\
    value 0 ds = Z.abs v /\ (0 <= v -> Ustr.atoi (ds ++ 0 :: r) = Some v).
Proof.
  intros Hv. destruct (uprint_d_spec v Hv) as (ds & E & Hds & Hval & Hl & Hz).
  exists (rev ds). rewrite length_rev. split_and!; [|lia|lia| |done|].
  - unfold printf. change (chars "%d") with [37; 100]. cbn [printf_from negb Z.eqb Pos.eqb].
    rewrite s32_small, E by done. cbn [mbind option_bind]. by rewrite app_nil_r.
  - intros Hv0 H48. apply (Hz Hv0). rewrite <-head_reverse, head_lookup. unfold reverse. by rewrite <-rev_alt.
  - intros H0. rewrite <-(Z.abs_eq v), <-Hval by done. apply atoi_digits; [|lia|].
    + rewrite rev_alt. by apply Forall_reverse.
    + rewrite Hval. unfold in_s32 in Hv. lia.
Qed.

Lemma printf_atoi_witness :
  printf "%d" [FNum (-2147483648)] = Some (chars "-2147483648") /\ Ustr.atoi (chars "40960" ++ [0]) = Some 40960.
Proof.
  destruct (printf_atoi (-2147483648) []) as (ds & E & _ & _ & Hv & _); [unfold in_s32; lia|].
  destruct (printf_atoi 40960 []) as (ds' & E' & _ & _ & _ & Ha); [unfold in_s32; lia|].
  split; [vm_compute; reflexivity|].
  assert (Some ds' = Some (chars "40960")) as [= <-]; [|by apply Ha].
  etransitivity; [symmetry; exact E'|vm_compute; reflexivity].
Defined.
