(* ===== verification/PipeFifo.v ===== *)
(** * Pipes are bounded queues

    pipewrite and piperead of src/pipe.c, with the 512-byte ring of struct pipe and its two
    wrapping counters, implement the write and the read of a bounded queue of bytes. *)

From S2P Require Import Prelude Mem State Spinlock Kalloc Vm Sched Sleeplock Bio Umem File.

(** ** User buffers *)

(** The bytes [bs] at the virtual address [a]. *)
Definition readable (k : kernel) (a : Z) (bs : list Z) : Prop :=
  forall i b, bs !! i = Some b ->
    exists x, kaddr (k_mem k) (c_cr3 (k_cpu k)) (u64 (a + Z.of_nat i)) false = Some x /\ ld8 (k_mem k) x = b.

(** A buffer of [n] bytes at [a]: byte [i] is at [loc i], and stores to the buffer do not
    move it, because its frames are none of the page tables'. *)
Record writable (k : kernel) (a : Z) (n : nat) (loc : nat -> Z) : Prop := Writable {
  wr_at : forall m, (forall x, (forall i, (i < n)%nat -> x <> loc i) -> ld8 m x = ld8 (k_mem k) x) ->
    forall i, (i < n)%nat -> kaddr m (c_cr3 (k_cpu k)) (u64 (a + Z.of_nat i)) true = Some (loc i);
  wr_inj : forall i j, (i < n)%nat -> (j < n)%nat -> loc i = loc j -> i = j
}.

(** [m'] is [m] with [bs] stored in the first bytes of the buffer. *)
Definition stored (m : mem) (loc : nat -> Z) (bs : list Z) (m' : mem) : Prop :=
  (forall i b, bs !! i = Some b -> ld8 m' (loc i) = b) /\
  (forall x, (forall i, (i < length bs)%nat -> x <> loc i) -> ld8 m' x = ld8 m x).

(** ** The ring as a queue *)

Record ring_is (pi : pipe) (q : list Z) : Prop := RingIs {
  ri_len : length (pi_data pi) = 512%nat;
  ri_r : in_u32 (pi_nread pi);
  ri_w : pi_nwrite pi = u32 (pi_nread pi + Z.of_nat (length q));
  ri_room : (length q <= 512)%nat;
  ri_at : forall j x, q !! j = Some x -> pi_data pi !! Z.to_nat ((pi_nread pi + Z.of_nat j) `mod` 512) = Some x
}.

Lemma ring_put pi q c :
  ring_is pi q -> (length q < 512)%nat -> in_u8 c -> ring_is (pipe_put c pi) (q ++ [c]).
Proof.
  intros [H1 H2 H3 H4 H5] Hlt Hc. unfold pipe_put, PIPESIZE.
  assert (E8 : u8 c = c) by mach. rewrite E8.
  assert (Ew : pi_nwrite pi `mod` 512 = (pi_nread pi + Z.of_nat (length q)) `mod` 512)
    by (rewrite H3; apply u32_mod_divide; by exists (2 ^ 23)).
  split; cbn [pi_data pi_nread pi_nwrite]; len; try done.
  - rewrite H3. mach.
  - intros j x Hj. rewrite Ew. apply lookup_snoc_Some in Hj as [[Hj E]|[-> <-]].
    + rewrite list_lookup_insert_ne; [by apply H5|]. mach.
    + rewrite list_lookup_insert_eq; [done|]. rewrite H1. mach.
Qed.

Lemma ring_full pi q : ring_is pi q -> (pi_nwrite pi =? u32 (pi_nread pi + PIPESIZE)) = bool_decide (length q = 512%nat).
Proof.
  intros [H1 H2 H3 H4 H5]. rewrite H3. unfold PIPESIZE. case_bool_decide as E.
  - rewrite E. apply Z.eqb_refl.
  - apply Z.eqb_neq. mach.
Qed.

Lemma ring_empty pi q : ring_is pi q -> (pi_nread pi =? pi_nwrite pi) = bool_decide (q = []).
Proof.
  intros [H1 H2 H3 H4 H5]. rewrite H3. destruct q as [|c q].
  - rewrite bool_decide_true by done. apply Z.eqb_eq. cbn. mach.
  - rewrite bool_decide_false by done. apply Z.eqb_neq. cbn [length] in *. mach.
Qed.

Lemma ring_next pi c q : ring_is pi (c :: q) -> pipe_at pi = c /\ ring_is (pipe_next pi) q.
Proof.
  intros [H1 H2 H3 H4 H5]. cbn [length] in *. unfold pipe_at, pipe_next, PIPESIZE. split.
  - specialize (H5 0%nat c eq_refl). rewrite Z.add_0_r in H5. by rewrite H5.
  - split; cbn [pi_data pi_nread pi_nwrite]; try done; try lia.
    + mach.
    + rewrite H3. mach.
    + intros j x Hj. rewrite <-(H5 (S j) x Hj). f_equal. f_equal.
      transitivity (u32 (pi_nread pi + Z.of_nat (S j)) `mod` 512).
      2: { apply u32_mod_divide. by exists (2 ^ 23). }
      rewrite <-(u32_mod_divide (u32 _ + _)) by (by exists (2 ^ 23)). f_equal. mach.
Qed.

Section Fifo.
  Context {patience_bound : Patience} {driver : DiskDriver}.

(** Inside the critical section of the pipe [p], entered in [k0]. *)
Definition at_pipe (k0 : kernel) (p : Z) (pi : pipe) (m : mem) : kernel :=
  set_mem m (set_pipes (<[p := pi]> (k_pipes k0)) (locked_by (LK_pipe p) k0)).

Lemma at_pipe_get k0 p pi m : get_pipe p (at_pipe k0 p pi m) = Ok pi (at_pipe k0 p pi m).
Proof. unfold get_pipe, at_pipe. cbn. by rewrite lookup_insert_eq. Qed.

Lemma at_pipe_upd k0 p pi m f : upd_pipe p f (at_pipe k0 p pi m) = Ok tt (at_pipe k0 p (f pi) m).
Proof.
  unfold upd_pipe. krun (at_pipe_get k0 p pi m). unfold modify, at_pipe. cbn. by rewrite insert_insert_eq.
Qed.

(** ** Writing *)

Lemma pipewrite_from_run k0 p a bs i q pi :
  readable k0 (a + Z.of_nat i) bs -> Forall in_u8 bs -> ring_is pi q -> (length q + length bs <= 512)%nat ->
  exists pi', pipewrite_from (length bs) p a (Z.of_nat i) (at_pipe k0 p pi (k_mem k0))
      = Ok true (at_pipe k0 p pi' (k_mem k0)) /\ ring_is pi' (q ++ bs) /\
    pi_readopen pi' = pi_readopen pi /\ pi_writeopen pi' = pi_writeopen pi.
Proof.
  revert i q pi. induction bs as [|b bs IH]; intros i q pi Hrd H8 Hpi Hroom; cbn [length pipewrite_from] in *.
  { exists pi. by rewrite app_nil_r. }
  apply Forall_cons in H8 as [Hb H8].
  assert (Ew : pipewrite_wait patience p (at_pipe k0 p pi (k_mem k0)) = Ok true (at_pipe k0 p pi (k_mem k0))).
  { destruct patience; cbn [pipewrite_wait]; krun (at_pipe_get k0 p pi (k_mem k0));
      rewrite (ring_full _ _ Hpi), bool_decide_false by lia; done. }
  krun Ew. cbn [negb].
  destruct (Hrd 0%nat b eq_refl) as (x & Ex & Hx). rewrite Z.add_0_r in Ex.
  assert (El : load8 (u64 (a + Z.of_nat i)) (at_pipe k0 p pi (k_mem k0)) = Ok b (at_pipe k0 p pi (k_mem k0))).
  { unfold load8. change (kaddr _ _ _ _) with (kaddr (k_mem k0) (c_cr3 (k_cpu k0)) (u64 (a + Z.of_nat i)) false).
    rewrite Ex. cbn. by rewrite Hx. }
  krun El. krun (at_pipe_upd k0 p pi (k_mem k0) (pipe_put b)).
  destruct (IH (S i) (q ++ [b]) (pipe_put b pi)) as (pi' & E & Hr & Ho1 & Ho2).
  - intros j c Hj. destruct (Hrd (S j) c Hj) as (y & Ey & Hy). exists y. split; [|done]. rewrite <-Ey. f_equal. f_equal. lia.
  - done.
  - apply ring_put; [done|lia|done].
  - len.
  - exists pi'. replace (Z.of_nat i + 1) with (Z.of_nat (S i)) by lia. rewrite E.
    by rewrite <-app_assoc in Hr.
Qed.
(** ** Reading *)

Lemma store8_at_pipe k0 p pi m a x c :
  kaddr m (c_cr3 (k_cpu k0)) a true = Some x ->
  store8 a c (at_pipe k0 p pi m) = Ok tt (at_pipe k0 p pi (st8 m x c)).
Proof. intros E. unfold store8. cbn. by rewrite E. Qed.

Lemma piperead_from_run k0 p a N loc n i q pi m :
  writable k0 a N loc -> (i + n = N)%nat -> Forall in_u8 q -> ring_is pi q ->
  (forall x, (forall i, (i < N)%nat -> x <> loc i) -> ld8 m x = ld8 (k_mem k0) x) ->
  exists pi' m', piperead_from n p a (Z.of_nat i) (at_pipe k0 p pi m)
      = Ok (Z.of_nat (i + min n (length q))) (at_pipe k0 p pi' m') /\
    stored m (fun j => loc (i + j)%nat) (take n q) m' /\ ring_is pi' (drop n q) /\
    pi_readopen pi' = pi_readopen pi /\ pi_writeopen pi' = pi_writeopen pi.
Proof.
  intros [Hat Hinj]. revert i q pi m. induction n as [|n IH]; intros i q pi m Hn H8 Hpi Hm; cbn [piperead_from].
  { exists pi, m. rewrite Nat.add_0_r. split_and!; [done| |done|done|done]. split; [|done].
    intros j b Hj. by rewrite take_0 in Hj. }
  krun (at_pipe_get k0 p pi m). rewrite (ring_empty _ _ Hpi). destruct q as [|c q].
  { rewrite bool_decide_true by done. exists pi, m. rewrite Nat.add_0_r. split_and!; [done| |done|done|done].
    split; [|done]. intros j b Hj. done. }
  rewrite bool_decide_false by done. destruct (ring_next _ _ _ Hpi) as [-> Hpi1].
  apply Forall_cons in H8 as [Hc H8].
  krun (at_pipe_upd k0 p pi m pipe_next).
  krun (store8_at_pipe k0 p (pipe_next pi) m _ _ c (Hat m Hm i ltac:(lia))).
  assert (E8 : u8 c = c) by mach.
  destruct (IH (S i) q (pipe_next pi) (st8 m (loc i) c)) as (pi' & m' & E & [Hs1 Hs2] & Hr & Ho); try done.
  { lia. }
  { intros x Hx. rewrite ld8_st8, decide_False by (apply Hx; lia). by apply Hm. }
  exists pi', m'. replace (Z.of_nat i + 1) with (Z.of_nat (S i)) by lia. rewrite E. cbn [length take drop].
  split_and!; [f_equal; lia| |done|apply Ho|apply Ho]. split.
  - intros [|j] b Hj; cbn in Hj.
    + injection Hj as <-. rewrite Nat.add_0_r, Hs2.
      * by rewrite ld8_st8, decide_True, E8.
      * intros j Hj Heq. rewrite length_take in Hj. apply Hinj in Heq; lia.
    + specialize (Hs1 j b Hj). by replace (i + S j)%nat with (S i + j)%nat by lia.
  - intros x Hx. rewrite Hs2.
    + rewrite ld8_st8, decide_False; [done|]. specialize (Hx 0%nat). rewrite Nat.add_0_r in Hx. apply Hx. cbn. lia.
    + intros j Hj. replace (S i + j)%nat with (i + S j)%nat by lia. apply Hx. cbn. lia.
Qed.

(** ** The pipe between calls *)

Definition nobody (c : chan) (ps : list proc) : Prop :=
  forall i p, ps !! i = Some p -> asleep_on c p = false.

(** A pipe that holds the bytes [q], and no process asleep that could go on. *)
Record pipe_is (k : kernel) (p : Z) (q : list Z) (readopen writeopen : bool) : Prop := PipeIs {
  pp_ready : ready k;
  pp_lock : lock_free k (LK_pipe p);
  pp_ring : exists pi, k_pipes k !! p = Some pi /\ ring_is pi q /\
    pi_readopen pi = readopen /\ pi_writeopen pi = writeopen;
  pp_bytes : Forall in_u8 q;
  pp_readers : q <> [] \/ writeopen = false -> nobody (Ch_nread p) (k_procs k);
  pp_writers : (length q < 512)%nat \/ readopen = false -> nobody (Ch_nwrite p) (k_procs k)
}.

Lemma nobody_woken c c' ps : nobody c ps -> nobody c (woken c' <$> ps).
Proof.
  intros H i p Hp. rewrite list_lookup_fmap in Hp. apply fmap_Some in Hp as (p0 & Hp0 & ->).
  unfold woken. destruct (asleep_on c' p0); [|by apply (H i)]. unfold asleep_on. cbn. by rewrite bool_decide_false.
Qed.

(** The end of a call: wake the other side, release the lock. *)
Definition pipe_left (k : kernel) (p : Z) (pi : pipe) (m : mem) (c : chan) : kernel :=
  set_procs (woken c <$> k_procs k) (set_mem m (set_pipes (<[p := pi]> (k_pipes k)) k)).

Lemma pipe_leave {A} k p pi m c (r : A) :
  ready k -> lock_free k (LK_pipe p) ->
  (wakeup c ;;; release (LK_pipe p) ;;; ret r) (at_pipe k p pi m) = Ok r (pipe_left k p pi m c).
Proof.
  intros [Hc Hf Hl _] Hlk. 
  krun (wakeup_inside k (LK_pipe p) (at_pipe k p pi m) c (calm_ok _ Hc) (Hf _ st_ptable)
    ltac:(done) eq_refl eq_refl Hl).
  krun (calm_release k (set_procs (woken c <$> k_procs (at_pipe k p pi m)) (at_pipe k p pi m))
    (LK_pipe p) Hc Hlk eq_refl eq_refl). by destruct k.
Qed.

Lemma pipe_left_ready k p pi m c : ready k -> ready (pipe_left k p pi m c).
Proof. intros Hr. eapply ready_env; [exact Hr|]. split_and!; [done|done|apply woken_awakened]. Qed.

Lemma at_pipe_enter k p pi :
  k_pipes k !! p = Some pi -> locked_by (LK_pipe p) k = at_pipe k p pi (k_mem k).
Proof. intros E. unfold at_pipe. rewrite insert_id by done. by destruct k. Qed.

(** The pipe after a call that leaves the ring [pi]. *)
Lemma pipe_left_is k p q ro wo pi m c q' ro' wo' :
  pipe_is k p q ro wo -> ring_is pi q' -> Forall in_u8 q' ->
  pi_readopen pi = ro' -> pi_writeopen pi = wo' ->
  (q' <> [] \/ wo' = false -> c = Ch_nread p \/ q <> [] \/ wo = false) ->
  ((length q' < 512)%nat \/ ro' = false -> c = Ch_nwrite p \/ (length q < 512)%nat \/ ro = false) ->
  pipe_is (pipe_left k p pi m c) p q' ro' wo'.
Proof.
  intros [Hr Hlk _ _ Hrd Hwr] Hpi H8 Ho1 Ho2 Hc1 Hc2. split; try done.
  - by apply pipe_left_ready.
  - exists pi. cbn. by rewrite lookup_insert_eq.
  - intros H. destruct (Hc1 H) as [->|H']; [intros i x; apply woken_none|by apply nobody_woken, Hrd].
  - intros H. destruct (Hc2 H) as [->|H']; [intros i x; apply woken_none|by apply nobody_woken, Hwr].
Qed.

Lemma pipewrite_run k p q ro wo a bs :
  pipe_is k p q ro wo -> readable k a bs -> Forall in_u8 bs -> (length q + length bs <= 512)%nat ->
  exists pi, let k' := pipe_left k p pi (k_mem k) (Ch_nread p) in
    pipewrite p a (Z.of_nat (length bs)) k = Ok (Z.of_nat (length bs)) k' /\ pipe_is k' p (q ++ bs) ro wo.
Proof.
  intros Hp Hrd H8 Hroom. pose proof Hp as [Hr Hlk (pi & Epi & Hpi & Hro & Hwo) H8q _ _].
  unfold pipewrite. krun (acquire_free k _ Hlk). rewrite (at_pipe_enter k p pi Epi), Nat2Z.id.
  destruct (pipewrite_from_run k p a bs 0 q pi) as (pi' & E & Hpi' & Ho1 & Ho2); [by rewrite Z.add_0_r|done..|].
  exists pi'. krun E. cbn [negb]. split; [by apply pipe_leave|].
  eapply pipe_left_is; [exact Hp|exact Hpi'|by apply Forall_app|congruence|congruence|by left|].
  intros [H|H]; [right; left|by right; right]. rewrite length_app in H. lia.
Qed.

Lemma piperead_run k p q ro wo a n loc :
  pipe_is k p q ro wo -> writable k a n loc -> q <> [] \/ wo = false ->
  exists pi m, let k' := pipe_left k p pi m (Ch_nwrite p) in
    piperead p a (Z.of_nat n) k = Ok (Z.of_nat (length (take n q))) k' /\
    stored (k_mem k) loc (take n q) m /\ pipe_is k' p (drop n q) ro wo.
Proof.
  intros Hp Hwr Hne. pose proof Hp as [Hr Hlk (pi & Epi & Hpi & Hro & Hwo) H8q _ _].
  unfold piperead. krun (acquire_free k _ Hlk). rewrite (at_pipe_enter k p pi Epi), Nat2Z.id.
  assert (Ew : piperead_wait patience p (at_pipe k p pi (k_mem k)) = Ok true (at_pipe k p pi (k_mem k))).
  { destruct patience; cbn [piperead_wait]; krun (at_pipe_get k p pi (k_mem k));
      rewrite (ring_empty _ _ Hpi), Hwo; by destruct Hne as [Hq| ->]; [rewrite bool_decide_false|rewrite andb_false_r]. }
  krun Ew. cbn [negb].
  destruct (piperead_from_run k p a n loc n 0 q pi (k_mem k) Hwr eq_refl H8q Hpi) as (pi' & m & E & Hs & Hpi' & Ho1 & Ho2);
    [done|].
  exists pi', m. krun E. cbn [Nat.add]. rewrite length_take. split_and!; [by apply pipe_leave|done|].
  eapply pipe_left_is; [exact Hp|exact Hpi'|by apply Forall_drop|congruence|congruence| |by left].
  intros _. by right.
Qed.

Lemma pipeclose_run k p q ro wo (w : bool) :
  pipe_is k p q ro wo -> (if w then ro else wo) = true ->
  exists k', pipeclose p w k = Ok tt k' /\
    pipe_is k' p q (if w then ro else false) (if w then false else wo).
Proof.
  intros Hp Hopen. pose proof Hp as [Hr Hlk (pi & Epi & Hpi & Hro & Hwo) H8q _ _].
  set (pi' := if w then with_writeopen false pi else with_readopen false pi).
  exists (pipe_left k p pi' (k_mem k) (if w then Ch_nread p else Ch_nwrite p)). split.
  - unfold pipeclose. krun (acquire_free k _ Hlk). rewrite (at_pipe_enter k p pi Epi).
    transitivity ((wakeup (if w then Ch_nread p else Ch_nwrite p) ;;; release (LK_pipe p) ;;; ret tt)
      (at_pipe k p pi' (k_mem k))); [|by apply pipe_leave].
    pose proof Hr as [Hc Hf Hl _].
    pose proof (wakeup_inside k (LK_pipe p) (at_pipe k p pi' (k_mem k)) (if w then Ch_nread p else Ch_nwrite p)
      (calm_ok _ Hc) (Hf _ st_ptable) ltac:(done) eq_refl eq_refl Hl) as Ew.
    set (k1 := set_procs _ _) in Ew. krun Ew. rewrite (obind_ok _ _ _ tt k1).
    2: { unfold pi' in *. destruct w.
         - krun (at_pipe_upd k p pi (k_mem k) (with_writeopen false)). exact Ew.
         - krun (at_pipe_upd k p pi (k_mem k) (with_readopen false)). exact Ew. }
    assert (Eg : get_pipe p k1 = Ok pi' k1) by (unfold get_pipe, k1, at_pipe; cbn; by rewrite lookup_insert_eq).
    krun Eg.
    replace (negb (pi_readopen pi') && negb (pi_writeopen pi')) with false
      by (unfold pi'; destruct w; cbn; by rewrite ?Hro, ?Hwo, ?Hopen, ?andb_false_r).
    pose proof (calm_release k k1 (LK_pipe p) Hc Hlk eq_refl eq_refl) as Er. krun Er. by rewrite Er.
  - eapply pipe_left_is; [exact Hp|unfold pi'; by destruct w, Hpi|done|unfold pi'; by destruct w|unfold pi'; by destruct w| |];
      destruct w; auto; intros [H|H]; auto.
Qed.


End Fifo.

(** ** A pipe in use *)

(** Buffers in kernel memory. *)
Lemma writable_kernel k a n :
  KERNBASE <= a -> a + Z.of_nat n <= 2 ^ 64 -> writable k a n (fun i => a + Z.of_nat i).
Proof.
  intros Ha Hb. unfold KERNBASE in *. split; [|lia]. intros m _ i Hi. unfold kaddr, KERNBASE.
  rewrite u64_small by (unfold in_u64; lia).
  by rewrite (proj2 (Z.ltb_ge _ (2 ^ 47))), (proj2 (Z.ltb_ge _ _)) by lia.
Qed.

Definition PIPE : Z := KERNBASE + 4096.

(** A pipe with two bytes, the second past the wrap-around of the counters. *)
Definition pipe_up (k : kernel) : kernel :=
  set_pipes {[PIPE := Pipe (<[511%nat := 65]> (<[0%nat := 66]> (replicate 512 0))) (2 ^ 32 - 1) 1 true true]}
    (set_locks (<[LK_pipe PIPE := Spinlock 0 "pipe" None]> (k_locks k)) k).

Lemma pipe_up_is k :
  ready k -> (forall c, nobody c (k_procs k)) -> pipe_is (pipe_up k) PIPE [65; 66] true true.
Proof.
  intros [Hc Hf Hl Hcur] Hn. split.
  - split; try done. intros lk Hlk. destruct (Hf lk Hlk) as [name E]. exists name. cbn.
    rewrite lookup_insert_ne; [done|]. by destruct Hlk.
  - exists "pipe". cbn. by rewrite lookup_insert_eq.
  - eexists. split; [apply lookup_insert_eq|]. split_and!; try done. split; try done.
    + cbn. lia.
    + intros [|[|j]] x [= <-]; by vm_compute.
  - repeat constructor; unfold in_u8; lia.
  - intros _. apply Hn.
  - intros _. apply Hn.
Qed.

Lemma booted_nobody c : nobody c (k_procs booted).
Proof.
  intros i p Hp. unfold booted in Hp. cbn [k_procs set_cpu set_locks set_procs] in Hp.
  apply list_lookup_insert_Some in Hp as [(_ & <- & _)|(_ & Hp)]; [|apply lookup_replicate in Hp as [-> _]];
    unfold asleep_on; cbn; by rewrite bool_decide_false.
Qed.

