(* ===== verification/ArgCheck.v ===== *)
(** * What argptr of src/syscall.c checks

    argptr is meant to make sure that a pointer lies within the process.  It compares the
    low 32 bits of the pointer only, and returns an unsigned value that no caller can find
    negative. *)

From S2P Require Import Prelude Mem State Spinlock Kalloc Vm Sched Sleeplock Bio Umem File Proc Syscall PipeFifo.

Section ArgCheck.
  Context {patience_bound : Patience} {driver : DiskDriver} {image : Image}.

(** The current process, and the arguments of its system call in the trap frame. *)
Record calling (k : kernel) (p : proc) (a0 a1 a2 : Z) : Prop := Calling {
  cl_proc : exists i, c_proc (k_cpu k) = Some i /\ k_procs k !! i = Some p;
  cl_a0 : ld64 (k_mem k) (p_tf p + TF_rdi) = a0;
  cl_a1 : ld64 (k_mem k) (p_tf p + TF_rsi) = a1;
  cl_a2 : ld64 (k_mem k) (p_tf p + TF_rdx) = a2
}.

Lemma my_proc_run k p a0 a1 a2 : calling k p a0 a1 a2 -> my_proc k = Ok p k.
Proof.
  intros [(i & Hi & Hp) _ _ _]. unfold my_proc, get_proc. krun (cur_proc_ok k i Hi). by rewrite (read_at_ok k_procs i k p).
Qed.

Lemma fetcharg_run k p a0 a1 a2 n :
  calling k p a0 a1 a2 -> 0 <= n <= 2 ->
  fetcharg n k = Ok (if n =? 0 then a0 else if n =? 1 then a1 else a2) k.
Proof.
  intros Hc Hn. unfold fetcharg. krun (my_proc_run _ _ _ _ _ Hc). destruct Hc as [_ H0 H1 H2].
  assert (n = 0 \/ n = 1 \/ n = 2) as Hn' by lia. unfold get_tf, gets.
  by destruct_or! Hn'; subst n; cbn; rewrite ?H0, ?H1, ?H2.
Qed.

Lemma argptr_run k p a0 a1 a2 size :
  calling k p a0 a1 a2 ->
  argptr 1 size k = Ok (if (size <? 0) || (u32 a1 >=? p_sz p) || (u32 (u32 a1 + size) >? p_sz p)
                        then (u64 (-1), None) else (0, Some a1)) k.
Proof.
  intros Hc. unfold argptr, argaddr. krun (fetcharg_run _ _ _ _ _ 1 Hc ltac:(lia)).
  krun (my_proc_run _ _ _ _ _ Hc). by destruct (_ || _).
Qed.

(** sys_read up to the call of fileread. *)
Lemma sys_read_run k p a0 a1 a2 f :
  calling k p a0 a1 a2 -> 0 <= s32 a0 -> p_ofile p !! Z.to_nat (s32 a0) = Some (Some f) ->
  (length (p_ofile p) <= NOFILE)%nat ->
  sys_read k =
    (if (s32 a2 <? 0) || (u32 a1 >=? p_sz p) || (u32 (u32 a1 + s32 a2) >? p_sz p) then Fault k
     else fileread f a1 (s32 a2) k).
Proof.
  intros Hc H0 Hf Hlen. pose proof (lookup_lt_Some _ _ _ Hf) as Hlt. unfold sys_read.
  assert (Efd : argfd 0 k = Ok (Some (s32 a0, f)) k).
  { unfold argfd, argint, bind. rewrite (fetcharg_run _ _ _ _ _ 0 Hc ltac:(lia)). cbn [obind ret Z.eqb].
    rewrite (my_proc_run _ _ _ _ _ Hc). cbn [obind].
    rewrite (proj2 (Z.ltb_ge _ _)) by done. rewrite Z.geb_leb, (proj2 (Z.leb_gt _ _)) by lia. cbn [orb].
    by rewrite Hf. }
  krun Efd. unfold argint at 1. unfold bind at 1 2. rewrite (fetcharg_run _ _ _ _ _ 2 Hc ltac:(lia)). cbn [obind ret Z.eqb Pos.eqb].
  krun (argptr_run _ _ _ _ _ (s32 a2) Hc). by destruct (_ || _).
Qed.

(** C30.  The pointer check of read is void.  A read from a pipe with the address [a] of
    kernel memory as its buffer, where the low 32 bits of [a] fall inside the process,
    passes argptr, returns, and stores the bytes of the pipe, which the program chose, at
    [a].  And where argptr does refuse the pointer, read goes on with a pointer that was
    never set. *)
Theorem read_pointer_check k p fd a a2 f fl pp q ro wo :
  let n := s32 a2 in
  calling k p fd a a2 -> 0 <= s32 fd -> p_ofile p !! Z.to_nat (s32 fd) = Some (Some f) ->
  length (p_ofile p) = NOFILE -> k_files k !! f = Some fl ->
  f_type fl = FD_PIPE -> f_readable fl = true -> f_pipe fl = pp -> pipe_is k pp q ro wo -> q <> [] ->
  (0 <= n -> KERNBASE <= a -> a + n <= 2 ^ 64 -> u32 a + n <= p_sz p < 2 ^ 32 -> u32 a < p_sz p ->
   exists k', sys_read k = Ok (Z.of_nat (length (take (Z.to_nat n) q))) k' /\
     forall i b, take (Z.to_nat n) q !! i = Some b -> ld8 (k_mem k') (a + Z.of_nat i) = b) /\
  (p_sz p <= u32 a -> sys_read k = Fault k).
Proof.
  intros n Hc H0 Hf Hlen Hfl Ht Hr Hpp Hp Hq. split.
  - intros Hn Ha Hend Hsz Hlt.
    rewrite (sys_read_run k p fd a a2 f Hc H0 Hf ltac:(lia)). fold n.
    rewrite (proj2 (Z.ltb_ge n 0)), Z.geb_leb, (proj2 (Z.leb_gt (p_sz p) (u32 a))) by lia.
    pose proof (u32_range a). rewrite (u32_small (u32 a + n)) by (unfold in_u32; lia).
    rewrite Z.gtb_ltb, (proj2 (Z.ltb_ge (p_sz p) _)) by lia. cbn [orb].
    unfold fileread, get_file. krun (read_at_ok k_files f k fl Hfl). rewrite Hr, Ht, Hpp. cbn [negb].
    destruct (piperead_run k pp q ro wo a (Z.to_nat n) (fun i => a + Z.of_nat i) Hp) as (pi & m & E & [Hs _] & _).
    { apply writable_kernel; lia. }
    { by left. }
    rewrite Z2Nat.id in E by done. eexists. split; [exact E|]. intros i b Hi. by apply Hs.
  - intros Hsz. rewrite (sys_read_run k p fd a a2 f Hc H0 Hf ltac:(lia)).
    rewrite Z.geb_leb, (proj2 (Z.leb_le _ _)) by done. by rewrite orb_true_r.
Qed.

End ArgCheck.

(** A process of 16 kB whose descriptor 0 is the pipe, calling read(0, KERNBASE + 8192, 2). *)
Definition reader : proc :=
  with_sz 16384 (with_tf (KERNBASE + 1048576) (with_ofile (<[0%nat := Some 0%nat]> (replicate NOFILE None)) (with_state RUNNING proc0))).
Definition reading (k : kernel) : kernel :=
  set_mem (st64 (st64 ∅ (KERNBASE + 1048576 + TF_rsi) (KERNBASE + 8192)) (KERNBASE + 1048576 + TF_rdx) 2)
    (set_procs (<[3%nat := reader]> (k_procs k))
      (set_files (<[0%nat := File FD_PIPE 1 true false PIPE None 0]> (replicate NFILE file0)) (pipe_up k))).

Lemma reading_is k :
  ready k -> c_proc (k_cpu k) = Some 3%nat -> (forall c, nobody c (k_procs k)) ->
  pipe_is (reading k) PIPE [65; 66] true true.
Proof.
  intros Hr Hcur Hn. destruct (pipe_up_is k Hr Hn) as [[Hc Hf Hl _] Hlk Hring H8 _ _].
  assert (Hn' : forall c, nobody c (<[3%nat := reader]> (k_procs k))).
  { intros c i x Hx. apply list_lookup_insert_Some in Hx as [(_ & <- & _)|(_ & Hx)]; [|by apply (Hn c i)].
    unfold asleep_on. cbn. by rewrite bool_decide_false. }
  split; try done. { split; try done.
    - cbn [reading k_procs set_mem set_procs]. by rewrite length_insert.
    - exists 3%nat, reader. split_and!; [done| |done]. cbn [reading k_procs set_mem set_procs].
      apply list_lookup_insert_eq. rewrite (rd_procs _ Hr). unfold NPROC. lia. }
Qed.

Lemma read_pointer_check_witness :
  exists k', sys_read (patience_bound := 2%nat) (driver := Memide.memide) (reading booted) = Ok 2 k' /\
    ld8 (k_mem k') (KERNBASE + 8192) = 65 /\ ld8 (k_mem k') (KERNBASE + 8193) = 66.
Proof.
  destruct (read_pointer_check (patience_bound := 2%nat) (driver := Memide.memide) (reading booted) reader
    0 (KERNBASE + 8192) 2 0 (File FD_PIPE 1 true false PIPE None 0) PIPE [65; 66] true true) as [H _]; try done.
  - split; [exists 3%nat; by split| | |]; by vm_compute.
  - apply reading_is; [apply booted_ready|done|apply booted_nobody].
  - destruct H as (k' & E & Hs); [by vm_compute..|].
    exists k'. split_and!; [exact E|by apply (Hs 0%nat)|by apply (Hs 1%nat)].
Defined.
