(* ===== verification/Bitmap.v ===== *)
(** * The free bitmap: balloc and bfree of src/fs.c

    The bitmap is a set of block numbers kept in blocks of the disk.  balloc takes the least
    block that is not in it, bfree removes a block, both inside a transaction. *)

From S2P Require Import Prelude Mem State Spinlock Sched Sleeplock Bio Bcache Block Log Recovery Txn LogOps Inode.

(** ** Bits of a block *)

Definition bit_set (d : list Z) (i : nat) : bool :=
  Z.testbit (default 0 (d !! (i / 8)%nat)) (Z.of_nat i `mod` 8).

Lemma land_bit c j : 0 <= j -> (Z.land c (Z.shiftl 1 j) =? 0) = negb (Z.testbit c j).
Proof.
  intros Hj. rewrite Z.shiftl_1_l. destruct (Z.testbit c j) eqn:E; cbn.
  - apply Z.eqb_neq. intros H. apply (f_equal (fun x => Z.testbit x j)) in H.
    rewrite Z.land_spec, E, Z.pow2_bits_true, Z.bits_0 in H by done. done.
  - apply Z.eqb_eq, Z.bits_inj'. intros m Hm. rewrite Z.land_spec, Z.bits_0.
    destruct (decide (m = j)) as [->|Hne]; [by rewrite E|]. by rewrite Z.pow2_bits_false, andb_false_r by lia.
Qed.

Lemma bit_free_set d i : (i / 8 < length d)%nat -> bit_free d i = Some (negb (bit_set d i)).
Proof.
  intros Hi. unfold bit_free, bit_set. destruct (lookup_lt_is_Some_2 d (i / 8) Hi) as [c ->]. cbn.
  rewrite land_bit; [done|]. by apply Z.mod_pos_bound.
Qed.

Lemma bit_index i j :
  (i / 8 = j / 8)%nat -> Z.of_nat i `mod` 8 = Z.of_nat j `mod` 8 -> i = j.
Proof.
  intros H1 H2. apply Nat2Z.inj. rewrite (Z.div_mod (Z.of_nat i) 8), (Z.div_mod (Z.of_nat j) 8) by done.
  rewrite H2. change 8 with (Z.of_nat 8). by rewrite <-!Nat2Z.inj_div, H1.
Qed.

Lemma bit_set_alter d i j g :
  (i / 8 < length d)%nat ->
  bit_set (alter g (i / 8)%nat d) j =
  if decide (i / 8 = j / 8)%nat then Z.testbit (g (default 0 (d !! (j / 8)%nat))) (Z.of_nat j `mod` 8) else bit_set d j.
Proof.
  intros Hi. unfold bit_set. destruct (decide (i / 8 = j / 8)%nat) as [E|E].
  - rewrite <-E, list_lookup_alter_eq. by destruct (lookup_lt_is_Some_2 d (i / 8) Hi) as [c ->].
  - by rewrite list_lookup_alter_ne.
Qed.

Lemma bit_set_used d i j :
  (i / 8 < length d)%nat -> bit_set (mark_used i d) j = bool_decide (j = i) || bit_set d j.
Proof.
  intros Hi. unfold mark_used. rewrite bit_set_alter by done.
  pose proof (Z.mod_pos_bound (Z.of_nat i) 8 ltac:(lia)). pose proof (Z.mod_pos_bound (Z.of_nat j) 8 ltac:(lia)).
  case_decide as E.
  - rewrite Z.lor_spec, Z.shiftl_1_l. unfold bit_set. case_bool_decide as Ej.
    + subst. by rewrite Z.pow2_bits_true, orb_true_r by lia.
    + rewrite Z.pow2_bits_false, orb_false_r; [done|]. intros Em. apply Ej. symmetry. by apply bit_index.
  - rewrite bool_decide_false; [done|]. by intros ->.
Qed.

Lemma bit_set_freed d i j :
  (i / 8 < length d)%nat -> bit_set (mark_free i d) j = negb (bool_decide (j = i)) && bit_set d j.
Proof.
  intros Hi. unfold mark_free. rewrite bit_set_alter by done.
  pose proof (Z.mod_pos_bound (Z.of_nat i) 8 ltac:(lia)). pose proof (Z.mod_pos_bound (Z.of_nat j) 8 ltac:(lia)).
  case_decide as E.
  - rewrite Z.land_spec, Z.lnot_spec, Z.shiftl_1_l by lia. unfold bit_set. case_bool_decide as Ej.
    + subst. by rewrite Z.pow2_bits_true, andb_false_r by lia.
    + rewrite Z.pow2_bits_false, andb_true_r; [done|]. intros Em. apply Ej. symmetry. by apply bit_index.
  - rewrite bool_decide_false; [done|]. by intros ->.
Qed.

(** The scan of a bitmap block finds its first clear bit. *)
Lemma balloc_scan_run d b size fuel bi :
  length d = 512%nat -> 0 <= b -> size < 2 ^ 31 -> b < size -> (4096 <= fuel + bi)%nat ->
  exists r, balloc_scan fuel d b size bi = Some r /\
    match r with
    | Some i => (bi <= i < 4096)%nat /\ b + Z.of_nat i < size /\ bit_set d i = false /\
        forall j, (bi <= j < i)%nat -> bit_set d j = true
    | None => forall j, (bi <= j < 4096)%nat -> b + Z.of_nat j < size -> bit_set d j = true
    end.
Proof.
  intros Hd Hb Hs Hbs. revert bi. induction fuel as [|fuel IH]; intros bi Hf; cbn [balloc_scan]; change BPB with 4096.
  - rewrite (proj2 (Z.ltb_ge (Z.of_nat bi) 4096)) by lia. cbn. exists None. split; [done|]. lia.
  - destruct (Z.ltb_spec (Z.of_nat bi) 4096) as [H1|H1]; cbn [andb negb].
    2: { exists None. split; [done|]. lia. }
    rewrite u32_small by (unfold in_u32; lia).
    destruct (Z.ltb_spec (b + Z.of_nat bi) size) as [H2|H2]; cbn [negb].
    2: { exists None. split; [done|]. lia. }
    assert (Hbi : (bi / 8 < length d)%nat) by (rewrite Hd; apply Nat.Div0.div_lt_upper_bound; lia).
    rewrite bit_free_set by done. cbn [mbind option_bind]. destruct (bit_set d bi) eqn:E; cbn [negb].
    + destruct (IH (S bi)) as (r & Er & Hr); [lia|]. exists r. split; [done|]. destruct r as [i|].
      * destruct Hr as (H3 & H4 & H5 & H6). split_and!; [lia|lia|done|done|].
        intros j Hj. destruct (decide (j = bi)) as [->|]; [done|]. apply H6. lia.
      * intros j Hj Hjs. destruct (decide (j = bi)) as [->|]; [done|]. apply Hr; [lia|done].
    + exists (Some bi). split; [done|]. split_and!; [lia|lia|done|done|]. lia.
Qed.

(** ** Room in a transaction *)

(** [n] more blocks can be logged, or opened at the same time. *)
Definition space (k : kernel) (op : gmap Z nat) (bs : list Z) (n : nat) : Prop :=
  (length bs + size op + n < NBUF)%nat /\ Z.of_nat (length bs + n) <= lg_size (k_log k) - 1 /\
  1 <= lg_outstanding (k_log k).

Lemma space_frame k k' op bs n : tx_frame k k' -> space k op bs n -> space k' op bs n.
Proof. intros F. unfold space. by rewrite (tf_log _ _ F). Qed.

Lemma space_le k op bs n m : (m <= n)%nat -> space k op bs n -> space k op bs m.
Proof. unfold space. lia. Qed.

Lemma space_absorb k op bs n b : space k op bs (S n) -> space k op (absorb b bs) n.
Proof. unfold space. pose proof (length_absorb b bs). lia. Qed.

Lemma space_open k op bs n b i : op !! b = None -> space k op bs (S n) -> space k (<[b := i]> op) bs n.
Proof. intros Hb. unfold space. rewrite map_size_insert_None by done. lia. Qed.

Lemma space_room k op bs n : space k op bs (S n) -> log_room k bs.
Proof. unfold space, log_room, NBUF. lia. Qed.

Lemma space_bread k op bs n : space k op bs n -> (length bs + size op < NBUF)%nat.
Proof. unfold space. lia. Qed.

Section Alloc.
  Context {patience_bound : Patience} {driver : DiskDriver} {driver_ok : DiskOk driver}.

(** One block is opened, changed, logged and released. *)
Lemma txn_modify k op bs b f n :
  txn k op bs -> op !! b = None -> 0 <= b < disksize (k_disk k) -> ~ in_log (k_log k) b ->
  space k op bs (S n) -> length (f (content k b)) = 512%nat ->
  exists k', (bp <- bread 1 b ;; upd_data bp f ;;; log_write bp ;;; brelse bp) k = Ok tt k' /\
    txn k' op (absorb b bs) /\ tx_frame k k' /\
    forall b', content k' b' = if decide (b' = b) then f (content k b) else content k b'.
Proof.
  intros Ht Hb Hrange Hnl Hsp Hlen.
  destruct (txn_bread k op bs b Ht Hb Hrange (space_bread _ _ _ _ Hsp)) as (i & k1 & E1 & H1 & F1 & C1).
  destruct (txn_write k1 (<[b := i]> op) bs b i f H1) as (k2 & E2 & H2 & F2 & C2).
  { apply lookup_insert_eq. }
  { eapply space_room. by eapply space_frame. }
  { by rewrite (tx_frame_log_in k k1). }
  { by rewrite C1. }
  destruct (txn_brelse k2 _ _ b i H2) as (k3 & E3 & H3 & F3 & C3); [apply lookup_insert_eq|].
  rewrite delete_insert_id in H3 by done.
  exists k3. split; [|split; [done|split]].
  - krun E1. apply obind_inv_ok in E2 as (? & ? & E2 & E2'). krun E2. krun E2'. done.
  - by do 2 (etrans; [eassumption|]).
  - intros b'. rewrite C3, C2, !C1. done.
Qed.

(** ** The bitmap as a set *)

Definition in_use (k : kernel) (b : Z) : bool :=
  bit_set (content k (BBLOCK b (k_sb k))) (Z.to_nat (b `mod` BPB)).

(** The blocks of the bitmap, and of the inode table. *)
Definition is_bitmap (k : kernel) (b : Z) : Prop :=
  sb_bmapstart (k_sb k) <= b <= sb_bmapstart (k_sb k) + (sb_size (k_sb k) - 1) / BPB.

Definition is_inodes (k : kernel) (b : Z) : Prop :=
  sb_inodestart (k_sb k) <= b <= sb_inodestart (k_sb k) + (sb_ninodes (k_sb k) - 1) / IPB.

(** A block that can belong to a file. *)
Definition data_area (k : kernel) (b : Z) : Prop :=
  ~ is_bitmap k b /\ ~ in_log (k_log k) b /\ 1 < b /\ ~ is_inodes k b.

(** The layout mkfs makes: the bitmap and the inode table are on the disk, outside the log,
    and the blocks that hold the file system itself are marked in use. *)
Record layout (k : kernel) : Prop := Layout {
  la_size : 0 < sb_size (k_sb k) <= disksize (k_disk k) /\ disksize (k_disk k) < 2 ^ 31;
  la_bmap : 1 < sb_bmapstart (k_sb k);
  la_fits : sb_bmapstart (k_sb k) + (sb_size (k_sb k) - 1) / BPB < disksize (k_disk k);
  la_log : forall b, is_bitmap k b -> ~ in_log (k_log k) b;
  la_inodes : forall b, is_inodes k b -> 1 < b < disksize (k_disk k) /\ ~ in_log (k_log k) b /\ ~ is_bitmap k b;
  la_meta : forall b, 0 <= b < sb_size (k_sb k) -> in_use k b = false -> data_area k b
}.

Lemma BBLOCK_bitmap k b :
  layout k -> 0 <= b < sb_size (k_sb k) ->
  BBLOCK b (k_sb k) = b / BPB + sb_bmapstart (k_sb k) /\ is_bitmap k (BBLOCK b (k_sb k)) /\
  0 <= BBLOCK b (k_sb k) < disksize (k_disk k) /\ ~ in_log (k_log k) (BBLOCK b (k_sb k)).
Proof.
  intros Hl Hb. pose proof Hl as [[H1 H2] H3 H4 H5 _ _].
  assert (0 <= b / BPB <= (sb_size (k_sb k) - 1) / BPB) as Hd.
  { split; [apply Z.div_pos; [lia|done]|]. apply Z.div_le_mono; [done|lia]. }
  assert (E : BBLOCK b (k_sb k) = b / BPB + sb_bmapstart (k_sb k)).
  { unfold BBLOCK. apply u32_small. unfold in_u32. lia. }
  assert (is_bitmap k (BBLOCK b (k_sb k))) by (unfold is_bitmap; lia).
  split_and!; [done|done|lia|lia|by apply H5].
Qed.

Lemma frame_sb k k' : tx_frame k k' -> k_sb k' = k_sb k.
Proof. intros F. by rewrite (tf_rest _ _ F). Qed.

(** What a change of one bit does to the set. *)
Lemma in_use_change k k' b g (upd : nat -> bool -> bool) :
  layout k -> 0 <= b < sb_size (k_sb k) -> k_sb k' = k_sb k ->
  (forall b', is_bitmap k b' -> content k' b' =
     if decide (b' = BBLOCK b (k_sb k)) then g (content k b') else content k b') ->
  (forall j, bit_set (g (content k (BBLOCK b (k_sb k)))) j = upd j (bit_set (content k (BBLOCK b (k_sb k))) j)) ->
  (forall j x, j <> Z.to_nat (b `mod` BPB) -> upd j x = x) ->
  forall b', 0 <= b' < sb_size (k_sb k) ->
    in_use k' b' = if decide (b' = b) then upd (Z.to_nat (b `mod` BPB)) (in_use k b) else in_use k b'.
Proof.
  intros Hl Hb Es Hc Hg Hu b' Hb'. unfold in_use. rewrite Es.
  destruct (BBLOCK_bitmap k b Hl Hb) as (E & _ & _). destruct (BBLOCK_bitmap k b' Hl Hb') as (E' & Hbm & _).
  rewrite Hc by done. pose proof (Z.mod_pos_bound b BPB ltac:(done)). pose proof (Z.mod_pos_bound b' BPB ltac:(done)).
  pose proof (Z.div_mod b BPB ltac:(done)). pose proof (Z.div_mod b' BPB ltac:(done)).
  destruct (decide (b' = b)) as [->|Hne].
  - rewrite decide_True by done. by rewrite Hg.
  - case_decide as Eb; [|done]. rewrite Eb, Hg. apply Hu. rewrite E, E' in Eb.
    intros Em. apply Hne. apply Z2Nat.inj in Em; [|lia..]. change BPB with 4096 in *. lia.
Qed.

(** ** balloc *)

(** [b] is the first block that is not in use. *)
Definition first_free (k : kernel) (b : Z) : Prop :=
  0 <= b < sb_size (k_sb k) /\ in_use k b = false /\ forall b', 0 <= b' < b -> in_use k b' = true.

(** The open blocks are blocks of files: in use and no part of the bitmap. *)
Definition opened (k : kernel) (op : gmap Z nat) : Prop :=
  forall b i, op !! b = Some i -> ~ is_bitmap k b /\ (0 <= b < sb_size (k_sb k) -> in_use k b = true).

(** The file system after block [b] was allocated. *)
Record allocated (k : kernel) (op : gmap Z nat) (bs : list Z) (b : Z) (k' : kernel) : Prop := Allocated {
  al_txn : txn k' op (absorb b (absorb (BBLOCK b (k_sb k)) bs));
  al_frame : tx_frame k k';
  al_layout : layout k';
  al_use : forall b', 0 <= b' < sb_size (k_sb k) -> in_use k' b' = bool_decide (b' = b) || in_use k b';
  al_zero : content k' b = ZERO_BLOCK;
  al_rest : forall b', b' <> b -> ~ is_bitmap k b' -> content k' b' = content k b'
}.

Lemma length_txn_content k op bs b : txn k op bs -> length (content k b) = 512%nat.
Proof. intros [(mru & held & Hk & _) _ _ _ _ _ _]. by eapply length_content. Qed.

Lemma bzero_put b : bzero 1 b = put_block b ZERO_BLOCK.
Proof. done. Qed.

Lemma length_alter_bit (g : Z -> Z) i (d : list Z) : length (alter g i d) = length d.
Proof. apply length_alter. Qed.

Lemma is_bitmap_frame k k' b : tx_frame k k' -> is_bitmap k' b <-> is_bitmap k b.
Proof. intros F. unfold is_bitmap. by rewrite (frame_sb _ _ F). Qed.

Lemma is_inodes_frame k k' b : tx_frame k k' -> is_inodes k' b <-> is_inodes k b.
Proof. intros F. unfold is_inodes. by rewrite (frame_sb _ _ F). Qed.

Lemma data_area_frame k k' b : tx_frame k k' -> data_area k' b <-> data_area k b.
Proof. intros F. unfold data_area. by rewrite is_bitmap_frame, is_inodes_frame, (tx_frame_log_in k k'). Qed.

(** The layout after a call that frees only blocks of files. *)
Lemma layout_change k k' :
  tx_frame k k' -> layout k ->
  (forall b, 0 <= b < sb_size (k_sb k) -> in_use k' b = false -> in_use k b = false \/ data_area k b) -> layout k'.
Proof.
  intros F [L1 L2 L3 L4 L5 L6] Hu. split; rewrite ?(frame_sb _ _ F), ?(tx_frame_disk _ _ F); try done.
  - intros b. rewrite is_bitmap_frame, (tx_frame_log_in k k') by done. apply L4.
  - intros b. rewrite is_inodes_frame, is_bitmap_frame, (tx_frame_log_in k k') by done. apply L5.
  - intros b Hb H0. rewrite data_area_frame by done. destruct (Hu b Hb H0) as [H|H]; [by apply L6|done].
Qed.

(** The round of balloc that finds a free bit. *)
Lemma balloc_take k op bs b0 bi n i k1 :
  let b := b0 + Z.of_nat bi in
  txn k op bs -> layout k -> opened k op -> space k op bs (S (S n)) ->
  0 <= b0 -> b0 `mod` BPB = 0 -> (bi < 4096)%nat -> b < sb_size (k_sb k) -> in_use k b = false ->
  bread 1 (BBLOCK b (k_sb k)) k = Ok i k1 -> txn k1 (<[BBLOCK b (k_sb k) := i]> op) bs -> tx_frame k k1 ->
  (forall b', content k1 b' = content k b') ->
  exists k', (upd_data i (mark_used bi) ;;; log_write i ;;; brelse i ;;; bzero 1 b ;;; ret b) k1 = Ok b k' /\
    allocated k op bs b k'.
Proof.
  intros b Ht Hl Ho Hsp Hb0 Hal Hbi Hb Hfree E1 H1 F1 C1.
  assert (Hb' : 0 <= b < sb_size (k_sb k)) by lia.
  destruct (BBLOCK_bitmap k b Hl Hb') as (Ebb & Hbm & Hrange & Hnl).
  destruct (la_meta _ Hl b Hb' Hfree) as (Hnb & Hnlb & _ & _).
  assert (Hop : op !! BBLOCK b (k_sb k) = None).
  { destruct (op !! _) as [j|] eqn:E; [|done]. by destruct (Ho _ _ E). }
  assert (Hopb : op !! b = None).
  { destruct (op !! b) as [j|] eqn:E; [|done]. destruct (Ho _ _ E) as [_ H]. rewrite H in Hfree by done. done. }
  assert (Hmod : Z.to_nat (b `mod` BPB) = bi).
  { unfold b. rewrite Z.add_mod, Hal, Z.add_0_l, Z.mod_mod, Z.mod_small by (done || (unfold BPB, BSIZE; lia)). lia. }
  set (bm := BBLOCK b (k_sb k)) in *.
  destruct (txn_write k1 _ bs bm i (mark_used bi) H1) as (k2 & E2 & H2 & F2 & C2).
  { apply lookup_insert_eq. }
  { eapply space_room. by eapply space_frame. }
  { by rewrite (tx_frame_log_in k k1). }
  { unfold mark_used. rewrite length_alter, C1. by eapply length_txn_content. }
  destruct (txn_brelse k2 _ _ bm i H2) as (k3 & E3 & H3 & F3 & C3); [apply lookup_insert_eq|].
  rewrite delete_insert_id in H3 by done.
  assert (F13 : tx_frame k k3) by (do 2 (etrans; [eassumption|]); done).
  assert (Hsp3 : space k3 op (absorb bm bs) (S n)) by (eapply space_frame, space_absorb; [exact F13|exact Hsp]).
  destruct (put_block_run k3 op (absorb bm bs) b ZERO_BLOCK H3 Hopb) as (k4 & E4 & H4 & F4 & C4).
  { rewrite (tx_frame_disk _ _ F13). pose proof (la_size _ Hl). lia. }
  { by rewrite (tx_frame_log_in _ _ _ F13). }
  { by eapply space_bread. }
  { by eapply space_room. }
  { done. }
  assert (F14 : tx_frame k k4) by (by etrans).
  assert (Huse : forall b', 0 <= b' < sb_size (k_sb k) -> in_use k4 b' = bool_decide (b' = b) || in_use k b').
  { intros b' Hr'.
    rewrite (in_use_change k k4 b (mark_used bi) (fun j x => bool_decide (j = bi) || x) Hl Hb' (frame_sb _ _ F14)); try done.
    - rewrite Hmod. destruct (decide (b' = b)) as [->|Hne]; [by rewrite !bool_decide_true|by rewrite bool_decide_false].
    - intros b'' Hb''. rewrite C4, decide_False by (intros ->; done). rewrite C3, C2, C1. fold bm.
      rewrite !C1. by destruct (decide (b'' = bm)) as [->|].
    - intros j. apply bit_set_used. rewrite (length_txn_content k op bs) by done. apply Nat.Div0.div_lt_upper_bound. lia.
    - intros j x Hj. rewrite Hmod in Hj. by rewrite bool_decide_false. }
  exists k4. split.
  - apply obind_inv_ok in E2 as (? & ? & E2 & E2'). krun E2. krun E2'. krun E3. rewrite bzero_put. by krun E4.
  - split; try done.
    + apply (layout_change k); [done..|]. intros b' Hr' Hu. left. rewrite Huse in Hu by done.
      by apply orb_false_iff in Hu as [_ ?].
    + rewrite C4. by rewrite decide_True.
    + intros b' Hne Hnb'. rewrite C4, decide_False, C3, C2, C1 by done. rewrite decide_False; [done|]. by intros ->.
Qed.

Lemma opened_frame k k' op :
  tx_frame k k' -> (forall b, content k' b = content k b) -> opened k op -> opened k' op.
Proof.
  intros F C Ho b i Hb. rewrite is_bitmap_frame by done. unfold in_use. rewrite C, (frame_sb _ _ F).
  by eapply Ho.
Qed.

Lemma layout_frame k k' : tx_frame k k' -> (forall b, content k' b = content k b) -> layout k -> layout k'.
Proof.
  intros F C Hl. apply (layout_change k); [done..|]. intros b _ Hb. left. rewrite <-Hb. unfold in_use.
  by rewrite C, (frame_sb _ _ F).
Qed.

Lemma in_use_frame k k' b : tx_frame k k' -> (forall b, content k' b = content k b) -> in_use k' b = in_use k b.
Proof. intros F C. unfold in_use. by rewrite C, (frame_sb _ _ F). Qed.

(** The file system before and after a call that changes no content. *)
Lemma allocated_frame k k1 op bs b k' :
  tx_frame k k1 -> (forall b, content k1 b = content k b) -> allocated k1 op bs b k' -> allocated k op bs b k'.
Proof.
  intros F C [A1 A2 A3 A4 A5 A6]. rewrite (frame_sb _ _ F) in *. split; try done.
  - by etrans.
  - intros b' Hb'. rewrite A4 by done. by rewrite (in_use_frame k k1).
  - intros b' Hb' Hnb. rewrite A6; [apply C|done|]. by rewrite is_bitmap_frame.
Qed.

(** balloc takes the first free block, or panics when there is none. *)
Definition balloc_result (k : kernel) (op : gmap Z nat) (bs : list Z) (o : outcome kernel Z) : Prop :=
  (exists b k', first_free k b /\ o = Ok b k' /\ allocated k op bs b k') \/
  ((forall b, 0 <= b < sb_size (k_sb k) -> in_use k b = true) /\ exists k', o = Panic "balloc: out of blocks" k').

Lemma balloc_from_run fuel k op bs b0 n :
  txn k op bs -> layout k -> opened k op -> space k op bs (S (S n)) ->
  0 <= b0 -> b0 `mod` BPB = 0 -> sb_size (k_sb k) <= b0 + BPB * Z.of_nat fuel ->
  (forall b', 0 <= b' < b0 -> b' < sb_size (k_sb k) -> in_use k b' = true) ->
  balloc_result k op bs (balloc_from fuel 1 b0 k).
Proof.
  revert k b0. induction fuel as [|fuel IH]; intros k b0 Ht Hl Ho Hsp Hb0 Hal Hf Hbefore; cbn [balloc_from];
    unfold bind at 1, gets; cbn [obind]; destruct (Z.ltb_spec b0 (sb_size (k_sb k))) as [Hlt|Hge]; cbn [negb];
    try (right; split; [intros b Hb; apply Hbefore; lia|by eexists]); [change BPB with 4096 in Hf; lia|].
  destruct (BBLOCK_bitmap k b0 Hl ltac:(lia)) as (Ebb & Hbm & Hrange & Hnl).
  assert (Hop : op !! BBLOCK b0 (k_sb k) = None).
  { destruct (op !! _) as [j|] eqn:E; [|done]. by destruct (Ho _ _ E). }
  destruct (txn_bread k op bs _ Ht Hop Hrange (space_bread _ _ _ _ Hsp)) as (i & k1 & E1 & H1 & F1 & C1).
  krun E1. krun (txn_data k1 _ _ _ i H1 (lookup_insert_eq _ _ _)). rewrite C1.
  pose proof (la_size _ Hl) as [Hs1 Hs2].
  destruct (balloc_scan_run (content k (BBLOCK b0 (k_sb k))) b0 (sb_size (k_sb k)) (Z.to_nat BPB) 0) as (r & Er & Hr);
    [by eapply length_txn_content|done|lia|done|done|].
  rewrite Er. unfold bind at 1. cbn [of_option ret obind].
  assert (Hbit : forall j, (j < 4096)%nat -> b0 + Z.of_nat j < sb_size (k_sb k) ->
    BBLOCK (b0 + Z.of_nat j) (k_sb k) = BBLOCK b0 (k_sb k) /\
    in_use k (b0 + Z.of_nat j) = bit_set (content k (BBLOCK b0 (k_sb k))) j).
  { intros j Hj Hjs. destruct (BBLOCK_bitmap k (b0 + Z.of_nat j) Hl ltac:(lia)) as (Ej & _).
    assert (Eb : BBLOCK (b0 + Z.of_nat j) (k_sb k) = BBLOCK b0 (k_sb k))
      by (rewrite Ej, Ebb; change BPB with 4096 in *; f_equal; Z.to_euclidean_division_equations; lia).
    split; [done|]. unfold in_use. rewrite Eb. f_equal.
    change BPB with 4096 in *. Z.to_euclidean_division_equations; lia. }
  destruct r as [bi|].
  - destruct Hr as ([_ Hbi] & Hs & Hclear & Hset). left. destruct (Hbit bi Hbi Hs) as [Eb Eu].
    rewrite <-Eb in E1, H1.
    destruct (balloc_take k op bs b0 bi n i k1 Ht Hl Ho Hsp Hb0 Hal Hbi Hs ltac:(by rewrite Eu) E1 H1 F1 C1) as (k' & E & A).
    exists (b0 + Z.of_nat bi), k'. split_and!; [|done|done]. split_and!; [lia|done|by rewrite Eu|].
    intros b' Hb'. destruct (decide (b' < b0)) as [Hbb|Hbb]; [apply Hbefore; lia|].
    replace b' with (b0 + Z.of_nat (Z.to_nat (b' - b0))) by lia.
    rewrite (proj2 (Hbit (Z.to_nat (b' - b0)) ltac:(lia) ltac:(lia))). apply Hset. lia.
  - destruct (txn_brelse k1 _ _ _ i H1 (lookup_insert_eq _ _ _)) as (k2 & E2 & H2 & F2 & C2).
    rewrite delete_insert_id in H2 by done. krun E2.
    assert (F : tx_frame k k2) by (by etrans).
    assert (C : forall b, content k2 b = content k b) by (intros b; by rewrite C2, C1).
    assert (Hu : forall b', 0 <= b' < b0 + BPB -> b' < sb_size (k_sb k) -> in_use k b' = true).
    { intros b' Hb' Hs'. destruct (decide (b' < b0)) as [Hbb|Hbb]; [apply Hbefore; lia|].
      change BPB with 4096 in Hb'. replace b' with (b0 + Z.of_nat (Z.to_nat (b' - b0))) by lia.
      rewrite (proj2 (Hbit (Z.to_nat (b' - b0)) ltac:(lia) ltac:(lia))). apply Hr; lia. }
    destruct (IH k2 (b0 + BPB) H2 (layout_frame _ _ F C Hl) (opened_frame _ _ _ F C Ho) (space_frame _ _ _ _ _ F Hsp))
      as [(b & k' & (Hb1 & Hb2 & Hb3) & E & A)|[Hall (k' & E)]].
    + unfold BPB, BSIZE. lia.
    + rewrite Z.add_mod, Hal by done. done.
    + rewrite (frame_sb _ _ F). change BPB with 4096 in *. lia.
    + intros b' Hb'. rewrite (frame_sb _ _ F), (in_use_frame _ _ _ F C). by apply Hu.
    + left. exists b, k'. rewrite (frame_sb _ _ F) in Hb1. rewrite (in_use_frame _ _ _ F C) in Hb2.
      split_and!; [|done|by eapply allocated_frame]. split_and!; [lia|lia|done|].
      intros b' Hb'. rewrite <-(in_use_frame _ _ _ F C). by apply Hb3.
    + right. rewrite (frame_sb _ _ F) in Hall. split; [|by exists k'].
      intros b Hb. rewrite <-(in_use_frame _ _ _ F C). by apply Hall.
Qed.

Lemma balloc_run k op bs n :
  txn k op bs -> layout k -> opened k op -> space k op bs (S (S n)) -> balloc_result k op bs (balloc 1 k).
Proof.
  intros Ht Hl Ho Hsp. unfold balloc, bind, gets. cbn [obind]. pose proof (la_size _ Hl) as [[? _] _].
  eapply balloc_from_run; [done..|lia|done| |].
  - change BPB with 4096. Z.to_euclidean_division_equations; lia.
  - intros b' Hb'. lia.
Qed.

(** C31.  balloc, inside a transaction with room for two blocks, returns the least block
    that the bitmap does not have in use, marks exactly this block, and zeroes it; no other
    block outside the bitmap changes, and the blocks that hold the bitmap, the log and the
    superblock are never given away.  When every block is in use it panics. *)
Theorem balloc_first_free k op bs :
  txn k op bs -> layout k -> opened k op -> space k op bs 2 ->
  (forall b, first_free k b -> exists k', balloc 1 k = Ok b k' /\ allocated k op bs b k') /\
  ((forall b, 0 <= b < sb_size (k_sb k) -> in_use k b = true) ->
   exists k', balloc 1 k = Panic "balloc: out of blocks" k').
Proof.
  intros Ht Hl Ho Hsp.
  destruct (balloc_run k op bs 0 Ht Hl Ho Hsp) as [(b & k' & (R1 & U1 & L1) & E & A)|[Hall (k' & E)]].
  - split.
    + intros b' (R2 & U2 & L2). assert (b' = b) as ->; [|by exists k'].
      destruct (Z.lt_trichotomy b b') as [Hlt|[Heq|Hlt]]; [|done|].
      * rewrite L2 in U1 by lia. done.
      * rewrite L1 in U2 by lia. done.
    + intros Hall. rewrite Hall in U1 by done. done.
  - split; [|by exists k']. intros b (R & U & _). rewrite Hall in U by done. done.
Qed.

(** ** bfree *)

(** The superblock on the disk is the one in memory. *)
Definition sb_read (k : kernel) : Prop := superblock_of (content k 1) = k_sb k.

Record deallocated (k : kernel) (op : gmap Z nat) (bs : list Z) (b : Z) (k' : kernel) : Prop := Deallocated {
  de_txn : txn k' op (absorb (BBLOCK b (k_sb k)) bs);
  de_frame : tx_frame k k';
  de_layout : layout k';
  de_use : forall b', 0 <= b' < sb_size (k_sb k) -> in_use k' b' = negb (bool_decide (b' = b)) && in_use k b';
  de_rest : forall b', ~ is_bitmap k b' -> content k' b' = content k b'
}.

Lemma readsb_run k op bs n :
  txn k op bs -> layout k -> op !! 1 = None -> space k op bs n -> sb_read k ->
  exists k', readsb 1 k = Ok (k_sb k) k' /\ txn k' op bs /\ tx_frame k k' /\ forall b, content k' b = content k b.
Proof.
  intros Ht Hl Hop Hsp Hsb. pose proof Hl as [[L1 L2] L3 L4 _ _ _].
  assert (0 <= (sb_size (k_sb k) - 1) / BPB) by (apply Z.div_pos; [lia|done]).
  destruct (txn_bread k op bs 1 Ht Hop ltac:(lia) (space_bread _ _ _ _ Hsp)) as (i & k1 & E1 & H1 & F1 & C1).
  destruct (txn_brelse k1 _ _ 1 i H1 (lookup_insert_eq _ _ _)) as (k2 & E2 & H2 & F2 & C2).
  rewrite delete_insert_id in H2 by done.
  exists k2. split_and!; [|done|by etrans|intros b; by rewrite C2, C1].
  unfold readsb. krun E1. krun (txn_data k1 _ _ 1 i H1 (lookup_insert_eq _ _ _)). krun E2.
  unfold ret. by rewrite C1, Hsb.
Qed.

Lemma set_sb_sb k : set_sb (k_sb k) k = k.
Proof. by destruct k. Qed.

Lemma bfree_run k op bs b n :
  txn k op bs -> layout k -> opened k op -> op !! 1 = None -> space k op bs (S n) -> sb_read k ->
  0 <= b < sb_size (k_sb k) ->
  if in_use k b then
    data_area k b -> exists k', bfree 1 b k = Ok tt k' /\ deallocated k op bs b k'
  else exists k', bfree 1 b k = Panic "freeing free block" k'.
Proof.
  intros Ht Hl Ho Hop1 Hsp Hsb Hb.
  destruct (readsb_run k op bs (S n) Ht Hl Hop1 Hsp Hsb) as (k1 & E1 & H1 & F1 & C1).
  destruct (BBLOCK_bitmap k b Hl Hb) as (Ebb & Hbm & Hrange & Hnl). set (bm := BBLOCK b (k_sb k)) in *.
  assert (Hop : op !! bm = None).
  { destruct (op !! bm) as [j|] eqn:E; [|done]. by destruct (Ho _ _ E). }
  destruct (txn_bread k1 op bs bm H1 Hop) as (i & k2 & E2 & H2 & F2 & C2);
    [by rewrite (tx_frame_disk _ _ F1)|by eapply space_bread|].
  set (bi := Z.to_nat (b `mod` BPB)).
  assert (Hbi : (bi / 8 < length (content k bm))%nat).
  { rewrite (length_txn_content k op bs) by done. apply Nat.Div0.div_lt_upper_bound.
    pose proof (Z.mod_pos_bound b BPB ltac:(done)). change BPB with 4096 in *. unfold bi. lia. }
  assert (Erun : bfree 1 b k = if in_use k b then (upd_data i (mark_free bi) ;;; log_write i ;;; brelse i) k2
                               else Panic "freeing free block" k2).
  { unfold bfree. krun E1. unfold bind at 1, modify at 1. cbn [obind].
    rewrite <-(frame_sb _ _ F1), set_sb_sb. rewrite (frame_sb _ _ F1). krun E2.
    krun (txn_data k2 _ _ bm i H2 (lookup_insert_eq _ _ _)). rewrite C2, C1. fold bi. rewrite bit_free_set by done.
    unfold bind at 1. cbn [of_option ret obind]. change (bit_set (content k bm) bi) with (in_use k b).
    destruct (in_use k b); reflexivity. }
  rewrite Erun. destruct (in_use k b) eqn:Eu; [|by eexists]. intros Hda.
  assert (F : tx_frame k k2) by (by etrans).
  destruct (txn_write k2 _ bs bm i (mark_free bi) H2) as (k3 & E3 & H3 & F3 & C3).
  { apply lookup_insert_eq. }
  { eapply space_room. by eapply space_frame. }
  { by rewrite (tx_frame_log_in k k2). }
  { unfold mark_free. rewrite length_alter, C2, C1. by eapply length_txn_content. }
  destruct (txn_brelse k3 _ _ bm i H3 (lookup_insert_eq _ _ _)) as (k4 & E4 & H4 & F4 & C4).
  rewrite delete_insert_id in H4 by done.
  assert (F14 : tx_frame k k4) by (do 2 (etrans; [eassumption|]); done).
  assert (Huse : forall b', 0 <= b' < sb_size (k_sb k) -> in_use k4 b' = negb (bool_decide (b' = b)) && in_use k b').
  { intros b' Hr'.
    rewrite (in_use_change k k4 b (mark_free bi) (fun j x => negb (bool_decide (j = bi)) && x) Hl Hb (frame_sb _ _ F14)); try done.
    - destruct (decide (b' = b)) as [->|Hne]; [by rewrite !bool_decide_true|by rewrite bool_decide_false].
    - intros b'' Hb''. rewrite C4, C3, !C2, !C1. fold bm. by destruct (decide (b'' = bm)) as [->|].
    - intros j. by apply bit_set_freed.
    - intros j x Hj. by rewrite bool_decide_false. }
  exists k4. split.
  - apply obind_inv_ok in E3 as (? & ? & E3 & E3'). krun E3. krun E3'. done.
  - split; try done.
    + apply (layout_change k); [done..|]. intros b' Hr' Hu. rewrite Huse in Hu by done.
      destruct (decide (b' = b)) as [->|Hne]; [by right|]. left. by rewrite bool_decide_false in Hu.
    + intros b' Hnb'. rewrite C4, C3, decide_False, C2, C1; [done|]. by intros ->.
Qed.

(** Allocation keeps the blocks that were open open, and the superblock. *)
Lemma allocated_opened k op bs b k' : layout k -> opened k op -> allocated k op bs b k' -> opened k' op.
Proof.
  intros Hl Ho [_ F _ Hu _ _] b' i Hb'. destruct (Ho b' i Hb') as [H1 H2].
  rewrite is_bitmap_frame by done. split; [done|]. rewrite (frame_sb _ _ F). intros Hr.
  rewrite Hu, H2 by done. apply orb_true_r.
Qed.

Lemma not_bitmap_1 k : layout k -> ~ is_bitmap k 1.
Proof. intros [_ H _ _ _ _]. unfold is_bitmap. lia. Qed.

Lemma allocated_sb k op bs b k' :
  layout k -> first_free k b -> sb_read k -> allocated k op bs b k' -> sb_read k'.
Proof.
  intros Hl (R & U & _) Hsb [_ F _ _ _ Hc]. unfold sb_read. rewrite (frame_sb _ _ F), Hc; [done| |by apply not_bitmap_1].
  destruct (la_meta _ Hl b R U) as (_ & _ & ? & _). lia.
Qed.

(** C32.  bfree undoes balloc: freeing the block balloc returned restores the set of blocks
    in use, keeps the layout, and changes no other block outside the bitmap; freeing it a
    second time panics. *)
Theorem bfree_inverts_balloc k op bs b :
  txn k op bs -> layout k -> opened k op -> op !! 1 = None -> space k op bs 4 -> sb_read k -> first_free k b ->
  exists k1 k2 k3, balloc 1 k = Ok b k1 /\ bfree 1 b k1 = Ok tt k2 /\
    (forall b', 0 <= b' < sb_size (k_sb k) -> in_use k2 b' = in_use k b') /\ layout k2 /\
    (forall b', b' <> b -> ~ is_bitmap k b' -> content k2 b' = content k b') /\
    bfree 1 b k2 = Panic "freeing free block" k3.
Proof.
  intros Ht Hl Ho Hop1 Hsp Hsb Hff. pose proof Hff as (R & U & L).
  destruct (balloc_run k op bs 2 Ht Hl Ho Hsp) as [(b1 & k1 & (R1 & U1 & L1) & E1 & A)|[Hall _]].
  2: { rewrite Hall in U by done. done. }
  assert (b1 = b) as ->.
  { destruct (Z.lt_trichotomy b b1) as [Hlt|[Heq|Hlt]]; [rewrite L1 in U by lia|done|rewrite L in U1 by lia]; done. }
  pose proof A as [A1 A2 A3 A4 A5 A6]. pose proof (la_meta _ Hl b R U) as M.
  assert (Hb1 : 0 <= b < sb_size (k_sb k1)) by (by rewrite (frame_sb _ _ A2)).
  pose proof (bfree_run k1 op _ b 1 A1 A3 (allocated_opened _ _ _ _ _ Hl Ho A) Hop1) as Hbf.
  rewrite A4, bool_decide_true in Hbf by done. destruct Hbf as (k2 & E2 & [D1 D2 D3 D4 D5]); try done.
  { apply space_absorb, space_absorb. by eapply space_frame. }
  { exact (allocated_sb _ _ _ _ _ Hl Hff Hsb A). }
  { by rewrite data_area_frame. }
  assert (F2 : tx_frame k k2) by (by etrans).
  assert (Huse : forall b', 0 <= b' < sb_size (k_sb k) -> in_use k2 b' = in_use k b').
  { intros b' Hb'. rewrite D4 by (by rewrite (frame_sb _ _ A2)). rewrite A4 by done.
    destruct (decide (b' = b)) as [->|Hne]; [by rewrite bool_decide_true, U by done|by rewrite bool_decide_false by done]. }
  assert (Hct : forall b', b' <> b -> ~ is_bitmap k b' -> content k2 b' = content k b').
  { intros b' Hne Hnb. rewrite D5 by (by rewrite is_bitmap_frame). by apply A6. }
  pose proof (bfree_run k2 op _ b 0 D1 D3) as Hbf. rewrite Huse, U in Hbf by done. destruct Hbf as (k3 & E3); try done.
  - intros b' i Hb'. rewrite is_bitmap_frame by exact F2. destruct (Ho b' i Hb') as [O1 O2]. split; [done|].
    rewrite (frame_sb _ _ F2). intros Hr. rewrite Huse by done. by apply O2.
  - apply space_absorb. eapply space_frame; [exact D2|]. apply space_absorb, space_absorb. by eapply space_frame.
  - unfold sb_read. rewrite (frame_sb _ _ F2), Hct; [done| |by apply not_bitmap_1].
    destruct M as (_ & _ & ? & _). lia.
  - by rewrite (frame_sb _ _ F2).
  - by exists k1, k2, k3.
Qed.

End Alloc.

(** ** A file system image *)

(** The superblock mkfs writes. *)
Definition sb0 : superblock := Superblock 1000 941 200 30 2 32 58.
Definition sb_block : list Z :=
  put32 (put32 (put32 (put32 (put32 (put32 (put32 ZERO_BLOCK 0 1000) 4 941) 8 200) 12 30) 16 2) 20 32) 24 58.

(** Blocks 0 to 59 in use. *)
Definition bitmap_block (n : nat) : list Z := (fun i => if decide (i < n)%nat then 255 else 0) <$> upto 512.

(** A transaction that has written the blocks [ws]. *)
Definition image_ok (ws : list (Z * list Z)) : Prop :=
  Forall (fun w => (w.1 = 1 \/ 32 <= w.1 < 1000) /\ length w.2 = 512%nat) ws /\ (length ws <= 20)%nat.

Definition image_base : kernel := set_sb sb0 in_trans.

Lemma txn_set_sb k op bs sb : txn k op bs -> txn (set_sb sb k) op bs.
Proof.
  intros [(mru & held & Hk & Hh) Hr ? ? ? ? ?]. split; try done.
  - exists mru, held. split; [|done]. destruct Hk as [? ? ? ? ? ? ? ?]. by split.
  - by eapply ready_env.
Qed.

Lemma image_start k :
  txn k ∅ [] -> k_log k = log_open -> k_disk k = Disk ∅ FSSIZE true None [] ->
  txn (set_sb sb0 k) ∅ [] /\ k_sb (set_sb sb0 k) = sb0 /\ k_log (set_sb sb0 k) = log_open /\
  k_disk (set_sb sb0 k) = Disk ∅ FSSIZE true None [] /\ forall b, content (set_sb sb0 k) b = ZERO_BLOCK.
Proof.
  intros T L D. pose proof (txn_set_sb _ _ _ sb0 T) as T'. split_and!; [done..|]. intros b.
  rewrite (tx_saved _ _ _ T' b) by apply not_elem_of_nil.
  change (k_disk (set_sb sb0 k)) with (k_disk k). rewrite D. reflexivity.
Qed.

Lemma image_base_facts :
  txn image_base ∅ [] /\ k_sb image_base = sb0 /\ k_log image_base = log_open /\
  k_disk image_base = Disk ∅ FSSIZE true None [] /\ forall b, content image_base b = ZERO_BLOCK.
Proof. exact (image_start in_trans in_trans_txn (set_log_log log_open cache_up) in_trans_disk). Qed.

(** What a list of writes leaves in a block. *)
Definition written (ws : list (Z * list Z)) (b : Z) : list Z :=
  foldl (fun d w => if decide (w.1 = b) then w.2 else d) ZERO_BLOCK ws.

Lemma image_build ws :
  image_ok ws ->
  exists k bs, txn k ∅ bs /\ (length bs <= length ws)%nat /\ tx_frame image_base k /\
    forall b, content k b = written ws b.
Proof.
  destruct image_base_facts as (T0 & S0 & L0 & D0 & C0). generalize dependent image_base. intros base T0 S0 L0 D0 C0.
  induction ws as [|[b d] ws IH] using rev_ind; intros [Hws Hlen].
  { exists base, []. by split_and!. }
  apply Forall_app in Hws as [Hws Hw]. apply Forall_singleton in Hw as [Hb Hd]. cbn in Hb, Hd.
  rewrite length_app in Hlen. cbn in Hlen.
  destruct IH as (k & bs & T & Hl & F & C); [by split; [|lia]|].
  destruct (put_block_run (patience_bound := 2%nat) (driver := Memide.memide) k ∅ bs b d T) as (k' & E & T' & F' & C').
  { apply lookup_empty. }
  { rewrite (tx_frame_disk _ _ F), D0. cbn. unfold FSSIZE. lia. }
  { rewrite (tx_frame_log_in _ _ _ F), L0. unfold in_log. cbn. lia. }
  { rewrite map_size_empty. unfold NBUF. lia. }
  { unfold log_room. rewrite (tf_log _ _ F), L0. cbn. lia. }
  { done. }
  exists k', (absorb b bs). split_and!; [done| |by etrans|].
  - pose proof (length_absorb b bs). rewrite length_app. cbn. lia.
  - intros b'. rewrite C', C. unfold written. rewrite foldl_app. cbn.
    destruct (decide (b' = b)) as [->|Hne]; [by rewrite decide_True|by rewrite decide_False].
Qed.

(** The images below have the superblock and a bitmap with at least the blocks of the file
    system itself in use. *)
Lemma image_layout ws k (n : nat) :
  tx_frame image_base k -> (forall b, content k b = written ws b) ->
  written ws 58 = bitmap_block n -> (8 <= n <= 125)%nat ->
  layout k /\ k_sb k = sb0 /\ k_log k = set_lh (lg_n (k_log k)) (lg_block (k_log k)) log_open /\
  disksize (k_disk k) = 1000 /\
  forall b, 0 <= b < 1000 -> in_use k b = bool_decide (b < 8 * Z.of_nat n).
Proof.
  destruct image_base_facts as (_ & S0 & L0 & D0 & _). generalize dependent image_base. intros base S0 L0 D0 F C Hbm Hn.
  assert (Es : k_sb k = sb0) by (by rewrite (frame_sb _ _ F)).
  assert (El : k_log k = set_lh (lg_n (k_log k)) (lg_block (k_log k)) log_open) by (rewrite (tf_log _ _ F) at 1; by rewrite L0).
  assert (Ed : disksize (k_disk k) = 1000) by (by rewrite (tx_frame_disk _ _ F), D0).
  assert (Hu : forall b, 0 <= b < 1000 -> in_use k b = bool_decide (b < 8 * Z.of_nat n)).
  { intros b Hb. unfold in_use. rewrite Es. assert (BBLOCK b sb0 = 58) as ->.
    { unfold BBLOCK. cbn. change BPB with 4096. rewrite Z.div_small by lia. done. }
    rewrite C, Hbm. change BPB with 4096. rewrite Z.mod_small by lia. unfold bit_set, bitmap_block.
    rewrite list_lookup_fmap. unfold upto. rewrite lookup_seq_lt by (apply Nat.Div0.div_lt_upper_bound; lia). cbn [fmap option_fmap option_map].
    rewrite Z2Nat.id by lia. cbn [Nat.add default from_option id].
    pose proof (Z.mod_pos_bound b 8 ltac:(lia)).
    case_bool_decide as Hlt.
    - rewrite decide_True by (apply Nat.Div0.div_lt_upper_bound; lia).
      change 255 with (Z.ones 8). apply Z.ones_spec_low. lia.
    - rewrite decide_False; [by rewrite Z.bits_0|]. intros Hc.
      assert (Z.to_nat b < 8 * n)%nat; [|lia].
      pose proof (Nat.div_mod_eq (Z.to_nat b) 8). pose proof (Nat.mod_upper_bound (Z.to_nat b) 8 ltac:(lia)). lia. }
  split_and!; try done. split; rewrite ?Es, ?Ed; cbn; try lia.
  - done.
  - unfold is_bitmap. rewrite Es, El. unfold in_log. cbn. change ((1000 - 1) / BPB) with 0. lia.
  - unfold is_bitmap, is_inodes. rewrite Es, El. unfold in_log. cbn.
    change ((1000 - 1) / BPB) with 0. change ((200 - 1) / IPB) with 24. lia.
  - intros b Hb Hub. rewrite Hu in Hub by lia. apply bool_decide_eq_false in Hub.
    unfold data_area, is_bitmap, is_inodes, in_log. rewrite Es, El. cbn.
    change ((1000 - 1) / BPB) with 0. change ((200 - 1) / IPB) with 24. lia.
Qed.

(** Sixty-four blocks in use: block 64 is the first free one. *)
Definition small_image : list (Z * list Z) := [(1, sb_block); (58, bitmap_block 8)].

Lemma small_image_built :
  exists k bs, txn k ∅ bs /\ layout k /\ sb_read k /\ space k ∅ bs 20 /\ k_sb k = sb0 /\ first_free k 64.
Proof.
  destruct (image_build small_image) as (k & bs & T & Hl & F & C).
  { split; [repeat constructor; cbn; lia|cbn; lia]. }
  destruct (image_layout small_image k 8 F C) as (HL & Es & El & _ & Hu); [reflexivity|lia|].
  exists k, bs. split_and!; try done.
  - unfold sb_read. rewrite C, Es. vm_compute. reflexivity.
  - unfold space. cbn in Hl. rewrite El, map_size_empty. unfold NBUF. cbn. lia.
  - unfold first_free. rewrite Es. cbn [sb0 sb_size]. rewrite Hu by lia. split_and!; [lia|lia|done|].
    intros b Hb. rewrite Hu by lia. by apply bool_decide_eq_true, (proj2 Hb).
Qed.

Lemma balloc_first_free_witness :
  exists k k', first_free k 64 /\ balloc (patience_bound := 2%nat) (driver := Memide.memide) 1 k = Ok 64 k' /\
    content k' 64 = ZERO_BLOCK.
Proof.
  destruct small_image_built as (k & bs & T & HL & _ & Hsp & _ & Hff).
  destruct (balloc_first_free (patience_bound := 2%nat) (driver := Memide.memide) k ∅ bs T HL) as [H _].
  - intros b i Hb. by rewrite lookup_empty in Hb.
  - exact (space_le _ _ _ 20 2 ltac:(lia) Hsp).
  - destruct (H 64 Hff) as (k' & E & [_ _ _ _ Hz _]). exists k, k'. split_and!; [exact Hff|exact E|exact Hz].
Defined.

Lemma bfree_inverts_balloc_witness :
  exists k k1 k2, balloc (patience_bound := 2%nat) (driver := Memide.memide) 1 k = Ok 64 k1 /\
    bfree (patience_bound := 2%nat) (driver := Memide.memide) 1 64 k1 = Ok tt k2 /\ in_use k2 64 = false.
Proof.
  destruct small_image_built as (k & bs & T & HL & Hsb & Hsp & Es & Hff).
  destruct (bfree_inverts_balloc (patience_bound := 2%nat) (driver := Memide.memide) k ∅ bs 64 T HL)
    as (k1 & k2 & k3 & E1 & E2 & Hu & _).
  - intros b i Hb. by rewrite lookup_empty in Hb.
  - apply lookup_empty.
  - exact (space_le _ _ _ 20 4 ltac:(lia) Hsp).
  - exact Hsb.
  - exact Hff.
  - exists k, k1, k2. split_and!; [exact E1|exact E2|]. rewrite Hu by (rewrite Es; cbn; lia). apply Hff.
Defined.
