(* ===== verification/FileMap.v ===== *)
(** * The blocks of a file: bmap of src/fs.c

    The block numbers of a file are in the inode and in its indirect block.  bmap looks a
    block up, and allocates it, and the indirect block, when they are missing. *)

From S2P Require Import Prelude Mem State Spinlock Sched Sleeplock Bio Bcache Block Log Recovery Txn LogOps Inode Bitmap.

(** ** Changes of the inode cache *)

Lemma txn_set_inodes k op bs l : txn k op bs -> txn (set_inodes l k) op bs.
Proof.
  intros [(mru & held & Hk & Hh) Hr ? ? ? ? ?]. split; try done.
  - exists mru, held. split; [|done]. destruct Hk as [? ? ? ? ? ? ? ?]. by split.
  - by eapply ready_env.
Qed.

Lemma layout_set_inodes k l : layout k -> layout (set_inodes l k).
Proof. intros [? ? ? ? ? ?]. by split. Qed.

(** What a call on the inode [i] leaves of the rest. *)
Definition fs_frame (i : nat) (k k' : kernel) : Prop :=
  tx_frame (set_inodes (k_inodes k') k) k' /\ forall j, j <> i -> k_inodes k' !! j = k_inodes k !! j.

#[export] Instance fs_frame_refl i : Reflexive (fs_frame i).
Proof. intros k. split; [|done]. replace (set_inodes _ _) with k by (by destruct k). reflexivity. Qed.

Lemma tx_set_inodes l k k' : tx_frame k k' -> tx_frame (set_inodes l k) (set_inodes l k').
Proof. intros [E A S L]. split; try done. rewrite E at 1. done. Qed.

Lemma tx_frame_inodes k k' : tx_frame k k' -> k_inodes k' = k_inodes k.
Proof. intros F. by rewrite (tf_rest _ _ F). Qed.

#[export] Instance fs_frame_trans i : Transitive (fs_frame i).
Proof.
  intros k1 k2 k3 [F1 H1] [F2 H2]. split.
  - apply (tx_set_inodes (k_inodes k3)) in F1. by etrans.
  - intros j Hj. by rewrite H2, H1.
Qed.

Lemma fs_frame_tx i k k' : tx_frame k k' -> fs_frame i k k'.
Proof.
  intros F. split; [|by rewrite (tx_frame_inodes _ _ F)].
  rewrite (tx_frame_inodes _ _ F). replace (set_inodes _ _) with k by (by destruct k). done.
Qed.

Lemma fs_frame_sb i k k' : fs_frame i k k' -> k_sb k' = k_sb k.
Proof. intros [F _]. by rewrite (frame_sb _ _ F). Qed.

Lemma fs_frame_disk i k k' : fs_frame i k k' -> k_disk k' = k_disk k.
Proof. intros [F _]. by rewrite (tx_frame_disk _ _ F). Qed.

Lemma fs_frame_log_in i k k' b : fs_frame i k k' -> in_log (k_log k') b <-> in_log (k_log k) b.
Proof. intros [F _]. by rewrite (tx_frame_log_in _ _ _ F). Qed.

Lemma fs_frame_bitmap i k k' b : fs_frame i k k' -> is_bitmap k' b <-> is_bitmap k b.
Proof. intros F. unfold is_bitmap. by rewrite (fs_frame_sb _ _ _ F). Qed.

Lemma fs_frame_data i k k' b : fs_frame i k k' -> data_area k' b <-> data_area k b.
Proof.
  intros F. unfold data_area, is_inodes. by rewrite (fs_frame_bitmap i k k'), (fs_frame_log_in i k k'), (fs_frame_sb _ _ _ F).
Qed.

Lemma fs_frame_space i k k' op bs n : fs_frame i k k' -> space k op bs n -> space k' op bs n.
Proof. intros [F _]. unfold space. by rewrite (tf_log _ _ F). Qed.

Lemma fs_frame_set i ip k : fs_frame i k (set_inodes (<[i := ip]> (k_inodes k)) k).
Proof.
  split; cbn [k_inodes set_inodes]; [reflexivity|]. intros j Hj. by rewrite list_lookup_insert_ne.
Qed.

(** ** Blocks that may be logged *)

Definition within (bs L : list Z) : Prop := forall b, b ∈ bs -> b ∈ L.

Lemma within_space k op bs L n : NoDup bs -> within bs L -> space k op L n -> space k op bs n.
Proof.
  intros Hn Hw. assert (length bs <= length L)%nat; [|unfold space; lia].
  apply submseteq_length, NoDup_submseteq; [done|]. exact Hw.
Qed.

Lemma within_absorb b bs L : within bs L -> b ∈ L -> within (absorb b bs) L.
Proof. intros Hw Hb x. rewrite elem_of_absorb. intros [->|Hx]; [done|by apply Hw]. Qed.

Lemma within_cons b bs L : within bs L -> within bs (b :: L).
Proof. intros Hw x Hx. apply elem_of_cons. right. by apply Hw. Qed.

(** ** Free blocks *)

Lemma NoDup_prefix {A} n (l : list A) : NoDup l -> NoDup (take n l).
Proof. rewrite <-(take_drop n l) at 1. by intros [? _]%NoDup_app. Qed.

(** At least [n] blocks are free. *)
Definition avail (k : kernel) (n : nat) : Prop :=
  exists fl, NoDup fl /\ length fl = n /\ forall b, b ∈ fl -> 0 <= b < sb_size (k_sb k) /\ in_use k b = false.

Lemma avail_le k n m : (m <= n)%nat -> avail k n -> avail k m.
Proof.
  intros Hm (fl & Hn & Hl & Hf). exists (take m fl). split_and!.
  - by apply NoDup_prefix.
  - rewrite length_take. lia.
  - intros b Hb. apply Hf. rewrite <-(take_drop m fl). set_solver.
Qed.

Lemma avail_remove k k' n b :
  k_sb k' = k_sb k -> (forall b', 0 <= b' < sb_size (k_sb k) -> b' <> b -> in_use k' b' = in_use k b') ->
  avail k (S n) -> avail k' n.
Proof.
  intros Es Hu (fl & Hn & Hl & Hf). destruct (decide (b ∈ fl)) as [Hin|Hni].
  - apply list_elem_of_split in Hin as (l1 & l2 & ->). exists (l1 ++ l2).
    rewrite length_app in Hl. cbn in Hl. apply NoDup_app in Hn as (N1 & N2 & N3). apply NoDup_cons in N3 as [N3 N4].
    split_and!.
    + apply NoDup_app. split_and!; [done| |done]. intros x Hx Hx2. apply (N2 x Hx). set_solver.
    + rewrite length_app. lia.
    + intros x Hx. assert (x <> b) as Hne.
      { intros ->. apply elem_of_app in Hx as [Hx|Hx]; [|done]. apply (N2 b Hx). set_solver. }
      destruct (Hf x) as [R U]; [set_solver|]. rewrite Es, Hu by done. done.
  - exists (take n fl). split_and!.
    + by apply NoDup_prefix.
    + rewrite length_take. lia.
    + intros x Hx. assert (x ∈ fl) as Hxf by (rewrite <-(take_drop n fl); set_solver).
      destruct (Hf x Hxf) as [R U]. rewrite Es, Hu; [done|done|]. by intros ->.
Qed.

Lemma avail_frame k k' n :
  k_sb k' = k_sb k -> (forall b, 0 <= b < sb_size (k_sb k) -> in_use k' b = in_use k b) -> avail k n -> avail k' n.
Proof.
  intros Es Hu (fl & N1 & N2 & N3). exists fl. split_and!; [done..|]. intros b Hb. destruct (N3 b Hb).
  by rewrite Es, Hu.
Qed.

(** The bitmap tells which blocks are in use. *)
Lemma in_use_bitmap k k' b :
  layout k -> k_sb k' = k_sb k -> (forall b, is_bitmap k b -> content k' b = content k b) ->
  0 <= b < sb_size (k_sb k) -> in_use k' b = in_use k b.
Proof. intros Hl Es Hc Hb. unfold in_use. rewrite Es, Hc; [done|]. by apply BBLOCK_bitmap. Qed.

(** ** The block map *)

Definition with_addrs (a : list Z) (ip : inode) : inode := with_di (with_iaddrs a (i_d ip)) ip.

(** A block of a file. *)
Definition file_block (k : kernel) (b : Z) : Prop :=
  0 <= b < sb_size (k_sb k) /\ in_use k b = true /\ data_area k b.

(** The file of the inode [i] has the blocks [m] and the indirect block [ind]. *)
Record maps (k : kernel) (i : nat) (ip : inode) (m : gmap Z Z) (ind : option Z) : Prop := Maps {
  mp_inode : k_inodes k !! i = Some ip;
  mp_dev : i_dev ip = 1;
  mp_len : length (di_addrs (i_d ip)) = 13%nat;
  mp_direct : forall bn, 0 <= bn < 12 -> di_addrs (i_d ip) !! Z.to_nat bn = Some (default 0 (m !! bn));
  mp_ind : di_addrs (i_d ip) !! 12%nat = Some (default 0 ind);
  mp_entries : forall bn, 12 <= bn < 140 ->
    match ind with
    | Some x => get32 (content k x) (Z.to_nat (4 * (bn - 12))) = default 0 (m !! bn)
    | None => m !! bn = None
    end;
  mp_dom : forall bn b, m !! bn = Some b -> 0 <= bn < 140;
  mp_blocks : forall bn b, m !! bn = Some b -> file_block k b;
  mp_indb : forall x, ind = Some x -> file_block k x;
  mp_inj : forall bn bn' b, m !! bn = Some b -> m !! bn' = Some b -> bn = bn';
  mp_disj : forall bn x, ind = Some x -> m !! bn <> Some x
}.

Lemma file_block_nz k b : file_block k b -> b <> 0.
Proof. intros (_ & _ & (_ & _ & ? & _)). lia. Qed.

Section Bmap.
  Context {patience_bound : Patience} {driver : DiskDriver} {driver_ok : DiskOk driver}.

(** [L] has every block that may be logged while the map of a file changes. *)
Definition covers (k : kernel) (ind : option Z) (L : list Z) : Prop :=
  (forall b, is_bitmap k b -> b ∈ L) /\ (forall x, ind = Some x -> x ∈ L).

(** A free block is taken. *)
Lemma take_block k op bs L n :
  txn k op bs -> layout k -> opened k op -> within bs L -> (forall b, is_bitmap k b -> b ∈ L) ->
  space k op L 2 -> avail k (S n) ->
  exists b k', balloc 1 k = Ok b k' /\ allocated k op bs b k' /\ in_use k b = false /\ file_block k' b /\
    within (absorb b (absorb (BBLOCK b (k_sb k)) bs)) (b :: L) /\ avail k' n.
Proof.
  intros Ht Hl Ho Hw Hc Hsp Ha.
  destruct (balloc_run k op bs 0 Ht Hl Ho (within_space _ _ _ _ _ (tx_nodup _ _ _ Ht) Hw Hsp))
    as [(b & k' & (R & U & _) & E & A)|[Hall _]].
  2: { destruct Ha as ([|b fl] & _ & Hl' & Hf); [done|]. destruct (Hf b) as [R U]; [set_solver|]. by rewrite Hall in U. }
  exists b, k'. pose proof A as [A1 A2 A3 A4 A5 A6]. split_and!; try done.
  - unfold file_block. rewrite (frame_sb _ _ A2), data_area_frame, A4 by done.
    split_and!; [lia|lia|by rewrite bool_decide_true|by apply la_meta].
  - apply within_absorb; [|set_solver]. apply within_absorb; [by apply within_cons|]. apply elem_of_cons. right.
    by apply Hc, BBLOCK_bitmap.
  - apply (avail_remove k _ _ b (frame_sb _ _ A2)); [|done]. intros b' Hb' Hne. rewrite A4 by done.
    by rewrite bool_decide_false.
Qed.

(** The addresses in the inode change. *)
Lemma set_addr_run k i ip j addr :
  k_inodes k !! i = Some ip -> (j < length (di_addrs (i_d ip)))%nat ->
  set_addr i j addr k = Ok tt (set_inodes (<[i := with_addrs (<[j := addr]> (di_addrs (i_d ip))) ip]> (k_inodes k)) k).
Proof.
  intros Hi Hj. unfold set_addr, get_inode. krun (read_at_ok k_inodes i k ip Hi).
  rewrite aput_Some by done. unfold bind. cbn [of_option ret obind]. unfold upd_di, upd_inode.
  by rewrite (upd_at_ok k_inodes set_inodes i _ k ip Hi).
Qed.

(** bmap has returned the block [b] for [bn]. *)
Record bmapped (k : kernel) (op : gmap Z nat) (i : nat) (ip : inode) (m : gmap Z Z) (ind : option Z)
    (bn b : Z) (k' : kernel) (bs' : list Z) (ip' : inode) (m' : gmap Z Z) (ind' : option Z) : Prop := Bmapped {
  bm_txn : txn k' op bs';
  bm_frame : fs_frame i k k';
  bm_layout : layout k';
  bm_maps : maps k' i ip' m' ind';
  bm_at : m' !! bn = Some b;
  bm_same : forall bn', bn' <> bn -> m' !! bn' = m !! bn';
  bm_old : m !! bn = None \/ m !! bn = Some b;
  bm_fresh : m !! bn = None -> in_use k b = false /\ content k' b = ZERO_BLOCK;
  bm_use : forall b', 0 <= b' < sb_size (k_sb k) -> in_use k b' = true -> in_use k' b' = true;
  bm_rest : forall b', (0 <= b' < sb_size (k_sb k) -> in_use k b' = true) -> ~ is_bitmap k b' -> ind <> Some b' ->
    content k' b' = content k b';
  bm_ip : ip' = with_addrs (di_addrs (i_d ip')) ip;
  bm_keep : m !! bn = Some b -> ip' = ip;
  bm_ind : ind' = ind \/ ind = None /\ exists x, ind' = Some x /\ in_use k x = false
}.

Lemma with_addrs_id ip : with_addrs (di_addrs (i_d ip)) ip = ip.
Proof. by destruct ip as [? ? ? ? []]. Qed.

(** A block that is there is found. *)
Lemma bmap_found_direct k op bs i ip m ind bn b :
  txn k op bs -> layout k -> maps k i ip m ind -> 0 <= bn < 12 -> m !! bn = Some b ->
  bmap i bn k = Ok b k /\ bmapped k op i ip m ind bn b k bs ip m ind.
Proof.
  intros Ht Hl Hm Hbn Hb. split.
  - unfold bmap, get_inode. krun (read_at_ok k_inodes i k ip (mp_inode _ _ _ _ _ Hm)).
    rewrite (proj2 (Z.ltb_lt bn NDIRECT)) by (unfold NDIRECT; lia). rewrite (mp_direct _ _ _ _ _ Hm bn Hbn), Hb.
    unfold bind. cbn [of_option ret obind default from_option id].
    by rewrite (proj2 (Z.eqb_neq b 0)) by (by eapply file_block_nz, (mp_blocks _ _ _ _ _ Hm)).
  - split; try done; [by right|congruence|by rewrite with_addrs_id|by left].
Qed.

(** ** The map and the changes around it *)

Lemma allocated_file_block k op bs b k' x : allocated k op bs b k' -> file_block k x -> file_block k' x.
Proof.
  intros [_ F _ Hu _ _] (R & U & D). unfold file_block. rewrite (frame_sb _ _ F), data_area_frame, Hu, U, orb_true_r by done.
  done.
Qed.

Lemma maps_frame k k' i ip m ind :
  maps k i ip m ind -> k_inodes k' !! i = Some ip -> (forall b, file_block k b -> file_block k' b) ->
  (forall x, ind = Some x -> content k' x = content k x) -> maps k' i ip m ind.
Proof.
  intros [? ? ? ? ? He ? ? ? ? ?] Hi Hf Hc. split; try done; [|by eauto..].
  intros bn Hbn. specialize (He bn Hbn). destruct ind as [x|]; [|done]. by rewrite Hc.
Qed.

Lemma file_block_frame k k' b :
  tx_frame k k' -> (forall b, content k' b = content k b) -> file_block k' b <-> file_block k b.
Proof.
  intros F C. unfold file_block. by rewrite (frame_sb _ _ F), data_area_frame, (in_use_frame k k').
Qed.

Lemma maps_tx k k' i ip m ind :
  tx_frame k k' -> (forall b, content k' b = content k b) -> maps k i ip m ind -> maps k' i ip m ind.
Proof.
  intros F C Hm. eapply maps_frame; [exact Hm| |intros b; by apply file_block_frame|by intros].
  rewrite (tx_frame_inodes _ _ F). apply Hm.
Qed.

(** A block that was free is no block of the file. *)
Lemma maps_fresh k i ip m ind b :
  maps k i ip m ind -> in_use k b = false -> (forall bn, m !! bn <> Some b) /\ ind <> Some b.
Proof.
  intros Hm U. split.
  - intros bn Hb. destruct (mp_blocks _ _ _ _ _ Hm bn b Hb) as (_ & U' & _). congruence.
  - intros Hb. destruct (mp_indb _ _ _ _ _ Hm b Hb) as (_ & U' & _). congruence.
Qed.

Lemma maps_allocated k op bs b k' i ip m ind :
  maps k i ip m ind -> in_use k b = false -> allocated k op bs b k' -> maps k' i ip m ind.
Proof.
  intros Hm U A. pose proof A as [_ F _ _ _ Hc]. eapply maps_frame; [exact Hm| | |].
  - rewrite (tx_frame_inodes _ _ F). apply Hm.
  - intros x. by eapply allocated_file_block.
  - intros x Hx. destruct (mp_indb _ _ _ _ _ Hm x Hx) as (_ & U' & (Nb & _)). apply Hc; [congruence|done].
Qed.

(** A direct block is entered in the inode. *)
Lemma maps_direct k i ip m ind bn b :
  maps k i ip m ind -> 0 <= bn < 12 -> file_block k b -> (forall bn, m !! bn <> Some b) -> ind <> Some b ->
  let ip' := with_addrs (<[Z.to_nat bn := b]> (di_addrs (i_d ip))) ip in
  maps (set_inodes (<[i := ip']> (k_inodes k)) k) i ip' (<[bn := b]> m) ind.
Proof.
  intros [H1 H2 H3 H4 H5 H6 H7 H8 H9 H10 H11] Hbn Hb Hf Hi ip'.
  split; cbn [ip' with_addrs with_di i_d i_dev di_addrs with_iaddrs k_inodes set_inodes].
  - apply list_lookup_insert_eq. by eapply lookup_lt_Some.
  - done.
  - by rewrite length_insert.
  - intros bn' Hbn'. destruct (decide (bn' = bn)) as [->|Hne].
    + rewrite lookup_insert_eq, list_lookup_insert_eq by lia. done.
    + rewrite lookup_insert_ne, list_lookup_insert_ne by lia. by apply H4.
  - rewrite list_lookup_insert_ne by lia. done.
  - intros bn' Hbn'. specialize (H6 bn' Hbn'). destruct ind; rewrite lookup_insert_ne by lia; done.
  - intros bn' b' Hb'. apply lookup_insert_Some in Hb' as [[<- _]|[_ Hb']]; [lia|by eapply H7].
  - intros bn' b' Hb'. apply lookup_insert_Some in Hb' as [[_ <-]|[_ Hb']]; [done|by eapply H8].
  - done.
  - intros bn1 bn2 b' Hb1 Hb2. apply lookup_insert_Some in Hb1 as [[<- <-]|[Hn1 Hb1]], Hb2 as [[<- E]|[Hn2 Hb2]];
      try done; [by apply Hf in Hb2|subst; by apply Hf in Hb1|by eapply H10].
  - intros bn' x Hx Hb'. apply lookup_insert_Some in Hb' as [[_ <-]|[_ Hb']]; [done|by eapply H11].
Qed.

(** The indirect block is entered in the inode. *)
Lemma maps_indirect k i ip m x :
  maps k i ip m None -> file_block k x -> (forall bn, m !! bn <> Some x) -> content k x = ZERO_BLOCK ->
  let ip' := with_addrs (<[12%nat := x]> (di_addrs (i_d ip))) ip in
  maps (set_inodes (<[i := ip']> (k_inodes k)) k) i ip' m (Some x).
Proof.
  intros [H1 H2 H3 H4 H5 H6 H7 H8 H9 H10 H11] Hx Hf Hz ip'.
  split; cbn [ip' with_addrs with_di i_d i_dev di_addrs with_iaddrs k_inodes set_inodes].
  - apply list_lookup_insert_eq. by eapply lookup_lt_Some.
  - done.
  - by rewrite length_insert.
  - intros bn' Hbn'. rewrite list_lookup_insert_ne by lia. by apply H4.
  - rewrite list_lookup_insert_eq by lia. done.
  - intros bn' Hbn'. change (content (set_inodes _ k) x) with (content k x). rewrite (H6 bn' Hbn'), Hz. cbn.
    unfold get32, slice, ZERO_BLOCK. rewrite drop_replicate, take_replicate. replace (4 `min` _)%nat with 4%nat by lia. done.
  - done.
  - done.
  - by intros x' [= <-].
  - done.
  - by intros bn' x' [= <-].
Qed.

(** A block is entered in the indirect block. *)
Lemma maps_entry k k' i ip m x bn b :
  maps k i ip m (Some x) -> 12 <= bn < 140 -> k_inodes k' !! i = Some ip ->
  (forall b, file_block k b -> file_block k' b) -> length (content k x) = 512%nat ->
  content k' x = put32 (content k x) (Z.to_nat (4 * (bn - 12))) b -> in_u32 b ->
  file_block k' b -> (forall bn, m !! bn <> Some b) -> x <> b ->
  maps k' i ip (<[bn := b]> m) (Some x).
Proof.
  intros [H1 H2 H3 H4 H5 H6 H7 H8 H9 H10 H11] Hbn Hi Hfb Hlen Hc Hb32 Hb Hf Hx.
  split; try done.
  - intros bn' Hbn'. rewrite lookup_insert_ne by lia. by apply H4.
  - intros bn' Hbn'. rewrite Hc. destruct (decide (bn' = bn)) as [->|Hne].
    + rewrite lookup_insert_eq, get32_put32 by lia. by rewrite u32_small.
    + rewrite lookup_insert_ne, get32_put32_ne by lia. by apply H6.
  - intros bn' b' Hb'. apply lookup_insert_Some in Hb' as [[<- _]|[_ Hb']]; [lia|by eapply H7].
  - intros bn' b' Hb'. apply lookup_insert_Some in Hb' as [[_ <-]|[_ Hb']]; [done|by eapply Hfb, H8].
  - intros x' Hx'. by apply Hfb, H9.
  - intros bn1 bn2 b' Hb1 Hb2. apply lookup_insert_Some in Hb1 as [[<- <-]|[Hn1 Hb1]], Hb2 as [[<- E]|[Hn2 Hb2]];
      try done; [by apply Hf in Hb2|subst; by apply Hf in Hb1|by eapply H10].
  - intros bn' x' [= <-] Hb'. apply lookup_insert_Some in Hb' as [[_ E]|[_ Hb']]; [done|by eapply H11].
Qed.

(** ** The part of bmap on the indirect block *)

Definition indirect_entry (addr bn : Z) : K Z :=
  bp <- bread 1 addr ;;
  d <- buf_data bp ;;
  let a := get32 d (Z.to_nat (4 * bn)) in
  a <- (if a =? 0 then
          a <- balloc 1 ;;
          upd_data bp (fun d => put32 d (Z.to_nat (4 * bn)) a) ;;;
          log_write bp ;;;
          ret a
        else ret a) ;;
  brelse bp ;;;
  ret a.

Lemma indirect_range k i ip m x :
  layout k -> maps k i ip m (Some x) -> 0 <= x < disksize (k_disk k) /\ ~ in_log (k_log k) x /\ ~ is_bitmap k x /\
  in_use k x = true.
Proof.
  intros Hl Hm. destruct (mp_indb _ _ _ _ _ Hm x eq_refl) as (R & U & (Nb & Nl & _)).
  pose proof (la_size _ Hl). split_and!; [lia|lia|done..].
Qed.

(** The entry is there. *)
Lemma entry_found k op bs i ip m x bn b :
  txn k op bs -> layout k -> op !! x = None -> maps k i ip m (Some x) -> 12 <= bn < 140 -> m !! bn = Some b ->
  (length bs + size op < NBUF)%nat ->
  exists k', indirect_entry x (bn - 12) k = Ok b k' /\ bmapped k op i ip m (Some x) bn b k' bs ip m (Some x) /\
    tx_frame k k' /\ forall b', content k' b' = content k b'.
Proof.
  intros Ht Hl Hx Hm Hbn Hb Hroom. destruct (indirect_range _ _ _ _ _ Hl Hm) as (R & Nl & Nb & U).
  destruct (txn_bread k op bs x Ht Hx R Hroom) as (j & k1 & E1 & H1 & F1 & C1).
  destruct (txn_brelse k1 _ bs x j H1 (lookup_insert_eq _ _ _)) as (k2 & E2 & H2 & F2 & C2).
  rewrite delete_insert_id in H2 by done. assert (F : tx_frame k k2) by (by etrans).
  assert (C : forall b, content k2 b = content k b) by (intros; by rewrite C2).
  exists k2. split_and!.
  - unfold indirect_entry. krun E1. krun (txn_data _ _ _ _ _ H1 (lookup_insert_eq _ _ _)).
    rewrite C1, (mp_entries _ _ _ _ _ Hm bn Hbn), Hb. cbn [default from_option id].
    rewrite (proj2 (Z.eqb_neq b 0)) by (by eapply file_block_nz, (mp_blocks _ _ _ _ _ Hm)).
    unfold bind at 1. cbn [ret obind]. by krun E2.
  - split; try done.
    + by apply fs_frame_tx.
    + by eapply layout_frame.
    + by eapply maps_tx.
    + by right.
    + congruence.
    + intros b' _. by rewrite (in_use_frame k k2).
    + by rewrite with_addrs_id.
    + by left.
  - done.
  - done.
Qed.

(** What is left when an entry was made in the indirect block. *)
Lemma entry_made k k2 k4 op op1 bs bs4 i ip m x bn b :
  layout k -> maps k i ip m (Some x) -> 12 <= bn < 140 -> m !! bn = None -> in_use k b = false -> file_block k2 b ->
  length (content k2 x) = 512%nat -> allocated k op1 bs b k2 -> txn k4 op bs4 -> tx_frame k2 k4 ->
  (forall b', content k4 b' =
    if decide (b' = x) then put32 (content k2 x) (Z.to_nat (4 * (bn - 12))) b else content k2 b') ->
  bmapped k op i ip m (Some x) bn b k4 bs4 ip (<[bn := b]> m) (Some x) /\
  forall b', 0 <= b' < sb_size (k_sb k2) -> in_use k4 b' = in_use k2 b'.
Proof.
  intros Hl Hm Hbn Hb Ub Fb Lx A Ht F C. pose proof A as [A1 A2 A3 A4 A5 A6].
  destruct (indirect_range _ _ _ _ _ Hl Hm) as (R & Nl & Nb & U).
  destruct (maps_fresh _ _ _ _ _ _ Hm Ub) as [Nm Nx].
  assert (Hm2 : maps k2 i ip m (Some x)) by (by eapply maps_allocated).
  assert (Hu : forall b', 0 <= b' < sb_size (k_sb k2) -> in_use k4 b' = in_use k2 b').
  { intros b'. apply in_use_bitmap; [done|by apply frame_sb|]. intros b'' Hb''. rewrite C, decide_False; [done|].
    intros ->. by apply Nb, (is_bitmap_frame k k2). }
  assert (Hfb : forall b', file_block k2 b' -> file_block k4 b').
  { intros b' (R' & U' & D'). unfold file_block. by rewrite (frame_sb _ _ F), Hu, data_area_frame. }
  split; [|done]. split; try done.
  - apply fs_frame_tx. by etrans.
  - apply (layout_change k2); [done..|]. intros b' Hb' U'. left. by rewrite <-Hu.
  - eapply (maps_entry k2); [done..| | | | | | | |congruence]; try done.
    + rewrite (tx_frame_inodes _ _ F). apply Hm2.
    + by rewrite C, decide_True.
    + destruct Fb as (Rb & _). pose proof (la_size _ A3). unfold in_u32. lia.
    + by apply Hfb.
  - apply lookup_insert_eq.
  - intros bn' Hne. by apply lookup_insert_ne.
  - by left.
  - intros _. split; [done|]. rewrite C, decide_False; [done|]. congruence.
  - intros b' Hb' U'. rewrite Hu, A4, U' by (rewrite ?(frame_sb _ _ A2); done). apply orb_true_r.
  - intros b' U' Nb' Hne. rewrite C, decide_False by congruence. apply A6; [|done]. intros ->.
    rewrite U' in Ub; [done|]. destruct Fb as (Rb & _). by rewrite <-(frame_sb _ _ A2).
  - by rewrite with_addrs_id.
  - by left.
Qed.

(** The entry is made. *)
Lemma entry_new k op bs L n i ip m x bn :
  txn k op bs -> layout k -> opened k op -> op !! x = None -> maps k i ip m (Some x) -> 12 <= bn < 140 ->
  m !! bn = None -> within bs L -> covers k (Some x) L -> space k op L 3 -> avail k (S n) ->
  exists b k' bs', indirect_entry x (bn - 12) k = Ok b k' /\
    bmapped k op i ip m (Some x) bn b k' bs' ip (<[bn := b]> m) (Some x) /\ within bs' (b :: L) /\ avail k' n.
Proof.
  intros Ht Hl Ho Hx Hm Hbn Hb Hw [Hcv Hcx] Hsp Ha. destruct (indirect_range _ _ _ _ _ Hl Hm) as (R & Nl & Nb & U).
  destruct (txn_bread k op bs x Ht Hx R) as (j & k1 & E1 & H1 & F1 & C1).
  { eapply space_bread, within_space; [apply Ht|done..]. }
  assert (Hm1 : maps k1 i ip m (Some x)) by (by eapply maps_tx).
  destruct (take_block k1 (<[x := j]> op) bs L n H1) as (b & k2 & E2 & A & Ub & Fb & Hw2 & Ha2).
  { by eapply layout_frame. }
  { apply (opened_frame k); [done..|]. intros b' i' [[<- _]|[_ Hb']]%lookup_insert_Some; [done|by eapply Ho]. }
  { done. }
  { intros b'. rewrite (is_bitmap_frame k k1) by done. apply Hcv. }
  { apply (space_frame k); [done|]. by apply space_open. }
  { apply (avail_frame k); [by apply frame_sb|by intros; apply in_use_frame|done]. }
  pose proof A as [A1 A2 _ _ _ _]. assert (F12 : tx_frame k k2) by (by etrans).
  assert (Lx : length (content k2 x) = 512%nat) by (by eapply length_txn_content).
  destruct (txn_write k2 _ _ x j (fun d => put32 d (Z.to_nat (4 * (bn - 12))) b) A1 (lookup_insert_eq _ _ _))
    as (k3 & E3 & H3 & F3 & C3).
  { eapply (space_room _ (<[x := j]> op) _ 0), within_space; [apply A1|exact Hw2|]. apply (space_frame k); [done|].
    apply space_open; [done|]. revert Hsp. unfold space. cbn [length]. lia. }
  { by rewrite (tx_frame_log_in _ _ _ F12). }
  { rewrite length_put32; lia. }
  destruct (txn_brelse k3 _ _ x j H3 (lookup_insert_eq _ _ _)) as (k4 & E4 & H4 & F4 & C4).
  rewrite delete_insert_id in H4 by done.
  rewrite (in_use_frame k k1) in Ub by done.
  destruct (entry_made k k2 k4 op _ bs _ i ip m x bn b Hl Hm Hbn Hb Ub Fb Lx (allocated_frame _ _ _ _ _ _ F1 C1 A) H4)
    as [Hbm Hu]; [by etrans|intros b'; by rewrite C4, C3|].
  eexists b, k4, _. split_and!; [|exact Hbm| |].
  - unfold indirect_entry. krun E1. krun (txn_data _ _ _ _ _ H1 (lookup_insert_eq _ _ _)).
    rewrite C1, (mp_entries _ _ _ _ _ Hm bn Hbn), Hb. cbn [default from_option id Z.eqb].
    apply obind_inv_ok in E3 as ([] & s & E3 & E3').
    rewrite (obind_ok _ _ _ b k3) by (krun E2; krun E3; by krun E3'). by krun E4.
  - apply within_absorb; [done|]. apply elem_of_cons. right. by apply Hcx.
  - eapply avail_frame; [|exact Hu|done]. rewrite (frame_sb _ _ F4). by apply frame_sb.
Qed.

(** ** bmap *)

(** The blocks that are still to be allocated for the indirect block, and the blocks that
    may be logged after it was. *)
Definition missing (ind : option Z) : nat := match ind with Some _ => 0%nat | None => 1%nat end.

Definition grown (L : list Z) (ind ind' : option Z) : list Z :=
  match ind, ind' with None, Some x => x :: L | _, _ => L end.

(** The outcome of bmap: one block at most is allocated for [bn], and one for the
    indirect block. *)
Definition bmap_result (k : kernel) (op : gmap Z nat) (L : list Z) (n i : nat) (ip : inode) (m : gmap Z Z)
    (ind : option Z) (bn : Z) (o : outcome kernel Z) : Prop :=
  exists b k' bs' ip' m' ind', o = Ok b k' /\ bmapped k op i ip m ind bn b k' bs' ip' m' ind' /\
    within bs' (b :: grown L ind ind') /\ avail k' (missing ind' + n) /\ (forall x, ind = Some x -> ind' = Some x).

(** A direct block that is missing. *)
Lemma bmap_new_direct k op bs L n i ip m ind bn :
  txn k op bs -> layout k -> opened k op -> maps k i ip m ind -> 0 <= bn < 12 -> m !! bn = None ->
  within bs L -> covers k ind L -> space k op L 2 -> avail k (missing ind + S n) ->
  bmap_result k op L n i ip m ind bn (bmap i bn k).
Proof.
  intros Ht Hl Ho Hm Hbn Hb Hw [Hcv _] Hsp Ha.
  destruct (take_block k op bs L (missing ind + n) Ht Hl Ho Hw Hcv Hsp) as (b & k1 & E & A & U & Fb & Hw1 & Ha1).
  { by rewrite <-Nat.add_succ_r. }
  pose proof A as [A1 A2 A3 A4 A5 A6]. pose proof (maps_allocated _ _ _ _ _ _ _ _ _ Hm U A) as Hm1.
  destruct (maps_fresh _ _ _ _ _ _ Hm U) as [Nm Nx].
  pose proof (maps_direct k1 i ip m ind bn b Hm1 Hbn Fb Nm Nx) as Hm2. cbn zeta in Hm2.
  set (k2 := set_inodes _ k1) in Hm2.
  eexists b, k2, _, _, _, ind. split_and!; [| |destruct ind; exact Hw1|exact Ha1|done].
  - unfold bmap, get_inode. krun (read_at_ok k_inodes i k ip (mp_inode _ _ _ _ _ Hm)).
    rewrite (proj2 (Z.ltb_lt bn NDIRECT)) by (unfold NDIRECT; lia). rewrite (mp_direct _ _ _ _ _ Hm bn Hbn), Hb.
    unfold bind at 1. cbn [of_option ret obind default from_option id Z.eqb]. rewrite (mp_dev _ _ _ _ _ Hm). krun E.
    rewrite (obind_ok _ _ _ _ _ (set_addr_run k1 i ip (Z.to_nat bn) b (mp_inode _ _ _ _ _ Hm1)
      ltac:(rewrite (mp_len _ _ _ _ _ Hm); lia))). reflexivity.
  - split.
    + apply txn_set_inodes. exact A1.
    + etrans; [by apply (fs_frame_tx i k k1)|apply fs_frame_set].
    + by apply layout_set_inodes.
    + exact Hm2.
    + apply lookup_insert_eq.
    + intros bn' Hne. by apply lookup_insert_ne.
    + by left.
    + done.
    + intros b' Hb' U'. change (in_use k1 b' = true). by rewrite A4, U', orb_true_r.
    + intros b' U' Nb _. change (content k1 b' = content k b'). apply A6; [|done]. intros ->. destruct Fb as (Rb & _).
      rewrite (frame_sb _ _ A2) in Rb. rewrite U' in U; done.
    + done.
    + congruence.
    + by left.
Qed.

(** A block behind the indirect block. *)
Lemma bmap_entry k op bs L n i ip m x bn :
  txn k op bs -> layout k -> opened k op -> op !! x = None -> maps k i ip m (Some x) -> 12 <= bn < 140 ->
  within bs L -> covers k (Some x) L -> space k op L 3 -> avail k (S n) ->
  bmap_result k op L n i ip m (Some x) bn (indirect_entry x (bn - 12) k).
Proof.
  intros Ht Hl Ho Hx Hm Hbn Hw Hcv Hsp Ha. destruct (m !! bn) as [b|] eqn:Hb.
  - destruct (entry_found k op bs i ip m x bn b Ht Hl Hx Hm Hbn Hb) as (k' & E & Hbm & F & C).
    { eapply space_bread, within_space; [apply Ht|done..]. }
    eexists b, k', bs, ip, m, (Some x). split_and!; [done..|by apply within_cons| |done].
    eapply avail_le, avail_frame; [|by apply frame_sb|by intros; apply in_use_frame|exact Ha]. cbn. lia.
  - destruct (entry_new k op bs L n i ip m x bn Ht Hl Ho Hx Hm Hbn Hb Hw Hcv Hsp Ha) as (b & k' & bs' & E & Hbm & Hw' & Ha').
    by eexists b, k', bs', ip, _, (Some x).
Qed.

(** The indirect block was allocated before. *)
Lemma bmapped_after k k1 op i ip ip1 m x bn b k' bs' ip' m' :
  m !! bn = None -> fs_frame i k k1 -> in_use k x = false -> 0 <= x < sb_size (k_sb k) -> ip1 = with_addrs (di_addrs (i_d ip1)) ip ->
  (forall b', 0 <= b' < sb_size (k_sb k) -> in_use k b' = true -> in_use k1 b' = true) ->
  (forall b', b' <> x -> ~ is_bitmap k b' -> content k1 b' = content k b') ->
  bmapped k1 op i ip1 m (Some x) bn b k' bs' ip' m' (Some x) -> bmapped k op i ip m None bn b k' bs' ip' m' (Some x).
Proof.
  intros Hbn F Ux Rx Ei Hu Hc [H1 H2 H3 H4 H5 H6 H7 H8 H9 H10 H11 _ _].
  rewrite (fs_frame_sb _ _ _ F) in *. split; try done.
  - by etrans.
  - intros Hn. destruct (H8 Hn) as [U Z]. split; [|done]. destruct (in_use k b) eqn:Ub; [|done].
    rewrite Hu in U; [done| |done]. destruct (mp_blocks _ _ _ _ _ H4 bn b H5) as (R & _).
    by rewrite (fs_frame_sb _ _ _ H2), (fs_frame_sb _ _ _ F) in R.
  - intros b' Hb' U. apply H9; [done|]. by apply Hu.
  - intros b' U Nb _. assert (b' <> x) as Hne by (intros ->; rewrite U in Ux; done).
    rewrite H10; [by apply Hc| |by rewrite (fs_frame_bitmap _ _ _ _ F)|congruence]. intros R. by apply Hu, U.
  - rewrite H11 at 1. by rewrite Ei.
  - congruence.
  - right. split; [done|]. by exists x.
Qed.

(** The indirect block is missing. *)
Lemma bmap_new_indirect k op bs L n i ip m bn :
  txn k op bs -> layout k -> opened k op -> maps k i ip m None -> 12 <= bn < 140 ->
  within bs L -> covers k None L -> space k op L 4 -> avail k (S (S n)) ->
  bmap_result k op L n i ip m None bn (bmap i bn k).
Proof.
  intros Ht Hl Ho Hm Hbn Hw [Hcv _] Hsp Ha.
  destruct (take_block k op bs L (S n) Ht Hl Ho Hw Hcv) as (x & k1 & E & A & U & Fx & Hw1 & Ha1); [|done|].
  { eapply space_le; [|done]. lia. }
  pose proof A as [A1 A2 A3 A4 A5 A6]. pose proof (maps_allocated _ _ _ _ _ _ _ _ _ Hm U A) as Hm1.
  destruct (maps_fresh _ _ _ _ _ _ Hm U) as [Nm _].
  pose proof (maps_indirect k1 i ip m x Hm1 Fx Nm A5) as Hm2. cbn zeta in Hm2.
  set (ip1 := with_addrs _ ip) in Hm2. set (k2 := set_inodes _ k1) in Hm2.
  assert (F : fs_frame i k k2).
  { etrans; [by apply (fs_frame_tx i k k1)|apply fs_frame_set]. }
  assert (Rx : 0 <= x < sb_size (k_sb k)) by (rewrite <-(frame_sb _ _ A2); apply Fx).
  assert (R : bmap_result k2 op (x :: L) n i ip1 m (Some x) bn (indirect_entry x (bn - 12) k2)).
  { apply (bmap_entry k2 op (absorb x (absorb (BBLOCK x (k_sb k)) bs))); try done.
    - by apply txn_set_inodes.
    - by apply layout_set_inodes.
    - intros b j Hb. destruct (Ho b j Hb) as [Nb Ub]. change (~ is_bitmap k1 b /\ (0 <= b < sb_size (k_sb k1) -> in_use k1 b = true)).
      rewrite (is_bitmap_frame k k1), (frame_sb _ _ A2) by done. split; [done|]. intros Rb. by rewrite A4, Ub, orb_true_r.
    - destruct (op !! x) as [j|] eqn:Hx; [|done]. destruct (Ho x j Hx) as [_ Ux]. rewrite Ux in U; done.
    - split; [|intros y [= <-]; set_solver]. intros b Hb. apply elem_of_cons. right. apply Hcv.
      by apply (fs_frame_bitmap i k k2).
    - apply (fs_frame_space i k k2); [done|]. revert Hsp. unfold space. cbn [length]. lia. }
  destruct R as (b & k' & bs' & ip' & m' & ind' & E' & Hbm & Hw' & Ha' & Hi). specialize (Hi x eq_refl). subst ind'.
  eexists b, k', bs', ip', m', (Some x). split_and!; [| |done..].
  - unfold bmap, get_inode. krun (read_at_ok k_inodes i k ip (mp_inode _ _ _ _ _ Hm)).
    rewrite (proj2 (Z.ltb_ge bn NDIRECT)), (proj2 (Z.ltb_lt (bn - NDIRECT) NINDIRECT)) by (change NINDIRECT with 128; unfold NDIRECT; lia).
    change (Z.to_nat NDIRECT) with 12%nat. rewrite (mp_ind _ _ _ _ _ Hm).
    unfold bind at 1. cbn [of_option ret obind default from_option id Z.eqb]. rewrite (mp_dev _ _ _ _ _ Hm).
    rewrite (obind_ok _ _ _ x k2); [exact E'|]. krun E.
    rewrite (obind_ok _ _ _ _ _ (set_addr_run k1 i ip 12 x (mp_inode _ _ _ _ _ Hm1)
      ltac:(rewrite (mp_len _ _ _ _ _ Hm); lia))). reflexivity.
  - apply (bmapped_after k k2 op i ip ip1 m x); try done.
    + by apply (mp_entries _ _ _ _ _ Hm).
    + intros b' Hb' U'. change (in_use k1 b' = true). by rewrite A4, U', orb_true_r.
Qed.

Lemma bmap_indirect k i ip m x bn :
  maps k i ip m (Some x) -> 12 <= bn < 140 -> bmap i bn k = indirect_entry x (bn - 12) k.
Proof.
  intros Hm Hbn. assert (Hf : file_block k x) by (by eapply mp_indb).
  unfold bmap, get_inode. krun (read_at_ok k_inodes i k ip (mp_inode _ _ _ _ _ Hm)).
  rewrite (proj2 (Z.ltb_ge bn NDIRECT)), (proj2 (Z.ltb_lt (bn - NDIRECT) NINDIRECT)) by (change NINDIRECT with 128; unfold NDIRECT; lia).
  change (Z.to_nat NDIRECT) with 12%nat. rewrite (mp_ind _ _ _ _ _ Hm). unfold bind at 1.
  cbn [of_option ret obind default from_option id]. rewrite (mp_dev _ _ _ _ _ Hm).
  rewrite (proj2 (Z.eqb_neq x 0)) by (by eapply file_block_nz). rewrite (obind_ok _ _ _ x k) by done. done.
Qed.

(** A block of the file is found without a change. *)
Lemma bmap_found k bs i ip m ind bn b :
  txn k ∅ bs -> layout k -> maps k i ip m ind -> m !! bn = Some b -> (length bs < NBUF)%nat ->
  exists k', bmap i bn k = Ok b k' /\ txn k' ∅ bs /\ tx_frame k k' /\ forall b', content k' b' = content k b'.
Proof.
  intros Ht Hl Hm Hb Hroom. pose proof (mp_dom _ _ _ _ _ Hm _ _ Hb) as Hbn. destruct (decide (bn < 12)) as [Hd|Hd].
  { destruct (bmap_found_direct k ∅ bs i ip m ind bn b Ht Hl Hm ltac:(lia) Hb) as [E _]. by exists k. }
  destruct ind as [x|].
  - destruct (entry_found k ∅ bs i ip m x bn b Ht Hl) as (k' & E & B & F & C); try done; [lia| |].
    { rewrite map_size_empty. lia. }
    exists k'. rewrite (bmap_indirect k i ip m x) by (done || lia). split_and!; [done|apply B|done..].
  - pose proof (mp_entries _ _ _ _ _ Hm bn ltac:(lia)) as Hn. cbn in Hn. congruence.
Qed.

(** bmap returns the block of every block number up to MAXFILE. *)
Lemma bmap_run k op bs L n i ip m ind bn :
  txn k op bs -> layout k -> opened k op -> (forall x, ind = Some x -> op !! x = None) -> maps k i ip m ind ->
  0 <= bn < 140 -> within bs L -> covers k ind L -> space k op L (missing ind + 3) -> avail k (missing ind + S n) ->
  bmap_result k op L n i ip m ind bn (bmap i bn k).
Proof.
  intros Ht Hl Ho Hx Hm Hbn Hw Hcv Hsp Ha. destruct (decide (bn < 12)) as [Hd|Hd].
  { destruct (m !! bn) as [b|] eqn:Hb.
    - destruct (bmap_found_direct k op bs i ip m ind bn b Ht Hl Hm ltac:(lia) Hb) as [E Hbm].
      eexists b, k, bs, ip, m, ind. split_and!; [done..|destruct ind; by apply within_cons| |done].
      eapply avail_le; [|exact Ha]. lia.
    - eapply bmap_new_direct; try done; [lia|]. eapply space_le; [|done]. lia. }
  destruct ind as [x|]; [|apply (bmap_new_indirect k op bs); by try lia].
  rewrite (bmap_indirect k i ip m x) by (done || lia).
  apply (bmap_entry k op bs L n i ip m x bn); try done; [by apply Hx|lia].
Qed.

End Bmap.
