(* ===== verification/InodeDisk.v ===== *)
(** * The inode on the disk

    [dinode_at] and [put_dinode] read and write a struct dinode in its block; iupdate of
    src/fs.c stores the inode of the cache with them. *)

From S2P Require Import Prelude Mem State Spinlock Sched Sleeplock Bio Bcache Block Log Recovery Txn LogOps Inode Bitmap FileMap.

(** ** Encoding and decoding *)

Definition in_s16 (x : Z) : Prop := - 2 ^ 15 <= x < 2 ^ 15.

(** The fields have the types of struct dinode. *)
Record typed_dinode (di : dinode) : Prop := Typed {
  td_type : in_s16 (di_type di);
  td_major : in_s16 (di_major di);
  td_minor : in_s16 (di_minor di);
  td_nlink : in_s16 (di_nlink di);
  td_size : in_u32 (di_size di);
  td_len : length (di_addrs di) = 13%nat;
  td_addrs : Forall in_u32 (di_addrs di)
}.

Lemma s16_u16 x : in_s16 x -> s16 (u16 x) = x.
Proof. unfold in_s16. mach. Qed.

Lemma s16_range x : in_s16 (s16 x).
Proof. unfold in_s16. mach. Qed.

Lemma length_put_addrs l : forall d o, (o + 4 * length l <= length d)%nat -> length (put_addrs d o l) = length d.
Proof.
  induction l as [|a l IH]; intros d o H; cbn [put_addrs length] in *; [done|].
  rewrite IH, length_put32; rewrite ?length_put32; lia.
Qed.

Lemma slice_put_addrs l : forall d o o' n,
  (o + 4 * length l <= length d)%nat -> (o' + n <= o \/ o + 4 * length l <= o')%nat ->
  slice (put_addrs d o l) o' n = slice d o' n.
Proof.
  induction l as [|a l IH]; intros d o o' n H Ho; cbn [put_addrs length] in *; [done|].
  rewrite IH by (rewrite ?length_put32; lia). unfold put32. apply slice_splice_disj; rewrite length_le_split; lia.
Qed.

Lemma get32_put_addrs l : forall d o j a,
  (o + 4 * length l <= length d)%nat -> l !! j = Some a -> get32 (put_addrs d o l) (o + 4 * j) = u32 a.
Proof.
  induction l as [|b l IH]; intros d o j a H Hj; cbn [put_addrs length] in *; [done|].
  destruct j as [|j]; cbn in Hj.
  - injection Hj as ->. rewrite Nat.mul_0_r, Nat.add_0_r. unfold get32 at 1.
    rewrite slice_put_addrs by (rewrite ?length_put32; lia). apply get32_put32. lia.
  - replace (o + 4 * S j)%nat with (o + 4 + 4 * j)%nat by lia. apply IH; [rewrite length_put32; lia|done].
Qed.

Lemma get16_put32 d off v off' :
  (off + 4 <= length d)%nat -> (off' + 2 <= off \/ off + 4 <= off')%nat -> get16 (put32 d off v) off' = get16 d off'.
Proof.
  intros H Hd. unfold get16, put32. by rewrite slice_splice_disj by (rewrite length_le_split; lia).
Qed.

(** The fields before the addresses. *)
Definition put_fields (d : list Z) (o : nat) (di : dinode) : list Z :=
  put32 (put16 (put16 (put16 (put16 d o (di_type di)) (o + 2) (di_major di)) (o + 4) (di_minor di)) (o + 6) (di_nlink di))
    (o + 8) (di_size di).

Lemma put_fields_facts d o di :
  (o + 12 <= length d)%nat -> let d' := put_fields d o di in
  length d' = length d /\
  (forall o' n, (o' + n <= o \/ o + 12 <= o')%nat -> slice d' o' n = slice d o' n) /\
  get16 d' o = u16 (di_type di) /\ get16 d' (o + 2) = u16 (di_major di) /\ get16 d' (o + 4) = u16 (di_minor di) /\
  get16 d' (o + 6) = u16 (di_nlink di) /\ get32 d' (o + 8) = u32 (di_size di).
Proof.
  intros H. unfold put_fields. cbn zeta.
  pose proof (length_put16 d o (di_type di) ltac:(lia)) as L1.
  pose proof (length_put16 _ (o + 2) (di_major di) ltac:(rewrite L1; lia)) as L2.
  pose proof (length_put16 _ (o + 4) (di_minor di) ltac:(rewrite L2, L1; lia)) as L3.
  pose proof (length_put16 _ (o + 6) (di_nlink di) ltac:(rewrite L3, L2, L1; lia)) as L4.
  pose proof (length_put32 _ (o + 8) (di_size di) ltac:(rewrite L4, L3, L2, L1; lia)) as L5.
  assert (L : (o + 12 <= length (put16 (put16 (put16 (put16 d o (di_type di)) (o + 2) (di_major di)) (o + 4) (di_minor di))
    (o + 6) (di_nlink di)))%nat) by (rewrite L4, L3, L2, L1; lia).
  split_and!.
  - congruence.
  - intros o' n Ho. unfold put32. rewrite slice_splice_disj by (rewrite ?length_le_split; lia). clear L L5.
    do 4 (unfold put16 at 1; rewrite slice_splice_disj by (rewrite ?length_le_split; lia)). done.
  - rewrite get16_put32 by lia. rewrite !get16_put16_ne, get16_put16 by lia. done.
  - rewrite get16_put32 by lia. rewrite !get16_put16_ne, get16_put16 by lia. done.
  - rewrite get16_put32 by lia. rewrite !get16_put16_ne, get16_put16 by lia. done.
  - rewrite get16_put32 by lia. rewrite get16_put16 by lia. done.
  - rewrite get32_put32 by lia. done.
Qed.

Lemma put_dinode_split d o di : put_dinode d o di = put_addrs (put_fields d o di) (o + 12) (di_addrs di).
Proof. done. Qed.

Lemma length_put_dinode d o di :
  (o + 64 <= length d)%nat -> length (di_addrs di) = 13%nat -> length (put_dinode d o di) = length d.
Proof.
  intros H Hl. destruct (put_fields_facts d o di ltac:(lia)) as (L & _).
  rewrite put_dinode_split, length_put_addrs by lia. done.
Qed.

(** Only the 64 bytes of the inode change. *)
Lemma slice_put_dinode d o di o' n :
  (o + 64 <= length d)%nat -> length (di_addrs di) = 13%nat -> (o' + n <= o \/ o + 64 <= o')%nat ->
  slice (put_dinode d o di) o' n = slice d o' n.
Proof.
  intros H Hl Ho. destruct (put_fields_facts d o di ltac:(lia)) as (L & Hs & _).
  rewrite put_dinode_split, slice_put_addrs by lia. apply Hs. lia.
Qed.

Lemma dinode_at_put_dinode d o di :
  (o + 64 <= length d)%nat -> typed_dinode di -> dinode_at (put_dinode d o di) o = di.
Proof.
  intros H [T1 T2 T3 T4 T5 T6 T7]. destruct (put_fields_facts d o di ltac:(lia)) as (L & _ & E1 & E2 & E3 & E4 & E5).
  assert (E : forall o' n, (o' + n <= o + 12)%nat ->
    slice (put_dinode d o di) o' n = slice (put_fields d o di) o' n).
  { intros o' n Ho. rewrite put_dinode_split. apply slice_put_addrs; lia. }
  unfold dinode_at. unfold get16 in *. unfold get32 in E5 |- * at 1. rewrite !E by lia.
  rewrite E1, E2, E3, E4, E5, !s16_u16, u32_small by done.
  destruct di as [ty ma mi nl sz l]; cbn [di_type di_major di_minor di_nlink di_size di_addrs] in *. f_equal.
  apply list_eq. intros j. rewrite list_lookup_fmap. destruct (decide (j < 13)%nat) as [Hj|Hj].
  - unfold upto. rewrite lookup_seq_lt by done. cbn [fmap option_fmap option_map].
    destruct (lookup_lt_is_Some_2 l j ltac:(lia)) as [a Ha]. rewrite put_dinode_split. cbn [di_addrs].
    change (le_combine (slice ?d ?o 4)) with (get32 d o).
    rewrite (get32_put_addrs l _ (o + 12) j a) by (done || lia). rewrite Ha, u32_small; [done|].
    by eapply Forall_lookup_1.
  - rewrite (lookup_ge_None_2 l) by lia. by rewrite lookup_ge_None_2 by (unfold upto; rewrite length_seq; lia).
Qed.

(** ** Where an inode is *)

Lemma dinode_off_fits inum : (dinode_off inum + 64 <= 512)%nat.
Proof. unfold dinode_off. change IPB with 8. pose proof (Z.mod_pos_bound inum 8). lia. Qed.

(** The inode number [inum] is in the table. *)
Definition has_inode (k : kernel) (inum : Z) : Prop := 0 <= inum < sb_ninodes (k_sb k) /\ 0 <= sb_inodestart (k_sb k).

Lemma IBLOCK_inodes k inum :
  layout k -> has_inode k inum -> is_inodes k (IBLOCK inum (k_sb k)) /\
  1 < IBLOCK inum (k_sb k) < disksize (k_disk k) /\ ~ in_log (k_log k) (IBLOCK inum (k_sb k)) /\
  ~ is_bitmap k (IBLOCK inum (k_sb k)).
Proof.
  intros Hl [H1 H2]. assert (Hr : 0 <= inum / IPB <= (sb_ninodes (k_sb k) - 1) / IPB).
  { change IPB with 8. split; [apply Z.div_pos; lia|apply Z.div_le_mono; lia]. }
  assert (Hi : is_inodes k (inum / IPB + sb_inodestart (k_sb k))) by (unfold is_inodes; lia).
  pose proof (la_size _ Hl). destruct (la_inodes _ Hl _ Hi) as ((? & ?) & ? & ?).
  unfold IBLOCK. rewrite u32_small by (unfold in_u32; lia). done.
Qed.

Section Iupdate.
  Context {patience_bound : Patience} {driver : DiskDriver} {driver_ok : DiskOk driver}.

(** iupdate stores the inode. *)
Lemma iupdate_run k bs i ip :
  txn k ∅ bs -> layout k -> k_inodes k !! i = Some ip -> i_dev ip = 1 -> has_inode k (i_inum ip) ->
  length (di_addrs (i_d ip)) = 13%nat -> space k ∅ bs 2 ->
  let ib := IBLOCK (i_inum ip) (k_sb k) in
  exists k', iupdate i k = Ok tt k' /\ txn k' ∅ (absorb ib bs) /\ tx_frame k k' /\
    forall b, content k' b = if decide (b = ib) then put_dinode (content k ib) (dinode_off (i_inum ip)) (i_d ip) else content k b.
Proof.
  intros Ht Hl Hi Hd Hh Ha Hsp ib. destruct (IBLOCK_inodes _ _ Hl Hh) as (_ & R & Nl & _).
  destruct (txn_bread k ∅ bs ib Ht) as (j & k1 & E1 & H1 & F1 & C1); [done|unfold ib; lia|by eapply space_bread|].
  assert (Hi1 : k_inodes k1 !! i = Some ip) by (by rewrite (tx_frame_inodes _ _ F1)).
  destruct (txn_write k1 _ bs ib j (fun d => put_dinode d (dinode_off (i_inum ip)) (i_d ip)) H1 (lookup_insert_eq _ _ _))
    as (k2 & E2 & H2 & F2 & C2).
  { eapply (space_room _ (<[ib := j]> ∅)). apply (space_frame k); [done|]. apply space_open; [done|exact Hsp]. }
  { by rewrite (tx_frame_log_in _ _ _ F1). }
  { rewrite length_put_dinode; rewrite ?C1, ?(length_txn_content k ∅ bs) by done; [done|apply dinode_off_fits|done]. }
  destruct (txn_brelse k2 _ _ ib j H2 (lookup_insert_eq _ _ _)) as (k3 & E3 & H3 & F3 & C3).
  rewrite delete_insert_id in H3 by done. exists k3. split_and!; [|done|by etrans; [etrans|]|].
  - unfold iupdate, get_inode. krun (read_at_ok k_inodes i k ip Hi). unfold bind at 1, gets. cbn [obind]. rewrite Hd. fold ib.
    krun E1. krun (read_at_ok k_inodes i k1 ip Hi1). apply obind_inv_ok in E2 as ([] & s & E2 & E2').
    krun E2. krun E2'. exact E3.
  - intros b. rewrite C3, C2. by rewrite !C1.
Qed.

End Iupdate.
