(* ===== verification/FileData.v ===== *)
(** * The contents of a file: readi and writei of src/fs.c

    A file is an array of bytes.  writei overwrites a range of it and lengthens it, and
    readi returns a range of it; blocks, the indirect block, the block buffers and the log
    below do not show. *)

From S2P Require Import Prelude Mem State Spinlock Kalloc Vm Umem Sched Sleeplock Bio Bcache Block Log Recovery Txn LogOps Inode Console Fs File PipeFifo Bitmap FileMap InodeDisk.

(** ** Overwriting and lengthening *)

Lemma lookup_overwrite d off bs i :
  (off <= length d)%nat ->
  splice d off bs !! i = if decide (off <= i < off + length bs)%nat then bs !! (i - off)%nat else d !! i.
Proof.
  intros H. unfold splice. destruct (decide (i < off)%nat) as [H1|H1].
  - rewrite lookup_app_l by len. rewrite lookup_take_lt by lia. by rewrite decide_False by lia.
  - rewrite lookup_app_r by len. rewrite length_take, Nat.min_l by lia.
    destruct (decide (i < off + length bs)%nat) as [H2|H2].
    + rewrite decide_True by lia. by rewrite lookup_app_l by lia.
    + rewrite decide_False by lia. rewrite lookup_app_r by lia. rewrite lookup_drop. f_equal. lia.
Qed.

Lemma length_overwrite d off bs :
  (off <= length d)%nat -> length (splice d off bs) = (length d `max` (off + length bs))%nat.
Proof. intros H. unfold splice. len. Qed.

Lemma overwrite_app d off b1 b2 :
  (off <= length d)%nat -> splice (splice d off b1) (off + length b1) b2 = splice d off (b1 ++ b2).
Proof.
  intros H. apply list_eq. intros i.
  rewrite lookup_overwrite by (rewrite length_overwrite by done; lia). rewrite !lookup_overwrite by done. len.
  repeat case_decide; try lia; try done.
  - rewrite lookup_app_r by lia. f_equal. lia.
  - by rewrite lookup_app_l by lia.
Qed.

Lemma overwrite_nil d off : (off <= length d)%nat -> splice d off [] = d.
Proof. intros H. unfold splice. rewrite Nat.add_0_r. apply take_drop. Qed.

(** ** A file *)

(** Byte [x] of the file with the blocks [m]. *)
Definition byte_at (k : kernel) (m : gmap Z Z) (x : Z) : option Z :=
  b ← m !! (x / 512); content k b !! Z.to_nat (x `mod` 512).

Definition holds (k : kernel) (m : gmap Z Z) (data : list Z) : Prop :=
  forall x, (x < length data)%nat -> byte_at k m (Z.of_nat x) = data !! x.

(** [b] is a block of the file. *)
Definition owns (m : gmap Z Z) (ind : option Z) (b : Z) : Prop := ind = Some b \/ exists bn, m !! bn = Some b.

Lemma owns_block k i ip m ind b : maps k i ip m ind -> owns m ind b -> file_block k b.
Proof. intros Hm [->|[bn Hb]]; [by eapply mp_indb|by eapply mp_blocks]. Qed.

Lemma byte_at_Some k m x v : byte_at k m x = Some v -> exists b, m !! (x / 512) = Some b.
Proof. unfold byte_at. destruct (m !! (x / 512)) as [b|]; [by exists b|done]. Qed.

Lemma holds_block k m data x : holds k m data -> (x < length data)%nat -> exists b, m !! (Z.of_nat x / 512) = Some b.
Proof.
  intros Hh Hx. destruct (lookup_lt_is_Some_2 _ _ Hx) as [v Hv]. eapply byte_at_Some. by rewrite Hh.
Qed.

(** What has changed while the file [i] was written. *)
Record changed (k : kernel) (i : nat) (ip : inode) (m : gmap Z Z) (ind : option Z)
    (k' : kernel) (ip' : inode) (m' : gmap Z Z) (ind' : option Z) : Prop := Changed {
  ch_frame : fs_frame i k k';
  ch_use : forall b, 0 <= b < sb_size (k_sb k) -> in_use k b = true -> in_use k' b = true;
  ch_rest : forall b, (0 <= b < sb_size (k_sb k) -> in_use k b = true) -> ~ is_bitmap k b -> ~ owns m ind b ->
    content k' b = content k b;
  ch_owns : forall b, owns m' ind' b -> owns m ind b \/ 0 <= b < sb_size (k_sb k) /\ in_use k b = false;
  ch_ip : ip' = with_addrs (di_addrs (i_d ip')) ip
}.

Lemma changed_refl k i ip m ind : changed k i ip m ind k ip m ind.
Proof. split; try done; [by left|by rewrite with_addrs_id]. Qed.

Lemma changed_trans k i ip m ind k1 ip1 m1 ind1 k2 ip2 m2 ind2 :
  changed k i ip m ind k1 ip1 m1 ind1 -> changed k1 i ip1 m1 ind1 k2 ip2 m2 ind2 -> changed k i ip m ind k2 ip2 m2 ind2.
Proof.
  intros [F1 U1 R1 O1 I1] [F2 U2 R2 O2 I2]. rewrite (fs_frame_sb _ _ _ F1) in *. split.
  - by etrans.
  - intros b Hb Ub. by apply U2, U1.
  - intros b Ub Nb No. rewrite R2; [by apply R1| | |].
    + intros Rb. by apply U1, Ub.
    + by rewrite (fs_frame_bitmap _ _ _ _ F1).
    + intros Ho. destruct (O1 b Ho) as [?|[Rb U]]; [done|]. by rewrite Ub in U.
  - intros b Ho. destruct (O2 b Ho) as [Ho1|[Rb U]]; [by apply O1|]. right. split; [done|].
    destruct (in_use k b) eqn:Ub; [|done]. by rewrite (U1 b Rb Ub) in U.
  - rewrite I2 at 1. by rewrite I1.
Qed.

(** ** Memory buffers *)

Lemma u64_add_u64 a x : u64 (u64 a + x) = u64 (a + x).
Proof. unfold u64. by rewrite Zplus_mod_idemp_l. Qed.

Lemma load_bytes_readable k bs : forall a, readable k a bs -> load_bytes (u64 a) (length bs) k = Ok bs k.
Proof.
  induction bs as [|b bs IH]; intros a Hr; cbn [load_bytes length]; [done|].
  destruct (Hr 0%nat b eq_refl) as (x & Ex & Hx). rewrite Z.add_0_r in Ex.
  rewrite (obind_ok _ _ _ b k) by (unfold load8; by rewrite Ex, Hx). rewrite u64_add_u64.
  rewrite (obind_ok _ _ _ bs k); [done|]. apply IH. intros i c Hi. destruct (Hr (S i) c Hi) as (y & Ey & Hy).
  exists y. split; [|done]. rewrite <-Ey. f_equal. f_equal. lia.
Qed.

(** The bytes a write takes from its source. *)
Definition src_is (k : kernel) (src : source) (ds : list Z) : Prop :=
  match src with SAt a => readable k a ds | SBytes bs => bs = ds end.

Lemma src_is_run k k' src ds tot n :
  src_is k src ds -> k_mem k' = k_mem k -> c_cr3 (k_cpu k') = c_cr3 (k_cpu k) -> (tot + n <= length ds)%nat ->
  get_src src (Z.of_nat tot) n k' = Ok (slice ds tot n) k'.
Proof.
  intros Hs Hm Hc Hn. destruct src as [a|bs]; cbn [src_is get_src] in *.
  - rewrite <-(length_slice ds tot n Hn) at 1. apply load_bytes_readable. intros j b Hj.
    rewrite lookup_slice in Hj. destruct (decide (j < n)%nat) as [Hjn|]; [|done].
    destruct (Hs _ _ Hj) as (x & Ex & Hx). exists x. rewrite Hm, Hc. split; [|done]. rewrite <-Ex. f_equal. f_equal. lia.
  - subst bs. rewrite Nat2Z.id. change (take n (drop tot ds)) with (slice ds tot n). rewrite decide_True; [done|].
    by apply length_slice.
Qed.

Lemma fs_frame_mem i k k' : fs_frame i k k' -> k_mem k' = k_mem k /\ k_cpu k' = k_cpu k.
Proof. intros [F _]. by rewrite (tf_rest _ _ F). Qed.

Section Data.
  Context {patience_bound : Patience} {driver : DiskDriver} {driver_ok : DiskOk driver}.

(** ** One block is written *)

(** A write in progress: [data] is what the file has, [L] the blocks that may be logged,
    and there is room for [c] more blocks. *)
Record writing (k : kernel) (bs : list Z) (i : nat) (ip : inode) (m : gmap Z Z) (ind : option Z) (data L : list Z)
    (c : nat) : Prop := Writing {
  wt_txn : txn k ∅ bs;
  wt_layout : layout k;
  wt_maps : maps k i ip m ind;
  wt_holds : holds k m data;
  wt_within : within bs L;
  wt_covers : covers k ind L;
  wt_space : space k ∅ L (missing ind + 3 + c);
  wt_avail : avail k (missing ind + c)
}.

(** The state after the block [b], which bmap returned, was written. *)
Lemma bmapped_changed k i ip m ind bn b k1 bs1 ip1 m1 ind1 k2 f :
  bmapped k ∅ i ip m ind bn b k1 bs1 ip1 m1 ind1 -> tx_frame k1 k2 ->
  (forall b', content k2 b' = if decide (b' = b) then f (content k1 b) else content k1 b') ->
  maps k2 i ip1 m1 ind1 /\ layout k2 /\ changed k i ip m ind k2 ip1 m1 ind1 /\
  forall b', 0 <= b' < sb_size (k_sb k1) -> in_use k2 b' = in_use k1 b'.
Proof.
  intros [H1 H2 H3 H4 H5 H6 H7 H8 H9 H10 H11 H12 H13] F C.
  destruct (mp_blocks _ _ _ _ _ H4 bn b H5) as (R & U & Db).
  assert (Hu : forall b', 0 <= b' < sb_size (k_sb k1) -> in_use k2 b' = in_use k1 b').
  { intros b'. apply in_use_bitmap; [done|by apply frame_sb|]. intros b'' Hb''. rewrite C, decide_False; [done|].
    intros ->. by apply Db in Hb''. }
  pose proof (fs_frame_sb _ _ _ H2) as Es. split_and!; [| | |done].
  - apply (maps_frame k1); [done| | |].
    + rewrite (tx_frame_inodes _ _ F). apply H4.
    + intros b' (R' & U' & D'). unfold file_block. by rewrite (frame_sb _ _ F), Hu, data_area_frame.
    + intros x Hx. rewrite C, decide_False; [done|]. intros ->. by eapply mp_disj.
  - apply (layout_change k1); [done..|]. intros b' Hb' U'. left. by rewrite <-Hu.
  - split; [|by intros; rewrite Hu by (by rewrite Es); apply H9| | |done].
    + etrans; [done|]. by apply fs_frame_tx.
    + intros b' U' Nb No. rewrite C, decide_False; [apply H10; [done..|]; intros ->; apply No; by left|].
      intros ->. destruct H7 as [Hn|Hn]; [|apply No; right; by exists bn].
      destruct (H8 Hn) as [Ub _]. rewrite U' in Ub; [done|]. by rewrite <-Es.
    + intros b' Ho. assert (R' : 0 <= b' < sb_size (k_sb k)) by (rewrite <-Es; by eapply owns_block).
      destruct Ho as [Ho|[bn' Ho]].
      * destruct H13 as [->|[_ (x & E & Ux)]]; [by left; left|]. right. split; [done|]. congruence.
      * destruct (decide (bn' = bn)) as [->|Hne]; [|left; right; exists bn'; by rewrite <-H6].
        assert (b' = b) as -> by congruence.
        destruct H7 as [Hn|Hn]; [right; by destruct (H8 Hn)|left; right; by exists bn].
Qed.

Lemma byte_block x : Z.of_nat x / 512 = Z.of_nat (x / 512) /\ Z.to_nat (Z.of_nat x `mod` 512) = (x `mod` 512)%nat.
Proof. rewrite Nat2Z.inj_div. split; [done|]. change 512 with (Z.of_nat 512). rewrite <-Nat2Z.inj_mod. apply Nat2Z.id. Qed.

Lemma same_block off x n :
  (x / 512 = off / 512)%nat -> (off `mod` 512 + n <= 512)%nat ->
  ((off `mod` 512 <= x `mod` 512 < off `mod` 512 + n) <-> (off <= x < off + n))%nat /\
  ((off <= x)%nat -> x `mod` 512 - off `mod` 512 = x - off)%nat.
Proof. pose proof (Nat.div_mod_eq x 512). pose proof (Nat.div_mod_eq off 512). lia. Qed.

Lemma other_block off x n : (x / 512 <> off / 512)%nat -> (off `mod` 512 + n <= 512)%nat -> ~ (off <= x < off + n)%nat.
Proof.
  pose proof (Nat.div_mod_eq x 512). pose proof (Nat.div_mod_eq off 512).
  pose proof (Nat.mod_upper_bound x 512). lia.
Qed.

Lemma bmapped_holds k i ip m ind bn b k1 bs1 ip1 m1 ind1 k2 data off chunk :
  bmapped k ∅ i ip m ind bn b k1 bs1 ip1 m1 ind1 -> maps k i ip m ind -> holds k m data ->
  length (content k1 b) = 512%nat ->
  (forall b', content k2 b' = if decide (b' = b) then splice (content k1 b) (off `mod` 512) chunk else content k1 b') ->
  (off <= length data)%nat -> bn = Z.of_nat (off / 512) -> (off `mod` 512 + length chunk <= 512)%nat ->
  holds k2 m1 (splice data off chunk).
Proof.
  intros [H1 H2 H3 H4 H5 H6 H7 _ _ H10 _ _ _] Hm Hh Hlen C Hoff -> Hfit x Hx. rewrite length_overwrite in Hx by done.
  rewrite lookup_overwrite by done. unfold byte_at. destruct (byte_block x) as [-> ->].
  assert (Hold : forall q b', m !! q = Some b' -> content k1 b' = content k b').
  { intros q b' Hb'. destruct (mp_blocks _ _ _ _ _ Hm q b' Hb') as (_ & U & (Nb & _)). apply H10; [done..|].
    intros Hi. by eapply mp_disj. }
  assert (Hd : (x < length data)%nat -> exists b', m !! Z.of_nat (x / 512) = Some b' /\
    content k b' !! (x `mod` 512)%nat = data !! x).
  { intros Hxd. destruct (holds_block _ _ _ _ Hh Hxd) as [b' Hb']. specialize (Hh x Hxd). revert Hh Hb'. unfold byte_at.
    destruct (byte_block x) as [-> ->]. intros Hh Hb'. rewrite Hb' in Hh. by exists b'. }
  destruct (decide (x / 512 = off / 512)%nat) as [Hq|Hq].
  - rewrite Hq in *. rewrite H5. cbn [mbind option_bind]. rewrite C, decide_True, lookup_splice by lia.
    destruct (same_block off x (length chunk) Hq Hfit) as [Hin Hsub]. destruct (decide (off <= x < off + length chunk)%nat) as [Hc|Hc].
    + rewrite decide_True by (by apply Hin). by rewrite Hsub by lia.
    + rewrite decide_False by (by rewrite Hin). destruct (Hd ltac:(lia)) as (b' & Hb' & E).
      destruct H7 as [H7|H7]; [congruence|]. assert (b' = b) as -> by congruence. by rewrite (Hold _ _ Hb').
  - pose proof (other_block off x (length chunk) Hq Hfit) as Hc. rewrite decide_False by done. destruct (Hd ltac:(lia)) as (b' & Hb' & E).
    rewrite H6, Hb' by lia. cbn [mbind option_bind]. rewrite C, decide_False; [by rewrite (Hold _ _ Hb')|].
    intros ->. apply Hq, Nat2Z.inj. eapply (mp_inj _ _ _ _ _ H4); [|exact H5]. by rewrite H6 by lia.
Qed.

Lemma elem_grown b L ind ind' : b ∈ L -> b ∈ grown L ind ind'.
Proof. intros Hb. destruct ind, ind'; try done. apply elem_of_cons. by right. Qed.

(** One round of the loop of writei. *)
Lemma write_round k bs i ip m ind data L c src ds tot off n :
  writing k bs i ip m ind data L (S c) -> src_is k src ds -> (tot + n <= length ds)%nat ->
  (off <= length data)%nat -> (off `mod` 512 + n <= 512)%nat -> Z.of_nat off < 140 * 512 ->
  exists k' bs' ip' m' ind' L',
    (forall (r : K Z), (ip <- get_inode i ;; bn <- bmap i (Z.of_nat off / BSIZE) ;; bp <- bread (i_dev ip) bn ;;
       bs <- get_src src (Z.of_nat tot) n ;; upd_data bp (fun d => splice d (off `mod` 512) bs) ;;;
       log_write bp ;;; brelse bp ;;; r) k = r k') /\
    writing k' bs' i ip' m' ind' (splice data off (slice ds tot n)) L' c /\
    changed k i ip m ind k' ip' m' ind' /\ ((off < length data)%nat -> ip' = ip).
Proof.
  intros [Ht Hl Hm Hh Hw Hcv Hsp Ha] Hsrc Htot Hoff Hfit Hmax.
  assert (Hbn : 0 <= Z.of_nat (off / 512) < 140).
  { pose proof (Nat.div_mod_eq off 512). lia. }
  destruct (bmap_run k ∅ bs L c i ip m ind (Z.of_nat (off / 512)) Ht Hl) as (b & k1 & bs1 & ip1 & m1 & ind1 & E1 & B & Hw1 & Ha1 & Hi1);
    [by intros ? ?|by intros|done..| |done|].
  { eapply space_le; [|done]. lia. }
  pose proof (bm_frame _ _ _ _ _ _ _ _ _ _ _ _ _ B) as F1.
  destruct (mp_blocks _ _ _ _ _ (bm_maps _ _ _ _ _ _ _ _ _ _ _ _ _ B) _ b (bm_at _ _ _ _ _ _ _ _ _ _ _ _ _ B)) as (R & U & (Nb & Nl & _)).
  pose proof (la_size _ (bm_layout _ _ _ _ _ _ _ _ _ _ _ _ _ B)).
  assert (Hsp1 : space k1 ∅ (b :: grown L ind ind1) (missing ind1 + 3 + c)).
  { apply (fs_frame_space i k); [done|]. revert Hsp. unfold space, grown. destruct ind, ind1; cbn [missing length];
      try lia. by specialize (Hi1 _ eq_refl). }
  destruct (txn_bread k1 ∅ bs1 b (bm_txn _ _ _ _ _ _ _ _ _ _ _ _ _ B)) as (j & k2 & E2 & H2 & F2 & C2); [done|lia| |].
  { eapply space_bread, within_space; [apply B|exact Hw1|exact Hsp1]. }
  set (f := fun d => splice d (off `mod` 512) (slice ds tot n)).
  assert (Hf : length (slice ds tot n) = n) by (by apply length_slice).
  destruct (txn_write k2 _ bs1 b j f H2 (lookup_insert_eq _ _ _)) as (k3 & E3 & H3 & F3 & C3).
  { eapply space_room, (within_space _ (<[b := j]> ∅)); [apply B|exact Hw1|]. apply (space_frame k1); [done|].
    eapply space_open; [done|]. eapply space_le; [|exact Hsp1]. instantiate (1 := 1%nat). lia. }
  { by rewrite (tx_frame_log_in _ _ _ F2). }
  { unfold f. rewrite C2, length_splice; rewrite (length_txn_content k1 ∅ bs1) by apply B; lia. }
  destruct (txn_brelse k3 _ _ b j H3 (lookup_insert_eq _ _ _)) as (k4 & E4 & H4 & F4 & C4).
  rewrite delete_insert_id in H4 by done. assert (F : tx_frame k1 k4) by (etrans; [done|by etrans]).
  assert (C : forall b', content k4 b' = if decide (b' = b) then f (content k1 b) else content k1 b').
  { intros b'. by rewrite C4, C3, !C2. }
  destruct (bmapped_changed _ _ _ _ _ _ _ _ _ _ _ _ k4 f B F C) as (Hm4 & Hl4 & Hch & Hu4).
  exists k4, (absorb b bs1), ip1, m1, ind1, (b :: grown L ind ind1). split_and!; [| |done|].
  - intros r. unfold get_inode at 1. krun (read_at_ok k_inodes i k ip (mp_inode _ _ _ _ _ Hm)).
    change BSIZE with 512. destruct (byte_block off) as [-> _]. krun E1. rewrite (mp_dev _ _ _ _ _ Hm). krun E2.
    destruct (fs_frame_mem i k k2) as [Em Ec]; [etrans; [exact F1|by apply fs_frame_tx]|].
    rewrite (obind_ok _ _ _ _ _ (src_is_run k k2 src ds tot n Hsrc Em (f_equal c_cr3 Ec) Htot)).
    apply obind_inv_ok in E3 as ([] & k' & E3 & E3'). krun E3. krun E3'. by krun E4.
  - split; try done.
    + eapply bmapped_holds; try done; [by eapply length_txn_content, B|by rewrite Hf].
    + apply within_absorb; [done|apply elem_of_cons; by left].
    + split; intros x Hx; apply elem_of_cons; right.
      * apply (fs_frame_bitmap i k k4) in Hx; [|apply Hch]. by apply elem_grown, (proj1 Hcv).
      * subst ind1. destruct ind as [y|]; [|apply elem_of_cons; by left]. specialize (Hi1 _ eq_refl). apply Hcv. congruence.
    + by apply (space_frame k1).
    + by apply (avail_frame k1); [apply frame_sb|..].
  - intros Hlt. eapply bm_keep; [exact B|]. destruct (holds_block _ _ _ _ Hh Hlt) as [b' Hb'].
    destruct (byte_block off) as [Eo _]. rewrite Eo in Hb'. destruct (bm_old _ _ _ _ _ _ _ _ _ _ _ _ _ B); congruence.
Qed.

(** ** The loop of writei *)

Lemma writing_le k bs i ip m ind data L c c' :
  (c' <= c)%nat -> writing k bs i ip m ind data L c -> writing k bs i ip m ind data L c'.
Proof.
  intros Hc [? ? ? ? ? ? ? ?]. split; try done; [eapply space_le; [|done]|eapply avail_le; [|done]]; lia.
Qed.

(** The part of the transfer that falls in the block of [off]. *)
Lemma round_size off r :
  Z.min (Z.of_nat r) (BSIZE - Z.of_nat off `mod` BSIZE) = Z.of_nat (r `min` (512 - off `mod` 512))%nat /\
  (off `mod` 512 + (r `min` (512 - off `mod` 512)) <= 512)%nat.
Proof.
  change BSIZE with 512. change 512 with (Z.of_nat 512). rewrite <-Nat2Z.inj_mod. pose proof (Nat.mod_upper_bound off 512).
  lia.
Qed.

Lemma round_left off r c :
  (0 < r)%nat -> (off `mod` 512 + r <= 512 * c)%nat -> let n := (r `min` (512 - off `mod` 512))%nat in
  exists c', c = S c' /\ (0 < n <= r)%nat /\ (n = r \/ (off + n) `mod` 512 + (r - n) <= 512 * c')%nat.
Proof.
  intros Hr Hc n. pose proof (Nat.mod_upper_bound off 512). destruct c as [|c]; [lia|]. exists c.
  split; [done|]. split; [lia|]. destruct (decide (r <= 512 - off `mod` 512)%nat); [left; lia|right].
  replace ((off + n) `mod` 512)%nat with 0%nat; [lia|]. symmetry. apply Nat.Div0.mod_divides. exists (S (off / 512)).
  pose proof (Nat.div_mod_eq off 512). lia.
Qed.

Lemma src_is_frame i k k' src ds : fs_frame i k k' -> src_is k src ds -> src_is k' src ds.
Proof.
  intros F Hs. destruct (fs_frame_mem _ _ _ F) as [Em Ec]. destruct src as [a|bs]; [|done].
  intros j b Hj. rewrite Em, Ec. by apply Hs.
Qed.

Lemma slice_drop_app ds tot n : (tot + n <= length ds)%nat -> slice ds tot n ++ drop (tot + n) ds = drop tot ds.
Proof. intros H. unfold slice. rewrite <-drop_drop. apply take_drop. Qed.

(** The outcome of the loop, with [tot] bytes written before. *)
Definition wrote (k : kernel) (i : nat) (ip : inode) (m : gmap Z Z) (ind : option Z) (data ds : list Z) (tot off : nat)
    (o : outcome kernel Z) : Prop :=
  exists k' bs' ip' m' ind' L', o = Ok (Z.of_nat (off + (length ds - tot))) k' /\
    writing k' bs' i ip' m' ind' (splice data off (drop tot ds)) L' 0 /\
    changed k i ip m ind k' ip' m' ind' /\ ((off + (length ds - tot) <= length data)%nat -> ip' = ip).

Lemma wrote_all k bs i ip m ind data L c ds off fuel src :
  writing k bs i ip m ind data L c -> (off <= length data)%nat ->
  wrote k i ip m ind data ds (length ds) off
    (writei_from fuel i src (Z.of_nat (length ds)) (Z.of_nat off) (Z.of_nat (length ds)) k).
Proof.
  intros Hwr Hoff. exists k, bs, ip, m, ind, L. rewrite drop_all, overwrite_nil, Nat.sub_diag, Nat.add_0_r by done.
  split_and!; [|by eapply writing_le; [|done]; lia|apply changed_refl|done..].
  by destruct fuel; cbn [writei_from]; rewrite (proj2 (Z.ltb_ge _ _)) by lia.
Qed.

Lemma writei_from_run fuel k bs i ip m ind data L c src ds tot off :
  writing k bs i ip m ind data L c -> src_is k src ds -> (tot <= length ds)%nat -> (off <= length data)%nat ->
  Z.of_nat (off + (length ds - tot)) <= 140 * 512 ->
  (tot = length ds \/ off `mod` 512 + (length ds - tot) <= 512 * c)%nat -> (c <= fuel)%nat ->
  wrote k i ip m ind data ds tot off
    (writei_from fuel i src (Z.of_nat tot) (Z.of_nat off) (Z.of_nat (length ds)) k).
Proof.
  revert k bs ip m ind data L c tot off. induction fuel as [|fuel IH];
    intros k bs ip m ind data L c tot off Hwr Hsrc Htot Hoff Hmax Hc Hfuel;
    (destruct (decide (tot = length ds)) as [->|Hne]; [by eapply wrote_all|]); [lia|].
  cbn [writei_from]. rewrite (proj2 (Z.ltb_lt _ _)) by lia. cbn [negb]. destruct Hc as [?|Hc]; [done|].
  destruct (round_left off (length ds - tot) c ltac:(lia) Hc) as (c' & -> & Hn & Hleft).
  destruct (round_size off (length ds - tot)) as [Emin Hfit].
  set (n := ((length ds - tot) `min` (512 - off `mod` 512))%nat) in *.
  replace (Z.of_nat (length ds) - Z.of_nat tot) with (Z.of_nat (length ds - tot)) by lia. rewrite Emin, Nat2Z.id.
  change BSIZE with 512. destruct (byte_block off) as [_ ->].
  destruct (write_round k bs i ip m ind data L c' src ds tot off n Hwr Hsrc)
    as (k1 & bs1 & ip1 & m1 & ind1 & L1 & E & Hwr1 & Hch1 & Hip1); [lia|done|done|lia|].
  rewrite E. assert (Hs : length (slice ds tot n) = n) by (apply length_slice; lia).
  destruct (IH k1 bs1 ip1 m1 ind1 (splice data off (slice ds tot n)) L1 c' (tot + n)%nat (off + n)%nat)
    as (k' & bs' & ip' & m' & ind' & L' & E' & Hwr' & Hch' & Hip'); try done; try lia.
  { eapply src_is_frame; [|done]. apply Hch1. }
  { rewrite length_overwrite by done. lia. }
  exists k', bs', ip', m', ind', L'. replace (Z.of_nat tot + Z.of_nat n) with (Z.of_nat (tot + n)) by lia.
  replace (Z.of_nat off + Z.of_nat n) with (Z.of_nat (off + n)) by lia. rewrite E'. split_and!.
  - do 2 f_equal. lia.
  - pose proof (overwrite_app data off (slice ds tot n) (drop (tot + n) ds) Hoff) as Eo. rewrite Hs in Eo.
    rewrite Eo, slice_drop_app in Hwr' by lia. exact Hwr'.
  - by eapply changed_trans.
  - intros Hle. rewrite Hip', Hip1; [done|lia|]. rewrite length_overwrite by done. lia.
Qed.

(** ** writei *)

(** The inode [i] of the cache is the file [data]: its blocks hold the data, and the inode
    on the disk is the one of the cache. *)
Record file_is (k : kernel) (i : nat) (ip : inode) (m : gmap Z Z) (ind : option Z) (data : list Z) : Prop := FileIs {
  fi_maps : maps k i ip m ind;
  fi_type : di_type (i_d ip) <> T_DEV;
  fi_typed : typed_dinode (i_d ip);
  fi_size : di_size (i_d ip) = Z.of_nat (length data);
  fi_max : Z.of_nat (length data) <= MAXFILE * BSIZE;
  fi_holds : holds k m data;
  fi_inum : has_inode k (i_inum ip);
  fi_saved : dinode_at (content k (IBLOCK (i_inum ip) (k_sb k))) (dinode_off (i_inum ip)) = i_d ip
}.

(** The block of the inode is none of the file's. *)
Lemma inode_block k i ip m ind inum :
  layout k -> maps k i ip m ind -> has_inode k inum -> let ib := IBLOCK inum (k_sb k) in
  ~ owns m ind ib /\ ~ is_bitmap k ib /\ (0 <= ib < sb_size (k_sb k) -> in_use k ib = true).
Proof.
  intros Hl Hm Hh ib. destruct (IBLOCK_inodes _ _ Hl Hh) as (Hi & _ & _ & Nb). split_and!; [|done|].
  - intros Ho. destruct (owns_block _ _ _ _ _ _ Hm Ho) as (_ & _ & (_ & _ & _ & Ni)). done.
  - intros R. destruct (in_use k ib) eqn:U; [done|]. destruct (la_meta _ Hl _ R U) as (_ & _ & _ & Ni). done.
Qed.

Lemma maps_addrs k i ip m ind : layout k -> maps k i ip m ind -> Forall in_u32 (di_addrs (i_d ip)).
Proof.
  intros Hl Hm. pose proof (la_size _ Hl). apply Forall_lookup_2. intros j a Hj.
  assert (Hb : forall o, (forall b, o = Some b -> file_block k b) -> in_u32 (default 0 o)).
  { intros [b|] Ho; cbn; [|unfold in_u32; lia]. destruct (Ho b eq_refl) as (? & _). unfold in_u32. lia. }
  assert (Hlt : (j < 13)%nat) by (rewrite <-(mp_len _ _ _ _ _ Hm); by eapply lookup_lt_Some).
  destruct (decide (j = 12%nat)) as [->|Hne].
  - rewrite (mp_ind _ _ _ _ _ Hm) in Hj. injection Hj as <-. apply Hb. apply Hm.
  - pose proof (mp_direct _ _ _ _ _ Hm (Z.of_nat j) ltac:(lia)) as Hd. rewrite Nat2Z.id, Hj in Hd. injection Hd as ->.
    apply Hb. apply Hm.
Qed.

Lemma typed_with_addrs ip a :
  typed_dinode (i_d ip) -> length a = 13%nat -> Forall in_u32 a -> typed_dinode (i_d (with_addrs a ip)).
Proof. intros [? ? ? ? ? ? ?] Hl Ha. by split. Qed.

(** The file after the loop, when it has not grown. *)
Lemma file_kept k i ip m ind data data' k' bs' m' ind' L' :
  layout k -> file_is k i ip m ind data -> writing k' bs' i ip m' ind' data' L' 0 ->
  changed k i ip m ind k' ip m' ind' -> length data' = length data -> file_is k' i ip m' ind' data'.
Proof.
  intros Hl [H1 H2 H3 H4 H5 H6 H7 H8] [W1 W2 W3 W4 W5 W6 W7 W8] [F U R O I] Hlen.
  destruct (inode_block k i ip m ind (i_inum ip) Hl H1 H7) as (No & Nb & Ui).
  split; try done; rewrite ?Hlen; try done.
  - unfold has_inode. by rewrite (fs_frame_sb _ _ _ F).
  - rewrite (fs_frame_sb _ _ _ F). by rewrite R.
Qed.

(** What writei leaves of the rest: the blocks in use stay in use, the blocks the file gets
    were free, the other blocks keep their contents, and so do the other inodes. *)
Record file_frame (k : kernel) (i : nat) (ip : inode) (m : gmap Z Z) (ind : option Z)
    (k' : kernel) (ip' : inode) (m' : gmap Z Z) (ind' : option Z) : Prop := FileFrame {
  ff_frame : fs_frame i k k';
  ff_use : forall b, 0 <= b < sb_size (k_sb k) -> in_use k b = true -> in_use k' b = true;
  ff_owns : forall b, owns m' ind' b -> owns m ind b \/ 0 <= b < sb_size (k_sb k) /\ in_use k b = false;
  ff_rest : forall b, (0 <= b < sb_size (k_sb k) -> in_use k b = true) -> ~ is_bitmap k b -> ~ owns m ind b ->
    b <> IBLOCK (i_inum ip) (k_sb k) -> content k' b = content k b;
  ff_inodes : forall o n, (o + n <= dinode_off (i_inum ip) \/ dinode_off (i_inum ip) + 64 <= o)%nat ->
    slice (content k' (IBLOCK (i_inum ip) (k_sb k))) o n = slice (content k (IBLOCK (i_inum ip) (k_sb k))) o n;
  ff_ip : ip' = with_di (with_isize (di_size (i_d ip')) (with_iaddrs (di_addrs (i_d ip')) (i_d ip))) ip
}.

(** A block that is neither the file's nor the bitmap's is changed. *)
Lemma maps_other k k' i ip m ind x :
  layout k -> maps k i ip m ind -> tx_frame k k' -> ~ is_bitmap k x -> ~ owns m ind x ->
  (forall b, b <> x -> content k' b = content k b) ->
  layout k' /\ maps k' i ip m ind /\ (forall data, holds k m data -> holds k' m data) /\
  forall b, 0 <= b < sb_size (k_sb k) -> in_use k' b = in_use k b.
Proof.
  intros Hl Hm F Nb No C.
  assert (Hu : forall b, 0 <= b < sb_size (k_sb k) -> in_use k' b = in_use k b).
  { intros b. apply in_use_bitmap; [done|by apply frame_sb|]. intros b' Hb'. apply C. by intros ->. }
  split_and!; [| | |done].
  - apply (layout_change k); [done..|]. intros b Hb Ub. left. by rewrite <-Hu.
  - apply (maps_frame k); [done| | |].
    + rewrite (tx_frame_inodes _ _ F). apply Hm.
    + intros b (R & U & D). unfold file_block. by rewrite (frame_sb _ _ F), Hu, data_area_frame.
    + intros b Hb. apply C. intros ->. apply No. by left.
  - intros data Hh y Hy. rewrite <-(Hh y Hy). unfold byte_at. destruct (m !! (Z.of_nat y / 512)) as [b|] eqn:Hb; [|done].
    cbn [mbind option_bind]. rewrite C; [done|]. intros ->. apply No. right. by eexists.
Qed.

Definition with_size (n : Z) (ip : inode) : inode := with_di (with_isize n (i_d ip)) ip.

Lemma maps_resize k i ip m ind n :
  maps k i ip m ind -> maps (set_inodes (<[i := with_size n ip]> (k_inodes k)) k) i (with_size n ip) m ind.
Proof.
  intros [H1 H2 H3 H4 H5 H6 H7 H8 H9 H10 H11]. split; try done.
  cbn [k_inodes set_inodes]. apply list_lookup_insert_eq. by eapply lookup_lt_Some.
Qed.

(** The file after the loop, when it has grown. *)
Lemma file_grown k i ip m ind data k' bs' ip' m' ind' data' L' :
  layout k -> file_is k i ip m ind data -> writing k' bs' i ip' m' ind' data' L' 0 ->
  changed k i ip m ind k' ip' m' ind' -> Z.of_nat (length data') <= MAXFILE * BSIZE ->
  exists k'' bs'', (upd_di i (with_isize (Z.of_nat (length data'))) ;;; iupdate i) k' = Ok tt k'' /\
    txn k'' ∅ bs'' /\ layout k'' /\ file_is k'' i (with_size (Z.of_nat (length data')) ip') m' ind' data' /\
    file_frame k i ip m ind k'' (with_size (Z.of_nat (length data')) ip') m' ind'.
Proof.
  intros Hl [H1 H2 H3 H4 H5 H6 H7 H8] [W1 W2 W3 W4 W5 W6 W7 W8] [F U R O I] Hmax.
  set (sz := Z.of_nat (length data')) in *. set (ip2 := with_size sz ip').
  set (k1 := set_inodes (<[i := ip2]> (k_inodes k')) k').
  assert (Ei : i_inum ip2 = i_inum ip) by (unfold ip2; rewrite I; done).
  assert (F1 : fs_frame i k k1) by (etrans; [exact F|apply fs_frame_set]).
  assert (Hm1 : maps k1 i ip2 m' ind') by (by apply maps_resize).
  assert (Hh1 : has_inode k1 (i_inum ip2)) by (unfold has_inode; by rewrite (fs_frame_sb _ _ _ F1), Ei).
  assert (Hl1 : layout k1) by (by apply layout_set_inodes).
  destruct (iupdate_run k1 bs' i ip2) as (k2 & E & Ht & Ft & C); try done.
  { by apply txn_set_inodes. }
  { apply Hm1. }
  { apply Hm1. }
  { apply Hm1. }
  { eapply within_space; [by apply W1|done|]. apply (fs_frame_space i k'); [apply fs_frame_set|]. eapply space_le; [|done]. lia. }
  rewrite Ei, (fs_frame_sb _ _ _ F1) in C, Ht. set (ib := IBLOCK (i_inum ip) (k_sb k)) in *.
  destruct (inode_block k1 i ip2 m' ind' (i_inum ip2) Hl1 Hm1 Hh1) as (No & Nb & _).
  rewrite Ei, (fs_frame_sb _ _ _ F1) in No, Nb. fold ib in No, Nb.
  destruct (inode_block k i ip m ind (i_inum ip) Hl H1 H7) as (No0 & Nb0 & U0). fold ib in No0, Nb0, U0.
  destruct (maps_other k1 k2 i ip2 m' ind' ib Hl1 Hm1 Ft Nb No) as (Hl2 & Hm2 & Hd2 & Hu2).
  { intros b Hb. by rewrite C, decide_False. }
  assert (F2 : fs_frame i k k2) by (etrans; [exact F1|by apply fs_frame_tx]).
  assert (Hlen : (dinode_off (i_inum ip) + 64 <= length (content k1 ib))%nat).
  { rewrite (length_txn_content k1 ∅ bs') by (by apply txn_set_inodes). apply dinode_off_fits. }
  assert (Hty : typed_dinode (i_d ip2)).
  { pose proof (maps_addrs _ _ _ _ _ W2 W3) as Ha. pose proof (mp_len _ _ _ _ _ W3) as Hn. revert H3.
    unfold ip2, with_size, with_di, with_isize. rewrite I in *. intros [? ? ? ? ? ? ?]. split; try done.
    unfold in_u32. cbn. revert Hmax. change (MAXFILE * BSIZE) with 71680. lia. }
  exists k2, (absorb ib bs'). split_and!; [|done..| |].
  - unfold upd_di, upd_inode. rewrite (obind_ok _ _ _ _ _ (upd_at_ok k_inodes set_inodes i _ k' ip' (mp_inode _ _ _ _ _ W3))).
    exact E.
  - split; try done.
    + unfold ip2. rewrite I. done.
    + by apply Hd2.
    + unfold has_inode. by rewrite (fs_frame_sb _ _ _ F2), Ei.
    + rewrite Ei, (fs_frame_sb _ _ _ F2). fold ib. rewrite C, decide_True by done. by apply dinode_at_put_dinode.
  - split; try done.
    + intros b Hb Ub. rewrite Hu2 by (by rewrite (fs_frame_sb _ _ _ F1)). by apply U.
    + intros b Ub Nbb Nob Hne. rewrite C, decide_False by done. by apply R.
    + intros o n Ho. rewrite C, decide_True by done. rewrite slice_put_dinode by (done || apply Hty).
      change (content k1 ib) with (content k' ib). by rewrite R.
    + unfold ip2. by rewrite I.
Qed.

(** The blocks a transfer of [n] bytes at [off] touches. *)
Definition blocks (off n : nat) : nat := ((off `mod` 512 + n + 511) / 512)%nat.

Lemma blocks_enough off n : (off `mod` 512 + n <= 512 * blocks off n)%nat /\
  (blocks off n <= Z.to_nat (Z.of_nat n / BSIZE + 2))%nat.
Proof.
  unfold blocks. pose proof (Nat.mod_upper_bound off 512). set (x := (off `mod` 512 + n + 511)%nat).
  pose proof (Nat.div_mod_eq x 512). pose proof (Nat.mod_upper_bound x 512). split; [lia|].
  change BSIZE with 512. destruct (byte_block n) as [-> _]. pose proof (Nat.div_mod_eq n 512).
  pose proof (Nat.mod_upper_bound n 512). lia.
Qed.

Definition bitmap_blocks (k : kernel) : list Z := seqZ (sb_bmapstart (k_sb k)) ((sb_size (k_sb k) - 1) / BPB + 1).

Lemma writing_start k bs i ip m ind data c :
  txn k ∅ bs -> layout k -> maps k i ip m ind -> holds k m data ->
  space k ∅ bs (length (bitmap_blocks k) + c + 4) -> avail k (S c) ->
  writing k bs i ip m ind data (bs ++ bitmap_blocks k ++ from_option (fun x => [x]) [] ind) c.
Proof.
  intros Ht Hl Hm Hh Hsp Ha. split; try done.
  - intros b Hb. apply elem_of_app. by left.
  - split; intros b Hb; apply elem_of_app; right; apply elem_of_app.
    + left. apply elem_of_seqZ. unfold is_bitmap in Hb. lia.
    + right. subst ind. apply elem_of_cons. by left.
  - revert Hsp. unfold space. rewrite !length_app. destruct ind; cbn [missing from_option length]; lia.
  - eapply avail_le; [|done]. destruct ind; cbn [missing]; lia.
Qed.

Lemma changed_frame k i ip m ind data k' ip' m' ind' :
  layout k -> file_is k i ip m ind data -> changed k i ip m ind k' ip' m' ind' -> file_frame k i ip m ind k' ip' m' ind'.
Proof.
  intros Hl [H1 _ _ _ _ _ H7 _] [F U R O I]. destruct (inode_block k i ip m ind (i_inum ip) Hl H1 H7) as (No & Nb & Ui).
  split; try done.
  - intros b Ub Nbb Nob _. by apply R.
  - intros o n _. by rewrite R.
  - rewrite I at 1. by rewrite I.
Qed.

(** writei around its loop. *)
Lemma writei_loop k i ip m ind data src off n k' :
  file_is k i ip m ind data -> (off <= length data)%nat -> Z.of_nat (off + n) <= MAXFILE * BSIZE ->
  writei_from (Z.to_nat (Z.of_nat n / BSIZE + 2)) i src 0 (Z.of_nat off) (Z.of_nat n) k = Ok (Z.of_nat (off + n)) k' ->
  writei i src (Z.of_nat off) (Z.of_nat n) k =
    (ip <- get_inode i ;; when ((Z.of_nat n >? 0) && (Z.of_nat (off + n) >? di_size (i_d ip)))
       (upd_di i (with_isize (Z.of_nat (off + n))) ;;; iupdate i) ;;; ret (Z.of_nat n)) k'.
Proof.
  intros [H1 H2 H3 H4 H5 _ _ _] Hoff Hmax E. change (MAXFILE * BSIZE) with 71680 in *.
  unfold writei. unfold get_inode at 1. krun (read_at_ok k_inodes i k ip (mp_inode _ _ _ _ _ H1)).
  rewrite (proj2 (Z.eqb_neq _ _) H2), H4. rewrite u32_small by (unfold in_u32; lia).
  rewrite Z.gtb_ltb, (proj2 (Z.ltb_ge _ _)), (proj2 (Z.ltb_ge _ _)) by lia. cbn [orb].
  change (MAXFILE * BSIZE) with 71680. rewrite Z.gtb_ltb, (proj2 (Z.ltb_ge _ _)) by lia. krun E.
  rewrite s32_small; [done|]. unfold in_s32. lia.
Qed.

Lemma writei_refuses k i ip m ind data src off n :
  file_is k i ip m ind data -> in_u32 off -> in_u32 n -> Z.of_nat (length data) < off \/ MAXFILE * BSIZE < off + n ->
  writei i src off n k = Ok (-1) k.
Proof.
  intros [H1 H2 H3 H4 H5 _ _ _] Ho Hn Hbad. change (MAXFILE * BSIZE) with 71680 in *.
  unfold writei. unfold get_inode at 1. krun (read_at_ok k_inodes i k ip (mp_inode _ _ _ _ _ H1)).
  rewrite (proj2 (Z.eqb_neq _ _) H2), H4. change (MAXFILE * BSIZE) with 71680.
  assert (Hu : u32 (off + n) = off + n \/ u32 (off + n) < off) by mach.
  destruct ((off >? Z.of_nat (length data)) || (u32 (off + n) <? off)) eqn:Hb; [done|].
  apply orb_false_iff in Hb as [Hb1 Hb2]. rewrite Z.gtb_ltb in Hb1. apply Z.ltb_ge in Hb1, Hb2.
  rewrite (proj2 (Z.gtb_lt _ _)) by lia. done.
Qed.

Lemma writei_run k bs i ip m ind data src ds off :
  txn k ∅ bs -> layout k -> file_is k i ip m ind data ->
  src_is k src ds -> (off <= length data)%nat -> Z.of_nat (off + length ds) <= MAXFILE * BSIZE ->
  space k ∅ bs (length (bitmap_blocks k) + blocks off (length ds) + 4) -> avail k (S (blocks off (length ds))) ->
  exists k' bs' ip' m' ind', writei i src (Z.of_nat off) (Z.of_nat (length ds)) k = Ok (Z.of_nat (length ds)) k' /\
    txn k' ∅ bs' /\ layout k' /\ file_is k' i ip' m' ind' (splice data off ds) /\
    file_frame k i ip m ind k' ip' m' ind'.
Proof.
  intros Ht Hl Hf Hsrc Hoff Hmax Hsp Ha. pose proof Hf as [H1 _ _ H4 H5 H6 _ _].
  destruct (blocks_enough off (length ds)) as [Hb1 Hb2].
  pose proof (writing_start k bs i ip m ind data _ Ht Hl H1 H6 Hsp Ha) as Hwr.
  destruct (writei_from_run (Z.to_nat (Z.of_nat (length ds) / BSIZE + 2)) k bs i ip m ind data _ _ src ds 0 off Hwr Hsrc)
    as (k' & bs' & ip' & m' & ind' & L' & E & Hwr' & Hch & Hip); [lia|done| |right; lia|done|].
  { revert Hmax. change (MAXFILE * BSIZE) with (140 * 512). lia. }
  rewrite Nat.sub_0_r in *. change (drop 0 ds) with ds in Hwr'. change (Z.of_nat 0) with 0 in E.
  rewrite (writei_loop _ _ _ _ _ _ _ _ _ _ Hf Hoff Hmax E).
  pose proof (length_overwrite data off ds Hoff) as Hlen.
  assert (Hsz : di_size (i_d ip') = Z.of_nat (length data)) by (rewrite (ch_ip _ _ _ _ _ _ _ _ _ Hch); exact H4).
  unfold get_inode. krun (read_at_ok k_inodes i k' ip' (mp_inode _ _ _ _ _ (wt_maps _ _ _ _ _ _ _ _ _ Hwr'))). rewrite Hsz.
  destruct (decide (off + length ds <= length data)%nat) as [Hle|Hgt].
  - rewrite Hip in * by done. exists k', bs', ip, m', ind'. rewrite (Z.gtb_ltb (Z.of_nat (off + _))), (proj2 (Z.ltb_ge _ _)) by lia.
    rewrite andb_false_r. split_and!; [done|apply Hwr'|apply Hwr'| |by eapply changed_frame].
    eapply file_kept; try done. lia.
  - rewrite !(proj2 (Z.gtb_lt _ _)) by lia. cbn [andb when].
    replace (off + length ds)%nat with (length (splice data off ds)) by lia.
    destruct (file_grown k i ip m ind data k' bs' ip' m' ind' _ L' Hl Hf Hwr' Hch) as (k2 & bs2 & E2 & Ht2 & Hl2 & Hf2 & Hff).
    { rewrite Hlen. lia. }
    eexists k2, bs2, _, m', ind'. split_and!; [|done..]. by krun E2.
Qed.

(** C33.  writei on a file is an assignment to a range of an array of bytes.  It returns
    the number of bytes, and afterwards the file has the new bytes in this range, is as long
    as the write needs, and is otherwise unchanged; the inode on the disk has the new size
    and the new blocks.  The blocks the file gets were free, no block in use is freed, and no
    other block, inode, or file changes.  A write that starts behind the end, or ends
    behind the longest file, returns -1 and changes nothing, also where the end overflows
    32 bits. *)
Theorem writei_assigns k bs i ip m ind data src :
  txn k ∅ bs -> layout k -> file_is k i ip m ind data ->
  (forall ds off, src_is k src ds -> (off <= length data)%nat -> Z.of_nat (off + length ds) <= MAXFILE * BSIZE ->
    space k ∅ bs (length (bitmap_blocks k) + blocks off (length ds) + 4) -> avail k (S (blocks off (length ds))) ->
    exists k' bs' ip' m' ind', writei i src (Z.of_nat off) (Z.of_nat (length ds)) k = Ok (Z.of_nat (length ds)) k' /\
      txn k' ∅ bs' /\ layout k' /\ file_is k' i ip' m' ind' (splice data off ds) /\
      file_frame k i ip m ind k' ip' m' ind') /\
  (forall off n, in_u32 off -> in_u32 n -> Z.of_nat (length data) < off \/ MAXFILE * BSIZE < off + n ->
    writei i src off n k = Ok (-1) k).
Proof.
  intros Ht Hl Hf. split.
  - intros ds off. by apply writei_run.
  - intros off n. by eapply writei_refuses.
Qed.

End Data.
