(* ===== verification/FileRead.v ===== *)
(** * Reading a file: readi of src/fs.c

    readi returns a range of the bytes of the file, and stores them at an address or in an
    object of the caller. *)

From S2P Require Import Prelude Mem State Spinlock Kalloc Vm Umem Sched Sleeplock Bio Bcache Block Log Recovery Txn LogOps Inode Console Fs File PipeFifo Bitmap FileMap InodeDisk FileData.

(** ** Changes of memory *)

Lemma txn_set_mem k op bs mm : txn k op bs -> txn (set_mem mm k) op bs.
Proof.
  intros [(mru & held & Hk & Hh) Hr ? ? ? ? ?]. split; try done.
  - exists mru, held. split; [|done]. destruct Hk as [? ? ? ? ? ? ? ?]. by split.
  - by eapply ready_env.
Qed.

Lemma layout_set_mem k mm : layout k -> layout (set_mem mm k).
Proof. intros [? ? ? ? ? ?]. by split. Qed.

Lemma maps_set_mem k mm i ip m ind : maps k i ip m ind -> maps (set_mem mm k) i ip m ind.
Proof. intros [? ? ? ? ? ? ? ? ? ? ?]. by split. Qed.

(** [k'] is [k] with memory [mm], and with other blocks cached. *)
Definition read_frame (mm : mem) (k k' : kernel) : Prop :=
  tx_frame (set_mem mm k) k' /\ forall b, content k' b = content k b.

Lemma read_frame_mem mm k k' : read_frame mm k k' -> k_mem k' = mm /\ k_cpu k' = k_cpu k.
Proof. intros [F _]. by rewrite (tf_rest _ _ F). Qed.

Lemma read_frame_trans m1 m2 k1 k2 k3 : read_frame m1 k1 k2 -> read_frame m2 k2 k3 -> read_frame m2 k1 k3.
Proof.
  intros [[E1 A1 S1 L1] C1] [F2 C2]. split; [|intros b; by rewrite C2]. etrans; [|exact F2].
  split; [|done..]. rewrite E1 at 1. done.
Qed.

Lemma read_frame_file mm k k' i ip m ind data :
  read_frame mm k k' -> file_is k i ip m ind data -> file_is k' i ip m ind data.
Proof.
  intros [F C] [H1 H2 H3 H4 H5 H6 H7 H8]. split; try done.
  - eapply maps_tx; [exact F|exact C|]. by apply maps_set_mem.
  - intros x Hx. rewrite <-(H6 x Hx). unfold byte_at. destruct (m !! _); [|done]. cbn [mbind option_bind]. by rewrite C.
  - unfold has_inode. by rewrite (frame_sb _ _ F).
  - rewrite (frame_sb _ _ F), C. done.
Qed.

Lemma read_frame_layout mm k k' : read_frame mm k k' -> layout k -> layout k'.
Proof. intros [F C] Hl. eapply layout_frame; [exact F|exact C|]. by apply layout_set_mem. Qed.

(** ** The destination *)

Definition dst_ok (k : kernel) (dst : option Z) (n : nat) (loc : nat -> Z) : Prop :=
  match dst with Some a => writable k a n loc | None => True end.

(** [bs] was stored from byte [tot] of the destination on. *)
Definition dst_stored (dst : option Z) (m : mem) (loc : nat -> Z) (tot : nat) (bs : list Z) (m' : mem) : Prop :=
  match dst with
  | Some _ => stored m (fun j => loc (tot + j)%nat) bs m'
  | None => m' = m
  end.

Lemma writable_store k k' a n loc :
  writable k a n loc -> k_cpu k' = k_cpu k ->
  (forall x, (forall i, (i < n)%nat -> x <> loc i) -> ld8 (k_mem k') x = ld8 (k_mem k) x) -> writable k' a n loc.
Proof.
  intros [Hw Hi] Ec Hm. split; [|done]. intros m Hx i Hlt. rewrite Ec. apply Hw; [|done].
  intros x Hxi. rewrite Hx by done. by apply Hm.
Qed.

Lemma stored_app m m1 m2 loc b1 b2 :
  stored m loc b1 m1 -> stored m1 (fun j => loc (length b1 + j)%nat) b2 m2 ->
  (forall i j, (i < length b1 + length b2)%nat -> (j < length b1 + length b2)%nat -> loc i = loc j -> i = j) ->
  stored m loc (b1 ++ b2) m2.
Proof.
  intros [H1 R1] [H2 R2] Hi. split.
  - intros i b Hb. apply lookup_app_Some in Hb as [Hb|[Hge Hb]].
    + pose proof (lookup_lt_Some _ _ _ Hb). rewrite R2; [by apply H1|]. intros j Hj E. apply Hi in E; lia.
    + rewrite <-(H2 _ _ Hb). do 2 f_equal. lia.
  - intros x Hx. rewrite length_app in Hx. rewrite R2, R1; [done| |]; intros j Hj; apply Hx; lia.
Qed.

Lemma stored_ext m loc loc' bs m' :
  (forall i, (i < length bs)%nat -> loc i = loc' i) -> stored m loc bs m' -> stored m loc' bs m'.
Proof.
  intros He [H1 R1]. split.
  - intros i b Hb. rewrite <-He by (by eapply lookup_lt_Some). by apply H1.
  - intros x Hx. apply R1. intros i Hi. rewrite He by done. by apply Hx.
Qed.

Lemma stored_one m loc b : in_u8 b -> stored m loc [b] (st8 m (loc 0%nat) b).
Proof.
  intros Hb. split.
  - intros [|i] c Hc; [|done]. injection Hc as <-. rewrite ld8_st8, decide_True by done. mach.
  - intros x Hx. rewrite ld8_st8, decide_False; [done|]. apply Hx. cbn. lia.
Qed.

Lemma store_bytes_writable a n loc bs : forall k tot,
  writable k a n loc -> (tot + length bs <= n)%nat -> Forall in_u8 bs ->
  exists m', store_bytes (u64 (a + Z.of_nat tot)) bs k = Ok tt (set_mem m' k) /\
    stored (k_mem k) (fun j => loc (tot + j)%nat) bs m'.
Proof.
  induction bs as [|b bs IH]; intros k tot Hw Hn H8; cbn [store_bytes length] in *.
  { exists (k_mem k). split; [by destruct k|by split]. }
  apply Forall_cons in H8 as [Hb H8]. pose proof (wr_at _ _ _ _ Hw (k_mem k) (fun _ _ => eq_refl) tot ltac:(lia)) as Ex.
  set (k1 := set_mem (st8 (k_mem k) (loc tot) b) k).
  rewrite (obind_ok _ _ _ tt k1) by (unfold store8; by rewrite Ex).
  rewrite u64_add_u64. replace (a + Z.of_nat tot + 1) with (a + Z.of_nat (S tot)) by lia.
  destruct (IH k1 (S tot)) as (m' & E & Hs); [|lia|done|].
  { apply (writable_store k); [done..|]. intros x Hx. cbn. rewrite ld8_st8, decide_False; [done|]. apply Hx. lia. }
  exists m'. rewrite E. split; [done|]. apply (stored_app _ (k_mem k1) _ _ [b]).
  - pose proof (stored_one (k_mem k) (fun j => loc (tot + j)%nat) b Hb) as H1. cbn beta in H1. by rewrite Nat.add_0_r in H1.
  - eapply stored_ext; [|exact Hs]. intros i _. cbn [length]. by replace (tot + (1 + i))%nat with (S tot + i)%nat by lia.
  - cbn [length]. intros i j Hi Hj El. apply (wr_inj _ _ _ _ Hw) in El; lia.
Qed.

Lemma put_dst_run k dst n loc tot bs :
  dst_ok k dst n loc -> (tot + length bs <= n)%nat -> Forall in_u8 bs ->
  exists m', put_dst dst (Z.of_nat tot) bs k = Ok tt (set_mem m' k) /\ dst_stored dst (k_mem k) loc tot bs m'.
Proof.
  intros Hd Hn H8. destruct dst as [a|]; cbn [put_dst dst_ok dst_stored] in *.
  - by eapply store_bytes_writable.
  - exists (k_mem k). split; [by destruct k|done].
Qed.

Lemma dst_stored_app k dst n loc tot b1 b2 m1 m2 :
  dst_ok k dst n loc -> (tot + length b1 + length b2 <= n)%nat ->
  dst_stored dst (k_mem k) loc tot b1 m1 -> dst_stored dst m1 loc (tot + length b1) b2 m2 ->
  dst_stored dst (k_mem k) loc tot (b1 ++ b2) m2.
Proof.
  intros Hd Hn H1 H2. destruct dst as [a|]; cbn [dst_ok dst_stored] in *; [|congruence].
  eapply stored_app; [exact H1| |].
  - eapply stored_ext; [|exact H2]. intros i _. by rewrite Nat.add_assoc.
  - intros i j Hi Hj El. apply (wr_inj _ _ _ _ Hd) in El; lia.
Qed.

Lemma dst_ok_store k k' dst n loc tot bs :
  dst_ok k dst n loc -> k_cpu k' = k_cpu k -> (tot + length bs <= n)%nat ->
  dst_stored dst (k_mem k) loc tot bs (k_mem k') -> dst_ok k' dst n loc.
Proof.
  intros Hd Ec Hn Hs. destruct dst as [a|]; cbn [dst_ok dst_stored] in *; [|done].
  apply (writable_store k); [done..|]. intros x Hx. apply (proj2 Hs). intros i Hi. apply Hx. lia.
Qed.

(** A part of the data that lies in one block. *)
Lemma holds_slice k m data off n :
  holds k m data -> (0 < n)%nat -> (off + n <= length data)%nat -> (off `mod` 512 + n <= 512)%nat ->
  exists b, m !! Z.of_nat (off / 512) = Some b /\ slice (content k b) (off `mod` 512) n = slice data off n.
Proof.
  intros Hh Hn Hlen Hfit. destruct (holds_block _ _ _ off Hh ltac:(lia)) as [b Hb]. destruct (byte_block off) as [Eo _].
  rewrite Eo in Hb. exists b. split; [done|]. apply list_eq. intros j. rewrite !lookup_slice. destruct (decide (j < n)%nat) as [Hj|]; [|done].
  rewrite <-(Hh (off + j)%nat) by lia. unfold byte_at. destruct (byte_block (off + j)) as [-> ->].
  assert ((off + j) / 512 = off / 512 /\ (off + j) `mod` 512 = off `mod` 512 + j)%nat as [-> ->].
  { pose proof (Nat.div_mod_eq off 512). split; symmetry.
    - apply (Nat.div_unique _ _ _ (off `mod` 512 + j)); lia.
    - apply (Nat.mod_unique _ _ (off / 512)); lia. }
  by rewrite Hb.
Qed.

Section Read.
  Context {patience_bound : Patience} {driver : DiskDriver} {driver_ok : DiskOk driver}.

(** One round of the loop of readi. *)
Lemma read_round k bs i ip m ind data dst N loc tot off n :
  txn k ∅ bs -> layout k -> file_is k i ip m ind data -> Forall in_u8 data -> (length bs < NBUF)%nat ->
  dst_ok k dst N loc -> (tot + n <= N)%nat -> (0 < n)%nat -> (off + n <= length data)%nat -> (off `mod` 512 + n <= 512)%nat ->
  exists k' mm,
    (forall A (r : list Z -> K A), (ip <- get_inode i ;; bn <- bmap i (Z.of_nat off / BSIZE) ;; bp <- bread (i_dev ip) bn ;;
       d <- buf_data bp ;; put_dst dst (Z.of_nat tot) (slice d (off `mod` 512) n) ;;; brelse bp ;;;
       r (slice d (off `mod` 512) n)) k = r (slice data off n) k') /\
    txn k' ∅ bs /\ read_frame mm k k' /\ dst_stored dst (k_mem k) loc tot (slice data off n) mm.
Proof.
  intros Ht Hl Hf H8 Hroom Hd HN Hn Hlen Hfit. pose proof Hf as [Hm _ _ _ _ Hh _ _].
  destruct (holds_slice _ _ _ _ _ Hh Hn Hlen Hfit) as (b & Hb & Hsl).
  destruct (bmap_found k bs i ip m ind _ b Ht Hl Hm Hb Hroom) as (k1 & E1 & T1 & F1 & C1).
  destruct (mp_blocks _ _ _ _ _ Hm _ _ Hb) as (R & _ & _). pose proof (la_size _ Hl).
  destruct (txn_bread k1 ∅ bs b T1) as (j & k2 & E2 & T2 & F2 & C2);
    [done|rewrite (tx_frame_disk _ _ F1); lia|rewrite map_size_empty; lia|].
  assert (F12 : tx_frame k k2) by (by etrans). pose proof (tf_rest _ _ F12) as Ek.
  assert (Em : k_mem k2 = k_mem k) by (by rewrite Ek). assert (Ec : k_cpu k2 = k_cpu k) by (by rewrite Ek).
  assert (Hs : length (slice data off n) = n) by (by apply length_slice).
  destruct (put_dst_run k2 dst N loc tot (slice data off n)) as (mm & E3 & Hst).
  { eapply (dst_ok_store k k2 dst N loc 0 []); [done..|cbn; lia|]. rewrite Em. by destruct dst. }
  { lia. }
  { apply Forall_take, Forall_drop, H8. }
  rewrite Em in Hst.
  destruct (txn_brelse (set_mem mm k2) _ bs b j (txn_set_mem _ _ _ mm T2) (lookup_insert_eq _ _ _)) as (k3 & E4 & T4 & F4 & C4).
  rewrite delete_insert_id in T4 by done. exists k3, mm. split_and!; [|done| |done].
  - intros A r. unfold get_inode at 1. krun (read_at_ok k_inodes i k ip (mp_inode _ _ _ _ _ Hm)).
    change BSIZE with 512. destruct (byte_block off) as [-> _]. krun E1. rewrite (mp_dev _ _ _ _ _ Hm). krun E2.
    krun (txn_data _ _ _ _ _ T2 (lookup_insert_eq _ _ _)). rewrite C2, C1, Hsl. krun E3. by krun E4.
  - split.
    + etrans; [|exact F4]. clear -F12. destruct F12 as [E A S L]. split; [|done..]. rewrite E at 1. done.
    + intros b'. rewrite C4. change (content k2 b' = content k b'). by rewrite C2.
Qed.

(** The loop of readi. *)
Lemma readi_from_run fuel k bs i ip m ind data dst N loc c tot off n :
  txn k ∅ bs -> layout k -> file_is k i ip m ind data -> Forall in_u8 data -> (length bs < NBUF)%nat ->
  dst_ok k dst N loc -> (n <= N)%nat -> (tot <= n)%nat -> (off + (n - tot) <= length data)%nat ->
  (tot = n \/ off `mod` 512 + (n - tot) <= 512 * c)%nat -> (c <= fuel)%nat ->
  exists k' mm, readi_from fuel i dst (Z.of_nat tot) (Z.of_nat off) (Z.of_nat n) k = Ok (slice data off (n - tot)) k' /\
    txn k' ∅ bs /\ read_frame mm k k' /\ dst_stored dst (k_mem k) loc tot (slice data off (n - tot)) mm.
Proof.
  revert k c tot off. induction fuel as [|fuel IH]; intros k c tot off Ht Hl Hf H8 Hroom Hd HN Htot Hlen Hc Hfuel;
    (destruct (decide (tot = n)) as [->|Hne];
     [exists k, (k_mem k); rewrite Nat.sub_diag; cbn [readi_from]; rewrite (proj2 (Z.ltb_ge _ _)) by lia;
      split_and!; [done..|split; [by destruct k|done]|destruct dst; [by split|done]]|]); [lia|].
  cbn [readi_from]. rewrite (proj2 (Z.ltb_lt _ _)) by lia. cbn [negb]. destruct Hc as [?|Hc]; [done|].
  destruct (round_left off (n - tot) c ltac:(lia) Hc) as (c' & -> & Hr & Hleft).
  destruct (round_size off (n - tot)) as [Emin Hfit].
  set (r := ((n - tot) `min` (512 - off `mod` 512))%nat) in *.
  replace (Z.of_nat n - Z.of_nat tot) with (Z.of_nat (n - tot)) by lia. rewrite Emin, Nat2Z.id.
  change BSIZE with 512. destruct (byte_block off) as [_ ->].
  destruct (read_round k bs i ip m ind data dst N loc tot off r Ht Hl Hf H8 Hroom Hd) as (k1 & mm1 & E & T1 & F1 & S1);
    [lia..|].
  assert (Hs : length (slice data off r) = r) by (apply length_slice; lia).
  destruct (read_frame_mem _ _ _ F1) as [Em Ec]. rewrite <-Em in S1.
  destruct (IH k1 c' (tot + r)%nat (off + r)%nat) as (k2 & mm2 & E2 & T2 & F2 & S2); try done; try lia.
  { by eapply read_frame_layout. }
  { by eapply read_frame_file. }
  { eapply (dst_ok_store k); [done..| |exact S1]. lia. }
  assert (Es : slice data off r ++ slice data (off + r) (n - (tot + r)) = slice data off (n - tot)).
  { unfold slice. rewrite <-drop_drop, take_take_drop. f_equal. lia. }
  exists k2, mm2. split_and!; [|done|by eapply read_frame_trans|].
  - etrans; [exact (E _ (fun bs => rest <- readi_from fuel i dst (Z.of_nat tot + Z.of_nat r) (Z.of_nat off + Z.of_nat r)
      (Z.of_nat n) ;; ret (bs ++ rest)))|].
    replace (Z.of_nat tot + Z.of_nat r) with (Z.of_nat (tot + r)) by lia.
    replace (Z.of_nat off + Z.of_nat r) with (Z.of_nat (off + r)) by lia. krun E2. by rewrite Es.
  - rewrite <-Es. eapply dst_stored_app; [done| |exact S1|].
    + rewrite Hs, length_slice by lia. lia.
    + by rewrite Hs.
Qed.

Lemma readi_run k bs i ip m ind data dst loc off n :
  txn k ∅ bs -> layout k -> file_is k i ip m ind data -> Forall in_u8 data -> (length bs < NBUF)%nat ->
  (off <= length data)%nat -> in_u32 n -> Z.of_nat off + n < 2 ^ 32 ->
  let r := (Z.to_nat n `min` (length data - off))%nat in
  dst_ok k dst r loc ->
  exists k' mm, readi i dst (Z.of_nat off) n k = Ok (Z.of_nat r, slice data off r) k' /\
    txn k' ∅ bs /\ read_frame mm k k' /\ dst_stored dst (k_mem k) loc 0 (slice data off r) mm.
Proof.
  intros Ht Hl Hf H8 Hroom Hoff Hn Hov r Hd. pose proof Hf as [H1 H2 H3 H4 H5 _ _ _].
  change (MAXFILE * BSIZE) with 71680 in H5. destruct (blocks_enough off r) as [Hb1 Hb2].
  destruct (readi_from_run (Z.to_nat (Z.of_nat r / BSIZE + 2)) k bs i ip m ind data dst r loc (blocks off r) 0 off r)
    as (k' & mm & E & T & F & S); try done; try lia.
  rewrite Nat.sub_0_r in *. exists k', mm. split_and!; [|done..].
  unfold readi. unfold get_inode at 1. krun (read_at_ok k_inodes i k ip (mp_inode _ _ _ _ _ H1)).
  rewrite (proj2 (Z.eqb_neq _ _) H2), H4, u32_small by (unfold in_u32 in *; lia).
  rewrite Z.gtb_ltb, (proj2 (Z.ltb_ge _ _)), (proj2 (Z.ltb_ge (_ + n) _)) by (unfold in_u32 in *; lia). cbn [orb].
  replace (if _ >? _ then _ else n) with (Z.of_nat r).
  2: { rewrite Z.gtb_ltb. unfold in_u32 in *. destruct (Z.ltb_spec (Z.of_nat (length data)) (Z.of_nat off + n)); lia. }
  krun E. rewrite s32_small; [done|]. unfold in_s32. lia.
Qed.

Lemma readi_refuses k i ip m ind data dst off n :
  file_is k i ip m ind data -> in_u32 off -> in_u32 n -> Z.of_nat (length data) < off \/ 2 ^ 32 <= off + n ->
  readi i dst off n k = Ok (-1, []) k.
Proof.
  intros [H1 H2 H3 H4 H5 _ _ _] Ho Hn Hbad. unfold readi. unfold get_inode at 1.
  krun (read_at_ok k_inodes i k ip (mp_inode _ _ _ _ _ H1)). rewrite (proj2 (Z.eqb_neq _ _) H2), H4.
  assert (Hu : Z.of_nat (length data) < off \/ u32 (off + n) < off) by (destruct Hbad; [by left|right; mach]).
  destruct Hu as [Hu|Hu].
  - by rewrite (proj2 (Z.gtb_lt _ _)) by lia.
  - rewrite (proj2 (Z.ltb_lt _ _)) by done. by rewrite orb_true_r.
Qed.


End Read.

(** ** A small file *)

(** Inode 5, in block 32: two bytes in block 62. *)
Definition hi_dinode : dinode := Dinode T_FILE 0 0 1 2 (62 :: replicate 12 0).
Definition hi_inode : inode := Inode 1 5 1 2 hi_dinode.
Definition hi_block : list Z := splice ZERO_BLOCK 0 [104; 105].
Definition hi_image : list (Z * list Z) :=
  [(1, sb_block); (58, bitmap_block 8); (32, put_dinode ZERO_BLOCK 320 hi_dinode); (62, hi_block)].

Lemma hi_maps k :
  k_inodes k !! 0%nat = Some hi_inode -> file_block k 62 -> maps k 0 hi_inode {[0 := 62]} None.
Proof.
  intros Hi Hb. split; try done.
  - intros bn Hbn. destruct (decide (bn = 0)) as [->|Hne]; [by rewrite lookup_singleton_eq|].
    rewrite lookup_singleton_ne by done. destruct (Z.to_nat bn) as [|j] eqn:Ej; [lia|]. cbn [hi_inode hi_dinode i_d di_addrs lookup list_lookup].
    apply lookup_replicate_2. lia.
  - intros bn Hbn. by rewrite lookup_singleton_ne by lia.
  - intros bn b [<- <-]%lookup_singleton_Some. lia.
  - intros bn b [<- <-]%lookup_singleton_Some. done.
  - intros bn bn' b [<- <-]%lookup_singleton_Some [<- _]%lookup_singleton_Some. done.
Qed.

Lemma hi_built :
  exists k bs, txn k ∅ bs /\ layout k /\ k_sb k = sb0 /\ space k ∅ bs 20 /\ (length bs <= 4)%nat /\ avail k 5 /\
    file_is k 0 hi_inode {[0 := 62]} None [104; 105].
Proof.
  destruct (image_build hi_image) as (k & bs & T & Hl & F & C).
  { split; [repeat constructor; cbn; try lia; vm_compute; reflexivity|cbn; lia]. }
  destruct (image_layout hi_image k 8 F C) as (HL & Es & El & _ & Hu); [reflexivity|lia|].
  exists (set_inodes [hi_inode] k), bs.
  assert (Hb : file_block (set_inodes [hi_inode] k) 62).
  { unfold file_block, data_area, is_bitmap, is_inodes. cbn [k_sb k_log set_inodes]. change (in_use (set_inodes _ k)) with (in_use k).
    rewrite Hu, El, Es by lia. unfold in_log. cbn. change ((1000 - 1) / BPB) with 0. change ((200 - 1) / IPB) with 24.
    split_and!; try lia; done. }
  split_and!; [by apply txn_set_inodes|by apply layout_set_inodes|done| |done| |split].
  - unfold space. cbn in Hl |- *. rewrite El, map_size_empty. unfold NBUF. cbn. lia.
  - exists [64; 65; 66; 67; 68]. split_and!; [repeat constructor; set_solver|done|].
    intros b Hb'. change (k_sb (set_inodes _ k)) with (k_sb k). change (in_use (set_inodes _ k)) with (in_use k).
    rewrite Es. assert (64 <= b <= 68) as Hr by (revert Hb'; set_unfold; lia). cbn. rewrite Hu by lia.
    split; [lia|]. apply bool_decide_eq_false. lia.
  - by apply hi_maps.
  - done.
  - split; unfold in_s16, in_u32, T_FILE; cbn; unfold T_FILE; try lia. repeat (apply Forall_cons_2; [unfold in_u32; lia|]). by apply Forall_nil_2.
  - done.
  - vm_compute. done.
  - intros x Hx. unfold byte_at. change (content (set_inodes _ k)) with (content k).
    destruct x as [|[|x]]; [..|cbn in Hx; lia].
    + change (({[0 := 62]} : gmap Z Z) !! (Z.of_nat 0 / 512)) with (Some 62). cbn [mbind option_bind]. rewrite C. vm_compute. reflexivity.
    + change (({[0 := 62]} : gmap Z Z) !! (Z.of_nat 1 / 512)) with (Some 62). cbn [mbind option_bind]. rewrite C. vm_compute. reflexivity.
  - unfold has_inode. cbn. rewrite Es. cbn. lia.
  - change (content (set_inodes _ k)) with (content k). change (k_sb (set_inodes _ k)) with (k_sb k). rewrite Es, C. vm_compute. reflexivity.
Qed.

(** Three bytes are written at byte 1 of a file of two bytes, which grows to four. *)
Lemma writei_assigns_witness :
  exists k k' ip' m' ind', file_is k 0 hi_inode {[0 := 62]} None [104; 105] /\
    writei (patience_bound := 2%nat) (driver := Memide.memide) 0 (SBytes [101; 121; 33]) 1 3 k = Ok 3 k' /\
    file_is k' 0 ip' m' ind' [104; 101; 121; 33].
Proof.
  destruct hi_built as (k & bs & T & HL & Es & Hsp & Hbs & Ha & Hf).
  destruct (writei_assigns (patience_bound := 2%nat) (driver := Memide.memide) k bs 0 hi_inode {[0 := 62]} None [104; 105]
    (SBytes [101; 121; 33]) T HL Hf) as [H _].
  destruct (H [101; 121; 33] 1%nat eq_refl ltac:(cbn; lia) ltac:(vm_compute; discriminate)) as (k' & bs' & ip' & m' & ind' & E & _ & _ & Hf' & _).
  - unfold bitmap_blocks. rewrite Es. exact (space_le _ _ _ 20 6 ltac:(lia) Hsp).
  - exact (avail_le _ 5 2 ltac:(lia) Ha).
  - exists k, k', ip', m', ind'. split_and!; [exact Hf|exact E|exact Hf'].
Defined.

