(* ===== verification/Grep.v ===== *)
(** * grep: the regular-expression matcher and the line loop of src/grep.c

    A pattern and a text are character arrays; reading outside them is [None].  match is
    equivalent to a declarative semantics of the patterns.  The line loop works on the
    results of its reads. *)

From S2P Require Import Prelude CString.

(** ** The matcher *)

(** The loop of matchstar, with [mh] for the call of matchhere on the rest of the
    pattern. *)
Fixpoint star_loop (mh : list Z -> option bool) (c : Z) (text : list Z) : option bool :=
  r ← mh text;
  if (r : bool) then Some true else
  match text with
  | [] => None
  | t :: text' =>
      if negb (t =? 0) && ((t =? c) || (c =? 46)) then star_loop mh c text' else Some false
  end.

Fixpoint matchhere (re text : list Z) {struct re} : option bool :=
  match re with
  | [] => None
  | r0 :: re1 =>
      if r0 =? 0 then Some true else
      match re1 with
      | [] => None
      | r1 :: re2 =>
          if r1 =? 42 then star_loop (matchhere re2) r0 text else
          match text with
          | [] => None
          | t :: text' =>
              if (r0 =? 36) && (r1 =? 0) then Some (t =? 0)
              else if negb (t =? 0) && ((r0 =? 46) || (r0 =? t)) then matchhere re1 text'
              else Some false
          end
      end
  end.

Definition matchstar (c : Z) (re text : list Z) : option bool := star_loop (matchhere re) c text.

(** [do { if(matchhere(re, text)) return 1; } while( *text++ != 0);] *)
Fixpoint match_from (re text : list Z) : option bool :=
  r ← matchhere re text;
  if (r : bool) then Some true else
  match text with
  | [] => None
  | t :: text' => if t =? 0 then Some false else match_from re text'
  end.

Definition match_re (re text : list Z) : option bool :=
  match re with
  | [] => None
  | r0 :: re1 => if r0 =? 94 then matchhere re1 text else match_from re text
  end.

(** ** The line loop *)

(** [while((q = strchr(p, 10)) != 0)]: what is written, and the rest of the buffer.
    [p] ends with the NUL stored at buf[m]; each round consumes a line. *)
Fixpoint grep_lines (fuel : nat) (pattern p : list Z) : option (list Z * list Z) :=
  q ← Ustr.strchr p 10;
  match q with
  | None => Some ([], p)
  | Some q =>
      match fuel with
      | O => None
      | S fuel' =>
          let line := take q p in
          r ← match_re pattern (line ++ 0 :: drop (S q) p);
          '(out, rest) ← grep_lines fuel' pattern (drop (S q) p);
          Some ((if (r : bool) then line ++ [10] else []) ++ out, rest)
      end
  end.

(** [while((n = read(fd, buf+m, sizeof(buf)-m-1)) > 0)] over the results of the reads, of
    which each has at most the number of bytes asked for; [buf] has its first [m]
    elements.  The end of the file is an empty result, or the end of the list. *)
Fixpoint grep_loop (pattern buf : list Z) (reads : list (list Z)) : option (list Z) :=
  match reads with
  | [] | [] :: _ => Some []
  | bytes :: reads =>
      if decide (length bytes + length buf + 1 <= 1024)%nat then
        let buf := buf ++ bytes in
        '(out, rest) ← grep_lines (length buf) pattern (buf ++ [0]);
        let used := (length buf + 1 - length rest)%nat in
        let buf := if decide (used = 0)%nat then [] else drop used buf in
        out' ← grep_loop pattern buf reads;
        Some (out ++ out')
      else None
  end.

Definition grep (pattern : list Z) (reads : list (list Z)) : option (list Z) := grep_loop pattern [] reads.

(** ** What a pattern means *)

Inductive item : Type := One (c : Z) | Star (c : Z).

(** [c] matches the character [x]. *)
Definition ok (c x : Z) : Prop := c = 46 \/ c = x.

(** The items of a pattern, and whether it ends with the anchor. *)
Fixpoint items (re : list Z) : list item * bool :=
  match re with
  | [] => ([], false)
  | c :: re1 =>
      match re1 with
      | [] => if c =? 36 then ([], true) else ([One c], false)
      | c1 :: re2 =>
          if c1 =? 42 then let '(l, e) := items re2 in (Star c :: l, e)
          else let '(l, e) := items re1 in (One c :: l, e)
      end
  end.

(** The texts the items stand for. *)
Inductive lang : list item -> list Z -> Prop :=
  | lang_nil : lang [] []
  | lang_one c x l t : ok c x -> lang l t -> lang (One c :: l) (x :: t)
  | lang_star c l s t : Forall (ok c) s -> lang l t -> lang (Star c :: l) (s ++ t).

(** A prefix of the text, or the whole text, is in the language. *)
Definition prefix_in (re text : list Z) : Prop :=
  exists s t, text = s ++ t /\ lang (items re).1 s /\ ((items re).2 = true -> t = []).

(** A pattern with or without the anchor at its beginning. *)
Definition matches (re text : list Z) : Prop :=
  match re with
  | c :: re' => if decide (c = 94) then prefix_in re' text else exists s t, text = s ++ t /\ prefix_in re t
  | [] => True
  end.

(** ** The matcher decides the meaning *)

Definition decides (o : option bool) (P : Prop) : Prop := exists b, o = Some b /\ (b = true <-> P).

Lemma decides_true P : P -> decides (Some true) P.
Proof. intros HP. by exists true. Qed.

Lemma decides_false (P : Prop) : ~ P -> decides (Some false) P.
Proof. intros HP. by exists false. Qed.

Lemma decides_iff o (P Q : Prop) : (P <-> Q) -> decides o P -> decides o Q.
Proof. intros HPQ (b & -> & Hb). exists b. split; [done|]. by rewrite Hb. Qed.

Lemma ok_spec c x : (x =? c) || (c =? 46) = true <-> ok c x.
Proof. unfold ok. rewrite orb_true_iff, !Z.eqb_eq. intuition. Qed.

Lemma star_decides mh (P : list Z -> Prop) c r text :
  (forall t, 0 ∉ t -> decides (mh (t ++ 0 :: r)) (P t)) -> 0 ∉ text ->
  decides (star_loop mh c (text ++ 0 :: r)) (exists s t, text = s ++ t /\ Forall (ok c) s /\ P t).
Proof.
  intros Hmh. induction text as [|x text IH]; intros H0; cbn [app star_loop].
  - destruct (Hmh [] H0) as ([] & E & Hb); cbn [app] in E; rewrite E; cbn.
    + apply decides_true. exists [], []. split_and!; [done|constructor|by apply Hb].
    + apply decides_false. intros (s & t & Hst & _ & HP). destruct s, t; try done. by apply Hb in HP.
  - apply not_elem_of_cons in H0 as [Hx H0]. destruct (Hmh (x :: text)) as ([] & E & Hb); [by apply not_elem_of_cons| |];
      cbn [app] in E; rewrite E; cbn.
    + apply decides_true. exists [], (x :: text). split_and!; [done|constructor|by apply Hb].
    + rewrite (proj2 (Z.eqb_neq x 0)) by done. cbn. destruct ((x =? c) || (c =? 46)) eqn:Hok.
      * apply ok_spec in Hok. eapply decides_iff; [|by apply IH]. split.
        -- intros (s & t & -> & Hs & HP). exists (x :: s), t. split_and!; [done|by constructor|done].
        -- intros ([|y s] & t & Hst & Hs & HP); [cbn in Hst; subst t; by apply Hb in HP|].
           injection Hst as -> ->. exists s, t. apply Forall_cons in Hs as [_ Hs]. done.
      * apply decides_false. intros ([|y s] & t & Hst & Hs & HP); [cbn in Hst; subst t; by apply Hb in HP|].
        injection Hst as -> ->. apply Forall_cons in Hs as [Hy _]. apply ok_spec in Hy. congruence.
Qed.

(** The meaning, by the first item. *)
Lemma prefix_in_nil text : prefix_in [] text.
Proof. exists [], text. split_and!; [done|constructor|done]. Qed.

Lemma prefix_in_end text : prefix_in [36] text <-> text = [].
Proof.
  split.
  - intros (s & t & -> & Hs & Ht). cbn in Hs, Ht. inversion Hs. by rewrite Ht.
  - intros ->. exists [], []. split_and!; [done|constructor|done].
Qed.

Lemma prefix_in_star c re text :
  prefix_in (c :: 42 :: re) text <-> exists s t, text = s ++ t /\ Forall (ok c) s /\ prefix_in re t.
Proof.
  unfold prefix_in. cbn [items Z.eqb Pos.eqb]. destruct (items re) as [l e]. cbn [fst snd]. split.
  - intros (s & t & -> & Hs & He). inversion Hs; subst. exists s0, (t0 ++ t). rewrite <-app_assoc. split_and!; [done..|].
    by exists t0, t.
  - intros (s & t & -> & Hs & (s' & t' & -> & Hl & He)). exists (s ++ s'), t'. rewrite <-app_assoc. split_and!; [done| |done].
    by constructor.
Qed.

Lemma prefix_in_one c re text :
  re !! 0%nat <> Some 42 -> ~ (c = 36 /\ re = []) ->
  prefix_in (c :: re) text <-> exists x t, text = x :: t /\ ok c x /\ prefix_in re t.
Proof.
  intros Hs Hd. unfold prefix_in.
  assert (items (c :: re) = (One c :: (items re).1, (items re).2)) as ->.
  { cbn [items]. destruct re as [|c1 re]; [destruct (Z.eqb_spec c 36) as [->|]; [by exfalso; apply Hd|done]|].
    destruct (Z.eqb_spec c1 42) as [->|]; [done|]. by destruct (items (c1 :: re)). }
  cbn [fst snd]. split.
  - intros (s & t & -> & Hl & He). inversion Hl; subst. exists x, (t0 ++ t). split_and!; [done..|]. by exists t0, t.
  - intros (x & t & -> & Hok & (s & t' & -> & Hl & He)). exists (x :: s), t'. split_and!; [done|by constructor|done].
Qed.

Lemma matchhere_decides re r t : forall text,
  0 ∉ re -> 0 ∉ text -> decides (matchhere (re ++ 0 :: r) (text ++ 0 :: t)) (prefix_in re text).
Proof.
  induction re as [re IH] using (induction_ltof1 _ (@length Z)). unfold ltof in IH. intros text Hre Ht.
  destruct re as [|c re]; [cbn; apply decides_true, prefix_in_nil|].
  apply not_elem_of_cons in Hre as [Hc Hre]. cbn [app matchhere]. rewrite (proj2 (Z.eqb_neq c 0)) by done.
  destruct (decide (re !! 0%nat = Some 42)) as [Hs|Hs].
  { destruct re as [|c1 re]; [done|]. injection Hs as ->. cbn [app Z.eqb Pos.eqb]. apply not_elem_of_cons in Hre as [_ Hre].
    eapply decides_iff; [by rewrite prefix_in_star|]. apply star_decides; [|done]. intros t' Ht'. apply IH; [cbn; lia|done..]. }
  assert (exists r1 re1, re ++ 0 :: r = r1 :: re1 /\ r1 <> 42 /\ (r1 = 0 <-> re = [])) as (r1 & re1 & Er & H42 & Hr1).
  { destruct re as [|c1 re]; [by eexists _, _|]. apply not_elem_of_cons in Hre as [? _].
    eexists _, _. split_and!; [done|by intros ->|]. split; [|done]. by intros ->. }
  rewrite Er. rewrite (proj2 (Z.eqb_neq r1 42)) by done. rewrite <-Er.
  destruct (decide (c = 36 /\ re = [])) as [[-> ->]|Hd].
  { rewrite (proj2 Hr1 eq_refl). destruct text as [|x text]; cbn.
    - apply decides_true. by apply prefix_in_end.
    - apply not_elem_of_cons in Ht as [Hx _]. rewrite (proj2 (Z.eqb_neq x 0)) by done. apply decides_false.
      by rewrite prefix_in_end. }
  assert ((c =? 36) && (r1 =? 0) = false) as Hd'.
  { apply andb_false_iff. destruct (Z.eqb_spec c 36), (Z.eqb_spec r1 0); try (by auto). exfalso. apply Hd. by split; [|apply Hr1]. }
  eapply decides_iff; [by rewrite prefix_in_one|]. destruct text as [|x text]; cbn [app]; rewrite Hd'.
  { cbn. apply decides_false. by intros (x & t' & ? & _). }
  apply not_elem_of_cons in Ht as [Hx Ht]. rewrite (proj2 (Z.eqb_neq x 0)) by done. cbn [negb andb].
  rewrite (Z.eqb_sym c x), orb_comm. destruct ((x =? c) || (c =? 46)) eqn:Hok.
  - eapply decides_iff; [|apply (IH re); [cbn; lia|done..]]. split.
    + intros HP. exists x, text. apply ok_spec in Hok. done.
    + intros (y & t' & [= -> ->] & _ & HP). done.
  - apply decides_false. intros (y & t' & [= -> ->] & Hy & _). apply ok_spec in Hy. congruence.
Qed.

Lemma match_from_decides re r t : forall text,
  0 ∉ re -> 0 ∉ text ->
  decides (match_from (re ++ 0 :: r) (text ++ 0 :: t)) (exists s u, text = s ++ u /\ prefix_in re u).
Proof.
  induction text as [|x text IH]; intros Hre Ht; cbn [app match_from].
  - destruct (matchhere_decides re r t [] Hre Ht) as ([] & E & Hb); cbn [app] in E; rewrite E; cbn.
    + apply decides_true. exists [], []. split; [done|]. by apply Hb.
    + apply decides_false. intros (s & u & Hsu & HP). destruct s, u; try done. by apply Hb in HP.
  - destruct (matchhere_decides re r t (x :: text) Hre Ht) as ([] & E & Hb); cbn [app] in E; rewrite E; cbn.
    + apply decides_true. exists [], (x :: text). split; [done|]. by apply Hb.
    + apply not_elem_of_cons in Ht as [Hx Ht]. rewrite (proj2 (Z.eqb_neq x 0)) by done.
      eapply decides_iff; [|by apply IH]. split.
      * intros (s & u & -> & HP). by exists (x :: s), u.
      * intros ([|y s] & u & Hsu & HP); [cbn in Hsu; subst u; by apply Hb in HP|]. injection Hsu as -> ->. by exists s, u.
Qed.

Lemma match_re_decides re text r t :
  0 ∉ re -> 0 ∉ text -> decides (match_re (re ++ 0 :: r) (text ++ 0 :: t)) (matches re text).
Proof.
  intros Hre Ht. unfold match_re, matches. destruct re as [|c re]; cbn [app].
  - cbn [Z.eqb]. eapply decides_iff; [|apply (match_from_decides [] r t text); done]. split; [done|]. intros _.
    exists [], text. split; [done|]. apply prefix_in_nil.
  - destruct (Z.eqb_spec c 94) as [->|Hne].
    + rewrite decide_True by done. apply not_elem_of_cons in Hre as [_ Hre]. by apply matchhere_decides.
    + rewrite decide_False by done. by apply (match_from_decides (c :: re)).
Qed.

(** C35.  match decides the meaning of the pattern: for every pattern and every text it
    returns, without reading behind the end of either, and its result is 1 exactly when
    some part of the text, the beginning of the text for a pattern with ^, and a part up to
    its end for one with $, is in the language of the pattern, where a dot stands for every
    character and x* for any number of characters that x stands for. *)
Theorem match_decides re text r t :
  0 ∉ re -> 0 ∉ text -> exists b, match_re (re ++ 0 :: r) (text ++ 0 :: t) = Some b /\ (b = true <-> matches re text).
Proof. apply match_re_decides. Qed.

Lemma match_decides_witness :
  match_re (chars "^a.*b$" ++ [0]) (chars "axyb" ++ [0]) = Some true /\ matches (chars "^a.*b$") (chars "axyb").
Proof.
  destruct (match_decides (chars "^a.*b$") (chars "axyb") [] []) as (b & E & Hb).
  - apply (bool_decide_unpack _). vm_compute. exact I.
  - apply (bool_decide_unpack _). vm_compute. exact I.
  - assert (b = true) as -> by (vm_compute in E; congruence). split; [exact E|by apply Hb].
Defined.

(** ** Lines *)

(** The complete lines of a text, and what follows the last newline. *)
Fixpoint split_lines (l : list Z) : list (list Z) * list Z :=
  match l with
  | [] => ([], [])
  | c :: l' =>
      let '(ls, r) := split_lines l' in
      if c =? 10 then ([] :: ls, r)
      else match ls with
           | [] => ([], c :: r)
           | x :: ls' => ((c :: x) :: ls', r)
           end
  end.

Lemma split_lines_none l : 10 ∉ l -> split_lines l = ([], l).
Proof.
  induction l as [|c l IH]; [done|]. intros [Hc Hl]%not_elem_of_cons. cbn. rewrite IH by done.
  by rewrite (proj2 (Z.eqb_neq c 10)) by congruence.
Qed.

Lemma split_lines_cons l b : 10 ∉ l -> split_lines (l ++ 10 :: b) = (l :: (split_lines b).1, (split_lines b).2).
Proof.
  induction l as [|c l IH]; [by cbn; destruct (split_lines b)|]. intros [Hc Hl]%not_elem_of_cons.
  cbn [app split_lines]. rewrite IH by done. by rewrite (proj2 (Z.eqb_neq c 10)) by congruence.
Qed.

(** Induction over the lines. *)
Lemma lines_ind (P : list Z -> Prop) :
  (forall l, 10 ∉ l -> P l) -> (forall l b, 10 ∉ l -> P b -> P (l ++ 10 :: b)) -> forall l, P l.
Proof.
  intros Hlast Hline l. induction l as [l IH] using (induction_ltof1 _ (@length Z)). unfold ltof in IH.
  destruct (decide (10 ∈ l)) as [Hin|]; [|by apply Hlast].
  apply list_elem_of_split_l in Hin as (l1 & l2 & -> & Hn). apply Hline; [done|]. apply IH. len.
Qed.

Lemma split_lines_app a b :
  split_lines (a ++ b) =
    ((split_lines a).1 ++ (split_lines ((split_lines a).2 ++ b)).1, (split_lines ((split_lines a).2 ++ b)).2).
Proof.
  induction a as [a Ha|l a Ha IH] using lines_ind.
  - rewrite (split_lines_none a) by done. cbn. by destruct (split_lines (a ++ b)).
  - rewrite <-app_assoc. cbn [app]. rewrite !split_lines_cons by done. cbn [fst snd app]. by rewrite IH.
Qed.

Lemma split_lines_suffix b : exists p, b = p ++ (split_lines b).2 /\ (10 ∈ b -> p <> []).
Proof.
  induction b as [b Hb|l b Hb (p & Hp & _)] using lines_ind.
  - exists []. by rewrite split_lines_none.
  - rewrite split_lines_cons by done. cbn [snd]. exists (l ++ 10 :: p). split.
    + rewrite Hp at 1. by rewrite <-app_assoc.
    + by destruct l.
Qed.

(** [sel] are the lines with [P], in order. *)
Inductive selects (P : list Z -> Prop) : list (list Z) -> list (list Z) -> Prop :=
  | sel_nil : selects P [] []
  | sel_in l ls sel : P l -> selects P ls sel -> selects P (l :: ls) (l :: sel)
  | sel_out l ls sel : ~ P l -> selects P ls sel -> selects P (l :: ls) sel.

Lemma selects_app P l1 s1 l2 s2 : selects P l1 s1 -> selects P l2 s2 -> selects P (l1 ++ l2) (s1 ++ s2).
Proof. induction 1; intros; cbn; [done|by constructor; auto..]. Qed.

(** The lines [sel], written. *)
Definition print_lines (sel : list (list Z)) : list Z := concat ((fun l => l ++ [10]) <$> sel).

Lemma print_lines_app s1 s2 : print_lines (s1 ++ s2) = print_lines s1 ++ print_lines s2.
Proof. unfold print_lines. by rewrite fmap_app, concat_app. Qed.

Lemma strchr_none l r : 0 ∉ l -> 10 ∉ l -> Ustr.strchr (l ++ 0 :: r) 10 = Some None.
Proof.
  induction l as [|c l IH]; [done|]. intros [H0 Hl0]%not_elem_of_cons [H1 Hl1]%not_elem_of_cons. cbn.
  rewrite (proj2 (Z.eqb_neq c 0)), (proj2 (Z.eqb_neq c 10)), IH by congruence. done.
Qed.

Lemma strchr_first l r : 0 ∉ l -> 10 ∉ l -> Ustr.strchr (l ++ 10 :: r) 10 = Some (Some (length l)).
Proof.
  induction l as [|c l IH]; [done|]. intros [H0 Hl0]%not_elem_of_cons [H1 Hl1]%not_elem_of_cons. cbn.
  rewrite (proj2 (Z.eqb_neq c 0)), (proj2 (Z.eqb_neq c 10)), IH by congruence. done.
Qed.

Lemma grep_lines_run re r b : forall fuel,
  0 ∉ re -> 0 ∉ b -> (length b <= fuel)%nat ->
  exists sel, grep_lines fuel (re ++ 0 :: r) (b ++ [0]) = Some (print_lines sel, (split_lines b).2 ++ [0]) /\
    selects (matches re) (split_lines b).1 sel.
Proof.
  induction b as [b Hb|l b Hl IH] using lines_ind; intros fuel Hre H0 Hf.
  - exists []. rewrite split_lines_none by done. split; [|constructor].
    by destruct fuel; cbn [grep_lines]; rewrite strchr_none.
  - apply not_elem_of_app in H0 as [H0l [_ H0b]%not_elem_of_cons]. len. destruct fuel as [|fuel]; [lia|].
    rewrite split_lines_cons by done. cbn [fst snd grep_lines]. rewrite <-app_assoc. cbn [app].
    rewrite strchr_first by done. cbn [mbind option_bind].
    rewrite take_app_length. replace (drop (S (length l)) (l ++ 10 :: b ++ [0])) with (b ++ [0])
      by (rewrite drop_app_ge by lia; by replace (S (length l) - length l)%nat with 1%nat by lia).
    destruct (match_re_decides re l r (b ++ [0]) Hre H0l) as (m & -> & Hm). cbn [mbind option_bind].
    destruct (IH fuel Hre H0b ltac:(lia)) as (sel & -> & Hsel). cbn [mbind option_bind]. destruct m.
    + exists (l :: sel). split; [done|]. constructor; [by apply Hm|done].
    + exists sel. split; [done|]. constructor; [|done]. intros HP. by apply Hm in HP.
Qed.

(** The reads leave room for the terminator: read never returns more than it is asked
    for. *)
Fixpoint fits (buf : list Z) (reads : list (list Z)) : Prop :=
  match reads with
  | [] => True
  | b :: reads => (length b + length buf + 1 <= 1024)%nat /\ fits (split_lines (buf ++ b)).2 reads
  end.

Lemma grep_loop_run re r reads : forall buf,
  0 ∉ re -> 0 ∉ buf -> Forall (fun b => 10 ∈ b /\ 0 ∉ b) reads -> fits buf reads ->
  exists sel, grep_loop (re ++ 0 :: r) buf reads = Some (print_lines sel) /\
    (10 ∉ buf -> selects (matches re) (split_lines (buf ++ concat reads)).1 sel).
Proof.
  induction reads as [|b reads IH]; intros buf Hre Hbuf Hall Hfit.
  { exists []. split; [done|]. intros Hn. cbn. rewrite app_nil_r, split_lines_none by done. constructor. }
  apply Forall_cons in Hall as [[Hb Hb0] Hall]. destruct Hfit as [Hroom Hfit].
  assert (0 ∉ buf ++ b) as H0 by (by apply not_elem_of_app).
  destruct (grep_lines_run re r (buf ++ b) (length (buf ++ b)) Hre H0 ltac:(lia)) as (s1 & E1 & Hs1).
  destruct (split_lines_suffix (buf ++ b)) as (p & Hp & Hne). set (rest := (split_lines (buf ++ b)).2) in *.
  assert (0 ∉ rest) as H0r by (rewrite Hp in H0; by apply not_elem_of_app in H0 as [_ ?]).
  destruct (IH rest Hre H0r Hall Hfit) as (s2 & E2 & Hs2). exists (s1 ++ s2). split.
  - cbn [grep_loop]. destruct b as [|c b]; [by apply not_elem_of_nil in Hb|]. rewrite decide_True by done.
    rewrite E1. cbn [mbind option_bind].
    replace (length (buf ++ c :: b) + 1 - length (rest ++ [0%Z]))%nat with (length p)
      by (rewrite Hp at 1; rewrite !length_app; cbn; lia).
    rewrite decide_False.
    + rewrite Hp at 1. rewrite drop_app_length, E2. cbn [mbind option_bind]. by rewrite print_lines_app.
    + intros Hz. apply Hne; [apply elem_of_app; by right|]. by destruct p.
  - intros Hn. cbn [concat]. rewrite app_assoc, split_lines_app. cbn [fst]. fold rest. apply selects_app; [done|].
    apply Hs2. unfold rest. clear. induction (buf ++ b) as [a Ha|l a Ha IH] using lines_ind.
    + by rewrite split_lines_none.
    + by rewrite split_lines_cons.
Qed.

(** C36.  When every read contains the end of a line, grep writes exactly the lines that
    match, complete and in order, wherever the reads cut the text.  But what a read returns
    before the first end of a line is lost: the rest of such a line, which the next reads
    bring, is taken for a whole line. *)
Theorem grep_writes_lines re r :
  0 ∉ re ->
  (forall reads, Forall (fun b => 10 ∈ b /\ 0 ∉ b) reads -> fits [] reads ->
    exists sel, grep (re ++ 0 :: r) reads = Some (print_lines sel) /\
      selects (matches re) (split_lines (concat reads)).1 sel) /\
  (forall b reads, b <> [] -> 10 ∉ b -> 0 ∉ b -> (length b <= 1023)%nat ->
    grep (re ++ 0 :: r) (b :: reads) = grep (re ++ 0 :: r) reads).
Proof.
  intros Hre. split.
  - intros reads Hall Hfit. destruct (grep_loop_run re r reads [] Hre (not_elem_of_nil _) Hall Hfit) as (sel & E & Hsel).
    exists sel. split; [done|]. apply Hsel, not_elem_of_nil.
  - intros b reads Hb Hn H0 Hlen. unfold grep. cbn [grep_loop]. destruct b as [|c b]; [done|].
    rewrite decide_True by (cbn in *; lia). cbn [app].
    destruct (grep_lines_run re r (c :: b) (length (c :: b)) Hre H0 ltac:(lia)) as (sel & E & Hsel).
    rewrite split_lines_none in E, Hsel by done. inversion Hsel; subst. cbn [app] in E. rewrite E. cbn [mbind option_bind].
    rewrite decide_True by (rewrite length_app; cbn; lia). by destruct (grep_loop (re ++ 0 :: r) [] reads).
Qed.

Lemma grep_writes_lines_witness :
  (exists sel, grep (chars "b" ++ [0]) [chars "a" ++ [10] ++ chars "b"; chars "c" ++ [10]] = Some (print_lines sel)) /\
  grep (chars "b" ++ [0]) [chars "b"; chars "c" ++ [10]] = grep (chars "b" ++ [0]) [chars "c" ++ [10]].
Proof.
  destruct (grep_writes_lines (chars "b") []) as [H1 H2].
  - apply (bool_decide_unpack _). vm_compute. exact I.
  - split.
    + destruct (H1 [chars "a" ++ [10] ++ chars "b"; chars "c" ++ [10]]) as (sel & E & _).
      * repeat constructor; apply (bool_decide_unpack _); vm_compute; exact I.
      * vm_compute; repeat split; lia.
      * exists sel. exact E.
    + apply (H2 (chars "b") [chars "c" ++ [10]]).
      * discriminate.
      * apply (bool_decide_unpack _). vm_compute. exact I.
      * apply (bool_decide_unpack _). vm_compute. exact I.
      * vm_compute. lia.
Defined.
