(* ===== verification/Dashboard.v ===== *)
(** * The dashboard: the user program of src/trace.c

    trace reads events one at a time with traceread, keeps the latest ones it wants, counts
    them and draws them on the screen.  What its system calls return is the input of the
    model, and the calls it makes to write are its effects.  A string is the array of
    characters a pointer points to. *)

From S2P Require Import Prelude Mem CString State.

Definition MAX_TRACE_ROWS : Z := 32.
Definition GRAPH_WIDTH : Z := 50.
Definition COLOR_NORMAL : Z := 7.
Definition COLOR_TITLE : Z := 15.
Definition COLOR_GREEN : Z := 10.
Definition COLOR_CYAN : Z := 11.
Definition COLOR_YELLOW : Z := 14.
Definition COLOR_RED : Z := 12.

(** ** Names and colors *)

Definition typename (type : Z) : list Z :=
  if type =? TRACE_TYPE_SYSCALL then cstr "syscall"
  else if type =? TRACE_TYPE_PROC then cstr "proc"
  else if type =? TRACE_TYPE_TRAP then cstr "trap"
  else if type =? TRACE_TYPE_MEM then cstr "mem"
  else cstr "all".

Definition type_color (type : Z) : Z :=
  if type =? TRACE_TYPE_SYSCALL then COLOR_CYAN
  else if type =? TRACE_TYPE_PROC then COLOR_GREEN
  else if type =? TRACE_TYPE_MEM then COLOR_YELLOW
  else if type =? TRACE_TYPE_TRAP then COLOR_RED
  else COLOR_NORMAL.

Definition detail_color (event : trace_event) : Z :=
  if te_type event =? TRACE_TYPE_TRAP then COLOR_RED
  else if te_type event =? TRACE_TYPE_MEM then COLOR_YELLOW
  else if te_type event =? TRACE_TYPE_PROC then COLOR_GREEN
  else if te_type event =? TRACE_TYPE_SYSCALL then
    if te_arg1 event <? 0 then COLOR_RED else COLOR_CYAN
  else COLOR_NORMAL.

Definition latency_color (latency : Z) : Z :=
  if latency >=? 5 then COLOR_RED else if latency >=? 2 then COLOR_YELLOW else COLOR_GREEN.

Definition want_event (event : trace_event) (type_filter pid_filter self_pid : Z) : bool :=
  if te_pid event =? self_pid then false
  else if negb (type_filter =? 0) && negb (te_type event =? type_filter) then false
  else if negb (pid_filter =? -1) && negb (te_pid event =? pid_filter) then false
  else true.

(** ** Counters *)

(** sys_count, proc_count, mem_count and trap_count, or those with the prefix t_. *)
Record counts : Type := Counts { c_sys : Z; c_proc : Z; c_mem : Z; c_trap : Z }.

Definition update_counts (event : trace_event) (c : counts) : counts :=
  if te_type event =? TRACE_TYPE_SYSCALL then Counts (s32 (c_sys c + 1)) (c_proc c) (c_mem c) (c_trap c)
  else if te_type event =? TRACE_TYPE_PROC then Counts (c_sys c) (s32 (c_proc c + 1)) (c_mem c) (c_trap c)
  else if te_type event =? TRACE_TYPE_MEM then Counts (c_sys c) (c_proc c) (s32 (c_mem c + 1)) (c_trap c)
  else if te_type event =? TRACE_TYPE_TRAP then Counts (c_sys c) (c_proc c) (c_mem c) (s32 (c_trap c + 1))
  else c.

(** ** Numbers *)

(** [while(val > 0 && i < sizeof(temp)-1)]: temp, from index 0 on. *)
Fixpoint itoa_digits (room : nat) (val : Z) : list Z :=
  match room with
  | O => []
  | S room' => if val >? 0 then (48 + val `mod` 10) :: itoa_digits room' (val / 10) else []
  end.

Definition itoa (val : Z) : list Z :=
  let neg := val <? 0 in
  let val := if neg then s32 (- val) else val in
  if val =? 0 then [48; 0] else
  let temp := itoa_digits 15 val in
  let temp := if neg && (length temp <? 15)%nat then temp ++ [45] else temp in
  rev temp ++ [0].

Definition hex : list Z := chars "0123456789abcdef".

Fixpoint itox_digits (room : nat) (val : Z) : list Z :=
  match room with
  | O => []
  | S room' => if val >? 0 then default 0 (hex !! Z.to_nat (val `mod` 16)) :: itox_digits room' (val / 16) else []
  end.

Definition itox (val : Z) : list Z := if val =? 0 then [48; 0] else rev (itox_digits 15 val) ++ [0].

(** ** Drawing *)

(** The system calls that write, in the order they are made. *)
Inductive effect : Type :=
  | Print (s : list Z)
  | Clear
  | Puts (row col : Z) (s : list Z) (color : Z)
  | Sleep (n : Z).

Definition drawnum (row col val color : Z) : list effect := [Puts row col (itoa (s32 val)) color].
Definition drawhex (row col val color : Z) : list effect :=
  [Puts row col (cstr "0x") color; Puts row (col + 2) (itox (u32 val)) color].

Definition blank_row : list Z := replicate 80 32 ++ [0].

Definition draweventrow (row : Z) (event : trace_event) : list effect :=
  let type := te_type event in
  [Puts row 0 blank_row COLOR_NORMAL] ++
  drawnum row 0 (te_seq event) COLOR_NORMAL ++
  drawnum row 5 (te_ticks event) COLOR_NORMAL ++
  drawnum row 12 (te_pid event) (type_color type) ++
  [Puts row 17 (te_comm event ++ te_event event ++ le_split 4 (te_overwritten event)) (type_color type);
   Puts row 34 (typename type) (type_color type);
   Puts row 43 (te_event event ++ le_split 4 (te_overwritten event)) (type_color type)] ++
  if type =? TRACE_TYPE_SYSCALL then
    [Puts row 54 (cstr "num = ") COLOR_NORMAL] ++ drawnum row 60 (te_arg0 event) COLOR_CYAN ++
    [Puts row 64 (cstr "ret = ") COLOR_NORMAL] ++ drawnum row 70 (te_arg1 event) (detail_color event)
  else if type =? TRACE_TYPE_PROC then
    [Puts row 54 (cstr "child = ") COLOR_NORMAL] ++ drawnum row 62 (te_arg0 event) COLOR_GREEN
  else if type =? TRACE_TYPE_MEM then
    [Puts row 54 (cstr "page = ") COLOR_NORMAL] ++ drawhex row 61 (te_arg0 event) COLOR_YELLOW
  else if type =? TRACE_TYPE_TRAP then
    [Puts row 54 (cstr "cause = ") COLOR_RED] ++ drawnum row 62 (te_arg0 event) COLOR_RED ++
    [Puts row 66 (cstr "err = ") COLOR_RED] ++ drawnum row 72 (te_arg1 event) COLOR_RED
  else [].

(** One bar of the graph: its character and its color. *)
Definition graph_bar (count : Z) : Z * Z :=
  if count =? 0 then (46, COLOR_NORMAL)
  else if count <? 3 then (45, COLOR_GREEN)
  else if count <? 7 then (61, COLOR_YELLOW)
  else (35, COLOR_RED).

Definition draw_graph (row col : Z) (activity : list Z) (activity_pos : Z) : list effect :=
  Puts row col (cstr "event rate last 50 ticks: . none | - low | = medium | # high") COLOR_TITLE ::
  ((fun i : nat =>
      let index := (activity_pos + 1 + Z.of_nat i) `mod` GRAPH_WIDTH in
      let '(bar, color) := graph_bar (default 0 (activity !! Z.to_nat index)) in
      Puts (row + 1) (col + Z.of_nat i) [bar; 0] color) <$> upto 50).

(** ** The state of the program *)

(** The command line. *)
Record settings : Type := Settings {
  limit : Z; filter_type : Z; filter_pid : Z; display_rows : Z; limit_set : bool
}.
Definition settings0 : settings := Settings 0 0 (-1) 15 false.

Definition with_type (t : Z) (s : settings) : settings :=
  Settings (limit s) t (filter_pid s) (display_rows s) (limit_set s).

(** The variables of main and the counters. *)
Record board : Type := Board {
  recent : list trace_event;   (* struct trace_event recent[MAX_TRACE_ROWS] *)
  recent_count : Z;
  recent_start : Z;
  seen : Z;
  activity : list Z;           (* int activity[GRAPH_WIDTH] *)
  activity_pos : Z;
  last_tick : Z;
  overwritten : Z;
  window : counts;
  total : counts
}.
Definition counts0 : counts := Counts 0 0 0 0.
Definition board0 : board := Board (replicate 32 trace_event0) 0 0 0 (replicate 50 0) 0 (-1) 0 counts0 counts0.

(** [for(i = 0; i < recent_count && i < display_rows && i < MAX_TRACE_ROWS; i++)] *)
Definition drawrows (s : settings) (b : board) : list effect :=
  i ← upto (Z.to_nat (Z.min (recent_count b) (Z.min (display_rows s) MAX_TRACE_ROWS)));
  draweventrow (8 + Z.of_nat i)
    (default trace_event0 (recent b !! Z.to_nat ((recent_start b + Z.of_nat i) `mod` MAX_TRACE_ROWS))).

Definition draw_counts (row : Z) (label : list Z) (c : counts) : list effect :=
  [Puts row 26 label COLOR_NORMAL] ++ drawnum row 45 (c_sys c) COLOR_CYAN ++
  [Puts row 48 (cstr " proc = ") COLOR_NORMAL] ++ drawnum row 56 (c_proc c) COLOR_GREEN ++
  [Puts row 59 (cstr " mem = ") COLOR_NORMAL] ++ drawnum row 66 (c_mem c) COLOR_YELLOW ++
  [Puts row 69 (cstr " trap = ") COLOR_NORMAL] ++ drawnum row 77 (c_trap c) COLOR_RED.

Definition drawBoard (s : settings) (b : board) : list effect :=
  [Clear;
   Puts 0 0 (cstr "XV6 LIVE KERNEL TRACE DASHBOARD") COLOR_TITLE;
   Puts 0 36 (cstr "FILTER:") COLOR_NORMAL;
   Puts 0 44 (typename (filter_type s)) (type_color (filter_type s));
   Puts 0 52 (cstr "pid = ") COLOR_NORMAL] ++
  (if filter_pid s =? -1 then [Puts 0 58 (cstr "all") COLOR_NORMAL] else drawnum 0 58 (filter_pid s) COLOR_NORMAL) ++
  [Puts 0 64 (cstr "STATUS:") COLOR_NORMAL] ++
  (if limit s =? 0 then [Puts 0 72 (cstr "ONESHOT") COLOR_YELLOW] else [Puts 0 72 (cstr "LIVE") COLOR_GREEN]) ++
  [Puts 1 0 (cstr "captured = ") COLOR_NORMAL] ++ drawnum 1 11 (seen b) COLOR_CYAN ++
  [Puts 1 15 (cstr "/ ") COLOR_NORMAL] ++
  (if limit s =? 0 then drawnum 1 17 128 COLOR_CYAN else drawnum 1 17 (limit s) COLOR_CYAN) ++
  draw_counts 1 (cstr "showing: syscall = ") (window b) ++
  [Puts 2 0 (cstr "overwritten = ") COLOR_NORMAL] ++
  drawnum 2 14 (overwritten b) (if overwritten b >? 0 then COLOR_RED else COLOR_NORMAL) ++
  draw_counts 2 (cstr "total:   syscall = ") (total b) ++
  [Puts 6 0 (cstr "SEQ  TICKS  PID  PROC             SUBSYS   EVENT      DETAILS") COLOR_TITLE;
   Puts 7 0 (cstr "---------------------------------------------------------------------------") COLOR_NORMAL] ++
  drawrows s b.

Definition draw_all (s : settings) (b : board) : list effect :=
  drawBoard s b ++ draw_graph 4 0 (activity b) (activity_pos b).

(** ** Time *)

(** [for(i = 0; i < diff; i++)]: a slot for each tick that has passed. *)
Fixpoint clear_slots (n : nat) (act : list Z) (pos : Z) : list Z * Z :=
  match n with
  | O => (act, pos)
  | S n' =>
      let pos := (pos + 1) `mod` GRAPH_WIDTH in
      clear_slots n' (<[Z.to_nat pos := 0]> act) pos
  end.

(** The graph moves to the tick [now], [diff] ticks after the last one. *)
Definition advance (now diff : Z) (b : board) : board :=
  let diff := if diff >? 50 then 50 else diff in
  let '(act, pos) := clear_slots (Z.to_nat diff) (activity b) (activity_pos b) in
  Board (recent b) (recent_count b) (recent_start b) (seen b) act pos now (overwritten b) (window b) (total b).

Definition set_last (t : Z) (b : board) : board :=
  Board (recent b) (recent_count b) (recent_start b) (seen b) (activity b) (activity_pos b) t (overwritten b) (window b) (total b).

(** ** One round of the loop of main *)

(** What traceread returns: -1, 0 and the results of the calls of uptime that follow, or
    1 and an event. *)
Inductive input : Type := Failed | NoEvent (t0 t1 : Z) | Got (e : trace_event).

(** The loop goes on, or the program has called exit. *)
Inductive next : Type := Continue (b : board) | Exit.

(** The branch for [n == 0]. *)
Definition idle (s : settings) (b : board) (t0 t1 : Z) : next * list effect :=
  if (limit s =? 0) && (recent_count b >? 0) then (Exit, [])
  else if (limit s =? 0) && (seen b =? 0) && (s32 (t0 - last_tick b) >? 10) then (Exit, [])
  else
  let now := t1 in
  let b := if last_tick b =? -1 then set_last now b else b in
  if now >? last_tick b then
    let b := advance now (s32 (now - last_tick b)) b in
    (Continue b, draw_all s b ++ [Sleep 10])
  else (Continue b, [Sleep 10]).

(** [activity[activity_pos]++;] and the insertion into the ring of recent events. *)
Definition keep_event (e : trace_event) (b : board) : board :=
  let act := alter (fun n => s32 (n + 1)) (Z.to_nat (activity_pos b)) (activity b) in
  if recent_count b <? MAX_TRACE_ROWS then
    Board (<[Z.to_nat (recent_count b) := e]> (recent b)) (recent_count b + 1) (recent_start b) (seen b)
      act (activity_pos b) (last_tick b) (overwritten b) (window b) (total b)
  else
    Board (<[Z.to_nat (recent_start b) := e]> (recent b)) (recent_count b) ((recent_start b + 1) `mod` MAX_TRACE_ROWS) (seen b)
      act (activity_pos b) (last_tick b) (overwritten b) (window b) (total b).

Definition count_seen (b : board) : board :=
  Board (recent b) (recent_count b) (recent_start b) (s32 (seen b + 1)) (activity b) (activity_pos b) (last_tick b)
    (overwritten b) (window b) (total b).

(** The rest of the loop, for an event.  [event.ticks > last_tick] compares unsigned
    numbers. *)
Definition on_event (s : settings) (self_pid : Z) (b : board) (e : trace_event) : next * list effect :=
  let b := Board (recent b) (recent_count b) (recent_start b) (seen b) (activity b) (activity_pos b) (last_tick b)
             (s32 (te_overwritten e)) (window b) (update_counts e (total b)) in
  if negb (want_event e (filter_type s) (filter_pid s) self_pid) then (Continue b, []) else
  let b := Board (recent b) (recent_count b) (recent_start b) (seen b) (activity b) (activity_pos b) (last_tick b)
             (overwritten b) (update_counts e (window b)) (total b) in
  let b := if last_tick b =? -1 then set_last (s32 (te_ticks e)) b else b in
  let b := if te_ticks e >? u32 (last_tick b) then advance (s32 (te_ticks e)) (s32 (te_ticks e - last_tick b)) b else b in
  let b := keep_event e b in
  (Continue (count_seen b), draw_all s b).

Definition round (s : settings) (self_pid : Z) (b : board) (i : input) : next * list effect :=
  match i with
  | Failed => (Exit, [Print (chars "traceread failed" ++ [10])])
  | NoEvent t0 t1 => idle s b t0 t1
  | Got e => on_event s self_pid b e
  end.

(** [while(limit == 0 || seen < limit)], as far as the inputs go. *)
Fixpoint main_loop (s : settings) (self_pid : Z) (b : board) (ins : list input) : next * list effect :=
  if negb ((limit s =? 0) || (seen b <? limit s)) then (Exit, []) else
  match ins with
  | [] => (Continue b, [])
  | i :: ins =>
      match round s self_pid b i with
      | (Exit, es) => (Exit, es)
      | (Continue b, es) => let '(r, es') := main_loop s self_pid b ins in (r, es ++ es')
      end
  end.

(** ** The command line *)

Definition streq (a b : list Z) : option bool := r ← Ustr.strcmp a b; Some (r =? 0).

(** [while(arg_idx < argc)]; each round takes one argument, or two. *)
Fixpoint parse_args (argv : list (list Z)) (s : settings) : option settings :=
  match argv with
  | [] => Some s
  | a :: argv' =>
      n ← streq a (cstr "-n");
      match n, argv' with
      | true, v :: argv'' =>
          rows ← Ustr.atoi v;
          parse_args argv'' (Settings (limit s) (filter_type s) (filter_pid s)
            (if rows >? MAX_TRACE_ROWS then MAX_TRACE_ROWS else rows) (limit_set s))
      | _, _ =>
          is_sys ← streq a (cstr "syscall");
          if (is_sys : bool) then parse_args argv' (with_type TRACE_TYPE_SYSCALL s) else
          is_proc ← streq a (cstr "proc");
          if (is_proc : bool) then parse_args argv' (with_type TRACE_TYPE_PROC s) else
          is_mem ← streq a (cstr "mem");
          if (is_mem : bool) then parse_args argv' (with_type TRACE_TYPE_MEM s) else
          is_trap ← streq a (cstr "trap");
          if (is_trap : bool) then parse_args argv' (with_type TRACE_TYPE_TRAP s) else
          val ← Ustr.atoi a;
          is_zero ← streq a (cstr "0");
          parse_args argv'
            (if (val >? 0) || is_zero then
               if negb (limit_set s) then Settings val (filter_type s) (filter_pid s) (display_rows s) true
               else if filter_pid s =? -1 then Settings (limit s) (filter_type s) val (display_rows s) (limit_set s)
               else s
             else s)
      end
  end.

Definition main (argv : list (list Z)) (self_pid : Z) (ins : list input) : option (next * list effect) :=
  s ← parse_args (drop 1 argv) settings0;
  let '(r, es) := main_loop s self_pid board0 ins in
  Some (r, replicate 25 (Print [10]) ++ [Clear] ++ es).
