(* ===== verification/DashboardSpec.v ===== *)
(** * What the dashboard shows

    The ring of recent events, the counters and the bar graph of src/trace.c are the latest
    events, the numbers of events of each type, and a histogram over the last 50 ticks. *)

From S2P Require Import Prelude Mem CString State Dashboard.

(** ** The specification *)

Section Spec.
  Context (s : settings) (self_pid : Z).

Definition wants (e : trace_event) : bool := want_event e (filter_type s) (filter_pid s) self_pid.

(** The events received, the wanted ones with the time at which each was counted, and the
    time of the dashboard: the latest tick that it has seen. *)
Record view : Type := View { v_all : list trace_event; v_shown : list (trace_event * Z); v_clock : option Z }.

Definition later (c : option Z) (t : Z) : Z := match c with Some c => Z.max c t | None => t end.

Definition view_step (v : view) (i : input) : view :=
  match i with
  | Failed => v
  | NoEvent _ t => View (v_all v) (v_shown v) (Some (later (v_clock v) t))
  | Got e =>
      if wants e then
        let t := later (v_clock v) (te_ticks e) in
        View (v_all v ++ [e]) (v_shown v ++ [(e, t)]) (Some t)
      else View (v_all v ++ [e]) (v_shown v) (v_clock v)
  end.

Definition view0 : view := View [] [] None.
Definition view_of (ins : list input) : view := foldl view_step view0 ins.

(** Ticks are those of a kernel that has run for less than 2^31 of them. *)
Definition input_ok (i : input) : Prop :=
  match i with
  | Failed => False
  | NoEvent t0 t1 => 0 <= t1 < 2 ^ 31
  | Got e => 0 <= te_ticks e < 2 ^ 31
  end.

(** ** The relation *)

Definition count_type (ty : Z) (l : list trace_event) : Z := Z.of_nat (length (filter (fun e => te_type e = ty) l)).

Definition counts_are (c : counts) (l : list trace_event) : Prop :=
  c_sys c = s32 (count_type TRACE_TYPE_SYSCALL l) /\ c_proc c = s32 (count_type TRACE_TYPE_PROC l) /\
  c_mem c = s32 (count_type TRACE_TYPE_MEM l) /\ c_trap c = s32 (count_type TRACE_TYPE_TRAP l).

(** The events counted at time [t]. *)
Definition at_time (t : Z) (l : list (trace_event * Z)) : Z := Z.of_nat (length (filter (fun x => x.2 = t) l)).

Definition last_overwritten (l : list trace_event) : Z := from_option (fun e => s32 (te_overwritten e)) 0 (last l).

(** The ring has the latest 32 of the wanted events. *)
Record ring_shows (b : board) (l : list (trace_event * Z)) : Prop := RingShows {
  rs_len : length (recent b) = 32%nat;
  rs_seen : seen b = Z.of_nat (length l);
  rs_count : recent_count b = Z.min 32 (Z.of_nat (length l));
  rs_start : recent_start b = if decide (length l <= 32)%nat then 0 else Z.of_nat (length l `mod` 32);
  rs_recent : forall j x, l !! j = Some x -> (length l <= j + 32)%nat -> recent b !! (j `mod` 32)%nat = Some x.1
}.

(** The graph has the numbers of events of the last 50 ticks. *)
Record graph_shows (b : board) (clock : option Z) (l : list (trace_event * Z)) : Prop := GraphShows {
  gs_len : length (activity b) = 50%nat;
  gs_pos : 0 <= activity_pos b < 50;
  gs_last : last_tick b = default (-1) clock;
  gs_clock : from_option (fun c => 0 <= c < 2 ^ 31) True clock;
  gs_past : forall x, x ∈ l -> exists c, clock = Some c /\ x.2 <= c;
  gs_graph : forall d, 0 <= d < 50 ->
    activity b !! Z.to_nat ((activity_pos b - d) `mod` 50) = Some (at_time (default (-1) clock - d) l)
}.

Record shows (b : board) (v : view) : Prop := Shows {
  sh_ring : ring_shows b (v_shown v);
  sh_graph : graph_shows b (v_clock v) (v_shown v);
  sh_over : overwritten b = last_overwritten (v_all v);
  sh_window : counts_are (window b) (v_shown v).*1;
  sh_total : counts_are (total b) (v_all v)
}.

Lemma shows_start : shows board0 view0.
Proof.
  split; try done; split; try done.
  - intros x Hx. by apply not_elem_of_nil in Hx.
  - intros d Hd. change (replicate 50 0 !! Z.to_nat ((0 - d) `mod` 50) = Some 0). apply lookup_replicate_2.
    Z.to_euclidean_division_equations; lia.
Qed.

(** ** Counters *)

Lemma count_type_snoc ty l e : count_type ty (l ++ [e]) = count_type ty l + if te_type e =? ty then 1 else 0.
Proof.
  unfold count_type. rewrite filter_app, length_app, filter_cons, filter_nil.
  destruct (Z.eqb_spec (te_type e) ty); [rewrite decide_True by done|rewrite decide_False by done]; cbn [length]; lia.
Qed.

Lemma s32_succ x : s32 (s32 x + 1) = s32 (x + 1).
Proof. mach. Qed.

Lemma update_counts_are c l e : counts_are c l -> counts_are (update_counts e c) (l ++ [e]).
Proof.
  intros (H1 & H2 & H3 & H4). unfold counts_are, update_counts. rewrite !count_type_snoc.
  unfold TRACE_TYPE_SYSCALL, TRACE_TYPE_PROC, TRACE_TYPE_MEM, TRACE_TYPE_TRAP in *.
  destruct (Z.eqb_spec (te_type e) 1) as [E|E1]; [|destruct (Z.eqb_spec (te_type e) 2) as [E|E2];
    [|destruct (Z.eqb_spec (te_type e) 4) as [E|E3]; [|destruct (Z.eqb_spec (te_type e) 3) as [E|E4]]]];
    rewrite ?E; cbn [c_sys c_proc c_mem c_trap Z.eqb Pos.eqb]; rewrite ?H1, ?H2, ?H3, ?H4, ?Z.add_0_r, ?s32_succ; done.
Qed.

(** ** The graph *)

Lemma clear_slots_run n : forall act pos,
  length act = 50%nat -> 0 <= pos < 50 -> (n <= 50)%nat ->
  let r := clear_slots n act pos in
  length r.1 = 50%nat /\ r.2 = (pos + Z.of_nat n) `mod` 50 /\
  forall d, 0 <= d < 50 -> r.1 !! Z.to_nat ((r.2 - d) `mod` 50) =
    if decide (d < Z.of_nat n) then Some 0 else act !! Z.to_nat ((r.2 - d) `mod` 50).
Proof.
  induction n as [|n IH]; intros act pos Hl Hp Hn r.
  - cbn in r. subst r. cbn. split_and!; [done|rewrite Z.add_0_r, Z.mod_small; lia|].
    intros d Hd. by rewrite decide_False by lia.
  - subst r. cbn [clear_slots]. set (p := (pos + 1) `mod` GRAPH_WIDTH).
    assert (Hp' : 0 <= p < 50) by (apply Z.mod_pos_bound; unfold GRAPH_WIDTH; lia).
    destruct (IH (<[Z.to_nat p := 0]> act) p) as (H1 & H2 & H3); [by rewrite length_insert|done|lia|].
    split_and!; [done| |].
    + rewrite H2. unfold p. change GRAPH_WIDTH with 50. rewrite Zplus_mod_idemp_l. f_equal. lia.
    + intros d Hd. rewrite H3 by done. destruct (decide (d < Z.of_nat n)); [by rewrite decide_True by lia|].
      rewrite H2. destruct (decide (d = Z.of_nat n)) as [->|].
      * rewrite decide_True by lia. rewrite Zminus_mod_idemp_l. replace (p + Z.of_nat n - Z.of_nat n) with p by lia.
        rewrite Z.mod_small by lia. apply list_lookup_insert_eq. lia.
      * rewrite decide_False by lia. rewrite list_lookup_insert_ne; [done|].
        rewrite Zminus_mod_idemp_l. intros E. apply Z2Nat.inj in E; [|lia|apply Z.mod_pos_bound; lia].
        clear -E Hp' Hd n0 n1 Hn. Z.to_euclidean_division_equations; lia.
Qed.

Lemma at_time_none t l : (forall x, x ∈ l -> x.2 <> t) -> at_time t l = 0.
Proof.
  intros Hn. unfold at_time. induction l as [|x l IH]; [done|]. rewrite filter_cons, decide_False by (apply Hn; set_solver).
  apply IH. intros y Hy. apply Hn. set_solver.
Qed.

Lemma graph_start b t :
  graph_shows b None [] -> 0 <= t < 2 ^ 31 -> graph_shows (set_last t b) (Some t) [].
Proof. intros [H1 H2 H3 H4 H5 H6] Ht. split; try done. intros x Hx. by apply not_elem_of_nil in Hx. Qed.

Lemma graph_advance b c t l :
  graph_shows b (Some c) l -> c < t < 2 ^ 31 -> graph_shows (advance t (s32 (t - c)) b) (Some t) l.
Proof.
  intros [H1 H2 H3 H4 H5 H6] Ht. cbn in H4. rewrite s32_small by (unfold in_s32; lia). unfold advance.
  set (n := Z.to_nat (if t - c >? 50 then 50 else t - c)).
  assert (Hn : Z.of_nat n = Z.min 50 (t - c)) by (unfold n; rewrite Z.gtb_ltb; destruct (Z.ltb_spec 50 (t - c)); lia).
  destruct (clear_slots_run n (activity b) (activity_pos b) H1 H2 ltac:(lia)) as (R1 & R2 & R3).
  destruct (clear_slots n (activity b) (activity_pos b)) as [act pos]. cbn [fst snd] in *.
  split; cbn [activity activity_pos last_tick default from_option id]; try done.
  - rewrite R2. apply Z.mod_pos_bound. lia.
  - cbn. lia.
  - intros x Hx. destruct (H5 x Hx) as (c' & [= <-] & Hle). exists t. split; [done|lia].
  - intros d Hd. rewrite R3 by done. destruct (decide (d < Z.of_nat n)) as [Hlt|Hge].
    + rewrite at_time_none; [done|]. intros x Hx E. destruct (H5 x Hx) as (c' & [= <-] & Hle). lia.
    + rewrite R2, Zminus_mod_idemp_l. replace (activity_pos b + Z.of_nat n - d) with (activity_pos b - (d - (t - c))) by lia.
      rewrite H6 by lia. cbn. do 2 f_equal. lia.
Qed.

(** The dashboard's time moves on. *)
Definition move_on (t : Z) (b : board) : board :=
  let b := if last_tick b =? -1 then set_last t b else b in
  if t >? last_tick b then advance t (s32 (t - last_tick b)) b else b.

Lemma graph_move_on b clock l t :
  graph_shows b clock l -> 0 <= t < 2 ^ 31 -> graph_shows (move_on t b) (Some (later clock t)) l.
Proof.
  intros Hg Ht. unfold move_on. pose proof (gs_last _ _ _ Hg) as El. pose proof (gs_clock _ _ _ Hg) as Hc. destruct clock as [c|].
  - cbn in El, Hc. rewrite El, (proj2 (Z.eqb_neq c (-1))) by lia. rewrite El, Z.gtb_ltb. cbn [later].
    destruct (Z.ltb_spec c t); [rewrite Z.max_r by lia; apply graph_advance; [done|lia]|by rewrite Z.max_l by lia].
  - cbn in El. rewrite El. cbn [Z.eqb Pos.eqb]. destruct l as [|x l].
    + change (last_tick (set_last t b)) with t. rewrite Z.gtb_ltb, Z.ltb_irrefl. by apply graph_start.
    + destruct (gs_past _ _ _ Hg x) as (c & ? & _); [set_solver|done].
Qed.

Lemma ring_move_on b l t : ring_shows b l -> ring_shows (move_on t b) l.
Proof.
  intros [H1 H2 H3 H4 H5]. unfold move_on, advance. destruct (last_tick b =? -1); destruct (t >? _); try done;
    destruct (clear_slots _ _ _); done.
Qed.

(** ** An event is added *)

Lemma ring_keep b l e t :
  ring_shows b l -> Z.of_nat (length l) < 2 ^ 31 - 1 -> ring_shows (count_seen (keep_event e b)) (l ++ [(e, t)]).
Proof.
  intros [H1 H2 H3 H4 H5] Hlen. set (n := length l) in *.
  assert (Hadd : forall idx, idx = (n `mod` 32)%nat -> forall j x, (l ++ [(e, t)]) !! j = Some x ->
    (length (l ++ [(e, t)]) <= j + 32)%nat -> <[idx := e]> (recent b) !! (j `mod` 32)%nat = Some x.1).
  { intros idx -> j x Hj Hge. rewrite length_app in Hge. cbn in Hge. fold n in Hge. pose proof (Nat.mod_upper_bound n 32).
    apply lookup_snoc_Some in Hj as [[Hj Hx]|[-> <-]].
    - rewrite list_lookup_insert_ne; [by apply H5; [|lia]|].
      pose proof (Nat.div_mod_eq n 32). pose proof (Nat.div_mod_eq j 32). fold n in Hj. lia.
    - apply list_lookup_insert_eq. fold n. lia. }
  unfold keep_event. rewrite H3. change MAX_TRACE_ROWS with 32. destruct (Z.ltb_spec (Z.min 32 (Z.of_nat n)) 32) as [Hlt|Hge].
  - assert (n < 32)%nat by lia. rewrite Z.min_r, Nat2Z.id by lia. split; cbn [count_seen recent recent_count recent_start seen].
    + by rewrite length_insert.
    + rewrite H2, s32_small by (unfold in_s32; lia). rewrite length_app. fold n. cbn. lia.
    + rewrite length_app. fold n. cbn. lia.
    + rewrite H4, !decide_True; [done|rewrite length_app; fold n; cbn; lia|lia].
    + apply Hadd. symmetry. apply Nat.mod_small. lia.
  - assert (32 <= n)%nat by lia. pose proof (Nat.div_mod_eq n 32). pose proof (Nat.mod_upper_bound n 32).
    assert (Hs : recent_start b = Z.of_nat (n `mod` 32)).
    { rewrite H4. destruct (decide (n <= 32)%nat); [|done]. replace n with 32%nat by lia. done. }
    rewrite Hs, Nat2Z.id. split; cbn [count_seen recent recent_count recent_start seen].
    + by rewrite length_insert.
    + rewrite H2, s32_small by (unfold in_s32; lia). rewrite length_app. fold n. cbn. lia.
    + rewrite length_app. fold n. cbn. lia.
    + rewrite decide_False by (rewrite length_app; fold n; cbn; lia). rewrite length_app. fold n. cbn [length].
      rewrite !Nat2Z.inj_mod, Zplus_mod_idemp_l. f_equal. lia.
    + by apply Hadd.
Qed.

Lemma at_time_snoc t l x : at_time t (l ++ [x]) = at_time t l + if decide (x.2 = t) then 1 else 0.
Proof.
  unfold at_time. rewrite filter_app, length_app, filter_cons, filter_nil. destruct (decide (x.2 = t)); cbn [length]; lia.
Qed.

Lemma at_time_le t l : 0 <= at_time t l <= Z.of_nat (length l).
Proof. unfold at_time. pose proof (length_filter (fun x : trace_event * Z => x.2 = t) l). lia. Qed.

Lemma graph_keep b l e c :
  graph_shows b (Some c) l -> Z.of_nat (length l) < 2 ^ 31 - 1 ->
  graph_shows (count_seen (keep_event e b)) (Some c) (l ++ [(e, c)]).
Proof.
  intros [H1 H2 H3 H4 H5 H6] Hlen.
  assert (Ea : activity (count_seen (keep_event e b)) =
    alter (fun n => s32 (n + 1)) (Z.to_nat (activity_pos b)) (activity b)).
  { unfold keep_event. by destruct (recent_count b <? MAX_TRACE_ROWS). }
  assert (Ep : activity_pos (count_seen (keep_event e b)) = activity_pos b /\
    last_tick (count_seen (keep_event e b)) = last_tick b).
  { unfold keep_event. by destruct (recent_count b <? MAX_TRACE_ROWS). }
  destruct Ep as [Ep El]. split; rewrite ?Ea, ?Ep, ?El; try done.
  - by rewrite length_alter.
  - intros x [Hx| ->%list_elem_of_singleton]%elem_of_app; [by apply H5|]. by exists c.
  - intros d Hd. rewrite at_time_snoc. cbn [default from_option id snd].
    destruct (decide (d = 0)) as [->|Hne].
    + specialize (H6 0 ltac:(lia)). rewrite Z.sub_0_r, Z.mod_small in H6 |- * by lia. rewrite list_lookup_alter_eq, H6.
      cbn. rewrite Z.sub_0_r, decide_True by done. pose proof (at_time_le c l). rewrite s32_small; [done|]. unfold in_s32. lia.
    + rewrite decide_False, Z.add_0_r by lia. rewrite list_lookup_alter_ne; [by apply H6|].
      intros E. apply Z2Nat.inj in E; [|lia|apply Z.mod_pos_bound; lia]. Z.to_euclidean_division_equations; lia.
Qed.

(** ** One round, and the loop *)

Lemma move_on_rest b t :
  overwritten (move_on t b) = overwritten b /\ window (move_on t b) = window b /\ total (move_on t b) = total b.
Proof.
  unfold move_on, advance. destruct (last_tick b =? -1); destruct (t >? _); try done; destruct (clear_slots _ _ _); done.
Qed.

Lemma keep_rest b e :
  let b' := count_seen (keep_event e b) in
  overwritten b' = overwritten b /\ window b' = window b /\ total b' = total b.
Proof. unfold keep_event. by destruct (recent_count b <? MAX_TRACE_ROWS). Qed.

Lemma last_snoc_over l e : last_overwritten (l ++ [e]) = s32 (te_overwritten e).
Proof. unfold last_overwritten. by rewrite last_snoc. Qed.

(** The board with an event that is counted. *)
Definition counted (e : trace_event) (w : counts) (b : board) : board :=
  Board (recent b) (recent_count b) (recent_start b) (seen b) (activity b) (activity_pos b) (last_tick b)
    (s32 (te_overwritten e)) w (update_counts e (total b)).

Lemma on_event_wanted b v e :
  shows b v -> wants e = true -> 0 <= te_ticks e < 2 ^ 31 ->
  let b1 := keep_event e (move_on (te_ticks e) (counted e (update_counts e (window b)) b)) in
  on_event s self_pid b e = (Continue (count_seen b1), draw_all s b1).
Proof.
  intros [_ Hg _ _ _] Hw Ht b1. unfold on_event. unfold wants in Hw. cbn [filter_type]. rewrite Hw. cbn [negb].
  pose proof (gs_last _ _ _ Hg) as El. pose proof (gs_clock _ _ _ Hg) as Hc. subst b1. unfold move_on, counted.
  rewrite (s32_small (te_ticks e)) by (unfold in_s32; lia). cbn [last_tick recent recent_count recent_start seen activity activity_pos overwritten window total].
  destruct (v_clock v) as [c|]; cbn in El, Hc.
  - rewrite El, (proj2 (Z.eqb_neq c (-1))) by lia. cbn [last_tick]. rewrite u32_small by (unfold in_u32; lia). done.
  - rewrite El. cbn [Z.eqb Pos.eqb last_tick set_last]. rewrite u32_small by (unfold in_u32; lia). done.
Qed.

Lemma round_shows b v i :
  shows b v -> input_ok i -> limit s <> 0 -> Z.of_nat (length (v_shown v)) < 2 ^ 31 - 1 ->
  exists b' es, round s self_pid b i = (Continue b', es) /\ shows b' (view_step v i).
Proof.
  intros Hs Hi Hl Hlen. pose proof Hs as [Hr Hg Ho Hw Ht]. destruct i as [|t0 t1|e]; cbn in Hi; [done| |].
  - cbn [round view_step]. unfold idle. rewrite (proj2 (Z.eqb_neq (limit s) 0)) by done. cbn [andb].
    assert (Hm : shows (move_on t1 b) (View (v_all v) (v_shown v) (Some (later (v_clock v) t1)))).
    { destruct (move_on_rest b t1) as (E1 & E2 & E3). split; cbn [v_shown v_clock v_all]; rewrite ?E1, ?E2, ?E3; try done.
      - by apply ring_move_on.
      - by apply graph_move_on. }
    unfold move_on in Hm. destruct (t1 >? _); eexists _, _; (split; [reflexivity|exact Hm]).
  - cbn [round view_step]. destruct (wants e) eqn:Ewe.
    + rewrite (on_event_wanted b v e Hs Ewe Hi). eexists _, _. split; [reflexivity|].
      set (b0 := counted e (update_counts e (window b)) b).
      destruct (keep_rest (move_on (te_ticks e) b0) e) as (E1 & E2 & E3). destruct (move_on_rest b0 (te_ticks e)) as (F1 & F2 & F3).
      split; cbn [v_shown v_clock v_all]; rewrite ?E1, ?E2, ?E3, ?F1, ?F2, ?F3.
      * apply ring_keep; [apply ring_move_on; by destruct Hr|done].
      * apply graph_keep; [apply graph_move_on; [by destruct Hg|done]|done].
      * by rewrite last_snoc_over.
      * rewrite fmap_app. by apply update_counts_are.
      * by apply update_counts_are.
    + unfold on_event. unfold wants in Ewe. rewrite Ewe. cbn [negb]. eexists _, _. split; [reflexivity|].
      split; cbn [v_shown v_clock v_all overwritten window total]; try done; [by destruct Hr|by destruct Hg|by rewrite last_snoc_over|].
      by apply update_counts_are.
Qed.

Lemma view_grows v ins : (length (v_shown v) <= length (v_shown (foldl view_step v ins)))%nat.
Proof.
  revert v. induction ins as [|i ins IH]; intros v; cbn [foldl]; [done|]. etrans; [|apply IH].
  destruct i as [|t0 t1|e]; cbn [view_step]; try done. destruct (wants e); cbn [v_shown]; len.
Qed.

Lemma main_loop_shows ins : forall b v,
  shows b v -> Forall input_ok ins -> 0 < limit s < 2 ^ 31 -> Z.of_nat (length (v_shown v)) <= limit s ->
  let v' := foldl view_step v ins in
  (Z.of_nat (length (v_shown v')) < limit s ->
    exists b' es, main_loop s self_pid b ins = (Continue b', es) /\ shows b' v') /\
  (limit s <= Z.of_nat (length (v_shown v')) -> (main_loop s self_pid b ins).1 = Exit).
Proof.
  induction ins as [|i ins IH]; intros b v Hs Hok Hl Hle v'.
  - cbn in v'. subst v'. cbn [main_loop]. rewrite (proj2 (Z.eqb_neq (limit s) 0)), (rs_seen _ _ (sh_ring _ _ Hs)) by lia. cbn [orb].
    split; intros H.
    + rewrite (proj2 (Z.ltb_lt _ _)) by done. by eexists _, _.
    + by rewrite (proj2 (Z.ltb_ge _ _)) by done.
  - apply Forall_cons in Hok as [Hi Hok]. cbn [foldl] in v'. pose proof (view_grows (view_step v i) ins) as Hg. fold v' in Hg.
    cbn [main_loop]. rewrite (proj2 (Z.eqb_neq (limit s) 0)), (rs_seen _ _ (sh_ring _ _ Hs)) by lia. cbn [orb].
    assert (Hstep : (length (v_shown v) <= length (v_shown (view_step v i)) <= S (length (v_shown v)))%nat).
    { destruct i as [|t0 t1|e]; cbn [view_step]; try (cbn; lia). destruct (wants e); cbn [v_shown]; len. }
    destruct (Z.ltb_spec (Z.of_nat (length (v_shown v))) (limit s)) as [Hlt|Hge]; cbn [negb]; [|split; [lia|done]].
    destruct (round_shows b v i Hs Hi ltac:(lia) ltac:(lia)) as (b' & es & -> & Hs').
    destruct (IH b' _ Hs' Hok Hl ltac:(lia)) as [H1 H2]. fold v' in H1, H2.
    destruct (main_loop s self_pid b' ins) as [r es'] eqn:E. split; intros H.
    + destruct (H1 H) as (b'' & es'' & [= -> ->] & Hs''). by eexists _, _.
    + by apply H2.
Qed.

(** ** The rows *)

(** The latest 32. *)
Definition latest {A} (l : list A) : list A := drop (length l - 32) l.

Lemma drawrows_latest b l :
  ring_shows b l ->
  drawrows s b = concat (imap (fun i e => draweventrow (8 + Z.of_nat i) e) (take (Z.to_nat (display_rows s)) (latest l.*1))).
Proof.
  intros [H1 H2 H3 H4 H5]. unfold drawrows. rewrite H3. change MAX_TRACE_ROWS with 32.
  set (n := Z.to_nat (Z.min (Z.min 32 (Z.of_nat (length l))) (Z.min (display_rows s) 32))).
  assert (Hlen : length (take (Z.to_nat (display_rows s)) (latest l.*1)) = n).
  { unfold latest. rewrite length_take, length_drop, length_fmap. unfold n. lia. }
  rewrite bind_concat. f_equal. apply list_eq. intros i. rewrite list_lookup_fmap, list_lookup_imap.
  destruct (decide (i < n)%nat) as [Hi|Hi].
  2: { rewrite (lookup_ge_None_2 (take _ _)) by lia. by rewrite (lookup_ge_None_2 (upto n)) by (unfold upto; rewrite length_seq; lia). }
  unfold upto. rewrite lookup_seq_lt by done. cbn [fmap option_fmap option_map Nat.add].
  rewrite lookup_take_lt by lia. unfold latest. rewrite lookup_drop, list_lookup_fmap, length_fmap.
  destruct (lookup_lt_is_Some_2 l (length l - 32 + i)) as [x Hx]; [lia|]. rewrite Hx. cbn [fmap option_fmap option_map]. do 2 f_equal.
  replace (Z.to_nat ((recent_start b + Z.of_nat i) `mod` 32)) with ((length l - 32 + i) `mod` 32)%nat.
  { by rewrite (H5 _ _ Hx) by lia. }
  rewrite H4. destruct (decide (length l <= 32)%nat) as [Hle|Hgt].
  - rewrite Z.mod_small by lia. rewrite Nat.mod_small by lia. lia.
  - rewrite Nat2Z.inj_mod, Zplus_mod_idemp_l. change 32 with (Z.of_nat 32). rewrite <-Nat2Z.inj_add, <-Nat2Z.inj_mod, Nat2Z.id.
    replace (length l + i)%nat with (length l - 32 + i + 1 * 32)%nat by lia. by rewrite Nat.Div0.mod_add.
Qed.

(** The events among the inputs. *)
Definition events (ins : list input) : list trace_event := omap (fun i => match i with Got e => Some e | _ => None end) ins.

Lemma view_events v ins :
  v_all (foldl view_step v ins) = v_all v ++ events ins /\
  (v_shown (foldl view_step v ins)).*1 = (v_shown v).*1 ++ filter (fun e => wants e = true) (events ins).
Proof.
  revert v. induction ins as [|i ins IH]; intros v; cbn [foldl]; [by rewrite !app_nil_r|].
  destruct (IH (view_step v i)) as [-> ->]. destruct i as [|t0 t1|e]; cbn [view_step v_all v_shown events omap list_omap]; try done.
  fold (events ins). rewrite filter_cons. destruct (wants e) eqn:Ew; cbn [v_all v_shown].
  - rewrite decide_True by done. rewrite fmap_app, <-!app_assoc. done.
  - rewrite decide_False by congruence. by rewrite <-app_assoc.
Qed.


End Spec.

(** Three events, of which one is of the dashboard itself. *)
Definition some_event (seq ticks ty pid : Z) : trace_event :=
  TraceEvent seq ticks ty pid 0 0 0 (cstr "sh" ++ replicate 13 0) (cstr "fork" ++ replicate 11 0) 0.
Definition some_inputs : list input :=
  [Got (some_event 0 10 1 2); Got (some_event 1 10 1 7); NoEvent 12 12; Got (some_event 2 13 2 2)].

