(* ===== verification/Sh.v ===== *)
(** * The shell: the parser and the command runner of src/sh.c

    A pointer into the command line is the text from it to the end of the line, where the
    NUL is; [s < es] is that this text is not empty.  The parser's panic is a result.
    runcmd is the program of system calls a process makes, with its continuations. *)

From S2P Require Import Prelude Mem CString State Console Ulib.

Definition MAXARGS : Z := 10.

(** ** Commands *)

(** A pointer into the line. *)
Notation ptr := (list Z) (only parsing).

(** A string of the line: where it begins and where it ends. *)
Record span : Type := Span { sp_q : ptr; sp_eq : ptr }.

Record redir : Type := Redirection { rd_file : span; rd_mode : Z; rd_fd : Z }.

Inductive cmd : Type :=
  | EXEC (argv : list span)
  | REDIR (c : cmd) (r : redir)
  | PIPE (left right : cmd)
  | LIST (left right : cmd)
  | BACK (c : cmd).

(** A parser returns, or prints a message and exits; the model may also run out of fuel. *)
Inductive parsed (A : Type) : Type := Ret (a : A) | Dies (out : list Z) | OutOfFuel.
Arguments Ret {A} a.
Arguments Dies {A} out.
Arguments OutOfFuel {A}.

Definition pbind {A B} (x : parsed A) (f : A -> parsed B) : parsed B :=
  match x with Ret a => f a | Dies m => Dies m | OutOfFuel => OutOfFuel end.
Notation "'plet' p := x 'in' f" := (pbind x (fun p => f)) (at level 200, p strict pattern, x at level 100, f at level 200).

(** A call of panic in the parser. *)
Definition parse_panic {A} (msg : string) : parsed A := Dies (chars msg ++ [10]).

(** ** Tokens *)

Definition whitespace : list Z := [32; 9; 13; 10; 11].
Definition symbols : list Z := chars "<|>&;()".

Definition is_space (c : Z) : bool := bool_decide (c ∈ whitespace).
Definition is_symbol (c : Z) : bool := bool_decide (c ∈ symbols).

Fixpoint skip_space (s : ptr) : ptr :=
  match s with
  | c :: s' => if is_space c then skip_space s' else s
  | [] => []
  end.

(** [while(s < es && !strchr(whitespace, *s) && !strchr(symbols, *s)) s++;] *)
Fixpoint skip_word (s : ptr) : ptr :=
  match s with
  | c :: s' => if negb (is_space c) && negb (is_symbol c) then skip_word s' else s
  | [] => []
  end.

(** The result: the kind of the token, where it begins and ends, and the new position. *)
Definition gettoken (ps : ptr) : Z * span * ptr :=
  let s := skip_space ps in
  let q := s in
  let '(ret, s) :=
    match s with
    | [] => (0, s)
    | c :: s' =>
        if bool_decide (c ∈ chars "|();&<") then (c, s')
        else if c =? 62 then
          match s' with
          | c' :: s'' => if c' =? 62 then (43, s'') else (c, s')
          | [] => (c, s')
          end
        else (97, skip_word s)
    end in
  (ret, Span q s, skip_space s).

(** The new position, and whether the next character is in [toks]. *)
Definition peek (ps : ptr) (toks : string) : ptr * bool :=
  let s := skip_space ps in
  (s, match s with [] => false | c :: _ => bool_decide (c ∈ chars toks) end).

(** ** The parser *)

(** [while(peek(ps, es, "<>"))]: the redirections, from the inside out. *)
Fixpoint parseredirs (fuel : nat) (s : ptr) : parsed (list redir * ptr) :=
  let '(s, b) := peek s "<>" in
  if negb b then Ret ([], s) else
  match fuel with
  | O => OutOfFuel
  | S fuel' =>
      let '(tok, _, s) := gettoken s in
      let '(tok2, file, s) := gettoken s in
      if negb (tok2 =? 97) then parse_panic "missing file for redirection" else
      plet (rs, s) := parseredirs fuel' s in
      if tok =? 60 then Ret (Redirection file O_RDONLY 0 :: rs, s)
      else if tok =? 62 then Ret (Redirection file (Z.lor O_WRONLY O_CREATE) 1 :: rs, s)
      else if tok =? 43 then Ret (Redirection file (Z.lor O_WRONLY O_CREATE) 1 :: rs, s)   (* >> *)
      else Ret (rs, s)
  end.

(** The command with its redirections around it. *)
Definition redircmd (c : cmd) (rs : list redir) : cmd := foldl REDIR c rs.

(** [while(!peek(ps, es, "|)&;"))] of parseexec: the arguments and the redirections between
    them.  The execcmd is filled in place while the redircmds are put around it. *)
Fixpoint parseargs (fuel : nat) (argc : Z) (s : ptr) : parsed (list span * list redir * ptr) :=
  let '(s, b) := peek s "|)&;" in
  if b then Ret ([], [], s) else
  match fuel with
  | O => OutOfFuel
  | S fuel' =>
      let '(tok, arg, s) := gettoken s in
      if tok =? 0 then Ret ([], [], s) else
      if negb (tok =? 97) then parse_panic "syntax" else
      let argc := argc + 1 in
      if argc >=? MAXARGS then parse_panic "too many args" else
      plet (rs, s) := parseredirs fuel' s in
      plet (args, rs', s) := parseargs fuel' argc s in
      Ret (arg :: args, rs ++ rs', s)
  end.

(** [while(peek(ps, es, "&"))] of parseline. *)
Fixpoint parsebacks (fuel : nat) (c : cmd) (s : ptr) : parsed (cmd * ptr) :=
  let '(s, b) := peek s "&" in
  if negb b then Ret (c, s) else
  match fuel with
  | O => OutOfFuel
  | S fuel' => let '(_, _, s) := gettoken s in parsebacks fuel' (BACK c) s
  end.

Fixpoint parseline (fuel : nat) (s : ptr) {struct fuel} : parsed (cmd * ptr) :=
  match fuel with
  | O => OutOfFuel
  | S fuel' =>
      plet (c, s) := parsepipe fuel' s in
      plet (c, s) := parsebacks fuel' c s in
      let '(s, b) := peek s ";" in
      if b then
        let '(_, _, s) := gettoken s in
        plet (c', s) := parseline fuel' s in
        Ret (LIST c c', s)
      else Ret (c, s)
  end
with parsepipe (fuel : nat) (s : ptr) {struct fuel} : parsed (cmd * ptr) :=
  match fuel with
  | O => OutOfFuel
  | S fuel' =>
      plet (c, s) := parseexec fuel' s in
      let '(s, b) := peek s "|" in
      if b then
        let '(_, _, s) := gettoken s in
        plet (c', s) := parsepipe fuel' s in
        Ret (PIPE c c', s)
      else Ret (c, s)
  end
with parseexec (fuel : nat) (s : ptr) {struct fuel} : parsed (cmd * ptr) :=
  match fuel with
  | O => OutOfFuel
  | S fuel' =>
      let '(s, b) := peek s "(" in
      if b then parseblock fuel' s else
      plet (rs, s) := parseredirs fuel' s in
      plet (args, rs', s) := parseargs fuel' 0 s in
      Ret (redircmd (EXEC args) (rs ++ rs'), s)
  end
with parseblock (fuel : nat) (s : ptr) {struct fuel} : parsed (cmd * ptr) :=
  match fuel with
  | O => OutOfFuel
  | S fuel' =>
      let '(s, b) := peek s "(" in
      if negb b then parse_panic "parseblock" else
      let '(_, _, s) := gettoken s in
      plet (c, s) := parseline fuel' s in
      let '(s, b) := peek s ")" in
      if negb b then parse_panic "syntax - missing )" else
      let '(_, _, s) := gettoken s in
      plet (rs, s) := parseredirs fuel' s in
      Ret (redircmd c rs, s)
  end.

(** [*p = 0] in the line, of which [n] is the length. *)
Definition nul_at (n : nat) (p : ptr) (buf : list Z) : list Z := <[(n - length p)%nat := 0]> buf.

Fixpoint nulterminate (n : nat) (c : cmd) (buf : list Z) : list Z :=
  match c with
  | EXEC argv => foldl (fun buf a => nul_at n (sp_eq a) buf) buf argv
  | REDIR c r => nul_at n (sp_eq (rd_file r)) (nulterminate n c buf)
  | PIPE l r | LIST l r => nulterminate n r (nulterminate n l buf)
  | BACK c => nulterminate n c buf
  end.

(** The fuel: four calls for each character, and the outermost four. *)
Definition parse_fuel (s : ptr) : nat := (4 * length s + 4)%nat.

(** The command, and the line with the strings terminated. *)
Definition parsecmd (s : list Z) : parsed (cmd * list Z) :=
  plet (c, rest) := parseline (parse_fuel s) s in
  let '(rest, _) := peek rest "" in
  if decide (rest = []) then Ret (c, nulterminate (length s) c (s ++ [0]))
  else Dies (chars "leftovers: " ++ rest ++ [10] ++ chars "syntax" ++ [10]).

(** ** Commands with their strings *)

Inductive scmd : Type :=
  | SExec (argv : list (list Z))
  | SRedir (c : scmd) (file : list Z) (mode fd : Z)
  | SPipe (left right : scmd)
  | SList (left right : scmd)
  | SBack (c : scmd).

(** The string at a pointer. *)
Definition str_at (n : nat) (buf : list Z) (p : ptr) : list Z := cut (drop (n - length p) buf).

Fixpoint resolve (n : nat) (buf : list Z) (c : cmd) : scmd :=
  match c with
  | EXEC argv => SExec ((fun a => str_at n buf (sp_q a)) <$> argv)
  | REDIR c r => SRedir (resolve n buf c) (str_at n buf (sp_q (rd_file r))) (rd_mode r) (rd_fd r)
  | PIPE l r => SPipe (resolve n buf l) (resolve n buf r)
  | LIST l r => SList (resolve n buf l) (resolve n buf r)
  | BACK c => SBack (resolve n buf c)
  end.

(** ** Running a command *)

(** The system calls of a process, and how it goes on for each result. *)
Inductive prog : Type :=
  | PExit
  | PExec (file : list Z) (argv : list (list Z)) (failed : prog)
  | PClose (fd : Z) (k : prog)
  | POpen (file : list Z) (mode : Z) (k : Z -> prog)
  | PDup (fd : Z) (k : prog)
  | PPipe (k : Z * Z -> prog) (failed : prog)
  | PFork (child parent failed : prog)
  | PWait (k : prog)
  | PChdir (dir : list Z) (k : Z -> prog)
  | PPrint (fd : Z) (s : list Z) (k : prog)
  | PMore.    (* a loop that is not followed further *)

Definition panic_sh (s : string) : prog := PPrint 2 (chars s ++ [10]) PExit.

Definition fork1 (child parent : prog) : prog := PFork child parent (panic_sh "fork").

Fixpoint runcmd (c : scmd) : prog :=
  match c with
  | SExec argv =>
      match argv with
      | [] => PExit
      | a0 :: _ => PExec a0 argv (PPrint 2 (chars "exec " ++ a0 ++ chars " failed" ++ [10]) PExit)
      end
  | SRedir c file mode fd =>
      PClose fd (POpen file mode (fun r =>
        if r <? 0 then PPrint 2 (chars "open " ++ file ++ chars " failed" ++ [10]) PExit
        else runcmd c))
  | SList l r => fork1 (runcmd l) (PWait (runcmd r))
  | SPipe l r =>
      PPipe (fun p =>
        fork1 (PClose 1 (PDup (snd p) (PClose (fst p) (PClose (snd p) (runcmd l)))))
       (fork1 (PClose 0 (PDup (fst p) (PClose (fst p) (PClose (snd p) (runcmd r)))))
       (PClose (fst p) (PClose (snd p) (PWait (PWait PExit))))))
       (panic_sh "pipe")
  | SBack c => fork1 (runcmd c) PExit
  end.

(** ** main *)

(** The child: [runcmd(parsecmd(buf))]. *)
Definition run_line (s : list Z) : prog :=
  match parsecmd s with
  | Ret (c, buf) => runcmd (resolve (length s) buf c)
  | Dies out => PPrint 2 out PExit
  | OutOfFuel => PMore
  end.

(** [while(getcmd(buf, sizeof(buf)) >= 0)], over the strings that gets leaves in buf; an
    empty one is the end of the file. *)
Fixpoint read_loop (lines : list (list Z)) : prog :=
  PPrint 2 (chars "$ ")
  match lines with
  | [] | [] :: _ => PExit
  | s :: lines =>
      if decide (take 3 s = chars "cd ") then
        let dir := drop 3 (take (length s - 1) s) in   (* chop the newline *)
        PChdir dir (fun r =>
          if r <? 0 then PPrint 2 (chars "cannot cd " ++ dir ++ [10]) (read_loop lines) else read_loop lines)
      else fork1 (run_line s) (PWait (read_loop lines))
  end.

(** [while((fd = open("console", O_RDWR)) >= 0)]: at most one round for each descriptor a
    process can have, and one that fails. *)
Fixpoint open_console (rounds : nat) (k : prog) : prog :=
  match rounds with
  | O => PMore
  | S rounds' =>
      POpen (chars "console") O_RDWR (fun fd =>
        if fd <? 0 then k else if fd >=? 3 then PClose fd k else open_console rounds' k)
  end.

Definition sh_main (lines : list (list Z)) : prog := open_console 17 (read_loop lines).
