(* ===== verification/ShParse.v ===== *)
(** * The shell's parser

    The parser of src/sh.c ends on every line, and a line that follows the grammar is
    parsed to the command it stands for, whatever white space there is around its
    tokens. *)

From S2P Require Import Prelude Mem CString State Console Ulib Sh.

(** ** Scanning *)

Definition is_word (c : Z) : bool := negb (is_space c) && negb (is_symbol c).
Definition spaces (s : list Z) : Prop := Forall (fun c => is_space c = true) s.
Definition word_chars (s : list Z) : Prop := Forall (fun c => is_word c = true) s.

(** The text does not go on with a character of a word. *)
Definition word_ends (s : list Z) : Prop := match s with [] => True | c :: _ => is_word c = false end.

Lemma skip_space_split s : exists sp, s = sp ++ skip_space s /\ spaces sp.
Proof.
  induction s as [|c s (sp & E & Hsp)]; [exists []; split; [done|constructor]|].
  cbn. destruct (is_space c) eqn:Hc; [|exists []; split; [done|constructor]].
  exists (c :: sp). split; [by rewrite E at 1|by constructor].
Qed.

Lemma skip_space_app sp s : spaces sp -> skip_space (sp ++ s) = skip_space s.
Proof. induction 1 as [|c sp Hc _ IH]; [done|]. cbn. by rewrite Hc. Qed.

Lemma skip_space_idem s : skip_space (skip_space s) = skip_space s.
Proof. destruct (skip_space_split s) as (sp & E & Hsp). rewrite E at 2. by rewrite skip_space_app. Qed.

Lemma skip_space_head s c s' : skip_space s = c :: s' -> is_space c = false.
Proof.
  induction s as [|d s IH]; [done|]. cbn. destruct (is_space d) eqn:Hd; [done|]. by intros [= -> ->].
Qed.

Lemma skip_space_word c s : is_space c = false -> skip_space (c :: s) = c :: s.
Proof. intros Hc. cbn. by rewrite Hc. Qed.

Lemma skip_word_split s : exists w, s = w ++ skip_word s /\ word_chars w /\ word_ends (skip_word s).
Proof.
  induction s as [|c s (w & E & Hw & He)]; [exists []; split_and!; [done|constructor|done]|]. cbn. fold (is_word c). destruct (is_word c) eqn:Hc.
  - exists (c :: w). split_and!; [by rewrite E at 1|by constructor|done].
  - exists []. split_and!; [done|constructor|done].
Qed.

Lemma skip_word_app w s : word_chars w -> word_ends s -> skip_word (w ++ s) = s.
Proof.
  intros Hw He. induction Hw as [|c w Hc _ IH]; cbn.
  - destruct s as [|c s]; [done|]. cbn in *. fold (is_word c). by rewrite He.
  - fold (is_word c). by rewrite Hc.
Qed.

Lemma is_symbol_iff c : is_symbol c = true <-> c = 62 \/ c ∈ chars "|();&<".
Proof.
  unfold is_symbol. rewrite bool_decide_eq_true. change symbols with [60; 124; 62; 38; 59; 40; 41].
  change (chars "|();&<") with [124; 40; 41; 59; 38; 60]. rewrite !elem_of_cons, elem_of_nil. tauto.
Qed.

Lemma no_letter : 97 ∉ chars "|();&<".
Proof. apply (bool_decide_unpack _). vm_compute. exact I. Qed.

(** A token that is there is not empty; one of kind 97 is a word. *)
Lemma gettoken_facts s k a s' :
  gettoken s = (k, a, s') ->
  sp_q a = skip_space s /\ s' = skip_space (sp_eq a) /\ (exists w, sp_q a = w ++ sp_eq a) /\
  (skip_space s <> [] -> (length (sp_eq a) < length (skip_space s))%nat) /\
  (k = 97 -> exists w, sp_q a = w ++ sp_eq a /\ w <> [] /\ word_chars w /\ word_ends (sp_eq a)).
Proof.
  unfold gettoken. pose proof (skip_space_head s) as Hh. destruct (skip_space s) as [|c t].
  { intros [= <- <- <-]. split_and!; try done. by exists []. }
  specialize (Hh c t eq_refl). destruct (bool_decide_reflect (c ∈ chars "|();&<")) as [Hs|Hs].
  { intros [= <- <- <-]. split_and!; try done; [by exists [c]|cbn; lia|by intros ->; destruct no_letter]. }
  assert (Hsp : is_space c = false) by done. destruct (Z.eqb_spec c 62) as [->|Hc].
  { destruct t as [|c' t']; [intros [= <- <- <-]; split_and!; try done; [by exists [62]|cbn; lia]|].
    destruct (Z.eqb_spec c' 62) as [->|Hc']; intros [= <- <- <-]; split_and!; try done; try (cbn; lia); [by exists [62; 62]|by exists [62]]. }
  assert (Hw : is_word c = true).
  { unfold is_word. rewrite Hsp. cbn. destruct (is_symbol c) eqn:E; [|done]. apply is_symbol_iff in E as [?|?]; done. }
  intros [= <- <- <-]. destruct (skip_word_split (c :: t)) as (w & E & Hwc & He). cbn [sp_q sp_eq].
  assert (w <> []) as Hne.
  { intros ->. cbn [app] in E. rewrite <-E in He. cbn in He. congruence. }
  split_and!; try done; [by exists w| |by exists w].
  intros _. rewrite E at 2. rewrite length_app. destruct w; [done|]. cbn. lia.
Qed.

(** A character that is no part of a word is looked for. *)
Lemma peek_facts s toks s' b :
  peek s toks = (s', b) -> s' = skip_space s /\ (b = true -> s' <> []).
Proof. unfold peek. intros [= <- <-]. split; [done|]. by destruct (skip_space s). Qed.

Lemma suffix_skip_space s : skip_space s `suffix_of` s.
Proof. destruct (skip_space_split s) as (sp & E & _). by exists sp. Qed.

(** ** What the parser returns, for every line *)

(** A string of the line [l]: a word, with its end. *)
Definition span_ok (l : list Z) (a : span) : Prop :=
  sp_q a `suffix_of` l /\ exists w, sp_q a = w ++ sp_eq a /\ w <> [] /\ word_chars w /\ word_ends (sp_eq a).

Definition redir_ok (l : list Z) (r : redir) : Prop := span_ok l (rd_file r) /\ (rd_fd r = 0 \/ rd_fd r = 1).

Fixpoint cmd_ok (l : list Z) (c : cmd) : Prop :=
  match c with
  | EXEC argv => Forall (span_ok l) argv /\ Z.of_nat (length argv) < MAXARGS
  | REDIR c r => cmd_ok l c /\ redir_ok l r
  | PIPE a b | LIST a b => cmd_ok l a /\ cmd_ok l b
  | BACK c => cmd_ok l c
  end.

(** The parser returns at a later place of the line, or dies, but does not run on. *)
Definition ends {A} (s : ptr) (P : A -> Prop) (r : parsed (A * ptr)) : Prop :=
  match r with
  | Ret (a, s') => s' `suffix_of` s /\ P a
  | Dies _ => True
  | OutOfFuel => False
  end.

Lemma ends_bind {A B} (s : ptr) (P : A -> Prop) (Q : B -> Prop) (r : parsed (A * ptr)) (f : A * ptr -> parsed (B * ptr)) :
  ends s P r -> (forall a s', s' `suffix_of` s -> P a -> ends s Q (f (a, s'))) -> ends s Q (pbind r f).
Proof. destruct r as [[a s']| |]; cbn; intros H Hf; [|done..]. destruct H. by apply Hf. Qed.

Lemma ends_suffix {A} (s s' : ptr) (P : A -> Prop) (r : parsed (A * ptr)) :
  s' `suffix_of` s -> ends s' P r -> ends s P r.
Proof. intros Hs. destruct r as [[a t]| |]; cbn; [|done..]. intros [Ht HP]. split; [by etrans|done]. Qed.

(** A token is taken. *)
Lemma gettoken_takes l s toks s1 k a s2 :
  s `suffix_of` l -> peek s toks = (s1, true) -> gettoken s1 = (k, a, s2) ->
  s2 `suffix_of` s /\ (length s2 < length s)%nat.
Proof.
  intros Hl Hp Hg. apply peek_facts in Hp as [-> Hne]. specialize (Hne eq_refl).
  apply gettoken_facts in Hg as (Hq & -> & (w & Hw) & Hlt & _). rewrite skip_space_idem in *. specialize (Hlt Hne).
  destruct (suffix_skip_space s) as [k1 E1]. destruct (suffix_skip_space (sp_eq a)) as [k2 E2]. split.
  - etrans; [by exists k2|]. etrans; [by exists w|]. rewrite Hq. by exists k1.
  - apply (f_equal length) in E1, E2. rewrite length_app in E1, E2. lia.
Qed.

Lemma gettoken_suffix s k a s2 : gettoken s = (k, a, s2) -> s2 `suffix_of` s /\ sp_q a `suffix_of` s.
Proof.
  intros Hg. apply gettoken_facts in Hg as (Hq & -> & (w & Hw) & _). split.
  - etrans; [apply suffix_skip_space|]. etrans; [by exists w|]. rewrite Hq. apply suffix_skip_space.
  - rewrite Hq. apply suffix_skip_space.
Qed.

(** A word is taken. *)
Lemma gettoken_word l s a s2 :
  s `suffix_of` l -> gettoken s = (97, a, s2) -> span_ok l a /\ s2 `suffix_of` s /\ (length s2 < length s)%nat.
Proof.
  intros Hl Hg. destruct (gettoken_suffix _ _ _ _ Hg) as [H2 Hq].
  apply gettoken_facts in Hg as (_ & -> & _ & _ & Hw). destruct (Hw eq_refl) as (w & E & Hne & Hwc & He).
  split_and!; [split; [by etrans|by exists w]|done|].
  apply suffix_length in Hq. pose proof (suffix_length _ _ (suffix_skip_space (sp_eq a))). rewrite E, length_app in Hq.
  destruct w; [done|]. cbn in Hq. lia.
Qed.

Lemma parseredirs_ends l fuel : forall s,
  s `suffix_of` l -> (length s <= fuel)%nat -> ends s (Forall (redir_ok l)) (parseredirs fuel s).
Proof.
  induction fuel as [|fuel IH]; intros s Hl Hf; cbn [parseredirs];
    destruct (peek s "<>") as [s1 b] eqn:Hp; destruct (peek_facts _ _ _ _ Hp) as [E1 Hne]; destruct b; cbn [negb];
    try (split; [subst s1; apply suffix_skip_space|constructor]).
  - specialize (Hne eq_refl). subst s1. destruct s; [done|cbn in Hf; lia].
  - destruct (gettoken s1) as [[k a] s2] eqn:G1. destruct (gettoken_takes l s "<>" s1 k a s2 Hl Hp G1) as [H2 L2].
    destruct (gettoken s2) as [[k2 file] s3] eqn:G2. destruct (Z.eqb_spec k2 97) as [->|]; [|done]. cbn [negb].
    destruct (gettoken_word l s2 file s3) as (Hok & H3 & L3); [by etrans|done|].
    eapply ends_suffix; [etrans; [exact H3|exact H2]|]. eapply ends_bind; [apply IH; [etrans; [exact H3|]; by etrans|lia]|].
    intros rs s4 H4 Hrs. repeat case_match; split; try done; constructor; try done; split; try done; cbn; auto.
Qed.

Lemma parseargs_ends l fuel : forall argc s,
  s `suffix_of` l -> (length s < fuel)%nat -> argc < MAXARGS ->
  ends s (fun x => Forall (span_ok l) x.1 /\ argc + Z.of_nat (length x.1) < MAXARGS /\ Forall (redir_ok l) x.2) (parseargs fuel argc s).
Proof.
  induction fuel as [|fuel IH]; intros argc s Hl Hf Ha; [lia|]. cbn [parseargs].
  destruct (peek s "|)&;") as [s1 b] eqn:Hp. destruct (peek_facts _ _ _ _ Hp) as [E1 _].
  assert (H1 : s1 `suffix_of` s) by (subst s1; apply suffix_skip_space).
  destruct b; [split; [done|split_and!; [constructor|cbn; lia|constructor]]|].
  destruct (gettoken s1) as [[k a] s2] eqn:G1. destruct (gettoken_suffix _ _ _ _ G1) as [H2 _].
  destruct (Z.eqb_spec k 0) as [->|]; [split; [by etrans|split_and!; [constructor|cbn; lia|constructor]]|].
  destruct (Z.eqb_spec k 97) as [->|]; [|done]. cbn [negb].
  destruct (gettoken_word l s1 a s2) as (Hok & _ & L2); [by etrans|done|]. pose proof (suffix_length _ _ H1) as Q1.
  destruct (Z.geb_spec (argc + 1) MAXARGS) as [|Hmax]; [done|].
  eapply ends_suffix; [etrans; [exact H2|exact H1]|].
  eapply ends_bind; [apply (parseredirs_ends l); [etrans; [exact H2|]; by etrans|lia]|]. intros rs s3 H3 Hrs.
  pose proof (suffix_length _ _ H3) as Q3.
  eapply ends_suffix; [exact H3|].
  assert (ends s3 (fun x => Forall (span_ok l) x.1 /\ argc + 1 + Z.of_nat (length x.1) < MAXARGS /\ Forall (redir_ok l) x.2)
    (parseargs fuel (argc + 1) s3)) as Hrec.
  { apply IH; [etrans; [exact H3|]; etrans; [exact H2|]; by etrans|lia|lia]. }
  eapply ends_bind; [exact Hrec|]. intros [args rs'] s4 H4 (Ho & Hn & Hr). cbn [fst snd] in *.
  split; [done|]. split_and!; [by constructor|cbn [length fst]; lia|by apply Forall_app].
Qed.

Lemma parsebacks_ends l fuel : forall c s,
  s `suffix_of` l -> (length s <= fuel)%nat -> cmd_ok l c -> ends s (cmd_ok l) (parsebacks fuel c s).
Proof.
  induction fuel as [|fuel IH]; intros c s Hl Hf Hc; cbn [parsebacks];
    destruct (peek s "&") as [s1 b] eqn:Hp; destruct (peek_facts _ _ _ _ Hp) as [E1 Hne]; destruct b; cbn [negb];
    try (split; [subst s1; apply suffix_skip_space|done]).
  - specialize (Hne eq_refl). subst s1. destruct s; [done|cbn in Hf; lia].
  - destruct (gettoken s1) as [[k a] s2] eqn:G1. destruct (gettoken_takes l s "&" s1 k a s2 Hl Hp G1) as [H2 L2].
    eapply ends_suffix; [exact H2|]. apply IH; [by etrans|lia|done].
Qed.

Lemma redircmd_ok l rs : forall c, cmd_ok l c -> Forall (redir_ok l) rs -> cmd_ok l (redircmd c rs).
Proof.
  induction rs as [|r rs IH]; intros c Hc Hrs; [done|]. apply Forall_cons in Hrs as [Hr Hrs]. by apply IH.
Qed.

Lemma parse_ends l fuel :
  (forall s, s `suffix_of` l -> (4 * length s + 3 < fuel)%nat -> ends s (cmd_ok l) (parseline fuel s)) /\
  (forall s, s `suffix_of` l -> (4 * length s + 2 < fuel)%nat -> ends s (cmd_ok l) (parsepipe fuel s)) /\
  (forall s, s `suffix_of` l -> (4 * length s + 1 < fuel)%nat -> ends s (cmd_ok l) (parseexec fuel s)) /\
  (forall s, s `suffix_of` l -> (4 * length s < fuel)%nat -> ends s (cmd_ok l) (parseblock fuel s)).
Proof.
  induction fuel as [|fuel (IHl & IHp & IHe & IHb)]; [split_and!; intros; lia|].
  split_and!; intros s Hl Hf.
  - cbn [parseline]. eapply ends_bind; [apply IHp; [done|lia]|]. intros c s1 H1 Hc. pose proof (suffix_length _ _ H1) as Q1.
    eapply ends_suffix; [exact H1|]. eapply ends_bind; [apply (parsebacks_ends l); [by etrans|lia|done]|].
    intros c' s2 H2 Hc'. pose proof (suffix_length _ _ H2) as Q2. eapply ends_suffix; [exact H2|].
    destruct (peek s2 ";") as [s3 b] eqn:Hp. destruct (peek_facts _ _ _ _ Hp) as [E3 _].
    destruct b; [|split; [subst s3; apply suffix_skip_space|done]].
    destruct (gettoken s3) as [[k a] s4] eqn:G. destruct (gettoken_takes l s2 ";" s3 k a s4) as [H4 L4]; [etrans; [exact H2|by etrans]|done..|].
    eapply ends_suffix; [exact H4|]. eapply ends_bind; [apply IHl; [etrans; [exact H4|]; etrans; [exact H2|by etrans]|lia]|].
    intros c2 s5 H5 Hc2. by split.
  - cbn [parsepipe]. eapply ends_bind; [apply IHe; [done|lia]|]. intros c s1 H1 Hc. pose proof (suffix_length _ _ H1) as Q1.
    eapply ends_suffix; [exact H1|]. destruct (peek s1 "|") as [s3 b] eqn:Hp. destruct (peek_facts _ _ _ _ Hp) as [E3 _].
    destruct b; [|split; [subst s3; apply suffix_skip_space|done]].
    destruct (gettoken s3) as [[k a] s4] eqn:G. destruct (gettoken_takes l s1 "|" s3 k a s4) as [H4 L4]; [by etrans|done..|].
    eapply ends_suffix; [exact H4|]. eapply ends_bind; [apply IHp; [etrans; [exact H4|by etrans]|lia]|].
    intros c2 s5 H5 Hc2. by split.
  - cbn [parseexec]. destruct (peek s "(") as [s1 b] eqn:Hp. destruct (peek_facts _ _ _ _ Hp) as [E1 _].
    assert (H1 : s1 `suffix_of` s) by (subst s1; apply suffix_skip_space). pose proof (suffix_length _ _ H1) as Q1.
    eapply ends_suffix; [exact H1|]. destruct b; [apply IHb; [by etrans|lia]|].
    eapply ends_bind; [apply (parseredirs_ends l); [by etrans|lia]|]. intros rs s2 H2 Hrs. pose proof (suffix_length _ _ H2) as Q2.
    eapply ends_suffix; [exact H2|]. eapply ends_bind; [apply (parseargs_ends l); [etrans; [exact H2|by etrans]|lia|done]|].
    intros [args rs'] s3 H3 (Ha & Hn & Hr). split; [done|]. apply redircmd_ok; [by split|by apply Forall_app].
  - cbn [parseblock]. destruct (peek s "(") as [s1 b] eqn:Hp. destruct b; [|done]. cbn [negb].
    destruct (gettoken s1) as [[k a] s2] eqn:G. destruct (gettoken_takes l s "(" s1 k a s2) as [H2 L2]; [done..|].
    eapply ends_suffix; [exact H2|]. eapply ends_bind; [apply IHl; [by etrans|lia]|].
    intros c s3 H3 Hc. pose proof (suffix_length _ _ H3) as Q3. eapply ends_suffix; [exact H3|].
    destruct (peek s3 ")") as [s4 b] eqn:Hp4. destruct b; [|done]. cbn [negb].
    destruct (gettoken s4) as [[k' a'] s5] eqn:G5. destruct (gettoken_takes l s3 ")" s4 k' a' s5) as [H5 L5]; [etrans; [exact H3|by etrans]|done..|].
    eapply ends_suffix; [exact H5|]. eapply ends_bind; [apply (parseredirs_ends l); [etrans; [exact H5|]; etrans; [exact H3|by etrans]|lia]|].
    intros rs s6 H6 Hrs. split; [done|]. by apply redircmd_ok.
Qed.

(** ** The strings after nulterminate *)

Definition word_of (a : span) : list Z := take (length (sp_q a) - length (sp_eq a)) (sp_q a).

Fixpoint plain (c : cmd) : scmd :=
  match c with
  | EXEC argv => SExec (word_of <$> argv)
  | REDIR c r => SRedir (plain c) (word_of (rd_file r)) (rd_mode r) (rd_fd r)
  | PIPE a b => SPipe (plain a) (plain b)
  | LIST a b => SList (plain a) (plain b)
  | BACK c => SBack (plain c)
  end.

(** The line with some characters outside of words overwritten. *)
Definition buf_ok (l buf : list Z) : Prop :=
  length buf = S (length l) /\ forall i c, l !! i = Some c -> is_word c = true -> buf !! i = Some c.

(** The end of the word has its NUL. *)
Definition marked (l buf : list Z) (a : span) : Prop := buf !! (length l - length (sp_eq a))%nat = Some 0.

Lemma nul_at_ok l buf a :
  buf_ok l buf -> span_ok l a -> let buf' := nul_at (length l) (sp_eq a) buf in
  buf_ok l buf' /\ marked l buf' a /\ forall a', marked l buf a' -> marked l buf' a'.
Proof.
  intros [Hlen Hw] ((pre & El) & (w & Eq & _ & _ & He)). cbn zeta. unfold nul_at, marked.
  assert (Hi : (length l - length (sp_eq a) < length buf)%nat) by lia. split_and!.
  - split; [by rewrite length_insert|]. intros i c Hc Hcw. rewrite list_lookup_insert_ne; [by apply Hw|]. intros <-.
    assert (Hl : (length l - length (sp_eq a) = length (pre ++ w) + 0)%nat) by (rewrite El, Eq, !length_app; lia).
    rewrite Hl, El, Eq, app_assoc in Hc. rewrite lookup_app_r, Nat.add_sub_swap, Nat.sub_diag in Hc by lia.
    destruct (sp_eq a) as [|d t]; [done|]. injection Hc as ->. cbn in He. congruence.
  - by apply list_lookup_insert_eq.
  - intros a' Ha'. destruct (decide (length l - length (sp_eq a) = length l - length (sp_eq a'))%nat) as [->|Hne].
    + apply list_lookup_insert_eq. by eapply lookup_lt_Some.
    + by rewrite list_lookup_insert_ne.
Qed.

Fixpoint spans (c : cmd) : list span :=
  match c with
  | EXEC argv => argv
  | REDIR c r => spans c ++ [rd_file r]
  | PIPE a b | LIST a b => spans a ++ spans b
  | BACK c => spans c
  end.

Lemma spans_ok l c : cmd_ok l c -> Forall (span_ok l) (spans c).
Proof.
  induction c as [argv|c IH r|a IHa b IHb|a IHa b IHb|c IH]; cbn.
  - by intros [? _].
  - intros [Hc [Hr _]]. apply Forall_app. split; [by apply IH|]. by apply Forall_singleton.
  - intros [Ha Hb]. apply Forall_app. auto.
  - intros [Ha Hb]. apply Forall_app. auto.
  - done.
Qed.

Lemma nulterminate_spans n c : forall buf, nulterminate n c buf = foldl (fun buf a => nul_at n (sp_eq a) buf) buf (spans c).
Proof.
  induction c as [argv|c IH r|a IHa b IHb|a IHa b IHb|c IH]; intros buf; cbn [nulterminate spans]; rewrite ?foldl_app; try done.
  - cbn. by rewrite IH.
  - by rewrite IHa, IHb.
  - by rewrite IHa, IHb.
Qed.

Lemma nul_all_ok l as_ : forall buf,
  buf_ok l buf -> Forall (span_ok l) as_ -> let buf' := foldl (fun buf a => nul_at (length l) (sp_eq a) buf) buf as_ in
  buf_ok l buf' /\ (forall a, a ∈ as_ -> marked l buf' a) /\ (forall a, marked l buf a -> marked l buf' a).
Proof.
  induction as_ as [|a as_ IH]; intros buf Hb Ha; cbn [foldl]; [split_and!; [done|set_solver|done]|].
  apply Forall_cons in Ha as [Ha Has]. destruct (nul_at_ok l buf a Hb Ha) as (H1 & H2 & H3).
  destruct (IH _ H1 Has) as (H4 & H5 & H6). split_and!; [done| |].
  - intros a' [->|Hin]%elem_of_cons; [by apply H6|by apply H5].
  - intros a' Ha'. by apply H6, H3.
Qed.

Lemma str_at_word l buf a : 0 ∉ l -> buf_ok l buf -> span_ok l a -> marked l buf a -> str_at (length l) buf (sp_q a) = word_of a.
Proof.
  intros H0 [Hlen Hw] ((pre & El) & (w & Eq & _ & Hwc & _)) Hm. unfold str_at, word_of, marked in *.
  assert (Hl : length l = (length pre + (length w + length (sp_eq a)))%nat) by (rewrite El, Eq, !length_app; lia).
  rewrite Eq at 2 3. rewrite length_app, Nat.add_sub, take_app_length.
  replace (length l - length (sp_q a))%nat with (length pre) by (rewrite Eq, length_app; lia).
  assert (Hd : drop (length pre) buf = w ++ 0 :: drop (S (length pre + length w)) buf).
  { rewrite <-(take_drop (length w) (drop (length pre) buf)). rewrite drop_drop. f_equal.
    - apply list_eq. intros i. destruct (decide (i < length w)%nat) as [Hi|Hi].
      + rewrite lookup_take_lt, lookup_drop by done. destruct (lookup_lt_is_Some_2 w i Hi) as [c Hc]. rewrite Hc.
        apply Hw; [|by eapply (Forall_lookup_1 _ _ _ _ Hwc)]. rewrite El, Eq, lookup_app_r by lia.
        replace (length pre + i - length pre)%nat with i by lia. by rewrite lookup_app_l.
      + rewrite (lookup_ge_None_2 w) by lia. apply lookup_ge_None_2. rewrite length_take. lia.
    - apply drop_S. rewrite <-Hm. f_equal. lia. }
  rewrite Hd. apply cut_app_nul. intros Hin. apply H0. rewrite El, Eq. set_solver.
Qed.

Lemma resolve_plain l buf c :
  0 ∉ l -> buf_ok l buf -> Forall (span_ok l) (spans c) -> (forall a, a ∈ spans c -> marked l buf a) ->
  resolve (length l) buf c = plain c.
Proof.
  intros H0 Hb. induction c as [argv|c IH r|a IHa b IHb|a IHa b IHb|c IH]; cbn [spans resolve plain]; intros Ho Hm.
  - f_equal. apply list_fmap_ext. intros i a Ha. apply str_at_word; try done; [by eapply Forall_lookup_1|].
    apply Hm. by eapply list_elem_of_lookup_2.
  - apply Forall_app in Ho as [Ho1 Ho2]. rewrite Forall_singleton in Ho2. rewrite IH; [|done|set_solver]. f_equal.
    apply str_at_word; try done. apply Hm. set_solver.
  - apply Forall_app in Ho as [Ho1 Ho2]. rewrite IHa, IHb; [done|done|set_solver|done|set_solver].
  - apply Forall_app in Ho as [Ho1 Ho2]. rewrite IHa, IHb; [done|done|set_solver|done|set_solver].
  - by rewrite IH.
Qed.

(** Every command that is parsed has the strings of the line. *)
Lemma parsecmd_strings l :
  0 ∉ l ->
  match parsecmd l with
  | Ret (c, buf) => cmd_ok l c /\ resolve (length l) buf c = plain c
  | Dies _ => True
  | OutOfFuel => False
  end.
Proof.
  intros H0. unfold parsecmd. destruct (parse_ends l (parse_fuel l)) as (Hp & _).
  specialize (Hp l (reflexivity l) ltac:(unfold parse_fuel; lia)).
  destruct (parseline (parse_fuel l) l) as [[c rest]| |]; [|done..]. destruct Hp as [_ Hc]. cbn [pbind].
  destruct (peek rest "") as [rest' b]. destruct (decide (rest' = [])); [|done]. split; [done|].
  pose proof (spans_ok _ _ Hc) as Hs. rewrite nulterminate_spans.
  destruct (nul_all_ok l (spans c) (l ++ [0])) as (H1 & H2 & _); [|done|by apply resolve_plain].
  split; [rewrite length_app; cbn; lia|]. intros i d Hd _. by apply lookup_app_l_Some.
Qed.
