(* ===== verification/ShGrammar.v ===== *)
(** * The grammar of the shell

    The command lines of src/sh.c, as a grammar with its tokens, and the parser's agreement
    with it. *)

From S2P Require Import Prelude Mem CString State Console Ulib Sh ShParse.

(** ** Tokens *)

Inductive tok : Type := TWord (w : list Z) | TSym (c : Z) | TApp.

Definition tok_text (t : tok) : list Z :=
  match t with TWord w => w | TSym c => [c] | TApp => [62; 62] end.

Definition tok_code (t : tok) : Z :=
  match t with TWord _ => 97 | TSym c => c | TApp => 43 end.

Definition tok_ok (t : tok) : Prop :=
  match t with
  | TWord w => w <> [] /\ word_chars w
  | TSym c => is_symbol c = true
  | TApp => True
  end.

(** What may come directly after a token. *)
Definition tok_ends (t : tok) (s : list Z) : Prop :=
  match t with
  | TWord _ => word_ends s
  | TSym c => c = 62 -> match s with c' :: _ => c' <> 62 | [] => True end
  | TApp => True
  end.

(** [s] is a text of the tokens, with white space around them. *)
Inductive renders : list tok -> list Z -> Prop :=
  | rn_nil s : spaces s -> renders [] s
  | rn_cons sp t ts s : spaces sp -> tok_ok t -> tok_ends t s -> renders ts s -> renders (t :: ts) (sp ++ tok_text t ++ s).

(** ** Lines *)

Inductive rkind : Type := RIn | ROut | RApp.

(** A line: pipelines, each with its number of &, separated by semicolons; a pipeline:
    commands; a command: a line in parentheses, or words, with redirections. *)
Inductive line : Type :=
  | LEnd (p : pipeline) (backs : nat)
  | LSeq (p : pipeline) (backs : nat) (l : line)
with pipeline : Type :=
  | POne (e : command)
  | PMany (e : command) (p : pipeline)
with command : Type :=
  | CBlock (l : line) (rs : list (rkind * list Z))
  | CSimple (rs : list (rkind * list Z)) (args : list (list Z * list (rkind * list Z))).

Scheme line_mind := Induction for line Sort Prop
  with pipeline_mind := Induction for pipeline Sort Prop
  with command_mind := Induction for command Sort Prop.
Combined Scheme grammar_ind from line_mind, pipeline_mind, command_mind.

Definition rd_tok (k : rkind) : tok := match k with RIn => TSym 60 | ROut => TSym 62 | RApp => TApp end.

Definition tredirs (rs : list (rkind * list Z)) : list tok := r ← rs; [rd_tok r.1; TWord r.2].
Definition targs (args : list (list Z * list (rkind * list Z))) : list tok := a ← args; TWord a.1 :: tredirs a.2.

Fixpoint tline (l : line) : list tok :=
  match l with
  | LEnd p n => tpipe p ++ replicate n (TSym 38)
  | LSeq p n l => tpipe p ++ replicate n (TSym 38) ++ TSym 59 :: tline l
  end
with tpipe (p : pipeline) : list tok :=
  match p with
  | POne e => tcmd e
  | PMany e p => tcmd e ++ TSym 124 :: tpipe p
  end
with tcmd (e : command) : list tok :=
  match e with
  | CBlock l rs => TSym 40 :: tline l ++ TSym 41 :: tredirs rs
  | CSimple rs args => tredirs rs ++ targs args
  end.

(** ** What a line means *)

Definition rd_mode_of (k : rkind) : Z := match k with RIn => O_RDONLY | _ => Z.lor O_WRONLY O_CREATE end.
Definition rd_fd_of (k : rkind) : Z := match k with RIn => 0 | _ => 1 end.

Definition wrap (c : scmd) (r : rkind * list Z) : scmd := SRedir c r.2 (rd_mode_of r.1) (rd_fd_of r.1).

Fixpoint dline (l : line) : scmd :=
  match l with
  | LEnd p n => Nat.iter n SBack (dpipe p)
  | LSeq p n l => SList (Nat.iter n SBack (dpipe p)) (dline l)
  end
with dpipe (p : pipeline) : scmd :=
  match p with
  | POne e => dcmd e
  | PMany e p => SPipe (dcmd e) (dpipe p)
  end
with dcmd (e : command) : scmd :=
  match e with
  | CBlock l rs => foldl wrap (dline l) rs
  | CSimple rs args => foldl wrap (SExec args.*1) (rs ++ concat args.*2)
  end.

(** No command has more words than an execcmd has room for. *)
Fixpoint fits_line (l : line) : Prop :=
  match l with
  | LEnd p _ => fits_pipe p
  | LSeq p _ l => fits_pipe p /\ fits_line l
  end
with fits_pipe (p : pipeline) : Prop :=
  match p with
  | POne e => fits_cmd e
  | PMany e p => fits_cmd e /\ fits_pipe p
  end
with fits_cmd (e : command) : Prop :=
  match e with
  | CBlock l _ => fits_line l
  | CSimple _ args => Z.of_nat (length args) < MAXARGS
  end.

(** ** Scanning rendered tokens *)

Lemma symbol_not_space c : is_symbol c = true -> is_space c = false.
Proof.
  intros Hc. apply bool_decide_eq_true in Hc. apply bool_decide_eq_false. revert Hc.
  change symbols with [60; 124; 62; 38; 59; 40; 41]. unfold whitespace. rewrite !elem_of_cons, !elem_of_nil. lia.
Qed.

Lemma skip_spaces s : spaces s -> skip_space s = [].
Proof. intros Hs. rewrite <-(app_nil_r s). by rewrite skip_space_app. Qed.

Lemma renders_skip ts s : renders ts s -> renders ts (skip_space s).
Proof.
  intros [s' Hs|sp t ts' s' Hsp Ht He Hr].
  - apply rn_nil. destruct (skip_space_split s') as (sp & E & _). rewrite E in Hs. by apply Forall_app in Hs as [_ ?].
  - rewrite skip_space_app by done. apply (rn_cons [] t ts' s') in Hr as Hc; [|constructor|done..]. cbn [app] in Hc.
    destruct (tok_text t ++ s') as [|c u] eqn:E; [by destruct t as [[]| |], Ht|]. rewrite skip_space_word; [done|].
    destruct t as [w|c'|]; cbn in E, Ht.
    + destruct w as [|d w]; [by destruct Ht|]. injection E as -> _. destruct Ht as [_ [Hd _]%Forall_cons].
      unfold is_word in Hd. by destruct (is_space c).
    + injection E as -> _. by apply symbol_not_space.
    + by injection E as <- _.
Qed.

(** A text that begins with a token. *)
Lemma tok_text_skip t s : tok_ok t -> tok_ends t s -> skip_space (tok_text t ++ s) = tok_text t ++ s.
Proof.
  intros Ht _. destruct t as [[|d w]|c|]; cbn [tok_text app] in *; [by destruct Ht|..].
  - apply skip_space_word. destruct Ht as [_ [Hd _]%Forall_cons]. unfold is_word in Hd. by destruct (is_space d).
  - apply skip_space_word. by apply symbol_not_space.
  - done.
Qed.

Lemma renders_gettoken t ts s :
  renders (t :: ts) s ->
  exists s', gettoken s = (tok_code t, Span (tok_text t ++ s') s', skip_space s') /\ renders ts s'.
Proof.
  intros Hr. inversion Hr as [|sp t' ts' s' Hsp Ht He Hr']; subst. exists s'. split; [|done].
  unfold gettoken. rewrite skip_space_app, tok_text_skip by done. destruct t as [[|d w]|c|]; cbn [tok_text app tok_code] in *.
  - by destruct Ht.
  - destruct Ht as [_ Hw]. pose proof (Forall_inv Hw) as Hd. unfold is_word in Hd. apply andb_true_iff in Hd as [_ Hd].
    assert (~ (d = 62 \/ d ∈ chars "|();&<")) as Hn by (rewrite <-is_symbol_iff; by destruct (is_symbol d)).
    rewrite bool_decide_false by tauto. rewrite (proj2 (Z.eqb_neq d 62)) by tauto.
    pose proof (skip_word_app (d :: w) s' Hw He) as E. cbn [app] in E. by rewrite E.
  - cbn in Ht. apply is_symbol_iff in Ht as [->|Hc]; [|by rewrite bool_decide_true].
    rewrite bool_decide_false by (apply (bool_decide_unpack (62 ∉ chars "|();&<")); vm_compute; exact I). cbn [Z.eqb Pos.eqb].
    destruct s' as [|c' s']; [done|]. specialize (He eq_refl). cbn in He. by rewrite (proj2 (Z.eqb_neq c' 62)).
  - rewrite bool_decide_false by (apply (bool_decide_unpack (62 ∉ chars "|();&<")); vm_compute; exact I). done.
Qed.

(** Whether the next token is one of [toks]. *)
Definition next_in (toks : string) (ts : list tok) : bool :=
  match ts with
  | TSym c :: _ => bool_decide (c ∈ chars toks)
  | TApp :: _ => bool_decide (62 ∈ chars toks)
  | _ => false
  end.

Definition all_symbols (toks : string) : Prop := forall c, c ∈ chars toks -> is_symbol c = true.

Lemma renders_peek ts s toks :
  all_symbols toks -> renders ts s -> peek s toks = (skip_space s, next_in toks ts).
Proof.
  intros Ha Hr. unfold peek. f_equal. inversion Hr as [s' Hs|sp t' ts' s' Hsp Ht He Hr']; subst.
  - by rewrite skip_spaces.
  - rewrite skip_space_app, tok_text_skip by done. destruct t' as [[|d w]|c|]; cbn [tok_text app next_in] in *; try done.
    + by destruct Ht.
    + apply bool_decide_false. intros Hd%Ha. destruct Ht as [_ [Hw _]%Forall_cons]. unfold is_word in Hw. rewrite Hd in Hw.
      by rewrite andb_false_r in Hw.
Qed.

Lemma all_symbols_dec toks : forallb is_symbol (chars toks) = true -> all_symbols toks.
Proof. intros H c Hc. rewrite forallb_forall in H. apply H. by apply list_elem_of_In. Qed.

(** ** The parser and the grammar *)

(** The parser succeeds with [P], unless the fuel ends. *)
Definition yields {A} (r : parsed (A * ptr)) (P : A -> ptr -> Prop) : Prop :=
  match r with Ret (a, s) => P a s | Dies _ => False | OutOfFuel => True end.

Lemma yields_bind {A B} (r : parsed (A * ptr)) (f : A * ptr -> parsed (B * ptr)) P Q :
  yields r P -> (forall a s, P a s -> yields (f (a, s)) Q) -> yields (pbind r f) Q.
Proof. destruct r as [[a s]| |]; cbn; [|done..]. auto. Qed.

Definition redir_plain (r : redir) : list Z * Z * Z := (word_of (rd_file r), rd_mode r, rd_fd r).
Definition rd_plain (r : rkind * list Z) : list Z * Z * Z := (r.2, rd_mode_of r.1, rd_fd_of r.1).

Lemma word_of_tok w s : word_of (Span (w ++ s) s) = w.
Proof. unfold word_of. cbn [sp_q sp_eq]. rewrite length_app, Nat.add_sub. apply take_app_length. Qed.

Lemma plain_redircmd rl rs : forall c,
  redir_plain <$> rl = rd_plain <$> rs -> plain (redircmd c rl) = foldl wrap (plain c) rs.
Proof.
  revert rs. induction rl as [|r rl IH]; intros [|r' rs] c E; try done. injection E as E1 E2 E3 E4.
  cbn [redircmd foldl]. change (plain (redircmd (REDIR c r) rl) = foldl wrap (wrap (plain c) r') rs). rewrite (IH rs) by done.
  f_equal. cbn [plain wrap]. unfold wrap. by rewrite E1, E2, E3.
Qed.

Lemma parseredirs_yields rs ts : forall fuel s,
  renders (tredirs rs ++ ts) s -> next_in "<>" ts = false ->
  yields (parseredirs fuel s) (fun rl s' => redir_plain <$> rl = rd_plain <$> rs /\ renders ts s').
Proof.
  induction rs as [|[k w] rs IH]; intros fuel s Hr Hn.
  - destruct fuel; cbn [parseredirs]; rewrite (renders_peek ts s) by (done || by apply all_symbols_dec); rewrite Hn; cbn;
      (split; [done|by apply renders_skip]).
  - destruct fuel; cbn [parseredirs]; rewrite (renders_peek _ s _) by (exact Hr || by apply all_symbols_dec).
    + by destruct k.
    + assert (next_in "<>" (tredirs ((k, w) :: rs) ++ ts) = true) as -> by (by destruct k). cbn [negb].
      apply renders_skip in Hr. cbn [tredirs mbind list_bind app] in Hr.
      destruct (renders_gettoken _ _ _ Hr) as (s1 & -> & H1). apply renders_skip in H1.
      destruct (renders_gettoken _ _ _ H1) as (s2 & -> & H2). apply renders_skip in H2. cbn [tok_code tok_text fst snd Z.eqb Pos.eqb negb].
      eapply yields_bind; [apply IH; [exact H2|done]|]. intros rl s3 [E3 H3].
      destruct k; cbn [rd_tok tok_code Z.eqb Pos.eqb fst]; (split; [|done]); rewrite !fmap_cons; f_equal; try done;
        unfold redir_plain, rd_plain; cbn [rd_file rd_mode rd_fd fst snd rd_mode_of rd_fd_of]; by rewrite word_of_tok.
Qed.

Lemma targs_next args ts toks : next_in toks (targs args ++ ts) = match args with [] => next_in toks ts | _ => false end.
Proof. by destruct args as [|[w rs] args]. Qed.

(** What follows a command, a pipeline, a line. *)
Definition follows (toks : string) (ts : list tok) : Prop := ts = [] \/ next_in toks ts = true.

Lemma follows_not toks toks' ts :
  (forall c, c ∈ chars toks -> c ∉ chars toks') -> follows toks ts -> next_in toks' ts = false.
Proof.
  intros Hd [->|Hf]; [done|]. destruct ts as [|[w|c|] ts]; cbn in *; try done; apply bool_decide_eq_true in Hf;
    apply bool_decide_eq_false; auto.
Qed.

Lemma no_common toks toks' :
  forallb (fun c => negb (bool_decide (c ∈ chars toks'))) (chars toks) = true ->
  forall c, c ∈ chars toks -> c ∉ chars toks'.
Proof.
  intros H c Hc. rewrite forallb_forall in H. specialize (H c). rewrite <-list_elem_of_In in H.
  specialize (H Hc). apply negb_true_iff, bool_decide_eq_false in H. done.
Qed.

Lemma parseargs_yields args ts : forall fuel argc s,
  renders (targs args ++ ts) s -> follows "|)&;" ts -> argc + Z.of_nat (length args) < MAXARGS ->
  yields (parseargs fuel argc s) (fun x s' => word_of <$> x.1 = args.*1 /\
    redir_plain <$> x.2 = rd_plain <$> concat args.*2 /\ renders ts s').
Proof.
  induction args as [|[w rs] args IH]; intros fuel argc s Hr Hf Hn.
  - assert (Hr' : renders ts s) by exact Hr.
    destruct fuel; cbn [parseargs]; rewrite (renders_peek ts s) by (done || by apply all_symbols_dec);
      destruct Hf as [->|Hf]; cbn [next_in]; try rewrite Hf; try done; try (split_and!; [done..|by apply renders_skip]).
    inversion Hr' as [s' Hs|]; subst. rewrite skip_spaces by done. cbn. split_and!; [done..|]. apply rn_nil. constructor.
  - destruct fuel; cbn [parseargs]; rewrite (renders_peek _ s _) by (exact Hr || by apply all_symbols_dec); [done|].
    rewrite targs_next. apply renders_skip in Hr. cbn [targs mbind list_bind app fst snd] in Hr. rewrite <-app_assoc in Hr.
    destruct (renders_gettoken _ _ _ Hr) as (s1 & -> & H1). apply renders_skip in H1. cbn [tok_code tok_text Z.eqb Pos.eqb negb].
    cbn [length] in Hn. destruct (Z.geb_spec (argc + 1) MAXARGS); [lia|].
    eapply yields_bind; [apply (parseredirs_yields rs (targs args ++ ts)); [exact H1|]|].
    { rewrite targs_next. destruct args; [|done]. by apply (follows_not "|)&;"); [by apply no_common|]. }
    intros rl s2 [E2 H2]. eapply yields_bind; [apply (IH _ (argc + 1) _ H2 Hf); lia|].
    intros [al rl'] s3 (E3 & E4 & H3). cbn [fst snd] in *. split_and!; cbn [fst snd]; [|change (concat ((w, rs) :: args).*2) with (rs ++ concat args.*2); by rewrite !fmap_app, E2, E4|done].
    rewrite !fmap_cons, E3. cbn [fst]. by rewrite word_of_tok.
Qed.

Lemma next_in_le toks toks' ts : (forall c, c ∈ chars toks -> c ∈ chars toks') -> next_in toks ts = true -> next_in toks' ts = true.
Proof.
  intros Hs. destruct ts as [|[w|c|] ts]; cbn; try done; intros H%bool_decide_eq_true; apply bool_decide_eq_true; auto.
Qed.

Lemma subset_chars toks toks' :
  forallb (fun c => bool_decide (c ∈ chars toks')) (chars toks) = true -> forall c, c ∈ chars toks -> c ∈ chars toks'.
Proof.
  intros H c Hc. rewrite forallb_forall in H. specialize (H c). rewrite <-list_elem_of_In in H.
  exact (proj1 (bool_decide_eq_true _) (H Hc)).
Qed.

Lemma parsebacks_yields n ts : forall fuel c s,
  renders (replicate n (TSym 38) ++ ts) s -> next_in "&" ts = false ->
  yields (parsebacks fuel c s) (fun c' s' => plain c' = Nat.iter n SBack (plain c) /\ renders ts s').
Proof.
  induction n as [|n IH]; intros fuel c s Hr Hn.
  - destruct fuel; cbn [parsebacks]; rewrite (renders_peek ts s) by (done || by apply all_symbols_dec); rewrite Hn; cbn;
      (split; [done|by apply renders_skip]).
  - destruct fuel; cbn [parsebacks]; rewrite (renders_peek _ s _) by (exact Hr || by apply all_symbols_dec); [done|].
    change (next_in "&" (replicate (S n) (TSym 38) ++ ts)) with true. cbn [negb].
    apply renders_skip in Hr. cbn [replicate app] in Hr. destruct (renders_gettoken _ _ _ Hr) as (s1 & -> & H1).
    apply renders_skip in H1. specialize (IH fuel (BACK c) _ H1 Hn).
    destruct (parsebacks fuel (BACK c) (skip_space s1)) as [[c' s']| |]; [|done..]. destruct IH as [E H2]. split; [|done].
    by rewrite E, Nat.iter_succ_r.
Qed.

Lemma next_open ts : next_in "(" (TSym 40 :: ts) = true.
Proof. reflexivity. Qed.

Lemma next_close ts : next_in ")" (TSym 41 :: ts) = true.
Proof. reflexivity. Qed.

Definition after_cmd : string := "|)&;".
Definition after_pipe : string := ")&;".
Definition after_line : string := ")".

Lemma parse_yields :
  (forall l ts fuel s, renders (tline l ++ ts) s -> follows after_line ts -> fits_line l ->
    yields (parseline fuel s) (fun c s' => plain c = dline l /\ renders ts s')) /\
  (forall p ts fuel s, renders (tpipe p ++ ts) s -> follows after_pipe ts -> fits_pipe p ->
    yields (parsepipe fuel s) (fun c s' => plain c = dpipe p /\ renders ts s')) /\
  (forall e ts fuel s, renders (tcmd e ++ ts) s -> follows after_cmd ts -> fits_cmd e ->
    yields (parseexec fuel s) (fun c s' => plain c = dcmd e /\ renders ts s')).
Proof.
  apply grammar_ind.
  - intros p IH n ts [|fuel] s Hr Hf Hw; [done|]. cbn [tline dline parseline fits_line] in *. rewrite <-app_assoc in Hr.
    eapply yields_bind; [apply IH; [exact Hr| |done]|].
    { destruct n as [|n]; [|by right]. destruct Hf as [->|Hf]; [by left|]. right. apply (next_in_le ")" ")&;"); [by apply subset_chars|done]. }
    intros c s1 [E1 H1]. eapply yields_bind; [apply (parsebacks_yields n ts); [exact H1|]|].
    { by apply (follows_not ")"); [apply no_common|]. }
    intros c' s2 [E2 H2]. rewrite (renders_peek ts s2) by (done || by apply all_symbols_dec).
    rewrite (follows_not ")" ";") by (done || by apply no_common). split; [by rewrite E2, E1|by apply renders_skip].
  - intros p IHp n l IHl ts [|fuel] s Hr Hf [Hw1 Hw2]; [done|]. cbn [tline dline parseline] in *. rewrite <-!app_assoc in Hr.
    eapply yields_bind; [apply IHp; [exact Hr| |done]|]; [right; by destruct n|].
    intros c s1 [E1 H1]. eapply yields_bind; [apply (parsebacks_yields n (TSym 59 :: tline l ++ ts)); [exact H1|done]|].
    intros c' s2 [E2 H2]. rewrite (renders_peek _ s2 _) by (exact H2 || by apply all_symbols_dec).
    change (next_in ";" (TSym 59 :: tline l ++ ts)) with true. apply renders_skip in H2.
    destruct (renders_gettoken _ _ _ H2) as (s3 & -> & H3). apply renders_skip in H3.
    eapply yields_bind; [apply (IHl ts); [exact H3|done..]|]. intros c2 s4 [E4 H4]. split; [|done]. cbn [plain]. by rewrite E2, E1, E4.
  - intros e IH ts [|fuel] s Hr Hf Hw; [done|]. cbn [tpipe dpipe parsepipe fits_pipe] in *.
    eapply yields_bind; [apply (IH ts); [exact Hr| |done]|].
    { destruct Hf as [->|Hf]; [by left|]. right. apply (next_in_le ")&;" "|)&;"); [by apply subset_chars|done]. }
    intros c s1 [E1 H1]. rewrite (renders_peek ts s1) by (done || by apply all_symbols_dec).
    rewrite (follows_not ")&;" "|") by (done || by apply no_common). split; [done|by apply renders_skip].
  - intros e IHe p IHp ts [|fuel] s Hr Hf [Hw1 Hw2]; [done|]. cbn [tpipe dpipe parsepipe] in *. rewrite <-app_assoc in Hr.
    eapply yields_bind; [apply (IHe (TSym 124 :: tpipe p ++ ts)); [exact Hr|by right|done]|].
    intros c s1 [E1 H1]. rewrite (renders_peek _ s1 _) by (exact H1 || by apply all_symbols_dec).
    change (next_in "|" (TSym 124 :: tpipe p ++ ts)) with true. apply renders_skip in H1.
    destruct (renders_gettoken _ _ _ H1) as (s3 & -> & H3). apply renders_skip in H3.
    eapply yields_bind; [apply (IHp ts); [exact H3|done..]|]. intros c2 s4 [E4 H4]. split; [|done]. cbn [plain]. by rewrite E1, E4.
  - intros l IHl rs ts [|fuel] s Hr Hf Hw; [done|]. cbn [tcmd dcmd parseexec fits_cmd] in *. cbn [app] in Hr.
    rewrite (renders_peek _ s _) by (exact Hr || by apply all_symbols_dec). rewrite next_open.
    apply renders_skip in Hr. destruct fuel as [|fuel]; [done|]. cbn [parseblock].
    rewrite (renders_peek _ (skip_space s) _) by (exact Hr || by apply all_symbols_dec). rewrite next_open. cbn [negb]. apply renders_skip in Hr. rewrite <-app_assoc in Hr. cbn [app] in Hr.
    destruct (renders_gettoken _ _ _ Hr) as (s1 & -> & H1). apply renders_skip in H1.
    eapply yields_bind; [apply (IHl (TSym 41 :: tredirs rs ++ ts)); [exact H1|by right|done]|].
    intros c s2 [E2 H2]. rewrite (renders_peek _ s2 _) by (exact H2 || by apply all_symbols_dec). rewrite next_close. cbn [negb]. apply renders_skip in H2.
    destruct (renders_gettoken _ _ _ H2) as (s3 & -> & H3). apply renders_skip in H3.
    eapply yields_bind; [apply (parseredirs_yields rs ts); [exact H3|]|].
    { by apply (follows_not "|)&;"); [apply no_common|]. }
    intros rl s4 [E4 H4]. split; [|done]. by rewrite (plain_redircmd rl rs), E2.
  - intros rs args ts [|fuel] s Hr Hf Hw; [done|]. cbn [tcmd dcmd parseexec fits_cmd] in *. rewrite <-app_assoc in Hr.
    rewrite (renders_peek _ s _) by (exact Hr || by apply all_symbols_dec).
    assert (next_in "(" (tredirs rs ++ targs args ++ ts) = false) as ->.
    { destruct rs as [|[[] w] rs]; [|done..]. cbn [tredirs mbind list_bind app]. rewrite targs_next. destruct args; [|done].
      by apply (follows_not "|)&;"); [apply no_common|]. }
    apply renders_skip in Hr. eapply yields_bind; [apply (parseredirs_yields rs (targs args ++ ts)); [exact Hr|]|].
    { rewrite targs_next. destruct args; [|done]. by apply (follows_not "|)&;"); [apply no_common|]. }
    intros rl s1 [E1 H1]. eapply yields_bind; [apply (parseargs_yields args ts); [exact H1|done|lia]|].
    intros [al rl'] s2 (E2 & E3 & H2). cbn [fst snd] in *. split; [|done].
    rewrite (plain_redircmd (rl ++ rl') (rs ++ concat args.*2)); [cbn [plain]; by rewrite E2|]. by rewrite !fmap_app, E1, E3.
Qed.

(** C38.  The parser ends on every line, in a command or in one of its error messages.  A
    line of the grammar is parsed to the command it stands for, whatever white space there
    is around its tokens: the words of each command in order, its redirections from the
    inside out with their files, and the pipelines, lists, background marks and
    parentheses around them.  Each string ends where its word ends, although all of them
    stay in the one buffer. *)
Theorem parsecmd_grammar s :
  0 ∉ s -> parsecmd s <> OutOfFuel /\
  forall l, fits_line l -> renders (tline l) s ->
    exists c buf, parsecmd s = Ret (c, buf) /\ resolve (length s) buf c = dline l.
Proof.
  intros H0. pose proof (parsecmd_strings s H0) as Hs. split; [by intros E; rewrite E in Hs|].
  intros l Hw Hr. rewrite <-(app_nil_r (tline l)) in Hr.
  destruct parse_yields as (Hy & _). specialize (Hy l [] (parse_fuel s) s Hr (or_introl eq_refl) Hw).
  unfold parsecmd in *. destruct (parseline (parse_fuel s) s) as [[c rest]| |]; [|done..]. destruct Hy as [E H1]. cbn [pbind] in *.
  unfold peek in *. inversion H1; subst. rewrite skip_spaces in * by done. rewrite decide_True in * by done.
  eexists c, _. split; [done|]. destruct Hs as [_ ->]. done.
Qed.

(** [(a|b)>c&] *)
Definition some_line : line :=
  LEnd (POne (CBlock (LEnd (PMany (CSimple [] [(chars "a", [])]) (POne (CSimple [] [(chars "b", [])]))) 0) [(ROut, chars "c")])) 1.

Lemma renders_all ts : Forall (fun t => tok_ok t /\ forall s, tok_ends t (32 :: s)) ts ->
  renders ts (concat ((fun t => tok_text t ++ [32]) <$> ts)).
Proof.
  induction 1 as [|t ts [Ht He] _ IH]; cbn; [apply rn_nil; constructor|]. rewrite <-app_assoc. cbn [app].
  apply (rn_cons [] t ts); [constructor|done|apply He|].
  destruct IH as [s Hs|sp t' ts s Hsp Ht' He' Hr]; [apply rn_nil; by constructor|].
  apply (rn_cons (32 :: sp) t' ts s); [by constructor|done..].
Qed.

Lemma parsecmd_grammar_witness :
  exists c buf, parsecmd (concat ((fun t => tok_text t ++ [32]) <$> tline some_line)) = Ret (c, buf) /\
    resolve (length (concat ((fun t => tok_text t ++ [32]) <$> tline some_line))) buf c =
    SBack (SRedir (SPipe (SExec [chars "a"]) (SExec [chars "b"])) (chars "c") 513 1).
Proof.
  destruct (parsecmd_grammar (concat ((fun t => tok_text t ++ [32]) <$> tline some_line))) as [_ H].
  - apply (bool_decide_unpack _). vm_compute. exact I.
  - apply (H some_line).
    + cbn. unfold MAXARGS. lia.
    + apply renders_all. repeat (apply Forall_cons_2; [|]); [..|by apply Forall_nil_2]; (split; [|by intros]); try reflexivity;
        (split; [discriminate|]); repeat constructor.
Defined.
