(* ===== verification/ShRun.v ===== *)
(** * The descriptors of the programs the shell starts

    runcmd of src/sh.c arranges the file descriptors of the programs of a command with
    close, open, dup, pipe and fork.  The kernel gives the lowest free descriptor. *)

From S2P Require Import Prelude Mem CString State Console Ulib Sh ShParse.

(** ** Descriptors *)

Inductive obj : Type := Terminal | File (name : list Z) (mode : Z) | PipeIn (id : nat) | PipeOut (id : nat).

(** The open files of a process: proc->ofile. *)
Notation table := (list (option obj)).

(** fdalloc: the first entry that is free. *)
Fixpoint fd_alloc (o : obj) (t : table) : option (nat * table) :=
  match t with
  | [] => None
  | None :: t => Some (0%nat, Some o :: t)
  | Some o' :: t => '(fd, t') ← fd_alloc o t; Some (S fd, Some o' :: t')
  end.

(** The programs that are started, each with its open files, where every call succeeds that
    has a free descriptor; [id] numbers the pipes.  A child has the files of its parent. *)
Fixpoint started (p : prog) (t : table) (id : nat) : option (list (list (list Z) * table) * nat) :=
  match p with
  | PExit => Some ([], id)
  | PExec _ argv _ => Some ([(argv, t)], id)
  | PClose fd k => started k (<[Z.to_nat fd := None]> t) id
  | POpen file mode k => '(fd, t) ← fd_alloc (File file mode) t; started (k (Z.of_nat fd)) t id
  | PDup fd k => o ← t !! Z.to_nat fd; o ← o; '(_, t) ← fd_alloc o t; started k t id
  | PPipe k _ =>
      '(r, t) ← fd_alloc (PipeIn id) t;
      '(w, t) ← fd_alloc (PipeOut id) t;
      started (k (Z.of_nat r, Z.of_nat w)) t (S id)
  | PFork child parent _ =>
      '(l1, id) ← started child t id;
      '(l2, id) ← started parent t id;
      Some (l1 ++ l2, id)
  | PWait k | PPrint _ _ k => started k t id
  | PChdir _ k => started (k 0) t id
  | PMore => None
  end.

(** ** The specification *)

(** A process with just the three standard descriptors. *)
Definition std (i o e : obj) : table := Some i :: Some o :: Some e :: replicate 13 None.

(** The programs of a command with their standard input, output and error. *)
Fixpoint wired (c : scmd) (i o e : obj) (id : nat) : list (list (list Z) * table) * nat :=
  match c with
  | SExec [] => ([], id)
  | SExec argv => ([(argv, std i o e)], id)
  | SRedir c file mode fd => if fd =? 0 then wired c (File file mode) o e id else wired c i (File file mode) e id
  | SPipe l r =>
      let '(l1, id') := wired l i (PipeOut id) e (S id) in
      let '(l2, id'') := wired r (PipeIn id) o e id' in
      (l1 ++ l2, id'')
  | SList l r =>
      let '(l1, id') := wired l i o e id in
      let '(l2, id'') := wired r i o e id' in
      (l1 ++ l2, id'')
  | SBack c => wired c i o e id
  end.

(** Redirections are those the parser makes. *)
Fixpoint std_redirs (c : scmd) : Prop :=
  match c with
  | SExec _ => True
  | SRedir c _ _ fd => std_redirs c /\ (fd = 0 \/ fd = 1)
  | SPipe l r | SList l r => std_redirs l /\ std_redirs r
  | SBack c => std_redirs c
  end.

(** The three processes of a pipe, after pipe has returned 3 and 4. *)
Definition piped (i o e : obj) (id : nat) : table :=
  Some i :: Some o :: Some e :: Some (PipeIn id) :: Some (PipeOut id) :: replicate 11 None.

Lemma left_side i o e id p n :
  started (PClose 1 (PDup 4 (PClose 3 (PClose 4 p)))) (piped i o e id) n = started p (std i (PipeOut id) e) n.
Proof. reflexivity. Qed.

Lemma right_side i o e id p n :
  started (PClose 0 (PDup 3 (PClose 3 (PClose 4 p)))) (piped i o e id) n = started p (std (PipeIn id) o e) n.
Proof. reflexivity. Qed.

Lemma pipe_calls i o e id k failed : started (PPipe k failed) (std i o e) id = started (k (3, 4)) (piped i o e id) (S id).
Proof. reflexivity. Qed.

Lemma fork_calls child parent failed t id :
  started (PFork child parent failed) t id =
    '(l1, id) ← started child t id; '(l2, id) ← started parent t id; Some (l1 ++ l2, id).
Proof. reflexivity. Qed.

Lemma runcmd_wired c : forall i o e id, std_redirs c -> started (runcmd c) (std i o e) id = Some (wired c i o e id).
Proof.
  induction c as [argv|c IH file mode fd|l IHl r IHr|l IHl r IHr|c IH]; intros i o e id Hs; cbn [std_redirs] in Hs.
  - by destruct argv.
  - destruct Hs as [Hs [-> | ->]]; cbn; apply (IH _ _ _ _ Hs).
  - destruct Hs as [Hl Hr].
    cbn [runcmd wired]. unfold fork1. rewrite pipe_calls. cbn [fst snd]. rewrite fork_calls, left_side, IHl by done.
    destruct (wired l i (PipeOut id) e (S id)) as [l1 id1]. cbn [mbind option_bind]. rewrite fork_calls, right_side, IHr by done.
    destruct (wired r (PipeIn id) o e id1) as [l2 id2]. cbn [mbind option_bind started]. by rewrite app_nil_r.
  - destruct Hs as [Hl Hr]. cbn [runcmd fork1 started wired]. unfold fork1. cbn [started].
    rewrite IHl by done. destruct (wired l i o e id) as [l1 id1]. cbn [mbind option_bind].
    rewrite IHr by done. by destruct (wired r i o e id1) as [l2 id2].
  - cbn [runcmd wired]. unfold fork1. cbn [started]. rewrite IH by done. destruct (wired c i o e id) as [l1 id1].
    cbn [mbind option_bind]. by rewrite app_nil_r.
Qed.

Lemma cmd_ok_redirs l c : cmd_ok l c -> std_redirs (plain c).
Proof.
  induction c as [argv|c IH r|a IHa b IHb|a IHa b IHb|c IH]; cbn; [done|..].
  - intros [Hc [_ Hf]]. auto.
  - intros [Ha Hb]. auto.
  - intros [Ha Hb]. auto.
  - done.
Qed.

Lemma wired_std c : forall i o e id a t, (a, t) ∈ (wired c i o e id).1 -> exists i' o', t = std i' o' e.
Proof.
  induction c as [argv|c IH file mode fd|l IHl r IHr|l IHl r IHr|c IH]; intros i o e id a t; cbn [wired].
  - destruct argv; [by intros ?%not_elem_of_nil|]. intros [= -> ->]%list_elem_of_singleton. by exists i, o.
  - destruct (fd =? 0); apply IH.
  - specialize (IHl i (PipeOut id) e (S id) a t). destruct (wired l i (PipeOut id) e (S id)) as [l1 id1].
    specialize (IHr (PipeIn id) o e id1 a t). destruct (wired r (PipeIn id) o e id1) as [l2 id2].
    intros [Hin|Hin]%elem_of_app; auto.
  - specialize (IHl i o e id a t). destruct (wired l i o e id) as [l1 id1].
    specialize (IHr i o e id1 a t). destruct (wired r i o e id1) as [l2 id2].
    intros [Hin|Hin]%elem_of_app; auto.
  - apply IH.
Qed.

(** C39.  A line that is parsed starts its programs, in the order of the line, with the
    files the line says: each has exactly three open files, its standard input, output and
    error; the output of the left side of a pipe is the end to write of a new pipe, of which
    the input of the right side is the end to read, and a redirection replaces the input or
    the output.  No end of a pipe stays open in another program, so readers see the end of
    the file. *)
Theorem line_wires_programs s c buf i o e id :
  0 ∉ s -> parsecmd s = Ret (c, buf) ->
  started (run_line s) (std i o e) id = Some (wired (plain c) i o e id) /\
  forall a t, (a, t) ∈ (wired (plain c) i o e id).1 -> exists i' o', t = std i' o' e.
Proof.
  intros H0 E. pose proof (parsecmd_strings s H0) as Hs. unfold run_line. rewrite E in *. destruct Hs as [Hc ->].
  split; [|intros a t; apply wired_std]. apply runcmd_wired. by eapply cmd_ok_redirs.
Qed.

Lemma line_wires_programs_witness :
  started (run_line (chars "a<f|b>g")) (std Terminal Terminal Terminal) 0 =
    Some ([([chars "a"], std (File (chars "f") 0) (PipeOut 0) Terminal);
           ([chars "b"], std (PipeIn 0) (File (chars "g") 513) Terminal)], 1%nat).
Proof.
  destruct (parsecmd (chars "a<f|b>g")) as [[c buf]| |] eqn:E; [|by vm_compute in E..].
  destruct (line_wires_programs (chars "a<f|b>g") c buf Terminal Terminal Terminal 0) as [H _].
  - apply (bool_decide_unpack _). vm_compute. exact I.
  - exact E.
  - rewrite H. vm_compute in E. injection E as <- _. reflexivity.
Defined.
