(* ===== verification/Umalloc.v ===== *)
(** * The user-level allocator: malloc and free of src/umalloc.c

    A header is the pair of its fields ptr and size, at its address; sizes count headers of
    16 bytes.  [base] is the address of the static header.  sbrk returns the old end of the
    memory of the process, or fails: which of the two is an input.  Reading a header that is
    nowhere is [None]. *)

From S2P Require Import Prelude.

Definition HSIZE : Z := 16.

Record uheap : Type := Uheap {
  h_hdr : gmap Z (Z * Z);    (* the headers *)
  h_freep : Z;               (* 0: null *)
  h_brk : Z                  (* the end of the memory of the process *)
}.

Section Model.
  Context (base : Z).

(** [for(p = freep; !(bp > p && bp < p->s.ptr); p = p->s.ptr)] with its break. *)
Fixpoint free_search (fuel : nat) (h : gmap Z (Z * Z)) (bp p : Z) : option Z :=
  '(nx, _) ← h !! p;
  if (p <? bp) && (bp <? nx) then Some p
  else if (nx <=? p) && ((p <? bp) || (bp <? nx)) then Some p
  else match fuel with
       | O => None
       | S fuel' => free_search fuel' h bp nx
       end.

Definition free (fuel : nat) (ap : Z) (u : uheap) : option uheap :=
  let bp := ap - HSIZE in
  let h := h_hdr u in
  p ← free_search fuel h bp (h_freep u);
  '(_, bsize) ← h !! bp;
  '(nx, _) ← h !! p;
  h ← (if bp + HSIZE * bsize =? nx then
         '(nnx, nsize) ← h !! nx;
         Some (<[bp := (nnx, u32 (bsize + nsize))]> h)
       else Some (<[bp := (nx, bsize)]> h));
  '(bnx, bsize) ← h !! bp;
  '(_, psize) ← h !! p;
  let h := if p + HSIZE * psize =? bp then <[p := (bnx, u32 (psize + bsize))]> h
           else <[p := (bp, psize)]> h in
  Some (Uheap h p (h_brk u)).

(** The result is 0 when sbrk fails, and freep otherwise. *)
Definition morecore (fuel : nat) (nu : Z) (grant : bool) (u : uheap) : option (Z * uheap) :=
  let nu := if nu <? 4096 then 4096 else nu in
  if grant then
    let hp := h_brk u in
    let u := Uheap (<[hp := ((default (0, 0) (h_hdr u !! hp)).1, nu)]> (h_hdr u)) (h_freep u) (h_brk u + nu * HSIZE) in
    u ← free fuel (hp + HSIZE) u;
    Some (h_freep u, u)
  else Some (0, u).

(** [for(p = prevp->s.ptr; ; prevp = p, p = p->s.ptr)] *)
Fixpoint malloc_loop (fuel : nat) (nunits : Z) (grant : bool) (prevp p : Z) (u : uheap) : option (Z * uheap) :=
  match fuel with
  | O => None
  | S fuel' =>
      let h := h_hdr u in
      '(nx, size) ← h !! p;
      if nunits <=? size then
        if size =? nunits then
          '(_, psize) ← h !! prevp;
          Some (p + HSIZE, Uheap (<[prevp := (nx, psize)]> h) prevp (h_brk u))
        else
          let q := p + HSIZE * (size - nunits) in
          let h := <[p := (nx, size - nunits)]> h in
          let h := <[q := ((default (0, 0) (h !! q)).1, nunits)]> h in
          Some (q + HSIZE, Uheap h prevp (h_brk u))
      else if p =? h_freep u then
        '(p, u) ← morecore fuel' nunits grant u;
        if p =? 0 then Some (0, u) else
        '(nx, _) ← h_hdr u !! p;
        malloc_loop fuel' nunits grant p nx u
      else malloc_loop fuel' nunits grant p nx u
  end.

(** The number of headers for [nbytes] bytes. *)
Definition units (nbytes : Z) : Z := u32 ((nbytes + HSIZE - 1) / HSIZE + 1).

Definition malloc (fuel : nat) (nbytes : Z) (grant : bool) (u : uheap) : option (Z * uheap) :=
  let u := if h_freep u =? 0 then Uheap (<[base := (base, 0)]> (h_hdr u)) base (h_brk u) else u in
  '(p, _) ← h_hdr u !! h_freep u;
  malloc_loop fuel (units nbytes) grant (h_freep u) p u.

End Model.

(** ** The heap as sets of blocks

    A block is its address and its size in headers. *)

Notation block := (Z * Z)%type.

Definition block_end (b : block) : Z := b.1 + HSIZE * b.2.

Definition apart (b c : block) : Prop := block_end b <= c.1 \/ block_end c <= b.1.

Fixpoint size_of (l : list block) : Z := match l with [] => 0 | b :: l' => b.2 + size_of l' end.

(** The address of the first block, or [e]. *)
Definition first (l : list block) (e : Z) : Z := match l with [] => e | b :: _ => b.1 end.

(** Each header of the list points to the next one, and the last one to [e]. *)
Fixpoint chain (h : gmap Z block) (l : list block) (e : Z) : Prop :=
  match l with
  | [] => True
  | (a, s) :: l' => h !! a = Some (first l' e, s) /\ chain h l' e
  end.

(** Blocks in the order of their addresses, from [lo] on, no two of them adjacent. *)
Fixpoint gaps (lo : Z) (l : list block) : Prop :=
  match l with
  | [] => True
  | (a, s) :: l' => lo < a /\ 0 < s /\ gaps (a + HSIZE * s) l'
  end.

(** Blocks no two of which overlap. *)
Fixpoint disj (l : list block) : Prop :=
  match l with
  | [] => True
  | b :: l' => Forall (apart b) l' /\ disj l'
  end.

(** The blocks make up the memory from [start] to [brk], each address in exactly one. *)
Record tiling (start brk : Z) (l : list block) : Prop := {
  ti_pos : Forall (fun b => 0 < b.2) l;
  ti_disj : disj l;
  ti_in : Forall (fun b => start <= b.1 /\ block_end b <= brk) l;
  ti_all : HSIZE * size_of l = brk - start
}.

(** [fl] are the blocks of the free list, in the order of their addresses, [live] the blocks
    handed out; together they make up the memory that sbrk gave, from [start] on. *)
Record heap_is (base start : Z) (u : uheap) (fl live : list block) : Prop := {
  hi_ring : chain (h_hdr u) ((base, 0) :: fl) base;
  hi_freep : h_freep u ∈ ((base, 0) :: fl).*1;
  hi_gaps : gaps base fl;
  hi_live : Forall (fun b => exists nx, h_hdr u !! b.1 = Some (nx, b.2)) live;
  hi_tiling : tiling start (h_brk u) (fl ++ live)
}.

(** The memory of the blocks in use is as it was. *)
Definition kept (live : list block) (u u' : uheap) : Prop :=
  forall c x, c ∈ live -> c.1 <= x < block_end c -> h_hdr u' !! x = h_hdr u !! x.

(** ** Lists of blocks *)

Lemma ring_chain_app h l1 l2 e : chain h (l1 ++ l2) e <-> chain h l1 (first l2 e) /\ chain h l2 e.
Proof.
  induction l1 as [|[a s] l1 IH]; cbn; [tauto|]. rewrite IH.
  assert (first (l1 ++ l2) e = first l1 (first l2 e)) as -> by (by destruct l1). tauto.
Qed.

Lemma ring_chain_insert h l e a v : a ∉ l.*1 -> chain h l e -> chain (<[a := v]> h) l e.
Proof.
  induction l as [|[b s] l IH]; cbn; [done|]. rewrite not_elem_of_cons. intros [? ?] [? ?].
  rewrite lookup_insert_ne by done. auto.
Qed.

Lemma gaps_app lo l1 a s l2 :
  gaps lo (l1 ++ (a, s) :: l2) <->
  gaps lo l1 /\ Forall (fun b => block_end b < a) l1 /\ lo < a /\ 0 < s /\ gaps (a + HSIZE * s) l2.
Proof.
  revert lo. induction l1 as [|[b t] l1 IH]; intros lo; cbn; [rewrite Forall_nil; tauto|].
  rewrite IH, Forall_cons. unfold block_end, HSIZE. cbn. intuition lia.
Qed.

Lemma gaps_Forall lo l : gaps lo l -> Forall (fun b => lo < b.1 /\ 0 < b.2) l.
Proof.
  revert lo. induction l as [|[a s] l IH]; intros lo; cbn; [constructor|]. intros (? & ? & H).
  constructor; [done|]. eapply Forall_impl; [exact (IH _ H)|]. unfold HSIZE. cbn. lia.
Qed.

(** ** Blocks and the memory they make up *)

Lemma apart_sym b c : apart b c -> apart c b.
Proof. unfold apart. tauto. Qed.

#[export] Instance disj_perm : Proper ((≡ₚ) ==> iff) disj.
Proof.
  assert (H : forall l l', l ≡ₚ l' -> disj l -> disj l').
  { induction 1 as [|b l l' HP IH|b c l|l l' l'' _ IH1 _ IH2]; cbn; auto.
    - intros [? ?]. split; [by rewrite <- HP|auto].
    - rewrite !Forall_cons. intros [[? ?] [? ?]]. eauto using apart_sym. }
  intros l l' HP. split; apply H; [done|by symmetry].
Qed.

#[export] Instance size_of_perm : Proper ((≡ₚ) ==> (=)) size_of.
Proof. induction 1; cbn in *; lia. Qed.

#[export] Instance tiling_perm start brk : Proper ((≡ₚ) ==> iff) (tiling start brk).
Proof.
  assert (H : forall l l', l ≡ₚ l' -> tiling start brk l -> tiling start brk l').
  { intros l l' HP []. split; by rewrite <- HP. }
  intros l l' HP. split; apply H; [done|by symmetry].
Qed.

Lemma tiling_merge start brk a s t l :
  0 < s -> 0 < t ->
  tiling start brk ((a, s) :: (a + HSIZE * s, t) :: l) <-> tiling start brk ((a, s + t) :: l).
Proof.
  intros Hs Ht.
  assert (E : Forall (fun b => 0 < b.2) l ->
    (Forall (apart (a, s)) l /\ Forall (apart (a + HSIZE * s, t)) l <-> Forall (apart (a, s + t)) l)).
  { intros Hp. rewrite !Forall_forall in *. unfold apart, block_end, HSIZE; cbn.
    split; [intros [H1 H2] b Hb; specialize (H1 b Hb); specialize (H2 b Hb); specialize (Hp b Hb); lia|].
    intros H. split; intros b Hb; specialize (H b Hb); lia. }
  assert (A : apart (a, s) (a + HSIZE * s, t)) by (left; unfold block_end; cbn; lia).
  split; intros [Hp Hd Hi Ha]; cbn in Hd; rewrite !Forall_cons in *; cbn in *;
    unfold block_end in *; cbn in *; destruct_and!; split; cbn; rewrite ?Forall_cons; cbn;
    unfold block_end; cbn; unfold HSIZE in *; split_and?; try done; try lia; try (apply E; done).
Qed.

Lemma tiling_grow start brk n l : 0 < n -> start <= brk -> tiling start brk l -> tiling start (brk + n * HSIZE) ((brk, n) :: l).
Proof.
  intros Hn Hb [Hp Hd Hi Ha]. split; cbn; rewrite ?Forall_cons; unfold block_end, HSIZE in *; cbn; split_and?; try done; try lia.
  - eapply Forall_impl; [exact Hi|]. intros b. right. unfold block_end, HSIZE; cbn. lia.
  - eapply Forall_impl; [exact Hi|]. cbn. lia.
Qed.

(** The sizes add up without overflow. *)
Lemma tiling_size start brk l b : tiling start brk l -> b ∈ l -> HSIZE * b.2 <= brk - start.
Proof.
  intros HT [l' HP]%elem_of_Permutation. rewrite HP in HT. destruct HT as [Hp _ _ <-]. apply Forall_cons in Hp as [Hb Hp].
  enough (0 <= size_of l') by (cbn; unfold HSIZE; lia).
  clear Hb HP. induction Hp; cbn in *; lia.
Qed.

(** The free blocks lie below a block or above it. *)
Lemma gaps_split lo fl b :
  gaps lo fl -> 0 < b.2 -> Forall (apart b) fl ->
  exists l1 l2, fl = l1 ++ l2 /\ Forall (fun c => block_end c <= b.1) l1 /\ Forall (fun c => block_end b <= c.1) l2.
Proof.
  revert lo. induction fl as [|[c t] fl IH]; intros lo Hg Hb Ha; [by exists [], []|].
  apply Forall_cons in Ha as [Hc Ha]. cbn in Hg. destruct Hg as (H1 & H2 & H3). destruct Hc as [Hc|Hc].
  - exists [], ((c, t) :: fl). split_and!; [done|constructor|]. constructor; [done|].
    eapply Forall_impl; [exact (gaps_Forall _ _ H3)|]. unfold HSIZE in *. cbn in *. lia.
  - destruct (IH _ H3 Hb Ha) as (l1 & l2 & -> & ? & ?). exists ((c, t) :: l1), l2. by rewrite Forall_cons.
Qed.

(** ** The search of free *)

(** Below the block the search goes up to the last free block below it. *)
Lemma search_up base h b p s l1 l2 N q sq fuel lo :
  chain h ((p, s) :: l1 ++ l2) base -> base <= p -> p < b.1 -> p <= lo -> gaps lo l1 ->
  Forall (fun c => block_end c <= b.1) l1 -> Forall (fun c => block_end b <= c.1) l2 -> 0 < b.2 ->
  (p, s) :: l1 = N ++ [(q, sq)] -> (length l1 <= fuel)%nat ->
  free_search fuel h b.1 p = Some q.
Proof.
  revert p s N fuel lo. induction l1 as [|[c t] l1 IH]; intros p s N fuel lo [Hp Hc] Hb Hpb Hlo Hg Hl1 Hl2 Hs HN Hf.
  - assert (q = p) as -> by (destruct N as [|? [|]]; naive_solver).
    destruct fuel; cbn [free_search]; rewrite Hp; cbn [mbind option_bind];
      destruct l2 as [|[d r] l2]; cbn; unfold block_end, HSIZE in *; cbn in *; try (apply Forall_cons in Hl2 as [? _]; cbn in *);
      repeat (case_match; try done); lia.
  - destruct fuel as [|fuel]; [cbn in Hf; lia|]. cbn [free_search]. rewrite Hp. cbn [mbind option_bind first app fst].
    cbn in Hg. destruct Hg as (Hg1 & Hg2 & Hg3). apply Forall_cons in Hl1 as [Hl Hl1]. unfold block_end, HSIZE in Hl; cbn in Hl.
    replace ((p <? b.1) && (b.1 <? c)) with false by lia. replace ((c <=? p) && ((p <? b.1) || (b.1 <? c))) with false by lia.
    destruct N as [|n N]; [done|]. injection HN as _ HN.
    apply (IH c t N fuel (c + HSIZE * t) Hc); unfold HSIZE in *; cbn in Hf; try done; lia.
Qed.

(** Above it the search goes on to the last free block, and from there to base. *)
Lemma search_over base h (b : block) p s l2 fuel lo :
  chain h ((p, s) :: l2) base -> base < b.1 -> b.1 < p -> p <= lo -> gaps lo l2 ->
  free_search (S (length l2) + fuel) h b.1 p = free_search fuel h b.1 base.
Proof.
  revert p s lo. induction l2 as [|[c t] l2 IH]; intros p s lo [Hp Hc] Hb Hpb Hlo Hg; cbn [length Nat.add free_search];
    rewrite Hp; cbn [mbind option_bind first fst].
  - replace ((p <? b.1) && (b.1 <? base)) with false by lia. by replace ((base <=? p) && ((p <? b.1) || (b.1 <? base))) with false by lia.
  - cbn in Hg. destruct Hg as (Hg1 & Hg2 & Hg3).
    replace ((p <? b.1) && (b.1 <? c)) with false by lia. replace ((c <=? p) && ((p <? b.1) || (b.1 <? c))) with false by lia.
    change (free_search (S (length l2) + fuel) h b.1 c = free_search fuel h b.1 base).
    apply (IH c t (c + HSIZE * t) Hc); unfold HSIZE in *; try done; lia.
Qed.

Lemma gaps_app_l lo l1 l2 : gaps lo (l1 ++ l2) -> gaps lo l1.
Proof. destruct l2 as [|[a s] l2]; [by rewrite app_nil_r|]. rewrite gaps_app. tauto. Qed.

(** A suffix of the ring that ends with the same block. *)
Lemma suffix_last {A} (X Y N : list A) x q : X ++ x :: Y = N ++ [q] -> exists N', x :: Y = N' ++ [q].
Proof.
  destruct (@exists_last _ (x :: Y)) as (Y' & y & ->); [done|]. rewrite app_assoc.
  intros [_ ->]%app_inj_tail. by exists Y'.
Qed.

(** From wherever freep is, the search ends at the last block of the ring below [b]. *)
Lemma search_ring base h b f l1 l2 N q sq fuel :
  chain h ((base, 0) :: l1 ++ l2) base -> gaps base (l1 ++ l2) -> f ∈ ((base, 0) :: l1 ++ l2).*1 ->
  base < b.1 -> 0 < b.2 -> Forall (fun c => block_end c <= b.1) l1 -> Forall (fun c => block_end b <= c.1) l2 ->
  (base, 0) :: l1 = N ++ [(q, sq)] -> (length l1 + length l2 + 1 <= fuel)%nat ->
  free_search fuel h b.1 f = Some q.
Proof.
  intros Hc Hg Hf Hb Hs H1 H2 HN Hfuel. pose proof (gaps_app_l _ _ _ Hg) as Hg1.
  assert (Hbase : forall fuel', (length l1 <= fuel')%nat -> free_search fuel' h b.1 base = Some q).
  { intros fuel' ?. by eapply (search_up base h b base 0 l1 l2 N q sq fuel' base). }
  rewrite fmap_cons, fmap_app, elem_of_cons, elem_of_app in Hf. destruct Hf as [->|[Hf|Hf]]; [apply Hbase; lia| |].
  - apply list_elem_of_fmap in Hf as ([p s] & -> & (A & B & ->)%list_elem_of_split). cbn [fst].
    destruct (suffix_last ((base, 0) :: A) B N (p, s) (q, sq) HN) as [N' HN'].
    apply Forall_app in H1 as [_ [Hp H1]%Forall_cons]. apply gaps_app in Hg1 as (_ & _ & Hlo & Hps & Hg1).
    rewrite <- app_assoc in Hc. change ((base, 0) :: A ++ ((p, s) :: B) ++ l2) with (((base, 0) :: A) ++ (p, s) :: B ++ l2) in Hc.
    apply ring_chain_app in Hc as [_ Hc]. rewrite length_app in Hfuel. unfold block_end, HSIZE in *. cbn in *.
    eapply (search_up base h b p s B l2 N' q sq fuel (p + 16 * s)); try done; lia.
  - apply list_elem_of_fmap in Hf as ([p s] & -> & (A & B & ->)%list_elem_of_split). cbn [fst].
    apply Forall_app in H2 as [_ [Hp H2]%Forall_cons].
    rewrite app_assoc in Hg, Hc. apply gaps_app in Hg as (_ & _ & Hlo & Hps & Hg).
    change ((base, 0) :: (l1 ++ A) ++ (p, s) :: B) with (((base, 0) :: l1 ++ A) ++ (p, s) :: B) in Hc.
    apply ring_chain_app in Hc as [_ Hc]. rewrite length_app in Hfuel. cbn [length] in Hfuel. unfold block_end, HSIZE in *. cbn [fst] in *.
    replace fuel with (S (length B) + (fuel - S (length B)))%nat by lia.
    rewrite (search_over base h b p s B _ (p + 16 * s)); try done; try lia. apply Hbase. lia.
Qed.

(** ** free *)

Lemma not_in_above (l : list block) a lo : a <= lo -> gaps lo l -> a ∉ l.*1.
Proof.
  intros Ha Hg%gaps_Forall Hin. apply list_elem_of_fmap in Hin as (b & -> & Hb).
  rewrite Forall_forall in Hg. specialize (Hg b Hb). lia.
Qed.

Lemma not_in_below base (l : list block) a e :
  gaps base l -> base < e -> Forall (fun b => block_end b <= e) l -> e <= a -> a ∉ ((base, 0) :: l).*1.
Proof.
  intros Hg%gaps_Forall Hb H Ha. cbn. rewrite not_elem_of_cons. split; [lia|]. intros (b & -> & Hin)%list_elem_of_fmap.
  rewrite Forall_forall in Hg, H. specialize (Hg b Hin). specialize (H b Hin). unfold block_end, HSIZE in H. lia.
Qed.

Lemma ends_below (l : list block) e : Forall (fun b => block_end b < e) l -> Forall (fun b => block_end b <= e) l.
Proof. intros H. eapply Forall_impl; [exact H|]. cbn. lia. Qed.

(** The block joined to the free block that follows it. *)
Lemma join_up base start brk h b lo l1 l2 rest :
  chain h l2 base -> gaps lo (l1 ++ l2) -> Forall (fun c => block_end b <= c.1) l2 -> 0 < b.2 -> base < b.1 ->
  tiling start brk (b :: l1 ++ l2 ++ rest) -> brk - start < 2 ^ 36 ->
  exists s l2',
    (if b.1 + HSIZE * b.2 =? first l2 base then
       '(nnx, nsize) ← h !! first l2 base; Some (<[b.1 := (nnx, u32 (b.2 + nsize))]> h)
     else Some (<[b.1 := (first l2 base, b.2)]> h)) = Some (<[b.1 := (first l2' base, s)]> h) /\
    chain h l2' base /\ gaps (b.1 + HSIZE * s) l2' /\ b.2 <= s /\ (length l2' <= length l2)%nat /\
    tiling start brk ((b.1, s) :: l1 ++ l2' ++ rest).
Proof.
  intros Hc Hg H2 Hb Hbase HT Hlim. destruct b as [a s]. cbn [fst snd] in *.
  destruct l2 as [|[c t] l2].
  { exists s, []. replace (a + HSIZE * s =? first [] base) with false by (unfold HSIZE; cbn; lia). done. }
  apply gaps_app in Hg as (_ & _ & _ & Ht & Hg). apply Forall_cons in H2 as [Hac _]. unfold block_end in Hac. cbn [fst snd] in Hac.
  destruct Hc as [Hc Hc2]. cbn [first fst].
  destruct (Z.eqb_spec (a + HSIZE * s) c) as [<-|Hne].
  - exists (s + t), l2. rewrite Hc. cbn [mbind option_bind].
    assert (HT' : tiling start brk ((a, s + t) :: l1 ++ l2 ++ rest)).
    { apply tiling_merge; [done..|]. revert HT. apply tiling_perm. rewrite Permutation_middle. solve_Permutation. }
    split_and!; try done; try lia; [|by unfold HSIZE in *; replace (a + 16 * (s + t)) with (a + 16 * s + 16 * t) by lia|cbn; lia].
    rewrite u32_small; [done|]. pose proof (tiling_size _ _ _ (a, s + t) HT' ltac:(left)). unfold HSIZE in *. cbn [snd] in *. mach.
  - exists s, ((c, t) :: l2). split_and!; try done; cbn; unfold HSIZE in *; split_and?; try done; lia.
Qed.

Lemma in_middle {A} (X Y : list A) x : x ∈ X ++ x :: Y.
Proof. apply elem_of_app. right. left. Qed.

Lemma fst_in_middle (X Y : list block) a s : a ∈ (X ++ (a, s) :: Y).*1.
Proof. rewrite fmap_app. apply in_middle. Qed.

(** The block joined to the free block [q] below it, or linked behind it. *)
Lemma join_down base start brk h a s l1 l2 rest N q sq :
  h !! a = Some (first l2 base, s) -> chain h N q -> chain h l2 base -> (base, 0) :: l1 = N ++ [(q, sq)] ->
  gaps base l1 -> Forall (fun c => block_end c <= a) l1 -> gaps (a + HSIZE * s) l2 -> 0 < s -> base < a ->
  tiling start brk ((a, s) :: l1 ++ l2 ++ rest) -> brk - start < 2 ^ 36 ->
  exists fl c,
    chain (if q + HSIZE * sq =? a then <[q := (first l2 base, u32 (sq + s))]> h else <[q := (a, sq)]> h) ((base, 0) :: fl) base /\
    q ∈ ((base, 0) :: fl).*1 /\ gaps base fl /\ tiling start brk (fl ++ rest) /\
    c ∈ fl /\ s <= c.2 /\ (length fl <= S (length l1 + length l2))%nat.
Proof.
  intros Ha HcN Hc2 HN Hg1 H1 Hg2 Hs Hbase HT Hlim.
  assert (Hn2 : a ∉ l2.*1) by (eapply not_in_above; [|exact Hg2]; unfold HSIZE; lia).
  destruct N as [|n N]; cbn in HN.
  - injection HN as Eq Es El. subst q sq l1. replace (base + HSIZE * 0 =? a) with false by (unfold HSIZE; lia).
    exists ((a, s) :: l2), (a, s). split_and!; try done; [|by left|by left].
    cbn. rewrite lookup_insert_eq, lookup_insert_ne by lia. split_and!; try done.
    apply ring_chain_insert; [eapply not_in_above; [|exact Hg2]; unfold HSIZE; lia|done].
  - injection HN as En El. subst n l1. apply gaps_app in Hg1 as (Hg1 & Hlt & Hbq & Hsq & _). apply Forall_app in H1 as [H1 [Hq _]%Forall_cons].
    unfold block_end in Hq. cbn [fst snd] in Hq.
    assert (Hq2 : q ∉ l2.*1) by (eapply not_in_above; [|exact Hg2]; unfold HSIZE in *; lia).
    assert (HqN : q ∉ ((base, 0) :: N).*1) by (apply (not_in_below base N q q); auto using ends_below; lia).
    destruct (Z.eqb_spec (q + HSIZE * sq) a) as [Hqa|Hqa].
    + exists (N ++ (q, sq + s) :: l2), (q, sq + s).
      assert (HT' : tiling start brk ((N ++ (q, sq + s) :: l2) ++ rest)).
      { rewrite <- app_assoc. cbn. rewrite <- Permutation_middle. apply tiling_merge; [done..|]. revert HT. subst a. apply tiling_perm. solve_Permutation. }
      split_and!; [|..|cbn; lia|rewrite !length_app; cbn; lia]; try done.
      * change ((base, 0) :: N ++ (q, sq + s) :: l2) with (((base, 0) :: N) ++ (q, sq + s) :: l2). apply ring_chain_app. cbn [first fst].
        split; [by apply ring_chain_insert|]. cbn. rewrite lookup_insert_eq. split; [|by apply ring_chain_insert].
        rewrite u32_small; [done|]. pose proof (tiling_size _ _ _ (q, sq + s) HT' ltac:(rewrite <- app_assoc; apply in_middle)). unfold HSIZE in *. cbn [snd] in *. mach.
      * apply (fst_in_middle (_ :: _)).
      * apply gaps_app. split_and!; try done; [lia|]. unfold HSIZE in *. by replace (q + 16 * (sq + s)) with (a + 16 * s) by lia.
      * apply in_middle.
    + exists (N ++ (q, sq) :: (a, s) :: l2), (a, s). split_and!; [|..|done|rewrite !length_app; cbn; lia].
      * change ((base, 0) :: N ++ (q, sq) :: (a, s) :: l2) with (((base, 0) :: N) ++ (q, sq) :: (a, s) :: l2). apply ring_chain_app. cbn [first fst].
        split; [by apply ring_chain_insert|]. cbn. rewrite lookup_insert_eq, lookup_insert_ne by (unfold HSIZE in *; lia).
        split_and!; try done. by apply ring_chain_insert.
      * apply (fst_in_middle (_ :: _)).
      * apply gaps_app. split_and!; try done. cbn. unfold HSIZE in *. split_and!; try done; lia.
      * revert HT. apply tiling_perm. solve_Permutation.
      * rewrite cons_middle, app_assoc. apply in_middle.
Qed.

(** The address of a block, or of base, is outside every other block. *)
Lemma off_block start brk b c l x :
  tiling start brk (b :: l) -> c ∈ l -> c.1 <= x < block_end c -> x <> b.1.
Proof.
  intros [Hp [Hd _] _ _] Hc Hx. apply Forall_cons in Hp as [Hb _]. rewrite Forall_forall in Hd. specialize (Hd c Hc).
  unfold apart, block_end, HSIZE in *. lia.
Qed.

Lemma off_ring base start brk fl live q c x :
  base < start -> tiling start brk (fl ++ live) -> q ∈ ((base, 0) :: fl).*1 -> c ∈ live -> c.1 <= x < block_end c -> x <> q.
Proof.
  intros Hb HT Hq Hc Hx. cbn in Hq. apply elem_of_cons in Hq as [->|Hq].
  - destruct HT as [_ _ Hi _]. rewrite Forall_forall in Hi. destruct (Hi c); [apply elem_of_app; by right|]. lia.
  - apply list_elem_of_fmap in Hq as (b & -> & [l HP]%elem_of_Permutation). rewrite HP in HT.
    apply (off_block _ _ b c (l ++ live) x HT); [apply elem_of_app; by right|done].
Qed.

Lemma live_kept start brk fl live u u' :
  tiling start brk (fl ++ live) -> kept live u u' ->
  Forall (fun b => exists nx, h_hdr u !! b.1 = Some (nx, b.2)) live ->
  Forall (fun b => exists nx, h_hdr u' !! b.1 = Some (nx, b.2)) live.
Proof.
  intros [Hp _ _ _] HK Hl. apply Forall_app in Hp as [_ Hp]. rewrite Forall_forall in *. intros c Hc.
  destruct (Hl c Hc) as [nx E]. exists nx. rewrite (HK c c.1 Hc); [done|]. specialize (Hp c Hc). unfold block_end, HSIZE. cbn in *. lia.
Qed.

Lemma free_run base start u fl live b live' fuel :
  heap_is base start u fl live -> live ≡ₚ b :: live' -> base < start -> h_brk u - start < 2 ^ 36 ->
  (length fl + 1 <= fuel)%nat ->
  exists u' fl' c, free fuel (b.1 + HSIZE) u = Some u' /\ heap_is base start u' fl' live' /\ kept live' u u' /\
    h_brk u' = h_brk u /\ c ∈ fl' /\ b.2 <= c.2 /\ (length fl' <= S (length fl))%nat.
Proof.
  intros [Hr Hf Hg Hl HT] HP Hbase Hlim Hfuel.
  assert (HT1 : tiling start (h_brk u) (b :: fl ++ live')) by (revert HT; apply tiling_perm; rewrite HP; solve_Permutation).
  pose proof HT1 as [[Hpb _]%Forall_cons [Hab _] [Hib _]%Forall_cons _].
  rewrite HP in Hl. apply Forall_cons in Hl as [[bnx Ebh] Hl].
  apply Forall_app in Hab as [Hab _]. destruct (gaps_split base fl b Hg Hpb Hab) as (l1 & l2 & -> & H1 & H2).
  destruct (@exists_last _ ((base, 0) :: l1)) as (N & [q sq] & HN); [done|].
  assert (Hb : base < b.1) by lia. rewrite length_app in Hfuel.
  pose proof (search_ring base (h_hdr u) b (h_freep u) l1 l2 N q sq fuel Hr Hg Hf Hb Hpb H1 H2 HN ltac:(lia)) as Es.
  change ((base, 0) :: l1 ++ l2) with (((base, 0) :: l1) ++ l2) in Hr. rewrite HN, <- app_assoc in Hr.
  apply ring_chain_app in Hr as [HrN [Eq Hr2]]. cbn [first fst app] in HrN, Eq, Hr2.
  rewrite <- app_assoc in HT1.
  destruct (join_up base start (h_brk u) (h_hdr u) b base l1 l2 live' Hr2 Hg H2 Hpb Hb HT1 Hlim)
    as (s & l2' & Eu & Hr2' & Hg2 & Hs & Hlen & HT2).
  set (h1 := <[b.1 := (first l2' base, s)]> (h_hdr u)) in *.
  assert (HbN : b.1 ∉ (((base, 0) :: l1).*1)) by (apply (not_in_below base l1 b.1 b.1); eauto using gaps_app_l; lia).
  assert (HbN' := HbN). rewrite HN, fmap_app, not_elem_of_app in HbN'. destruct HbN' as [HbN1 HbN2].
  assert (Hqb : b.1 <> q) by (intros E; apply HbN2; rewrite E; left).
  destruct (join_down base start (h_brk u) h1 b.1 s l1 l2' live' N q sq) as (fl' & c & Hr' & Hq' & Hg' & HT' & Hc & Hsc & Hlen');
    try done; try lia.
  { apply lookup_insert_eq. } { by apply ring_chain_insert. }
  { apply ring_chain_insert; [|done]. eapply not_in_above; [|exact Hg2]. unfold HSIZE; lia. } { by eapply gaps_app_l. }
  set (h2 := if q + HSIZE * sq =? b.1 then _ else _) in Hr'.
  assert (HK : kept live' u (Uheap h2 q (h_brk u))).
  { intros d x Hd Hx. assert (x <> q) by exact (off_ring base start (h_brk u) fl' live' q d x Hbase HT' Hq' Hd Hx).
    assert (x <> b.1) by (eapply (off_block _ _ _ d); [exact HT1|rewrite !elem_of_app; auto|done]).
    cbn [h_hdr]. unfold h2, h1. destruct (q + HSIZE * sq =? b.1); by rewrite !lookup_insert_ne. }
  exists (Uheap h2 q (h_brk u)), fl', c. split_and!; try done; [| |lia|rewrite length_app; lia].
  - unfold free. replace (b.1 + HSIZE - HSIZE) with b.1 by lia. rewrite Es. cbn [mbind option_bind].
    rewrite Ebh. cbn [mbind option_bind]. rewrite Eq. cbn [mbind option_bind]. rewrite Eu. cbn [mbind option_bind].
    assert (h1 !! b.1 = Some (first l2' base, s)) as -> by apply lookup_insert_eq. cbn [mbind option_bind].
    assert (h1 !! q = Some (first l2 base, sq)) as -> by (unfold h1; by rewrite lookup_insert_ne). cbn [mbind option_bind].
    unfold h2. by destruct (q + HSIZE * sq =? b.1).
  - split; try done. by eapply live_kept.
Qed.

(** ** malloc *)

Lemma gaps_weaken lo lo' l : lo' <= lo -> gaps lo l -> gaps lo' l.
Proof. destruct l as [|[a s] l]; cbn; [done|]. intuition lia. Qed.

Lemma gaps_remove lo l1 b l2 : gaps lo (l1 ++ b :: l2) -> gaps lo (l1 ++ l2).
Proof.
  destruct b as [a s]. intros (Hg & Hl & Hlo & Hs & Hg2)%gaps_app. destruct l2 as [|[c t] l2]; [by rewrite app_nil_r|].
  cbn in Hg2. apply gaps_app. split_and!; try tauto; unfold HSIZE in *; [|lia].
  eapply Forall_impl; [exact Hl|]. cbn. lia.
Qed.

(** The ring has each address once. *)
Lemma ring_fresh base l1 l2 N q sq :
  gaps base (l1 ++ l2) -> (base, 0) :: l1 = N ++ [(q, sq)] -> q ∉ N.*1 /\ q ∉ l2.*1.
Proof.
  intros Hg HN. destruct N as [|n N]; cbn in HN.
  - injection HN as Eq Es El. subst q sq l1. split; [by apply not_elem_of_nil|]. by eapply not_in_above.
  - injection HN as En El. subst n l1. rewrite <- app_assoc in Hg. apply gaps_app in Hg as (Hg & Hl & Hq & Hs & Hg2).
    split; [|eapply not_in_above; [|exact Hg2]; unfold HSIZE; lia].
    apply (not_in_below base N q q); auto using ends_below. lia.
Qed.

(** Unlinking a free block. *)
Lemma ring_unlink base h l1 e s l2 N q sq :
  chain h ((base, 0) :: l1 ++ (e, s) :: l2) base -> gaps base (l1 ++ (e, s) :: l2) -> (base, 0) :: l1 = N ++ [(q, sq)] ->
  h !! q = Some (e, sq) /\ chain (<[q := (first l2 base, sq)]> h) ((base, 0) :: l1 ++ l2) base.
Proof.
  intros Hc Hg HN. destruct (ring_fresh base l1 ((e, s) :: l2) N q sq Hg HN) as [HqN Hq2].
  rewrite app_comm_cons, HN, <- app_assoc in Hc. rewrite app_comm_cons, HN, <- app_assoc.
  cbn [app] in *. apply ring_chain_app in Hc as [HcN (Eq & _ & Hc2)]. cbn [first fst] in *. split; [done|].
  apply ring_chain_app. cbn [first fst]. split; [by apply ring_chain_insert|]. cbn [chain]. rewrite lookup_insert_eq.
  split; [done|]. apply ring_chain_insert; [|done]. cbn in Hq2. by apply not_elem_of_cons in Hq2 as [_ ?].
Qed.

(** Shortening a free block: the part cut off has a header of its own. *)
Lemma ring_cut base h l1 e s s' l2 v :
  chain h ((base, 0) :: l1 ++ (e, s) :: l2) base -> gaps base (l1 ++ (e, s) :: l2) -> 0 < s' < s ->
  chain (<[e + HSIZE * s' := v]> (<[e := (first l2 base, s')]> h)) ((base, 0) :: l1 ++ (e, s') :: l2) base.
Proof.
  intros Hc Hg Hs. apply gaps_app in Hg as (Hg & Hl & He & _ & Hg2).
  assert (Hout : forall a, e <= a < e + HSIZE * s -> a ∉ ((base, 0) :: l1).*1 /\ a ∉ l2.*1).
  { intros a Ha. split; [|eapply not_in_above; [|exact Hg2]; lia].
    apply (not_in_below base l1 a e); auto using ends_below. lia. }
  destruct (Hout e ltac:(unfold HSIZE; lia)) as [He1 He2].
  destruct (Hout (e + HSIZE * s') ltac:(unfold HSIZE; lia)) as [Hf1 Hf2].
  rewrite app_comm_cons in *. apply ring_chain_app in Hc as [Hc1 [_ Hc2]]. apply ring_chain_app. cbn [first fst] in *.
  split; [by do 2 (apply ring_chain_insert; [done|])|]. cbn [chain].
  rewrite lookup_insert_ne, lookup_insert_eq by (unfold HSIZE; lia). split; [done|]. by do 2 (apply ring_chain_insert; [done|]).
Qed.

(** A block is taken from the free block [e], whole or from its end. *)
Lemma take_run base start u l1 e s l2 live N q sq n grant fuel :
  heap_is base start u (l1 ++ (e, s) :: l2) live -> base < start -> (base, 0) :: l1 = N ++ [(q, sq)] -> 0 < n <= s ->
  exists p u' fl', malloc_loop (S fuel) n grant q e u = Some (p + HSIZE, u') /\
    heap_is base start u' fl' ((p, n) :: live) /\ kept live u u' /\ h_brk u' = h_brk u /\
    (length fl' <= length (l1 ++ (e, s) :: l2))%nat.
Proof.
  intros [Hr Hf Hg Hl HT] Hbase HN Hn.
  destruct (ring_unlink base (h_hdr u) l1 e s l2 N q sq Hr Hg HN) as [Eq Hr1].
  assert (Ee : h_hdr u !! e = Some (first l2 base, s)).
  { rewrite app_comm_cons in Hr. by apply ring_chain_app in Hr as [_ [Ee _]]. }
  assert (HTe : tiling start (h_brk u) ((e, s) :: l1 ++ l2 ++ live)) by (revert HT; apply tiling_perm; solve_Permutation).
  assert (Hq : forall Y, q ∈ ((base, 0) :: l1 ++ Y).*1).
  { intros Y. rewrite app_comm_cons, HN, <- app_assoc. apply fst_in_middle. }
  cbn [malloc_loop]. rewrite Ee. cbn [mbind option_bind]. replace (n <=? s) with true by lia.
  destruct (Z.eqb_spec s n) as [<-|Hne].
  - rewrite Eq. cbn [mbind option_bind]. eexists e, _, (l1 ++ l2). split; [done|].
    assert (HK : kept live u (Uheap (<[q := (first l2 base, sq)]> (h_hdr u)) q (h_brk u))).
    { intros c x Hc Hx. assert (x <> q) by exact (off_ring base start _ _ live q c x Hbase HT (Hq _) Hc Hx).
      cbn [h_hdr]. by rewrite lookup_insert_ne. }
    split_and!; try done; [|rewrite !length_app; cbn; lia].
    assert (HT' : tiling start (h_brk u) ((l1 ++ l2) ++ (e, s) :: live)) by (revert HT; apply tiling_perm; solve_Permutation).
    split; try done; [by eapply gaps_remove|].
    constructor; [|by eapply live_kept]. cbn [h_hdr fst snd]. eexists. rewrite lookup_insert_ne; [exact Ee|].
    intros ->. eapply (off_ring base start _ _ ((e, s) :: live) e (e, s) e Hbase HT'); [apply Hq|left| |done].
    unfold block_end, HSIZE. cbn. lia.
  - set (p := e + HSIZE * (s - n)). cbn zeta. eexists p, _, (l1 ++ (e, s - n) :: l2). split; [done|].
    set (h' := <[p := _]> _).
    assert (HTs : tiling start (h_brk u) ((e, s - n) :: (p, n) :: l1 ++ l2 ++ live)).
    { apply tiling_merge; [lia..|]. by replace (s - n + n) with s by lia. }
    assert (HK : kept live u (Uheap h' q (h_brk u))).
    { intros c x Hc Hx. assert (x <> e) by (apply (off_block _ _ (e, s) c _ x HTe); [rewrite !elem_of_app; auto|done]).
      assert (x <> p).
      { apply (off_block start (h_brk u) (p, n) c ((e, s - n) :: l1 ++ l2 ++ live) x); [|rewrite elem_of_cons, !elem_of_app; auto|done].
        revert HTs. apply tiling_perm. apply perm_swap. }
      cbn [h_hdr]. unfold h'. by rewrite !lookup_insert_ne. }
    split_and!; try done; [|rewrite !length_app; cbn; lia].
    split; try done.
    + apply ring_cut with s; try done. lia.
    + apply gaps_app in Hg as (? & ? & ? & ? & ?). apply gaps_app. split_and!; try done; [lia|].
      eapply gaps_weaken; [|done]. unfold HSIZE. lia.
    + constructor; [|eapply live_kept; done]. cbn [h_hdr fst snd]. eexists. unfold h'. by rewrite lookup_insert_eq.
    + revert HTs. apply tiling_perm. solve_Permutation.
Qed.

(** *** The walk around the ring *)

(** The ring from the block after freep on: [B ++ A], and then freep again. *)
Lemma ring_view base start u fl live :
  heap_is base start u fl live ->
  exists A sf B l1, fl = l1 ++ B /\ (base, 0) :: l1 = A ++ [(h_freep u, sf)] /\
    h_hdr u !! h_freep u = Some (first (B ++ A) (h_freep u), sf) /\
    chain (h_hdr u) (B ++ A) (h_freep u) /\ h_freep u ∉ (B ++ A).*1.
Proof.
  intros [Hr Hf Hg _ _]. set (f := h_freep u) in *.
  apply list_elem_of_fmap in Hf as ([f' sf] & -> & (A & B & HA)%list_elem_of_split). cbn [fst].
  assert (exists l1, fl = l1 ++ B /\ (base, 0) :: l1 = A ++ [(f', sf)]) as (l1 & -> & HN).
  { destruct A as [|a A]; cbn in HA; [injection HA as -> ->; by exists []|]. injection HA as <- ->.
    exists (A ++ [(f', sf)]). by rewrite <- app_assoc. }
  exists A, sf, B, l1. destruct (ring_fresh base l1 B A f' sf Hg HN) as [HfA HfB].
  rewrite HA in Hr. apply ring_chain_app in Hr as [HrA [Ef HrB]]. cbn [first fst] in *.
  assert (Hbase : first A f' = base) by (destruct A; cbn in HN; injection HN; by intros; subst).
  split_and!; try done.
  - rewrite Ef. destruct B; [|done]. cbn. by rewrite Hbase.
  - apply ring_chain_app. by rewrite Hbase.
  - rewrite fmap_app, not_elem_of_app. done.
Qed.

Lemma last_default {A} (l : list A) x d d' : List.last (x :: l) d = List.last (x :: l) d'.
Proof. revert x. induction l as [|y l IH]; intros x; [done|]. exact (IH y). Qed.

Lemma walk u n grant prev V c fuel :
  chain (h_hdr u) V c -> Forall (fun b => b.2 < n) V -> h_freep u ∉ V.*1 ->
  malloc_loop (length V + fuel) n grant prev (first V c) u = malloc_loop fuel n grant (List.last V.*1 prev) c u.
Proof.
  revert prev. induction V as [|[a s] V IH]; intros prev; [done|]. intros [Ea Hc] [Hs Hn]%Forall_cons Hf.
  cbn in Hf, Hs. apply not_elem_of_cons in Hf as [Hf1 Hf2]. cbn [length Nat.add malloc_loop first fst]. rewrite Ea. cbn [mbind option_bind].
  replace (n <=? s) with false by lia. replace (a =? h_freep u) with false by lia. rewrite (IH a) by done.
  f_equal. destruct V as [|b V]; [done|]. cbn [fmap list_fmap]. exact (last_default V.*1 b.1 a prev).
Qed.

Lemma first_fit n (V : list block) :
  Forall (fun b => b.2 < n) V \/ exists V1 b V2, V = V1 ++ b :: V2 /\ Forall (fun b => b.2 < n) V1 /\ n <= b.2.
Proof.
  induction V as [|b V [IH|(V1 & c & V2 & -> & H1 & H2)]]; [by left| |].
  - destruct (decide (b.2 < n)); [left; by constructor|]. right. exists [], b, V. split_and!; [done|constructor|lia].
  - destruct (decide (b.2 < n)); [|right; exists [], b, (V1 ++ c :: V2); split_and!; [done|constructor|lia]].
    right. exists (b :: V1), c, V2. by split_and!; [|constructor|].
Qed.

Lemma last_middle {A} (X Y : list A) x d : List.last (X ++ x :: Y) d = List.last Y x.
Proof.
  revert x. induction Y as [|y Y IH] using rev_ind; intros x; [apply List.last_last|].
  by rewrite app_comm_cons, app_assoc, !List.last_last.
Qed.

(** The first block that fits on the walk, and the block before it in the ring. *)
Lemma fit_pred base (A : list block) f sf B l1 V1 e s V2 :
  (base, 0) :: l1 = A ++ [(f, sf)] -> B ++ A ++ [(f, sf)] = V1 ++ (e, s) :: V2 -> 0 < s ->
  exists l1' l2', l1 ++ B = l1' ++ (e, s) :: l2' /\ List.last V1.*1 f = List.last ((base, 0) :: l1').*1 base.
Proof.
  intros HN HV Hn. rewrite <- HN in HV. apply app_eq_app in HV as (W & [[-> HW]|[-> HW]]).
  - destruct W as [|w W]; cbn in HW; injection HW as <- HW; [lia|].
    exists (l1 ++ V1), W. rewrite <- app_assoc. split; [done|].
    rewrite app_comm_cons, HN, <- app_assoc, fmap_app. symmetry. apply last_middle.
  - destruct W as [|w W]; cbn in HW; injection HW as <- HW; [lia|]. subst l1.
    exists W, (V2 ++ B). rewrite <- app_assoc. split; [done|]. rewrite fmap_app. cbn [fmap list_fmap fst].
    rewrite last_middle. symmetry. apply (last_middle []).
Qed.

(** With a block that fits in the free list, malloc takes one. *)
Lemma malloc_found base start u fl live n grant fuel c :
  heap_is base start u fl live -> base < start -> 0 < n -> c ∈ fl -> n <= c.2 -> (length fl + 2 <= fuel)%nat ->
  exists p0 sf p u' fl', h_hdr u !! h_freep u = Some (p0, sf) /\
    malloc_loop fuel n grant (h_freep u) p0 u = Some (p + HSIZE, u') /\
    heap_is base start u' fl' ((p, n) :: live) /\ kept live u u' /\ h_brk u' = h_brk u /\ (length fl' <= length fl)%nat.
Proof.
  intros HI Hbase Hn Hc Hnc Hfuel. destruct (ring_view _ _ _ _ _ HI) as (A & sf & B & l1 & -> & HN & Ef & Hch & Hnf).
  destruct (first_fit n (B ++ A ++ [(h_freep u, sf)])) as [Hno|(V1 & [e s] & V2 & HV & HV1 & Hes)].
  { rewrite <- HN, Forall_app, Forall_cons in Hno. rewrite Forall_forall in Hno. rewrite Forall_forall in Hno.
    exfalso. apply elem_of_app in Hc as [Hc|Hc]; [apply Hno in Hc|apply Hno in Hc]; lia. }
  cbn [snd] in Hes. destruct (fit_pred base A (h_freep u) sf B l1 V1 e s V2 HN HV ltac:(lia)) as (l1' & l2' & Hfl & Hlast).
  rewrite Hfl in *. destruct (@exists_last _ ((base, 0) :: l1')) as (N & [q sq] & HN'); [done|].
  rewrite HN', fmap_app in Hlast. cbn [fmap list_fmap fst] in Hlast. rewrite List.last_last in Hlast.
  assert (exists W, B ++ A = V1 ++ W /\ first (W ++ [(h_freep u, sf)]) 0 = e) as (W & HW & He).
  { rewrite app_assoc in HV. destruct V2 as [|v V2] using rev_ind.
    - apply app_inj_tail in HV as [-> HV]. exists []. rewrite app_nil_r. by injection HV.
    - rewrite app_comm_cons, app_assoc in HV. apply app_inj_tail in HV as [-> _]. by exists ((e, s) :: V2). }
  rewrite HW in Hch, Hnf, Ef. apply ring_chain_app in Hch as [Hch _]. rewrite fmap_app, not_elem_of_app in Hnf. destruct Hnf as [Hnf _].
  assert (first W (h_freep u) = e) as He' by (by destruct W). rewrite He' in Hch.
  assert (Hlen : (length V1 <= length (l1' ++ (e, s) :: l2'))%nat).
  { rewrite <- Hfl. apply (f_equal length) in HN, HW. rewrite !length_app in *. cbn in HN. lia. }
  destruct (take_run base start u l1' e s l2' live N q sq n grant (fuel - length V1 - 1) HI Hbase HN' ltac:(lia)) as (p & u' & fl' & Em & HI' & HK & Hb & Hl).
  exists (first V1 e), sf, p, u', fl'. split_and!; try done.
  - rewrite Ef. by destruct V1; cbn; rewrite ?He'.
  - replace fuel with (length V1 + S (fuel - length V1 - 1))%nat by lia. by rewrite walk, Hlast.
Qed.

Lemma tiling_le start brk l : tiling start brk l -> start <= brk.
Proof.
  intros [Hp _ _ Ha]. enough (0 <= size_of l) by (unfold HSIZE in Ha; lia). clear Ha. induction Hp; cbn in *; lia.
Qed.

Lemma ring_below base start u fl live f : heap_is base start u fl live -> 0 < base < start -> f ∈ ((base, 0) :: fl).*1 -> 0 < f < h_brk u.
Proof.
  intros [_ _ _ _ HT] Hb Hf. pose proof (tiling_le _ _ _ HT). cbn in Hf. apply elem_of_cons in Hf as [->|Hf]; [lia|].
  apply list_elem_of_fmap in Hf as (b & -> & Hin). destruct HT as [Hp _ Hi _]. rewrite Forall_forall in Hp, Hi.
  specialize (Hp b ltac:(apply elem_of_app; by left)). specialize (Hi b ltac:(apply elem_of_app; by left)). unfold block_end, HSIZE in Hi. cbn in *. lia.
Qed.

(** The block that sbrk returns, before it is freed. *)
Lemma heap_grow base start u fl live nu v :
  heap_is base start u fl live -> 0 < base < start -> 0 < nu ->
  heap_is base start (Uheap (<[h_brk u := (v, nu)]> (h_hdr u)) (h_freep u) (h_brk u + nu * HSIZE)) fl ((h_brk u, nu) :: live).
Proof.
  intros HI Hb Hn. pose proof (fun f => ring_below _ _ _ _ _ f HI Hb) as Hbelow. destruct HI as [Hr Hf Hg Hl HT].
  assert (HT' : tiling start (h_brk u + nu * HSIZE) ((h_brk u, nu) :: fl ++ live)) by (apply tiling_grow; [done|by eapply tiling_le|done]).
  split; try done; cbn [h_hdr h_freep h_brk].
  - apply ring_chain_insert; [|done]. intros Hin%Hbelow. lia.
  - constructor; [cbn; eexists; by rewrite lookup_insert_eq|]. destruct HT as [Hp _ Hi _].
    apply Forall_app in Hp as [_ Hp], Hi as [_ Hi]. rewrite Forall_forall in *. intros c Hc.
    specialize (Hp c Hc). specialize (Hi c Hc). unfold block_end, HSIZE in Hi. cbn in *. rewrite lookup_insert_ne by lia. auto.
  - revert HT'. apply tiling_perm. solve_Permutation.
Qed.

(** What sbrk may have to give. *)
Definition more (n : Z) : Z := (if n <? 4096 then 4096 else n) * HSIZE.

Definition room (start n : Z) (grant : bool) (u : uheap) : Prop :=
  h_brk u + (if grant then more n else 0) - start < 2 ^ 36.

(** sbrk succeeds: the new memory is in the free list. *)
Lemma morecore_run base start u fl live n fuel :
  heap_is base start u fl live -> 0 < base < start -> 0 < n -> room start n true u -> (length fl + 1 <= fuel)%nat ->
  exists u' fl' c, morecore fuel n true u = Some (h_freep u', u') /\ heap_is base start u' fl' live /\ kept live u u' /\
    h_brk u' = h_brk u + more n /\ c ∈ fl' /\ n <= c.2 /\ (length fl' <= S (length fl))%nat.
Proof.
  intros HI Hb Hn Hroom Hfuel. unfold morecore. set (nu := if n <? 4096 then 4096 else n).
  assert (Hnu : n <= nu /\ 0 < nu) by (unfold nu; destruct (_ <? _) eqn:?; lia).
  set (u1 := Uheap _ _ _).
  assert (HI1 : heap_is base start u1 fl ((h_brk u, nu) :: live)) by (apply heap_grow; [done..|lia]).
  destruct (free_run base start u1 fl _ (h_brk u, nu) live fuel HI1) as (u2 & fl2 & c & Efr & HI2 & HK2 & Hb2 & Hc & Hc2 & Hl2);
    [done|lia|exact Hroom|lia|]. cbn [fst snd] in *. exists u2, fl2, c. rewrite Efr. split_and!; try done; [|lia].
  intros d x Hd Hx. rewrite (HK2 d x Hd Hx). unfold u1. cbn [h_hdr]. rewrite lookup_insert_ne; [done|].
  destruct HI as [_ _ _ _ [_ _ Hi _]]. apply Forall_app in Hi as [_ Hi]. rewrite Forall_forall in Hi. specialize (Hi d Hd). lia.
Qed.

(** What malloc does: it returns a block beside those in use, or 0 when no free block is large
    enough and sbrk fails. *)
Definition mallocs (base start n : Z) (grant : bool) (fl live : list block) (u u' : uheap) (r : Z) : Prop :=
  kept live u u' /\
  (r = 0 /\ grant = false /\ heap_is base start u' fl live /\ h_brk u' = h_brk u /\ Forall (fun b => b.2 < n) fl \/
   0 < r /\ exists fl', heap_is base start u' fl' ((r - HSIZE, n) :: live) /\
     h_brk u <= h_brk u' <= h_brk u + (if grant then more n else 0)).

Lemma malloc_loop_run base start u fl live n grant fuel :
  heap_is base start u fl live -> 0 < base < start -> 0 < n -> room start n grant u -> (2 * length fl + 6 <= fuel)%nat ->
  exists p0 sf r u', h_hdr u !! h_freep u = Some (p0, sf) /\
    malloc_loop fuel n grant (h_freep u) p0 u = Some (r, u') /\ mallocs base start n grant fl live u u' r.
Proof.
  intros HI Hb Hn Hroom Hfuel. unfold room in Hroom.
  assert (Hmore : 0 <= more n) by (unfold more, HSIZE; destruct (_ <? _) eqn:?; lia).
  assert (Hfound : forall u1 fl1 p, heap_is base start u1 fl1 ((p, n) :: live) -> 0 < p + HSIZE).
  { intros u1 fl1 p [_ _ _ _ [_ _ Hi _]]. apply Forall_app in Hi as [_ [Hi _]%Forall_cons]. cbn in Hi. unfold HSIZE. lia. }
  destruct (first_fit n fl) as [Hno|(V1 & c & V2 & Hfl & _ & Hc)].
  - destruct (ring_view _ _ _ _ _ HI) as (A & sf & B & l1 & -> & HN & Ef & Hch & Hnf).
    assert (Hsf : sf < n /\ Forall (fun b => b.2 < n) (B ++ A)).
    { apply Forall_app in Hno as [Hno1 Hno2]. assert (Hno' : Forall (fun b => b.2 < n) ((base, 0) :: l1)) by by constructor.
      rewrite HN, Forall_app, Forall_singleton in Hno'. rewrite Forall_app. cbn in *. tauto. }
    destruct Hsf as [Hsf HBA]. assert (Hlen : length (B ++ A) = length (l1 ++ B)).
    { apply (f_equal length) in HN. rewrite !length_app in *. cbn in HN. lia. }
    set (fuel2 := (fuel - length (l1 ++ B) - 1)%nat).
    exists (first (B ++ A) (h_freep u)), sf.
    replace fuel with (length (B ++ A) + S fuel2)%nat by lia. rewrite walk by done. cbn [malloc_loop]. rewrite Ef. cbn [mbind option_bind].
    replace (n <=? sf) with false by lia. rewrite Z.eqb_refl. destruct grant.
    + destruct (morecore_run base start u (l1 ++ B) live n fuel2 HI Hb Hn Hroom ltac:(lia)) as (u2 & fl2 & c & Emc & HI2 & HK2 & Hb2 & Hc & Hc2 & Hl2).
      rewrite Emc. cbn [mbind option_bind].
      pose proof (ring_below _ _ _ _ _ _ HI2 Hb (hi_freep _ _ _ _ _ HI2)). replace (h_freep u2 =? 0) with false by lia.
      destruct (malloc_found base start u2 fl2 live n true fuel2 c HI2) as (p0 & sf2 & p & u' & fl' & Ef2 & Em & HI' & HK' & Hb' & Hl');
        [lia|done|done|done|lia|]. rewrite Ef2. cbn [mbind option_bind].
      exists (p + HSIZE), u'. split_and!; [done|done|]. split; [intros d x Hd Hx; by rewrite (HK' d x Hd Hx), (HK2 d x Hd Hx)|].
      right. split; [by eapply Hfound|]. exists fl'. replace (p + HSIZE - HSIZE) with p by lia. split; [done|lia].
    + exists 0, u. split_and!; [done|done|]. split; [by intros ?|]. left. by split_and!.
  - destruct (malloc_found base start u fl live n grant fuel c HI) as (p0 & sf & p & u' & fl' & Ef & Em & HI' & HK & Hb' & Hl);
      [lia|done|rewrite Hfl; apply in_middle|done|lia|].
    exists p0, sf, (p + HSIZE), u'. split_and!; [done|done|]. split; [done|]. right. split; [by eapply Hfound|].
    exists fl'. replace (p + HSIZE - HSIZE) with p by lia. split; [done|]. destruct grant; lia.
Qed.

(** *** From the first call on *)

Lemma units_enough nbytes : in_u32 nbytes -> 0 < units nbytes /\ nbytes <= HSIZE * (units nbytes - 1) < nbytes + HSIZE.
Proof. intros H. unfold units. unfold HSIZE. mach. Qed.

(** Before the first call freep is null; base is made the ring by malloc. *)
Definition heap (base start : Z) (u : uheap) (fl live : list block) : Prop :=
  (h_freep u = 0 /\ fl = [] /\ live = [] /\ h_brk u = start) \/ heap_is base start u fl live.

Lemma heap_tiling base start u fl live : heap base start u fl live -> tiling start (h_brk u) (fl ++ live).
Proof. intros [(_ & -> & -> & ->)|[]]; [|done]. split; cbn; try done. unfold HSIZE. lia. Qed.

Lemma malloc_run base start u fl live nbytes grant fuel :
  heap base start u fl live -> 0 < base < start -> in_u32 nbytes -> room start (units nbytes) grant u -> (2 * length fl + 6 <= fuel)%nat ->
  exists r u', malloc base fuel nbytes grant u = Some (r, u') /\ mallocs base start (units nbytes) grant fl live u u' r.
Proof.
  intros HI Hb Hn Hroom Hfuel. pose proof (units_enough _ Hn) as [Hu _]. unfold malloc.
  destruct HI as [(Hf & -> & -> & Hbrk)|HI].
  - rewrite Hf. cbn [Z.eqb]. set (u0 := Uheap _ _ _).
    assert (HI0 : heap_is base start u0 [] []).
    { split; cbn; try done; [by rewrite lookup_insert_eq|by left|]. rewrite Hbrk. split; cbn; try done. unfold HSIZE. lia. }
    destruct (malloc_loop_run base start u0 [] [] (units nbytes) grant fuel HI0 Hb Hu Hroom Hfuel) as (p0 & sf & r & u' & Ef & Em & _ & HM).
    rewrite Ef. cbn [mbind option_bind]. exists r, u'. split; [done|]. split; [intros c x Hc; by apply elem_of_nil in Hc|exact HM].
  - pose proof (ring_below _ _ _ _ _ _ HI Hb (hi_freep _ _ _ _ _ HI)). replace (h_freep u =? 0) with false by lia.
    destruct (malloc_loop_run base start u fl live (units nbytes) grant fuel HI Hb Hu Hroom Hfuel) as (p0 & sf & r & u' & Ef & Em & HM).
    rewrite Ef. cbn [mbind option_bind]. eauto.
Qed.

(** ** Fuel *)

Lemma free_search_mono fuel fuel' h bp p q : (fuel <= fuel')%nat -> free_search fuel h bp p = Some q -> free_search fuel' h bp p = Some q.
Proof.
  revert fuel' p. induction fuel as [|fuel IH]; intros [|fuel'] p Hle; cbn [free_search]; try done; try lia;
    destruct (h !! p) as [[nx s]|]; cbn [mbind option_bind]; try done; repeat (case_match; try done). apply IH. lia.
Qed.

Lemma free_mono fuel fuel' ap u u' : (fuel <= fuel')%nat -> free fuel ap u = Some u' -> free fuel' ap u = Some u'.
Proof.
  intros Hle. unfold free. destruct (free_search fuel _ _ _) as [q|] eqn:E; [|done].
  by rewrite (free_search_mono _ _ _ _ _ _ Hle E).
Qed.

Lemma morecore_mono fuel fuel' n grant u r : (fuel <= fuel')%nat -> morecore fuel n grant u = Some r -> morecore fuel' n grant u = Some r.
Proof.
  intros Hle. unfold morecore. destruct grant; [|done]. destruct (free fuel _ _) as [u'|] eqn:E; [|done].
  by rewrite (free_mono _ _ _ _ _ Hle E).
Qed.

Lemma malloc_loop_mono fuel fuel' n grant prevp p u r :
  (fuel <= fuel')%nat -> malloc_loop fuel n grant prevp p u = Some r -> malloc_loop fuel' n grant prevp p u = Some r.
Proof.
  revert fuel' prevp p u. induction fuel as [|fuel IH]; intros [|fuel'] prevp p u Hle; cbn [malloc_loop]; try done; try lia.
  destruct (h_hdr u !! p) as [[nx s]|]; cbn [mbind option_bind]; [|done].
  destruct (n <=? s); [done|]. destruct (p =? h_freep u); [|apply IH; lia].
  destruct (morecore fuel n grant u) as [[q u']|] eqn:E; [|done]. rewrite (morecore_mono fuel fuel' _ _ _ _ ltac:(lia) E). cbn [mbind option_bind].
  destruct (q =? 0); [done|]. destruct (h_hdr u' !! q) as [[nx' s']|]; cbn [mbind option_bind]; [|done]. apply IH. lia.
Qed.

Lemma malloc_mono base fuel fuel' nbytes grant u r :
  (fuel <= fuel')%nat -> malloc base fuel nbytes grant u = Some r -> malloc base fuel' nbytes grant u = Some r.
Proof.
  intros Hle. unfold malloc. destruct (_ !! _) as [[p s]|]; cbn [mbind option_bind]; [|done]. by apply malloc_loop_mono.
Qed.

(** ** Programs that use the allocator *)

(** The heap after some calls of malloc and free, and the blocks in use.  Only a block in use
    is freed; [grant] tells whether sbrk succeeds if it is called. *)
Inductive history (base start : Z) : uheap -> list block -> Prop :=
  | h_start hdr : history base start (Uheap hdr 0 start) []
  | h_malloc fuel nbytes grant u u' r live :
      history base start u live -> in_u32 nbytes -> room start (units nbytes) grant u ->
      malloc base fuel nbytes grant u = Some (r, u') ->
      history base start u' (if r =? 0 then live else (r - HSIZE, units nbytes) :: live)
  | h_free fuel b u u' live live' :
      history base start u live -> live ≡ₚ b :: live' -> free fuel (b.1 + HSIZE) u = Some u' ->
      history base start u' live'.

Lemma history_heap base start u live :
  0 < base < start -> history base start u live -> exists fl, heap base start u fl live /\ h_brk u - start < 2 ^ 36.
Proof.
  intros Hb. induction 1 as [hdr|fuel nbytes grant u u' r live _ (fl & HI & Hlim) Hn Hroom E|fuel b u u' live live' _ (fl & HI & Hlim) HP E].
  - exists []. split; [by left|]. cbn. lia.
  - destruct (malloc_run base start u fl live nbytes grant (fuel + 2 * length fl + 6) HI Hb Hn Hroom ltac:(lia)) as (r' & u'' & E' & _ & HM).
    rewrite (malloc_mono base fuel (fuel + 2 * length fl + 6) nbytes grant u (r, u') ltac:(lia) E) in E'. injection E' as <- <-.
    destruct HM as [(-> & _ & HI' & Hb' & _)|(Hr & fl' & HI' & Hb')].
    + exists fl. cbn. split; [by right|lia].
    + exists fl'. replace (r =? 0) with false by lia. split; [by right|]. unfold room in Hroom. lia.
  - destruct HI as [(_ & _ & -> & _)|HI]; [by apply Permutation_nil_cons in HP|].
    destruct (free_run base start u fl live b live' (fuel + length fl + 1) HI HP ltac:(lia) Hlim ltac:(lia)) as (u'' & fl' & c & E' & HI' & _ & Hb' & _).
    rewrite (free_mono fuel (fuel + length fl + 1) _ u u' ltac:(lia) E) in E'. injection E' as <-. exists fl'. split; [by right|lia].
Qed.

(** C40.  After every history of calls that frees only blocks in use, once each, the blocks in use and the
    blocks of the free list make up the memory that sbrk gave, without overlap and without
    loss.  malloc returns for every size: a block inside that memory with room for the
    bytes asked for, apart from every block in use, or 0 when sbrk fails and no free block is
    large enough.  free of a block in use returns.  Neither call writes to a block in use. *)
Theorem malloc_free_safe base start u live :
  0 < base < start -> history base start u live ->
  exists fl, tiling start (h_brk u) (fl ++ live) /\
    (forall nbytes grant fuel, in_u32 nbytes -> room start (units nbytes) grant u -> (2 * length fl + 6 <= fuel)%nat ->
     exists r u', malloc base fuel nbytes grant u = Some (r, u') /\ kept live u u' /\
       (r = 0 /\ grant = false /\ Forall (fun b => b.2 < units nbytes) fl \/
        start <= r - HSIZE /\ r + nbytes <= h_brk u' /\ Forall (apart (r - HSIZE, units nbytes)) live)) /\
    (forall b live' fuel, live ≡ₚ b :: live' -> (length fl + 1 <= fuel)%nat ->
     exists u', free fuel (b.1 + HSIZE) u = Some u' /\ kept live' u u' /\ h_brk u' = h_brk u).
Proof.
  intros Hb HH. destruct (history_heap base start u live Hb HH) as (fl & HI & Hlim).
  exists fl. split_and!; [by eapply heap_tiling| |].
  - intros nbytes grant fuel Hn Hroom Hfuel.
    destruct (malloc_run base start u fl live nbytes grant fuel HI Hb Hn Hroom Hfuel) as (r & u' & E & HK & HM).
    exists r, u'. split_and!; [done|done|]. destruct HM as [(? & ? & _ & _ & ?)|(Hr & fl' & [_ _ _ _ HT] & _)]; [by left|right].
    rewrite <- Permutation_middle in HT. destruct HT as [_ [Ha _] [Hi _]%Forall_cons _]. apply Forall_app in Ha as [_ Ha].
    pose proof (units_enough _ Hn). unfold block_end, HSIZE in *. cbn [fst snd] in *. split_and!; [lia|lia|done].
  - intros b live' fuel HP Hfuel. destruct HI as [(_ & _ & -> & _)|HI]; [by apply Permutation_nil_cons in HP|].
    destruct (free_run base start u fl live b live' fuel HI HP ltac:(lia) Hlim Hfuel) as (u' & fl' & c & E & _ & HK & Hb' & _). eauto.
Qed.

(** Two calls of malloc, a free of the first block, and a call that needs more memory. *)
Definition trial0 : uheap := Uheap ∅ 0 4096.
Definition trial1 : uheap := (default (0, trial0) (malloc 2048 20 100 true trial0)).2.
Definition trial2 : uheap := (default (0, trial0) (malloc 2048 20 30 false trial1)).2.
Definition trial3 : uheap := default trial0 (free 20 69520 trial2).
Definition trial4 : uheap := (default (0, trial0) (malloc 2048 20 70000 true trial3)).2.

Lemma trial_history : history 2048 4096 trial4 [(69632, 4376); (69456, 3)].
Proof.
  assert (H1 : history 2048 4096 trial1 [(69504, 8)]) by (apply (h_malloc _ _ 20 100 true trial0 trial1 69520 []); done || constructor).
  assert (H2 : history 2048 4096 trial2 [(69456, 3); (69504, 8)]) by (apply (h_malloc _ _ 20 30 false trial1 trial2 69472 _ H1); done).
  assert (H3 : history 2048 4096 trial3 [(69456, 3)]).
  { apply (h_free _ _ 20 (69504, 8) trial2 trial3 _ _ H2); [apply perm_swap|done]. }
  by apply (h_malloc _ _ 20 70000 true trial3 trial4 69648 _ H3).
Qed.

Lemma malloc_free_safe_witness :
  exists fl, tiling 4096 139648 (fl ++ [(69632, 4376); (69456, 3)]).
Proof.
  destruct (malloc_free_safe 2048 4096 trial4 _ ltac:(lia) trial_history) as (fl & HT & _). by exists fl.
Defined.
