(* ===== verification/Mkfs.v ===== *)
(** * mkfs: the program that makes the file system image (src/mkfs.c)

    The image is the map from sector numbers to sectors that were written.  A failed
    assertion, and a read behind the end of the image, end the program: [None].  The files on
    the command line are inputs: a name, and what the reads of the file return. *)

From S2P Require Import Prelude Mem CString State Block Log Recovery Inode Fs InodeDisk.

Definition NINODES : Z := 200.
Definition nbitmap : Z := FSSIZE / (BSIZE * 8) + 1.
Definition ninodeblocks : Z := NINODES / IPB + 1.
Definition nlog : Z := LOGSIZE.
Definition nmeta : Z := 2 + nlog + ninodeblocks + nbitmap.
Definition nblocks : Z := FSSIZE - nmeta.

(** The numbers whose bytes in memory are those of [x], the lowest one first; mkfs runs on
    a machine that stores numbers in this order. *)
Definition xshort (x : Z) : Z := le_combine (le_split 2 x).
Definition xint (x : Z) : Z := le_combine (le_split 4 x).

Definition sb : superblock :=
  Superblock (xint FSSIZE) (xint nblocks) (xint NINODES) (xint nlog) (xint 2) (xint (2 + nlog)) (xint (2 + nlog + ninodeblocks)).

Definition sb_bytes (s : superblock) : list Z :=
  concat (le_split 4 <$> [sb_size s; sb_nblocks s; sb_ninodes s; sb_nlog s; sb_logstart s; sb_inodestart s; sb_bmapstart s]).

Definition zeroes : list Z := replicate 512 0.

Record mkst : Type := Mkst {
  mk_img : gmap Z (list Z);
  mk_freeinode : Z;
  mk_freeblock : Z
}.

(** ** Sectors and inodes *)

Definition wsect (sec : Z) (buf : list Z) (st : mkst) : mkst :=
  Mkst (<[sec := buf]> (mk_img st)) (mk_freeinode st) (mk_freeblock st).

Definition rsect (sec : Z) (st : mkst) : option (list Z) := mk_img st !! sec.

Definition winode (inum : Z) (ip : dinode) (st : mkst) : option mkst :=
  let bn := IBLOCK inum sb in
  buf ← rsect bn st;
  Some (wsect bn (put_dinode buf (dinode_off inum) ip) st).

Definition rinode (inum : Z) (st : mkst) : option dinode :=
  let bn := IBLOCK inum sb in
  buf ← rsect bn st;
  Some (dinode_at buf (dinode_off inum)).

Definition mk_ialloc (type : Z) (st : mkst) : option (Z * mkst) :=
  let inum := mk_freeinode st in
  let st := Mkst (mk_img st) (u32 (mk_freeinode st + 1)) (mk_freeblock st) in
  st ← winode inum (Dinode (xshort type) 0 0 (xshort 1) (xint 0) (replicate 13 0)) st;
  Some (inum, st).

Definition mk_balloc (used : Z) (st : mkst) : option mkst :=
  if negb (used <? BSIZE * 8) then None else
  let buf := foldl (fun buf i => mark_used i buf) zeroes (upto (Z.to_nat used)) in
  Some (wsect (sb_bmapstart sb) buf st).

(** ** iappend *)

(** [xint(freeblock++)] *)
Definition next_block (st : mkst) : Z * mkst :=
  (xint (mk_freeblock st), Mkst (mk_img st) (mk_freeinode st) (u32 (mk_freeblock st + 1))).

Definition set_addrs (a : list Z) (di : dinode) : dinode :=
  Dinode (di_type di) (di_major di) (di_minor di) (di_nlink di) (di_size di) a.
Definition set_size (n : Z) (di : dinode) : dinode :=
  Dinode (di_type di) (di_major di) (di_minor di) (di_nlink di) n (di_addrs di).

(** [if(xint(din.addrs[j]) == 0) din.addrs[j] = xint(freeblock++);] and the address. *)
Definition addr_slot (j : Z) (din : dinode) (st : mkst) : option (Z * dinode * mkst) :=
  a ← di_addrs din !! Z.to_nat j;
  if xint a =? 0 then
    let '(b, st) := next_block st in
    Some (xint b, set_addrs (<[Z.to_nat j := b]> (di_addrs din)) din, st)
  else Some (xint a, din, st).

(** The sector of block [fbn] of the file. *)
Definition append_block (fbn : Z) (din : dinode) (st : mkst) : option (Z * dinode * mkst) :=
  if fbn <? NDIRECT then addr_slot fbn din st else
  '(ib, din, st) ← addr_slot NDIRECT din st;
  indirect ← rsect ib st;
  let j := Z.to_nat (fbn - NDIRECT) in
  if get32 indirect (4 * j) =? 0 then
    let '(b, st) := next_block st in
    Some (xint b, din, wsect ib (put32 indirect (4 * j) b) st)
  else Some (xint (get32 indirect (4 * j)), din, st).

(** [while(n > 0)]: [p] are the bytes still to be written. *)
Fixpoint iappend_from (fuel : nat) (din : dinode) (off : Z) (p : list Z) (st : mkst) : option (dinode * Z * mkst) :=
  match p with
  | [] => Some (din, off, st)
  | _ =>
      match fuel with
      | O => None
      | S fuel' =>
          let fbn := off / BSIZE in
          if negb (fbn <? MAXFILE) then None else
          '(x, din, st) ← append_block fbn din st;
          let n1 := Z.min (Z.of_nat (length p)) ((fbn + 1) * BSIZE - off) in
          buf ← rsect x st;
          let st := wsect x (splice buf (Z.to_nat (off - fbn * BSIZE)) (take (Z.to_nat n1) p)) st in
          iappend_from fuel' din (u32 (off + n1)) (drop (Z.to_nat n1) p) st
      end
  end.

(** Each round writes a byte at least. *)
Definition iappend (inum : Z) (xp : list Z) (st : mkst) : option mkst :=
  din ← rinode inum st;
  '(din, off, st) ← iappend_from (length xp) din (xint (di_size din)) xp st;
  winode inum (set_size (xint off) din) st.

(** ** main *)

(** The entry of a directory: strncpy fills the name with NULs. *)
Definition mk_dirent (inum : Z) (name : list Z) : list Z :=
  le_split 2 (xshort inum) ++ take 14 (name ++ replicate 14 0).

(** A file of the command line: its name, and what its reads return, if it can be opened. *)
Definition host_file : Type := list Z * option (list (list Z)).

Fixpoint append_all (inum : Z) (reads : list (list Z)) (st : mkst) : option mkst :=
  match reads with
  | [] => Some st
  | buf :: reads => st ← iappend inum buf st; append_all inum reads st
  end.

Definition add_file (rootino : Z) (f : host_file) (st : mkst) : option mkst :=
  let '(name, opened) := f in
  if decide (47 ∈ name) then None else
  reads ← opened;
  let name := match name with 95 :: name' => name' | _ => name end in
  '(inum, st) ← mk_ialloc T_FILE st;
  st ← iappend rootino (mk_dirent inum name) st;
  append_all inum reads st.

Fixpoint add_files (rootino : Z) (fs : list host_file) (st : mkst) : option mkst :=
  match fs with
  | [] => Some st
  | f :: fs => st ← add_file rootino f st; add_files rootino fs st
  end.

(** [for(i = 0; i < FSSIZE; i++) wsect(i, zeroes);] *)
Definition zero_image (n : nat) : mkst :=
  foldl (fun st i => wsect (Z.of_nat i) zeroes st) (Mkst ∅ 1 nmeta) (upto n).

(** [memset(buf, 0, sizeof(buf)); memmove(buf, &sb, sizeof(sb));] *)
Definition sb_sector : list Z := splice zeroes 0 (sb_bytes sb).

(** The image before there is a file in it. *)
Definition mk_start : mkst := wsect 1 sb_sector (zero_image (Z.to_nat FSSIZE)).

Definition mkfs (fs : list host_file) : option (gmap Z (list Z)) :=
  '(rootino, st) ← mk_ialloc T_DIR mk_start;
  if negb (rootino =? ROOTINO) then None else
  st ← iappend rootino (mk_dirent rootino (chars ".")) st;
  st ← iappend rootino (mk_dirent rootino (chars "..")) st;
  st ← add_files rootino fs st;
  din ← rinode rootino st;
  let off := xint (di_size din) in
  let off := u32 ((off / BSIZE + 1) * BSIZE) in
  st ← winode rootino (set_size (xint off) din) st;
  st ← mk_balloc (mk_freeblock st) st;
  Some (mk_img st).
