(* ===== verification/MkfsImage.v ===== *)
(** * The image that mkfs makes holds the files it was given *)

From S2P Require Import Prelude Mem CString State Block Log Recovery Inode Bitmap Fs FileData InodeDisk Mkfs.

(** ** Files of an image *)

(** The sector of block [fbn] of a file. *)
Definition img_bmap (img : gmap Z (list Z)) (di : dinode) (fbn : nat) : option Z :=
  if decide (fbn < 12)%nat then di_addrs di !! fbn else
  ind ← di_addrs di !! 12%nat;
  d ← img !! ind;
  Some (get32 d (4 * (fbn - 12))).

(** A file under construction: its inode, its blocks in order, its indirect block, and its
    bytes. *)
Record mfile : Type := MkFile { f_di : dinode; f_bl : list Z; f_ind : Z; f_data : list Z }.

Record ifile (img : gmap Z (list Z)) (f : mfile) : Prop := {
  if_max : (length (f_bl f) <= 140)%nat;
  if_addrs : di_addrs (f_di f) = take 12 (f_bl f) ++ replicate (12 - length (f_bl f)) 0 ++ [f_ind f];
  if_none : (length (f_bl f) <= 12)%nat -> f_ind f = 0;
  if_ind : (12 < length (f_bl f))%nat -> exists d, img !! f_ind f = Some d /\ length d = 512%nat /\
    forall j, (j < 128)%nat -> get32 d (4 * j) = default 0 (f_bl f !! (12 + j)%nat);
  if_data : forall j b, f_bl f !! j = Some b -> exists d, img !! b = Some d /\ length d = 512%nat /\
    forall o, (o < 512)%nat -> (512 * j + o < length (f_data f))%nat -> d !! o = f_data f !! (512 * j + o)%nat
}.

(** The sectors of the file. *)
Definition owned (f : mfile) : list Z := f_bl f ++ if decide (length (f_bl f) <= 12)%nat then [] else [f_ind f].

(** The image while files are added: each sector in use belongs to one file, and the sectors
    from freeblock on are zero. *)
Record good (st : mkst) (fs : list mfile) : Prop := {
  g_dom : forall b, is_Some (mk_img st !! b) <-> 0 <= b < 1000;
  g_len : forall b d, mk_img st !! b = Some d -> length d = 512%nat;
  g_free : 59 <= mk_freeblock st <= 1000;
  g_files : forall i f, fs !! i = Some f -> ifile (mk_img st) f;
  g_own : forall i f b, fs !! i = Some f -> b ∈ owned f -> 59 <= b < mk_freeblock st;
  g_sep : forall i j f g b, fs !! i = Some f -> fs !! j = Some g -> b ∈ owned f -> b ∈ owned g -> i = j;
  g_nodup : forall i f, fs !! i = Some f -> NoDup (owned f);
  g_cover : forall b, 59 <= b < mk_freeblock st -> exists i f, fs !! i = Some f /\ b ∈ owned f;
  g_zero : forall b, mk_freeblock st <= b < 1000 -> mk_img st !! b = Some zeroes
}.

Lemma owned_bl f b : b ∈ f_bl f -> b ∈ owned f.
Proof. intros H. apply elem_of_app. by left. Qed.

Lemma owned_ind f : (12 < length (f_bl f))%nat -> f_ind f ∈ owned f.
Proof. intros H. apply elem_of_app. right. rewrite decide_False by lia. left. Qed.

Lemma ifile_ext img img' f : (forall b, b ∈ owned f -> img' !! b = img !! b) -> ifile img f -> ifile img' f.
Proof.
  intros E [H1 H2 H3 H4 H5]. split; try done.
  - intros Hl. destruct (H4 Hl) as (d & ? & ?). exists d. by rewrite E by (by apply owned_ind).
  - intros j b Hj. destruct (H5 j b Hj) as (d & ? & ?). exists d. by rewrite E by (by eapply owned_bl, list_elem_of_lookup_2).
Qed.

(** One file changes, and may get new sectors. *)
Lemma good_step st fs i f f' img' fb' :
  good st fs -> fs !! i = Some f ->
  (forall b, is_Some (img' !! b) <-> is_Some (mk_img st !! b)) -> (forall b d, img' !! b = Some d -> length d = 512%nat) ->
  mk_freeblock st <= fb' <= 1000 -> ifile img' f' ->
  (forall b, b ∈ owned f' <-> b ∈ owned f \/ mk_freeblock st <= b < fb') -> NoDup (owned f') ->
  (forall b, b ∉ owned f' -> img' !! b = mk_img st !! b) ->
  good (Mkst img' (mk_freeinode st) fb') (<[i := f']> fs).
Proof.
  intros G Hi Hdom Hlen Hfb Hf' Hown Hnd Hsame. pose proof G as [G1 G2 G3 G4 G5 G6 G7 G8 G9].
  assert (Hin : forall j g, <[i := f']> fs !! j = Some g -> (j = i /\ g = f') \/ (j <> i /\ fs !! j = Some g)).
  { intros j g. destruct (decide (j = i)) as [->|Hne].
    - rewrite list_lookup_insert_eq by (by eapply lookup_lt_Some). intros [= ->]. by left.
    - rewrite list_lookup_insert_ne by done. by right. }
  assert (Hother : forall j g b, j <> i -> fs !! j = Some g -> b ∈ owned g -> b ∉ owned f').
  { intros j g b Hne Hg Hb [Hb'|Hb']%Hown; [by apply Hne; eapply G6|]. pose proof (G5 _ _ _ Hg Hb). lia. }
  split; cbn [mk_img mk_freeblock mk_freeinode].
  - intros b. by rewrite Hdom.
  - done.
  - lia.
  - intros j g [[-> ->]|[Hne Hg]]%Hin; [done|]. apply (ifile_ext (mk_img st)); [|by eapply G4].
    intros b Hb. by eapply Hsame, Hother.
  - intros j g b [[-> ->]|[Hne Hg]]%Hin Hb; [apply Hown in Hb as [Hb|Hb]; [pose proof (G5 _ _ _ Hi Hb)|]; lia|].
    pose proof (G5 _ _ _ Hg Hb). lia.
  - intros j1 j2 g1 g2 b [[-> ->]|[Hne1 Hg1]]%Hin [[-> ->]|[Hne2 Hg2]]%Hin Hb1 Hb2; [done|..|by eapply G6].
    + by edestruct Hother.
    + by edestruct Hother.
  - intros j g [[-> ->]|[Hne Hg]]%Hin; [done|by eapply G7].
  - intros b Hb. destruct (decide (mk_freeblock st <= b)) as [Hnew|Hold].
    + exists i, f'. rewrite list_lookup_insert_eq by (by eapply lookup_lt_Some). split; [done|]. apply Hown. lia.
    + destruct (G8 b ltac:(lia)) as (j & g & Hg & Hgb). destruct (decide (j = i)) as [->|Hne].
      * rewrite Hi in Hg. injection Hg as <-. exists i, f'. rewrite list_lookup_insert_eq by (by eapply lookup_lt_Some).
        split; [done|]. apply Hown. by left.
      * exists j, g. by rewrite list_lookup_insert_ne.
  - intros b Hb. rewrite Hsame; [apply G9; lia|]. intros [Hb'|Hb']%Hown; [pose proof (G5 _ _ _ Hi Hb')|]; lia.
Qed.

(** One of its sectors is written. *)
Lemma good_put st fs i f f' x d fb' :
  good st fs -> fs !! i = Some f -> 0 <= x < 1000 -> length d = 512%nat -> x ∈ owned f' ->
  mk_freeblock st <= fb' <= 1000 -> ifile (<[x := d]> (mk_img st)) f' ->
  (forall b, b ∈ owned f' <-> b ∈ owned f \/ mk_freeblock st <= b < fb') -> NoDup (owned f') ->
  good (Mkst (<[x := d]> (mk_img st)) (mk_freeinode st) fb') (<[i := f']> fs).
Proof.
  intros G Hi Hx Hd Hxo Hfb Hf' Hown Hnd. apply good_step with f; try done.
  - intros b. destruct (decide (b = x)) as [->|Hne]; [|by rewrite lookup_insert_ne].
    rewrite lookup_insert_eq, (g_dom _ _ G). split; [done|eauto].
  - intros b d'. destruct (decide (b = x)) as [->|Hne]; [rewrite lookup_insert_eq; by intros [= <-]|].
    rewrite lookup_insert_ne by done. by eapply g_len.
  - intros b Hb. apply lookup_insert_ne. by intros ->.
Qed.

(** ** Numbers *)

Lemma xint_u32 x : xint x = u32 x.
Proof. unfold xint. by rewrite le_combine_split. Qed.

Lemma xint_small x : in_u32 x -> xint x = x.
Proof. intros H. rewrite xint_u32. by apply u32_small. Qed.

(** ** Addresses *)

Section Addrs.
  Context (img : gmap Z (list Z)) (f : mfile) (Hf : ifile img f).

Lemma addrs_len : length (di_addrs (f_di f)) = 13%nat.
Proof. rewrite (if_addrs _ _ Hf), !length_app, length_take, length_replicate. cbn [length]. lia. Qed.

Lemma addrs_direct j : (j < 12)%nat -> di_addrs (f_di f) !! j = Some (default 0 (f_bl f !! j)).
Proof.
  intros Hj. rewrite (if_addrs _ _ Hf). destruct (decide (j < length (f_bl f))%nat) as [H|H].
  - rewrite lookup_app_l by len. rewrite lookup_take_lt by lia. by destruct (lookup_lt_is_Some_2 _ _ H) as [b ->].
  - rewrite lookup_app_r by (rewrite length_take; lia). rewrite length_take, Nat.min_r by lia.
    rewrite lookup_app_l by (rewrite length_replicate; lia). rewrite lookup_replicate_2 by lia.
    by rewrite (lookup_ge_None_2 (f_bl f)) by lia.
Qed.

Lemma addrs_last : di_addrs (f_di f) !! 12%nat = Some (f_ind f).
Proof.
  rewrite (if_addrs _ _ Hf), app_assoc. apply list_lookup_middle. rewrite length_app, length_take, length_replicate. lia.
Qed.

Lemma addrs_new b : (length (f_bl f) < 12)%nat ->
  <[length (f_bl f) := b]> (di_addrs (f_di f)) =
  take 12 (f_bl f ++ [b]) ++ replicate (12 - length (f_bl f ++ [b])) 0 ++ [f_ind f].
Proof.
  intros H. rewrite (if_addrs _ _ Hf), !take_ge by (len; cbn; lia).
  replace (length (f_bl f)) with (length (f_bl f) + 0)%nat at 1 by lia. rewrite insert_app_r.
  rewrite length_app. cbn [length]. replace (12 - length (f_bl f))%nat with (S (12 - (length (f_bl f) + 1)))%nat by lia.
  cbn. by rewrite <- app_assoc.
Qed.

Lemma addrs_ind x : (12 <= length (f_bl f))%nat ->
  <[12%nat := x]> (di_addrs (f_di f)) = take 12 (f_bl f) ++ [x].
Proof.
  intros H. rewrite (if_addrs _ _ Hf). replace (12 - length (f_bl f))%nat with 0%nat by lia. cbn [replicate app].
  replace 12%nat with (length (take 12 (f_bl f)) + 0)%nat at 1 by len. by rewrite insert_app_r.
Qed.

Lemma img_bmap_run j b : f_bl f !! j = Some b -> img_bmap img (f_di f) j = Some b.
Proof.
  intros Hj. unfold img_bmap. case_decide as H12; [by rewrite addrs_direct, Hj|]. rewrite addrs_last. cbn [mbind option_bind].
  pose proof (lookup_lt_Some _ _ _ Hj) as Hl. pose proof (if_max _ _ Hf).
  destruct (if_ind _ _ Hf ltac:(lia)) as (d & -> & _ & Hd). cbn [mbind option_bind]. rewrite Hd by lia.
  by replace (12 + (j - 12))%nat with j by lia; rewrite Hj.
Qed.

End Addrs.

(** The sectors a file of [n] blocks takes. *)
Definition cost (n : nat) : Z := Z.of_nat n + if decide (n <= 12)%nat then 0 else 1.

Lemma cost_le n m : (n <= m)%nat -> cost n <= cost m.
Proof. unfold cost. repeat case_decide; lia. Qed.

(** ** A block for the next bytes *)

(** File [i] has got a block for its block number [fbn]. *)
Definition block_added (st : mkst) (fs : list mfile) (i : nat) (f : mfile) (fbn : nat) (x : Z) (din : dinode) (st' : mkst) (f' : mfile) : Prop :=
  good st' (<[i := f']> fs) /\ f_di f' = din /\ f_di f' = set_addrs (di_addrs din) (f_di f) /\ f_data f' = f_data f /\
  f_bl f' !! fbn = Some x /\ length (f_bl f') = S fbn /\ mk_freeinode st' = mk_freeinode st /\
  mk_freeblock st' = mk_freeblock st + cost (S fbn) - cost (length (f_bl f)) /\
  (forall b, b < 59 -> mk_img st' !! b = mk_img st !! b).

Section Append.
  Context (st : mkst) (fs : list mfile) (i : nat) (f : mfile) (G : good st fs) (Hi : fs !! i = Some f).

Lemma next_block_run : mk_freeblock st < 1000 ->
  next_block st = (mk_freeblock st, Mkst (mk_img st) (mk_freeinode st) (mk_freeblock st + 1)).
Proof.
  intros H. pose proof (g_free _ _ G). unfold next_block. rewrite xint_small, u32_small by (unfold in_u32; lia). done.
Qed.

Lemma fresh b : b ∈ owned f -> b <> mk_freeblock st /\ b <> mk_freeblock st + 1 /\ 59 <= b.
Proof. intros H. pose proof (g_own _ _ G _ _ _ Hi H). lia. Qed.

Lemma zero_block b : mk_freeblock st <= b < 1000 -> mk_img st !! b = Some zeroes /\ length zeroes = 512%nat.
Proof. intros H. split; [by eapply g_zero|done]. Qed.

(** The last block of the file has room. *)
Lemma append_present fbn x : f_bl f !! fbn = Some x -> length (f_bl f) = S fbn ->
  append_block (Z.of_nat fbn) (f_di f) st = Some (x, f_di f, st) /\ block_added st fs i f fbn x (f_di f) st f.
Proof.
  intros Hx Hl. pose proof (g_files _ _ G _ _ Hi) as Hf. pose proof (if_max _ _ Hf).
  assert (Hxo : x ∈ owned f) by (by eapply owned_bl, list_elem_of_lookup_2).
  pose proof (g_own _ _ G _ _ _ Hi Hxo) as Hxr. pose proof (g_free _ _ G).
  assert (Ex : xint x = x) by (apply xint_small; unfold in_u32; lia).
  split.
  - unfold append_block. change NDIRECT with 12. destruct (Z.of_nat fbn <? 12) eqn:E12.
    + unfold addr_slot. rewrite Nat2Z.id, (addrs_direct _ _ Hf) by lia. rewrite Hx. cbn [default from_option id mbind option_bind].
      rewrite Ex. replace (x =? 0) with false by lia. done.
    + assert (Hind : f_ind f ∈ owned f) by (apply owned_ind; lia). pose proof (g_own _ _ G _ _ _ Hi Hind).
      unfold addr_slot. change (Z.to_nat 12) with 12%nat. rewrite (addrs_last _ _ Hf). cbn [mbind option_bind].
      rewrite xint_small by (unfold in_u32; lia). replace (f_ind f =? 0) with false by lia. cbn [mbind option_bind].
      destruct (if_ind _ _ Hf ltac:(lia)) as (d & Ed & Hd & Hj). unfold rsect. rewrite Ed. cbn [mbind option_bind].
      rewrite Hj by lia. replace (12 + Z.to_nat (Z.of_nat fbn - 12))%nat with fbn by lia. rewrite Hx. cbn [default from_option id].
      rewrite Ex. by replace (x =? 0) with false by lia.
  - split_and!; try done; [by rewrite list_insert_id|by destruct (f_di f)|rewrite Hl; lia].
Qed.

Lemma ifile_same_data img bl : ifile img f -> length (f_data f) = (512 * length (f_bl f))%nat ->
  forall x, mk_freeblock st <= x < 1000 -> img !! x = Some zeroes -> bl = f_bl f ++ [x] ->
  forall j b, bl !! j = Some b -> exists d, img !! b = Some d /\ length d = 512%nat /\
    forall o, (o < 512)%nat -> (512 * j + o < length (f_data f))%nat -> d !! o = f_data f !! (512 * j + o)%nat.
Proof.
  intros Hf Hl x Hx Ex -> j b [Hj|[Hj Hb]]%lookup_app_Some; [by eapply if_data|].
  destruct (j - length (f_bl f))%nat as [|?] eqn:E; [|done]. injection Hb as <-. exists zeroes. split_and!; [done|done|lia].
Qed.

Lemma append_direct : length (f_data f) = (512 * length (f_bl f))%nat -> (length (f_bl f) < 12)%nat -> mk_freeblock st < 1000 ->
  exists x din st' f', append_block (Z.of_nat (length (f_bl f))) (f_di f) st = Some (x, din, st') /\
    block_added st fs i f (length (f_bl f)) x din st' f'.
Proof.
  intros Hd Hl Hfree. pose proof (g_files _ _ G _ _ Hi) as Hf. pose proof (g_free _ _ G) as Hfr. set (b := mk_freeblock st) in *.
  set (din := set_addrs (<[length (f_bl f) := b]> (di_addrs (f_di f))) (f_di f)).
  set (f' := MkFile din (f_bl f ++ [b]) (f_ind f) (f_data f)).
  exists b, din, (Mkst (mk_img st) (mk_freeinode st) (b + 1)), f'. split.
  { unfold append_block. change NDIRECT with 12. replace (Z.of_nat (length (f_bl f)) <? 12) with true by lia.
    unfold addr_slot. rewrite Nat2Z.id, (addrs_direct _ _ Hf) by lia. rewrite (lookup_ge_None_2 (f_bl f)) by lia. cbn [default from_option id mbind option_bind].
    change (xint 0 =? 0) with true. cbn match. rewrite next_block_run by done. fold b. rewrite xint_small by (unfold in_u32; lia). done. }
  assert (Eo : owned f = f_bl f) by (unfold owned; rewrite decide_True by lia; apply app_nil_r).
  assert (Eo' : owned f' = f_bl f ++ [b]) by (unfold owned; cbn; rewrite decide_True by (len; cbn; lia); apply app_nil_r).
  assert (Hnew : b ∉ f_bl f) by (rewrite <- Eo; intros H%fresh; fold b in H; lia).
  split_and!; cbn; try done; [|by rewrite list_lookup_middle|rewrite length_app; cbn; lia|fold b; unfold cost; rewrite !decide_True by lia; lia].
  apply good_step with f; try done; [by eapply g_len|lia| | |].
  - split; cbn [f_bl f_di f_ind f_data f' din set_addrs di_addrs]; rewrite ?length_app; cbn [length]; try lia.
    + rewrite (addrs_new _ _ Hf) by done. by rewrite length_app.
    + intros _. apply (if_none _ _ Hf). lia.
    + eapply ifile_same_data; [done|done| |apply zero_block|done]; fold b; lia.
  - intros c. rewrite Eo, Eo', elem_of_app, list_elem_of_singleton. fold b. split; intros [H|H]; auto; right; lia.
  - rewrite Eo'. apply NoDup_app. split_and!; [by rewrite <- Eo; eapply g_nodup| |apply NoDup_singleton].
    intros c Hc ->%list_elem_of_singleton. done.
Qed.

(** A new entry of the indirect block [x]. *)
Lemma entry_ifile b x d :
  length (f_data f) = (512 * length (f_bl f))%nat -> (12 <= length (f_bl f) < 140)%nat -> mk_freeblock st <= b < 1000 ->
  length d = 512%nat -> (forall j, (j < 128)%nat -> get32 d (4 * j) = default 0 (f_bl f !! (12 + j)%nat)) ->
  b <> x -> x ∉ f_bl f ->
  ifile (<[x := put32 d (4 * (length (f_bl f) - 12)) b]> (mk_img st))
    (MkFile (set_addrs (take 12 (f_bl f) ++ [x]) (f_di f)) (f_bl f ++ [b]) x (f_data f)).
Proof.
  intros Hd Hl Hb Ld He Hbx Hx. pose proof (g_files _ _ G _ _ Hi) as Hf. pose proof (g_free _ _ G) as Hfr.
  split; cbn [f_bl f_di f_ind f_data set_addrs di_addrs]; rewrite ?length_app; cbn [length]; try lia.
  - rewrite take_app_le by lia. by replace (12 - (length (f_bl f) + 1))%nat with 0%nat by lia.
  - intros _. rewrite lookup_insert_eq. eexists. split; [done|]. split; [rewrite length_put32; lia|]. intros j Hj.
    destruct (decide (j = length (f_bl f) - 12)%nat) as [->|Hne].
    + rewrite get32_put32 by lia. rewrite list_lookup_middle by lia. cbn. apply u32_small. unfold in_u32. lia.
    + rewrite get32_put32_ne by lia. rewrite He by done. destruct (decide (12 + j < length (f_bl f))%nat).
      * by rewrite lookup_app_l.
      * rewrite !lookup_ge_None_2; [done| |lia]. rewrite length_app. cbn. lia.
  - intros j c Hc.
    destruct (ifile_same_data (mk_img st) _ Hf Hd b Hb ltac:(by apply zero_block) eq_refl j c Hc) as (d' & ? & ?).
    exists d'. rewrite lookup_insert_ne; [done|]. intros ->. apply list_elem_of_lookup_2, elem_of_app in Hc as [Hc|Hc%list_elem_of_singleton]; done.
Qed.

Lemma append_indirect : length (f_data f) = (512 * length (f_bl f))%nat -> (12 < length (f_bl f) < 140)%nat -> mk_freeblock st < 1000 ->
  exists x din st' f', append_block (Z.of_nat (length (f_bl f))) (f_di f) st = Some (x, din, st') /\
    block_added st fs i f (length (f_bl f)) x din st' f'.
Proof.
  intros Hd Hl Hfree. pose proof (g_files _ _ G _ _ Hi) as Hf. pose proof (g_free _ _ G) as Hfr. set (b := mk_freeblock st) in *.
  destruct (if_ind _ _ Hf ltac:(lia)) as (d & Ed & Ld & He). set (x := f_ind f) in *.
  assert (Hx : x ∈ owned f) by (apply owned_ind; lia). destruct (fresh _ Hx) as (Hxb & _ & Hxr). fold b in Hxb.
  pose proof (g_own _ _ G _ _ _ Hi Hx) as Hxu. fold b in Hxu.
  assert (Eo : owned f = f_bl f ++ [x]) by (unfold owned; by rewrite decide_False by lia).
  pose proof (g_nodup _ _ G _ _ Hi) as Hnd. rewrite Eo in Hnd. apply NoDup_app in Hnd as (Hnd1 & Hnd2 & _).
  assert (Hxl : x ∉ f_bl f) by (intros H; apply (Hnd2 _ H); left).
  assert (Hbl : b ∉ f_bl f) by (intros H%owned_bl%fresh; fold b in H; lia).
  pose proof (entry_ifile b x d Hd ltac:(lia) ltac:(lia) Ld He ltac:(done) Hxl) as Hf'. set (f' := MkFile _ _ _ _) in Hf'. set (img' := <[x := _]> _) in Hf'.
  assert (Ea : set_addrs (take 12 (f_bl f) ++ [x]) (f_di f) = f_di f).
  { rewrite <- (addrs_ind _ _ Hf) by lia. rewrite list_insert_id by (by rewrite (addrs_last _ _ Hf)). by destruct (f_di f). }
  exists b, (f_di f), (Mkst img' (mk_freeinode st) (b + 1)), f'. split.
  { unfold append_block. change NDIRECT with 12. replace (Z.of_nat (length (f_bl f)) <? 12) with false by lia.
    unfold addr_slot. change (Z.to_nat 12) with 12%nat. rewrite (addrs_last _ _ Hf). cbn [mbind option_bind]. fold x.
    rewrite xint_small by (unfold in_u32; lia). replace (x =? 0) with false by lia. cbn [mbind option_bind]. unfold rsect. rewrite Ed. cbn [mbind option_bind].
    replace (Z.to_nat (Z.of_nat (length (f_bl f)) - 12)) with (length (f_bl f) - 12)%nat by lia.
    rewrite He by lia. rewrite (lookup_ge_None_2 (f_bl f)) by lia. cbn [default from_option id]. rewrite Z.eqb_refl, next_block_run by done. fold b.
    rewrite xint_small by (unfold in_u32; lia). done. }
  assert (Eo' : owned f' = (f_bl f ++ [b]) ++ [x]) by (unfold owned; cbn; by rewrite decide_False by (len; cbn; lia)).
  split_and!; cbn; try done; [|by rewrite Ea; destruct (f_di f)|by rewrite list_lookup_middle|rewrite length_app; cbn; lia| |].
  - apply good_put with f; try done; [lia|rewrite length_put32; lia|rewrite Eo'; apply elem_of_app; right; left|lia|..].
    + intros c. rewrite Eo, Eo', !elem_of_app, !list_elem_of_singleton. fold b. split; [intros [[?|?]|?]|intros [[?|?]|?]]; auto; [right; lia|left; right; lia].
    + rewrite Eo'. apply NoDup_app. split_and!; [|intros c [Hc|Hc%list_elem_of_singleton]%elem_of_app Hc'%list_elem_of_singleton; by subst|apply NoDup_singleton].
      apply NoDup_app. split_and!; [done|intros c Hc ->%list_elem_of_singleton; done|apply NoDup_singleton].
  - fold b. unfold cost. rewrite !decide_False by lia. lia.
  - intros c Hc. unfold img'. by rewrite lookup_insert_ne by lia.
Qed.

(** The first block behind the direct ones: the indirect block comes with it. *)
Lemma append_first_indirect : length (f_data f) = (512 * length (f_bl f))%nat -> length (f_bl f) = 12%nat -> mk_freeblock st + 1 < 1000 ->
  exists x din st' f', append_block (Z.of_nat (length (f_bl f))) (f_di f) st = Some (x, din, st') /\
    block_added st fs i f (length (f_bl f)) x din st' f'.
Proof.
  intros Hd Hl Hfree. pose proof (g_files _ _ G _ _ Hi) as Hf. pose proof (g_free _ _ G) as Hfr. set (x := mk_freeblock st) in *.
  assert (Eo : owned f = f_bl f) by (unfold owned; rewrite decide_True by lia; apply app_nil_r).
  assert (Hnew : x ∉ f_bl f /\ x + 1 ∉ f_bl f) by (rewrite <- Eo; split; intros H%fresh; fold x in H; lia). destruct Hnew as [Hx Hx1].
  pose proof (entry_ifile (x + 1) x zeroes Hd ltac:(lia) ltac:(lia) ltac:(done)) as Hf'.
  destruct (zero_block x ltac:(lia)) as [Ex Lz].
  specialize (Hf' ltac:(intros j Hj; rewrite lookup_ge_None_2 by lia; unfold get32, slice, zeroes; rewrite drop_replicate, take_replicate, Nat.min_l by lia; done) ltac:(lia) Hx).
  set (f' := MkFile _ _ _ _) in Hf'. set (img' := <[x := _]> _) in Hf'.
  exists (x + 1), (f_di f'), (Mkst img' (mk_freeinode st) (x + 1 + 1)), f'. split.
  { unfold append_block. change NDIRECT with 12. replace (Z.of_nat (length (f_bl f)) <? 12) with false by lia.
    unfold addr_slot. change (Z.to_nat 12) with 12%nat. rewrite (addrs_last _ _ Hf), (if_none _ _ Hf) by lia. cbn [mbind option_bind].
    change (xint 0 =? 0) with true. cbn match. rewrite next_block_run by (fold x; lia). fold x. cbn [mbind option_bind].
    rewrite !(xint_small x) by (unfold in_u32; lia). unfold rsect. cbn [mk_img]. rewrite Ex. cbn [mbind option_bind].
    rewrite Hl. change (Z.to_nat (Z.of_nat 12 - 12)) with 0%nat. change (get32 zeroes (4 * 0) =? 0) with true. cbn match.
    unfold next_block. cbn [mk_freeblock mk_img mk_freeinode]. rewrite !xint_small by (rewrite ?xint_small; unfold in_u32; lia).
    rewrite u32_small by (unfold in_u32; lia). rewrite (addrs_ind _ _ Hf) by lia. unfold f', img'. rewrite Hl. done. }
  assert (Eo' : owned f' = (f_bl f ++ [x + 1]) ++ [x]) by (unfold owned; cbn; by rewrite decide_False by (len; cbn; lia)).
  split_and!; cbn; try done; [|by rewrite list_lookup_middle|rewrite length_app; cbn; lia| |].
  - apply good_put with f; try done; [lia| |rewrite Eo'; apply elem_of_app; right; left|lia|..].
    + rewrite length_put32; [done|]. rewrite Lz. lia.
    + intros c. rewrite Eo, Eo', !elem_of_app, !list_elem_of_singleton. fold x. split; [intros [[?|?]|?]; auto; right; lia|].
      intros [?|?]; auto. destruct (decide (c = x)); [by right|left; right; lia].
    + rewrite Eo'. apply NoDup_app. split_and!; [|intros c [Hc|Hc%list_elem_of_singleton]%elem_of_app Hc'%list_elem_of_singleton; subst; [done|lia]|apply NoDup_singleton].
      apply NoDup_app. split_and!; [by rewrite <- Eo; eapply g_nodup|intros c Hc ->%list_elem_of_singleton; done|apply NoDup_singleton].
  - fold x. rewrite Hl. unfold cost. rewrite decide_False, decide_True by lia. lia.
  - intros c Hc. unfold img'. by rewrite lookup_insert_ne by lia.
Qed.

Definition nb (n : nat) : nat := ((n + 511) / 512)%nat.

(** iappend's block for the next bytes of the file, whichever it is. *)
Lemma append_block_run : length (f_bl f) = nb (length (f_data f)) -> (length (f_data f) / 512 < 140)%nat ->
  mk_freeblock st + cost (S (length (f_data f) / 512)) - cost (length (f_bl f)) <= 1000 ->
  exists x din st' f', append_block (Z.of_nat (length (f_data f) / 512)) (f_di f) st = Some (x, din, st') /\
    block_added st fs i f (length (f_data f) / 512) x din st' f'.
Proof.
  intros Hl Hmax Hroom. unfold nb in Hl. set (n := length (f_data f)) in *.
  pose proof (Nat.div_mod_eq n 512) as Hn. pose proof (Nat.mod_upper_bound n 512 ltac:(lia)) as Hm.
  destruct (decide (n `mod` 512 = 0)%nat) as [H0|H0].
  - assert (Hln : length (f_bl f) = (n / 512)%nat).
    { rewrite Hl. symmetry. apply (Nat.div_unique _ _ _ 511); lia. }
    rewrite <- Hln in *. assert (Hd : length (f_data f) = (512 * length (f_bl f))%nat) by (fold n; lia).
    unfold cost in Hroom. destruct (decide (length (f_bl f) < 12)%nat).
    + rewrite !decide_True in Hroom by lia. apply append_direct; try done. lia.
    + destruct (decide (length (f_bl f) = 12)%nat) as [E|E].
      * apply append_first_indirect; try done. rewrite decide_False, decide_True in Hroom by lia. lia.
      * rewrite !decide_False in Hroom by lia. apply append_indirect; try done; lia.
  - assert (Hln : length (f_bl f) = S (n / 512)).
    { rewrite Hl. symmetry. apply (Nat.div_unique _ _ _ (n `mod` 512 - 1)); lia. }
    destruct (lookup_lt_is_Some_2 (f_bl f) (n / 512) ltac:(lia)) as [x Hx]. exists x, (f_di f), st, f. exact (append_present _ x Hx Hln).
Qed.

End Append.

(** ** Appending bytes *)

Lemma nb_unique n m : (512 * m < n <= 512 * S m)%nat -> nb n = S m.
Proof. intros H. unfold nb. symmetry. apply (Nat.div_unique _ _ _ (n - 512 * m - 1)); lia. Qed.

Lemma nb_le n m : (n <= m)%nat -> (nb n <= nb m)%nat.
Proof. intros H. unfold nb. apply Nat.Div0.div_le_mono. lia. Qed.

Lemma write_run st fs i f x fbn chunk :
  good st fs -> fs !! i = Some f -> f_bl f !! fbn = Some x -> length (f_bl f) = S fbn ->
  (512 * fbn <= length (f_data f))%nat -> (length (f_data f) + length chunk <= 512 * S fbn)%nat ->
  exists buf, rsect x st = Some buf /\
    good (wsect x (splice buf (length (f_data f) - 512 * fbn) chunk) st)
      (<[i := MkFile (f_di f) (f_bl f) (f_ind f) (f_data f ++ chunk)]> fs).
Proof.
  intros G Hi Hx Hl Hlo Hhi. pose proof (g_files _ _ G _ _ Hi) as Hf. pose proof (g_free _ _ G).
  destruct (if_data _ _ Hf _ _ Hx) as (buf & Eb & Lb & Hb). exists buf. split; [done|].
  assert (Hxo : x ∈ owned f) by (by eapply owned_bl, list_elem_of_lookup_2).
  pose proof (g_own _ _ G _ _ _ Hi Hxo). pose proof (g_nodup _ _ G _ _ Hi) as Hnd.
  unfold wsect. apply good_put with f; try done; [lia|rewrite length_splice; lia|lia| |intros b; unfold owned; cbn; intuition lia].
  set (o := (length (f_data f) - 512 * fbn)%nat) in *. set (img' := <[x := _]> _).
  destruct Hf as [H1 H2 H3 H4 H5]. split; cbn [f_bl f_di f_ind f_data]; try done.
  - intros H12. destruct (H4 H12) as (d & ? & ?). exists d. unfold img'. rewrite lookup_insert_ne; [done|].
    intros E. unfold owned in Hnd. rewrite decide_False in Hnd by lia. apply NoDup_app in Hnd as (_ & Hnd & _).
    apply (Hnd x); [by eapply list_elem_of_lookup_2|]. rewrite E. left.
  - intros j b Hj. destruct (H5 j b Hj) as (d & Ed & Ld & Hd). unfold img'. destruct (decide (b = x)) as [->|Hne].
    + assert (j = fbn) as ->.
      { unfold owned in Hnd. apply NoDup_app in Hnd as (Hnd & _). by eapply NoDup_lookup. }
      rewrite Eb in Ed. injection Ed as <-. rewrite lookup_insert_eq. eexists. split; [done|]. split; [rewrite length_splice; lia|].
      intros o' Ho Hlt. rewrite length_app in Hlt. rewrite lookup_splice by lia. case_decide.
      * rewrite lookup_app_r by lia. f_equal. lia.
      * rewrite lookup_app_l by lia. apply Hd; lia.
    + rewrite lookup_insert_ne by done. exists d. split_and!; [done|done|]. intros o' Ho Hlt.
      pose proof (lookup_lt_Some _ _ _ Hj). assert (j <> fbn) by (intros ->; congruence).
      rewrite lookup_app_l by lia. apply Hd; lia.
Qed.

(** File [i] has got the bytes [p] in addition. *)
Record appended (st : mkst) (fs : list mfile) (i : nat) (f : mfile) (p : list Z) (st' : mkst) (f' : mfile) : Prop := {
  ap_good : good st' (<[i := f']> fs);
  ap_di : f_di f' = set_addrs (di_addrs (f_di f')) (f_di f);
  ap_data : f_data f' = f_data f ++ p;
  ap_len : length (f_bl f') = nb (length (f_data f'));
  ap_inode : mk_freeinode st' = mk_freeinode st;
  ap_free : mk_freeblock st' = mk_freeblock st + cost (nb (length (f_data f'))) - cost (nb (length (f_data f)));
  ap_meta : forall b, b < 59 -> mk_img st' !! b = mk_img st !! b
}.

Lemma appended_nil st fs i f :
  good st fs -> fs !! i = Some f -> length (f_bl f) = nb (length (f_data f)) -> appended st fs i f [] st f.
Proof.
  intros G Hi Hl. split; rewrite ?list_insert_id, ?app_nil_r by done; try done; [by destruct (f_di f)|lia].
Qed.

Lemma iappend_from_run fuel p : forall st fs i f,
  good st fs -> fs !! i = Some f -> length (f_bl f) = nb (length (f_data f)) -> (length p <= fuel)%nat ->
  (nb (length (f_data f) + length p) <= 140)%nat ->
  mk_freeblock st + cost (nb (length (f_data f) + length p)) - cost (nb (length (f_data f))) <= 1000 ->
  exists st' f', iappend_from fuel (f_di f) (Z.of_nat (length (f_data f))) p st = Some (f_di f', Z.of_nat (length (f_data f')), st') /\
    appended st fs i f p st' f'.
Proof.
  revert p. induction fuel as [|fuel IH]; intros p st fs i f G Hi Hl Hfuel Hmax Hroom.
  { destruct p; [|cbn in Hfuel; lia]. exists st, f. split; [done|by apply appended_nil]. }
  destruct p as [|p0 p']; [exists st, f; split; [done|by apply appended_nil]|]. set (p := p0 :: p') in *. set (n := length (f_data f)) in *.
  pose proof (Nat.div_mod_eq n 512) as Hn. pose proof (Nat.mod_upper_bound n 512 ltac:(lia)) as Hm. set (fbn := (n / 512)%nat) in *.
  set (n1 := (length p `min` (512 * S fbn - n))%nat).
  assert (Hp : (1 <= length p)%nat) by (cbn; lia).
  assert (Hnb1 : nb (n + n1) = S fbn) by (apply nb_unique; lia).
  assert (Hle : (S fbn <= nb (n + length p))%nat) by (rewrite <- Hnb1; apply nb_le; lia).
  destruct (append_block_run st fs i f G Hi Hl) as (x & din & st1 & f1 & Ea & G1 & Ed1 & Edi & Edata & Hx & Hl1 & Hfi1 & Hfb1 & Hm1);
    [fold n fbn; lia|fold n fbn; rewrite Hl; pose proof (cost_le _ _ Hle); fold n; lia|].
  fold n fbn in Ea, Hx, Hl1, Hfb1. rewrite Hl in Hfb1.
  destruct (write_run st1 _ i f1 x fbn (take n1 p) G1) as (buf & Eb & G2); rewrite ?Edata, ?length_take; fold n; try lia.
  { rewrite list_lookup_insert_eq; [done|by eapply lookup_lt_Some]. } { done. }
  rewrite Edata in G2. fold n in G2. rewrite list_insert_insert_eq in G2. set (st2 := wsect _ _ _) in G2. set (f2 := MkFile _ _ _ _) in G2.
  assert (Ln2 : length (f_data f2) = (n + n1)%nat) by (unfold f2; cbn [f_data]; rewrite length_app, length_take; fold n; lia).
  assert (Hcost : cost (S fbn) <= cost (nb (n + length p))) by (by apply cost_le).
  destruct (IH (drop n1 p) st2 (<[i := f2]> fs) i f2 G2) as (st' & f' & E' & A).
  { rewrite list_lookup_insert_eq; [done|by eapply lookup_lt_Some]. }
  { rewrite Ln2, Hnb1. done. } { rewrite length_drop. lia. }
  { rewrite Ln2, length_drop. by replace (n + n1 + (length p - n1))%nat with (n + length p)%nat by lia. }
  { rewrite Ln2, length_drop, Hnb1. replace (n + n1 + (length p - n1))%nat with (n + length p)%nat by lia.
    cbn [st2 wsect mk_freeblock]. rewrite Hfb1. fold n. lia. }
  exists st', f'. split.
  - cbn [iappend_from]. unfold p at 1. cbn match. change BSIZE with 512.
    replace (Z.of_nat n / 512) with (Z.of_nat fbn) by (unfold fbn; rewrite Nat2Z.inj_div; done).
    change MAXFILE with 140. replace (Z.of_nat fbn <? 140) with true by lia. cbn [negb]. rewrite Ea. cbn [mbind option_bind]. rewrite Eb. cbn [mbind option_bind].
    replace (Z.to_nat (Z.min (Z.of_nat (length p)) ((Z.of_nat fbn + 1) * 512 - Z.of_nat n))) with n1 by lia.
    replace (Z.to_nat (Z.of_nat n - Z.of_nat fbn * 512)) with (n - 512 * fbn)%nat by lia.
    replace (u32 (Z.of_nat n + Z.min (Z.of_nat (length p)) ((Z.of_nat fbn + 1) * 512 - Z.of_nat n))) with (Z.of_nat (n + n1)).
    { rewrite <- Ln2, <- Ed1. exact E'. }
    rewrite u32_small by (unfold in_u32; lia). lia.
  - destruct A as [B1 B2 B3 B4 B5 B6 B7]. rewrite list_insert_insert_eq in B1. split; try done.
    + rewrite B2. cbn [f_di f2]. rewrite Edi. done.
    + rewrite B3. cbn [f_data f2]. rewrite <- app_assoc, take_drop. done.
    + rewrite B5. cbn. done.
    + rewrite B6, Ln2, Hnb1. cbn [st2 wsect mk_freeblock]. fold n. lia.
    + intros b Hb. rewrite B7 by done. cbn [st2 wsect mk_img]. rewrite lookup_insert_ne; [by apply Hm1|].
      pose proof (g_own _ _ G1 i f1 x ltac:(rewrite list_lookup_insert_eq; [done|by eapply lookup_lt_Some]) ltac:(by eapply owned_bl, list_elem_of_lookup_2)). lia.
Qed.

(** ** Inodes of the image *)

Lemma dinode_at_slice d d' o : slice d o 64 = slice d' o 64 -> dinode_at d o = dinode_at d' o.
Proof.
  intros E. assert (Es : forall a n, (a + n <= 64)%nat -> slice d (o + a) n = slice d' (o + a) n).
  { intros a n Ha. apply list_eq. intros j. rewrite !lookup_slice. case_decide; [|done].
    apply (f_equal (.!! (a + j)%nat)) in E. rewrite !lookup_slice, !decide_True in E by lia. by rewrite !Nat.add_assoc in E. }
  unfold dinode_at, get16, get32. rewrite !(Es _ _) by lia. pose proof (Es 0%nat 2%nat ltac:(lia)) as E0. rewrite Nat.add_0_r in E0. rewrite E0.
  f_equal. apply list_fmap_ext. intros j x Hx. unfold upto in Hx. apply lookup_seq in Hx as [-> Hx]. cbn [Nat.add].
  rewrite <- Nat.add_assoc. by rewrite Es by lia.
Qed.

Lemma IBLOCK_sb inum : 0 <= inum < 208 -> IBLOCK inum sb = inum / 8 + 32 /\ 32 <= IBLOCK inum sb < 58.
Proof.
  intros H. unfold IBLOCK. change IPB with 8. change (sb_inodestart sb) with 32.
  assert (0 <= inum / 8 < 26) by (split; [apply Z.div_pos; lia|apply Z.div_lt_upper_bound; lia]).
  rewrite u32_small by (unfold in_u32; lia). lia.
Qed.

Lemma other_inode inum inum' : 0 <= inum < 208 -> 0 <= inum' < 208 -> inum <> inum' ->
  IBLOCK inum sb <> IBLOCK inum' sb \/ (dinode_off inum' + 64 <= dinode_off inum \/ dinode_off inum + 64 <= dinode_off inum')%nat.
Proof.
  intros H H' Hne. destruct (IBLOCK_sb _ H) as [-> _]. destruct (IBLOCK_sb _ H') as [-> _]. unfold dinode_off. change IPB with 8.
  pose proof (Z.div_mod inum 8 ltac:(lia)). pose proof (Z.div_mod inum' 8 ltac:(lia)).
  pose proof (Z.mod_pos_bound inum 8 ltac:(lia)). pose proof (Z.mod_pos_bound inum' 8 ltac:(lia)). lia.
Qed.

(** winode writes one inode. *)
Lemma winode_run st fs inum di :
  good st fs -> 0 <= inum < 208 -> typed_dinode di ->
  exists st', winode inum di st = Some st' /\ good st' fs /\ rinode inum st' = Some di /\
    (forall inum', 0 <= inum' < 208 -> inum' <> inum -> rinode inum' st' = rinode inum' st) /\
    mk_freeinode st' = mk_freeinode st /\ mk_freeblock st' = mk_freeblock st /\
    (forall b, ~ 32 <= b < 58 -> mk_img st' !! b = mk_img st !! b).
Proof.
  intros G Hn T. pose proof G as [G1 G2 G3 G4 G5 G6 G7 G8 G9]. destruct (IBLOCK_sb _ Hn) as [_ Hb].
  destruct (proj2 (G1 (IBLOCK inum sb)) ltac:(lia)) as [buf Eb]. pose proof (G2 _ _ Eb) as Lb.
  pose proof (dinode_off_fits inum) as Ho. pose proof (length_put_dinode buf (dinode_off inum) di ltac:(lia) (td_len _ T)) as Lp.
  unfold winode, rsect. rewrite Eb. cbn [mbind option_bind]. eexists. split; [done|].
  assert (Hkeep : forall b, ~ 32 <= b < 58 -> mk_img (wsect (IBLOCK inum sb) (put_dinode buf (dinode_off inum) di) st) !! b = mk_img st !! b).
  { intros b Hne. apply lookup_insert_ne. intros <-. lia. }
  split_and!; try done.
  - split; cbn [mk_freeblock wsect]; try done.
    + intros b. cbn [mk_img wsect]. destruct (decide (b = IBLOCK inum sb)) as [->|]; [rewrite lookup_insert_eq; split; [lia|eauto]|by rewrite lookup_insert_ne].
    + intros b d. cbn [mk_img wsect]. destruct (decide (b = IBLOCK inum sb)) as [->|]; [rewrite lookup_insert_eq; intros [= <-]; lia|rewrite lookup_insert_ne by done; apply G2].
    + intros j g Hg. apply (ifile_ext (mk_img st)); [|by eapply G4]. intros b Hbo. apply Hkeep. pose proof (G5 _ _ _ Hg Hbo). lia.
    + intros b Hz. rewrite Hkeep by lia. by apply G9.
  - unfold rinode, rsect. cbn [mk_img wsect]. rewrite lookup_insert_eq. cbn [mbind option_bind]. f_equal. apply dinode_at_put_dinode; [lia|done].
  - intros inum' Hn' Hne. unfold rinode, rsect. cbn [mk_img wsect].
    destruct (other_inode inum inum' Hn Hn' ltac:(done)) as [Hb'|Ho']; [by rewrite lookup_insert_ne by done|].
    destruct (decide (IBLOCK inum sb = IBLOCK inum' sb)) as [Es|Hb']; [|by rewrite lookup_insert_ne by done].
    rewrite <- Es, lookup_insert_eq, Eb. cbn [mbind option_bind]. f_equal. apply dinode_at_slice.
    apply slice_put_dinode; [lia|apply T|lia].
Qed.

(** The inode of the file is complete. *)
Record whole (f : mfile) : Prop := {
  wh_type : di_type (f_di f) = T_DIR \/ di_type (f_di f) = T_FILE;
  wh_dev : di_major (f_di f) = 0 /\ di_minor (f_di f) = 0;
  wh_nlink : di_nlink (f_di f) = 1;
  wh_size : di_size (f_di f) = Z.of_nat (length (f_data f));
  wh_len : length (f_bl f) = nb (length (f_data f))
}.

(** Between the calls of main: inode [i + 1] is that of file [i]. *)
Record mk_ok (st : mkst) (fs : list mfile) : Prop := {
  mo_good : good st fs;
  mo_inodes : forall i f, fs !! i = Some f -> rinode (Z.of_nat i + 1) st = Some (f_di f) /\ whole f;
  mo_count : mk_freeinode st = Z.of_nat (length fs) + 1;
  mo_few : (length fs <= 199)%nat;
  mo_sb : mk_img st !! 1 = Some sb_sector
}.

Lemma addr_range st fs i f : good st fs -> fs !! i = Some f -> Forall in_u32 (di_addrs (f_di f)).
Proof.
  intros G Hi. pose proof (g_files _ _ G _ _ Hi) as Hf. pose proof (g_free _ _ G).
  assert (Ho : forall b, b ∈ owned f -> in_u32 b) by (intros b Hb; pose proof (g_own _ _ G _ _ _ Hi Hb); unfold in_u32; lia).
  rewrite (if_addrs _ _ Hf), !Forall_app. split_and!.
  - apply Forall_forall. intros b Hb. apply Ho, owned_bl. by eapply subseteq_take.
  - apply Forall_replicate. unfold in_u32. lia.
  - apply Forall_singleton. destruct (decide (length (f_bl f) <= 12)%nat) as [Hl|Hl].
    + rewrite (if_none _ _ Hf Hl). unfold in_u32. lia.
    + apply Ho, owned_ind. lia.
Qed.

Lemma bl_max st fs i f : good st fs -> fs !! i = Some f -> (length (f_bl f) <= 140)%nat.
Proof. intros G Hi. apply (if_max _ _ (g_files _ _ G _ _ Hi)). Qed.

Lemma nb_ge n : (n <= 512 * nb n)%nat.
Proof. unfold nb. pose proof (Nat.div_mod_eq (n + 511) 512). pose proof (Nat.mod_upper_bound (n + 511) 512 ltac:(lia)). lia. Qed.

Lemma typed_whole st fs i f : good st fs -> fs !! i = Some f -> whole f -> typed_dinode (f_di f).
Proof.
  intros G Hi [W1 [W2 W3] W4 W5 W6]. pose proof (bl_max _ _ _ _ G Hi). pose proof (nb_ge (length (f_data f))).
  split; rewrite ?W2, ?W3, ?W4, ?W5; [destruct W1 as [->| ->]|..]; try (unfold in_s16, in_u32, T_DIR, T_FILE; lia).
  - by eapply addrs_len, g_files.
  - by eapply addr_range.
Qed.

Lemma ok_new_inode st fs i f st' f' :
  mk_ok st fs -> fs !! i = Some f -> good st' (<[i := f']> fs) -> whole f' ->
  (forall b, b < 59 -> mk_img st' !! b = mk_img st !! b) -> mk_freeinode st' = mk_freeinode st ->
  exists st'', winode (Z.of_nat i + 1) (f_di f') st' = Some st'' /\ mk_ok st'' (<[i := f']> fs) /\ mk_freeblock st'' = mk_freeblock st'.
Proof.
  intros [G HI Hc Hf Hsb] Hi G' W Hm Hfi. pose proof (lookup_lt_Some _ _ _ Hi) as Hlt.
  assert (Hi' : <[i := f']> fs !! i = Some f') by (by apply list_lookup_insert_eq).
  pose proof (typed_whole _ _ _ _ G' Hi' W) as T.
  destruct (winode_run st' _ (Z.of_nat i + 1) (f_di f') G' ltac:(lia) T) as (st'' & Ew & G'' & Er & Ero & Efi & Efb & Eb).
  exists st''. split_and!; [done| |done]. split; try done.
  - intros j g. destruct (decide (j = i)) as [->|Hne].
    + rewrite Hi'. intros [= <-]. done.
    + rewrite list_lookup_insert_ne by done. intros Hg. destruct (HI j g Hg) as [Er' W']. split; [|done].
      pose proof (lookup_lt_Some _ _ _ Hg). rewrite Ero by lia. rewrite <- Er'. unfold rinode, rsect.
      by rewrite Hm by (destruct (IBLOCK_sb (Z.of_nat j + 1) ltac:(lia)); lia).
  - rewrite length_insert, Efi, Hfi. done.
  - by rewrite length_insert.
  - rewrite Eb, Hm by lia. done.
Qed.

Lemma iappend_run st fs i f p :
  mk_ok st fs -> fs !! i = Some f -> (nb (length (f_data f) + length p) <= 140)%nat ->
  mk_freeblock st + cost (nb (length (f_data f) + length p)) - cost (nb (length (f_data f))) <= 1000 ->
  exists st' f', iappend (Z.of_nat i + 1) p st = Some st' /\ mk_ok st' (<[i := f']> fs) /\
    f_data f' = f_data f ++ p /\ di_type (f_di f') = di_type (f_di f) /\
    mk_freeblock st' = mk_freeblock st + cost (nb (length (f_data f) + length p)) - cost (nb (length (f_data f))).
Proof.
  intros O Hi Hmax Hroom. pose proof O as [G HI Hc Hfew Hsb]. destruct (HI i f Hi) as [Er [W1 W2 W3 W4 W5]].
  destruct (iappend_from_run (length p) p st fs i f G Hi W5 ltac:(lia) Hmax Hroom) as (st1 & f1 & E1 & [A1 A2 A3 A4 A5 A6 A7]).
  pose proof (nb_ge (length (f_data f) + length p)) as Hge.
  set (f' := MkFile (set_size (Z.of_nat (length (f_data f1))) (f_di f1)) (f_bl f1) (f_ind f1) (f_data f1)).
  assert (G' : good st1 (<[i := f']> fs)).
  { pose proof (lookup_lt_Some _ _ _ Hi) as Hlt. rewrite <- (list_insert_insert_eq fs i f' f1).
    destruct st1 as [img1 fi1 fb1]. pose proof A1 as [? ? ? ? ? ? ? ? ?]. cbn [mk_img mk_freeblock mk_freeinode] in *.
    apply (good_step (Mkst img1 fi1 fb1) _ i f1 f' img1 fb1); cbn [mk_img mk_freeblock mk_freeinode]; try done; try lia.
    - by apply list_lookup_insert_eq.
    - destruct (g_files _ _ A1 i f1) as [? ? ? ? ?]; [by apply list_lookup_insert_eq|]. by split.
    - intros b. change (owned f') with (owned f1). intuition lia.
    - change (owned f') with (owned f1). eapply (g_nodup _ _ A1 i). by apply list_lookup_insert_eq. }
  assert (Ed : f_data f' = f_data f ++ p) by done.
  destruct (ok_new_inode st fs i f st1 f' O Hi G') as (st' & Ew & O' & Efb); try done.
  { split; cbn [f' f_di f_data f_bl set_size di_type di_major di_minor di_nlink di_size]; first [done|rewrite A2; done]. }
  exists st', f'. rewrite A3, length_app in A6. split_and!; try done.
  - unfold iappend. rewrite Er. cbn [mbind option_bind]. rewrite W4, xint_small by (unfold in_u32; lia). rewrite E1. cbn [mbind option_bind].
    rewrite xint_small by (rewrite A3, length_app; unfold in_u32; lia). exact Ew.
  - cbn [f' f_di set_size di_type]. by rewrite A2.
  - lia.
Qed.

(** ** New inodes *)

Definition empty_file (type : Z) : mfile := MkFile (Dinode type 0 0 1 0 (replicate 13 0)) [] 0 [].

Lemma owned_empty type b : b ∉ owned (empty_file type).
Proof. apply not_elem_of_nil. Qed.

Lemma good_snoc st fs type fi : good st fs -> good (Mkst (mk_img st) fi (mk_freeblock st)) (fs ++ [empty_file type]).
Proof.
  intros [G1 G2 G3 G4 G5 G6 G7 G8 G9].
  assert (Hin : forall j g, (fs ++ [empty_file type]) !! j = Some g -> fs !! j = Some g \/ g = empty_file type).
  { intros j g [?|[? Hg]]%lookup_app_Some; [by left|right]. by apply list_lookup_singleton_Some in Hg as [_ <-]. }
  split; cbn [mk_img mk_freeblock]; try done.
  - intros j g [Hg| ->]%Hin; [by eapply G4|]. split; cbn; try done; lia.
  - intros j g b [Hg| ->]%Hin Hb; [by eapply G5|by apply owned_empty in Hb].
  - intros j1 j2 g1 g2 b [Hg1| ->]%Hin [Hg2| ->]%Hin Hb1 Hb2; try (by apply owned_empty in Hb1); try (by apply owned_empty in Hb2). by eapply G6.
  - intros j g [Hg| ->]%Hin; [by eapply G7|apply NoDup_nil_2].
  - intros b Hb. destruct (G8 b Hb) as (j & g & Hg & ?). exists j, g. split; [|done]. by apply lookup_app_l_Some.
Qed.

Lemma ialloc_run st fs type :
  mk_ok st fs -> (length fs < 199)%nat -> type = T_DIR \/ type = T_FILE ->
  exists st', mk_ialloc type st = Some (Z.of_nat (length fs) + 1, st') /\ mk_ok st' (fs ++ [empty_file type]) /\
    mk_freeblock st' = mk_freeblock st.
Proof.
  intros [G HI Hc Hfew Hsb] Hl Ht. unfold mk_ialloc. rewrite Hc.
  assert (Ed : Dinode (xshort type) 0 0 (xshort 1) (xint 0) (replicate 13 0) = f_di (empty_file type)) by (by destruct Ht as [-> | ->]).
  rewrite Ed, u32_small by (unfold in_u32; lia).
  assert (T : typed_dinode (f_di (empty_file type))).
  { split; cbn; try done; destruct Ht as [-> | ->]; unfold in_s16, T_DIR, T_FILE; try lia; by apply (Forall_replicate in_u32 13 0). }
  destruct (winode_run _ _ (Z.of_nat (length fs) + 1) _ (good_snoc st fs type (Z.of_nat (length fs) + 1 + 1) G) ltac:(lia) T)
    as (st' & Ew & G' & Er & Ero & Efi & Efb & Eb).
  rewrite Ew. cbn [mbind option_bind]. exists st'. split_and!; [done| |done]. split; [done| | | |].
  - intros j g [Hg|[Hj Hg]]%lookup_app_Some.
    + destruct (HI j g Hg) as [Er' W]. split; [|done]. pose proof (lookup_lt_Some _ _ _ Hg). rewrite Ero by lia. exact Er'.
    + apply list_lookup_singleton_Some in Hg as [Hj' <-]. replace j with (length fs) by lia. split; [done|]. by split.
  - rewrite Efi, length_app. cbn [mk_freeinode length]. lia.
  - rewrite length_app. cbn [length]. lia.
  - rewrite Eb by lia. done.
Qed.

(** The image of an empty file system. *)
Lemma zero_image_run n :
  mk_freeinode (zero_image n) = 1 /\ mk_freeblock (zero_image n) = 59 /\
  forall b, mk_img (zero_image n) !! b = if decide (0 <= b < Z.of_nat n) then Some zeroes else None.
Proof.
  unfold zero_image. induction n as [|n IH]; [split_and!; [done|done|]; intros b; by rewrite decide_False by lia|].
  unfold upto in *. rewrite seq_S, foldl_app. cbn [foldl Nat.add]. destruct IH as (E1 & E2 & E3). split_and!; [done|done|].
  intros b. cbn [wsect mk_img]. destruct (decide (b = Z.of_nat n)) as [->|Hne].
  - rewrite lookup_insert_eq. by rewrite decide_True by lia.
  - rewrite lookup_insert_ne by done. rewrite E3. repeat case_decide; done || lia.
Qed.

Lemma start_ok : mk_ok mk_start [] /\ mk_freeblock mk_start = 59.
Proof.
  unfold mk_start. destruct (zero_image_run (Z.to_nat FSSIZE)) as (E1 & E2 & E3). generalize dependent (zero_image (Z.to_nat FSSIZE)).
  intros [img fi fb] E1 E2 E3. cbn [mk_img mk_freeinode mk_freeblock] in *. subst fi fb. change (Z.of_nat (Z.to_nat FSSIZE)) with 1000 in E3.
  assert (Ld : length sb_sector = 512%nat) by reflexivity. unfold wsect. cbn [mk_img mk_freeinode mk_freeblock].
  split; [|done]. split; [|by intros|done|cbn; lia|apply lookup_insert_eq].
  split; cbn [mk_img mk_freeblock]; try by intros.
  - intros b. destruct (decide (b = 1)) as [->|]; [rewrite lookup_insert_eq; split; [lia|eauto]|].
    rewrite lookup_insert_ne, E3 by done. case_decide; split; eauto; [by intros [? ?]|lia].
  - intros b d. destruct (decide (b = 1)) as [->|]; [rewrite lookup_insert_eq; by intros [= <-]|].
    rewrite lookup_insert_ne, E3 by done. case_decide; [by intros [= <-]|done].
  - lia.
  - intros b Hb. rewrite lookup_insert_ne, E3, decide_True by lia. done.
Qed.

(** ** The files of the command line *)

(** The sectors that [n] bytes take. *)
Definition fcost (n : nat) : Z := cost (nb n).

Lemma fcost_le n m : (n <= m)%nat -> fcost n <= fcost m.
Proof. intros H. apply cost_le, nb_le, H. Qed.

Lemma append_all_run i reads : forall st fs f,
  mk_ok st fs -> fs !! i = Some f -> (nb (length (f_data f) + length (concat reads)) <= 140)%nat ->
  mk_freeblock st + fcost (length (f_data f) + length (concat reads)) - fcost (length (f_data f)) <= 1000 ->
  exists st' f', append_all (Z.of_nat i + 1) reads st = Some st' /\ mk_ok st' (<[i := f']> fs) /\
    f_data f' = f_data f ++ concat reads /\ di_type (f_di f') = di_type (f_di f) /\
    mk_freeblock st' = mk_freeblock st + fcost (length (f_data f) + length (concat reads)) - fcost (length (f_data f)).
Proof.
  induction reads as [|buf reads IH]; intros st fs f O Hi Hmax Hroom; cbn [concat append_all] in *.
  - exists st, f. rewrite list_insert_id, app_nil_r, Nat.add_0_r by done. split_and!; try done. lia.
  - rewrite length_app in *. pose proof (nb_le (length (f_data f) + length buf) (length (f_data f) + (length buf + length (concat reads))) ltac:(lia)) as Hnb.
    pose proof (fcost_le (length (f_data f) + length buf) (length (f_data f) + (length buf + length (concat reads))) ltac:(lia)) as Hfc.
    destruct (iappend_run st fs i f buf O Hi ltac:(lia) ltac:(unfold fcost in *; lia)) as (st1 & f1 & E1 & O1 & D1 & T1 & B1).
    rewrite E1. cbn [mbind option_bind]. assert (L1 : length (f_data f1) = (length (f_data f) + length buf)%nat) by (rewrite D1; apply length_app).
    destruct (IH st1 (<[i := f1]> fs) f1 O1) as (st2 & f2 & E2 & O2 & D2 & T2 & B2).
    { apply list_lookup_insert_eq. by eapply lookup_lt_Some. } { rewrite L1, <- Nat.add_assoc. done. }
    { rewrite L1, <- Nat.add_assoc, B1. unfold fcost in *. lia. }
    exists st2, f2. rewrite list_insert_insert_eq in O2. split_and!; try done; [by rewrite D2, D1, <- app_assoc|by rewrite T2|].
    rewrite B2, B1, L1, <- Nat.add_assoc. unfold fcost. lia.
Qed.

(** Its name in the root directory, and its bytes. *)
Definition hname (f : host_file) : list Z := match f.1 with 95 :: name => name | _ => f.1 end.
Definition hbytes (f : host_file) : list Z := concat (default [] f.2).

(** It can be read, and its name has no slash. *)
Definition host_ok (f : host_file) : Prop := 47 ∉ f.1 /\ is_Some f.2 /\ (nb (length (hbytes f)) <= 140)%nat.

Lemma length_mk_dirent inum name : length (mk_dirent inum name) = 16%nat.
Proof. unfold mk_dirent. rewrite length_app, length_le_split, length_take, length_app, length_replicate. lia. Qed.

Lemma add_file_run st root done f :
  mk_ok st (root :: done) -> host_ok f -> (length done < 198)%nat -> (nb (length (f_data root) + 16) <= 140)%nat ->
  mk_freeblock st + (fcost (length (f_data root) + 16) - fcost (length (f_data root))) + fcost (length (hbytes f)) <= 1000 ->
  exists st' root' f', add_file 1 f st = Some st' /\ mk_ok st' (root' :: done ++ [f']) /\
    f_data root' = f_data root ++ mk_dirent (Z.of_nat (length done) + 2) (hname f) /\ di_type (f_di root') = di_type (f_di root) /\
    f_data f' = hbytes f /\ di_type (f_di f') = T_FILE /\
    mk_freeblock st' = mk_freeblock st + (fcost (length (f_data root) + 16) - fcost (length (f_data root))) + fcost (length (hbytes f)).
Proof.
  intros O (Hn & [reads Hr] & Hmax) Hl Hrmax Hroom. destruct f as [name opened]. cbn [fst snd] in *. subst opened.
  assert (Hc : 0 <= fcost (length (hbytes (name, Some reads)))) by (unfold fcost, cost; case_decide; lia).
  unfold add_file. rewrite decide_False by done. cbn [mbind option_bind].
  destruct (ialloc_run st (root :: done) T_FILE O ltac:(cbn; lia) ltac:(by right)) as (st1 & E1 & O1 & B1).
  rewrite E1. cbn [mbind option_bind length]. fold (hname (name, Some reads)). cbn [app] in O1.
  replace (Z.of_nat (S (length done)) + 1) with (Z.of_nat (length done) + 2) by lia.
  set (de := mk_dirent _ _). assert (Lde : length de = 16%nat) by apply length_mk_dirent.
  change (iappend 1 de st1) with (iappend (Z.of_nat 0 + 1) de st1).
  destruct (iappend_run st1 _ 0 root de O1 eq_refl ltac:(rewrite Lde; lia) ltac:(rewrite Lde, B1; fold (fcost (length (f_data root) + 16)) (fcost (length (f_data root))); lia))
    as (st2 & root' & E2 & O2 & D2 & T2 & B2).
  rewrite E2. cbn [mbind option_bind]. cbn [insert list_insert] in O2. rewrite Lde in B2. fold (fcost (length (f_data root) + 16)) (fcost (length (f_data root))) in B2.
  replace (Z.of_nat (length done) + 2) with (Z.of_nat (S (length done)) + 1) by lia.
  destruct (append_all_run (S (length done)) reads st2 _ (empty_file T_FILE) O2) as (st3 & f' & E3 & O3 & D3 & T3 & B3).
  { exact (list_lookup_middle done [] (empty_file T_FILE) _ eq_refl). } { exact Hmax. } { cbn [empty_file f_data length Nat.add]. change (fcost 0) with 0. rewrite B2, B1. unfold hbytes in *. cbn [default from_option id snd] in *. lia. }
  assert (El : <[S (length done) := f']> (root' :: done ++ [empty_file T_FILE]) = root' :: done ++ [f']).
  { change (root' :: <[length done := f']> (done ++ [empty_file T_FILE]) = root' :: done ++ [f']).
    rewrite <- (Nat.add_0_r (length done)) at 1. by rewrite insert_app_r. }
  rewrite El in O3. exists st3, root', f'.
  split_and!; try done. rewrite B3, B2, B1. cbn [empty_file f_data length Nat.add]. change (fcost 0) with 0. unfold hbytes. cbn [default from_option id snd]. lia.
Qed.

(** The entries of the root directory for the files, whose inodes have the numbers from [n] on. *)
Fixpoint entries (n : Z) (hs : list host_file) : list (list Z) :=
  match hs with
  | [] => []
  | h :: hs => mk_dirent n (hname h) :: entries (n + 1) hs
  end.

Fixpoint total (hs : list host_file) : Z :=
  match hs with
  | [] => 0
  | h :: hs => fcost (length (hbytes h)) + total hs
  end.

Lemma total_nonneg hs : 0 <= total hs.
Proof. induction hs as [|h hs IH]; cbn [total]; [lia|]. unfold fcost at 1, cost. case_decide; lia. Qed.

Lemma length_entries n hs : length (concat (entries n hs)) = (16 * length hs)%nat.
Proof. revert n. induction hs as [|h hs IH]; intros n; cbn [entries concat length]; [done|]. rewrite length_app, length_mk_dirent, IH. lia. Qed.

Lemma add_files_run hs : forall st root done,
  mk_ok st (root :: done) -> Forall host_ok hs -> (length done + length hs <= 198)%nat ->
  (nb (length (f_data root) + 16 * length hs) <= 140)%nat ->
  mk_freeblock st + (fcost (length (f_data root) + 16 * length hs) - fcost (length (f_data root))) + total hs <= 1000 ->
  exists st' root' new, add_files 1 hs st = Some st' /\ mk_ok st' (root' :: done ++ new) /\
    f_data root' = f_data root ++ concat (entries (Z.of_nat (length done) + 2) hs) /\ di_type (f_di root') = di_type (f_di root) /\
    Forall2 (fun h f => f_data f = hbytes h /\ di_type (f_di f) = T_FILE) hs new /\
    mk_freeblock st' = mk_freeblock st + (fcost (length (f_data root) + 16 * length hs) - fcost (length (f_data root))) + total hs.
Proof.
  induction hs as [|h hs IH]; intros st root done O Hok Hlen Hmax Hroom; cbn [add_files entries total length] in *.
  { exists st, root, []. rewrite !app_nil_r, Nat.mul_0_r, Nat.add_0_r. split_and!; try done. lia. }
  apply Forall_cons in Hok as [Hh Hok]. pose proof (total_nonneg hs) as Ht. set (rl := length (f_data root)) in *.
  replace (rl + 16 * S (length hs))%nat with (rl + 16 + 16 * length hs)%nat in * by lia.
  pose proof (fcost_le (rl + 16) (rl + 16 + 16 * length hs) ltac:(lia)) as Hf. pose proof (nb_le (rl + 16) (rl + 16 + 16 * length hs) ltac:(lia)) as Hn.
  destruct (add_file_run st root done h O Hh ltac:(lia) ltac:(fold rl; lia) ltac:(fold rl; lia)) as (st1 & root1 & f1 & E1 & O1 & D1 & T1 & Df & Tf & B1).
  fold rl in B1. rewrite E1. cbn [mbind option_bind].
  assert (L1 : length (f_data root1) = (rl + 16)%nat) by (by rewrite D1, length_app, length_mk_dirent).
  destruct (IH st1 root1 (done ++ [f1]) O1 Hok) as (st2 & root2 & new & E2 & O2 & D2 & T2 & F2 & B2).
  { rewrite length_app. cbn [length]. lia. } { by rewrite L1. } { rewrite L1, B1. lia. }
  exists st2, root2, (f1 :: new). rewrite <- app_assoc in O2. split_and!; try done; [|by rewrite T2|by constructor|rewrite B2, B1, L1; lia].
  rewrite D2, D1, <- app_assoc, length_app. cbn [length concat]. do 3 f_equal. f_equal. lia.
Qed.

(** ** The bitmap *)

Lemma mark_used_all n : (n <= 4096)%nat ->
  let d := foldl (fun buf i => mark_used i buf) zeroes (upto n) in
  length d = 512%nat /\ forall b, bit_set d b = bool_decide (b < n)%nat.
Proof.
  induction n as [|n IH]; intros Hn; cbn zeta in *.
  - split; [done|]. intros b. unfold bit_set, zeroes. cbn [upto seq foldl].
    destruct (decide (b / 8 < 512)%nat); [rewrite lookup_replicate_2 by done|rewrite lookup_ge_None_2 by (rewrite length_replicate; lia)]; apply Z.bits_0.
  - unfold upto in *. rewrite seq_S, foldl_app. cbn [foldl Nat.add]. destruct (IH ltac:(lia)) as [Ld Hd]. split.
    + unfold mark_used at 1. by rewrite length_alter.
    + intros b. rewrite bit_set_used, Hd by (rewrite Ld; apply Nat.Div0.div_lt_upper_bound; lia).
      repeat case_bool_decide; done || lia.
Qed.

(** ** The image *)

(** The inode [inum] of the image, with the bytes [data] in sectors among [bl]. *)
Definition image_has (img : gmap Z (list Z)) (inum type size : Z) (data bl : list Z) : Prop :=
  exists buf, img !! IBLOCK inum sb = Some buf /\ let di := dinode_at buf (dinode_off inum) in
    di_type di = type /\ di_nlink di = 1 /\ di_size di = size /\
    forall x v, data !! x = Some v -> exists b d, img_bmap img di (x / 512) = Some b /\ b ∈ bl /\
      img !! b = Some d /\ d !! (x `mod` 512)%nat = Some v.

(** Every sector from [lo] to [hi] is in exactly one of the lists. *)
Definition partition (lo hi : Z) (bls : list (list Z)) : Prop :=
  (forall b, lo <= b < hi <-> exists i bl, bls !! i = Some bl /\ b ∈ bl) /\
  (forall i j bl bl' b, bls !! i = Some bl -> bls !! j = Some bl' -> b ∈ bl -> b ∈ bl' -> i = j).

Lemma ifile_read img f di x v :
  ifile img f -> length (f_bl f) = nb (length (f_data f)) -> di_addrs di = di_addrs (f_di f) -> f_data f !! x = Some v ->
  exists b d, img_bmap img di (x / 512) = Some b /\ b ∈ owned f /\ img !! b = Some d /\ d !! (x `mod` 512)%nat = Some v.
Proof.
  intros Hf Hl Ha Hx. pose proof (lookup_lt_Some _ _ _ Hx) as Hlt. pose proof (nb_ge (length (f_data f))) as Hge. rewrite <- Hl in Hge.
  pose proof (Nat.div_mod_eq x 512) as Hd. pose proof (Nat.mod_upper_bound x 512 ltac:(lia)) as Hm.
  destruct (lookup_lt_is_Some_2 (f_bl f) (x / 512) ltac:(lia)) as [b Hb].
  destruct (if_data _ _ Hf _ _ Hb) as (d & Ed & Ld & He). exists b, d. split_and!; [|by eapply owned_bl, list_elem_of_lookup_2|done|].
  - rewrite <- (img_bmap_run _ _ Hf _ _ Hb). unfold img_bmap. by rewrite Ha.
  - rewrite He by lia. by rewrite <- Hd.
Qed.

Lemma good_partition st fs : good st fs -> partition 59 (mk_freeblock st) (owned <$> fs).
Proof.
  intros G. split.
  - intros b. split.
    + intros Hb. destruct (g_cover _ _ G b Hb) as (i & f & Hi & Hf). exists i, (owned f). by rewrite list_lookup_fmap, Hi.
    + intros (i & bl & Hi & Hb). rewrite list_lookup_fmap in Hi. destruct (fs !! i) as [f|] eqn:E; [|done]. injection Hi as <-. by eapply g_own.
  - intros i j bl bl' b Hi Hj Hb Hb'. rewrite list_lookup_fmap in Hi, Hj. destruct (fs !! i) as [f|] eqn:E; [|done]. destruct (fs !! j) as [g|] eqn:E'; [|done].
    injection Hi as <-. injection Hj as <-. by eapply g_sep.
Qed.

(** The entries of the root directory. *)
Definition root_bytes (hs : list host_file) : list Z := concat (mk_dirent 1 (chars ".") :: mk_dirent 1 (chars "..") :: entries 2 hs).

Lemma length_root_bytes hs : length (root_bytes hs) = (32 + 16 * length hs)%nat.
Proof. unfold root_bytes. cbn [concat]. rewrite !length_app, !length_mk_dirent, length_entries. lia. Qed.

(** main up to the correction of the root directory. *)
Lemma mkfs_files hs :
  Forall host_ok hs -> (length hs <= 198)%nat -> 59 + fcost (32 + 16 * length hs) + total hs <= 1000 ->
  exists st root new, (
    '(rootino, st) ← mk_ialloc T_DIR mk_start;
    if negb (rootino =? ROOTINO) then None else
    st ← iappend rootino (mk_dirent rootino (chars ".")) st;
    st ← iappend rootino (mk_dirent rootino (chars "..")) st;
    add_files rootino hs st) = Some st /\
    mk_ok st (root :: new) /\ f_data root = root_bytes hs /\ di_type (f_di root) = T_DIR /\
    Forall2 (fun h f => f_data f = hbytes h /\ di_type (f_di f) = T_FILE) hs new /\
    mk_freeblock st = 59 + fcost (32 + 16 * length hs) + total hs.
Proof.
  intros Hok Hlen Hroom. pose proof (total_nonneg hs) as Ht.
  assert (Hnb : (nb (32 + 16 * length hs) <= 140)%nat) by (pose proof (nb_le (32 + 16 * length hs) 3200 ltac:(lia)); change (nb 3200) with 7%nat in *; lia).
  destruct start_ok as [O0 B0].
  destruct (ialloc_run mk_start [] T_DIR O0 ltac:(cbn; lia) ltac:(by left)) as (st1 & E1 & O1 & B1). rewrite E1. cbn [mbind option_bind length].
  change (Z.of_nat 0 + 1) with 1. cbn [app] in O1. change (negb (1 =? ROOTINO)) with false. cbn match.
  change (iappend 1 ?p st1) with (iappend (Z.of_nat 0 + 1) p st1).
  destruct (iappend_run st1 _ 0 (empty_file T_DIR) (mk_dirent 1 (chars ".")) O1 eq_refl) as (st2 & r2 & E2 & O2 & D2 & T2 & B2);
    [rewrite length_mk_dirent; vm_compute; lia|rewrite length_mk_dirent, B1, B0; by vm_compute|].
  rewrite E2. cbn [mbind option_bind]. cbn [insert list_insert] in O2.
  assert (L2 : length (f_data r2) = 16%nat) by (rewrite D2; apply length_mk_dirent).
  change (iappend 1 ?p st2) with (iappend (Z.of_nat 0 + 1) p st2).
  destruct (iappend_run st2 _ 0 r2 (mk_dirent 1 (chars "..")) O2 eq_refl) as (st3 & r3 & E3 & O3 & D3 & T3 & B3);
    [rewrite length_mk_dirent, L2; vm_compute; lia|rewrite length_mk_dirent, L2, B2, length_mk_dirent, B1, B0; by vm_compute|].
  rewrite E3. cbn [mbind option_bind]. cbn [insert list_insert] in O3.
  assert (L3 : length (f_data r3) = 32%nat) by (by rewrite D3, length_app, L2, length_mk_dirent).
  assert (B3' : mk_freeblock st3 = 60) by (rewrite B3, length_mk_dirent, L2, B2, length_mk_dirent, B1, B0; reflexivity).
  assert (Hr : mk_freeblock st3 + (fcost (length (f_data r3) + 16 * length hs) - fcost (length (f_data r3))) + total hs <= 1000).
  { rewrite L3, B3'. change (fcost 32) with 1. lia. }
  assert (Hnb' : (nb (length (f_data r3) + 16 * length hs) <= 140)%nat) by (rewrite L3; exact Hnb).
  destruct (add_files_run hs st3 r3 [] O3 Hok Hlen Hnb' Hr) as (st & root & new & E & O & D & T & F & B).
  exists st, root, new. split_and!; [exact E|exact O| | |exact F|].
  - rewrite D, D3, D2. unfold root_bytes. cbn [concat empty_file f_data app length]. by rewrite <- app_assoc.
  - by rewrite T, T3, T2.
  - rewrite B, L3, B3'. change (fcost 32) with 1. lia.
Qed.

(** A file of the state is in an image with the same data sectors. *)
Lemma has_file st fs i f img inum di :
  good st fs -> fs !! i = Some f -> whole f -> (forall b, 59 <= b -> img !! b = mk_img st !! b) ->
  (exists buf, img !! IBLOCK inum sb = Some buf /\ dinode_at buf (dinode_off inum) = di) ->
  di_addrs di = di_addrs (f_di f) -> di_nlink di = 1 ->
  image_has img inum (di_type di) (di_size di) (f_data f) (owned f).
Proof.
  intros G Hi W Hs (buf & Eb & Ed) Ha Hn. exists buf. split; [done|]. cbn zeta. rewrite Ed. split_and!; try done.
  intros x v Hx. apply (ifile_read img f di x v); try done; [|apply W]. apply (ifile_ext (mk_img st)); [|by eapply g_files].
  intros b Hb. apply Hs. pose proof (g_own _ _ G _ _ _ Hi Hb). lia.
Qed.

(** The correction of the root directory, and the bitmap. *)
Lemma mkfs_end st root new :
  mk_ok st (root :: new) ->
  let size := 512 * (Z.of_nat (length (f_data root)) / 512 + 1) in
  exists img bm, (
    din ← rinode 1 st;
    let off := xint (di_size din) in
    let off := u32 ((off / BSIZE + 1) * BSIZE) in
    st ← winode 1 (set_size (xint off) din) st;
    st ← mk_balloc (mk_freeblock st) st;
    Some (mk_img st)) = Some img /\
    (forall b, 59 <= b -> img !! b = mk_img st !! b) /\ img !! 1 = Some sb_sector /\
    img !! 58 = Some bm /\ (forall b, bit_set bm b = bool_decide (Z.of_nat b < mk_freeblock st)) /\ length bm = 512%nat /\
    (exists buf, img !! IBLOCK 1 sb = Some buf /\ dinode_at buf (dinode_off 1) = set_size size (f_di root)) /\
    (forall i f, new !! i = Some f -> exists buf, img !! IBLOCK (Z.of_nat i + 2) sb = Some buf /\
      dinode_at buf (dinode_off (Z.of_nat i + 2)) = f_di f).
Proof.
  intros O size. pose proof O as [G HI Hc Hfew Hsb]. destruct (HI 0%nat root eq_refl) as [Er W]. change (Z.of_nat 0 + 1) with 1 in Er.
  pose proof (typed_whole _ _ 0 root G eq_refl W) as T. pose proof (g_free _ _ G) as Hfree.
  assert (Hlen : (length (f_data root) <= 512 * 140)%nat).
  { pose proof (nb_ge (length (f_data root))). pose proof (bl_max _ _ 0 root G eq_refl). rewrite (wh_len _ W) in *. lia. }
  assert (Hsz : 0 < size <= 512 * 141).
  { unfold size. pose proof (Z.div_pos (Z.of_nat (length (f_data root))) 512 ltac:(lia) ltac:(lia)).
    pose proof (Z.div_le_upper_bound (Z.of_nat (length (f_data root))) 512 140 ltac:(lia) ltac:(lia)). lia. }
  rewrite Er. cbn [mbind option_bind]. rewrite (wh_size _ W), (xint_small (Z.of_nat _)) by (unfold in_u32; lia).
  replace (xint (u32 ((Z.of_nat (length (f_data root)) / BSIZE + 1) * BSIZE))) with size
    by (change BSIZE with 512; replace ((_ + 1) * 512) with size by (unfold size; lia); rewrite u32_small, xint_small by (unfold in_u32; lia); done).
  destruct (winode_run st _ 1 (set_size size (f_di root)) G ltac:(lia)) as (st1 & E1 & G1 & Er1 & Ero & _ & Efb & Eb).
  { destruct T. split; try done. cbn. unfold in_u32. lia. }
  rewrite E1. cbn [mbind option_bind]. unfold mk_balloc. rewrite Efb. replace (mk_freeblock st <? BSIZE * 8) with true by (change BSIZE with 512; lia).
  cbn [negb mbind option_bind]. destruct (mark_used_all (Z.to_nat (mk_freeblock st)) ltac:(lia)) as [Lb Hb]. set (bm := foldl _ _ _) in *.
  exists (<[58 := bm]> (mk_img st1)), bm. split_and!; [done| | |apply lookup_insert_eq| |done| |].
  - intros b Hb'. rewrite lookup_insert_ne by lia. apply Eb. lia.
  - rewrite lookup_insert_ne by lia. rewrite Eb by lia. done.
  - intros b. rewrite Hb. apply bool_decide_ext. lia.
  - unfold rinode, rsect in Er1. destruct (IBLOCK_sb 1 ltac:(lia)) as [_ Hr]. rewrite lookup_insert_ne by lia.
    destruct (mk_img st1 !! IBLOCK 1 sb) as [buf|]; [|done]. exists buf. split; [done|]. exact (f_equal (default dinode0) Er1).
  - intros i f Hi. destruct (HI (S i) f Hi) as [Er' _]. pose proof (lookup_lt_Some _ _ _ Hi). cbn [length] in Hfew.
    replace (Z.of_nat (S i) + 1) with (Z.of_nat i + 2) in Er' by lia. rewrite <- Ero in Er' by lia. unfold rinode, rsect in Er'.
    destruct (IBLOCK_sb (Z.of_nat i + 2) ltac:(lia)) as [_ Hr]. rewrite lookup_insert_ne by lia.
    destruct (mk_img st1 !! IBLOCK (Z.of_nat i + 2) sb) as [buf|]; [|done]. exists buf. split; [done|]. exact (f_equal (default dinode0) Er').
Qed.

(** C5.  mkfs makes an image of a file system that holds the files it is given.  When there is
    room for them, it ends with an image of 1000 sectors in which the superblock tells the layout; the
    root directory has the entries for itself and for each file, in order, without the
    underscore of its name; each file's inode has its size, and its bytes are in the sectors
    the inode maps, through the indirect block behind the twelfth; every sector from the
    first data block on belongs to one file, up to a last one; and the bitmap marks exactly
    the sectors up to it, those of the layout and of the files.  The size of the root directory is rounded up to a whole
    block, and past it when its entries fill their blocks: then its last block has no
    sector. *)
Theorem mkfs_image hs :
  Forall host_ok hs -> (length hs <= 198)%nat -> 59 + fcost (32 + 16 * length hs) + total hs <= 1000 ->
  exists img bls sbd bm used, mkfs hs = Some img /\ used = 59 + fcost (32 + 16 * length hs) + total hs /\
    img !! 1 = Some sbd /\ superblock_of sbd = Superblock 1000 941 200 30 2 32 58 /\
    img !! 58 = Some bm /\ (forall b, (b < 4096)%nat -> bit_free bm b = Some (bool_decide (used <= Z.of_nat b))) /\
    partition 59 used bls /\
    image_has img 1 T_DIR (512 * (Z.of_nat (length (root_bytes hs)) / 512 + 1)) (root_bytes hs) (bls !!! 0%nat) /\
    (forall i h, hs !! i = Some h ->
      image_has img (Z.of_nat i + 2) T_FILE (Z.of_nat (length (hbytes h))) (hbytes h) (bls !!! S i)) /\
    ((512 | length (root_bytes hs))%nat -> exists buf, img !! IBLOCK 1 sb = Some buf /\
      img_bmap img (dinode_at buf (dinode_off 1)) (length (root_bytes hs) / 512) = Some 0).
Proof.
  intros Hok Hlen Hroom. destruct (mkfs_files hs Hok Hlen Hroom) as (st & root & new & E & O & D & T & F & B).
  destruct (mkfs_end st root new O) as (img & bm & E' & Hs & Hsb & H58 & Hbm & Lbm & Hroot & Hnew).
  pose proof O as [G HI _ _ _]. destruct (HI 0%nat root eq_refl) as [_ W]. rewrite D in Hroot.
  exists img, (owned <$> root :: new), sb_sector, bm, (mk_freeblock st).
  split_and!; [|exact B|exact Hsb|vm_compute; reflexivity|exact H58| |by apply good_partition|..].
  - unfold mkfs. destruct (mk_ialloc T_DIR mk_start) as [[rootino st1]|]; [|done]. cbn [mbind option_bind] in *.
    destruct (negb (rootino =? ROOTINO)) eqn:Ei; [done|]. assert (rootino = 1) as -> by (unfold ROOTINO in Ei; lia).
    destruct (iappend 1 _ st1) as [st2|]; [|done]. cbn [mbind option_bind] in *. destruct (iappend 1 _ st2) as [st3|]; [|done].
    cbn [mbind option_bind] in *. rewrite E. exact E'.
  - intros b Hb. rewrite bit_free_set, Hbm by (rewrite Lbm; apply Nat.Div0.div_lt_upper_bound; lia). f_equal. rewrite <- bool_decide_not. apply bool_decide_ext. lia.
  - pose proof (has_file st (root :: new) 0 root img 1 _ G eq_refl W Hs Hroot eq_refl (wh_nlink _ W)) as H.
    cbn [set_size di_type di_size] in H. rewrite D, T in H. exact H.
  - intros i h Hh. destruct (Forall2_lookup_l _ _ _ _ _ F Hh) as (f & Hf & Df & Tf). destruct (HI (S i) f Hf) as [_ Wf].
    rewrite <- Df, <- Tf, <- (wh_size _ Wf). assert (El : (owned <$> root :: new) !!! S i = owned f).
    { apply list_lookup_total_correct. rewrite list_lookup_fmap. change ((root :: new) !! S i) with (new !! i). by rewrite Hf. }
    rewrite El. exact (has_file st (root :: new) (S i) f img _ _ G Hf Wf Hs (Hnew i f Hf) eq_refl (wh_nlink _ Wf)).
  - intros [m Hm]. destruct Hroot as (buf & Eb & Ed). exists buf. split; [done|]. rewrite Ed. unfold img_bmap.
    rewrite length_root_bytes in *. assert (Hlt : ((32 + 16 * length hs) / 512 < 12)%nat) by (apply Nat.Div0.div_lt_upper_bound; lia).
    rewrite decide_True by exact Hlt. cbn [set_size di_addrs]. rewrite (addrs_direct _ root (g_files _ _ G 0%nat root eq_refl) _ Hlt).
    rewrite lookup_ge_None_2; [reflexivity|]. rewrite (wh_len _ W), D, length_root_bytes. unfold nb. rewrite Hm, Nat.div_mul by lia.
    rewrite Nat.div_add_l, Nat.div_small by lia. lia.
Qed.

(** A file of three bytes, and one of which the reads return 7000 bytes in pieces. *)
Definition some_files : list host_file :=
  [(chars "_cat", Some [[1; 2; 3]]); (chars "README", Some (replicate 13 (replicate 512 65) ++ [replicate 344 66]))].

Lemma mkfs_image_witness :
  exists img bl, mkfs some_files = Some img /\ image_has img 2 T_FILE 3 [1; 2; 3] bl.
Proof.
  destruct (mkfs_image some_files) as (img & bls & sbd & bm & used & E & _ & _ & _ & _ & _ & _ & _ & Hf & _).
  - repeat (apply Forall_cons_2; [split_and!; [apply (bool_decide_unpack _); vm_compute; exact I|eexists; reflexivity|vm_compute; lia]|]). apply Forall_nil_2.
  - vm_compute. lia.
  - vm_compute. discriminate.
  - exists img, (bls !!! 1%nat). split; [exact E|exact (Hf 0%nat _ eq_refl)].
Defined.
