(* ===== verification/UserProgs.v ===== *)
(** * The small user programs as interaction trees

    cat, wc, echo, kill, ln, mkdir, rm, ls, init and the line loop and main of grep.  A
    program is a tree of the system calls it makes; their results decide how it goes on.
    exit is an event without a result.  A program gets its arguments after argv[0], each
    the characters before the NUL.  [answer] gives the calls a meaning in a small world of
    files, in which the theorems say what the programs write and which calls they make. *)

From ITree Require Import ITree ITreeFacts Events.State Events.StateFacts.
From S2P Require Import Prelude CString State Console Ulib Grep.
#[local] Open Scope Z_scope.

(** ** Events *)

(** A result [None] is -1; a read of [Some []] is the end of the file. *)
Variant sysE : Type -> Type :=
  | Read (fd n : Z) : sysE (option (list Z))
  | Write (fd : Z) (s : list Z) : sysE Z
  | Open (path : list Z) (mode : Z) : sysE Z
  | Close (fd : Z) : sysE Z
  | Fstat (fd : Z) : sysE (option (Z * Z * Z))      (* type, ino, size *)
  | Kill (pid : Z) : sysE Z
  | Link (old new : list Z) : sysE Z
  | Unlink (path : list Z) : sysE Z
  | Mkdir (path : list Z) : sysE Z
  | Mknod (path : list Z) (major minor : Z) : sysE Z
  | Dup (fd : Z) : sysE Z
  | Fork : sysE Z
  | Exec (path : list Z) (argv : list (list Z)) : sysE Z   (* returns only when it fails *)
  | Wait : sysE Z
  | Sleep (n : Z) : sysE Z
  | Getpid : sysE Z
  | Sbrk (n : Z) : sysE Z.

(** [Undefined]: what C leaves undefined. *)
Variant exitE : Type -> Type :=
  | Exit : exitE void
  | Undefined : exitE void.

Notation uprog := (itree (sysE +' exitE)).

Notation "'ulet' p := x 'in' f" := (ITree.bind x (fun p => f))
  (at level 200, p strict pattern, x at level 100, f at level 200).

Definition sys {T} (e : sysE T) : uprog T := ITree.trigger (inl1 e).
Definition uexit {T} : uprog T := ITree.bind (ITree.trigger (inr1 Exit)) (fun v : void => match v with end).
Definition undefined {T} : uprog T :=
  ITree.bind (ITree.trigger (inr1 Undefined)) (fun v : void => match v with end).

(** putc on each character. *)
Fixpoint put_chars (fd : Z) (s : list Z) : uprog unit :=
  match s with
  | [] => Ret tt
  | c :: s => ulet _ := sys (Write fd [c]) in put_chars fd s
  end.

Definition fprintf (fd : Z) (fmt : list Z) (args : list fmtarg) : uprog unit :=
  match printf_from fmt args with
  | Some s => put_chars fd s
  | None => undefined
  end.

(** A format, or a message, that ends with a newline. *)
Definition fmt_line (s : string) : list Z := chars s ++ [10].
Definition arg (s : list Z) : fmtarg := FStr (Some s).

(** ** The loops over the arguments *)

(** Of cat, wc and grep: open, the body and close for each file, and exit. *)
Fixpoint each_file (msg : list Z) (body : Z -> list Z -> uprog unit) (args : list (list Z)) : uprog unit :=
  match args with
  | [] => uexit
  | a :: args =>
      ulet fd := sys (Open a 0) in
      if fd <? 0 then ulet _ := fprintf 1 msg [arg a] in uexit
      else ulet _ := body fd a in ulet _ := sys (Close fd) in each_file msg body args
  end.

(** Of mkdir and rm: a call for each argument up to the first that fails, and exit. *)
Fixpoint until_failure (call : list Z -> sysE Z) (msg : list Z) (args : list (list Z)) : uprog unit :=
  match args with
  | [] => uexit
  | a :: args =>
      ulet r := sys (call a) in
      if r <? 0 then ulet _ := fprintf 2 msg [arg a] in uexit
      else until_failure call msg args
  end.

(** ** cat *)

Definition cat (fd : Z) : uprog unit :=
  ITree.iter (fun _ : unit =>
    ulet r := sys (Read fd 512) in
    match r with
    | None => ulet _ := fprintf 1 (fmt_line "cat: read error") [] in uexit
    | Some [] => Ret (inr tt)
    | Some buf =>
        ulet n := sys (Write 1 buf) in
        if negb (n =? Z.of_nat (length buf)) then
          ulet _ := fprintf 1 (fmt_line "cat: write error") [] in uexit
        else Ret (inl tt)
    end) tt.

Definition cat_files (args : list (list Z)) : uprog unit :=
  each_file (fmt_line "cat: cannot open %s") (fun fd _ => cat fd) args.
Definition cat_main (args : list (list Z)) : uprog unit :=
  match args with
  | [] => ulet _ := cat 0 in uexit
  | _ => cat_files args
  end.

(** ** wc *)

Record tally : Type := Tally { t_l : Z; t_w : Z; t_c : Z; t_inword : bool }.

(** The body of the loop over the buffer; the characters of strchr's string are blank, tab,
    newline, vertical tab and carriage return. *)
Definition count_char (t : tally) (c : Z) : tally :=
  let n := s32 (t_c t + 1) in
  let l := if c =? 10 then s32 (t_l t + 1) else t_l t in
  if bool_decide (c ∈ [32; 13; 9; 10; 11]) then Tally l (t_w t) n false
  else if negb (t_inword t) then Tally l (s32 (t_w t + 1)) n true
  else Tally l (t_w t) n (t_inword t).

Definition wc (fd : Z) (name : list Z) : uprog unit :=
  ulet t := ITree.iter (fun t : tally =>
    ulet r := sys (Read fd 512) in
    match r with
    | None => ulet _ := fprintf 1 (fmt_line "wc: read error") [] in uexit
    | Some [] => Ret (inr t)
    | Some buf => Ret (inl (foldl count_char t buf))
    end) (Tally 0 0 0 false) in
  fprintf 1 (fmt_line "%d %d %d %s") [FNum (t_l t); FNum (t_w t); FNum (t_c t); arg name].

Definition wc_files (args : list (list Z)) : uprog unit :=
  each_file (fmt_line "wc: cannot open %s") wc args.
Definition wc_main (args : list (list Z)) : uprog unit :=
  match args with
  | [] => ulet _ := wc 0 [] in uexit
  | _ => wc_files args
  end.

(** ** echo, kill, ln, mkdir, rm *)

Fixpoint echo_args (args : list (list Z)) : uprog unit :=
  match args with
  | [] => uexit
  | a :: args' =>
      ulet _ := fprintf 1 (chars "%s%s") [arg a; arg (match args' with [] => [10] | _ => [32] end)] in
      echo_args args'
  end.
Definition echo_main (args : list (list Z)) : uprog unit := echo_args args.

Fixpoint kill_args (args : list (list Z)) : uprog unit :=
  match args with
  | [] => uexit
  | a :: args =>
      match Ustr.atoi (a ++ [0]) with
      | Some pid => ulet _ := sys (Kill pid) in kill_args args
      | None => undefined
      end
  end.
Definition kill_main (args : list (list Z)) : uprog unit :=
  match args with
  | [] => ulet _ := fprintf 2 (fmt_line "usage: kill pid...") [] in uexit
  | _ => kill_args args
  end.

Definition ln_main (args : list (list Z)) : uprog unit :=
  match args with
  | [old; new] =>
      ulet r := sys (Link old new) in
      if r <? 0 then ulet _ := fprintf 2 (fmt_line "link %s %s: failed") [arg old; arg new] in uexit
      else uexit
  | _ => ulet _ := fprintf 2 (fmt_line "Usage: ln old new") [] in uexit
  end.

Definition mkdir_args (args : list (list Z)) : uprog unit :=
  until_failure Mkdir (fmt_line "mkdir: %s failed to create") args.
Definition mkdir_main (args : list (list Z)) : uprog unit :=
  match args with
  | [] => ulet _ := fprintf 2 (fmt_line "Usage: mkdir files...") [] in uexit
  | _ => mkdir_args args
  end.

Definition rm_args (args : list (list Z)) : uprog unit :=
  until_failure Unlink (fmt_line "rm: %s failed to delete") args.
Definition rm_main (args : list (list Z)) : uprog unit :=
  match args with
  | [] => ulet _ := fprintf 2 (fmt_line "Usage: rm files...") [] in uexit
  | _ => rm_args args
  end.

(** ** grep *)

(** The inner loop: a matching line is written at once; the result is what is left. *)
Fixpoint emit_lines (fuel : nat) (pattern p : list Z) : uprog (list Z) :=
  match Ustr.strchr p 10 with
  | None => undefined
  | Some None => Ret p
  | Some (Some q) =>
      match fuel with
      | O => undefined
      | S fuel' =>
          match match_re pattern (take q p ++ 0 :: drop (S q) p) with
          | None => undefined
          | Some true =>
              ulet _ := sys (Write 1 (take q p ++ [10])) in
              emit_lines fuel' pattern (drop (S q) p)
          | Some false => emit_lines fuel' pattern (drop (S q) p)
          end
      end
  end.

(** The outer loop; its state is the first [m] elements of buf. *)
Definition grep_fd (pattern : list Z) (fd : Z) : uprog unit :=
  ITree.iter (fun buf : list Z =>
    ulet r := sys (Read fd (1024 - Z.of_nat (length buf) - 1)) in
    match r with
    | None | Some [] => Ret (inr tt)
    | Some bytes =>
        if decide (length bytes + length buf + 1 <= 1024)%nat then
          let buf := buf ++ bytes in
          ulet rest := emit_lines (length buf) pattern (buf ++ [0]) in
          let used := (length buf + 1 - length rest)%nat in
          Ret (inl (if decide (used = 0)%nat then [] else drop used buf))
        else undefined
    end) [].

Definition grep_files (pattern : list Z) (args : list (list Z)) : uprog unit :=
  each_file (fmt_line "grep: cannot open %s") (fun fd _ => grep_fd pattern fd) args.
Definition grep_main (args : list (list Z)) : uprog unit :=
  match args with
  | [] => ulet _ := fprintf 2 (fmt_line "usage: grep pattern [file ...]") [] in uexit
  | [pattern] => ulet _ := grep_fd (pattern ++ [0]) 0 in uexit
  | pattern :: files => grep_files (pattern ++ [0]) files
  end.

(** ** ls *)

(** [for(p=path+strlen(path); p >= path && *p != '/'; p--); p++;]: [acc] is the characters
    from [p+1] on, and [rpath] those before it, the last first. *)
Fixpoint after_slash (rpath acc : list Z) : list Z :=
  match rpath with
  | [] => acc
  | c :: rpath => if c =? 47 then acc else after_slash rpath (c :: acc)
  end.

Definition fmtname (path : list Z) : list Z :=
  let p := after_slash (rev path) [] in
  if decide (DIRSIZ <= Z.of_nat (length p)) then p
  else p ++ replicate (Z.to_nat DIRSIZ - length p) 32.

(** stat of ulib.c *)
Definition ustat (n : list Z) : uprog (option (Z * Z * Z)) :=
  ulet fd := sys (Open n O_RDONLY) in
  if fd <? 0 then Ret None else
  ulet r := sys (Fstat fd) in
  ulet _ := sys (Close fd) in
  Ret r.

Definition ls_line (path : list Z) (st : Z * Z * Z) : uprog unit :=
  let '(type, ino, size) := st in
  fprintf 1 (fmt_line "%s %d %d %d") [arg (fmtname path); FNum type; FNum ino; FNum size].

(** The loop over the entries of the directory: a dirent is two bytes of inum and DIRSIZ of
    name. *)
Definition ls_dir (fd : Z) (path : list Z) : uprog unit :=
  ITree.iter (fun _ : unit =>
    ulet r := sys (Read fd 16) in
    match r with
    | Some (i0 :: i1 :: name) =>
        if negb (Z.of_nat (length name) =? DIRSIZ) then Ret (inr tt) else
        if i0 + 256 * i1 =? 0 then Ret (inl tt) else
        let buf := path ++ 47 :: cut name in
        ulet st := ustat buf in
        match st with
        | None => ulet _ := fprintf 1 (fmt_line "ls: cannot stat %s") [arg buf] in Ret (inl tt)
        | Some st => ulet _ := ls_line buf st in Ret (inl tt)
        end
    | _ => Ret (inr tt)
    end) tt.

Definition ls (path : list Z) : uprog unit :=
  ulet fd := sys (Open path 0) in
  if fd <? 0 then fprintf 2 (fmt_line "ls: cannot open %s") [arg path] else
  ulet st := sys (Fstat fd) in
  match st with
  | None =>
      ulet _ := fprintf 2 (fmt_line "ls: cannot stat %s") [arg path] in
      ulet _ := sys (Close fd) in Ret tt
  | Some (type, ino, size) =>
      ulet _ :=
        (if type =? T_FILE then ls_line path (type, ino, size)
         else if type =? T_DIR then
           if decide (512 < Z.of_nat (length path) + 1 + DIRSIZ + 1) then
             fprintf 1 (fmt_line "ls: path too long") []
           else ls_dir fd path
         else Ret tt) in
      ulet _ := sys (Close fd) in Ret tt
  end.

Fixpoint ls_args (args : list (list Z)) : uprog unit :=
  match args with
  | [] => uexit
  | a :: args => ulet _ := ls a in ls_args args
  end.
Definition ls_main (args : list (list Z)) : uprog unit :=
  match args with
  | [] => ulet _ := ls (chars ".") in uexit
  | _ => ls_args args
  end.

(** ** init *)

(** [while((wpid=wait()) >= 0 && wpid != pid)] *)
Definition init_wait (pid : Z) : uprog unit :=
  ITree.iter (fun _ : unit =>
    ulet wpid := sys Wait in
    if (0 <=? wpid) && negb (wpid =? pid) then
      ulet _ := fprintf 1 (fmt_line "zombie!") [] in Ret (inl tt)
    else Ret (inr tt)) tt.

(** A round of [for(;;)]. *)
Definition init_round : uprog unit :=
  ulet _ := fprintf 1 (fmt_line "init: starting sh") [] in
  ulet pid := sys Fork in
  if pid <? 0 then ulet _ := fprintf 1 (fmt_line "init: fork failed") [] in uexit else
  if pid =? 0 then
    ulet _ := sys (Exec (chars "sh") [chars "sh"]) in
    ulet _ := fprintf 1 (fmt_line "init: exec sh failed") [] in uexit
  else init_wait pid.

Definition init_main : uprog unit :=
  ulet fd := sys (Open (chars "console") O_RDWR) in
  ulet _ := (if fd <? 0 then
               ulet _ := sys (Mknod (chars "console") 1 1) in
               ulet _ := sys (Open (chars "console") O_RDWR) in Ret tt
             else Ret tt) in
  ulet _ := sys (Dup 0) in
  ulet _ := sys (Dup 0) in
  ITree.iter (fun _ : unit => ulet _ := init_round in Ret (inl tt)) tt.

(** ** A world for the programs *)

(** [w_files] gives for each file the results of the reads of it, [w_in] those of standard
    input; one file is open at a time, as descriptor 3, and [w_fd] holds its remaining
    reads.  [w_ok] says for which paths link, unlink and mkdir succeed, [w_waits] what wait
    returns.  fork succeeds [w_room] times, in the parent, and the child is waited for.
    fstat, exec and sbrk fail: nothing is stated here of runs that use them. *)
Variant call : Type :=
  | CKill (pid : Z) | CLink (old new : list Z) | CUnlink (path : list Z) | CMkdir (path : list Z).

Record world : Type := World {
  w_files : list Z -> option (list (list Z));
  w_ok : list Z -> bool;
  w_in : list (list Z);
  w_fd : list (list Z);
  w_waits : list Z;
  w_room : nat;
  w_out : list Z;
  w_err : list Z;
  w_calls : list call
}.

Definition set_in r w := World (w_files w) (w_ok w) r (w_fd w) (w_waits w) (w_room w) (w_out w) (w_err w) (w_calls w).
Definition set_fd r w := World (w_files w) (w_ok w) (w_in w) r (w_waits w) (w_room w) (w_out w) (w_err w) (w_calls w).
Definition set_waits r w := World (w_files w) (w_ok w) (w_in w) (w_fd w) r (w_room w) (w_out w) (w_err w) (w_calls w).
Definition set_room r w := World (w_files w) (w_ok w) (w_in w) (w_fd w) (w_waits w) r (w_out w) (w_err w) (w_calls w).
Definition put fd s w :=
  if fd =? 1 then World (w_files w) (w_ok w) (w_in w) (w_fd w) (w_waits w) (w_room w) (w_out w ++ s) (w_err w) (w_calls w)
  else World (w_files w) (w_ok w) (w_in w) (w_fd w) (w_waits w) (w_room w) (w_out w) (w_err w ++ s) (w_calls w).
Definition did c w :=
  World (w_files w) (w_ok w) (w_in w) (w_fd w) (w_waits w) (w_room w) (w_out w) (w_err w) (w_calls w ++ [c]).

Definition result (b : bool) : Z := if b then 0 else -1.

Definition answer {T} (e : sysE T) : world -> world * T :=
  match e in sysE T return world -> world * T with
  | Read fd n => fun w =>
      if fd =? 0 then (set_in (tail (w_in w)) w, Some (hd [] (w_in w)))
      else if fd =? 3 then (set_fd (tail (w_fd w)) w, Some (hd [] (w_fd w)))
      else (w, None)
  | Write fd s => fun w => (put fd s w, Z.of_nat (length s))
  | Open p _ => fun w => match w_files w p with Some r => (set_fd r w, 3) | None => (w, -1) end
  | Close _ => fun w => (set_fd [] w, 0)
  | Fstat _ => fun w => (w, None)
  | Kill pid => fun w => (did (CKill pid) w, 0)
  | Link a b => fun w => (did (CLink a b) w, result (w_ok w b))
  | Unlink p => fun w => (did (CUnlink p) w, result (w_ok w p))
  | Mkdir p => fun w => (did (CMkdir p) w, result (w_ok w p))
  | Mknod _ _ _ => fun w => (w, 0)
  | Dup _ => fun w => (w, 0)
  | Fork => fun w =>
      match w_room w with
      | O => (w, -1)
      | S n => (set_room n (set_waits (w_waits w ++ [Z.of_nat (S n)]) w), Z.of_nat (S n))
      end
  | Exec _ _ => fun w => (w, -1)
  | Wait => fun w => (set_waits (tail (w_waits w)) w, hd (-1) (w_waits w))
  | Sleep _ => fun w => (w, 0)
  | Getpid => fun w => (w, 1)
  | Sbrk _ => fun w => (w, -1)
  end.

(** What is seen of a run: the world in which it exits, or that it is undefined. *)
Variant stopE : Type -> Type :=
  | Stop (w : world) : stopE void
  | Undef : stopE void.

Definition stop {T} (w : world) : itree stopE T := Vis (Stop w) (fun v : void => match v with end).

Definition handle : forall T, (sysE +' exitE) T -> Monads.stateT world (itree stopE) T :=
  fun T e => match e with
  | inl1 e => fun w => Ret (answer e w)
  | inr1 e =>
      match e in exitE T return Monads.stateT world (itree stopE) T with
      | Exit => fun w => stop w
      | Undefined => fun _ => Vis Undef (fun v : void => match v with end)
      end
  end.

Definition run {T} (t : uprog T) (w : world) : itree stopE (world * T) := interp_state handle t w.

Infix "≈≈" := (eutt eq) (at level 70).

Lemma run_ret {T} (x : T) w : run (Ret x) w ≈≈ Ret (w, x).
Proof. unfold run. rewrite interp_state_ret. reflexivity. Qed.

Lemma run_bind {T U} (t : uprog T) (k : T -> uprog U) w :
  run (ITree.bind t k) w ≈≈ ITree.bind (run t w) (fun r => run (k r.2) r.1).
Proof. unfold run. rewrite interp_state_bind. reflexivity. Qed.

Lemma run_sys {T} (e : sysE T) w : run (sys e) w ≈≈ Ret (answer e w).
Proof. unfold run, sys. rewrite interp_state_trigger. reflexivity. Qed.

Lemma stop_bind {T U} w (k : T -> itree stopE U) : ITree.bind (stop w) k ≈≈ stop w.
Proof. unfold stop. rewrite bind_vis. apply eqit_Vis. intros []. Qed.

Lemma run_exit {T} w : run (uexit (T := T)) w ≈≈ stop w.
Proof.
  unfold uexit. rewrite run_bind. unfold run. rewrite interp_state_trigger. cbn. apply stop_bind.
Qed.

Lemma run_iter {I R} (f : I -> uprog (I + R)) i w :
  run (ITree.iter f i) w ≈≈
  ITree.bind (run (f i) w) (fun r => match r.2 with inl j => run (ITree.iter f j) r.1 | inr x => Ret (r.1, x) end).
Proof.
  unfold run at 1. rewrite unfold_iter. rewrite interp_state_bind.
  apply eutt_eq_bind. intros [w' [j|x]]; cbn.
  - rewrite interp_state_tau, tau_eutt. reflexivity.
  - rewrite interp_state_ret. reflexivity.
Qed.

Lemma run_sys_bind {T U} (e : sysE T) (k : T -> uprog U) w :
  run (ulet x := sys e in k x) w ≈≈ run (k (answer e w).2) (answer e w).1.
Proof. rewrite run_bind, run_sys, bind_ret_l. reflexivity. Qed.

(** After a part whose run is known. *)
Lemma run_then {T U} (t : uprog T) (k : T -> uprog U) w w' x :
  run t w ≈≈ Ret (w', x) -> run (ulet y := t in k y) w ≈≈ run (k x) w'.
Proof. intros H. rewrite run_bind, H, bind_ret_l. reflexivity. Qed.

Lemma run_iter_inl {I R} (f : I -> uprog (I + R)) i j w w' :
  run (f i) w ≈≈ Ret (w', inl j) -> run (ITree.iter f i) w ≈≈ run (ITree.iter f j) w'.
Proof. intros H. rewrite run_iter, H, bind_ret_l. reflexivity. Qed.

Lemma run_iter_inr {I R} (f : I -> uprog (I + R)) i x w w' :
  run (f i) w ≈≈ Ret (w', inr x) -> run (ITree.iter f i) w ≈≈ Ret (w', x).
Proof. intros H. rewrite run_iter, H, bind_ret_l. reflexivity. Qed.

(** ** Output *)

Lemma put_nil fd w : put fd [] w = w.
Proof. destruct w. unfold put. case_match; cbn; by rewrite app_nil_r. Qed.

Lemma put_put fd s t w : put fd t (put fd s w) = put fd (s ++ t) w.
Proof. unfold put. case_match; cbn; by rewrite app_assoc. Qed.

Lemma put_set_fd fd s r w : put fd s (set_fd r w) = set_fd r (put fd s w).
Proof. unfold put. by case_match. Qed.

Lemma put_set_waits fd s r w : put fd s (set_waits r w) = set_waits r (put fd s w).
Proof. unfold put. by case_match. Qed.

Lemma put_keeps fd s w :
  w_fd (put fd s w) = w_fd w /\ w_files (put fd s w) = w_files w /\ w_waits (put fd s w) = w_waits w.
Proof. unfold put. by case_match. Qed.

Lemma run_put_chars fd s w : run (put_chars fd s) w ≈≈ Ret (put fd s w, tt).
Proof.
  revert w. induction s as [|c s IH]; intros w; cbn [put_chars].
  - rewrite run_ret, put_nil. reflexivity.
  - rewrite run_sys_bind. cbn [answer fst snd]. rewrite IH, put_put. reflexivity.
Qed.

Lemma run_fprintf fd fmt args s w :
  printf_from fmt args = Some s -> run (fprintf fd fmt args) w ≈≈ Ret (put fd s w, tt).
Proof. unfold fprintf. intros ->. apply run_put_chars. Qed.

(** ** cat *)

(** A file whose reads give data until its end. *)
Definition all_data (reads : list (list Z)) : Prop := Forall (fun r => r <> []) reads.

Definition contents (reads : list (list Z)) : list Z := concat reads.

Lemma run_cat w :
  all_data (w_fd w) -> run (cat 3) w ≈≈ Ret (set_fd [] (put 1 (concat (w_fd w)) w), tt).
Proof.
  remember (w_fd w) as rs eqn:E. revert w E. induction rs as [|r rs IH]; intros w E Hf.
  - apply run_iter_inr. rewrite run_sys_bind. cbn -[put]. rewrite <- E. cbn -[put].
    rewrite run_ret, put_nil. reflexivity.
  - apply Forall_cons in Hf as [Hr Hf]. unfold cat. rewrite (run_iter_inl _ tt tt w (put 1 r (set_fd rs w))).
    + fold (cat 3). rewrite (IH (put 1 r (set_fd rs w))); [|by rewrite put_set_fd|done].
      rewrite put_put, put_set_fd. reflexivity.
    + rewrite run_sys_bind. cbn -[put]. rewrite <- E. cbn -[put]. destruct r as [|b r]; [done|].
      rewrite run_sys_bind. cbn [answer fst snd]. rewrite Z.eqb_refl. apply run_ret.
Qed.

(** [body] writes [out] for a file with the reads [r], and reads it to its end. *)
Definition writes (body : Z -> list Z -> uprog unit) (a : list Z) (r : list (list Z)) (out : list Z) : Prop :=
  forall w, w_fd w = r -> run (body 3 a) w ≈≈ Ret (set_fd [] (put 1 out w), tt).

Lemma run_each_file msg body w args outs :
  Forall2 (fun a out => exists r, w_files w a = Some r /\ writes body a r out) args outs ->
  exists w', run (each_file msg body args) w ≈≈ stop w' /\ w_out w' = w_out w ++ concat outs /\ w_err w' = w_err w.
Proof.
  intros H. remember (w_files w) as F eqn:EF. revert w EF.
  induction H as [|a out args outs (r & Ha & Hr) H IH]; intros w ->.
  - exists w. cbn. rewrite app_nil_r. split; [apply run_exit|done].
  - destruct (IH (set_fd [] (set_fd [] (put 1 out (set_fd r w)))) eq_refl) as (w' & Hrun & Ho & He).
    exists w'. split; [|by rewrite Ho, He; cbn; rewrite <- app_assoc].
    cbn [each_file]. rewrite run_sys_bind. cbn [answer]. rewrite Ha. cbn [fst snd Z.ltb Z.compare].
    rewrite (run_then _ _ _ _ _ (Hr (set_fd r w) eq_refl)). rewrite run_sys_bind. exact Hrun.
Qed.

(** cat with readable files as its arguments writes their contents to standard output, one
    after the other, however the reads cut them, writes nothing else, and exits. *)
Lemma cat_concatenates w args fs :
  args <> [] -> Forall2 (fun a r => w_files w a = Some r /\ all_data r) args fs ->
  exists w', run (cat_main args) w ≈≈ stop w' /\ w_out w' = w_out w ++ concat (contents <$> fs) /\ w_err w' = w_err w.
Proof.
  intros Ha H. destruct args as [|a args]; [done|]. apply run_each_file. apply Forall2_fmap_r.
  eapply Forall2_impl; [exact H|]. intros b r [Hb Hr]. exists r. split; [done|].
  intros w' <-. by apply run_cat.
Qed.

(** ** wc *)

Lemma run_wc_loop t w :
  all_data (w_fd w) ->
  run (ITree.iter (fun t : tally =>
    ulet r := sys (Read 3 512) in
    match r with
    | None => ulet _ := fprintf 1 (fmt_line "wc: read error") [] in uexit
    | Some [] => Ret (inr t)
    | Some buf => Ret (inl (foldl count_char t buf))
    end) t) w ≈≈ Ret (set_fd [] w, foldl count_char t (concat (w_fd w))).
Proof.
  remember (w_fd w) as rs eqn:E. revert t w E. induction rs as [|r rs IH]; intros t w E Hf.
  - apply run_iter_inr. rewrite run_sys_bind. cbn. rewrite <- E. cbn. apply run_ret.
  - apply Forall_cons in Hf as [Hr Hf].
    rewrite (run_iter_inl _ t (foldl count_char t r) w (set_fd rs w)).
    + rewrite (IH _ (set_fd rs w)) by done. cbn [concat]. rewrite foldl_app. reflexivity.
    + rewrite run_sys_bind. cbn. rewrite <- E. cbn. destruct r; [done|]. apply run_ret.
Qed.

(** The numbers are ints, which print_d always prints. *)
Definition wc_line (t : tally) (name : list Z) : option (list Z) :=
  printf_from (fmt_line "%d %d %d %s") [FNum (t_l t); FNum (t_w t); FNum (t_c t); arg name].

Lemma wc_line_some t name : exists out, wc_line t name = Some out.
Proof.
  destruct (uprint_d_spec (s32 (t_l t))) as (dl & El & _); [apply s32_range|].
  destruct (uprint_d_spec (s32 (t_w t))) as (dw & Ew & _); [apply s32_range|].
  destruct (uprint_d_spec (s32 (t_c t))) as (dc & Ec & _); [apply s32_range|].
  unfold wc_line. change (fmt_line "%d %d %d %s") with [37; 100; 32; 37; 100; 32; 37; 100; 32; 37; 115; 10].
  cbn [printf_from negb Z.eqb Pos.eqb]. rewrite El, Ew, Ec. by eexists.
Qed.

(** wc prints the counts of the whole file, however the reads cut it: a word is not split
    at the end of a buffer. *)
Lemma wc_counts w name :
  all_data (w_fd w) ->
  exists out, wc_line (foldl count_char (Tally 0 0 0 false) (contents (w_fd w))) name = Some out /\
    run (wc 3 name) w ≈≈ Ret (put 1 out (set_fd [] w), tt).
Proof.
  intros Hf. destruct (wc_line_some (foldl count_char (Tally 0 0 0 false) (contents (w_fd w))) name) as [out E].
  exists out. split; [done|]. unfold wc. rewrite (run_then _ _ _ _ _ (run_wc_loop _ w Hf)). by apply run_fprintf.
Qed.

(** ** grep *)

(** The inner loop writes what the pure model of it computes. *)
Lemma run_emit_lines fuel pattern p out rest w :
  grep_lines fuel pattern p = Some (out, rest) ->
  run (emit_lines fuel pattern p) w ≈≈ Ret (put 1 out w, rest).
Proof.
  revert p out w. induction fuel as [|fuel IH]; intros p out w H; cbn [grep_lines emit_lines] in *;
    destruct (Ustr.strchr p 10) as [[q|]|]; cbn [mbind option_bind] in H; simplify_eq;
    try (rewrite run_ret, put_nil; reflexivity).
  destruct (match_re _ _) as [[]|]; cbn [mbind option_bind] in H; [| |done];
    destruct (grep_lines fuel pattern _) as [[out' rest']|] eqn:E; cbn [mbind option_bind] in H; simplify_eq.
  - rewrite run_sys_bind. cbn [answer fst snd]. rewrite (IH _ _ _ E), put_put. reflexivity.
  - apply (IH _ _ _ E).
Qed.

Lemma run_grep_iter pattern buf w out :
  all_data (w_fd w) -> grep_loop pattern buf (w_fd w) = Some out ->
  forall f, f = (fun buf : list Z =>
    ulet r := sys (Read 3 (1024 - Z.of_nat (length buf) - 1)) in
    match r with
    | None | Some [] => Ret (inr tt)
    | Some bytes =>
        if decide (length bytes + length buf + 1 <= 1024)%nat then
          let buf := buf ++ bytes in
          ulet rest := emit_lines (length buf) pattern (buf ++ [0]) in
          let used := (length buf + 1 - length rest)%nat in
          Ret (inl (if decide (used = 0)%nat then [] else drop used buf))
        else undefined
    end) ->
  run (ITree.iter f buf) w ≈≈ Ret (set_fd [] (put 1 out w), tt).
Proof.
  intros Hf Hg f Ef. remember (w_fd w) as rs eqn:E. revert buf w out E Hg.
  induction rs as [|r rs IH]; intros buf w out E Hg.
  - cbn in Hg. simplify_eq. rewrite put_nil. apply run_iter_inr. rewrite run_sys_bind. cbn.
    rewrite <- E. cbn. apply run_ret.
  - apply Forall_cons in Hf as [Hr Hf]. specialize (IH Hf). destruct r as [|b r]; [done|].
    cbn [grep_loop] in Hg. case_decide as Hd; [|done].
    destruct (grep_lines _ _ _) as [[o rest]|] eqn:El; [|done]. cbn [mbind option_bind] in Hg.
    destruct (grep_loop _ _ rs) as [o'|] eqn:Eg; [|done]. cbn [mbind option_bind] in Hg. simplify_eq.
    rewrite run_iter_inl; [rewrite (IH _ (put 1 o (set_fd rs w)) o'); [|by rewrite put_set_fd|exact Eg]|].
    + rewrite put_put, put_set_fd. reflexivity.
    + rewrite run_sys_bind. cbn -[put emit_lines]. rewrite <- E. cbn -[put emit_lines].
      rewrite decide_True by done. rewrite (run_then _ _ _ _ _ (run_emit_lines _ _ _ _ _ _ El)). apply run_ret.
Qed.

(** grep with readable files as its arguments writes to standard output what the model of
    its line loop computes for each of them, one after the other, and exits. *)
Lemma grep_writes w pattern args outs :
  args <> [] ->
  Forall2 (fun a out => exists r, w_files w a = Some r /\ all_data r /\ grep (pattern ++ [0]) r = Some out) args outs ->
  exists w', run (grep_main (pattern :: args)) w ≈≈ stop w' /\ w_out w' = w_out w ++ concat outs /\ w_err w' = w_err w.
Proof.
  intros Ha H. destruct args as [|a args]; [done|]. apply run_each_file.
  eapply Forall2_impl; [exact H|]. intros b out (r & Hb & Hr & Hg). exists r. split; [done|].
  intros w' <-. by eapply run_grep_iter.
Qed.

(** ** echo, mkdir, rm *)

Definition join (l : list (list Z)) : list Z :=
  match l with [] => [] | a :: l => a ++ concat ((fun b => 32 :: b) <$> l) end.

(** echo writes its arguments with a blank between them and a newline at the end, and
    nothing at all without arguments. *)
Lemma echo_joins w args :
  run (echo_main args) w ≈≈ stop (put 1 (match args with [] => [] | _ => join args ++ [10] end) w).
Proof.
  revert w. unfold echo_main. induction args as [|a args IH]; intros w; cbn [echo_args].
  - rewrite run_exit, put_nil. reflexivity.
  - rewrite (run_then _ _ _ (put 1 (a ++ match args with [] => [10] | _ => [32] end) w) tt).
    + rewrite IH, put_put. destruct args as [|b args]; [cbn; rewrite !app_nil_r; reflexivity|].
      unfold join. cbn [fmap list_fmap concat]. rewrite <- !app_assoc. reflexivity.
    + apply run_fprintf. change (chars "%s%s") with [37; 115; 37; 115]. cbn. by rewrite app_nil_r.
Qed.

Section until.
Context (call : list Z -> sysE Z) (log : list Z -> UserProgs.call) (msg : list Z).
Hypothesis call_spec : forall a w, answer (call a) w = (did (log a) w, result (w_ok w a)).

Lemma run_until_ok w oks rest :
  Forall (fun a => w_ok w a = true) oks ->
  run (until_failure call msg (oks ++ rest)) w ≈≈ run (until_failure call msg rest) (foldl (fun w a => did (log a) w) w oks).
Proof.
  revert w. induction oks as [|a oks IH]; intros w H; [reflexivity|]. apply Forall_cons in H as [Ha H].
  cbn [app until_failure]. rewrite run_sys_bind, call_spec, Ha. cbn [fst snd result Z.ltb Z.compare].
  by apply IH.
Qed.

(** Every argument up to the first failure is dealt with; the ones after it are not, and
    the failure is reported. *)
Lemma run_until_failure w oks a rest s :
  Forall (fun a => w_ok w a = true) oks -> w_ok w a = false -> printf_from msg [arg a] = Some s ->
  run (until_failure call msg (oks ++ a :: rest)) w ≈≈
  stop (put 2 s (foldl (fun w a => did (log a) w) w (oks ++ [a]))).
Proof.
  intros H Ha Hs. rewrite run_until_ok by done. cbn [until_failure].
  rewrite run_sys_bind, call_spec, foldl_app. cbn [fst snd foldl].
  assert (w_ok (foldl (fun w a => did (log a) w) w oks) a = false) as ->.
  { rewrite <- Ha. clear. revert w. induction oks as [|b oks IH]; intros w; [done|]. apply (IH (did (log b) w)). }
  cbn [result Z.ltb Z.compare]. rewrite (run_then _ _ _ _ _ (run_fprintf _ _ _ _ _ Hs)). apply run_exit.
Qed.
End until.

Lemma foldl_did log w l : w_calls (foldl (fun w (a : list Z) => did (log a) w) w l) = w_calls w ++ (log <$> l).
Proof.
  revert w. induction l as [|a l IH]; intros w; cbn; [by rewrite app_nil_r|]. rewrite IH. cbn. by rewrite <- app_assoc.
Qed.

(** rm unlinks its arguments in order up to the first that cannot be deleted, and none after
    it. *)
Lemma rm_stops_at_failure w oks a rest :
  Forall (fun a => w_ok w a = true) oks -> w_ok w a = false ->
  exists w', run (rm_main (oks ++ a :: rest)) w ≈≈ stop w' /\ w_calls w' = w_calls w ++ (CUnlink <$> oks ++ [a]).
Proof.
  intros H Ha. eexists. split.
  - assert (rm_main (oks ++ a :: rest) = rm_args (oks ++ a :: rest)) as -> by by destruct oks.
    apply (run_until_failure Unlink CUnlink); [done|done|done|]. reflexivity.
  - apply foldl_did.
Qed.

(** mkdir makes its arguments in order up to the first that fails, and none after it. *)
Lemma mkdir_stops_at_failure w oks a rest :
  Forall (fun a => w_ok w a = true) oks -> w_ok w a = false ->
  exists w', run (mkdir_main (oks ++ a :: rest)) w ≈≈ stop w' /\ w_calls w' = w_calls w ++ (CMkdir <$> oks ++ [a]).
Proof.
  intros H Ha. eexists. split.
  - assert (mkdir_main (oks ++ a :: rest) = mkdir_args (oks ++ a :: rest)) as -> by by destruct oks.
    apply (run_until_failure Mkdir CMkdir); [done|done|done|]. reflexivity.
  - apply foldl_did.
Qed.

(** ** init *)

(** init waits for its shell: every other child it reaps is reported, and the wait ends with
    the shell. *)
Lemma init_reaps pid zs rest w :
  w_waits w = zs ++ pid :: rest -> Forall (fun z => 0 <= z /\ z <> pid) zs ->
  run (init_wait pid) w ≈≈ Ret (set_waits rest (put 1 (concat (replicate (length zs) (fmt_line "zombie!"))) w), tt).
Proof.
  revert w. induction zs as [|z zs IH]; intros w E Hz.
  - rewrite put_nil. apply run_iter_inr. rewrite run_sys_bind. cbn. rewrite E. cbn.
    rewrite Z.eqb_refl, andb_false_r. apply run_ret.
  - apply Forall_cons in Hz as [[H0 Hn] Hz]. unfold init_wait.
    rewrite (run_iter_inl _ tt tt w (set_waits (zs ++ pid :: rest) (put 1 (fmt_line "zombie!") w))).
    + fold (init_wait pid). rewrite IH by done. rewrite put_set_waits, put_put. reflexivity.
    + rewrite run_sys_bind. cbn -[put fmt_line]. rewrite E. cbn -[put fmt_line].
      rewrite (proj2 (Z.leb_le 0 z)), (proj2 (Z.eqb_neq z pid)) by done. cbn [andb negb].
      rewrite (run_then _ _ _ _ _ (run_fprintf 1 (fmt_line "zombie!") [] (fmt_line "zombie!") _ eq_refl)).
      rewrite put_set_waits. apply run_ret.
Qed.

(** ** fmtname *)

(** The name ls prints has at least DIRSIZ characters, so the columns line up, and it is the
    last element of the path padded with blanks. *)
Lemma fmtname_spec dir name :
  47 ∉ name ->
  fmtname (dir ++ 47 :: name) = name ++ replicate (Z.to_nat DIRSIZ - length name) 32.
Proof.
  intros Hn. unfold fmtname.
  assert (forall l acc, 47 ∉ l -> after_slash (rev l ++ 47 :: rev dir) acc = l ++ acc) as Hs.
  { intros l. induction l as [|c l IH] using rev_ind; intros acc Hl; [done|].
    rewrite rev_app_distr. cbn. apply not_elem_of_app in Hl as [Hl Hc].
    rewrite (proj2 (Z.eqb_neq c 47)) by set_solver. rewrite IH by done. by rewrite <- app_assoc. }
  rewrite rev_app_distr. cbn [rev]. rewrite <- app_assoc. cbn [app]. rewrite Hs, app_nil_r by done.
  unfold DIRSIZ in *. case_decide; [|done].
  replace (Z.to_nat 14 - length name)%nat with 0%nat by lia. cbn. by rewrite app_nil_r.
Qed.
