(* ===== verification/TestProgs.v ===== *)
(** * The test programs as interaction trees

    forktest, stressfs, proctest, memtest, syscalltest, traptest and zombie, in the style of
    the other small programs.  The theorems are about forktest, which tests that fork fails
    gracefully: what it reports when the process table has room for fewer than 1000
    processes and when it has not, and what its children do. *)

From ITree Require Import ITree ITreeFacts Events.State Events.StateFacts.
From S2P Require Import Prelude CString State Console Ulib UserProgs.
#[local] Open Scope Z_scope.

(** ** forktest *)

(** forktest's own printf ignores the arguments. *)
Definition printf_plain (fd : Z) (s : list Z) : uprog unit :=
  ulet _ := sys (Write fd s) in Ret tt.

Definition FORKTEST_N : nat := 1000.

(** [for(n=0; n<N; n++)]: [rounds] rounds are left; the result is n. *)
Fixpoint fork_up (rounds n : nat) : uprog nat :=
  match rounds with
  | O => Ret n
  | S rounds =>
      ulet pid := sys Fork in
      if pid <? 0 then Ret n
      else if pid =? 0 then uexit
      else fork_up rounds (S n)
  end.

(** [for(; n > 0; n--)] *)
Fixpoint wait_down (n : nat) : uprog unit :=
  match n with
  | O => Ret tt
  | S n =>
      ulet r := sys Wait in
      if r <? 0 then ulet _ := printf_plain 1 (fmt_line "wait stopped early") in uexit
      else wait_down n
  end.

Definition forktest : uprog unit :=
  ulet _ := printf_plain 1 (fmt_line "fork test") in
  ulet n := fork_up FORKTEST_N 0 in
  if Nat.eqb n FORKTEST_N then
    ulet _ := printf_plain 1 (fmt_line "fork claimed to work N times!") in uexit
  else
    ulet _ := wait_down n in
    ulet r := sys Wait in
    if negb (r =? -1) then ulet _ := printf_plain 1 (fmt_line "wait got too many") in uexit
    else printf_plain 1 (fmt_line "fork test OK").

Definition forktest_main : uprog unit := ulet _ := forktest in uexit.

(** ** stressfs *)

(** [for(i = 0; i < 4; i++) if(fork() > 0) break;] *)
Fixpoint fork_chain (rounds : nat) (i : Z) : uprog Z :=
  match rounds with
  | O => Ret i
  | S rounds => ulet pid := sys Fork in if 0 <? pid then Ret i else fork_chain rounds (i + 1)
  end.

Fixpoint repeat_call (n : nat) (c : uprog unit) : uprog unit :=
  match n with
  | O => Ret tt
  | S n => ulet _ := c in repeat_call n c
  end.

Definition stressfs_main : uprog unit :=
  ulet _ := fprintf 1 (fmt_line "stressfs starting") [] in
  let data := replicate 512 97 in
  ulet i := fork_chain 4 0 in
  ulet _ := fprintf 1 (fmt_line "write %d") [FNum i] in
  let path := chars "stressfs" ++ [48 + i] in
  ulet fd := sys (Open path (Z.lor O_CREATE O_RDWR)) in
  ulet _ := repeat_call 20 (ulet _ := sys (Write fd data) in Ret tt) in
  ulet _ := sys (Close fd) in
  ulet _ := fprintf 1 (fmt_line "read") [] in
  ulet fd := sys (Open path O_RDONLY) in
  ulet _ := repeat_call 20 (ulet _ := sys (Read fd 512) in Ret tt) in
  ulet _ := sys (Close fd) in
  ulet _ := sys Wait in
  uexit.

(** ** proctest, memtest, syscalltest, traptest, zombie *)

Definition proctest_main : uprog unit :=
  ulet _ := fprintf 1 (fmt_line "proctest: starting") [] in
  ulet pid := sys Fork in
  if pid <? 0 then ulet _ := fprintf 1 (fmt_line "fork failed") [] in uexit else
  if pid =? 0 then
    ulet _ := fprintf 1 (fmt_line "child: sleeping") [] in
    ulet _ := sys (Sleep 20) in
    ulet _ := fprintf 1 (fmt_line "child: exiting") [] in
    uexit
  else
    ulet _ := fprintf 1 (fmt_line "parent: waiting for child %d") [FNum pid] in
    ulet _ := sys Wait in
    ulet _ := fprintf 1 (fmt_line "parent: child exited") [] in
    ulet _ := fprintf 1 (fmt_line "proctest: done") [] in
    uexit.

(** The byte stored in the new memory is not observed. *)
Definition memtest_main : uprog unit :=
  ulet _ := fprintf 1 (fmt_line "memtest: starting") [] in
  ulet p := sys (Sbrk 4096) in
  if p =? -1 then ulet _ := fprintf 1 (fmt_line "sbrk failed") [] in uexit else
  ulet _ := fprintf 1 (fmt_line "memtest: sbrk(4096) ok, touching memory ok") [] in
  ulet _ := sys (Sbrk 4096) in
  ulet _ := fprintf 1 (fmt_line "memtest: done") [] in
  uexit.

Definition syscalltest_main : uprog unit :=
  ulet _ := fprintf 1 (fmt_line "syscalltest: starting") [] in
  ulet _ := sys Getpid in
  ulet _ := sys (Write 1 (fmt_line "hello")) in
  ulet _ := sys (Open (chars "nonexistentfile") 0) in
  ulet _ := sys (Sleep 10) in
  ulet _ := fprintf 1 (fmt_line "syscalltest: done") [] in
  uexit.

(** A store through a null pointer is undefined in C. *)
Definition traptest_main : uprog unit :=
  ulet _ := fprintf 1 (fmt_line "traptest: starting, triggering page fault...") [] in
  undefined.

Definition zombie_main : uprog unit :=
  ulet pid := sys Fork in
  ulet _ := (if 0 <? pid then sys (Sleep 5) else Ret 0) in
  uexit.

(** ** What forktest reports *)

Lemma run_printf_plain fd s w : run (printf_plain fd s) w ≈≈ Ret (put fd s w, tt).
Proof. unfold printf_plain. rewrite run_sys_bind. cbn [answer fst snd]. apply run_ret. Qed.

(** The pids fork returns while there is room for [r]. *)
Fixpoint pids (r n : nat) : list Z :=
  match n with
  | O => []
  | S n => Z.of_nat r :: pids (r - 1) n
  end.

Lemma length_pids r n : length (pids r n) = n.
Proof. revert r. induction n as [|n IH]; intros r; cbn; [done|]. by rewrite IH. Qed.

Lemma set_room_waits_twice a b c d w :
  set_room c (set_waits d (set_room a (set_waits b w))) = set_room c (set_waits d w).
Proof. by destruct w. Qed.

(** fork succeeds as long as there is room. *)
Lemma run_fork_up rounds n w :
  run (fork_up rounds n) w ≈≈
  Ret (set_room (w_room w - Nat.min rounds (w_room w)) (set_waits (w_waits w ++ pids (w_room w) (Nat.min rounds (w_room w))) w),
       (n + Nat.min rounds (w_room w))%nat).
Proof.
  revert n w. induction rounds as [|rounds IH]; intros n w; cbn [fork_up].
  - rewrite run_ret. cbn [Nat.min pids]. rewrite app_nil_r, Nat.sub_0_r, Nat.add_0_r. by destruct w.
  - rewrite run_sys_bind. cbn [answer]. destruct (w_room w) as [|r] eqn:Er.
    + cbn [fst snd]. change (-1 <? 0) with true. cbv iota. rewrite run_ret. cbn [Nat.min pids Nat.sub].
      rewrite app_nil_r, Nat.add_0_r. destruct w. cbn in *. by subst.
    + cbn [fst snd]. rewrite (proj2 (Z.ltb_ge (Z.of_nat (S r)) 0)), (proj2 (Z.eqb_neq (Z.of_nat (S r)) 0)) by lia.
      rewrite IH. cbn [w_room set_room set_waits w_waits]. rewrite set_room_waits_twice, <- app_assoc.
      cbn [Nat.min pids]. replace (S r - 1)%nat with r by lia. cbn [app Nat.sub].
      replace (S n + Nat.min rounds r)%nat with (n + S (Nat.min rounds r))%nat by lia. reflexivity.
Qed.

(** Every child is reaped. *)
Lemma run_wait_down n w :
  (length (w_waits w) = n)%nat -> Forall (fun p => 0 <= p) (w_waits w) ->
  run (wait_down n) w ≈≈ Ret (set_waits [] w, tt).
Proof.
  revert w. induction n as [|n IH]; intros w Hl Hp; cbn [wait_down].
  - rewrite run_ret. apply nil_length_inv in Hl. destruct w. cbn in *. by subst.
  - destruct (w_waits w) as [|p ps] eqn:E; [done|]. apply Forall_cons in Hp as [Hp Hps].
    rewrite run_sys_bind. cbn [answer fst snd]. rewrite E. cbn [hd tail].
    rewrite (proj2 (Z.ltb_ge p 0)) by done. rewrite IH; [|by injection Hl|done]. by destruct w.
Qed.

Lemma pids_nonneg r n : Forall (fun p => 0 <= p) (pids r n).
Proof. revert r. induction n as [|n IH]; intros r; cbn; constructor; [lia|done]. Qed.

(** With room for fewer than 1000 processes forktest starts one for each, waits for all of
    them and reports success; the parent has no child left. *)
Lemma forktest_ok w :
  (w_room w < FORKTEST_N)%nat -> w_waits w = [] ->
  run forktest_main w ≈≈ stop (set_room 0 (put 1 (fmt_line "fork test" ++ fmt_line "fork test OK") w)).
Proof.
  intros Hr Hw. unfold forktest_main. set (w1 := put 1 (fmt_line "fork test") w).
  assert (w_room w1 = w_room w /\ w_waits w1 = []) as [R1 W1] by (unfold w1, put; by case_match).
  assert (run forktest w ≈≈ Ret (set_room 0 (put 1 (fmt_line "fork test" ++ fmt_line "fork test OK") w), tt)) as E.
  { unfold forktest. rewrite (run_then _ _ _ _ _ (run_printf_plain _ _ _)). fold w1.
    rewrite (run_then _ _ _ _ _ (run_fork_up _ _ _)). rewrite R1, W1, Nat.min_r, Nat.sub_diag by lia. cbn [app Nat.add].
    rewrite (proj2 (Nat.eqb_neq (w_room w) FORKTEST_N)) by lia.
    rewrite (run_then _ _ _ (set_room 0 w1) tt).
    2: { rewrite run_wait_down; [|apply length_pids|apply pids_nonneg]. clear -W1. clearbody w1. destruct w1. cbn in *. subst. reflexivity. }
    rewrite run_sys_bind. cbn [answer fst snd]. change (w_waits (set_room 0 w1)) with (w_waits w1). rewrite W1. cbn [hd tail negb Z.eqb Pos.eqb].
    rewrite run_printf_plain. unfold w1. rewrite <- put_put. unfold w1 in W1. destruct w. unfold put in *. cbn in *. by subst. }
  rewrite (run_then _ _ _ _ _ E). apply run_exit.
Qed.

(** With more room the claim of fork to work 1000 times is reported, and nothing is waited for. *)
Lemma forktest_claims w :
  (FORKTEST_N <= w_room w)%nat ->
  exists w', run forktest_main w ≈≈ stop w' /\
    w_out w' = w_out w ++ fmt_line "fork test" ++ fmt_line "fork claimed to work N times!" /\
    w_room w' = (w_room w - FORKTEST_N)%nat.
Proof.
  intros Hr. unfold forktest_main, forktest. set (w1 := put 1 (fmt_line "fork test") w).
  assert (w_room w1 = w_room w) as R1 by (unfold w1, put; by case_match).
  eexists. split; [|split].
  - rewrite run_bind. rewrite (run_then _ _ _ _ _ (run_printf_plain _ _ _)). fold w1.
    rewrite (run_then _ _ _ _ _ (run_fork_up _ _ _)). rewrite R1, Nat.min_l by lia.
    change (0 + FORKTEST_N)%nat with FORKTEST_N. rewrite Nat.eqb_refl.
    rewrite (run_then _ _ _ _ _ (run_printf_plain _ _ _)). rewrite run_exit, stop_bind. reflexivity.
  - unfold w1. cbn. by rewrite <- app_assoc.
  - done.
Qed.

(** In a child fork returns 0, and it exits without another call. *)
Lemma forktest_child rounds n :
  exists k, fork_up (S rounds) n ≈≈ Vis (inl1 Fork) k /\ k 0 ≈≈ uexit.
Proof.
  eexists. split; [cbn [fork_up]; unfold sys, ITree.trigger; rewrite bind_vis; reflexivity|].
  cbn beta. rewrite bind_ret_l. reflexivity.
Qed.
