(* ===== verification/Mp.v ===== *)
(** * Detection of the processors: src/mp.c

    The search of the firmware's memory for the MP floating pointer structure, the checks of
    the configuration table, and the loop over its entries, on the kernel's view of
    memory. *)

From S2P Require Import Prelude Mem State.

(** ** Data *)

Definition SIZEOF_MP : Z := 16.
Definition SIZEOF_MPCONF : Z := 44.
Definition SIZEOF_MPPROC : Z := 20.
Definition SIZEOF_MPIOAPIC : Z := 8.
Definition MPPROC : Z := 0.
Definition MPBUS : Z := 1.
Definition MPIOAPIC : Z := 2.
Definition MPIOINTR : Z := 3.
Definition MPLINTR : Z := 4.
Definition NCPU : nat := 8.

(** The fields at their offsets. *)
Definition mp_physaddr (m : mem) (mp : Z) : Z := ld32 m (mp + 4).
Definition mp_imcrp (m : mem) (mp : Z) : Z := ld8 m (mp + 12).
Definition conf_length (m : mem) (c : Z) : Z := le_combine (ld_bytes m (c + 4) 2).
Definition conf_version (m : mem) (c : Z) : Z := ld8 m (c + 6).
Definition conf_lapicaddr (m : mem) (c : Z) : Z := ld32 m (c + 36).

(** The globals: the apicid fields of cpus, ncpu, ioapicid, and lapic, which is null at
    first. *)
Record mpglobals : Type := MpGlobals {
  g_cpus : list Z;
  g_ncpu : nat;
  g_ioapicid : Z;
  g_lapic : Z
}.

(** ** Operations *)

(** [sum]: an int is added up and returned as a uchar. *)
Definition sum (m : mem) (addr len : Z) : Z :=
  u8 (foldl (fun s b => s32 (s + b)) 0 (ld_bytes m addr (Z.to_nat len))).

(** [for(p = addr; p < e; p += sizeof(struct mp))]: [n] structures are left. *)
Fixpoint mpsearch1_from (m : mem) (n : nat) (p : Z) : option Z :=
  match n with
  | O => None
  | S n' =>
      if bool_decide (ld_bytes m p 4 = chars "_MP_") && (sum m p SIZEOF_MP =? 0) then Some p
      else mpsearch1_from m n' (p + SIZEOF_MP)
  end.
Definition mpsearch1 (m : mem) (a len : Z) : option Z :=
  mpsearch1_from m (Z.to_nat ((len + SIZEOF_MP - 1) / SIZEOF_MP)) (p2v a).

Definition mpsearch (m : mem) : option Z :=
  let bda := p2v 1024 in
  let p := Z.shiftl (Z.lor (Z.shiftl (ld8 m (bda + 15)) 8) (ld8 m (bda + 14))) 4 in
  let r :=
    if negb (p =? 0) then mpsearch1 m p 1024
    else
      let p := Z.lor (Z.shiftl (ld8 m (bda + 20)) 8) (ld8 m (bda + 19)) * 1024 in
      mpsearch1 m (u32 (p - 1024)) 1024 in
  match r with
  | Some mp => Some mp
  | None => mpsearch1 m 983040 65536               (* 0xF0000, 0x10000 *)
  end.

(** The table, and the structure that points to it. *)
Definition mpconfig (m : mem) : option (Z * Z) :=
  match mpsearch m with
  | None => None
  | Some mp =>
      if mp_physaddr m mp =? 0 then None else
      let conf := p2v (mp_physaddr m mp) in
      if negb (bool_decide (ld_bytes m conf 4 = chars "PCMP")) then None else
      if negb (conf_version m conf =? 1) && negb (conf_version m conf =? 4) then None else
      if negb (sum m conf (conf_length m conf) =? 0) then None else
      Some (conf, mp)
  end.

(** The entries of the table: [inr] is the panic, [None] the end of the fuel. *)
Fixpoint mp_entries (fuel : nat) (m : mem) (p e : Z) (g : mpglobals) : option (mpglobals + mpglobals) :=
  if p <? e then
    match fuel with
    | O => None
    | S fuel' =>
        let t := ld8 m p in
        if t =? MPPROC then
          let g := if decide (g_ncpu g < NCPU)%nat
                   then MpGlobals (<[g_ncpu g := ld8 m (p + 1)]> (g_cpus g)) (S (g_ncpu g)) (g_ioapicid g) (g_lapic g)
                   else g in
          mp_entries fuel' m (p + SIZEOF_MPPROC) e g
        else if t =? MPIOAPIC then
          mp_entries fuel' m (p + SIZEOF_MPIOAPIC) e
            (MpGlobals (g_cpus g) (g_ncpu g) (ld8 m (p + 1)) (g_lapic g))
        else if (t =? MPBUS) || (t =? MPIOINTR) || (t =? MPLINTR) then mp_entries fuel' m (p + 8) e g
        else Some (inr g)
    end
  else Some (inl g).

(** The ports written when the structure has the IMCR bit; [in23] is what the port 0x23
    reads as. *)
Variant mpresult : Type :=
  | MpNone                                          (* no other CPUs found *)
  | MpDone (g : mpglobals) (ports : list (Z * Z))
  | MpPanic (g : mpglobals).

(** Every entry has 8 bytes at least, so the length of the table is enough fuel. *)
Definition mpinit (m : mem) (in23 : Z) (g : mpglobals) : option mpresult :=
  match mpconfig m with
  | None => Some MpNone
  | Some (conf, mp) =>
      let g := MpGlobals (g_cpus g) (g_ncpu g) (g_ioapicid g) (p2v (conf_lapicaddr m conf)) in
      r ← mp_entries (Z.to_nat (conf_length m conf)) m (conf + SIZEOF_MPCONF) (conf + conf_length m conf) g;
      Some match r with
           | inr g => MpPanic g
           | inl g =>
               MpDone g (if negb (mp_imcrp m mp =? 0) then [(34, 112); (35, Z.lor in23 1)] else [])
           end
  end.

(** ** The search *)

Lemma mpsearch1_from_spec m n p q :
  mpsearch1_from m n p = Some q ->
  exists i, (i < n)%nat /\ q = p + SIZEOF_MP * Z.of_nat i /\ ld_bytes m q 4 = chars "_MP_" /\ sum m q SIZEOF_MP = 0.
Proof.
  revert p. induction n as [|n IH]; intros p H; cbn [mpsearch1_from] in H; [done|].
  destruct (bool_decide _) eqn:Eb, (Z.eqb_spec (sum m p SIZEOF_MP) 0) as [Es|Es]; cbn [andb] in H;
    try (destruct (IH _ H) as (i & Hi & -> & Hr); exists (S i); split_and!; [lia|lia|apply Hr|apply Hr]).
  simplify_eq. exists 0%nat. split_and!; [lia|lia|by apply bool_decide_eq_true in Eb|done].
Qed.

Definition valid_mp (m : mem) (p : Z) : Prop := ld_bytes m p 4 = chars "_MP_" /\ sum m p SIZEOF_MP = 0.

(** A structure in the scanned range is not missed. *)
Lemma mpsearch1_from_complete m n p i :
  (i < n)%nat -> valid_mp m (p + SIZEOF_MP * Z.of_nat i) -> mpsearch1_from m n p <> None.
Proof.
  revert p i. induction n as [|n IH]; intros p i Hi [Hs Hc] H; [lia|]. cbn [mpsearch1_from] in H.
  destruct i as [|i].
  - rewrite Z.mul_0_r, Z.add_0_r in *. rewrite (bool_decide_eq_true_2 _ Hs), (proj2 (Z.eqb_eq _ _) Hc) in H. done.
  - destruct (_ && _); [done|]. apply (IH (p + SIZEOF_MP) i); [lia| |done].
    replace (p + SIZEOF_MP + SIZEOF_MP * Z.of_nat i) with (p + SIZEOF_MP * Z.of_nat (S i)) by lia. done.
Qed.

(** mpinit acts on a table only if a valid structure points to it and its signature,
    version and checksum are right. *)
Lemma mpconfig_valid m conf mp :
  mpconfig m = Some (conf, mp) ->
  valid_mp m mp /\ conf = p2v (mp_physaddr m mp) /\ mp_physaddr m mp <> 0 /\ ld_bytes m conf 4 = chars "PCMP" /\
  (conf_version m conf = 1 \/ conf_version m conf = 4) /\ sum m conf (conf_length m conf) = 0.
Proof.
  unfold mpconfig. destruct (mpsearch m) as [q|] eqn:E; [|done].
  assert (valid_mp m q) as Hq.
  { assert (forall a len, mpsearch1 m a len = Some q -> valid_mp m q) as H1.
    { intros a len H. apply mpsearch1_from_spec in H as (i & _ & _ & H). exact H. }
    unfold mpsearch in E. cbv zeta in E.
    match type of E with match ?r with _ => _ end = _ => destruct r as [mp0|] eqn:Er end; [|by apply H1 in E].
    injection E as ->. revert Er. case_match; apply H1. }
  destruct (Z.eqb_spec (mp_physaddr m q) 0); [done|]. case_bool_decide; [|done]. cbn [negb].
  destruct (Z.eqb_spec (conf_version m (p2v (mp_physaddr m q))) 1),
    (Z.eqb_spec (conf_version m (p2v (mp_physaddr m q))) 4); cbn [negb andb]; try done;
    destruct (Z.eqb_spec (sum m (p2v (mp_physaddr m q)) (conf_length m (p2v (mp_physaddr m q)))) 0);
    cbn [negb]; intros; simplify_eq; auto 10.
Qed.

(** ** The entries *)

Lemma mp_entries_total fuel m p e g :
  e - p <= 8 * Z.of_nat fuel -> is_Some (mp_entries fuel m p e g).
Proof.
  revert p g. induction fuel as [|fuel IH]; intros p g H; cbn [mp_entries]; destruct (Z.ltb_spec p e); try by eexists.
  - lia.
  - unfold SIZEOF_MPPROC, SIZEOF_MPIOAPIC. repeat case_match; try (apply IH; lia). by eexists.
Qed.

(** mpinit ends, whatever the firmware's memory holds. *)
Lemma mpinit_total m in23 g : is_Some (mpinit m in23 g).
Proof.
  unfold mpinit. destruct (mpconfig m) as [[conf mp]|]; [|by eexists].
  destruct (mp_entries_total (Z.to_nat (conf_length m conf)) m (conf + SIZEOF_MPCONF) (conf + conf_length m conf)
    (MpGlobals (g_cpus g) (g_ncpu g) (g_ioapicid g) (p2v (conf_lapicaddr m conf)))) as [r ->]; [|by eexists].
  unfold SIZEOF_MPCONF. lia.
Qed.

(** The entries as data, and their bytes. *)
Inductive mp_entry : Type :=
  | EProc (apicid : Z) (rest : list Z)
  | EIoapic (apicno : Z) (rest : list Z)
  | EOther (type : Z) (rest : list Z).

Definition entry_bytes (e : mp_entry) : list Z :=
  match e with
  | EProc a r => MPPROC :: a :: r
  | EIoapic a r => MPIOAPIC :: a :: r
  | EOther t r => t :: r
  end.
Definition entry_ok (e : mp_entry) : Prop :=
  match e with
  | EProc _ r => length r = 18%nat
  | EIoapic _ r => length r = 6%nat
  | EOther t r => (t = MPBUS \/ t = MPIOINTR \/ t = MPLINTR) /\ length r = 7%nat
  end.
Definition apicids (es : list mp_entry) : list Z :=
  omap (fun e => match e with EProc a _ => Some a | _ => None end) es.
Definition ioapics (es : list mp_entry) : list Z :=
  omap (fun e => match e with EIoapic a _ => Some a | _ => None end) es.

Lemma ld_bytes_app m p n k : ld_bytes m p (n + k) = ld_bytes m p n ++ ld_bytes m (p + Z.of_nat n) k.
Proof.
  revert p. induction n as [|n IH]; intros p; cbn [ld_bytes app Nat.add].
  - by rewrite Z.add_0_r.
  - rewrite IH. do 3 f_equal. lia.
Qed.

(** The globals after the entries. *)
Definition after (es : list mp_entry) (g : mpglobals) : mpglobals :=
  foldl (fun g e => match e with
    | EProc a _ => if decide (g_ncpu g < NCPU)%nat
                   then MpGlobals (<[g_ncpu g := a]> (g_cpus g)) (S (g_ncpu g)) (g_ioapicid g) (g_lapic g) else g
    | EIoapic a _ => MpGlobals (g_cpus g) (g_ncpu g) a (g_lapic g)
    | EOther _ _ => g
    end) g es.

Lemma mp_entries_after fuel m p es g :
  Forall entry_ok es -> (length es <= fuel)%nat ->
  ld_bytes m p (length (concat (entry_bytes <$> es))) = concat (entry_bytes <$> es) ->
  mp_entries fuel m p (p + Z.of_nat (length (concat (entry_bytes <$> es)))) g = Some (inl (after es g)).
Proof.
  revert fuel p g. induction es as [|x es IH]; intros fuel p g Hok Hf Hm.
  - cbn [fmap list_fmap concat length]. destruct fuel; cbn [mp_entries]; rewrite (proj2 (Z.ltb_ge _ _)) by lia; done.
  - apply Forall_cons in Hok as [Hx Hok]. destruct fuel as [|fuel]; [cbn in Hf; lia|].
    cbn [fmap list_fmap concat] in *. rewrite length_app, ld_bytes_app in *.
    apply app_inj_1 in Hm as [Hh Ht]; [|by rewrite length_ld_bytes].
    assert (Hn : (2 <= length (entry_bytes x))%nat) by (destruct x; cbn in *; lia).
    assert (H0 : entry_bytes x !! 0%nat = Some (ld8 m p)).
    { rewrite <- Hh, lookup_ld_bytes by lia. by rewrite Z.add_0_r. }
    assert (H1 : entry_bytes x !! 1%nat = Some (ld8 m (p + 1))) by (rewrite <- Hh, lookup_ld_bytes by lia; done).
    specialize (IH fuel (p + Z.of_nat (length (entry_bytes x)))).
    rewrite <- Z.add_assoc, <- Nat2Z.inj_add in IH.
    cbn [mp_entries]. rewrite (proj2 (Z.ltb_lt _ _)) by lia.
    destruct x as [a r|a r|t r]; cbn in H0, H1, Hx; injection H0 as H0.
    + injection H1 as H1. rewrite <- H0. cbn [Z.eqb MPPROC]. rewrite <- H1.
      replace (p + SIZEOF_MPPROC) with (p + Z.of_nat (length (entry_bytes (EProc a r)))) by (cbn; unfold SIZEOF_MPPROC; lia).
      apply IH; [done|cbn in Hf; lia|done].
    + injection H1 as H1. rewrite <- H0. cbn [Z.eqb MPPROC MPIOAPIC Pos.eqb]. rewrite <- H1.
      replace (p + SIZEOF_MPIOAPIC) with (p + Z.of_nat (length (entry_bytes (EIoapic a r)))) by (cbn; unfold SIZEOF_MPIOAPIC; lia).
      apply IH; [done|cbn in Hf; lia|done].
    + destruct Hx as [Ht' Hr]. subst t.
      replace (p + 8) with (p + Z.of_nat (length (entry_bytes (EOther (ld8 m p) r)))) by (cbn; lia).
      rewrite (IH g) by first [done | cbn in Hf; lia]. by destruct Ht' as [E|[E|E]]; rewrite E.
Qed.

Lemma after_cpus es g :
  length (g_cpus g) = NCPU -> (g_ncpu g <= NCPU)%nat ->
  length (g_cpus (after es g)) = NCPU /\
  take (g_ncpu (after es g)) (g_cpus (after es g)) = take NCPU (take (g_ncpu g) (g_cpus g) ++ apicids es) /\
  g_ncpu (after es g) = Nat.min NCPU (g_ncpu g + length (apicids es)) /\
  g_ioapicid (after es g) = default (g_ioapicid g) (last (ioapics es)).
Proof.
  revert g. induction es as [|x es IH]; intros g Hl Hn.
  - cbn [after foldl apicids ioapics omap list_omap last default length]. rewrite app_nil_r, take_take, Nat.add_0_r.
    by rewrite !(Nat.min_r NCPU) by lia.
  - destruct x as [a r|a r|t r]; cbn [after foldl apicids ioapics omap list_omap].
    + case_decide as Hc.
      * destruct (IH (MpGlobals (<[g_ncpu g:=a]> (g_cpus g)) (S (g_ncpu g)) (g_ioapicid g) (g_lapic g)))
          as (H1 & H2 & H3 & H4);
          cbn [g_cpus g_ncpu g_ioapicid g_lapic] in *; [by rewrite length_insert|lia|].
        unfold after in *. rewrite H1, H2, H3, H4. fold (apicids es) (ioapics es). cbn [length].
        split_and!; [done| |lia|done]. f_equal. rewrite (take_S_r _ _ a) by (apply list_lookup_insert_eq; lia).
        rewrite take_insert_ge by lia. by rewrite <- app_assoc.
      * destruct (IH g Hl Hn) as (H1 & H2 & H3 & H4). unfold after in *. rewrite H1, H2, H3, H4.
        fold (apicids es) (ioapics es). cbn [length]. split_and!; [done| |lia|done].
        rewrite !take_app_le; [done| |]; rewrite length_take; lia.
    + destruct (IH (MpGlobals (g_cpus g) (g_ncpu g) a (g_lapic g)) Hl Hn) as (H1 & H2 & H3 & H4).
      unfold after in *. rewrite H1, H2, H3, H4. split_and!; try done.
      fold (ioapics es). rewrite last_cons. by destruct (last (ioapics es)).
    + apply (IH g Hl Hn).
Qed.

(** From a well-formed table the kernel takes the first NCPU processors in order, with
    their local APIC ids, and the last I/O APIC: cpus is not overrun however many processors
    the table lists. *)
Lemma mp_entries_cpus fuel m p es g :
  Forall entry_ok es -> length (g_cpus g) = NCPU -> g_ncpu g = 0%nat -> (length es <= fuel)%nat ->
  ld_bytes m p (length (concat (entry_bytes <$> es))) = concat (entry_bytes <$> es) ->
  exists g', mp_entries fuel m p (p + Z.of_nat (length (concat (entry_bytes <$> es)))) g = Some (inl g') /\
    length (g_cpus g') = NCPU /\ take (g_ncpu g') (g_cpus g') = take NCPU (apicids es) /\
    g_ncpu g' = Nat.min NCPU (length (apicids es)) /\ g_ioapicid g' = default (g_ioapicid g) (last (ioapics es)).
Proof.
  intros Hok Hl H0 Hn Hm. exists (after es g). split; [by apply mp_entries_after|].
  destruct (after_cpus es g Hl) as (H1 & H2 & H3 & H4); [lia|]. rewrite H0 in *. done.
Qed.

(** ** The tables are in the first megabyte

    The firmware keeps its tables below 1 MB, where the kernel writes nothing before it has
    read them: mpinit finds the same in every memory with the same first megabyte. *)

Definition MB : Z := 1048576.

Definition mp_low (m : mem) : Prop :=
  let bda := p2v 1024 in
  let ebda := Z.shiftl (Z.lor (Z.shiftl (ld8 m (bda + 15)) 8) (ld8 m (bda + 14))) 4 in
  let kb := Z.lor (Z.shiftl (ld8 m (bda + 20)) 8) (ld8 m (bda + 19)) in
  ((0 < ebda /\ ebda + 1024 <= MB) \/ (ebda = 0 /\ 1 <= kb <= 1024)) /\
  forall mp, mpsearch m = Some mp ->
    let a := mp_physaddr m mp in
    let n := conf_length m (p2v a) in
    0 <= a /\ 0 <= n /\ a + SIZEOF_MPCONF + n + SIZEOF_MPPROC <= MB.

Lemma p2v_low a : 0 <= a <= MB -> p2v a = KERNBASE + a.
Proof. unfold p2v, MB, KERNBASE. intros H. rewrite u64_small by (unfold in_u64; lia). lia. Qed.

Section Low.
  Variables m m' : mem.
  Hypothesis low_same : forall x, KERNBASE <= x < KERNBASE + MB -> ld8 m' x = ld8 m x.

Lemma ld_bytes_low a n : 0 <= a -> a + Z.of_nat n <= MB -> ld_bytes m' (KERNBASE + a) n = ld_bytes m (KERNBASE + a) n.
Proof. intros H1 H2. apply ld_bytes_ext. intros x Hx. apply low_same. lia. Qed.

Lemma sum_low a n : 0 <= a -> a + n <= MB -> 0 <= n -> sum m' (KERNBASE + a) n = sum m (KERNBASE + a) n.
Proof. intros H1 H2 H3. unfold sum. by rewrite ld_bytes_low by lia. Qed.

Lemma mpsearch1_from_low n a :
  0 <= a -> a + SIZEOF_MP * Z.of_nat n <= MB ->
  mpsearch1_from m' n (KERNBASE + a) = mpsearch1_from m n (KERNBASE + a).
Proof.
  unfold SIZEOF_MP. revert a. induction n as [|n IH]; intros a H1 H2; [done|]. cbn [mpsearch1_from].
  rewrite ld_bytes_low, sum_low by (unfold SIZEOF_MP; lia). case_match; [done|].
  rewrite <- Z.add_assoc. apply IH; unfold SIZEOF_MP; lia.
Qed.

Lemma mpsearch1_low a len :
  0 <= a -> 0 <= len -> len `mod` SIZEOF_MP = 0 -> a + len <= MB ->
  mpsearch1 m' a len = mpsearch1 m a len.
Proof.
  unfold SIZEOF_MP. intros H1 H2 H0 H3. unfold mpsearch1. rewrite p2v_low by lia. apply mpsearch1_from_low; [done|].
  unfold SIZEOF_MP. rewrite Z2Nat.id by (Z.to_euclidean_division_equations; lia). Z.to_euclidean_division_equations; lia.
Qed.

Lemma mpsearch_low : mp_low m -> mpsearch m' = mpsearch m.
Proof.
  intros [H _]. unfold mpsearch. rewrite p2v_low in * by (unfold MB; lia).
  rewrite !low_same by (unfold MB; lia).
  rewrite (mpsearch1_low 983040 65536) by (done || unfold MB; lia).
  destruct H as [[H1 H2]|[H1 H2]].
  - rewrite (proj2 (Z.eqb_neq _ 0)) by lia. cbn [negb]. by rewrite mpsearch1_low by (done || lia).
  - rewrite (proj2 (Z.eqb_eq _ 0)) by lia. cbn [negb]. rewrite mpsearch1_low; [done|..].
    + apply u32_range.
    + done.
    + done.
    + rewrite u32_small by (unfold in_u32; lia). unfold MB. lia.
Qed.

Lemma mpsearch1_place a len mp :
  0 <= a -> 0 <= len -> len `mod` SIZEOF_MP = 0 -> a + len <= MB -> mpsearch1 m a len = Some mp ->
  exists b, mp = KERNBASE + b /\ 0 <= b /\ b + SIZEOF_MP <= MB.
Proof.
  intros H1 H2 H0 H3 E. unfold mpsearch1 in E. apply mpsearch1_from_spec in E as (i & Hi & -> & _).
  exists (a + SIZEOF_MP * Z.of_nat i). rewrite p2v_low by lia. unfold SIZEOF_MP in *.
  Z.to_euclidean_division_equations; lia.
Qed.

Lemma mpsearch_place mp :
  mp_low m -> mpsearch m = Some mp -> exists b, mp = KERNBASE + b /\ 0 <= b /\ b + SIZEOF_MP <= MB.
Proof.
  intros [H _]. unfold mpsearch.
  destruct H as [[H1 H2]|[H1 H2]].
  - rewrite (proj2 (Z.eqb_neq _ 0)) by lia. cbn [negb]. case_match eqn:E.
    + intros [= ->]. by eapply mpsearch1_place; [..|exact E]; try done; lia.
    + intros E2. by eapply (mpsearch1_place 983040 65536).
  - rewrite (proj2 (Z.eqb_eq _ 0)) by lia. cbn [negb]. case_match eqn:E.
    + intros [= ->]. eapply mpsearch1_place; [..|exact E]; try done; rewrite u32_small by (unfold in_u32; lia); unfold MB; lia.
    + intros E2. by eapply (mpsearch1_place 983040 65536).
Qed.

Lemma mp_entries_low fuel a e g :
  0 <= a -> e + SIZEOF_MPPROC <= MB ->
  mp_entries fuel m' (KERNBASE + a) (KERNBASE + e) g = mp_entries fuel m (KERNBASE + a) (KERNBASE + e) g.
Proof.
  intros Ha He. unfold SIZEOF_MPPROC in He. revert a g Ha. induction fuel as [|fuel IH]; intros a g Ha; [done|].
  cbn [mp_entries]. destruct (Z.ltb_spec (KERNBASE + a) (KERNBASE + e)); [|done].
  rewrite !low_same by lia. unfold SIZEOF_MPPROC, SIZEOF_MPIOAPIC. rewrite <- !Z.add_assoc.
  repeat case_match; (apply IH; lia) || done.
Qed.

Lemma conf_low a :
  0 <= a -> a + SIZEOF_MPCONF <= MB ->
  conf_length m' (KERNBASE + a) = conf_length m (KERNBASE + a) /\
  conf_version m' (KERNBASE + a) = conf_version m (KERNBASE + a) /\
  conf_lapicaddr m' (KERNBASE + a) = conf_lapicaddr m (KERNBASE + a).
Proof.
  unfold SIZEOF_MPCONF, conf_length, conf_version, conf_lapicaddr, ld32. intros H1 H2. rewrite <- !Z.add_assoc.
  rewrite !ld_bytes_low, low_same by lia. done.
Qed.

Lemma mpconfig_low : mp_low m -> mpconfig m' = mpconfig m.
Proof.
  intros Hlow. unfold mpconfig. rewrite (mpsearch_low Hlow). destruct (mpsearch m) as [mp|] eqn:E; [|done].
  destruct (mpsearch_place mp Hlow E) as (b & -> & Hb1 & Hb2). destruct Hlow as [_ Hlow].
  destruct (Hlow _ E) as (Ha1 & Hn & Ha2). unfold SIZEOF_MP, SIZEOF_MPCONF, SIZEOF_MPPROC in *.
  assert (mp_physaddr m' (KERNBASE + b) = mp_physaddr m (KERNBASE + b)) as ->.
  { unfold mp_physaddr, ld32. rewrite <- Z.add_assoc. by rewrite ld_bytes_low by lia. }
  set (a := mp_physaddr m (KERNBASE + b)) in *.
  assert (p2v a = KERNBASE + a) as Ep by (apply p2v_low; unfold MB in *; lia). rewrite Ep in *.
  destruct (conf_low a) as (-> & -> & _); [lia|unfold SIZEOF_MPCONF; lia|].
  by rewrite ld_bytes_low, sum_low by lia.
Qed.

Lemma mpinit_low in23 g : mp_low m -> mpinit m' in23 g = mpinit m in23 g.
Proof.
  intros Hlow. unfold mpinit. rewrite (mpconfig_low Hlow). destruct (mpconfig m) as [[conf mp]|] eqn:Ec; [|done].
  destruct (mpconfig_valid m conf mp Ec) as (_ & -> & _).
  assert (mpsearch m = Some mp) as E.
  { revert Ec. unfold mpconfig. destruct (mpsearch m); [|done]. repeat case_match; by intros [= _ ->]. }
  destruct (mpsearch_place mp Hlow E) as (b & -> & Hb1 & Hb2). destruct Hlow as [_ Hlow].
  destruct (Hlow _ E) as (Ha1 & Hn & Ha2). unfold SIZEOF_MP, SIZEOF_MPCONF, SIZEOF_MPPROC in *.
  set (a := mp_physaddr m (KERNBASE + b)) in *.
  assert (p2v a = KERNBASE + a) as Ep by (apply p2v_low; unfold MB in *; lia). rewrite Ep in *.
  destruct (conf_low a) as (-> & _ & ->); [lia|unfold SIZEOF_MPCONF; lia|].
  rewrite <- !Z.add_assoc, mp_entries_low by (unfold SIZEOF_MPPROC; lia).
  assert (mp_imcrp m' (KERNBASE + b) = mp_imcrp m (KERNBASE + b)) as -> by (apply low_same; lia). done.
Qed.

End Low.
