(* ===== verification/Boot.v ===== *)
(** * The boot loader: src/bootmain.c

    The boot sector runs in 32-bit mode on physical memory.  The disk is a function from
    sector numbers to their 512 bytes; the sector a command reads is the one that the bytes
    written to the task file registers make up.  That the controller becomes ready is
    assumed, as waitdisk does. *)

From S2P Require Import Prelude Mem.

Definition SECTSIZE : Z := 512.
Definition MB_MAGIC : Z := 464367618. (* 0x1BADB002 *)
Definition SCRATCH : Z := 65536.      (* 0x10000 *)

(** The fields of struct mbheader at [h]. *)
Definition hdr_flags (m : mem) (h : Z) : Z := ld32 m (h + 4).
Definition hdr_header_addr (m : mem) (h : Z) : Z := ld32 m (h + 12).
Definition hdr_load_addr (m : mem) (h : Z) : Z := ld32 m (h + 16).
Definition hdr_load_end_addr (m : mem) (h : Z) : Z := ld32 m (h + 20).
Definition hdr_bss_end_addr (m : mem) (h : Z) : Z := ld32 m (h + 24).
Definition hdr_entry_addr (m : mem) (h : Z) : Z := ld32 m (h + 28).

(** The bytes readsect writes to the ports 0x1F3 to 0x1F6. *)
Definition taskfile (offset : Z) : list Z :=
  [u8 offset; u8 (Z.shiftr offset 8); u8 (Z.shiftr offset 16); u8 (Z.lor (Z.shiftr offset 24) 224)].

(** The sector they address: 28 bits, the upper four in the low half of the last. *)
Definition lba (r : list Z) : Z :=
  match r with
  | [a; b; c; d] => a + 256 * b + 65536 * c + 16777216 * Z.land d 15
  | _ => 0
  end.

Section boot.
Context (disk : Z -> list Z).

Definition readsect (m : mem) (dst offset : Z) : mem := st_bytes m dst (disk (lba (taskfile offset))).

(** [for(; pa < epa; pa += SECTSIZE, offset++)] *)
Fixpoint readseg_from (fuel : nat) (m : mem) (pa epa offset : Z) : option mem :=
  if pa <? epa then
    match fuel with
    | O => None
    | S fuel' => readseg_from fuel' (readsect m pa offset) (u32 (pa + SECTSIZE)) epa (u32 (offset + 1))
    end
  else Some m.

Definition readseg (fuel : nat) (m : mem) (pa count offset : Z) : option mem :=
  readseg_from fuel m (u32 (pa - offset `mod` SECTSIZE)) (u32 (pa + count)) (u32 (offset / SECTSIZE + 1)).

(** [for (n = 0; n < 8192/4; n++)]: [k] words are left. *)
Fixpoint find_header (m : mem) (k : nat) (n : Z) : option Z :=
  match k with
  | O => None
  | S k' =>
      let x i := ld32 m (SCRATCH + 4 * i) in
      if (x n =? MB_MAGIC) && (u32 (x n + x (n + 1) + x (n + 2)) =? 0) then Some n
      else find_header m k' (n + 1)
  end.

(** [inl]: the loader gives up and returns; [inr]: it jumps to the entry. *)
Definition bootmain (fuel : nat) (m : mem) : option (mem + mem * Z) :=
  m ← readseg fuel m SCRATCH 8192 0;
  match find_header m 2048 0 with
  | None => Some (inl m)
  | Some n =>
      let h := SCRATCH + 4 * n in
      if Z.land (hdr_flags m h) 65536 =? 0 then Some (inl m) else
      if hdr_load_addr m h >? hdr_header_addr m h then Some (inl m) else
      if hdr_load_end_addr m h <? hdr_load_addr m h then Some (inl m) else
      m ← readseg fuel m (hdr_load_addr m h) (u32 (hdr_load_end_addr m h - hdr_load_addr m h))
            (u32 (n * 4 - u32 (hdr_header_addr m h - hdr_load_addr m h)));
      let m := if hdr_bss_end_addr m h >? hdr_load_end_addr m h
               then Kstring.stosb m (hdr_load_end_addr m h) 0
                      (Z.to_nat (u32 (hdr_bss_end_addr m h - hdr_load_end_addr m h)))
               else m in
      Some (inr (m, hdr_entry_addr m h))
  end.
End boot.

(** ** Reading a segment *)

Lemma lba_taskfile s : 0 <= s < 2 ^ 28 -> lba (taskfile s) = s.
Proof.
  intros Hs. unfold lba, taskfile. rewrite !Z.shiftr_div_pow2 by lia.
  assert (Z.land (u8 (Z.lor (s / 2 ^ 24) 224)) 15 = s / 2 ^ 24) as ->.
  { assert (0 <= s / 2 ^ 24 < 16) as H by (split; [apply Z.div_pos; lia|apply Z.div_lt_upper_bound; lia]).
    generalize dependent (s / 2 ^ 24). intros q Hq.
    assert (forall i, (0 <= i < 16) -> Z.land (u8 (Z.lor i 224)) 15 = i) as Hall; [|by apply Hall].
    intros i Hi. replace i with (Z.of_nat (Z.to_nat i)) by lia.
    assert (Z.to_nat i < 16)%nat as Hn by lia. revert Hn. generalize (Z.to_nat i). clear.
    intros n Hn. do 16 (destruct n as [|n]; [done|]). lia. }
  mach.
Qed.

(** The byte [i] of the disk after the boot sector: the kernel's image. *)
Definition image (disk : Z -> list Z) (i : Z) : Z := default 0 (disk (i / 512 + 1) !! Z.to_nat (i `mod` 512)).

Section readseg.
Context (disk : Z -> list Z).
Hypothesis sectors : forall s, length (disk s) = 512%nat /\ Forall in_u8 (disk s).

Lemma ld8_readsect m dst s x :
  0 <= s < 2 ^ 28 - 1 ->
  ld8 (readsect disk m dst (s + 1)) x = if decide (dst <= x < dst + 512) then image disk (512 * s + (x - dst)) else ld8 m x.
Proof.
  intros Hs. unfold readsect. rewrite lba_taskfile by lia. destruct (sectors (s + 1)) as [Hl Hb].
  rewrite ld8_st_bytes, Hl. change (Z.of_nat 512) with 512. case_decide as Hx; [|done]. unfold image.
  replace ((512 * s + (x - dst)) / 512) with s by mach. replace ((512 * s + (x - dst)) `mod` 512) with (x - dst) by mach.
  destruct (disk (s + 1) !! Z.to_nat (x - dst)) as [b|] eqn:E; [|done]. cbn.
  apply Z.mod_small. apply (Forall_lookup_1 _ _ _ _ Hb E).
Qed.

Lemma readseg_from_spec fuel m pa epa s :
  0 <= pa -> epa + 512 < 2 ^ 32 -> 0 <= s -> 512 * s + (epa - pa) + 512 < 2 ^ 37 -> epa - pa <= 512 * Z.of_nat fuel ->
  exists m' e, readseg_from disk fuel m pa epa (s + 1) = Some m' /\ (pa < epa -> epa <= e < epa + 512) /\ (epa <= pa -> e = pa) /\
    forall x, ld8 m' x = if decide (pa <= x < e) then image disk (512 * s + (x - pa)) else ld8 m x.
Proof.
  revert m pa s. induction fuel as [|fuel IH]; intros m pa s Hp He Hs Hd Hf; cbn [readseg_from];
    destruct (Z.ltb_spec pa epa) as [Hlt|Hlt]; try lia;
    try (exists m, pa; split_and!; [done|lia|lia|]; intros x; rewrite decide_False by lia; done).
  unfold SECTSIZE. rewrite !u32_small by (unfold in_u32; lia).
  destruct (IH (readsect disk m pa (s + 1)) (pa + 512) (s + 1)) as (m' & e & -> & Hr1 & Hr2 & Hm); [lia..|].
  exists m', e. split_and!; [done|lia|lia|]. intros x. rewrite Hm, ld8_readsect by lia.
  repeat case_decide; try lia; try done. f_equal. lia.
Qed.
(** readseg puts the bytes of the kernel's image from [offset] on at [pa]; what else it
    writes is before [pa], down to the sector's beginning, or after the end, up to the
    sector's. *)
Lemma readseg_spec fuel m pa count offset :
  0 <= offset -> offset `mod` 512 <= pa -> 0 <= count -> pa + count + 512 < 2 ^ 32 ->
  offset + count + 1024 < 2 ^ 32 -> count + 512 <= 512 * Z.of_nat fuel ->
  exists m', readseg disk fuel m pa count offset = Some m' /\
    (forall i, 0 <= i < count -> ld8 m' (pa + i) = image disk (offset + i)) /\
    (forall x, x < pa - 511 \/ pa + count + 511 <= x -> ld8 m' x = ld8 m x).
Proof.
  intros Ho Hp Hc He Hd Hf. pose proof (Z.mod_pos_bound offset 512 ltac:(lia)) as Hm.
  pose proof (Z.div_mod offset 512 ltac:(lia)) as Hq. pose proof (Z.div_pos offset 512 Ho ltac:(lia)) as Hq0.
  unfold readseg, SECTSIZE. rewrite !u32_small by (unfold in_u32; lia).
  destruct (readseg_from_spec fuel m (pa - offset `mod` 512) (pa + count) (offset / 512))
    as (m' & e & -> & H1 & H2 & Hx); [lia..|].
  exists m'. split_and!; [done| |].
  - intros i Hi. rewrite Hx, decide_True by lia. f_equal. lia.
  - intros x Hr. rewrite Hx, decide_False; [done|].
    destruct (decide (pa - offset `mod` 512 < pa + count)) as [Hlt|Hlt]; [specialize (H1 Hlt)|specialize (H2 ltac:(lia))]; lia.
Qed.

(** ** Loading the kernel *)

(** The word [n] of the image. *)
Definition word (n : Z) : Z :=
  le_combine [image disk (4 * n); image disk (4 * n + 1); image disk (4 * n + 2); image disk (4 * n + 3)].
Definition magic_at (n : Z) : Prop :=
  word n = MB_MAGIC /\ u32 (word n + word (n + 1) + word (n + 2)) = 0.

Definition in_scratch (m : mem) : Prop := forall i, 0 <= i < 8192 -> ld8 m (SCRATCH + i) = image disk i.

Lemma ld32_word m n : in_scratch m -> 0 <= n < 2048 -> ld32 m (SCRATCH + 4 * n) = word n.
Proof.
  intros Hm Hn. unfold ld32, word. cbn [ld_bytes]. rewrite <- !Z.add_assoc, !Hm by lia. done.
Qed.

Lemma find_header_first m k i n :
  in_scratch m -> 0 <= i <= n -> n + 2 < 2048 -> n < i + Z.of_nat k ->
  magic_at n -> (forall j, 0 <= j < n -> ~ magic_at j) -> find_header m k i = Some n.
Proof.
  intros Hm. revert i. induction k as [|k IH]; intros i Hi Hn Hk [H1 H2] Hf; [lia|]. cbn [find_header].
  rewrite !ld32_word by first [done|lia]. destruct (decide (i = n)) as [->|Hne].
  - by rewrite (proj2 (Z.eqb_eq _ _) H1), (proj2 (Z.eqb_eq _ _) H2).
  - rewrite (IH (i + 1)) by first [lia|done|split; done].
    destruct (Z.eqb_spec (word i) MB_MAGIC), (Z.eqb_spec (u32 (word i + word (i + 1) + word (i + 2))) 0);
      try done. exfalso. by apply (Hf i); [lia|].
Qed.

(** The header at word [n], read from memory. *)
Record header_in (m : mem) (n : Z) : Prop := HeaderIn {
  h_flags : hdr_flags m (SCRATCH + 4 * n) = word (n + 1);
  h_header : hdr_header_addr m (SCRATCH + 4 * n) = word (n + 3);
  h_load : hdr_load_addr m (SCRATCH + 4 * n) = word (n + 4);
  h_end : hdr_load_end_addr m (SCRATCH + 4 * n) = word (n + 5);
  h_bss : hdr_bss_end_addr m (SCRATCH + 4 * n) = word (n + 6);
  h_entry : hdr_entry_addr m (SCRATCH + 4 * n) = word (n + 7)
}.

Lemma holds_header m n : in_scratch m -> 0 <= n -> n + 7 < 2048 -> header_in m n.
Proof.
  intros Hm H0 Hn.
  assert (forall k o, 0 <= k <= 7 -> o = 4 * k -> ld32 m (SCRATCH + 4 * n + o) = word (n + k)) as Hf.
  { intros k o Hk ->. rewrite <- Z.add_assoc, <- Z.mul_add_distr_l. apply ld32_word; [done|lia]. }
  constructor; apply Hf; lia.
Qed.

(** Writes above the scratch area keep it. *)
Lemma holds_keep m m' : in_scratch m -> (forall x, x < SCRATCH + 8192 -> ld8 m' x = ld8 m x) -> in_scratch m'.
Proof. intros Hm Hk i Hi. rewrite Hk by lia. by apply Hm. Qed.

(** A kernel whose multiboot header is in the first 8192 bytes of the image and asks for
    addresses above the scratch area is loaded as the header says: the bytes from load_addr
    to load_end_addr are those of the image, the ones up to bss_end_addr are zero, and the
    loader jumps to entry_addr. *)
Lemma bootmain_loads fuel m n flags header_addr load_addr load_end bss_end entry :
  0 <= n -> n + 7 < 2048 -> magic_at n -> (forall j, 0 <= j < n -> ~ magic_at j) ->
  word (n + 1) = flags -> word (n + 3) = header_addr -> word (n + 4) = load_addr ->
  word (n + 5) = load_end -> word (n + 6) = bss_end -> word (n + 7) = entry ->
  Z.land flags 65536 <> 0 -> SCRATCH + 8192 + 512 <= load_addr <= header_addr -> load_addr <= load_end ->
  header_addr - load_addr <= 4 * n -> Z.max load_end bss_end + 16384 < 2 ^ 32 ->
  8192 + (load_end - load_addr) + 512 <= 512 * Z.of_nat fuel ->
  exists m', bootmain disk fuel m = Some (inr (m', entry)) /\
    (forall i, 0 <= i < load_end - load_addr ->
       ld8 m' (load_addr + i) = image disk (4 * n - (header_addr - load_addr) + i)) /\
    (forall x, load_end <= x < bss_end -> ld8 m' x = 0).
Proof.
  intros Hn0 Hn Hmag Hfirst Hfl Hh Hla Hle Hbss Hen Hflag Hl1 Hl2 Hoff Hmax Hfuel. unfold SCRATCH in Hl1.
  destruct (readseg_spec fuel m SCRATCH 8192 0) as (m1 & E1 & Hm1 & _);
    [unfold SCRATCH; change (0 `mod` 512) with 0; lia..|].
  assert (in_scratch m1) as Hs by (intros i Hi; apply Hm1; lia).
  unfold bootmain. rewrite E1. cbn [mbind option_bind].
  rewrite (find_header_first m1 2048 0 n) by first [done|lia].
  destruct (holds_header m1 n Hs Hn0 Hn) as [F1 F3 F4 F5 _ _].
  cbv zeta. rewrite F1, F3, F4, F5, Hfl, Hh, Hla, Hle.
  rewrite (proj2 (Z.eqb_neq _ _) Hflag), Z.gtb_ltb, !(proj2 (Z.ltb_ge _ _)) by lia.
  rewrite !u32_small by (unfold in_u32; rewrite ?u32_small by (unfold in_u32; lia); lia).
  destruct (readseg_spec fuel m1 load_addr (load_end - load_addr) (n * 4 - (header_addr - load_addr)))
    as (m2 & E2 & Hm2 & Hk2); [try (pose proof (Z.mod_pos_bound (n * 4 - (header_addr - load_addr)) 512)); lia..|].
  rewrite E2. cbn [mbind option_bind].
  assert (in_scratch m2) as Hs2 by (apply (holds_keep m1); [done|]; intros x Hx; apply Hk2; unfold SCRATCH in *; lia).
  destruct (holds_header m2 n Hs2 Hn0 Hn) as [_ _ _ K5 K6 K7]. rewrite K5, K6, Hle, Hbss, Z.gtb_ltb.
  destruct (Z.ltb_spec load_end bss_end) as [Hb|Hb].
  - eexists. split_and!.
    + do 3 f_equal. rewrite <- Hen. apply holds_header; [|done|done]. apply (holds_keep m2); [done|].
      intros x Hx. rewrite stosb_ld8, decide_False; [done|]. unfold SCRATCH in *. lia.
    + intros i Hi. rewrite stosb_ld8, decide_False, Hm2 by lia. f_equal. lia.
    + intros x Hx. rewrite stosb_ld8, decide_True; [done|]. rewrite u32_small by (unfold in_u32; lia). lia.
  - exists m2. split_and!; [by rewrite K7, Hen| |lia]. intros i Hi. rewrite Hm2 by lia. f_equal. lia.
Qed.
End readseg.

(** A kernel of two sectors, with its header at the beginning. *)
Definition demo_header : list Z :=
  le_split 4 MB_MAGIC ++ le_split 4 65536 ++ le_split 4 (2 ^ 32 - MB_MAGIC - 65536) ++
  le_split 4 1048576 ++ le_split 4 1048576 ++ le_split 4 (1048576 + 1024) ++ le_split 4 (1048576 + 2048) ++
  le_split 4 (1048576 + 64).
Definition demo_disk (s : Z) : list Z :=
  if s =? 1 then demo_header ++ replicate 480 144 else replicate 512 144.

Lemma demo_sectors s : length (demo_disk s) = 512%nat /\ Forall in_u8 (demo_disk s).
Proof.
  unfold demo_disk. case_match; (split; [by rewrite ?length_app, ?length_replicate|]).
  - apply Forall_app. split; [|by apply Forall_replicate].
    unfold demo_header. repeat (apply Forall_app; split); apply le_split_bytes.
  - by apply Forall_replicate.
Qed.

Lemma bootmain_loads_witness :
  exists m', bootmain demo_disk 19 ∅ = Some (inr (m', 1048640)) /\
    (forall i, 0 <= i < 1049600 - 1048576 ->
       ld8 m' (1048576 + i) = image demo_disk (4 * 0 - (1048576 - 1048576) + i)) /\
    (forall x, 1049600 <= x < 1050624 -> ld8 m' x = 0).
Proof.
  apply (bootmain_loads demo_disk demo_sectors 19 ∅ 0 65536 1048576 1048576 1049600 1050624 1048640);
    [lia|lia|split; vm_compute; exact eq_refl|intros j Hj; lia|vm_compute; exact eq_refl..| | | | | |].
  - intros E. vm_compute in E. discriminate E.
  - unfold SCRATCH. lia.
  - lia.
  - lia.
  - lia.
  - lia.
Defined.
