(* ===== verification/Lapic.v ===== *)
(** * The local APIC and the clock: src/lapic.c

    Writes to the device registers, the ports and the warm reset vector are effects in the
    order the code makes them; what the code reads from a device is an input. *)

From S2P Require Import Prelude Mem State Console Trap Mp.

(** ** Registers, as indices into lapic[] *)

Definition ID : Z := 8.
Definition TPR : Z := 32.
Definition EOI : Z := 44.
Definition SVR : Z := 60.
Definition ESR : Z := 160.
Definition ICRLO : Z := 192.
Definition ICRHI : Z := 196.
Definition TIMER : Z := 200.
Definition PCINT : Z := 208.
Definition LINT0 : Z := 212.
Definition LINT1 : Z := 216.
Definition ERROR : Z := 220.
Definition TICR : Z := 224.
Definition TDCR : Z := 248.
Definition ENABLE : Z := 256.        (* 0x00000100 *)
Definition INIT : Z := 1280.         (* 0x00000500 *)
Definition STARTUP : Z := 1536.      (* 0x00000600 *)
Definition DELIVS : Z := 4096.       (* 0x00001000 *)
Definition ASSERT : Z := 16384.      (* 0x00004000 *)
Definition LEVEL : Z := 32768.       (* 0x00008000 *)
Definition BCAST : Z := 524288.      (* 0x00080000 *)
Definition X1 : Z := 11.             (* 0x0000000B *)
Definition PERIODIC : Z := 131072.   (* 0x00020000 *)
Definition MASKED : Z := 65536.      (* 0x00010000 *)
Definition IRQ_ERROR : Z := 19.
Definition CMOS_PORT : Z := 112.     (* 0x70 *)

Variant lapic_effect : Type :=
  | LapicW (index value : Z)
  | OutB (port value : Z)
  | StoreW (addr value : Z).         (* a ushort in memory *)

(** ** Starting the device *)

(** [while(lapic[ICRLO] & DELIVS)] over what the register reads as, one after the other:
    whether the wait ends. *)
Fixpoint wait_delivs (icrlo : list Z) : bool :=
  match icrlo with
  | [] => false
  | v :: icrlo => if Z.land v DELIVS =? 0 then true else wait_delivs icrlo
  end.

(** [lapic] is the pointer, [ver] the version register.  The result is what was written, and
    whether the routine returned. *)
Definition lapicinit (lapic ver : Z) (icrlo : list Z) : list lapic_effect * bool :=
  if lapic =? 0 then ([], true) else
  let before :=
    [LapicW SVR (Z.lor ENABLE (T_IRQ0 + IRQ_SPURIOUS)); LapicW TDCR X1;
     LapicW TIMER (Z.lor PERIODIC (T_IRQ0 + IRQ_TIMER)); LapicW TICR 10000000;
     LapicW LINT0 MASKED; LapicW LINT1 MASKED] ++
    (if 4 <=? Z.land (Z.shiftr ver 16) 255 then [LapicW PCINT MASKED] else []) ++
    [LapicW ERROR (T_IRQ0 + IRQ_ERROR); LapicW ESR 0; LapicW ESR 0; LapicW EOI 0;
     LapicW ICRHI 0; LapicW ICRLO (Z.lor (Z.lor BCAST INIT) LEVEL)] in
  if wait_delivs icrlo then (before ++ [LapicW TPR 0], true) else (before, false).

Definition lapiceoi_writes (lapic : Z) : list lapic_effect :=
  if negb (lapic =? 0) then [LapicW EOI 0] else [].

(** microdelay does nothing. *)
Definition lapicstartap (apicid addr : Z) : list lapic_effect :=
  let wrv := p2v 1127 in              (* 0x40<<4 | 0x67 *)
  [OutB CMOS_PORT 15; OutB (CMOS_PORT + 1) 10; StoreW wrv 0; StoreW (wrv + 2) (u16 (Z.shiftr addr 4));
   LapicW ICRHI (u32 (Z.shiftl apicid 24)); LapicW ICRLO (Z.lor (Z.lor INIT LEVEL) ASSERT);
   LapicW ICRLO (Z.lor INIT LEVEL)] ++
  concat (replicate 2 [LapicW ICRHI (u32 (Z.shiftl apicid 24)); LapicW ICRLO (Z.lor STARTUP (Z.shiftr addr 12))]).

(** ** The number of the processor *)

(** [for (i = 0; i < ncpu; ++i)] *)
Fixpoint find_cpu (cpus : list Z) (apicid : Z) (i : nat) : option nat :=
  match cpus with
  | [] => None
  | a :: cpus => if a =? apicid then Some i else find_cpu cpus apicid (S i)
  end.

(** [id] is the ID register; [None] is the panic.  The warning about enabled interrupts
    changes nothing else and is left out. *)
Definition lapic_cpunum (g : mpglobals) (id : Z) : option nat :=
  if g_lapic g =? 0 then Some 0%nat
  else find_cpu (take (g_ncpu g) (g_cpus g)) (Z.shiftr id 24) 0.

(** ** The clock *)

Record rtcdate : Type := Date { second : Z; minute : Z; hour : Z; day : Z; month : Z; year : Z }.

#[global] Instance rtcdate_eq_dec : EqDecision rtcdate.
Proof. solve_decision. Defined.

(** [clock n r] is what the [n]-th read of the CMOS returns for the register [r]. *)
Definition fill_rtcdate (clock : nat -> Z -> Z) (n : nat) : rtcdate * nat :=
  (Date (clock n 0) (clock (n + 1)%nat 2) (clock (n + 2)%nat 4) (clock (n + 3)%nat 7)
     (clock (n + 4)%nat 8) (clock (n + 5)%nat 9), (n + 6)%nat).

(** [for(;;)] *)
Fixpoint read_stable (fuel : nat) (clock : nat -> Z -> Z) (n : nat) : option rtcdate :=
  match fuel with
  | O => None
  | S fuel' =>
      let '(t1, n) := fill_rtcdate clock n in
      if negb (Z.land (clock n 10) 128 =? 0) then read_stable fuel' clock (S n) else
      let '(t2, n) := fill_rtcdate clock (S n) in
      if decide (t1 = t2) then Some t1 else read_stable fuel' clock n
  end.

Definition conv (x : Z) : Z := u32 (Z.shiftr x 4 * 10 + Z.land x 15).

Definition cmostime (fuel : nat) (clock : nat -> Z -> Z) : option rtcdate :=
  let sb := clock 0%nat 11 in
  let bcd := Z.land sb 4 =? 0 in
  t1 ← read_stable fuel clock 1;
  let t1 := if bcd then Date (conv (second t1)) (conv (minute t1)) (conv (hour t1)) (conv (day t1))
                          (conv (month t1)) (conv (year t1)) else t1 in
  Some (Date (second t1) (minute t1) (hour t1) (day t1) (month t1) (u32 (year t1 + 2000))).

(** ** Facts *)

(** Once mpinit has filled cpus, each processor finds its own index by the id of its local
    APIC, when the ids are different. *)
Lemma find_cpu_at cpus i j a : NoDup cpus -> cpus !! i = Some a -> find_cpu cpus a j = Some (j + i)%nat.
Proof.
  revert i j. induction cpus as [|b cpus IH]; intros i j Hd Hi; [done|]. apply NoDup_cons in Hd as [Hb Hd].
  cbn [find_cpu]. destruct i as [|i]; cbn in Hi.
  - simplify_eq. rewrite Z.eqb_refl. f_equal. lia.
  - destruct (Z.eqb_spec b a) as [->|]; [by apply list_elem_of_lookup_2 in Hi|].
    rewrite (IH i) by done. f_equal. lia.
Qed.

Lemma cpunum_finds g i a id :
  g_lapic g <> 0 -> NoDup (take (g_ncpu g) (g_cpus g)) -> (i < g_ncpu g)%nat -> g_cpus g !! i = Some a ->
  Z.shiftr id 24 = a -> lapic_cpunum g id = Some i.
Proof.
  intros Hl Hd Hi Ha E. unfold lapic_cpunum. rewrite (proj2 (Z.eqb_neq _ _) Hl), E.
  apply (find_cpu_at _ i 0); [done|]. by rewrite lookup_take_lt.
Qed.

Definition to_bcd (x : Z) : Z := 16 * (x / 10) + x `mod` 10.

Lemma conv_bcd x : 0 <= x < 100 -> conv (to_bcd x) = x.
Proof.
  intros Hx. unfold conv, to_bcd. rewrite Z.shiftr_div_pow2 by lia.
  change 15 with (Z.ones 4). rewrite Z.land_ones by lia. mach.
Qed.

Definition clock_of (d : rtcdate) (f : Z -> Z) : Z -> Z := fun r =>
  if r =? 0 then f (second d) else if r =? 2 then f (minute d) else if r =? 4 then f (hour d)
  else if r =? 7 then f (day d) else if r =? 8 then f (month d) else if r =? 9 then f (year d) else 0.

Definition two_digits (d : rtcdate) : Prop :=
  Forall (fun x => 0 <= x < 100) [second d; minute d; hour d; day d; month d; year d].

Lemma read_stable_const fuel c n :
  Z.land (c 10) 128 = 0 -> read_stable (S fuel) (fun _ => c) n = Some (Date (c 0) (c 2) (c 4) (c 7) (c 8) (c 9)).
Proof. intros E. cbn [read_stable fill_rtcdate]. rewrite E. cbn [Z.eqb negb]. by rewrite decide_True. Qed.

(** A clock in BCD mode that does not move while it is read is read as it stands, in the
    twenty-first century. *)
Lemma cmostime_bcd d fuel :
  two_digits d -> (0 < fuel)%nat ->
  cmostime fuel (fun _ => clock_of d to_bcd) =
  Some (Date (second d) (minute d) (hour d) (day d) (month d) (year d + 2000)).
Proof.
  intros Hd Hf. destruct fuel as [|fuel]; [lia|]. unfold two_digits in Hd. rewrite !Forall_cons in Hd.
  destruct Hd as (H1 & H2 & H3 & H4 & H5 & H6 & _).
  unfold cmostime. rewrite read_stable_const by done. cbn [mbind option_bind].
  change (Z.land (clock_of d to_bcd 11) 4 =? 0) with true. cbv iota. cbn [second minute hour day month year].
  unfold clock_of. cbn [Z.eqb Pos.eqb]. rewrite !conv_bcd by done. by rewrite u32_small by (unfold in_u32; lia).
Qed.

(** What cmostime converts was read twice in a row with no update between. *)
Lemma read_stable_twice fuel clock n t :
  read_stable fuel clock n = Some t ->
  exists k, fill_rtcdate clock k = (t, (k + 6)%nat) /\ Z.land (clock (k + 6)%nat 10) 128 = 0 /\
    (fill_rtcdate clock (k + 7)).1 = t.
Proof.
  revert n. induction fuel as [|fuel IH]; intros n H; [done|]. cbn [read_stable fill_rtcdate] in H.
  destruct (Z.eqb_spec (Z.land (clock (n + 6)%nat 10) 128) 0) as [E|E]; cbn [negb] in H; [|by apply IH in H].
  destruct (decide _) as [Et|Et]; [|by apply IH in H]. exists n. injection H as <-.
  split_and!; [done|done|]. rewrite Et. unfold fill_rtcdate. cbn [fst].
  by replace (S (n + 6)) with (n + 7)%nat by lia.
Qed.
