(* ===== verification/Early.v ===== *)
(** * The kernel while it starts

    Before kinit2 the page allocator takes no lock and traces nothing, and before
    consoleinit printing takes no lock.  [early k l] is what holds on the boot processor
    during that time, with the free pages [l]; [keeps] is what the first steps leave
    alone. *)

From S2P Require Import Prelude Mem CString State Spinlock Ktrace Kalloc Vm Sched Console LineEdit Ulib.

(** ** The state *)

Record early (k : kernel) (l : list Z) : Prop := Early {
  ea_use : km_use_lock (k_kmem k) = false;
  ea_free : freelist k l;
  ea_wf : mem_wf (k_mem k);
  ea_cpu : c_ncli (k_cpu k) = 0 /\ c_if (k_cpu k) = false /\ c_proc (k_cpu k) = None;
  ea_console : co_panicked (k_cons k) = false
}.

(** The tables that are still as the loader left them. *)
Definition statics (k : kernel) :=
  (k_procs k, k_bufs k, k_inodes k, k_sleeps k, k_nextpid k, k_initproc k, k_first k, km_end (k_kmem k),
    k_kpml4 k, k_kpdpt k, k_log k).
Definition keeps (k k' : kernel) : Prop := statics k' = statics k.

#[export] Instance keeps_preorder : PreOrder keeps.
Proof. split; [done|]. unfold keeps. intros k1 k2 k3 H1 H2. congruence. Qed.

Lemma keeps_end k k' : keeps k k' -> km_end (k_kmem k') = km_end (k_kmem k).
Proof. unfold keeps, statics. intros H. congruence. Qed.

(** Memory changes inside the page [v] only. *)
Definition within (v : Z) (m m' : mem) : Prop := forall x, off v x -> ld8 m' x = ld8 m x.

Lemma within_trans v m1 m2 m3 : within v m1 m2 -> within v m2 m3 -> within v m1 m3.
Proof. intros H1 H2 x Hx. rewrite H2, H1 by done. done. Qed.

Lemma within_st_bytes v m a bs :
  v <= a -> a + Z.of_nat (length bs) <= v + PGSIZE -> within v m (st_bytes m a bs).
Proof. intros H1 H2 x Hx. unfold off in Hx. rewrite ld8_st_bytes, decide_False by lia. done. Qed.

Lemma within_st32 v m a x : v <= a -> a + 4 <= v + PGSIZE -> within v m (st32 m a x).
Proof. intros H1 H2. apply within_st_bytes; [done|]. by rewrite length_le_split. Qed.

Lemma within_st64 v m a x : v <= a -> a + 8 <= v + PGSIZE -> within v m (st64 m a x).
Proof. intros H1 H2. apply within_st_bytes; [done|]. by rewrite length_le_split. Qed.

Lemma within_memset v m c : within v m (Kstring.memset m v c PGSIZE).
Proof. intros x Hx. unfold off, PGSIZE in *. by rewrite memset_ld8, decide_False by lia. Qed.

(** ** Allocation *)

Lemma early_alloc k v l :
  early k (v :: l) ->
  let k' := alloc_state (k_mem k) (ld64 (k_mem k) v) k in
  kalloc k = Ok v k' /\ early k' l /\ page_ok k v /\ v ∉ l /\ keeps k k'.
Proof.
  intros [Hu Hf Hw Hc Hp]. pose proof Hf as [[Eh Hch] Hnd Hpg]. cbn in Hch.
  apply NoDup_cons in Hnd as [Hnl Hnd]. apply Forall_cons in Hpg as [Hv Hpg].
  assert (truth v = true) as Ht.
  { unfold truth. apply page_ok_nonzero in Hv. by rewrite (proj2 (Z.eqb_neq _ _)). }
  split_and!; try done.
  unfold kalloc. kr. rewrite Hu. kr. rewrite Eh, Ht. kr. unfold alloc_state. by rewrite Hu.
Qed.

(** Stores that spare the free pages. *)
Lemma early_mem k l m :
  early k l -> (forall p x, p ∈ l -> p <= x < p + PGSIZE -> ld8 m x = ld8 (k_mem k) x) -> mem_wf m ->
  early (set_mem m k) l.
Proof.
  intros [Hu [Hch Hn Hp] Hw Hc Hpn] Hm Hwf. constructor; try done. constructor; try done. cbn.
  apply (chain_ext (k_mem k)); [|done]. intros p Hpl. apply ld64_ext. intros x Hx.
  apply (Hm p); [done|]. unfold PGSIZE. lia.
Qed.

Lemma early_within k v l m :
  early k l -> page_ok k v -> v ∉ l -> within v (k_mem k) m -> mem_wf m -> early (set_mem m k) l.
Proof.
  intros He Hv Hn Hm Hw. apply early_mem; [done| |done]. intros p x Hp Hx. apply Hm.
  apply (off_page k p); [|done|by intros ->|done].
  exact (proj1 (Forall_forall _ _) (fl_pages _ _ (ea_free _ _ He)) p Hp).
Qed.

(** ** Printing *)

(** The console after some output. *)
Definition prints (k k' : kernel) : Prop :=
  exists cn, k' = set_cons cn k /\ co_panicked cn = co_panicked (k_cons k) /\ co_locking cn = co_locking (k_cons k).

Lemma prints_refl k : prints k k.
Proof. exists (k_cons k). split; [|done]. by destruct k. Qed.

Lemma prints_trans k1 k2 k3 : prints k1 k2 -> prints k2 k3 -> prints k1 k3.
Proof.
  intros (c1 & -> & H1 & H2) (c2 & -> & H4 & H5). exists c2. cbn in *.
  split_and!; [done|congruence..].
Qed.

Lemma consputc_prints c k :
  co_panicked (k_cons k) = false -> exists k', consputc c k = Ok tt k' /\ prints k k'.
Proof.
  intros Hp. eexists. split; [by apply consputc_run|]. eexists. split; [done|].
  unfold put_cons, emit. destruct (cga_step _ _ _). by case_match.
Qed.

Lemma print_chars cs k :
  co_panicked (k_cons k) = false -> exists k', for_each cs consputc k = Ok tt k' /\ prints k k'.
Proof.
  revert k. induction cs as [|c cs IH]; intros k Hp; [by exists k; split; [|apply prints_refl]|].
  destruct (consputc_prints c k Hp) as (k1 & E & H1). cbn [for_each].
  destruct (IH k1) as (k2 & E2 & H2); [destruct H1 as (cn & -> & Hc & _); cbn; congruence|].
  exists k2. split; [by krun E|by eapply prints_trans].
Qed.

(** Characters without a percent sign are printed as they are. *)
Lemma cprintf_text t fmt args k :
  37 ∉ t -> co_panicked (k_cons k) = false ->
  exists k', prints k k' /\ cprintf_from (t ++ fmt) args k = cprintf_from fmt args k'.
Proof.
  revert k. induction t as [|c t IH]; intros k Hn Hp; [by exists k; split; [apply prints_refl|]|].
  destruct (consputc_prints c k Hp) as (k1 & E & H1).
  destruct (IH k1) as (k2 & H2 & E2); [set_solver|destruct H1 as (cn & -> & Hc & _); cbn; congruence|].
  exists k2. split; [by eapply prints_trans|]. cbn [app cprintf_from].
  rewrite (proj2 (Z.eqb_neq c 37)) by set_solver. cbn [negb]. by krun E.
Qed.

Lemma print_d_buf_some v : in_s32 v -> exists buf, print_d_buf v = Some buf.
Proof.
  intros Hv. destruct (uprint_d_spec v Hv) as (ds & E & _). revert E. unfold uprint_d, print_d_buf.
  change uprint_digits with print_d_digits. destruct (print_d_digits _ _); [|done]. cbn [mbind option_bind].
  case_decide; [|done]. by eexists.
Qed.

(** A message with one number in it. *)
Lemma cprintf_number t t' v k :
  37 ∉ t -> 37 ∉ t' -> co_panicked (k_cons k) = false ->
  exists k', cprintf_from (t ++ 37 :: 100 :: t') [FNum v] k = Ok tt k' /\ prints k k'.
Proof.
  intros Ht Ht' Hp. destruct (cprintf_text t (37 :: 100 :: t') [FNum v] k Ht Hp) as (k1 & H1 & ->).
  destruct (print_d_buf_some (s32 v) (s32_range v)) as [buf Eb].
  assert (co_panicked (k_cons k1) = false) as Hp1 by (destruct H1 as (cn & -> & Hc & _); cbn; congruence).
  destruct (print_chars (rev buf) k1 Hp1) as (k2 & E2 & H2).
  assert (co_panicked (k_cons k2) = false) as Hp2 by (destruct H2 as (cn & -> & Hc & _); cbn; congruence).
  destruct (cprintf_text t' [] [] k2 Ht' Hp2) as (k3 & H3 & E3). rewrite app_nil_r in E3.
  exists k3. split; [|eauto using prints_trans]. cbn [cprintf_from Z.eqb Pos.eqb negb].
  unfold print_d. rewrite Eb. unfold bind, of_option, ret at 1. cbn [obind]. rewrite E2. cbn [obind]. exact E3.
Qed.

Lemma cprintf_message t k :
  37 ∉ t -> co_panicked (k_cons k) = false ->
  exists k', cprintf_from t [] k = Ok tt k' /\ prints k k'.
Proof.
  intros Ht Hp. destruct (cprintf_text t [] [] k Ht Hp) as (k1 & H1 & E1). rewrite app_nil_r in E1. by exists k1.
Qed.

(** Without locking cprintf is its loop. *)
Lemma cprintf_early fmt args k k' :
  co_locking (k_cons k) = false -> cprintf_from fmt args k = Ok tt k' -> cprintf fmt args k = Ok tt k'.
Proof.
  intros Hl E. unfold cprintf, bind, gets. cbn [obind]. rewrite Hl. unfold when, ret. cbn [obind].
  rewrite E. done.
Qed.

Lemma prints_early k k' l : prints k k' -> early k l -> early k' l.
Proof. intros (cn & -> & Hc & _) [Hu [] Hw Hcpu Hp]. constructor; try done. cbn. congruence. Qed.

Lemma prints_keeps k k' : prints k k' -> keeps k k'.
Proof. by intros (cn & -> & _). Qed.

(** ** Steps *)

(** No lock is held. *)
Definition unheld (k : kernel) : Prop :=
  forall lk l, k_locks k !! lk = Some l -> exists name, l = Spinlock 0 name None.

(** What the steps up to kinit2 have in common. *)
Record bstep (k k' : kernel) : Prop := Bstep {
  bs_keeps : keeps k k';
  bs_trace : k_trace k' = k_trace k;
  bs_disk : k_disk k' = k_disk k;
  bs_free : forall lk, lock_free k lk -> lock_free k' lk;
  bs_unheld : unheld k -> unheld k'
}.

#[export] Instance bstep_preorder : PreOrder bstep.
Proof.
  split; [done|]. intros k1 k2 k3 [H1 H2 H3 H4 H5] [G1 G2 G3 G4 G5]. split; try congruence; auto.
Qed.

(** Steps that leave the locks alone. *)
Lemma bstep_same k k' :
  keeps k k' -> k_trace k' = k_trace k -> k_disk k' = k_disk k -> k_locks k' = k_locks k -> bstep k k'.
Proof. intros H1 H2 H3 H4. split; try done; unfold lock_free, unheld; by rewrite H4. Qed.

Lemma prints_bstep k k' : prints k k' -> bstep k k'.
Proof. intros (cn & -> & _). by apply bstep_same. Qed.

Lemma bstep_initlock k lk name : bstep k (put_lock lk (Spinlock 0 name None) k).
Proof.
  split; try done.
  - intros lk' [n E]. unfold lock_free. cbn. destruct (decide (lk = lk')) as [->|Hne].
    + exists name. apply lookup_insert_eq.
    + exists n. by rewrite lookup_insert_ne.
  - intros H lk' l. cbn. rewrite lookup_insert_Some. intros [[_ <-]|[_ Hl]]; [by eexists|by apply (H lk')].
Qed.

Lemma early_locks k l ls : early k l -> early (set_locks ls k) l.
Proof. intros [Hu [] Hw Hc Hp]. by constructor. Qed.

(** What the memory outside the pages [l] still is. *)
Definition frame (l : list Z) (k k' : kernel) : Prop :=
  forall x, (forall p, p ∈ l -> off p x) -> ld8 (k_mem k') x = ld8 (k_mem k) x.

Lemma frame_refl l k k' : k_mem k' = k_mem k -> frame l k k'.
Proof. intros E x _. by rewrite E. Qed.

Lemma frame_trans l l' k1 k2 k3 : l' ⊆ l -> frame l k1 k2 -> frame l' k2 k3 -> frame l k1 k3.
Proof. intros Hs H1 H2 x Hx. rewrite H2, H1; [done|done|]. intros p Hp. apply Hx. by apply Hs. Qed.

Lemma frame_within l v k k' : v ∈ l -> within v (k_mem k) (k_mem k') -> frame l k k'.
Proof. intros Hv H x Hx. apply H. by apply Hx. Qed.
