(* ===== verification/Segments.v ===== *)
(** * Segments, gates and the registers of the processor
    (seginit and syscallinit of src/vm.c, idtinit of src/trap.c, struct segdesc of src/mmu.h)

    A descriptor is a 64-bit word made of bit fields.  The page of CPU-local storage holds
    the descriptor table and the task state segment.  What is loaded into registers that no
    C code reads back is a list of effects.  The theorems decode the tables the way the
    processor does. *)

From S2P Require Import Prelude Mem State Spinlock Kalloc Vm Console Proc Trap Mp Lapic Early.

(** ** Descriptors (src/mmu.h) *)

Definition SEG_KCODE : Z := 1.
Definition SEG_KDATA : Z := 2.
Definition SEG_UCODE32 : Z := 3.
Definition SEG_UDATA : Z := 4.
Definition SEG_UCODE : Z := 5.
Definition SEG_TSS : Z := 7.
Definition NSEGS : Z := 8.
Definition USER_CS : Z := Z.lor (Z.shiftl SEG_UCODE 3) DPL_USER.
Definition USER_DS : Z := Z.lor (Z.shiftl SEG_UDATA 3) DPL_USER.
Definition USER32_CS : Z := Z.lor (Z.shiftl SEG_UCODE32 3) DPL_USER.
Definition APP_SEG : Z := 1.
Definition STA_X : Z := 8.
Definition STA_W : Z := 2.
Definition STA_R : Z := 2.
Definition STS_T64A : Z := 9.

Record segdesc : Type := Segdesc {
  lim_15_0 : Z; base_15_0 : Z; base_23_16 : Z; sd_type : Z; sd_s : Z; sd_dpl : Z; sd_p : Z;
  lim_19_16 : Z; sd_avl : Z; sd_rsv1 : Z; sd_db : Z; sd_g : Z; base_31_24 : Z
}.

(** The word: each field holds the low bits of what it is given. *)
Definition segdesc_bits (d : segdesc) : Z :=
  let f v w a := (v `mod` 2 ^ w) * 2 ^ a in
  f (lim_15_0 d) 16 0 + f (base_15_0 d) 16 16 + f (base_23_16 d) 8 32 + f (sd_type d) 4 40 +
  f (sd_s d) 1 44 + f (sd_dpl d) 2 45 + f (sd_p d) 1 47 + f (lim_19_16 d) 4 48 + f (sd_avl d) 1 52 +
  f (sd_rsv1 d) 1 53 + f (sd_db d) 1 54 + f (sd_g d) 1 55 + f (base_31_24 d) 8 56.

Definition segdesc0 : segdesc := Segdesc 0 0 0 0 0 0 0 0 0 0 0 0 0.

Definition SEG (type lim base sys dpl rsv : Z) : segdesc :=
  Segdesc (Z.land lim 65535) (Z.land (u32 base) 65535) (Z.land (Z.shiftr base 16) 255) type sys dpl 1
    (Z.shiftr lim 60) 0 rsv 0 1 (Z.shiftr base 24).

(** ** Register loads (src/x86.h) *)

Variant hwreg : Type :=
  | Wrmsr (msr v : Z)
  | Lgdt (pd : list Z)
  | Lidt (pd : list Z)
  | Ltr (sel : Z).

(** The ten bytes lgdt and lidt read. *)
Definition pseudo_desc (addr size : Z) : list Z :=
  [u16 (size - 1); u16 addr; u16 (Z.shiftr addr 16); u16 (Z.shiftr addr 32); u16 (Z.shiftr addr 48)].

Definition lgdt (p size : Z) : hwreg := Lgdt (pseudo_desc p size).
Definition lidt (p size : Z) : hwreg := Lidt (pseudo_desc p size).
Definition idtinit (idt : Z) : hwreg := lidt idt PGSIZE.

(** ** System calls *)

Definition MSR_STAR : Z := 3221225601.   (* 0xC0000081 *)
Definition MSR_LSTAR : Z := 3221225602.
Definition MSR_CSTAR : Z := 3221225603.
Definition MSR_SFMASK : Z := 3221225604.
Definition MSR_FS_BASE : Z := 3221225728. (* 0xC0000100 *)

(** FL_TF|FL_DF|FL_IF|FL_IOPL_3|FL_AC|FL_NT *)
Definition SFMASK : Z := Z.lor (Z.lor (Z.lor (Z.lor (Z.lor 256 1024) FL_IF) 12288) 262144) 16384.

(** [entry] and [ignore]: syscall_entry and ignore_sysret of trapasm.S. *)
Definition syscallinit (entry ignore : Z) : list hwreg :=
  [Wrmsr MSR_STAR (Z.lor (Z.shiftl USER32_CS 48) (Z.shiftl KERNEL_CS 32)); Wrmsr MSR_LSTAR entry;
   Wrmsr MSR_CSTAR ignore; Wrmsr MSR_SFMASK SFMASK].

(** ** seginit *)

(** gdt[0] to gdt[SEG_TSS+1], in the order they are stored; [!DPL_USER] and [!APP_SEG] are
    0. *)
Definition gdt_entries (addr : Z) : list segdesc :=
  [segdesc0;
   SEG (Z.lor STA_X STA_R) 0 0 APP_SEG 0 1;
   SEG STA_W 0 0 APP_SEG 0 0;
   segdesc0;
   SEG STA_W 0 0 APP_SEG DPL_USER 0;
   SEG (Z.lor STA_X STA_R) 0 0 APP_SEG DPL_USER 1;
   segdesc0;
   SEG STS_T64A 11 addr 0 DPL_USER 0;
   SEG 0 (Z.shiftr addr 32) (Z.shiftr addr 48) 0 0 0].

Fixpoint store_gdt (m : mem) (a : Z) (ds : list segdesc) : mem :=
  match ds with
  | [] => m
  | d :: ds => store_gdt (st64 m a (segdesc_bits d)) (a + 8) ds
  end.

(** [g] and [id] are what cpunum looks at: the processors mpinit found, and the id register
    of the local APIC.  [cpu = c] makes the processor use its own struct cpu, whose counters
    are zero. *)
Definition seginit (g : mpglobals) (id : Z) : K (list hwreg) :=
  local <- kalloc ;;
  memory (fun m => Kstring.memset m local 0 PGSIZE) ;;;
  let tss := local + 1024 in
  memory (fun m => st32 m (tss + 4 * 16) 6815744) ;;;  (* 0x00680000 *)
  match lapic_cpunum g id with
  | None => panic "unknown apicid
"
  | Some i =>
      modify (fun k => let c := k_cpu k in
        set_cpu (Cpu (Z.of_nat i) (c_ncli c) (c_intena c) (c_if c) None local (c_cr3 c)) k) ;;;
      memory (fun m => store_gdt m local (gdt_entries tss)) ;;;
      ret [Wrmsr MSR_FS_BASE (local + 2048); lgdt local ((NSEGS + 1) * 8); Ltr (Z.shiftl SEG_TSS 3)]
  end.

(** ** How the processor reads the tables *)

(** The bits [a] to [a + w - 1] of a descriptor. *)
Definition field (d a w : Z) : Z := (d / 2 ^ a) `mod` 2 ^ w.

(** A present 64-bit code segment, and a present writable data segment, of the privilege
    level [dpl]. *)
Definition is_code64 (d dpl : Z) : Prop :=
  field d 47 1 = 1 /\ field d 44 1 = 1 /\ field d 43 1 = 1 /\ field d 53 1 = 1 /\ field d 54 1 = 0 /\ field d 45 2 = dpl.
Definition is_data (d dpl : Z) : Prop :=
  field d 47 1 = 1 /\ field d 44 1 = 1 /\ field d 43 1 = 0 /\ field d 41 1 = 1 /\ field d 45 2 = dpl.

(** An available 64-bit task state segment; its base is spread over two words. *)
Definition is_tss (lo hi base : Z) : Prop :=
  field lo 47 1 = 1 /\ field lo 44 1 = 0 /\ field lo 40 4 = 9 /\
  field lo 16 24 + 2 ^ 24 * field lo 56 8 + 2 ^ 32 * field hi 0 32 = base.

(** The word a selector selects in the table at [gdt]. *)
Definition selected (m : mem) (gdt sel : Z) : Z := ld64 m (gdt + 8 * (sel / 8)).

(** The address in the operand of lgdt and lidt. *)
Definition pd_base (pd : list Z) : Z := match pd with [_; a; b; c; d] => a + 2 ^ 16 * b + 2 ^ 32 * c + 2 ^ 48 * d | _ => 0 end.

Lemma pseudo_desc_base addr size : in_u64 addr -> pd_base (pseudo_desc addr size) = addr.
Proof. intros H. unfold pd_base, pseudo_desc. rewrite !Z.shiftr_div_pow2 by lia. mach. Qed.

Lemma segdesc_bits_range d : in_u64 (segdesc_bits d).
Proof.
  unfold in_u64, segdesc_bits.
  repeat match goal with |- context [?v `mod` 2 ^ ?w] =>
    let H := fresh in pose proof (Z.mod_pos_bound v (2 ^ w) ltac:(lia)) as H; revert H;
    generalize (v `mod` 2 ^ w); intros ? H
  end. lia.
Qed.

(** The fields can be read back. *)
Lemma field_at x lo mid hi a w :
  0 <= a -> 0 <= w -> 0 <= lo < 2 ^ a -> 0 <= mid < 2 ^ w -> x = lo + 2 ^ a * (mid + 2 ^ w * hi) -> field x a w = mid.
Proof.
  intros Ha Hw Hl Hm ->. unfold field. rewrite (Z.mul_comm (2 ^ a)), Z.div_add by lia.
  rewrite (Z.div_small lo) by done. rewrite Z.add_0_l, (Z.mul_comm (2 ^ w)), Z_mod_plus_full. by apply Z.mod_small.
Qed.

Lemma field_low x mid hi w : 0 <= w -> 0 <= mid < 2 ^ w -> x = mid + 2 ^ w * hi -> field x 0 w = mid.
Proof. intros Hw Hm ->. apply (field_at _ 0 mid hi); try done. rewrite Z.pow_0_r. lia. Qed.

Lemma segdesc_base d :
  field (segdesc_bits d) 16 24 = base_15_0 d `mod` 2 ^ 16 + 2 ^ 16 * (base_23_16 d `mod` 2 ^ 8) /\
  field (segdesc_bits d) 56 8 = base_31_24 d `mod` 2 ^ 8 /\
  field (segdesc_bits d) 0 32 = lim_15_0 d `mod` 2 ^ 16 + 2 ^ 16 * (base_15_0 d `mod` 2 ^ 16) /\
  field (segdesc_bits d) 40 4 = sd_type d `mod` 2 ^ 4 /\ field (segdesc_bits d) 44 1 = sd_s d `mod` 2 ^ 1 /\
  field (segdesc_bits d) 47 1 = sd_p d `mod` 2 ^ 1.
Proof.
  unfold segdesc_bits. destruct d as [l b0 b1 t s dp p l2 av r db g b2]; cbn [lim_15_0 base_15_0 base_23_16 base_31_24 sd_type sd_s sd_dpl sd_p lim_19_16 sd_avl sd_rsv1 sd_db sd_g].
  repeat match goal with |- context [?v `mod` 2 ^ ?w] =>
    is_var v; let H := fresh in let x := fresh "x" in pose proof (Z.mod_pos_bound v (2 ^ w) ltac:(lia)) as H;
    set (x := v `mod` 2 ^ w) in *; clearbody x
  end.
  set (rest := x7 + 2 * (x8 + 2 * (x9 + 2 * (x10 + 2 * x11)))).
  set (top := x5 + 2 * (x6 + 2 ^ 4 * rest)). set (mid := x + 2 ^ 16 * (x0 + 2 ^ 16 * x1)).
  split_and!.
  - apply (field_at _ x _ (x2 + 2 ^ 4 * (x3 + 2 * (x4 + 2 ^ 2 * top)))); lia.
  - apply (field_at _ (mid + 2 ^ 40 * (x2 + 2 ^ 4 * (x3 + 2 * (x4 + 2 ^ 2 * (x5 + 2 * (x6 + 2 ^ 4 * (x7 + 2 * (x8 + 2 * (x9 + 2 * x10)))))))))
      _ 0); lia.
  - apply (field_low _ _ (x1 + 2 ^ 8 * (x2 + 2 ^ 4 * (x3 + 2 * (x4 + 2 ^ 2 * top))))); lia.
  - apply (field_at _ mid _ (x3 + 2 * (x4 + 2 ^ 2 * top))); lia.
  - apply (field_at _ (mid + 2 ^ 40 * x2) _ (x4 + 2 ^ 2 * top)); lia.
  - apply (field_at _ (mid + 2 ^ 40 * (x2 + 2 ^ 4 * (x3 + 2 * x4))) _ (x6 + 2 ^ 4 * rest)); lia.
Qed.

Lemma land_low x n : 0 <= n -> Z.land x (2 ^ n - 1) = x `mod` 2 ^ n.
Proof. intros Hn. rewrite <- Z.land_ones by done. by rewrite Z.ones_equiv, Z.sub_1_r. Qed.

(** The two words seginit stores for the task state segment. *)
Lemma tss_descriptor addr :
  in_u64 addr ->
  is_tss (segdesc_bits (SEG STS_T64A 11 addr 0 DPL_USER 0))
    (segdesc_bits (SEG 0 (Z.shiftr addr 32) (Z.shiftr addr 48) 0 0 0)) addr.
Proof.
  intros Ha. unfold is_tss.
  destruct (segdesc_base (SEG STS_T64A 11 addr 0 DPL_USER 0)) as (-> & -> & _ & -> & -> & ->).
  destruct (segdesc_base (SEG 0 (Z.shiftr addr 32) (Z.shiftr addr 48) 0 0 0)) as (_ & _ & -> & _).
  cbn [SEG base_15_0 base_23_16 base_31_24 lim_15_0 sd_type sd_s sd_p].
  change 65535 with (2 ^ 16 - 1). change 255 with (2 ^ 8 - 1). rewrite !land_low by lia.
  rewrite !Z.shiftr_div_pow2 by lia. split_and!; [done..|]. unfold u32, in_u64 in *. mach.
Qed.

Lemma within_store_gdt v m a ds :
  v <= a -> a + 8 * Z.of_nat (length ds) <= v + PGSIZE -> within v m (store_gdt m a ds).
Proof.
  revert m a. induction ds as [|d ds IH]; intros m a H1 H2; [by intros x _|]. cbn [store_gdt length] in *.
  eapply within_trans; [apply (within_st64 v m a (segdesc_bits d)); lia|]. apply IH; lia.
Qed.

Lemma store_gdt_before m a ds b : b + 8 <= a -> ld64 (store_gdt m a ds) b = ld64 m b.
Proof.
  revert m a. induction ds as [|d ds IH]; intros m a H; [done|]. cbn [store_gdt].
  rewrite IH by lia. apply ld64_st64_ne. lia.
Qed.

Lemma store_gdt_lookup m a ds i d :
  ds !! i = Some d -> ld64 (store_gdt m a ds) (a + 8 * Z.of_nat i) = segdesc_bits d.
Proof.
  revert m a i. induction ds as [|e ds IH]; intros m a i H; [done|]. cbn [store_gdt]. destruct i as [|i]; cbn in H.
  - simplify_eq. rewrite Z.mul_0_r, Z.add_0_r, store_gdt_before by lia. apply ld64_st64_same, segdesc_bits_range.
  - rewrite <- (IH (st64 m a (segdesc_bits e)) (a + 8) i H). f_equal. lia.
Qed.

Lemma store_gdt_wf m a ds : mem_wf m -> mem_wf (store_gdt m a ds).
Proof.
  revert m a. induction ds as [|d ds IH]; intros m a H; [done|]. cbn [store_gdt]. apply IH. by apply st_bytes_wf.
Qed.

(** The memory seginit leaves in the page. *)
Definition local_page (m : mem) (local : Z) : mem :=
  store_gdt (st32 (Kstring.memset m local 0 PGSIZE) (local + 1024 + 4 * 16) 6815744) local (gdt_entries (local + 1024)).

Definition seg_regs (local : Z) : list hwreg :=
  [Wrmsr MSR_FS_BASE (local + 2048); lgdt local ((NSEGS + 1) * 8); Ltr (Z.shiftl SEG_TSS 3)].

Lemma seginit_run g id i k v l :
  early k (v :: l) -> lapic_cpunum g id = Some i ->
  exists k' h, seginit g id k = Ok (seg_regs v) k' /\ early k' l /\ keeps k k' /\ page_ok k v /\ v ∉ l /\
    k' = set_cpu (Cpu (Z.of_nat i) 0 (c_intena (k_cpu k)) false None v (c_cr3 (k_cpu k)))
           (alloc_state (local_page (k_mem k) v) h k) /\ within v (k_mem k) (k_mem k').
Proof.
  intros He Hi. destruct (early_alloc k v l He) as (E & He1 & Hv & Hn & Hk).
  destruct (ea_cpu _ _ He) as (Hc1 & Hc2 & Hc3).
  assert (within v (k_mem k) (local_page (k_mem k) v)) as Hw.
  { unfold local_page. eapply within_trans; [apply within_memset|].
    eapply within_trans; [apply (within_st32 v _ (v + 1024 + 4 * 16) 6815744); unfold PGSIZE; lia|]. apply within_store_gdt; cbn; unfold PGSIZE; lia. }
  assert (mem_wf (local_page (k_mem k) v)) as Hm.
  { apply store_gdt_wf, st_bytes_wf, memset_wf, He. }
  exists (set_cpu (Cpu (Z.of_nat i) 0 (c_intena (k_cpu k)) false None v (c_cr3 (k_cpu k)))
           (alloc_state (local_page (k_mem k) v) (ld64 (k_mem k) v) k)), (ld64 (k_mem k) v). split_and!; try done.
  - unfold seginit. krun E. unfold memory. kr. cbn [k_mem set_mem alloc_state set_kmem k_cpu]. rewrite Hi. kr.
    cbn [k_cpu set_cpu k_mem set_mem]. unfold alloc_state in *. cbn. rewrite Hc1, Hc2. reflexivity.
  - pose proof (early_within _ v l _ He1 Hv Hn Hw Hm) as [Hu [Hch Hnd Hpg] _ _ Hp]. by constructor.
Qed.

(** Once seginit has run, each selector the kernel uses selects what it stands for: kernel
    code and data of level 0, user code and data of level 3, and the task state segment in
    the local page. *)
Lemma local_page_selects m v :
  in_u64 (v + 1024) ->
  let m' := local_page m v in
  is_code64 (selected m' v KERNEL_CS) 0 /\ is_data (selected m' v (KERNEL_CS + 8)) 0 /\
  is_code64 (selected m' v USER_CS) 3 /\ is_data (selected m' v USER_DS) 3 /\
  is_tss (selected m' v (8 * SEG_TSS)) (selected m' v (8 * SEG_TSS + 8)) (v + 1024).
Proof.
  intros Hv m'. unfold selected, m', local_page.
  set (mm := st32 _ _ _).
  assert (forall i d, gdt_entries (v + 1024) !! i = Some d ->
            ld64 (store_gdt mm v (gdt_entries (v + 1024))) (v + 8 * Z.of_nat i) = segdesc_bits d) as Hg.
  { intros i d Hd. by apply store_gdt_lookup. }
  split_and!.
  - rewrite (Hg 1%nat _ eq_refl : ld64 _ (v + 8 * (KERNEL_CS / 8)) = _). by vm_compute.
  - rewrite (Hg 2%nat _ eq_refl : ld64 _ (v + 8 * ((KERNEL_CS + 8) / 8)) = _). by vm_compute.
  - rewrite (Hg 5%nat _ eq_refl : ld64 _ (v + 8 * (USER_CS / 8)) = _). by vm_compute.
  - rewrite (Hg 4%nat _ eq_refl : ld64 _ (v + 8 * (USER_DS / 8)) = _). by vm_compute.
  - rewrite (Hg 7%nat _ eq_refl : ld64 _ (v + 8 * (8 * SEG_TSS / 8)) = _).
    rewrite (Hg 8%nat _ eq_refl : ld64 _ (v + 8 * ((8 * SEG_TSS + 8) / 8)) = _). by apply tss_descriptor.
Qed.

(** The selectors that the instructions syscall and sysret compute from MSR_STAR. *)
Definition star_sysret_cs (star : Z) : Z := star / 2 ^ 48 + 16.
Definition star_sysret_ss (star : Z) : Z := star / 2 ^ 48 + 8.
Definition star_syscall_cs (star : Z) : Z := (star / 2 ^ 32) `mod` 2 ^ 16.
Definition star_syscall_ss (star : Z) : Z := (star / 2 ^ 32) `mod` 2 ^ 16 + 8.

(** With the value syscallinit writes, a system call enters the kernel on its code and data
    segments and returns to the user's 64-bit code and data segments. *)
Lemma syscall_selects entry ignore star m v :
  Wrmsr MSR_STAR star ∈ syscallinit entry ignore -> in_u64 (v + 1024) ->
  let m' := local_page m v in
  is_code64 (selected m' v (star_syscall_cs star)) 0 /\ is_data (selected m' v (star_syscall_ss star)) 0 /\
  is_code64 (selected m' v (star_sysret_cs star)) 3 /\ is_data (selected m' v (star_sysret_ss star)) 3.
Proof.
  intros Hs Hv m'. destruct (local_page_selects m v Hv) as (H1 & H2 & H3 & H4 & _).
  assert (star = Z.lor (Z.shiftl USER32_CS 48) (Z.shiftl KERNEL_CS 32)) as ->.
  { unfold syscallinit in Hs. rewrite !elem_of_cons in Hs. destruct Hs as [[= H]|[H|[H|[H|H]]]]; [done|done..|].
    by apply not_elem_of_nil in H. }
  by split_and!.
Qed.

(** ** Gates *)

(** What the processor takes from the gate [n] of the table at [idt]: the address to
    continue at and the selector, if the gate is a present interrupt gate of the privilege
    level [dpl]. *)
Definition is_gate (m : mem) (idt n addr sel dpl : Z) : Prop :=
  let w0 := ld32 m (idt + 16 * n) in
  let w1 := ld32 m (idt + 16 * n + 4) in
  let w2 := ld32 m (idt + 16 * n + 8) in
  field w1 15 1 = 1 /\ field w1 8 5 = 14 /\ field w1 13 2 = dpl /\ field w0 16 16 = sel /\
  field w0 0 16 + 2 ^ 16 * field w1 16 16 + 2 ^ 32 * w2 = addr.

Lemma land_disjoint a b n : 0 <= n -> 0 <= b < 2 ^ n -> Z.land (a * 2 ^ n) b = 0.
Proof.
  intros Hn Hb. apply Z.bits_inj'. intros i Hi. rewrite Z.land_spec, Z.bits_0, <- Z.shiftl_mul_pow2 by done.
  destruct (decide (i < n)); [by rewrite Z.shiftl_spec_low by done|].
  rewrite <- (Z.mod_small b (2 ^ n)), Z.mod_pow2_bits_high by lia. apply andb_false_r.
Qed.

Lemma lor_disjoint a b n : 0 <= n -> 0 <= b < 2 ^ n -> Z.lor (a * 2 ^ n) b = a * 2 ^ n + b.
Proof. intros Hn Hb. rewrite <- (Z.add_lor_land (a * 2 ^ n) b), land_disjoint by done. lia. Qed.

Lemma land_middle x : Z.land x 4294901760 = (x / 2 ^ 16) `mod` 2 ^ 16 * 2 ^ 16.
Proof.
  change 4294901760 with (Z.shiftl (Z.ones 16) 16). rewrite <- Z.land_ones, <- Z.shiftr_div_pow2, <- Z.shiftl_mul_pow2 by lia.
  apply Z.bits_inj'. intros i Hi. rewrite Z.land_spec. destruct (decide (i < 16)).
  - rewrite !Z.shiftl_spec_low by done. apply andb_false_r.
  - rewrite !Z.shiftl_spec_high, Z.land_spec, Z.shiftr_spec by lia. do 2 f_equal. lia.
Qed.

Lemma ld32_st32_same m a v : ld32 (st32 m a v) a = u32 v.
Proof.
  unfold ld32, st32. pose proof (ld_st_bytes_same m a (le_split 4 v) (le_split_bytes 4 v)) as E.
  rewrite length_le_split in E. rewrite E, le_combine_split. done.
Qed.

Lemma ld32_st32_ne m a b v : b + 4 <= a \/ a + 4 <= b -> ld32 (st32 m a v) b = ld32 m b.
Proof. intros H. unfold ld32, st32. rewrite ld_st_bytes_disj; [done|]. rewrite length_le_split. lia. Qed.

(** The three words of a gate that carry something. *)
Lemma mkgate_words m idt n addr :
  in_u64 addr ->
  let m' := mkgate m idt n addr 0 in
  ld32 m' (idt + 16 * n) = 8 * 2 ^ 16 + addr `mod` 2 ^ 16 /\
  ld32 m' (idt + 16 * n + 4) = (addr / 2 ^ 16) `mod` 2 ^ 16 * 2 ^ 16 + 36352 /\
  ld32 m' (idt + 16 * n + 8) = addr / 2 ^ 32.
Proof.
  intros Ha. unfold mkgate. cbv zeta. set (a := idt + 16 * n).
  pose proof (Z.mod_pos_bound addr (2 ^ 16) ltac:(lia)). pose proof (Z.mod_pos_bound (addr / 2 ^ 16) (2 ^ 16) ltac:(lia)).
  split_and!.
  - rewrite 3 ld32_st32_ne by lia. rewrite ld32_st32_same. change 65535 with (2 ^ 16 - 1). rewrite land_low by lia.
    rewrite Z.lor_comm. change (Z.shiftl KERNEL_CS 16) with (8 * 2 ^ 16). rewrite lor_disjoint by lia.
    apply u32_small. unfold in_u32. lia.
  - rewrite 2 ld32_st32_ne by lia. rewrite ld32_st32_same, land_middle.
    change (Z.shiftl (Z.land 0 3) 13) with 0. rewrite Z.lor_0_r, lor_disjoint by lia.
    rewrite u32_u32. apply u32_small. unfold in_u32. lia.
  - rewrite ld32_st32_ne by lia. rewrite ld32_st32_same, Z.shiftr_div_pow2 by lia. apply u32_small. unfold in_u64, in_u32 in *.
    split; [apply Z.div_pos; lia|apply Z.div_lt_upper_bound; lia].
Qed.

Lemma mkgate_gate m idt n addr : in_u64 addr -> is_gate (mkgate m idt n addr 0) idt n addr KERNEL_CS 0.
Proof.
  intros Ha. unfold is_gate. cbv zeta. destruct (mkgate_words m idt n addr Ha) as (-> & -> & ->).
  unfold in_u64, field, KERNEL_CS in *. split_and!; mach.
Qed.

Lemma is_gate_ext m m' idt n addr sel dpl :
  (forall x, idt + 16 * n <= x < idt + 16 * n + 16 -> ld8 m' x = ld8 m x) ->
  is_gate m idt n addr sel dpl -> is_gate m' idt n addr sel dpl.
Proof.
  intros H. unfold is_gate, ld32. cbv zeta.
  by rewrite !(ld_bytes_ext m m') by (intros x Hx; apply H; lia).
Qed.

(** A gate is 16 bytes. *)
Lemma mkgate_ld8 m idt n kva x :
  x < idt + 16 * n \/ idt + 16 * n + 16 <= x -> ld8 (mkgate m idt n kva 0) x = ld8 m x.
Proof.
  intros H. unfold mkgate, st32. cbv zeta. by rewrite !ld8_st_bytes, !length_le_split, !decide_False by lia.
Qed.

Lemma mkgate_wf m idt n kva : mem_wf m -> mem_wf (mkgate m idt n kva 0).
Proof. intros H. unfold mkgate, st32. cbv zeta. by repeat apply st_bytes_wf. Qed.

(** tvinit makes a page of 256 gates: the trap [n] continues at the entry [n] of vectors.S in
    the kernel's code segment with interrupts off, and a user program cannot raise it with
    an instruction. *)
Lemma tvinit_run vectors k v l :
  early k (v :: l) -> (forall n, (n < 256)%nat -> in_u64 (vectors n)) ->
  exists k' h m, tvinit vectors k = Ok v k' /\ early k' l /\ keeps k k' /\ page_ok k v /\ v ∉ l /\
    k' = alloc_state m h k /\ within v (k_mem k) m /\
    forall n, (n < 256)%nat -> is_gate m v (Z.of_nat n) (vectors n) KERNEL_CS 0.
Proof.
  intros He Hv. destruct (early_alloc k v l He) as (E & He1 & Hp & Hn & Hk). set (h := ld64 (k_mem k) v) in *.
  pose (I := fun (done : list nat) (k1 : kernel) => exists m, k1 = alloc_state m h k /\ within v (k_mem k) m /\ mem_wf m /\
    forall n, n ∈ done -> is_gate m v (Z.of_nat n) (vectors n) KERNEL_CS 0).
  destruct (for_each_inv I (fun n => memory (fun m => mkgate m v (Z.of_nat n) (vectors n) 0)) (upto 256)
    (alloc_state (Kstring.memset (k_mem k) v 0 PGSIZE) h k)) as (k' & Ef & m & -> & Hm & Hw & Hg).
  - eexists. split_and!; [done|apply within_memset|apply memset_wf, He|]. intros n Hn0. by apply not_elem_of_nil in Hn0.
  - intros done n k1 [rest Eq] (m & -> & Hm & Hw & Hg).
    assert (n < 256)%nat as Hlt by (apply elem_of_upto; rewrite Eq; set_solver).
    assert (n ∉ done) as Hnd.
    { assert (NoDup (done ++ n :: rest)) as H by (rewrite <- Eq; apply NoDup_seq).
      apply NoDup_app in H as (_ & H & _). intros Hin. apply (H n Hin). set_solver. }
    eexists. split; [reflexivity|]. eexists. split_and!; [reflexivity| | |].
    + eapply within_trans; [done|]. intros x Hx. apply mkgate_ld8. cbn. unfold off, PGSIZE in Hx. lia.
    + by apply mkgate_wf.
    + intros j Hj. apply elem_of_app in Hj as [Hj|Hj%list_elem_of_singleton].
      * assert (j <> n) by (intros ->; done). eapply is_gate_ext; [|by apply Hg]. intros x Hx. apply mkgate_ld8. lia.
      * subst j. apply mkgate_gate; auto.
  - exists (alloc_state m h k), h, m. split; [|split; [|split_and!; [done|done|done|done|done|]]].
    + unfold tvinit. krun E. unfold memory at 1. unfold bind at 1, modify. cbn [obind]. krun Ef. exact eq_refl.
    + pose proof (early_within _ v l _ He1 Hp Hn Hm Hw) as []. by constructor.
    + intros n Hlt. apply Hg. by apply elem_of_upto.
Qed.
