(* ===== verification/Start.v ===== *)
(** * The start of the kernel: src/main.c, and panic of src/console.c

    main runs on the boot processor; startothers starts the other processors one after the
    other and waits for each, so that what a processor does until it reports is part of the
    wait.  The registers the kernel loads, and the writes to the local APIC, are effects, in
    order. *)

From S2P Require Import Prelude Mem CString State Spinlock Ktrace Kalloc Vm Sched Sleeplock Bio Console LineEdit Ide File Proc Trap Ulib Mp Lapic Early Segments.

Variant hweffect : Type :=
  | HReg (r : hwreg)
  | HLapic (e : lapic_effect)
  | HPort (port value : Z)
  | HStarted (cpu : nat).          (* xchg(&cpu->started, 1) *)

(** What the hardware reports, and where the linker places code and data. *)
Class Machine : Type := {
  mc_uart : Z;                     (* the line status of the serial port *)
  mc_in23 : Z;                     (* port 0x23 *)
  mc_ver : Z;                      (* the version register of a local APIC *)
  mc_icrlo : list Z;               (* what ICRLO reads as, one read after the other *)
  mc_id : nat -> Z;                (* the id register of the local APIC of each processor *)
  mc_boot : nat;                   (* the boot processor *)
  mc_disk1 : bool;                 (* disk 1 answers *)
  mc_vectors : nat -> Z;           (* vectors of vectors.S *)
  mc_syscall_entry : Z;
  mc_ignore_sysret : Z;
  mc_entry32mp : Z;
  mc_entryother : Z;               (* _binary_entryother_start *)
  mc_entryother_size : Z
}.

Section Start.
  Context {patience_bound : Patience} {driver : DiskDriver} {image : Image} {machine : Machine}.

(** cpunum of src/lapic.c on the processor [i]. *)
Definition cpunum_on (g : mpglobals) (i : nat) : K Z :=
  match lapic_cpunum g (mc_id i) with
  | Some n => ret (Z.of_nat n)
  | None => panic "unknown apicid
"
  end.

(** mpinit, with what it prints. *)
Definition mpinit_run : K (mpglobals * list hweffect) :=
  m <- gets k_mem ;;
  match mpinit m mc_in23 (MpGlobals (replicate NCPU 0) 0 0 0) with
  | None => nofuel
  | Some MpNone =>
      cprintf (chars "No other CPUs found." ++ [10]) [] ;;;
      ret (MpGlobals (replicate NCPU 0) 0 0 0, [])
  | Some (MpPanic _) => panic "Major problem parsing mp config."
  | Some (MpDone g ports) =>
      cprintf (chars "Seems we are SMP, ncpu = %d" ++ [10]) [FNum (Z.of_nat (g_ncpu g))] ;;;
      ret (g, (fun p => HPort p.1 p.2) <$> ports)
  end.

Definition lapicinit_run (g : mpglobals) : K (list hweffect) :=
  let '(es, returned) := lapicinit (g_lapic g) mc_ver mc_icrlo in
  if (returned : bool) then ret (HLapic <$> es) else hang.

(** mpmain up to the scheduler. *)
Definition mpmain_setup (g : mpglobals) (idt : Z) (i : nat) : K (list hweffect) :=
  n <- cpunum_on g i ;;
  cprintf (chars "cpu%d: starting" ++ [10]) [FNum n] ;;;
  id <- gets (fun k => c_id (k_cpu k)) ;;
  ret (HReg (idtinit idt) :: (HReg <$> syscallinit mc_syscall_entry mc_ignore_sysret) ++ [HStarted (Z.to_nat id)]).

(** mpenter on the processor [i], up to the scheduler. *)
Definition mpenter (g : mpglobals) (idt : Z) (i : nat) : K (list hweffect) :=
  switchkvm ;;;
  rs <- seginit g (mc_id i) ;;
  es <- lapicinit_run g ;;
  fs <- mpmain_setup g idt i ;;
  ret ((HReg <$> rs) ++ es ++ fs).

(** Another processor runs [body] with a struct cpu of its own. *)
Definition on_other {A} (body : K A) : K A :=
  c <- gets k_cpu ;;
  modify (set_cpu cpu0) ;;;
  r <- body ;;
  modify (set_cpu c) ;;;
  ret r.

(** A round of [for(c = cpus; c < cpus+ncpu; c++)]; the wait is the start of the other
    processor. *)
Definition startother (g : mpglobals) (idt : Z) (i : nat) : K (list hweffect) :=
  let code := p2v 28672 in             (* 0x7000 *)
  me <- cpunum_on g mc_boot ;;
  if Z.of_nat i =? me then ret [] else
  stack <- kalloc ;;
  memory (fun m => st32 m (code - 4) 32768) ;;;         (* 0x8000 *)
  memory (fun m => st32 m (code - 8) (v2p mc_entry32mp)) ;;;
  memory (fun m => st64 m (code - 16) (u64 (stack + KSTACKSIZE))) ;;;
  apicid <- of_option (g_cpus g !! i) ;;
  es <- on_other (mpenter g idt i) ;;
  ret ((HLapic <$> lapicstartap apicid (u32 (v2p code))) ++ es).

Fixpoint start_cpus (g : mpglobals) (idt : Z) (ids : list nat) : K (list hweffect) :=
  match ids with
  | [] => ret []
  | i :: ids =>
      es <- startother g idt i ;;
      fs <- start_cpus g idt ids ;;
      ret (es ++ fs)
  end.

Definition startothers (g : mpglobals) (idt : Z) : K (list hweffect) :=
  memory (fun m => Kstring.memmove m (p2v 28672) mc_entryother mc_entryother_size) ;;;
  start_cpus g idt (upto (g_ncpu g)).

(** ** main *)

(** The steps of main before the scheduler starts; [kend] is the symbol end. *)
Definition main_setup (kend : Z) : K (list hweffect) :=
  uartearlyinit mc_uart ;;;
  kinit1 kend (p2v PHYSTOP) ;;;
  kvmalloc ;;;
  r <- mpinit_run ;;
  let '(g, e1) := r in
  e2 <- lapicinit_run g ;;
  idt <- tvinit mc_vectors ;;
  e3 <- seginit g (mc_id mc_boot) ;;
  n <- cpunum_on g mc_boot ;;
  cprintf (10 :: chars "cpu%d: starting Spring 2026 xv6" ++ [10; 10]) [FNum n] ;;;
  ioapicinit (g_ioapicid g) ;;;
  consoleinit ;;;
  uartinit ;;;
  traceinit ;;;
  pinit ;;;
  binit ;;;
  fileinit ;;;
  Ide.ideinit mc_disk1 (Z.of_nat (g_ncpu g)) ;;;
  e4 <- startothers g idt ;;
  kinit2 ;;;
  userinit ;;;
  e5 <- mpmain_setup g idt mc_boot ;;
  ret (e1 ++ e2 ++ (HReg <$> e3) ++ e4 ++ e5).

Definition kernel_main (kend : Z) : K unit :=
  main_setup kend ;;;
  scheduler.

(** ** panic *)

(** [pcs]: the addresses getcallerpcs finds.  The field id of struct cpu is never assigned:
    it is 0 on every processor. *)
Definition panic_halts (s : list Z) (pcs : list Z) : K unit :=
  cli ;;;
  upd_cons (with_locking false) ;;;
  cprintf (chars "cpu%d: panic: ") [FNum 0] ;;;
  cprintf s [] ;;;
  cprintf [10] [] ;;;
  for_each pcs (fun pc => cprintf (chars " %p" ++ [10]) [FNum pc]) ;;;
  upd_cons (fun cn => Console (co_crt cn) (co_cursor cn) (co_locking cn) true (co_uart cn) (co_serial cn)
    (in_buf cn) (in_r cn) (in_w cn) (in_e cn)) ;;;
  hang.

End Start.

(** A digit for each half byte of an address. *)
Lemma print_x64_prints n x k :
  in_u64 x -> co_panicked (k_cons k) = false -> exists k', print_x64_from n x k = Ok tt k' /\ prints k k'.
Proof.
  revert x k. induction n as [|n IH]; intros x k Hx Hp; [by exists k; split; [|apply prints_refl]|].
  assert (is_Some (digits !! Z.to_nat (Z.shiftr x 60))) as [d Hd].
  { apply lookup_lt_is_Some_2. change (length digits) with 16%nat. rewrite Z.shiftr_div_pow2 by lia. unfold in_u64 in Hx.
    assert (0 <= x / 2 ^ 60 < 16); [|lia]. split; [apply Z.div_pos; lia|apply Z.div_lt_upper_bound; lia]. }
  destruct (consputc_prints d k Hp) as (k1 & E1 & H1).
  destruct (IH (u64 (Z.shiftl x 4)) k1) as (k2 & E2 & H2); [apply u64_range|destruct H1 as (cn & -> & Hc & _); cbn; congruence|].
  exists k2. split; [|by eapply prints_trans]. cbn [print_x64_from]. unfold digit. rewrite Hd.
  unfold bind at 1, of_option, ret at 1. cbn [obind]. krun E1. exact E2.
Qed.

Lemma print_pc pc k :
  co_panicked (k_cons k) = false -> co_locking (k_cons k) = false ->
  exists k', cprintf (chars " %p" ++ [10]) [FNum pc] k = Ok tt k' /\ prints k k'.
Proof.
  intros Hp Hl.
  destruct (cprintf_text [32] (37 :: 112 :: [10]) [FNum pc] k) as (k1 & H1 & E1); [set_solver|done|].
  destruct (print_x64_prints 16 (u64 pc) k1 (u64_range pc)) as (k2 & E2 & H2); [destruct H1 as (cn & -> & Hc & _); cbn; congruence|].
  destruct (cprintf_message [10] k2) as (k3 & E3 & H3);
    [set_solver|destruct H1 as (? & -> & ? & _), H2 as (? & -> & ? & _); cbn in *; congruence|].
  exists k3. split; [|eauto using prints_trans]. apply cprintf_early; [done|]. change (chars " %p" ++ [10]) with ([32] ++ 37 :: 112 :: [10]).
  rewrite E1. cbn [cprintf_from Z.eqb Pos.eqb negb]. krun E2. exact E3.
Qed.

(** panic takes no lock, says what it was given and stops with interrupts off; from then on
    every processor that prints stops too. *)
Lemma panic_halts_freezes s pcs k :
  37 ∉ s -> co_panicked (k_cons k) = false ->
  exists k', panic_halts s pcs k = Hang k' /\ c_if (k_cpu k') = false /\ k_locks k' = k_locks k /\
    forall c k2, k_cons k2 = k_cons k' -> exists k3, consputc c k2 = Hang k3.
Proof.
  intros Hs Hp. set (k0 := set_cons (with_locking false (k_cons k)) (set_if false k)).
  destruct (cprintf_number (chars "cpu") (chars ": panic: ") 0 k0) as (k1 & E1 & H1);
    [apply (bool_decide_unpack _); by vm_compute|apply (bool_decide_unpack _); by vm_compute|done|].
  assert (forall k k', prints k k' -> co_panicked (k_cons k) = false /\ co_locking (k_cons k) = false ->
    co_panicked (k_cons k') = false /\ co_locking (k_cons k') = false) as Hpr.
  { intros x x' (cn & -> & Hc & Hl) [? ?]. cbn. split; congruence. }
  assert (co_panicked (k_cons k0) = false /\ co_locking (k_cons k0) = false) as G0 by done.
  pose proof (Hpr _ _ H1 G0) as G1. destruct (cprintf_message s k1 Hs (proj1 G1)) as (k2 & E2 & H2).
  pose proof (Hpr _ _ H2 G1) as G2. destruct (cprintf_message [10] k2) as (k3 & E3 & H3); [set_solver|apply G2|].
  pose proof (Hpr _ _ H3 G2) as G3.
  assert (exists k4, for_each pcs (fun pc => cprintf (chars " %p" ++ [10]) [FNum pc]) k3 = Ok tt k4 /\ prints k3 k4) as (k4 & E4 & H4).
  { clear -Hpr G3. revert k3 G3. induction pcs as [|pc pcs IH]; intros k3 G3; [by exists k3; split; [|apply prints_refl]|].
    destruct (print_pc pc k3 (proj1 G3) (proj2 G3)) as (k4 & E & H). destruct (IH k4 (Hpr _ _ H G3)) as (k5 & E5 & H5).
    exists k5. split; [|by eapply prints_trans]. cbn [for_each]. krun E. exact E5. }
  assert (prints k0 k4) as (cn & -> & _) by eauto 6 using prints_trans.
  eexists. split_and!.
  - unfold panic_halts, cli, upd_cons. unfold bind at 1, modify. cbn [obind]. unfold bind at 1. cbn [obind]. fold k0.
    krun (cprintf_early _ _ k0 k1 (proj2 G0) E1). krun (cprintf_early _ _ k1 k2 (proj2 G1) E2).
    krun (cprintf_early _ _ k2 k3 (proj2 G2) E3). krun E4. reflexivity.
  - done.
  - done.
  - intros c k' Ek. unfold consputc, bind, gets. cbn [obind]. rewrite Ek. by eexists.
Qed.
