(* ===== verification/StartBoot.v ===== *)
(** * The boot processor up to the first process

    What each step of main (src/main.c) before userinit does, and their composition
    [boot_run]. *)

From S2P Require Import Prelude Mem CString State Spinlock Ktrace Kalloc Vm Sched Sleeplock Bio Bcache Console LineEdit Ide File Proc Trap Ulib Mp Lapic Early Segments Start.

(** ** The serial line and the first pages *)

Lemma uartearlyinit_run status k :
  co_panicked (k_cons k) = false -> exists k', uartearlyinit status k = Ok tt k' /\ prints k k'.
Proof.
  intros Hp. unfold uartearlyinit. case_match; [exists k; split; [done|apply prints_refl]|].
  assert (forall cs k, exists k', for_each cs uartputc k = Ok tt k' /\ prints k k') as Hu.
  { clear. induction cs as [|c cs IH]; intros k; [exists k; split; [done|apply prints_refl]|].
    cbn [for_each]. krun (uartputc_run c k). destruct (IH (set_cons (emit [u8 c] (k_cons k)) k)) as (k' & E & H).
    exists k'. split; [done|]. eapply prints_trans; [|exact H]. eexists. split; [done|]. unfold emit. by case_match. }
  unfold upd_cons. kr. destruct (Hu (chars "xv6..." ++ [10]) (set_cons (with_uart true (k_cons k)) k)) as (k' & E & Hk).
  exists k'. split; [exact E|]. eapply prints_trans; [|exact Hk]. by eexists.
Qed.

(** kinit1 makes the free list of the pages between the end of the kernel and the end of
    memory, from the last to the first. *)
Definition pool (kend : Z) : list Z :=
  reverse (pages (PGROUNDUP kend) (Z.to_nat ((KERNBASE + PHYSTOP - PGROUNDUP kend) / PGSIZE))).

Lemma pgroundup_spec kend :
  KERNBASE <= kend -> kend + PGSIZE <= KERNBASE + PHYSTOP ->
  PGROUNDUP kend = (kend + 4095) / 4096 * 4096.
Proof.
  intros H1 H2. unfold PGROUNDUP, PGSIZE in *.
  rewrite u64_small, land_pgmask by (unfold in_u64, KERNBASE, PHYSTOP in *; lia).
  Z.to_euclidean_division_equations; lia.
Qed.

(** Every address of the free memory is in a page of the pool. *)
Lemma pool_covers kend x :
  KERNBASE <= kend -> kend + PGSIZE <= KERNBASE + PHYSTOP -> PGROUNDUP kend <= x < KERNBASE + PHYSTOP ->
  exists p, p ∈ pool kend /\ ~ off p x.
Proof.
  intros H1 H2 Hx. rewrite pgroundup_spec in * by done. unfold pool. rewrite pgroundup_spec by done.
  set (p0 := (kend + 4095) / 4096 * 4096) in *.
  exists (p0 + PGSIZE * Z.of_nat (Z.to_nat ((x - p0) / 4096))). split.
  - apply elem_of_reverse. unfold pages. apply list_elem_of_fmap. eexists. split; [reflexivity|]. apply elem_of_seq.
    unfold PGSIZE, KERNBASE, PHYSTOP in *. Z.to_euclidean_division_equations; lia.
  - unfold off, PGSIZE. Z.to_euclidean_division_equations; lia.
Qed.

Lemma pool_above kend p : KERNBASE <= kend -> kend + PGSIZE <= KERNBASE + PHYSTOP -> p ∈ pool kend -> kend <= p.
Proof.
  intros H1 H2 Hp. unfold pool in Hp. rewrite pgroundup_spec in Hp by done.
  apply elem_of_reverse, list_elem_of_fmap in Hp as (i & -> & _). unfold PGSIZE.
  Z.to_euclidean_division_equations; lia.
Qed.

Lemma kinit1_early k kend :
  km_end (k_kmem k) = kend -> KERNBASE <= kend -> kend + PGSIZE <= KERNBASE + PHYSTOP -> mem_wf (k_mem k) ->
  c_ncli (k_cpu k) = 0 /\ c_if (k_cpu k) = false /\ c_proc (k_cpu k) = None -> co_panicked (k_cons k) = false ->
  exists k', kinit1 kend (p2v PHYSTOP) k = Ok tt k' /\ early k' (pool kend) /\ bstep k k' /\ frame (pool kend) k k' /\
    lock_free k' LK_kmem /\ k_cpu k' = k_cpu k /\ k_cons k' = k_cons k.
Proof.
  intros Hk Hlo Hhi Hw Hc Hp. change (p2v PHYSTOP) with (KERNBASE + PHYSTOP).
  destruct (kinit1_run k kend (KERNBASE + PHYSTOP)) as (k' & E & Hf & Hw' & Hx & m & h & Ek).
  - unfold in_u64, KERNBASE, PHYSTOP, PGSIZE in *. lia.
  - unfold region_ok, PGSIZE in *. lia.
  - done.
  - exists k'. split_and!; [exact E| | | | |by subst k'|by subst k'].
    + constructor; [by subst k'|exact Hf|by apply Hw'|by subst k'|by subst k'].
    + transitivity (put_lock LK_kmem (Spinlock 0 "kmem" None) k); [apply bstep_initlock|].
      subst k'. by apply bstep_same.
    + intros x Ho. apply Hx. destruct (decide (x < PGROUNDUP kend)) as [|Hn]; [by left|].
      destruct (decide (KERNBASE + PHYSTOP <= x)) as [|Hn']; [by right|].
      destruct (pool_covers kend x Hlo Hhi) as (p & Hin & Hno); [lia|]. by destruct Hno; apply Ho.
    + subst k'. exists "kmem"%string. apply lookup_insert_eq.
Qed.

(** ** The kernel's page table *)

(** The kernel's half of an address space: one entry of the top table, and two pages of a
    gigabyte below it, the first of physical memory and the one with the devices, uncached. *)
Definition kernel_map (m : mem) (pml4 pdpt : Z) : Prop :=
  ld64 m (pml4 + 8 * PMX KERNBASE) = u64 (Z.lor (Z.lor (v2p pdpt) PTE_P) PTE_W) /\
  ld64 m pdpt = Z.lor (Z.lor PTE_PS PTE_P) PTE_W /\
  ld64 m (pdpt + 8 * 3) = Z.lor (Z.lor (Z.lor (Z.lor (Z.lor 3221225472 PTE_PS) PTE_P) PTE_W) PTE_PWT) PTE_PCD.

Lemma kernel_map_ext m m' pml4 pdpt :
  (forall x, pml4 <= x < pml4 + PGSIZE -> ld8 m' x = ld8 m x) -> (forall x, pdpt <= x < pdpt + PGSIZE -> ld8 m' x = ld8 m x) ->
  kernel_map m pml4 pdpt -> kernel_map m' pml4 pdpt.
Proof.
  intros H1 H2. unfold kernel_map. change (PMX KERNBASE) with 256. intros (E1 & E2 & E3).
  split_and!; [rewrite <- E1|rewrite <- E2|rewrite <- E3]; apply ld64_ext; intros x Hx;
    [apply H1|apply H2|apply H2]; unfold PGSIZE; lia.
Qed.

Lemma kvmalloc_early k a b l :
  early k (a :: b :: l) ->
  exists k', kvmalloc k = Ok tt k' /\ early k' l /\ bstep (set_kpdpt b (set_kpml4 a k)) k' /\ frame (a :: b :: l) k k' /\
    k_cons k' = k_cons k /\ k_kpml4 k' = a /\ k_kpdpt k' = b /\ c_cr3 (k_cpu k') = v2p a /\
    page_ok k a /\ page_ok k b /\ a <> b /\ a ∉ l /\ b ∉ l /\ kernel_map (k_mem k') a b.
Proof.
  intros He. destruct (early_alloc k a (b :: l) He) as (E1 & He1 & Ha & Hna & Hk1).
  apply not_elem_of_cons in Hna as [Hab Hna].
  set (k1 := alloc_state _ _ _) in *.
  set (k2 := set_mem (Kstring.memset (k_mem k1) a 0 PGSIZE) (set_kpml4 a k1)).
  assert (early k2 (b :: l)) as He2.
  { apply (early_within (set_kpml4 a k1) a);
      [by destruct He1 as [Hu [] ? ? ?]|done|set_solver|apply within_memset|apply memset_wf, He1]. }
  destruct (early_alloc k2 b l He2) as (E3 & He3 & Hb & Hnb & Hk3).
  set (k3 := alloc_state (k_mem k2) (ld64 (k_mem k2) b) k2) in *.
  set (e1 := Z.lor (Z.lor (v2p b) PTE_P) PTE_W).
  set (e3 := Z.lor (Z.lor (Z.lor (Z.lor (Z.lor 3221225472 PTE_PS) PTE_P) PTE_W) PTE_PWT) PTE_PCD).
  set (m := st64 (st64 (st64 (Kstring.memset (k_mem k3) b 0 PGSIZE) (a + 8 * 256) e1) (b + 8 * 0) 131) (b + 8 * 3) e3).
  assert (Hm : forall x, off a x -> off b x -> ld8 m x = ld8 (k_mem k) x).
  { intros x Hxa Hxb. unfold m, st64. unfold off, PGSIZE in Hxa, Hxb.
    rewrite !ld8_st_bytes, !length_le_split, !decide_False by lia.
    rewrite memset_ld8, decide_False by (unfold PGSIZE; lia).
    change (k_mem k3) with (Kstring.memset (k_mem k) a 0 PGSIZE).
    by rewrite memset_ld8, decide_False by (unfold PGSIZE; lia). }
  assert (mem_wf m) as Hmw by (unfold m, st64; repeat apply st_bytes_wf; apply memset_wf, He3).
  assert (early (set_mem m (set_kpdpt b k3)) l) as He4.
  { apply early_mem; [by destruct He3 as [Hu [] ? ? ?]| |done]. intros p x Hp Hx.
    assert (page_ok k p) as Hpp by exact (proj1 (Forall_forall _ _) (fl_pages _ _ (ea_free _ _ He3)) p Hp).
    assert (off a x /\ off b x) as [Hxa Hxb].
    { split; apply (off_page k p); try done; by intros ->. }
    rewrite Hm by done. change (k_mem (set_kpdpt b k3)) with (Kstring.memset (k_mem k) a 0 PGSIZE).
    by rewrite memset_ld8, decide_False by (unfold off, PGSIZE in *; lia). }
  exists (set_cpu (Cpu (c_id (k_cpu k)) (c_ncli (k_cpu k)) (c_intena (k_cpu k)) (c_if (k_cpu k)) (c_proc (k_cpu k))
    (c_local (k_cpu k)) (v2p a)) (set_mem m (set_kpdpt b k3))).
  assert (a + PGSIZE <= b \/ b + PGSIZE <= a) as Hd by (apply (pages_disjoint k); done).
  split_and!; try done.
  - unfold kvmalloc. krun E1. unfold memory, switchkvm, lcr3. unfold bind at 1, modify. cbn [obind].
    unfold bind at 1. cbn [obind]. fold k2. krun E3. kr. reflexivity.
  - destruct He4 as [Hu [] Hw Hc Hp]. constructor; done.
  - intros x Hx. apply Hm; apply Hx; set_solver.
  - unfold kernel_map. change (PMX KERNBASE) with 256. cbn [k_mem set_cpu set_mem]. unfold m. split_and!.
    + rewrite !ld64_st64_ne by (unfold PGSIZE in Hd; lia). unfold ld64, st64.
      pose proof (ld_st_bytes_same (Kstring.memset (k_mem k3) b 0 PGSIZE) (a + 8 * 256) (le_split 8 e1) (le_split_bytes 8 e1)) as El.
      rewrite length_le_split in El. rewrite El, le_combine_split. done.
    + rewrite ld64_st64_ne by lia. rewrite Z.mul_0_r, Z.add_0_r. apply ld64_st64_same. by vm_compute.
    + apply ld64_st64_same. by vm_compute.
Qed.

(** ** Messages *)

(** The console, and the bookkeeping of a critical section of its lock. *)
Definition talks (k k' : kernel) : Prop :=
  exists cn c, k' = set_cpu c (set_cons cn k) /\ (c = k_cpu k \/ c = settled (k_cpu k)) /\
    co_panicked cn = co_panicked (k_cons k) /\ co_locking cn = co_locking (k_cons k).

Lemma talks_refl k : talks k k.
Proof. exists (k_cons k), (k_cpu k). split_and!; [by destruct k|by left|done|done]. Qed.

Lemma talks_bstep k k' : talks k k' -> bstep k k'.
Proof. intros (cn & c & -> & _). by apply bstep_same. Qed.

Lemma talks_early k k' l : talks k k' -> early k l -> early k' l.
Proof.
  intros (cn & c & -> & Hc & Hp & _) [Hu [] Hw (H1 & H2 & H3) Hpn]. constructor; try done; [|cbn; congruence].
  cbn. by destruct Hc as [-> | ->].
Qed.

(** A format that prints whatever the console is like. *)
Definition printable (fmt : list Z) (args : list fmtarg) : Prop :=
  forall k, co_panicked (k_cons k) = false -> exists k', cprintf_from fmt args k = Ok tt k' /\ prints k k'.

Lemma printable_text t : 37 ∉ t -> printable t [].
Proof. intros Ht k Hp. by apply cprintf_message. Qed.

Lemma printable_number t t' v : 37 ∉ t -> 37 ∉ t' -> printable (t ++ 37 :: 100 :: t') [FNum v].
Proof. intros Ht Ht' k Hp. by apply cprintf_number. Qed.

Lemma cprintf_talks fmt args k :
  printable fmt args -> cpu_ok (k_cpu k) -> co_panicked (k_cons k) = false ->
  (co_locking (k_cons k) = true -> lock_free k LK_cons) ->
  exists k', cprintf fmt args k = Ok tt k' /\ talks k k'.
Proof.
  intros Hf Hc Hp Hl. destruct (co_locking (k_cons k)) eqn:El.
  - specialize (Hl eq_refl). destruct (Hf (locked_by LK_cons k) Hp) as (k1 & E & cn & -> & Hcp & Hcl).
    exists (set_cpu (settled (k_cpu k)) (set_cons cn k)). split.
    + unfold cprintf. unfold bind at 1, gets. cbn [obind]. rewrite El. cbn [when].
      krun (acquire_free k LK_cons Hl). krun E.
      rewrite (release_locked_by k (set_cons cn (locked_by LK_cons k)) LK_cons Hc Hl eq_refl eq_refl). by destruct k.
    + exists cn, (settled (k_cpu k)). split_and!; [done|by right|done|done].
  - destruct (Hf k Hp) as (k1 & E & cn & -> & Hcp & Hcl). exists (set_cons cn k). split; [by apply cprintf_early|].
    exists cn, (k_cpu k). split_and!; [by destruct k|by left|done|done].
Qed.

Lemma early_cpu_ok k l : early k l -> cpu_ok (k_cpu k).
Proof. intros [_ _ _ (H1 & H2 & _) _]. split; [lia|done]. Qed.

(** ** The processors *)

Section Boot.
  Context {patience_bound : Patience} {driver : DiskDriver} {image : Image} {machine : Machine}.

Definition globals0 : mpglobals := MpGlobals (replicate NCPU 0) 0 0 0.

(** mpinit finds the processors [g] in the memory [m], or no table. *)
Definition mp_finds (m : mem) (g : mpglobals) (ports : list (Z * Z)) : Prop :=
  mpinit m mc_in23 globals0 = Some (MpDone g ports) \/
  mpinit m mc_in23 globals0 = Some MpNone /\ g = globals0 /\ ports = [].

Lemma mpinit_early k l g ports :
  early k l -> co_locking (k_cons k) = false -> mp_finds (k_mem k) g ports ->
  exists k', mpinit_run k = Ok (g, (fun p => HPort p.1 p.2) <$> ports) k' /\ talks k k'.
Proof.
  intros He Hl Hm.
  assert (forall fmt args, printable fmt args -> exists k', cprintf fmt args k = Ok tt k' /\ talks k k') as Hc.
  { intros fmt args Hf. apply cprintf_talks; [done|by eapply early_cpu_ok|apply He|by rewrite Hl]. }
  unfold mpinit_run. unfold bind at 1, gets. cbn [obind].
  change (MpGlobals (replicate NCPU 0) 0 0 0) with globals0. destruct Hm as [-> |(-> & -> & ->)].
  - destruct (Hc (chars "Seems we are SMP, ncpu = %d" ++ [10]) [FNum (Z.of_nat (g_ncpu g))]) as (k' & E & Ht).
    + apply (printable_number (chars "Seems we are SMP, ncpu = ") [10]); apply (bool_decide_unpack _); by vm_compute.
    + exists k'. split; [by krun E|done].
  - destruct (Hc (chars "No other CPUs found." ++ [10]) []) as (k' & E & Ht).
    + apply printable_text. apply (bool_decide_unpack _). by vm_compute.
    + exists k'. split; [by krun E|done].
Qed.

(** The local APIC delivers its message. *)
Definition lapic_answers (g : mpglobals) : Prop := g_lapic g = 0 \/ wait_delivs mc_icrlo = true.

Lemma lapicinit_early g k :
  lapic_answers g -> exists es, lapicinit_run g k = Ok es k.
Proof.
  intros H. unfold lapicinit_run, lapicinit. destruct (Z.eqb_spec (g_lapic g) 0) as [E|E]; [by eexists|].
  destruct H as [H|H]; [done|]. rewrite H. by eexists.
Qed.

(** A processor finds itself, and takes no lock before its struct cpu is set up. *)
Definition finds_self (g : mpglobals) (i : nat) : Prop := lapic_cpunum g (mc_id i) = Some i.

Lemma cpunum_self g i k : finds_self g i -> cpunum_on g i k = Ok (Z.of_nat i) k.
Proof. unfold finds_self, cpunum_on. by intros ->. Qed.

Lemma mpmain_talks g idt i k :
  finds_self g i -> cpu_ok (k_cpu k) -> co_panicked (k_cons k) = false ->
  (co_locking (k_cons k) = true -> lock_free k LK_cons) ->
  exists k' es, mpmain_setup g idt i k = Ok es k' /\ talks k k'.
Proof.
  intros Hi Hc Hp Hl. destruct (cprintf_talks (chars "cpu%d: starting" ++ [10]) [FNum (Z.of_nat i)] k) as (k' & E & Ht);
    [|done|done|done|].
  - apply (printable_number (chars "cpu") (chars ": starting" ++ [10])); apply (bool_decide_unpack _); by vm_compute.
  - eexists k', _. split; [|done]. unfold mpmain_setup. krun (cpunum_self g i k Hi). krun E. reflexivity.
Qed.

Lemma set_cpu_early k l c :
  early k l -> c_ncli c = 0 -> c_if c = false -> c_proc c = None -> early (set_cpu c k) l.
Proof. intros [Hu [] Hw _ Hp] H1 H2 H3. by constructor. Qed.

(** The start of another processor, as far as the rest of the kernel sees it. *)
Lemma mpenter_early g idt i k v l :
  early k (v :: l) -> finds_self g i -> lapic_answers g -> (co_locking (k_cons k) = true -> lock_free k LK_cons) ->
  exists k' es, mpenter g idt i k = Ok es k' /\ early k' l /\ bstep k k' /\ frame (v :: l) k k' /\
    co_locking (k_cons k') = co_locking (k_cons k).
Proof.
  intros He Hi Hla Hl. pose proof (ea_cpu _ _ He) as (Hc1 & Hc2 & Hc3).
  set (k1 := set_cpu (Cpu (c_id (k_cpu k)) (c_ncli (k_cpu k)) (c_intena (k_cpu k)) (c_if (k_cpu k)) (c_proc (k_cpu k))
    (c_local (k_cpu k)) (v2p (k_kpml4 k))) k).
  assert (early k1 (v :: l)) as He1 by by apply set_cpu_early.
  destruct (seginit_run g (mc_id i) i k1 v l He1 Hi) as (k2 & h & E2 & He2 & Hk2 & Hv & Hn & Ek2 & Hw).
  assert (bstep k k2) as Hb2 by (subst k2; by apply bstep_same).
  destruct (lapicinit_early g k2 Hla) as [es E3].
  destruct (mpmain_talks g idt i k2 Hi) as (k4 & es' & E4 & Ht).
  - by eapply early_cpu_ok.
  - apply He2.
  - intros H. apply (bs_free _ _ Hb2), Hl. by subst k2.
  - eexists k4, _. split_and!.
    + unfold mpenter. unfold switchkvm, lcr3 at 1. unfold bind at 1. unfold bind at 1, gets, modify. cbn [obind]. fold k1.
      krun E2. krun E3. krun E4. reflexivity.
    + by eapply talks_early.
    + etransitivity; [exact Hb2|by apply talks_bstep].
    + intros x Hx. destruct Ht as (cn & c & -> & _). cbn. rewrite (Hw x) by (apply Hx; set_solver). done.
    + destruct Ht as (cn & c & -> & _ & _ & Hlk). cbn. rewrite Hlk. by subst k2.
Qed.

(** The memory at 0x7000 that the other processors start in. *)
Definition low (x : Z) : Prop := p2v 28672 - 16 <= x < p2v 28672 + mc_entryother_size.

Definition low_frame (l : list Z) (k k' : kernel) : Prop :=
  forall x, (forall p, p ∈ l -> off p x) -> ~ low x -> ld8 (k_mem k') x = ld8 (k_mem k) x.

Lemma frame_low l k k' : frame l k k' -> low_frame l k k'.
Proof. intros H x Hx _. by apply H. Qed.

Lemma low_frame_trans l l' k1 k2 k3 : l' ⊆ l -> low_frame l k1 k2 -> low_frame l' k2 k3 -> low_frame l k1 k3.
Proof. intros Hs H1 H2 x Hx Hlo. rewrite H2, H1; [done..| |done]. intros p Hp. apply Hx. by apply Hs. Qed.

(** Stores below the end of the kernel spare the free pages. *)
Lemma early_low k l m :
  early k l -> mem_wf m -> p2v 28672 + mc_entryother_size <= km_end (k_kmem k) ->
  (forall x, ~ low x -> ld8 m x = ld8 (k_mem k) x) -> early (set_mem m k) l.
Proof.
  intros He Hw Hk Hm. apply early_mem; [done| |done]. intros p x Hp Hx. apply Hm. unfold low.
  destruct (proj1 (Forall_forall _ _) (fl_pages _ _ (ea_free _ _ He)) p Hp) as (_ & _ & Hge & _). lia.
Qed.

Lemma startother_early g idt i k a b l apicid :
  early k (a :: b :: l) -> finds_self g mc_boot -> finds_self g i -> i <> mc_boot -> g_cpus g !! i = Some apicid ->
  lapic_answers g -> (co_locking (k_cons k) = true -> lock_free k LK_cons) ->
  0 <= mc_entryother_size -> p2v 28672 + mc_entryother_size <= km_end (k_kmem k) ->
  exists k' es, startother g idt i k = Ok es k' /\ early k' l /\ bstep k k' /\ low_frame (a :: b :: l) k k' /\
    k_cpu k' = k_cpu k /\ co_locking (k_cons k') = co_locking (k_cons k).
Proof.
  intros He Hb Hi Hne Hg Hla Hl Hs Hk. destruct (early_alloc k a (b :: l) He) as (E1 & He1 & Ha & Hna & Hk1).
  set (k1 := alloc_state _ _ _) in *. set (code := p2v 28672) in *.
  set (m := st64 (st32 (st32 (k_mem k) (code - 4) 32768) (code - 8) (v2p mc_entry32mp)) (code - 16) (u64 (a + KSTACKSIZE))).
  assert (forall x, ~ low x -> ld8 m x = ld8 (k_mem k) x) as Hm.
  { intros x Hx. unfold low in Hx. fold code in Hx. unfold m, st32, st64.
    by rewrite !ld8_st_bytes, !length_le_split, !decide_False by lia. }
  assert (early (set_mem m k1) (b :: l)) as He2.
  { apply early_low; [done|unfold m, st32, st64; repeat apply st_bytes_wf; apply He|done|done]. }
  destruct (mpenter_early g idt i (set_cpu cpu0 (set_mem m k1)) b l) as (k3 & es & E3 & He3 & Hb3 & Hf3 & Hl3);
    [by apply set_cpu_early|done|done|done|].
  eexists (set_cpu (k_cpu k) k3), _. split_and!.
  - unfold startother. krun (cpunum_self g mc_boot k Hb). rewrite (proj2 (Z.eqb_neq _ _)) by lia. krun E1.
    unfold memory. unfold bind at 1, modify. cbn [obind]. unfold bind at 1. cbn [obind]. unfold bind at 1. cbn [obind].
    rewrite Hg. unfold of_option, ret at 1. unfold bind at 1. cbn [obind]. unfold on_other.
    unfold bind at 1. unfold bind at 1, gets. cbn [obind]. unfold bind at 1, modify. cbn [obind].
    etransitivity; [|reflexivity]. fold code m.
    change (set_cpu cpu0 _) with (set_cpu cpu0 (set_mem m k1)).
    rewrite (obind_ok _ _ _ _ _ E3). unfold bind. cbn [obind]. reflexivity.
  - destruct (ea_cpu _ _ He) as (? & ? & ?). by apply set_cpu_early.
  - transitivity (set_cpu cpu0 (set_mem m k1)); [by apply bstep_same|]. transitivity k3; [done|by apply bstep_same].
  - intros x Hx Hlo. cbn. rewrite Hf3 by (intros p Hp; apply Hx; set_solver). by apply Hm.
  - done.
  - cbn. by rewrite Hl3.
Qed.

(** The loop over the processors: two pages for each of the others. *)
Lemma start_cpus_early g idt ids k l :
  early k l -> (2 * length ids <= length l)%nat -> finds_self g mc_boot ->
  (forall i, i ∈ ids -> finds_self g i /\ is_Some (g_cpus g !! i)) ->
  lapic_answers g -> (co_locking (k_cons k) = true -> lock_free k LK_cons) ->
  0 <= mc_entryother_size -> p2v 28672 + mc_entryother_size <= km_end (k_kmem k) ->
  exists k' es used l', start_cpus g idt ids k = Ok es k' /\ l = used ++ l' /\ (length used <= 2 * length ids)%nat /\
    early k' l' /\ bstep k k' /\ low_frame l k k' /\ k_cpu k' = k_cpu k /\ co_locking (k_cons k') = co_locking (k_cons k).
Proof.
  intros He Hlen Hb Hids Hla Hl Hs Hk. revert k l He Hlen Hl Hk. induction ids as [|i ids IH]; intros k l He Hlen Hl Hk.
  - eexists k, _, [], l. cbn [start_cpus]. split_and!; try done.
  - destruct (Hids i) as [Hi [apicid Hg]]; [set_solver|]. cbn [length] in Hlen. cbn [start_cpus].
    assert (exists k1 es u l1, startother g idt i k = Ok es k1 /\ l = u ++ l1 /\ (length u <= 2)%nat /\ early k1 l1 /\
      bstep k k1 /\ low_frame l k k1 /\ k_cpu k1 = k_cpu k /\ co_locking (k_cons k1) = co_locking (k_cons k)) as
      (k1 & es1 & u1 & l1 & E1 & -> & Hu1 & He1 & Hb1 & Hf1 & Hc1 & Hl1).
    { destruct (decide (i = mc_boot)) as [->|Hne].
      - eexists k, _, [], l. split_and!; try done; [|cbn; lia]. unfold startother. krun (cpunum_self g mc_boot k Hb).
        by rewrite Z.eqb_refl.
      - destruct l as [|a [|b l]]; [cbn in Hlen; lia..|].
        destruct (startother_early g idt i k a b l apicid) as (k1 & es & E & He1 & Hb1 & Hf1 & Hc1 & Hl1); [done..|].
        eexists k1, es, [a; b], l. done. }
    destruct (IH (fun j Hj => Hids j (list_elem_of_further _ _ _ Hj)) k1 l1) as (k2 & es2 & u2 & l2 & E2 & -> & Hu2 & He2 & Hb2 & Hf2 & Hc2 & Hl2).
    + done.
    + rewrite length_app in Hlen. lia.
    + rewrite Hl1. intros H. apply (bs_free _ _ Hb1). by apply Hl.
    + by rewrite (keeps_end _ _ (bs_keeps _ _ Hb1)).
    + eexists k2, _, (u1 ++ u2), l2. split_and!.
      * krun E1. krun E2. reflexivity.
      * by rewrite app_assoc.
      * rewrite length_app. cbn. lia.
      * done.
      * by etransitivity.
      * apply (low_frame_trans _ (u2 ++ l2) k k1 k2); [set_solver|done|done].
      * congruence.
      * congruence.
Qed.

Lemma startothers_early g idt k l :
  early k l -> (2 * g_ncpu g <= length l)%nat -> finds_self g mc_boot ->
  (forall i, (i < g_ncpu g)%nat -> finds_self g i /\ is_Some (g_cpus g !! i)) ->
  lapic_answers g -> (co_locking (k_cons k) = true -> lock_free k LK_cons) ->
  0 <= mc_entryother_size -> p2v 28672 + mc_entryother_size <= km_end (k_kmem k) ->
  exists k' es used l', startothers g idt k = Ok es k' /\ l = used ++ l' /\ (length used <= 2 * g_ncpu g)%nat /\
    early k' l' /\ bstep k k' /\ low_frame l k k' /\ k_cpu k' = k_cpu k /\ co_locking (k_cons k') = co_locking (k_cons k).
Proof.
  intros He Hlen Hb Hids Hla Hl Hs Hk.
  set (m := Kstring.memmove (k_mem k) (p2v 28672) mc_entryother mc_entryother_size).
  assert (forall x, ~ low x -> ld8 m x = ld8 (k_mem k) x) as Hm.
  { intros x Hx. unfold m. rewrite memmove_ld8, decide_False; [done| |apply He|done]. unfold low in Hx. lia. }
  destruct (start_cpus_early g idt (upto (g_ncpu g)) (set_mem m k) l) as (k' & es & u & l' & E & Hu & Hul & He' & Hb' & Hf & Hc & Hlk).
  - apply early_low; [done|apply memmove_wf, He|done|done].
  - unfold upto. by rewrite length_seq.
  - done.
  - intros i Hi. by apply Hids, elem_of_upto.
  - done.
  - done.
  - done.
  - done.
  - exists k', es, u, l'. unfold upto in Hul. rewrite length_seq in Hul. split_and!; try done.
    + etransitivity; [by apply (bstep_same k (set_mem m k))|done].
    + intros x Hx Hlo. rewrite (Hf x Hx Hlo). by apply Hm.
Qed.

End Boot.

(** ** binit *)

(** binit changes the buffers and their locks. *)
Definition buffers_only (k k' : kernel) : Prop :=
  exists bs sl ls, k' = set_bufs bs (set_sleeps sl (set_locks ls k)) /\ (unheld k -> unheld k') /\
    (forall lk, lock_free k lk -> lock_free k' lk).

#[export] Instance buffers_only_preorder : PreOrder buffers_only.
Proof.
  split.
  - intros k. exists (k_bufs k), (k_sleeps k), (k_locks k). split; [by destruct k|done].
  - intros k1 k2 k3 (b & s & l & -> & H & G) (b' & s' & l' & -> & H' & G'). exists b', s', l'. auto.
Qed.

Definition in_buffers {A} (c : K A) : Prop := forall k a k', c k = Ok a k' -> buffers_only k k'.

Lemma in_buffers_bind {A B} (c : K A) (f : A -> K B) :
  in_buffers c -> (forall a, in_buffers (f a)) -> in_buffers (bind c f).
Proof. intros Hc Hf k b k' E. apply obind_inv_ok in E as (a & k1 & E1 & E2). etransitivity; [by eapply Hc|by eapply Hf]. Qed.

Lemma in_buffers_get i : in_buffers (get_buf i).
Proof. intros k a k'. unfold get_buf, read_at. case_match; [|done]. intros [= -> ->]. reflexivity. Qed.

Lemma in_buffers_upd i f : in_buffers (upd_buf i f).
Proof.
  intros k a k'. unfold upd_buf, upd_at. case_match; [|done]. intros [= <- <-].
  eexists _, (k_sleeps k), (k_locks k). split; [by destruct k|done].
Qed.

Lemma in_buffers_initlock lk name : in_buffers (initlock lk name).
Proof.
  intros k a k' [= <- <-]. exists (k_bufs k), (k_sleeps k), (<[lk := Spinlock 0 name None]> (k_locks k)).
  split; [by destruct k|]. split; apply bstep_initlock.
Qed.

Lemma in_buffers_initsleep lk name : in_buffers (initsleeplock lk name).
Proof.
  unfold initsleeplock. apply in_buffers_bind; [apply in_buffers_initlock|].
  intros _ k a k' [= <- <-]. exists (k_bufs k), (<[lk := Sleeplock 0 name 0]> (k_sleeps k)), (k_locks k).
  split; [by destruct k|done].
Qed.

Lemma in_buffers_for_each {X} (xs : list X) body : (forall x, in_buffers (body x)) -> in_buffers (for_each xs body).
Proof.
  intros H. induction xs as [|x xs IH]; [intros k a k' [= <- <-]; reflexivity|]. by apply in_buffers_bind.
Qed.

Lemma in_buffers_binit : in_buffers binit.
Proof.
  unfold binit. repeat (apply in_buffers_bind; [first [apply in_buffers_initlock|apply in_buffers_upd]|intros _]).
  apply in_buffers_for_each. intros b.
  repeat (apply in_buffers_bind;
    [first [apply in_buffers_get|apply in_buffers_upd|apply in_buffers_initsleep]|intros ?]).
  apply in_buffers_upd.
Qed.

(** ** The devices and tables *)

(** What the initialisations between seginit and startothers keep. *)
Record inits (k k' : kernel) : Prop := Inits {
  in_same : (k_procs k', k_inodes k', k_nextpid k', k_initproc k', k_first k', k_kmem k', k_mem k', k_kpml4 k', k_kpdpt k', k_log k',
      co_panicked (k_cons k')) =
    (k_procs k, k_inodes k, k_nextpid k, k_initproc k, k_first k, k_kmem k, k_mem k, k_kpml4 k, k_kpdpt k, k_log k,
      co_panicked (k_cons k));
  in_cpu : k_cpu k' = k_cpu k \/ k_cpu k' = settled (k_cpu k);
  in_free : forall lk, lock_free k lk -> lock_free k' lk;
  in_unheld : unheld k -> unheld k'
}.

#[export] Instance inits_preorder : PreOrder inits.
Proof.
  split.
  - intros k. split; try done. by left.
  - intros k1 k2 k3 [H1 H2 H3 H4] [G1 G2 G3 G4]. split; [congruence| |auto|auto].
    destruct H2 as [H2|H2], G2 as [G2|G2]; rewrite G2, H2; rewrite ?settled_idem; auto.
Qed.

Lemma inits_early k k' l : inits k k' -> early k l -> early k' l.
Proof.
  intros [H Hc _ _] [Hu [H1 H2 H3] Hw (G1 & G2 & G3) Hp]. injection H as _ _ _ _ _ Ek Em _ _ _ Ep.
  constructor.
  - congruence.
  - constructor; [by rewrite Em, Ek|done|]. eapply Forall_impl; [exact H3|]. intros p. unfold page_ok. by rewrite Ek.
  - by rewrite Em.
  - by destruct Hc as [-> | ->].
  - congruence.
Qed.

Lemma inits_same k k' :
  (k_procs k', k_inodes k', k_nextpid k', k_initproc k', k_first k', k_kmem k', k_mem k', k_kpml4 k', k_kpdpt k', k_log k',
    co_panicked (k_cons k')) =
  (k_procs k, k_inodes k, k_nextpid k, k_initproc k, k_first k, k_kmem k, k_mem k, k_kpml4 k, k_kpdpt k, k_log k,
    co_panicked (k_cons k)) ->
  k_cpu k' = k_cpu k -> k_locks k' = k_locks k -> inits k k'.
Proof. intros H1 H2 H3. split; [done|by left|unfold lock_free; by rewrite H3|unfold unheld; by rewrite H3]. Qed.

Lemma inits_initlock k lk name : inits k (put_lock lk (Spinlock 0 name None) k).
Proof. split; [done|by left|apply bstep_initlock|apply bstep_initlock]. Qed.

Lemma talks_inits k k' : talks k k' -> inits k k'.
Proof. intros (cn & c & -> & Hc & Hp & _). split; [cbn; by rewrite Hp|done|done|done]. Qed.

Lemma buffers_inits k k' : buffers_only k k' -> inits k k'.
Proof. intros (bs & sl & ls & -> & Hu & Hf). split; [done|by left|done|done]. Qed.

(** The parts that the initialisations of the devices leave alone. *)
Definition tables (k : kernel) := (k_bufs k, k_sleeps k, k_trace k, k_disk k).

Lemma ioapic_loop xs k :
  exists io, for_each xs (fun i => ioapicwrite (REG_TABLE + 2 * Z.of_nat i) (Z.lor INT_DISABLED (T_IRQ0 + Z.of_nat i)) ;;;
    ioapicwrite (REG_TABLE + 2 * Z.of_nat i + 1) 0) k = Ok tt (set_ioapic io k).
Proof.
  revert k. induction xs as [|i xs IH]; intros k; [exists (k_ioapic k); by destruct k|]. cbn [for_each].
  unfold bind at 1, bind at 1, ioapicwrite, modify. cbn [obind].
  match goal with |- context [for_each xs _ ?k1] => destruct (IH k1) as [io E] end. exists io. exact E.
Qed.

Lemma ioapicinit_early id k l :
  early k l -> co_locking (k_cons k) = false ->
  exists k', ioapicinit id k = Ok tt k' /\ inits k k' /\ tables k' = tables k /\ co_locking (k_cons k') = false.
Proof.
  intros He Hl. unfold ioapicinit, ioapicread. unfold bind at 1, gets. cbn [obind]. unfold bind at 1. cbn [obind].
  set (msg := chars "ioapicinit: id isn't equal to ioapicid; not a MP" ++ [10]).
  assert (exists k', when (negb (Z.shiftr (default 0 (k_ioapic k !! REG_ID)) 24 =? id)) (cprintf msg []) k = Ok tt k' /\ talks k k')
    as (k1 & E1 & Ht).
  { unfold when. case_match; [|by exists k; split; [|apply talks_refl]].
    apply cprintf_talks; [|by eapply early_cpu_ok|apply He|by rewrite Hl].
    apply printable_text. apply (bool_decide_unpack _). by vm_compute. }
  krun E1. edestruct ioapic_loop as [io E2]. eexists. split; [exact E2|]. split_and!.
  - transitivity k1; [by apply talks_inits|by apply inits_same].
  - by destruct Ht as (cn & c & -> & _).
  - destruct Ht as (cn & c & -> & _ & _ & Hlk). cbn. by rewrite Hlk.
Qed.

Lemma consoleinit_run k :
  exists k', consoleinit k = Ok tt k' /\ inits k k' /\ tables k' = tables k /\ co_locking (k_cons k') = true /\ lock_free k' LK_cons.
Proof.
  set (k1 := put_lock LK_input (Spinlock 0 "input" None) (put_lock LK_cons (Spinlock 0 "console" None) k)).
  eexists. split; [reflexivity|]. split_and!; [|done|done|].
  - transitivity (put_lock LK_cons (Spinlock 0 "console" None) k); [apply inits_initlock|].
    transitivity k1; [apply inits_initlock|]. by apply inits_same.
  - exists "console"%string. cbn. rewrite lookup_insert_ne by done. apply lookup_insert_eq.
Qed.

Lemma uartinit_run k :
  exists k', uartinit k = Ok tt k' /\ inits k k' /\ tables k' = tables k /\ k_cons k' = k_cons k.
Proof.
  unfold uartinit. unfold bind at 1, gets. cbn [obind]. case_match; [exists k; split_and!; try done; reflexivity|].
  eexists. split; [reflexivity|]. split_and!; [by apply inits_same|done|done].
Qed.

(** The cache depends on the buffers, their locks and the blocks of the disk. *)
Lemma bcache_ok_ext k k' mru held :
  k_bufs k' = k_bufs k -> k_sleeps k' = k_sleeps k -> d_blocks (k_disk k') = d_blocks (k_disk k) ->
  disksize (k_disk k') = disksize (k_disk k) -> bcache_ok k mru held -> bcache_ok k' mru held.
Proof.
  intros Hb Hs Hd Hz [H1 H2 H3 H4 H5 H6 H7 H8]. constructor; rewrite ?Hb, ?Hd; try done.
  - intros i b Hi E. destruct (H5 i b Hi E). split; unfold disk_block in *; by rewrite ?Hd, ?Hz.
  - intros i Hi. unfold get_sleep in *. rewrite Hs. by apply H6.
Qed.

Lemma content_ext k k' b :
  k_bufs k' = k_bufs k -> d_blocks (k_disk k') = d_blocks (k_disk k) -> content k' b = content k b.
Proof. intros Hb Hd. unfold content, disk_block. by rewrite Hb, Hd. Qed.

Lemma dirty_ext k k' b : k_bufs k' = k_bufs k -> dirty k' b <-> dirty k b.
Proof. intros E. unfold dirty, cached. by rewrite E. Qed.

Lemma devices_early {B} id disk1 n k l (c : K B) :
  early k l -> co_locking (k_cons k) = false -> fresh_bufs k ->
  (forall b data, d_blocks (k_disk k) !! b = Some data -> length data = 512%nat) ->
  exists k', (ioapicinit id ;;; consoleinit ;;; uartinit ;;; traceinit ;;; pinit ;;; binit ;;; fileinit ;;;
      Ide.ideinit disk1 n ;;; c) k = c k' /\
    inits k k' /\ co_locking (k_cons k') = true /\ k_trace k' = TraceBuf 1 0 0 0 (tb_events (k_trace k)) /\
    bcache_ok k' (rev (upto NBUF)) ∅ /\ (forall b, content k' b = disk_block (k_disk k) b) /\
    lock_free k' LK_cons /\ lock_free k' LK_trace /\ (forall b, ~ dirty k' b) /\
    d_blocks (k_disk k') = d_blocks (k_disk k) /\ disksize (k_disk k') = disksize (k_disk k).
Proof.
  intros He Hl Hfresh Hdisk.
  destruct (ioapicinit_early id k l He Hl) as (k1 & E1 & H1 & T1 & L1).
  destruct (consoleinit_run k1) as (k2 & E2 & H2 & T2 & L2 & F2).
  destruct (uartinit_run k2) as (k3 & E3 & H3 & T3 & C3).
  set (k4 := set_trace (TraceBuf 1 0 0 0 (tb_events (k_trace k3))) (put_lock LK_trace (Spinlock 0 "trace" None) k3)).
  set (k5 := put_lock LK_ptable (Spinlock 0 "ptable" None) k4).
  assert (tables k3 = tables k) as T by congruence. injection T as Tb Ts Tt Td.
  assert (inits k3 k5) as H5.
  { transitivity (put_lock LK_trace (Spinlock 0 "trace" None) k3); [apply inits_initlock|].
    transitivity k4; [by apply inits_same|apply inits_initlock]. }
  destruct (binit_run k5) as (k6 & E6 & Hok & Hcont & Hd6 & Hlk6 & _ & Hcl6 & _).
  { unfold fresh_bufs. change (k_bufs k5) with (k_bufs k3). by rewrite Tb. }
  { change (k_disk k5) with (k_disk k3). by rewrite Td. }
  pose proof (in_buffers_binit k5 tt k6 E6) as Hbo. pose proof (buffers_inits _ _ Hbo) as H6.
  set (k7 := put_lock LK_ide (Spinlock 0 "ide" None) (put_lock LK_ftable (Spinlock 0 "ftable" None) k6)).
  assert (exists k8, Ide.ideinit disk1 n (put_lock LK_ftable (Spinlock 0 "ftable" None) k6) = Ok tt k8 /\ inits k7 k8 /\
    k_bufs k8 = k_bufs k6 /\ k_sleeps k8 = k_sleeps k6 /\ k_trace k8 = k_trace k6 /\ k_cons k8 = k_cons k6 /\
    d_blocks (k_disk k8) = d_blocks (k_disk k6) /\ disksize (k_disk k8) = disksize (k_disk k6))
    as (k8 & E8 & H8 & B8 & S8 & T8 & C8 & D8 & Z8).
  { unfold Ide.ideinit, when. destruct disk1; (eexists; split; [reflexivity|]; split; [by apply inits_same|done]). }
  assert (inits k3 k8) as H38.
  { transitivity k5; [done|]. transitivity k6; [done|]. transitivity k7; [|done].
    etransitivity; apply inits_initlock. }
  assert (inits k6 k8) as H68 by (transitivity k7; [etransitivity; apply inits_initlock|done]).
  exists k8. split_and!.
  - krun E1. krun E2. krun E3. unfold traceinit, pinit, fileinit. unfold bind at 1. unfold bind at 1, initlock, modify. cbn [obind].
    unfold bind at 1. cbn [obind]. fold k4 k5. krun E6. unfold bind at 1. cbn [obind]. krun E8. done.
  - transitivity k1; [done|]. transitivity k2; [done|]. by transitivity k3.
  - rewrite C8. destruct Hbo as (bs & sl & ls & -> & _). change (co_locking (k_cons k3) = true). by rewrite C3.
  - rewrite T8. destruct Hbo as (bs & sl & ls & -> & _). cbn. by rewrite Tt.
  - by apply (bcache_ok_ext k6).
  - intros b. rewrite (content_ext k6 k8), Hcont by done. change (k_disk k5) with (k_disk k3). by rewrite Td.
  - apply (in_free _ _ H38), (in_free _ _ H3), F2.
  - apply (in_free _ _ H68), (in_free _ _ H6). exists "trace"%string. cbn. rewrite lookup_insert_ne by done. apply lookup_insert_eq.
  - intros b. rewrite (dirty_ext k6 k8) by done. apply Hcl6.
  - rewrite D8, Hd6. change (k_disk k5) with (k_disk k3). by rewrite Td.
  - rewrite Z8, Hd6. change (k_disk k5) with (k_disk k3). by rewrite Td.
Qed.

(** ** Composition *)

(** The kernel as the loader leaves it: static storage is zero, [m] is what memory holds, [d]
    the disk, and the kernel ends at [kend].  The spin locks of static storage are zero too. *)
Definition zero_locks : gmap lockid spinlock :=
  list_to_map ((., spinlock0) <$> [LK_ptable; LK_bcache; LK_log; LK_icache; LK_ftable] ++
    ((fun i => LK_sleep (SL_buf i)) <$> upto NBUF) ++ ((fun i => LK_sleep (SL_inode i)) <$> upto NINODE)).

Definition loaded (kend : Z) (m : mem) (d : disk) : kernel :=
  set_locks zero_locks (set_disk d (set_mem m (set_kmem (Kmem false 0 kend) kernel0))).

(** A lock in zeroed storage is free. *)
Lemma zero_locks_values lk s : zero_locks !! lk = Some s -> s = spinlock0.
Proof.
  unfold zero_locks. intros H%elem_of_list_to_map_2. apply list_elem_of_fmap in H as (x & [= _ ->] & _). done.
Qed.

Lemma zero_locks_static lk : static_lock lk -> zero_locks !! lk = Some spinlock0.
Proof.
  intros Hs. destruct (zero_locks !! lk) as [s|] eqn:E; [by rewrite (zero_locks_values _ _ E)|exfalso].
  apply not_elem_of_list_to_map_2 in E. apply E. rewrite <- list_fmap_compose. apply list_elem_of_fmap. exists lk. split; [done|].
  rewrite !elem_of_app, !list_elem_of_fmap. destruct Hs as [| | | | |i Hi|i Hi]; [left; set_solver..| |].
  - right. left. exists i. split; [done|]. by apply elem_of_upto.
  - right. right. exists i. split; [done|]. by apply elem_of_upto.
Qed.

(** Facts of one page survive what happens outside it. *)
Lemma ld64_page m m' v a :
  (forall x, v <= x < v + PGSIZE -> ld8 m' x = ld8 m x) -> v <= a -> a + 8 <= v + PGSIZE -> ld64 m' a = ld64 m a.
Proof. intros H H1 H2. apply ld64_ext. intros x Hx. apply H. lia. Qed.

(** The tables of the boot processor. *)
Definition tables_set (m : mem) (idt gdt : Z) (vectors : nat -> Z) : Prop :=
  (forall n, (n < 256)%nat -> is_gate m idt (Z.of_nat n) (vectors n) KERNEL_CS 0) /\
  is_code64 (selected m gdt KERNEL_CS) 0 /\ is_data (selected m gdt (KERNEL_CS + 8)) 0 /\
  is_code64 (selected m gdt USER_CS) 3 /\ is_data (selected m gdt USER_DS) 3 /\
  is_tss (selected m gdt (8 * SEG_TSS)) (selected m gdt (8 * SEG_TSS + 8)) (gdt + 1024).

Lemma tables_set_ext m m' idt gdt vectors :
  (forall x, idt <= x < idt + PGSIZE -> ld8 m' x = ld8 m x) -> (forall x, gdt <= x < gdt + PGSIZE -> ld8 m' x = ld8 m x) ->
  tables_set m idt gdt vectors -> tables_set m' idt gdt vectors.
Proof.
  intros Hi Hg (H0 & H1 & H2 & H3 & H4 & H5).
  assert (forall sel, 0 <= sel / 8 < 512 -> selected m' gdt sel = selected m gdt sel) as Hs.
  { intros sel Hsel. apply (ld64_page m m' gdt); [done|lia|unfold PGSIZE; lia]. }
  unfold tables_set. rewrite !Hs by (vm_compute; split; congruence). split_and!; try done.
  intros n Hn. eapply is_gate_ext; [|by apply H0]. intros x Hx. apply Hi. unfold PGSIZE. lia.
Qed.

Section Composition.
  Context {patience_bound : Patience} {driver : DiskDriver} {image : Image} {machine : Machine}.

(** What the hardware, the firmware and the linker are relied on for. *)
Record platform (kend : Z) (m : mem) (g : mpglobals) (ports : list (Z * Z)) : Prop := Platform {
  pf_kend : KERNBASE + MB <= kend;
  pf_low : 0 <= mc_entryother_size /\ p2v 28672 + mc_entryother_size <= im_initcode;
  pf_initcode : 0 <= im_initcode_size < PGSIZE /\ im_initcode + im_initcode_size <= kend;
  pf_size : kend + PGSIZE * (16 + 2 * Z.of_nat (g_ncpu g)) <= KERNBASE + PHYSTOP;
  pf_mp : mp_finds m g ports;
  pf_tables : mp_low m;
  pf_lapic : lapic_answers g;
  pf_boot : finds_self g mc_boot;
  pf_cpus : forall i, (i < g_ncpu g)%nat -> finds_self g i /\ is_Some (g_cpus g !! i);
  pf_vectors : forall n, (n < 256)%nat -> in_u64 (mc_vectors n)
}.

Lemma pool_length kend n :
  KERNBASE <= kend -> 1 <= n -> kend + PGSIZE * n <= KERNBASE + PHYSTOP -> n - 1 <= Z.of_nat (length (pool kend)).
Proof.
  intros H1 H0 H2. unfold pool. rewrite length_reverse. unfold pages. rewrite length_fmap, length_seq.
  rewrite pgroundup_spec by (unfold PGSIZE in *; lia). unfold PGSIZE, KERNBASE, PHYSTOP in *.
  Z.to_euclidean_division_equations; lia.
Qed.

(** *** Up to the segments *)

Lemma bstep_map a b k k' : bstep k k' -> bstep (set_kpdpt b (set_kpml4 a k)) (set_kpdpt b (set_kpml4 a k')).
Proof.
  intros [H1 H2 H3 H4 H5]. split; try done. unfold keeps, statics in *. cbn in *. congruence.
Qed.

(** The pages the boot processor keeps: the kernel's map, the gates and the segments. *)
Record own_pages (k : kernel) (l : list Z) (a b v1 v2 : Z) : Prop := OwnPages {
  op_map : kernel_map (k_mem k) a b;
  op_tables : tables_set (k_mem k) v1 v2 mc_vectors;
  op_pages : Forall (page_ok k) [a; b; v1; v2];
  op_apart : Forall (fun v => v ∉ l) [a; b; v1; v2]
}.

(** They survive what spares them. *)
Lemma own_pages_ext k k' l l' a b v1 v2 :
  (forall v x, v ∈ [a; b; v1; v2] -> v <= x < v + PGSIZE -> ld8 (k_mem k') x = ld8 (k_mem k) x) ->
  km_end (k_kmem k') = km_end (k_kmem k) -> l' ⊆ l -> own_pages k l a b v1 v2 -> own_pages k' l' a b v1 v2.
Proof.
  intros Hm He Hl [H1 H2 H3 H4]. constructor.
  - apply (kernel_map_ext (k_mem k)); [intros x Hx; apply (Hm a x); [set_solver|done]|intros x Hx; apply (Hm b x); [set_solver|done]|done].
  - apply (tables_set_ext (k_mem k)); [intros x Hx; apply (Hm v1 x); [set_solver|done]|intros x Hx; apply (Hm v2 x); [set_solver|done]|done].
  - eapply Forall_impl; [exact H3|]. intros p. unfold page_ok. by rewrite He.
  - eapply Forall_impl; [exact H4|]. intros p Hp Hl'. apply Hp. by apply Hl.
Qed.

(** The first half: memory, page tables, processors, gates and segments. *)
Lemma boot_first {B} kend m d g ports (c : mpglobals -> list hweffect -> list hweffect -> Z -> list hwreg -> K B) :
  platform kend m g ports -> mem_wf m ->
  exists k a b v1 v2 l e1 e2, (uartearlyinit mc_uart ;;; kinit1 kend (p2v PHYSTOP) ;;; kvmalloc ;;; r <- mpinit_run ;;
      let '(g, e1) := r in e2 <- lapicinit_run g ;; idt <- tvinit mc_vectors ;;
      e3 <- seginit g (mc_id mc_boot) ;; c g e1 e2 idt e3) (loaded kend m d) = c g e1 e2 v1 (seg_regs v2) k /\
    pool kend = [a; b; v1; v2] ++ l /\ (11 + 2 * g_ncpu g <= length l)%nat /\ early k l /\
    bstep (set_kpdpt b (set_kpml4 a (loaded kend m d))) k /\ lock_free k LK_kmem /\
    frame (pool kend) (loaded kend m d) k /\ own_pages k l a b v1 v2 /\
    c_local (k_cpu k) = v2 /\ c_id (k_cpu k) = Z.of_nat mc_boot /\ co_locking (k_cons k) = false.
Proof.
  intros [HkMB [Hlo1 Hlo2] Hic Hsz Hmp Hmpl Hla Hbo Hcp Hve] Hw.
  assert (KERNBASE <= kend) as Hk by (unfold MB in HkMB; lia). set (k0 := loaded kend m d).
  destruct (uartearlyinit_run mc_uart k0 eq_refl) as (k1 & E1 & cn1 & -> & Hp1 & Hl1).
  destruct (kinit1_early (set_cons cn1 k0) kend) as (k2 & E2 & He2 & Hb2 & Hf2 & Hlk2 & Hc2 & Hcn2);
    [done|done|unfold PGSIZE in *; lia|done|done|done|].
  pose proof (pool_length kend (16 + 2 * Z.of_nat (g_ncpu g)) Hk ltac:(lia) Hsz) as Hlen.
  destruct (pool kend) as [|a [|b [|v1 [|v2 l]]]] eqn:Epool; [cbn in Hlen; lia..|].
  destruct (kvmalloc_early k2 a b (v1 :: v2 :: l) He2) as
    (k3 & E3 & He3 & Hb3 & Hf3 & Hcn3 & _ & _ & _ & Ha & Hb & _ & Hna & Hnb & Hmap).
  assert (co_locking (k_cons k3) = false) as Hl3 by (rewrite Hcn3, Hcn2; exact Hl1).
  assert (frame (pool kend) k0 k3) as Hf03.
  { rewrite Epool. apply (frame_trans _ (a :: b :: v1 :: v2 :: l) _ k2); [done|exact Hf2|exact Hf3]. }
  pose proof (keeps_end _ _ (bs_keeps _ _ Hb2) : _ = kend) as Hend2.
  destruct (mpinit_early k3 _ g ports He3 Hl3) as (k4 & E4 & Ht4).
  { unfold mp_finds. rewrite (mpinit_low m (k_mem k3)); [done| |done]. intros x Hx. apply (Hf03 x). intros p Hp.
    pose proof (fl_pages _ _ (ea_free _ _ He2)) as Hpp. rewrite Epool in Hp.
    destruct (proj1 (Forall_forall _ _) Hpp p Hp) as (_ & _ & Hge & _). rewrite Hend2 in Hge. left. lia. }
  pose proof (talks_early _ _ _ Ht4 He3) as He4.
  destruct (lapicinit_early g k4 Hla) as [e2 E5].
  destruct (tvinit_run mc_vectors k4 v1 (v2 :: l) He4 Hve) as (k5 & h5 & m5 & E6 & He5 & Hk5 & Hv1 & Hn1 & Ek5 & Hw5 & Hg5).
  destruct (seginit_run g (mc_id mc_boot) mc_boot k5 v2 l He5 Hbo) as (k6 & h6 & E7 & He6 & Hk6 & Hv2 & Hn2 & Ek6 & Hw6).
  assert (bstep k3 k6) as Hb36.
  { transitivity k4; [by apply talks_bstep|]. transitivity k5; [subst k5; by apply bstep_same|]. subst k6. by apply bstep_same. }
  assert (km_end (k_kmem k2) = kend /\ km_end (k_kmem k3) = kend /\ km_end (k_kmem k6) = kend) as (Ek2 & Ek3 & Ek6').
  { pose proof (keeps_end _ _ (bs_keeps _ _ Hb2) : _ = kend) as G1.
    pose proof (keeps_end _ _ (bs_keeps _ _ Hb3) : _ = km_end (k_kmem k2)) as G2.
    pose proof (keeps_end _ _ (bs_keeps _ _ Hb36)) as G3. split_and!; congruence. }
  assert (forall x, off v1 x -> off v2 x -> ld8 (k_mem k6) x = ld8 (k_mem k3) x) as Hm36.
  { intros x Hx1 Hx2. rewrite (Hw6 x) by done. subst k5. cbn [k_mem alloc_state set_kmem set_mem].
    rewrite (Hw5 x) by done. by destruct Ht4 as (cn & cc & -> & _). }
  assert (Forall (page_ok k6) [a; b; v1; v2]) as Hpg.
  { assert (forall k v, km_end (k_kmem k) = kend -> page_ok k v -> page_ok k6 v) as Hpk
      by (unfold page_ok; intros k v ->; by rewrite Ek6').
    rewrite !Forall_cons. refine (conj _ (conj _ (conj _ (conj _ (Forall_nil_2 _))))); [by apply (Hpk k2)..| |by subst k6].
    apply (Hpk k4); [by destruct Ht4 as (cn & cc & -> & _)|done]. }
  exists k6, a, b, v1, v2, l. eexists _, e2. split_and!.
  - krun E1. krun E2. krun E3. krun E4. krun E5. krun E6. krun E7. reflexivity.
  - done.
  - cbn [length] in Hlen. lia.
  - done.
  - transitivity (set_kpdpt b (set_kpml4 a k2)); [|by transitivity k3].
    apply bstep_map. transitivity (set_cons cn1 k0); [by apply bstep_same|done].
  - apply (bs_free k3); [done|]. by apply (bs_free _ _ Hb3).
  - rewrite <- Epool. intros x Hx. rewrite Hm36, Hf03; [done|done|apply Hx; rewrite Epool; set_solver..].
  - apply not_elem_of_cons in Hna as [A1 [A2 A3]%not_elem_of_cons], Hnb as [B1 [B2 B3]%not_elem_of_cons].
    apply not_elem_of_cons in Hn1 as [V1 V2].
    constructor; [| |done|rewrite !Forall_cons; refine (conj A3 (conj B3 (conj V2 (conj Hn2 (Forall_nil_2 _)))))].
    + rewrite !Forall_cons in Hpg. destruct Hpg as (P1 & P2 & P3 & P4 & _).
      apply (kernel_map_ext (k_mem k3)); [..|done]; intros x Hx; apply Hm36;
        [apply (off_page k6 a v1 x P1 P3)|apply (off_page k6 a v2 x P1 P4)
        |apply (off_page k6 b v1 x P2 P3)|apply (off_page k6 b v2 x P2 P4)]; auto.
    + split.
      * intros n Hn. eapply is_gate_ext; [|by apply Hg5]. intros x Hx.
        rewrite (Hw6 x); [by subst k5|]. apply (off_page k4 v1); [done|by subst k5|by apply not_eq_sym|unfold PGSIZE; lia].
      * subst k6. apply local_page_selects. apply page_ok_range in Hv2. unfold in_u64, KERNBASE, PHYSTOP in *. lia.
  - by subst k6.
  - by subst k6.
  - subst k6 k5. destruct Ht4 as (cn & cc & -> & _ & _ & Hlk). cbn. congruence.
Qed.

(** *** Up to the first process *)

(** The kernel before userinit: of the pages of [kend] the list [l] is free. *)
Record set_up (kend : Z) (m : mem) (d : disk) (idt : Z) (used l : list Z) (k : kernel) : Prop := SetUp {
  su_ready : alloc_ready k l;
  su_wf : mem_wf (k_mem k);
  su_pool : pool kend = used ++ l;
  su_room : (11 <= length l)%nat;
  su_own : own_pages k l (k_kpml4 k) (k_kpdpt k) idt (c_local (k_cpu k));
  su_owned : Forall (.∈ used) [k_kpml4 k; k_kpdpt k; idt; c_local (k_cpu k)];
  su_mem : forall x, (forall p, p ∈ pool kend -> off p x) -> ~ low x -> ld8 (k_mem k) x = ld8 m x;
  su_cpu : c_ncli (k_cpu k) = 0 /\ c_if (k_cpu k) = false /\ c_proc (k_cpu k) = None /\ c_id (k_cpu k) = Z.of_nat mc_boot;
  su_unheld : unheld k;
  su_locks : lock_free k LK_cons /\ forall lk, static_lock lk -> lock_free k lk;
  su_cons : co_panicked (k_cons k) = false /\ co_locking (k_cons k) = true;
  su_cache : bcache_ok k (rev (upto NBUF)) ∅;
  su_content : forall b, content k b = disk_block d b;
  su_clean : forall b, ~ dirty k b;
  su_disk : d_blocks (k_disk k) = d_blocks d /\ disksize (k_disk k) = disksize d;
  su_trace : k_trace k = TraceBuf 1 0 0 0 (replicate 128 trace_event0);
  su_static : (k_procs k, k_inodes k, k_nextpid k, k_initproc k, km_end (k_kmem k), k_first k, k_log k) =
    (replicate NPROC proc0, replicate NINODE inode0, 1, None, kend, true, log0)
}.

Lemma fresh_bufs_replicate k : k_bufs k = replicate (S NBUF) buf0 -> fresh_bufs k.
Proof.
  intros E. unfold fresh_bufs. rewrite E. split; [by rewrite length_replicate|].
  intros i b _ Hb. apply lookup_replicate in Hb as [-> _]. done.
Qed.

(** The tables of the kernel that starts. *)
Lemma keeps_loaded kend m d a b k :
  bstep (set_kpdpt b (set_kpml4 a (loaded kend m d))) k ->
  (k_procs k, k_inodes k, k_nextpid k, k_initproc k, km_end (k_kmem k), k_first k, k_log k) =
    (replicate NPROC proc0, replicate NINODE inode0, 1, None, kend, true, log0) /\
  k_bufs k = replicate (S NBUF) buf0 /\ k_kpml4 k = a /\ k_kpdpt k = b /\ k_disk k = d /\
  k_trace k = TraceBuf 0 0 0 0 (replicate 128 trace_event0) /\ unheld k /\
  forall lk, static_lock lk -> lock_free k lk.
Proof.
  intros [H1 H2 H3 H4 H5]. unfold keeps in H1. injection H1 as P1 P2 P3 P4 P5 P6 P7 P8 P9 P10 P11.
  split_and!; [by rewrite P1, P3, P5, P6, P7, P8, P11|done..| |].
  - apply H5. intros lk lc Hl. apply zero_locks_values in Hl as ->. by eexists.
  - intros lk Hlk. apply H4. exists ""%string. by apply zero_locks_static.
Qed.

(** A processor that is settled again is the same but for the saved interrupt flag. *)
Lemma inits_cpu k k' l :
  inits k k' -> early k l ->
  c_local (k_cpu k') = c_local (k_cpu k) /\ c_id (k_cpu k') = c_id (k_cpu k).
Proof. intros [_ [-> | ->] _ _] _; done. Qed.

(** The second half: the devices, the tables and the other processors. *)
Lemma boot_second {B} kend m d g ports k0 a b v1 v2 l (c : list hweffect -> K B) :
  platform kend m g ports -> (forall b data, d_blocks d !! b = Some data -> length data = 512%nat) ->
  pool kend = [a; b; v1; v2] ++ l -> (11 + 2 * g_ncpu g <= length l)%nat -> early k0 l ->
  bstep (set_kpdpt b (set_kpml4 a (loaded kend m d))) k0 -> lock_free k0 LK_kmem ->
  frame (pool kend) (loaded kend m d) k0 -> own_pages k0 l a b v1 v2 ->
  c_local (k_cpu k0) = v2 -> c_id (k_cpu k0) = Z.of_nat mc_boot -> co_locking (k_cons k0) = false ->
  exists k e4 used l', (n <- cpunum_on g mc_boot ;;
      cprintf (10 :: chars "cpu%d: starting Spring 2026 xv6" ++ [10; 10]) [FNum n] ;;;
      ioapicinit (g_ioapicid g) ;;; consoleinit ;;; uartinit ;;; traceinit ;;; pinit ;;; binit ;;; fileinit ;;;
      Ide.ideinit mc_disk1 (Z.of_nat (g_ncpu g)) ;;; e4 <- startothers g v1 ;; kinit2 ;;; c e4) k0 = c e4 k /\
    set_up kend m d v1 ([a; b; v1; v2] ++ used) l' k /\ k_kpml4 k = a /\ c_local (k_cpu k) = v2.
Proof.
  intros Hpf Hdisk Hpool Hlen He0 Hb0 Hkm Hf0 Hown Hlocal Hid Hlk0.
  destruct (keeps_loaded _ _ _ _ _ _ Hb0) as (Hst & Hbufs & Ha & Hb & Hd & Htr & Hun & Hsl).
  destruct (cprintf_talks (10 :: chars "cpu%d: starting Spring 2026 xv6" ++ [10; 10]) [FNum (Z.of_nat mc_boot)] k0)
    as (k1 & E1 & Ht1); [|by eapply early_cpu_ok|apply He0|by rewrite Hlk0|].
  { apply (printable_number (10 :: chars "cpu") (chars ": starting Spring 2026 xv6" ++ [10; 10]));
      apply (bool_decide_unpack _); by vm_compute. }
  pose proof (talks_early _ _ _ Ht1 He0) as He1. pose proof (talks_inits _ _ Ht1) as Hi1.
  assert (co_locking (k_cons k1) = false /\ k_bufs k1 = k_bufs k0 /\ k_disk k1 = k_disk k0 /\ k_trace k1 = k_trace k0)
    as (L1 & B1 & D1 & T1) by (destruct Ht1 as (cn & cc & -> & _ & _ & Hl); cbn; split_and!; congruence).
  destruct (devices_early (g_ioapicid g) mc_disk1 (Z.of_nat (g_ncpu g)) k1 l
    (e4 <- startothers g v1 ;; kinit2 ;;; c e4) He1 L1) as (k2 & E2 & Hi2 & L2 & T2 & Hca & Hct & F1 & F2 & Hcl2 & Hdb2 & Hds2).
  { apply fresh_bufs_replicate. congruence. }
  { rewrite D1, Hd. exact Hdisk. }
  pose proof (inits_early _ _ _ Hi2 He1) as He2. assert (inits k0 k2) as Hi02 by by transitivity k1.
  destruct (inits_cpu _ _ l Hi02 He0) as [Hloc2 Hid2].
  pose proof (in_same _ _ Hi02) as Hs. injection Hs as P1 P2 P3 P4 P5 P6 P7 P8 P9 P11 P10.
  assert (km_end (k_kmem k2) = kend) as Hend by (rewrite P6; congruence).
  destruct (startothers_early g v1 k2 l He2) as (k3 & e4 & u & l' & E3 & Hl & Hul & He3 & Hb3 & Hf3 & Hc3 & Hlk3);
    [lia|apply Hpf|apply Hpf|apply Hpf|done|apply Hpf|rewrite Hend; pose proof (pf_low _ _ _ _ Hpf); pose proof (pf_initcode _ _ _ _ Hpf); lia|].
  pose proof (bs_keeps _ _ Hb3) as Hs. unfold keeps in Hs. injection Hs as Q1 Q2 Q3 Q4 Q5 Q6 Q7 Q8 Q9 Q10 Q11.
  set (k4 := set_kmem (Kmem true (km_freelist (k_kmem k3)) (km_end (k_kmem k3))) k3).
  exists k4, e4, u, l'. split_and!.
  - krun (cpunum_self g mc_boot k0 (pf_boot _ _ _ _ Hpf)). krun E1. rewrite E2. krun E3. reflexivity.
  - constructor.
    + constructor; [constructor|apply (bs_free _ _ Hb3), (in_free _ _ Hi02), Hkm|done|].
      * exact (early_cpu_ok k3 l' He3).
      * exact (bs_free _ _ Hb3 _ F2).
      * change (k_trace k4) with (k_trace k3). by rewrite (bs_trace _ _ Hb3), T2.
      * change (k_trace k4) with (k_trace k3). rewrite (bs_trace _ _ Hb3), T2, T1, Htr. apply length_replicate.
      * intros i Hi. pose proof (ea_cpu _ _ He3) as (_ & _ & Hp). cbn in Hi. congruence.
      * destruct (ea_free _ _ He3) as [G1 G2 G3]. by constructor.
    + apply He3.
    + by rewrite Hpool, Hl, app_assoc.
    + rewrite Hl, length_app in Hlen. lia.
    + cbn. rewrite Hc3, Hloc2, Hlocal, Q9, P8, Ha, Q10, P9, Hb.
      eapply own_pages_ext; [..|exact Hown].
      * intros v x Hv Hx. change (k_mem k4) with (k_mem k3). rewrite Hf3, P7; [done| |].
        -- intros p Hp. assert (page_ok k0 p) as Hpp by exact (proj1 (Forall_forall _ _) (fl_pages _ _ (ea_free _ _ He0)) p Hp).
           apply (off_page k0 v); [exact (proj1 (Forall_forall _ _) (op_pages _ _ _ _ _ _ Hown) v Hv)|done| |done].
           intros ->. exact (proj1 (Forall_forall _ _) (op_apart _ _ _ _ _ _ Hown) p Hv Hp).
        -- intros [_ Hx2]. pose proof (pf_low _ _ _ _ Hpf) as [_ Hlo]. pose proof (pf_initcode _ _ _ _ Hpf).
           destruct (proj1 (Forall_forall _ _) (op_pages _ _ _ _ _ _ Hown) v Hv) as (_ & _ & Hge & _). rewrite <- P6, Hend in Hge. lia.
      * cbn. congruence.
      * rewrite Hl. set_solver.
    + cbn. rewrite Hc3, Hloc2, Hlocal, Q9, P8, Ha, Q10, P9, Hb. apply Forall_forall. intros x Hx.
      apply (proj2 (elem_of_app [a; b; v1; v2] u x)). by left.
    + intros x Hx Hlow. cbn. rewrite Hf3, P7; [by apply Hf0|intros p Hp; apply Hx; rewrite Hpool; set_solver|done].
    + pose proof (ea_cpu _ _ He3) as (C1 & C2 & C3). split_and!; [done..|]. cbn. congruence.
    + apply (bs_unheld _ _ Hb3), (in_unheld _ _ Hi02), Hun.
    + split; [exact (bs_free _ _ Hb3 _ F1)|]. intros lk Hlk. apply (bs_free _ _ Hb3), (in_free _ _ Hi02). by apply Hsl.
    + split; [apply He3|]. cbn. congruence.
    + apply (bcache_ok_ext k2); [done..| | |done]; cbn; by rewrite (bs_disk _ _ Hb3).
    + intros x. rewrite (content_ext k2), Hct, D1, Hd by (cbn; rewrite ?(bs_disk _ _ Hb3); done). done.
    + intros x. rewrite (dirty_ext k2) by done. apply Hcl2.
    + cbn. by rewrite (bs_disk _ _ Hb3), Hdb2, Hds2, D1, Hd.
    + cbn. by rewrite (bs_trace _ _ Hb3), T2, T1, Htr.
    + rewrite <- Hst. change ((k_procs k3, k_inodes k3, k_nextpid k3, k_initproc k3, km_end (k_kmem k3), k_first k3, k_log k3) =
        (k_procs k0, k_inodes k0, k_nextpid k0, k_initproc k0, km_end (k_kmem k0), k_first k0, k_log k0)).
      by rewrite Q1, Q3, Q5, Q6, Q7, Q8, Q11, P1, P2, P3, P4, P5, P6, P11.
  - cbn. congruence.
  - cbn. congruence.
Qed.

(** main, up to the first process. *)
Lemma boot_run kend m d g ports :
  platform kend m g ports -> mem_wf m ->
  (forall b data, d_blocks d !! b = Some data -> length data = 512%nat) ->
  exists k idt used l e1 e2 e4, set_up kend m d idt used l k /\
    main_setup kend (loaded kend m d) =
      (userinit ;;; e5 <- mpmain_setup g idt mc_boot ;;
       ret (e1 ++ e2 ++ (HReg <$> seg_regs (c_local (k_cpu k))) ++ e4 ++ e5)) k.
Proof.
  intros Hpf Hw Hd. unfold main_setup.
  destruct (boot_first kend m d g ports (fun g e1 e2 idt e3 => n <- cpunum_on g mc_boot ;;
      cprintf (10 :: chars "cpu%d: starting Spring 2026 xv6" ++ [10; 10]) [FNum n] ;;;
      ioapicinit (g_ioapicid g) ;;; consoleinit ;;; uartinit ;;; traceinit ;;; pinit ;;; binit ;;; fileinit ;;;
      Ide.ideinit mc_disk1 (Z.of_nat (g_ncpu g)) ;;; e4 <- startothers g idt ;; kinit2 ;;; userinit ;;;
      e5 <- mpmain_setup g idt mc_boot ;; ret (e1 ++ e2 ++ (HReg <$> e3) ++ e4 ++ e5)) Hpf Hw)
    as (k0 & a & b & v1 & v2 & l & e1 & e2 & E1 & H1 & H2 & H3 & H4 & H5 & H6 & H7 & H8 & H9 & H10).
  destruct (boot_second kend m d g ports k0 a b v1 v2 l (fun e4 => userinit ;;;
      e5 <- mpmain_setup g v1 mc_boot ;; ret (e1 ++ e2 ++ (HReg <$> seg_regs v2) ++ e4 ++ e5)) Hpf Hd H1 H2 H3 H4 H5 H6 H7 H8 H9 H10)
    as (k & e4 & u & l' & E2 & Hs & _ & Hl).
  exists k, v1, ([a; b; v1; v2] ++ u), l', e1, e2, e4. split; [exact Hs|]. rewrite Hl, <- E2. exact E1.
Qed.

End Composition.
