(* ===== verification/StartUser.v ===== *)
(** * The first process (src/proc.c: allocproc, userinit; src/vm.c: inituvm)

    The last step of main before the scheduler: process 0 is built from the pages main
    left free.  [first_process] is what it looks like to the scheduler, and
    [kernel_starts] is the whole of main_setup, from the loaded image. *)

From S2P Require Import Prelude Mem CString State Spinlock Ktrace Kalloc Vm Uvm Sched Sleeplock Bio Bcache Inode Console Fs Proc Mp Boot Lapic Early Segments Start StartBoot.

(** ** Address spaces and stores *)

(** Stores into a page that is neither free nor part of the tables. *)
Lemma held_write k tabs h l v m' :
  vm_inv k tabs h l -> v ∈ h -> within v (k_mem k) m' -> mem_wf m' ->
  vm_inv (set_mem m' k) tabs h l /\ forall va, leaf m' tabs (path va) = leaf (k_mem k) tabs (path va).
Proof.
  intros Hi Hv Hm Hw. pose proof Hi as [Ha _ Hp Hh Hnd].
  assert (page_ok k v) as Hvk by exact (proj1 (Forall_forall _ _) Hh v Hv).
  assert (forall p t x, tabs !! p = Some t -> t <= x < t + PGSIZE -> ld8 m' x = ld8 (k_mem k) x) as Htab.
  { intros p t x Ht Hx. apply Hm. apply (off_page k t); [by eapply (po_page _ _ Hp)|done| |done].
    intros ->. by eapply vm_tab_not_held. }
  split.
  - constructor; [|done| |done|done].
    + apply alloc_ready_mem; [done|]. intros p x Hpl Hx. apply Hm.
      apply (off_page k p); [by eapply vm_free_ok|done| |done]. intros ->. by eapply vm_held_not_free.
    + apply (pt_ok_frame k); [done| |done]. intros p t x Ht _ Hx. by eapply Htab.
  - intros va. destruct (path_leaf va) as (j & q & -> & Hq & Hj). apply leaf_ext; try done. eauto.
Qed.

(** Stores into a page that was given to the address space. *)
Lemma vm_post_write k tabs h l k1 tabs1 h1 l1 p f m' :
  vm_post k tabs h l k1 tabs1 h1 l1 -> tabs1 !! p = Some f -> length p = 4%nat -> f ∈ l ->
  within f (k_mem k1) m' -> mem_wf m' ->
  vm_post k tabs h l (set_mem m' k1) tabs1 h1 l1 /\
  forall va, leaf m' tabs1 (path va) = leaf (k_mem k1) tabs1 (path va).
Proof.
  intros [Hi S O F T R] Hf Hl Hfl Hm Hw. pose proof Hi as [Ha _ Hp Hh Hnd].
  destruct (frame_write k1 tabs1 p f m' Hp Hf Hl Hm) as [Hp' Hleaf]. split; [|done].
  constructor; [constructor; [|done|done|done|done]| |done|done|done|].
  - apply alloc_ready_mem; [done|]. intros q x Hq Hx. apply Hm.
    apply (off_page k1 q); [by eapply vm_free_ok|by eapply (po_page _ _ Hp)| |done].
    intros ->. by eapply vm_tab_not_free.
  - eapply kstep_trans; [exact S|apply kstep_mem].
  - intros x H1 H2. cbn [k_mem set_mem]. rewrite Hm by by apply H1. by apply R.
Qed.

(** Changes outside memory, the allocator and the trace; no lock is lost. *)
Lemma alloc_ready_move k k' l :
  (k_trace k', k_kmem k', k_mem k') = (k_trace k, k_kmem k, k_mem k) ->
  (forall lk, lock_free k lk -> lock_free k' lk) -> cpu_ok (k_cpu k') ->
  (forall i, c_proc (k_cpu k') = Some i -> exists p, k_procs k' !! i = Some p /\ has_nul (p_name p)) ->
  alloc_ready k l -> alloc_ready k' l.
Proof.
  intros [= E1 E2 E3] Hl Hc Hp [[T1 T2 T3 T4 T5] L U [F1 F2 F3]].
  constructor; [constructor|..].
  - done.
  - by apply Hl.
  - by rewrite E1.
  - by rewrite E1.
  - done.
  - by apply Hl.
  - by rewrite E2.
  - constructor; [by rewrite E2, E3|done|]. eapply Forall_impl; [exact F3|]. intros v. unfold page_ok. by rewrite E2.
Qed.

Lemma alloc_ready_ext k k' l :
  (k_trace k', k_kmem k', k_mem k') = (k_trace k, k_kmem k, k_mem k) ->
  (forall lk, lock_free k lk -> lock_free k' lk) ->
  cpu_ok (k_cpu k') -> c_proc (k_cpu k') = None -> alloc_ready k l -> alloc_ready k' l.
Proof. intros E Hl Hc Hp. apply alloc_ready_move; [done..|]. intros i. by rewrite Hp. Qed.

Lemma vm_inv_move k k' tabs h l :
  (k_trace k', k_kmem k', k_mem k') = (k_trace k, k_kmem k, k_mem k) ->
  (forall lk, lock_free k lk -> lock_free k' lk) -> cpu_ok (k_cpu k') ->
  (forall i, c_proc (k_cpu k') = Some i -> exists p, k_procs k' !! i = Some p /\ has_nul (p_name p)) ->
  vm_inv k tabs h l -> vm_inv k' tabs h l.
Proof.
  intros E Hl Hc Hp [A W P H N]. pose proof E as E'. injection E' as E1 E2 E3.
  assert (forall v, page_ok k v <-> page_ok k' v) as Hpg by (intros v; unfold page_ok; by rewrite E2).
  constructor; [by apply (alloc_ready_move k)|by rewrite E3| | |done].
  - apply (pt_ok_frame k); [done|by rewrite E3|done].
  - eapply Forall_impl; [exact H|]. intros v. apply Hpg.
Qed.

Lemma vm_inv_ext k k' tabs h l :
  (k_trace k', k_kmem k', k_mem k') = (k_trace k, k_kmem k, k_mem k) ->
  (forall lk, lock_free k lk -> lock_free k' lk) ->
  cpu_ok (k_cpu k') -> c_proc (k_cpu k') = None -> vm_inv k tabs h l -> vm_inv k' tabs h l.
Proof. intros E Hl Hc Hp. apply vm_inv_move; [done..|]. intros i. by rewrite Hp. Qed.

(** ** inituvm *)

Lemma inituvm_run k tabs h v l pml4 init sz :
  vm_inv k tabs h (v :: l) -> tabs !! [] = Some pml4 -> (3 <= length l)%nat -> tabs !! path PGSIZE = None ->
  0 <= sz < PGSIZE ->
  (forall x t, init <= x < init + sz -> t ∈ v :: l \/ (exists p, tabs !! p = Some t) -> off t x) ->
  exists k' tabs' l', inituvm pml4 init sz k = Ok tt k' /\
    vm_post k tabs h (v :: l) k' tabs' h l' /\ tabs ⊆ tabs' /\ (length l <= 3 + length l')%nat /\
    upage k' tabs' PGSIZE v 7 /\
    (forall i, 0 <= i < PGSIZE -> ld8 (k_mem k') (v + i) = if decide (i < sz) then ld8 (k_mem k) (init + i) else 0) /\
    forall vb, uva vb -> vb / 4096 <> 1 -> same_map k tabs k' tabs' vb.
Proof.
  intros Hi Hr Hlen Hnone Hsz Hsrc.
  destruct (grow_one k tabs h v l pml4 PGSIZE Hi Hr) as (k1 & k2 & tabs' & l' & E1 & E2 & P & S & L & Sub & U & Z & M);
    [unfold uva, PGSIZE; lia|done|done|done|].
  pose proof (vp_inv _ _ _ _ _ _ _ _ P) as Hi2.
  set (m' := Kstring.memmove (k_mem k2) v init sz).
  assert (forall x, ld8 m' x = if decide (v <= x < v + sz) then ld8 (k_mem k2) (init + (x - v)) else ld8 (k_mem k2) x) as Hm'.
  { intros x. apply memmove_ld8; [apply Hi2|lia]. }
  destruct (vm_post_write k tabs h (v :: l) k2 tabs' h l' (path PGSIZE) v m' P) as [P' Hleaf].
  { apply U. } { done. } { set_solver. }
  { intros x Hx. rewrite Hm', decide_False; [done|]. unfold off, PGSIZE in *. lia. }
  { apply memmove_wf, Hi2. }
  exists (set_mem m' k2), tabs', l'. split_and!; try done.
  - unfold inituvm. rewrite Z.geb_leb, (proj2 (Z.leb_gt _ _)) by lia.
    krun E1. unfold bind at 1 in E2. unfold bind at 1. destruct (memory _ k1) eqn:Em; try done. cbn [obind] in *.
    krun E2. reflexivity.
  - destruct U as [U1 (ent & U2 & U3)]. split; [done|]. exists ent. cbn [k_mem set_mem]. by rewrite Hleaf.
  - intros i Hii. cbn [k_mem set_mem]. rewrite Hm'. case_decide as D1; case_decide as D2; try lia.
    + replace (v + i - v) with i by lia. apply (vp_frame _ _ _ _ _ _ _ _ P).
      * intros t Ht. apply Hsrc; [lia|by left].
      * intros p t Ht _. left. apply Hsrc; [lia|right; by exists p].
    + apply Z. lia.
  - intros vb Hu Hne. destruct (M vb Hu) as [M1 M2]; [done|]. split; [done|]. cbn [k_mem set_mem]. by rewrite Hleaf.
Qed.

(** ** allocproc *)

Section Process.
  Context {patience_bound : Patience} {driver : DiskDriver} {image : Image}.

(** The stack page of a new process: a trap frame at its end, below it the address
    syscall_trapret and a context that starts at forkret. *)
Definition stack_tf (ks : Z) : Z := ks + KSTACKSIZE - SIZEOF_TRAPFRAME.
Definition stack_context (ks : Z) : Z := stack_tf ks - 8 - SIZEOF_CONTEXT.
Definition stack_mem (m : mem) (ks : Z) : mem :=
  st64 (Kstring.memset (st64 m (stack_tf ks - 8) im_trapret) (stack_context ks) 0 SIZEOF_CONTEXT)
    (stack_context ks + 48) im_forkret.

Definition new_proc (p : proc) (pid ks : Z) : proc :=
  with_context (stack_context ks) (with_tf (stack_tf ks) (with_kstack ks (with_pid pid (with_state EMBRYO p)))).

Lemma stack_mem_within m ks : within ks m (stack_mem m ks).
Proof.
  intros x Hx. unfold stack_mem, st64.
  unfold off, stack_context, stack_tf, KSTACKSIZE, SIZEOF_TRAPFRAME, SIZEOF_CONTEXT, PGSIZE in *.
  by rewrite ld8_st_bytes, length_le_split, decide_False, memset_ld8, decide_False, ld8_st_bytes, length_le_split, decide_False by lia.
Qed.

Lemma stack_mem_wf m ks : mem_wf m -> mem_wf (stack_mem m ks).
Proof. intros H. unfold stack_mem, st64. apply st_bytes_wf, memset_wf, st_bytes_wf, H. Qed.

Lemma allocproc_first k v l p :
  alloc_ready k (v :: l) -> mem_wf (k_mem k) -> lock_free k LK_ptable -> c_proc (k_cpu k) = None ->
  k_procs k !! 0%nat = Some p -> p_state p = UNUSED ->
  exists tb h,
    let k' := set_procs (<[0%nat := new_proc p (k_nextpid k) v]> (k_procs k)) (set_nextpid (s32 (k_nextpid k + 1))
      (settle (set_trace tb (alloc_state (stack_mem (k_mem k) v) h k)))) in
    allocproc k = Ok (Some 0%nat) k' /\ alloc_ready k' l.
Proof.
  intros Ha Hw Hlk Hc Hp0 Hst.
  assert (cpu_ok (k_cpu k)) as Hcpu by apply Ha.
  set (k1 := settle (set_nextpid (s32 (k_nextpid k + 1))
    (set_procs (<[0%nat := with_pid (k_nextpid k) (with_state EMBRYO p)]> (k_procs k)) k))).
  assert (alloc_ready k1 (v :: l)) as Ha1 by (by apply (alloc_ready_ext k)).
  assert (page_ok k v) as Hv by exact (Forall_inv (fl_pages _ _ (ar_free _ _ Ha))).
  destruct (kalloc_run k1 l v Ha1) as (k2 & tb & Ek2 & E2 & Ha2 & _).
  exists tb, (ld64 (k_mem k) v).
  match goal with |- let k' := ?t in _ => set (k3 := t) end. cbn zeta.
  assert (k3 = set_procs (<[0%nat := new_proc p (k_nextpid k) v]> (k_procs k)) (set_mem (stack_mem (k_mem k) v) k2)) as Ek3.
  { rewrite Ek2. unfold k3, k1, settle. cbn. rewrite settled_idem. done. }
  split.
  - unfold allocproc. krun (acquire_free k LK_ptable Hlk).
    change (upto NPROC) with (0%nat :: seq 1 63). cbn [for_until].
    unfold bind at 1, bind at 1, bind at 1, get_proc, read_at. cbn [k_procs locked_by set_locks set_cpu]. rewrite Hp0. cbn [obind].
    rewrite bool_decide_true by done. unfold ret at 1. cbn [obind].
    unfold ret at 1. cbn [obind]. unfold bind at 1, gets. cbn [obind].
    krun (upd_at_ok k_procs set_procs 0%nat (fun p0 => with_pid (k_nextpid k) (with_state EMBRYO p0)) (locked_by LK_ptable k) p Hp0).
    unfold bind at 1, modify. cbn [obind].
    match goal with |- context [bind (release LK_ptable) _ ?s] =>
      krun (release_locked_by k s LK_ptable Hcpu Hlk eq_refl eq_refl : _ = Ok tt k1) end.
    krun E2. rewrite Ek3.
    assert (k_procs k2 = <[0%nat := with_pid (k_nextpid k) (with_state EMBRYO p)]> (k_procs k) /\ k_mem k2 = k_mem k) as [P2 M2]
      by by rewrite Ek2.
    assert (v =? 0 = false) as -> by (apply Z.eqb_neq; by eapply page_ok_nonzero).
    clear -P2 M2 Hp0. destruct (k_procs k) as [|p' ps]; [done|]. injection Hp0 as ->. cbn in P2.
    destruct k2. cbn in *. subst. reflexivity.
  - rewrite Ek3.
    apply (alloc_ready_ext (set_mem (stack_mem (k_mem k) v) k2)); [done|done| | |].
    + rewrite Ek2. done.
    + rewrite Ek2. done.
    + apply alloc_ready_mem; [done|]. intros q x Hq Hx. rewrite Ek2. cbn. apply stack_mem_within.
      apply (off_page k q); [exact (proj1 (Forall_forall _ _) (fl_pages _ _ (ar_free _ _ Ha)) q ltac:(set_solver))|done| |done].
      intros ->. pose proof (fl_nodup _ _ (ar_free _ _ Ha)) as Hnd. by apply NoDup_cons in Hnd as [Hnd _].
Qed.

(** ** The root directory *)

(** The inode table's lock is initialised by the first process, in forkret; until then it
    is the zero of static storage, which acquire takes for a free lock. *)
Definition with_lock (lk : lockid) (k : kernel) : kernel :=
  match k_locks k !! lk with None => put_lock lk spinlock0 k | Some _ => k end.

Lemma with_lock_free lk k : unheld k -> lock_free (with_lock lk k) lk.
Proof.
  intros Hu. unfold with_lock, lock_free. destruct (k_locks k !! lk) as [s|] eqn:E.
  - destruct (Hu lk s E) as [n ->]. by exists n.
  - exists ""%string. cbn. apply lookup_insert_eq.
Qed.

Lemma with_lock_acquire lk k : acquire lk (with_lock lk k) = acquire lk k.
Proof.
  unfold with_lock. destruct (k_locks k !! lk) as [s|] eqn:E; [done|]. unfold acquire.
  rewrite (obind_ok _ _ _ _ _ (pushcli_ok k)), (obind_ok _ _ _ _ _ (pushcli_ok (put_lock lk spinlock0 k))).
  unfold holding, spin_xchg, bind, gets, modify, get_lock; cbn. rewrite !E, !lookup_insert_eq; cbn. rewrite !E, !lookup_insert_eq. cbn.
  unfold put_lock, get_lock; cbn. rewrite !lookup_insert_eq; cbn. by rewrite !insert_insert_eq.
Qed.

Lemma with_lock_keeps lk k :
  unheld k -> unheld (with_lock lk k) /\ forall lk', lock_free k lk' -> lock_free (with_lock lk k) lk'.
Proof.
  intros Hu. unfold with_lock. destruct (k_locks k !! lk) as [s|] eqn:E; [done|].
  split; [by apply bstep_initlock|]. intros lk'. apply bstep_initlock.
Qed.

Lemma with_lock_same lk k : with_lock lk k = set_locks (k_locks (with_lock lk k)) k.
Proof. unfold with_lock. case_match; [by destruct k|done]. Qed.

Lemma iget_scan_fresh ids dev inum e k :
  (forall i, i ∈ ids -> k_inodes k !! i = Some inode0) -> iget_scan ids dev inum (Some e) k = Ok (inr (Some e)) k.
Proof.
  induction ids as [|i ids IH]; intros H; [done|]. cbn [iget_scan].
  krun (read_at_ok k_inodes i k inode0 (H i ltac:(set_solver))). cbn. apply IH. set_solver.
Qed.

Lemma iget_scan_first ids dev inum k :
  (forall i, i ∈ 0%nat :: ids -> k_inodes k !! i = Some inode0) ->
  iget_scan (0%nat :: ids) dev inum None k = Ok (inr (Some 0%nat)) k.
Proof.
  intros Hall. cbn [iget_scan]. krun (read_at_ok k_inodes 0 k inode0 (Hall 0%nat ltac:(set_solver))).
  cbn [i_ref inode0 Z.gtb Z.compare andb Z.eqb]. apply iget_scan_fresh. set_solver.
Qed.

Lemma iget_fresh dev inum k :
  cpu_ok (k_cpu k) -> unheld k -> k_inodes k = replicate NINODE inode0 ->
  iget dev inum k =
    Ok 0%nat (settle (set_inodes (<[0%nat := Inode dev inum 1 0 dinode0]> (replicate NINODE inode0)) (with_lock LK_icache k))).
Proof.
  intros Hc Hu Hi. unfold iget. unfold bind at 1. rewrite <- with_lock_acquire. set (k1 := with_lock LK_icache k).
  assert (k_inodes k1 = replicate NINODE inode0 /\ k_cpu k1 = k_cpu k) as [Hi1 Hc1] by (unfold k1, with_lock; by case_match).
  pose proof (with_lock_free LK_icache k Hu : lock_free k1 LK_icache) as Hf.
  rewrite (acquire_free k1 LK_icache Hf). cbn [obind].
  assert (forall i, (i < NINODE)%nat -> k_inodes (locked_by LK_icache k1) !! i = Some inode0) as Hall.
  { intros i H. cbn. rewrite Hi1. by apply lookup_replicate_2. }
  pose proof (iget_scan_first (seq 1 49) dev inum (locked_by LK_icache k1)
    (fun i Hin => Hall i ltac:(apply (elem_of_upto i NINODE); exact Hin))) as E.
  change (0%nat :: seq 1 49) with (upto NINODE) in E.
  krun E. krun (upd_at_ok k_inodes set_inodes 0%nat (fun ip => Inode dev inum 1 0 (i_d ip)) (locked_by LK_icache k1) inode0
    (Hall 0%nat ltac:(unfold NINODE; lia))).
  match goal with |- context [bind (release LK_icache) _ ?s] =>
    krun (release_locked_by k1 s LK_icache ltac:(by rewrite Hc1) Hf eq_refl eq_refl) end.
  rewrite <- Hi1. reflexivity.
Qed.

Lemma namei_root k :
  cpu_ok (k_cpu k) -> unheld k -> k_inodes k = replicate NINODE inode0 ->
  namei (cstr "/") k = Ok (Some 0%nat)
    (settle (set_inodes (<[0%nat := Inode ROOTDEV ROOTINO 1 0 dinode0]> (replicate NINODE inode0)) (with_lock LK_icache k))).
Proof.
  intros Hc Hu Hi. unfold namei, namex. change (cstr "/") with [47; 0].
  unfold bind at 1, bind at 1, of_option at 1. cbn [lookup list_lookup]. unfold ret at 1. cbn [obind Z.eqb Pos.eqb].
  krun (iget_fresh ROOTDEV ROOTINO k Hc Hu Hi). reflexivity.
Qed.

(** ** userinit *)

(** What userinit leaves of the rest of the kernel. *)
Record uses (k k' : kernel) : Prop := Uses {
  us_same : (k_bufs k', k_sleeps k', k_disk k', k_cons k', k_kpml4 k', k_kpdpt k', km_end (k_kmem k'), k_first k', k_log k') =
    (k_bufs k, k_sleeps k, k_disk k, k_cons k, k_kpml4 k, k_kpdpt k, km_end (k_kmem k), k_first k, k_log k);
  us_cpu : k_cpu k' = k_cpu k \/ k_cpu k' = settled (k_cpu k);
  us_free : unheld k -> forall lk, lock_free k lk -> lock_free k' lk;
  us_unheld : unheld k -> unheld k'
}.

#[export] Instance uses_preorder : PreOrder uses.
Proof.
  split.
  - intros k. split; try done. by left.
  - intros k1 k2 k3 [H1 H2 H3 H4] [G1 G2 G3 G4]. split; [congruence| |auto|auto].
    destruct H2 as [H2|H2], G2 as [G2|G2]; rewrite G2, H2; rewrite ?settled_idem; auto.
Qed.

Lemma uses_fields k k' :
  uses k k' -> k_bufs k' = k_bufs k /\ k_sleeps k' = k_sleeps k /\ k_disk k' = k_disk k /\ k_cons k' = k_cons k /\
  k_kpml4 k' = k_kpml4 k /\ k_kpdpt k' = k_kpdpt k /\ km_end (k_kmem k') = km_end (k_kmem k) /\
  k_first k' = k_first k /\ k_log k' = k_log k.
Proof. intros [H _ _ _]. split_and!; congruence. Qed.

Lemma uses_same k k' :
  (k_bufs k', k_sleeps k', k_disk k', k_cons k', k_kpml4 k', k_kpdpt k', km_end (k_kmem k'), k_first k', k_log k') =
    (k_bufs k, k_sleeps k, k_disk k, k_cons k, k_kpml4 k, k_kpdpt k, km_end (k_kmem k), k_first k, k_log k) ->
  k_cpu k' = k_cpu k \/ k_cpu k' = settled (k_cpu k) -> k_locks k' = k_locks k -> uses k k'.
Proof. intros H1 H2 H3. split; [done|done|unfold lock_free; by rewrite H3|unfold unheld; by rewrite H3]. Qed.

Lemma kstep_uses k k' : kstep k k' -> uses k k'.
Proof. intros (c & m & h & tb & Hc & ->). by apply uses_same. Qed.

(** The tables that only userinit writes. *)
Lemma kstep_procs k k' : kstep k k' -> (k_procs k', k_inodes k', k_nextpid k', k_initproc k') = (k_procs k, k_inodes k, k_nextpid k, k_initproc k).
Proof. by intros (c & m & h & tb & Hc & ->). Qed.

Lemma uses_cpu k k' : uses k k' -> cpu_ok (k_cpu k) -> c_proc (k_cpu k) = None -> cpu_ok (k_cpu k') /\ c_proc (k_cpu k') = None.
Proof. intros [_ [-> | ->] _ _] H1 H2; [done|]. split; [by apply settled_ok|done]. Qed.

(** The first half: stack, page table and code.  [built] is what it makes of the free
    pages [ks], [pm], [fr] and [l]: [l'] are still free. *)
Record built (k : kernel) (ks pm fr : Z) (l : list Z) (tabs : gmap (list Z) Z) (l' : list Z) (k' : kernel) : Prop := Built {
  bu_uses : uses k k';
  bu_space : vm_inv k' tabs [ks] l';
  bu_root : tabs !! [] = Some pm;
  bu_page : upage k' tabs PGSIZE fr 7;
  bu_pages : [ks] ++ owned tabs ++ l' ≡ₚ ks :: pm :: fr :: l;
  bu_only : forall va, uva va -> va / 4096 <> 1 -> tabs !! path va = None;
  bu_tables : (k_procs k', k_inodes k', k_nextpid k', k_initproc k') =
    (<[0%nat := with_pgdir pm (new_proc proc0 1 ks)]> (replicate NPROC proc0), k_inodes k, 2, Some 0%nat);
  bu_text : forall i, 0 <= i < PGSIZE -> ld8 (k_mem k') (fr + i) =
    if decide (i < im_initcode_size) then ld8 (k_mem k) (im_initcode + i) else 0;
  bu_stack : forall x, ks <= x < ks + PGSIZE -> ld8 (k_mem k') x = ld8 (stack_mem (k_mem k) ks) x;
  bu_kernel : ld64 (k_mem k') (pm + 8 * PMX KERNBASE) = u64 (Z.lor (Z.lor (v2p (k_kpdpt k)) PTE_P) PTE_W);
  bu_frame : forall x, (forall t, t ∈ ks :: pm :: fr :: l -> off t x) -> ld8 (k_mem k') x = ld8 (k_mem k) x
}.

Lemma userinit_space {B} k ks pm fr l (c : nat -> K B) :
  alloc_ready k (ks :: pm :: fr :: l) -> mem_wf (k_mem k) -> lock_free k LK_ptable -> c_proc (k_cpu k) = None ->
  k_procs k = replicate NPROC proc0 -> k_nextpid k = 1 -> (3 <= length l)%nat -> 0 <= im_initcode_size < PGSIZE ->
  (forall x t, im_initcode <= x < im_initcode + im_initcode_size -> t ∈ ks :: pm :: fr :: l -> off t x) ->
  exists k' tabs l',
    (r <- allocproc ;; modify (set_initproc r) ;;; i <- of_option r ;; pgdir <- setupkvm ;;
     upd_proc i (with_pgdir pgdir) ;;;
     if pgdir =? 0 then panic "userinit: out of memory?" else
     inituvm pgdir im_initcode im_initcode_size ;;; c i) k = c 0%nat k' /\
    built k ks pm fr l tabs l' k'.
Proof.
  intros Ha Hw Hlk Hc Hps Hpid Hlen Hsz Hsrc.
  pose proof (fl_pages _ _ (ar_free _ _ Ha)) as Hpg. pose proof (fl_nodup _ _ (ar_free _ _ Ha)) as Hnd.
  destruct (allocproc_first k ks (pm :: fr :: l) proc0 Ha Hw Hlk Hc) as (tb & hd & E1 & Ha1);
    [rewrite Hps; apply lookup_replicate_2; unfold NPROC; lia|done|]. cbn zeta in E1, Ha1.
  match type of E1 with _ = Ok _ ?s => set (k1 := s) in * end.
  set (k1' := set_initproc (Some 0%nat) k1).
  assert (uses k k1') as U1 by (apply uses_same; [done|by right|done]).
  assert (cpu_ok (k_cpu k1') /\ c_proc (k_cpu k1') = None) as [C1 C1'] by (apply (uses_cpu k); [done|apply Ha|done]).
  destruct (setupkvm_run k1' [ks] pm (fr :: l)) as (k2 & E2 & I2 & S2 & M2 & R2).
  { by apply (alloc_ready_ext k1). }
  { by apply stack_mem_wf. }
  { constructor; [exact (Forall_inv Hpg)|done]. }
  { done. }
  pose proof (kstep_uses _ _ S2) as U2. pose proof (kstep_procs _ _ S2) as Q2.
  set (k3 := set_procs (<[0%nat := with_pgdir pm (new_proc proc0 1 ks)]> (replicate NPROC proc0)) k2).
  assert (vm_inv k3 {[ [] := pm ]} [ks] (fr :: l)) as I3.
  { destruct (uses_cpu _ _ U2 C1 C1'). by apply (vm_inv_ext k2). }
  destruct (inituvm_run k3 {[ [] := pm ]} [ks] fr l pm im_initcode im_initcode_size I3) as
    (k4 & tabs & l' & E4 & P4 & S4 & L4 & U4 & T4 & M4); [by apply lookup_singleton_eq|done|done|done| |].
  { intros x t Hx [Ht|[p Ht]]; [apply Hsrc; [done|set_solver]|].
    apply lookup_singleton_Some in Ht as [_ <-]. apply Hsrc; [done|set_solver]. }
  pose proof (kstep_procs _ _ (vp_step _ _ _ _ _ _ _ _ P4)) as Q4.
  assert (forall x, off pm x -> off ks x -> ld8 (k_mem k2) x = ld8 (k_mem k) x) as M02.
  { intros x H1 H2. rewrite M2 by done. by apply stack_mem_within. }
  assert (page_ok k ks /\ page_ok k pm /\ ks <> pm) as (Oks & Opm & Hne).
  { split; [exact (Forall_inv Hpg)|]. split; [exact (Forall_inv (Forall_inv_tail Hpg))|].
    intros ->. apply NoDup_cons in Hnd as [Hnd _]. set_solver. }
  exists k4, tabs, l'. split; [|constructor].
  - krun E1. unfold bind at 1, modify. cbn [obind]. unfold bind at 1, of_option, ret at 1. cbn [obind]. krun E2.
    assert (k_procs k2 = <[0%nat := new_proc proc0 1 ks]> (replicate NPROC proc0)) as Ep.
    { injection Q2 as -> _ _ _. change (k_procs k1') with (<[0%nat := new_proc proc0 (k_nextpid k) ks]> (k_procs k)).
      by rewrite Hps, Hpid. }
    assert (upd_proc 0 (with_pgdir pm) k2 = Ok tt k3) as E3.
    { unfold upd_proc. rewrite (upd_at_ok k_procs set_procs 0%nat _ k2 (new_proc proc0 1 ks)).
      - rewrite Ep, list_insert_insert_eq. done.
      - rewrite Ep. apply list_lookup_insert_eq. rewrite length_replicate. unfold NPROC. lia. }
    krun E3. rewrite (proj2 (Z.eqb_neq pm 0)) by by eapply page_ok_nonzero. krun E4. done.
  - transitivity k1'; [done|]. transitivity k2; [done|]. transitivity k3; [by apply uses_same; [|left|]|].
    apply kstep_uses, P4.
  - apply P4.
  - eapply lookup_weaken; [apply lookup_singleton_eq|done].
  - done.
  - rewrite (vp_own _ _ _ _ _ _ _ _ P4), owned_singleton. done.
  - intros va Hu Hva. destruct (M4 va Hu Hva) as [-> _]. apply lookup_singleton_ne. done.
  - rewrite Q4. unfold k3. cbn [k_procs k_inodes k_nextpid k_initproc set_procs]. injection Q2 as _ -> -> ->.
    change (k_nextpid k1') with (s32 (k_nextpid k + 1)). rewrite Hpid. done.
  - intros i Hi. rewrite T4 by done. case_decide; [|done]. cbn [k_mem set_procs k3].
    apply M02; apply Hsrc; (lia || set_solver).
  - intros x Hx. rewrite (vm_post_held_page _ _ _ _ _ _ _ _ ks x I3 P4) by (done || set_solver).
    cbn [k_mem set_procs k3]. rewrite M2; [done|]. by apply (off_page k ks).
  - change (PMX KERNBASE) with 256. change (k_kpdpt k) with (k_kpdpt k1'). rewrite <- R2. apply (ld64_ext (k_mem k2)). intros x Hx.
    rewrite (vp_frame _ _ _ _ _ _ _ _ P4); [done| |].
    + intros t Ht. apply (off_page k pm); [done| | |unfold PGSIZE; lia].
      * apply (proj1 (Forall_forall _ _) Hpg). set_solver.
      * intros ->. apply NoDup_cons in Hnd as [_ Hnd]. by apply NoDup_cons in Hnd as [Hnd _].
    + intros p t Ht _. apply lookup_singleton_Some in Ht as [<- <-]. right. split; [done|]. unfold PGSIZE. lia.
  - intros x Hx. rewrite (vp_frame _ _ _ _ _ _ _ _ P4).
    + apply M02; apply Hx; set_solver.
    + intros t Ht. apply Hx. set_solver.
    + intros p t Ht _. apply lookup_singleton_Some in Ht as [_ <-]. left. apply Hx. set_solver.
Qed.

(** The registers the first process starts with: it returns to the address PGSIZE with
    interrupts on and a stack that ends with its second page. *)
Definition entry_mem (m : mem) (tf : Z) : mem :=
  st64 (st64 (st64 (Kstring.memset m tf 0 SIZEOF_TRAPFRAME) (tf + TF_r11) FL_IF) (tf + TF_rsp) (PGSIZE * 2)) (tf + TF_rcx) PGSIZE.

Definition first_proc (ks pm : Z) : proc :=
  Proc (PGSIZE * 2) pm ks RUNNABLE 1 None (stack_tf ks) (stack_context ks) None false
    (replicate NOFILE None) (Some 0%nat) (chars "initcode" ++ replicate 8 0).

Lemma entry_mem_ld8 m tf x : x < tf \/ tf + SIZEOF_TRAPFRAME <= x -> ld8 (entry_mem m tf) x = ld8 m x.
Proof.
  unfold entry_mem, st64, SIZEOF_TRAPFRAME, TF_r11, TF_rsp, TF_rcx. intros Hx.
  by rewrite !ld8_st_bytes, !length_le_split, !decide_False, memset_ld8, decide_False by lia.
Qed.

Lemma entry_mem_wf m tf : mem_wf m -> mem_wf (entry_mem m tf).
Proof. intros H. unfold entry_mem, st64. by apply st_bytes_wf, st_bytes_wf, st_bytes_wf, memset_wf. Qed.

Definition entry_reg (o : Z) : Z :=
  if o =? TF_rcx then PGSIZE else if o =? TF_rsp then PGSIZE * 2 else if o =? TF_r11 then FL_IF else 0.

Lemma entry_mem_reg m tf j : 0 <= j < 22 -> ld64 (entry_mem m tf) (tf + 8 * j) = entry_reg (8 * j).
Proof.
  intros Hj. unfold entry_mem, entry_reg, TF_r11, TF_rsp, TF_rcx, FL_IF, PGSIZE, SIZEOF_TRAPFRAME.
  destruct (Z.eqb_spec (8 * j) 16) as [->|H1]; [by apply ld64_st64_same|]. rewrite ld64_st64_ne by lia.
  destruct (Z.eqb_spec (8 * j) 160) as [->|H2]; [by apply ld64_st64_same|]. rewrite ld64_st64_ne by lia.
  destruct (Z.eqb_spec (8 * j) 80) as [->|H3]; [by apply ld64_st64_same|]. rewrite ld64_st64_ne by lia.
  unfold ld64. rewrite (ld_bytes_ext ∅); [done|]. intros x Hx. by rewrite memset_ld8, decide_True by lia.
Qed.

(** The second half: registers, name and directory. *)
Lemma userinit_rest k ks pm ps :
  k_procs k = with_pgdir pm (new_proc proc0 1 ks) :: ps -> cpu_ok (k_cpu k) -> unheld k ->
  k_inodes k = replicate NINODE inode0 ->
  (upd_proc 0 (with_sz (PGSIZE * 2)) ;;; p <- get_proc 0 ;;
   memory (fun m => Kstring.memset m (p_tf p) 0 SIZEOF_TRAPFRAME) ;;;
   set_tf (p_tf p) TF_r11 FL_IF ;;; set_tf (p_tf p) TF_rsp (p_sz p) ;;; set_tf (p_tf p) TF_rcx PGSIZE ;;;
   name <- of_option (Kstr.safestrcpy (p_name p) (cstr "initcode") 16) ;;
   upd_proc 0 (with_name name) ;;;
   cwd <- namei (cstr "/") ;; upd_proc 0 (with_cwd cwd) ;;; upd_proc 0 (with_state RUNNABLE)) k =
  Ok tt (set_procs (first_proc ks pm :: ps)
    (settle (set_inodes (<[0%nat := Inode ROOTDEV ROOTINO 1 0 dinode0]> (replicate NINODE inode0))
      (with_lock LK_icache (set_mem (entry_mem (k_mem k) (stack_tf ks)) k))))).
Proof.
  intros Hp Hc Hu Hi. set (p1 := with_sz (PGSIZE * 2) (with_pgdir pm (new_proc proc0 1 ks))).
  assert (upd_proc 0 (with_sz (PGSIZE * 2)) k = Ok tt (set_procs (p1 :: ps) k)) as E1.
  { unfold upd_proc, upd_at. rewrite Hp. done. }
  set (p2 := with_name (chars "initcode" ++ replicate 8 0) p1).
  set (k2 := set_procs (p2 :: ps) (set_mem (entry_mem (k_mem k) (stack_tf ks)) k)).
  krun E1. unfold bind at 1, get_proc, read_at. cbn [k_procs set_procs lookup list_lookup obind].
  unfold memory, set_tf. unfold bind at 1, modify. cbn [obind]. unfold memory, bind at 1, modify. cbn [obind].
  unfold bind at 1. cbn [obind]. unfold bind at 1. cbn [obind].
  change (Kstr.safestrcpy (p_name p1) (cstr "initcode") 16) with (Some (chars "initcode" ++ replicate 8 0)).
  unfold bind at 1, of_option, ret at 1. cbn [obind].
  match goal with |- bind _ _ ?s = _ => assert (upd_proc 0 (with_name (chars "initcode" ++ replicate 8 0)) s = Ok tt k2) as E2 by reflexivity end.
  krun E2. krun (namei_root k2 Hc Hu Hi). 
  assert (with_lock LK_icache k2 = set_procs (p2 :: ps) (with_lock LK_icache (set_mem (entry_mem (k_mem k) (stack_tf ks)) k))) as ->.
  { unfold with_lock, k2. cbn. by case_match. }
  reflexivity.
Qed.

Lemma ld64_st64_u64 m a v : ld64 (st64 m a v) a = u64 v.
Proof.
  unfold ld64, st64. pose proof (ld_st_bytes_same m a (le_split 8 v) (le_split_bytes 8 v)) as E.
  rewrite length_le_split in E. rewrite E, le_combine_split. done.
Qed.

Lemma stack_mem_context m ks :
  ld64 (stack_mem m ks) (stack_context ks + 48) = u64 im_forkret /\ ld64 (stack_mem m ks) (stack_tf ks - 8) = u64 im_trapret.
Proof.
  unfold stack_mem. split; [apply ld64_st64_u64|]. unfold stack_context, SIZEOF_CONTEXT.
  rewrite ld64_st64_ne by lia. rewrite <- (ld64_st64_u64 m (stack_tf ks - 8) im_trapret).
  apply ld64_ext. intros x Hx. rewrite memset_ld8, decide_False by lia. done.
Qed.

End Process.

(** ** The kernel that starts *)

Section Started.
  Context {patience_bound : Patience} {driver : DiskDriver} {image : Image} {machine : Machine}.

(** The kernel when the scheduler takes over: [used] are the pages of the kernel, [ks] is
    the stack of the first process, [tabs] its address space, with the root [pm] and the
    page [fr] of its code, and [l] are the free pages. *)
Record started (kend : Z) (m : mem) (d : disk) (idt : Z) (used : list Z) (ks pm fr : Z)
    (tabs : gmap (list Z) Z) (l : list Z) (k : kernel) : Prop := Started {
  st_pages : used ++ [ks] ++ owned tabs ++ l ≡ₚ pool kend;
  st_space : vm_inv k tabs [ks] l;
  st_own : own_pages k l (k_kpml4 k) (k_kpdpt k) idt (c_local (k_cpu k));
  st_owned : Forall (.∈ used) [k_kpml4 k; k_kpdpt k; idt; c_local (k_cpu k)];
  st_root : tabs !! [] = Some pm;
  st_kernel : kernel_map (k_mem k) pm (k_kpdpt k);
  st_procs : k_procs k = <[0%nat := first_proc ks pm]> (replicate NPROC proc0);
  st_init : k_initproc k = Some 0%nat /\ k_nextpid k = 2;
  st_text : forall i, 0 <= i < PGSIZE ->
    uaddr (k_mem k) pm (PGSIZE + i) = Some (fr + i) /\
    ld8 (k_mem k) (fr + i) = if decide (i < im_initcode_size) then ld8 m (im_initcode + i) else 0;
  st_only : forall va, uva va -> va / 4096 <> 1 -> pte_at (k_mem k) pm va = None;
  st_regs : forall j, 0 <= j < 22 -> ld64 (k_mem k) (stack_tf ks + 8 * j) = entry_reg (8 * j);
  st_context : ld64 (k_mem k) (stack_context ks + 48) = u64 im_forkret /\
    ld64 (k_mem k) (stack_tf ks - 8) = u64 im_trapret;
  st_inodes : k_inodes k = <[0%nat := Inode ROOTDEV ROOTINO 1 0 dinode0]> (replicate NINODE inode0);
  st_cpu : c_ncli (k_cpu k) = 0 /\ c_if (k_cpu k) = false /\ c_proc (k_cpu k) = None /\ c_id (k_cpu k) = Z.of_nat mc_boot;
  st_unheld : unheld k;
  st_locks : lock_free k LK_cons /\ forall lk, static_lock lk -> lock_free k lk;
  st_cons : co_panicked (k_cons k) = false /\ co_locking (k_cons k) = true;
  st_cache : bcache_ok k (rev (upto NBUF)) ∅;
  st_content : forall b, content k b = disk_block d b;
  st_clean : forall b, ~ dirty k b;
  st_disk : d_blocks (k_disk k) = d_blocks d /\ disksize (k_disk k) = disksize d;
  st_log : k_first k = true /\ k_log k = log0;
  st_frame : upage k tabs PGSIZE fr 7
}.

(** A page mapped with all the user's rights, byte by byte. *)
Lemma upage_uaddr k tabs pml4 fr i :
  pt_ok k tabs -> tabs !! [] = Some pml4 -> upage k tabs PGSIZE fr 7 -> in_u64 fr -> 0 <= i < PGSIZE ->
  uaddr (k_mem k) pml4 (PGSIZE + i) = Some (fr + i).
Proof.
  intros Hp Hr Hu Hf Hi. unfold PGSIZE in *.
  destruct (upage_mapped k tabs pml4 (4096 + i) fr 7 Hp Hr) as (ent & E & Ea & Ef).
  { unfold uva. lia. }
  { apply (upage_path k tabs 4096); [unfold uva; lia|unfold uva; lia| |done]. Z.to_euclidean_division_equations; lia. }
  unfold uaddr. rewrite E. cbn [mbind option_bind]. rewrite user_ok_7, Ea, p2v_v2p by done. do 2 f_equal.
  Z.to_euclidean_division_equations; lia.
Qed.

(** What is printed afterwards changes nothing of this. *)
Lemma started_talks kend m d idt used ks pm fr tabs l k k' :
  talks k k' -> started kend m d idt used ks pm fr tabs l k -> started kend m d idt used ks pm fr tabs l k'.
Proof.
  intros (cn & cc & -> & Hc & Hp & Hl) [H1 H2 H3 H4 H5 H6 H7 H8 H9 H10 H11 H12 H13 H14 H15 H16 H17 H18 H19 H20 H21 H22 H23].
  assert (cpu_ok cc /\ c_proc cc = None) as [Hc1 Hc2].
  { pose proof (tr_cpu _ (ar_trace _ _ (vi_ready _ _ _ _ H2))). destruct H14 as (_ & _ & G & _). by destruct Hc as [-> | ->]. }
  assert (c_local cc = c_local (k_cpu k) /\ c_ncli cc = c_ncli (k_cpu k) /\ c_if cc = c_if (k_cpu k) /\ c_id cc = c_id (k_cpu k))
    as (L1 & L2 & L3 & L4) by by destruct Hc as [-> | ->].
  constructor; try done.
  - by apply (vm_inv_ext k).
  - cbn. rewrite L1. by apply (own_pages_ext k _ l).
  - cbn. by rewrite L1.
  - cbn. rewrite L2, L3, L4, Hc2. destruct H14 as (? & ? & ? & ?). done.
  - cbn. destruct H17. split; congruence.
  - by apply (bcache_ok_ext k).
Qed.

(** What the last stores of userinit leave of the address space and the stack. *)
Lemma entry_written k tabs ks l :
  vm_inv k tabs [ks] l ->
  let m' := entry_mem (k_mem k) (stack_tf ks) in
  vm_inv (set_mem m' k) tabs [ks] l /\ (forall va, leaf m' tabs (path va) = leaf (k_mem k) tabs (path va)) /\
  within ks (k_mem k) m' /\
  (forall x, x < stack_tf ks -> ld8 m' x = ld8 (k_mem k) x).
Proof.
  intros Hi m'.
  assert (within ks (k_mem k) m') as Hw.
  { intros x Hx. apply entry_mem_ld8. unfold off, stack_tf, KSTACKSIZE, SIZEOF_TRAPFRAME, PGSIZE in *. lia. }
  destruct (held_write k tabs [ks] l ks m' Hi) as [Hi' Hl]; [set_solver|done|apply entry_mem_wf, Hi|].
  split_and!; [done|done|done|]. intros x Hx. apply entry_mem_ld8. by left.
Qed.

(** The state userinit ends in. *)
Definition finished (ks pm : Z) (k : kernel) : kernel :=
  set_procs (<[0%nat := first_proc ks pm]> (replicate NPROC proc0))
    (settle (set_inodes (<[0%nat := Inode ROOTDEV ROOTINO 1 0 dinode0]> (replicate NINODE inode0))
      (with_lock LK_icache (set_mem (entry_mem (k_mem k) (stack_tf ks)) k)))).

Lemma finished_uses ks pm k : uses k (finished ks pm k) /\ k_mem (finished ks pm k) = entry_mem (k_mem k) (stack_tf ks) /\
  k_trace (finished ks pm k) = k_trace k /\ k_kmem (finished ks pm k) = k_kmem k /\
  k_initproc (finished ks pm k) = k_initproc k /\ k_nextpid (finished ks pm k) = k_nextpid k.
Proof.
  unfold finished. rewrite with_lock_same. split; [|done]. split; [done|by right| |].
  - intros Hu. apply (with_lock_keeps LK_icache (set_mem (entry_mem (k_mem k) (stack_tf ks)) k) Hu).
  - intros Hu. apply (with_lock_keeps LK_icache (set_mem (entry_mem (k_mem k) (stack_tf ks)) k) Hu).
Qed.

(** Pages the first process does not get keep their contents. *)
Lemma finished_keeps k ks pm fr l tabs l' k1 v x :
  built k ks pm fr l tabs l' k1 -> Forall (page_ok k) (ks :: pm :: fr :: l) ->
  page_ok k v -> v ∉ ks :: pm :: fr :: l -> v <= x < v + PGSIZE ->
  ld8 (k_mem (finished ks pm k1)) x = ld8 (k_mem k) x.
Proof.
  intros Hb Hpg Hv Hn Hx. destruct (finished_uses ks pm k1) as (_ & -> & _).
  assert (forall t, t ∈ ks :: pm :: fr :: l -> off t x) as Hoff.
  { intros t Ht. apply (off_page k v); [done|exact (proj1 (Forall_forall _ _) Hpg t Ht)|by intros ->|done]. }
  destruct (entry_written k1 tabs ks l' (bu_space _ _ _ _ _ _ _ _ Hb)) as (_ & _ & W & _).
  rewrite W by (apply Hoff; set_solver). by apply (bu_frame _ _ _ _ _ _ _ _ Hb).
Qed.

(** The address space, the code and the stack at the end. *)
Lemma finished_space k ks pm fr l tabs l' k1 :
  built k ks pm fr l tabs l' k1 -> Forall (page_ok k) (ks :: pm :: fr :: l) -> NoDup (ks :: pm :: fr :: l) ->
  unheld k -> cpu_ok (k_cpu k) -> c_proc (k_cpu k) = None ->
  let k2 := finished ks pm k1 in
  vm_inv k2 tabs [ks] l' /\
  ld64 (k_mem k2) (pm + 8 * PMX KERNBASE) = u64 (Z.lor (Z.lor (v2p (k_kpdpt k)) PTE_P) PTE_W) /\
  (forall i, 0 <= i < PGSIZE -> uaddr (k_mem k2) pm (PGSIZE + i) = Some (fr + i) /\
     ld8 (k_mem k2) (fr + i) = if decide (i < im_initcode_size) then ld8 (k_mem k) (im_initcode + i) else 0) /\
  (forall va, uva va -> va / 4096 <> 1 -> pte_at (k_mem k2) pm va = None) /\
  (forall j, 0 <= j < 22 -> ld64 (k_mem k2) (stack_tf ks + 8 * j) = entry_reg (8 * j)) /\
  ld64 (k_mem k2) (stack_context ks + 48) = u64 im_forkret /\ ld64 (k_mem k2) (stack_tf ks - 8) = u64 im_trapret /\
  upage k2 tabs PGSIZE fr 7.
Proof.
  intros Hb Hpg Hnd Hun Hc Hcp k2. pose proof Hb as [U1 I1 R1 P1 O1 N1 Q1 T1 K1 M1 F1].
  destruct (finished_uses ks pm k1) as (U2 & Em & Et & Ekm & _). fold k2 in U2, Em, Et, Ekm. rewrite Em.
  destruct (entry_written k1 tabs ks l' I1) as (I2 & L2 & W2 & X2).
  set (m2 := entry_mem (k_mem k1) (stack_tf ks)) in *. set (k1' := set_mem m2 k1) in *.
  destruct (uses_cpu _ _ U1 Hc Hcp) as [C1 C1']. destruct (uses_cpu _ _ U2 C1 C1') as [C2 C2'].
  assert (page_ok k ks /\ page_ok k pm /\ page_ok k fr) as (Oks & Opm & Ofr) by (rewrite !Forall_cons in Hpg; by destruct Hpg as (? & ? & ? & _)).
  assert (pm <> ks /\ fr <> ks) as [N2 N3].
  { apply NoDup_cons in Hnd as [Hnd _]. apply not_elem_of_cons in Hnd as [? [? _]%not_elem_of_cons]. by split; apply not_eq_sym. }
  assert (upage k1' tabs PGSIZE fr 7) as P2.
  { destruct P1 as [P1 (ent & P1' & P1'')]. split; [done|]. exists ent. split; [|done]. rewrite <- P1'. apply L2. }
  assert (forall v x, page_ok k v -> v <> ks -> v <= x < v + PGSIZE -> ld8 m2 x = ld8 (k_mem k1) x) as Hm.
  { intros v x Hv Hn Hx. apply W2. by apply (off_page k v). }
  split_and!.
  - apply (vm_inv_ext k1'); [|by apply (us_free _ _ U2), (us_unheld _ _ U1)|done|done|done].
    by rewrite Et, Ekm, Em.
  - rewrite <- M1. apply ld64_ext. intros x Hx. apply (Hm pm); [done..|]. change (PMX KERNBASE) with 256 in Hx. unfold PGSIZE. lia.
  - intros i Hi. split.
    + apply (upage_uaddr k1' tabs); [apply I2|done|done|apply Ofr|done].
    + rewrite (Hm fr) by (done || lia). by apply T1.
  - intros va Hu Hva. apply (unmapped_iff k1' tabs); [apply I2|done|done|]. by apply N1.
  - intros j Hj. by apply entry_mem_reg.
  - rewrite <- (proj1 (stack_mem_context (k_mem k) ks)). apply ld64_ext. intros x Hx.
    unfold stack_context, stack_tf, SIZEOF_CONTEXT, SIZEOF_TRAPFRAME, KSTACKSIZE in *.
    rewrite X2 by lia. apply K1. unfold PGSIZE. lia.
  - rewrite <- (proj2 (stack_mem_context (k_mem k) ks)). apply ld64_ext. intros x Hx.
    unfold stack_tf, SIZEOF_TRAPFRAME, KSTACKSIZE in *. rewrite X2 by lia. apply K1. unfold PGSIZE. lia.
  - unfold upage. rewrite Em. exact P2.
Qed.

Lemma finished_started kend m d g ports idt used ks pm fr l tabs l' k k1 :
  platform kend m g ports -> set_up kend m d idt used (ks :: pm :: fr :: l) k -> built k ks pm fr l tabs l' k1 ->
  started kend m d idt used ks pm fr tabs l' (finished ks pm k1).
Proof.
  intros Hpf Hsu Hb. pose proof Hsu as [Ha Hw Hpool Hlen Hown Hoed Hmem Hcpu Hun Hlks Hcons Hcache Hcont Hcl Hdk Htr Hst].
  injection Hst as _ _ _ _ _ Sf Sl. pose proof (fl_pages _ _ (ar_free _ _ Ha)) as Hpg. pose proof (fl_nodup _ _ (ar_free _ _ Ha)) as Hnd.
  destruct (finished_space k ks pm fr l tabs l' k1) as (G1 & G2 & G3 & G4 & G5 & G6 & G6' & G7); [done|done|done|done|apply Ha|apply Hcpu|].
  destruct (finished_uses ks pm k1) as (U2 & Em & _ & _ & Ei & En). pose proof (bu_tables _ _ _ _ _ _ _ _ Hb) as Q. injection Q as Q1 Q2 Q3 Q4.
  assert (uses k (finished ks pm k1)) as U by (transitivity k1; [apply Hb|done]).
  destruct (uses_fields _ _ U) as (V1 & V2 & V3 & V4 & V5 & V6 & V7 & V8 & V9).
  assert (c_local (k_cpu (finished ks pm k1)) = c_local (k_cpu k) /\ c_ncli (k_cpu (finished ks pm k1)) = c_ncli (k_cpu k) /\
    c_if (k_cpu (finished ks pm k1)) = c_if (k_cpu k) /\ c_proc (k_cpu (finished ks pm k1)) = c_proc (k_cpu k) /\
    c_id (k_cpu (finished ks pm k1)) = c_id (k_cpu k)) as (C1 & C2 & C3 & C4 & C5) by by destruct (us_cpu _ _ U) as [-> | ->].
  assert (own_pages (finished ks pm k1) l' (k_kpml4 k) (k_kpdpt k) idt (c_local (k_cpu k))) as Hown'.
  { apply (own_pages_ext k _ (ks :: pm :: fr :: l)); [|done| |done].
    - intros v x Hv Hx. eapply finished_keeps; [exact Hb|done| | |exact Hx].
      + exact (proj1 (Forall_forall _ _) (op_pages _ _ _ _ _ _ Hown) v Hv).
      + exact (proj1 (Forall_forall _ _) (op_apart _ _ _ _ _ _ Hown) v Hv).
    - intros v Hv. rewrite <- (bu_pages _ _ _ _ _ _ _ _ Hb). set_solver. }
  constructor; rewrite ?V5, ?V6, ?C1, ?C2, ?C3, ?C4, ?C5; try done.
  - rewrite (bu_pages _ _ _ _ _ _ _ _ Hb). by rewrite Hpool.
  - by apply Hb.
  - destruct (op_map _ _ _ _ _ _ Hown') as (_ & K2 & K3). by split_and!.
  - by rewrite Ei, En.
  - intros i Hi. destruct (G3 i Hi) as [T1 T2]. split; [done|]. rewrite T2. case_decide; [|done]. apply Hmem.
    + intros p Hp. left. pose proof (pf_kend _ _ _ _ Hpf). pose proof (pf_size _ _ _ _ Hpf). pose proof (pf_initcode _ _ _ _ Hpf).
      assert (kend <= p); [apply pool_above; unfold MB, PGSIZE in *; lia || done|lia].
    + intros [_ Hlo]. pose proof (pf_low _ _ _ _ Hpf). lia.
  - by apply (us_unheld _ _ U).
  - destruct Hlks. split; [|intros lk Hlk]; apply (us_free _ _ U); auto.
  - by rewrite V4.
  - apply (bcache_ok_ext k); [done|done|by rewrite V3|by rewrite V3|done].
  - intros b. rewrite (content_ext k), Hcont by (done || by rewrite V3). done.
  - intros b. rewrite (dirty_ext k) by done. apply Hcl.
  - by rewrite V3.
  - by rewrite V8, V9.
Qed.

Lemma userinit_run kend m d g ports idt used l k :
  platform kend m g ports -> set_up kend m d idt used l k ->
  exists k' ks pm fr tabs l', userinit k = Ok tt k' /\
    c_local (k_cpu k') = c_local (k_cpu k) /\ started kend m d idt used ks pm fr tabs l' k'.
Proof.
  intros Hpf Hsu. pose proof Hsu as [Ha Hw Hpool Hlen _ _ _ Hcpu Hun Hlks _ _ _ _ _ _ Hst].
  injection Hst as S1 S2 S3 S4 S5 _ _. destruct l as [|ks [|pm [|fr l]]]; [cbn in Hlen; lia..|].
  destruct (userinit_space k ks pm fr l (fun i => upd_proc i (with_sz (PGSIZE * 2)) ;;; p <- get_proc i ;;
     memory (fun m => Kstring.memset m (p_tf p) 0 SIZEOF_TRAPFRAME) ;;;
     set_tf (p_tf p) TF_r11 FL_IF ;;; set_tf (p_tf p) TF_rsp (p_sz p) ;;; set_tf (p_tf p) TF_rcx PGSIZE ;;;
     name <- of_option (Kstr.safestrcpy (p_name p) (cstr "initcode") 16) ;;
     upd_proc i (with_name name) ;;;
     cwd <- namei (cstr "/") ;; upd_proc i (with_cwd cwd) ;;; upd_proc i (with_state RUNNABLE)))
    as (k1 & tabs & l' & E1 & Hb).
  { done. } { done. } { apply Hlks, st_ptable. } { apply Hcpu. } { done. } { done. }
  { cbn [length] in Hlen. lia. } { apply Hpf. }
  { intros x t Hx Ht. left. pose proof (pf_initcode _ _ _ _ Hpf).
    destruct (proj1 (Forall_forall _ _) (fl_pages _ _ (ar_free _ _ Ha)) t Ht) as (_ & _ & Hge & _). lia. }
  pose proof (bu_uses _ _ _ _ _ _ _ _ Hb) as U1. pose proof (bu_tables _ _ _ _ _ _ _ _ Hb) as Q. injection Q as Q1 Q2 _ _.
  destruct (uses_cpu _ _ U1) as [C1 _]; [apply Ha|apply Hcpu|].
  pose proof (userinit_rest k1 ks pm (replicate 63 proc0) Q1 C1 (us_unheld _ _ U1 Hun) ltac:(by rewrite Q2)) as E2.
  exists (finished ks pm k1), ks, pm, fr, tabs, l'. split; [unfold userinit; rewrite E1; exact E2|].
  split; [|by eapply finished_started].
  assert (uses k (finished ks pm k1)) as U by (transitivity k1; [done|apply finished_uses]).
  by destruct (us_cpu _ _ U) as [-> | ->].
Qed.

(** mpmain on the boot processor. *)
Lemma mpmain_run g idt i k :
  finds_self g i -> cpu_ok (k_cpu k) -> co_panicked (k_cons k) = false -> lock_free k LK_cons ->
  exists k', mpmain_setup g idt i k =
    Ok (HReg (idtinit idt) :: (HReg <$> syscallinit mc_syscall_entry mc_ignore_sysret) ++ [HStarted (Z.to_nat (c_id (k_cpu k)))]) k' /\
    talks k k'.
Proof.
  intros Hi Hc Hp Hl. destruct (cprintf_talks (chars "cpu%d: starting" ++ [10]) [FNum (Z.of_nat i)] k) as (k' & E & Ht);
    [|done|done|done|].
  - apply (printable_number (chars "cpu") (chars ": starting" ++ [10])); apply (bool_decide_unpack _); by vm_compute.
  - exists k'. split; [|done]. unfold mpmain_setup. krun (cpunum_self g i k Hi). krun E.
    destruct Ht as (cn & cc & -> & [-> | ->] & _); reflexivity.
Qed.

(** main up to the scheduler. *)
Lemma main_run kend m d g ports :
  platform kend m g ports -> mem_wf m ->
  (forall b data, d_blocks d !! b = Some data -> length data = 512%nat) ->
  exists k es idt used ks pm fr tabs l,
    main_setup kend (loaded kend m d) = Ok es k /\ started kend m d idt used ks pm fr tabs l k /\
    exists e1 e2, es = e1 ++ (HReg <$> seg_regs (c_local (k_cpu k))) ++ e2 ++
      HReg (idtinit idt) :: (HReg <$> syscallinit mc_syscall_entry mc_ignore_sysret) ++ [HStarted mc_boot].
Proof.
  intros Hpf Hw Hd. destruct (boot_run kend m d g ports Hpf Hw Hd) as (k & idt & used & l & e1 & e2 & e4 & Hsu & E).
  destruct (userinit_run kend m d g ports idt used l k Hpf Hsu) as (k1 & ks & pm & fr & tabs & l' & E1 & Hl & Hst).
  destruct (mpmain_run g idt mc_boot k1) as (k2 & E2 & Ht).
  - apply Hpf.
  - apply Hst.
  - apply Hst.
  - exact (proj1 (st_locks _ _ _ _ _ _ _ _ _ _ _ Hst)).
  - exists k2. eexists _, idt, used, ks, pm, fr, tabs, l'. split; [|split].
    + rewrite E. krun E1. krun E2. reflexivity.
    + by eapply started_talks.
    + exists (e1 ++ e2), e4. assert (c_local (k_cpu k2) = c_local (k_cpu k)) as ->.
      { rewrite <- Hl. by destruct Ht as (cn & cc & -> & [-> | ->] & _). }
      destruct (st_cpu _ _ _ _ _ _ _ _ _ _ _ Hst) as (_ & _ & _ & ->). rewrite Nat2Z.id. by rewrite <- !app_assoc.
Qed.

(** C3: main starts the kernel: from the loaded image, with the tables of the firmware in the
    first megabyte and memory for 16 pages and two more for each processor, main reaches the
    scheduler.  There every page of memory belongs to the kernel, to the first process or to
    the free list, once; the gates, the segments and the kernel's map are in place and
    loaded; process 0 is ready to run the code of initcode in an address space of one page
    with the kernel's half, its registers and its stack as a return from a system call
    expects them; no lock is held and interrupts are off; and the buffer cache shows the
    disk. *)
Theorem kernel_starts kend m d g ports :
  platform kend m g ports -> mem_wf m ->
  (forall b data, d_blocks d !! b = Some data -> length data = 512%nat) ->
  exists k es idt used ks pm fr tabs l,
    main_setup kend (loaded kend m d) = Ok es k /\ started kend m d idt used ks pm fr tabs l k /\
    exists e1 e2, es = e1 ++ (HReg <$> seg_regs (c_local (k_cpu k))) ++ e2 ++
      HReg (idtinit idt) :: (HReg <$> syscallinit mc_syscall_entry mc_ignore_sysret) ++ [HStarted mc_boot].
Proof. apply main_run. Qed.

End Started.

(** *** A machine

    Two processors, which the firmware lists in tables in the extended BIOS data area at
    0x9FC00, and a kernel of two megabytes. *)

Definition firmware : mem :=
  st_bytes (st_bytes (st_bytes ∅ (p2v 1038) [192; 159])
    (p2v 654336) (chars "_MP_" ++ [0; 253; 9; 0; 1; 4; 154; 0; 0; 0; 0; 0]))
    (p2v 654592) (chars "PCMP" ++ [92; 0; 4; 141] ++ replicate 28 0 ++ [0; 0; 224; 254] ++ replicate 4 0 ++
      (0 :: 0 :: replicate 18 0) ++ (0 :: 1 :: replicate 18 0) ++ (2 :: 2 :: replicate 6 0)).

Definition two_cpus : mpglobals := MpGlobals [0; 1; 0; 0; 0; 0; 0; 0] 2 2 (p2v 4276092928).

Definition pc_end : Z := KERNBASE + 2 * MB.
Definition pc_image : Image := Build_Image (KERNBASE + MB + 100) (KERNBASE + MB + 200) (KERNBASE + MB + 4096) 44.
Definition pc : Machine :=
  Build_Machine 96 0 327700 [4096; 0] (fun i => Z.shiftl (Z.of_nat i) 24) 0 true (fun n => KERNBASE + MB + 8192 + 16 * Z.of_nat n)
    (KERNBASE + MB + 300) (KERNBASE + MB + 400) (KERNBASE + MB + 500) (KERNBASE + MB + 12288) 120.
Definition pc_disk : disk := Disk ∅ FSSIZE true None [].

Lemma firmware_wf : mem_wf firmware.
Proof. unfold firmware. by apply st_bytes_wf, st_bytes_wf, st_bytes_wf. Qed.

Lemma firmware_search : mpsearch firmware = Some (p2v 654336).
Proof. vm_compute. reflexivity. Qed.

Lemma firmware_conf : mp_physaddr firmware (p2v 654336) = 654592 /\ conf_length firmware (p2v 654592) = 92.
Proof. vm_compute. split; reflexivity. Qed.

Lemma firmware_low : mp_low firmware.
Proof.
  split; [left; vm_compute; split; [reflexivity|congruence]|]. rewrite firmware_search. intros mp H.
  assert (mp = p2v 654336) as -> by congruence. destruct firmware_conf as [E1 E2]. cbv zeta. rewrite E1, E2.
  vm_compute. split_and!; congruence.
Qed.

Lemma pc_platform : @platform pc_image pc pc_end firmware two_cpus [].
Proof.
  constructor.
  - vm_compute. congruence.
  - vm_compute. split; congruence.
  - vm_compute. split; [split|]; congruence.
  - vm_compute. congruence.
  - left. vm_compute. reflexivity.
  - exact firmware_low.
  - by right.
  - reflexivity.
  - intros i Hi. cbn in Hi. destruct i as [|[|i]]; [by split; [vm_compute|eexists]..|lia].
  - intros n Hn. change (in_u64 (KERNBASE + MB + 8192 + 16 * Z.of_nat n)). unfold in_u64, KERNBASE, MB. lia.
Qed.

Lemma kernel_starts_witness :
  exists k es idt used ks pm fr tabs l,
    @main_setup 10%nat Memide.memide pc_image pc pc_end (loaded pc_end firmware pc_disk) = Ok es k /\
    @started pc_image pc pc_end firmware pc_disk idt used ks pm fr tabs l k /\
    exists e1 e2, es = e1 ++ (HReg <$> seg_regs (c_local (k_cpu k))) ++ e2 ++
      HReg (idtinit idt) :: (HReg <$> syscallinit (@mc_syscall_entry pc) (@mc_ignore_sysret pc)) ++ [HStarted 0%nat].
Proof.
  apply (@kernel_starts 10%nat Memide.memide pc_image pc pc_end firmware pc_disk two_cpus []).
  - exact pc_platform.
  - exact firmware_wf.
  - intros b data Hb. cbn in Hb. by rewrite lookup_empty in Hb.
Defined.
