(* ===== verification/StartFirst.v ===== *)
(** * The first switch (src/proc.c: scheduler, forkret; src/fs.c: iinit; src/log.c: initlog)

    After main the scheduler hands the processor to process 0, which starts in forkret: it
    initialises the locks of the inode table, reads the super block and recovers the log.
    [kernel_recovers] is the whole way from the loaded image to the point where the process
    returns to its own code: then the file system is the one a crash left, with the last
    committed transaction installed, and the invariant of transactions holds. *)

From S2P Require Import Prelude Mem CString State Spinlock Ktrace Kalloc Vm Uvm Sched Sleeplock Bio Bcache Log Recovery Txn Inode Console Fs Proc Mp Boot Lapic Early Segments Start StartBoot StartUser.

(** ** The scheduler *)

Section First.
  Context {patience_bound : Patience} {driver : DiskDriver} {image : Image} {machine : Machine}.

(** The task state segment gets the stack of the process. *)
Definition tss_mem (m : mem) (local stktop : Z) : mem :=
  st32 (st32 m (local + 1024 + 4 * 1) (u32 stktop)) (local + 1024 + 4 * 2) (u32 (Z.shiftr stktop 32)).

(** The state in which process 0 runs, without the lock of the process table. *)
Definition running_first (ks pm : Z) (k : kernel) : kernel :=
  let c := k_cpu k in
  set_procs (<[0%nat := with_state RUNNING (first_proc ks pm)]> (k_procs k))
    (set_mem (tss_mem (k_mem k) (c_local c) (u64 (ks + KSTACKSIZE)))
      (set_cpu (Cpu (c_id c) 0 (c_intena c) true (Some 0%nat) (c_local c) (v2p pm)) k)).

Lemma get_proc_ok k i p : k_procs k !! i = Some p -> get_proc i k = Ok p k.
Proof. intros H. unfold get_proc, read_at. by rewrite H. Qed.

Lemma switchuvm_run i p k :
  k_procs k !! i = Some p -> p_pgdir p <> 0 -> c_ncli (k_cpu k) = 1 -> c_if (k_cpu k) = false ->
  let c := k_cpu k in
  switchuvm i k = Ok tt (set_mem (tss_mem (k_mem k) (c_local c) (u64 (p_kstack p + KSTACKSIZE)))
    (set_cpu (Cpu (c_id c) 1 (c_intena c) false (c_proc c) (c_local c) (v2p (p_pgdir p))) k)).
Proof.
  intros Hp Hg Hn Hi c. subst c. destruct (k_cpu k) as [id ncli intena ifl pr local cr3] eqn:Ec. cbn in Hn, Hi. subst ncli ifl.
  unfold switchuvm. krun (pushcli_ok k). rewrite Ec.
  krun (get_proc_ok (set_cpu (pushed (Cpu id 1 intena false pr local cr3)) k) i p Hp). rewrite (proj2 (Z.eqb_neq _ 0) Hg). reflexivity.
Qed.

Lemma running_first_lock ks pm k :
  c_ncli (k_cpu k) = 0 ->
  let k1 := set_cur (Some 0%nat) (locked_by LK_ptable (set_if true k)) in
  let c := k_cpu k1 in
  set_procs (<[0%nat := with_state RUNNING (first_proc ks pm)]> (k_procs k))
    (set_mem (tss_mem (k_mem k1) (c_local c) (u64 (ks + KSTACKSIZE)))
      (set_cpu (Cpu (c_id c) 1 (c_intena c) false (c_proc c) (c_local c) (v2p pm)) k1)) =
  locked_by LK_ptable (running_first ks pm k).
Proof.
  intros Hn. unfold running_first, locked_by, set_cur, set_if, pushed, get_lock. destruct k; cbn in *. by rewrite Hn.
Qed.

Lemma scheduler_pass_first ids sk ks pm ps k :
  k_procs k = first_proc ks pm :: ps -> pm <> 0 -> c_ncli (k_cpu k) = 0 ->
  exists r, scheduler_pass (0%nat :: ids) sk (locked_by LK_ptable (set_if true k)) =
    Switched (locked_by LK_ptable (running_first ks pm k)) r.
Proof.
  intros Hp Hpm Hn. eexists. cbn [scheduler_pass].
  assert (k_procs k !! 0%nat = Some (first_proc ks pm)) as Hp0 by by rewrite Hp.
  rewrite (obind_ok _ _ _ (first_proc ks pm) _ (get_proc_ok (locked_by LK_ptable (set_if true k)) 0 _ Hp0)).
  rewrite bool_decide_true by reflexivity. cbn [negb]. unfold bind at 1, modify at 1. cbn [obind].
  rewrite (obind_ok _ _ _ tt _ (switchuvm_run 0 (first_proc ks pm) (set_cur (Some 0%nat) (locked_by LK_ptable (set_if true k)))
    Hp0 Hpm ltac:(cbn; rewrite Hn; reflexivity) ltac:(reflexivity))).
  unfold bind at 1. rewrite (upd_proc_ok 0 (with_state RUNNING) _ (first_proc ks pm)) by exact Hp0. cbn [obind].
  unfold bind at 1, swtch at 1. cbn [obind].
  f_equal. exact (running_first_lock ks pm k Hn).
Qed.

Lemma scheduler_switches ks pm k :
  k_procs k = <[0%nat := first_proc ks pm]> (replicate NPROC proc0) -> pm <> 0 -> c_ncli (k_cpu k) = 0 ->
  lock_free k LK_ptable -> (0 < patience)%nat ->
  exists r, scheduler k = Switched (locked_by LK_ptable (running_first ks pm k)) r.
Proof.
  intros Hp Hpm Hn Hl Hpat. unfold scheduler. destruct patience as [|n]; [lia|]. cbn [scheduler_from].
  unfold bind at 1, sti, modify at 1. cbn [obind]. krun (acquire_free (set_if true k) LK_ptable Hl).
  destruct (scheduler_pass_first (seq 1 63) 0 ks pm (replicate 63 proc0) k Hp Hpm Hn) as [r E].
  change (0%nat :: seq 1 63) with (upto NPROC) in E. unfold bind at 1. rewrite E. cbn [obind]. by eexists.
Qed.

(** The first thing the process does. *)
Lemma forkret_first k :
  k_first k = true -> cpu_ok (k_cpu k) -> lock_free k LK_ptable ->
  forkret (locked_by LK_ptable k) = (iinit ROOTDEV ;;; initlog ROOTDEV) (set_first false (settle k)).
Proof.
  intros Hf Hc Hl. unfold forkret. krun (release_locked_by k (locked_by LK_ptable k) LK_ptable Hc Hl eq_refl eq_refl).
  assert (set_cpu (settled (k_cpu k)) (set_locks (k_locks k) (locked_by LK_ptable k)) = settle k) as -> by by destruct k.
  unfold bind at 1, gets at 1. cbn [obind]. change (k_first (settle k)) with (k_first k). rewrite Hf. cbn [when].
  unfold bind at 1, modify at 1. cbn [obind]. done.
Qed.

End First.

(** ** The file system *)

Section FileSystem.
  Context {patience_bound : Patience} {driver : DiskDriver} {driver_ok : DiskOk driver}.

(** A kernel between two calls of the file system, with nothing to write. *)
Definition idle (k : kernel) : Prop := ready k /\ (exists mru, bcache_ok k mru ∅) /\ forall b, ~ dirty k b.

Lemma idle_content k b : idle k -> content k b = disk_block (k_disk k) b.
Proof. intros (_ & [mru Hk] & Hc). eapply clean_content; [exact Hk|set_solver|apply Hc]. Qed.

Lemma idle_log k lg : idle k -> idle (set_log lg k).
Proof. intros (Hr & [mru Hk] & Hc). split_and!; [by apply ready_log|exists mru; by apply bcache_ok_log|done]. Qed.

Lemma readsb_idle k :
  idle k -> 1 < disksize (k_disk k) ->
  exists k', readsb ROOTDEV k = Ok (superblock_of (disk_block (k_disk k) 1)) k' /\ idle k' /\ bio_frame k k' /\ k_disk k' = k_disk k.
Proof.
  intros Hid Hd. pose proof (idle_content k 1 Hid) as Hct. destruct Hid as (Hr & [mru Hk] & Hcl).
  destruct (bread_run k mru ∅ 1 Hk Hr) as (i & k1 & E1 & P1).
  { lia. }
  { set_solver. }
  { right. apply (cache_room k mru ∅ [] Hk); [intros b Hb; by destruct (Hcl b)|]. rewrite size_empty. unfold NBUF. cbn. lia. }
  destruct (bread_held k mru ∅ 1 i k1 Hk P1) as (bf & Hbf & D & N & Edt & F & Fd).
  destruct P1 as [Hf1 Hk1 _ _ Hct1 Hdk1 Hd1 _].
  replace ({[i]} ∪ ∅ : gset nat) with ({[i]} : gset nat) in Hk1 by set_solver.
  assert (ready k1) as Hr1 by (by eapply bio_frame_ready).
  destruct (brelse_run k1 mru {[i]} i bf Hk1 Hr1 ltac:(set_solver) Hbf) as (k2 & E2 & [Hf2 (l1 & l2 & _ & Hk2) Hct2 Hdk2 Hd2 _]).
  { right. by rewrite Hdk1, N, Edt. }
  replace ({[i]} ∖ {[i]} : gset nat) with (∅ : gset nat) in Hk2 by set_solver.
  exists k2. split_and!.
  - unfold readsb. krun E1. krun (buf_data_ok k1 i bf Hbf). krun E2. by rewrite Edt, Hct.
  - split_and!; [by eapply bio_frame_ready|by eexists|]. intros b. rewrite Hd2, Hd1. apply Hcl.
  - by transitivity k1.
  - by rewrite Hdk2.
Qed.

(** *** iinit *)

(** What initialising locks does. *)
Record locks_init (k k' : kernel) : Prop := LocksInit {
  li_rest : k' = set_locks (k_locks k') (set_sleeps (k_sleeps k') k);
  li_free : forall lk, lock_free k lk -> lock_free k' lk;
  li_sleep : forall i, get_sleep (SL_buf i) k' = get_sleep (SL_buf i) k
}.

#[export] Instance locks_init_refl : Reflexive locks_init.
Proof. intros k. split; [by destruct k|done|done]. Qed.

#[export] Instance locks_init_trans : Transitive locks_init.
Proof.
  intros k1 k2 k3 [E1 F1 S1] [E2 F2 S2]. split; [rewrite E2 at 1; rewrite E1 at 1; done|auto|]. intros i. by rewrite S2.
Qed.

Lemma locks_init_lock k lk name : locks_init k (put_lock lk (Spinlock 0 name None) k).
Proof.
  split; [by destruct k| |done]. intros lk' [n E]. unfold lock_free, put_lock. cbn.
  destruct (decide (lk' = lk)) as [->|Hn]; [exists name; by rewrite lookup_insert_eq|exists n; by rewrite lookup_insert_ne].
Qed.

Lemma locks_init_sleep k i sl : locks_init k (put_sleep (SL_inode i) sl k).
Proof. split; [by destruct k|done|]. intros j. unfold get_sleep, put_sleep. cbn. by rewrite lookup_insert_ne. Qed.

Lemma init_inode_locks ids k :
  exists k', for_each ids (fun i => initsleeplock (SL_inode i) "inode") k = Ok tt k' /\ locks_init k k'.
Proof.
  revert k. induction ids as [|i ids IH]; intros k; [by exists k|].
  destruct (IH (put_sleep (SL_inode i) (Sleeplock 0 "inode" 0) (put_lock (LK_sleep (SL_inode i)) (Spinlock 0 "sleep lock" None) k)))
    as (k' & E & H). exists k'. split; [exact E|].
  etrans; [apply locks_init_lock|]. etrans; [apply locks_init_sleep|exact H].
Qed.

Lemma idle_init k k' : locks_init k k' -> idle k -> idle k' /\ k_disk k' = k_disk k.
Proof.
  intros [E F S] ([Hc Hl Hp Hr] & [mru [H1 H2 H3 H4 H5 H6 H7 H8]] & Hd).
  assert (k_cpu k' = k_cpu k /\ k_procs k' = k_procs k /\ k_bufs k' = k_bufs k /\ k_disk k' = k_disk k) as (Q1 & Q2 & Q3 & Q4)
    by (rewrite E; done).
  split; [|done]. split_and!.
  - constructor; [unfold calm; by rewrite Q1|auto|by rewrite Q2|by rewrite Q1, Q2].
  - exists mru. constructor; rewrite ?Q3, ?Q4; try done. intros i Hi. rewrite S. by apply H6.
  - intros b. rewrite (dirty_ext k) by done. apply Hd.
Qed.

(** *** The disk after a crash *)

(** The super block puts the log at the blocks [start], …, [start + nlog - 1]; its header lists
    the home blocks [hs] of the last committed transaction. *)
Record logged (d : disk) (start nlog : Z) (hs : list Z) : Prop := Logged {
  lo_size : 1 < disksize d <= 2 ^ 31;
  lo_start : s32 (sb_logstart (superblock_of (disk_block d 1))) = start;
  lo_nlog : s32 (sb_nlog (superblock_of (disk_block d 1))) = nlog;
  lo_fits : 1 < start /\ start + nlog <= disksize d;
  lo_max : (length hs <= 30)%nat /\ Z.of_nat (length hs) < nlog;
  lo_head : head_lists (disk_block d start) hs;
  lo_home : forall b, b ∈ hs -> 0 <= b < disksize d /\ ~ (start <= b < start + nlog);
  lo_nodup : NoDup hs
}.

Lemma logged_ext d d' start nlog hs :
  d_blocks d' = d_blocks d -> disksize d' = disksize d -> logged d start nlog hs -> logged d' start nlog hs.
Proof.
  intros Eb Es [H1 H2 H3 H4 H5 H6 H7 H8]. assert (disk_block d' = disk_block d) as Ed by (unfold disk_block; by rewrite Eb).
  constructor; by rewrite ?Ed, ?Es.
Qed.

(** The file system of such a disk: the transaction is installed, the log empty. *)
Record recovered (d : disk) (start nlog : Z) (hs : list Z) (k : kernel) : Prop := Recovered {
  rc_txn : txn k ∅ [];
  rc_sb : k_sb k = superblock_of (disk_block d 1);
  rc_log : exists bl, k_log k = Log start nlog 0 false ROOTDEV 0 bl;
  rc_empty : head_lists (content k start) [];
  rc_home : forall j b, hs !! j = Some b -> content k b = disk_block d (start + 1 + Z.of_nat j);
  rc_rest : forall b, b ∉ hs -> b <> start -> content k b = disk_block d b
}.

(** What the start of the file system leaves unchanged. *)
Record fs_frame (k k' : kernel) : Prop := FsFrame {
  ff_rest : k' = set_bufs (k_bufs k') (set_disk (k_disk k') (set_sleeps (k_sleeps k') (set_procs (k_procs k')
    (set_log (k_log k') (set_locks (k_locks k') (set_sb (k_sb k') k))))));
  ff_procs : awakened (k_procs k) (k_procs k');
  ff_free : forall lk, lock_free k lk -> lock_free k' lk
}.

Lemma fs_frame_trans k1 k2 k3 : fs_frame k1 k2 -> fs_frame k2 k3 -> fs_frame k1 k3.
Proof.
  intros [E1 A1 F1] [E2 A2 F2]. split; [rewrite E2 at 1; rewrite E1 at 1; done|by etrans|auto].
Qed.

Lemma fs_frame_log k k' : log_frame k k' -> fs_frame k k'.
Proof.
  intros (E & A & _). split; [rewrite E; by destruct k|done|]. intros lk [n Hn]. exists n. by rewrite E.
Qed.

Lemma fs_frame_init k k' : locks_init k k' -> fs_frame k k'.
Proof. intros [E F _]. split; [rewrite E; by destruct k|by rewrite E|done]. Qed.

Lemma fs_frame_bio k k' : bio_frame k k' -> fs_frame k k'.
Proof. intros H. apply fs_frame_log. unfold log_frame. rewrite (bio_frame_log _ _ H). by destruct k. Qed.

Lemma iinit_run k :
  idle k -> 1 < disksize (k_disk k) ->
  exists k', iinit ROOTDEV k = Ok tt k' /\ idle k' /\ fs_frame k k' /\ k_disk k' = k_disk k /\ k_log k' = k_log k /\
    k_sb k' = superblock_of (disk_block (k_disk k) 1).
Proof.
  intros Hid Hd. set (k1 := put_lock LK_icache (Spinlock 0 "icache" None) k).
  destruct (init_inode_locks (upto NINODE) k1) as (k2 & E2 & H2).
  assert (locks_init k k2) as Hli by (etrans; [apply locks_init_lock|exact H2]).
  destruct (idle_init k k2 Hli Hid) as [Hid2 Hd2].
  destruct (readsb_idle k2 Hid2) as (k3 & E3 & Hid3 & Hf3 & Hd3); [by rewrite Hd2|].
  exists (set_sb (superblock_of (disk_block (k_disk k) 1)) k3). split_and!.
  - unfold iinit. unfold initlock at 1. unfold bind at 1, modify at 1. cbn [obind]. fold k1. krun E2. krun E3.
    rewrite Hd2. reflexivity.
  - destruct Hid3 as (Hr & [mru Hk] & Hc). split_and!; [|exists mru; by destruct Hk; split|done].
    apply (ready_env k3); [done|]. by split_and!.
  - apply (fs_frame_trans k k2); [by apply fs_frame_init|]. apply (fs_frame_trans k2 k3); [by apply fs_frame_bio|].
    split; [by destruct k3|done|done].
  - cbn. by rewrite Hd3.
  - cbn. rewrite (bio_frame_log _ _ Hf3), (li_rest _ _ Hli). done.
  - done.
Qed.

Lemma initlog_run k start nlog hs :
  idle k -> logged (k_disk k) start nlog hs -> length (lg_block (k_log k)) = 30%nat ->
  exists k' bl, initlog ROOTDEV k = Ok tt k' /\ idle k' /\ fs_frame k k' /\ length bl = 30%nat /\ k_sb k' = k_sb k /\
    k_log k' = Log start nlog (lg_outstanding (k_log k)) (lg_committing (k_log k)) ROOTDEV 0 bl /\
    k_disk k' = disk_puts (((fun m => (m.2, disk_block (k_disk k) m.1)) <$> log_pairs (start + 1) hs) ++
      [(start, head_data (disk_block (k_disk k) start) [])]) (k_disk k).
Proof.
  intros Hid [Hs Hst Hnl [Hf1 Hf2] [Hm1 Hm2] Hh Hho Hnd] Hlen.
  set (k1 := put_lock LK_log (Spinlock 0 "log" None) k).
  assert (locks_init k k1) as Hli by apply locks_init_lock. destruct (idle_init k k1 Hli Hid) as [Hid1 Hd1].
  destruct (readsb_idle k1 Hid1) as (k2 & E2 & Hid2 & Hf & Hd2); [rewrite Hd1; lia|].
  assert (k_log k2 = k_log k) as El2 by by rewrite (bio_frame_log _ _ Hf).
  set (lg := k_log k) in *. set (lg' := Log start nlog (lg_outstanding lg) (lg_committing lg) ROOTDEV (lg_n lg) (lg_block lg)).
  destruct (idle_log k2 lg' Hid2) as (Hr3 & Hk3 & Hc3).
  destruct (recover_run (set_log lg' k2) start nlog (k_disk k) hs) as (k4 & E4 & Hk4 & Hc4 & Hd4 & Hf4 & bl & Hbl & Hl4); try done; try lia.
  exists k4, bl. split_and!; try done.
  - unfold initlog. change (SIZEOF_LOGHEADER >=? BSIZE) with false. cbv iota. unfold initlock at 1. unfold bind at 1, modify at 1.
    cbn [obind]. fold k1. krun E2. unfold upd_log. unfold bind at 1, modify at 1. cbn [obind].
    rewrite Hd1, Hst, Hnl, El2. exact E4.
  - split_and!; [|done|done]. apply (bio_frame_ready (set_log (k_log k4) (set_log lg' k2))); [by apply ready_log|done].
  - apply (fs_frame_trans k k1); [by apply fs_frame_init|]. apply (fs_frame_trans k1 k2); [by apply fs_frame_bio|].
    apply fs_frame_log. destruct Hf4 as (F4 & A4 & S4). by split.
  - destruct Hf4 as (F4 & _). destruct Hf as (F2 & _). rewrite F4. cbn. rewrite F2. done.
Qed.

(** What the writes of the recovery make of a block. *)
Lemma recovery_writes d start nlog hs b :
  logged d start nlog hs ->
  let d' := disk_puts (((fun m => (m.2, disk_block d m.1)) <$> log_pairs (start + 1) hs) ++ [(start, head_data (disk_block d start) [])]) d in
  disk_block d' start = head_data (disk_block d start) [] /\
  (forall j, hs !! j = Some b -> disk_block d' b = disk_block d (start + 1 + Z.of_nat j)) /\
  (b ∉ hs -> b <> start -> disk_block d' b = disk_block d b).
Proof.
  intros [Hs _ _ [Hf1 Hf2] [Hm1 Hm2] Hh Hho Hnd] d'. subst d'. rewrite !disk_block_puts, !after_writes_app.
  assert (b <> start -> forall c, after_writes [(start, head_data (disk_block d start) [])] c b = c) as Hne.
  { intros Hb c. apply after_writes_other. cbn. by rewrite list_elem_of_singleton. }
  split_and!.
  - unfold after_writes at 1. cbn. by rewrite decide_True.
  - intros j Hj. rewrite Hne by (intros ->; destruct (Hho start) as [_ H]; [by eapply list_elem_of_lookup_2|lia]).
    apply after_writes_in.
    + apply list_elem_of_fmap. exists (start + 1 + Z.of_nat j, b). split; [done|]. by apply log_pairs_lookup.
    + intros y (m & E & Hm)%list_elem_of_fmap. injection E as -> ->. apply log_pairs_inv in Hm as (j' & Hj' & ->).
      by rewrite (NoDup_lookup hs j' j m.2).
  - intros Hni Hb. rewrite Hne by done. apply after_writes_other. rewrite <-list_fmap_compose.
    intros (m & -> & Hm)%list_elem_of_fmap. by apply log_pairs_elem in Hm as [_ Hm].
Qed.

(** iinit and initlog start the file system. *)
Lemma file_system_starts k start nlog hs :
  idle k -> logged (k_disk k) start nlog hs -> k_log k = log0 ->
  exists k', (iinit ROOTDEV ;;; initlog ROOTDEV) k = Ok tt k' /\ fs_frame k k' /\ recovered (k_disk k) start nlog hs k'.
Proof.
  intros Hid Hlo Hl0. pose proof Hlo as [Hs _ _ [Hf1 Hf2] [Hm1 Hm2] _ _ _].
  destruct (iinit_run k Hid) as (k1 & E1 & Hid1 & Hf & Hd1 & Hl1 & Hsb); [lia|]. rewrite <- Hd1 in Hlo.
  destruct (initlog_run k1 start nlog hs Hid1 Hlo) as (k2 & bl & E2 & Hid2 & Hff & Hbl & Hsb2 & Hl2 & Hd2); [by rewrite Hl1, Hl0|].
  rewrite Hl1, Hl0 in Hl2. cbn [log0 lg_outstanding lg_committing] in Hl2.
  exists k2. split; [krun E1; exact E2|]. split; [by apply (fs_frame_trans k k1)|]. rewrite Hd1 in Hlo, Hd2.
  assert (length (disk_block (k_disk k) start) = 512%nat) as Hblk.
  { destruct Hid as (_ & [mru Hk] & _). unfold disk_block. destruct (d_blocks (k_disk k) !! start) eqn:E; [by apply (bo_disk _ _ _ Hk start)|done]. }
  pose proof Hid2 as (Hr2 & [mru Hk2] & Hc2). constructor.
  - constructor; try done.
    + exists mru, ∅. split; [done|]. intros i. split; [by intros []%not_elem_of_empty|]. intros [b Hb]. by rewrite lookup_empty in Hb.
    + rewrite Hd2, disksize_puts, Hl2. constructor; cbn; try done; try lia. intros b Hb. by apply elem_of_nil in Hb.
    + constructor.
    + intros b. split; [intros H; by destruct (Hc2 b)|by intros ?%elem_of_nil].
    + intros b _. by apply idle_content.
  - by rewrite Hsb2.
  - by exists bl.
  - rewrite (idle_content k2) by done. rewrite Hd2. destruct (recovery_writes _ _ _ _ start Hlo) as [-> _].
    apply head_data_lists; [done|cbn; lia|]. by intros b ?%elem_of_nil.
  - intros j b Hj. rewrite (idle_content k2) by done. rewrite Hd2. by apply (recovery_writes _ _ _ _ b Hlo).
  - intros b Hn Hb. rewrite (idle_content k2) by done. rewrite Hd2. by apply (recovery_writes _ _ _ _ b Hlo).
Qed.

End FileSystem.

(** ** From main to the first process *)

Section Whole.
  Context {patience_bound : Patience} {driver : DiskDriver} {driver_ok : DiskOk driver} {image : Image} {machine : Machine}.

Lemma pages_nodup p n : NoDup (pages p n).
Proof. unfold pages. apply NoDup_fmap_2; [|apply NoDup_seq]. intros i j E. unfold PGSIZE in E. lia. Qed.

Lemma tss_mem_ld8 m local stk x : x < local + 1028 \/ local + 1036 <= x -> ld8 (tss_mem m local stk) x = ld8 m x.
Proof. intros H. unfold tss_mem, st32. by rewrite !ld8_st_bytes, !length_le_split, !decide_False by lia. Qed.

Lemma tss_mem_wf m local stk : mem_wf m -> mem_wf (tss_mem m local stk).
Proof. intros H. unfold tss_mem, st32. by apply st_bytes_wf, st_bytes_wf. Qed.

Lemma tss_mem_rsp0 m local stk : in_u64 stk ->
  ld32 (tss_mem m local stk) (local + 1024 + 4 * 1) = stk `mod` 2 ^ 32 /\
  ld32 (tss_mem m local stk) (local + 1024 + 4 * 2) = stk / 2 ^ 32.
Proof.
  intros Hs. unfold tss_mem. rewrite ld32_st32_ne by lia. rewrite !ld32_st32_same, Z.shiftr_div_pow2 by lia.
  unfold in_u64 in Hs. unfold u32. rewrite !Z.mod_mod by lia. split; [done|].
  rewrite Z.mod_small; [done|]. Z.to_euclidean_division_equations; lia.
Qed.

(** Process 0 runs in the kernel, about to return to its code. *)
Record first_runs (kend : Z) (m : mem) (used : list Z) (ks pm fr : Z) (tabs : gmap (list Z) Z) (l : list Z)
    (k : kernel) : Prop := FirstRuns {
  fr_pages : used ++ [ks] ++ owned tabs ++ l ≡ₚ pool kend;
  fr_space : vm_inv k tabs [ks] l;
  fr_root : tabs !! [] = Some pm /\ kernel_map (k_mem k) pm (k_kpdpt k);
  fr_cpu : c_proc (k_cpu k) = Some 0%nat /\ c_cr3 (k_cpu k) = v2p pm /\ c_if (k_cpu k) = true /\ c_ncli (k_cpu k) = 0;
  fr_proc : k_procs k !! 0%nat = Some (with_state RUNNING (first_proc ks pm));
  fr_text : forall i, 0 <= i < PGSIZE ->
    uaddr (k_mem k) pm (PGSIZE + i) = Some (fr + i) /\
    ld8 (k_mem k) (fr + i) = if decide (i < im_initcode_size) then ld8 m (im_initcode + i) else 0;
  fr_regs : forall j, 0 <= j < 22 -> ld64 (k_mem k) (stack_tf ks + 8 * j) = entry_reg (8 * j);
  fr_ret : ld64 (k_mem k) (stack_tf ks - 8) = u64 im_trapret;
  fr_tss : let tss := c_local (k_cpu k) + 1024 in
    ld32 (k_mem k) (tss + 4 * 1) = (ks + KSTACKSIZE) `mod` 2 ^ 32 /\
    ld32 (k_mem k) (tss + 4 * 2) = (ks + KSTACKSIZE) / 2 ^ 32
}.

(** The store of the scheduler spares the pages of the process and the free ones. *)
Lemma tss_written kend m d idt used ks pm fr tabs l k stk :
  started kend m d idt used ks pm fr tabs l k ->
  let m' := tss_mem (k_mem k) (c_local (k_cpu k)) stk in
  vm_inv (set_mem m' k) tabs [ks] l /\ (forall va, leaf m' tabs (path va) = leaf (k_mem k) tabs (path va)) /\
  (forall v x, v ∈ ks :: owned tabs -> v <= x < v + PGSIZE -> ld8 m' x = ld8 (k_mem k) x) /\
  kernel_map m' pm (k_kpdpt k).
Proof.
  intros Hst m'. pose proof (st_space _ _ _ _ _ _ _ _ _ _ _ Hst) as Hi. set (local := c_local (k_cpu k)) in *.
  pose proof (op_pages _ _ _ _ _ _ (st_own _ _ _ _ _ _ _ _ _ _ _ Hst)) as Hpg. rewrite !Forall_cons in Hpg. destruct Hpg as (_ & Hpd & _ & Hlo & _).
  assert (NoDup (local :: ks :: owned tabs ++ l)) as Hnd.
  { pose proof (st_owned _ _ _ _ _ _ _ _ _ _ _ Hst) as Hu. rewrite !Forall_cons in Hu. destruct Hu as (_ & _ & _ & Hu & _).
    assert (NoDup (used ++ [ks] ++ owned tabs ++ l)) as Hn.
    { rewrite (st_pages _ _ _ _ _ _ _ _ _ _ _ Hst). unfold pool. rewrite reverse_Permutation. apply pages_nodup. }
    apply NoDup_app in Hn as (_ & Hd & Hn). apply NoDup_cons. split; [by apply Hd|done]. }
  assert (within local (k_mem k) m') as Hw.
  { intros x Hx. apply tss_mem_ld8. unfold off, PGSIZE in Hx. lia. }
  destruct (held_write k tabs [local; ks] l local m') as [Hi' Hl].
  { destruct Hi as [A W P H N]. constructor; try done. constructor; done. }
  { set_solver. }
  { done. }
  { apply tss_mem_wf, Hi. }
  assert (forall v x, v ∈ ks :: owned tabs -> v <= x < v + PGSIZE -> ld8 m' x = ld8 (k_mem k) x) as Hkeep.
  { intros v x Hv Hx. apply Hw. apply (off_page k v); [|done| |done].
    - apply elem_of_cons in Hv as [->|Hv]; [exact (Forall_inv (vi_held _ _ _ _ Hi))|].
      apply elem_of_owned in Hv as [p Hp]. by apply (po_page _ _ (vi_pt _ _ _ _ Hi) p).
    - intros ->. apply NoDup_cons in Hnd as [Hnd _]. apply Hnd. rewrite app_comm_cons. apply elem_of_app. by left. }
  split_and!; [|done|done|].
  - destruct Hi' as [A W P H N]. constructor; try done; [exact (Forall_inv_tail H)|exact (NoDup_cons_1_2 _ _ N)].
  - destruct (st_kernel _ _ _ _ _ _ _ _ _ _ _ Hst) as (K1 & K2 & K3). split_and!; [rewrite <- K1|rewrite <- K2|rewrite <- K3];
      apply ld64_ext; intros x Hx.
    + apply (Hkeep pm); [apply elem_of_cons; right; apply elem_of_owned; exists []; apply Hst|].
      change (PMX KERNBASE) with 256 in Hx. unfold PGSIZE. lia.
    + apply tss_mem_ld8. destruct Hpd as (_ & M1 & _), Hlo as (_ & M2 & _). unfold PGSIZE in M1, M2. Z.to_euclidean_division_equations; lia.
    + apply tss_mem_ld8. destruct Hpd as (_ & M1 & _), Hlo as (_ & M2 & _). unfold PGSIZE in M1, M2. Z.to_euclidean_division_equations; lia.
Qed.

(** Where forkret has released the lock of the process table. *)
Definition returned (ks pm : Z) (k : kernel) : kernel := set_first false (settle (running_first ks pm k)).

Lemma returned_idle kend m d idt used ks pm fr tabs l k :
  started kend m d idt used ks pm fr tabs l k -> idle (returned ks pm k).
Proof.
  intros Hst. pose proof (st_procs _ _ _ _ _ _ _ _ _ _ _ Hst) as Hp.
  assert (length (k_procs k) = NPROC) as Hlen by (rewrite Hp, length_insert, length_replicate; reflexivity).
  assert (0 < NPROC)%nat as Hn by (unfold NPROC; lia). split_and!.
  - constructor.
    + by split.
    + intros lk Hlk. exact (proj2 (st_locks _ _ _ _ _ _ _ _ _ _ _ Hst) lk Hlk).
    + unfold returned, running_first. cbn. by rewrite length_insert.
    + exists 0%nat, (with_state RUNNING (first_proc ks pm)). split; [done|]. split; [|done].
      unfold returned, running_first. cbn [k_procs set_first settle set_cpu set_procs]. apply list_lookup_insert_eq. by rewrite Hlen.
  - exists (rev (upto NBUF)). apply (bcache_ok_ext k); [done..|apply Hst].
  - intros b. rewrite (dirty_ext k) by done. by apply (st_clean _ _ _ _ _ _ _ _ _ _ _ Hst).
Qed.

Lemma returned_runs kend m d idt used ks pm fr tabs l k k' :
  started kend m d idt used ks pm fr tabs l k -> fs_frame (returned ks pm k) k' ->
  first_runs kend m used ks pm fr tabs l k'.
Proof.
  intros Hst [Ef Ap Fr]. destruct (tss_written kend m d idt used ks pm fr tabs l k (u64 (ks + KSTACKSIZE)) Hst) as (Hi & Hl & Hk & Hm).
  pose proof (vi_held _ _ _ _ Hi) as Hks. apply Forall_inv in Hks. pose proof (page_ok_range _ _ Hks) as Hr.
  assert (in_u64 (ks + KSTACKSIZE)) as Hu by (unfold in_u64, KSTACKSIZE, KERNBASE, PHYSTOP in *; lia).
  rewrite (u64_small _ Hu) in *.
  set (m' := tss_mem (k_mem k) (c_local (k_cpu k)) (ks + KSTACKSIZE)) in *.
  assert (k_mem k' = m' /\ k_cpu k' = Cpu (c_id (k_cpu k)) 0 true true (Some 0%nat) (c_local (k_cpu k)) (v2p pm) /\
    (k_trace k', k_kmem k', k_kpdpt k') = (k_trace k, k_kmem k, k_kpdpt k)) as (Em & Ec & Eg).
  { rewrite Ef. unfold returned, running_first. cbn. by rewrite (u64_small _ Hu). }
  injection Eg as Et Ekm Epd.
  assert (k_procs k' !! 0%nat = Some (with_state RUNNING (first_proc ks pm))) as Hp0.
  { eapply awakened_running; [exact Ap| |done]. unfold returned, running_first. cbn [k_procs set_first settle set_cpu set_procs].
    apply list_lookup_insert_eq. rewrite (st_procs _ _ _ _ _ _ _ _ _ _ _ Hst), length_insert, length_replicate. unfold NPROC. lia. }
  pose proof (st_frame _ _ _ _ _ _ _ _ _ _ _ Hst) as [Hfr (ent & Hent)].
  assert (vm_inv k' tabs [ks] l) as Hi'.
  { apply (vm_inv_move (set_mem m' k)); [by rewrite Et, Ekm, Em|exact Fr| | |done].
    - rewrite Ec. split; cbn; lia.
    - rewrite Ec. intros i [= <-]. eexists. split; [exact Hp0|]. apply elem_of_app. right. apply list_elem_of_here. }
  constructor; rewrite ?Em, ?Ec, ?Epd; try done.
  - apply Hst.
  - split; [apply Hst|done].
  - intros i Hx. split.
    + rewrite <- Em. apply (upage_uaddr k' tabs); [apply Hi'|apply Hst| | |done].
      * split; [done|]. exists ent. by rewrite Em, Hl.
      * by apply (po_page _ _ (vi_pt _ _ _ _ Hi') (path PGSIZE)).
    + rewrite (Hk fr) by (lia || apply elem_of_cons; right; apply elem_of_owned; by eexists).
      by apply (st_text _ _ _ _ _ _ _ _ _ _ _ Hst).
  - intros j Hj. rewrite <- (st_regs _ _ _ _ _ _ _ _ _ _ _ Hst j Hj). apply ld64_ext. intros x Hx.
    apply (Hk ks); [apply list_elem_of_here|]. unfold stack_tf, KSTACKSIZE, SIZEOF_TRAPFRAME, PGSIZE in *. lia.
  - rewrite <- (proj2 (st_context _ _ _ _ _ _ _ _ _ _ _ Hst)). apply ld64_ext. intros x Hx.
    apply (Hk ks); [apply list_elem_of_here|]. unfold stack_tf, KSTACKSIZE, SIZEOF_TRAPFRAME, PGSIZE in *. lia.
  - by apply tss_mem_rsp0.
Qed.


End Whole.

(** *** A disk with a transaction in its log

    The machine of [kernel_starts_witness] with a disk whose log holds a new block 100. *)

Definition crashed : disk :=
  Disk (<[1 := concat (le_split 4 <$> [1000; 941; 200; 30; 2; 32; 58]) ++ replicate 484 0]>
    (<[2 := concat (le_split 4 <$> [1; 100]) ++ replicate 504 0]> {[3 := replicate 512 7]})) FSSIZE true None [].

Lemma crashed_blocks b data : d_blocks crashed !! b = Some data -> length data = 512%nat.
Proof.
  cbn [d_blocks crashed]. rewrite !lookup_insert, lookup_singleton. repeat case_decide; intros E; try discriminate E;
    assert (data = default [] (Some data)) as -> by reflexivity; rewrite <- E; vm_compute; reflexivity.
Qed.

Lemma crashed_logged : logged crashed 2 30 [100].
Proof.
  constructor.
  - vm_compute. split; congruence.
  - vm_compute. reflexivity.
  - vm_compute. reflexivity.
  - vm_compute. split; congruence.
  - vm_compute. split; [lia|congruence].
  - split; [vm_compute; reflexivity|]. intros [|j] b H; [injection H as <-; vm_compute; reflexivity|destruct j; discriminate H].
  - intros b ->%list_elem_of_singleton. vm_compute. split; [split; congruence|]. intros [_ H]. discriminate H.
  - apply NoDup_singleton.
Qed.

